(* ===== verification/_CoqProject ===== *)
-Q . S2P
Prelude.v
Strings.v
Double.v
Bson.v
MongoQuery.v
Compound.v
Ngsi.v
AttrUpdate.v
Location.v
EntityDoc.v
Registrations.v
FilterParse.v
FilterMatch.v
FilterQuery.v
SubCache.v
Geo.v
Queries.v
SubSync.v
Notify.v
EntityUpdate.v
UpdateContext.v
UpdateNotify.v
QueryContext.v
Duration.v
Subscriptions.v
TriggerDb.v
Registering.v
Json.v
JsonText.v
JsonValue.v
JsonEntity.v
JsonSubscription.v
Rest.v
JsonRequest.v
RenderV1.v
Alarm.v
NotifyQueue.v
ConnPool.v
Forward.v
EntityRequests.v
QueryForward.v
EntityQueries.v
PostedShown.v
EntityTypes.v
ServiceTable.v
Services.v
JsonParseV1.v
JsonContextV1.v
JsonForwardV1.v
JsonQueryV1.v
