(* ===== verification/Prelude.v ===== *)
(** * Orion Context Broker: a verification library

    The Orion context broker (src/src/lib/) keeps context entities in mongo, answers
    queries on them and notifies subscribers when they change.  This library models the
    path of an update from the request to the notifications that leave the queue, the path
    of a query from its parameters to the response, and the shared state that threads work
    on while doing so.

    ** Parts and how they interact

    An update request (mongoBackend/mongoUpdateContext.cpp) is checked and looked up in the
    entities collection, element by element; each entity found is updated attribute by
    attribute, its location is followed, and one update document is sent to the database
    (mongoBackend/MongoCommonUpdate.cpp, location.cpp).  The subscription cache
    (cache/subCache.cpp) tells which subscriptions the modified attributes touch; each that
    is not blocked by throttling and whose filter (rest/StringFilter.cpp) accepts the entity
    is notified through the queue of ngsiNotify/.  Attributes that are not found get the
    provider of a registration.  A query (mongoBackend/mongoQueryContext.cpp) becomes a
    database query with its filters, areas and service paths, and its answer is made of
    what the database and the registrations yield.  The cache is filled from the databases
    and synchronized with them (mongoBackend/mongoSubCache.cpp).  The database is reached
    through a pool of connections (mongoBackend/mongoConnectionPool.cpp); errors are kept
    by the alarm manager (alarmMgr/AlarmManager.cpp).  Text that comes from requests goes
    through the helpers of common/string.cpp and parse/forbiddenChars.cpp.

    - [Prelude] (this file): the [cpp] monad of calls that may run into undefined
      behaviour or loop, C string functions, machine integers, lemmas, the [orion] hints.
    - [Strings]: common/string.cpp, common/wsStrip.cpp, parse/forbiddenChars.cpp.
    - [Double]: IEEE doubles, strtod; str2double, atoF, string2coords, orderCoordsForBox.
    - [Bson]: documents, the getters of mongoBackend/safeMongo.cpp, the encoding of names.
    - [MongoQuery]: no code of the broker: what the documentation of MongoDB says that the
      queries it sends select, as an evaluator over documents, with the engine of regular
      expressions and of $where as laws.  [TriggerDb] and [Registering] evaluate with it the
      query texts that the code builds.
    - [Compound], [Ngsi]: the data of parse/CompoundValueNode.h and ngsi/: attributes,
      metadata, entities, notification conditions, and compound values as BSON.
    - [AttrUpdate]: one attribute merged into a stored one, appended, deleted
      (mergeAttrInfo, updateAttribute, appendAttribute, deleteAttribute).
    - [Location]: mongoBackend/location.cpp.
    - [EntityDoc]: an entity as the document that createEntity inserts and that
      ngsi/ContextElementResponse.cpp reads.
    - [Registrations]: registrations read from their documents, and the lookup of providers.
    - [FilterParse]: StringFilterItem and StringFilter::parse.
    - [FilterMatch]: StringFilter::match, mongoFilterPopulate, fill, clone.
    - [FilterQuery]: the two evaluations of a filter compared; mongo is an interface
      there (the class [FilterQuery.MongoQuery] of laws taken from its documentation), with an
      instance.
    - [SubCache]: the linked list of cached subscriptions, as a heap of nodes ([SubCache]:
      heap, head, tail, counters).  [cache_repr c ls] says that the list of the cache is
      [ls]: every operation is proved against it.
    - [Geo]: geographical queries (orionTypes/areas.cpp, Scope::fill, processAreaScopeV2).
    - [Queries]: the service path condition of queries (fillQueryServicePath).
    - [SubSync]: mongoSubCache.cpp, subCacheRefresh, subCacheSync, database names.
    - [Notify]: addTriggeredSubscriptions_withCache, processSubscriptions,
      processOnChangeConditionForUpdateContext, updateAttrInNotifyCer,
      deleteAttrInNotifyCer; mongoBackend/TriggeredSubscription.cpp.
    - [EntityUpdate]: processContextAttributeVector and what it calls, the update document.
    - [UpdateContext]: mongoUpdateContext, processContextElement, updateEntity, against the
      classes [EntityStore] (the collection) and [Subscriptions].
    - [UpdateNotify]: the cache and the notifications as an instance of [Subscriptions],
      and what an update notifies.
    - [QueryContext]: mongoQueryContext, entitiesQuery, providers added to an answer.
    - [Duration]: the ISO 8601 durations and dates of common/globals.cpp.
    - [Subscriptions]: the requests on subscriptions (mongoSubscribeContext,
      mongoUpdateContextSubscription, mongoUnsubscribeContext, mongoGetSubscriptions): the
      documents, the cache beside them ([SubState]) and the initial notification.
    - [TriggerDb]: addTriggeredSubscriptions_noCache, and the meaning of its query.
    - [Registering]: registrations of providers, the subscriptions to them and their
      notification, discovery ([RegState]: the two collections, what was sent).
    - [Json], [JsonEntity]: entities as JSON in version 2, rendered, checked and read:
      structured values (parse/CompoundValueNode.cpp), metadata, attributes and entities
      (ngsi/, apiTypesV2/), and the readers of jsonParseV2/.
    - [JsonText]: common/JsonHelper.cpp, and a reference reader of JSON, against which the
      texts that the code prints are read back.
    - [JsonValue]: the value of a JSON text by that reader, and the values ([exact]) that the
      printing of the broker, without escapes and with six digits, leaves as they are.
    - [JsonSubscription]: subscriptions as JSON in version 2 (apiTypesV2/Subscription.cpp,
      parseSubscription.cpp), their checks, and the four service routines around them.
    - [JsonRequest]: the other payloads of version 2 (jsonRequestTreat, batch updates and
      queries, scopes, attribute values, texts).
    - [RenderV1]: what version 1 prints (common/tag.cpp and the render methods of ngsi/ and
      ngsi10/): update requests and responses, query responses, notifications.
    - [Forward]: serviceRoutines/postUpdateContext.cpp: the update, the attributes that
      other brokers provide, the messages to them, the merged response.
    - [JsonParseV1]: jsonParse/jsonParse.cpp: the walk of a payload of version 1 with a table of
      functions, structured values (eatCompound, compoundValueEnd), and jsonTreat.
    - [JsonContextV1]: the tables of the requests and responses with context elements (updates,
      their answers, answers to queries, notifications, requests on one element) and the
      checks of updates and answers.
    - [JsonQueryV1]: the tables of the requests with entities, attributes and restrictions
      (queries, discovery, subscriptions).
    - [JsonForwardV1]: [RenderV1], [JsonParseV1] and [Forward] composed: messages from broker to
      broker.
    - [EntityRequests]: the routines of serviceRoutinesV2/ that create, change and delete
      entities, alone or in a batch, from the payload to the reply.
    - [QueryForward]: serviceRoutines/postQueryContext.cpp: the query, the parts of it that
      other brokers provide, the requests to them, the merged answer.
    - [EntityQueries]: the routines of serviceRoutinesV2/ that show entities and attributes,
      and how an answer becomes what is rendered (apiTypesV2/ fill methods).
    - [PostedShown]: the parts composed: an entity that is created by a request, stored,
      queried, printed and read back.
    - [EntityTypes]: mongoBackend/mongoQueryTypes.cpp and the routines around it: the types
      of the entities with their attributes and counts.
    - [ServiceTable], [Services]: rest/RestService.cpp and the table of contextBroker.cpp:
      how a request finds its routine, its checks, the routine for a wrong verb, and
      logTraceTreat, the routine that replies by itself.
    - [Alarm]: AlarmManager, its methods one at a time and as steps of several threads.
    - [NotifyQueue]: the bounded queue, its workers and counters as steps of threads
      (common/SyncQOverflow.h, ngsiNotify/).
    - [ConnPool]: mongoPoolConnectionGet and mongoPoolConnectionRelease by several threads.
    - [Rest]: rest/rest.cpp from the callbacks of libmicrohttpd to the call of the service:
      URI parameters, headers, payload, service paths, and the replies to a request.

    ** State and operations

    A C++ object is a Record with the members of the class, and a method is a function
    that returns the object it leaves.  What the code shares through pointers is a heap
    ([SubCache]).  A method that returns false with an error text returns [inl] the text.
    A member that a constructor leaves unassigned is an argument (the names start with
    mem).  Undefined behaviour, and the exceptions the driver throws on malformed
    documents, are the result [UB] of the [cpp] monad, with its reason.  Integers wrap at
    their width ([int32], [int64]) where the code counts.  Loops over the list of the cache
    run with fuel and answer [Looping] when it is spent; the length of the list is enough,
    and the theorems take any fuel at least that.  Threads are step relations whose steps
    are what a semaphore or a mutex makes atomic, or one change of a counter.

    Code outside the repository is a parameter where it matters: regcomp and regexec of the
    C library, the clock, the database and its fromjson, strptime and timegm, the result of
    sending with libcurl.  strtod, atoi, strcmp and the string functions of C are modelled.

    ** What the theorems show

    - Filters: a printed filter parses back to itself, what parse accepts is well formed,
      match is the conjunction of the items up to the first pattern, the comparison
      operators mean what they say on comparable types, memory and mongo evaluate a filter
      alike except where [sf_match_diverges] says, copies are faithful.
    - Cache: matching selects exactly the subscriptions that cover the update; insertion,
      removal, lookup and destruction do to the list what they should; synchronizing
      rebuilds the cache and writes counts back; where it loops for ever.
    - Updates: what merging does to value, type, metadata and dates; the attributes written,
      counted as modified and marked are one sub-sequence of the request; what a created
      attribute reads back as; where the location of an entity goes; which elements and
      entities are refused and with which code; what the response to an entity is.
    - Notifications: who is triggered, who is notified and with what, what is counted, and
      the same for an update of an entity as a whole ([updateEntity_notifies]).
    - Subscriptions: the cached item and the document of a subscription say the same after
      it is created or updated; removal; what reads back; how often it has been sent; that
      the query sent to the database, evaluated on stored subscriptions, selects those that
      an update of an entity triggers.
    - Registrations: what is stored of one is discovered again, whom it notifies and with
      what, with the queries for both evaluated on the stored documents, and that counts are the numbers of notifications sent in every reachable state.
    - Queries: what the answer holds and in which order, that the providers of
      registrations are complete in it, which areas and service paths select what; the
      geometry that the texts of a geographical query become.
    - JSON: entities whose texts need no escape and whose numbers have six digits are printed
      as a text that is read back as what they were, by the grammar of JSON and the parser of
      the broker, and what becomes of others; what check accepts, and that it prints no double
      quote inside a text; where commas, quotes and null pointers go wrong.
    - Version 1 and forwarding: rendering always ends, and what it prints is JSON that reads
      as the data; every attribute of an update is answered or goes to exactly one message
      to its provider, none is lost, and the message reads as the attributes it is for.
    - Requests on entities: creating and deleting an entity do to the database, to the
      subscriptions and to the reply what a short specification says, on every answer of the
      database; a batch reads back the entities that a query shows; which failures of the
      other routines are answered as successes.
    - Whole path: what a POST of an entity stores is what a GET of it shows, and its text
      reads back as the entity that was posted, for the texts and numbers just named.
    - Types: the types that are listed with their counts, attributes and pages, and which are
      left out.
    - Forwarded queries: which entities and attributes are asked of which provider, and what
      the merged answer holds; what a provider that answers an error does to it.
    - Front end: the parameters and service paths of a request that is served are as the rest
      relies on; when it is served and how many replies are sent (two, where a routine
      replies itself); where the payload fits; which
      routine a URL and a verb select, for which URLs the search reads out of range of the
      components of a row, and that the Allow header names exactly the verbs served.
    - Between brokers: an update that is forwarded arrives as it was sent, and so does its
      answer and that of a query; what a parse of version 1 accepts has no forbidden
      character; and a payload that makes it follow a null pointer.
    - Threads: alarms raised minus released are the active ones, no connection is given to
      two threads, every notification the queue accepts is popped, in order, and handled by
      one worker once, which counts it as sent, failed or simulated.
    - Text: URLs, coordinates, georel parameters: round trips, bounds, and the inputs on
      which the code reads or writes out of range.

    ** Not modelled

    Log lines, statistics and timing; the responses of version 1 other than those of updates,
    queries and notifications, and the routines of version 1 that turn a URL into such a
    request; the checks of the queries and subscriptions of version 1, its registrations;
    HTTP (libmicrohttpd, libcurl: what is sent and received is an argument), read_json of
    boost (a parameter with its documented conversion) and the mongo driver; start-up and the
    command line. *)

From Stdlib Require Export Ascii ZArith Lia.
From stdpp Require Export base tactics list numbers gmap strings pretty.

(** ** Notations and scopes *)

Declare Scope orion_scope.
Delimit Scope orion_scope with orion.

(** [b ?? c] reads as the byte comparison of the C++ code. *)
Infix "=c" := Ascii.eqb (at level 70, no associativity) : orion_scope.
Infix "=s" := String.eqb (at level 70, no associativity) : orion_scope.

#[export] Set Warnings "-notation-overridden".
#[export] Set Warnings "-clear-no-such-hyp".
#[export] Set Warnings "-register-all".
Open Scope orion_scope.

Create HintDb orion.
Create Rewrite HintDb orion.

(** ** Results of C++ code

    A call either returns a value or runs into undefined behaviour (an out of
    range access, a read before the start of a buffer, a freed object, ...).  A loop
    that is run with fuel may also still be looping when the fuel is spent. *)
Inductive cpp (A : Type) : Type :=
  | Ret (a : A)
  | UB (why : string)
  | Looping.
Arguments Ret {A} a.
Arguments UB {A} why.
Arguments Looping {A}.

#[export] Instance cpp_ret : MRet cpp := fun A a => Ret a.
#[export] Instance cpp_bind : MBind cpp := fun A B f m =>
  match m with Ret a => f a | UB w => UB w | Looping => Looping end.
#[export] Instance cpp_fmap : FMap cpp := fun A B f m =>
  match m with Ret a => Ret (f a) | UB w => UB w | Looping => Looping end.

(** The code returns: no undefined behaviour is met. *)
Definition defined {A} (m : cpp A) : Prop := exists a, m = Ret a.

Lemma defined_ret {A} (a : A) : defined (Ret a).
Proof. by exists a. Qed.
#[export] Hint Resolve defined_ret : orion.

(** ** Machine integers *)

Definition wrap (w z : Z) : Z := (z + 2 ^ (w - 1)) mod 2 ^ w - 2 ^ (w - 1).
Definition int32 : Z -> Z := wrap 32.
Definition int64 : Z -> Z := wrap 64.

Definition int32_max : Z := 2147483647.
Definition int32_min : Z := -2147483648.
Definition int64_max : Z := 9223372036854775807.
Definition int64_min : Z := -9223372036854775808.

Lemma wrap_small w z : (0 < w)%Z ->
  (- 2 ^ (w - 1) <= z < 2 ^ (w - 1))%Z -> wrap w z = z.
Proof.
  intros Hw Hz. unfold wrap.
  assert (2 ^ w = 2 * 2 ^ (w - 1))%Z as ->.
  { rewrite <- Z.pow_succ_r by lia. f_equal. lia. }
  rewrite Z.mod_small; lia.
Qed.

Lemma int32_small z : (int32_min <= z <= int32_max)%Z -> int32 z = z.
Proof. unfold int32_min, int32_max. intros. apply wrap_small; lia. Qed.

Lemma int64_small z : (int64_min <= z <= int64_max)%Z -> int64 z = z.
Proof. unfold int64_min, int64_max. intros. apply wrap_small; lia. Qed.

Lemma wrap_bounds w z : (0 < w)%Z ->
  (- 2 ^ (w - 1) <= wrap w z < 2 ^ (w - 1))%Z.
Proof.
  intros Hw. unfold wrap.
  assert (2 ^ w = 2 * 2 ^ (w - 1))%Z as ->.
  { rewrite <- Z.pow_succ_r by lia. f_equal. lia. }
  pose proof (Z.mod_pos_bound (z + 2 ^ (w - 1)) (2 * 2 ^ (w - 1))) as H.
  pose proof (Z.pow_pos_nonneg 2 (w - 1)). lia.
Qed.

Lemma int32_bounds z : (int32_min <= int32 z <= int32_max)%Z.
Proof. pose proof (wrap_bounds 32 z). unfold int32, int32_min, int32_max. lia. Qed.
#[export] Hint Resolve int32_bounds : orion.

(** ** Characters of the C locale *)

Definition NUL : ascii := "000"%char.
Definition SQUOTE : ascii := "'"%char.

Definition code (c : ascii) : N := N_of_ascii c.
Definition in_range (lo hi c : ascii) : bool :=
  ((code lo <=? code c) && (code c <=? code hi))%N.

Definition isdigit (c : ascii) : bool := in_range "0" "9" c.
Definition isupper (c : ascii) : bool := in_range "A" "Z" c.
Definition islower (c : ascii) : bool := in_range "a" "z" c.
Definition isalnum (c : ascii) : bool := isdigit c || isupper c || islower c.
Definition isxdigit (c : ascii) : bool :=
  isdigit c || in_range "A" "F" c || in_range "a" "f" c.
Definition isspace (c : ascii) : bool :=
  (c =c " "%char) || in_range "009" "013" c.

Definition tolower (c : ascii) : ascii :=
  if isupper c then ascii_of_N (code c + 32) else c.

Definition digit_val (c : ascii) : Z := Z.of_N (code c) - 48.

(** ** C strings: the functions of <string.h> the code uses *)

(** The C string a buffer holds: everything before the first NUL. *)
Fixpoint c_str (s : string) : string :=
  match s with
  | "" => ""
  | String c r => if c =c NUL then "" else String c (c_str r)
  end.

Fixpoint str_all (p : ascii -> bool) (s : string) : bool :=
  match s with "" => true | String c r => p c && str_all p r end.

Definition str_any (p : ascii -> bool) (s : string) : bool :=
  negb (str_all (fun c => negb (p c)) s).

(** strspn: the longest prefix of characters satisfying [p], and the rest. *)
Fixpoint str_span (p : ascii -> bool) (s : string) : string * string :=
  match s with
  | "" => ("", "")
  | String c r =>
      if p c then let '(a, b) := str_span p r in (String c a, b)
      else ("", s)
  end.

Definition str_drop_while (p : ascii -> bool) (s : string) : string :=
  (str_span p s).2.

Fixpoint str_rstrip (p : ascii -> bool) (s : string) : string :=
  match s with
  | "" => ""
  | String c r =>
      match str_rstrip p r with
      | "" => if p c then "" else String c ""
      | r' => String c r'
      end
  end.

(** strchr: what comes before the first [c] and what comes after it. *)
Fixpoint find_char (c : ascii) (s : string) : option (string * string) :=
  match s with
  | "" => None
  | String d r =>
      if d =c c then Some ("", r)
      else match find_char c r with
           | Some (a, b) => Some (String d a, b)
           | None => None
           end
  end.

(** strstr, for a non-empty needle: what comes before and after it. *)
Fixpoint find_str (pat s : string) : option (string * string) :=
  if String.prefix pat s then Some ("", String.substring (String.length pat) (String.length s) s)
  else match s with
       | "" => None
       | String d r =>
           match find_str pat r with
           | Some (a, b) => Some (String d a, b)
           | None => None
           end
       end.

Definition str_contains (pat s : string) : bool :=
  match find_str pat s with Some _ => true | None => false end.

Fixpoint last_char (s : string) : option ascii :=
  match s with
  | "" => None
  | String c "" => Some c
  | String _ r => last_char r
  end.

Fixpoint but_last (s : string) : string :=
  match s with
  | "" => ""
  | String c "" => ""
  | String c r => String c (but_last r)
  end.

Fixpoint str_map (f : ascii -> ascii) (s : string) : string :=
  match s with "" => "" | String c r => String (f c) (str_map f r) end.

Fixpoint str_take (n : nat) (s : string) : string :=
  match n, s with
  | S n, String c r => String c (str_take n r)
  | _, _ => ""
  end.

Definition strcasecmp_eq (s t : string) : bool :=
  str_map tolower s =s str_map tolower t.

(** The sign of strcmp: bytes are compared as unsigned char. *)
Definition strcmp (s t : string) : comparison := String.compare s t.

(** strncmp(s, t, n) == 0 *)
Definition strncmp_eq (s t : string) (n : nat) : bool := str_take n s =s str_take n t.

(** Tokens separated by a character, empty ones included (never an empty list). *)
Fixpoint split_on (d : ascii) (s : string) : list string :=
  match s with
  | "" => [""]
  | String c r =>
      if c =c d then "" :: split_on d r
      else match split_on d r with
           | t :: ts => String c t :: ts
           | [] => [String c ""]
           end
  end.

Fixpoint join (d : string) (l : list string) : string :=
  match l with
  | [] => ""
  | [s] => s
  | s :: l' => s +:+ d +:+ join d l'
  end.

Definition str1 (c : ascii) : string := String c "".
Definition backslash : string := str1 "092".

(** atoi: strtol in base 10 (saturating at the width of long), converted to int. *)
Fixpoint digits_val (acc : Z) (s : string) : Z :=
  match s with
  | "" => acc
  | String c r => if isdigit c then digits_val (acc * 10 + digit_val c) r else acc
  end.

Definition atoi (s : string) : Z :=
  let s := str_drop_while isspace s in
  let '(neg, s) :=
    match s with
    | String c r => if c =c "-"%char then (true, r) else if c =c "+"%char then (false, r) else (false, s)
    | "" => (false, "")
    end in
  let v := digits_val 0 s in
  int32 (Z.max int64_min (Z.min int64_max (if neg then - v else v))).

(** ** Lemmas on characters and strings *)

Lemma char_eqb_eq c d : (c =c d) = true <-> c = d.
Proof. apply Ascii.eqb_eq. Qed.
Lemma char_eqb_neq c d : (c =c d) = false <-> c <> d.
Proof. apply Ascii.eqb_neq. Qed.
Lemma char_eqb_refl c : (c =c c) = true.
Proof. apply Ascii.eqb_refl. Qed.
Lemma str_eqb_eq s t : (s =s t) = true <-> s = t.
Proof. apply String.eqb_eq. Qed.
Lemma str_eqb_neq s t : (s =s t) = false <-> s <> t.
Proof. apply String.eqb_neq. Qed.
Lemma str_eqb_refl s : (s =s s) = true.
Proof. apply String.eqb_refl. Qed.
#[export] Hint Rewrite char_eqb_refl str_eqb_refl : orion.

(** Case analysis on the boolean comparisons of characters and strings. *)
Ltac case_eqb :=
  match goal with
  | |- context [Ascii.eqb ?a ?b] =>
      let E := fresh "E" in destruct (Ascii.eqb a b) eqn:E;
      [apply char_eqb_eq in E | apply char_eqb_neq in E]; simplify_eq/=
  | |- context [String.eqb ?a ?b] =>
      let E := fresh "E" in destruct (String.eqb a b) eqn:E;
      [apply str_eqb_eq in E | apply str_eqb_neq in E]; simplify_eq/=
  end.

Lemma app_nil_l_str s : "" +:+ s = s.
Proof. done. Qed.

Lemma app_cons_str c s t : String c s +:+ t = String c (s +:+ t).
Proof. done. Qed.
#[export] Hint Rewrite app_nil_l_str app_cons_str : orion.

Lemma app_nil_r_str s : s +:+ "" = s.
Proof. induction s as [|c s IH]; [done|]. by rewrite app_cons_str, IH. Qed.
#[export] Hint Rewrite app_nil_r_str : orion.

Lemma app_assoc_str s t u : (s +:+ t) +:+ u = s +:+ (t +:+ u).
Proof. induction s as [|c s IH]; [done|]. by rewrite !app_cons_str, IH. Qed.

Lemma length_app_str s t : String.length (s +:+ t) = (String.length s + String.length t)%nat.
Proof. induction s as [|c s IH]; [done|]. rewrite app_cons_str. cbn. by f_equal. Qed.

Lemma str_all_app p s t : str_all p (s +:+ t) = str_all p s && str_all p t.
Proof. induction s as [|c s IH]; [done|]. rewrite app_cons_str. cbn. rewrite IH. apply andb_assoc. Qed.

Lemma str_all_cons p c s : str_all p (String c s) = p c && str_all p s.
Proof. done. Qed.

Lemma str_all_impl (p q : ascii -> bool) s :
  (forall c, p c = true -> q c = true) -> str_all p s = true -> str_all q s = true.
Proof.
  intros Hpq. induction s as [|c s IH]; [done|]. cbn.
  rewrite !andb_true_iff. intros [Hc Hs]. auto.
Qed.

Lemma str_span_app p s a b : str_span p s = (a, b) -> a +:+ b = s.
Proof.
  revert a b. induction s as [|c s IH]; intros a b; cbn; [by intros [= <- <-]|].
  destruct (p c); [|by intros [= <- <-]].
  destruct (str_span p s) as [a' b'] eqn:Hs. intros [= <- <-].
  rewrite app_cons_str. f_equal. by apply IH.
Qed.

Lemma find_char_app c s a b : find_char c s = Some (a, b) -> s = a +:+ String c b.
Proof.
  revert a b. induction s as [|d s IH]; intros a b; cbn; [done|].
  case_eqb; [naive_solver|].
  destruct (find_char c s) as [[a' b']|]; [|done].
  intros [= <- <-]. rewrite app_cons_str. f_equal. by apply IH.
Qed.

Lemma find_char_None c s : find_char c s = None <-> str_all (fun d => negb (d =c c)) s = true.
Proof.
  induction s as [|d s IH]; cbn; [done|].
  destruct (d =c c) eqn:E; cbn; [done|].
  rewrite <- IH. by destruct (find_char c s) as [[]|].
Qed.

(** A needle is not found inside a prefix free of its first character. *)
Lemma find_char_skip c s t :
  str_all (fun d => negb (d =c c)) s = true ->
  find_char c (s +:+ String c t) = Some (s, t).
Proof.
  induction s as [|d s IH]; rewrite ?app_nil_l_str, ?app_cons_str; cbn;
    [by rewrite char_eqb_refl|].
  rewrite andb_true_iff, negb_true_iff. intros [-> Hs]. by rewrite IH.
Qed.

Lemma c_str_no_nul s : str_all (fun d => negb (d =c NUL)) (c_str s) = true.
Proof.
  induction s as [|c s IH]; [done|]. cbn.
  destruct (c =c NUL) eqn:E; [done|]. cbn [str_all]. by rewrite E, IH.
Qed.

Lemma c_str_id s : str_all (fun d => negb (d =c NUL)) s = true -> c_str s = s.
Proof.
  induction s as [|c s IH]; [done|]. cbn.
  rewrite andb_true_iff, negb_true_iff. intros [-> Hs]. f_equal. auto.
Qed.

Lemma c_str_idemp s : c_str (c_str s) = c_str s.
Proof. apply c_str_id, c_str_no_nul. Qed.
#[export] Hint Resolve c_str_no_nul : orion.
#[export] Hint Rewrite c_str_idemp : orion.

Lemma split_on_cons d s : exists t ts, split_on d s = t :: ts.
Proof.
  destruct s as [|c s]; cbn; [eauto|]. destruct (c =c d); [eauto|].
  destruct (split_on d s); eauto.
Qed.

Lemma split_on_join d s : join (str1 d) (split_on d s) = s.
Proof.
  induction s as [|c s IH]; [done|]. cbn [split_on].
  destruct (split_on_cons d s) as (t & ts & Hts). rewrite Hts in IH |- *.
  destruct (c =c d) eqn:E.
  - apply char_eqb_eq in E as ->.
    change (join (str1 d) ("" :: t :: ts)) with ("" +:+ str1 d +:+ join (str1 d) (t :: ts)).
    by rewrite IH.
  - destruct ts as [|u us]; cbn [join] in *; [congruence|]. by rewrite app_cons_str, IH.
Qed.

Definition free_of (d : ascii) (s : string) : bool := str_all (fun c => negb (c =c d)) s.

Lemma free_of_app d s t : free_of d (s +:+ t) = free_of d s && free_of d t.
Proof. apply str_all_app. Qed.
Lemma free_of_cons d c s : free_of d (String c s) = negb (c =c d) && free_of d s.
Proof. done. Qed.
#[export] Hint Rewrite free_of_app free_of_cons : orion.

Lemma free_of_c_str s : c_str s = s -> free_of NUL s = true.
Proof. intros <-. apply c_str_no_nul. Qed.
#[export] Hint Resolve free_of_c_str : orion.

Lemma split_on_free d s : free_of d s = true -> split_on d s = [s].
Proof.
  unfold free_of. induction s as [|c s IH]; [done|]. cbn.
  rewrite andb_true_iff, negb_true_iff. intros [-> Hs]. by rewrite IH.
Qed.

Lemma split_on_app d s t : free_of d s = true ->
  split_on d (s +:+ String d t) = s :: split_on d t.
Proof.
  unfold free_of. induction s as [|c s IH]; rewrite ?app_nil_l_str, ?app_cons_str; cbn.
  - by rewrite char_eqb_refl.
  - rewrite andb_true_iff, negb_true_iff. intros [-> Hs]. by rewrite IH.
Qed.

Lemma split_on_all d s : Forall (fun w => free_of d w = true) (split_on d s).
Proof.
  unfold free_of. induction s as [|c s IH]; cbn; [by repeat constructor|].
  destruct (c =c d) eqn:Ec; [by constructor|].
  destruct (split_on d s); [constructor; [by cbn; rewrite Ec|constructor]|].
  inversion_clear IH. constructor; [|done]. cbn. by rewrite Ec.
Qed.

Lemma split_on_keeps p d s : str_all p s = true ->
  Forall (fun w => str_all p w = true) (split_on d s).
Proof.
  induction s as [|c s IH]; cbn; [by repeat constructor|].
  rewrite andb_true_iff. intros [Hc Hs]. specialize (IH Hs).
  destruct (c =c d); [by constructor|].
  destruct (split_on d s); [constructor; [by cbn; rewrite Hc|constructor]|].
  inversion_clear IH. constructor; [|done]. cbn. by rewrite Hc.
Qed.

(** ** Indexed access to vectors and decimal printing *)

(** [v[i]] on a std::vector: an index out of range is undefined behaviour. *)
Definition vec_at {A} (v : list A) (i : nat) : cpp A :=
  match v !! i with Some x => Ret x | None => UB "vector index out of range" end.

Definition digit_char (n : N) : ascii := ascii_of_N (48 + n).

(** The decimal digits of [n] put before [acc]; the fuel is the number of binary digits. *)
Fixpoint show_N_go (fuel : nat) (n : N) (acc : string) : string :=
  match fuel with
  | O => acc
  | S f =>
      if (n <? 10)%N then String (digit_char n) acc
      else show_N_go f (n / 10) (String (digit_char (n mod 10)) acc)
  end.

Definition show_N (n : N) : string := show_N_go (S (N.to_nat (N.log2 n))) n "".

(** printf's %d *)
Definition show_Z (z : Z) : string :=
  if (z <? 0)%Z then "-" +:+ show_N (Z.to_N (- z)) else show_N (Z.to_N z).

Lemma digit_char_code n : (n < 10)%N -> code (digit_char n) = (48 + n)%N.
Proof. intros Hn. unfold code, digit_char. apply N_ascii_embedding. lia. Qed.

Lemma isdigit_digit_char n : (n < 10)%N -> isdigit (digit_char n) = true.
Proof.
  intros Hn. unfold isdigit, in_range. rewrite digit_char_code by done.
  change (code "0") with 48%N. change (code "9") with 57%N.
  rewrite andb_true_iff, !N.leb_le. lia.
Qed.

Lemma digit_val_digit_char n : (n < 10)%N -> digit_val (digit_char n) = Z.of_N n.
Proof. intros Hn. unfold digit_val. rewrite digit_char_code by done. lia. Qed.

Lemma pow2_div10 f n : (n < 2 ^ N.of_nat (S f))%N -> (10 <= n)%N ->
  (n / 10 < 2 ^ N.of_nat f)%N /\ (0 < f)%nat.
Proof.
  intros Hn H10. rewrite Nat2N.inj_succ, N.pow_succ_r' in Hn. split.
  - apply N.Div0.div_lt_upper_bound. lia.
  - destruct f; [cbn in Hn; lia|lia].
Qed.

Lemma digits_val_show_go f : forall n acc v,
  (n < 2 ^ N.of_nat f)%N -> (0 < f)%nat ->
  exists k, digits_val v (show_N_go f n acc) = digits_val (v * 10 ^ k + Z.of_N n) acc
            /\ (0 <= k)%Z.
Proof.
  induction f as [|f IH]; intros n acc v Hn Hf; [lia|]. cbn [show_N_go].
  destruct (n <? 10)%N eqn:E.
  - apply N.ltb_lt in E. exists 1%Z. split; [|lia]. cbn [digits_val].
    rewrite isdigit_digit_char, digit_val_digit_char by done. f_equal; lia.
  - apply N.ltb_ge in E. destruct (pow2_div10 f n Hn E) as [Hlt Hpos].
    destruct (IH (n / 10)%N (String (digit_char (n mod 10)) acc) v Hlt Hpos) as (k & -> & Hk).
    exists (Z.succ k). split; [|lia]. cbn [digits_val].
    pose proof (N.mod_lt n 10) as Hm.
    rewrite isdigit_digit_char, digit_val_digit_char by lia. f_equal.
    rewrite Z.pow_succ_r by done.
    pose proof (N.div_mod n 10). nia.
Qed.

Lemma show_N_bound n : (n < 2 ^ N.of_nat (S (N.to_nat (N.log2 n))))%N.
Proof.
  rewrite Nat2N.inj_succ, N2Nat.id. destruct (decide (n = 0%N)) as [->|Hn]; [done|].
  apply N.log2_spec. lia.
Qed.

Lemma digits_val_show_N n : digits_val 0 (show_N n) = Z.of_N n.
Proof.
  unfold show_N.
  destruct (digits_val_show_go _ n "" 0 (show_N_bound n)) as (k & -> & _); [lia|].
  cbn. lia.
Qed.

Lemma show_go_digits f : forall n acc,
  (n < 2 ^ N.of_nat f)%N -> str_all isdigit acc = true ->
  str_all isdigit (show_N_go f n acc) = true.
Proof.
  induction f as [|f IH]; intros n acc Hn Hacc; [done|]. cbn [show_N_go].
  destruct (n <? 10)%N eqn:E.
  - apply N.ltb_lt in E. cbn. by rewrite isdigit_digit_char, Hacc.
  - apply N.ltb_ge in E. destruct (pow2_div10 f n Hn E) as [Hlt _].
    apply IH; [done|]. cbn. rewrite isdigit_digit_char, Hacc; [done|].
    apply N.mod_lt. lia.
Qed.

Lemma show_N_digits n : str_all isdigit (show_N n) = true.
Proof. apply show_go_digits; [apply show_N_bound|done]. Qed.

Lemma show_go_cons f : forall n acc, (0 < f)%nat ->
  exists c r, show_N_go f n acc = String c r.
Proof.
  induction f as [|f IH]; intros n acc Hf; [lia|]. cbn [show_N_go].
  destruct (n <? 10)%N; [eauto|]. destruct f; [cbn; eauto|]. apply IH. lia.
Qed.

Lemma show_N_cons n : exists c r, show_N n = String c r /\ isdigit c = true.
Proof.
  destruct (show_go_cons (S (N.to_nat (N.log2 n))) n "") as (c & r & H); [lia|].
  exists c, r. split; [done|]. pose proof (show_N_digits n) as Hd.
  unfold show_N in Hd. rewrite H in Hd. cbn in Hd. by apply andb_true_iff in Hd as [? _].
Qed.

Lemma isdigit_neq c d : isdigit c = true -> isdigit d = false -> (c =c d) = false.
Proof. intros Hc Hd. apply char_eqb_neq. intros ->. congruence. Qed.

Lemma show_N_free d n : isdigit d = false -> free_of d (show_N n) = true.
Proof.
  intros Hd. eapply str_all_impl; [|apply show_N_digits].
  intros c Hc. rewrite negb_true_iff. by apply isdigit_neq.
Qed.

Lemma show_N_c_str n : c_str (show_N n) = show_N n.
Proof. by apply c_str_id, show_N_free. Qed.
#[export] Hint Resolve show_N_free : orion.

Lemma isdigit_not_space c : isdigit c = true -> isspace c = false.
Proof. destruct c as [[] [] [] [] [] [] [] []]; done. Qed.

(** Printing a non-negative int and reading it back with atoi is the identity. *)
Lemma atoi_show_N n : (Z.of_N n <= int32_max)%Z -> atoi (show_N n) = Z.of_N n.
Proof.
  intros Hn. destruct (show_N_cons n) as (c & r & Hs & Hc).
  unfold atoi, str_drop_while. rewrite Hs. cbn [str_span].
  rewrite (isdigit_not_space c Hc). cbn [snd].
  rewrite !(isdigit_neq c) by done. rewrite <- Hs, digits_val_show_N.
  unfold int64_min, int64_max, int32_max in *.
  rewrite int32_small; unfold int32_min, int32_max; lia.
Qed.

(** ** Lemmas on strstr and on the last character *)

Lemma prefix_cons c p d s :
  String.prefix (String c p) (String d s) = (d =c c) && String.prefix p s.
Proof.
  cbn. destruct (ascii_dec c d) as [->|Hne]; [by rewrite char_eqb_refl|].
  assert ((d =c c) = false) as ->; [|done]. by apply char_eqb_neq.
Qed.

Lemma find_str_none c p s : free_of c s = true -> find_str (String c p) s = None.
Proof.
  induction s as [|d s IH]; [done|]. rewrite free_of_cons, andb_true_iff, negb_true_iff.
  intros [Hd Hs]. cbn [find_str]. by rewrite prefix_cons, Hd, IH.
Qed.

Lemma find_str_skip c p a b : free_of c a = true ->
  find_str (String c p) (a +:+ b) =
    match find_str (String c p) b with
    | Some (l, r) => Some (a +:+ l, r)
    | None => None
    end.
Proof.
  induction a as [|d a IH].
  - intros _. rewrite app_nil_l_str. by destruct (find_str _ b) as [[]|].
  - rewrite free_of_cons, andb_true_iff, negb_true_iff. intros [Hd Ha].
    rewrite app_cons_str. cbn [find_str]. rewrite prefix_cons, Hd, IH by done. cbn [andb].
    by destruct (find_str _ b) as [[]|].
Qed.

Lemma substring_skip p s n : (String.length s <= n)%nat ->
  String.substring (String.length p) n (p +:+ s) = s.
Proof.
  induction p as [|c p IH]; cbn -[String.app]; intros Hn.
  - rewrite app_nil_l_str. revert n Hn. induction s as [|d s IH]; intros [|n] Hn; cbn in *;
      try done; try lia. f_equal. apply IH. lia.
  - rewrite app_cons_str. by apply IH.
Qed.

Lemma prefix_app p s : String.prefix p (p +:+ s) = true.
Proof.
  induction p as [|c p IH]; [by destruct s|].
  rewrite app_cons_str, prefix_cons. by rewrite char_eqb_refl.
Qed.

(** A needle standing at the start of the text is found there. *)
Lemma find_str_before p s a b : find_str p s = Some (a, b) -> exists r, s = a +:+ r.
Proof.
  revert a b. induction s as [|c s IH]; intros a b; cbn [find_str]; destruct (String.prefix p _); try done.
  1-2: intros [= <- _]; by eexists.
  destruct (find_str p s) as [[l r]|]; [|done]. intros [= <- <-].
  destruct (IH _ _ eq_refl) as [q ->]. by exists q.
Qed.

Lemma find_str_here p s : find_str p (p +:+ s) = Some ("", s).
Proof.
  assert (forall t, String.prefix p t = true ->
    find_str p t = Some ("", String.substring (String.length p) (String.length t) t)) as H.
  { intros t Ht. destruct t; cbn [find_str]; by rewrite Ht. }
  rewrite H by apply prefix_app. rewrite substring_skip; [done|].
  rewrite length_app_str. lia.
Qed.

Lemma str_contains_char c s : str_contains (str1 c) s = str_any (fun d => d =c c) s.
Proof.
  unfold str_contains, str_any, str1. induction s as [|d s IH]; [done|].
  cbn [find_str]. rewrite prefix_cons, str_all_cons.
  destruct (d =c c); [by destruct s|]. cbn [andb negb].
  rewrite <- IH. by destruct (find_str _ s) as [[]|].
Qed.

Lemma last_char_app s c : last_char (s +:+ str1 c) = Some c.
Proof.
  induction s as [|d s IH]; [done|]. rewrite app_cons_str. cbn.
  destruct (s +:+ str1 c) eqn:E; [|by rewrite IH]. by destruct s.
Qed.

Lemma but_last_app s c : but_last (s +:+ str1 c) = s.
Proof.
  induction s as [|d s IH]; [done|]. rewrite app_cons_str. cbn.
  destruct (s +:+ str1 c) eqn:E; [by destruct s|]. by rewrite IH.
Qed.

Lemma split_on_join_free d ts : ts <> [] -> Forall (fun t => free_of d t = true) ts ->
  split_on d (join (str1 d) ts) = ts.
Proof.
  induction ts as [|t ts IH]; [done|]. intros _. rewrite Forall_cons. intros [Ht Hts].
  destruct ts as [|u us]; [by apply split_on_free|].
  change (join (str1 d) (t :: u :: us)) with (t +:+ String d (join (str1 d) (u :: us))).
  rewrite split_on_app by done. by rewrite IH.
Qed.

Lemma str_any_app p s t : str_any p (s +:+ t) = str_any p s || str_any p t.
Proof. unfold str_any. by rewrite str_all_app, negb_andb. Qed.

Lemma str_any_cons p c s : str_any p (String c s) = p c || str_any p s.
Proof. unfold str_any. by rewrite str_all_cons, negb_andb, negb_involutive. Qed.

Lemma app_str_nonempty s c : s +:+ str1 c <> "".
Proof. by destruct s. Qed.
#[export] Hint Resolve app_str_nonempty : orion.

Lemma snoc_not_nil {A} (l : list A) x : l ++ [x] <> [].
Proof. by destruct l. Qed.
#[export] Hint Resolve snoc_not_nil : orion.

Lemma str_all_join p d ts : str_all p d = true -> Forall (fun t => str_all p t = true) ts ->
  str_all p (join d ts) = true.
Proof.
  intros Hd. induction 1 as [|t ts Ht Hts IH]; [done|]. destruct ts; [done|].
  cbn [join]. by rewrite !str_all_app, Ht, Hd.
Qed.

Lemma str_span_none p s : str_all (fun c => negb (p c)) s = true -> str_span p s = ("", s).
Proof.
  destruct s as [|c s]; [done|]. cbn. rewrite andb_true_iff, negb_true_iff. by intros [-> _].
Qed.

Lemma list_filter_all {A} (P : A -> Prop) `{forall x, Decision (P x)} l :
  Forall P l -> filter P l = l.
Proof. induction 1 as [|x l Hx _ IH]; [done|]. by rewrite filter_cons_True, IH. Qed.

Lemma strcmp_refl s : strcmp s s = Eq.
Proof.
  unfold strcmp. pose proof (String.compare_antisym s s) as H. by destruct (String.compare s s).
Qed.

Lemma last_char_None s : last_char s = None -> s = "".
Proof.
  induction s as [|c s IH]; [done|]. destruct s as [|d s]; [done|].
  intros H. by specialize (IH H).
Qed.

Lemma snoc_str s c : last_char s = Some c -> s = but_last s +:+ str1 c.
Proof.
  induction s as [|d s IH]; [done|]. destruct s as [|e s]; [by intros [= ->]|].
  intros H. change (last_char (String e s) = Some c) in H. rewrite (IH H) at 1.
  by change (but_last (String d (String e s))) with (String d (but_last (String e s))).
Qed.

Lemma str_take_all s n : (String.length s <= n)%nat -> str_take n s = s.
Proof.
  revert n. induction s as [|c s IH]; intros [|n]; cbn; try done; [lia|].
  intros H. f_equal. apply IH. lia.
Qed.

Lemma str_take_app s t : str_take (String.length s) (s +:+ t) = s.
Proof. induction s as [|c s IH]; [by destruct t|]. rewrite app_cons_str. cbn. by rewrite IH. Qed.

Lemma get_app s c t : String.get (String.length s) (s +:+ String c t) = Some c.
Proof. induction s as [|d s IH]; [done|]. by rewrite app_cons_str. Qed.

(** The prefix test of strncmp. *)
Lemma str_take_prefix s t : (str_take (String.length s) t =s s) = String.prefix s t.
Proof.
  revert t. induction s as [|c s IH]; intros t; [by destruct t|].
  destruct t as [|d t]; [done|]. rewrite prefix_cons. cbn [String.length str_take String.eqb].
  destruct (d =c c); [apply IH|done].
Qed.

Lemma str_eqb_sym s t : (s =s t) = (t =s s).
Proof. apply String.eqb_sym. Qed.

Lemma str_eqb_snoc s t c : (s +:+ str1 c =s t +:+ str1 c) = (s =s t).
Proof.
  destruct (s =s t) eqn:E; [apply str_eqb_eq in E as ->; apply str_eqb_refl|].
  apply str_eqb_neq in E. apply str_eqb_neq. intros H. apply E.
  by rewrite <- (but_last_app s c), H, but_last_app.
Qed.

Lemma prefix_split p s : String.prefix p s = true -> exists r, s = p +:+ r.
Proof.
  revert s. induction p as [|c p IH]; intros s; [by exists s|].
  destruct s as [|d s]; [done|]. rewrite prefix_cons, andb_true_iff, char_eqb_eq.
  intros [-> H]. destruct (IH s H) as [r ->]. exists r. by rewrite app_cons_str.
Qed.

(** [s + n] on a char pointer: the text after the first [n] characters. *)
Fixpoint str_drop (n : nat) (s : string) : string :=
  match n, s with
  | S n, String _ r => str_drop n r
  | _, _ => s
  end.

Lemma str_drop_app s t : str_drop (String.length s) (s +:+ t) = t.
Proof. by induction s as [|c s IH]; [destruct t|]. Qed.

Lemma flat_map_ext_in {A B} (f g : A -> list B) l :
  (forall x, List.In x l -> f x = g x) -> flat_map f l = flat_map g l.
Proof.
  induction l as [|x l IH]; [done|]. intros H. cbn. rewrite H, IH; [done| |by left].
  intros y Hy. apply H. by right.
Qed.
