(* ===== verification/Strings.v ===== *)
(** * String utilities of the broker

    The string helpers of src/src/lib/common/string.cpp, common/wsStrip.cpp and
    parse/forbiddenChars.cpp.  Functions that mutate a [char*] buffer in place
    return the resulting contents; a std::string whose [c_str()] is scanned is
    cut at its first NUL; the calls to [alarmMgr.badInput] are returned as the
    list of their detail texts. *)

From S2P Require Import Prelude.

Open Scope Z_scope.

(** ** wsStrip *)

Definition is_ws (c : ascii) : bool :=
  (c =c " "%char) || (c =c "009"%char) || (c =c "010"%char).

Definition wsStrip (s : string) : string := str_rstrip is_ws (str_drop_while is_ws s).

Definition onlyWs (s : string) : bool := str_all is_ws s.

(** ** IPv6 addresses *)

Definition checkGroupIPv6 (inp : string) : bool :=
  if inp =s "" then false
  else if inp =s ":" then true
  else if (5 <? String.length inp)%nat then false
  else str_all isxdigit (but_last inp).

Fixpoint isIPv6_loop (fuel : nat) (staux : string) (cont : Z) : option bool :=
  match fuel with
  | O => None
  | S f =>
      match find_char ":" staux with
      | None => Some ((1 <? cont) && (cont <? 8))
      | Some (before, after) =>
          let partip := before +:+ ":" in
          if negb (checkGroupIPv6 partip) then Some false
          else isIPv6_loop f after (cont + 1)
      end
  end.

Definition isIPv6 (inp : string) : bool :=
  default false (isIPv6_loop (S (String.length inp)) inp 0).

Fixpoint getIPv6Port_loop (fuel : nat) (staux res : string) : option (string * string) :=
  match fuel with
  | O => None
  | S f =>
      match find_char ":" staux with
      | None => Some (res, staux)
      | Some (before, after) => getIPv6Port_loop f after (res +:+ before +:+ ":")
      end
  end.

(** The return value, with outIp and outPort where the code assigns them. *)
Definition getIPv6Port (inp : string) : bool * option (string * string) :=
  match getIPv6Port_loop (S (String.length inp)) inp "" with
  | None => (false, None)
  | Some (res, staux) =>
      if res =s "" then (false, None)
      else (isIPv6 res, Some (but_last res, staux))
  end.

(** ** stringSplit *)

(** Cut a buffer at its first NUL: the C string at its start, and what follows. *)
Definition c_split (buf : string) : string * string :=
  default (buf, "") (find_char NUL buf).

Fixpoint pick_up (components : nat) (start : string) : list string :=
  match components with
  | O => []
  | S n => let '(w, rest) := c_split start in w :: pick_up n rest
  end.

Fixpoint count_char (d : ascii) (s : string) : nat :=
  match s with
  | "" => O
  | String c r => if c =c d then S (count_char d r) else count_char d r
  end.

(** The returned number of components and the strings pushed on [outV]. *)
Definition stringSplit (inp : string) (delimiter : ascii) : Z * list string :=
  let s := str_drop_while (fun c => c =c delimiter) (c_str inp) in
  if s =s "" then (0, [])
  else
    let components := S (count_char delimiter s) in
    let buf := str_map (fun c => if c =c delimiter then NUL else c) s in
    (Z.of_nat components, pick_up components buf).

(** ** parseUrl *)

Definition DEFAULT_HTTP_PORT : Z := 80.
Definition DEFAULT_HTTPS_PORT : Z := 443.

Record Url := mkUrl { host : string; port : Z; path : string; protocol : string }.

Definition parseUrl_path (components : Z) (urlTokens : list string) : string :=
  let path := foldl (fun p t => p +:+ "/" +:+ t) ""
                (drop 3 (take (Z.to_nat components) urlTokens)) in
  if path =s "" then "/" else path.

(** Second part of parseUrl: split the third token in host and port. *)
Definition parseUrl_hostport (hostToken protocol : string) : cpp (option (string * Z)) :=
  match getIPv6Port hostToken with
  | (true, Some (auxIp, auxPort)) => Ret (Some (auxIp, atoi (c_str auxPort)))
  | _ =>
      let '(components, hostTokens) := stringSplit hostToken ":" in
      if 2 <? components then Ret None
      else
        h ← vec_at hostTokens 0;
        if components =? 2 then
          p ← vec_at hostTokens 1;
          if (String.length p =? 0)%nat then Ret None
          else Ret (Some (h, atoi (c_str p)))
        else
          Ret (Some (h, if protocol =s "https:" then DEFAULT_HTTPS_PORT else DEFAULT_HTTP_PORT))
  end.

Definition parseUrl (url : string) : cpp (option Url) :=
  if url =s "" then Ret None
  else
    let '(components, urlTokens) := stringSplit url "/" in
    if (length urlTokens =? 0)%nat then Ret None
    else
      t0 ← vec_at urlTokens 0;
      if negb (t0 =s "https:") && negb (t0 =s "http:") then Ret None
      else if (length urlTokens <? 3)%nat then Ret None
      else
        t2 ← vec_at urlTokens 2;
        if t2 =s "" then Ret None
        else if (components <? 3) || ((components =? 3) && (String.length t2 =? 0)%nat)
        then Ret None
        else
          let path := parseUrl_path components urlTokens in
          hp ← parseUrl_hostport t2 t0;
          match hp with
          | None => Ret None
          | Some (h, p) => Ret (Some (mkUrl h p path t0))
          end.

(** ** Integers and times as text *)

(** snprintf(placeholder, placeholderSize, "%d", i) *)
Definition i2s (i : Z) (placeholderSize : nat) : string :=
  str_take (placeholderSize - 1) (show_Z i).

Definition parsedUptime (uptime : Z) : string :=
  let minutes := Z.quot uptime 60 in
  let seconds := Z.rem uptime 60 in
  let hours := Z.quot minutes 60 in
  let minutes := Z.rem minutes 60 in
  let days := Z.quot hours 24 in
  let hours := Z.rem hours 24 in
  str_take 49 (show_Z days +:+ " d, " +:+ show_Z hours +:+ " h, "
               +:+ show_Z minutes +:+ " m, " +:+ show_Z seconds +:+ " s").

(** ** versionParse *)

Record Version := mkVersion { mayor : Z; minor : Z; bugFix : string }.

Definition versionParse (version : string) (out : Version) : bool * Version :=
  let s := wsStrip (c_str version) in
  match find_char "." s with
  | None => (false, out)
  | Some (s, dotP) =>
      let s := wsStrip s in
      let out := mkVersion (atoi s) (minor out) (bugFix out) in
      if negb (str_all isdigit s) then (false, out)
      else
        let '(s, dotP, bugFixEmpty, out) :=
          match find_char "." dotP with
          | Some (a, b) => (a, b, false, out)
          | None => (dotP, "", true, mkVersion (mayor out) (minor out) "")
          end in
        let s := wsStrip s in
        let out := mkVersion (mayor out) (atoi s) (bugFix out) in
        if negb (str_all isdigit s) then (false, out)
        else if (bugFixEmpty : bool) then (true, out)
        else (true, mkVersion (mayor out) (minor out) (wsStrip dotP))
  end.

(** ** strToLower *)

Definition ascii_lower (c : ascii) : ascii :=
  if in_range "A" "Z" c then ascii_of_N (code c + 32) else c.

(** The bytes written to the buffer [to], by index, in order. *)
Definition strToLower (from : string) (toSize : nat) : list (nat * ascii) :=
  let fromSize := String.length from in
  let fromSize := if (toSize <? fromSize + 1)%nat then toSize else fromSize in
  imap (fun ix c => (ix, ascii_lower c)) (take fromSize (String.list_ascii_of_string from))
  ++ [(fromSize, NUL)].

(** ** servicePathCheck: one component, used for updates and notifications *)

Definition servicePathChar (c : ascii) : bool :=
  in_range "A" "Z" c || in_range "a" "z" c || in_range "0" "9" c
  || (c =c "_"%char) || (c =c "/"%char).

Fixpoint servicePathCheck_loop (servicePath : string) : string * list string :=
  match servicePath with
  | "" => ("OK", [])
  | String c r =>
      if servicePathChar c then servicePathCheck_loop r
      else ("Bad Character in Service-Path",
            ["Invalid character '" +:+ str1 c +:+ "' in Service-Path"])
  end.

Definition servicePathCheck (servicePath : option string) : string * list string :=
  match servicePath with
  | None => ("No Service Path", [])
  | Some s => if s =s "" then ("OK", []) else servicePathCheck_loop s
  end.

(** ** Forbidden characters *)

Definition commonForbidden (c : ascii) : bool :=
  existsb (fun d => c =c d)
    ["<"; ">"; "034"; "'"; "="; ";"; "("; ")"]%char.

(** strchr(exceptions, c) != NULL, for a character that is not NUL. *)
Definition in_exceptions (exceptions : option string) (c : ascii) : bool :=
  match exceptions with
  | Some e => str_any (fun d => d =c c) e
  | None => false
  end.

Fixpoint forbiddenChars_loop (s : string) (exceptions : option string) : bool :=
  match s with
  | "" => false
  | String c r =>
      if in_exceptions exceptions c then forbiddenChars_loop r exceptions
      else if commonForbidden c then true
      else forbiddenChars_loop r exceptions
  end.

Definition forbiddenChars (s exceptions : option string) : bool :=
  match s with None => false | Some s => forbiddenChars_loop s exceptions end.

(** [*s >= 127 || *s <= 32] on a signed char: bytes from 128 are negative. *)
Definition char_signed (c : ascii) : Z :=
  let n := Z.of_N (code c) in if 128 <=? n then n - 256 else n.

Fixpoint forbiddenIdChars_loop (s : string) (exceptions : option string) : bool :=
  match s with
  | "" => false
  | String c r =>
      if in_exceptions exceptions c then forbiddenIdChars_loop r exceptions
      else if (127 <=? char_signed c) || (char_signed c <=? 32) then true
      else if existsb (fun d => c =c d) ["?"; "/"; "#"; "&"]%char then true
      else if commonForbidden c then true
      else forbiddenIdChars_loop r exceptions
  end.

Definition forbiddenIdChars (checkIdv1 : bool) (api : string) (s exceptions : option string) : bool :=
  if (api =s "v1") && negb checkIdv1 then forbiddenChars s exceptions
  else match s with None => false | Some s => forbiddenIdChars_loop s exceptions end.

(** ** Reference definitions *)

(** The groups of a string, each ended by its ':', and what follows the last one. *)
Fixpoint colon_groups (s : string) : list string * string :=
  match s with
  | "" => ([], "")
  | String c r =>
      let '(gs, t) := colon_groups r in
      if c =c ":"%char then (":" :: gs, t)
      else match gs with
           | [] => ([], String c t)
           | g :: gs' => (String c g :: gs', t)
           end
  end.

Fixpoint concat_str (l : list string) : string :=
  match l with [] => "" | s :: l' => s +:+ concat_str l' end.

Fixpoint colons (n : nat) : string :=
  match n with O => "" | S k => String ":" (colons k) end.

(** ** Lemmas on wsStrip *)

Lemma str_rstrip_id p c s : p c = false -> str_rstrip p (s +:+ str1 c) = s +:+ str1 c.
Proof.
  intros Hc. induction s as [|d s IH]; [by rewrite app_nil_l_str; cbn; rewrite Hc|].
  rewrite app_cons_str. cbn. rewrite IH. by destruct s.
Qed.

Lemma str_rstrip_all p s : str_all p (str_rstrip p s) = true -> str_rstrip p s = "".
Proof.
  induction s as [|c s IH]; [done|]. cbn.
  destruct (str_rstrip p s) as [|d r] eqn:E.
  - destruct (p c) eqn:Hc; [done|]. cbn. by rewrite Hc.
  - cbn. rewrite !andb_true_iff. intros (_ & Hd & Hr). cbn in IH.
    rewrite Hd, Hr in IH. by specialize (IH eq_refl).
Qed.

Lemma str_rstrip_none p s : str_all (fun c => negb (p c)) s = true -> str_rstrip p s = s.
Proof.
  induction s as [|c s IH]; [done|]. cbn. rewrite andb_true_iff, negb_true_iff.
  intros [Hc Hs]. rewrite IH by done. destruct s; [by rewrite Hc|done].
Qed.

Lemma str_drop_while_none p s : str_all (fun c => negb (p c)) s = true -> str_drop_while p s = s.
Proof.
  destruct s as [|c s]; [done|]. cbn. rewrite andb_true_iff, negb_true_iff.
  intros [Hc _]. unfold str_drop_while. cbn. by rewrite Hc.
Qed.

Lemma wsStrip_id s : str_all (fun c => negb (is_ws c)) s = true -> wsStrip s = s.
Proof.
  intros H. unfold wsStrip. rewrite str_drop_while_none by done. by apply str_rstrip_none.
Qed.

Lemma str_all_drop_while p q s : str_all q s = true -> str_all q (str_drop_while p s) = true.
Proof.
  unfold str_drop_while. induction s as [|c s IH]; [done|]. cbn.
  rewrite andb_true_iff. intros [Hc Hs]. destruct (p c).
  - destruct (str_span p s) eqn:E. cbn. rewrite ?E in IH. by apply IH.
  - cbn. by rewrite Hc.
Qed.

Lemma str_all_rstrip p q s : str_all q s = true -> str_all q (str_rstrip p s) = true.
Proof.
  induction s as [|c s IH]; [done|]. cbn. rewrite andb_true_iff. intros [Hc Hs].
  specialize (IH Hs). destruct (str_rstrip p s).
  - destruct (p c); [done|]. cbn. by rewrite Hc.
  - cbn in *. by rewrite Hc.
Qed.

(** What wsStrip keeps was in the string. *)
Lemma str_all_wsStrip q s : str_all q s = true -> str_all q (wsStrip s) = true.
Proof. intros. by apply str_all_rstrip, str_all_drop_while. Qed.
#[export] Hint Resolve str_all_wsStrip str_all_drop_while str_all_rstrip : orion.

Lemma str_drop_while_head p s c r : str_drop_while p s = String c r -> p c = false.
Proof.
  unfold str_drop_while. induction s as [|d s IH]; [done|]. cbn.
  destruct (p d) eqn:E; [|by cbn; intros [= <- <-]].
  destruct (str_span p s) eqn:Hs. cbn in *. auto.
Qed.

Lemma str_rstrip_empty p s : str_rstrip p s = "" -> str_all p s = true.
Proof.
  induction s as [|c s IH]; [done|]. cbn. destruct (str_rstrip p s); [|done].
  destruct (p c); [auto|done].
Qed.

(** ** Lemmas on stringSplit *)

Lemma pick_up_split d s :
  str_all (fun c => negb (c =c NUL)) s = true ->
  pick_up (S (count_char d s)) (str_map (fun c => if c =c d then NUL else c) s) = split_on d s.
Proof.
  intros H. assert (forall t, pick_up (S (count_char d t)) (str_map (fun c => if c =c d then NUL else c) t)
    = (c_split (str_map (fun c => if c =c d then NUL else c) t)).1
      :: pick_up (count_char d t) (c_split (str_map (fun c => if c =c d then NUL else c) t)).2) as Hp.
  { intros t. cbn. by destruct (c_split _). }
  induction s as [|c s IH]; [done|]. cbn in H. apply andb_true_iff in H as [Hc Hs].
  specialize (IH Hs). rewrite Hp in IH |- *. cbn [split_on str_map count_char].
  unfold c_split in *. destruct (c =c d) eqn:E.
  - cbn. f_equal. rewrite <- IH. cbn. by destruct (default _ _).
  - cbn [find_char]. rewrite negb_true_iff in Hc. rewrite Hc.
    destruct (find_char NUL _) as [[a b]|]; cbn in *; by rewrite <- IH.
Qed.

Lemma length_split_on d s : length (split_on d s) = S (count_char d s).
Proof.
  induction s as [|c s IH]; [done|]. cbn. destruct (c =c d); cbn; [by rewrite IH|].
  by destruct (split_on d s).
Qed.

Lemma str_drop_while_c_str p s :
  str_all (fun c => negb (c =c NUL)) (str_drop_while p (c_str s)) = true.
Proof. auto with orion. Qed.

Lemma stringSplit_eq inp d :
  let s := str_drop_while (fun c => c =c d) (c_str inp) in
  stringSplit inp d =
    if s =s "" then (0, []) else (Z.of_nat (length (split_on d s)), split_on d s).
Proof.
  cbn zeta. unfold stringSplit. destruct (_ =s "") eqn:E; [done|].
  by rewrite pick_up_split, length_split_on by apply str_drop_while_c_str.
Qed.

(** stringSplit drops the leading delimiters, then cuts the string at every
    delimiter: an empty remainder gives no component, otherwise the components,
    joined by the delimiter, are that remainder.  The returned number is always
    the number of strings pushed, on which every caller's indexing relies. *)
Theorem stringSplit_spec inp d :
  let s := str_drop_while (fun c => c =c d) (c_str inp) in
  let '(components, outV) := stringSplit inp d in
  components = Z.of_nat (length outV) /\
  (s = "" -> outV = []) /\
  (s <> "" -> join (str1 d) outV = s /\ Forall (fun w => free_of d w = true) outV).
Proof.
  cbn zeta. rewrite stringSplit_eq. destruct (_ =s "") eqn:E.
  - apply str_eqb_eq in E. by rewrite E.
  - apply str_eqb_neq in E. split_and!; [done|done|intros _].
    split; [apply split_on_join|apply split_on_all].
Qed.

(** ** Lemmas on the IPv6 loops *)

Lemma colon_groups_find s :
  match find_char ":" s with
  | None => colon_groups s = ([], s)
  | Some (a, b) =>
      colon_groups s = ((a +:+ ":") :: (colon_groups b).1, (colon_groups b).2)
      /\ (String.length b < String.length s)%nat
  end.
Proof.
  induction s as [|c s IH]; [done|]. cbn.
  destruct (c =c ":"%char) eqn:E.
  - apply char_eqb_eq in E as ->. destruct (colon_groups s). split; [done|cbn; lia].
  - destruct (find_char ":" s) as [[a b]|].
    + destruct IH as [-> Hlen]. split; [done|cbn; lia].
    + by rewrite IH.
Qed.

Lemma isIPv6_loop_eq f s cont : (String.length s < f)%nat ->
  isIPv6_loop f s cont =
    let gs := (colon_groups s).1 in
    Some (forallb checkGroupIPv6 gs && ((1 <? cont + Z.of_nat (length gs))
                                        && (cont + Z.of_nat (length gs) <? 8))).
Proof.
  revert s cont. induction f as [|f IH]; intros s cont Hf; [lia|]. cbn.
  pose proof (colon_groups_find s) as Hg. destruct (find_char ":" s) as [[a b]|].
  - destruct Hg as [-> Hlen]. cbn [fst forallb length].
    destruct (checkGroupIPv6 (a +:+ ":")); [|done]. cbn [negb andb].
    rewrite IH by lia. cbn zeta. by replace (cont + 1 + Z.of_nat (length (colon_groups b).1))
      with (cont + Z.of_nat (S (length (colon_groups b).1))) by lia.
  - rewrite Hg. cbn [fst forallb length andb]. by rewrite Z.add_0_r.
Qed.

Lemma getIPv6Port_loop_eq f s res : (String.length s < f)%nat ->
  getIPv6Port_loop f s res =
    Some (res +:+ concat_str (colon_groups s).1, (colon_groups s).2).
Proof.
  revert s res. induction f as [|f IH]; intros s res Hf; [lia|]. cbn.
  pose proof (colon_groups_find s) as Hg. destruct (find_char ":" s) as [[a b]|].
  - destruct Hg as [-> Hlen]. rewrite IH by lia. cbn [fst snd concat_str].
    by rewrite !app_assoc_str.
  - rewrite Hg. cbn. by rewrite app_nil_r_str.
Qed.

Lemma colon_groups_concat s : concat_str (colon_groups s).1 +:+ (colon_groups s).2 = s.
Proof.
  induction s as [|c s IH]; [done|]. cbn. destruct (colon_groups s) as [gs t]; cbn in *.
  destruct (c =c ":"%char) eqn:E.
  - apply char_eqb_eq in E as ->. cbn. by rewrite app_assoc_str, <- IH.
  - destruct gs as [|g gs]; cbn in *; [by rewrite <- IH|].
    by rewrite !app_cons_str, <- IH.
Qed.

Lemma colon_groups_idem s : colon_groups (concat_str (colon_groups s).1) = ((colon_groups s).1, "").
Proof.
  induction s as [|c s IH]; [done|]. cbn. destruct (colon_groups s) as [gs t]; cbn in *.
  destruct (c =c ":"%char) eqn:E.
  - cbn. rewrite app_cons_str, app_nil_l_str. cbn. by rewrite IH.
  - destruct gs as [|g gs]; cbn in *; [done|]. rewrite app_cons_str. cbn. by rewrite IH, E.
Qed.

(** The loops of isIPv6 and getIPv6Port end on every input, and compute on
    the ':'-groups of the string: an IPv6 address has two to seven groups, each a
    lone ':' or at most four hexadecimal digits and a ':'; getIPv6Port cuts the
    string after its last ':' and says whether what comes before is an IPv6
    address. *)
Theorem isIPv6_getIPv6Port_spec s :
  let '(gs, t) := colon_groups s in
  isIPv6_loop (S (String.length s)) s 0 = Some (isIPv6 s) /\
  isIPv6 s = forallb checkGroupIPv6 gs && ((1 <? Z.of_nat (length gs))
                                           && (Z.of_nat (length gs) <? 8)) /\
  concat_str gs +:+ t = s /\
  getIPv6Port s = (if concat_str gs =s "" then (false, None)
                   else (isIPv6 s, Some (but_last (concat_str gs), t))).
Proof.
  pose proof (colon_groups_concat s) as Hc. pose proof (colon_groups_idem s) as Hi.
  destruct (colon_groups s) as [gs t] eqn:Hg. cbn in Hc, Hi.
  assert (isIPv6_loop (S (String.length s)) s 0 = Some (isIPv6 s)) as Hl.
  { unfold isIPv6. by rewrite isIPv6_loop_eq by lia. }
  split; [done|]. unfold isIPv6 at 1. rewrite isIPv6_loop_eq, Hg by lia.
  split; [done|]. split; [done|].
  unfold getIPv6Port. rewrite getIPv6Port_loop_eq, Hg by lia. cbn [fst snd].
  rewrite app_nil_l_str. destruct (concat_str gs =s ""); [done|].
  unfold isIPv6. by rewrite !isIPv6_loop_eq, Hi, Hg by lia.
Qed.

(** ** Lemmas on parseUrl *)

Lemma isIPv6_groups s :
  isIPv6 s = forallb checkGroupIPv6 (colon_groups s).1
             && ((1 <? Z.of_nat (length (colon_groups s).1))
                 && (Z.of_nat (length (colon_groups s).1) <? 8)).
Proof. unfold isIPv6. by rewrite isIPv6_loop_eq by lia. Qed.

Lemma getIPv6Port_eq s :
  getIPv6Port s =
    let gs := concat_str (colon_groups s).1 in
    if gs =s "" then (false, None)
    else (isIPv6 s, Some (but_last gs, (colon_groups s).2)).
Proof.
  unfold getIPv6Port. rewrite getIPv6Port_loop_eq by lia. cbn zeta. rewrite app_nil_l_str.
  destruct (_ =s ""); [done|]. by rewrite !isIPv6_groups, colon_groups_idem.
Qed.

Lemma colon_groups_colons n : colon_groups (colons n) = (replicate n ":", "").
Proof. induction n as [|n IH]; [done|]. cbn. by rewrite IH. Qed.

Lemma isIPv6_colons n : isIPv6 (colons n) = (1 <? Z.of_nat n) && (Z.of_nat n <? 8).
Proof.
  rewrite isIPv6_groups, colon_groups_colons. cbn [fst]. rewrite length_replicate.
  assert (forallb checkGroupIPv6 (replicate n ":") = true) as ->; [|done].
  by induction n.
Qed.

Lemma c_str_colons n : c_str (colons n) = colons n.
Proof. induction n as [|n IH]; cbn; congruence. Qed.

Lemma str_drop_while_cons p c s :
  str_drop_while p (String c s) = if p c then str_drop_while p s else String c s.
Proof. unfold str_drop_while. cbn. destruct (p c); [|done]. by destruct (str_span p s). Qed.

Lemma drop_colons s : str_drop_while (fun c => c =c ":"%char) s = "" <-> exists n, s = colons n.
Proof.
  induction s as [|c s IH]; [split; [by exists O|done]|].
  rewrite str_drop_while_cons. destruct (c =c ":"%char) eqn:E.
  - apply char_eqb_eq in E as ->. rewrite IH. split.
    + intros [n ->]. by exists (S n).
    + intros [[|n] H]; [done|]. injection H as ->. by exists n.
  - split; [done|]. intros [[|n] H]; [done|]. cbn in H. injection H as -> _. done.
Qed.

Lemma stringSplit_cases inp d :
  (str_drop_while (fun c => c =c d) (c_str inp) = "" /\ stringSplit inp d = (0, [])) \/
  (exists t ts, stringSplit inp d = (Z.of_nat (length (t :: ts)), t :: ts)
     /\ Forall (fun w => c_str w = w) (t :: ts)).
Proof.
  rewrite stringSplit_eq. destruct (_ =s "") eqn:E; [left; by apply str_eqb_eq in E|right].
  pose proof (split_on_keeps _ d _ (str_drop_while_c_str (fun c => c =c d) inp)) as Hk.
  destruct (split_on_cons d (str_drop_while (fun c => c =c d) (c_str inp))) as (t & ts & Ht).
  rewrite Ht in Hk |- *. exists t, ts. split; [done|].
  eapply Forall_impl; [exact Hk|]. intros w. apply c_str_id.
Qed.

(** The IPv4 branch of parseUrl, for a non-empty vector of host tokens. *)
Lemma hostTokens_ret h hs (protocol : string) : exists r,
  (if 2 <? Z.of_nat (length (h :: hs)) then Ret None
   else (h0 ← vec_at (h :: hs) 0;
        if Z.of_nat (length (h :: hs)) =? 2 then
          (p ← vec_at (h :: hs) 1;
          if (String.length p =? 0)%nat then Ret None else Ret (Some (h0, atoi (c_str p))))
        else Ret (Some (h0, if protocol =s "https:" then DEFAULT_HTTPS_PORT else DEFAULT_HTTP_PORT))))
  = Ret r.
Proof.
  destruct hs as [|p [|q hs]].
  - cbn. eauto.
  - cbn. destruct (String.length p =? 0)%nat; eauto.
  - assert ((2 <? Z.of_nat (length (h :: p :: q :: hs))) = true) as ->; [|eauto].
    apply Z.ltb_lt. cbn [length]. lia.
Qed.

Lemma colons_inj n m : colons n = colons m -> n = m.
Proof. revert m. induction n as [|n IH]; intros [|m]; cbn; try done. intros [= H]. f_equal. auto. Qed.

Lemma concat_colons n : concat_str (replicate n ":") = colons n.
Proof. induction n as [|n IH]; [done|]. cbn. by rewrite IH. Qed.

Lemma parseUrl_hostport_UB t protocol : c_str t = t -> t <> "" ->
  (exists w, parseUrl_hostport t protocol = UB w) <->
  (exists n, t = colons n /\ (n = 1 \/ 8 <= n)%nat).
Proof.
  intros Ht Hne. unfold parseUrl_hostport.
  destruct (stringSplit_cases t ":") as [[Hd Hs]|(h & hs & Hs & _)]; rewrite Hs.
  - rewrite Ht in Hd. apply drop_colons in Hd as [n ->].
    rewrite getIPv6Port_eq, colon_groups_colons. cbn zeta. cbn [fst snd].
    rewrite concat_colons.
    destruct (colons n =s "") eqn:E; [apply str_eqb_eq in E; done|].
    rewrite isIPv6_colons. destruct ((1 <? Z.of_nat n) && (Z.of_nat n <? 8)) eqn:En.
    + split; [by intros [w ?]|]. intros (m & Hm & Hb).
      apply colons_inj in Hm as <-.
      apply andb_true_iff in En. rewrite !Z.ltb_lt in En. lia.
    + split; [|by intros; cbn; eauto]. intros _. exists n. split; [done|].
      rewrite andb_false_iff, !Z.ltb_ge in En. destruct n; [done|lia].
  - destruct (hostTokens_ret h hs protocol) as [r Hr]. split.
    + destruct (getIPv6Port t) as [[] [[]|]]; intros [w Hw]; congruence.
    + intros (n & -> & _). exfalso. revert Hs. rewrite stringSplit_eq, c_str_colons.
      assert (str_drop_while (fun c => c =c ":"%char) (colons n) = "") as -> by (apply drop_colons; eauto).
      done.
Qed.

Definition is_scheme (t : string) : Prop := t = "http:" \/ t = "https:".

Lemma is_scheme_bool t : (negb (t =s "https:") && negb (t =s "http:")) = false <-> is_scheme t.
Proof.
  unfold is_scheme. rewrite andb_false_iff, !negb_false_iff, !str_eqb_eq. tauto.
Qed.

(** parseUrl on the tokens of its URL. *)
Lemma parseUrl_tokens url t0 t1 t2 ts :
  stringSplit url "/" = (Z.of_nat (length (t0 :: t1 :: t2 :: ts)), t0 :: t1 :: t2 :: ts) ->
  is_scheme t0 -> t2 <> "" ->
  parseUrl url =
    mbind (fun hp => match hp with
      | None => Ret None
      | Some (h, p) => Ret (Some (mkUrl h p
          (parseUrl_path (Z.of_nat (length (t0 :: t1 :: t2 :: ts))) (t0 :: t1 :: t2 :: ts)) t0))
      end) (parseUrl_hostport t2 t0).
Proof.
  intros Hs Hsch H2. unfold parseUrl.
  destruct (url =s "") eqn:Eu; [apply str_eqb_eq in Eu; by subst|]. rewrite Hs.
  cbn [length Nat.eqb vec_at lookup list_lookup mbind cpp_bind].
  apply is_scheme_bool in Hsch. rewrite Hsch. cbn [Nat.ltb Nat.leb].
  apply str_eqb_neq in H2 as Hb. rewrite Hb.
  assert ((String.length t2 =? 0) = false)%nat as -> by (by destruct t2).
  rewrite andb_false_r, orb_false_r.
  by replace (Z.of_nat (S (S (S (length ts)))) <? 3) with false by (symmetry; apply Z.ltb_ge; lia).
Qed.

(** parseUrl refuses a URL without scheme or without authority. *)
Lemma parseUrl_reject url :
  (forall t0 t1 t2 ts, (stringSplit url "/").2 = t0 :: t1 :: t2 :: ts ->
     is_scheme t0 -> t2 = "") ->
  parseUrl url = Ret None.
Proof.
  intros H. unfold parseUrl. destruct (url =s ""); [done|].
  destruct (stringSplit_cases url "/") as [[_ ->]|(t0 & toks & Hs & _)]; [done|].
  rewrite Hs in H |- *. cbn [snd] in H.
  cbn [length Nat.eqb vec_at lookup list_lookup mbind cpp_bind].
  destruct (negb _ && negb _) eqn:E; [done|]. apply is_scheme_bool in E.
  destruct toks as [|t1 [|t2 ts]]; [done..|].
  cbn [length Nat.ltb Nat.leb vec_at lookup list_lookup mbind cpp_bind].
  by rewrite (H t0 t1 t2 ts eq_refl E).
Qed.

(** parseUrl's only undefined behaviour: it reads the first of no host tokens
    (an out of range access) exactly when the URL has an http(s) scheme and its
    authority is made of one, or of eight or more, ':' characters.  On every other
    input it returns. *)
Theorem parseUrl_UB_iff url :
  (exists w, parseUrl url = UB w) <->
  (exists t0 t1 n ts, (stringSplit url "/").2 = t0 :: t1 :: colons n :: ts
     /\ is_scheme t0 /\ (n = 1 \/ 8 <= n)%nat).
Proof.
  split.
  - intros [w Hw].
    destruct (stringSplit_cases url "/") as [[_ Hs]|(t0 & toks & Hs & Hk)].
    { rewrite parseUrl_reject in Hw; [done|]. by rewrite Hs. }
    destruct toks as [|t1 [|t2 ts]];
      [rewrite parseUrl_reject in Hw; [done|by rewrite Hs]..|].
    destruct (decide (is_scheme t0 /\ t2 <> "")) as [[H0 H2]|Hno].
    + rewrite (parseUrl_tokens _ _ _ _ _ Hs H0 H2) in Hw. rewrite Hs.
      rewrite !Forall_cons in Hk. destruct Hk as (_ & _ & Hc2 & _).
      destruct (parseUrl_hostport t2 t0) as [[[]|]| |] eqn:Eh; try done.
      destruct (proj1 (parseUrl_hostport_UB t2 t0 Hc2 H2) (ex_intro _ _ Eh)) as (n & -> & Hn).
      eauto 10.
    + rewrite parseUrl_reject in Hw; [done|]. rewrite Hs. intros ? ? ? ? [= <- <- <- <-] H0.
      destruct (decide (t2 = "")); [done|]. by destruct Hno.
  - intros (t0 & t1 & n & ts & Hs & H0 & Hn).
    assert (colons n <> "") as Hne by (destruct n; [lia|done]).
    destruct (stringSplit_cases url "/") as [[_ Hs']|(t0' & toks & Hs' & _)];
      rewrite Hs' in Hs; [done|]. cbn in Hs. injection Hs as -> ->.
    rewrite (parseUrl_tokens _ _ _ _ _ Hs' H0 Hne).
    destruct (proj2 (parseUrl_hostport_UB (colons n) t0 (c_str_colons n) Hne)) as [w ->];
      [eauto|]. by exists w.
Qed.

(** ** Round trips *)

Lemma foldl_slash ts acc : ts <> [] ->
  foldl (fun p t => p +:+ "/" +:+ t) acc ts = acc +:+ "/" +:+ join "/" ts.
Proof.
  revert acc. induction ts as [|t ts IH]; intros acc Hne; [done|]. cbn [foldl].
  destruct ts as [|u us]; [done|].
  rewrite IH by done. change (join "/" (t :: u :: us)) with (t +:+ "/" +:+ join "/" (u :: us)).
  by rewrite !app_assoc_str.
Qed.

Lemma parseUrl_path_eq t0 t1 t2 p :
  let ts := split_on "/" p in
  parseUrl_path (Z.of_nat (length (t0 :: t1 :: t2 :: ts))) (t0 :: t1 :: t2 :: ts) = "/" +:+ p.
Proof.
  cbn zeta. unfold parseUrl_path. rewrite Nat2Z.id, take_ge by done. cbn [drop].
  destruct (split_on_cons "/" p) as (t & ts & Ht).
  rewrite foldl_slash by (by rewrite Ht).
  pose proof (split_on_join "/" p) as Hj. change (str1 "/") with "/"%string in Hj.
  by rewrite drop_0, Hj, app_nil_l_str.
Qed.

Lemma colon_groups_one h t : free_of ":" h = true -> free_of ":" t = true ->
  colon_groups (h +:+ String ":" t) = ([h +:+ ":"], t).
Proof.
  intros Hh Ht. pose proof (colon_groups_find (h +:+ String ":" t)) as Hg.
  rewrite find_char_skip in Hg by done. destruct Hg as [-> _].
  pose proof (colon_groups_find t) as Hg2.
  rewrite (proj2 (find_char_None ":" t)) in Hg2 by done. by rewrite Hg2.
Qed.

Lemma stringSplit_two d h t : h <> "" ->
  free_of d h = true -> free_of d t = true -> free_of NUL (h +:+ String d t) = true ->
  stringSplit (h +:+ String d t) d = (2, [h; t]).
Proof.
  intros Hne Hh Ht Hn. rewrite stringSplit_eq, (c_str_id _ Hn).
  destruct h as [|c h]; [done|]. rewrite app_cons_str, str_drop_while_cons.
  pose proof Hh as Hc. rewrite free_of_cons, andb_true_iff, negb_true_iff in Hc.
  destruct Hc as [Hc _]. rewrite Hc. cbn [String.eqb].
  by rewrite <- app_cons_str, split_on_app, split_on_free.
Qed.

Lemma parseUrl_hostport_eq h n protocol :
  h <> "" -> free_of ":" h = true -> c_str h = h -> Z.of_N n <= int32_max ->
  parseUrl_hostport (h +:+ String ":" (show_N n)) protocol = Ret (Some (h, Z.of_N n)).
Proof.
  intros Hne Hh Hc Hn. unfold parseUrl_hostport.
  assert (fst (getIPv6Port (h +:+ String ":" (show_N n))) = false) as H6.
  { rewrite getIPv6Port_eq, isIPv6_groups, colon_groups_one by auto with orion.
    cbn zeta. cbn [fst snd concat_str length]. rewrite andb_false_r. by destruct (_ =s ""). }
  rewrite stringSplit_two; [|assumption|assumption|auto with orion|].
  2: { autorewrite with orion. by rewrite (free_of_c_str h), show_N_free. }
  assert ((String.length (show_N n) =? 0) = false)%nat as Hl.
  { by destruct (show_N_cons n) as (d & r & -> & _). }
  destruct (getIPv6Port _) as [[] [[]|]]; try done; cbn -[show_N atoi];
    by rewrite Hl, show_N_c_str, atoi_show_N.
Qed.

(** Round trip: a URL put together from an http(s) scheme, a host name without
    '/' and ':', a port printed in decimal and a path is taken apart by parseUrl
    into the same pieces. *)
Theorem parseUrl_roundtrip scheme h n p :
  is_scheme scheme -> h <> "" ->
  free_of "/" h = true -> free_of ":" h = true -> c_str h = h -> c_str p = p ->
  Z.of_N n <= int32_max ->
  parseUrl (scheme +:+ "//" +:+ h +:+ ":" +:+ show_N n +:+ "/" +:+ p)
  = Ret (Some (mkUrl h (Z.of_N n) ("/" +:+ p) scheme)).
Proof.
  intros Hsch Hne Hslash Hcolon Hh Hp Hn.
  set (hp := h +:+ String ":" (show_N n)).
  replace (scheme +:+ "//" +:+ h +:+ ":" +:+ show_N n +:+ "/" +:+ p)
    with (scheme +:+ String "/" ("" +:+ String "/" (hp +:+ String "/" p)))
    by (unfold hp; by rewrite !app_assoc_str).
  assert (Hhp : free_of "/" hp = true).
  { unfold hp. autorewrite with orion. by rewrite Hslash, show_N_free. }
  assert (Hnul : free_of NUL (hp +:+ String "/" p) = true).
  { unfold hp. autorewrite with orion.
    by rewrite (free_of_c_str h), (free_of_c_str p), show_N_free. }
  rewrite (parseUrl_tokens _ scheme "" hp (split_on "/" p)).
  - unfold hp. rewrite parseUrl_hostport_eq by assumption. cbn [mbind cpp_bind].
    by rewrite parseUrl_path_eq.
  - rewrite stringSplit_eq, c_str_id.
    2: { destruct Hsch as [-> | ->]; rewrite !app_cons_str; cbn; rewrite app_nil_l_str; exact Hnul. }
    rewrite <- (split_on_app "/" hp p Hhp), <- (split_on_app "/" "" _ eq_refl),
      <- (split_on_app "/" scheme) by (by destruct Hsch as [-> | ->]).
    by destruct Hsch as [-> | ->].
  - done.
  - unfold hp. by destruct h.
Qed.

Lemma parseUrl_roundtrip_witness :
  parseUrl ("http:" +:+ "//" +:+ "orion.lab" +:+ ":" +:+ show_N 1026 +:+ "/" +:+ "v2/op/notify")
  = Ret (Some (mkUrl "orion.lab" 1026 "/v2/op/notify" "http:")).
Proof.
  apply (parseUrl_roundtrip "http:" "orion.lab" 1026 "v2/op/notify");
    [by left|done|reflexivity..|unfold int32_max; lia].
Defined.

Lemma isdigit_not_ws c : isdigit c = true -> is_ws c = false.
Proof. destruct c as [[] [] [] [] [] [] [] []]; done. Qed.

Lemma show_N_not_ws n : str_all (fun c => negb (is_ws c)) (show_N n) = true.
Proof.
  eapply str_all_impl; [|apply show_N_digits]. intros c Hc. by rewrite isdigit_not_ws.
Qed.

(** Round trip: versionParse reads back "mayor.minor.bugFix" for every pair of
    non-negative int numbers and every bugFix text without white space. *)
Theorem versionParse_roundtrip a b fix_ out :
  Z.of_N a <= int32_max -> Z.of_N b <= int32_max ->
  c_str fix_ = fix_ -> str_all (fun c => negb (is_ws c)) fix_ = true ->
  versionParse (show_N a +:+ "." +:+ show_N b +:+ "." +:+ fix_) out
  = (true, mkVersion (Z.of_N a) (Z.of_N b) fix_).
Proof.
  intros Ha Hb Hf Hw. unfold versionParse.
  replace (show_N a +:+ "." +:+ show_N b +:+ "." +:+ fix_)
    with (show_N a +:+ String "." (show_N b +:+ String "." fix_)) by done.
  assert (Hn : free_of NUL (show_N a +:+ String "." (show_N b +:+ String "." fix_)) = true).
  { autorewrite with orion. by rewrite !show_N_free, free_of_c_str. }
  rewrite (c_str_id _ Hn), wsStrip_id.
  2: { by rewrite str_all_app, str_all_cons, str_all_app, str_all_cons, !show_N_not_ws, Hw. }
  rewrite !find_char_skip, !wsStrip_id by first [assumption | apply show_N_not_ws | by apply show_N_free].
  rewrite !show_N_digits. cbn -[atoi show_N]. by rewrite !atoi_show_N.
Qed.

Lemma versionParse_roundtrip_witness :
  versionParse (show_N 3 +:+ "." +:+ show_N 12 +:+ "." +:+ "1-rc0") (mkVersion 0 0 "")
  = (true, mkVersion 3 12 "1-rc0").
Proof.
  apply (versionParse_roundtrip 3 12 "1-rc0");
    [unfold int32_max; lia|unfold int32_max; lia|reflexivity|reflexivity].
Defined.

(** ** strToLower *)

Lemma length_list_ascii s : length (String.list_ascii_of_string s) = String.length s.
Proof. induction s as [|c s IH]; [done|]. cbn. by rewrite IH. Qed.

Lemma imap_index_lt {A} (f : ascii -> A) l :
  Forall (fun w : nat * A => (w.1 < length l)%nat) (imap (fun ix c => (ix, f c)) l).
Proof.
  apply Forall_lookup. intros i x Hx. rewrite list_lookup_imap in Hx.
  destruct (l !! i) eqn:E; [|done]. cbn in Hx. injection Hx as <-. cbn.
  by eapply lookup_lt_Some.
Qed.

(** strToLower stays inside its buffer exactly when the text and its terminator
    fit; then it writes the whole lower-cased text and the terminating NUL.  When
    they do not fit, the truncation it announces writes one byte past the end. *)
Theorem strToLower_bounds from toSize :
  (Forall (fun w => (w.1 < toSize)%nat) (strToLower from toSize)
     <-> (String.length from + 1 <= toSize)%nat) /\
  ((String.length from + 1 <= toSize)%nat ->
     (strToLower from toSize).*2
     = (ascii_lower <$> String.list_ascii_of_string from) ++ [NUL]).
Proof.
  unfold strToLower. rewrite Forall_app, Forall_singleton. cbn [fst].
  destruct (toSize <? String.length from + 1)%nat eqn:E.
  - apply Nat.ltb_lt in E. split; [|lia]. split; [intros [_ ?]; lia|lia].
  - apply Nat.ltb_ge in E. rewrite take_ge by (by rewrite length_list_ascii). split.
    + split; [done|]. intros _. split; [|lia].
      eapply Forall_impl; [apply imap_index_lt|]. cbn. rewrite length_list_ascii. lia.
    + intros _. rewrite fmap_app. f_equal. rewrite fmap_imap.
      apply list_eq. intros i. rewrite list_lookup_imap, list_lookup_fmap.
      by destruct (_ !! i).
Qed.

Lemma strToLower_bounds_witness :
  (String.length "ABC" + 1 <= 4)%nat /\
  (strToLower "ABC" 4).*2 = (ascii_lower <$> String.list_ascii_of_string "ABC") ++ [NUL].
Proof. split; [cbn; lia|]. apply (proj2 (strToLower_bounds "ABC" 4)). cbn. lia. Defined.

(** ** Forbidden characters *)

Lemma forbiddenChars_loop_None s : forbiddenChars_loop s None = str_any commonForbidden s.
Proof.
  unfold str_any. induction s as [|c s IH]; [done|]. cbn -[commonForbidden]. rewrite IH.
  by destruct (commonForbidden c).
Qed.

Lemma in_exceptions_empty c : in_exceptions (Some "") c = false.
Proof. done. Qed.

Lemma forbiddenChars_loop_empty s : forbiddenChars_loop s (Some "") = str_any commonForbidden s.
Proof.
  unfold str_any. induction s as [|c s IH]; [done|]. cbn -[commonForbidden]. rewrite IH.
  by destruct (commonForbidden c).
Qed.
#[export] Hint Rewrite forbiddenChars_loop_None forbiddenChars_loop_empty : orion.

Lemma not_forbidden_char c s : str_any commonForbidden s = false ->
  commonForbidden c = true -> free_of c s = true.
Proof.
  unfold str_any, free_of. intros Hs Hc. rewrite negb_false_iff in Hs.
  eapply str_all_impl; [|exact Hs]. intros d. cbv beta. rewrite !negb_true_iff.
  intros Hd. apply char_eqb_neq. intros ->. congruence.
Qed.

(** The identifier check is at least as strict as the general one: whatever
    forbiddenChars refuses, forbiddenIdChars refuses with the same exceptions, for
    both API versions and both settings of checkIdv1; and an accepted v2 identifier
    is made of printable non-blank ASCII characters, its exceptions apart. *)
Theorem forbiddenIdChars_stricter checkIdv1 api s exceptions :
  (forbiddenChars (Some s) exceptions = true ->
     forbiddenIdChars checkIdv1 api (Some s) exceptions = true) /\
  (forbiddenIdChars true api (Some s) exceptions = false ->
     str_all (fun c => in_exceptions exceptions c || ((32 <? char_signed c) && (char_signed c <? 127))) s = true).
Proof.
  split.
  - unfold forbiddenIdChars. destruct (_ && _); [done|]. cbn [forbiddenChars].
    induction s as [|c s IH]; [done|]. cbn [forbiddenChars_loop forbiddenIdChars_loop].
    destruct (in_exceptions exceptions c); [done|].
    destruct (_ || _); [done|]. destruct (existsb _ _); [done|].
    destruct (commonForbidden c); [done|auto].
  - unfold forbiddenIdChars. cbn [negb]. rewrite andb_false_r.
    induction s as [|c s IH]; [done|]. cbn [forbiddenIdChars_loop str_all].
    destruct (in_exceptions exceptions c); [done|].
    destruct ((127 <=? char_signed c) || (char_signed c <=? 32)) eqn:Er; [done|].
    destruct (existsb _ _); [done|]. destruct (commonForbidden c); [done|].
    intros H. apply orb_false_iff in Er. rewrite !Z.leb_gt in Er.
    rewrite IH by done. rewrite !andb_true_iff, !orb_true_iff, !andb_true_iff, !Z.ltb_lt. lia.
Qed.

Lemma forbiddenIdChars_stricter_witness :
  forbiddenChars (Some "a=b") None = true /\ forbiddenIdChars false "v2" (Some "a=b") None = true.
Proof.
  split; [reflexivity|]. apply (proj1 (forbiddenIdChars_stricter false "v2" "a=b" None)). reflexivity.
Defined.

(** ** wsStrip keeps every character that is not blank *)

Lemma str_any_drop_while p q s : (forall c, p c = true -> q c = false) ->
  str_any q s = true -> str_any q (str_drop_while p s) = true.
Proof.
  intros Hpq. induction s as [|c s IH]; [done|]. rewrite str_any_cons, str_drop_while_cons.
  destruct (p c) eqn:Hc; [|by rewrite str_any_cons]. rewrite (Hpq c Hc). auto.
Qed.

Lemma str_any_rstrip p q s : (forall c, p c = true -> q c = false) ->
  str_any q s = true -> str_any q (str_rstrip p s) = true.
Proof.
  intros Hpq. induction s as [|c s IH]; [done|]. rewrite str_any_cons. cbn [str_rstrip].
  intros [Hc|Hs]%orb_true_iff.
  - destruct (str_rstrip p s).
    + destruct (p c) eqn:Hp; [by rewrite (Hpq c Hp) in Hc|]. by rewrite str_any_cons, Hc.
    + by rewrite str_any_cons, Hc.
  - specialize (IH Hs). destruct (str_rstrip p s); [done|].
    rewrite str_any_cons, IH. by rewrite orb_true_r.
Qed.

Lemma str_any_wsStrip q s : (forall c, is_ws c = true -> q c = false) ->
  str_any q s = true -> str_any q (wsStrip s) = true.
Proof. intros Hq Hs. by apply str_any_rstrip, str_any_drop_while. Qed.
