(* ===== verification/Double.v ===== *)
(** * Doubles and their text

    IEEE-754 binary64 numbers ([SpecFloat] at precision 53, emax 1024), the C
    library's strtod on the inputs of the "C" locale, and the helpers of
    src/src/lib/common/string.cpp and common/globals.cpp that read doubles:
    str2double, atoF, string2coords, orderCoordsForBox. *)

From Stdlib Require Export SpecFloat.
From S2P Require Import Prelude Strings.

Open Scope Z_scope.

(** ** The type double *)

Abbreviation double := spec_float.

Definition double_of_Z (z : Z) : double := binary_normalize 53 1024 z 0 false.

Definition dlt (a b : double) : bool := SFltb a b.
Definition dgt (a b : double) : bool := SFltb b a.
Definition deq (a b : double) : bool := SFeqb a b.

Definition is_nan (a : double) : bool := match a with S754_nan => true | _ => false end.
Definition is_inf (a : double) : bool := match a with S754_infinity _ => true | _ => false end.

(** ** Correctly rounded conversions *)

(** (-1)^neg * m * 10^e10 * 2^e2, rounded to nearest, ties to even. *)
Definition round_scaled (neg : bool) (m : Z) (e10 e2 : Z) : double :=
  match m with
  | Zpos _ =>
      if 0 <=? e10 then
        binary_normalize 53 1024 (if neg then - (m * 10 ^ e10) else m * 10 ^ e10) e2 neg
      else
        let '(q, e, l) := SFdiv_core_binary 53 1024 m e2 (10 ^ (- e10)) 0 in
        binary_round_aux 53 1024 neg q e l
  | _ => S754_zero neg
  end.

(** A result below the normal range that is not the exact value. *)
Definition underflows (m e10 e2 : Z) (d : double) : bool :=
  let exact mant ex :=
    (* mant * 2^ex = m * 10^e10 * 2^e2, with all exponents made non-negative *)
    let k := Z.max (- ex) (Z.max (- e2) 0) in
    let n := Z.max (- e10) 0 in
    mant * 2 ^ (ex + k) * 10 ^ n =? m * 10 ^ (e10 + n) * 2 ^ (e2 + k) in
  match d with
  | S754_zero _ => negb (m =? 0)
  | S754_finite _ mant ex =>
      (Zpos (digits2_pos mant) + ex <=? -1022) && negb (exact (Zpos mant) ex)
  | _ => false
  end.

(** ** strtod *)

Definition hex_val (c : ascii) : Z :=
  if isdigit c then digit_val c else Z.of_N (code (tolower c)) - 87.

Fixpoint hexs_val (acc : Z) (s : string) : Z :=
  match s with "" => acc | String c r => hexs_val (acc * 16 + hex_val c) r end.

Definition skip_char_ci (c : ascii) (s : string) : option string :=
  match s with
  | String d r => if tolower d =c c then Some r else None
  | "" => None
  end.

Fixpoint skip_word_ci (w s : string) : option string :=
  match w with
  | "" => Some s
  | String c w' => match skip_char_ci c s with Some r => skip_word_ci w' r | None => None end
  end.

(** Digits, a '.', digits: the digits before, the digits after, what follows. *)
Definition scan_mantissa (p : ascii -> bool) (s : string) : string * string * string :=
  let '(ip, r) := str_span p s in
  match r with
  | String c r' =>
      if c =c "."%char then
        let '(fp, r'') := str_span p r' in
        if (ip =s "") && (fp =s "") then ("", "", s) else (ip, fp, r'')
      else (ip, "", r)
  | "" => (ip, "", "")
  end.

(** An exponent introduced by [mark], or nothing: its value and what follows. *)
Definition scan_exponent (mark : ascii) (s : string) : Z * string :=
  match skip_char_ci mark s with
  | None => (0, s)
  | Some r =>
      let '(neg, r) :=
        match r with
        | String c r' => if c =c "-"%char then (true, r') else if c =c "+"%char then (false, r') else (false, r)
        | "" => (false, "")
        end in
      let '(ds, r') := str_span isdigit r in
      if ds =s "" then (0, s)
      else ((if neg then - digits_val 0 ds else digits_val 0 ds), r')
  end.

Definition scan_nan_tail (s : string) : string :=
  match s with
  | String c r =>
      if c =c "("%char then
        let '(_, r') := str_span (fun c => isalnum c || (c =c "_"%char)) r in
        match r' with
        | String d r'' => if d =c ")"%char then r'' else s
        | "" => s
        end
      else s
  | "" => ""
  end.

(** The value, whether errno is set to ERANGE, and the text after the number. *)
Definition finish_scaled (neg : bool) (m e10 e2 : Z) (rest : string) : double * bool * string :=
  let d := round_scaled neg m e10 e2 in (d, is_inf d || underflows m e10 e2 d, rest).

Definition strtod_number (neg : bool) (s : string) : option (double * bool * string) :=
  let decimal :=
    let '(ip, fp, r) := scan_mantissa isdigit s in
    if (ip =s "") && (fp =s "") then None
    else
      let '(e, r') := scan_exponent "e" r in
      Some (finish_scaled neg (digits_val 0 (ip +:+ fp))
              (e - Z.of_nat (String.length fp)) 0 r') in
  match skip_word_ci "0x" s with
  | Some h =>
      let '(ip, fp, r) := scan_mantissa isxdigit h in
      if (ip =s "") && (fp =s "") then decimal
      else
        let '(e, r') := scan_exponent "p" r in
        Some (finish_scaled neg (hexs_val 0 (ip +:+ fp)) 0
                (e - 4 * Z.of_nat (String.length fp)) r')
  | None => decimal
  end.

Definition strtod (s : string) : double * bool * string :=
  let t := str_drop_while isspace s in
  let '(neg, t) :=
    match t with
    | String c r => if c =c "-"%char then (true, r) else if c =c "+"%char then (false, r) else (false, t)
    | "" => (false, "")
    end in
  match skip_word_ci "infinity" t, skip_word_ci "inf" t, skip_word_ci "nan" t with
  | Some r, _, _ => (S754_infinity neg, false, r)
  | None, Some r, _ => (S754_infinity neg, false, r)
  | None, None, Some r => (S754_nan, false, scan_nan_tail r)
  | None, None, None =>
      match strtod_number neg t with
      | Some res => res
      | None => (S754_zero false, false, s)  (* no conversion: the rest is the input *)
      end
  end.

Definition atof (s : string) : double := (strtod s).1.1.

(** ** str2double *)

(** The double stored in [*dP], when the function returns true. *)
Definition str2double (s : string) : option double :=
  let '(d, erange, rest) := strtod s in
  if (erange : bool) then None
  else if str_drop_while isspace rest =s "" then Some d else None.

(** ** atoF *)

Fixpoint count_dots (s : string) : nat * bool :=  (* dots, some dot is the last character *)
  match s with
  | "" => (O, false)
  | String c r =>
      let '(n, l) := count_dots r in
      if c =c "."%char then (S n, (r =s "") || l) else (n, l)
  end.

Definition atoF (s : string) : double * string :=
  let zero := S754_zero false in
  match s with
  | "" => (zero, "empty string")
  | String c r =>
      let signed := (c =c "-"%char) || (c =c "+"%char) in
      let cP := if signed then r else s in
      let bad_sign :=
        signed && match r with
                  | String d _ => negb (isdigit d) && negb (d =c "."%char)
                  | "" => true
                  end in
      if bad_sign then (zero, "non-digit after unary minus/plus")
      else
        let '(noOf, lastDot) := count_dots cP in
        if (lastDot : bool) then (zero, "last character in a double cannot be a dot")
        else if (1 <? noOf)%nat then (zero, "more than one dot")
        else if negb (str_all (fun c => (c =c "."%char) || isdigit c) cP)
        then (zero, "invalid characters in string to convert")
        else (atof s, "")
  end.

(** ** string2coords *)

(** The buffer [initial] as it reads after the in-place edits: the leading blanks
    and the latitude text without its trailing blanks. *)
Definition coords_initial (s : string) (number1 : string) : string :=
  (str_span is_ws s).1 +:+ str_rstrip is_ws number1.

Definition string2coords (s : string) : option (double * double) * list string :=
  let s := c_str s in
  match find_char "," (wsStrip s) with
  | None => (None, [])
  | Some (before, after) =>
      let number1 := wsStrip before in
      let number2 := wsStrip after in
      let initial := coords_initial s before in
      let bad what := "bad " +:+ what +:+ " value in coordinate string '" +:+ initial +:+ "'" in
      match str2double number1 with
      | Some newLatitude =>
          if dgt newLatitude (double_of_Z 90) || dlt newLatitude (double_of_Z (-90))
          then (None, [bad "latitude"])
          else
            match str2double number2 with
            | Some newLongitude =>
                if dgt newLongitude (double_of_Z 180) || dlt newLongitude (double_of_Z (-180))
                then (None, [bad "longitude"])
                else (Some (newLatitude, newLongitude), [])
            | None => (None, [bad "longitude"])
            end
      | None => (None, [bad "latitude"])
      end
  end.

(** ** orderCoordsForBox *)

Record Box := mkBox { minLat : double; maxLat : double; minLon : double; maxLon : double }.

Definition orderCoordsForBox (lat1 lat2 lon1 lon2 : double) : option Box :=
  if deq lat1 lat2 || deq lon1 lon2 then None
  else Some (mkBox (if dlt lat1 lat2 then lat1 else lat2)
                   (if dgt lat1 lat2 then lat1 else lat2)
                   (if dlt lon1 lon2 then lon1 else lon2)
                   (if dgt lon1 lon2 then lon1 else lon2)).

(** ** Checks of the number reader on concrete texts *)

Example strtod_half : strtod " -0.5e0rest" = (S754_finite true 4503599627370496 (-53), false, "rest").
Proof. vm_compute. reflexivity. Qed.
Example strtod_tenth : (strtod "0.1").1.1 = S754_finite false 7205759403792794 (-56).
Proof. vm_compute. reflexivity. Qed.
Example strtod_hex : strtod "0x1.8p1;" = (double_of_Z 3, false, ";").
Proof. vm_compute. reflexivity. Qed.
Example strtod_huge : str2double "1e400" = None.
Proof. vm_compute. reflexivity. Qed.
Example strtod_tiny : str2double "1e-400" = None.
Proof. vm_compute. reflexivity. Qed.
Example strtod_dot : strtod ".x" = (S754_zero false, false, ".x").
Proof. vm_compute. reflexivity. Qed.

(** ** Lemmas on the order of doubles *)

Lemma SFcompare_opp a b : SFcompare a b = CompOpp <$> SFcompare b a.
Proof.
  destruct a as [sa|sa| |sa ma ea], b as [sb|sb| |sb mb eb]; try done;
    try destruct sa; try destruct sb; try done; cbn;
    rewrite (Z.compare_antisym eb ea); destruct (eb ?= ea); cbn; try done; f_equal;
    change (Pos.compare_cont Eq) with Pos.compare; rewrite (Pos.compare_antisym mb ma);
    by destruct (Pos.compare mb ma).
Qed.

Lemma SFcompare_not_nan a b : is_nan a = false -> is_nan b = false ->
  exists c, SFcompare a b = Some c.
Proof.
  destruct a as [| | |], b as [| | |]; cbn; try done; intros _ _; eauto;
    repeat case_match; eauto.
Qed.

Lemma dgt_false a b : is_nan a = false -> is_nan b = false ->
  dgt a b = false -> SFleb a b = true.
Proof.
  intros Ha Hb. unfold dgt, SFltb, SFleb. rewrite (SFcompare_opp a b).
  destruct (SFcompare_not_nan b a Hb Ha) as [[] ->]; done.
Qed.

Lemma dlt_false a b : is_nan a = false -> is_nan b = false ->
  dlt a b = false -> SFleb b a = true.
Proof. intros Ha Hb. apply (dgt_false b a Hb Ha). Qed.

Lemma deq_false_lt a b : is_nan a = false -> is_nan b = false -> deq a b = false ->
  (dlt a b = true /\ dgt a b = false) \/ (dlt a b = false /\ dgt a b = true /\ dlt b a = true).
Proof.
  intros Ha Hb. unfold deq, dlt, dgt, SFeqb, SFltb. rewrite (SFcompare_opp b a).
  destruct (SFcompare_not_nan a b Ha Hb) as [[] ->]; cbn; auto; done.
Qed.

(** [-bound <= d <= bound], or [d] is not a number. *)
Definition in_band (bound : Z) (d : double) : bool :=
  is_nan d || (SFleb (double_of_Z (- bound)) d && SFleb d (double_of_Z bound)).

Lemma band_checked bound d : is_nan (double_of_Z bound) = false ->
  is_nan (double_of_Z (- bound)) = false ->
  dgt d (double_of_Z bound) || dlt d (double_of_Z (- bound)) = false -> in_band bound d = true.
Proof.
  intros H1 H2 H. apply orb_false_iff in H as [Hg Hl]. unfold in_band.
  destruct (is_nan d) eqn:Hd; [done|].
  by rewrite (dlt_false _ _ Hd H2 Hl), (dgt_false _ _ Hd H1 Hg).
Qed.

Lemma string2coords_checked s :
  match string2coords s with
  | (Some (lat, lon), events) =>
      in_band 90 lat = true /\ in_band 180 lon = true /\ events = []
  | (None, events) =>
      (length events <= 1)%nat /\
      (events = [] <-> find_char "," (wsStrip (c_str s)) = None)
  end.
Proof.
  unfold string2coords.
  destruct (find_char "," (wsStrip (c_str s))) as [[before after]|]; [|by split; [cbn; lia|]].
  destruct (str2double (wsStrip before)) as [lat|]; [|by split; [cbn; lia|]].
  destruct (dgt lat _ || dlt lat _) eqn:Hlat; [by split; [cbn; lia|]|].
  destruct (str2double (wsStrip after)) as [lon|]; [|by split; [cbn; lia|]].
  destruct (dgt lon _ || dlt lon _) eqn:Hlon; [by split; [cbn; lia|]|].
  split_and!; [by apply band_checked..|done].
Qed.

(** A coordinate pair accepted by string2coords has its latitude in [-90, 90]
    and its longitude in [-180, 180], the one exception being the texts strtod reads
    as NaN, which pass both checks; an accepted pair raises no bad-input event and a
    pair refused for its range raises exactly one. *)
Theorem string2coords_range s :
  match string2coords s with
  | (Some (lat, lon), events) =>
      in_band 90 lat = true /\ in_band 180 lon = true /\ events = []
  | (None, events) =>
      (length events <= 1)%nat /\
      (events = [] <-> find_char "," (wsStrip (c_str s)) = None)
  end.
Proof. apply string2coords_checked. Qed.

(** The blank texts count as the number zero: no conversion is not checked for. *)
Lemma strtod_blank s : str_all isspace s = true -> strtod s = (S754_zero false, false, s).
Proof.
  intros Hs. unfold strtod.
  assert (str_drop_while isspace s = "") as ->; [|done].
  induction s as [|c s IH]; [done|]. rewrite str_all_cons, andb_true_iff in Hs.
  destruct Hs as [Hc Hs]. rewrite str_drop_while_cons, Hc. auto.
Qed.

(** str2double accepts every blank text, the empty one included, as 0.0, although
    its contract asks that a conversion has been performed; through string2coords the
    text "," is the valid coordinate pair (0, 0), and "nan,nan" is accepted too. *)
Theorem str2double_blank s :
  (str_all isspace s = true -> str2double s = Some (S754_zero false)) /\
  string2coords "," = (Some (S754_zero false, S754_zero false), []) /\
  string2coords "nan,nan" = (Some (S754_nan, S754_nan), []).
Proof.
  split; [|split; vm_compute; reflexivity].
  intros Hs. unfold str2double. rewrite strtod_blank by done.
  pose proof (strtod_blank s Hs) as Hb. unfold strtod in Hb.
  assert (str_drop_while isspace s = "") as ->; [|done].
  clear Hb. induction s as [|c s IH]; [done|]. rewrite str_all_cons, andb_true_iff in Hs.
  destruct Hs as [Hc Hs]. rewrite str_drop_while_cons, Hc. auto.
Qed.

Lemma str2double_blank_witness :
  str_all isspace "  " = true /\ str2double "  " = Some (S754_zero false).
Proof. split; [reflexivity|]. apply (proj1 (str2double_blank "  ")). reflexivity. Defined.

(** orderCoordsForBox refuses exactly the degenerate boxes; on numbers its
    minima do not exceed its maxima and each corner is one of the two inputs. *)
Theorem orderCoordsForBox_ordered lat1 lat2 lon1 lon2 :
  is_nan lat1 = false -> is_nan lat2 = false -> is_nan lon1 = false -> is_nan lon2 = false ->
  match orderCoordsForBox lat1 lat2 lon1 lon2 with
  | None => deq lat1 lat2 = true \/ deq lon1 lon2 = true
  | Some b => dlt (minLat b) (maxLat b) = true /\ dlt (minLon b) (maxLon b) = true /\
      ((minLat b, maxLat b) = (lat1, lat2) \/ (minLat b, maxLat b) = (lat2, lat1)) /\
      ((minLon b, maxLon b) = (lon1, lon2) \/ (minLon b, maxLon b) = (lon2, lon1))
  end.
Proof.
  intros H1 H2 H3 H4. unfold orderCoordsForBox. destruct (deq lat1 lat2) eqn:Ha; [by left|].
  destruct (deq lon1 lon2) eqn:Ho; [by right|]. cbn [orb minLat maxLat minLon maxLon].
  destruct (deq_false_lt lat1 lat2 H1 H2 Ha) as [[Hk ->]|(-> & -> & ?)],
    (deq_false_lt lon1 lon2 H3 H4 Ho) as [[Hl ->]|(-> & -> & ?)]; rewrite ?Hk, ?Hl; split_and!; auto.
Qed.

Lemma orderCoordsForBox_ordered_witness :
  exists b, orderCoordsForBox (double_of_Z 3) (double_of_Z 1) (double_of_Z 2) (double_of_Z 5) = Some b
    /\ dlt (minLat b) (maxLat b) = true.
Proof.
  eexists. split; [vm_compute; reflexivity|].
  apply (orderCoordsForBox_ordered (double_of_Z 3) (double_of_Z 1) (double_of_Z 2) (double_of_Z 5));
    vm_compute; reflexivity.
Defined.
