(* ===== verification/Bson.v ===== *)
(** * BSON documents

    Documents as the code builds and reads them: an ordered list of fields, the first of a
    name being the one that is read.  The accessors of mongoBackend/safeMongo.cpp, the
    encoding of attribute names of mongoBackend/dbFieldEncoding.h, and the field names of
    mongoBackend/dbConstants.h.  [UB] stands for the assertion exception the driver throws
    when a value that is not a document is asked for its fields. *)

From S2P Require Import Prelude Strings Double.

Open Scope Z_scope.

(** ** Values *)

Inductive bson :=
  | BsonNull
  | BsonBool (b : bool)
  | BsonInt (n : Z)
  | BsonLong (n : Z)
  | BsonNumber (d : double)
  | BsonString (s : string)
  | BsonArray (l : list bson)
  | BsonObj (o : list (string * bson))
  | BsonRegex (pattern : string).

(** A document as the sequence of the append(key, value) calls that built it. *)
Definition doc : Type := list (string * bson).

(** BSONObj::getField: None is the element of type EOO. *)
Fixpoint getField (b : doc) (field : string) : option bson :=
  match b with
  | [] => None
  | (k, v) :: b' => if k =s field then Some v else getField b' field
  end.

Definition hasField (b : doc) (field : string) : bool :=
  match getField b field with Some _ => true | None => false end.

(** ** safeMongo *)

Definition getStringField (b : doc) (field : string) : string :=
  match getField b field with Some (BsonString s) => s | _ => "" end.

Definition getIntField (b : doc) (field : string) : Z :=
  match getField b field with Some (BsonInt n) => n | _ => -1 end.

Definition getLongField (b : doc) (field : string) : Z :=
  match getField b field with Some (BsonLong n) => n | _ => -1 end.

Definition getIntOrLongFieldAsLong (b : doc) (field : string) : Z :=
  match getField b field with Some (BsonLong n) | Some (BsonInt n) => n | _ => -1 end.

Definition getBoolField (b : doc) (field : string) : bool :=
  match getField b field with Some (BsonBool v) => v | _ => false end.

Definition getObjectField (b : doc) (field : string) : doc :=
  match getField b field with Some (BsonObj o) => o | _ => [] end.

(** BSONElement::embeddedObject: the fields of an array are named after their positions. *)
Definition embeddedObject (v : option bson) : cpp doc :=
  match v with
  | Some (BsonObj o) => Ret o
  | Some (BsonArray l) => Ret (imap (fun i x => (pretty i, x)) l)
  | _ => UB "embeddedObject of a value that is not a document"
  end.

(** BSONElement::Array *)
Definition Array (v : option bson) : cpp (list bson) :=
  match v with
  | Some (BsonArray l) => Ret l
  | _ => UB "Array of a value that is not one"
  end.

(** embeddedObject of each element of an array. *)
Fixpoint embedded_all (l : list bson) : cpp (list doc) :=
  match l with
  | [] => Ret []
  | v :: l' => o ← embeddedObject (Some v); r ← embedded_all l'; Ret (o :: r)
  end.

(** The documents that are the fields of a document. *)
Fixpoint documents (l : doc) : cpp (list doc) :=
  match l with
  | [] => Ret []
  | (_, v) :: l' => o ← embeddedObject (Some v); r ← documents l'; Ret (o :: r)
  end.

(** ** Field names *)

Definition ENT_ATTRS : string := "attrs".
Definition ENT_ATTRNAMES : string := "attrNames".
Definition ENT_ENTITY_ID : string := "id".
Definition ENT_ENTITY_TYPE : string := "type".
Definition ENT_SERVICE_PATH : string := "servicePath".
Definition ENT_ATTRS_TYPE : string := "type".
Definition ENT_ATTRS_VALUE : string := "value".
Definition ENT_ATTRS_CREATION_DATE : string := "creDate".
Definition ENT_ATTRS_MODIFICATION_DATE : string := "modDate".
Definition ENT_ATTRS_MD : string := "md".
Definition ENT_ATTRS_MD_NAME : string := "name".
Definition ENT_ATTRS_MD_TYPE : string := "type".
Definition ENT_ATTRS_MD_VALUE : string := "value".
Definition ENT_CREATION_DATE : string := "creDate".
Definition ENT_MODIFICATION_DATE : string := "modDate".
Definition ENT_LOCATION : string := "location".
Definition ENT_LOCATION_ATTRNAME : string := "attrName".
Definition ENT_LOCATION_COORDS : string := "coords".

(** ** Names of attributes *)

Definition dbDotEncode (s : string) : string := str_map (fun c => if c =c "."%char then "="%char else c) s.
Definition dbDotDecode (s : string) : string := str_map (fun c => if c =c "="%char then "."%char else c) s.

(** "A1__ID1" is split into "A1" and "ID1". *)
Definition basePart (name : string) : string :=
  match find_str "__" name with Some (b, _) => b | None => name end.
Definition idPart (name : string) : string :=
  match find_str "__" name with Some (_, i) => i | None => "" end.

(** ** Lemmas *)

Lemma documents_imap (f : nat -> string) (l : list doc) :
  documents (imap (fun i x => (f i, BsonObj x)) l) = Ret l.
Proof. revert f. induction l as [|d l IH]; intros f; [done|].
  cbn. pose proof (IH (fun i => f (S i))) as H. unfold compose. cbn in H |- *. by rewrite H.
Qed.

Lemma embedded_all_docs (l : list doc) : embedded_all (BsonObj <$> l) = Ret l.
Proof. induction l as [|d l IH]; [done|]. cbn. by rewrite IH. Qed.

Lemma embedded_documents (l : list doc) :
  (o ← embeddedObject (Some (BsonArray (BsonObj <$> l))); documents o) = Ret l.
Proof. cbn. rewrite imap_fmap. apply (documents_imap (fun i => pretty i)). Qed.

Lemma getField_app a b f :
  getField (a ++ b) f = match getField a f with Some v => Some v | None => getField b f end.
Proof. induction a as [|[k v] a IH]; [done|]. cbn. by destruct (k =s f). Qed.

Lemma dbDotEncode_nodot s : str_any (fun c => c =c "."%char) (dbDotEncode s) = false.
Proof.
  induction s as [|c s IH]; [done|]. unfold dbDotEncode in *. cbn [str_map].
  rewrite str_any_cons, IH, orb_false_r. by destruct (c =c "."%char) eqn:E.
Qed.

Lemma dbDot_roundtrip s : str_any (fun c => c =c "="%char) s = false ->
  dbDotDecode (dbDotEncode s) = s.
Proof.
  induction s as [|c s IH]; [done|]. rewrite str_any_cons, orb_false_iff. intros [Hc Hs].
  unfold dbDotDecode, dbDotEncode in *. cbn [str_map]. rewrite IH by done. f_equal.
  destruct (c =c "."%char) eqn:E; [by apply char_eqb_eq in E|by rewrite Hc].
Qed.
