(* ===== verification/MongoQuery.v ===== *)
(** * Queries of the database

    What MongoDB answers to the queries the broker builds, for the operators it uses where
    the answer decides what is triggered: an evaluator of queries over documents, with
    dotted paths through arrays, equality, regular expressions, $in, $ne, $gt, $exists,
    $size, $or and $where.  The engine of regular expressions and that of the JavaScript
    functions of $where are arguments; [regex_of] and [found_in] say what a pattern of
    literals, anchors, alternatives and ".*" means, and the laws below what fromjson makes
    of the texts the broker writes. *)

From S2P Require Import Prelude Strings Double Bson.

Open Scope Z_scope.

(** ** Regular expressions *)

Inductive atom := Bol | Eol | AnyStar | Lit (c : ascii).

Definition newline : ascii := "010".

(** A character that stands for itself in a pattern. *)
Definition regex_plain (c : ascii) : bool :=
  isalnum c || (c =c "_"%char) || (c =c "#"%char) || (c =c "-"%char) || (c =c ":"%char).

(** The alternatives of a pattern; None where it has other constructs, or a slash that is not
    escaped, which would end a literal. *)
Fixpoint regex_of (r : string) : option (list (list atom)) :=
  let add a (p : option (list (list atom))) :=
    match p with Some (l :: ls) => Some ((a :: l) :: ls) | _ => None end in
  match r with
  | "" => Some [[]]
  | String c r' =>
      if c =c "|"%char then p ← regex_of r'; Some ([] :: p)
      else if c =c "^"%char then add Bol (regex_of r')
      else if c =c "$"%char then add Eol (regex_of r')
      else if c =c "."%char then
        match r' with String d r'' => if d =c "*"%char then add AnyStar (regex_of r'') else None | "" => None end
      else if c =c "092"%char then
        match r' with String d r'' => if d =c "/"%char then add (Lit d) (regex_of r'') else None | "" => None end
      else if regex_plain c then add (Lit c) (regex_of r')
      else None
  end.

(** The atoms match a prefix of the text; "$" also matches before a last line break, and "."
    does not match one. *)
Fixpoint match_here (l : list atom) (start : bool) (s : string) : bool :=
  match l with
  | [] => true
  | Bol :: l' => start && match_here l' start s
  | Eol :: l' => ((s =s "") || (s =s str1 newline)) && match_here l' start s
  | Lit c :: l' => match s with String d s' => (c =c d) && match_here l' false s' | "" => false end
  | AnyStar :: l' =>
      (fix any start s := match_here l' start s
         || match s with String d s' => negb (d =c newline) && any false s' | "" => false end) start s
  end.

(** They match somewhere in it. *)
Fixpoint found_from (l : list atom) (start : bool) (s : string) : bool :=
  match_here l start s || match s with String _ s' => found_from l false s' | "" => false end.

Definition found_in (p : list (list atom)) (s : string) : bool := existsb (fun l => found_from l true s) p.

(** ** Values *)

Fixpoint value_eqb (v w : bson) : bool :=
  match v, w with
  | BsonNull, BsonNull => true
  | BsonBool a, BsonBool b => Bool.eqb a b
  | (BsonInt a | BsonLong a), (BsonInt b | BsonLong b) => a =? b
  | BsonNumber a, BsonNumber b => deq a b
  | BsonString a, BsonString b | BsonRegex a, BsonRegex b => a =s b
  | BsonArray l, BsonArray m =>
      (fix all2 l m := match l, m with
         | [], [] => true
         | x :: l', y :: m' => value_eqb x y && all2 l' m'
         | _, _ => false
         end) l m
  | BsonObj l, BsonObj m =>
      (fix all2 l m := match l, m with
         | [], [] => true
         | (k, x) :: l', (k', y) :: m' => (k =s k') && value_eqb x y && all2 l' m'
         | _, _ => false
         end) l m
  | _, _ => false
  end.

(** The values a path leads to: None where a document has no such field.  On the way, the
    documents in an array are entered; at the end, its elements are values as well as the
    array. *)
Fixpoint path_values (path : list string) (v : bson) : list (option bson) :=
  match path with
  | [] => match v with BsonArray l => (Some <$> l) ++ [Some v] | _ => [Some v] end
  | f :: path' =>
      let enter o := match getField o f with None => [None] | Some w => path_values path' w end in
      match v with
      | BsonObj o => enter o
      | BsonArray l => flat_map (fun x => match x with BsonObj o => enter o | _ => [] end) l
      | _ => [None]
      end
  end.

Definition values (d : doc) (path : string) : list (option bson) := path_values (split_on "." path) (BsonObj d).

(** ** Conditions *)

Section Eval.

(** [regex p s]: the pattern matches somewhere in the text; [js f d]: the function is true
    of the document. *)
Context (regex : string -> string -> bool) (js : string -> doc -> bool).

(** One value is equal to what is asked for, or matches it. *)
Definition meets (q : bson) (v : option bson) : bool :=
  match q, v with
  | BsonNull, None => true
  | BsonRegex p, Some (BsonString s) => regex p s
  | _, Some w => value_eqb q w
  | _, None => false
  end.

Definition is_above (n : Z) (v : option bson) : bool :=
  match v with Some (BsonLong m) | Some (BsonInt m) => n <? m | _ => false end.

Definition has_size (n : Z) (v : option bson) : bool :=
  match v with Some (BsonArray l) => Z.of_nat (length l) =? n | _ => false end.

(** The operators on the values of a path; one that is not listed selects nothing. *)
Definition operator (op : string) (arg : bson) (vs : list (option bson)) : bool :=
  if op =s "$in" then match arg with BsonArray l => existsb (fun q => existsb (meets q) vs) l | _ => false end
  else if op =s "$ne" then negb (existsb (meets arg) vs)
  else if op =s "$gt" then match arg with BsonLong n | BsonInt n => existsb (is_above n) vs | _ => false end
  else if op =s "$exists" then
    match arg with BsonBool b => Bool.eqb b (existsb (fun v => negb (bool_decide (v = None))) vs) | _ => false end
  else if op =s "$size" then match arg with BsonInt n => existsb (has_size n) vs | _ => false end
  else false.

Definition is_operator (k : string) : bool := String.prefix "$" k.

(** A condition on a field: operators, or a value. *)
Definition condition (q : bson) (vs : list (option bson)) : bool :=
  match q with
  | BsonObj (((k, _) :: _) as ops) =>
      if is_operator k then forallb (fun o => operator o.1 o.2 vs) ops else existsb (meets q) vs
  | _ => existsb (meets q) vs
  end.

Fixpoint clause (d : doc) (k : string) (q : bson) : bool :=
  if k =s "$or" then
    match q with
    | BsonArray l => existsb (fun x => match x with BsonObj o => forallb (fun kv => clause d kv.1 kv.2) o | _ => false end) l
    | _ => false
    end
  else if k =s "$where" then match q with BsonString f => js f d | _ => false end
  else condition q (values d k).

(** The document satisfies the query. *)
Definition selected (q d : doc) : bool := forallb (fun kv => clause d kv.1 kv.2) q.

End Eval.

(** ** Laws of the driver and the database *)

(** The engine of the database on patterns of literals, anchors, alternatives and ".*". *)
Definition regex_law (regex : string -> string -> bool) : Prop :=
  forall r p s, regex_of r = Some p -> regex r s = found_in p s.

Definition in_or_null (r : string) : doc := [("$in", BsonArray [BsonRegex r; BsonNull])].

(** fromjson on the two ways the broker writes "this pattern or null". *)
Record fromjson_law (fromjson : string -> cpp doc) : Prop := {
  fromjson_spaced r : is_Some (regex_of r) -> fromjson ("{ $in: [ /" +:+ r +:+ "/, null ] }") = Ret (in_or_null r);
  fromjson_tight r : is_Some (regex_of r) -> fromjson ("{$in: [ /" +:+ r +:+ "/, null] }") = Ret (in_or_null r)
}.

(** The field is a text. *)
Definition is_text (s : string) (v : option bson) : bool := match v with Some (BsonString t) => t =s s | _ => false end.

(** A text that may be written between quotes in a function. *)
Definition quotable (s : string) : bool :=
  str_all (fun c => negb (c =c "034"%char) && negb (c =c "092"%char) && (31 <? code c)%N && (code c <? 128)%N) s.

(** A text written with single quotes for double ones. *)
Definition dq (s : string) : string := str_map (fun c => if c =c "'"%char then "034"%char else c) s.
Definition quoted (s : string) : string := str1 "034" +:+ s +:+ str1 "034".

(** ** Facts *)

Lemma regex_plain_of c r : regex_plain c = true ->
  regex_of (String c r) = match regex_of r with Some (l :: ls) => Some ((Lit c :: l) :: ls) | _ => None end.
Proof.
  intros H. cbn [regex_of].
  assert (forall d, regex_plain d = false -> (c =c d) = false) as N.
  { intros d Hd. apply char_eqb_neq. intros ->. congruence. }
  by rewrite (N "|"%char), (N "^"%char), (N "$"%char), (N "."%char), (N "092"%char), H by reflexivity.
Qed.

(** Literals in front of a pattern; slashes are escaped. *)
Lemma regex_of_plain s r l ls : str_all regex_plain s = true -> regex_of r = Some (l :: ls) ->
  regex_of (s +:+ r) = Some (((Lit <$> String.list_ascii_of_string s) ++ l) :: ls).
Proof.
  intros Hs Hr. induction s as [|c s IH]; [by rewrite app_nil_l_str|].
  rewrite str_all_cons, andb_true_iff in Hs. destruct Hs as [Hc Hs].
  by rewrite app_cons_str, regex_plain_of, IH.
Qed.

Lemma regex_of_slash r l ls : regex_of r = Some (l :: ls) ->
  regex_of (str1 "092" +:+ "/" +:+ r) = Some ((Lit "/" :: l) :: ls).
Proof.
  intros H. change (str1 "092" +:+ "/" +:+ r) with (String "092" (String "/" r)).
  change (match regex_of r with Some (k :: ks) => Some ((Lit "/" :: k) :: ks) | _ => None end = Some ((Lit "/" :: l) :: ls)).
  by rewrite H.
Qed.

(** An alternative that is anchored at both ends matches one text only, but for a line break. *)
Definition exactly (s : string) : list atom := Bol :: (Lit <$> String.list_ascii_of_string s) ++ [Eol].

Definition one_line (s : string) : bool := free_of newline s.

Lemma str_eqb_cons_cons c d s t : (String c s =s String d t) = (c =c d) && (s =s t).
Proof.
  apply eq_true_iff_eq. rewrite andb_true_iff, !str_eqb_eq, char_eqb_eq. split; [by intros [= -> ->]|by intros [-> ->]].
Qed.

Lemma match_exactly start s t : one_line t = true -> match_here (exactly s) start t = start && (s =s t).
Proof.
  intros Ht. unfold exactly. cbn [match_here]. f_equal. revert start t Ht. induction s as [|c s IH]; intros start t Ht.
  - destruct t as [|d t]; [done|]. unfold one_line in Ht. rewrite free_of_cons, andb_true_iff, negb_true_iff, char_eqb_neq in Ht.
    cbn [String.list_ascii_of_string fmap list_fmap app match_here]. rewrite andb_true_r. cbn [orb].
    apply str_eqb_neq. intros [= ? _]. by apply Ht.
  - cbn [String.list_ascii_of_string fmap list_fmap app match_here]. destruct t as [|d t]; [done|].
    unfold one_line in *. rewrite free_of_cons, andb_true_iff in Ht. by rewrite IH, str_eqb_cons_cons by apply Ht.
Qed.

Lemma found_exactly_false s t : found_from (exactly s) false t = false.
Proof. induction t as [|d t IH]; [done|]. cbn [found_from]. rewrite IH. done. Qed.

Lemma found_exactly s t : one_line t = true -> found_from (exactly s) true t = (s =s t).
Proof.
  intros Ht. destruct t as [|d t]; cbn [found_from]; rewrite match_exactly by done; cbn [andb]; rewrite ?orb_false_r; [done|].
  by rewrite found_exactly_false, orb_false_r.
Qed.

Lemma found_in_exactly l t : one_line t = true -> found_in (exactly <$> l) t = existsb (fun a => a =s t) l.
Proof.
  intros Ht. induction l as [|a l IH]; [done|]. cbn. rewrite found_exactly by done. unfold found_in in IH. by rewrite IH.
Qed.

(** ** A driver and an engine that satisfy the laws *)

(** The text between two others. *)
Definition between (p q s : string) : option string :=
  let r := str_drop (String.length p) s in
  let x := str_take (String.length r - String.length q) r in
  if s =s p +:+ x +:+ q then Some x else None.

Lemma between_app p q x : between p q (p +:+ x +:+ q) = Some x.
Proof.
  unfold between. rewrite str_drop_app, length_app_str.
  replace (_ + _ - _)%nat with (String.length x) by lia. by rewrite str_take_app, str_eqb_refl.
Qed.

Definition plain_regex (r s : string) : bool := match regex_of r with Some p => found_in p s | None => false end.

Lemma plain_regex_law : regex_law plain_regex.
Proof. intros r p s H. unfold plain_regex. by rewrite H. Qed.

Definition plain_fromjson (s : string) : cpp doc :=
  match between "{ $in: [ /" "/, null ] }" s with
  | Some r => Ret (in_or_null r)
  | None => match between "{$in: [ /" "/, null] }" s with Some r => Ret (in_or_null r) | None => UB "exception of fromjson" end
  end.

Lemma plain_fromjson_law : fromjson_law plain_fromjson.
Proof.
  split; intros r _; unfold plain_fromjson; [by rewrite between_app|].
  assert (between "{ $in: [ /" "/, null ] }" ("{$in: [ /" +:+ r +:+ "/, null] }") = None) as ->; [|by rewrite between_app].
  unfold between. set (x := str_take _ _).
  assert (("{$in: [ /" +:+ r +:+ "/, null] }" =s "{ $in: [ /" +:+ x +:+ "/, null ] }") = false) as ->; [|done].
  apply str_eqb_neq. rewrite !app_cons_str. discriminate.
Qed.

(** The parts of a text that are between double quotes. *)
Fixpoint odds {A} (l : list A) : list A := match l with _ :: y :: l' => y :: odds l' | _ => [] end.
Definition quoted_parts (s : string) : list string := odds (split_on "034" s).

Lemma quotable_free s : quotable s = true -> free_of "034" s = true.
Proof. unfold quotable, free_of. apply str_all_impl. intros c. rewrite !andb_true_iff. tauto. Qed.

Lemma quoted_parts_step a x b : free_of "034" a = true -> free_of "034" x = true ->
  quoted_parts (a +:+ quoted x +:+ b) = x :: quoted_parts b.
Proof.
  intros Ha Hx. unfold quoted_parts, quoted. rewrite !app_assoc_str. unfold str1. rewrite !app_cons_str, !app_nil_l_str, !split_on_app by done. done.
Qed.

Lemma quoted_parts_end a : free_of "034" a = true -> quoted_parts a = [].
Proof. intros Ha. unfold quoted_parts. by rewrite split_on_free. Qed.

Lemma quoted_parts_skip a b : free_of "034" a = true -> quoted_parts (a +:+ b) = quoted_parts b.
Proof.
  intros Ha. unfold quoted_parts. induction a as [|c a IH]; [by rewrite app_nil_l_str|].
  rewrite free_of_cons, andb_true_iff, negb_true_iff in Ha. destruct Ha as [Hc Ha].
  rewrite app_cons_str. cbn [split_on]. rewrite Hc. rewrite <- IH by done.
  destruct (split_on_cons "034" (a +:+ b)) as (t & ts & ->). by destruct ts.
Qed.

Lemma quoted_parts_list l b : Forall (fun s => quotable s = true) l ->
  quoted_parts (join " ," (quoted <$> l) +:+ b) = l ++ quoted_parts b.
Proof.
  induction 1 as [|x [|y l] Hx _ IH]; [by rewrite app_nil_l_str|..].
  - cbn [fmap list_fmap join app]. rewrite <- (app_nil_l_str (quoted x +:+ b)). by apply quoted_parts_step, quotable_free.
  - change (join " ," (quoted <$> x :: y :: l)) with (quoted x +:+ " ," +:+ join " ," (quoted <$> y :: l)).
    rewrite !app_assoc_str, <- (app_nil_l_str (quoted x +:+ _)), quoted_parts_step by auto using quotable_free.
    cbn [app]. f_equal. by rewrite quoted_parts_skip.
Qed.

(** ** The evaluator on small queries *)

Example nested_array_values :
  values [("c", BsonArray [BsonObj [("e", BsonArray [BsonObj [("id", BsonString "a")]; BsonObj []])]])] "c.e.id"
  = [Some (BsonString "a"); None].
Proof. reflexivity. Qed.

(** Two conditions on the fields of an array may be met by two of its elements. *)
Example two_elements :
  selected (fun _ _ => false) (fun _ _ => false) [("e.id", BsonString "a"); ("e.t", BsonString "y")]
    [("e", BsonArray [BsonObj [("id", BsonString "a"); ("t", BsonString "x")]; BsonObj [("id", BsonString "b"); ("t", BsonString "y")]])]
  = true.
Proof. reflexivity. Qed.

(** An element of an array is compared field by field, in their order. *)
Example ordered_fields :
  let e := BsonObj [("id", BsonString "a"); ("t", BsonString "x")] in
  selected (fun _ _ => false) (fun _ _ => false)
    [("e", BsonObj [("$in", BsonArray [BsonObj [("t", BsonString "x"); ("id", BsonString "a")]])])] [("e", BsonArray [e])] = false /\
  selected (fun _ _ => false) (fun _ _ => false) [("e", BsonObj [("$in", BsonArray [e])])] [("e", BsonArray [e])] = true.
Proof. split; reflexivity. Qed.
