(* ===== verification/Compound.v ===== *)
(** * Compound values

    The tree of a structured attribute value: parse/CompoundValueNode.cpp (construction,
    add and clone), its BSON form (compoundValueBson of ngsi/ContextAttribute.cpp) and the
    reading back of that form (mongoBackend/compoundResponses.cpp).  The pointers
    [container] and [rootP] of the C++ node are not members here: whether a node is the
    root and the level of its container are arguments of clone. *)

From S2P Require Import Prelude Strings Double Bson.

Open Scope Z_scope.

(** orionTypes/OrionValueType.h *)
Inductive ValueType :=
  | ValueTypeUnknown | ValueTypeString | ValueTypeNumber | ValueTypeBoolean
  | ValueTypeVector | ValueTypeObject | ValueTypeNone.

#[export] Instance ValueType_eq_dec : EqDecision ValueType.
Proof. solve_decision. Defined.

Inductive CompoundValueNode := CVN {
  cvn_name : string;
  cvn_valueType : ValueType;
  cvn_stringValue : string;
  cvn_numberValue : double;
  cvn_boolValue : bool;
  cvn_siblingNo : Z;
  cvn_path : string;
  cvn_level : Z;
  cvn_childV : list CompoundValueNode
}.

Definition zero : double := S754_zero false.

(** CompoundValueNode::CompoundValueNode(orion::ValueType) *)
Definition toplevel (type : ValueType) : CompoundValueNode := CVN "toplevel" type "" zero false 0 "/" 0 [].

(** CompoundValueNode::add(CompoundValueNode* node) *)
Definition add (cvP node : CompoundValueNode) : CompoundValueNode :=
  CVN (cvn_name cvP) (cvn_valueType cvP) (cvn_stringValue cvP) (cvn_numberValue cvP) (cvn_boolValue cvP)
    (cvn_siblingNo cvP) (cvn_path cvP) (cvn_level cvP)
    (cvn_childV cvP ++
      [CVN (cvn_name node) (cvn_valueType node) (cvn_stringValue node) (cvn_numberValue node)
         (cvn_boolValue node) (Z.of_nat (length (cvn_childV cvP))) (cvn_path node) (cvn_level cvP + 1)
         (cvn_childV node)]).

(** The node clone makes, before its children are added; NULL for an unknown type, which the
    caller then dereferences. *)
Definition clone_node (root : bool) (containerLevel : Z) (n : CompoundValueNode) : cpp CompoundValueNode :=
  let make s d b := Ret (CVN (cvn_name n) (cvn_valueType n) s d b (cvn_siblingNo n) (cvn_path n)
                           (containerLevel + 1) []) in
  if root then Ret (toplevel (cvn_valueType n))
  else match cvn_valueType n with
       | ValueTypeString | ValueTypeObject | ValueTypeVector | ValueTypeNone => make (cvn_stringValue n) zero false
       | ValueTypeNumber => make "" (cvn_numberValue n) false
       | ValueTypeBoolean => make "" zero (cvn_boolValue n)
       | ValueTypeUnknown => UB "clone of a node of unknown type"
       end.

Definition clone_children (f : CompoundValueNode -> cpp CompoundValueNode) :=
  fix go (childV : list CompoundValueNode) (me : CompoundValueNode) : cpp CompoundValueNode :=
    match childV with
    | [] => Ret me
    | c :: r => c' ← f c; go r (add me c')
    end.

Fixpoint clone_at (root : bool) (containerLevel : Z) (n : CompoundValueNode) : cpp CompoundValueNode :=
  me ← clone_node root containerLevel n;
  match n with CVN _ _ _ _ _ _ _ level childV => clone_children (clone_at false level) childV me end.

(** CompoundValueNode::clone of a whole tree. *)
Definition clone (n : CompoundValueNode) : cpp CompoundValueNode := clone_at true 0 n.

(** ** To BSON *)

(** The two loops of compoundValueBson, given the value of a child; a child of unknown
    type is left out. *)
Definition array_items (f : CompoundValueNode -> option bson) :=
  fix go (children : list CompoundValueNode) : list bson :=
    match children with
    | [] => []
    | c :: r => match f c with Some v => v :: go r | None => go r end
    end.

Definition object_items (f : CompoundValueNode -> option bson) :=
  fix go (children : list CompoundValueNode) : doc :=
    match children with
    | [] => []
    | c :: r => match f c with Some v => (dbDotEncode (cvn_name c), v) :: go r | None => go r end
    end.

(** The value compoundValueBson appends for a node. *)
Fixpoint node_bson (n : CompoundValueNode) : option bson :=
  match n with
  | CVN _ vt s d b _ _ _ childV =>
      match vt with
      | ValueTypeString => Some (BsonString s)
      | ValueTypeNumber => Some (BsonNumber d)
      | ValueTypeBoolean => Some (BsonBool b)
      | ValueTypeNone => Some BsonNull
      | ValueTypeVector => Some (BsonArray (array_items node_bson childV))
      | ValueTypeObject => Some (BsonObj (object_items node_bson childV))
      | ValueTypeUnknown => None
      end
  end.

Definition compoundValueBson_array : list CompoundValueNode -> list bson := array_items node_bson.
Definition compoundValueBson_object : list CompoundValueNode -> doc := object_items node_bson.

(** ** From BSON *)

(** The child addCompoundNode adds for an element, if its type is known. *)
Definition add_elements (f : string -> bson -> option CompoundValueNode) :=
  fix go (o : doc) (cvP : CompoundValueNode) : CompoundValueNode :=
    match o with
    | [] => cvP
    | (k, v) :: o' => go o' (match f k v with Some c => add cvP c | None => cvP end)
    end.

Definition add_array (f : string -> bson -> option CompoundValueNode) :=
  fix go (ix : nat) (l : list bson) (cvP : CompoundValueNode) : CompoundValueNode :=
    match l with
    | [] => cvP
    | v :: l' => go (S ix) l' (match f (pretty ix) v with Some c => add cvP c | None => cvP end)
    end.

Fixpoint addCompoundNode (fieldName : string) (e : bson) : option CompoundValueNode :=
  let make vt s d b := CVN (dbDotDecode fieldName) vt s d b 0 "/" 0 [] in
  match e with
  | BsonString s => Some (make ValueTypeString s zero false)
  | BsonBool b => Some (make ValueTypeBoolean "" zero b)
  | BsonNumber d => Some (make ValueTypeNumber "" d false)
  | BsonNull => Some (make ValueTypeNone "" zero false)
  | BsonObj o => Some (add_elements addCompoundNode o (make ValueTypeObject "" zero false))
  | BsonArray l => Some (add_array addCompoundNode 0 l (make ValueTypeVector "" zero false))
  | BsonInt _ | BsonLong _ | BsonRegex _ => None
  end.

Definition compoundObjectResponse (o : doc) : CompoundValueNode :=
  add_elements addCompoundNode o (toplevel ValueTypeObject).
Definition compoundVectorResponse (l : list bson) : CompoundValueNode :=
  add_array addCompoundNode 0 l (toplevel ValueTypeVector).

(** ** Contents *)

(** What a tree says: a JSON value. *)
Inductive json :=
  | JNull
  | JBool (b : bool)
  | JNumber (d : double)
  | JString (s : string)
  | JArray (l : list json)
  | JObject (o : list (string * json)).

Fixpoint content (n : CompoundValueNode) : json :=
  match n with
  | CVN _ vt s d b _ _ _ childV =>
      match vt with
      | ValueTypeString => JString s
      | ValueTypeNumber => JNumber d
      | ValueTypeBoolean => JBool b
      | ValueTypeVector => JArray (map content childV)
      | ValueTypeObject => JObject (map (fun c => (cvn_name c, content c)) childV)
      | ValueTypeNone | ValueTypeUnknown => JNull
      end
  end.

(** A tree whose types are known and whose names have no '='. *)
Fixpoint storable (n : CompoundValueNode) : bool :=
  match n with
  | CVN name vt _ _ _ _ _ _ childV =>
      negb (bool_decide (vt = ValueTypeUnknown)) && negb (str_any (fun c => c =c "="%char) name)
      && forallb storable childV
  end.

(** ** Lemmas *)

Lemma node_induction (P : CompoundValueNode -> Prop) :
  (forall name vt s d b sib path lvl childV, Forall P childV -> P (CVN name vt s d b sib path lvl childV)) ->
  forall n, P n.
Proof.
  intros H. fix IH 1. intros [name vt s d b sib path lvl childV]. apply H.
  induction childV as [|c r IHr]; constructor; [apply IH|exact IHr].
Qed.

(** The content of a child is that of the node added, and so is its name. *)
Lemma add_childV cvP n : exists n',
  cvn_childV (add cvP n) = cvn_childV cvP ++ [n'] /\ content n' = content n /\ cvn_name n' = cvn_name n.
Proof. eexists. split; [done|]. by destruct n. Qed.

(** Two lists of nodes with the same names and contents. *)
Definition same_child (c1 c2 : CompoundValueNode) : Prop := cvn_name c1 = cvn_name c2 /\ content c1 = content c2.

Lemma same_children_content l1 l2 : Forall2 same_child l1 l2 ->
  map content l1 = map content l2
  /\ map (fun c => (cvn_name c, content c)) l1 = map (fun c => (cvn_name c, content c)) l2.
Proof.
  induction 1 as [|c1 c2 l1 l2 [Hn Hc] _ [IH1 IH2]]; [done|]. cbn. by rewrite Hn, Hc, IH1, IH2.
Qed.

Lemma same_child_add cvP n c l : Forall2 same_child (cvn_childV cvP) l -> same_child n c ->
  Forall2 same_child (cvn_childV (add cvP n)) (l ++ [c]).
Proof.
  intros Hl [Hn Hc]. destruct (add_childV cvP n) as (n' & -> & Hc' & Hn').
  apply Forall2_app; [done|]. constructor; [|done]. split; congruence.
Qed.

Lemma content_ext n m : cvn_valueType n = cvn_valueType m ->
  (cvn_valueType m = ValueTypeString -> cvn_stringValue n = cvn_stringValue m) ->
  (cvn_valueType m = ValueTypeNumber -> cvn_numberValue n = cvn_numberValue m) ->
  (cvn_valueType m = ValueTypeBoolean -> cvn_boolValue n = cvn_boolValue m) ->
  Forall2 same_child (cvn_childV n) (cvn_childV m) -> content n = content m.
Proof.
  destruct n as [? vt ? ? ? ? ? ? cs], m as [? vt' ? ? ? ? ? ? cs']. cbn. intros -> Hs Hd Hb Hc.
  destruct (same_children_content _ _ Hc) as [H1 H2].
  destruct vt'; f_equal; auto.
Qed.

(** ** Cloning *)

Lemma clone_children_spec lvl childV me l :
  Forall (fun c => exists m, clone_at false lvl c = Ret m /\ same_child m c) childV ->
  Forall2 same_child (cvn_childV me) l ->
  exists m, clone_children (clone_at false lvl) childV me = Ret m /\
    Forall2 same_child (cvn_childV m) (l ++ childV) /\ cvn_name m = cvn_name me
    /\ cvn_valueType m = cvn_valueType me /\ cvn_stringValue m = cvn_stringValue me
    /\ cvn_numberValue m = cvn_numberValue me /\ cvn_boolValue m = cvn_boolValue me.
Proof.
  intros H. revert me l. induction H as [|c r (c' & Hc & Hs) _ IH]; intros me l Hl; cbn.
  - exists me. rewrite app_nil_r. by split_and!.
  - rewrite Hc. cbn [mbind cpp_bind]. destruct (IH (add me c') (l ++ [c])) as (m & -> & Hm & Hrest).
    + by apply same_child_add.
    + exists m. rewrite <- app_assoc in Hm. split; [done|]. by split.
Qed.

Lemma clone_at_spec n : storable n = true ->
  forall root lvl, (root = true -> cvn_valueType n = ValueTypeObject \/ cvn_valueType n = ValueTypeVector) ->
  exists m, clone_at root lvl n = Ret m /\ content m = content n /\ (root = false -> cvn_name m = cvn_name n).
Proof.
  induction n as [name vt s d b sib path l childV IH] using node_induction.
  cbn [storable]. intros [[Hvt _]%andb_true_iff Hc]%andb_true_iff root lvl Hroot.
  apply negb_true_iff, bool_decide_eq_false in Hvt. cbn in Hroot.
  assert (exists me, clone_node root lvl (CVN name vt s d b sib path l childV) = Ret me /\
    cvn_childV me = [] /\ (root = false -> cvn_name me = name) /\ cvn_valueType me = vt /\
    (vt = ValueTypeString -> cvn_stringValue me = s) /\ (vt = ValueTypeNumber -> cvn_numberValue me = d) /\
    (vt = ValueTypeBoolean -> cvn_boolValue me = b)) as (me & E & Hch & Hn & Ht & Hs & Hd & Hb).
  { unfold clone_node. destruct root; cbn.
    - eexists. split; [done|]. split_and!; try done; intros ->; by destruct (Hroot eq_refl).
    - destruct vt; try done; eexists; (split; [done|]); by split_and!. }
  cbn [clone_at]. rewrite E. cbn [mbind cpp_bind].
  destruct (clone_children_spec l childV me []) as (m & Hm & H2 & Hn' & Ht' & Hs' & Hd' & Hb').
  - rewrite Forall_forall in *. intros c Hin. rewrite forallb_forall in Hc.
    destruct (IH c Hin (Hc c (proj1 (list_elem_of_In _ _) Hin)) false l) as (m & -> & ? & Hm); [done|].
    exists m. split; [done|]. split; auto.
  - by rewrite Hch.
  - exists m. split; [exact Hm|]. split; [|intros Hf; rewrite Hn'; auto].
    apply content_ext; cbn; [congruence|rewrite Hs'; auto|rewrite Hd'; auto|rewrite Hb'; auto|exact H2].
Qed.

(** Cloning a tree never fails and keeps its content (names, types, values, order), when
    the types of its nodes are known and its root is an object or a vector. *)
Theorem clone_content n :
  storable n = true -> cvn_valueType n = ValueTypeObject \/ cvn_valueType n = ValueTypeVector ->
  exists m, clone n = Ret m /\ content m = content n.
Proof.
  intros Hs Hr. destruct (clone_at_spec n Hs true 0) as (m & Hm & Hc & _); [done|]. by exists m.
Qed.

(** ** Storing and reading back *)

Lemma add_elements_spec f childV o cvP l :
  Forall2 (fun kv c => exists n, f kv.1 kv.2 = Some n /\ same_child n c) o childV ->
  Forall2 same_child (cvn_childV cvP) l ->
  Forall2 same_child (cvn_childV (add_elements f o cvP)) (l ++ childV)
  /\ cvn_valueType (add_elements f o cvP) = cvn_valueType cvP /\ cvn_name (add_elements f o cvP) = cvn_name cvP.
Proof.
  intros H. revert cvP l. induction H as [|[k v] c o r (n & Hn & Hs) _ IH]; intros cvP l Hl; cbn.
  - by rewrite app_nil_r.
  - cbn in Hn. rewrite Hn. specialize (IH (add cvP n) (l ++ [c]) (same_child_add _ _ _ _ Hl Hs)).
    by rewrite <- app_assoc in IH.
Qed.

Lemma add_array_spec f childV ix vs cvP l :
  Forall2 (fun v c => forall k, exists n, f k v = Some n /\ content n = content c) vs childV ->
  Forall2 (fun a b => content a = content b) (cvn_childV cvP) l ->
  Forall2 (fun a b => content a = content b) (cvn_childV (add_array f ix vs cvP)) (l ++ childV)
  /\ cvn_valueType (add_array f ix vs cvP) = cvn_valueType cvP /\ cvn_name (add_array f ix vs cvP) = cvn_name cvP.
Proof.
  intros H. revert ix cvP l. induction H as [|v c vs r Hv _ IH]; intros ix cvP l Hl; cbn.
  - by rewrite app_nil_r.
  - destruct (Hv (pretty ix)) as (n & -> & Hc).
    destruct (IH (S ix) (add cvP n) (l ++ [c])) as [H1 H2].
    + destruct (add_childV cvP n) as (n' & -> & Hc' & _). apply Forall2_app; [done|].
      constructor; [by rewrite Hc'|done].
    + by rewrite <- app_assoc in H1.
Qed.

Lemma contents_map l1 l2 : Forall2 (fun a b => content a = content b) l1 l2 -> map content l1 = map content l2.
Proof. induction 1; cbn; congruence. Qed.

Lemma node_bson_storable n : storable n = true -> exists v, node_bson n = Some v.
Proof. destruct n as [? vt ? ? ? ? ? ? ?]. cbn. destruct vt; try done; eauto. Qed.

Lemma object_items_all childV : Forall (fun c => storable c = true) childV ->
  Forall2 (fun kv c => kv.1 = dbDotEncode (cvn_name c) /\ node_bson c = Some kv.2)
    (object_items node_bson childV) childV.
Proof.
  induction 1 as [|c r Hc _ IH]; [constructor|]. cbn.
  destruct (node_bson_storable c Hc) as [v Hv]. rewrite Hv. by constructor.
Qed.

Lemma array_items_all childV : Forall (fun c => storable c = true) childV ->
  Forall2 (fun v c => node_bson c = Some v) (array_items node_bson childV) childV.
Proof.
  induction 1 as [|c r Hc _ IH]; [constructor|]. cbn.
  destruct (node_bson_storable c Hc) as [v Hv]. rewrite Hv. by constructor.
Qed.

Lemma storable_name n : storable n = true -> dbDotDecode (dbDotEncode (cvn_name n)) = cvn_name n.
Proof.
  destruct n. cbn. intros [[_ H]%andb_true_iff _]%andb_true_iff. apply negb_true_iff in H. by apply dbDot_roundtrip.
Qed.

Lemma storable_children n : storable n = true -> Forall (fun c => storable c = true) (cvn_childV n).
Proof.
  destruct n. cbn. intros [_ H]%andb_true_iff. rewrite forallb_forall in H. apply Forall_forall.
  intros c Hin. by apply H, list_elem_of_In.
Qed.

(** The children read from the document of an object. *)
Lemma read_object childV cvP : Forall (fun c => storable c = true) childV ->
  Forall (fun c => forall v k, node_bson c = Some v ->
    exists m, addCompoundNode k v = Some m /\ content m = content c /\ cvn_name m = dbDotDecode k) childV ->
  cvn_childV cvP = [] ->
  Forall2 same_child (cvn_childV (add_elements addCompoundNode (object_items node_bson childV) cvP)) childV
  /\ cvn_valueType (add_elements addCompoundNode (object_items node_bson childV) cvP) = cvn_valueType cvP
  /\ cvn_name (add_elements addCompoundNode (object_items node_bson childV) cvP) = cvn_name cvP.
Proof.
  intros Hs IH Hc. apply (add_elements_spec addCompoundNode childV _ cvP []); [|by rewrite Hc].
  pose proof (object_items_all childV Hs) as H. induction H as [|[k v] c o r [Hk Hv] _ IHr]; [constructor|].
  apply Forall_cons in Hs as [Hs1 Hs], IH as [IH1 IH]. cbn in Hk. constructor; [|by apply IHr].
  destruct (IH1 v k Hv) as (m & Hm & Hcm & Hn). exists m. split; [done|]. split; [|done].
  rewrite Hn, Hk. by apply storable_name.
Qed.

Lemma read_array childV cvP : Forall (fun c => storable c = true) childV ->
  Forall (fun c => forall v k, node_bson c = Some v ->
    exists m, addCompoundNode k v = Some m /\ content m = content c /\ cvn_name m = dbDotDecode k) childV ->
  cvn_childV cvP = [] ->
  map content (cvn_childV (add_array addCompoundNode 0 (array_items node_bson childV) cvP)) = map content childV
  /\ cvn_valueType (add_array addCompoundNode 0 (array_items node_bson childV) cvP) = cvn_valueType cvP
  /\ cvn_name (add_array addCompoundNode 0 (array_items node_bson childV) cvP) = cvn_name cvP.
Proof.
  intros Hs IH Hc.
  destruct (add_array_spec addCompoundNode childV 0 (array_items node_bson childV) cvP []) as [H1 H2].
  - pose proof (array_items_all childV Hs) as H. induction H as [|v c vs r Hv _ IHr]; [constructor|].
    apply Forall_cons in Hs as [Hs1 Hs], IH as [IH1 IH]. constructor; [|by apply IHr].
    intros k. destruct (IH1 v k Hv) as (m & Hm & Hcm & _). by exists m.
  - by rewrite Hc.
  - split; [by apply contents_map|done].
Qed.

Lemma element_roundtrip n : storable n = true -> forall v k, node_bson n = Some v ->
  exists m, addCompoundNode k v = Some m /\ content m = content n /\ cvn_name m = dbDotDecode k.
Proof.
  induction n as [name vt s d b sib path lvl childV IH] using node_induction. intros Hs v k Hv.
  pose proof (storable_children _ Hs) as Hch. cbn in Hch.
  assert (Forall (fun c => forall v k, node_bson c = Some v -> exists m,
    addCompoundNode k v = Some m /\ content m = content c /\ cvn_name m = dbDotDecode k) childV) as IH'.
  { rewrite Forall_forall in *. intros c Hin. apply IH; [done|by apply Hch]. }
  clear IH Hs. cbn in Hv. destruct vt; try done; injection Hv as <-; cbn; try by eexists.
  - eexists. split; [done|].
    destruct (read_array childV (CVN (dbDotDecode k) ValueTypeVector "" zero false 0 "/" 0 []) Hch IH' eq_refl)
      as (H1 & H2 & H3).
    destruct (add_array _ _ _ _) as [? vt ? ? ? ? ? ? cs]. cbn in *. subst vt. split; [|done]. by f_equal.
  - eexists. split; [done|].
    destruct (read_object childV (CVN (dbDotDecode k) ValueTypeObject "" zero false 0 "/" 0 []) Hch IH' eq_refl)
      as (H1 & H2 & H3).
    destruct (add_elements _ _ _) as [? vt ? ? ? ? ? ? cs]. cbn in *. subst vt. split; [|done].
    f_equal. by apply same_children_content.
Qed.

(** A structured value that is stored and read back has the content it had: the same
    names, values and order at every level, for a tree of known types whose names have no
    '=' (the character that stands for a dot in the database). *)
Theorem compound_roundtrip n : storable n = true ->
  match node_bson n with
  | Some (BsonObj o) => content (compoundObjectResponse o) = content n
  | Some (BsonArray l) => content (compoundVectorResponse l) = content n
  | _ => cvn_valueType n <> ValueTypeObject /\ cvn_valueType n <> ValueTypeVector
  end.
Proof.
  intros Hs. pose proof (storable_children n Hs) as Hch.
  assert (Forall (fun c => forall v k, node_bson c = Some v -> exists m,
    addCompoundNode k v = Some m /\ content m = content c /\ cvn_name m = dbDotDecode k) (cvn_childV n)) as Hr.
  { eapply Forall_impl; [exact Hch|]. intros c. apply element_roundtrip. }
  destruct n as [name vt s d b sib path lvl childV]. cbn in Hch, Hr. cbn. clear Hs. destruct vt; try done.
  - destruct (read_array childV (toplevel ValueTypeVector) Hch Hr eq_refl) as (H1 & H2 & _).
    unfold compoundVectorResponse. destruct (add_array _ _ _ _) as [? vt ? ? ? ? ? ? cs]. cbn in *. subst vt.
    by f_equal.
  - destruct (read_object childV (toplevel ValueTypeObject) Hch Hr eq_refl) as (H1 & H2 & _).
    unfold compoundObjectResponse. destruct (add_elements _ _ _) as [? vt ? ? ? ? ? ? cs]. cbn in *. subst vt.
    f_equal. by apply same_children_content.
Qed.

(** ** Witnesses *)

Definition sample_tree : CompoundValueNode :=
  add (add (toplevel ValueTypeObject) (CVN "a.b" ValueTypeString "x" zero false 0 "/a.b" 1 []))
    (add (CVN "v" ValueTypeVector "" zero false 1 "/v" 1 []) (CVN "" ValueTypeNumber "" (double_of_Z 3) false 0 "/v/" 2 [])).

Lemma clone_content_witness : exists m, clone sample_tree = Ret m /\ content m = content sample_tree.
Proof. exact (clone_content sample_tree eq_refl (or_introl eq_refl)). Defined.

Lemma compound_roundtrip_witness :
  content (compoundObjectResponse (object_items node_bson (cvn_childV sample_tree))) = content sample_tree.
Proof. exact (compound_roundtrip sample_tree eq_refl). Defined.
