(* ===== verification/Ngsi.v ===== *)
(** * NGSI data

    The data structures of src/src/lib/ngsi/ that the filter, the subscription cache
    and the update code work on: Metadata, ContextAttribute, EntityId, ContextElement,
    NotifyCondition, StatusCode, with the constructors and methods those components
    call.  A constructor that leaves a member unassigned takes the value the memory
    held before as an argument. *)

From S2P Require Import Prelude Strings Double Compound Bson.

Open Scope Z_scope.

Definition DEFAULT_TYPE : string := "none".

(** ** Metadata *)

Record Metadata := mkMetadata {
  md_name : string;
  md_type : string;
  md_valueType : ValueType;
  md_stringValue : string;
  md_numberValue : double;
  md_boolValue : bool;
  md_typeGiven : bool
}.

Definition NGSI_MD_ID : string := "ID".
Definition NGSI_MD_LOCATION : string := "location".
Definition NGSI_MD_CREDATE : string := "creDate".
Definition NGSI_MD_MODDATE : string := "modDate".

(** Metadata::Metadata(name, type, value), for a string value. *)
Definition Metadata_string (name type value : string) (memNumber : double) (memBool : bool) : Metadata :=
  mkMetadata name type ValueTypeString value memNumber memBool false.

(** Metadata::Metadata(const BSONObj& mdB): the members the value does not set are not
    assigned. *)
Definition Metadata_of_bson (mem : Metadata) (mdB : doc) : Metadata :=
  let type := if hasField mdB ENT_ATTRS_MD_TYPE then getStringField mdB ENT_ATTRS_MD_TYPE else "" in
  let make vt s n b := mkMetadata (getStringField mdB ENT_ATTRS_MD_NAME) type vt s n b (negb (type =s "")) in
  match getField mdB ENT_ATTRS_MD_VALUE with
  | Some (BsonString s) => make ValueTypeString s (md_numberValue mem) (md_boolValue mem)
  | Some (BsonNumber d) => make ValueTypeNumber "" d (md_boolValue mem)
  | Some (BsonBool b) => make ValueTypeBoolean "" (md_numberValue mem) b
  | Some BsonNull => make ValueTypeNone "" (md_numberValue mem) (md_boolValue mem)
  | _ => make ValueTypeUnknown "" (md_numberValue mem) (md_boolValue mem)
  end.

(** Metadata::Metadata(Metadata* mP, bool useDefaultType) *)
Definition Metadata_copy (m : Metadata) (useDefaultType : bool) : Metadata :=
  mkMetadata (md_name m)
    (if useDefaultType && negb (md_typeGiven m) then DEFAULT_TYPE else md_type m)
    (md_valueType m) (md_stringValue m) (md_numberValue m) (md_boolValue m) (md_typeGiven m).

(** ** ContextAttribute *)

Record ContextAttribute := mkContextAttribute {
  ca_name : string;
  ca_type : string;
  ca_metadataVector : list Metadata;
  ca_valueType : ValueType;
  ca_stringValue : string;
  ca_numberValue : double;
  ca_boolValue : bool;
  ca_providingApplication : string;
  ca_found : bool;
  ca_skip : bool;
  ca_compoundValueP : option CompoundValueNode;
  ca_typeGiven : bool
}.

(** ContextAttribute::ContextAttribute(): numberValue and boolValue are not assigned. *)
Definition ContextAttribute_new (memNumber : double) (memBool : bool) : ContextAttribute :=
  mkContextAttribute "" "" [] ValueTypeString "" memNumber memBool "" false false None false.

(** ContextAttribute::ContextAttribute(ContextAttribute* caP, bool useDefaultType): the new
    attribute, and what is left of the source, whose compound value has moved away. *)
Definition ContextAttribute_copy (ca : ContextAttribute) (useDefaultType : bool)
    : ContextAttribute * ContextAttribute :=
  (mkContextAttribute (ca_name ca)
    (if useDefaultType && negb (ca_typeGiven ca) then DEFAULT_TYPE else ca_type ca)
    ((fun m => Metadata_copy m useDefaultType) <$> ca_metadataVector ca)
    (ca_valueType ca) (ca_stringValue ca) (ca_numberValue ca) (ca_boolValue ca)
    (ca_providingApplication ca) (ca_found ca) false (ca_compoundValueP ca) (ca_typeGiven ca),
   mkContextAttribute (ca_name ca) (ca_type ca) (ca_metadataVector ca) (ca_valueType ca)
    (ca_stringValue ca) (ca_numberValue ca) (ca_boolValue ca) (ca_providingApplication ca)
    (ca_found ca) (ca_skip ca) None (ca_typeGiven ca)).

(** ContextAttribute::ContextAttribute(name, type, const std::string& value, found) *)
Definition ContextAttribute_string (name type value : string) (found : bool)
    (memNumber : double) (memBool : bool) : ContextAttribute :=
  mkContextAttribute name type [] ValueTypeString value memNumber memBool "" found false None false.

(** ContextAttribute::ContextAttribute(name, type, double value, found) *)
Definition ContextAttribute_number (name type : string) (value : double) (found : bool)
    (memBool : bool) : ContextAttribute :=
  mkContextAttribute name type [] ValueTypeNumber "" value memBool "" found false None false.

(** ContextAttribute::ContextAttribute(name, type, bool value, found) *)
Definition ContextAttribute_bool (name type : string) (value : bool) (found : bool)
    (memNumber : double) : ContextAttribute :=
  mkContextAttribute name type [] ValueTypeBoolean "" memNumber value "" found false None false.

Definition DATE_TYPE : string := "date".
Definition DATE_CREATED : string := "dateCreated".
Definition DATE_MODIFIED : string := "dateModified".
Definition GEO_POINT : string := "geo:point".
Definition GEO_LINE : string := "geo:line".
Definition GEO_BOX : string := "geo:box".
Definition GEO_POLYGON : string := "geo:polygon".
Definition GEO_JSON : string := "geo:json".
Definition LOCATION_WGS84 : string := "WGS84".
Definition LOCATION_WGS84_LEGACY : string := "WSG84".

(** The stringValue of the first metadata of that name. *)
Fixpoint first_metadata (name : string) (mdV : list Metadata) : option string :=
  match mdV with
  | [] => None
  | md :: mdV' => if md_name md =s name then Some (md_stringValue md) else first_metadata name mdV'
  end.

Definition getId (ca : ContextAttribute) : string :=
  default "" (first_metadata NGSI_MD_ID (ca_metadataVector ca)).

Definition getLocation (ca : ContextAttribute) (apiVersion : string) : string :=
  if apiVersion =s "v1" then
    match first_metadata NGSI_MD_LOCATION (ca_metadataVector ca) with
    | Some l => l
    | None => if ca_type ca =s GEO_POINT then LOCATION_WGS84 else ""
    end
  else if (ca_type ca =s GEO_POINT) || (ca_type ca =s GEO_LINE) || (ca_type ca =s GEO_BOX)
          || (ca_type ca =s GEO_POLYGON) || (ca_type ca =s GEO_JSON)
  then LOCATION_WGS84
  else "".

(** ContextAttribute::bsonAppendAttrValue: what is appended to the builder. *)
Definition bsonAppendAttrValue (ca : ContextAttribute) : doc :=
  match ca_valueType ca with
  | ValueTypeString => [(ENT_ATTRS_VALUE, BsonString (ca_stringValue ca))]
  | ValueTypeNumber => [(ENT_ATTRS_VALUE, BsonNumber (ca_numberValue ca))]
  | ValueTypeBoolean => [(ENT_ATTRS_VALUE, BsonBool (ca_boolValue ca))]
  | ValueTypeNone => [(ENT_ATTRS_VALUE, BsonNull)]
  | _ => []
  end.

(** ContextAttribute::valueBson *)
Definition valueBson (ca : ContextAttribute) : doc :=
  match ca_compoundValueP ca with
  | None => bsonAppendAttrValue ca
  | Some n => match node_bson n with Some v => [(ENT_ATTRS_VALUE, v)] | None => [] end
  end.

(** ** Entities *)

Record EntityId := mkEntityId {
  eid_id : string;
  eid_type : string;
  eid_isPattern : string;
  eid_servicePath : string
}.

Record ContextElement := mkContextElement {
  ce_entityId : EntityId;
  ce_contextAttributeVector : list ContextAttribute;
  ce_creDate : double;
  ce_modDate : double
}.

(** ContextElement::getAttribute: the first attribute of that name, NULL if none. *)
Fixpoint find_attribute (attrName : string) (cav : list ContextAttribute) : option ContextAttribute :=
  match cav with
  | [] => None
  | ca :: cav' => if ca_name ca =s attrName then Some ca else find_attribute attrName cav'
  end.

Definition getAttribute (ce : ContextElement) (attrName : string) : option ContextAttribute :=
  find_attribute attrName (ce_contextAttributeVector ce).

(** ** Subscriptions *)

Record NotifyCondition := mkNotifyCondition {
  nc_type : string;
  nc_condValueList : list string
}.

Definition ON_CHANGE_CONDITION : string := "ONCHANGE".

(** common/RenderFormat.h *)
Inductive RenderFormat :=
  | NO_FORMAT | NGSI_V1_LEGACY | NGSI_V2_NORMALIZED | NGSI_V2_KEYVALUES | NGSI_V2_VALUES
  | NGSI_V2_UNIQUE_VALUES.

#[export] Instance RenderFormat_eq_dec : EqDecision RenderFormat.
Proof. solve_decision. Defined.
