(* ===== verification/AttrUpdate.v ===== *)
(** * Updating one attribute of a stored entity

    mongoBackend/MongoCommonUpdate.cpp, from isNotCustomMetadata to deleteAttribute: when a
    stored attribute and the attribute of a request differ, how they are merged, and
    what is added to the $set, $unset and $push parts of the update.  A builder is the
    list of what was appended to it; [now] is what getCurrentTime answers. *)

From S2P Require Import Prelude Strings Double Compound Bson Ngsi.

Open Scope Z_scope.

(** ** Metadata *)

(** True for the metadata the broker itself interprets (the name says the opposite). *)
Definition isNotCustomMetadata (md : string) : bool :=
  negb (negb (md =s NGSI_MD_ID) && negb (md =s NGSI_MD_LOCATION)
        && negb (md =s NGSI_MD_CREDATE) && negb (md =s NGSI_MD_MODDATE)).

Definition hasMetadata (name : string) (ca : ContextAttribute) : bool :=
  existsb (fun md => md_name md =s name) (ca_metadataVector ca).

Definition matchMetadata (md1 md2 : doc) : bool :=
  getStringField md1 ENT_ATTRS_MD_NAME =s getStringField md2 ENT_ATTRS_MD_NAME.

(** The comparison of two fields of the same BSON type in equalMetadataValues. *)
Definition equalFields (f1 f2 : option bson) : bool :=
  match f1, f2 with
  | Some (BsonNumber a), Some (BsonNumber b) => deq a b
  | Some (BsonBool a), Some (BsonBool b) => Bool.eqb a b
  | Some (BsonString a), Some (BsonString b) => a =s b
  | Some BsonNull, Some BsonNull => true
  | _, _ => false
  end.

Definition equalMetadataValues (md1 md2 : doc) : bool :=
  let t1 := hasField md1 ENT_ATTRS_MD_TYPE in
  let t2 := hasField md2 ENT_ATTRS_MD_TYPE in
  if (t1 && negb t2) || (negb t1 && t2) then false
  else if t1 && t2 && negb (equalFields (getField md1 ENT_ATTRS_MD_TYPE) (getField md2 ENT_ATTRS_MD_TYPE))
  then false
  else equalFields (getField md1 ENT_ATTRS_MD_VALUE) (getField md2 ENT_ATTRS_MD_VALUE).

(** The inner loop, up to the first metadata of the same name: false when it differs. *)
Fixpoint equal_to_match (md1 : doc) (mdV2 : list doc) : bool :=
  match mdV2 with
  | [] => true
  | md2 :: mdV2' => if matchMetadata md1 md2 then equalMetadataValues md1 md2 else equal_to_match md1 mdV2'
  end.

Fixpoint equalMetadataVectors (mdV1 mdV2 : list doc) : bool :=
  match mdV1 with
  | [] => true
  | md1 :: mdV1' => equal_to_match md1 mdV2 && equalMetadataVectors mdV1' mdV2
  end.

Definition appendMetadata (md : Metadata) (useDefaultType : bool) : list doc :=
  let type := if negb (md_typeGiven md) && useDefaultType then DEFAULT_TYPE else md_type md in
  let fields v := (ENT_ATTRS_MD_NAME, BsonString (md_name md))
    :: (if negb (type =s "") then [(ENT_ATTRS_MD_TYPE, BsonString type)] else [])
    ++ [(ENT_ATTRS_MD_VALUE, v)] in
  match md_valueType md with
  | ValueTypeString => [fields (BsonString (md_stringValue md))]
  | ValueTypeNumber => [fields (BsonNumber (md_numberValue md))]
  | ValueTypeBoolean => [fields (BsonBool (md_boolValue md))]
  | ValueTypeNone => [fields BsonNull]
  | _ => []
  end.

(** The metadata of the request the broker does not interpret. *)
Definition contextAttributeCustomMetadataToBson (ca : ContextAttribute) (useDefaultType : bool)
    : list doc :=
  flat_map (fun md => if negb (isNotCustomMetadata (md_name md)) then appendMetadata md useDefaultType else [])
    (ca_metadataVector ca).

Definition md_field (mdV : list doc) : string * bson := (ENT_ATTRS_MD, BsonArray (BsonObj <$> mdV)).

(** ** Changes *)

Definition attributeValueAbsent (ca : ContextAttribute) (apiVersion : string) : bool :=
  bool_decide (ca_valueType ca = ValueTypeNone) && (apiVersion =s "v1").

Definition attributeTypeAbsent (ca : ContextAttribute) : bool := ca_type ca =s "".

Definition attrValueChanges (attr : doc) (ca : ContextAttribute) (apiVersion : string) : bool :=
  let vt := ca_valueType ca in
  match getField attr ENT_ATTRS_VALUE with
  | None => negb (bool_decide (vt = ValueTypeString)) || negb (ca_stringValue ca =s "")
  | Some v =>
      if bool_decide (vt = ValueTypeNone) && negb (apiVersion =s "v2") then false
      else
        match v with
        | BsonObj _ | BsonArray _ => true
        | BsonNumber d => negb (bool_decide (vt = ValueTypeNumber)) || negb (deq (ca_numberValue ca) d)
        | BsonBool b => negb (bool_decide (vt = ValueTypeBoolean)) || negb (Bool.eqb (ca_boolValue ca) b)
        | BsonString s => negb (bool_decide (vt = ValueTypeString)) || negb (ca_stringValue ca =s s)
        | BsonNull => negb (bool_decide (vt = ValueTypeNone))
        | BsonInt _ | BsonLong _ | BsonRegex _ => false
        end
  end.

(** ** Merging *)

(** 1. The value: the request's, or the stored one. *)
Definition merged_value (attr : doc) (ca : ContextAttribute) (apiVersion : string) : doc :=
  if negb (attributeValueAbsent ca apiVersion) then valueBson ca
  else match getField attr ENT_ATTRS_VALUE with
       | Some (BsonInt _) | Some (BsonLong _) | Some (BsonRegex _) | None => []
       | Some v => [(ENT_ATTRS_VALUE, v)]
       end.

(** 2. The type. *)
Definition merged_type (attr : doc) (ca : ContextAttribute) : doc :=
  if negb (ca_type ca =s "") then [(ENT_ATTRS_TYPE, BsonString (ca_type ca))]
  else if hasField attr ENT_ATTRS_TYPE then [(ENT_ATTRS_TYPE, BsonString (getStringField attr ENT_ATTRS_TYPE))]
  else [].

(** 3. The metadata: of the request, then the stored ones the request does not name. *)
Definition merged_metadata (mem : Metadata) (mdV : list doc) (ca : ContextAttribute) (apiVersion : string)
    : list doc :=
  contextAttributeCustomMetadataToBson ca (apiVersion =s "v2")
  ++ flat_map (fun d => let md := Metadata_of_bson mem d in
                        if negb (hasMetadata (md_name md) ca) then appendMetadata md (apiVersion =s "v2") else [])
       mdV.

(** The merged attribute, and whether it was an actual update. *)
Definition mergeAttrInfo (mem : Metadata) (now : Z) (attr : doc) (ca : ContextAttribute) (apiVersion : string)
    : cpp (doc * bool) :=
  mdV ← (if hasField attr ENT_ATTRS_MD then o ← embeddedObject (getField attr ENT_ATTRS_MD); documents o
         else Ret []);
  let mdNewV := merged_metadata mem mdV ca apiVersion in
  let actualUpdate :=
    match ca_compoundValueP ca with
    | Some _ => true
    | None =>
        attrValueChanges attr ca apiVersion
        || (negb (ca_type ca =s "")
            && (negb (hasField attr ENT_ATTRS_TYPE) || negb (getStringField attr ENT_ATTRS_TYPE =s ca_type ca)))
        || negb (length mdNewV =? length mdV)%nat
        || negb (equalMetadataVectors mdV mdNewV)
    end in
  Ret (merged_value attr ca apiVersion ++ merged_type attr ca
       ++ (if (length mdNewV =? 0)%nat then [] else [md_field mdNewV])
       ++ (if hasField attr ENT_ATTRS_CREATION_DATE
           then [(ENT_ATTRS_CREATION_DATE, BsonInt (getIntField attr ENT_ATTRS_CREATION_DATE))] else [])
       ++ (if actualUpdate then [(ENT_ATTRS_MODIFICATION_DATE, BsonInt now)]
           else if hasField attr ENT_ATTRS_MODIFICATION_DATE
           then [(ENT_ATTRS_MODIFICATION_DATE, BsonInt (getIntField attr ENT_ATTRS_MODIFICATION_DATE))] else []),
       actualUpdate).

(** ** The update of one attribute *)

(** The parts of the update of an entity that the attributes add to: toSet, toUnset, toPush. *)
Record Update := mkUpdate {
  toSet : doc;
  toUnset : doc;
  toPush : list string;
  toPull : list string
}.

Definition add_set (name : string) (v : bson) (u : Update) : Update :=
  mkUpdate (toSet u ++ [(name, v)]) (toUnset u) (toPush u) (toPull u).
Definition add_unset (name : string) (u : Update) : Update :=
  mkUpdate (toSet u) (toUnset u ++ [(name, BsonInt 1)]) (toPush u) (toPull u).
Definition add_push (name : string) (u : Update) : Update :=
  mkUpdate (toSet u) (toUnset u) (toPush u ++ [name]) (toPull u).
Definition add_pull (name : string) (u : Update) : Update :=
  mkUpdate (toSet u) (toUnset u) (toPush u) (toPull u ++ [name]).

(** Attributes with metadata ID are stored as <attrName>__<ID>. *)
Definition effectiveName (ca : ContextAttribute) : string :=
  dbDotEncode (ca_name ca) +:+ (if negb (getId ca =s "") then "__" +:+ getId ca else "").

Definition composedName (ca : ContextAttribute) : string := ENT_ATTRS +:+ "." +:+ effectiveName ca.

Definition new_type (ca : ContextAttribute) (apiVersion : string) : string * bson :=
  (ENT_ATTRS_TYPE, BsonString (if negb (ca_typeGiven ca) && (apiVersion =s "v2") then DEFAULT_TYPE else ca_type ca)).

(** Whether the attribute was found, actualUpdate, and the update.  In a replacement the
    metadata field is added even when there is no metadata: a semicolon follows the
    condition of the if. *)
Definition updateAttribute (mem : Metadata) (now : Z) (attrs : doc) (ca : ContextAttribute) (isReplace : bool)
    (apiVersion : string) (u : Update) : cpp (bool * bool * Update) :=
  if isReplace then
    let newAttr := new_type ca apiVersion
      :: (ENT_ATTRS_CREATION_DATE, BsonInt now) :: (ENT_ATTRS_MODIFICATION_DATE, BsonInt now)
      :: valueBson ca ++ [md_field (contextAttributeCustomMetadataToBson ca (apiVersion =s "v2"))] in
    Ret (true, true, add_push (ca_name ca) (add_set (effectiveName ca) (BsonObj newAttr) u))
  else if negb (hasField attrs (effectiveName ca)) then Ret (false, false, u)
  else
    attr ← embeddedObject (getField attrs (effectiveName ca));
    r ← mergeAttrInfo mem now attr ca apiVersion;
    let '(newAttr, actualUpdate) := (r : doc * bool) in
    Ret (true, actualUpdate, if actualUpdate then add_set (composedName ca) (BsonObj newAttr) u else u).

(** Whether there was an actual append, actualUpdate, and the update. *)
Definition appendAttribute (mem : Metadata) (now : Z) (attrs : doc) (ca : ContextAttribute)
    (apiVersion : string) (u : Update) : cpp (bool * bool * Update) :=
  if hasField attrs (effectiveName ca) then
    r ← updateAttribute mem now attrs ca false apiVersion u;
    let '(_, actualUpdate, u) := (r : bool * bool * Update) in
    Ret (false, actualUpdate, u)
  else
    let mdV := contextAttributeCustomMetadataToBson ca (apiVersion =s "v2") in
    let ab := valueBson ca ++ new_type ca apiVersion
      :: (if (length mdV =? 0)%nat then [] else [md_field mdV])
      ++ [(ENT_ATTRS_CREATION_DATE, BsonInt now); (ENT_ATTRS_MODIFICATION_DATE, BsonInt now)] in
    Ret (true, true, add_push (ca_name ca) (add_set (composedName ca) (BsonObj ab) u)).

(** legalIdUsage, with the names stored: no mix of an attribute with and without ID. *)
Definition legalIdUsage (attrs : doc) (ca : ContextAttribute) : bool :=
  let prefix := ca_name ca +:+ "__" in
  let name := c_str (ca_name ca) in
  forallb (fun attrName =>
    let prefixed := strncmp_eq (c_str prefix) (c_str attrName) (String.length (c_str prefix)) in
    if getId ca =s ""
    then negb (strncmp_eq name (c_str attrName) (String.length (ca_name ca)) && prefixed)
    else negb (strncmp_eq name (c_str attrName) (String.length name) && negb prefixed))
    (fst <$> attrs).

(** legalIdUsage, among the attributes of a request. *)
Definition legalIdUsage_vector (caV : list ContextAttribute) : bool :=
  forallb (fun a =>
    negb (getId a =s "")
    || forallb (fun ca => negb ((ca_name a =s ca_name ca) && (ca_type a =s ca_type ca) && negb (getId ca =s ""))) caV)
    caV.

(** The counter of deleted attributes: a std::map, in the order of its keys. *)
Fixpoint deleted_bump (name : string) (deleted : list (string * Z)) : list (string * Z) :=
  match deleted with
  | [] => [(name, 1)]
  | (k, n) :: deleted' =>
      match strcmp name k with
      | Lt => (name, 1) :: deleted
      | Eq => (k, (n + 1) mod 2 ^ 32) :: deleted'
      | Gt => (k, n) :: deleted_bump name deleted'
      end
  end.

Definition deleteAttribute (attrs : doc) (ca : ContextAttribute) (deleted : list (string * Z)) (u : Update)
    : bool * list (string * Z) * Update :=
  if negb (hasField attrs (effectiveName ca)) then (false, deleted, u)
  else (true, deleted_bump (ca_name ca) deleted, add_unset (composedName ca) u).

(** ** Stored attributes *)

Definition simple_value (v : bson) : bool :=
  match v with BsonNull | BsonBool _ | BsonNumber _ | BsonString _ => true | _ => false end.

Definition simple_type (vt : ValueType) : bool :=
  match vt with ValueTypeString | ValueTypeNumber | ValueTypeBoolean | ValueTypeNone => true | _ => false end.

(** Equal, or equal numbers (0 and -0). *)
Definition same_field (f1 f2 : option bson) : Prop := f1 = f2 \/ equalFields f1 f2 = true.

Definition md_name_of (d : doc) : string := getStringField d ENT_ATTRS_MD_NAME.

Definition find_md (name : string) (mdV : list doc) : option doc :=
  find (fun d => md_name_of d =s name) mdV.

(** A stored metadata: a name that is custom, maybe a type, and a simple value. *)
Record stored_md (d : doc) : Prop := mkStoredMd {
  smd_custom : isNotCustomMetadata (md_name_of d) = false;
  smd_value : exists v, getField d ENT_ATTRS_MD_VALUE = Some v /\ simple_value v = true
}.

(** A stored attribute with a simple value. *)
Record stored_attr (attr : doc) (mdV : list doc) : Prop := mkStoredAttr {
  sa_value : exists v, getField attr ENT_ATTRS_VALUE = Some v /\ simple_value v = true;
  sa_type : getField attr ENT_ATTRS_TYPE = None \/ exists t, getField attr ENT_ATTRS_TYPE = Some (BsonString t);
  sa_creDate : getField attr ENT_ATTRS_CREATION_DATE = None
    \/ exists n, getField attr ENT_ATTRS_CREATION_DATE = Some (BsonInt n);
  sa_modDate : getField attr ENT_ATTRS_MODIFICATION_DATE = None
    \/ exists n, getField attr ENT_ATTRS_MODIFICATION_DATE = Some (BsonInt n);
  sa_md : getField attr ENT_ATTRS_MD = Some (BsonArray (BsonObj <$> mdV))
    \/ (getField attr ENT_ATTRS_MD = None /\ mdV = []);
  sa_mds : Forall stored_md mdV;
  sa_names : NoDup (md_name_of <$> mdV)
}.

(** The attribute of a request: a simple value and metadata with distinct names. *)
Record request_attr (ca : ContextAttribute) : Prop := mkRequestAttr {
  ra_compound : ca_compoundValueP ca = None;
  ra_type : simple_type (ca_valueType ca) = true;
  ra_mds : Forall (fun md => simple_type (md_valueType md) = true) (ca_metadataVector ca);
  ra_names : NoDup (md_name <$> ca_metadataVector ca)
}.

(** ** Metadata lemmas *)

Lemma appendMetadata_simple md b : simple_type (md_valueType md) = true ->
  exists d, appendMetadata md b = [d] /\ md_name_of d = md_name md.
Proof. unfold appendMetadata. by destruct (md_valueType md); try done; eexists. Qed.

Lemma Metadata_of_bson_simple mem d : stored_md d ->
  simple_type (md_valueType (Metadata_of_bson mem d)) = true.
Proof.
  intros [_ (v & Hv & Hs)]. unfold Metadata_of_bson. rewrite Hv. by destruct v.
Qed.

Lemma Metadata_of_bson_name mem d : md_name (Metadata_of_bson mem d) = md_name_of d.
Proof. unfold Metadata_of_bson. by destruct (getField d ENT_ATTRS_MD_VALUE) as [[]|]. Qed.

Lemma custom_names ca b : Forall (fun md => simple_type (md_valueType md) = true) (ca_metadataVector ca) ->
  md_name_of <$> contextAttributeCustomMetadataToBson ca b
    = filter (fun n => isNotCustomMetadata n = false) (md_name <$> ca_metadataVector ca).
Proof.
  unfold contextAttributeCustomMetadataToBson. induction 1 as [|md mds Hmd _ IH]; [done|].
  cbn [flat_map fmap list_fmap]. destruct (isNotCustomMetadata (md_name md)) eqn:E; cbn [negb].
  - rewrite filter_cons_False by congruence. exact IH.
  - rewrite filter_cons_True by done. destruct (appendMetadata_simple md b Hmd) as (d & -> & <-).
    cbn. by rewrite <- IH.
Qed.

Definition named (ca : ContextAttribute) (n : string) : bool := hasMetadata n ca.

Lemma named_spec ca n : named ca n = true <-> n ∈ md_name <$> ca_metadataVector ca.
Proof.
  unfold named, hasMetadata. rewrite existsb_exists, list_elem_of_fmap. split.
  - intros (md & Hin & E). apply str_eqb_eq in E. exists md. by rewrite list_elem_of_In.
  - intros (md & -> & Hin). exists md. by rewrite <- list_elem_of_In, str_eqb_refl.
Qed.

Lemma kept_names mem mdV ca b : Forall stored_md mdV ->
  md_name_of <$> flat_map (fun d => let md := Metadata_of_bson mem d in
      if negb (hasMetadata (md_name md) ca) then appendMetadata md b else []) mdV
    = filter (fun n => named ca n = false) (md_name_of <$> mdV).
Proof.
  induction 1 as [|d mds Hd _ IH]; [done|]. cbn [flat_map fmap list_fmap]. cbv zeta.
  rewrite Metadata_of_bson_name. fold (named ca (md_name_of d)).
  destruct (named ca (md_name_of d)) eqn:E; cbn [negb].
  - rewrite filter_cons_False by congruence. exact IH.
  - rewrite filter_cons_True by done.
    destruct (appendMetadata_simple (Metadata_of_bson mem d) b (Metadata_of_bson_simple _ _ Hd)) as (d' & -> & Hn).
    rewrite Metadata_of_bson_name in Hn. cbn. rewrite Hn. f_equal. exact IH.
Qed.

(** The names of the merged metadata: those of the request the broker does not interpret,
    then the stored ones that the request does not name. *)
Lemma merged_names mem mdV ca api : Forall stored_md mdV ->
  Forall (fun md => simple_type (md_valueType md) = true) (ca_metadataVector ca) ->
  md_name_of <$> merged_metadata mem mdV ca api
    = filter (fun n => isNotCustomMetadata n = false) (md_name <$> ca_metadataVector ca)
      ++ filter (fun n => named ca n = false) (md_name_of <$> mdV).
Proof.
  intros Hs Hr. unfold merged_metadata. by rewrite fmap_app, custom_names, kept_names.
Qed.

Lemma find_md_Some n mdV d : find_md n mdV = Some d -> d ∈ mdV /\ md_name_of d = n.
Proof.
  unfold find_md. intros H. apply find_some in H as [Hin E]. apply str_eqb_eq in E.
  by rewrite list_elem_of_In.
Qed.

Lemma find_md_None n mdV : find_md n mdV = None <-> n ∉ md_name_of <$> mdV.
Proof.
  unfold find_md. induction mdV as [|d mdV IH]; cbn; [split; [intros _ []%not_elem_of_nil|done]|].
  rewrite not_elem_of_cons, <- IH. destruct (md_name_of d =s n) eqn:E.
  - apply str_eqb_eq in E. split; [done|]. intros [H _]. by subst.
  - apply str_eqb_neq in E. split; [done|]. by intros [_ H].
Qed.

Lemma equal_to_match_find md1 mdV :
  equal_to_match md1 mdV =
    match find_md (md_name_of md1) mdV with Some md2 => equalMetadataValues md1 md2 | None => true end.
Proof.
  unfold find_md. induction mdV as [|md2 mdV IH]; [done|]. cbn.
  unfold matchMetadata. fold (md_name_of md1) (md_name_of md2).
  rewrite (str_eqb_sym (md_name_of md1)). by destruct (md_name_of md2 =s md_name_of md1).
Qed.

Lemma equalMetadataVectors_find mdV1 mdV2 n d1 d2 : equalMetadataVectors mdV1 mdV2 = true ->
  find_md n mdV1 = Some d1 -> find_md n mdV2 = Some d2 -> equalMetadataValues d1 d2 = true.
Proof.
  intros H (Hin & <-)%find_md_Some H2. induction mdV1 as [|d mdV1 IH]; [by apply not_elem_of_nil in Hin|].
  cbn in H. apply andb_true_iff in H as [Hd H]. apply elem_of_cons in Hin as [->|Hin]; [|by apply IH].
  rewrite equal_to_match_find, H2 in Hd. done.
Qed.

(** Two lists of metadata with the same content: the same names, and equal types and values. *)
Definition same_metadata (mdV1 mdV2 : list doc) : Prop :=
  forall n, match find_md n mdV1, find_md n mdV2 with
            | None, None => True
            | Some d1, Some d2 => equalMetadataValues d1 d2 = true
            | _, _ => False
            end.

(** When the numbers of metadata agree, so do their names. *)
Lemma merged_names_same mem mdV ca api : Forall stored_md mdV -> NoDup (md_name_of <$> mdV) ->
  request_attr ca -> length (merged_metadata mem mdV ca api) = length mdV ->
  forall n, n ∈ md_name_of <$> merged_metadata mem mdV ca api <-> n ∈ md_name_of <$> mdV.
Proof.
  intros Hs Hnd [_ _ Hmds Hrn] Hl n. rewrite <- (length_fmap md_name_of), <- (length_fmap md_name_of mdV) in Hl.
  rewrite merged_names in * by done. set (O := md_name_of <$> mdV) in *.
  set (R := filter (fun n => isNotCustomMetadata n = false) _) in *.
  assert (forall n, n ∈ O -> isNotCustomMetadata n = false) as Hc.
  { intros m (d & -> & Hd)%list_elem_of_fmap. rewrite Forall_forall in Hs. apply (Hs d Hd). }
  set (N := filter (fun n => named ca n = true) O).
  assert (length O = length N + length (filter (fun n => named ca n = false) O))%nat as HO.
  { subst N. clear. induction O as [|m O IH]; [done|]. rewrite !filter_cons.
    repeat case_decide; destruct (named ca m); cbn; try done; lia. }
  assert (N ≡ₚ R) as HP.
  { apply submseteq_length_Permutation; [|rewrite length_app in Hl; lia].
    apply NoDup_submseteq; [by apply NoDup_filter|]. intros m [Hm1 Hm2]%list_elem_of_filter.
    apply list_elem_of_filter. split; [by apply Hc|by apply named_spec]. }
  rewrite elem_of_app, <- HP. subst N. rewrite !list_elem_of_filter.
  destruct (named ca n); naive_solver.
Qed.

Lemma same_metadata_merged mem mdV ca api : Forall stored_md mdV -> NoDup (md_name_of <$> mdV) ->
  request_attr ca -> length (merged_metadata mem mdV ca api) = length mdV ->
  equalMetadataVectors mdV (merged_metadata mem mdV ca api) = true ->
  same_metadata mdV (merged_metadata mem mdV ca api).
Proof.
  intros Hs Hnd Hr Hl He n. pose proof (merged_names_same mem mdV ca api Hs Hnd Hr Hl n) as Hn.
  destruct (find_md n mdV) as [d1|] eqn:E1, (find_md n (merged_metadata mem mdV ca api)) as [d2|] eqn:E2; try done.
  - by eapply equalMetadataVectors_find.
  - apply find_md_None in E2. apply find_md_Some in E1 as [Hin <-]. apply E2, Hn, list_elem_of_fmap. eauto.
  - apply find_md_None in E1. apply find_md_Some in E2 as [Hin <-]. apply E1, Hn, list_elem_of_fmap. eauto.
Qed.

(** ** Theorems *)

(** What the merge writes for the value is what attrValueChanges compares. *)
Lemma attrValueChanges_merged attr ca api v :
  getField attr ENT_ATTRS_VALUE = Some v -> simple_value v = true ->
  ca_compoundValueP ca = None -> simple_type (ca_valueType ca) = true -> api = "v1" \/ api = "v2" ->
  attrValueChanges attr ca api
    = if attributeValueAbsent ca api then false
      else negb (equalFields (getField (merged_value attr ca api) ENT_ATTRS_VALUE) (Some v)).
Proof.
  intros Hv Hs Hc Ht Hapi. unfold attrValueChanges, merged_value, attributeValueAbsent, valueBson, bsonAppendAttrValue.
  rewrite Hv, Hc.
  destruct (ca_valueType ca); try done; destruct v; try done; by destruct Hapi as [-> | ->].
Qed.

Lemma find_md_NoDup mdV d : NoDup (md_name_of <$> mdV) -> d ∈ mdV -> find_md (md_name_of d) mdV = Some d.
Proof.
  unfold find_md. induction mdV as [|d' mdV IH]; [by intros _ ?%not_elem_of_nil|].
  cbn. intros [Hn Hnd]%NoDup_cons [->|Hin]%elem_of_cons; [by rewrite str_eqb_refl|].
  destruct (md_name_of d' =s md_name_of d) eqn:E; [|by apply IH].
  apply str_eqb_eq in E. destruct Hn. rewrite E. apply list_elem_of_fmap. eauto.
Qed.

Lemma same_metadata_names mdV1 mdV2 n : same_metadata mdV1 mdV2 ->
  n ∈ md_name_of <$> mdV1 <-> n ∈ md_name_of <$> mdV2.
Proof.
  intros H. specialize (H n). pose proof (find_md_None n mdV1). pose proof (find_md_None n mdV2).
  destruct (find_md n mdV1), (find_md n mdV2); try done; [|naive_solver].
  split; intros _; [destruct (decide (n ∈ md_name_of <$> mdV2))|destruct (decide (n ∈ md_name_of <$> mdV1))];
    naive_solver.
Qed.

Lemma same_metadata_equal mdV1 mdV2 : NoDup (md_name_of <$> mdV1) -> NoDup (md_name_of <$> mdV2) ->
  same_metadata mdV1 mdV2 -> length mdV2 = length mdV1 /\ equalMetadataVectors mdV1 mdV2 = true.
Proof.
  intros H1 H2 Hs. split.
  - rewrite <- (length_fmap md_name_of mdV1), <- (length_fmap md_name_of mdV2).
    apply Permutation_length, NoDup_Permutation; [done..|]. intros n. symmetry. by apply same_metadata_names.
  - assert (forall l, (forall d, d ∈ l -> d ∈ mdV1) -> equalMetadataVectors l mdV2 = true) as H; [|by apply H].
    induction l as [|d l IH]; [done|]. intros Hl. cbn. rewrite IH, andb_true_r by (intros; apply Hl; by right).
    rewrite equal_to_match_find. specialize (Hs (md_name_of d)).
    rewrite (find_md_NoDup mdV1 d H1) in Hs by (apply Hl; by left).
    by destruct (find_md (md_name_of d) mdV2).
Qed.

Lemma merged_names_NoDup mem mdV ca api : Forall stored_md mdV -> NoDup (md_name_of <$> mdV) ->
  request_attr ca -> NoDup (md_name_of <$> merged_metadata mem mdV ca api).
Proof.
  intros Hs Hnd [_ _ Hm Hn]. rewrite merged_names by done. apply NoDup_app. split_and!.
  - by apply NoDup_filter.
  - intros n [_ H1]%list_elem_of_filter [H2 _]%list_elem_of_filter. apply named_spec in H1. congruence.
  - by apply NoDup_filter.
Qed.

(** No difference in the metadata, as mergeAttrInfo tests it. *)
Lemma metadata_unchanged mem mdV ca api : Forall stored_md mdV -> NoDup (md_name_of <$> mdV) ->
  request_attr ca ->
  negb (length (merged_metadata mem mdV ca api) =? length mdV)%nat
    || negb (equalMetadataVectors mdV (merged_metadata mem mdV ca api)) = false
  <-> same_metadata mdV (merged_metadata mem mdV ca api).
Proof.
  intros Hs Hnd Hr. rewrite orb_false_iff, !negb_false_iff, Nat.eqb_eq. split.
  - intros [Hl He]. by apply same_metadata_merged.
  - apply same_metadata_equal; [done|]. by apply merged_names_NoDup.
Qed.

(** The value of the request as it is stored. *)
Definition request_value (ca : ContextAttribute) : bson :=
  match ca_valueType ca with
  | ValueTypeString => BsonString (ca_stringValue ca)
  | ValueTypeNumber => BsonNumber (ca_numberValue ca)
  | ValueTypeBoolean => BsonBool (ca_boolValue ca)
  | _ => BsonNull
  end.

Definition stored_metadata (mdV : list doc) : option bson :=
  match mdV with [] => None | _ => Some (BsonArray (BsonObj <$> mdV)) end.

Lemma merged_value_shape attr ca api v : getField attr ENT_ATTRS_VALUE = Some v -> simple_value v = true ->
  request_attr ca ->
  merged_value attr ca api = [(ENT_ATTRS_VALUE, if attributeValueAbsent ca api then v else request_value ca)].
Proof.
  intros Hv Hs [Hc Ht _ _]. unfold merged_value, valueBson, bsonAppendAttrValue, request_value. rewrite Hc, Hv.
  destruct (attributeValueAbsent ca api); cbn; [by destruct v|by destruct (ca_valueType ca)].
Qed.

Lemma type_unchanged attr ca : 
  getField attr ENT_ATTRS_TYPE = None \/ (exists t, getField attr ENT_ATTRS_TYPE = Some (BsonString t)) ->
  negb (ca_type ca =s "")
    && (negb (hasField attr ENT_ATTRS_TYPE) || negb (getStringField attr ENT_ATTRS_TYPE =s ca_type ca)) = false
  <-> (if ca_type ca =s "" then getField attr ENT_ATTRS_TYPE else Some (BsonString (ca_type ca)))
      = getField attr ENT_ATTRS_TYPE.
Proof.
  unfold hasField, getStringField. intros [-> | [t ->]]; destruct (ca_type ca =s ""); cbn; try done.
  rewrite negb_false_iff, str_eqb_eq. naive_solver congruence.
Qed.

Lemma mergeAttrInfo_fields mem now attr (mdV : list doc) ca api v actual :
  getField attr ENT_ATTRS_VALUE = Some v -> simple_value v = true ->
  getField attr ENT_ATTRS_TYPE = None \/ (exists t, getField attr ENT_ATTRS_TYPE = Some (BsonString t)) ->
  getField attr ENT_ATTRS_CREATION_DATE = None
    \/ (exists n, getField attr ENT_ATTRS_CREATION_DATE = Some (BsonInt n)) ->
  getField attr ENT_ATTRS_MODIFICATION_DATE = None
    \/ (exists n, getField attr ENT_ATTRS_MODIFICATION_DATE = Some (BsonInt n)) ->
  getField attr ENT_ATTRS_MD = Some (BsonArray (BsonObj <$> mdV))
    \/ (getField attr ENT_ATTRS_MD = None /\ mdV = []) ->
  request_attr ca ->
  actual = attrValueChanges attr ca api
        || (negb (ca_type ca =s "")
            && (negb (hasField attr ENT_ATTRS_TYPE) || negb (getStringField attr ENT_ATTRS_TYPE =s ca_type ca)))
        || negb (length (merged_metadata mem mdV ca api) =? length mdV)%nat
        || negb (equalMetadataVectors mdV (merged_metadata mem mdV ca api)) ->
  exists merged, mergeAttrInfo mem now attr ca api = Ret (merged, actual) /\
    getField merged ENT_ATTRS_VALUE = Some (if attributeValueAbsent ca api then v else request_value ca) /\
    getField merged ENT_ATTRS_TYPE
      = (if ca_type ca =s "" then getField attr ENT_ATTRS_TYPE else Some (BsonString (ca_type ca))) /\
    getField merged ENT_ATTRS_CREATION_DATE = getField attr ENT_ATTRS_CREATION_DATE /\
    getField merged ENT_ATTRS_MODIFICATION_DATE
      = (if actual then Some (BsonInt now) else getField attr ENT_ATTRS_MODIFICATION_DATE) /\
    getField merged ENT_ATTRS_MD = stored_metadata (merged_metadata mem mdV ca api).
Proof.
  intros Hv Hs Ht Hcre Hmod Hmd Hr Hact. unfold mergeAttrInfo.
  assert ((if hasField attr ENT_ATTRS_MD then o ← embeddedObject (getField attr ENT_ATTRS_MD); documents o
           else Ret []) = Ret mdV) as ->.
  { unfold hasField. destruct Hmd as [H|[H ->]]; rewrite H; [apply embedded_documents|done]. }
  cbn [mbind cpp_bind]. cbv zeta. rewrite (ra_compound _ Hr), <- Hact. eexists. split; [done|].
  rewrite (merged_value_shape attr ca api v Hv Hs Hr). set (new := merged_metadata mem mdV ca api).
  unfold merged_type, hasField, getStringField, getIntField, md_field, stored_metadata.
  clearbody new. clear Hact.
  destruct (ca_type ca =s ""), Ht as [-> | [t ->]], Hcre as [-> | [n ->]], Hmod as [-> | [m ->]], actual, new;
    by split_and!.
Qed.

(** Merging a stored attribute with a simple value and the attribute of a request: the
    merged attribute has the value and type of the request, or the stored ones when the
    request leaves them out, the stored creation date, the metadata of the request and
    the stored metadata the request does not name, and a new modification date only for an
    actual update.  It is an actual update exactly when value, type or metadata differ
    from what is stored, so the update that is not sent would have changed nothing. *)
Theorem mergeAttrInfo_spec mem now attr (mdV : list doc) ca api :
  stored_attr attr mdV -> request_attr ca -> api = "v1" \/ api = "v2" ->
  exists merged actual mdV',
    mergeAttrInfo mem now attr ca api = Ret (merged, actual) /\
    (attributeValueAbsent ca api = true -> getField merged ENT_ATTRS_VALUE = getField attr ENT_ATTRS_VALUE) /\
    (attributeValueAbsent ca api = false -> getField merged ENT_ATTRS_VALUE = Some (request_value ca)) /\
    getField merged ENT_ATTRS_TYPE
      = (if ca_type ca =s "" then getField attr ENT_ATTRS_TYPE else Some (BsonString (ca_type ca))) /\
    getField merged ENT_ATTRS_CREATION_DATE = getField attr ENT_ATTRS_CREATION_DATE /\
    getField merged ENT_ATTRS_MODIFICATION_DATE
      = (if actual then Some (BsonInt now) else getField attr ENT_ATTRS_MODIFICATION_DATE) /\
    getField merged ENT_ATTRS_MD = stored_metadata mdV' /\
    md_name_of <$> mdV' = filter (fun n => isNotCustomMetadata n = false) (md_name <$> ca_metadataVector ca)
      ++ filter (fun n => named ca n = false) (md_name_of <$> mdV) /\
    (actual = false <->
       (attributeValueAbsent ca api = true
        \/ equalFields (getField merged ENT_ATTRS_VALUE) (getField attr ENT_ATTRS_VALUE) = true) /\
       getField merged ENT_ATTRS_TYPE = getField attr ENT_ATTRS_TYPE /\
       same_metadata mdV mdV').
Proof.
  intros [(v & Hv & Hs) Ht Hcre Hmod Hmd Hmds Hnd] Hr Hapi.
  set (new := merged_metadata mem mdV ca api).
  set (actual := attrValueChanges attr ca api
        || (negb (ca_type ca =s "")
            && (negb (hasField attr ENT_ATTRS_TYPE) || negb (getStringField attr ENT_ATTRS_TYPE =s ca_type ca)))
        || negb (length new =? length mdV)%nat || negb (equalMetadataVectors mdV new)).
  destruct (mergeAttrInfo_fields mem now attr mdV ca api v actual Hv Hs Ht Hcre Hmod Hmd Hr eq_refl)
    as (merged & E & H1 & H2 & H3 & H4 & H5).
  exists merged, actual, new. rewrite E, H1, H2, H3, H4, H5, Hv. fold new. split_and!; try done.
  - by intros ->.
  - by intros ->.
  - by apply merged_names; [|destruct Hr].
  - assert (Hm := metadata_unchanged mem mdV ca api Hmds Hnd Hr). fold new in Hm.
    assert (Htt := type_unchanged attr ca Ht).
    assert (Hvv := attrValueChanges_merged attr ca api v Hv Hs (ra_compound _ Hr) (ra_type _ Hr) Hapi).
    rewrite (merged_value_shape attr ca api v Hv Hs Hr) in Hvv. cbn in Hvv.
    subst actual. rewrite <- orb_assoc, orb_false_iff, orb_false_iff, Hm, Htt, Hvv.
    destruct (attributeValueAbsent ca api); [naive_solver|]. rewrite negb_false_iff. naive_solver.
Qed.

(** A value stored as an integer is never updated: attrValueChanges answers no for a
    type it does not know, so an update of the value alone reports success and writes
    nothing. *)
Theorem updateAttribute_int_lost mem now attrs attr ca api u n :
  getField attrs (effectiveName ca) = Some (BsonObj attr) ->
  getField attr ENT_ATTRS_VALUE = Some (BsonInt n) -> hasField attr ENT_ATTRS_MD = false ->
  ca_compoundValueP ca = None -> ca_type ca = "" -> ca_metadataVector ca = [] ->
  updateAttribute mem now attrs ca false api u = Ret (true, false, u).
Proof.
  intros Ha Hv Hmd Hc Ht Hm. unfold updateAttribute, hasField. rewrite Ha. cbn [negb embeddedObject mbind cpp_bind].
  unfold mergeAttrInfo, merged_metadata, contextAttributeCustomMetadataToBson, attrValueChanges.
  rewrite Hmd, Hc, Ht, Hm, Hv. cbn. by destruct (_ && _).
Qed.

(** After a replacement every attribute has a metadata field, an empty array when the
    request has no custom metadata; an appended attribute has none then. *)
Theorem replace_empty_metadata mem now attrs ca api u :
  contextAttributeCustomMetadataToBson ca (api =s "v2") = [] ->
  (exists newAttr, updateAttribute mem now attrs ca true api u
     = Ret (true, true, add_push (ca_name ca) (add_set (effectiveName ca) (BsonObj newAttr) u)) /\
     hasField newAttr ENT_ATTRS_MD = true) /\
  (hasField attrs (effectiveName ca) = false ->
   exists newAttr, appendAttribute mem now attrs ca api u
     = Ret (true, true, add_push (ca_name ca) (add_set (composedName ca) (BsonObj newAttr) u)) /\
     hasField newAttr ENT_ATTRS_MD = false).
Proof.
  intros Hm. unfold updateAttribute, appendAttribute. rewrite Hm. split.
  - eexists. split; [done|]. unfold hasField, md_field, valueBson, bsonAppendAttrValue. cbn.
    destruct (ca_compoundValueP ca) as [c|]; [by destruct (node_bson c)|by destruct (ca_valueType ca)].
  - intros ->. eexists. split; [done|]. unfold hasField, valueBson, bsonAppendAttrValue. cbn.
    destruct (ca_compoundValueP ca) as [c|]; [by destruct (node_bson c)|by destruct (ca_valueType ca)].
Qed.

(** ** Names and IDs *)

Lemma starts_with_app p s : strncmp_eq p (p +:+ s) (String.length p) = true.
Proof. unfold strncmp_eq. by rewrite str_take_app, str_take_all, str_eqb_refl. Qed.

Lemma strncmp_prefix p s : strncmp_eq p s (String.length p) = String.prefix p s.
Proof. unfold strncmp_eq. by rewrite str_take_all, str_eqb_sym, str_take_prefix. Qed.

Lemma prefix_any p s (q : ascii -> bool) : String.prefix p s = true -> str_any q p = true -> str_any q s = true.
Proof.
  revert s. induction p as [|c p IH]; intros [|d s]; try done.
  rewrite prefix_cons, !str_any_cons, andb_true_iff, !orb_true_iff, char_eqb_eq.
  intros [-> H] [Hc|Hc]; [by left|right; by apply IH].
Qed.

Lemma prefix_drop p q s : String.prefix (p +:+ q) (p +:+ s) = String.prefix q s.
Proof.
  induction p as [|c p IH]; [done|].
  change (String c p +:+ q) with (String c (p +:+ q)). change (String c p +:+ s) with (String c (p +:+ s)).
  by rewrite prefix_cons, char_eqb_refl.
Qed.

Lemma prefix_trans p q s : String.prefix (p +:+ q) s = true -> String.prefix p s = true.
Proof.
  intros H. apply prefix_split in H as [r ->]. rewrite app_assoc_str. apply prefix_app.
Qed.

Lemma c_str_app s t : c_str s = s -> c_str t = t -> c_str (s +:+ t) = s +:+ t.
Proof.
  induction s as [|c s IH]; [done|]. change (String c s +:+ t) with (String c (s +:+ t)). cbn.
  destruct (c =c NUL); [done|]. intros [= Hs] Ht. by rewrite IH.
Qed.

Lemma forallb_agree {A} (f g : A -> bool) l : (forall x, x ∈ l -> f x = g x) -> forallb f l = forallb g l.
Proof.
  induction l as [|x l IH]; [done|]. intros H. cbn. rewrite (H x) by (by left).
  by rewrite IH by (intros; apply H; by right).
Qed.

(** legalIdUsage, on names without NUL.  Without an ID: legal exactly when no stored name
    is the attribute's followed by "__".  With an ID: a stored attribute is refused when
    its name merely starts like the attribute's ("temperature" for "temp").  A name with a
    dot is compared as it is with the stored names, where dots are encoded, so mixing
    is never noticed for it. *)
Theorem legalIdUsage_names attrs ca :
  c_str (ca_name ca) = ca_name ca -> Forall (fun n => c_str n = n) (fst <$> attrs) ->
  (getId ca = "" ->
     legalIdUsage attrs ca = forallb (fun n => negb (String.prefix (ca_name ca +:+ "__") n)) (fst <$> attrs)) /\
  (forall s, getId ca <> "" -> ca_name ca +:+ s ∈ fst <$> attrs -> String.prefix "__" s = false ->
     legalIdUsage attrs ca = false) /\
  (str_any (fun c => c =c "."%char) (ca_name ca) = true ->
   Forall (fun n => str_any (fun c => c =c "."%char) n = false) (fst <$> attrs) ->
     legalIdUsage attrs ca = true).
Proof.
  intros Hn Hs.
  assert (c_str (ca_name ca +:+ "__") = ca_name ca +:+ "__") as Hp by (by apply c_str_app).
  assert (forall n, n ∈ fst <$> attrs -> c_str n = n) as Hall by (by apply Forall_forall).
  unfold legalIdUsage. rewrite Hn, Hp. split_and!.
  - intros ->. cbn. apply forallb_agree. intros n Hin. rewrite Hall by done.
    rewrite !strncmp_prefix. destruct (String.prefix (ca_name ca +:+ "__") n) eqn:E; [|by rewrite andb_false_r].
    by rewrite (prefix_trans _ _ _ E).
  - intros s Hid Hin Hs'. apply str_eqb_neq in Hid as ->. apply not_true_iff_false.
    rewrite forallb_forall. intros H. specialize (H _ (proj1 (list_elem_of_In _ _) Hin)).
    rewrite Hall, !strncmp_prefix, prefix_drop, Hs' in H by done.
    by rewrite prefix_app in H.
  - intros Hd Hf. apply forallb_forall. intros n Hin%list_elem_of_In. rewrite Hall by done.
    rewrite Forall_forall in Hf. specialize (Hf n Hin). rewrite !strncmp_prefix.
    assert (String.prefix (ca_name ca) n = false) as ->; [|by destruct (getId ca =s "")].
    apply not_true_iff_false. intros H. rewrite (prefix_any _ _ _ H Hd) in Hf. done.
Qed.

(** ** Witnesses *)

Definition no_mem : Metadata := mkMetadata "" "" ValueTypeString "" S754_nan false false.

(** A stored temperature of 20 with one metadata, and a request that sets it to 25. *)
Definition stored_temp : doc :=
  [("type", BsonString "float"); ("creDate", BsonInt 1); ("modDate", BsonInt 2);
   ("value", BsonNumber (double_of_Z 20));
   ("md", BsonArray [BsonObj [("name", BsonString "unit"); ("value", BsonString "C")]])].

Definition request_temp : ContextAttribute := ContextAttribute_number "temp" "" (double_of_Z 25) false false.

Lemma stored_temp_ok : stored_attr stored_temp [[("name", BsonString "unit"); ("value", BsonString "C")]].
Proof.
  split; try (right; by eexists); try by left.
  - by eexists.
  - constructor; [|constructor]. split; [done|by eexists].
  - apply NoDup_singleton.
Qed.

Lemma request_temp_ok : request_attr request_temp.
Proof. split; done || constructor. Qed.

Lemma mergeAttrInfo_spec_witness : exists merged actual,
  mergeAttrInfo no_mem 9 stored_temp request_temp "v2" = Ret (merged, actual) /\
  getField merged ENT_ATTRS_VALUE = Some (BsonNumber (double_of_Z 25)) /\
  getField merged ENT_ATTRS_TYPE = Some (BsonString "float") /\ actual = true.
Proof.
  destruct (mergeAttrInfo_spec no_mem 9 stored_temp _ request_temp "v2" stored_temp_ok request_temp_ok
    (or_intror eq_refl)) as (merged & actual & mdV' & E & _ & Hv & Ht & _ & _ & _ & _ & Hact).
  exists merged, actual. split; [exact E|]. split; [exact (Hv eq_refl)|]. split; [exact Ht|].
  destruct actual; [reflexivity|]. destruct (proj1 Hact eq_refl) as [[H|H] _]; [discriminate H|].
  rewrite (Hv eq_refl) in H. vm_compute in H. discriminate H.
Defined.

Lemma updateAttribute_int_lost_witness :
  updateAttribute no_mem 9 [("temp", BsonObj [("value", BsonInt 20)])] request_temp false "v1"
    (mkUpdate [] [] [] []) = Ret (true, false, mkUpdate [] [] [] []).
Proof.
  exact (updateAttribute_int_lost no_mem 9 [("temp", BsonObj [("value", BsonInt 20)])] [("value", BsonInt 20)]
    request_temp "v1" (mkUpdate [] [] [] []) 20 eq_refl eq_refl eq_refl eq_refl eq_refl eq_refl).
Defined.

Lemma replace_empty_metadata_witness : exists newAttr,
  updateAttribute no_mem 9 [] request_temp true "v2" (mkUpdate [] [] [] [])
    = Ret (true, true, mkUpdate [("temp", BsonObj newAttr)] [] ["temp"] []) /\
  hasField newAttr ENT_ATTRS_MD = true.
Proof. exact (proj1 (replace_empty_metadata no_mem 9 [] request_temp "v2" (mkUpdate [] [] [] []) eq_refl)). Defined.

(** An attribute temp with ID next to an unrelated temperature. *)
Lemma legalIdUsage_names_witness :
  legalIdUsage [("temperature", BsonNull)]
    (mkContextAttribute "temp" "" [Metadata_string "ID" "" "1" S754_nan false] ValueTypeString "" S754_nan
       false "" false false None false) = false.
Proof.
  refine (proj1 (proj2 (legalIdUsage_names [("temperature", BsonNull)]
    (mkContextAttribute "temp" "" [Metadata_string "ID" "" "1" S754_nan false] ValueTypeString "" S754_nan
       false "" false false None false) eq_refl _)) "erature" _ _ eq_refl).
  - repeat constructor.
  - discriminate.
  - by left.
Defined.
