(* ===== verification/Location.v ===== *)
(** * The location of an entity

    mongoBackend/location.cpp: the GeoJSON of an attribute that holds a location, and how
    the name of the location attribute and the GeoJSON of an entity follow its creation and
    the update and append of attributes.  The GeoJSON builder is the list of the fields
    appended to it; the alarms string2coords raises are not part of the result. *)

From S2P Require Import Prelude Strings Double Compound Bson Ngsi AttrUpdate.

Open Scope Z_scope.

(** ** GeoJSON *)

Definition isVector (n : CompoundValueNode) : bool := bool_decide (cvn_valueType n = ValueTypeVector).
Definition isObject (n : CompoundValueNode) : bool := bool_decide (cvn_valueType n = ValueTypeObject).
Definition isString (n : CompoundValueNode) : bool := bool_decide (cvn_valueType n = ValueTypeString).

Definition coords_error (s : string) : string :=
  "geo coordinates format error [see Orion user manual]: " +:+ s.

(** The coordinates (latitude, longitude) of the items. *)
Fixpoint items2coords (items : list CompoundValueNode) : string + list (double * double) :=
  match items with
  | [] => inr []
  | item :: items' =>
      if negb (isString item) then
        inl "geo:line, geo:box and geo:polygon needs array of strings but some element is not a string"
      else match (string2coords (cvn_stringValue item)).1 with
           | None => inl (coords_error (cvn_stringValue item))
           | Some c => match items2coords items' with inl e => inl e | inr l => inr (c :: l) end
           end
  end.

Definition stringArray2coords (ca : ContextAttribute) : string + list (double * double) :=
  match ca_compoundValueP ca with
  | None => inl "geo:line, geo:box and geo:polygon needs array of strings as value"
  | Some n =>
      if negb (isVector n) then inl "geo:line, geo:box and geo:polygon needs array of strings as value"
      else items2coords (cvn_childV n)
  end.

(** A position: longitude first. *)
Definition position (lon lat : double) : bson := BsonArray [BsonNumber lon; BsonNumber lat].

Definition geometry (type : string) (coordinates : bson) : doc :=
  [("type", BsonString type); ("coordinates", coordinates)].

(** The ring of a box, from its corners. *)
Definition box_ring (b : Box) : list bson :=
  [position (minLon b) (minLat b); position (minLon b) (maxLat b); position (maxLon b) (maxLat b);
   position (maxLon b) (minLat b); position (minLon b) (minLat b)].

Definition box_json (c : list (double * double)) : string + doc :=
  match c with
  | [(lat1, lon1); (lat2, lon2)] =>
      match orderCoordsForBox lat1 lat2 lon1 lon2 with
      | None => inl "geo:box coordinates are not defining an actual box"
      | Some b => inr (geometry "Polygon" (BsonArray [BsonArray (box_ring b)]))
      end
  | _ => inl "geo:box uses exactly 2 coordinates"
  end.

Definition positions (c : list (double * double)) : list bson := (fun p => position p.2 p.1) <$> c.

(** Whether two points are equal as the code compares them. *)
Definition same_point (p q : double * double) : bool := deq p.1 q.1 && deq p.2 q.2.

Definition polygon_json (c : list (double * double)) : string + doc :=
  if (length c <? 4)%nat then inl "geo:polygon uses at least 4 coordinates"
  else match hd_error c, last c with
       | Some p, Some q =>
           if negb (same_point p q) then inl "geo:polygon first and last coordinates must match"
           else inr (geometry "Polygon" (BsonArray [BsonArray (positions c)]))
       | _, _ => inl ""
       end.

Definition getGeoJson (ca : ContextAttribute) (apiVersion : string) : string + doc :=
  if (apiVersion =s "v1") || (ca_type ca =s GEO_POINT) then
    match (string2coords (ca_stringValue ca)).1 with
    | None => inl (coords_error (ca_stringValue ca))
    | Some (aLat, aLong) => inr (geometry "Point" (position aLong aLat))
    end
  else if ca_type ca =s GEO_JSON then
    match ca_compoundValueP ca with
    | None => inl "geo:json needs an object as value"
    | Some n => if negb (isObject n) then inl "geo:json needs an object as value"
                else inr (getObjectField (valueBson ca) ENT_ATTRS_VALUE)
    end
  else
    match stringArray2coords ca with
    | inl e => inl e
    | inr c =>
        if ca_type ca =s GEO_BOX then box_json c
        else if ca_type ca =s GEO_LINE then
          if (length c <? 2)%nat then inl "geo:line uses at least 2 coordinates"
          else inr (geometry "LineString" (BsonArray (positions c)))
        else if ca_type ca =s GEO_POLYGON then polygon_json c
        else inl "error processing geo location attribute, see log traces"
    end.

(** ** Following the location attribute *)

Definition bad_wgs84 (location : string) : bool :=
  negb (location =s LOCATION_WGS84) && negb (location =s LOCATION_WGS84_LEGACY).

Fixpoint creation_loop (caV : list ContextAttribute) (apiVersion : string) (locAttr : string) (geoJson : doc)
    : string + (string * doc) :=
  match caV with
  | [] => inr (locAttr, geoJson)
  | ca :: caV' =>
      let location := getLocation ca apiVersion in
      if location =s "" then creation_loop caV' apiVersion locAttr geoJson
      else if negb (locAttr =s "") then
        inl "You cannot use more than one geo location attribute when creating an entity [see Orion user manual]"
      else if bad_wgs84 location then inl ("only WGS84 are supported, found: " +:+ location)
      else match getGeoJson ca apiVersion with
           | inl e => inl e
           | inr g => creation_loop caV' apiVersion (ca_name ca) (geoJson ++ g)
           end
  end.

(** The name of the location attribute and its GeoJSON. *)
Definition processLocationAtEntityCreation (caV : list ContextAttribute) (geoJson : doc) (apiVersion : string)
    : string + (string * doc) := creation_loop caV apiVersion "" geoJson.

Definition previous_error (ca : ContextAttribute) (current : string) : string :=
  "attempt to define a geo location attribute [" +:+ ca_name ca +:+
  "] when another one has been previously defined [" +:+ current +:+ "]".

(** The GeoJSON of the attribute appended, with the given name as location attribute. *)
Definition refreshed (what : string) (ca : ContextAttribute) (name : string) (geoJson : doc) (apiVersion : string)
    : string + (string * doc) :=
  match getGeoJson ca apiVersion with
  | inl subErr => inl (what +:+ subErr)
  | inr g => inr (name, geoJson ++ g)
  end.

Definition processLocationAtUpdateAttribute (current : string) (ca : ContextAttribute) (geoJson : doc)
    (apiVersion : string) : string + (string * doc) :=
  let location := getLocation ca apiVersion in
  let parse := "error parsing location attribute: " in
  if negb (location =s "") && bad_wgs84 location then
    inl ("only WGS84 is supported for location, found: [" +:+ getLocation ca "v1" +:+ "]")
  else if negb (location =s "") then
    if current =s "" then refreshed parse ca (ca_name ca) geoJson apiVersion
    else if negb (current =s ca_name ca) then inl (previous_error ca current)
    else refreshed parse ca current geoJson apiVersion
  else if current =s ca_name ca then
    if apiVersion =s "v1" then refreshed parse ca current geoJson apiVersion
    else inr ("", geoJson)
  else inr (current, geoJson).

Definition processLocationAtAppendAttribute (current : string) (ca : ContextAttribute) (actualAppend : bool)
    (geoJson : doc) (apiVersion : string) : string + (string * doc) :=
  let location := getLocation ca apiVersion in
  if negb (location =s "") && bad_wgs84 location then
    inl ("only WGS84 is supported for location, found: [" +:+ getLocation ca "v1" +:+ "]")
  else if actualAppend && negb (location =s "") then
    if negb (current =s "") then inl (previous_error ca current)
    else refreshed "error parsing location attribute for new attribute: " ca (ca_name ca) geoJson apiVersion
  else if negb actualAppend && negb (location =s "") then
    if negb (current =s ca_name ca) then inl (previous_error ca current)
    else if current =s "" then
      refreshed "error parsing location attribute for existing attribute: " ca (ca_name ca) geoJson apiVersion
    else inr (current, geoJson)
  else if negb actualAppend && (location =s "") && (current =s ca_name ca) then inr ("", geoJson)
  else inr (current, geoJson).

(** ** GeoJSON of an attribute *)

(** A point within the ranges of latitude and longitude (or not a number). *)
Definition in_world (p : double * double) : bool := in_band 90 p.1 && in_band 180 p.2.

(** The first and the last point are the same. *)
Definition closed (c : list (double * double)) : Prop :=
  exists p q, hd_error c = Some p /\ last c = Some q /\ (p = q \/ same_point p q = true).

Lemma string2coords_world s c : (string2coords s).1 = Some c -> in_world c = true.
Proof.
  intros H. pose proof (string2coords_checked s) as Hr. destruct (string2coords s) as [[[lat lon]|] e]; [|done].
  injection H as <-. destruct Hr as (H1 & H2 & _). unfold in_world. cbn. by rewrite H1, H2.
Qed.

Lemma items2coords_world items l : items2coords items = inr l -> Forall (fun p => in_world p = true) l.
Proof.
  revert l. induction items as [|item items IH]; intros l; cbn; [by intros [= <-]|].
  destruct (negb (isString item)); [done|].
  destruct (string2coords (cvn_stringValue item)).1 as [c|] eqn:E; [|done].
  destruct (items2coords items) as [|l']; [done|]. intros [= <-]. constructor; [|by apply IH].
  by eapply string2coords_world.
Qed.

Lemma stringArray2coords_world ca l : stringArray2coords ca = inr l -> Forall (fun p => in_world p = true) l.
Proof.
  unfold stringArray2coords. destruct (ca_compoundValueP ca) as [n|]; [|done].
  destruct (negb (isVector n)); [done|]. apply items2coords_world.
Qed.

Definition box_points (b : Box) : list (double * double) :=
  [(minLat b, minLon b); (maxLat b, minLon b); (maxLat b, maxLon b); (minLat b, maxLon b); (minLat b, minLon b)].

Lemma box_world lat1 lat2 lon1 lon2 b : orderCoordsForBox lat1 lat2 lon1 lon2 = Some b ->
  in_world (lat1, lon1) = true -> in_world (lat2, lon2) = true ->
  Forall (fun p => in_world p = true) (box_points b).
Proof.
  unfold orderCoordsForBox, in_world. destruct (_ || _); [done|]. intros [= <-]. cbn.
  intros [H1 H2]%andb_true_iff [H3 H4]%andb_true_iff. unfold box_points. cbn.
  destruct (dlt lat1 lat2), (dgt lat1 lat2), (dlt lon1 lon2), (dgt lon1 lon2);
    repeat constructor; cbn; by rewrite ?H1, ?H2, ?H3, ?H4.
Qed.

Lemma box_json_spec c g : box_json c = inr g -> Forall (fun p => in_world p = true) c ->
  exists c', Forall (fun p => in_world p = true) c' /\ (4 <= length c')%nat /\ closed c' /\
    g = geometry "Polygon" (BsonArray [BsonArray (positions c')]).
Proof.
  unfold box_json. destruct c as [|[lat1 lon1] [|[lat2 lon2] [|]]]; try done.
  destruct (orderCoordsForBox lat1 lat2 lon1 lon2) as [b|] eqn:E; [|done].
  intros [= <-] [H1 [H2 _]%Forall_cons]%Forall_cons. exists (box_points b).
  split; [by eapply box_world|]. split; [cbn; lia|]. split; [|done].
  eexists _, _. split; [done|]. split; [done|by left].
Qed.

Lemma polygon_json_spec c g : polygon_json c = inr g ->
  (4 <= length c)%nat /\ closed c /\ g = geometry "Polygon" (BsonArray [BsonArray (positions c)]).
Proof.
  unfold polygon_json, closed. destruct (length c <? 4)%nat eqn:El; [done|]. apply Nat.ltb_ge in El.
  destruct (hd_error c) as [p|], (last c) as [q|]; try done.
  destruct (same_point p q) eqn:E; [|done]. intros [= <-]. split; [done|]. split; [|done].
  exists p, q. auto.
Qed.

(** What getGeoJson makes of an attribute that is not a geo:json is a Point, a
    LineString of two or more points or a Polygon of one closed ring of four or more, every
    point written longitude first and within the ranges of both (or NaN). *)
Theorem getGeoJson_geometry ca api g : getGeoJson ca api = inr g ->
  api = "v1" \/ ca_type ca <> GEO_JSON ->
  exists c, Forall (fun p => in_world p = true) c /\
    ((exists p, c = [p] /\ g = geometry "Point" (position p.2 p.1))
     \/ ((2 <= length c)%nat /\ g = geometry "LineString" (BsonArray (positions c)))
     \/ ((4 <= length c)%nat /\ closed c /\ g = geometry "Polygon" (BsonArray [BsonArray (positions c)]))).
Proof.
  unfold getGeoJson. intros H Hj.
  destruct ((api =s "v1") || (ca_type ca =s GEO_POINT)) eqn:E1.
  - destruct (string2coords (ca_stringValue ca)).1 as [[lat lon]|] eqn:E; [|done]. injection H as <-.
    exists [(lat, lon)]. split; [|left; by eexists]. constructor; [|done]. by eapply string2coords_world.
  - apply orb_false_iff in E1 as [E1%str_eqb_neq _]. destruct Hj as [->|Hj]; [done|].
    apply str_eqb_neq in Hj. rewrite Hj in H.
    destruct (stringArray2coords ca) as [|c] eqn:Ec; [done|]. apply stringArray2coords_world in Ec.
    destruct (ca_type ca =s GEO_BOX).
    { destruct (box_json_spec c g H Ec) as (c' & ? & ? & ? & ?). exists c'. split; [done|]. by right; right. }
    destruct (ca_type ca =s GEO_LINE).
    { destruct (length c <? 2)%nat eqn:El; [done|]. injection H as <-. apply Nat.ltb_ge in El.
      exists c. split; [done|]. by right; left. }
    destruct (ca_type ca =s GEO_POLYGON); [|done].
    exists c. split; [done|]. right. right. by apply polygon_json_spec.
Qed.

(** ** The location attribute *)

Definition wgs84 (ca : ContextAttribute) (api : string) : bool :=
  (getLocation ca api =s LOCATION_WGS84) || (getLocation ca api =s LOCATION_WGS84_LEGACY).

Lemma bad_wgs84_negb ca api : bad_wgs84 (getLocation ca api) = negb (wgs84 ca api).
Proof. unfold bad_wgs84, wgs84. by rewrite negb_orb. Qed.

Lemma wgs84_located ca api : wgs84 ca api = true -> (getLocation ca api =s "") = false.
Proof.
  unfold wgs84. intros [->%str_eqb_eq | ->%str_eqb_eq]%orb_true_iff; done.
Qed.

(** At the creation of an entity: either no attribute is a location, or exactly one is,
    with a known coordinate system, and it gives the entity its location attribute and
    GeoJSON.  (Attributes have a name.) *)
Theorem processLocationAtEntityCreation_spec caV api loc g :
  Forall (fun ca => ca_name ca <> "") caV ->
  processLocationAtEntityCreation caV [] api = inr (loc, g) ->
  match filter (fun ca => (getLocation ca api =s "") = false) caV with
  | [] => loc = "" /\ g = []
  | [ca] => loc = ca_name ca /\ wgs84 ca api = true /\ getGeoJson ca api = inr g
  | _ => False
  end.
Proof.
  unfold processLocationAtEntityCreation. intros Hn H.
  assert (forall caV l g0, Forall (fun ca => ca_name ca <> "") caV -> l <> "" ->
    creation_loop caV api l g0 = inr (loc, g) ->
    filter (fun ca => (getLocation ca api =s "") = false) caV = [] /\ loc = l /\ g = g0) as Hset.
  { clear. intros caV l g0 Hn Hl. apply str_eqb_neq in Hl. induction Hn as [|ca caV _ _ IH].
    - by intros [= <- <-].
    - cbn [creation_loop]. rewrite Hl. destruct (getLocation ca api =s "") eqn:E; [|done].
      rewrite filter_cons_False by congruence. exact IH. }
  induction Hn as [|ca caV Hca Hn IH]; [by injection H as <- <-|]. cbn in H.
  destruct (getLocation ca api =s "") eqn:E.
  - rewrite filter_cons_False by congruence. by apply IH.
  - rewrite filter_cons_True by done. rewrite bad_wgs84_negb in H.
    destruct (wgs84 ca api) eqn:Ew; [|done]. cbn [negb] in H.
    destruct (getGeoJson ca api) as [|g'] eqn:Eg; [done|].
    by destruct (Hset caV (ca_name ca) g' Hn Hca H) as (-> & -> & ->).
Qed.

(** Updating an attribute never leaves a stale location: when the attribute is the
    location of the entity afterwards its GeoJSON was computed from the new value;
    when it is not, nothing was computed, and it stopped being the location only by
    becoming an attribute without location (in v2).  An attribute with location is
    refused when another one has it. *)
Theorem processLocationAtUpdateAttribute_spec current ca geo api : ca_name ca <> "" ->
  match processLocationAtUpdateAttribute current ca geo api with
  | inl _ => True
  | inr (current', geo') =>
      (if current' =s ca_name ca then exists g, getGeoJson ca api = inr g /\ geo' = geo ++ g
       else geo' = geo /\ getLocation ca api = ""
            /\ (current' = current \/ (current' = "" /\ current = ca_name ca /\ api <> "v1"))) /\
      (getLocation ca api <> "" -> (current = "" \/ current = ca_name ca) /\ current' = ca_name ca)
  end.
Proof.
  intros Hn. unfold processLocationAtUpdateAttribute, refreshed. rewrite bad_wgs84_negb.
  destruct (getLocation ca api =s "") eqn:E; cbn [negb andb].
  - apply str_eqb_eq in E. rewrite E. destruct (current =s ca_name ca) eqn:Ec.
    + apply str_eqb_eq in Ec. destruct (api =s "v1") eqn:Ea.
      * destruct (getGeoJson ca api) as [|g]; [done|]. rewrite Ec, str_eqb_refl. split; [eauto|naive_solver].
      * apply str_eqb_neq in Ea. assert (("" =s ca_name ca) = false) as -> by (by apply str_eqb_neq).
        naive_solver.
    + rewrite Ec. naive_solver.
  - apply str_eqb_neq in E. destruct (wgs84 ca api); cbn [negb]; [|done].
    destruct (current =s "") eqn:Ee; [|destruct (current =s ca_name ca) eqn:Ec; cbn [negb]; [|done]].
    all: destruct (getGeoJson ca api) as [|g]; [done|].
    + apply str_eqb_eq in Ee. rewrite str_eqb_refl. split; [eauto|]. auto.
    + rewrite Ec. apply str_eqb_eq in Ec. split; [eauto|]. auto.
Qed.

(** Appending an attribute that exists already leaves a stale location behind: when it
    is the location of the entity the new coordinates are accepted and dropped (the GeoJSON
    is not touched); when the entity has no location it cannot become one: it is
    refused because of "another one", with no name.  The branch for that case (2b) is
    never reached. *)
Theorem append_existing_location current ca geo api :
  ca_name ca <> "" -> wgs84 ca api = true ->
  processLocationAtAppendAttribute current ca false geo api
    = if current =s ca_name ca then inr (current, geo) else inl (previous_error ca current).
Proof.
  intros Hn Hw. unfold processLocationAtAppendAttribute. rewrite bad_wgs84_negb, Hw, (wgs84_located _ _ Hw).
  cbn [negb andb]. destruct (current =s ca_name ca) eqn:E; [|done]. cbn [negb].
  apply str_eqb_eq in E as ->. apply str_eqb_neq in Hn. by rewrite Hn.
Qed.

(** ** Witnesses *)

Definition located (value : string) : ContextAttribute :=
  ContextAttribute_string "pos" GEO_POINT value false S754_nan false.

Lemma getGeoJson_geometry_witness : exists c,
  getGeoJson (located "1,2") "v2" = inr (geometry "Point" (position (double_of_Z 2) (double_of_Z 1))) /\
  Forall (fun p => in_world p = true) c.
Proof.
  destruct (getGeoJson_geometry (located "1,2") "v2" (geometry "Point" (position (double_of_Z 2) (double_of_Z 1))))
    as (c & Hc & _); [vm_compute; reflexivity|right; discriminate|].
  exists c. split; [vm_compute; reflexivity|exact Hc].
Defined.

Lemma processLocationAtEntityCreation_spec_witness :
  getGeoJson (located "1,2") "v2" = inr (geometry "Point" (position (double_of_Z 2) (double_of_Z 1))).
Proof.
  refine (proj2 (proj2 (processLocationAtEntityCreation_spec [located "1,2"] "v2" "pos"
    (geometry "Point" (position (double_of_Z 2) (double_of_Z 1))) _ _))).
  - constructor; [discriminate|constructor].
  - vm_compute. reflexivity.
Defined.

Lemma processLocationAtUpdateAttribute_spec_witness : exists g,
  processLocationAtUpdateAttribute "pos" (located "1,2") [] "v2" = inr ("pos", g) /\
  getGeoJson (located "1,2") "v2" = inr g.
Proof.
  exists (geometry "Point" (position (double_of_Z 2) (double_of_Z 1))).
  pose proof (processLocationAtUpdateAttribute_spec "pos" (located "1,2") [] "v2" ltac:(discriminate)) as H.
  assert (processLocationAtUpdateAttribute "pos" (located "1,2") [] "v2"
    = inr ("pos", geometry "Point" (position (double_of_Z 2) (double_of_Z 1)))) as E
    by (vm_compute; reflexivity).
  rewrite E in H. split; [exact E|]. destruct H as [(g & Hg & Hgeo) _]. rewrite Hg, Hgeo. reflexivity.
Defined.

Lemma append_existing_location_witness :
  processLocationAtAppendAttribute "pos" (located "50,60") false [] "v2" = inr ("pos", []) /\
  processLocationAtAppendAttribute "" (located "50,60") false [] "v2" = inl (previous_error (located "50,60") "").
Proof.
  split.
  - exact (append_existing_location "pos" (located "50,60") [] "v2" ltac:(discriminate) eq_refl).
  - exact (append_existing_location "" (located "50,60") [] "v2" ltac:(discriminate) eq_refl).
Defined.
