(* ===== verification/EntityDoc.v ===== *)
(** * Entities and their documents

    The document of an entity: how createEntity (mongoBackend/MongoCommonUpdate.cpp) builds
    it from a request, and how the constructor of ngsi/ContextElementResponse.cpp reads an
    entity back from it.  [UB] stands for the exceptions of the driver on values of the
    wrong type, and for the null attribute of a value type the constructor does not
    know. *)

From S2P Require Import Prelude Strings Double Bson Compound Ngsi AttrUpdate Location.

Open Scope Z_scope.

(** ** Reading *)

(** A std::set of names, as the list of its elements in order. *)
Fixpoint set_insert (s : string) (l : list string) : list string :=
  match l with
  | [] => [s]
  | t :: l' => match strcmp s t with Lt => s :: l | Eq => l | Gt => t :: set_insert s l' end
  end.

(** BSONObj::getFieldNames *)
Definition getFieldNames (o : doc) : list string := foldr set_insert [] (fst <$> o).

Definition includedAttribute (name : string) (attrsV : list string) : bool :=
  (length attrsV =? 0)%nat || existsb (fun a => a =s name) attrsV.

Section Read.

(** Memory that a constructor leaves unassigned. *)
Variable mem : Metadata.

Definition metadata_string (name value : string) : Metadata :=
  Metadata_string name "string" value (md_numberValue mem) (md_boolValue mem).

(** The ContextAttribute made for the value of a stored attribute, None when an empty value
    is left out. *)
Definition attribute_of_value (includeEmpty : bool) (name type : string) (v : option bson)
    : cpp (option ContextAttribute) :=
  let with_value vt s d b n :=
    Ret (Some (mkContextAttribute name type [] vt s d b "" true false n false)) in
  let memN := md_numberValue mem in
  let memB := md_boolValue mem in
  match v with
  | None => with_value ValueTypeString "" memN memB None
  | Some (BsonString s) =>
      if negb includeEmpty && (String.length s =? 0)%nat then Ret None
      else with_value ValueTypeString s memN memB None
  | Some (BsonNumber d) => with_value ValueTypeNumber "" d memB None
  | Some (BsonInt n) => with_value ValueTypeNumber "" (double_of_Z n) memB None
  | Some (BsonBool b) => with_value ValueTypeBoolean "" memN b None
  | Some BsonNull => with_value ValueTypeNone "" memN memB None
  | Some (BsonObj o) => with_value ValueTypeString "" memN memB (Some (compoundObjectResponse o))
  | Some (BsonArray l) => with_value ValueTypeString "" memN memB (Some (compoundVectorResponse l))
  | Some (BsonLong _) | Some (BsonRegex _) => UB "null attribute"
  end.

Definition with_metadata (mds : list Metadata) (ca : ContextAttribute) : ContextAttribute :=
  mkContextAttribute (ca_name ca) (ca_type ca) (ca_metadataVector ca ++ mds) (ca_valueType ca)
    (ca_stringValue ca) (ca_numberValue ca) (ca_boolValue ca) (ca_providingApplication ca) (ca_found ca)
    (ca_skip ca) (ca_compoundValueP ca) (ca_typeGiven ca).

(** One turn of the loop over the attributes. *)
Definition read_attribute (attrL : list string) (includeEmpty : bool) (apiVersion locAttr attrName : string)
    (attr : doc) : cpp (option ContextAttribute) :=
  let name := dbDotDecode (basePart attrName) in
  let mdId := idPart attrName in
  let type := getStringField attr ENT_ATTRS_TYPE in
  if negb (includedAttribute name attrL) then Ret None
  else
    r ← attribute_of_value includeEmpty name type (getField attr ENT_ATTRS_VALUE);
    match (r : option ContextAttribute) with
    | None => Ret None
    | Some ca =>
        mdV ← (if hasField attr ENT_ATTRS_MD then l ← Array (getField attr ENT_ATTRS_MD); embedded_all l
               else Ret []);
        Ret (Some (with_metadata
          ((if negb (mdId =s "") then [metadata_string NGSI_MD_ID mdId] else [])
           ++ (if (apiVersion =s "v1") && (locAttr =s name) && negb (type =s GEO_POINT)
               then [metadata_string NGSI_MD_LOCATION LOCATION_WGS84] else [])
           ++ (Metadata_of_bson mem <$> mdV)) ca))
    end.

Fixpoint read_attributes (attrL : list string) (includeEmpty : bool) (apiVersion locAttr : string)
    (attrs : doc) (names : list string) : cpp (list ContextAttribute) :=
  match names with
  | [] => Ret []
  | attrName :: names' =>
      attr ← embeddedObject (getField attrs attrName);
      r ← read_attribute attrL includeEmpty apiVersion locAttr attrName attr;
      l ← read_attributes attrL includeEmpty apiVersion locAttr attrs names';
      Ret (match (r : option ContextAttribute) with Some ca => ca :: l | None => l end)
  end.

(** creDate and modDate as "virtual" attributes. *)
Definition virtual_date (include : bool) (name field : string) (entityDoc : doc) : list ContextAttribute :=
  if include && hasField entityDoc field
  then [ContextAttribute_number name DATE_TYPE (double_of_Z (getIntOrLongFieldAsLong entityDoc field)) true
          (md_boolValue mem)]
  else [].

(** ContextElementResponse(entityDoc, attrL, includeEmpty, includeCreDate, includeModDate,
    apiVersion): the entity it holds. *)
Definition entity_of_doc (entityDoc : doc) (attrL : list string)
    (includeEmpty includeCreDate includeModDate : bool) (apiVersion : string) (memDate : double)
    : cpp ContextElement :=
  id ← embeddedObject (getField entityDoc "_id");
  let type := if hasField id ENT_ENTITY_TYPE then getStringField id ENT_ENTITY_TYPE else "" in
  let servicePath := if hasField id ENT_SERVICE_PATH then getStringField id ENT_SERVICE_PATH else "" in
  let locAttr := if hasField entityDoc ENT_LOCATION
                 then getStringField (getObjectField entityDoc ENT_LOCATION) ENT_LOCATION_ATTRNAME else "" in
  attrs ← embeddedObject (getField entityDoc ENT_ATTRS);
  cav ← read_attributes attrL includeEmpty apiVersion locAttr attrs (getFieldNames attrs);
  Ret (mkContextElement (mkEntityId (getStringField id ENT_ENTITY_ID) type "false" servicePath)
         (cav ++ virtual_date includeCreDate DATE_CREATED ENT_CREATION_DATE entityDoc
              ++ virtual_date includeModDate DATE_MODIFIED ENT_MODIFICATION_DATE entityDoc)
         memDate memDate).

End Read.

(** ** Creating *)

Definition DEFAULT_SERVICE_PATH_UPDATES : string := "/".

(** The document of one attribute. *)
Definition created_attribute (now : Z) (apiVersion : string) (ca : ContextAttribute) : doc :=
  let mdV := contextAttributeCustomMetadataToBson ca (apiVersion =s "v2") in
  new_type ca apiVersion :: (ENT_ATTRS_CREATION_DATE, BsonInt now) :: (ENT_ATTRS_MODIFICATION_DATE, BsonInt now)
    :: valueBson ca ++ (if (length mdV =? 0)%nat then [] else [md_field mdV]).

(** createEntity up to collectionInsert: the document, or the error detail. *)
Definition createEntity (e : EntityId) (attrsV : list ContextAttribute) (now : Z) (servicePathV : list string)
    (apiVersion : string) : string + doc :=
  if negb (legalIdUsage_vector attrsV) then
    inl ("Attributes with same name with ID and not ID at the same time in the same entity are forbidden: entity: ["
         +:+ eid_id e +:+ ", " +:+ eid_type e +:+ "]")
  else match processLocationAtEntityCreation attrsV [] apiVersion with
  | inl err => inl err
  | inr (locAttr, geoJson) =>
      let sp := match servicePathV with s :: _ => s | [] => "" end in
      inr ([("_id", BsonObj (
              [(ENT_ENTITY_ID, BsonString (eid_id e))]
              ++ (if eid_type e =s "" then
                    if apiVersion =s "v2" then [(ENT_ENTITY_TYPE, BsonString DEFAULT_TYPE)] else []
                  else [(ENT_ENTITY_TYPE, BsonString (eid_type e))])
              ++ [(ENT_SERVICE_PATH, BsonString (if sp =s "" then DEFAULT_SERVICE_PATH_UPDATES else sp))]));
            (ENT_ATTRNAMES, BsonArray ((fun ca => BsonString (ca_name ca)) <$> attrsV));
            (ENT_ATTRS, BsonObj ((fun ca => (effectiveName ca, BsonObj (created_attribute now apiVersion ca))) <$> attrsV));
            (ENT_CREATION_DATE, BsonInt now); (ENT_MODIFICATION_DATE, BsonInt now)]
           ++ (if negb (locAttr =s "")
               then [(ENT_LOCATION, BsonObj [(ENT_LOCATION_ATTRNAME, BsonString locAttr);
                                             (ENT_LOCATION_COORDS, BsonObj geoJson)])]
               else []))
  end.

(** ** Names *)

Lemma find_sep a i : find_str "__" (a +:+ "_") = None -> find_str "__" (a +:+ "__" +:+ i) = Some (a, i).
Proof.
  induction a as [|c a IH]; intros H.
  - apply (find_str_here "__" i).
  - change (String c a +:+ "_") with (String c (a +:+ "_")) in H.
    change (String c a +:+ "__" +:+ i) with (String c (a +:+ "__" +:+ i)). cbn [find_str] in H |- *.
    rewrite prefix_cons in H |- *. change "__"%string with (String "_" "_") in IH |- *.
    destruct (c =c "_"%char) eqn:E; cbn [andb] in H |- *.
    + destruct a as [|d a]; [cbv in H; discriminate H|]. change (String d a +:+ "_") with (String d (a +:+ "_")) in H, IH.
      change (String d a +:+ String "_" "_" +:+ i) with (String d (a +:+ String "_" "_" +:+ i)) in IH |- *.
      rewrite prefix_cons in H |- *. destruct (d =c "_"%char); [exfalso; destruct (a +:+ "_"); discriminate H|]. cbn [andb String.prefix] in H |- *.
      rewrite IH; [done|]. by destruct (find_str _ (String d (a +:+ "_"))) as [[? ?]|].
    + rewrite IH; [done|]. by destruct (find_str _ (a +:+ "_")) as [[? ?]|].
Qed.

Lemma encode_cons c s : dbDotEncode (String c s) = String (if c =c "."%char then "="%char else c) (dbDotEncode s).
Proof. done. Qed.

Lemma encode_underscore c : ((if c =c "."%char then "="%char else c) =c "_"%char) = (c =c "_"%char).
Proof. destruct (c =c "."%char) eqn:E; [|done]. by apply char_eqb_eq in E as ->. Qed.

(** The encoding neither makes nor removes a "__". *)
Lemma encode_sep s : find_str "__" s = None -> find_str "__" (dbDotEncode s) = None.
Proof.
  induction s as [|c s IH]; [done|]. rewrite encode_cons. cbn [find_str]. rewrite !prefix_cons, encode_underscore.
  destruct (c =c "_"%char) eqn:E; cbn [andb].
  - destruct s as [|d s]; [by intros _|]. rewrite encode_cons, !prefix_cons, encode_underscore.
    destruct (d =c "_"%char); cbn [andb].
    + destruct s; discriminate.
    + rewrite encode_cons in IH. intros H. rewrite IH; [done|]. by destruct (find_str "__" (String d s)) as [[? ?]|].
  - intros H. rewrite IH; [done|]. by destruct (find_str "__" s) as [[? ?]|].
Qed.

Lemma encode_app s t : dbDotEncode (s +:+ t) = dbDotEncode s +:+ dbDotEncode t.
Proof.
  induction s as [|c s IH]; [done|]. change (String c s +:+ t) with (String c (s +:+ t)).
  rewrite !encode_cons, IH. done.
Qed.

(** A name that can be told from its ID in the database: no '=', no "__" and, with an ID, no
    '_' at its end. *)
Definition well_named (ca : ContextAttribute) : bool :=
  negb (str_any (fun c => c =c "="%char) (ca_name ca)) &&
  negb (str_contains "__" (if getId ca =s "" then ca_name ca else ca_name ca +:+ "_")).

Lemma effectiveName_parts ca : well_named ca = true ->
  dbDotDecode (basePart (effectiveName ca)) = ca_name ca /\ idPart (effectiveName ca) = getId ca.
Proof.
  unfold well_named, effectiveName, basePart, idPart, str_contains. intros [He Hs]%andb_true_iff.
  apply negb_true_iff in He. apply dbDot_roundtrip in He. destruct (getId ca =s "") eqn:Ei; cbn [negb].
  - apply str_eqb_eq in Ei. rewrite app_nil_r_str.
    destruct (find_str "__" (ca_name ca)) as [|] eqn:E; [done|]. by rewrite (encode_sep _ E).
  - destruct (find_str "__" (ca_name ca +:+ "_")) as [|] eqn:E; [done|].
    apply encode_sep in E. rewrite encode_app in E. by rewrite (find_sep _ (getId ca) E).
Qed.

(** ** Metadata *)

Definition md_value (md : Metadata) : bson :=
  match md_valueType md with
  | ValueTypeString => BsonString (md_stringValue md)
  | ValueTypeNumber => BsonNumber (md_numberValue md)
  | ValueTypeBoolean => BsonBool (md_boolValue md)
  | _ => BsonNull
  end.

(** Name, type and value. *)
Definition md_content (md : Metadata) : string * string * bson := (md_name md, md_type md, md_value md).

(** With the default type of v2. *)
Definition md_typed (useDefaultType : bool) (md : Metadata) : string * string * bson :=
  (md_name md, if negb (md_typeGiven md) && useDefaultType then DEFAULT_TYPE else md_type md, md_value md).

Definition custom (md : Metadata) : bool := negb (isNotCustomMetadata (md_name md)).

Lemma append_read mem md b d : simple_type (md_valueType md) = true -> appendMetadata md b = [d] ->
  md_content (Metadata_of_bson mem d) = md_typed b md.
Proof.
  intros Ht. unfold appendMetadata, md_typed, md_content, md_value.
  set (t := if negb (md_typeGiven md) && b then DEFAULT_TYPE else md_type md). clearbody t.
  assert (forall l : list (string * bson), hasField ((ENT_ATTRS_MD_NAME, BsonString (md_name md)) ::
    (if negb (t =s "") then [(ENT_ATTRS_MD_TYPE, BsonString t)] else []) ++ l) ENT_ATTRS_MD_TYPE
    = negb (t =s "") || hasField l ENT_ATTRS_MD_TYPE) as Hf.
  { intros l. by destruct (t =s ""). }
  destruct (md_valueType md); try done; intros [= <-]; unfold Metadata_of_bson; rewrite Hf;
    (destruct (t =s "") eqn:E; [apply str_eqb_eq in E; subst t; done|done]).
Qed.

Lemma custom_read mem ca b : Forall (fun md => simple_type (md_valueType md) = true) (ca_metadataVector ca) ->
  md_content <$> (Metadata_of_bson mem <$> contextAttributeCustomMetadataToBson ca b)
    = md_typed b <$> List.filter custom (ca_metadataVector ca).
Proof.
  unfold contextAttributeCustomMetadataToBson. induction 1 as [|md mds Hmd _ IH]; [done|].
  cbn [flat_map List.filter]. unfold custom at 1. destruct (isNotCustomMetadata (md_name md)); cbn [negb app]; [exact IH|].
  destruct (appendMetadata_simple md b Hmd) as (d & Hd & _). rewrite Hd. cbn.
  rewrite (append_read mem md b d Hmd Hd). f_equal. exact IH.
Qed.

Lemma created_fields now api ca : request_attr ca ->
  getField (created_attribute now api ca) ENT_ATTRS_TYPE = Some (new_type ca api).2 /\
  getField (created_attribute now api ca) ENT_ATTRS_VALUE = Some (request_value ca) /\
  getField (created_attribute now api ca) ENT_ATTRS_MD
    = stored_metadata (contextAttributeCustomMetadataToBson ca (api =s "v2")).
Proof.
  intros [Hc Ht _ _]. unfold created_attribute, valueBson, bsonAppendAttrValue, request_value, md_field, stored_metadata.
  rewrite Hc. generalize (contextAttributeCustomMetadataToBson ca (api =s "v2")). intros l.
  destruct (ca_valueType ca); try done; by destruct l.
Qed.

Lemma read_stored_metadata (l : list doc) a : getField a ENT_ATTRS_MD = stored_metadata l ->
  (if hasField a ENT_ATTRS_MD then l ← Array (getField a ENT_ATTRS_MD); embedded_all l else Ret []) = Ret l.
Proof.
  unfold hasField. intros ->. destruct l as [|d l]; [done|]. exact (embedded_all_docs (d :: l)).
Qed.

(** The value read for a stored simple value. *)
Lemma value_read mem name type ca : simple_type (ca_valueType ca) = true ->
  exists ca', attribute_of_value mem true name type (Some (request_value ca)) = Ret (Some ca') /\
    ca_name ca' = name /\ ca_type ca' = type /\ ca_metadataVector ca' = [] /\
    ca_valueType ca' = ca_valueType ca /\ request_value ca' = request_value ca.
Proof.
  unfold request_value, attribute_of_value. destruct (ca_valueType ca); try done; intros _; by eexists.
Qed.

Lemma custom_ids mds : Forall (fun md => custom md = true) mds -> first_metadata NGSI_MD_ID mds = None.
Proof.
  induction 1 as [|md mds Hmd _ IH]; [done|]. cbn. unfold custom, isNotCustomMetadata in Hmd.
  destruct (md_name md =s NGSI_MD_ID); [done|exact IH].
Qed.

Lemma custom_of_content (mds mds' : list Metadata) b :
  md_content <$> mds = md_typed b <$> List.filter custom mds' -> Forall (fun md => custom md = true) mds.
Proof.
  revert mds. induction mds' as [|md' mds' IH]; intros [|md mds] H; cbn in H.
  - constructor.
  - discriminate H.
  - constructor.
  - destruct (custom md') eqn:E; [|by apply IH]. injection H as H1 _ _ H2. constructor; [|by apply IH].
    unfold custom in *. by rewrite H1.
Qed.

Lemma filter_all mds : Forall (fun md => custom md = true) mds -> List.filter custom mds = mds.
Proof. induction 1 as [|md mds H _ IH]; [done|]. cbn. by rewrite H, IH. Qed.

(** An attribute with a simple value that is stored at the creation of its entity is read
    back with its name, type (the default one of v2 where none was given), value, ID and
    custom metadata, provided its name can be told from its ID: it has no "__" (and, with
    an ID, does not end in '_') and no '='. *)
Theorem created_attribute_read mem now api ca api' loc :
  request_attr ca -> well_named ca = true ->
  exists ca', read_attribute mem [] true api' loc (effectiveName ca) (created_attribute now api ca) = Ret (Some ca') /\
    ca_name ca' = ca_name ca /\
    ca_type ca' = (if negb (ca_typeGiven ca) && (api =s "v2") then DEFAULT_TYPE else ca_type ca) /\
    ca_valueType ca' = ca_valueType ca /\ request_value ca' = request_value ca /\ getId ca' = getId ca /\
    md_content <$> List.filter custom (ca_metadataVector ca')
      = md_typed (api =s "v2") <$> List.filter custom (ca_metadataVector ca).
Proof.
  intros Hr Hw. destruct (effectiveName_parts ca Hw) as [Hn Hi].
  destruct (created_fields now api ca Hr) as (Ht & Hv & Hm). unfold read_attribute. cbv zeta.
  rewrite Hn, Hi. change (includedAttribute (ca_name ca) []) with true. cbn [negb].
  assert (getStringField (created_attribute now api ca) ENT_ATTRS_TYPE
    = (if negb (ca_typeGiven ca) && (api =s "v2") then DEFAULT_TYPE else ca_type ca)) as ->
    by (unfold getStringField; by rewrite Ht).
  rewrite Hv.
  destruct (value_read mem (ca_name ca) (if negb (ca_typeGiven ca) && (api =s "v2") then DEFAULT_TYPE else ca_type ca)
    ca (ra_type _ Hr)) as (ca' & -> & H1 & H2 & H3 & H4 & H5).
  cbn [mbind cpp_bind]. rewrite (read_stored_metadata _ _ Hm). cbn [mbind cpp_bind].
  pose proof (custom_read mem ca (api =s "v2") (ra_mds _ Hr)) as Hc.
  pose proof (custom_of_content _ _ _ Hc) as Hall.
  set (M := Metadata_of_bson mem <$> _) in *. clearbody M.
  eexists. split; [done|]. unfold with_metadata. cbn [ca_name ca_type ca_metadataVector ca_valueType].
  rewrite H1, H2, H3, H4. split_and!; try done.
  - rewrite <- H5. unfold request_value. cbn. by rewrite H4.
  - unfold getId at 1. cbn [ca_metadataVector app]. destruct (getId ca =s "") eqn:E; cbn [negb app first_metadata].
    + apply str_eqb_eq in E. rewrite E.
      assert (forall b : bool, first_metadata NGSI_MD_ID
        ((if b then [metadata_string mem NGSI_MD_LOCATION LOCATION_WGS84] else []) ++ M) = None) as ->;
        [|done]. intros []; cbn; by apply custom_ids.
    + done.
  - rewrite !List.filter_app.
    assert (forall b : bool, List.filter custom (if b then [metadata_string mem NGSI_MD_ID (getId ca)] else []) = [])
      as -> by (by intros []).
    assert (forall b : bool, List.filter custom
      (if b then [metadata_string mem NGSI_MD_LOCATION LOCATION_WGS84] else []) = []) as -> by (by intros []).
    cbn [app]. rewrite (filter_all M Hall). exact Hc.
Qed.

(** An attribute name with "__" does not survive: it is stored as it is and read back as
    the part before the "__", with the rest as metadata ID. *)
Theorem name_with_separator_lost mem now api ca api' loc a i :
  request_attr ca -> getId ca = "" -> ca_name ca = a +:+ "__" +:+ i ->
  str_any (fun c => (c =c "="%char) || (c =c "."%char)) (ca_name ca) = false ->
  find_str "__" (a +:+ "_") = None -> i <> "" ->
  exists ca', read_attribute mem [] true api' loc (effectiveName ca) (created_attribute now api ca) = Ret (Some ca') /\
    ca_name ca' = a /\ getId ca' = i.
Proof.
  intros Hr Hid Hname Hplain Hf Hi. destruct (created_fields now api ca Hr) as (Ht & Hv & Hm).
  unfold read_attribute, effectiveName. rewrite Hid. cbn [String.eqb negb]. rewrite app_nil_r_str.
  assert (dbDotEncode (ca_name ca) = a +:+ "__" +:+ i) as ->.
  { rewrite <- Hname. clear -Hplain. revert Hplain. generalize (ca_name ca). intros s.
    induction s as [|c s IH]; [done|]. rewrite str_any_cons, encode_cons, !orb_false_iff.
    intros [[_ ->] H]. by rewrite IH. }
  unfold basePart, idPart. rewrite (find_sep a i Hf).
  assert (dbDotDecode a = a) as ->.
  { assert (str_any (fun c => (c =c "="%char) || (c =c "."%char)) a = false) as Ha.
    { rewrite Hname, str_any_app, orb_false_iff in Hplain. apply Hplain. }
    clear -Ha. induction a as [|c a IH]; [done|]. rewrite str_any_cons, !orb_false_iff in Ha.
    destruct Ha as [[Hc _] Ha]. unfold dbDotDecode in *. cbn [str_map]. by rewrite Hc, IH. }
  change (includedAttribute a []) with true. cbn [negb]. rewrite Hv.
  destruct (value_read mem a (getStringField (created_attribute now api ca) ENT_ATTRS_TYPE) ca (ra_type _ Hr))
    as (ca' & -> & H1 & _ & H3 & _).
  cbn [mbind cpp_bind]. rewrite (read_stored_metadata _ _ Hm). cbn [mbind cpp_bind].
  eexists. split; [done|]. split; [exact H1|]. unfold getId, with_metadata. cbn [ca_metadataVector].
  apply str_eqb_neq in Hi. rewrite H3, Hi. done.
Qed.

(** ** Witnesses *)

Definition speed : ContextAttribute :=
  mkContextAttribute "car.speed" "" [Metadata_string "unit" "" "km/h" S754_nan false] ValueTypeNumber ""
    (double_of_Z 90) false "" false false None false.

Lemma created_attribute_read_witness : exists ca',
  read_attribute no_mem [] true "v2" "" "car=speed" (created_attribute 7 "v2" speed) = Ret (Some ca') /\
  ca_name ca' = "car.speed" /\ ca_type ca' = "none".
Proof.
  destruct (created_attribute_read no_mem 7 "v2" speed "v2" "") as (ca' & H & Hn & Ht & _).
  - split; try done; [repeat constructor|apply NoDup_singleton].
  - reflexivity.
  - exists ca'. split; [exact H|]. split; [exact Hn|exact Ht].
Defined.

Lemma name_with_separator_lost_witness : exists ca',
  read_attribute no_mem [] true "v2" "" "a__b"
    (created_attribute 7 "v2" (ContextAttribute_string "a__b" "" "x" false S754_nan false)) = Ret (Some ca') /\
  ca_name ca' = "a" /\ getId ca' = "b".
Proof.
  apply (name_with_separator_lost no_mem 7 "v2" (ContextAttribute_string "a__b" "" "x" false S754_nan false) "v2" ""
    "a" "b"); try reflexivity; [|discriminate].
  split; try reflexivity; [apply Forall_nil_2|apply NoDup_nil_2].
Defined.
