(* ===== verification/Registrations.v ===== *)
(** * Registrations and context providers

    How the documents of registrations are read (processContextRegistrationElement and
    registrationsQuery of mongoBackend/MongoGlobal.cpp) and how the provider of an
    attribute that is not found is looked up in them (cprLookupByAttribute,
    fillContextProviders, and searchContextProviders of MongoCommonUpdate.cpp).  The
    database's answer to the query is a parameter, as are the regular expressions of the C
    library, here compiled as basic ones; of a providing application only the text is
    kept, its mime type is JSON for every stored registration. *)

From S2P Require Import Prelude Strings Double Bson Compound Ngsi.

Definition REG_CONTEXT_REGISTRATION : string := "contextRegistration".
Definition REG_PROVIDING_APPLICATION : string := "providingApplication".
Definition REG_ENTITIES : string := "entities".
Definition REG_ATTRS : string := "attrs".
Definition REG_ENTITY_ID : string := "id".
Definition REG_ENTITY_TYPE : string := "type".
Definition REG_ATTRS_NAME : string := "name".
Definition REG_ATTRS_TYPE : string := "type".
Definition REG_ATTRS_ISDOMAIN : string := "isDomain".

Record ContextRegistrationAttribute := mkContextRegistrationAttribute {
  cra_name : string;
  cra_type : string;
  cra_isDomain : string
}.

Record ContextRegistration := mkContextRegistration {
  cr_entityIdVector : list EntityId;
  cr_attributes : list ContextRegistrationAttribute;
  cr_providingApplication : string
}.

Definition isTrue (s : string) : bool := (s =s "true") || (s =s "1").

(** ** Reading the documents *)

Section Read.

Context (regcomp : string -> bool) (regexec : string -> string -> bool).

(** [en1] is matched in [en2], which may be a pattern. *)
Definition matchEntity (en1 en2 : EntityId) : bool :=
  (if isTrue (eid_isPattern en2)
   then regcomp (c_str (eid_id en2)) && regexec (c_str (eid_id en2)) (c_str (eid_id en1))
   else eid_id en2 =s eid_id en1)
  && ((eid_type en1 =s "") || (eid_type en2 =s "") || (eid_type en2 =s eid_type en1)).

Definition includedEntity (en : EntityId) (entityIdV : list EntityId) : bool :=
  existsb (matchEntity en) entityIdV.

Definition includedAttribute (attr : ContextRegistrationAttribute) (attrsV : list string) : bool :=
  (length attrsV =? 0)%nat || existsb (fun a => a =s cra_name attr) attrsV.

(** processEntity: the entity, if the request asks for it. *)
Definition processEntity (enV : list EntityId) (entity : doc) : list EntityId :=
  let en := mkEntityId (getStringField entity REG_ENTITY_ID)
              (if hasField entity REG_ENTITY_TYPE then getStringField entity REG_ENTITY_TYPE else "") "false" "" in
  if includedEntity en enV then [en] else [].

Definition processAttribute (attrL : list string) (attribute : doc) : list ContextRegistrationAttribute :=
  let attr := mkContextRegistrationAttribute (getStringField attribute REG_ATTRS_NAME)
                (getStringField attribute REG_ATTRS_TYPE) (getStringField attribute REG_ATTRS_ISDOMAIN) in
  if includedAttribute attr attrL then [attr] else [].

(** processContextRegistrationElement: the element as far as the request asks for it. *)
Definition processContextRegistrationElement (cr : doc) (enV : list EntityId) (attrL : list string)
    : cpp (list ContextRegistration) :=
  a ← Array (getField cr REG_ENTITIES);
  es ← embedded_all a;
  let entities := flat_map (processEntity enV) es in
  if (length entities =? 0)%nat then Ret []
  else
    ds ← (if hasField cr REG_ATTRS then a ← Array (getField cr REG_ATTRS); embedded_all a else Ret []);
    let attrs := flat_map (processAttribute attrL) ds in
    if (0 <? length attrs)%nat || ((length attrs =? 0)%nat && (length attrL =? 0)%nat)
    then Ret [mkContextRegistration entities attrs (getStringField cr REG_PROVIDING_APPLICATION)]
    else Ret [].

Fixpoint process_elements (crs : list doc) (enV : list EntityId) (attrL : list string)
    : cpp (list ContextRegistration) :=
  match crs with
  | [] => Ret []
  | cr :: crs' =>
      l ← processContextRegistrationElement cr enV attrL;
      r ← process_elements crs' enV attrL;
      Ret (l ++ r)
  end.

(** The loop over the cursor: None is an exception of the driver, whose document is left out. *)
Fixpoint process_registrations (cursor : list (option doc)) (enV : list EntityId) (attrL : list string)
    : cpp (list ContextRegistration) :=
  match cursor with
  | [] => Ret []
  | None :: cursor' => process_registrations cursor' enV attrL
  | Some r :: cursor' =>
      a ← Array (getField r REG_CONTEXT_REGISTRATION);
      crs ← embedded_all a;
      l ← process_elements crs enV attrL;
      r ← process_registrations cursor' enV attrL;
      Ret (l ++ r)
  end.

(** What the database answers for these entities and attributes (in the tenant and service
    path of the request): None when the query fails. *)
Context (collectionRangedQuery : list EntityId -> list string -> option (list (option doc))).

Definition registrationsQuery (enV : list EntityId) (attrL : list string)
    : cpp (option (list ContextRegistration)) :=
  match collectionRangedQuery enV attrL with
  | None => Ret None
  | Some cursor => l ← process_registrations cursor enV attrL; Ret (Some l)
  end.

End Read.

(** ** Looking up a provider *)

(** The test on an entity of a registration. *)
Definition registered_entity (en regEn : EntityId) : bool :=
  negb (negb (eid_id regEn =s eid_id en) || (negb (eid_type regEn =s eid_type en) && negb (eid_type regEn =s ""))).

(** The loop over the entities of a registration: the provider of the entity so far, and
    the provider of the attribute once it is found. *)
Fixpoint lookup_entities (en : EntityId) (attrName : string) (cr : ContextRegistration) (enV : list EntityId)
    (perEntPa : string) : string * option string :=
  match enV with
  | [] => (perEntPa, None)
  | regEn :: enV' =>
      if negb (registered_entity en regEn) then lookup_entities en attrName cr enV' perEntPa
      else if (length (cr_attributes cr) =? 0)%nat then (cr_providingApplication cr, None)
      else if existsb (fun a => cra_name a =s attrName) (cr_attributes cr)
      then (perEntPa, Some (cr_providingApplication cr))
      else lookup_entities en attrName cr enV' perEntPa
  end.

Fixpoint cprLookup_loop (en : EntityId) (attrName : string) (crrV : list ContextRegistration) (perEntPa : string)
    : string * string :=
  match crrV with
  | [] => (perEntPa, "")
  | cr :: crrV' =>
      match lookup_entities en attrName cr (cr_entityIdVector cr) perEntPa with
      | (perEntPa, Some pa) => (perEntPa, pa)
      | (perEntPa, None) => cprLookup_loop en attrName crrV' perEntPa
      end
  end.

(** cprLookupByAttribute: the providers of the entity and of the attribute. *)
Definition cprLookupByAttribute (en : EntityId) (attrName : string) (crrV : list ContextRegistration)
    : string * string :=
  cprLookup_loop en attrName crrV "".

Definition provided (pa : string) (ca : ContextAttribute) : ContextAttribute :=
  mkContextAttribute (ca_name ca) (ca_type ca) (ca_metadataVector ca) (ca_valueType ca) (ca_stringValue ca)
    (ca_numberValue ca) (ca_boolValue ca) pa (negb (pa =s "")) (ca_skip ca) (ca_compoundValueP ca)
    (ca_typeGiven ca).

(** fillContextProviders, for the attributes of the response on one entity. *)
Definition fillContextProviders (en : EntityId) (crrV : list ContextRegistration) (cav : list ContextAttribute)
    : list ContextAttribute :=
  (fun ca => if ca_found ca then ca
             else let '(perEntPa, perAttrPa) := cprLookupByAttribute en (ca_name ca) crrV in
                  provided (if perAttrPa =s "" then perEntPa else perAttrPa) ca) <$> cav.

Definition someContextElementNotFound (cav : list ContextAttribute) : bool :=
  existsb (fun ca => negb (ca_found ca)) cav.

Section Search.

Context (registrationsQuery : list EntityId -> list string -> cpp (option (list ContextRegistration))).

(** One lookup of searchContextProviders. *)
Definition provider_lookup (en cerEn : EntityId) (attrL : list string) (cav : list ContextAttribute)
    : cpp (list ContextAttribute) :=
  if someContextElementNotFound cav then
    r ← registrationsQuery [en] attrL;
    match r with
    | Some crrV => Ret (if (0 <? length crrV)%nat then fillContextProviders cerEn crrV cav else cav)
    | None => Ret cav
    end
  else Ret cav.

(** searchContextProviders, on the attributes [cav] of the response, whose entity is [cerEn];
    [en] and [caV] are the entity and the attributes of the request. *)
Definition searchContextProviders (en : EntityId) (caV : list ContextAttribute) (cerEn : EntityId)
    (cav : list ContextAttribute) : cpp (list ContextAttribute) :=
  cav ← provider_lookup en cerEn (ca_name <$> caV) cav;
  provider_lookup en cerEn [] cav.

End Search.

(** ** What is read *)

(** A registration is read as far as the request asks for it: some of its entities are asked
    for, and, unless the request names no attribute, some of its attributes. *)
Definition asked (regcomp : string -> bool) (regexec : string -> string -> bool) (enV : list EntityId)
    (attrL : list string) (cr : ContextRegistration) : Prop :=
  cr_entityIdVector cr <> [] /\
  Forall (fun en => includedEntity regcomp regexec en enV = true) (cr_entityIdVector cr) /\
  Forall (fun a => attrL = [] \/ cra_name a ∈ attrL) (cr_attributes cr) /\
  (attrL <> [] -> cr_attributes cr <> []).

Section ReadFacts.

Context (regcomp : string -> bool) (regexec : string -> string -> bool) (enV : list EntityId) (attrL : list string).

Lemma includedAttribute_asked a : includedAttribute a attrL = true -> attrL = [] \/ cra_name a ∈ attrL.
Proof.
  unfold includedAttribute. rewrite orb_true_iff, Nat.eqb_eq, existsb_exists.
  intros [H|(x & Hin & ->%str_eqb_eq)]; [left; by apply length_zero_iff_nil|right; by apply list_elem_of_In].
Qed.

Lemma read_entities es :
  Forall (fun en => includedEntity regcomp regexec en enV = true) (flat_map (processEntity regcomp regexec enV) es).
Proof.
  induction es as [|d es IH]; [constructor|]. cbn. apply Forall_app. split; [|done].
  unfold processEntity. destruct (includedEntity _ _ _ _) eqn:E; [by repeat constructor|constructor].
Qed.

Lemma read_attrs ds : Forall (fun a => attrL = [] \/ cra_name a ∈ attrL) (flat_map (processAttribute attrL) ds).
Proof.
  induction ds as [|d ds IH]; [constructor|]. cbn. apply Forall_app. split; [|done].
  unfold processAttribute. destruct (includedAttribute _ _) eqn:E; [|constructor].
  apply Forall_singleton. by apply includedAttribute_asked in E.
Qed.

Lemma element_asked cr l :
  processContextRegistrationElement regcomp regexec cr enV attrL = Ret l -> Forall (asked regcomp regexec enV attrL) l.
Proof.
  unfold processContextRegistrationElement.
  destruct (Array (getField cr REG_ENTITIES)) as [a| |]; try done. cbn [mbind cpp_bind].
  destruct (embedded_all a) as [es| |]; try done. cbn [mbind cpp_bind].
  pose proof (read_entities es) as He. set (entities := flat_map _ es) in *. clearbody entities.
  destruct (length entities =? 0)%nat eqn:El; [by intros [= <-]|]. apply Nat.eqb_neq in El.
  match goal with |- (m ← ?x; _) = _ -> _ => destruct x as [ds| |]; try done end. cbn [mbind cpp_bind].
  pose proof (read_attrs ds) as Ha. set (attrs := flat_map _ ds) in *. clearbody attrs.
  destruct (_ || _) eqn:E; [|by intros [= <-]]. intros [= <-]. repeat constructor; cbn; try done.
  - by intros ->.
  - intros Hne ->. cbn in E. apply Nat.eqb_eq in E. by destruct attrL.
Qed.

Lemma elements_asked crs l :
  process_elements regcomp regexec crs enV attrL = Ret l -> Forall (asked regcomp regexec enV attrL) l.
Proof.
  revert l. induction crs as [|cr crs IH]; intros l; cbn [process_elements]; [by intros [= <-]|].
  destruct (processContextRegistrationElement _ _ _ _ _) as [l1| |] eqn:E; try done. cbn [mbind cpp_bind].
  destruct (process_elements _ _ crs _ _) as [l2| |]; try done. intros [= <-].
  apply Forall_app. split; [by apply element_asked in E|by apply IH].
Qed.

Lemma registrations_asked cursor l :
  process_registrations regcomp regexec cursor enV attrL = Ret l -> Forall (asked regcomp regexec enV attrL) l.
Proof.
  revert l. induction cursor as [|[r|] cursor IH]; intros l; cbn [process_registrations]; [by intros [= <-]| |by apply IH].
  destruct (Array _) as [a| |]; try done. cbn [mbind cpp_bind].
  destruct (embedded_all a) as [crs| |]; try done. cbn [mbind cpp_bind].
  destruct (process_elements _ _ crs _ _) as [l1| |] eqn:E; try done. cbn [mbind cpp_bind].
  destruct (process_registrations _ _ cursor _ _) as [l2| |]; try done. intros [= <-].
  apply Forall_app. split; [by apply elements_asked in E|by apply IH].
Qed.

End ReadFacts.

(** ** What is found *)

Definition registers (en : EntityId) (cr : ContextRegistration) : bool :=
  existsb (registered_entity en) (cr_entityIdVector cr).

(** The registration names the attribute; or has no attributes, and so stands for all. *)
Definition names_attribute (en : EntityId) (attrName : string) (cr : ContextRegistration) : bool :=
  registers en cr && existsb (fun a => cra_name a =s attrName) (cr_attributes cr).
Definition whole_entity (en : EntityId) (cr : ContextRegistration) : bool :=
  registers en cr && (length (cr_attributes cr) =? 0)%nat.

(** The provider of the last registration of the entity as a whole, [d] when there is none. *)
Definition last_entity_provider (en : EntityId) (d : string) (crrV : list ContextRegistration) : string :=
  foldl (fun d cr => if whole_entity en cr then cr_providingApplication cr else d) d crrV.

Lemma lookup_entities_eq en attrName cr enV d :
  lookup_entities en attrName cr enV d
    = if existsb (registered_entity en) enV
      then if (length (cr_attributes cr) =? 0)%nat then (cr_providingApplication cr, None)
           else if existsb (fun a => cra_name a =s attrName) (cr_attributes cr)
           then (d, Some (cr_providingApplication cr)) else (d, None)
      else (d, None).
Proof.
  induction enV as [|e enV IH]; [done|]. cbn [lookup_entities existsb].
  destruct (registered_entity en e); cbn [negb orb]; [|done].
  destruct (length (cr_attributes cr) =? 0)%nat eqn:E; [done|].
  destruct (existsb _ (cr_attributes cr)); [done|]. rewrite IH. by destruct (existsb _ enV).
Qed.

Lemma lookup_entities_cr en attrName cr d :
  lookup_entities en attrName cr (cr_entityIdVector cr) d
    = (if whole_entity en cr then cr_providingApplication cr else d,
       if names_attribute en attrName cr then Some (cr_providingApplication cr) else None).
Proof.
  rewrite lookup_entities_eq. unfold whole_entity, names_attribute, registers.
  destruct (existsb (registered_entity en) _); [|done]. cbn [andb].
  destruct (cr_attributes cr) as [|a l]; [done|]. cbn [length Nat.eqb]. by destruct (existsb _ (a :: l)).
Qed.

Lemma cprLookup_loop_hit en attrName before cr after d :
  Forall (fun c => names_attribute en attrName c = false) before -> names_attribute en attrName cr = true ->
  cprLookup_loop en attrName (before ++ cr :: after) d
    = (last_entity_provider en d (before ++ [cr]), cr_providingApplication cr).
Proof.
  intros Hb Hc. revert d. induction Hb as [|c before H _ IH]; intros d; cbn [app cprLookup_loop];
    rewrite lookup_entities_cr.
  - by rewrite Hc.
  - rewrite H. apply IH.
Qed.

Lemma cprLookup_loop_miss en attrName crrV d :
  Forall (fun c => names_attribute en attrName c = false) crrV ->
  cprLookup_loop en attrName crrV d = (last_entity_provider en d crrV, "").
Proof.
  intros H. revert d. induction H as [|c crrV Hc _ IH]; intros d; [done|]. cbn [cprLookup_loop].
  rewrite lookup_entities_cr, Hc. apply IH.
Qed.

Lemma whole_not_names en attrName cr : names_attribute en attrName cr = true -> whole_entity en cr = false.
Proof.
  unfold names_attribute, whole_entity. rewrite andb_true_iff, andb_false_iff. intros [_ H].
  right. by destruct (cr_attributes cr).
Qed.

(** The provider of an attribute is that of the first registration that names it for the
    entity; the provider of the entity is that of the last registration of the entity
    without attributes before it (of all of them when no registration names the attribute). *)
Theorem cprLookupByAttribute_spec en attrName crrV :
  (exists before cr after, crrV = before ++ cr :: after /\
     Forall (fun c => names_attribute en attrName c = false) before /\ names_attribute en attrName cr = true /\
     cprLookupByAttribute en attrName crrV
       = (last_entity_provider en "" before, cr_providingApplication cr)) \/
  (Forall (fun c => names_attribute en attrName c = false) crrV /\
     cprLookupByAttribute en attrName crrV = (last_entity_provider en "" crrV, "")).
Proof.
  assert ((exists before cr after, crrV = before ++ cr :: after /\
     Forall (fun c => names_attribute en attrName c = false) before /\ names_attribute en attrName cr = true) \/
     Forall (fun c => names_attribute en attrName c = false) crrV) as [(b & cr & a & -> & Hb & Hc)|H].
  { induction crrV as [|c crrV IH]; [by right|]. destruct (names_attribute en attrName c) eqn:E.
    - left. by exists [], c, crrV.
    - destruct IH as [(b & cr & a & -> & Hb & Hc)|H]; [left|right; by constructor].
      exists (c :: b), cr, a. split; [done|]. split; [by constructor|done]. }
  - left. exists b, cr, a. split_and!; try done. unfold cprLookupByAttribute.
    rewrite cprLookup_loop_hit by done. f_equal. unfold last_entity_provider. rewrite foldl_app. cbn.
    by rewrite (whole_not_names _ attrName).
  - right. split; [done|]. by apply cprLookup_loop_miss.
Qed.

(** The provider the registrations give an attribute; "" for none, or when the query fails. *)
Definition provider (en : EntityId) (attrName : string) (crrV : option (list ContextRegistration)) : string :=
  match crrV with
  | Some crrV => let '(perEntPa, perAttrPa) := cprLookupByAttribute en attrName crrV in
                 if perAttrPa =s "" then perEntPa else perAttrPa
  | None => ""
  end.

(** As attributes that are not found are made: without a provider. *)
Definition unprovided (ca : ContextAttribute) : Prop := ca_found ca = false -> ca_providingApplication ca = "".

Definition looked_up (p : string -> string) (ca : ContextAttribute) : ContextAttribute :=
  if ca_found ca then ca else provided (p (ca_name ca)) ca.

Lemma provided_none ca : unprovided ca -> ca_found ca = false -> provided "" ca = ca.
Proof. destruct ca. unfold unprovided, provided. cbn. intros H ->. by rewrite H. Qed.

Lemma looked_up_unprovided p ca : unprovided (looked_up p ca).
Proof.
  unfold looked_up. destruct (ca_found ca) eqn:E; [unfold unprovided; congruence|].
  unfold unprovided. cbn. by intros ->%negb_false_iff%str_eqb_eq.
Qed.

Section SearchFacts.

Context (q : list EntityId -> list string -> cpp (option (list ContextRegistration))).
Context (en cerEn : EntityId) (r : list string -> option (list ContextRegistration)).
Hypothesis answers : forall attrL, q [en] attrL = Ret (r attrL).

Lemma provider_lookup_eq attrL cav : Forall unprovided cav ->
  provider_lookup q en cerEn attrL cav
    = Ret (looked_up (fun n => provider cerEn n (r attrL)) <$> cav).
Proof.
  intros Hu. unfold provider_lookup.
  assert (forall p, Forall (fun ca => ca_found ca = true \/ p (ca_name ca) = "") cav -> looked_up p <$> cav = cav) as Hid.
  { intros p Hp. induction Hp as [|ca cav [H|H] _ IH]; [done| |]; inversion_clear Hu; cbn; f_equal; try by apply IH.
    - unfold looked_up. by rewrite H.
    - unfold looked_up. destruct (ca_found ca) eqn:E; [done|]. rewrite H. by apply provided_none. }
  destruct (someContextElementNotFound cav) eqn:E.
  - rewrite answers. cbn [mbind cpp_bind]. destruct (r attrL) as [crrV|].
    + destruct (0 <? length crrV)%nat eqn:El.
      * f_equal. apply list_fmap_ext. intros i ca _. unfold looked_up, provider.
        destruct (ca_found ca); [done|]. by destruct (cprLookupByAttribute cerEn (ca_name ca) crrV).
      * rewrite Hid; [done|]. destruct crrV; [|done]. apply Forall_forall. by right.
    + rewrite Hid; [done|]. apply Forall_forall. by right.
  - rewrite Hid; [done|]. apply Forall_forall. intros ca Hin. left.
    unfold someContextElementNotFound in E. destruct (ca_found ca) eqn:Ef; [done|].
    assert (existsb (fun ca => negb (ca_found ca)) cav = true); [|congruence].
    apply existsb_exists. exists ca. rewrite Ef. split; [by apply list_elem_of_In|done].
Qed.

(** searchContextProviders leaves the attributes that are found as they are, and gives each
    other one the provider found for it in the registrations of the requested attributes,
    or else in those of the entity alone; it counts as found exactly when there is one. *)
Theorem searchContextProviders_spec caV cav : Forall unprovided cav ->
  searchContextProviders q en caV cerEn cav
    = Ret ((fun ca =>
              if ca_found ca then ca
              else let p := provider cerEn (ca_name ca) (r (ca_name <$> caV)) in
                   provided (if p =s "" then provider cerEn (ca_name ca) (r []) else p) ca) <$> cav).
Proof.
  intros Hu. unfold searchContextProviders. rewrite provider_lookup_eq by done. cbn [mbind cpp_bind].
  rewrite provider_lookup_eq.
  - f_equal. rewrite <- list_fmap_compose. apply list_fmap_ext. intros i ca Hl.
    unfold compose, looked_up. destruct (ca_found ca) eqn:E; [by rewrite E|]. cbn.
    destruct (provider cerEn (ca_name ca) (r (ca_name <$> caV)) =s "") eqn:Ep; done.
  - apply Forall_fmap, Forall_forall. intros ca _. apply looked_up_unprovided.
Qed.

End SearchFacts.

(** What registrationsQuery returns is what the request asks for: each registration has
    at least one entity, its entities match entities of the request and its attributes
    are attributes of the request; with a request for some attributes it has at least one. *)
Theorem registrationsQuery_asked regcomp regexec rangedQuery enV attrL l :
  registrationsQuery regcomp regexec rangedQuery enV attrL = Ret (Some l) ->
  Forall (asked regcomp regexec enV attrL) l.
Proof.
  unfold registrationsQuery. destruct (rangedQuery enV attrL) as [cursor|]; [|done].
  destruct (process_registrations _ _ cursor _ _) as [l'| |] eqn:E; try done. intros [= <-].
  by apply registrations_asked in E.
Qed.

(** ** Witnesses *)

Definition registration_doc : doc :=
  [(REG_CONTEXT_REGISTRATION, BsonArray [BsonObj [
      (REG_ENTITIES, BsonArray [BsonObj [(REG_ENTITY_ID, BsonString "r1"); (REG_ENTITY_TYPE, BsonString "Room")];
                                BsonObj [(REG_ENTITY_ID, BsonString "r2")]]);
      (REG_ATTRS, BsonArray [BsonObj [(REG_ATTRS_NAME, BsonString "t")]; BsonObj [(REG_ATTRS_NAME, BsonString "h")]]);
      (REG_PROVIDING_APPLICATION, BsonString "http://p")]])].

Definition one_registration (enV : list EntityId) (attrL : list string) : option (list (option doc)) :=
  Some [Some registration_doc; None].

Definition r1 : EntityId := mkEntityId "r1" "Room" "false" "".

Lemma registrationsQuery_asked_witness :
  Forall (asked (fun _ => true) (fun _ _ => false) [r1] ["t"])
    [mkContextRegistration [r1] [mkContextRegistrationAttribute "t" "" ""] "http://p"].
Proof.
  apply (registrationsQuery_asked (fun _ => true) (fun _ _ => false) one_registration [r1] ["t"]). reflexivity.
Defined.

(** The attribute "t" has a provider, "u" has none, "v" is found. *)
Lemma searchContextProviders_spec_witness :
  let lost n := ContextAttribute_string n "" "" false S754_nan false in
  let found n := ContextAttribute_string n "" "" true S754_nan false in
  searchContextProviders (registrationsQuery (fun _ => true) (fun _ _ => false) one_registration)
    r1 [lost "t"; lost "u"; found "v"] r1 [lost "t"; lost "u"; found "v"]
  = Ret [provided "http://p" (lost "t"); lost "u"; found "v"].
Proof.
  cbv zeta. rewrite (searchContextProviders_spec _ r1 r1 (fun attrL =>
    match registrationsQuery (fun _ => true) (fun _ _ => false) one_registration [r1] attrL with
    | Ret l => l | _ => None end)).
  - reflexivity.
  - intros attrL. unfold registrationsQuery, one_registration. cbn -[flat_map].
    by destruct (_ || _).
  - repeat constructor.
Defined.
