(* ===== verification/FilterParse.v ===== *)
(** * The Simple Query Language filter: parsing

    rest/StringFilter.cpp: StringFilterItem, its parsing methods, and
    StringFilter::parse.  A method that returns false leaves an error text behind and
    its object is thrown away by the only caller, so a parsing method returns [inl]
    that text or [inr] the object it fills.  The compiled regular expression of an item
    is identified with its source text, sfi_stringValue; regcomp of the C library is a
    parameter, and so is parse8601Time's use of strptime and timegm. *)

From S2P Require Import Prelude Strings Double.

Open Scope Z_scope.

Inductive StringFilterOp :=
  | SfopExists | SfopNotExists | SfopEquals | SfopDiffers | SfopGreaterThan
  | SfopGreaterThanOrEqual | SfopLessThan | SfopLessThanOrEqual | SfopMatchPattern.

Inductive StringFilterValueType :=
  | SfvtString | SfvtBool | SfvtNumber | SfvtNull | SfvtDate | SfvtNumberRange
  | SfvtDateRange | SfvtStringRange | SfvtNumberList | SfvtDateList | SfvtStringList.

#[export] Instance StringFilterOp_eq_dec : EqDecision StringFilterOp.
Proof. solve_decision. Defined.
#[export] Instance StringFilterValueType_eq_dec : EqDecision StringFilterValueType.
Proof. solve_decision. Defined.

Record StringFilterItem := mkItem {
  sfi_left : string;
  sfi_op : StringFilterOp;
  sfi_valueType : StringFilterValueType;
  sfi_numberValue : double;
  sfi_stringValue : string;
  sfi_boolValue : bool;
  sfi_stringList : list string;
  sfi_numberList : list double;
  sfi_numberRangeFrom : double;
  sfi_numberRangeTo : double;
  sfi_stringRangeFrom : string;
  sfi_stringRangeTo : string;
  sfi_attributeName : string;
  sfi_compiledPattern : bool
}.

(** Assignments to a member of the object. *)
Definition set_left (v : string) (i : StringFilterItem) : StringFilterItem :=
  mkItem v (sfi_op i) (sfi_valueType i) (sfi_numberValue i) (sfi_stringValue i) (sfi_boolValue i) (sfi_stringList i) (sfi_numberList i) (sfi_numberRangeFrom i) (sfi_numberRangeTo i) (sfi_stringRangeFrom i) (sfi_stringRangeTo i) (sfi_attributeName i) (sfi_compiledPattern i).
Definition set_op (v : StringFilterOp) (i : StringFilterItem) : StringFilterItem :=
  mkItem (sfi_left i) v (sfi_valueType i) (sfi_numberValue i) (sfi_stringValue i) (sfi_boolValue i) (sfi_stringList i) (sfi_numberList i) (sfi_numberRangeFrom i) (sfi_numberRangeTo i) (sfi_stringRangeFrom i) (sfi_stringRangeTo i) (sfi_attributeName i) (sfi_compiledPattern i).
Definition set_valueType (v : StringFilterValueType) (i : StringFilterItem) : StringFilterItem :=
  mkItem (sfi_left i) (sfi_op i) v (sfi_numberValue i) (sfi_stringValue i) (sfi_boolValue i) (sfi_stringList i) (sfi_numberList i) (sfi_numberRangeFrom i) (sfi_numberRangeTo i) (sfi_stringRangeFrom i) (sfi_stringRangeTo i) (sfi_attributeName i) (sfi_compiledPattern i).
Definition set_numberValue (v : double) (i : StringFilterItem) : StringFilterItem :=
  mkItem (sfi_left i) (sfi_op i) (sfi_valueType i) v (sfi_stringValue i) (sfi_boolValue i) (sfi_stringList i) (sfi_numberList i) (sfi_numberRangeFrom i) (sfi_numberRangeTo i) (sfi_stringRangeFrom i) (sfi_stringRangeTo i) (sfi_attributeName i) (sfi_compiledPattern i).
Definition set_stringValue (v : string) (i : StringFilterItem) : StringFilterItem :=
  mkItem (sfi_left i) (sfi_op i) (sfi_valueType i) (sfi_numberValue i) v (sfi_boolValue i) (sfi_stringList i) (sfi_numberList i) (sfi_numberRangeFrom i) (sfi_numberRangeTo i) (sfi_stringRangeFrom i) (sfi_stringRangeTo i) (sfi_attributeName i) (sfi_compiledPattern i).
Definition set_boolValue (v : bool) (i : StringFilterItem) : StringFilterItem :=
  mkItem (sfi_left i) (sfi_op i) (sfi_valueType i) (sfi_numberValue i) (sfi_stringValue i) v (sfi_stringList i) (sfi_numberList i) (sfi_numberRangeFrom i) (sfi_numberRangeTo i) (sfi_stringRangeFrom i) (sfi_stringRangeTo i) (sfi_attributeName i) (sfi_compiledPattern i).
Definition set_stringList (v : list string) (i : StringFilterItem) : StringFilterItem :=
  mkItem (sfi_left i) (sfi_op i) (sfi_valueType i) (sfi_numberValue i) (sfi_stringValue i) (sfi_boolValue i) v (sfi_numberList i) (sfi_numberRangeFrom i) (sfi_numberRangeTo i) (sfi_stringRangeFrom i) (sfi_stringRangeTo i) (sfi_attributeName i) (sfi_compiledPattern i).
Definition set_numberList (v : list double) (i : StringFilterItem) : StringFilterItem :=
  mkItem (sfi_left i) (sfi_op i) (sfi_valueType i) (sfi_numberValue i) (sfi_stringValue i) (sfi_boolValue i) (sfi_stringList i) v (sfi_numberRangeFrom i) (sfi_numberRangeTo i) (sfi_stringRangeFrom i) (sfi_stringRangeTo i) (sfi_attributeName i) (sfi_compiledPattern i).
Definition set_numberRangeFrom (v : double) (i : StringFilterItem) : StringFilterItem :=
  mkItem (sfi_left i) (sfi_op i) (sfi_valueType i) (sfi_numberValue i) (sfi_stringValue i) (sfi_boolValue i) (sfi_stringList i) (sfi_numberList i) v (sfi_numberRangeTo i) (sfi_stringRangeFrom i) (sfi_stringRangeTo i) (sfi_attributeName i) (sfi_compiledPattern i).
Definition set_numberRangeTo (v : double) (i : StringFilterItem) : StringFilterItem :=
  mkItem (sfi_left i) (sfi_op i) (sfi_valueType i) (sfi_numberValue i) (sfi_stringValue i) (sfi_boolValue i) (sfi_stringList i) (sfi_numberList i) (sfi_numberRangeFrom i) v (sfi_stringRangeFrom i) (sfi_stringRangeTo i) (sfi_attributeName i) (sfi_compiledPattern i).
Definition set_stringRangeFrom (v : string) (i : StringFilterItem) : StringFilterItem :=
  mkItem (sfi_left i) (sfi_op i) (sfi_valueType i) (sfi_numberValue i) (sfi_stringValue i) (sfi_boolValue i) (sfi_stringList i) (sfi_numberList i) (sfi_numberRangeFrom i) (sfi_numberRangeTo i) v (sfi_stringRangeTo i) (sfi_attributeName i) (sfi_compiledPattern i).
Definition set_stringRangeTo (v : string) (i : StringFilterItem) : StringFilterItem :=
  mkItem (sfi_left i) (sfi_op i) (sfi_valueType i) (sfi_numberValue i) (sfi_stringValue i) (sfi_boolValue i) (sfi_stringList i) (sfi_numberList i) (sfi_numberRangeFrom i) (sfi_numberRangeTo i) (sfi_stringRangeFrom i) v (sfi_attributeName i) (sfi_compiledPattern i).
Definition set_attributeName (v : string) (i : StringFilterItem) : StringFilterItem :=
  mkItem (sfi_left i) (sfi_op i) (sfi_valueType i) (sfi_numberValue i) (sfi_stringValue i) (sfi_boolValue i) (sfi_stringList i) (sfi_numberList i) (sfi_numberRangeFrom i) (sfi_numberRangeTo i) (sfi_stringRangeFrom i) (sfi_stringRangeTo i) v (sfi_compiledPattern i).
Definition set_compiledPattern (v : bool) (i : StringFilterItem) : StringFilterItem :=
  mkItem (sfi_left i) (sfi_op i) (sfi_valueType i) (sfi_numberValue i) (sfi_stringValue i) (sfi_boolValue i) (sfi_stringList i) (sfi_numberList i) (sfi_numberRangeFrom i) (sfi_numberRangeTo i) (sfi_stringRangeFrom i) (sfi_stringRangeTo i) (sfi_attributeName i) v.

Definition opName (i : StringFilterItem) : string :=
  match sfi_op i with
  | SfopExists => "Exists"
  | SfopNotExists => "NotExists"
  | SfopEquals => "Equals"
  | SfopDiffers => "Differs"
  | SfopGreaterThan => "GreaterThan"
  | SfopGreaterThanOrEqual => "GreaterThanOrEqual"
  | SfopLessThan => "LessThan"
  | SfopLessThanOrEqual => "LessThanOrEqual"
  | SfopMatchPattern => "MatchPattern"
  end.

Definition valueTypeName (i : StringFilterItem) : string :=
  match sfi_valueType i with
  | SfvtString => "String"
  | SfvtBool => "Bool"
  | SfvtNumber => "Number"
  | SfvtNull => "Null"
  | SfvtDate => "Date"
  | SfvtNumberRange => "NumberRange"
  | SfvtDateRange => "DateRange"
  | SfvtStringRange => "StringRange"
  | SfvtNumberList => "NumberList"
  | SfvtDateList => "DateList"
  | SfvtStringList => "StringList"
  end.

(** StringFilterItem::StringFilterItem(): only the strings, the lists and
    compiledPattern get a value; the rest is what the memory [mem] holds. *)
Definition StringFilterItem_new (mem : StringFilterItem) : StringFilterItem :=
  mkItem "" (sfi_op mem) (sfi_valueType mem) (sfi_numberValue mem) "" (sfi_boolValue mem)
    [] [] (sfi_numberRangeFrom mem) (sfi_numberRangeTo mem) "" "" "" false.

(** The out parameters of valueGet. *)
Record ValueOut := mkValueOut {
  vo_type : StringFilterValueType;
  vo_double : double;
  vo_string : string;
  vo_bool : bool
}.

Section Parse.

(** regcomp(&re, pattern, 0) == 0 *)
Variable regcomp : string -> bool.
(** timegm of the result of strptime(s, " %Y-%m-%dT%T"), -1 when strptime fails. *)
Variable parse8601Time : string -> Z.

(** ** Values *)

Definition valueGet (s : string) (out : ValueOut) : string + ValueOut :=
  match s with
  | String c s' =>
      if c =c SQUOTE then
        if negb (match last_char s with Some d => d =c SQUOTE | None => false end)
        then inl "non-terminated forced string"
        else
          let str := but_last s' in
          if str_any (fun d => d =c SQUOTE) str then inl "quote in forced string"
          else inr (mkValueOut SfvtString (vo_double out) str (vo_bool out))
      else
        match str2double s with
        | Some d => inr (mkValueOut SfvtNumber d (vo_string out) (vo_bool out))
        | None =>
            let t := parse8601Time s in
            let d := double_of_Z t in
            if negb (t =? -1) then inr (mkValueOut SfvtDate d (vo_string out) (vo_bool out))
            else if s =s "true" then inr (mkValueOut SfvtBool d (vo_string out) true)
            else if s =s "false" then inr (mkValueOut SfvtBool d (vo_string out) false)
            else if s =s "null" then inr (mkValueOut SfvtNull d (vo_string out) (vo_bool out))
            else inr (mkValueOut SfvtString d s (vo_bool out))
        end
  | "" =>
      (* str2double accepts the empty string *)
      match str2double "" with
      | Some d => inr (mkValueOut SfvtNumber d (vo_string out) (vo_bool out))
      | None => inl ""
      end
  end.

Definition is_ordering (o : StringFilterOp) : bool :=
  bool_decide (o = SfopGreaterThan) || bool_decide (o = SfopGreaterThanOrEqual)
  || bool_decide (o = SfopLessThan) || bool_decide (o = SfopLessThanOrEqual).

Definition is_equality (o : StringFilterOp) : bool :=
  bool_decide (o = SfopEquals) || bool_decide (o = SfopDiffers).

Definition is_unary (o : StringFilterOp) : bool :=
  bool_decide (o = SfopExists) || bool_decide (o = SfopNotExists).

Definition is_scalar_range_type (t : StringFilterValueType) : bool :=
  bool_decide (t = SfvtNumber) || bool_decide (t = SfvtDate) || bool_decide (t = SfvtString).

Definition valueParse (s : string) (i : StringFilterItem) : string + StringFilterItem :=
  match valueGet s (mkValueOut (sfi_valueType i) (sfi_numberValue i) (sfi_stringValue i) (sfi_boolValue i)) with
  | inl e => inl e
  | inr vo =>
      let i := set_boolValue (vo_bool vo) (set_stringValue (vo_string vo)
                 (set_numberValue (vo_double vo) (set_valueType (vo_type vo) i))) in
      if is_equality (sfi_op i) then inr i
      else if is_ordering (sfi_op i) && negb (is_scalar_range_type (sfi_valueType i)) then
        inl ("values of type /" +:+ valueTypeName i +:+ "/ not supported for operator /"
             +:+ opName i +:+ "/")
      else if bool_decide (sfi_op i = SfopMatchPattern) then
        if regcomp (c_str (sfi_stringValue i)) then inr (set_compiledPattern true i)
        else inl ("error compiling filter regex: '" +:+ sfi_stringValue i +:+ "'")
      else inr i
  end.

(** ** Ranges *)

Definition rangeParse (s : string) (i : StringFilterItem) : string + StringFilterItem :=
  if negb (is_equality (sfi_op i)) then inl "ranges only valid for == and != ops"
  else
    match find_str ".." s with
    | None => inl "not a range"
    | Some (fromString, toString) =>
        let toString := wsStrip toString in
        let fromString := wsStrip fromString in
        if (toString =s "") || (fromString =s "") then inl "empty item in range"
        else
          match valueGet fromString (mkValueOut SfvtNull (sfi_numberRangeFrom i) (sfi_stringRangeFrom i) false) with
          | inl e => inl e
          | inr f =>
              if negb (is_scalar_range_type (vo_type f)) then inl "invalid data type for /range-from/"
              else
                match valueGet toString (mkValueOut SfvtNull (sfi_numberRangeTo i) (sfi_stringRangeTo i) (vo_bool f)) with
                | inl e => inl e
                | inr t =>
                    if negb (is_scalar_range_type (vo_type t)) then inl "invalid data type for /range-to/"
                    else if negb (bool_decide (vo_type t = vo_type f)) then inl "invalid range: types mixed"
                    else
                      let i := set_stringRangeTo (vo_string t) (set_numberRangeTo (vo_double t)
                                 (set_stringRangeFrom (vo_string f) (set_numberRangeFrom (vo_double f) i))) in
                      match vo_type f with
                      | SfvtNumber => inr (set_valueType SfvtNumberRange i)
                      | SfvtString => inr (set_valueType SfvtStringRange i)
                      | SfvtDate => inr (set_valueType SfvtDateRange i)
                      | _ => inl "invalid data type for range"
                      end
                end
          end
    end.

(** ** Lists *)

Definition push_string (t : StringFilterValueType) (v : string) (i : StringFilterItem) :=
  set_stringList (sfi_stringList i ++ [v]) (set_valueType t i).
Definition push_number (t : StringFilterValueType) (v : double) (i : StringFilterItem) :=
  set_numberList (sfi_numberList i ++ [v]) (set_valueType t i).

(** The local variables d, str and b of the code start with what [mem] holds. *)
Definition listItemAdd (mem : ValueOut) (s : string) (i : StringFilterItem) : string + StringFilterItem :=
  let s := wsStrip s in
  if s =s "" then inl "empty item in list"
  else
    match valueGet s mem with
    | inl e => inl e
    | inr vo =>
        if (length (sfi_stringList i) =? 0)%nat && (length (sfi_numberList i) =? 0)%nat then
          match vo_type vo with
          | SfvtString => inr (push_string SfvtStringList (vo_string vo) i)
          | SfvtDate => inr (push_number SfvtDateList (vo_double vo) i)
          | SfvtNumber => inr (push_number SfvtNumberList (vo_double vo) i)
          | _ => inl "invalid JSON value type in list"
          end
        else
          match vo_type vo, sfi_valueType i with
          | SfvtString, SfvtStringList => inr (push_string SfvtStringList (vo_string vo) i)
          | SfvtDate, SfvtDateList => inr (push_number SfvtDateList (vo_double vo) i)
          | SfvtNumber, SfvtNumberList => inr (push_number SfvtNumberList (vo_double vo) i)
          | _, _ => inl "invalid JSON value type in list"
          end
    end.

(** The scan of listParse: [cP] is the text still to read, [item] the buffer between
    itemStart and cP (NULs included where the code writes them). *)
Fixpoint listParse_loop (mem : ValueOut) (cP item : string) (inString : bool)
    (i : StringFilterItem) : string + StringFilterItem :=
  match cP with
  | "" => if item =s "" then inr i else listItemAdd mem (c_str item) i
  | String c r =>
      if c =c SQUOTE then
        if negb inString then
          (* ++itemStart: the item loses its first character *)
          match item +:+ str1 c with
          | String _ item' => listParse_loop mem r item' true i
          | "" => inl ""
          end
        else listParse_loop mem r (item +:+ str1 NUL) false i
      else if (c =c ","%char) && negb inString then
        match listItemAdd mem (c_str item) i with
        | inl e => inl e
        | inr i' =>
            if r =s "" then inl "empty item in list"
            else listParse_loop mem r "" false i'
        end
      else listParse_loop mem r (item +:+ str1 c) inString i
  end.

Definition listParse (mem : ValueOut) (s : string) (i : StringFilterItem) : string + StringFilterItem :=
  if negb (is_equality (sfi_op i)) then inl "lists only valid for == and != ops"
  else listParse_loop mem (wsStrip s) "" false i.

(** ** Items *)

(** The operator, and the text before and after it: the first of the operators, in
    this order, that occurs in the item. *)
Definition find_operator (s : string) : StringFilterOp * string * string :=
  match find_str "==" s with Some (l, r) => (SfopEquals, l, r) | None =>
  match find_str "~=" s with Some (l, r) => (SfopMatchPattern, l, r) | None =>
  match find_str "!=" s with Some (l, r) => (SfopDiffers, l, r) | None =>
  match find_str "<=" s with Some (l, r) => (SfopLessThanOrEqual, l, r) | None =>
  match find_str "<" s with Some (l, r) => (SfopLessThan, l, r) | None =>
  match find_str ">=" s with Some (l, r) => (SfopGreaterThanOrEqual, l, r) | None =>
  match find_str ">" s with Some (l, r) => (SfopGreaterThan, l, r) | None =>
  match find_str ":" s with Some (l, r) => (SfopEquals, l, r) | None =>
    match s with
    | String c r => if c =c "!"%char then (SfopNotExists, "", r) else (SfopExists, s, s)
    | "" => (SfopExists, s, s)
    end
  end end end end end end end end.

(** The item without its enclosing quotes. *)
Definition unquote_item (s : string) : string + string :=
  match s with
  | String c s' =>
      if c =c SQUOTE then
        if negb (match last_char s with Some d => d =c SQUOTE | None => false end)
        then inl "non-terminated forced string"
        else
          let s'' := but_last s' in
          if str_any (fun d => d =c SQUOTE) s'' then inl "quote in forced string" else inr s''
      else inr s
  | "" => inr s
  end.

(** StringFilterItem::parse *)
Definition item_parse (mem : ValueOut) (qItem : string) (i : StringFilterItem) : string + StringFilterItem :=
  let s := wsStrip qItem in
  if s =s "" then inl "empty q-item"
  else
    match unquote_item s with
    | inl e => inl e
    | inr s =>
        let '(op, lhs, rhs) := find_operator s in
        let i := set_op op i in
        let lhs := wsStrip lhs in
        let rhs := wsStrip rhs in
        if (lhs =s "") && negb (is_unary op) then inl "empty left-hand-side in q-item"
        else if forbiddenChars (Some lhs) (Some "") then inl "invalid character found in URI param /q/"
        else
          let i := set_left lhs i in
          if rhs =s "" then inl "empty right-hand-side in q-item"
          else if is_unary op then inr (set_attributeName rhs i)
          else if str_contains ".." rhs then rangeParse rhs i
          else if str_contains "," rhs then listParse mem rhs i
          else valueParse rhs i
    end.

(** ** The whole filter *)

(** strtok_r(str, ";", &saver), called until it returns NULL. *)
Definition strtok_semicolon (str : string) : list string :=
  filter (fun t => t <> "") (split_on ";" str).

Fixpoint parse_items (mem : ValueOut) (memItem : StringFilterItem) (toks : list string)
    (filters : list StringFilterItem) : string + list StringFilterItem :=
  match toks with
  | [] => inr filters
  | t :: toks' =>
      let s := wsStrip t in
      if s =s "" then inl "empty q-item (only whitespace)"
      else
        match item_parse mem s (StringFilterItem_new memItem) with
        | inl e => inl e
        | inr item => parse_items mem memItem toks' (filters ++ [item])
        end
  end.

(** StringFilter::parse up to the call of mongoFilterPopulate, on a fresh object. *)
Definition parse_filters (mem : ValueOut) (memItem : StringFilterItem) (q : string)
    : string + list StringFilterItem :=
  if (q =s "") || (q =s ";") then inl "empty q"
  else if str_contains ";;" q then inl "empty q-item"
  else
    let s := wsStrip q in
    (* the buffer [str] after wsStrip: its leading blanks, then s *)
    let str := (str_span is_ws q).1 +:+ s in
    if match last_char s with Some c => c =c ";"%char | None => false end then inl "empty q-item"
    else parse_items mem memItem (strtok_semicolon str) [].

End Parse.

(** ** Well-formed items *)

(** A non-empty list of the type its valueType announces. *)
Definition list_typed (i : StringFilterItem) : Prop :=
  match sfi_valueType i with
  | SfvtStringList => sfi_stringList i <> [] /\ sfi_numberList i = []
  | SfvtNumberList | SfvtDateList => sfi_numberList i <> [] /\ sfi_stringList i = []
  | _ => False
  end.

Definition no_list (i : StringFilterItem) : Prop :=
  sfi_stringList i = [] /\ sfi_numberList i = [].

(** The value types of a right-hand side that is neither a list nor a range. *)
Definition is_value_type (t : StringFilterValueType) : bool :=
  is_scalar_range_type t || bool_decide (t = SfvtBool) || bool_decide (t = SfvtNull).

Definition is_range_type (t : StringFilterValueType) : bool :=
  bool_decide (t = SfvtNumberRange) || bool_decide (t = SfvtDateRange)
  || bool_decide (t = SfvtStringRange).

Definition value_wf (regcomp : string -> bool) (i : StringFilterItem) : Prop :=
  match sfi_op i with
  | SfopExists => sfi_attributeName i = sfi_left i /\ sfi_left i <> "" /\ no_list i
  | SfopNotExists => sfi_attributeName i <> "" /\ sfi_left i = "" /\ no_list i
  | SfopEquals | SfopDiffers =>
      sfi_left i <> "" /\
      (list_typed i \/ (no_list i /\ (is_value_type (sfi_valueType i) || is_range_type (sfi_valueType i)) = true))
  | SfopMatchPattern =>
      sfi_left i <> "" /\ no_list i /\ is_value_type (sfi_valueType i) = true
      /\ regcomp (c_str (sfi_stringValue i)) = true
  | _ => sfi_left i <> "" /\ no_list i /\ is_scalar_range_type (sfi_valueType i) = true
  end.

Definition item_wf (regcomp : string -> bool) (i : StringFilterItem) : Prop :=
  str_any commonForbidden (sfi_left i) = false /\
  sfi_compiledPattern i = bool_decide (sfi_op i = SfopMatchPattern) /\
  value_wf regcomp i.

(** The members a value parser does not touch. *)
Definition same_head (i i' : StringFilterItem) : Prop :=
  sfi_op i' = sfi_op i /\ sfi_left i' = sfi_left i /\
  sfi_attributeName i' = sfi_attributeName i /\ sfi_compiledPattern i' = sfi_compiledPattern i.

#[export] Instance same_head_refl : Reflexive same_head.
Proof. by intros i. Qed.
#[export] Instance same_head_trans : Transitive same_head.
Proof. intros i j k (?&?&?&?) (?&?&?&?). unfold same_head. split_and!; congruence. Qed.

Section ParseFacts.

Context (regcomp : string -> bool) (parse8601Time : string -> Z).

Lemma valueGet_type s out vo :
  valueGet parse8601Time s out = inr vo -> is_value_type (vo_type vo) = true.
Proof.
  unfold valueGet. destruct s as [|c s].
  - destruct (str2double ""); intros [= <-]; done.
  - repeat case_match; intros [= <-]; done.
Qed.

Lemma listItemAdd_typed mem s i i' :
  no_list i \/ list_typed i ->
  listItemAdd parse8601Time mem s i = inr i' -> list_typed i' /\ same_head i i'.
Proof.
  intros Hi. unfold listItemAdd. destruct (wsStrip s =s ""); [done|].
  destruct (valueGet _ _ _) as [|vo]; [done|].
  destruct (_ && _) eqn:E.
  - apply andb_true_iff in E. rewrite !Nat.eqb_eq in E. destruct E as [E1%nil_length_inv E2%nil_length_inv].
    destruct (vo_type vo); intros [= <-]; unfold list_typed; cbn; rewrite ?E1, ?E2; done.
  - assert (list_typed i) as Ht.
    { destruct Hi as [[H1 H2]|]; [|done]. by rewrite H1, H2 in E. }
    unfold list_typed in Ht. destruct (vo_type vo), (sfi_valueType i) eqn:Ev; try done;
      intros [= <-]; destruct Ht; unfold list_typed; cbn; (split; [by auto with orion|done]).
Qed.

Lemma listParse_loop_typed mem cP : forall item inString i i',
  no_list i \/ list_typed i ->
  list_typed i \/ item <> "" \/ str_any (fun d => d =c ","%char) cP = true ->
  listParse_loop parse8601Time mem cP item inString i = inr i' ->
  list_typed i' /\ same_head i i'.
Proof.
  induction cP as [|c cP IH]; intros item inString i i' Hi Hp; cbn [listParse_loop].
  - destruct (item =s "") eqn:E.
    + apply str_eqb_eq in E. intros [= <-]. by destruct Hp as [|[|]].
    + by apply listItemAdd_typed.
  - rewrite str_any_cons in Hp. destruct (c =c SQUOTE) eqn:Eq.
    + apply char_eqb_eq in Eq as ->. cbn [orb] in Hp. destruct inString; cbn [negb].
      * apply IH; [done|]. right; left. by destruct item.
      * destruct item as [|d item]; cbn -[String.app].
        -- apply IH; [done|]. destruct Hp as [|[|]]; auto.
        -- rewrite app_cons_str. apply IH; [done|]. right; left. by destruct item.
    + destruct ((c =c ","%char) && negb inString) eqn:Ec.
      * destruct (listItemAdd _ _ _ _) as [|i1] eqn:Ea; [done|].
        destruct (listItemAdd_typed _ _ _ _ Hi Ea) as [Ht Hh].
        destruct (cP =s ""); [done|]. intros Hl.
        destruct (IH "" false i1 i' (or_intror Ht) (or_introl Ht) Hl) as [? Hh2].
        split; [done|]. by transitivity i1.
      * apply IH; [done|]. right; left. auto with orion.
Qed.

Lemma rangeParse_wf s i i' : no_list i ->
  rangeParse parse8601Time s i = inr i' ->
  no_list i' /\ is_range_type (sfi_valueType i') = true /\ same_head i i' /\ is_equality (sfi_op i) = true.
Proof.
  intros Hi. unfold rangeParse. destruct (is_equality (sfi_op i)) eqn:Eo; [|done].
  cbn [negb]. destruct (find_str ".." s) as [[]|]; [|done]. destruct (_ || _); [done|].
  destruct (valueGet _ _ _) as [|f]; [done|]. destruct (is_scalar_range_type _); [|done].
  destruct (valueGet _ _ _) as [|t]; [done|]. destruct (is_scalar_range_type _); [|done].
  cbn [negb]. destruct (bool_decide _); [|done]. cbn [negb].
  destruct (vo_type f); try done; intros [= <-]; done.
Qed.

Lemma listParse_wf mem s i i' : no_list i -> str_any (fun d => d =c ","%char) s = true ->
  listParse parse8601Time mem s i = inr i' ->
  list_typed i' /\ same_head i i' /\ is_equality (sfi_op i) = true.
Proof.
  intros Hi Hs. unfold listParse. destruct (is_equality (sfi_op i)) eqn:Eo; [|done]. cbn [negb].
  intros H. apply listParse_loop_typed in H as [? ?]; [done|by left|].
  right; right. apply str_any_wsStrip; [|done].
  intros c. unfold is_ws. rewrite !orb_true_iff, !char_eqb_eq. by intros [[-> | ->]| ->].
Qed.

Lemma valueParse_wf s i i' : no_list i ->
  valueParse regcomp parse8601Time s i = inr i' ->
  no_list i' /\ is_value_type (sfi_valueType i') = true /\
  sfi_op i' = sfi_op i /\ sfi_left i' = sfi_left i /\
  (is_ordering (sfi_op i) = true -> is_scalar_range_type (sfi_valueType i') = true) /\
  (if bool_decide (sfi_op i = SfopMatchPattern)
   then sfi_compiledPattern i' = true /\ regcomp (c_str (sfi_stringValue i')) = true
   else sfi_compiledPattern i' = sfi_compiledPattern i).
Proof.
  intros Hi. unfold valueParse. destruct (valueGet _ _ _) as [|vo] eqn:Ev; [done|].
  apply valueGet_type in Ev. cbn [sfi_op sfi_stringValue set_boolValue set_stringValue set_numberValue set_valueType].
  destruct (sfi_op i) eqn:Eo; cbn; rewrite ?Eo; cbn;
    repeat (case_match; simplify_eq/=; try done); intros; simplify_eq/=; rewrite ?Eo;
    split_and!; try done; try apply Hi;
    match goal with H : negb _ = false |- _ => by rewrite negb_false_iff in H end.
Qed.

Lemma find_operator_unary s :
  match find_operator s with
  | (SfopExists, l, r) => l = s /\ r = s
  | (SfopNotExists, l, _) => l = ""
  | _ => True
  end.
Proof.
  unfold find_operator. repeat (case_match; simplify_eq/=; try done).
Qed.

(** What StringFilterItem::parse accepts is a well-formed item. *)
Lemma item_parse_wf mem memItem q i :
  item_parse regcomp parse8601Time mem q (StringFilterItem_new memItem) = inr i ->
  item_wf regcomp i.
Proof.
  unfold item_parse. destruct (wsStrip q =s ""); [done|].
  destruct (unquote_item _) as [|s]; [done|].
  pose proof (find_operator_unary s) as Hu.
  destruct (find_operator s) as [[op lhs] rhs].
  destruct ((wsStrip lhs =s "") && negb (is_unary op)) eqn:El; [done|].
  destruct (forbiddenChars _ _) eqn:Ef; [done|]. cbn [forbiddenChars] in Ef.
  rewrite forbiddenChars_loop_empty in Ef.
  destruct (wsStrip rhs =s "") eqn:Er; [done|]. apply str_eqb_neq in Er.
  set (i0 := set_left _ _).
  assert (Hn : no_list i0) by done.
  destruct (is_unary op) eqn:Eu.
  { intros [= <-]. unfold item_wf, value_wf, i0. cbn.
    destruct op; try done; cbn; [destruct Hu as [-> ->]|rewrite Hu in Ef |- *]; auto. }
  assert (Hl : wsStrip lhs <> "").
  { rewrite andb_true_r in El. by apply str_eqb_neq. }
  destruct (str_contains ".." (wsStrip rhs)).
  { intros H. apply rangeParse_wf in H as (H1 & H2 & (H3 & H4 & _ & H5) & H6); [|done].
    unfold item_wf, value_wf. rewrite H5, H3, H4. cbn in H6 |- *.
    destruct op; try done; rewrite H2, orb_true_r; split_and!; auto. }
  destruct (str_contains "," (wsStrip rhs)) eqn:Ec.
  { change ","%string with (str1 ","%char) in Ec. rewrite str_contains_char in Ec.
    intros H. apply listParse_wf in H as (H1 & (H3 & H4 & _ & H5) & H6); [|done|done].
    unfold item_wf, value_wf. rewrite H5, H3, H4. cbn in H6 |- *.
    destruct op; try done; split_and!; auto. }
  intros H. apply valueParse_wf in H as (H1 & H2 & H3 & H4 & H5 & H6); [|done].
  unfold item_wf, value_wf. rewrite H3, H4. cbn in H5, H6 |- *.
  destruct op; cbn in *; try done; rewrite ?H2; split_and!; auto; try apply H6.
Qed.

Lemma parse_items_wf mem memItem toks acc fs : Forall (item_wf regcomp) acc ->
  parse_items regcomp parse8601Time mem memItem toks acc = inr fs -> Forall (item_wf regcomp) fs.
Proof.
  revert acc. induction toks as [|t toks IH]; intros acc Hacc; cbn [parse_items]; [by intros [= <-]|].
  destruct (wsStrip t =s ""); [done|].
  destruct (item_parse _ _ _ _ _) as [|i] eqn:Ei; [done|]. apply IH.
  apply Forall_app_2; [done|]. apply Forall_singleton. by eapply item_parse_wf.
Qed.

Lemma parse_filters_Forall mem memItem q fs :
  parse_filters regcomp parse8601Time mem memItem q = inr fs -> Forall (item_wf regcomp) fs.
Proof.
  unfold parse_filters. repeat (case_match; [done|]). intros Hp. by eapply parse_items_wf in Hp.
Qed.

(** Whatever StringFilter::parse accepts consists of well-formed items: the
    left-hand side is not empty (except for a unary operator) and holds no forbidden
    character; lists and ranges occur with == and != only and a list is non-empty and
    of one type; the ordering operators have a number, a date or a string; a pattern
    item, and no other, has a compiled pattern. *)
Theorem parse_filters_wf mem memItem q fs i :
  parse_filters regcomp parse8601Time mem memItem q = inr fs -> i ∈ fs -> item_wf regcomp i.
Proof.
  intros H Hi. apply parse_filters_Forall in H. rewrite Forall_forall in H. auto.
Qed.

End ParseFacts.

Lemma parse_filters_wf_witness :
  let mem := mkItem "" SfopExists SfvtNull S754_nan "" false [] [] S754_nan S754_nan "" "" "" false in
  item_wf (fun _ => true) (set_left "temp" (set_op SfopGreaterThan (set_valueType SfvtNumber
     (set_numberValue (double_of_Z 25) mem)))).
Proof.
  cbv zeta.
  eapply (parse_filters_wf (fun _ => true) (fun _ => -1) (mkValueOut SfvtNull S754_nan "" false)
    (mkItem "" SfopExists SfvtNull S754_nan "" false [] [] S754_nan S754_nan "" "" "" false) "!x;temp>25").
  - vm_compute. reflexivity.
  - right. left.
Defined.

(** ** Printing filters *)

Definition is_plain (c : ascii) : bool :=
  isalnum c || (c =c "_"%char) || (c =c "-"%char).

Definition plain (s : string) : bool := negb (s =s "") && str_all is_plain s.

(** The source text of the simple items: a unary test on an attribute, or an attribute
    compared with a quoted string. *)
Inductive simple_item :=
  | SimpleExists (name : string)
  | SimpleNotExists (name : string)
  | SimpleBinary (name : string) (op : StringFilterOp) (value : string).

Definition op_token (op : StringFilterOp) : string :=
  match op with
  | SfopEquals => "==" | SfopDiffers => "!=" | SfopMatchPattern => "~="
  | SfopGreaterThan => ">" | SfopGreaterThanOrEqual => ">="
  | SfopLessThan => "<" | SfopLessThanOrEqual => "<="
  | SfopExists | SfopNotExists => ""
  end.

Definition render_item (x : simple_item) : string :=
  match x with
  | SimpleExists n => n
  | SimpleNotExists n => String "!" n
  | SimpleBinary n op v => n +:+ op_token op +:+ String SQUOTE (v +:+ str1 SQUOTE)
  end.

Definition simple_ok (regcomp : string -> bool) (x : simple_item) : bool :=
  match x with
  | SimpleExists n | SimpleNotExists n => plain n
  | SimpleBinary n op v =>
      plain n && str_all is_plain v && negb (is_unary op)
      && (negb (bool_decide (op = SfopMatchPattern)) || regcomp v)
  end.

(** The item the code builds, in an object whose memory held [mem]. *)
Definition build_item (mem : StringFilterItem) (x : simple_item) : StringFilterItem :=
  match x with
  | SimpleExists n => set_attributeName n (set_left n (set_op SfopExists (StringFilterItem_new mem)))
  | SimpleNotExists n => set_attributeName n (set_left "" (set_op SfopNotExists (StringFilterItem_new mem)))
  | SimpleBinary n op v =>
      set_compiledPattern (bool_decide (op = SfopMatchPattern)) (set_stringValue v
        (set_valueType SfvtString (set_left n (set_op op (StringFilterItem_new mem)))))
  end.

Lemma is_plain_class c : is_plain c = true ->
  is_ws c = false /\ commonForbidden c = false /\ (c =c SQUOTE) = false /\
  Forall (fun d => (c =c d) = false) (String.list_ascii_of_string "=~!<>:;,.").
Proof. destruct c as [[] [] [] [] [] [] [] []]; try done; repeat constructor. Qed.

Lemma plain_free d s : str_all is_plain s = true ->
  (forall c, is_plain c = true -> (c =c d) = false) -> free_of d s = true.
Proof. intros Hs Hd. eapply str_all_impl; [|exact Hs]. intros c Hc. by rewrite Hd. Qed.

Ltac plain_free_tac :=
  lazymatch goal with
  | H : str_all is_plain ?s = true |- free_of _ ?s = true =>
      apply plain_free; [exact H|]; let c := fresh in intros c;
      destruct c as [[] [] [] [] [] [] [] []]; first [done | by vm_compute]
  end.

Lemma plain_not_ws s : str_all is_plain s = true -> str_all (fun c => negb (is_ws c)) s = true.
Proof. apply str_all_impl. intros c Hc. by destruct (is_plain_class c Hc) as (-> & _). Qed.

Lemma plain_not_forbidden s : str_all is_plain s = true -> str_any commonForbidden s = false.
Proof.
  intros Hs. unfold str_any. rewrite negb_false_iff. eapply str_all_impl; [|exact Hs].
  intros c Hc. by destruct (is_plain_class c Hc) as (_ & -> & _).
Qed.

Lemma find_operator_plain n : plain n = true -> find_operator n = (SfopExists, n, n).
Proof.
  unfold plain. rewrite andb_true_iff, negb_true_iff, str_eqb_neq. intros [Hne Hn].
  unfold find_operator. rewrite !find_str_none by plain_free_tac.
  destruct n as [|c n]; [done|]. cbn in Hn. apply andb_true_iff in Hn as [Hc _].
  destruct (is_plain_class c Hc) as (_ & _ & _ & Hf). rewrite Forall_forall in Hf.
  rewrite (Hf "!"%char); [done|]. by set_solver.
Qed.

(** A step of strstr at a place where the needle does not stand. *)
Lemma find_str_step c p d s : (d =c c) && String.prefix p s = false ->
  find_str (String c p) (String d s) =
    match find_str (String c p) s with Some (a, b) => Some (String d a, b) | None => None end.
Proof. intros H. cbn [find_str]. by rewrite prefix_cons, H. Qed.

Ltac free_tac :=
  repeat first
    [ progress autorewrite with orion
    | rewrite free_of_app | rewrite free_of_cons ]; rewrite ?andb_true_iff;
  repeat split; first [reflexivity | plain_free_tac | assumption].

Ltac find_tac :=
  repeat first
    [ rewrite find_str_none by free_tac
    | rewrite find_str_step by reflexivity
    | progress cbn match ].

Lemma find_operator_not n : plain n = true -> find_operator (String "!" n) = (SfopNotExists, "", n).
Proof.
  unfold plain. rewrite andb_true_iff, negb_true_iff, str_eqb_neq. intros [Hne Hn].
  destruct n as [|c n]; [done|]. pose proof Hn as Hn'.
  cbn in Hn. apply andb_true_iff in Hn as [Hc Hn].
  destruct (is_plain_class c Hc) as (_ & _ & _ & Hf). rewrite Forall_forall in Hf.
  unfold find_operator.
  assert (find_str "!=" (String "!" (String c n)) = None) as ->.
  { rewrite find_str_step; [by rewrite find_str_none by plain_free_tac|].
    rewrite prefix_cons, (Hf "="%char) by set_solver. done. }
  by rewrite !find_str_none by (rewrite free_of_cons; cbn [negb andb Ascii.eqb Bool.eqb]; plain_free_tac).
Qed.

Lemma find_operator_binary n op v : str_all is_plain n = true -> str_all is_plain v = true ->
  is_unary op = false ->
  find_operator (render_item (SimpleBinary n op v)) = (op, n, String SQUOTE (v +:+ str1 SQUOTE)).
Proof.
  intros Hn Hv Hu. unfold find_operator, render_item. set (w := String SQUOTE (v +:+ str1 SQUOTE)).
  assert (Hw : Forall (fun d => free_of d w = true) (String.list_ascii_of_string "=~!<>:")).
  { repeat constructor; unfold w; free_tac. }
  assert (forall p, find_str p (p +:+ w) = Some ("", w)) as Hhere by (intros; apply find_str_here).
  repeat (apply Forall_cons in Hw as [? Hw]).
  destruct op; try done; cbn [op_token]; rewrite !(find_str_skip _ _ n) by plain_free_tac;
    rewrite ?Hhere; rewrite ?app_cons_str, ?app_nil_l_str; find_tac;
    by rewrite ?app_nil_r_str.
Qed.

Section RoundTrip.

Context (regcomp : string -> bool) (parse8601Time : string -> Z).

Lemma plain_split n : plain n = true -> n <> "" /\ str_all is_plain n = true.
Proof. unfold plain. by rewrite andb_true_iff, negb_true_iff, str_eqb_neq. Qed.

Lemma wsStrip_plain n : str_all is_plain n = true -> wsStrip n = n.
Proof. intros Hn. by apply wsStrip_id, plain_not_ws. Qed.

Lemma quoted_not_ws v : str_all is_plain v = true ->
  str_all (fun c => negb (is_ws c)) (String SQUOTE (v +:+ str1 SQUOTE)) = true.
Proof.
  intros Hv. rewrite str_all_cons, str_all_app, plain_not_ws by done. done.
Qed.

Lemma render_not_ws x : simple_ok regcomp x = true ->
  str_all (fun c => negb (is_ws c)) (render_item x) = true.
Proof.
  destruct x as [n|n|n op v]; cbn [simple_ok render_item].
  - intros [_ Hn]%plain_split. by apply plain_not_ws.
  - intros [_ Hn]%plain_split. rewrite str_all_cons. by rewrite plain_not_ws.
  - rewrite !andb_true_iff. intros [[[[_ Hn]%plain_split Hv] _] _].
    rewrite !str_all_app, plain_not_ws, quoted_not_ws by done. by destruct op.
Qed.

Lemma render_free d x : simple_ok regcomp x = true ->
  d = ";"%char \/ d = NUL -> free_of d (render_item x) = true.
Proof.
  intros Hx Hd. destruct x as [n|n|n op v]; cbn [simple_ok render_item] in *.
  - apply plain_split in Hx as [_ Hn]. by destruct Hd as [-> | ->]; plain_free_tac.
  - apply plain_split in Hx as [_ Hn]. rewrite free_of_cons. by destruct Hd as [-> | ->]; free_tac.
  - rewrite !andb_true_iff in Hx. destruct Hx as [[[[_ Hn]%plain_split Hv] _] _].
    destruct Hd as [-> | ->]; destruct op; cbn [op_token]; free_tac.
Qed.

Lemma render_cons x : simple_ok regcomp x = true ->
  exists c r, render_item x = String c r /\ (c =c SQUOTE) = false.
Proof.
  assert (forall n, plain n = true -> exists c r, n = String c r /\ (c =c SQUOTE) = false) as Hp.
  { intros [|c n] [? Hn]%plain_split; [done|]. exists c, n. cbn in Hn.
    apply andb_true_iff in Hn as [Hc _]. by destruct (is_plain_class c Hc) as (_ & _ & ? & _). }
  destruct x as [n|n|n op v]; cbn [simple_ok render_item].
  - apply Hp.
  - intros _. by exists "!"%char, n.
  - rewrite !andb_true_iff. intros [[[Hn _] _] _]. destruct (Hp n Hn) as (c & r & -> & Hc).
    exists c, (r +:+ op_token op +:+ String SQUOTE (v +:+ str1 SQUOTE)). by rewrite app_cons_str.
Qed.

Lemma valueGet_quoted v out : str_all is_plain v = true ->
  valueGet parse8601Time (String SQUOTE (v +:+ str1 SQUOTE)) out
    = inr (mkValueOut SfvtString (vo_double out) v (vo_bool out)).
Proof.
  intros Hv. unfold valueGet. rewrite char_eqb_refl.
  change (String SQUOTE (v +:+ str1 SQUOTE)) with (String SQUOTE v +:+ str1 SQUOTE).
  rewrite last_char_app, but_last_app, char_eqb_refl. cbn [negb].
  assert (str_any (fun d => d =c SQUOTE) v = false) as ->; [|done].
  unfold str_any. rewrite negb_false_iff. change (free_of SQUOTE v = true). plain_free_tac.
Qed.

Lemma quoted_no_dots v : str_all is_plain v = true ->
  str_contains ".." (String SQUOTE (v +:+ str1 SQUOTE)) = false /\
  str_contains "," (String SQUOTE (v +:+ str1 SQUOTE)) = false.
Proof.
  intros Hv. unfold str_contains. by rewrite !find_str_none by free_tac.
Qed.

Lemma item_parse_render mem memItem x : simple_ok regcomp x = true ->
  item_parse regcomp parse8601Time mem (render_item x) (StringFilterItem_new memItem)
    = inr (build_item memItem x).
Proof.
  intros Hx. unfold item_parse. rewrite wsStrip_id by (by apply render_not_ws).
  destruct (render_cons x Hx) as (c & r & Hr & Hc).
  assert (unquote_item (render_item x) = inr (render_item x)) as ->.
  { rewrite Hr. cbn. by rewrite Hc. }
  assert ((render_item x =s "") = false) as -> by (by rewrite Hr).
  destruct x as [n|n|n op v]; cbn [simple_ok] in Hx.
  - cbn [render_item]. rewrite find_operator_plain by done.
    apply plain_split in Hx as [Hne%str_eqb_neq Hn].
    rewrite !wsStrip_plain, Hne by done. cbn [is_unary negb andb forbiddenChars bool_decide].
    by rewrite forbiddenChars_loop_empty, plain_not_forbidden.
  - cbn [render_item]. rewrite find_operator_not by done.
    apply plain_split in Hx as [Hne%str_eqb_neq Hn].
    by rewrite !wsStrip_plain, Hne.
  - rewrite !andb_true_iff, negb_true_iff in Hx.
    destruct Hx as [[[[Hne%str_eqb_neq Hn]%plain_split Hv] Hu] Hop].
    rewrite find_operator_binary, Hu, wsStrip_plain, Hne by done.
    rewrite wsStrip_id by (by apply quoted_not_ws).
    cbn [negb andb forbiddenChars]. rewrite forbiddenChars_loop_empty, plain_not_forbidden by done.
    destruct (quoted_no_dots v Hv) as [-> ->]. cbn [String.eqb].
    unfold valueParse. rewrite valueGet_quoted by done.
    apply orb_true_iff in Hop as [Hop|Hop]; destruct op; try done.
    cbn. rewrite c_str_id by (change (free_of NUL v = true); plain_free_tac). by rewrite Hop.
Qed.

Lemma join_semicolons ts : Forall (fun t => t <> "" /\ free_of ";" t = true) ts ->
  find_str ";;" (join ";" ts) = None.
Proof.
  induction 1 as [|t ts [Hne Ht] Hts IH]; [done|].
  destruct ts as [|u us]; [by apply find_str_none|].
  change (join ";" (t :: u :: us)) with (t +:+ String ";" (join ";" (u :: us))).
  rewrite find_str_skip by done. rewrite find_str_step, IH; [done|].
  apply Forall_cons in Hts as [[Hu Hf] _].
  assert (exists c r, join ";" (u :: us) = String c r /\ (c =c ";"%char) = false) as (c & r & -> & Hc).
  { destruct u as [|c u]; [done|]. rewrite free_of_cons, andb_true_iff, negb_true_iff in Hf.
    destruct Hf as [? _], us as [|u' us]; [by exists c, u|].
    exists c, (u +:+ ";" +:+ join ";" (u' :: us)). by rewrite <- app_cons_str. }
  rewrite prefix_cons, Hc. done.
Qed.

Lemma join_last p ts : ts <> [] ->
  Forall (fun t => exists c, last_char t = Some c /\ p c = true) ts ->
  exists c, last_char (join ";" ts) = Some c /\ p c = true.
Proof.
  induction ts as [|t ts IH]; [done|]. intros _. rewrite Forall_cons. intros [Ht Hts].
  destruct ts as [|u us]; [done|]. destruct (IH ltac:(done) Hts) as (c & Hc & Hp).
  exists c. split; [|done].
  change (join ";" (t :: u :: us)) with (t +:+ String ";" (join ";" (u :: us))).
  clear Ht IH. set (j := join ";" (u :: us)) in *. clearbody j.
  induction t as [|d t IHt]; [by destruct j|]. rewrite app_cons_str. cbn.
  destruct (t +:+ String ";" j) eqn:E; [by destruct t|]. by rewrite IHt.
Qed.

Lemma render_last x : simple_ok regcomp x = true ->
  exists c, last_char (render_item x) = Some c /\ negb (c =c ";"%char) && negb (is_ws c) = true.
Proof.
  intros Hx. pose proof (render_not_ws x Hx) as Hw.
  pose proof (render_free ";" x Hx (or_introl eq_refl)) as Hf.
  destruct (render_cons x Hx) as (c & r & Hr & _). rewrite Hr in Hw, Hf |- *. clear Hr.
  unfold free_of in Hf. revert c Hw Hf.
  induction r as [|d r IH]; intros c; rewrite !(str_all_cons _ c), !andb_true_iff; intros [? ?] [? ?].
  - exists c. split; [done|]. by apply andb_true_iff.
  - by apply IH.
Qed.

Lemma parse_items_render mem memItem xs acc :
  Forall (fun x => simple_ok regcomp x = true) xs ->
  parse_items regcomp parse8601Time mem memItem (render_item <$> xs) acc
    = inr (acc ++ (build_item memItem <$> xs)).
Proof.
  intros Hxs. revert acc. induction Hxs as [|x xs Hx _ IH]; intros acc; cbn [parse_items fmap list_fmap].
  - by rewrite app_nil_r.
  - rewrite wsStrip_id by (by apply render_not_ws).
    assert ((render_item x =s "") = false) as ->.
    { destruct (render_cons x Hx) as (c & r & -> & _). done. }
    by rewrite item_parse_render, IH, <- app_assoc.
Qed.

(** C38. Round trip: StringFilter::parse applied to the text of a list of simple items
    (existence tests, and attributes compared with a quoted string by any of the seven
    binary operators) joined with ';' builds exactly those items, in order. *)
Theorem parse_filters_roundtrip mem memItem xs :
  xs <> [] -> Forall (fun x => simple_ok regcomp x = true) xs ->
  parse_filters regcomp parse8601Time mem memItem (join ";" (render_item <$> xs))
    = inr (build_item memItem <$> xs).
Proof.
  intros Hne Hxs. set (ts := render_item <$> xs). unfold parse_filters.
  assert (Hts : Forall (fun t => t <> "" /\ free_of ";" t = true) ts).
  { apply Forall_fmap. eapply Forall_impl; [exact Hxs|]. intros x Hx. cbn. split.
    - destruct (render_cons x Hx) as (c & r & -> & _). done.
    - apply render_free; auto. }
  assert (Hl : exists c, last_char (join ";" ts) = Some c /\ negb (c =c ";"%char) && negb (is_ws c) = true).
  { apply join_last; [by destruct xs|]. apply Forall_fmap. eapply Forall_impl; [exact Hxs|].
    intros x Hx. by apply render_last. }
  assert (Hs : str_all (fun c => negb (is_ws c)) (join ";" ts) = true).
  { apply str_all_join; [done|]. apply Forall_fmap. eapply Forall_impl; [exact Hxs|].
    intros x Hx. by apply render_not_ws. }
  destruct Hl as (c & Hc & Hp). apply andb_true_iff in Hp as [Hp _].
  assert ((join ";" ts =s "") || (join ";" ts =s ";") = false) as ->.
  { apply orb_false_iff. split; apply str_eqb_neq; intros E; rewrite E in Hc; cbn in Hc; by simplify_eq. }
  unfold str_contains. rewrite join_semicolons by done.
  rewrite wsStrip_id by done. rewrite Hc. destruct (c =c ";"%char); [done|].
  rewrite str_span_none by done. cbn [fst]. rewrite app_nil_l_str. unfold strtok_semicolon.
  change ";"%string with (str1 ";"%char). rewrite split_on_join_free.
  - rewrite list_filter_all; [by apply parse_items_render|].
    eapply Forall_impl; [exact Hts|]. by intros ? [? _].
  - by destruct xs.
  - eapply Forall_impl; [exact Hts|]. by intros ? [_ ?].
Qed.

End RoundTrip.

Lemma parse_filters_roundtrip_witness :
  let mem := mkValueOut SfvtNull S754_nan "" false in
  let memItem := mkItem "" SfopExists SfvtNull S754_nan "" false [] [] S754_nan S754_nan "" "" "" false in
  let xs := [SimpleBinary "color" SfopLessThanOrEqual "red"; SimpleNotExists "broken";
             SimpleBinary "model" SfopMatchPattern "T-4"] in
  parse_filters (fun _ => true) (fun _ => -1) mem memItem "color<='red';!broken;model~='T-4'"
    = inr (build_item memItem <$> xs).
Proof.
  apply (parse_filters_roundtrip (fun _ => true) (fun _ => -1)
    (mkValueOut SfvtNull S754_nan "" false)
    (mkItem "" SfopExists SfvtNull S754_nan "" false [] [] S754_nan S754_nan "" "" "" false)
    [SimpleBinary "color" SfopLessThanOrEqual "red"; SimpleNotExists "broken";
     SimpleBinary "model" SfopMatchPattern "T-4"]).
  - discriminate.
  - repeat constructor.
Defined.
