(* ===== verification/FilterMatch.v ===== *)
(** * The Simple Query Language filter: evaluation

    rest/StringFilter.cpp: matching a filter against an entity (StringFilter::match
    and the match methods of an item), its translation to mongo queries
    (mongoFilterPopulate), and its copies (fill, clone).  regexec of the C library is
    a parameter: [regexec p s] says that the compiled pattern of source [p] matches [s].
    A copy shares nothing with the original here; the code's vector copies of a
    StringFilterItem share the regex_t. *)

From S2P Require Import Prelude Strings Double Compound Bson Ngsi FilterParse.

Open Scope Z_scope.


(** ** Matching one item *)

Section Match.

Variable regexec : string -> string -> bool.

Definition is_gt (c : comparison) : bool := match c with Gt => true | _ => false end.
Definition is_lt (c : comparison) : bool := match c with Lt => true | _ => false end.

Definition matchEquals (i : StringFilterItem) (ca : ContextAttribute) : bool :=
  match sfi_valueType i with
  | SfvtNumberRange | SfvtDateRange =>
      negb (dlt (ca_numberValue ca) (sfi_numberRangeFrom i) || dgt (ca_numberValue ca) (sfi_numberRangeTo i))
  | SfvtStringRange =>
      negb (is_lt (strcmp (c_str (ca_stringValue ca)) (c_str (sfi_stringRangeFrom i)))
            || is_gt (strcmp (c_str (ca_stringValue ca)) (c_str (sfi_stringRangeTo i))))
  | SfvtNumberList | SfvtDateList => existsb (fun d => deq (ca_numberValue ca) d) (sfi_numberList i)
  | SfvtStringList => existsb (fun s => ca_stringValue ca =s s) (sfi_stringList i)
  | SfvtNumber | SfvtDate => deq (ca_numberValue ca) (sfi_numberValue i)
  | SfvtString => ca_stringValue ca =s sfi_stringValue i
  | SfvtBool | SfvtNull => false
  end.

Definition matchPattern (i : StringFilterItem) (ca : ContextAttribute) : bool :=
  if negb (bool_decide (ca_valueType ca = ValueTypeString)) then false
  else regexec (c_str (sfi_stringValue i)) (c_str (ca_stringValue ca)).

Definition compatibleType (i : StringFilterItem) (ca : ContextAttribute) : bool :=
  if bool_decide (ca_valueType ca = ValueTypeNumber)
     && (bool_decide (sfi_valueType i = SfvtNumber) || bool_decide (sfi_valueType i = SfvtDate))
  then true
  else bool_decide (ca_valueType ca = ValueTypeString) && bool_decide (sfi_valueType i = SfvtString).

Definition matchGreaterThan (i : StringFilterItem) (ca : ContextAttribute) : bool :=
  if negb (compatibleType i ca) then false
  else match ca_valueType ca with
       | ValueTypeNumber => dgt (ca_numberValue ca) (sfi_numberValue i)
       | ValueTypeString => is_gt (strcmp (c_str (ca_stringValue ca)) (c_str (sfi_stringValue i)))
       | _ => false
       end.

Definition matchLessThan (i : StringFilterItem) (ca : ContextAttribute) : bool :=
  if negb (compatibleType i ca) then false
  else match ca_valueType ca with
       | ValueTypeNumber => dlt (ca_numberValue ca) (sfi_numberValue i)
       | ValueTypeString => is_lt (strcmp (c_str (ca_stringValue ca)) (c_str (sfi_stringValue i)))
       | _ => false
       end.

(** ** Matching a filter *)

Definition is_date_left (i : StringFilterItem) : bool :=
  (sfi_left i =s DATE_CREATED) || (sfi_left i =s DATE_MODIFIED).

(** The local ContextAttribute that stands for one of the two dates. *)
Definition date_attribute (memBool : bool) (ce : ContextElement) (i : StringFilterItem) : ContextAttribute :=
  mkContextAttribute "" "" [] ValueTypeNumber ""
    (if sfi_left i =s DATE_CREATED then ce_creDate ce else ce_modDate ce)
    memBool "" false false None false.

(** The attribute a binary item looks at: the entity's, or the date. *)
Definition item_operand (memBool : bool) (ce : ContextElement) (i : StringFilterItem)
    : option ContextAttribute :=
  if is_date_left i then Some (date_attribute memBool ce i) else getAttribute ce (sfi_left i).

(** One turn of the loop of StringFilter::match: [Some b] when the function returns b,
    [None] when the loop goes on. *)
Definition match_item (memBool : bool) (ce : ContextElement) (i : StringFilterItem) : option bool :=
  if match sfi_op i with
     | SfopExists => bool_decide (getAttribute ce (sfi_attributeName i) = None)
     | SfopNotExists => negb (bool_decide (getAttribute ce (sfi_attributeName i) = None))
     | _ => false
     end
  then Some false
  else
    let go ca :=
      match sfi_op i with
      | SfopExists | SfopNotExists => None
      | SfopEquals => if negb (matchEquals i ca) then Some false else None
      | SfopDiffers => if matchEquals i ca then Some false else None
      | SfopGreaterThan => if negb (matchGreaterThan i ca) then Some false else None
      | SfopLessThan => if negb (matchLessThan i ca) then Some false else None
      | SfopGreaterThanOrEqual => if matchLessThan i ca then Some false else None
      | SfopLessThanOrEqual => if matchGreaterThan i ca then Some false else None
      | SfopMatchPattern => Some (matchPattern i ca)
      end in
    if is_date_left i then go (date_attribute memBool ce i)
    else if bool_decide (sfi_op i = SfopNotExists) then None
    else match getAttribute ce (sfi_left i) with
         | None => Some false
         | Some ca => go ca
         end.

(** StringFilter::match *)
Fixpoint sf_match (memBool : bool) (ce : ContextElement) (filters : list StringFilterItem) : bool :=
  match filters with
  | [] => true
  | i :: rest =>
      match match_item memBool ce i with
      | Some b => b
      | None => sf_match memBool ce rest
      end
  end.

End Match.

(** ** Queries for mongo *)

(** The query on the attribute: the document under the key [k], or an error; an empty
    list is the document that no branch of the code filled. *)
Definition equals_query (i : StringFilterItem) : string + list (string * bson) :=
  match sfi_valueType i with
  | SfvtNumberRange | SfvtDateRange =>
      inr [("$gte", BsonNumber (sfi_numberRangeFrom i)); ("$lte", BsonNumber (sfi_numberRangeTo i))]
  | SfvtStringRange =>
      inr [("$gte", BsonString (sfi_stringRangeFrom i)); ("$lte", BsonString (sfi_stringRangeTo i))]
  | SfvtNumberList | SfvtDateList => inr [("$in", BsonArray (BsonNumber <$> sfi_numberList i))]
  | SfvtStringList => inr [("$in", BsonArray (BsonString <$> sfi_stringList i))]
  | SfvtBool => inr [("$exists", BsonBool true); ("$in", BsonArray [BsonBool (sfi_boolValue i)])]
  | SfvtNull => inl "null values not supported"
  | SfvtNumber | SfvtDate =>
      inr [("$exists", BsonBool true); ("$in", BsonArray [BsonNumber (sfi_numberValue i)])]
  | SfvtString => inr [("$in", BsonArray [BsonString (sfi_stringValue i)])]
  end.

Definition differs_query (i : StringFilterItem) : string + list (string * bson) :=
  match sfi_valueType i with
  | SfvtNumberRange | SfvtDateRange =>
      inr [("$exists", BsonBool true);
           ("$not", BsonObj [("$gte", BsonNumber (sfi_numberRangeFrom i)); ("$lte", BsonNumber (sfi_numberRangeTo i))])]
  | SfvtNumberList | SfvtDateList =>
      inr [("$exists", BsonBool true); ("$nin", BsonArray (BsonNumber <$> sfi_numberList i))]
  | SfvtStringRange =>
      inr [("$exists", BsonBool true);
           ("$not", BsonObj [("$gte", BsonString (sfi_stringRangeFrom i)); ("$lte", BsonString (sfi_stringRangeTo i))])]
  | SfvtStringList =>
      inr [("$exists", BsonBool true); ("$nin", BsonArray (BsonString <$> sfi_stringList i))]
  | SfvtBool => inr [("$exists", BsonBool true); ("$nin", BsonArray [BsonBool (sfi_boolValue i)])]
  | SfvtNull => inl "null values not supported"
  | SfvtNumber | SfvtDate =>
      inr [("$exists", BsonBool true); ("$nin", BsonArray [BsonNumber (sfi_numberValue i)])]
  | SfvtString => inr [("$exists", BsonBool true); ("$nin", BsonArray [BsonString (sfi_stringValue i)])]
  end.

Definition ordering_query (key : string) (i : StringFilterItem) : list (string * bson) :=
  [(key, if bool_decide (sfi_valueType i = SfvtString) then BsonString (sfi_stringValue i)
         else BsonNumber (sfi_numberValue i))].

Definition query_key (i : StringFilterItem) : string :=
  if sfi_left i =s DATE_CREATED then ENT_CREATION_DATE
  else if sfi_left i =s DATE_MODIFIED then ENT_MODIFICATION_DATE
  else ENT_ATTRS +:+ "." +:+ sfi_left i +:+ "." +:+ ENT_ATTRS_VALUE.

(** One turn of the loop: an error, nothing to push (continue), or the document f. *)
Definition item_query (i : StringFilterItem) : string + option (list (string * bson)) :=
  let k := query_key i in
  let kA := ENT_ATTRS +:+ "." +:+ sfi_attributeName i in
  let doc := fun q : list (string * bson) => Some [(k, BsonObj q)] in
  match sfi_op i with
  | SfopExists => inr (Some [(kA, BsonObj [("$exists", BsonBool true)])])
  | SfopNotExists => inr (Some [(kA, BsonObj [("$exists", BsonBool false)])])
  | SfopEquals => match equals_query i with inl e => inl e | inr q => inr (doc q) end
  | SfopDiffers => match differs_query i with inl e => inl e | inr q => inr (doc q) end
  | SfopGreaterThan => inr (doc (ordering_query "$gt" i))
  | SfopGreaterThanOrEqual => inr (doc (ordering_query "$gte" i))
  | SfopLessThan => inr (doc (ordering_query "$lt" i))
  | SfopLessThanOrEqual => inr (doc (ordering_query "$lte" i))
  | SfopMatchPattern =>
      if negb (bool_decide (sfi_valueType i = SfvtString)) then inr None
      else inr (doc [("$regex", BsonString (sfi_stringValue i))])
  end.

Record StringFilter := mkStringFilter {
  sf_filters : list StringFilterItem;
  sf_mongoFilters : list (list (string * bson))
}.

(** The loop of mongoFilterPopulate over [fs], from the [mongoFilters] of the object. *)
Fixpoint populate_loop (fs : list StringFilterItem) (mongoFilters : list (list (string * bson)))
    : string + list (list (string * bson)) :=
  match fs with
  | [] => inr mongoFilters
  | i :: fs' =>
      match item_query i with
      | inl e => inl e
      | inr None => populate_loop fs' mongoFilters
      | inr (Some f) => populate_loop fs' (mongoFilters ++ [f])
      end
  end.

Definition mongoFilterPopulate (sf : StringFilter) : string + StringFilter :=
  match populate_loop (sf_filters sf) (sf_mongoFilters sf) with
  | inl e => inl e
  | inr m => inr (mkStringFilter (sf_filters sf) m)
  end.

(** ** Parsing and copying a filter *)

Section Whole.

Variable regcomp : string -> bool.
Variable parse8601Time : string -> Z.

(** StringFilter::parse on a freshly constructed filter. *)
Definition sf_parse (mem : ValueOut) (memItem : StringFilterItem) (q : string) : string + StringFilter :=
  match parse_filters regcomp parse8601Time mem memItem q with
  | inl e => inl e
  | inr fs => mongoFilterPopulate (mkStringFilter fs [])
  end.

(** StringFilterItem::fill *)
Definition item_fill (sfi : StringFilterItem) : string + StringFilterItem :=
  if sfi_compiledPattern sfi && negb (regcomp (c_str (sfi_stringValue sfi)))
  then inl ("error compiling filter regex: '" +:+ sfi_stringValue sfi +:+ "'")
  else inr sfi.

(** The items copied, and the error text when a copy fails. *)
Fixpoint fill_loop (fs acc : list StringFilterItem) : list StringFilterItem * option string :=
  match fs with
  | [] => (acc, None)
  | i :: fs' =>
      match item_fill i with
      | inl e => (acc, Some e)
      | inr sfi => fill_loop fs' (acc ++ [sfi])
      end
  end.

(** StringFilter::clone, a null pointer and the error text when it fails. *)
Definition sf_clone (sf : StringFilter) : string + StringFilter :=
  match fill_loop (sf_filters sf) [] with
  | (_, Some e) => inl e
  | (fs, None) => inr (mkStringFilter fs (sf_mongoFilters sf))
  end.

(** StringFilter::fill of the filter [self] from [sf]: the filter after the call, and
    the error text when the call returns false. *)
Definition sf_fill (self sf : StringFilter) : StringFilter * option string :=
  match fill_loop (sf_filters sf) (sf_filters self) with
  | (fs, Some e) => (mkStringFilter fs (sf_mongoFilters self), Some e)
  | (fs, None) => (mkStringFilter fs (sf_mongoFilters sf), None)
  end.

End Whole.

(** ** What an item means *)

(** An item without early returns: the condition it puts on the entity. *)
Definition relation_holds (regexec : string -> string -> bool) (i : StringFilterItem)
    (ca : ContextAttribute) : bool :=
  match sfi_op i with
  | SfopExists | SfopNotExists => true
  | SfopEquals => matchEquals i ca
  | SfopDiffers => negb (matchEquals i ca)
  | SfopGreaterThan => matchGreaterThan i ca
  | SfopLessThan => matchLessThan i ca
  | SfopGreaterThanOrEqual => negb (matchLessThan i ca)
  | SfopLessThanOrEqual => negb (matchGreaterThan i ca)
  | SfopMatchPattern => matchPattern regexec i ca
  end.

Definition has_attribute (ce : ContextElement) (name : string) : bool :=
  existsb (fun ca => ca_name ca =s name) (ce_contextAttributeVector ce).

Definition item_holds (regexec : string -> string -> bool) (memBool : bool) (ce : ContextElement)
    (i : StringFilterItem) : bool :=
  match sfi_op i with
  | SfopNotExists => negb (has_attribute ce (sfi_attributeName i))
  | SfopExists =>
      has_attribute ce (sfi_attributeName i) && (is_date_left i || has_attribute ce (sfi_left i))
  | _ => match item_operand memBool ce i with
         | Some ca => relation_holds regexec i ca
         | None => false
         end
  end.

(** The items up to and with the first pattern item. *)
Fixpoint up_to_pattern (fs : list StringFilterItem) : list StringFilterItem :=
  match fs with
  | [] => []
  | i :: fs' => if bool_decide (sfi_op i = SfopMatchPattern) then [i] else i :: up_to_pattern fs'
  end.

(** What a comparison operator asks of the result of a comparison. *)
Definition cmp_holds (op : StringFilterOp) (c : comparison) : bool :=
  match op, c with
  | SfopEquals, Eq | SfopGreaterThan, Gt | SfopLessThan, Lt => true
  | SfopDiffers, (Lt | Gt) | SfopGreaterThanOrEqual, (Eq | Gt) | SfopLessThanOrEqual, (Eq | Lt) => true
  | _, _ => false
  end.

(** The attribute value compares with the item's value as [c]. *)
Definition compares (i : StringFilterItem) (ca : ContextAttribute) (c : comparison) : Prop :=
  match ca_valueType ca, sfi_valueType i with
  | ValueTypeNumber, (SfvtNumber | SfvtDate) => SFcompare (ca_numberValue ca) (sfi_numberValue i) = Some c
  | ValueTypeString, SfvtString =>
      strcmp (ca_stringValue ca) (sfi_stringValue i) = c /\
      c_str (ca_stringValue ca) = ca_stringValue ca /\ c_str (sfi_stringValue i) = sfi_stringValue i
  | _, _ => False
  end.

(** ** Theorems *)

Lemma getAttribute_has ce name : has_attribute ce name = negb (bool_decide (getAttribute ce name = None)).
Proof.
  unfold has_attribute, getAttribute. induction (ce_contextAttributeVector ce) as [|ca l IH]; [done|].
  cbn. destruct (ca_name ca =s name); [done|]. apply IH.
Qed.

Lemma getAttribute_Some ce name : has_attribute ce name = true ->
  exists ca, getAttribute ce name = Some ca.
Proof.
  rewrite getAttribute_has. destruct (getAttribute ce name) as [ca|]; [eauto|done].
Qed.

Section MatchFacts.

Context (regexec : string -> string -> bool) (memBool : bool) (ce : ContextElement).

(** One turn of the loop returns early exactly when the item fails, or at a pattern item. *)
Lemma match_item_holds i :
  match_item regexec memBool ce i =
    if item_holds regexec memBool ce i
    then if bool_decide (sfi_op i = SfopMatchPattern) then Some true else None
    else Some false.
Proof.
  unfold match_item, item_holds, item_operand, relation_holds. rewrite !getAttribute_has.
  destruct (sfi_op i); cbn; repeat (case_bool_decide; cbn; try done);
    destruct (is_date_left i); cbn; try done;
    destruct (getAttribute ce (sfi_left i)); cbn; try done;
    match goal with
    | |- context [if negb ?b then _ else _] => by destruct b
    | |- context [if ?b then _ else _] => by destruct b
    | |- Some ?b = _ => by destruct b
    end.
Qed.

Lemma sf_match_items fs :
  sf_match regexec memBool ce fs = forallb (item_holds regexec memBool ce) (up_to_pattern fs).
Proof.
  induction fs as [|i fs IH]; [done|]. cbn [sf_match up_to_pattern]. rewrite match_item_holds.
  case_bool_decide; cbn [forallb]; destruct (item_holds _ _ _ i); done.
Qed.

(** StringFilter::match is the conjunction of the conditions of the items up to
    and with the first ~= item: a pattern item returns its own result, and the items
    after it are never looked at, although a filter is documented as an AND of all of
    its items. *)
Theorem sf_match_spec fs :
  sf_match regexec memBool ce fs = forallb (item_holds regexec memBool ce) (up_to_pattern fs).
Proof. apply sf_match_items. Qed.

Lemma compatible_compares i ca c : compares i ca c -> compatibleType i ca = true.
Proof.
  unfold compares, compatibleType.
  destruct (ca_valueType ca), (sfi_valueType i); done.
Qed.

(** The relation on comparable values, by cases on the types. *)
Lemma relation_compares i ca c :
  is_equality (sfi_op i) || is_ordering (sfi_op i) = true -> compares i ca c ->
  relation_holds regexec i ca = cmp_holds (sfi_op i) c.
Proof.
  intros Hop Hc. pose proof (compatible_compares _ _ _ Hc) as Ht. revert Hc.
  unfold compares, relation_holds, matchGreaterThan, matchLessThan, matchEquals. rewrite Ht. cbn [negb].
  destruct (ca_valueType ca); try done; destruct (sfi_valueType i); try done.
  - intros (Hc & H1 & H2). rewrite H1, H2, Hc.
    assert ((ca_stringValue ca =s sfi_stringValue i) = match c with Eq => true | _ => false end) as ->.
    { unfold strcmp in Hc. destruct c.
      1: apply str_eqb_eq; by apply String.compare_eq_iff.
      all: apply str_eqb_neq; intros E; rewrite E in Hc;
        pose proof (strcmp_refl (sfi_stringValue i)); unfold strcmp in *;
        congruence. }
    by destruct (sfi_op i), c.
  - unfold dgt, dlt, deq, SFeqb, SFltb. intros Hc.
    rewrite (SFcompare_opp (sfi_numberValue i)), Hc. by destruct (sfi_op i), c.
  - unfold dgt, dlt, deq, SFeqb, SFltb. intros Hc.
    rewrite (SFcompare_opp (sfi_numberValue i)), Hc. by destruct (sfi_op i), c.
Qed.

(** On a value of the item's own type (a number against a number or a date, a
    string against a string) the six comparison operators mean what they say: the
    relation holds iff the result of the comparison is one the operator allows. *)
Theorem relation_comparison i ca c :
  is_equality (sfi_op i) || is_ordering (sfi_op i) = true -> compares i ca c ->
  relation_holds regexec i ca = cmp_holds (sfi_op i) c.
Proof. apply relation_compares. Qed.

(** An attribute whose value has another type than the item's (a string against a
    number, a boolean, a compound) satisfies >= and <= always and > and < never: >= is
    evaluated as "not <", and both comparisons answer false. *)
Theorem ordering_incompatible i ca :
  is_ordering (sfi_op i) = true -> compatibleType i ca = false ->
  relation_holds regexec i ca
    = bool_decide (sfi_op i = SfopGreaterThanOrEqual) || bool_decide (sfi_op i = SfopLessThanOrEqual).
Proof.
  intros Hop Ht. unfold relation_holds, matchGreaterThan, matchLessThan. rewrite Ht.
  by destruct (sfi_op i).
Qed.

End MatchFacts.

Lemma fill_loop_all regcomp fs acc :
  Forall (fun i => sfi_compiledPattern i = true -> regcomp (c_str (sfi_stringValue i)) = true) fs ->
  fill_loop regcomp fs acc = (acc ++ fs, None).
Proof.
  intros H. revert acc. induction H as [|i fs Hi _ IH]; intros acc; cbn; [by rewrite app_nil_r|].
  unfold item_fill. destruct (sfi_compiledPattern i); cbn.
  - rewrite Hi by done. cbn. by rewrite IH, <- app_assoc.
  - by rewrite IH, <- app_assoc.
Qed.

Lemma populate_loop_filters sf sf' : mongoFilterPopulate sf = inr sf' -> sf_filters sf' = sf_filters sf.
Proof. unfold mongoFilterPopulate. destruct (populate_loop _ _); [done|]. by intros [= <-]. Qed.

Lemma item_wf_compiled regcomp i : item_wf regcomp i -> sfi_compiledPattern i = true ->
  regcomp (c_str (sfi_stringValue i)) = true.
Proof.
  intros (_ & Hc & Hv) H. rewrite Hc in H. apply bool_decide_eq_true in H.
  unfold value_wf in Hv. rewrite H in Hv. tauto.
Qed.

(** Copying a parsed filter never fails and gives the same filter: every regular
    expression that compiled when the filter was parsed compiles again. *)
Theorem sf_clone_parsed regcomp parse8601Time mem memItem q sf :
  sf_parse regcomp parse8601Time mem memItem q = inr sf ->
  sf_clone regcomp sf = inr sf /\ sf_fill regcomp (mkStringFilter [] []) sf = (sf, None).
Proof.
  unfold sf_parse. destruct (parse_filters _ _ _ _ _) as [|fs] eqn:E; [done|].
  intros H. apply populate_loop_filters in H. apply parse_filters_Forall in E. cbn in H.
  unfold sf_clone, sf_fill. rewrite H, !fill_loop_all.
  - cbn. rewrite <- H. by destruct sf.
  - eapply Forall_impl; [exact E|]. apply item_wf_compiled.
  - eapply Forall_impl; [exact E|]. apply item_wf_compiled.
Qed.

(** ** The mongo queries *)

Definition null_equality (i : StringFilterItem) : bool :=
  is_equality (sfi_op i) && bool_decide (sfi_valueType i = SfvtNull).

Definition no_query (i : StringFilterItem) : bool :=
  bool_decide (sfi_op i = SfopMatchPattern) && negb (bool_decide (sfi_valueType i = SfvtString)).

Lemma item_query_cases i :
  if null_equality i then item_query i = inl "null values not supported"
  else if no_query i then item_query i = inr None
  else exists k q, item_query i = inr (Some [(k, BsonObj q)]) /\ q <> [].
Proof.
  unfold item_query, null_equality, no_query.
  destruct (sfi_op i); cbn; unfold equals_query, differs_query;
    destruct (sfi_valueType i); cbn; try done; by eexists _, _.
Qed.

(** mongoFilterPopulate fails exactly when an item compares with null by == or !=;
    otherwise it adds one single-field document per item, except for ~= items whose
    right-hand side is not a string, which add none. *)
Theorem mongoFilterPopulate_spec fs mongo :
  match mongoFilterPopulate (mkStringFilter fs mongo) with
  | inl e => existsb null_equality fs = true /\ e = "null values not supported"
  | inr sf =>
      existsb null_equality fs = false /\ sf_filters sf = fs /\
      exists docs, sf_mongoFilters sf = mongo ++ docs /\
        length docs = length (filter (fun i => no_query i = false) fs) /\
        Forall (fun d => exists k q, d = [(k, BsonObj q)] /\ q <> []) docs
  end.
Proof.
  unfold mongoFilterPopulate. cbn [sf_filters sf_mongoFilters]. revert mongo.
  induction fs as [|i fs IH]; intros mongo.
  - cbn. split_and!; [done..|]. exists []. by rewrite app_nil_r.
  - cbn [populate_loop existsb]. pose proof (item_query_cases i) as Hi.
    destruct (null_equality i); [by rewrite Hi|].
    destruct (no_query i) eqn:En.
    + rewrite Hi. specialize (IH mongo). rewrite filter_cons_False by congruence.
      destruct (populate_loop fs mongo); [done|]. destruct IH as (-> & _ & ?). done.
    + destruct Hi as (k & q & -> & Hq). specialize (IH (mongo ++ [[(k, BsonObj q)]])).
      rewrite filter_cons_True by done.
      destruct (populate_loop fs _) as [e|m]; [done|].
      destruct IH as (-> & _ & docs & Hd & Hl & Hf). cbn in Hd |- *. split_and!; [done..|].
      exists ([(k, BsonObj q)] :: docs). rewrite Hd, <- app_assoc. cbn. rewrite Hl.
      split_and!; [done..|]. constructor; [by eauto|done].
Qed.

(** ** Witnesses *)

Definition sample_item : StringFilterItem :=
  mkItem "temp" SfopGreaterThanOrEqual SfvtNumber (double_of_Z 25) "" false [] []
    (double_of_Z 0) (double_of_Z 0) "" "" "" false.

Lemma relation_comparison_witness :
  relation_holds (fun _ _ => false) sample_item
    (ContextAttribute_number "temp" "" (double_of_Z 30) false false) = true.
Proof.
  rewrite (relation_comparison (fun _ _ => false) sample_item
    (ContextAttribute_number "temp" "" (double_of_Z 30) false false) Gt).
  - reflexivity.
  - reflexivity.
  - vm_compute. reflexivity.
Defined.

Lemma ordering_incompatible_witness :
  relation_holds (fun _ _ => false) sample_item
    (ContextAttribute_string "temp" "" "cold" false (double_of_Z 0) false) = true.
Proof.
  rewrite (ordering_incompatible (fun _ _ => false) sample_item
    (ContextAttribute_string "temp" "" "cold" false (double_of_Z 0) false)).
  - reflexivity.
  - reflexivity.
  - reflexivity.
Defined.

Lemma sf_clone_parsed_witness :
  exists sf, sf_parse (fun _ => true) (fun _ => -1) (mkValueOut SfvtNull S754_nan "" false)
    sample_item "temp>25;id~=abc" = inr sf /\ sf_clone (fun _ => true) sf = inr sf.
Proof.
  eexists. split; [vm_compute; reflexivity|].
  eapply (proj1 (sf_clone_parsed (fun _ => true) (fun _ => -1) (mkValueOut SfvtNull S754_nan "" false)
    sample_item "temp>25;id~=abc" _ ltac:(vm_compute; reflexivity))).
Defined.
