(* ===== verification/FilterQuery.v ===== *)
(** * The two evaluations of a filter

    A filter is used in two ways: StringFilter::match evaluates it in memory, against the
    entity of a notification, and StringFilter::mongoFilterPopulate turns it into query
    documents that mongo evaluates against the stored entity (both in
    rest/StringFilter.cpp).  This file says when the two give the same answer.  Mongo is an
    interface here: [MongoQuery] lists what its documentation says of the operators the
    code uses, for a field that holds a scalar; [mongo_select] is one implementation. *)

From S2P Require Import Prelude Strings Double Compound Bson Ngsi FilterParse FilterMatch.

Open Scope Z_scope.

(** ** Mongo *)

(** What a stored field holds. *)
Inductive field :=
  | FNumber (d : double)
  | FString (s : string)
  | FBool (b : bool)
  | FOther.

(** Neither number is NaN. *)
Definition ordered (a b : double) : bool := match SFcompare a b with Some _ => true | None => false end.

(** Whether a field and a query value have the same type, and are not NaN. *)
Definition same_type (v : field) (b : bson) : bool :=
  match v, b with
  | FNumber x, BsonNumber a => ordered x a
  | FString _, BsonString _ | FBool _, BsonBool _ => true
  | _, _ => false
  end.

Definition other_type (v : field) (b : bson) : bool :=
  match v, b with
  | FNumber _, BsonString _ | FNumber _, BsonBool _ | FString _, BsonNumber _
  | FString _, BsonBool _ | FBool _, BsonNumber _ | FBool _, BsonString _ => true
  | _, _ => false
  end.

Definition equal_value (v : field) (b : bson) : bool :=
  match v, b with
  | FNumber x, BsonNumber a => deq x a
  | FString s, BsonString t => s =s t
  | FBool x, BsonBool a => Bool.eqb x a
  | _, _ => false
  end.

Definition value_compare (v : field) (b : bson) : option comparison :=
  match v, b with
  | FNumber x, BsonNumber a => SFcompare x a
  | FString s, BsonString t => Some (strcmp s t)
  | _, _ => None
  end.

(** The comparison operators of the query language. *)
Definition ordering_operator (op : StringFilterOp) : string :=
  match op with
  | SfopGreaterThan => "$gt"
  | SfopGreaterThanOrEqual => "$gte"
  | SfopLessThan => "$lt"
  | _ => "$lte"
  end.

(** [selects f d]: the document whose field of path [k] is [f k] satisfies the query [d]. *)
Class MongoQuery (selects : (string -> option field) -> list (string * bson) -> bool) : Prop := {
  mongo_and f k ops :
    selects f [(k, BsonObj ops)] = forallb (fun o => selects f [(k, BsonObj [o])]) ops;
  mongo_exists f k b :
    selects f [(k, BsonObj [("$exists", BsonBool b)])]
      = Bool.eqb b (match f k with Some _ => true | None => false end);
  mongo_in_absent f k l : f k = None ->
    selects f [(k, BsonObj [("$in", BsonArray l)])] = false;
  mongo_in f k v l : f k = Some v -> forallb (fun b => same_type v b || other_type v b) l = true ->
    selects f [(k, BsonObj [("$in", BsonArray l)])] = existsb (equal_value v) l;
  mongo_nin f k l :
    selects f [(k, BsonObj [("$nin", BsonArray l)])]
      = negb (selects f [(k, BsonObj [("$in", BsonArray l)])]);
  mongo_not f k ops :
    selects f [(k, BsonObj [("$not", BsonObj ops)])] = negb (selects f [(k, BsonObj ops)]);
  mongo_order_absent f k op b : is_ordering op = true -> f k = None ->
    selects f [(k, BsonObj [(ordering_operator op, b)])] = false;
  mongo_order_other f k op v b : is_ordering op = true -> f k = Some v -> other_type v b = true ->
    selects f [(k, BsonObj [(ordering_operator op, b)])] = false;
  mongo_order f k op v b c : is_ordering op = true -> f k = Some v -> value_compare v b = Some c ->
    selects f [(k, BsonObj [(ordering_operator op, b)])] = cmp_holds op c
}.

(** ** Stored entities *)

(** The value of an attribute as it is stored. *)
Definition field_of (ca : ContextAttribute) : field :=
  match ca_valueType ca with
  | ValueTypeNumber => FNumber (ca_numberValue ca)
  | ValueTypeString => FString (ca_stringValue ca)
  | ValueTypeBoolean => FBool (ca_boolValue ca)
  | _ => FOther
  end.

Definition present {A} (o : option A) : bool := match o with Some _ => true | None => false end.

(** A name that is one step of a path. *)
Definition plain_name (s : string) : bool := negb (str_any (fun c => c =c "."%char) s).

(** [f] is the stored form of the entity [ce], for the attributes whose name has no dot. *)
Record stored (f : string -> option field) (ce : ContextElement) : Prop := mkStored {
  stored_value name : plain_name name = true -> name <> DATE_CREATED -> name <> DATE_MODIFIED ->
    f (ENT_ATTRS +:+ "." +:+ name +:+ "." +:+ ENT_ATTRS_VALUE) = field_of <$> getAttribute ce name;
  stored_attribute name : plain_name name = true ->
    present (f (ENT_ATTRS +:+ "." +:+ name)) = present (getAttribute ce name);
  stored_creDate : f ENT_CREATION_DATE = Some (FNumber (ce_creDate ce));
  stored_modDate : f ENT_MODIFICATION_DATE = Some (FNumber (ce_modDate ce))
}.

(** ** Where the two evaluations agree *)

Definition no_nul (s : string) : bool := c_str s =s s.

(** An attribute has the type of the item's value or range; for an equality, also of
    the values of its list. *)
Definition comparable (i : StringFilterItem) (ca : ContextAttribute) : bool :=
  let eq := is_equality (sfi_op i) in
  let x := ca_numberValue ca in
  let s := ca_stringValue ca in
  match ca_valueType ca, sfi_valueType i with
  | ValueTypeNumber, (SfvtNumber | SfvtDate) => ordered x (sfi_numberValue i)
  | ValueTypeNumber, (SfvtNumberRange | SfvtDateRange) =>
      eq && ordered x (sfi_numberRangeFrom i) && ordered x (sfi_numberRangeTo i)
  | ValueTypeNumber, (SfvtNumberList | SfvtDateList) => eq && forallb (ordered x) (sfi_numberList i)
  | ValueTypeString, SfvtString => no_nul s && no_nul (sfi_stringValue i)
  | ValueTypeString, SfvtStringRange =>
      eq && no_nul s && no_nul (sfi_stringRangeFrom i) && no_nul (sfi_stringRangeTo i)
  | ValueTypeString, SfvtStringList => eq
  | _, _ => false
  end.

(** The items on which match and the query agree: the unary ones, and the comparisons
    of an attribute that is missing or comparable; the name has no dot, which mongo would
    take for a path. *)
Definition agreeing (memBool : bool) (ce : ContextElement) (i : StringFilterItem) : bool :=
  plain_name (sfi_left i) &&
  match sfi_op i with
  | SfopExists => sfi_attributeName i =s sfi_left i
  | SfopNotExists => plain_name (sfi_attributeName i)
  | SfopMatchPattern => false
  | _ => match item_operand memBool ce i with
         | Some ca => comparable i ca
         | None => true
         end
  end.

(** ** Lemmas on comparisons *)

Lemma ordered_compare a b : ordered a b = true -> exists c, SFcompare a b = Some c.
Proof. unfold ordered. destruct (SFcompare a b); [eauto|done]. Qed.

Lemma ordered_deq_leb a b c : SFcompare a b = Some c ->
  deq a b = cmp_holds SfopEquals c /\ dlt a b = cmp_holds SfopLessThan c /\ dgt a b = cmp_holds SfopGreaterThan c.
Proof.
  intros H. unfold deq, dlt, dgt, SFeqb, SFltb. rewrite (SFcompare_opp b a), H. by destruct c.
Qed.

Lemma strcmp_c_str s t : no_nul s = true -> no_nul t = true -> strcmp (c_str s) (c_str t) = strcmp s t.
Proof. by intros ->%str_eqb_eq ->%str_eqb_eq. Qed.

Lemma ge_negb_lt c : cmp_holds SfopGreaterThanOrEqual c = negb (cmp_holds SfopLessThan c).
Proof. by destruct c. Qed.
Lemma le_negb_gt c : cmp_holds SfopLessThanOrEqual c = negb (cmp_holds SfopGreaterThan c).
Proof. by destruct c. Qed.

Lemma forallb_ordered_typed x l : forallb (ordered x) l = true ->
  forallb (fun b => same_type (FNumber x) b || other_type (FNumber x) b) (BsonNumber <$> l) = true.
Proof.
  induction l as [|a l IH]; [done|]. cbn. intros [-> H]%andb_true_iff. cbn. by apply IH.
Qed.

Lemma strings_typed s l :
  forallb (fun b => same_type (FString s) b || other_type (FString s) b) (BsonString <$> l) = true.
Proof. by induction l. Qed.

Lemma existsb_numbers x l : existsb (equal_value (FNumber x)) (BsonNumber <$> l) = existsb (deq x) l.
Proof. induction l as [|a l IH]; [done|]. cbn. by rewrite IH. Qed.

Lemma existsb_strings s l : existsb (equal_value (FString s)) (BsonString <$> l) = existsb (String.eqb s) l.
Proof. induction l as [|a l IH]; [done|]. cbn. by rewrite IH. Qed.

Section Agreement.

Context {selects : (string -> option field) -> list (string * bson) -> bool} {M : MongoQuery selects}.
Context (f : string -> option field) (k : string).

Local Abbreviation sel q := (selects f [(k, BsonObj q)]).

Lemma sel_two a b : sel [a; b] = sel [a] && sel [b].
Proof. rewrite mongo_and. cbn. by rewrite andb_true_r. Qed.

Lemma sel_in_numbers x l : f k = Some (FNumber x) -> forallb (ordered x) l = true ->
  sel [("$in", BsonArray (BsonNumber <$> l))] = existsb (deq x) l.
Proof.
  intros Hk Hl. rewrite (mongo_in f k _ _ Hk (forallb_ordered_typed _ _ Hl)). apply existsb_numbers.
Qed.

Lemma sel_in_strings s l : f k = Some (FString s) ->
  sel [("$in", BsonArray (BsonString <$> l))] = existsb (String.eqb s) l.
Proof. intros Hk. rewrite (mongo_in f k _ _ Hk (strings_typed _ _)). apply existsb_strings. Qed.

Lemma sel_range_number x a b : f k = Some (FNumber x) -> ordered x a = true -> ordered x b = true ->
  sel [("$gte", BsonNumber a); ("$lte", BsonNumber b)] = negb (dlt x a || dgt x b).
Proof.
  intros Hk (c & Hc)%ordered_compare (d & Hd)%ordered_compare. rewrite sel_two.
  rewrite (mongo_order f k SfopGreaterThanOrEqual _ (BsonNumber a) c eq_refl Hk Hc).
  rewrite (mongo_order f k SfopLessThanOrEqual _ (BsonNumber b) d eq_refl Hk Hd).
  destruct (ordered_deq_leb _ _ _ Hc) as (_ & -> & _), (ordered_deq_leb _ _ _ Hd) as (_ & _ & ->).
  by rewrite ge_negb_lt, le_negb_gt, negb_orb.
Qed.

Lemma sel_range_string s a b : f k = Some (FString s) ->
  sel [("$gte", BsonString a); ("$lte", BsonString b)] = negb (is_lt (strcmp s a) || is_gt (strcmp s b)).
Proof.
  intros Hk. rewrite sel_two.
  rewrite (mongo_order f k SfopGreaterThanOrEqual _ (BsonString a) _ eq_refl Hk eq_refl).
  rewrite (mongo_order f k SfopLessThanOrEqual _ (BsonString b) _ eq_refl Hk eq_refl).
  by destruct (strcmp s a), (strcmp s b).
Qed.

Lemma sel_range_absent a b : f k = None -> sel [("$gte", a); ("$lte", b)] = false.
Proof.
  intros Hk. rewrite sel_two. by rewrite (mongo_order_absent f k SfopGreaterThanOrEqual a eq_refl Hk).
Qed.

(** The condition of an equality, on a comparable attribute. *)
Lemma equals_agree i ca q : f k = Some (field_of ca) -> is_equality (sfi_op i) = true ->
  comparable i ca = true -> equals_query i = inr q -> sel q = matchEquals i ca.
Proof.
  intros Hk Hop Hc Hq. unfold comparable in Hc. rewrite Hop in Hc. cbn [andb] in Hc.
  unfold equals_query in Hq. unfold matchEquals, field_of in *.
  destruct (ca_valueType ca); try done; destruct (sfi_valueType i); try done; injection Hq as <-.
  all: rewrite ?sel_two, ?mongo_exists, ?Hk; cbn [Bool.eqb andb].
  all: rewrite ?andb_true_iff in Hc.
  - etransitivity; [exact (sel_in_strings _ [sfi_stringValue i] Hk)|apply orb_false_r].
  - destruct Hc as [[Hs Ha] Hb]. rewrite <- sel_two, (sel_range_string _ _ _ Hk).
    by rewrite !strcmp_c_str.
  - by apply sel_in_strings.
  - etransitivity; [apply (sel_in_numbers _ [sfi_numberValue i] Hk); cbn; by rewrite Hc|apply orb_false_r].
  - etransitivity; [apply (sel_in_numbers _ [sfi_numberValue i] Hk); cbn; by rewrite Hc|apply orb_false_r].
  - destruct Hc. rewrite <- sel_two. by apply sel_range_number.
  - destruct Hc. rewrite <- sel_two. by apply sel_range_number.
  - by apply sel_in_numbers.
  - by apply sel_in_numbers.
Qed.

(** The query of != is the negated query of ==, for a field that exists. *)
Lemma differs_equals i ca q : f k = Some (field_of ca) -> is_equality (sfi_op i) = true ->
  comparable i ca = true -> differs_query i = inr q ->
  exists q', equals_query i = inr q' /\ sel q = negb (sel q').
Proof.
  intros Hk Hop Hc Hq. unfold comparable in Hc. rewrite Hop in Hc. cbn [andb] in Hc.
  unfold differs_query, equals_query in *.
  destruct (ca_valueType ca); try done; destruct (sfi_valueType i); try done;
    injection Hq as <-; eexists; (split; [done|]);
    rewrite ?sel_two, ?mongo_exists, Hk, ?mongo_not, ?sel_two; cbn [Bool.eqb andb]; by rewrite ?mongo_nin.
Qed.

Lemma equality_absent i q : f k = None ->
  (equals_query i = inr q \/ differs_query i = inr q) -> sel q = false.
Proof.
  intros Hk. unfold equals_query, differs_query.
  intros [Hq|Hq]; destruct (sfi_valueType i); try done; injection Hq as <-;
    try (by apply sel_range_absent); try (by apply mongo_in_absent);
    by rewrite sel_two, mongo_exists, Hk.
Qed.

(** The condition of an ordering, on a comparable attribute. *)
Lemma ordering_agree regexec i ca : f k = Some (field_of ca) -> is_ordering (sfi_op i) = true ->
  comparable i ca = true ->
  sel (ordering_query (ordering_operator (sfi_op i)) i) = relation_holds regexec i ca.
Proof.
  intros Hk Hop Hc. unfold comparable in Hc.
  assert (is_equality (sfi_op i) = false) as He by (by destruct (sfi_op i)). rewrite He in Hc.
  assert (exists c, value_compare (field_of ca) (if bool_decide (sfi_valueType i = SfvtString)
    then BsonString (sfi_stringValue i) else BsonNumber (sfi_numberValue i)) = Some c /\ compares i ca c)
    as (c & Hv & Hcmp).
  { unfold compares, field_of. destruct (ca_valueType ca); try done; destruct (sfi_valueType i); try done; cbn.
    - apply andb_true_iff in Hc as [H1%str_eqb_eq H2%str_eqb_eq].
      eexists. split; [reflexivity|]. by split_and!.
    - destruct (ordered_compare _ _ Hc) as [c H]. by exists c.
    - destruct (ordered_compare _ _ Hc) as [c H]. by exists c. }
  unfold ordering_query. rewrite (mongo_order f k _ _ _ c Hop Hk Hv). symmetry.
  apply relation_compares; [by rewrite Hop, orb_true_r|done].
Qed.

End Agreement.

Section Equivalence.

Context {selects : (string -> option field) -> list (string * bson) -> bool} {M : MongoQuery selects}.
Context (regexec : string -> string -> bool) (memBool : bool).
Context (f : string -> option field) (ce : ContextElement) (Hf : stored f ce).

Lemma operand_field i : plain_name (sfi_left i) = true ->
  f (query_key i) = field_of <$> item_operand memBool ce i.
Proof.
  intros Hn. unfold query_key, item_operand, is_date_left.
  destruct (sfi_left i =s DATE_CREATED) eqn:E1; [|destruct (sfi_left i =s DATE_MODIFIED) eqn:E2]; cbn [orb].
  - rewrite (stored_creDate _ _ Hf). unfold date_attribute, field_of. cbn. by rewrite E1.
  - rewrite (stored_modDate _ _ Hf). unfold date_attribute, field_of. cbn. by rewrite E1.
  - apply str_eqb_neq in E1, E2. by apply (stored_value _ _ Hf).
Qed.

Lemma existence_agrees name b : plain_name name = true ->
  selects f [(ENT_ATTRS +:+ "." +:+ name, BsonObj [("$exists", BsonBool b)])]
    = Bool.eqb b (has_attribute ce name).
Proof.
  intros Hn. rewrite mongo_exists. pose proof (stored_attribute _ _ Hf name Hn) as H. unfold present in H. rewrite H.
  rewrite getAttribute_has. by destruct (getAttribute ce name).
Qed.

Lemma ordering_item i op : plain_name (sfi_left i) = true -> sfi_op i = op -> is_ordering op = true ->
  match item_operand memBool ce i with Some ca => comparable i ca | None => true end = true ->
  selects f [(query_key i, BsonObj (ordering_query (ordering_operator op) i))]
    = match item_operand memBool ce i with Some ca => relation_holds regexec i ca | None => false end.
Proof.
  intros Hn <- Hop Ha. pose proof (operand_field i Hn) as Hk.
  destruct (item_operand memBool ce i) as [ca|].
  - by apply (ordering_agree f (query_key i)).
  - by apply mongo_order_absent.
Qed.

(** One item: its query selects the stored entity iff the item holds in memory. *)
Lemma item_agrees i d : agreeing memBool ce i = true -> item_query i = inr (Some d) ->
  selects f d = item_holds regexec memBool ce i.
Proof.
  unfold agreeing, item_holds, item_query. intros [Hn Ha]%andb_true_iff Hq.
  pose proof (operand_field i Hn) as Hk. destruct (sfi_op i) eqn:Hop; try done.
  - injection Hq as <-. apply str_eqb_eq in Ha. rewrite Ha in *. rewrite existence_agrees by done.
    by destruct (has_attribute _ _), (is_date_left i).
  - injection Hq as <-. rewrite existence_agrees by done. by destruct (has_attribute _ _).
  - destruct (equals_query i) as [|q] eqn:E; [done|]. injection Hq as <-.
    destruct (item_operand memBool ce i) as [ca|]; [|cbn in Hk; eapply equality_absent; eauto].
    unfold relation_holds. rewrite Hop. eapply equals_agree; eauto; by rewrite Hop.
  - destruct (differs_query i) as [|q] eqn:E; [done|]. injection Hq as <-.
    destruct (item_operand memBool ce i) as [ca|]; [|cbn in Hk; eapply equality_absent; eauto].
    assert (is_equality (sfi_op i) = true) as He by (by rewrite Hop).
    destruct (differs_equals f _ i ca q Hk He Ha E) as (q' & Hq' & ->).
    unfold relation_holds. rewrite Hop. f_equal. by eapply equals_agree.
  - injection Hq as <-. by apply (ordering_item i SfopGreaterThan).
  - injection Hq as <-. by apply (ordering_item i SfopGreaterThanOrEqual).
  - injection Hq as <-. by apply (ordering_item i SfopLessThan).
  - injection Hq as <-. by apply (ordering_item i SfopLessThanOrEqual).
Qed.

Lemma populate_agrees fs docs docs' : forallb (agreeing memBool ce) fs = true ->
  populate_loop fs docs = inr docs' ->
  exists new, docs' = docs ++ new /\
    forallb (selects f) new = forallb (item_holds regexec memBool ce) fs.
Proof.
  revert docs. induction fs as [|i fs IH]; intros docs; cbn.
  - intros _ [= <-]. exists []. by rewrite app_nil_r.
  - intros [Hi Hfs]%andb_true_iff. destruct (item_query i) as [|[d|]] eqn:E; [done| |].
    + intros H. destruct (IH _ Hfs H) as (new & -> & Hn). exists (d :: new).
      rewrite <- app_assoc. split; [done|]. cbn. by rewrite Hn, (item_agrees i d Hi E).
    + exfalso. unfold item_query, agreeing in *. apply andb_true_iff in Hi as [_ Hi].
      destruct (sfi_op i); try done.
      * by destruct (equals_query i).
      * by destruct (differs_query i).
Qed.

Lemma agreeing_no_pattern fs : forallb (agreeing memBool ce) fs = true -> up_to_pattern fs = fs.
Proof.
  induction fs as [|i fs IH]; [done|]. cbn. intros [Hi Hfs]%andb_true_iff.
  rewrite IH by done. unfold agreeing in Hi. apply andb_true_iff in Hi as [_ Hi]. by destruct (sfi_op i).
Qed.

(** C2. The two evaluations of a filter agree where every item is [agreeing]: an existence test, or
    a comparison of an attribute that is missing, or that is a number or a string and has the
    type of the item's value (with an ordering, a single value; with == and !=, a range or a
    list as well), names being without dots, numbers not NaN and strings without NUL.  Then
    StringFilter::match accepts the entity exactly when the entity, as it is stored, satisfies
    every query document that mongoFilterPopulate made of the filter: a subscription fires for
    the entities the same q finds.  Booleans, patterns and dotted names are left out
    ([sf_match_diverges] says where the evaluations of booleans and of other types differ). *)
Theorem sf_match_mongoFilters fs sf :
  forallb (agreeing memBool ce) fs = true ->
  mongoFilterPopulate (mkStringFilter fs []) = inr sf ->
  sf_match regexec memBool ce fs = forallb (selects f) (sf_mongoFilters sf).
Proof.
  intros Ha Hp. unfold mongoFilterPopulate in Hp. cbn [sf_filters sf_mongoFilters] in Hp.
  destruct (populate_loop fs []) as [|docs] eqn:E; [done|]. injection Hp as <-. cbn [sf_mongoFilters].
  destruct (populate_agrees fs [] docs Ha E) as (new & -> & Hn).
  by rewrite sf_match_items, agreeing_no_pattern, <- Hn.
Qed.

(** Where they disagree, on an attribute [ca] that exists: a number item with >= or <=
    holds in memory for a string attribute but its query does not select it; == with
    true or false never holds in memory (matchEquals does not treat booleans) and its
    query selects the equal boolean, != the other way round; == with a number looks in
    memory at the numberValue of a string attribute, which the constructor left
    unassigned, where the query selects nothing. *)
Theorem sf_match_diverges i ca d : plain_name (sfi_left i) = true ->
  item_operand memBool ce i = Some ca -> item_query i = inr (Some d) ->
  (is_ordering (sfi_op i) = true -> sfi_valueType i = SfvtNumber -> ca_valueType ca = ValueTypeString ->
     selects f d = false /\
     item_holds regexec memBool ce i
       = bool_decide (sfi_op i = SfopGreaterThanOrEqual) || bool_decide (sfi_op i = SfopLessThanOrEqual)) /\
  (is_equality (sfi_op i) = true -> sfi_valueType i = SfvtBool -> ca_valueType ca = ValueTypeBoolean ->
     ca_boolValue ca = sfi_boolValue i ->
     item_holds regexec memBool ce i = negb (selects f d)) /\
  (sfi_op i = SfopEquals -> sfi_valueType i = SfvtNumber -> ca_valueType ca = ValueTypeString ->
     selects f d = false /\ item_holds regexec memBool ce i = deq (ca_numberValue ca) (sfi_numberValue i)).
Proof.
  intros Hn Hca Hq. pose proof (operand_field i Hn) as Hk. rewrite Hca in Hk. cbn in Hk.
  unfold item_holds, relation_holds, matchEquals, matchGreaterThan, matchLessThan, compatibleType.
  rewrite Hca. unfold item_query, equals_query, differs_query, ordering_query in Hq. unfold field_of in Hk.
  split_and!.
  - intros Hop Hv Ht. rewrite Ht, Hv in *. cbn in *.
    split; [|by destruct (sfi_op i)].
    destruct (sfi_op i) eqn:Ho; try done; injection Hq as <-; rewrite <- Ho in Hop.
    + by eapply (mongo_order_other f _ SfopGreaterThan).
    + by eapply (mongo_order_other f _ SfopGreaterThanOrEqual).
    + by eapply (mongo_order_other f _ SfopLessThan).
    + by eapply (mongo_order_other f _ SfopLessThanOrEqual).
  - intros Hop Hv Ht Hb. rewrite Ht, Hv in *.
    assert (selects f [(query_key i, BsonObj [("$in", BsonArray [BsonBool (sfi_boolValue i)])])] = true) as Hin.
    { rewrite (mongo_in f _ _ _ Hk) by done. cbn. by rewrite Hb, eqb_reflx. }
    destruct (sfi_op i); try done; injection Hq as <-; rewrite mongo_and; cbn;
      by rewrite mongo_exists, Hk, ?mongo_nin, Hin.
  - intros Hop Hv Ht. rewrite Ht, Hv, Hop in *. injection Hq as <-. split; [|done].
    by rewrite mongo_and; cbn; rewrite mongo_exists, Hk, (mongo_in f _ _ _ Hk).
Qed.

End Equivalence.

(** ** An implementation of the interface *)

Definition order_holds (op : string) (c : comparison) : bool :=
  if op =s "$gt" then cmp_holds SfopGreaterThan c
  else if op =s "$gte" then cmp_holds SfopGreaterThanOrEqual c
  else if op =s "$lt" then cmp_holds SfopLessThan c
  else (op =s "$lte") && cmp_holds SfopLessThanOrEqual c.

Fixpoint op_holds (v : option field) (op : string) (arg : bson) : bool :=
  match arg with
  | BsonObj ops => (op =s "$not") && negb (forallb (fun '(o, a) => op_holds v o a) ops)
  | BsonArray l =>
      let found := match v with Some x => existsb (equal_value x) l | None => false end in
      if op =s "$nin" then negb found else (op =s "$in") && found
  | b =>
      if op =s "$exists" then match b with BsonBool e => Bool.eqb e (present v) | _ => false end
      else match v with
           | Some x => match value_compare x b with Some c => order_holds op c | None => false end
           | None => false
           end
  end.

Definition mongo_select (f : string -> option field) (d : list (string * bson)) : bool :=
  forallb (fun '(k, q) =>
    match q with
    | BsonObj ops => forallb (fun '(op, a) => op_holds (f k) op a) ops
    | _ => false
    end) d.

#[export] Instance mongo_select_query : MongoQuery mongo_select.
Proof.
  split; unfold mongo_select; cbn.
  - intros f k ops. rewrite andb_true_r. induction ops as [|[op a] ops IH]; [done|].
    cbn. by rewrite IH, !andb_true_r.
  - intros f k b. rewrite !andb_true_r. by destruct (f k).
  - intros f k l ->. done.
  - intros f k v l -> _. by rewrite !andb_true_r.
  - intros f k l. by rewrite !andb_true_r.
  - intros f k ops. by rewrite !andb_true_r.
  - intros f k op b Hop ->. by destruct op, b.
  - intros f k op v b Hop -> H. by destruct op, v, b.
  - intros f k op v b c Hop -> H. destruct v, b; try done; cbn in H |- *; rewrite ?H; [|injection H as ->]; by destruct op, c.
Qed.

(** ** Witnesses *)

(** A room at 25 degrees, one whose temperature is a text, and a query t>=25. *)
Definition room : ContextElement :=
  mkContextElement (mkEntityId "Room" "" "false" "") [ContextAttribute_number "t" "" (double_of_Z 25) false false]
    (double_of_Z 10) (double_of_Z 20).

Definition text_room : ContextElement :=
  mkContextElement (mkEntityId "Room" "" "false" "") [ContextAttribute_string "t" "" "hot" false S754_nan false]
    (double_of_Z 10) (double_of_Z 20).

Definition room_query : list StringFilterItem :=
  [mkItem "t" SfopGreaterThanOrEqual SfvtNumber (double_of_Z 25) "" false [] []
     (double_of_Z 0) (double_of_Z 0) "" "" "" false].

(** A stored entity with the single attribute t. *)
Definition stored_one (ce : ContextElement) (v : field) (k : string) : option field :=
  if k =s "creDate" then Some (FNumber (ce_creDate ce))
  else if k =s "modDate" then Some (FNumber (ce_modDate ce))
  else if k =s "attrs.t.value" then Some v
  else if k =s "attrs.t" then Some FOther
  else None.

#[local] Arguments String.append !_ _ /.

Lemma value_path name : ("attrs" +:+ "." +:+ name +:+ "." +:+ "value" =s "attrs.t.value") = (name =s "t").
Proof.
  cbn. destruct name as [|a [|b name]]; [done| |].
  - cbn. by destruct (a =c "t"%char).
  - cbn. destruct (a =c "t"%char); [|done].
    change (String b (name +:+ ".value") =s ".value") with ((b =c "."%char) && (name +:+ ".value" =s "value")).
    apply andb_false_intro2, str_eqb_neq. intros E%(f_equal String.length).
    rewrite length_app_str in E. cbn in E. lia.
Qed.

Lemma attribute_path name : ("attrs" +:+ "." +:+ name =s "attrs.t") = (name =s "t").
Proof. done. Qed.

Lemma stored_one_stored ce ca : ce_contextAttributeVector ce = [ca] -> ca_name ca = "t" ->
  stored (stored_one ce (field_of ca)) ce.
Proof.
  intros Hca Hn. split; try done; unfold stored_one, getAttribute; rewrite Hca.
  - intros name Hp _ _. change ENT_ATTRS with "attrs". change ENT_ATTRS_VALUE with "value".
    rewrite value_path. cbn [find_attribute]. rewrite Hn, (str_eqb_sym "t").
    cbn. destruct (name =s "t"); [done|].
    assert ((name +:+ ".value" =s "t") = false) as ->; [|done].
    apply str_eqb_neq. intros E%(f_equal String.length). rewrite length_app_str in E. cbn in E. lia.
  - intros name Hp. change ENT_ATTRS with "attrs". rewrite attribute_path. cbn [find_attribute].
    rewrite Hn, (str_eqb_sym "t"). cbn.
    destruct (name =s "t.value") eqn:E; [apply str_eqb_eq in E as ->; discriminate Hp|].
    by destruct (name =s "t").
Qed.

Lemma sf_match_mongoFilters_witness :
  match mongoFilterPopulate (mkStringFilter room_query []) with
  | inr sf => forallb (mongo_select (stored_one room (FNumber (double_of_Z 25)))) (sf_mongoFilters sf) = true
  | inl _ => False
  end.
Proof.
  exact (eq_sym (sf_match_mongoFilters (fun _ _ => false) false
    (stored_one room (FNumber (double_of_Z 25))) room (stored_one_stored room _ eq_refl eq_refl)
    room_query _ eq_refl eq_refl)).
Defined.

Lemma sf_match_diverges_witness :
  let f := stored_one text_room (FString "hot") in
  match room_query with
  | i :: _ => match item_query i with
              | inr (Some d) => mongo_select f d = false /\ item_holds (fun _ _ => false) false text_room i = true
              | _ => False
              end
  | [] => False
  end.
Proof.
  exact (proj1 (sf_match_diverges (fun _ _ => false) false
    (stored_one text_room (FString "hot")) text_room (stored_one_stored text_room _ eq_refl eq_refl)
    (mkItem "t" SfopGreaterThanOrEqual SfvtNumber (double_of_Z 25) "" false [] []
       (double_of_Z 0) (double_of_Z 0) "" "" "" false) _ _ eq_refl eq_refl eq_refl) eq_refl eq_refl eq_refl).
Defined.
