(* ===== verification/SubCache.v ===== *)
(** * The subscription cache

    cache/subCache.cpp: the linked list of cached subscriptions (insertion, removal,
    lookup, destruction, statistics) and the matching of an update against it.  The
    list lives in a heap: a node is the struct CachedSubscription, its [next] pointer
    kept beside the other members.  Following a pointer that is not in the heap (a freed
    node) is undefined behaviour; a loop over the list runs with fuel and answers
    [Looping] when it has not ended.  char pointers that may be NULL are options. *)

From S2P Require Import Prelude Strings Double Compound Bson Ngsi FilterParse FilterMatch.

Open Scope Z_scope.

(** ** Data *)

Record EntityInfo := mkEntityInfo {
  ei_isPattern : bool;
  ei_entityIdPattern : string;  (* the source text given to regcomp *)
  ei_entityId : string;
  ei_entityType : string;
  ei_entityIdPatternToBeFreed : bool
}.

Record SubscriptionExpression := mkExpression {
  ex_q : string;
  ex_geometry : string;
  ex_coords : string;
  ex_georel : string;
  ex_stringFilter : StringFilter;
  ex_isSet : bool
}.

Record CachedSubscription := mkCachedSubscription {
  cs_entityIdInfos : list EntityInfo;
  cs_attributes : list string;
  cs_notifyConditionVector : list NotifyCondition;
  cs_tenant : option string;
  cs_servicePath : option string;
  cs_subscriptionId : option string;
  cs_throttling : Z;
  cs_expirationTime : Z;
  cs_lastNotificationTime : Z;
  cs_status : string;
  cs_count : Z;
  cs_renderFormat : RenderFormat;
  cs_reference : option string;
  cs_expression : SubscriptionExpression
}.

Definition loc := positive.

Record Node := mkNode {
  node_sub : CachedSubscription;
  node_next : option loc
}.

(** The static variables of subCache.cpp and the heap of cached subscriptions. *)
Record SubCache := mkSubCache {
  heap : gmap loc Node;
  head : option loc;
  tail : option loc;
  noOfRefreshes : Z;
  noOfInserts : Z;
  noOfRemoves : Z;
  noOfUpdates : Z;
  subCacheActive : bool;
  subCacheMultitenant : bool
}.

Definition set_list (h : gmap loc Node) (hd tl : option loc) (c : SubCache) : SubCache :=
  mkSubCache h hd tl (noOfRefreshes c) (noOfInserts c) (noOfRemoves c) (noOfUpdates c)
    (subCacheActive c) (subCacheMultitenant c).
Definition set_counters (refreshes inserts removes updates : Z) (c : SubCache) : SubCache :=
  mkSubCache (heap c) (head c) (tail c) refreshes inserts removes updates
    (subCacheActive c) (subCacheMultitenant c).

(** Reading through a pointer. *)
Definition deref (h : gmap loc Node) (l : loc) : cpp Node :=
  match h !! l with Some n => Ret n | None => UB "use of a freed subscription" end.

Definition deref_str (s : option string) : cpp string :=
  match s with Some s => Ret s | None => UB "null string pointer" end.

(** ** Entities *)

Section Cache.

(** regcomp(&re, pattern, 0) == 0 and regexec(&re, text, 0, NULL, 0) == 0 *)
Variable regcomp : string -> bool.
Variable regexec : string -> string -> bool.

Definition EntityInfo_new (entityId entityType isPattern : string) : EntityInfo :=
  let b := (isPattern =s "true") || (isPattern =s "TRUE") || (isPattern =s "True") in
  mkEntityInfo b (c_str entityId) entityId entityType b.

(** EntityInfo::match *)
Definition EntityInfo_match (ei : EntityInfo) (id type : string) : cpp bool :=
  if negb (type =s "") && negb (ei_entityType ei =s type) && negb (ei_entityType ei =s "") then Ret false
  else if ei_isPattern ei then
    if regcomp (ei_entityIdPattern ei) then Ret (regexec (ei_entityIdPattern ei) (c_str id))
    else UB "regexec on a pattern that did not compile"
  else Ret (id =s ei_entityId ei).

(** ** Matching *)

Fixpoint attributeMatch (ncv : list NotifyCondition) (attrV : list string) : bool :=
  match ncv with
  | [] => false
  | nc :: ncv' =>
      if (length (nc_condValueList nc) =? 0)%nat then true
      else if existsb (fun cv => existsb (fun a => cv =s a) attrV) (nc_condValueList nc) then true
      else attributeMatch ncv' attrV
  end.

Definition servicePathMatch (cs : CachedSubscription) (servicePath : string) : cpp bool :=
  if servicePath =s "/#" then Ret true
  else
    spath ← deref_str (cs_servicePath cs);
    if (servicePath =s "") && (spath =s "") then Ret true
    else
      let servicePath := if servicePath =s "" then "/" else servicePath in
      match last_char spath with
      | None => UB "read before the start of the service path"
      | Some c =>
          if negb (c =c "#"%char) then Ret (servicePath =s spath)
          else if (String.length spath <? 2)%nat then UB "index 4294967295 of the service path"
          else
            let len := (String.length spath - 2)%nat in
            if match String.get len spath with Some d => d =c "/"%char | None => false end
               && (String.length servicePath =? len)%nat && strncmp_eq spath servicePath len
            then Ret true
            else Ret (strncmp_eq spath servicePath (String.length spath - 1)%nat)
      end.

(** A tenant that is a null pointer or an empty string. *)
Definition no_tenant (t : option string) : bool :=
  match t with None => true | Some s => s =s "" end.

Definition tenant_filter (multitenant : bool) (cs : CachedSubscription) (tenant : option string) : bool :=
  if multitenant then
    if no_tenant (cs_tenant cs) || no_tenant tenant then
      no_tenant (cs_tenant cs) && no_tenant tenant
    else bool_decide (cs_tenant cs = tenant)
  else true.

Fixpoint entityInfos_match (infos : list EntityInfo) (entityId entityType : string) : cpp bool :=
  match infos with
  | [] => Ret false
  | ei :: infos' =>
      b ← EntityInfo_match ei entityId entityType;
      if (b : bool) then Ret true else entityInfos_match infos' entityId entityType
  end.

Definition subMatch (multitenant : bool) (cs : CachedSubscription) (tenant : option string)
    (servicePath entityId entityType : string) (attrV : list string) : cpp bool :=
  if negb (tenant_filter multitenant cs tenant) then Ret false
  else
    b ← servicePathMatch cs servicePath;
    if negb b then Ret false
    else if negb (attributeMatch (cs_notifyConditionVector cs) attrV) then Ret false
    else entityInfos_match (cs_entityIdInfos cs) entityId entityType.

Fixpoint subCacheMatch_loop (fuel : nat) (c : SubCache) (p : option loc) (tenant : option string)
    (servicePath entityId entityType : string) (attrV : list string) (subVec : list loc) : cpp (list loc) :=
  match p, fuel with
  | None, _ => Ret subVec
  | Some _, O => Looping
  | Some l, S fuel =>
      n ← deref (heap c) l;
      b ← subMatch (subCacheMultitenant c) (node_sub n) tenant servicePath entityId entityType attrV;
      subCacheMatch_loop fuel c (node_next n) tenant servicePath entityId entityType attrV
        (if (b : bool) then subVec ++ [l] else subVec)
  end.

(** subCacheMatch: the subscriptions added to [subVec]. *)
Definition subCacheMatch (fuel : nat) (c : SubCache) (tenant : option string)
    (servicePath entityId entityType : string) (attrV : list string) (subVec : list loc) : cpp (list loc) :=
  subCacheMatch_loop fuel c (head c) tenant servicePath entityId entityType attrV subVec.

Definition subCacheMatch_attr (fuel : nat) (c : SubCache) (tenant : option string)
    (servicePath entityId entityType attr : string) (subVec : list loc) : cpp (list loc) :=
  subCacheMatch fuel c tenant servicePath entityId entityType [attr] subVec.

(** ** The list *)

Definition subCacheStatisticsReset (c : SubCache) : SubCache := set_counters 0 0 0 0 c.

Definition subCacheInit (c : SubCache) (multitenant : bool) : SubCache :=
  let c := subCacheStatisticsReset c in
  mkSubCache (heap c) None None (noOfRefreshes c) (noOfInserts c) (noOfRemoves c) (noOfUpdates c)
    true multitenant.

Fixpoint subCacheItems_loop (fuel : nat) (h : gmap loc Node) (p : option loc) (items : Z) : cpp Z :=
  match p, fuel with
  | None, _ => Ret items
  | Some _, O => Looping
  | Some l, S fuel => n ← deref h l; subCacheItems_loop fuel h (node_next n) (int32 (items + 1))
  end.

Definition subCacheItems (fuel : nat) (c : SubCache) : cpp Z := subCacheItems_loop fuel (heap c) (head c) 0.

Definition tenantMatch (tenant1 tenant2 : option string) : bool :=
  let tenant1 := default "" tenant1 in
  let tenant2 := default "" tenant2 in
  if negb (String.length tenant1 =? String.length tenant2)%nat then false
  else tenant1 =s tenant2.

Fixpoint subCacheItemLookup_loop (fuel : nat) (h : gmap loc Node) (p : option loc)
    (tenant : option string) (subscriptionId : string) : cpp (option loc) :=
  match p, fuel with
  | None, _ => Ret None
  | Some _, O => Looping
  | Some l, S fuel =>
      n ← deref h l;
      if tenantMatch tenant (cs_tenant (node_sub n)) then
        id ← deref_str (cs_subscriptionId (node_sub n));
        if subscriptionId =s id then Ret (Some l)
        else subCacheItemLookup_loop fuel h (node_next n) tenant subscriptionId
      else subCacheItemLookup_loop fuel h (node_next n) tenant subscriptionId
  end.

Definition subCacheItemLookup (fuel : nat) (c : SubCache) (tenant : option string)
    (subscriptionId : string) : cpp (option loc) :=
  subCacheItemLookup_loop fuel (heap c) (head c) tenant subscriptionId.

Definition subCacheUpdateStatisticsIncrement (c : SubCache) : SubCache :=
  set_counters (noOfRefreshes c) (noOfInserts c) (noOfRemoves c) (int32 (noOfUpdates c + 1)) c.

(** The next pointer of the node at [l] is assigned. *)
Definition set_next (h : gmap loc Node) (l : loc) (next : option loc) : cpp (gmap loc Node) :=
  n ← deref h l; Ret (<[l := mkNode (node_sub n) next]> h).

(** subCacheItemInsert(CachedSubscription* cSubP) *)
Definition subCacheItemInsert (c : SubCache) (cSubP : loc) : cpp SubCache :=
  h ← set_next (heap c) cSubP None;
  let c := set_counters (noOfRefreshes c) (int32 (noOfInserts c + 1)) (noOfRemoves c) (noOfUpdates c) c in
  if bool_decide (head c = None) && bool_decide (tail c = None) then
    Ret (set_list h (Some cSubP) (Some cSubP) c)
  else
    match tail c with
    | None => UB "null tail"
    | Some t =>
        h ← set_next h t (Some cSubP);
        Ret (set_list h (head c) (Some cSubP) c)
    end.

(** new CachedSubscription(), with the members [cs] assigned to it afterwards. *)
Definition alloc (c : SubCache) (cs : CachedSubscription) : SubCache * loc :=
  let l := fresh (dom (heap c)) in
  (set_list (<[l := mkNode cs None]> (heap c)) (head c) (tail c) c, l).

(** subCacheItemDestroy: every member released. *)
Definition subCacheItemDestroy (cs : CachedSubscription) : CachedSubscription :=
  mkCachedSubscription [] [] [] None None None (cs_throttling cs) (cs_expirationTime cs)
    (cs_lastNotificationTime cs) (cs_status cs) (cs_count cs) (cs_renderFormat cs) None (cs_expression cs).

(** subCacheItemDestroy(l) followed by delete. *)
Definition destroy_delete (h : gmap loc Node) (l : loc) : cpp (gmap loc Node) :=
  n ← deref h l;
  Ret (delete l (<[l := mkNode (subCacheItemDestroy (node_sub n)) None]> h)).

Fixpoint subCacheDestroy_loop (fuel : nat) (h : gmap loc Node) (l : loc) : cpp (gmap loc Node) :=
  n ← deref h l;
  match node_next n, fuel with
  | None, _ => destroy_delete h l
  | Some _, O => Looping
  | Some l', S fuel => h ← destroy_delete h l; subCacheDestroy_loop fuel h l'
  end.

Definition subCacheDestroy (fuel : nat) (c : SubCache) : cpp SubCache :=
  match head c with
  | None => Ret c
  | Some l => h ← subCacheDestroy_loop fuel (heap c) l; Ret (set_list h None None c)
  end.

Fixpoint subCacheItemRemove_loop (fuel : nat) (c : SubCache) (cSubP : loc) (current prev : option loc)
    : cpp (Z * SubCache) :=
  match current, fuel with
  | None, _ => Ret (-1, c)
  | Some _, O => Looping
  | Some l, S fuel =>
      n ← deref (heap c) l;
      if bool_decide (l = cSubP) then
        let hd := if bool_decide (Some cSubP = head c) then node_next n else head c in
        let tl := if bool_decide (Some cSubP = tail c) then prev else tail c in
        h ← match prev with None => Ret (heap c) | Some p => set_next (heap c) p (node_next n) end;
        h ← destroy_delete h cSubP;
        Ret (0, set_list h hd tl (set_counters (noOfRefreshes c) (noOfInserts c)
                                    (int32 (noOfRemoves c + 1)) (noOfUpdates c) c))
      else subCacheItemRemove_loop fuel c cSubP (node_next n) (Some l)
  end.

Definition subCacheItemRemove (fuel : nat) (c : SubCache) (cSubP : loc) : cpp (Z * SubCache) :=
  subCacheItemRemove_loop fuel c cSubP (head c) None.

(** ** Creating an item *)

(** The arguments of subCacheItemInsert that describe the subscription. *)
Record NewSubscription := mkNewSubscription {
  ns_tenant : string;
  ns_servicePath : string;
  ns_url : string;
  ns_entityIdVector : list EntityId;
  ns_attributeList : list string;
  ns_notifyConditionVector : list NotifyCondition;
  ns_subscriptionId : string;
  ns_expirationTime : Z;
  ns_throttling : Z;
  ns_renderFormat : RenderFormat;
  ns_notificationDone : bool;
  ns_lastNotificationTime : Z;
  ns_stringFilterP : option StringFilter;
  ns_status : string;
  ns_q : string;
  ns_geometry : string;
  ns_coords : string;
  ns_georel : string
}.

(** expression.stringFilter.fill(stringFilterP, &errorString), on a fresh filter; the
    result of fill is not looked at. *)
Definition filled_filter (sfP : option StringFilter) : StringFilter :=
  match sfP with
  | None => mkStringFilter [] []
  | Some sf => (sf_fill regcomp (mkStringFilter [] []) sf).1
  end.

Definition onchange (ncv : list NotifyCondition) : bool :=
  existsb (fun nc => strcasecmp_eq (c_str (nc_type nc)) ON_CHANGE_CONDITION) ncv.

Definition subscription_of (ns : NewSubscription) : CachedSubscription :=
  mkCachedSubscription
    ((fun e => EntityInfo_new (eid_id e) (eid_type e) (eid_isPattern e)) <$> ns_entityIdVector ns)
    (ns_attributeList ns)
    (ns_notifyConditionVector ns)
    (if ns_tenant ns =s "" then None else Some (ns_tenant ns))
    (Some (ns_servicePath ns))
    (Some (ns_subscriptionId ns))
    (ns_throttling ns) (ns_expirationTime ns) (ns_lastNotificationTime ns) (ns_status ns)
    (if ns_notificationDone ns then 1 else 0)
    (ns_renderFormat ns)
    (Some (c_str (ns_url ns)))
    (mkExpression (ns_q ns) (ns_geometry ns) (ns_coords ns) (ns_georel ns)
       (filled_filter (ns_stringFilterP ns)) false).

(** subCacheItemInsert(tenant, servicePath, ...) *)
Definition subCacheItemInsert_new (c : SubCache) (ns : NewSubscription) : cpp SubCache :=
  if negb (onchange (ns_notifyConditionVector ns)) then Ret c
  else
    let '(c, l) := alloc c (subscription_of ns) in
    subCacheItemInsert c l.

(** ** Statistics *)

(** strcpy of [text] at the end of the [used] bytes of a buffer of [size] bytes. *)
Definition buffer_append (size : Z) (list text : string) : cpp string :=
  if Z.of_nat (String.length (list +:+ text)) <? size then Ret (list +:+ text)
  else UB "write past the end of the list buffer".

Fixpoint statistics_loop (fuel : nat) (h : gmap loc Node) (listSize : Z) (p : option loc) (list : string)
    : cpp string :=
  match p, fuel with
  | None, _ => Ret list
  | Some _, O => Looping
  | Some l, S fuel =>
      n ← deref h l;
      id ← deref_str (cs_subscriptionId (node_sub n));
      let bytesLeft := listSize - Z.of_nat (String.length list) in
      let msg := str_take 255 id in
      if bytesLeft <? Z.of_nat (String.length msg) + 2
      then Ret (str_take (Z.to_nat (listSize - 1)) "too many subscriptions")
      else
        list ← (if negb (list =s "") then buffer_append listSize list ", " else Ret list);
        list ← buffer_append listSize list msg;
        statistics_loop fuel h listSize (node_next n) list
  end.

Record CacheStatistics := mkCacheStatistics {
  st_refreshes : Z; st_inserts : Z; st_removes : Z; st_updates : Z; st_items : Z; st_list : string
}.

Definition subCacheStatisticsGet (fuel : nat) (c : SubCache) (listSize : Z) : cpp CacheStatistics :=
  items ← subCacheItems fuel c;
  list ← (if 128 <? listSize then statistics_loop fuel (heap c) listSize (head c) ""
          else Ret (str_take (Z.to_nat (listSize - 1)) "too many subscriptions"));
  Ret (mkCacheStatistics (noOfRefreshes c) (noOfInserts c) (noOfRemoves c) (noOfUpdates c) items list).

End Cache.

(** ** The list a cache represents *)

(** The nodes met from [p] on, with their subscriptions, until the pointer is [q]. *)
Fixpoint seg (h : gmap loc Node) (p : option loc) (ls : list (loc * CachedSubscription))
    (q : option loc) : Prop :=
  match ls with
  | [] => p = q
  | (l, s) :: ls' => p = Some l /\ exists n, h !! l = Some (mkNode s n) /\ seg h n ls' q
  end.

Definition locs (ls : list (loc * CachedSubscription)) : list loc := ls.*1.
Definition subs (ls : list (loc * CachedSubscription)) : list CachedSubscription := ls.*2.

(** The cache is well formed and holds [ls], in order: head leads to exactly these
    nodes, tail is the last of them, and the heap holds nothing else. *)
Record cache_repr (c : SubCache) (ls : list (loc * CachedSubscription)) : Prop := mkRepr {
  repr_chain : seg (heap c) (head c) ls None;
  repr_tail : tail c = last (locs ls);
  repr_nodup : NoDup (locs ls);
  repr_dom : dom (heap c) = list_to_set (locs ls)
}.

(** The test of a lookup, and the subscriptions a lookup and a match select. *)
Definition lookup_key (tenant : option string) (id : string) (s : CachedSubscription) : bool :=
  (default "" tenant =s default "" (cs_tenant s)) && bool_decide (cs_subscriptionId s = Some id).

Definition with_ids (ls : list (loc * CachedSubscription)) : Prop :=
  Forall (fun s => is_Some (cs_subscriptionId s)) (subs ls).

Lemma seg_app h p l1 l2 q : seg h p (l1 ++ l2) q <-> exists r, seg h p l1 r /\ seg h r l2 q.
Proof.
  revert p. induction l1 as [|[l s] l1 IH]; intros p; cbn.
  - split; [intros H; by exists p|]. by intros (r & -> & H).
  - split.
    + intros (-> & n & Hl & H). apply IH in H as (r & H1 & H2). exists r. eauto.
    + intros (r & (-> & n & Hl & H1) & H2). split; [done|]. exists n. split; [done|].
      apply IH. eauto.
Qed.

Lemma seg_det h p ls q r : seg h p ls q -> seg h p ls r -> q = r.
Proof.
  revert p. induction ls as [|[l s] ls IH]; intros p; cbn; [congruence|].
  intros (-> & n & Hl & H1) (_ & n' & Hl' & H2). rewrite Hl in Hl'. simplify_eq. by eapply IH.
Qed.

Lemma seg_frame h h' p ls q : (forall l, l ∈ locs ls -> h' !! l = h !! l) ->
  seg h p ls q -> seg h' p ls q.
Proof.
  revert p. induction ls as [|[l s] ls IH]; intros p; [done|]. intros Hf (-> & n & Hl & Hc).
  split; [done|]. exists n. rewrite Hf by (cbn; by left). split; [done|].
  apply IH; [|done]. intros l' Hl'. apply Hf. cbn. by right.
Qed.

Lemma seg_insert h p ls q l n : l ∉ locs ls -> seg h p ls q -> seg (<[l := n]> h) p ls q.
Proof. intros Hni. apply seg_frame. intros l' Hl'. apply lookup_insert_ne. congruence. Qed.

Lemma seg_delete h p ls q l : l ∉ locs ls -> seg h p ls q -> seg (delete l h) p ls q.
Proof. intros Hni. apply seg_frame. intros l' Hl'. apply lookup_delete_ne. congruence. Qed.

Lemma locs_app l1 l2 : locs (l1 ++ l2) = locs l1 ++ locs l2.
Proof. apply fmap_app. Qed.
Lemma subs_app l1 l2 : subs (l1 ++ l2) = subs l1 ++ subs l2.
Proof. apply fmap_app. Qed.
#[export] Hint Rewrite locs_app subs_app : orion.

Lemma deref_here h l s n : h !! l = Some (mkNode s n) -> deref h l = Ret (mkNode s n).
Proof. unfold deref. by intros ->. Qed.

Lemma tenantMatch_eq t1 t2 : tenantMatch t1 t2 = (default "" t1 =s default "" t2).
Proof.
  unfold tenantMatch. destruct (String.length _ =? _)%nat eqn:E; [done|]. cbn.
  symmetry. apply str_eqb_neq. intros H. rewrite H, Nat.eqb_refl in E. done.
Qed.

Section CacheFacts.

Context (regcomp : string -> bool) (regexec : string -> string -> bool).

Lemma items_seg fuel h p ls n : seg h p ls None -> (length ls <= fuel)%nat ->
  0 <= n -> n + Z.of_nat (length ls) <= int32_max ->
  subCacheItems_loop fuel h p n = Ret (n + Z.of_nat (length ls)).
Proof.
  revert fuel p n. induction ls as [|[l s] ls IH]; intros fuel p n; cbn [seg length].
  - intros -> _ _ _. destruct fuel; cbn; f_equal; lia.
  - intros (-> & nx & Hl & Hc) Hf H0 Hn. destruct fuel as [|fuel]; [lia|]. cbn.
    rewrite (deref_here _ _ _ _ Hl). cbn. rewrite int32_small by (unfold int32_min; lia).
    rewrite IH by (done || lia). f_equal. lia.
Qed.

Lemma lookup_seg fuel h p ls tenant id : seg h p ls None -> (length ls <= fuel)%nat -> with_ids ls ->
  subCacheItemLookup_loop fuel h p tenant id =
    Ret (fst <$> hd_error (List.filter (fun x => lookup_key tenant id x.2) ls)).
Proof.
  unfold with_ids. revert fuel p. induction ls as [|[l s] ls IH]; intros fuel p; cbn [seg length].
  - intros -> _ _. by destruct fuel.
  - intros (-> & nx & Hl & Hc) Hf Hid. destruct fuel as [|fuel]; [lia|]. cbn in Hid.
    apply Forall_cons in Hid as [[i Hi] Hid]. 
    cbn. rewrite (deref_here _ _ _ _ Hl). cbn. rewrite tenantMatch_eq.
    unfold lookup_key at 1. rewrite Hi. cbn.
    destruct (default "" tenant =s default "" (cs_tenant s)); cbn; [|apply IH; (done || lia)].
    destruct (id =s i) eqn:E.
    + apply str_eqb_eq in E as ->. by rewrite bool_decide_true.
    + apply str_eqb_neq in E. rewrite bool_decide_false by congruence. apply IH; (done || lia).
Qed.

End CacheFacts.

(** ** What a match selects *)

(** The service paths a subscription of service path [spath] receives updates of. *)
Definition path_selects (spath servicePath : string) : bool :=
  (servicePath =s "/#") ||
  let servicePath := if servicePath =s "" then "/" else servicePath in
  match last_char spath with
  | Some c =>
      if c =c "#"%char
      then (servicePath +:+ "/" =s but_last spath) || String.prefix (but_last spath) servicePath
      else servicePath =s spath
  | None => false
  end.

Definition entity_selects (regexec : string -> string -> bool) (id type : string) (ei : EntityInfo) : bool :=
  ((type =s "") || (ei_entityType ei =s type) || (ei_entityType ei =s "")) &&
  (if ei_isPattern ei then regexec (ei_entityIdPattern ei) (c_str id) else id =s ei_entityId ei).

Definition nc_selects (attrV : list string) (nc : NotifyCondition) : bool :=
  match nc_condValueList nc with
  | [] => true
  | cvs => existsb (fun cv => existsb (fun a => cv =s a) attrV) cvs
  end.

Definition sub_selects (regexec : string -> string -> bool) (multitenant : bool) (tenant : option string)
    (servicePath id type : string) (attrV : list string) (s : CachedSubscription) : bool :=
  tenant_filter multitenant s tenant &&
  match cs_servicePath s with Some spath => path_selects spath servicePath | None => false end &&
  existsb (nc_selects attrV) (cs_notifyConditionVector s) &&
  existsb (entity_selects regexec id type) (cs_entityIdInfos s).

(** A subscription a match can be run on: its service path is at least two characters
    long or has no wildcard, and its patterns compile. *)
Definition path_ok (spath : string) : Prop :=
  match last_char spath with Some c => c = "#"%char -> (2 <= String.length spath)%nat | None => False end.

Definition sub_ok (regcomp : string -> bool) (s : CachedSubscription) : Prop :=
  (exists spath, cs_servicePath s = Some spath /\ path_ok spath) /\
  Forall (fun ei => ei_isPattern ei = true -> regcomp (ei_entityIdPattern ei) = true) (cs_entityIdInfos s).

Lemma servicePathMatch_selects s spath sp : cs_servicePath s = Some spath -> path_ok spath ->
  servicePathMatch s sp = Ret (path_selects spath sp).
Proof.
  intros Hs Hok. unfold servicePathMatch, path_selects, path_ok in *.
  destruct (sp =s "/#"); [done|]. rewrite Hs. cbn -[String.get].
  destruct (last_char spath) as [c|] eqn:Hc; [|done].
  assert ((spath =s "") = false) as -> by (by destruct spath). rewrite andb_false_r.
  set (q := if sp =s "" then "/" else sp). clearbody q.
  destruct (c =c "#"%char) eqn:E; [|done]. apply char_eqb_eq in E as ->. specialize (Hok eq_refl).
  pose proof (snoc_str _ _ Hc) as Hb. set (b := but_last spath) in *. clearbody b. subst spath.
  assert (Hlb : String.length (b +:+ str1 "#") = S (String.length b)).
  { rewrite length_app_str. cbn. lia. }
  rewrite Hlb in Hok |- *. destruct (S (String.length b) <? 2)%nat eqn:E; [apply Nat.ltb_lt in E; lia|].
  replace (S (String.length b) - 1)%nat with (String.length b) by lia. cbn [negb].
  unfold strncmp_eq at 2. rewrite str_take_app, str_eqb_sym, str_take_prefix.
  destruct (last_char b) as [d|] eqn:Hd; [|apply last_char_None in Hd as ->; cbn in Hok; lia].
  pose proof (snoc_str _ _ Hd) as Hb. set (a := but_last b) in *. clearbody a. subst b.
  clear Hok E Hlb Hc.
  assert (String.length (a +:+ str1 d) = S (String.length a)) as -> by (rewrite length_app_str; cbn; lia).
  replace (S (S (String.length a)) - 2)%nat with (String.length a) by lia.
  rewrite app_assoc_str. change (str1 d +:+ str1 "#") with (String d "#"). rewrite get_app.
  change "/"%string with (str1 "/").
  assert ((d =c "/"%char) && (String.length q =? String.length a)%nat && strncmp_eq (a +:+ String d "#") q (String.length a)
    = (q +:+ str1 "/" =s a +:+ str1 d)) as ->; [|by destruct (q +:+ str1 "/" =s _)].
  unfold strncmp_eq. rewrite str_take_app.
  destruct (d =c "/"%char) eqn:Ed; cbn [andb].
  - apply char_eqb_eq in Ed as ->. rewrite str_eqb_snoc.
    destruct (String.length q =? String.length a)%nat eqn:El; cbn [andb].
    + apply Nat.eqb_eq in El. rewrite str_take_all by lia. apply str_eqb_sym.
    + symmetry. apply str_eqb_neq. intros ->. by rewrite Nat.eqb_refl in El.
  - symmetry. apply str_eqb_neq. intros H.
    assert (last_char (q +:+ str1 "/") = last_char (a +:+ str1 d)) as Hl by (by rewrite H).
    rewrite !last_char_app in Hl. by simplify_eq.
Qed.

Section MatchFacts.

Context (regcomp : string -> bool) (regexec : string -> string -> bool).

Lemma attributeMatch_selects ncv attrV : attributeMatch ncv attrV = existsb (nc_selects attrV) ncv.
Proof.
  induction ncv as [|nc ncv IH]; [done|]. cbn. unfold nc_selects at 1.
  destruct (nc_condValueList nc) as [|v vs]; [done|].
  change (length (v :: vs) =? 0)%nat with false. cbv iota.
  destruct (existsb _ (v :: vs)); [done|]. apply IH.
Qed.

Lemma entityInfos_match_selects infos id type :
  Forall (fun ei => ei_isPattern ei = true -> regcomp (ei_entityIdPattern ei) = true) infos ->
  entityInfos_match regcomp regexec infos id type = Ret (existsb (entity_selects regexec id type) infos).
Proof.
  induction 1 as [|ei infos Hi _ IH]; [done|]. cbn [entityInfos_match existsb].
  assert (EntityInfo_match regcomp regexec ei id type = Ret (entity_selects regexec id type ei)) as ->.
  { unfold EntityInfo_match, entity_selects.
    destruct (type =s ""), (ei_entityType ei =s type), (ei_entityType ei =s ""); try done;
      cbn; (destruct (ei_isPattern ei); [by rewrite Hi|done]). }
  cbn. by destruct (entity_selects regexec id type ei).
Qed.

Lemma subMatch_selects multitenant s tenant sp id type attrV : sub_ok regcomp s ->
  subMatch regcomp regexec multitenant s tenant sp id type attrV
    = Ret (sub_selects regexec multitenant tenant sp id type attrV s).
Proof.
  intros [(spath & Hs & Hp) He]. unfold subMatch, sub_selects.
  destruct (tenant_filter multitenant s tenant); [|done]. cbn [negb andb].
  rewrite (servicePathMatch_selects _ _ _ Hs Hp), Hs. cbn.
  destruct (path_selects spath sp); [|done]. cbn.
  rewrite attributeMatch_selects. destruct (existsb _ (cs_notifyConditionVector s)); [|done]. cbn.
  by apply entityInfos_match_selects.
Qed.

Lemma match_seg fuel c p ls tenant sp id type attrV acc : seg (heap c) p ls None ->
  (length ls <= fuel)%nat -> Forall (sub_ok regcomp) (subs ls) ->
  subCacheMatch_loop regcomp regexec fuel c p tenant sp id type attrV acc =
    Ret (acc ++ locs (List.filter (fun x =>
      sub_selects regexec (subCacheMultitenant c) tenant sp id type attrV x.2) ls)).
Proof.
  revert fuel p acc. induction ls as [|[l s] ls IH]; intros fuel p acc; cbn [seg length].
  - intros -> _ _. destruct fuel; cbn; by rewrite app_nil_r.
  - intros (-> & nx & Hl & Hc) Hf Hok. destruct fuel as [|fuel]; [lia|]. cbn in Hok.
    apply Forall_cons in Hok as [Hs Hok]. cbn.
    rewrite (deref_here _ _ _ _ Hl). cbn. rewrite subMatch_selects by done. cbn.
    rewrite IH by (done || lia).
    destruct (sub_selects _ _ _ _ _ _ _ s); cbn; [|done]. by rewrite <- app_assoc.
Qed.

(** C5. subCacheMatch ends and adds to the vector exactly the cached subscriptions the
    update selects, in the order of the list: same tenant (when the broker is
    multitenant), a service path the subscription covers, a condition list that is empty
    or names one of the attributes, and an entity the subscription watches. *)
Theorem subCacheMatch_selects fuel c ls tenant sp id type attrV subVec :
  cache_repr c ls -> (length ls <= fuel)%nat -> Forall (sub_ok regcomp) (subs ls) ->
  subCacheMatch regcomp regexec fuel c tenant sp id type attrV subVec =
    Ret (subVec ++ locs (List.filter (fun x =>
      sub_selects regexec (subCacheMultitenant c) tenant sp id type attrV x.2) ls)).
Proof. intros Hr. apply match_seg. apply Hr. Qed.

End MatchFacts.

(** The wildcard service path "/a/b/#" selects "/a/b" and every path below it, and
    no other path (but the request "/#", which selects everything): for instance not
    "/a/b2". *)
Theorem servicePathMatch_wildcard s base sp :
  cs_servicePath s = Some (base +:+ "/#") -> sp <> "/#" ->
  (servicePathMatch s sp = Ret true <->
   let q := if sp =s "" then "/" else sp in q = base \/ exists rest, q = base +:+ "/" +:+ rest).
Proof.
  intros Hs Hne. rewrite (servicePathMatch_selects _ _ _ Hs).
  2:{ unfold path_ok. change "/#"%string with (str1 "/" +:+ str1 "#"). rewrite <- app_assoc_str.
      rewrite last_char_app. intros _. rewrite !length_app_str. cbn. lia. }
  unfold path_selects. apply str_eqb_neq in Hne as ->. cbv zeta. cbn [orb].
  set (q := if sp =s "" then "/" else sp). clearbody q.
  change "/#"%string with (str1 "/" +:+ str1 "#"). rewrite <- app_assoc_str.
  rewrite last_char_app, char_eqb_refl, but_last_app.
  change "/"%string with (str1 "/"). rewrite str_eqb_snoc. split.
  - intros [= [H|H]%orb_true_iff]; [left; by apply str_eqb_eq|right].
    apply prefix_split in H as [rest ->]. exists rest. by rewrite app_assoc_str.
  - intros H. f_equal. apply orb_true_iff. destruct H as [->|[rest ->]].
    + left. apply str_eqb_refl.
    + right. rewrite <- app_assoc_str. apply prefix_app.
Qed.

(** ** The operations on the list *)

Section ListFacts.

Context (regcomp : string -> bool) (regexec : string -> string -> bool).

Lemma last_cons_app {A} (l : list A) x : last (l ++ [x]) = Some x.
Proof. apply last_snoc. Qed.

(** Linking a fresh node at the end of the list. *)
Lemma insert_alloc c ls cs : cache_repr c ls ->
  let l := fresh (dom (heap c)) in
  exists c', subCacheItemInsert (alloc c cs).1 (alloc c cs).2 = Ret c' /\
    cache_repr c' (ls ++ [(l, cs)]) /\ noOfInserts c' = int32 (noOfInserts c + 1).
Proof.
  intros [Hc Ht Hnd Hdom] l.
  assert (Hl : l ∉ locs ls).
  { pose proof (is_fresh (dom (heap c))) as H. rewrite Hdom in H at 2. by rewrite elem_of_list_to_set in H. }
  unfold alloc, subCacheItemInsert, set_next, deref. fold l. cbn.
  rewrite lookup_insert_eq. cbn. rewrite insert_insert_eq.
  assert (dom (<[l:=mkNode cs None]> (heap c)) = list_to_set (locs (ls ++ [(l, cs)]))) as Hdom'.
  { rewrite dom_insert_L, Hdom, locs_app, list_to_set_app_L. cbn. set_solver. }
  assert (NoDup (locs (ls ++ [(l, cs)]))) as Hnd'.
  { rewrite locs_app. apply NoDup_app. split_and!; [done|set_solver|apply NoDup_singleton]. }
  destruct ls as [|x ls0 _] using rev_ind.
  - cbn in Ht, Hc. rewrite Hc, Ht. cbn. eexists. split; [done|]. split; [|done].
    split; cbn; [|done..]. split; [done|]. exists None. by rewrite lookup_insert_eq.
  - destruct x as [t s]. rewrite locs_app in Ht, Hl. cbn in Ht. rewrite last_snoc in Ht.
    rewrite Ht, andb_false_r. cbn.
    apply not_elem_of_app in Hl as [Hl0 Hlt].
    assert (l <> t) as Hne by (intros ->; apply Hlt; by left).
    apply seg_app in Hc as (r & H1 & -> & n & Hn & Hnone). cbn in Hnone. subst n.
    rewrite lookup_insert_ne, Hn by done. cbn. eexists. split; [done|]. split; [|done].
    rewrite locs_app in Hnd. apply NoDup_app in Hnd as (_ & Hni & _).
    assert (Ht0 : t ∉ locs ls0). { intros H. apply (Hni _ H). cbn. by left. }
    split; cbn [heap head tail set_list set_counters].
    + rewrite <- app_assoc. apply seg_app. exists (Some t). split.
      * apply seg_insert; [done|]. apply seg_insert; [done|]. done.
      * cbn. split; [done|]. exists (Some l). rewrite lookup_insert_eq. split; [done|]. split; [done|].
        exists None. rewrite lookup_insert_ne by congruence. by rewrite lookup_insert_eq.
    + rewrite locs_app. cbn. by rewrite last_snoc.
    + done.
    + rewrite dom_insert_L. rewrite <- Hdom'. rewrite dom_insert_L.
      apply elem_of_dom_2 in Hn. set_solver.
Qed.

(** Inserting a subscription with an ONCHANGE condition appends it to the list, a
    subscription without one leaves the cache as it is: the insertion is defined and
    keeps the cache well formed. *)
Theorem subCacheItemInsert_appends c ls ns : cache_repr c ls ->
  exists c', subCacheItemInsert_new regcomp c ns = Ret c' /\
    if onchange (ns_notifyConditionVector ns)
    then cache_repr c' (ls ++ [(fresh (dom (heap c)), subscription_of regcomp ns)])
         /\ noOfInserts c' = int32 (noOfInserts c + 1)
    else c' = c.
Proof.
  intros Hr. unfold subCacheItemInsert_new. destruct (onchange _); cbn [negb]; [|by exists c].
  destruct (insert_alloc c ls (subscription_of regcomp ns) Hr) as (c' & H & ?).
  exists c'. split; [|done]. by rewrite <- H; destruct (alloc c _).
Qed.

Lemma destroy_delete_eq h l n : h !! l = Some n -> destroy_delete h l = Ret (delete l h).
Proof. intros H. unfold destroy_delete, deref. rewrite H. cbn. by rewrite delete_insert_eq. Qed.

Lemma destroy_seg fuel h l s ls : seg h (Some l) ((l, s) :: ls) None -> NoDup (locs ((l, s) :: ls)) ->
  (length ls <= fuel)%nat ->
  exists h', subCacheDestroy_loop fuel h l = Ret h' /\
    dom h' = dom h ∖ list_to_set (locs ((l, s) :: ls)).
Proof.
  revert fuel h l s. induction ls as [|[l' s'] ls IH]; intros fuel h l s (_ & n & Hl & Hc) Hnd Hf.
  - cbn in Hc. subst n. destruct fuel; cbn; rewrite (deref_here _ _ _ _ Hl); cbn;
      rewrite (destroy_delete_eq _ _ _ Hl); eexists; (split; [done|]); rewrite dom_delete_L; set_solver.
  - cbn [length] in Hf. destruct fuel as [|fuel]; [lia|]. pose proof Hc as (-> & n' & Hl' & Hc').
    cbn -[locs]. rewrite (deref_here _ _ _ _ Hl). cbn -[locs]. rewrite (destroy_delete_eq _ _ _ Hl). cbn -[locs].
    cbn in Hnd. apply NoDup_cons in Hnd as [Hni Hnd].
    destruct (IH fuel (delete l h) l' s') as (h' & -> & Hd); [|done|lia|].
    + apply seg_delete; [done|]. done.
    + eexists. split; [done|]. rewrite Hd, dom_delete_L. cbn. set_solver.
Qed.

Lemma destroy_repr fuel c ls : cache_repr c ls -> (length ls <= fuel)%nat ->
  exists c', subCacheDestroy fuel c = Ret c' /\ cache_repr c' [].
Proof.
  intros [Hc Ht Hnd Hdom] Hf. unfold subCacheDestroy. destruct ls as [|[l s] ls].
  - cbn in Hc, Ht. rewrite Hc. by exists c.
  - pose proof Hc as (Hh & _). rewrite Hh in Hc |- *. cbn [length] in Hf.
    destruct (destroy_seg fuel (heap c) l s ls Hc Hnd) as (h' & -> & Hd); [lia|].
    cbn. eexists. split; [done|]. split; cbn; [done|done|constructor|]. rewrite Hd, Hdom. set_solver.
Qed.

(** subCacheDestroy ends, frees every cached subscription and leaves an empty,
    well-formed cache; the counters keep their values. *)
Theorem subCacheDestroy_empty fuel c ls : cache_repr c ls -> (length ls <= fuel)%nat ->
  exists c', subCacheDestroy fuel c = Ret c' /\ cache_repr c' [] /\ heap c' = ∅ /\
    noOfInserts c' = noOfInserts c /\ noOfRemoves c' = noOfRemoves c.
Proof.
  intros Hr Hf. destruct (destroy_repr fuel c ls Hr Hf) as (c' & H & Hr'). exists c'.
  assert (heap c' = ∅) as Hh by (apply dom_empty_inv_L; by rewrite (repr_dom _ _ Hr')).
  split_and!; try done; revert H; unfold subCacheDestroy; destruct (head c); [|by intros [= <-]| |by intros [= <-]];
    by destruct (subCacheDestroy_loop _ _ _); intros [= <-].
Qed.

Lemma remove_tail (l0 l2 : list loc) l : NoDup (l0 ++ l :: l2) ->
  (if bool_decide (Some l = last (l0 ++ l :: l2)) then last l0 else last (l0 ++ l :: l2)) = last (l0 ++ l2).
Proof.
  intros Hnd. destruct l2 as [|x l2 _] using rev_ind.
  - by rewrite last_snoc, bool_decide_true, app_nil_r.
  - rewrite app_comm_cons, !app_assoc, !last_snoc. rewrite bool_decide_false; [done|].
    intros [= <-]. apply NoDup_app in Hnd as (_ & _ & Hnd). apply NoDup_cons in Hnd as [Hn _].
    apply Hn, elem_of_app. right. by left.
Qed.

(** Unlinking the node that [current] points to. *)
Lemma remove_here fuel c l s ls0 ls2 : cache_repr c (ls0 ++ (l, s) :: ls2) ->
  exists c', subCacheItemRemove_loop (S fuel) c l (Some l) (last (locs ls0)) = Ret (0, c') /\
    cache_repr c' (ls0 ++ ls2) /\ noOfRemoves c' = int32 (noOfRemoves c + 1).
Proof.
  intros [Hc Ht Hnd Hdom]. rewrite locs_app in Ht, Hnd, Hdom. cbn in Ht, Hnd, Hdom.
  apply seg_app in Hc as (r & H1 & -> & n & Hl & H2).
  pose proof (remove_tail _ _ _ Hnd) as Htl. rewrite <- Ht, <- locs_app in Htl.
  pose proof Hnd as Hnd2. apply NoDup_app in Hnd as (Hnd0 & Hdis & Hnd1).
  apply NoDup_cons in Hnd1 as [Hl2 Hnd1].
  assert (Hl0 : l ∉ locs ls0) by (intros H; apply (Hdis _ H); by left).
  assert (Hnd' : NoDup (locs (ls0 ++ ls2))).
  { rewrite locs_app. apply NoDup_app. split_and!; [done| |done]. intros x Hx Hx2.
    apply (Hdis _ Hx). by right. }
  cbn [subCacheItemRemove_loop]. rewrite (deref_here _ _ _ _ Hl). cbn. rewrite bool_decide_true by done.
  rewrite Htl. destruct ls0 as [|[p sp] ls0 _] using rev_ind.
  - cbn in H1 |- *. rewrite H1, bool_decide_true by done. rewrite (destroy_delete_eq _ _ _ Hl). cbn.
    eexists. split; [done|]. split; [|done]. split; cbn; try done; [by apply seg_delete|].
    rewrite dom_delete_L, Hdom. set_solver.
  - rewrite !locs_app in *. cbn in *. rewrite last_snoc. unfold set_next.
    apply seg_app in H1 as (r & H1 & -> & np & Hp & Hnp). cbn in Hnp. subst np.
    rewrite (deref_here _ _ _ _ Hp). cbn.
    assert (Hpl : p <> l). { intros ->. apply Hl0, elem_of_app. right. by left. }
    rewrite (destroy_delete_eq _ _ (mkNode s n)) by (by rewrite lookup_insert_ne). cbn.
    apply NoDup_app in Hnd0 as (_ & Hp0 & _).
    assert (Hp0' : p ∉ locs ls0) by (intros H; apply (Hp0 _ H); by left).
    assert (Hp2 : p ∉ locs ls2).
    { intros H. apply (Hdis p); [apply elem_of_app; right; by left|by right]. }
    assert (Hl0' : l ∉ locs ls0) by (intros H; apply Hl0, elem_of_app; by left).
    assert (bool_decide (Some l = head c) = false) as ->.
    { apply bool_decide_false. intros H. rewrite <- H in H1. destruct ls0 as [|[] ls0]; cbn in H1; [by simplify_eq|].
      destruct H1 as ([= ->] & _). apply Hl0'. by left. }
    eexists. split; [done|]. split; [|done]. split; cbn; [|by rewrite ?locs_app|by rewrite ?locs_app|].
    + rewrite <- app_assoc. apply seg_app. exists (Some p). split.
      * apply seg_delete; [done|]. by apply seg_insert.
      * cbn. split; [done|]. exists n. rewrite lookup_delete_ne, lookup_insert_eq by done. split; [done|].
        apply seg_delete; [done|]. by apply seg_insert.
    + rewrite dom_delete_L, dom_insert_L, Hdom, !locs_app. cbn. apply elem_of_dom_2 in Hp. set_solver.
Qed.

Lemma remove_loop fuel c l s ls0 ls1 ls2 current : cache_repr c (ls0 ++ ls1 ++ (l, s) :: ls2) ->
  seg (heap c) (head c) ls0 current -> (length ls1 < fuel)%nat ->
  exists c', subCacheItemRemove_loop fuel c l current (last (locs ls0)) = Ret (0, c') /\
    cache_repr c' (ls0 ++ ls1 ++ ls2) /\ noOfRemoves c' = int32 (noOfRemoves c + 1).
Proof.
  revert fuel ls0 current. induction ls1 as [|[l1 s1] ls1 IH]; intros fuel ls0 current Hr Hs Hf;
    (destruct fuel as [|fuel]; [cbn in Hf; lia|]).
  - pose proof (repr_chain _ _ Hr) as Hc. cbn [app] in Hc.
    apply seg_app in Hc as (r & H1 & H2). rewrite (seg_det _ _ _ _ _ Hs H1). destruct H2 as [-> _].
    by apply remove_here with (s := s).
  - pose proof (repr_chain _ _ Hr) as Hc.
    apply seg_app in Hc as (r & H1 & H2). rewrite (seg_det _ _ _ _ _ Hs H1).
    destruct H2 as (-> & n & Hl1 & _).
    cbn [subCacheItemRemove_loop]. rewrite (deref_here _ _ _ _ Hl1). cbn.
    assert (l1 <> l) as Hne.
    { pose proof (repr_nodup _ _ Hr) as Hnd. rewrite !locs_app in Hnd. apply NoDup_app in Hnd as (_ & _ & Hnd).
      cbn in Hnd. apply NoDup_cons in Hnd as [Hn _]. intros ->.
      apply Hn, elem_of_app. right. by left. }
    rewrite bool_decide_false by done.
    replace (Some l1) with (last (locs (ls0 ++ [(l1, s1)]))) by (rewrite locs_app; apply last_snoc).
    change ((l1, s1) :: ls1) with ([(l1, s1)] ++ ls1) in Hr |- *. rewrite <- !app_assoc in Hr.
    destruct (IH fuel (ls0 ++ [(l1, s1)]) n) as (c' & H & H' & H'').
    + by rewrite <- !app_assoc.
    + apply seg_app. exists (Some l1). split; [by rewrite <- (seg_det _ _ _ _ _ Hs H1)|].
      cbn. split; [done|]. by exists n.
    + cbn in Hf. lia.
    + exists c'. split; [done|]. split; [|done]. by rewrite <- !app_assoc in H'.
Qed.

Lemma remove_absent fuel c l ls current prev : seg (heap c) current ls None -> l ∉ locs ls ->
  (length ls <= fuel)%nat -> subCacheItemRemove_loop fuel c l current prev = Ret (-1, c).
Proof.
  revert fuel current prev. induction ls as [|[l1 s1] ls IH]; intros fuel current prev; cbn [seg length].
  - intros -> _ _. by destruct fuel.
  - intros (-> & n & Hl & Hc) Hni Hf. destruct fuel as [|fuel]; [lia|]. cbn in Hni |- *.
    rewrite (deref_here _ _ _ _ Hl). cbn. rewrite bool_decide_false by (intros ->; apply Hni; by left).
    apply IH; [done| |lia]. intros H. apply Hni. by right.
Qed.

(** subCacheItemRemove of a subscription of the list unlinks and frees exactly that
    one, wherever it stands, returns 0 and keeps the cache well formed (head, tail and
    the links of its neighbours); for any other pointer it returns -1 and changes
    nothing. *)
Theorem subCacheItemRemove_removes fuel c l ls : cache_repr c ls -> (length ls <= fuel)%nat ->
  (forall s ls1 ls2, ls = ls1 ++ (l, s) :: ls2 ->
     exists c', subCacheItemRemove fuel c l = Ret (0, c') /\ cache_repr c' (ls1 ++ ls2) /\
       noOfRemoves c' = int32 (noOfRemoves c + 1)) /\
  (l ∉ locs ls -> subCacheItemRemove fuel c l = Ret (-1, c)).
Proof.
  intros Hr Hf. split.
  - intros s ls1 ls2 ->. apply (remove_loop fuel c l s [] ls1 ls2 (head c) Hr); [done|].
    rewrite length_app in Hf. cbn in Hf. lia.
  - intros Hni. apply (remove_absent fuel c l ls); [apply Hr|done|done].
Qed.

(** subCacheItemLookup ends and returns the first subscription of the list with
    that tenant (a null tenant counting as the empty one) and that id, or null if there
    is none. *)
Theorem subCacheItemLookup_first fuel c ls tenant id :
  cache_repr c ls -> (length ls <= fuel)%nat -> with_ids ls ->
  subCacheItemLookup fuel c tenant id =
    Ret (fst <$> hd_error (List.filter (fun x => lookup_key tenant id x.2) ls)).
Proof. intros Hr Hf Hi. by apply lookup_seg; [apply Hr| |]. Qed.

End ListFacts.

(** ** Statistics *)

(** Every subscription id is the 24 digits of a mongo object id. *)
Definition oid_ids (ls : list (loc * CachedSubscription)) : Prop :=
  Forall (fun s => exists id, cs_subscriptionId s = Some id /\ String.length id = 24%nat) (subs ls).

Lemma buffer_append_fits size list text :
  Z.of_nat (String.length list + String.length text) < size ->
  buffer_append size list text = Ret (list +:+ text).
Proof.
  intros H. unfold buffer_append. rewrite length_app_str.
  assert ((Z.of_nat (String.length list + String.length text) <? size) = true) as -> by (by apply Z.ltb_lt). done.
Qed.

Lemma statistics_seg fuel h p ls list k : seg h p ls None -> (length ls <= fuel)%nat -> oid_ids ls ->
  Z.of_nat (String.length list) = (if (k =? 0) then 0 else 26 * k - 2) -> 0 <= k -> 26 * k - 2 < 1024 ->
  exists text, statistics_loop fuel h 1024 p list = Ret text /\ Z.of_nat (String.length text) < 1024.
Proof.
  revert fuel p list k. induction ls as [|[l s] ls IH]; intros fuel p list k; cbn [seg length].
  - intros -> _ _ Hk H0 Hlt. exists list. split; [by destruct fuel|]. destruct (k =? 0); lia.
  - intros (-> & n & Hl & Hc) Hf Hid Hk H0 Hlt. destruct fuel as [|fuel]; [lia|]. cbn in Hid.
    apply Forall_cons in Hid as [(id & Hid & Hlen) Hids]. cbn in Hid.
    cbn -[Z.mul Z.sub String.app str_take]. rewrite (deref_here _ _ _ _ Hl). cbn -[Z.mul Z.sub String.app str_take].
    rewrite Hid. cbn -[Z.mul Z.sub String.app str_take].
    rewrite (str_take_all id 255) by lia. rewrite Hlen.
    destruct (_ <? _) eqn:E; [eexists; split; [done|]; by vm_compute|]. apply Z.ltb_ge in E.
    destruct (k =? 0) eqn:Ek.
    + apply Z.eqb_eq in Ek. subst k. assert (list = "") as -> by (destruct list; [done|cbn in Hk; lia]).
      cbn -[Z.mul Z.sub String.app str_take]. rewrite buffer_append_fits by (rewrite Hlen; cbn; lia).
      cbn -[Z.mul Z.sub String.app str_take]. apply (IH fuel n _ 1); try done; try lia.
      rewrite app_nil_l_str, Hlen. done.
    + apply Z.eqb_neq in Ek.
      assert ((list =s "") = false) as -> by (apply str_eqb_neq; intros ->; cbn in Hk; lia). cbn [negb].
      rewrite buffer_append_fits by (change (String.length ", ") with 2%nat; lia). cbn -[Z.mul Z.sub String.app str_take].
      rewrite buffer_append_fits by (rewrite length_app_str; change (String.length ", ") with 2%nat; lia).
      cbn -[Z.mul Z.sub String.app str_take]. apply (IH fuel n _ (k + 1)); try done; try lia.
      rewrite !length_app_str. change (String.length ", ") with 2%nat.
      assert ((k + 1 =? 0) = false) as -> by (apply Z.eqb_neq; lia). lia.
Qed.

(** GET /cache/statistics stays in its buffer of 1024 bytes and counts the items:
    for subscriptions whose ids are mongo object ids (24 characters) the id list, with
    its terminator, never runs past the buffer, whatever the number of subscriptions. *)
Theorem subCacheStatisticsGet_fits fuel c ls : cache_repr c ls -> (length ls <= fuel)%nat ->
  oid_ids ls -> Z.of_nat (length ls) <= int32_max ->
  exists st, subCacheStatisticsGet fuel c 1024 = Ret st /\
    Z.of_nat (String.length (st_list st)) < 1024 /\ st_items st = Z.of_nat (length ls).
Proof.
  intros Hr Hf Hid Hn. unfold subCacheStatisticsGet, subCacheItems.
  rewrite (items_seg _ _ _ _ _ (repr_chain _ _ Hr)) by (done || lia). cbn [mbind cpp_bind].
  change (128 <? 1024) with true. cbv iota.
  destruct (statistics_seg fuel (heap c) (head c) ls "" 0) as (text & -> & Ht); try done; [apply Hr|].
  eexists. split; [done|]. done.
Qed.

(** The test of the room left counts the separator but not the terminator: an id that
    fills the buffer exactly is written one byte past its end. *)
Lemma statistics_overflow fuel h listSize l s n list id :
  h !! l = Some (mkNode s n) -> cs_subscriptionId s = Some id -> (String.length id <= 255)%nat ->
  list <> "" -> Z.of_nat (String.length list + 2 + String.length id) = listSize ->
  0 < Z.of_nat (String.length id) ->
  statistics_loop (S fuel) h listSize (Some l) list = UB "write past the end of the list buffer".
Proof.
  intros Hl Hid Hlen Hne Hsz Hpos. apply str_eqb_neq in Hne.
  cbn -[Z.mul Z.sub String.app str_take]. rewrite (deref_here _ _ _ _ Hl). cbn -[Z.mul Z.sub String.app str_take].
  rewrite Hid. cbn -[Z.mul Z.sub String.app str_take]. rewrite (str_take_all id 255) by done.
  destruct (_ <? _) eqn:E; [apply Z.ltb_lt in E; lia|]. rewrite Hne. cbn [negb].
  rewrite buffer_append_fits by (change (String.length ", ") with 2%nat; lia).
  cbn -[Z.mul Z.sub String.app str_take]. unfold buffer_append. rewrite !length_app_str.
  change (String.length ", ") with 2%nat.
  by rewrite Hsz, Z.ltb_irrefl.
Qed.

(** ** Witnesses *)

Definition sample_sub : CachedSubscription :=
  mkCachedSubscription [EntityInfo_new "Room" "" "false"] [] [mkNotifyCondition "ONCHANGE" ["temp"]]
    None (Some "/a/b/#") (Some "51c0ac9ed714fb3b37d7d5a8") (-1) 0 (-1) "active" 0 NGSI_V1_LEGACY
    (Some "http://localhost") (mkExpression "" "" "" "" (mkStringFilter [] []) false).

Definition sample_cache : SubCache :=
  mkSubCache {[ 1%positive := mkNode sample_sub None ]} (Some 1%positive) (Some 1%positive) 0 1 0 0 true false.

Lemma sample_repr : cache_repr sample_cache [(1%positive, sample_sub)].
Proof.
  split; cbn; [|done| |].
  - split; [done|]. exists None. split; [|done]. apply lookup_singleton_eq.
  - apply NoDup_singleton.
  - rewrite dom_singleton_L. set_solver.
Qed.

Lemma sample_ok : sub_ok (fun _ => true) sample_sub.
Proof. split; [exists "/a/b/#"; split; [done|]; cbn; lia|repeat constructor]. Qed.

Lemma subCacheMatch_selects_witness :
  subCacheMatch (fun _ => true) (fun _ _ => false) 1 sample_cache None "/a/b/c" "Room" "" ["temp"] []
    = Ret [1%positive].
Proof.
  rewrite (subCacheMatch_selects (fun _ => true) (fun _ _ => false) 1 sample_cache
    [(1%positive, sample_sub)] None "/a/b/c" "Room" "" ["temp"] []).
  - reflexivity.
  - exact sample_repr.
  - reflexivity.
  - constructor; [exact sample_ok|constructor].
Defined.

Lemma servicePathMatch_wildcard_witness :
  servicePathMatch sample_sub "/a/b" = Ret true /\ ~ servicePathMatch sample_sub "/a/b2" = Ret true.
Proof.
  split.
  - apply (servicePathMatch_wildcard sample_sub "/a/b" "/a/b" eq_refl); [discriminate|]. left. reflexivity.
  - intros H. discriminate H.
Defined.

Lemma subCacheItemInsert_appends_witness :
  exists c', subCacheItemInsert_new (fun _ => true) sample_cache
    (mkNewSubscription "" "/" "http://x" [] [] [mkNotifyCondition "onchange" []] "id" 0 (-1)
       NGSI_V1_LEGACY false (-1) None "active" "" "" "" "") = Ret c' /\ noOfInserts c' = 2.
Proof.
  destruct (subCacheItemInsert_appends (fun _ => true) sample_cache [(1%positive, sample_sub)]
    (mkNewSubscription "" "/" "http://x" [] [] [mkNotifyCondition "onchange" []] "id" 0 (-1)
       NGSI_V1_LEGACY false (-1) None "active" "" "" "" "") sample_repr) as (c' & H & H').
  exists c'. split; [exact H|]. exact (proj2 H').
Defined.

Lemma subCacheDestroy_empty_witness :
  exists c', subCacheDestroy 1 sample_cache = Ret c' /\ heap c' = ∅.
Proof.
  destruct (subCacheDestroy_empty 1 sample_cache [(1%positive, sample_sub)] sample_repr (le_n 1))
    as (c' & H & _ & H' & _).
  exists c'. exact (conj H H').
Defined.

Lemma subCacheItemRemove_removes_witness :
  (exists c', subCacheItemRemove 1 sample_cache 1%positive = Ret (0, c') /\ cache_repr c' [])
  /\ subCacheItemRemove 1 sample_cache 2%positive = Ret (-1, sample_cache).
Proof.
  split.
  - destruct (proj1 (subCacheItemRemove_removes 1 sample_cache 1%positive [(1%positive, sample_sub)]
      sample_repr (le_n 1)) sample_sub [] [] eq_refl) as (c' & H & H' & _).
    exists c'. exact (conj H H').
  - apply (proj2 (subCacheItemRemove_removes 1 sample_cache 2%positive [(1%positive, sample_sub)]
      sample_repr (le_n 1))).
    cbn. rewrite list_elem_of_singleton. discriminate.
Defined.

Lemma subCacheItemLookup_first_witness :
  subCacheItemLookup 1 sample_cache (Some "") "51c0ac9ed714fb3b37d7d5a8" = Ret (Some 1%positive).
Proof.
  rewrite (subCacheItemLookup_first 1 sample_cache [(1%positive, sample_sub)] (Some "")
    "51c0ac9ed714fb3b37d7d5a8" sample_repr (le_n 1)).
  - reflexivity.
  - constructor; [eexists; reflexivity|constructor].
Defined.

Lemma subCacheStatisticsGet_fits_witness :
  exists st, subCacheStatisticsGet 1 sample_cache 1024 = Ret st /\ st_items st = 1.
Proof.
  destruct (subCacheStatisticsGet_fits 1 sample_cache [(1%positive, sample_sub)] sample_repr (le_n 1))
    as (st & H & _ & H').
  - constructor; [eexists; split; reflexivity|constructor].
  - discriminate.
  - exists st. exact (conj H H').
Defined.
