(* ===== verification/Geo.v ===== *)
(** * Geographical queries

    The URI parameters geometry, coords and georel of a query: Georel::parse and
    Geometry::parse of orionTypes/areas.cpp, Scope::fill of ngsi/Scope.cpp, and what they
    become in the query to the database, processAreaScope (NGSIv1) and processAreaScopeV2
    of mongoBackend/MongoGlobal.cpp.  A point is the pair of its latitude and longitude. *)

From S2P Require Import Prelude Strings Double Bson Compound Ngsi Location Registrations.

Open Scope Z_scope.

Definition EARTH_RADIUS_METERS : Z := 6371000.
Definition FIWARE_LOCATION : string := "FIWARE::Location".
Definition FIWARE_LOCATION_V2 : string := "FIWARE::Location::NGSIv2".

(** ** float *)

(** The value of a float, as a double. *)
Definition widen (f : spec_float) : double :=
  match f with S754_finite s m e => binary_normalize 53 1024 (cond_Zopp s (Zpos m)) e s | _ => f end.

(** The conversion of a double to float. *)
Definition to_float (d : double) : double :=
  match d with
  | S754_finite s m e => widen (binary_normalize 24 128 (cond_Zopp s (Zpos m)) e s)
  | _ => d
  end.

(** The value of a float that holds an integer. *)
Definition Z_of_float (d : double) : Z :=
  match d with S754_finite s m e => cond_Zopp s (Z.shiftl (Zpos m) e) | _ => 0 end.

(** ** Georel *)

Record Georel := mkGeorel { georel_type : string; maxDistance : double; minDistance : double }.

(** The distances of a georel that sets none. *)
Definition no_distance : double := double_of_Z (-1).

Definition georel_types : list string := ["near"; "coveredBy"; "intersects"; "equals"; "disjoint"].
Definition is_georel (item : string) : bool := existsb (fun t => item =s t) georel_types.
Definition is_maxDistance (item : string) : bool := negb (is_georel item) && strncmp_eq item "maxDistance:" 12.
Definition is_minDistance (item : string) : bool := negb (is_georel item) && strncmp_eq item "minDistance:" 12.

(** The loop of Georel::parse over the items; the flags tell which distances were set. *)
Fixpoint georel_items (items : list string) (g : Georel) (maxDistanceSet minDistanceSet : bool)
    : string + Georel * bool * bool :=
  match items with
  | [] => inr (g, maxDistanceSet, minDistanceSet)
  | item :: items' =>
      if is_georel item then
        if negb (georel_type g =s "") then inl "georel type present more than once"
        else georel_items items' (mkGeorel item (maxDistance g) (minDistance g)) maxDistanceSet minDistanceSet
      else if strncmp_eq item "maxDistance:" 12 then
        if maxDistanceSet then inl "maxDistance present more than once"
        else match str2double (str_drop 12 item) with
             | None => inl "invalid number for maxDistance"
             | Some d => georel_items items' (mkGeorel (georel_type g) d (minDistance g)) true minDistanceSet
             end
      else if strncmp_eq item "minDistance:" 12 then
        if minDistanceSet then inl "minDistance present more than once"
        else match str2double (str_drop 12 item) with
             | None => inl "invalid number for minDistance"
             | Some d => georel_items items' (mkGeorel (georel_type g) (maxDistance g) d) maxDistanceSet true
             end
      else inl "Invalid selector in georel specification"
  end.

(** Georel::parse of a new object. *)
Definition georel_parse (inp : string) : string + Georel :=
  let '(n, items) := stringSplit inp ";" in
  if n =? 0 then inl "empty georel"
  else match georel_items items (mkGeorel "" no_distance no_distance) false false with
       | inl e => inl e
       | inr (g, maxSet, minSet) =>
           if maxSet && negb (georel_type g =s "near")
           then inl ("maxDistance erroneously used with georel /" +:+ georel_type g +:+ "/")
           else if minSet && negb (georel_type g =s "near")
           then inl ("minDistance erroneously used with georel /" +:+ georel_type g +:+ "/")
           else if (georel_type g =s "near") && negb maxSet && negb minSet
           then inl "georel /near/ without either minDistance nor maxDistance"
           else inr g
       end.

(** ** Geometry *)

(** The radius is a float, here by its (integer) value. *)
Record Geometry := mkGeometry { geometry_areaType : string; geometry_radius : Z; geometry_external : bool }.

Definition v1_area (item : string) : bool := (item =s "polygon") || (item =s "circle").
Definition v2_area (item : string) : bool :=
  (item =s "point") || (item =s "line") || (item =s "box") || (item =s "polygon").

(** The loop of Geometry::parse; "radius" alone makes it read after the end of the item. *)
Fixpoint geometry_items (apiVersion : string) (items : list string) (g : Geometry) : cpp (string + Geometry) :=
  match items with
  | [] => Ret (inr g)
  | item :: items' =>
      if (apiVersion =s "v1") && v1_area item then
        if negb (geometry_areaType g =s "") then Ret (inl "polygon/circle present more than once")
        else geometry_items apiVersion items' (mkGeometry item (geometry_radius g) (geometry_external g))
      else if (apiVersion =s "v2") && v2_area item then
        if negb (geometry_areaType g =s "") then Ret (inl "geometry-type present more than once")
        else geometry_items apiVersion items' (mkGeometry item (geometry_radius g) (geometry_external g))
      else if strncmp_eq item "radius" 6 then
        if (String.length item <? 7)%nat then UB "read after the end of the item"
        else
          let radius := atoi (str_drop 7 item) in
          if radius =? 0 then Ret (inl "Invalid value of /radius/")
          else geometry_items apiVersion items'
                 (mkGeometry (geometry_areaType g) (Z_of_float (to_float (double_of_Z radius))) (geometry_external g))
      else if item =s "external" then
        geometry_items apiVersion items' (mkGeometry (geometry_areaType g) (geometry_radius g) true)
      else Ret (inl "Invalid selector in geometry specification")
  end.

Definition geometry_parse (apiVersion inp : string) : cpp (string + Geometry) :=
  let '(n, items) := stringSplit inp ";" in
  if n =? 0 then Ret (inl "empty geometry")
  else
    r ← geometry_items apiVersion items (mkGeometry "" (-1) false);
    Ret (match r : string + Geometry with
         | inl e => inl e
         | inr g =>
             if (geometry_areaType g =s "circle") && (geometry_radius g =? -1) then inl "no radius for circle"
             else if (geometry_areaType g =s "polygon") && negb (geometry_radius g =? -1)
             then inl "radius set for polygon"
             else inr g
         end).

(** ** Scope *)

(** The member of a scope that its areaType selects. *)
Inductive Area :=
  | NoArea
  | CircleType (center : double * double) (radius inverted : string)
  | PolygonType (vertexList : list (double * double)) (inverted : string)
  | PointType (p : double * double)
  | LineType (pointList : list (double * double))
  | BoxType (lowerLeft upperRight : double * double).

Record GeoScope := mkGeoScope { gs_type : string; gs_area : Area; gs_georel : Georel }.

(** Circle::radiusSet(float): what "%f" prints of an integer. *)
Definition radius_text (radius : Z) : string := show_Z radius +:+ ".000000".
(** Circle::radius and the inverted methods. *)
Definition circle_radius (radius : string) : double := to_float (atof radius).
Definition inverted_text (b : bool) : string := if b then "true" else "false".

Fixpoint read_points (pointStringV : list string) : string + list (double * double) :=
  match pointStringV with
  | [] => inr []
  | s :: rest =>
      match stringSplit s "," with
      | (2, [c0; c1]) =>
          match str2double c0 with
          | None => inl "invalid coordinates"
          | Some latitude =>
              match str2double c1 with
              | None => inl "invalid coordinates"
              | Some longitude =>
                  match read_points rest with inl e => inl e | inr l => inr ((latitude, longitude) :: l) end
              end
          end
      | _ => inl "invalid point in URI param /coords/"
      end
  end.

(** The last part of Scope::fill: the area of a geometry with these points. *)
Definition area_of (apiVersion : string) (g : Geometry) (pointV : list (double * double)) : string + Area :=
  let t := geometry_areaType g in
  if t =s "circle" then
    if apiVersion =s "v2" then inl "circle geometry is not supported by Orion API v2"
    else match pointV with
         | [p] => inr (CircleType p (radius_text (geometry_radius g)) (inverted_text (geometry_external g)))
         | _ => inl "Too many coordinates for circle"
         end
  else if t =s "polygon" then
    if (apiVersion =s "v1") && (length pointV <? 3)%nat then inl "Too few coordinates for polygon"
    else if (apiVersion =s "v2") && (length pointV <? 4)%nat then inl "Too few coordinates for polygon"
    else if (apiVersion =s "v2")
         && negb match hd_error pointV, last pointV with Some p, Some q => same_point p q | _, _ => true end
    then inl "First and last point in polygon not the same"
    else inr (PolygonType pointV (inverted_text (geometry_external g)))
  else if t =s "line" then
    if (length pointV <? 2)%nat then inl "invalid number of coordinates for /line/" else inr (LineType pointV)
  else if t =s "box" then
    match pointV with
    | [p; q] =>
        match orderCoordsForBox p.1 q.1 p.2 q.2 with
        | None => inl "box coordinates are not defining an actual box"
        | Some b => inr (BoxType (minLat b, minLon b) (maxLat b, maxLon b))
        end
    | _ => inl "invalid number of coordinates for /box/"
    end
  else if t =s "point" then
    match pointV with [p] => inr (PointType p) | _ => inl "invalid number of coordinates for /point/" end
  else inl "invalid area-type".

(** Scope::fill of a new scope. *)
Definition scope_fill (apiVersion geometryString coordsString georelString : string) : cpp (string + GeoScope) :=
  r ← geometry_parse apiVersion geometryString;
  Ret (match r : string + Geometry with
       | inl e => inl ("error parsing geometry: " +:+ e)
       | inr g =>
           match (if georelString =s "" then inr (mkGeorel "" no_distance no_distance)
                  else georel_parse georelString) with
           | inl e => inl e
           | inr georel =>
               let t := geometry_areaType g in
               if (t =s "line") && (georel_type georel =s "coveredBy")
               then inl "line geometry cannot be used with coveredBy georel"
               else if (t =s "point") && (georel_type georel =s "coveredBy")
               then inl "point geometry cannot be used with coveredBy georel"
               else if negb (t =s "point") && (georel_type georel =s "near")
               then inl "georel /near/ used with geometry different than point"
               else if coordsString =s "" then inl "no coordinates for geometry"
               else let '(points, pointStringV) := stringSplit coordsString ";" in
                    if points =? 0 then inl "erroneous coordinates for geometry"
                    else match read_points pointStringV with
                         | inl e => inl e
                         | inr pointV =>
                             match area_of apiVersion g pointV with
                             | inl e => inl e
                             | inr area =>
                                 inr (mkGeoScope (if apiVersion =s "v1" then FIWARE_LOCATION else FIWARE_LOCATION_V2)
                                        area georel)
                             end
                         end
           end
       end).

(** ** The condition of the query *)

Definition exists_ : string * bson := ("$exists", BsonBool true).

(** mongoLocationCapable, for the version of the database. *)
Definition mongoLocationCapable (mayor minor : Z) : bool := (mayor =? 2) && (4 <=? minor) || (2 <? mayor).

(** processAreaScope: the area query, None when it is not filled. *)
Definition processAreaScope (capable : bool) (area : Area) : option doc :=
  if negb capable then None
  else
    let query (inverted : bool) (geoWithin : doc) :=
      if inverted then [exists_; ("$not", BsonObj [("$geoWithin", BsonObj geoWithin)])]
      else [("$geoWithin", BsonObj geoWithin)] in
    match area with
    | CircleType center radius inverted =>
        let radians := SFdiv 53 1024 (circle_radius radius) (double_of_Z EARTH_RADIUS_METERS) in
        Some (query (isTrue inverted)
                [("$centerSphere", BsonArray [position center.2 center.1; BsonNumber radians])])
    | PolygonType vertexList inverted =>
        let first := match vertexList with p :: _ => p | [] => (double_of_Z 0, double_of_Z 0) end in
        Some (query (isTrue inverted)
                [("$geometry", BsonObj (geometry "Polygon" (BsonArray [BsonArray (positions (vertexList ++ [first]))])))])
    | _ => None
    end.

(** The ring of a box. *)
Definition box_ring_v2 (ll ur : double * double) : list (double * double) :=
  [ll; (ll.1, ur.2); ur; (ur.1, ll.2); ll].

(** The geometry of a scope. *)
Definition area_geometry (area : Area) : option doc :=
  match area with
  | PointType p => Some (geometry "Point" (position p.2 p.1))
  | LineType l => Some (geometry "LineString" (BsonArray (positions l)))
  | BoxType ll ur => Some (geometry "Polygon" (BsonArray [BsonArray (positions (box_ring_v2 ll ur))]))
  | PolygonType l _ => Some (geometry "Polygon" (BsonArray [BsonArray (positions l)]))
  | _ => None
  end.

(** a >= 0 *)
Definition not_negative (a : double) : bool := SFleb (double_of_Z 0) a.

(** processAreaScopeV2 *)
Definition processAreaScopeV2 (capable : bool) (sc : GeoScope) : option doc :=
  if negb capable then None
  else match area_geometry (gs_area sc) with
  | None => None
  | Some geo =>
      let g := gs_georel sc in
      let t := georel_type g in
      let in_geometry := BsonObj [("$geometry", BsonObj geo)] in
      if t =s "near" then
        Some [("$near", BsonObj ([("$geometry", BsonObj geo)]
                ++ (if not_negative (maxDistance g) then [("$maxDistance", BsonNumber (maxDistance g))] else [])
                ++ (if not_negative (minDistance g) then [("$minDistance", BsonNumber (minDistance g))] else [])))]
      else if t =s "coveredBy" then Some [("$geoWithin", in_geometry)]
      else if t =s "intersects" then Some [("$geoIntersects", in_geometry)]
      else if t =s "disjoint" then Some [exists_; ("$not", BsonObj [("$geoIntersects", in_geometry)])]
      else if t =s "equals" then Some geo
      else None
  end.

(** ** What a georel says *)

(** A text is accepted as [g] when its items are one relation, and for "near" (only) a
    distance: at most one of each kind, at least one of both. *)
Definition distance_of (kind : string -> bool) (items : list string) (d : double) : Prop :=
  (List.filter kind items = [] /\ d = no_distance) \/
  (exists x, List.filter kind items = [x] /\ str2double (str_drop 12 x) = Some d).

Record georel_wf (items : list string) (g : Georel) : Prop := {
  gw_known : Forall (fun x => is_georel x || is_maxDistance x || is_minDistance x = true) items;
  gw_type : List.filter is_georel items = [georel_type g];
  gw_max : distance_of is_maxDistance items (maxDistance g);
  gw_min : distance_of is_minDistance items (minDistance g);
  gw_near : georel_type g = "near" <-> List.filter is_maxDistance items <> [] \/ List.filter is_minDistance items <> []
}.

(** A distance, before ([d], set or not) and after the items. *)
Definition distance_step (kind : string -> bool) (items : list string) (d : double) (set : bool) (d' : double)
    (set' : bool) : Prop :=
  (List.filter kind items = [] /\ d' = d /\ set' = set) \/
  (set = false /\ set' = true /\ exists x, List.filter kind items = [x] /\ str2double (str_drop 12 x) = Some d').

Definition type_step (items : list string) (t t' : string) : Prop :=
  (List.filter is_georel items = [] /\ t' = t) \/ (t = "" /\ List.filter is_georel items = [t']).

Lemma is_georel_nonempty x : is_georel x = true -> x <> "".
Proof. by intros H ->. Qed.

Lemma distance_not kind x items d set d' set' : kind x = false ->
  distance_step kind (x :: items) d set d' set' <-> distance_step kind items d set d' set'.
Proof. intros H. unfold distance_step. cbn [List.filter]. by rewrite H. Qed.

Lemma distance_hit kind x items d set d' set' : kind x = true ->
  distance_step kind (x :: items) d set d' set' <->
  set = false /\ exists d1, str2double (str_drop 12 x) = Some d1 /\ distance_step kind items d1 true d' set'.
Proof.
  intros H. unfold distance_step. cbn [List.filter]. rewrite H. split.
  - intros [[? _]|(-> & -> & y & [= -> Hf] & Hd)]; [done|]. split; [done|]. exists d'. split; [done|]. by left.
  - intros (-> & d1 & Hd & [(Hf & -> & ->)|[? _]]); [|done]. right. split_and!; try done. exists x. by rewrite Hf.
Qed.

Lemma type_not x items t t' : is_georel x = false -> type_step (x :: items) t t' <-> type_step items t t'.
Proof. intros H. unfold type_step. cbn [List.filter]. by rewrite H. Qed.

Lemma type_hit x items t t' : is_georel x = true ->
  type_step (x :: items) t t' <-> t = "" /\ type_step items x t'.
Proof.
  intros H. unfold type_step. cbn [List.filter]. rewrite H. split.
  - intros [[? _]|[-> [= -> Hf]]]; [done|]. split; [done|]. by left.
  - intros (-> & [[Hf ->]|[-> _]]); [|by apply is_georel_nonempty in H]. right. by rewrite Hf.
Qed.

Lemma minDistance_not_max x : is_minDistance x = true -> is_maxDistance x = false.
Proof.
  unfold is_minDistance, is_maxDistance, strncmp_eq. rewrite andb_true_iff. intros [-> H%str_eqb_eq]. cbn [andb].
  apply str_eqb_neq. rewrite H. discriminate.
Qed.

Lemma georel_items_spec items g ms mn g' ms' mn' :
  georel_items items g ms mn = inr (g', ms', mn') <->
  Forall (fun x => is_georel x || is_maxDistance x || is_minDistance x = true) items /\
  type_step items (georel_type g) (georel_type g') /\
  distance_step is_maxDistance items (maxDistance g) ms (maxDistance g') ms' /\
  distance_step is_minDistance items (minDistance g) mn (minDistance g') mn'.
Proof.
  revert g ms mn. induction items as [|x items IH]; intros g ms mn; cbn [georel_items].
  - unfold type_step, distance_step. cbn [List.filter]. destruct g as [t a b], g' as [t' a' b']. cbn. split.
    + intros [= -> -> -> -> ->]. split; [constructor|]. split_and!; by left.
    + intros (_ & [[_ ->]|[_ ?]] & [(_ & -> & ->)|(_ & _ & ? & ? & _)] & [(_ & -> & ->)|(_ & _ & ? & ? & _)]);
        try done.
  - rewrite Forall_cons. destruct (is_georel x) eqn:Eg.
    { rewrite (type_hit _ _ _ _ Eg), !distance_not by (unfold is_maxDistance, is_minDistance; by rewrite Eg).
      destruct (georel_type g =s "") eqn:Et; cbn [negb].
      - apply str_eqb_eq in Et. rewrite IH, Et. cbn. tauto.
      - apply str_eqb_neq in Et. split; [done|]. intros (_ & [? _] & _). congruence. }
    rewrite (type_not _ _ _ _ Eg).
    destruct (strncmp_eq x "maxDistance:" 12) eqn:Ex.
    { assert (is_maxDistance x = true) as Hm by (unfold is_maxDistance; by rewrite Eg).
      assert (is_minDistance x = false) as Hn.
      { destruct (is_minDistance x) eqn:E; [|done]. by rewrite (minDistance_not_max _ E) in Hm. }
      rewrite (distance_hit _ _ _ _ _ _ _ Hm), (distance_not _ _ _ _ _ _ _ Hn), Hm. cbn [orb].
      destruct ms; [split; [done|by intros (_ & _ & [? _] & _)]|].
      destruct (str2double (str_drop 12 x)) as [d|].
      - rewrite IH. cbn. naive_solver.
      - split; [done|]. by intros (_ & _ & (_ & d1 & ? & _) & _). }
    assert (is_maxDistance x = false) as Hm by (unfold is_maxDistance; by rewrite Eg, Ex).
    rewrite (distance_not _ _ _ _ _ _ _ Hm), Hm. cbn [orb].
    destruct (strncmp_eq x "minDistance:" 12) eqn:En.
    + assert (is_minDistance x = true) as Hn by (unfold is_minDistance; by rewrite Eg).
      rewrite (distance_hit _ _ _ _ _ _ _ Hn), Hn.
      destruct mn; [split; [done|by intros (_ & _ & _ & [? _])]|].
      destruct (str2double (str_drop 12 x)) as [d|].
      * rewrite IH. cbn. naive_solver.
      * split; [done|]. by intros (_ & _ & _ & (_ & d1 & ? & _)).
    + assert (is_minDistance x = false) as Hn by (unfold is_minDistance; by rewrite Eg, En).
      rewrite Hn. split; [done|]. by intros ([? _] & _).
Qed.

Lemma stringSplit_length inp d : (stringSplit inp d).1 = Z.of_nat (length (stringSplit inp d).2).
Proof. rewrite stringSplit_eq. by destruct (_ =s ""). Qed.

Lemma known_items items : Forall (fun x => is_georel x || is_maxDistance x || is_minDistance x = true) items ->
  List.filter is_georel items = [] -> List.filter is_maxDistance items = [] ->
  List.filter is_minDistance items = [] -> items = [].
Proof.
  intros H. destruct H as [|x items Hx _]; [done|]. cbn [List.filter].
  destruct (is_georel x), (is_maxDistance x), (is_minDistance x); done.
Qed.

(** What the end of Georel::parse asks of the type and the flags. *)
Lemma distances_near ms mn (t : string) {A} (g : A) e1 e2 e3 r :
  (if ms && negb (t =s "near") then inl e1 else if mn && negb (t =s "near") then inl e2
   else if (t =s "near") && negb ms && negb mn then inl e3 else inr g : string + A) = inr r <->
  r = g /\ (t = "near" <-> ms = true \/ mn = true).
Proof.
  destruct (t =s "near") eqn:E; [apply str_eqb_eq in E|apply str_eqb_neq in E]; destruct ms, mn; cbn;
    split; try done; try (intros [= ->]); try (intros [-> H]); naive_solver.
Qed.

Lemma georel_parse_wf inp g : georel_parse inp = inr g <-> georel_wf (stringSplit inp ";").2 g.
Proof.
  unfold georel_parse. pose proof (stringSplit_length inp ";") as Hn.
  destruct (stringSplit inp ";") as [n items]. cbn [fst snd] in *. subst n.
  destruct (Z.of_nat (length items) =? 0) eqn:E0.
  { apply Z.eqb_eq in E0. assert (items = []) as -> by (apply length_zero_iff_nil; lia).
    split; [done|]. intros [_ H _ _ _]. discriminate H. }
  destruct (georel_items items _ false false) as [e|[[g' ms] mn]] eqn:E.
  - split; [done|]. intros [H1 H2 H3 H4 H5]. exfalso.
    assert (georel_items items (mkGeorel "" no_distance no_distance) false false
      = inr (g, negb (length (List.filter is_maxDistance items) =? 0)%nat,
             negb (length (List.filter is_minDistance items) =? 0)%nat)) as H.
    { apply georel_items_spec. split; [done|]. split; [by right|]. split; unfold distance_step; cbn.
      - destruct H3 as [[-> ->]|(x & -> & Hx)]; [by left|right; split_and!; try done; by exists x].
      - destruct H4 as [[-> ->]|(x & -> & Hx)]; [by left|right; split_and!; try done; by exists x]. }
    congruence.
  - rewrite distances_near. apply georel_items_spec in E as (H1 & H2 & H3 & H4). cbn in H2, H3, H4.
    assert (forall kind d d' set, distance_step kind items d false d' set ->
      (set = true <-> List.filter kind items <> [])) as Hset.
    { intros kind d d' set [(-> & _ & ->)|(_ & -> & x & -> & _)]; by split. }
    rewrite (Hset _ _ _ _ H3), (Hset _ _ _ _ H4). split.
    + intros [-> Hnear]. apply Z.eqb_neq in E0. split; try done.
      * destruct H2 as [[Hf Ht]|[_ Hf]]; [|done]. exfalso. apply E0.
        assert (georel_type g' <> "near") as Hne by (by rewrite Ht).
        assert (List.filter is_maxDistance items = [] /\ List.filter is_minDistance items = []) as [Hm Hmn].
        { split; [destruct (List.filter is_maxDistance items) eqn:Ef|destruct (List.filter is_minDistance items) eqn:Ef];
            try done; destruct Hne; apply Hnear; [by left|by right]. }
        by rewrite (known_items items H1 Hf Hm Hmn).
      * destruct H3 as [(? & ? & _)|(_ & _ & ?)]; [by left|by right].
      * destruct H4 as [(? & ? & _)|(_ & _ & ?)]; [by left|by right].
    + intros [_ G2 G3 G4 G5].
      assert (g = g') as <-; [|done].
      destruct g as [t a b], g' as [t' a' b']. cbn in *. f_equal.
      * destruct H2 as [[Hf _]|[_ Hf]]; congruence.
      * destruct H3 as [(Hf & -> & _)|(_ & _ & x & Hf & Hx)], G3 as [[Hf' ->]|(x' & Hf' & Hx')]; try (congruence || done).
      * destruct H4 as [(Hf & -> & _)|(_ & _ & x & Hf & Hx)], G4 as [[Hf' ->]|(x' & Hf' & Hx')]; try (congruence || done).
Qed.

(** Georel::parse accepts exactly the texts whose items are one relation and, for "near",
    a maximum distance, a minimum distance or both, in any order; the relation and the
    distances it stores are theirs. *)
Theorem georel_parse_spec inp g :
  georel_parse inp = inr g <-> georel_wf (stringSplit inp ";").2 g.
Proof. apply georel_parse_wf. Qed.

(** ** What becomes of a scope *)

(** A text "latitude, longitude" and its point. *)
Definition point_text (item : string) (p : double * double) : Prop :=
  exists lat lon, (stringSplit item ",").2 = [lat; lon] /\ str2double lat = Some p.1 /\ str2double lon = Some p.2.

(** The first and the last point of a ring are the same. *)
Definition same_ends (l : list (double * double)) : Prop :=
  exists p q, hd_error l = Some p /\ last l = Some q /\ same_point p q = true.

(** The lower and the upper of two sides of a box; the second text gives both when one of them
    is the text "nan", which strtod reads. *)
Definition sides (a b lower upper : double) : Prop :=
  (lower = a /\ upper = b /\ dlt a b = true) \/ (lower = b /\ upper = a /\ dlt b a = true) \/
  (is_nan a || is_nan b = true /\ lower = b /\ upper = b).

(** The GeoJSON geometry of the points (latitude, longitude) of a kind of area: the positions
    are (longitude, latitude), and a box is the ring of its four corners, southwest,
    southeast, northeast, northwest, closed. *)
Inductive geojson : string -> list (double * double) -> doc -> Prop :=
  | geojson_point lat lon : geojson "point" [(lat, lon)]
      [("type", BsonString "Point"); ("coordinates", BsonArray [BsonNumber lon; BsonNumber lat])]
  | geojson_line pts : (2 <= length pts)%nat -> geojson "line" pts
      [("type", BsonString "LineString");
       ("coordinates", BsonArray ((fun p => BsonArray [BsonNumber p.2; BsonNumber p.1]) <$> pts))]
  | geojson_polygon pts : (4 <= length pts)%nat -> same_ends pts -> geojson "polygon" pts
      [("type", BsonString "Polygon");
       ("coordinates", BsonArray [BsonArray ((fun p => BsonArray [BsonNumber p.2; BsonNumber p.1]) <$> pts)])]
  | geojson_box lat1 lon1 lat2 lon2 south north west east :
      sides lat1 lat2 south north -> sides lon1 lon2 west east ->
      deq lat1 lat2 = false -> deq lon1 lon2 = false ->
      geojson "box" [(lat1, lon1); (lat2, lon2)]
      [("type", BsonString "Polygon");
       ("coordinates", BsonArray [BsonArray
          [BsonArray [BsonNumber west; BsonNumber south]; BsonArray [BsonNumber east; BsonNumber south];
           BsonArray [BsonNumber east; BsonNumber north]; BsonArray [BsonNumber west; BsonNumber north];
           BsonArray [BsonNumber west; BsonNumber south]]])].

Lemma read_points_texts items pts : read_points items = inr pts -> Forall2 point_text items pts.
Proof.
  revert pts. induction items as [|s items IH]; intros pts; cbn [read_points].
  { intros [= <-]. constructor. }
  pose proof (stringSplit_length s ",") as Hl. unfold point_text at 1.
  destruct (stringSplit s ",") as [n l] eqn:E. cbn [fst snd] in Hl.
  destruct (decide (n = 2)) as [->|Hn]; [|by destruct n as [|[|[]|]|]].
  destruct l as [|c0 [|c1 [|]]]; try done.
  destruct (str2double c0) as [lat|] eqn:E0; [|done]. destruct (str2double c1) as [lon|] eqn:E1; [|done].
  destruct (read_points items) as [|l]; [done|]. intros [= <-]. constructor; [|by apply IH].
  exists c0, c1. by rewrite E.
Qed.

(** Where Geometry::parse has seen [items], the type is the one of their areas. *)
Lemma geometry_items_type items g g' : geometry_items "v2" items g = Ret (inr g') ->
  (List.filter v2_area items = [] /\ geometry_areaType g' = geometry_areaType g) \/
  (geometry_areaType g = "" /\ List.filter v2_area items = [geometry_areaType g']).
Proof.
  revert g. induction items as [|x items IH]; intros g; cbn [geometry_items].
  { intros [= ->]. by left. }
  change ("v2" =s "v1") with false. change ("v2" =s "v2") with true. cbn [andb List.filter].
  destruct (v2_area x) eqn:Ev.
  { destruct (geometry_areaType g =s "") eqn:Et; cbn [negb]; [|done]. apply str_eqb_eq in Et.
    intros [[Hf ->]|[Hx _]]%IH; cbn in *; [|by rewrite Hx in Ev]. right. by rewrite Hf. }
  destruct (strncmp_eq x "radius" 6).
  { destruct (_ <? _)%nat; [done|]. destruct (atoi _ =? 0); [done|]. by intros H%IH. }
  destruct (x =s "external"); [|done]. by intros H%IH.
Qed.

Lemma geometry_parse_type inp g : geometry_parse "v2" inp = Ret (inr g) -> geometry_areaType g <> "" ->
  List.filter v2_area (stringSplit inp ";").2 = [geometry_areaType g].
Proof.
  unfold geometry_parse. destruct (stringSplit inp ";") as [n items]. cbn [snd]. destruct (n =? 0); [done|].
  destruct (geometry_items _ _ _) as [[e|g1]| |] eqn:E; cbn; try done.
  apply geometry_items_type in E. destruct (_ && _); [done|]. destruct (_ && _); [done|].
  intros [= <-] Hne. cbn in E. destruct E as [[_ ?]|[_ ->]]; done.
Qed.

Lemma side_bounds a b : deq a b = false -> sides a b (if dlt a b then a else b) (if dgt a b then a else b).
Proof.
  intros H. unfold sides. destruct (is_nan a) eqn:Ha.
  { right. right. destruct a; try done. by destruct b. }
  destruct (is_nan b) eqn:Hb.
  { right. right. destruct b; try done. unfold dlt, dgt. by destruct a as [[]|[]| |[]]. }
  destruct (deq_false_lt a b Ha Hb H) as [[Hk Hg]|(Hk & Hg & Hl)]; rewrite Hk, Hg; [by left|]. right. left. auto.
Qed.

(** The geometry of an area of NGSIv2 is the one of the points read. *)
Lemma area_of_v2 g pts area : area_of "v2" g pts = inr area ->
  exists geo, area_geometry area = Some geo /\ geojson (geometry_areaType g) pts geo.
Proof.
  unfold area_of. destruct (geometry_areaType g =s "circle") eqn:E1; [done|].
  destruct (geometry_areaType g =s "polygon") eqn:E2.
  { apply str_eqb_eq in E2. rewrite E2. cbn [String.eqb Ascii.eqb Bool.eqb andb].
    destruct (length pts <? 4)%nat eqn:El; [done|]. apply Nat.ltb_ge in El.
    destruct (hd_error pts) as [p|] eqn:Eh; [|by destruct pts; cbn in El; [lia|]].
    destruct (last pts) as [q|] eqn:Eq; [|apply last_None in Eq as ->; done].
    destruct (same_point p q) eqn:Es; [|done]. intros [= <-]. eexists. split; [done|]. apply geojson_polygon; [done|].
    by exists p, q. }
  destruct (geometry_areaType g =s "line") eqn:E3.
  { apply str_eqb_eq in E3. rewrite E3. destruct (length pts <? 2)%nat eqn:El; [done|]. apply Nat.ltb_ge in El.
    intros [= <-]. eexists. split; [done|]. by constructor. }
  destruct (geometry_areaType g =s "box") eqn:E4.
  { apply str_eqb_eq in E4. rewrite E4. destruct pts as [|[lat1 lon1] [|[lat2 lon2] [|]]]; try done. cbn [fst snd].
    unfold orderCoordsForBox. destruct (deq lat1 lat2) eqn:D1; [done|]. destruct (deq lon1 lon2) eqn:D2; [done|].
    intros [= <-]. cbn [minLat minLon maxLat maxLon]. eexists. split; [done|].
    apply geojson_box; try done; by apply side_bounds. }
  destruct (geometry_areaType g =s "point") eqn:E5; [|done].
  apply str_eqb_eq in E5. rewrite E5. destruct pts as [|[lat lon] [|]]; try done. intros [= <-]. eexists. split; [done|].
  constructor.
Qed.

(** The condition for a relation and a geometry. *)
Definition relation_query (g : Georel) (geo : doc) : doc :=
  let t := georel_type g in
  let in_geometry := BsonObj [("$geometry", BsonObj geo)] in
  if t =s "near" then
    [("$near", BsonObj ([("$geometry", BsonObj geo)]
       ++ (if not_negative (maxDistance g) then [("$maxDistance", BsonNumber (maxDistance g))] else [])
       ++ (if not_negative (minDistance g) then [("$minDistance", BsonNumber (minDistance g))] else [])))]
  else if t =s "coveredBy" then [("$geoWithin", in_geometry)]
  else if t =s "intersects" then [("$geoIntersects", in_geometry)]
  else if t =s "disjoint" then [exists_; ("$not", BsonObj [("$geoIntersects", in_geometry)])]
  else geo.

Lemma scope_fill_parts geometryString coordsString georelString sc :
  scope_fill "v2" geometryString coordsString georelString = Ret (inr sc) ->
  exists g pts geo, geometry_parse "v2" geometryString = Ret (inr g) /\
    Forall2 point_text (stringSplit coordsString ";").2 pts /\
    area_geometry (gs_area sc) = Some geo /\ geojson (geometry_areaType g) pts geo /\
    (if georelString =s "" then inr (mkGeorel "" no_distance no_distance) else georel_parse georelString)
      = inr (gs_georel sc) /\
    (georel_type (gs_georel sc) = "near" -> geometry_areaType g = "point") /\
    (georel_type (gs_georel sc) = "coveredBy" -> geometry_areaType g = "polygon" \/ geometry_areaType g = "box").
Proof.
  unfold scope_fill. destruct (geometry_parse _ _) as [[e|g]| |]; try done. cbn [mbind cpp_bind]. intros H.
  destruct (if georelString =s "" then _ else _) as [e|georel]; [done|].
  destruct ((geometry_areaType g =s "line") && (georel_type georel =s "coveredBy")) eqn:E1; [done|].
  destruct ((geometry_areaType g =s "point") && (georel_type georel =s "coveredBy")) eqn:E2; [done|].
  destruct (negb (geometry_areaType g =s "point") && (georel_type georel =s "near")) eqn:E3; [done|].
  destruct (coordsString =s ""); [done|]. destruct (stringSplit coordsString ";") as [n items]. cbn [snd].
  destruct (n =? 0); [done|]. destruct (read_points items) as [e|pts] eqn:Ep; [done|].
  destruct (area_of "v2" g pts) as [e|area] eqn:Ea; [done|]. injection H as <-. cbn [gs_georel gs_area].
  apply area_of_v2 in Ea as (geo & Hgeo & Hj). apply read_points_texts in Ep.
  exists g, pts, geo. split_and!; try done.
  - intros Hn. rewrite Hn in E3. cbn in E3. rewrite andb_true_r in E3. by apply negb_false_iff, str_eqb_eq in E3.
  - intros Hn. rewrite Hn in E1, E2. cbn in E1, E2. rewrite andb_true_r in E1, E2. apply str_eqb_neq in E1, E2.
    inversion Hj; subst; auto; congruence.
Qed.

(** C34. A geographical query of NGSIv2 with a relation, when it is accepted, names exactly one kind of
    area, gives its points as the items "latitude,longitude" of its coordinates, and one relation with,
    for "near" and only for it, distances.  A database with geographical queries (MongoDB 2.4) is then
    asked, by the operator of the relation, with the GeoJSON geometry of those points, longitude first:
    a point, a line, the closed ring given, or for a box the ring of its corners, which does not
    cross itself; "near" comes only with a point, "coveredBy" only with a polygon or box.  An older
    database gets no geographical condition.  What the code does not check: that coordinates are on the
    earth, that a ring given as a polygon does not cross itself, and that a distance is not negative
    (no bound then), as the examples that follow show. *)
Theorem scope_restricts geometryString coordsString georelString sc capable :
  scope_fill "v2" geometryString coordsString georelString = Ret (inr sc) -> georelString <> "" ->
  exists kind pts geo,
    List.filter v2_area (stringSplit geometryString ";").2 = [kind] /\
    Forall2 point_text (stringSplit coordsString ";").2 pts /\
    geojson kind pts geo /\
    georel_wf (stringSplit georelString ";").2 (gs_georel sc) /\
    processAreaScopeV2 capable sc = (if capable then Some (relation_query (gs_georel sc) geo) else None) /\
    (georel_type (gs_georel sc) = "near" -> kind = "point") /\
    (georel_type (gs_georel sc) = "coveredBy" -> kind = "polygon" \/ kind = "box").
Proof.
  intros (g & pts & geo & Hp & Hpts & Hgeo & Hj & Hg & Hnear & Hcov)%scope_fill_parts Hne%str_eqb_neq.
  rewrite Hne in Hg. apply georel_parse_wf in Hg.
  exists (geometry_areaType g), pts, geo. split_and!; try done.
  { apply geometry_parse_type; [done|]. by inversion Hj. }
  assert (is_georel (georel_type (gs_georel sc)) = true) as Ht.
  { pose proof (gw_type _ _ Hg) as Hf.
    assert (In (georel_type (gs_georel sc)) (List.filter is_georel (stringSplit georelString ";").2)) as Hin
      by (rewrite Hf; by left).
    by apply List.filter_In in Hin as [_ ?]. }
  unfold processAreaScopeV2, relation_query. rewrite Hgeo. destruct capable; [|done]. cbn [negb].
  destruct (georel_type _ =s "near") eqn:F1; [done|]. destruct (georel_type _ =s "coveredBy") eqn:F2; [done|].
  destruct (georel_type _ =s "intersects") eqn:F3; [done|]. destruct (georel_type _ =s "disjoint") eqn:F4; [done|].
  unfold is_georel in Ht. cbn in Ht. rewrite F1, F2, F3, F4, orb_false_r in Ht. cbn [orb] in Ht. by rewrite Ht.
Qed.

(** Without a relation the area of such a query is checked and then ignored. *)
Theorem no_georel_ignored geometryString coordsString sc capable :
  scope_fill "v2" geometryString coordsString "" = Ret (inr sc) -> processAreaScopeV2 capable sc = None.
Proof.
  intros (g & pts & geo & _ & _ & Hgeo & _ & Hg & _)%scope_fill_parts. injection Hg as Hg.
  unfold processAreaScopeV2. rewrite Hgeo, <- Hg. by destruct capable.
Qed.

(** The query for a box, given by its southeast and northwest corners. *)
Example box_asked : exists sc, scope_fill "v2" "box" "1,20;3,10" "coveredBy" = Ret (inr sc) /\
  processAreaScopeV2 true sc
    = Some [("$geoWithin", BsonObj [("$geometry", BsonObj [("type", BsonString "Polygon"); ("coordinates",
        BsonArray [BsonArray ((fun p => BsonArray [BsonNumber (double_of_Z p.1); BsonNumber (double_of_Z p.2)])
          <$> [(10, 1); (20, 1); (20, 3); (10, 3); (10, 1)])])])])].
Proof. eexists. split; vm_compute; reflexivity. Qed.

(** The polygon of a query may cross itself, which the documentation of the API calls invalid for
    the location of an entity. *)
Example crossing_polygon_accepted : exists sc,
  scope_fill "v2" "polygon" "0,0;0,2;2,0;2,2;0,0" "coveredBy" = Ret (inr sc) /\ gs_area sc <> NoArea.
Proof. eexists. split; [vm_compute; reflexivity|discriminate]. Qed.

(** An item "radius" with nothing after it is read past its end. *)
Example radius_read_after_end : exists w, geometry_parse "v1" "circle;radius" = UB w.
Proof. eexists. vm_compute. reflexivity. Qed.

(** Unlike the location of an attribute, the points of a query have no range. *)
Example out_of_range_accepted : exists sc, scope_fill "v2" "point" "1000,0" "near;maxDistance:1" = Ret (inr sc).
Proof. eexists. vm_compute. reflexivity. Qed.

(** A negative distance is accepted, and leaves the query without bound. *)
Example negative_distance_unbounded : exists sc,
  scope_fill "v2" "point" "1,2" "near;maxDistance:-1" = Ret (inr sc) /\
  processAreaScopeV2 true sc
    = Some [("$near", BsonObj [("$geometry", BsonObj (geometry "Point" (position (double_of_Z 2) (double_of_Z 1))))])].
Proof. eexists. split; vm_compute; reflexivity. Qed.

Lemma scope_restricts_witness : exists sc kind pts geo,
  scope_fill "v2" "box" "1,20;3,10" "coveredBy" = Ret (inr sc) /\ geojson kind pts geo /\ kind = "box" /\
  pts = [(double_of_Z 1, double_of_Z 20); (double_of_Z 3, double_of_Z 10)] /\
  processAreaScopeV2 true sc = Some [("$geoWithin", BsonObj [("$geometry", BsonObj geo)])].
Proof.
  destruct (scope_fill "v2" "box" "1,20;3,10" "coveredBy") as [[e|sc]| |] eqn:E;
    [vm_compute in E; discriminate E| |vm_compute in E; discriminate E|vm_compute in E; discriminate E].
  destruct (scope_restricts "box" "1,20;3,10" "coveredBy" sc true E ltac:(discriminate))
    as (kind & pts & geo & Hk & Hp & Hj & _ & Hq & _ & _).
  assert (georel_type (gs_georel sc) = "coveredBy") as Ht by (vm_compute in E; injection E as <-; reflexivity).
  exists sc, kind, pts, geo. split; [reflexivity|]. split; [exact Hj|]. split; [vm_compute in Hk; congruence|].
  split.
  { assert ((stringSplit "1,20;3,10" ";").2 = ["1,20"; "3,10"]) as Es by (vm_compute; reflexivity). rewrite Es in Hp.
    destruct (Forall2_cons_inv_l _ _ _ _ Hp) as ([a b] & l & (x1 & x2 & H1 & H2 & H3) & Hr & ->).
    destruct (Forall2_cons_inv_l _ _ _ _ Hr) as ([c d] & l' & (y1 & y2 & K1 & K2 & K3) & Hn & ->).
    apply Forall2_nil_inv_l in Hn as ->. vm_compute in H1, K1. injection H1 as <- <-. injection K1 as <- <-.
    vm_compute in H2, H3, K2, K3. injection H2 as <-. injection H3 as <-. injection K2 as <-. injection K3 as <-.
    vm_compute. reflexivity. }
  rewrite Hq. unfold relation_query. rewrite Ht. reflexivity.
Defined.

Lemma no_georel_ignored_witness : exists sc,
  scope_fill "v2" "point" "1,2" "" = Ret (inr sc) /\ processAreaScopeV2 true sc = None.
Proof.
  destruct (scope_fill "v2" "point" "1,2" "") as [[e|sc]| |] eqn:E;
    [vm_compute in E; discriminate E| |vm_compute in E; discriminate E|vm_compute in E; discriminate E].
  exists sc. split; [reflexivity|]. exact (no_georel_ignored "point" "1,2" sc true E).
Defined.
