(* ===== verification/Queries.v ===== *)
(** * Service paths in queries

    slashEscape and fillQueryServicePath of mongoBackend/MongoGlobal.cpp: the $in condition
    on the service path that every query for entities and registrations has, as the JSON
    text given to the driver's fromjson.  The condition is a list of regular expressions,
    which [PathPattern] lists; they select the service paths that the subscription cache
    selects (SubCache.path_selects). *)

From S2P Require Import Prelude Strings SubCache.

(** ** The text *)

Definition SERVICE_PATH_MAX_TOTAL : nat := ((50 + 1) * 10 + 2) * 10.

(** The loop of slashEscape: [to] is what it has written, None before its first character. *)
Fixpoint slashEscape_loop (from : string) (toLen ix : nat) (to : option string) : option string :=
  match from with
  | "" => to
  | String c from' =>
      if (toLen - 2 <=? ix)%nat then to
      else let w := if c =c "/"%char then backslash +:+ str1 c else str1 c in
           slashEscape_loop from' toLen (ix + String.length w) (Some (default "" to +:+ w))
  end.

(** What the function leaves in [to]; None when it has not ended it with a zero byte. *)
Definition slashEscape (from : string) (toLen : nat) : option string :=
  let slashes := length (List.filter (fun c => c =c "/"%char) (String.list_ascii_of_string from)) in
  if (toLen <? String.length from + slashes + 1)%nat
  then if (toLen <? 6)%nat then None else Some "ERROR"
  else slashEscape_loop from toLen 0 None.

(** The regular expressions of one service path. *)
Definition path_text (servicePath : string) : cpp string :=
  match slashEscape (c_str servicePath) (SERVICE_PATH_MAX_TOTAL * 2) with
  | None => UB "read of a buffer that was not written"
  | Some path =>
      match last_char path with
      | None => UB "path[strlen(path) - 1] of an empty path"
      | Some c =>
          if c =c "#"%char then
            let l := String.length path in
            if (l <? 3)%nat then UB "path[l - 3] before the buffer"
            else let path := str_take (l - 3) path in
                 Ret ("/^" +:+ path +:+ "$/, /^" +:+ path +:+ backslash +:+ "/.*/")
          else Ret ("/^" +:+ path +:+ "$/")
      end
  end.

Definition is_root (servicePath : string) : bool := (servicePath =s "/") || (servicePath =s "/#").

Fixpoint fillQueryServicePath_loop (servicePath : list string) (nullAdded : bool) : cpp string :=
  match servicePath with
  | [] => Ret ""
  | p :: servicePath' =>
      let addNull := negb nullAdded && is_root p in
      t ← path_text p;
      r ← fillQueryServicePath_loop servicePath' (addNull || nullAdded);
      Ret ((if addNull then "null, " else "") +:+ t +:+ (match servicePath' with [] => "" | _ => ", " end) +:+ r)
  end.

(** The text that fillQueryServicePath gives to fromjson. *)
Definition fillQueryServicePath (servicePath : list string) : cpp string :=
  p ← vec_at servicePath 0;
  if p =s "" then Ret ("{$in: [ /^" +:+ backslash +:+ "/.*/, null] }")
  else r ← fillQueryServicePath_loop servicePath false; Ret ("{ $in: [ " +:+ r +:+ " ] }").

(** ** What it selects *)

(** The regular expressions, for service paths without special characters: /^p$/ and
    /^p\/.*/; and null, for the documents without service path. *)
Inductive PathPattern := PathNull | PathExact (p : string) | PathBelow (p : string).

Fixpoint slash_escaped (s : string) : string :=
  match s with
  | "" => ""
  | String c s' => (if c =c "/"%char then backslash +:+ str1 c else str1 c) +:+ slash_escaped s'
  end.

Definition pattern_text (x : PathPattern) : string :=
  match x with
  | PathNull => "null"
  | PathExact p => "/^" +:+ slash_escaped p +:+ "$/"
  | PathBelow p => "/^" +:+ slash_escaped p +:+ backslash +:+ "/.*/"
  end.

Definition pattern_matches (x : PathPattern) (sp : option string) : bool :=
  match x, sp with
  | PathNull, None => true
  | PathExact p, Some sp => sp =s p
  | PathBelow p, Some sp => String.prefix (p +:+ "/") sp
  | _, _ => false
  end.

(** The patterns of a service path; a wildcard path ends in "/#". *)
Definition path_patterns (p : string) : list PathPattern :=
  match last_char p with
  | Some c => if c =c "#"%char then [PathExact (but_last (but_last p)); PathBelow (but_last (but_last p))]
              else [PathExact p]
  | None => []
  end.

Fixpoint query_patterns (nullAdded : bool) (servicePath : list string) : list PathPattern :=
  match servicePath with
  | [] => []
  | p :: servicePath' =>
      (if negb nullAdded && is_root p then [PathNull] else []) ++ path_patterns p
      ++ query_patterns (negb nullAdded && is_root p || nullAdded) servicePath'
  end.

(** Service paths as servicePathCheck lets them through: not empty, short, without NUL, and
    with a '#' at the end only as "/#". *)
Definition wildcard_ok (p : string) : Prop := last_char p = Some "#"%char -> exists b, p = b +:+ "/#".

Definition query_path (p : string) : Prop :=
  p <> "" /\ free_of NUL p = true /\ (2 * String.length p + 1 < SERVICE_PATH_MAX_TOTAL * 2)%nat /\ wildcard_ok p.

Lemma length_escaped_char c :
  String.length (if c =c "/"%char then backslash +:+ str1 c else str1 c) = if c =c "/"%char then 2%nat else 1%nat.
Proof. by destruct (c =c "/"%char). Qed.

Lemma length_escaped s : (String.length s <= String.length (slash_escaped s) <= 2 * String.length s)%nat.
Proof.
  induction s as [|c s IH]; [cbn; lia|]. cbn [slash_escaped String.length]. rewrite length_app_str, length_escaped_char.
  destruct (c =c "/"%char); lia.
Qed.

Lemma escaped_slashes s : String.length (slash_escaped s)
  = (String.length s + length (List.filter (fun c => c =c "/"%char) (String.list_ascii_of_string s)))%nat.
Proof.
  induction s as [|c s IH]; [done|]. cbn [slash_escaped String.length String.list_ascii_of_string List.filter].
  rewrite length_app_str, length_escaped_char, IH. destruct (c =c "/"%char); cbn [length]; lia.
Qed.

Lemma escaped_app s t : slash_escaped (s +:+ t) = slash_escaped s +:+ slash_escaped t.
Proof.
  induction s as [|c s IH]; [done|]. rewrite app_cons_str. cbn [slash_escaped]. by rewrite IH, app_assoc_str.
Qed.

Lemma escape_loop_all s : forall toLen ix to,
  (ix + String.length (slash_escaped s) + 1 < toLen)%nat -> s <> "" ->
  slashEscape_loop s toLen ix to = Some (default "" to +:+ slash_escaped s).
Proof.
  induction s as [|c s IH]; intros toLen ix to H Hne; [done|]. cbn [slashEscape_loop slash_escaped] in *.
  rewrite length_app_str in H. set (w := if c =c "/"%char then backslash +:+ str1 c else str1 c) in *.
  assert (1 <= String.length w)%nat as Hw 
    by (unfold w; rewrite length_escaped_char; destruct (c =c "/"%char); lia).
  destruct (toLen - 2 <=? ix)%nat eqn:E; [apply Nat.leb_le in E; lia|].
  destruct s as [|d s].
  - cbn. by rewrite app_nil_r_str.
  - rewrite IH by (done || lia). cbn [default from_option id]. by rewrite app_assoc_str.
Qed.

Lemma slashEscape_fits s toLen : s <> "" -> (String.length (slash_escaped s) + 1 < toLen)%nat ->
  slashEscape s toLen = Some (slash_escaped s).
Proof.
  intros Hne H. unfold slashEscape. rewrite <- escaped_slashes.
  destruct (_ <? _)%nat eqn:E; [apply Nat.ltb_lt in E; lia|].
  rewrite escape_loop_all; [done| |done]. lia.
Qed.

(** slashEscape escapes every '/' when the escaped text and its terminator leave at least
    one byte of the buffer free, and writes "ERROR" when they do not fit.  When they fit
    exactly, the test in the loop drops a last character that is not a '/'. *)
Theorem slashEscape_spec s toLen : s <> "" -> (6 <= toLen)%nat ->
  let n := (String.length (slash_escaped s) + 1)%nat in
  ((n < toLen)%nat -> slashEscape s toLen = Some (slash_escaped s)) /\
  ((toLen < n)%nat -> slashEscape s toLen = Some "ERROR") /\
  (forall t c, s = t +:+ str1 c -> t <> "" -> c <> "/"%char -> toLen = n ->
     slashEscape s toLen = Some (slash_escaped t)).
Proof.
  intros Hne Hlen n. split; [by apply slashEscape_fits|].
  unfold slashEscape. rewrite <- escaped_slashes. fold n. split.
  - intros H. destruct (toLen <? n)%nat eqn:E; [|apply Nat.ltb_ge in E; lia].
    destruct (toLen <? 6)%nat eqn:E6; [apply Nat.ltb_lt in E6; lia|done].
  - intros t c -> Ht Hc ->. rewrite Nat.ltb_irrefl. unfold n. clear n Hlen Hne.
    rewrite escaped_app, length_app_str.
    assert (String.length (slash_escaped (str1 c)) = 1%nat) as ->
      by (cbn [slash_escaped str1]; apply char_eqb_neq in Hc; by rewrite Hc).
    assert (forall toLen ix to, toLen = (ix + String.length (slash_escaped t) + 2)%nat ->
      slashEscape_loop (t +:+ str1 c) toLen ix to = Some (default "" to +:+ slash_escaped t)) as H.
    { induction t as [|d t IH]; [done|]. intros toLen ix to ->. rewrite app_cons_str.
      cbn [slashEscape_loop slash_escaped]. rewrite length_app_str.
      set (w := if d =c "/"%char then backslash +:+ str1 d else str1 d).
      assert (1 <= String.length w)%nat as Hw 
        by (unfold w; rewrite length_escaped_char; destruct (d =c "/"%char); lia).
      destruct (_ - 2 <=? ix)%nat eqn:E; [apply Nat.leb_le in E; lia|].
      destruct t as [|e t].
      - rewrite app_nil_l_str. cbn [slash_escaped slashEscape_loop str1 String.length].
        destruct (_ - 2 <=? ix + String.length w)%nat eqn:E2; [|apply Nat.leb_gt in E2; lia].
        cbn [default from_option id]. by rewrite app_nil_r_str.
      - rewrite IH; [cbn [default from_option id]; by rewrite app_assoc_str|done|lia]. }
    rewrite H; [done|]. cbn. lia.
Qed.

(** ** The patterns of a query *)

Lemma snoc2_str b : b +:+ "/#" = (b +:+ str1 "/") +:+ str1 "#".
Proof. by rewrite app_assoc_str. Qed.

Lemma path_patterns_wildcard b : path_patterns (b +:+ "/#") = [PathExact b; PathBelow b].
Proof. unfold path_patterns. by rewrite snoc2_str, last_char_app, !but_last_app. Qed.

Lemma path_patterns_plain p c : last_char p = Some c -> c <> "#"%char -> path_patterns p = [PathExact p].
Proof. unfold path_patterns. intros ->. by intros ->%char_eqb_neq. Qed.

(** A service path of a query is a wildcard or ends in another character than '#'. *)
Lemma query_path_cases p : query_path p ->
  (exists b, p = b +:+ "/#") \/ (exists c, last_char p = Some c /\ c <> "#"%char).
Proof.
  intros (Hne & _ & _ & Hw). destruct (last_char p) as [c|] eqn:E.
  - destruct (decide (c = "#"%char)) as [->|Hc]; [left; by apply Hw|right; by exists c].
  - by apply last_char_None in E.
Qed.

Lemma path_text_patterns p : query_path p -> path_text p = Ret (join ", " (pattern_text <$> path_patterns p)).
Proof.
  intros Hq. pose proof (query_path_cases p Hq) as Hc. destruct Hq as (Hne & Hnul & Hlen & _).
  unfold path_text. rewrite (c_str_id p) by done.
  rewrite slashEscape_fits; [|done|pose proof (length_escaped p); lia].
  destruct Hc as [[b ->]|(c & Hl & Hc)].
  - rewrite path_patterns_wildcard, snoc2_str, !escaped_app.
    change (slash_escaped (str1 "#")) with (str1 "#"). change (slash_escaped (str1 "/")) with (backslash +:+ str1 "/").
    rewrite last_char_app, char_eqb_refl. cbv zeta.
    rewrite !length_app_str. cbn [String.length str1].
    change (String.length backslash) with 1%nat.
    destruct (_ <? 3)%nat eqn:E; [apply Nat.ltb_lt in E; lia|].
    replace (_ - 3)%nat with (String.length (slash_escaped b)) by lia.
    rewrite app_assoc_str, str_take_app. cbn [fmap list_fmap join pattern_text]. by rewrite !app_assoc_str.
  - rewrite (path_patterns_plain p c) by done.
    pose proof (snoc_str _ _ Hl) as Hs. rewrite Hs, escaped_app.
    assert (last_char (slash_escaped (but_last p) +:+ slash_escaped (str1 c)) = Some c) as H.
    { cbn [slash_escaped str1]. rewrite app_nil_r_str. change (String c "") with (str1 c).
      destruct (c =c "/"%char); [|apply last_char_app]. rewrite <- app_assoc_str. apply last_char_app. }
    rewrite H. apply char_eqb_neq in Hc. rewrite Hc. cbn [fmap list_fmap join pattern_text].
    by rewrite escaped_app.
Qed.

Lemma join_app d l1 l2 : l1 <> [] -> l2 <> [] -> join d (l1 ++ l2) = join d l1 +:+ d +:+ join d l2.
Proof.
  intros H1 H2. induction l1 as [|x l1 IH]; [done|]. destruct l1 as [|y l1].
  - cbn [app join]. by destruct l2.
  - change (join d ((x :: y :: l1) ++ l2)) with (x +:+ d +:+ join d ((y :: l1) ++ l2)).
    rewrite IH by done. change (join d (x :: y :: l1)) with (x +:+ d +:+ join d (y :: l1)). by rewrite !app_assoc_str.
Qed.

Lemma path_patterns_nonempty p : query_path p -> pattern_text <$> path_patterns p <> [].
Proof.
  intros H. destruct (query_path_cases p H) as [[b ->]|(c & Hl & Hc)].
  - by rewrite path_patterns_wildcard.
  - by rewrite (path_patterns_plain _ _ Hl Hc).
Qed.

Lemma query_patterns_nonempty na p v : query_path p -> pattern_text <$> query_patterns na (p :: v) <> [].
Proof.
  intros H. cbn [query_patterns]. rewrite !fmap_app. pose proof (path_patterns_nonempty p H) as Hn.
  destruct (pattern_text <$> path_patterns p); [done|]. by destruct (negb na && is_root p).
Qed.

Lemma fillQueryServicePath_loop_text v : forall na, Forall query_path v ->
  fillQueryServicePath_loop v na = Ret (join ", " (pattern_text <$> query_patterns na v)).
Proof.
  induction v as [|p v IH]; intros na H; [done|]. inversion_clear H as [|? ? Hp Hv].
  cbn [fillQueryServicePath_loop query_patterns]. rewrite path_text_patterns by done. cbn [mbind cpp_bind].
  rewrite IH by done. cbn [mbind cpp_bind]. f_equal. rewrite !fmap_app.
  pose proof (path_patterns_nonempty p Hp) as Hn.
  assert (forall l, l <> [] -> join ", " (l ++ (pattern_text <$> query_patterns (negb na && is_root p || na) v))
    = join ", " l +:+ (match v with [] => "" | _ => ", " end)
      +:+ join ", " (pattern_text <$> query_patterns (negb na && is_root p || na) v)) as Hv'.
  { intros l Hl. destruct v as [|q v]; [cbn; by rewrite app_nil_r, !app_nil_r_str|].
    inversion_clear Hv. apply join_app; [done|by apply query_patterns_nonempty]. }
  rewrite <- Hv' by done. destruct (negb na && is_root p); cbn [fmap list_fmap pattern_text app].
  - destruct ((pattern_text <$> path_patterns p) ++ _) eqn:E; [apply app_eq_nil in E as [E _]; congruence|].
    reflexivity.
  - by rewrite app_nil_l_str.
Qed.

Lemma wildcard_matches b sp : sp <> "" -> sp <> "/#" ->
  existsb (fun x => pattern_matches x (Some sp)) [PathExact b; PathBelow b] = path_selects (b +:+ "/#") sp.
Proof.
  intros H1 H2. unfold path_selects. apply str_eqb_neq in H1 as ->. apply str_eqb_neq in H2 as ->.
  cbn [orb]. rewrite snoc2_str, last_char_app, char_eqb_refl, but_last_app. change "/"%string with (str1 "/").
  rewrite str_eqb_snoc. cbn. by rewrite orb_false_r.
Qed.

Lemma path_patterns_matches p sp : query_path p -> sp <> "" -> sp <> "/#" ->
  existsb (fun x => pattern_matches x (Some sp)) (path_patterns p) = path_selects p sp.
Proof.
  intros H H1 H2. destruct (query_path_cases p H) as [[b ->]|(c & Hl & Hc)].
  - rewrite path_patterns_wildcard. by apply wildcard_matches.
  - rewrite (path_patterns_plain _ _ Hl Hc). unfold path_selects. rewrite Hl.
    apply char_eqb_neq in Hc as ->. apply str_eqb_neq in H1 as ->. apply str_eqb_neq in H2 as ->.
    cbn. by rewrite orb_false_r.
Qed.

Lemma path_patterns_null p : existsb (fun x => pattern_matches x None) (path_patterns p) = false.
Proof. unfold path_patterns. destruct (last_char p) as [c|]; [|done]. by destruct (c =c "#"%char). Qed.

Lemma query_patterns_null na v :
  existsb (fun x => pattern_matches x None) (query_patterns na v) = negb na && existsb is_root v.
Proof.
  revert na. induction v as [|p v IH]; intros na; cbn [query_patterns existsb]; [by rewrite andb_false_r|].
  rewrite !existsb_app, path_patterns_null, IH. destruct na, (is_root p); done.
Qed.

(** For service paths as servicePathCheck lets them through, the condition that
    fillQueryServicePath builds has a pattern for each of them and selects the documents
    whose service path the subscription cache would select for one of them, and the
    documents without service path exactly when the root path is asked for. *)
Theorem fillQueryServicePath_selects v : v <> [] -> Forall query_path v ->
  fillQueryServicePath v
    = Ret ("{ $in: [ " +:+ join ", " (pattern_text <$> query_patterns false v) +:+ " ] }") /\
  (forall sp, sp <> "" -> sp <> "/#" ->
     existsb (fun x => pattern_matches x (Some sp)) (query_patterns false v) = existsb (fun p => path_selects p sp) v) /\
  existsb (fun x => pattern_matches x None) (query_patterns false v) = existsb is_root v.
Proof.
  intros Hne Hv. split_and!.
  - unfold fillQueryServicePath. destruct v as [|p v]; [done|]. cbn [vec_at lookup list_lookup mbind cpp_bind].
    inversion Hv as [|? ? Hp _]; subst. destruct Hp as (Hp & _). apply str_eqb_neq in Hp as ->.
    by rewrite fillQueryServicePath_loop_text by done.
  - intros sp H1 H2. generalize false as na. clear Hne. induction Hv as [|p v Hp _ IH]; intros na; [done|].
    cbn [query_patterns existsb]. rewrite !existsb_app, IH, path_patterns_matches by done.
    by destruct (negb na && is_root p).
  - by rewrite query_patterns_null.
Qed.

(** ** Witnesses *)

Lemma slashEscape_spec_witness : slashEscape "/a" 10 = Some (backslash +:+ "/a").
Proof. exact (proj1 (slashEscape_spec "/a" 10 ltac:(discriminate) ltac:(lia))
  ltac:(apply Nat.ltb_lt; vm_compute; reflexivity)). Defined.

Lemma fillQueryServicePath_selects_witness :
  existsb (fun x => pattern_matches x (Some "/a/b")) (query_patterns false ["/a/#"; "/c"]) = true.
Proof.
  destruct (fillQueryServicePath_selects ["/a/#"; "/c"]) as (_ & H & _); [discriminate| |].
  - repeat constructor; try discriminate; try (apply Nat.ltb_lt; vm_compute; reflexivity).
    + intros _. by exists "/a".
  - rewrite H by discriminate. reflexivity.
Defined.
