(* ===== verification/SubSync.v ===== *)
(** * Refreshing and synchronizing the subscription cache

    mongoBackend/mongoSubCache.cpp (filling the cache from the database, writing counts
    and notification times back), the refresh and synchronization of cache/subCache.cpp,
    the database names of mongoBackend/MongoGlobal.cpp and common/RenderFormat.cpp.  A
    subscription document is given by what the code reads from it, a field that is
    missing as None; the results of the database queries are parameters, the updates
    sent to the database are values. *)

From S2P Require Import Prelude Strings Double Compound Bson Ngsi FilterParse FilterMatch SubCache.

Open Scope Z_scope.

(** ** Render formats and database names *)

Definition DEFAULT_RENDER_FORMAT : RenderFormat := NGSI_V2_NORMALIZED.

Definition renderFormatToString (format : RenderFormat) (noDefault : bool) : string :=
  match format with
  | NGSI_V1_LEGACY => "JSON"
  | NGSI_V2_NORMALIZED => "normalized"
  | NGSI_V2_KEYVALUES => "keyValues"
  | NGSI_V2_VALUES => "values"
  | NGSI_V2_UNIQUE_VALUES => "uniqueValues"
  | NO_FORMAT => if noDefault then "no render format" else "JSON"
  end.

Definition stringToRenderFormat (s : string) (noDefault : bool) : RenderFormat :=
  if s =s "JSON" then NGSI_V1_LEGACY
  else if s =s "legacy" then NGSI_V1_LEGACY
  else if s =s "normalized" then NGSI_V2_NORMALIZED
  else if s =s "keyValues" then NGSI_V2_KEYVALUES
  else if s =s "values" then NGSI_V2_VALUES
  else if s =s "uniqueValues" then NGSI_V2_UNIQUE_VALUES
  else if noDefault then NO_FORMAT else DEFAULT_RENDER_FORMAT.

Definition SERVICE_NAME_MAX_LEN : nat := 50.

Definition composeDatabaseName (multitenant : bool) (dbPrefix tenant : string) : string :=
  if negb multitenant || (tenant =s "") then dbPrefix else dbPrefix +:+ "-" +:+ tenant.

Definition composeCollectionName (multitenant : bool) (dbPrefix tenant colName : string) : string :=
  composeDatabaseName multitenant dbPrefix tenant +:+ "." +:+ colName.

(** strncpy into an array of SERVICE_NAME_MAX_LEN bytes: a longer text is left without
    a terminator, and the string made from the array runs past it. *)
Definition tenantFromDb (dbPrefix database : string) : cpp string :=
  let prefix := dbPrefix +:+ "-" in
  if strncmp_eq (c_str prefix) (c_str database) (String.length (c_str prefix)) then
    let rest := str_drop (String.length (c_str prefix)) (c_str database) in
    if (String.length rest <? SERVICE_NAME_MAX_LEN)%nat then Ret rest
    else UB "tenant array without terminator"
  else Ret "".

(** The databases of the listing that belong to the broker. *)
Definition getOrionDatabases (dbPrefix : string) (names : list string) : list string :=
  List.filter (fun dbName => let prefix := dbPrefix +:+ "-" in
    strncmp_eq (c_str prefix) (c_str dbName) (String.length (c_str prefix))) names.

(** ** Subscription documents *)

Record EntityDoc := mkEntityDoc {
  ed_id : option string;
  ed_isPattern : option string;
  ed_type : option string
}.

Record ConditionDoc := mkConditionDoc {
  cd_type : string;
  cd_value : list string
}.

Record SubDoc := mkSubDoc {
  sd_id : option string;
  sd_format : option string;
  sd_entities : list EntityDoc;
  sd_attrs : list string;
  sd_conditions : list ConditionDoc;
  sd_servicePath : option string;
  sd_reference : option string;
  sd_throttling : option Z;
  sd_expiration : option Z;
  sd_lastNotification : option Z;
  sd_status : option string
}.

(** The EntityInfo vector: entities without an id are skipped. *)
Fixpoint entityInfos_of (eVec : list EntityDoc) : list EntityInfo :=
  match eVec with
  | [] => []
  | e :: eVec' =>
      match ed_id e with
      | None => entityInfos_of eVec'
      | Some id =>
          EntityInfo_new id (default "" (ed_type e)) (default "false" (ed_isPattern e))
          :: entityInfos_of eVec'
      end
  end.

(** The ONCHANGE conditions. *)
Fixpoint conditions_of (condVec : list ConditionDoc) : list NotifyCondition :=
  match condVec with
  | [] => []
  | c :: condVec' =>
      if negb (cd_type c =s ON_CHANGE_CONDITION) then conditions_of condVec'
      else mkNotifyCondition (cd_type c) (cd_value c) :: conditions_of condVec'
  end.

Definition no_expression : SubscriptionExpression :=
  mkExpression "" "" "" "" (mkStringFilter [] []) false.

(** mongoSubCacheItemInsert(tenant, sub), used when the cache is refreshed: its return
    value and the subscription it builds when that is 0. *)
Definition sub_from_doc (tenant : string) (sub : SubDoc) : Z * option CachedSubscription :=
  match sd_id sub with
  | None => (-1, None)
  | Some id =>
      let infos := entityInfos_of (sd_entities sub) in
      let ncv := conditions_of (sd_conditions sub) in
      if (length infos =? 0)%nat then (-3, None)
      else if (length ncv =? 0)%nat then (-4, None)
      else
        (0, Some (mkCachedSubscription infos (sd_attrs sub) ncv
               (Some (c_str tenant))
               (Some (c_str (default "/" (sd_servicePath sub))))
               (Some id)
               (default (-1) (sd_throttling sub))
               (default 0 (sd_expiration sub))
               (default (-1) (sd_lastNotification sub))
               (c_str (default "active" (sd_status sub)))
               0
               (stringToRenderFormat (default "legacy" (sd_format sub)) false)
               (Some (c_str (default "NO REF" (sd_reference sub))))
               no_expression))
  end.

Definition mongoSubCacheItemInsert (c : SubCache) (tenant : string) (sub : SubDoc) : cpp (Z * SubCache) :=
  match sub_from_doc tenant sub with
  | (r, None) => Ret (r, c)
  | (r, Some cs) => let '(c, l) := alloc c cs in c ← subCacheItemInsert c l; Ret (r, c)
  end.

(** The second mongoSubCacheItemInsert, used when a subscription is updated. *)
Record SubUpdate := mkSubUpdate {
  su_subscriptionId : option string;
  su_servicePath : option string;
  su_lastNotificationTime : Z;
  su_expirationTime : Z;
  su_status : string;
  su_q : string;
  su_geometry : string;
  su_coords : string;
  su_georel : string;
  su_stringFilterP : option StringFilter;
  su_renderFormat : RenderFormat
}.

Definition sub_from_update (regcomp : string -> bool) (tenant : string) (sub : SubDoc) (u : SubUpdate)
    : Z * option CachedSubscription :=
  if no_tenant (su_subscriptionId u) then (-1, None)
  else if no_tenant (su_servicePath u) then (-2, None)
  else
    let infos := entityInfos_of (sd_entities sub) in
    let ncv := conditions_of (sd_conditions sub) in
    if (length infos =? 0)%nat then (-4, None)
    else
      let lnt :=
        match sd_lastNotification sub with
        | Some t => if su_lastNotificationTime u =? -1 then int32 t else su_lastNotificationTime u
        | None => su_lastNotificationTime u
        end in
      if (length ncv =? 0)%nat then (-5, None)
      else
        (0, Some (mkCachedSubscription infos (sd_attrs sub) ncv
               (if tenant =s "" then None else Some tenant)
               (su_servicePath u) (su_subscriptionId u)
               (default (-1) (sd_throttling sub))
               (su_expirationTime u) lnt (su_status u) 0 (su_renderFormat u)
               (Some (c_str (default "NO REF" (sd_reference sub))))
               (mkExpression (su_q u) (su_geometry u) (su_coords u) (su_georel u)
                  (filled_filter regcomp (su_stringFilterP u)) false))).

Definition mongoSubCacheItemInsert_update (regcomp : string -> bool) (c : SubCache) (tenant : string)
    (sub : SubDoc) (u : SubUpdate) : cpp (Z * SubCache) :=
  match sub_from_update regcomp tenant sub u with
  | (r, None) => Ret (r, c)
  | (r, Some cs) => let '(c, l) := alloc c cs in c ← subCacheItemInsert c l; Ret (r, c)
  end.

(** ** Refresh *)

Section Refresh.

(** The subscriptions with an ONCHANGE condition of a tenant's database, as the cursor
    gives them (None: nextSafe failed); None when the query fails. *)
Variable collectionQuery : string -> option (list (option SubDoc)).
(** The names of all databases. *)
Variable listDatabases : option (list string).
Variable dbPrefix : string.
Variable mongoMultitenant : bool.
(** The name set by setSubscribeContextCollectionName. *)
Variable subscribeContextCollectionName : string.

Fixpoint refresh_loop (c : SubCache) (tenant : string) (cursor : list (option SubDoc)) : cpp SubCache :=
  match cursor with
  | [] => Ret c
  | None :: cursor' => refresh_loop c tenant cursor'
  | Some sub :: cursor' =>
      r ← mongoSubCacheItemInsert c tenant sub;
      refresh_loop (r.2 : SubCache) tenant cursor'
  end.

Definition mongoSubCacheRefresh (c : SubCache) (database : string) : cpp SubCache :=
  tenant ← tenantFromDb dbPrefix database;
  match collectionQuery (composeCollectionName mongoMultitenant dbPrefix tenant subscribeContextCollectionName) with
  | None => Ret c
  | Some cursor => refresh_loop c (c_str tenant) cursor
  end.

Fixpoint refresh_dbs (c : SubCache) (databases : list string) : cpp SubCache :=
  match databases with
  | [] => Ret c
  | db :: dbs => c ← mongoSubCacheRefresh c db; refresh_dbs c dbs
  end.

Definition refresh_databases : list string :=
  (if mongoMultitenant then getOrionDatabases dbPrefix (default [] listDatabases) else []) ++ [dbPrefix].

Definition subCacheRefresh (fuel : nat) (c : SubCache) : cpp SubCache :=
  c ← subCacheDestroy fuel c;
  c ← refresh_dbs c refresh_databases;
  Ret (set_counters (int32 (noOfRefreshes c + 1)) (noOfInserts c) (noOfRemoves c) (noOfUpdates c) c).

(** ** Synchronization *)

Record CachedSubSaved := mkCachedSubSaved {
  css_lastNotificationTime : Z;
  css_count : Z
}.

(** Step 1: an item whose id is already saved is met again for ever (continue without
    going to the next one). *)
Fixpoint sync_save (fuel : nat) (h : gmap loc Node) (p : option loc)
    (savedSubV : gmap string CachedSubSaved) : cpp (gmap string CachedSubSaved) :=
  match p, fuel with
  | None, _ => Ret savedSubV
  | Some _, O => Looping
  | Some l, S fuel =>
      n ← deref h l;
      id ← deref_str (cs_subscriptionId (node_sub n));
      match savedSubV !! id with
      | Some _ => sync_save fuel h p savedSubV
      | None =>
          sync_save fuel h (node_next n)
            (<[id := mkCachedSubSaved (cs_lastNotificationTime (node_sub n)) (cs_count (node_sub n))]> savedSubV)
      end
  end.

(** Step 3: a saved time that is not newer than the one in the database is dropped. *)
Fixpoint sync_compare (fuel : nat) (h : gmap loc Node) (p : option loc)
    (savedSubV : gmap string CachedSubSaved) : cpp (gmap string CachedSubSaved) :=
  match p, fuel with
  | None, _ => Ret savedSubV
  | Some _, O => Looping
  | Some l, S fuel =>
      n ← deref h l;
      id ← deref_str (cs_subscriptionId (node_sub n));
      sync_compare fuel h (node_next n)
        (match savedSubV !! id with
         | Some css =>
             if css_lastNotificationTime css <=? cs_lastNotificationTime (node_sub n)
             then <[id := mkCachedSubSaved 0 (css_count css)]> savedSubV
             else savedSubV
         | None => savedSubV
         end)
  end.

(** The updates sent to the database: count incremented; lastNotification set where it is
    older or missing. *)
Inductive DbUpdate :=
  | IncCount (collection subId : string) (count : Z)
  | SetLastNotification (collection subId : string) (lastNotificationTime : Z).

Definition mongoSubCacheUpdate (tenant subId : string) (count lastNotificationTime : Z) : list DbUpdate :=
  let collection := composeCollectionName mongoMultitenant dbPrefix tenant subscribeContextCollectionName in
  (if negb (count =? 0) then [IncCount collection subId count] else []) ++
  (if negb (lastNotificationTime =? 0) then [SetLastNotification collection subId lastNotificationTime] else []).

(** Steps 4 and 5. *)
Fixpoint sync_flush (fuel : nat) (h : gmap loc Node) (p : option loc)
    (savedSubV : gmap string CachedSubSaved) (sent : list DbUpdate) : cpp (list DbUpdate) :=
  match p, fuel with
  | None, _ => Ret sent
  | Some _, O => Looping
  | Some l, S fuel =>
      n ← deref h l;
      id ← deref_str (cs_subscriptionId (node_sub n));
      sync_flush fuel h (node_next n) savedSubV
        (match savedSubV !! id with
         | None => sent
         | Some css =>
             sent ++ mongoSubCacheUpdate (default "" (cs_tenant (node_sub n))) id
                       (css_count css) (css_lastNotificationTime css)
         end)
  end.

Definition subCacheSync (fuel : nat) (c : SubCache) : cpp (SubCache * list DbUpdate) :=
  saved ← sync_save fuel (heap c) (head c) ∅;
  c ← subCacheRefresh fuel c;
  saved ← sync_compare fuel (heap c) (head c) saved;
  sent ← sync_flush fuel (heap c) (head c) saved [];
  Ret (c, sent).

End Refresh.

(** ** Database names *)

(** Round trip of tenant and database name: for a multitenant broker the tenant read
    back from the name of its database is the tenant, but only below 50 characters; for
    a tenant of the 50 characters tenantCheck admits (or more) the array is left without a
    terminator and is read past its end. *)
Theorem tenantFromDb_composeDatabaseName dbPrefix tenant :
  free_of NUL dbPrefix = true -> free_of NUL tenant = true -> tenant <> "" ->
  tenantFromDb dbPrefix (composeDatabaseName true dbPrefix tenant) =
    if (String.length tenant <? 50)%nat then Ret tenant else UB "tenant array without terminator".
Proof.
  intros Hp Ht Hne. apply str_eqb_neq in Hne. unfold composeDatabaseName. rewrite Hne. cbn [negb orb].
  unfold tenantFromDb. rewrite !c_str_id; cycle 1.
  { change (free_of NUL (dbPrefix +:+ "-" +:+ tenant) = true). rewrite !free_of_app, Hp, Ht. done. }
  { change (free_of NUL (dbPrefix +:+ "-") = true). by rewrite free_of_app, Hp. }
  rewrite <- app_assoc_str. unfold strncmp_eq.
  rewrite str_take_app, (str_take_all (dbPrefix +:+ "-")), str_eqb_refl by done.
  by rewrite str_drop_app.
Qed.

Lemma tenantFromDb_composeDatabaseName_witness :
  tenantFromDb "orion" "orion-smartcity" = Ret "smartcity".
Proof.
  apply (tenantFromDb_composeDatabaseName "orion" "smartcity"); [reflexivity|reflexivity|discriminate].
Defined.

(** ** Refreshing *)

Definition id_of (s : CachedSubscription) : string := default "" (cs_subscriptionId s).

(** The subscriptions a cursor puts in the cache. *)
Definition subs_of_cursor (tenant : string) (cursor : list (option SubDoc)) : list CachedSubscription :=
  omap (fun d => match d with Some sub => (sub_from_doc tenant sub).2 | None => None end) cursor.

Lemma insert_any c ls cs : cache_repr c ls -> exists c' l,
  (let '(c1, l) := alloc c cs in subCacheItemInsert c1 l) = Ret c' /\ cache_repr c' (ls ++ [(l, cs)]).
Proof.
  intros Hr. destruct (insert_alloc c ls cs Hr) as (c' & H & H' & _).
  exists c', (fresh (dom (heap c))). split; [|done]. by rewrite <- H; destruct (alloc c cs).
Qed.

Lemma refresh_loop_repr c ls tenant cursor : cache_repr c ls -> exists c' ls',
  refresh_loop c tenant cursor = Ret c' /\ cache_repr c' (ls ++ ls') /\
  subs ls' = subs_of_cursor tenant cursor.
Proof.
  revert c ls. induction cursor as [|[sub|] cursor IH]; intros c ls Hr; cbn [refresh_loop].
  - exists c, []. by rewrite app_nil_r.
  - unfold mongoSubCacheItemInsert, subs_of_cursor. cbn [omap list_omap].
    destruct (sub_from_doc tenant sub) as [r [cs|]]; cbn [snd].
    + destruct (insert_any c ls cs Hr) as (c1 & l & H & Hr1).
      destruct (alloc c cs) as [c0 l0]. rewrite H. cbn [mbind cpp_bind snd].
      destruct (IH c1 _ Hr1) as (c' & ls' & H' & Hr' & Hs). exists c', ((l, cs) :: ls').
      rewrite <- app_assoc in Hr'. split_and!; [done..|]. cbn. by f_equal.
    + cbn [mbind cpp_bind snd]. destruct (IH c ls Hr) as (c' & ls' & ? & ? & ?). by exists c', ls'.
  - destruct (IH c ls Hr) as (c' & ls' & ? & ? & ?). by exists c', ls'.
Qed.

Section RefreshFacts.

Context (collectionQuery : string -> option (list (option SubDoc))) (listDatabases : option (list string)).
Context (dbPrefix : string) (mongoMultitenant : bool) (colName : string).

Definition subs_of_db (database : string) : list CachedSubscription :=
  match tenantFromDb dbPrefix database with
  | Ret tenant =>
      match collectionQuery (composeCollectionName mongoMultitenant dbPrefix tenant colName) with
      | Some cursor => subs_of_cursor (c_str tenant) cursor
      | None => []
      end
  | _ => []
  end.

Lemma refresh_dbs_repr c ls dbs : cache_repr c ls ->
  Forall (fun db => defined (tenantFromDb dbPrefix db)) dbs -> exists c' ls',
  refresh_dbs collectionQuery dbPrefix mongoMultitenant colName c dbs = Ret c' /\
  cache_repr c' (ls ++ ls') /\ subs ls' = flat_map subs_of_db dbs.
Proof.
  intros Hr Hd. revert c ls Hr. induction Hd as [|db dbs [tenant Ht] _ IH]; intros c ls Hr; cbn [refresh_dbs].
  - exists c, []. by rewrite app_nil_r.
  - unfold mongoSubCacheRefresh. cbn [flat_map]. unfold subs_of_db at 1. rewrite Ht. cbn [mbind cpp_bind].
    destruct (collectionQuery _) as [cursor|].
    + destruct (refresh_loop_repr c ls (c_str tenant) cursor Hr) as (c1 & l1 & -> & Hr1 & Hs1). cbn [mbind cpp_bind].
      destruct (IH c1 _ Hr1) as (c' & l2 & H & Hr' & Hs). exists c', (l1 ++ l2).
      rewrite app_assoc. split_and!; [done..|]. by rewrite subs_app, Hs1, Hs.
    + destruct (IH c ls Hr) as (c' & l2 & ? & ? & ?). by exists c', l2.
Qed.

Lemma subCacheRefresh_repr fuel c ls : cache_repr c ls -> (length ls <= fuel)%nat ->
  Forall (fun db => defined (tenantFromDb dbPrefix db))
    (refresh_databases listDatabases dbPrefix mongoMultitenant) -> exists c' ls',
  subCacheRefresh collectionQuery listDatabases dbPrefix mongoMultitenant colName fuel c = Ret c' /\
  cache_repr c' ls' /\
  subs ls' = flat_map subs_of_db (refresh_databases listDatabases dbPrefix mongoMultitenant).
Proof.
  intros Hr Hf Hd. unfold subCacheRefresh.
  destruct (destroy_repr fuel c ls Hr Hf) as (c0 & -> & Hr0). cbn [mbind cpp_bind].
  destruct (refresh_dbs_repr c0 [] _ Hr0 Hd) as (c' & ls' & -> & Hr' & Hs). cbn [mbind cpp_bind].
  eexists _, ls'. split_and!; [done| |done]. by destruct Hr'; split.
Qed.

Lemma subs_of_db_plain db s : s ∈ subs_of_db db ->
  cs_expression s = no_expression /\ cs_count s = 0 /\ is_Some (cs_subscriptionId s) /\
  cs_entityIdInfos s <> [] /\ cs_notifyConditionVector s <> [].
Proof.
  unfold subs_of_db. destruct (tenantFromDb _ _); [|set_solver..].
  destruct (collectionQuery _); [|set_solver]. unfold subs_of_cursor.
  intros (d & _ & Hd)%list_elem_of_omap. destruct d as [sub|]; [|done].
  unfold sub_from_doc in Hd. destruct (sd_id sub); [|done].
  destruct (length (entityInfos_of _) =? 0)%nat eqn:E1; [done|].
  destruct (length (conditions_of _) =? 0)%nat eqn:E2; [done|].
  cbn in Hd. simplify_eq/=. split_and!; [done..|by eexists|intros H; by rewrite H in E1|intros H; by rewrite H in E2].
Qed.

End RefreshFacts.

(** ** Synchronization *)

Definition ids (ls : list (loc * CachedSubscription)) : list string := id_of <$> subs ls.

(** The map of step 1, built from the items of the list. *)
Definition saved_of (s : CachedSubscription) : CachedSubSaved :=
  mkCachedSubSaved (cs_lastNotificationTime s) (cs_count s).

Definition save_all (m : gmap string CachedSubSaved) (ss : list CachedSubscription) : gmap string CachedSubSaved :=
  foldl (fun m s => <[id_of s := saved_of s]> m) m ss.

(** Ids not repeated and not yet in the map. *)
Definition fresh_ids (m : gmap string CachedSubSaved) (ls : list (loc * CachedSubscription)) : Prop :=
  NoDup (ids ls) /\ Forall (fun i => m !! i = None) (ids ls).

Lemma id_of_Some s i : cs_subscriptionId s = Some i -> id_of s = i.
Proof. unfold id_of. by intros ->. Qed.

Lemma sync_save_step fuel h l n s i m : h !! l = Some (mkNode s n) -> cs_subscriptionId s = Some i ->
  sync_save (S fuel) h (Some l) m =
    match m !! i with
    | Some _ => sync_save fuel h (Some l) m
    | None => sync_save fuel h n (<[i := saved_of s]> m)
    end.
Proof. intros Hl Hi. cbn. rewrite (deref_here _ _ _ _ Hl). cbn. by rewrite Hi. Qed.

Lemma fresh_ids_cons m l s ls : fresh_ids m ((l, s) :: ls) <->
  m !! id_of s = None /\ fresh_ids (<[id_of s := saved_of s]> m) ls.
Proof.
  unfold fresh_ids, ids. cbn. rewrite NoDup_cons, Forall_cons. split.
  - intros ([Hni Hnd] & Hm & Hf). split_and!; [done..|]. rewrite Forall_forall in Hf |- *.
    intros i Hi. rewrite lookup_insert_ne; [by apply Hf|]. by intros <-.
  - intros (Hm & Hnd & Hf). rewrite Forall_forall in Hf. split_and!; try done.
    + intros Hi. specialize (Hf _ Hi). by rewrite lookup_insert_eq in Hf.
    + rewrite Forall_forall. intros i Hi. specialize (Hf _ Hi). by apply lookup_insert_None in Hf as [? _].
Qed.

Lemma sync_save_ends fuel h p ls m : seg h p ls None -> (length ls <= fuel)%nat -> with_ids ls ->
  fresh_ids m ls -> sync_save fuel h p m = Ret (save_all m (subs ls)).
Proof.
  revert fuel p m. induction ls as [|[l s] ls IH]; intros fuel p m; cbn [seg length].
  - intros -> _ _ _. by destruct fuel.
  - intros (-> & n & Hl & Hc) Hf Hid Hfr. destruct fuel as [|fuel]; [lia|].
    apply Forall_cons in Hid as [[i Hi] Hid]. cbn in Hi. apply fresh_ids_cons in Hfr as [Hm Hfr].
    rewrite (sync_save_step _ _ _ _ _ _ _ Hl Hi). rewrite (id_of_Some _ _ Hi) in Hm, Hfr. rewrite Hm.
    rewrite (IH fuel n _ Hc ltac:(lia) Hid Hfr).
    by rewrite <- (id_of_Some _ _ Hi).
Qed.

Lemma sync_save_loops fuel h p ls m : seg h p ls None -> with_ids ls ->
  ~ fresh_ids m ls -> sync_save fuel h p m = Looping.
Proof.
  revert p ls m. induction fuel as [|fuel IH]; intros p ls m; destruct ls as [|[l s] ls]; cbn [seg].
  1,3: intros _ _ Hn; exfalso; apply Hn; split; constructor.
  - by intros (-> & _).
  - intros Hs Hid Hn. pose proof Hs as (-> & n & Hl & Hc).
    pose proof Hid as [[i Hi] Hid']%Forall_cons. cbn in Hi. rewrite (sync_save_step _ _ _ _ _ _ _ Hl Hi).
    rewrite fresh_ids_cons, (id_of_Some _ _ Hi) in Hn.
    destruct (m !! i) eqn:Hm.
    + apply (IH _ ((l, s) :: ls)); [done..|]. rewrite fresh_ids_cons, (id_of_Some _ _ Hi), Hm. naive_solver.
    + apply (IH _ ls); [done..|]. naive_solver.
Qed.

Lemma fresh_ids_empty ls : fresh_ids ∅ ls <-> NoDup (ids ls).
Proof.
  unfold fresh_ids. split; [by intros [? _]|]. intros H. split; [done|].
  apply Forall_forall. intros i _. apply lookup_empty.
Qed.

(** What steps 3 to 5 do with a saved item: the time is dropped unless it is newer. *)
Definition flush_time (saved_time db_time : Z) : Z := if saved_time <=? db_time then 0 else saved_time.

Definition saved_item (ss : list CachedSubscription) (i : string) : option CachedSubSaved :=
  saved_of <$> List.find (fun s => id_of s =s i) ss.

Lemma save_all_lookup m ss i : NoDup (id_of <$> ss) ->
  save_all m ss !! i = match saved_item ss i with Some x => Some x | None => m !! i end.
Proof.
  unfold saved_item. revert m. induction ss as [|s ss IH]; intros m; [done|]. cbn [fmap list_fmap].
  intros [Hni Hnd]%NoDup_cons. cbn [save_all foldl List.find].
  change (foldl _ _ ss) with (save_all (<[id_of s := saved_of s]> m) ss). rewrite IH by done.
  destruct (id_of s =s i) eqn:E.
  - apply str_eqb_eq in E as <-. cbn [fmap option_fmap option_map].
    destruct (List.find _ ss) as [s'|] eqn:Ef; [|by rewrite lookup_insert_eq].
    apply List.find_some in Ef as [Hin Heq]. apply str_eqb_eq in Heq. exfalso. apply Hni.
    apply list_elem_of_fmap. exists s'. split; [done|]. by apply list_elem_of_In.
  - apply str_eqb_neq in E. by rewrite lookup_insert_ne.
Qed.

Definition compare_step (m : gmap string CachedSubSaved) (s : CachedSubscription) : gmap string CachedSubSaved :=
  match m !! id_of s with
  | Some css => if css_lastNotificationTime css <=? cs_lastNotificationTime s
                then <[id_of s := mkCachedSubSaved 0 (css_count css)]> m else m
  | None => m
  end.

Lemma sync_compare_seg fuel h p ls m : seg h p ls None -> (length ls <= fuel)%nat -> with_ids ls ->
  sync_compare fuel h p m = Ret (foldl compare_step m (subs ls)).
Proof.
  revert fuel p m. induction ls as [|[l s] ls IH]; intros fuel p m; cbn [seg length].
  - intros -> _ _. by destruct fuel.
  - intros (-> & n & Hl & Hc) Hf Hid. destruct fuel as [|fuel]; [lia|].
    apply Forall_cons in Hid as [[i Hi] Hid]. cbn in Hi. cbn [sync_compare].
    rewrite (deref_here _ _ _ _ Hl). cbn [mbind cpp_bind node_sub node_next]. rewrite Hi.
    cbn [deref_str mbind cpp_bind]. rewrite (IH fuel n _ Hc ltac:(lia) Hid).
    by rewrite <- (id_of_Some _ _ Hi).
Qed.

Lemma compare_lookup_other m ss i : i ∉ id_of <$> ss -> foldl compare_step m ss !! i = m !! i.
Proof.
  revert m. induction ss as [|s ss IH]; intros m; [done|]. cbn [fmap list_fmap].
  rewrite not_elem_of_cons. intros [Hne Hni]. cbn. rewrite IH by done. unfold compare_step.
  destruct (m !! id_of s); [|done]. destruct (_ <=? _); [|done]. by rewrite lookup_insert_ne.
Qed.

Lemma compare_lookup m ss s : NoDup (id_of <$> ss) -> s ∈ ss ->
  foldl compare_step m ss !! id_of s =
    (fun css => mkCachedSubSaved (flush_time (css_lastNotificationTime css) (cs_lastNotificationTime s))
                  (css_count css)) <$> m !! id_of s.
Proof.
  revert m. induction ss as [|s' ss IH]; intros m; [by rewrite elem_of_nil|].
  cbn [fmap list_fmap]. intros [Hni Hnd]%NoDup_cons. rewrite elem_of_cons. cbn [foldl].
  intros [->|Hin].
  - rewrite compare_lookup_other by done. unfold compare_step, flush_time.
    destruct (m !! id_of s') as [[t k]|] eqn:Hm; [|by rewrite Hm]. cbn.
    destruct (_ <=? _); [by rewrite lookup_insert_eq|by rewrite Hm].
  - rewrite IH by done. f_equal. unfold compare_step.
    assert (id_of s' <> id_of s) as Hne.
    { intros E. apply Hni. rewrite E. apply list_elem_of_fmap. by exists s. }
    destruct (m !! id_of s'); [|done]. destruct (_ <=? _); [|done]. by rewrite lookup_insert_ne.
Qed.

Section SyncFacts.

Context (collectionQuery : string -> option (list (option SubDoc))) (listDatabases : option (list string)).
Context (dbPrefix : string) (mongoMultitenant : bool) (colName : string).

(** The updates sent for one refreshed subscription, given the saved items. *)
Definition updates_for (saved : string -> option CachedSubSaved) (s : CachedSubscription) : list DbUpdate :=
  match saved (id_of s) with
  | None => []
  | Some css => mongoSubCacheUpdate dbPrefix mongoMultitenant colName (default "" (cs_tenant s)) (id_of s)
                  (css_count css) (css_lastNotificationTime css)
  end.

Lemma sync_flush_seg fuel h p ls m sent : seg h p ls None -> (length ls <= fuel)%nat -> with_ids ls ->
  sync_flush dbPrefix mongoMultitenant colName fuel h p m sent =
    Ret (sent ++ flat_map (updates_for (fun i => m !! i)) (subs ls)).
Proof.
  revert fuel p sent. induction ls as [|[l s] ls IH]; intros fuel p sent; cbn [seg length].
  - intros -> _ _. destruct fuel; cbn; by rewrite app_nil_r.
  - intros (-> & n & Hl & Hc) Hf Hid. destruct fuel as [|fuel]; [lia|].
    apply Forall_cons in Hid as [[i Hi] Hid]. cbn in Hi. cbn [sync_flush].
    rewrite (deref_here _ _ _ _ Hl). cbn [mbind cpp_bind node_sub node_next]. rewrite Hi.
    cbn [deref_str mbind cpp_bind]. rewrite (IH fuel n _ Hc ltac:(lia) Hid).
    rewrite <- (id_of_Some _ _ Hi). change (subs ((l, s) :: ls)) with (s :: subs ls). cbn [flat_map].
    unfold updates_for at 2. destruct (m !! id_of s); [|done]. by rewrite <- app_assoc.
Qed.

(** The content of the databases the refresh reads. *)
Definition db_subs : list CachedSubscription :=
  flat_map (subs_of_db collectionQuery dbPrefix mongoMultitenant colName)
    (refresh_databases listDatabases dbPrefix mongoMultitenant).

(** The saved items after step 3. *)
Definition newer_item (old : list CachedSubscription) (s : CachedSubscription) : option CachedSubSaved :=
  (fun css => mkCachedSubSaved (flush_time (css_lastNotificationTime css) (cs_lastNotificationTime s))
                (css_count css)) <$> saved_item old (id_of s).

Lemma db_subs_plain s : s ∈ db_subs -> cs_expression s = no_expression /\ is_Some (cs_subscriptionId s).
Proof.
  unfold db_subs. rewrite list_elem_of_In, List.in_flat_map. intros (db & _ & Hs%list_elem_of_In).
  apply subs_of_db_plain in Hs. tauto.
Qed.

Lemma db_subs_with_ids ls : subs ls = db_subs -> with_ids ls.
Proof. intros H. unfold with_ids. rewrite H. apply Forall_forall. intros s Hs. by apply db_subs_plain. Qed.

(** C7. Synchronizing ends if no two cached subscriptions have the same id; the cache
    is then rebuilt from the databases, and what is written back is, for every
    subscription in the databases that was cached: its count, if not zero, and its last
    notification time, if it is newer than the database's.  The rebuilt subscriptions
    have no filter expression: their q, georel, geometry and coords are lost. *)
Theorem subCacheSync_writes_back c ls :
  cache_repr c ls -> with_ids ls -> NoDup (ids ls) -> NoDup (id_of <$> db_subs) ->
  Forall (fun db => defined (tenantFromDb dbPrefix db))
    (refresh_databases listDatabases dbPrefix mongoMultitenant) ->
  exists fuel c' ls',
    subCacheSync collectionQuery listDatabases dbPrefix mongoMultitenant colName fuel c =
      Ret (c', flat_map (fun s => updates_for (fun _ => newer_item (subs ls) s) s) db_subs) /\
    cache_repr c' ls' /\ subs ls' = db_subs /\
    Forall (fun s => cs_expression s = no_expression) (subs ls').
Proof.
  intros Hr Hid Hnd Hnd2 Hdb.
  destruct (subCacheRefresh_repr collectionQuery listDatabases dbPrefix mongoMultitenant colName
    (length ls + length db_subs) c ls Hr ltac:(lia) Hdb) as (c' & ls' & Href & Hr' & Hs).
  change (subs ls' = db_subs) in Hs. pose proof (db_subs_with_ids ls' Hs) as Hid'.
  assert (length ls' = length db_subs) as Hlen by (rewrite <- Hs; unfold subs; by rewrite length_fmap).
  exists (length ls + length db_subs)%nat, c', ls'. split_and!; [|done|done|].
  - unfold subCacheSync.
    rewrite (sync_save_ends _ _ _ ls _ (repr_chain _ _ Hr)) by (done || lia || by apply fresh_ids_empty).
    cbn [mbind cpp_bind]. rewrite Href. cbn [mbind cpp_bind].
    rewrite (sync_compare_seg _ _ _ ls' _ (repr_chain _ _ Hr')) by (done || lia). cbn [mbind cpp_bind].
    rewrite (sync_flush_seg _ _ _ ls' _ _ (repr_chain _ _ Hr')) by (done || lia). cbn [mbind cpp_bind app].
    do 2 f_equal. rewrite Hs. apply flat_map_ext_in. intros s Hin%list_elem_of_In.
    unfold updates_for. rewrite compare_lookup, save_all_lookup by done.
    unfold newer_item. by destruct (saved_item (subs ls) (id_of s)).
  - rewrite Hs. apply Forall_forall. intros s Hs'. by apply db_subs_plain.
Qed.

(** If two cached subscriptions have the same id (in the same tenant or in two),
    synchronizing never ends: step 1 meets the second one again for ever, with the cache
    semaphore taken. *)
Theorem subCacheSync_duplicate_loops fuel c ls :
  cache_repr c ls -> with_ids ls -> ~ NoDup (ids ls) ->
  subCacheSync collectionQuery listDatabases dbPrefix mongoMultitenant colName fuel c = Looping.
Proof.
  intros Hr Hid Hnd. unfold subCacheSync.
  rewrite (sync_save_loops _ _ _ ls _ (repr_chain _ _ Hr) Hid); [done|]. by rewrite fresh_ids_empty.
Qed.

End SyncFacts.

(** ** Witnesses *)

Definition sample_doc : SubDoc :=
  mkSubDoc (Some "51c0ac9ed714fb3b37d7d5a8") None [mkEntityDoc (Some "Room") None None] []
    [mkConditionDoc "ONCHANGE" ["temp"]] None None None None (Some 5) None.

Definition sample_query (collection : string) : option (list (option SubDoc)) :=
  if collection =s "orion.csubs" then Some [Some sample_doc] else None.

Lemma subCacheSync_writes_back_witness : exists fuel c',
  subCacheSync sample_query None "orion" false "csubs" fuel sample_cache = Ret (c', []).
Proof.
  destruct (subCacheSync_writes_back sample_query None "orion" false "csubs" sample_cache
    [(1%positive, sample_sub)] sample_repr) as (fuel & c' & ls' & H & _).
  - constructor; [eexists; reflexivity|constructor].
  - apply NoDup_singleton.
  - apply NoDup_singleton.
  - constructor; [exists ""; reflexivity|constructor].
  - exists fuel, c'. exact H.
Defined.

(** The same subscription inserted twice. *)
Definition twice_cache : SubCache :=
  mkSubCache (<[ 1%positive := mkNode sample_sub (Some 2%positive) ]> {[ 2%positive := mkNode sample_sub None ]})
    (Some 1%positive) (Some 2%positive) 0 2 0 0 true false.

Lemma twice_repr : cache_repr twice_cache [(1%positive, sample_sub); (2%positive, sample_sub)].
Proof.
  split; cbn -[insert singletonM]; [|done| |].
  - split; [done|]. exists (Some 2%positive). rewrite lookup_insert_eq. split; [done|]. split; [done|].
    exists None. rewrite lookup_insert_ne by done. by rewrite lookup_singleton_eq.
  - repeat constructor; [|by apply not_elem_of_nil]. rewrite list_elem_of_singleton. done.
  - rewrite dom_insert_L, dom_singleton_L. cbn. set_solver.
Qed.

Lemma subCacheSync_duplicate_loops_witness :
  subCacheSync sample_query None "orion" false "csubs" 1000 twice_cache = Looping.
Proof.
  apply (subCacheSync_duplicate_loops sample_query None "orion" false "csubs" 1000 twice_cache
    [(1%positive, sample_sub); (2%positive, sample_sub)] twice_repr).
  - repeat constructor; eexists; reflexivity.
  - intros H. inversion H as [|? ? Hn _]. apply Hn. left.
Defined.
