(* ===== verification/Notify.v ===== *)
(** * Notifications of an update

    mongoBackend/MongoCommonUpdate.cpp: which subscriptions an update triggers when the
    cache is used (addTriggeredSubscriptions_withCache), the checks before a notification
    is sent and the bookkeeping after it (processSubscriptions), the content of the
    notification (updateAttrInNotifyCer, deleteAttrInNotifyCer,
    processOnChangeConditionForUpdateContext); mongoBackend/TriggeredSubscription.cpp.
    A notification handed to the notifier is a value.  [getCurrentTime n] is the n-th
    reading of the clock. *)

From S2P Require Import Prelude Strings Double Compound Bson Ngsi FilterParse FilterMatch SubCache SubSync.

Open Scope Z_scope.

Definition STATUS_INACTIVE : string := "inactive".

(** ** Triggered subscriptions *)

Record TriggeredSubscription := mkTriggered {
  ts_throttling : Z;
  ts_lastNotification : Z;
  ts_renderFormat : RenderFormat;
  ts_reference : string;
  ts_attrL : list string;
  ts_cacheSubId : string;
  ts_tenant : string;
  ts_stringFilterP : option StringFilter;
  ts_geometry : string;
  ts_coords : string;
  ts_georel : string
}.

Definition TriggeredSubscription_new (throttling lastNotification : Z) (renderFormat : RenderFormat)
    (reference : string) (attrL : list string) (cacheSubId : string) (tenant : option string)
    : TriggeredSubscription :=
  mkTriggered throttling lastNotification renderFormat reference attrL cacheSubId (default "" tenant)
    None "" "" "".

Definition fillExpression (t : TriggeredSubscription) (georel geometry coords : string) : TriggeredSubscription :=
  mkTriggered (ts_throttling t) (ts_lastNotification t) (ts_renderFormat t) (ts_reference t) (ts_attrL t)
    (ts_cacheSubId t) (ts_tenant t) (ts_stringFilterP t) geometry coords georel.

(** stringFilterSet: None when the filter cannot be cloned. *)
Definition stringFilterSet (regcomp : string -> bool) (t : TriggeredSubscription) (sf : StringFilter)
    : option TriggeredSubscription :=
  match sf_clone regcomp sf with
  | inl _ => None
  | inr sf' =>
      Some (mkTriggered (ts_throttling t) (ts_lastNotification t) (ts_renderFormat t) (ts_reference t)
        (ts_attrL t) (ts_cacheSubId t) (ts_tenant t) (Some sf') (ts_geometry t) (ts_coords t) (ts_georel t))
  end.

(** std::map<string, TriggeredSubscription*>: its pairs in the order of the keys; insert
    leaves an existing key as it is. *)
Definition SubMap : Type := list (string * TriggeredSubscription).

Fixpoint map_insert (k : string) (t : TriggeredSubscription) (m : SubMap) : SubMap :=
  match m with
  | [] => [(k, t)]
  | (k', t') :: m' =>
      match strcmp k k' with
      | Lt => (k, t) :: m
      | Eq => m
      | Gt => (k', t') :: map_insert k t m'
      end
  end.

Section Notify.

Variable regcomp : string -> bool.
Variable regexec : string -> string -> bool.

(** The body of the loop over the matching subscriptions: [Ret None] when it goes on to
    the next one, [inl] when the function returns false. *)
Definition trigger_one (now : Z) (cs : CachedSubscription) : cpp (option (unit + string * TriggeredSubscription)) :=
  if cs_expirationTime cs <? now then Ret None
  else if cs_status cs =s STATUS_INACTIVE then Ret None
  else if negb (cs_throttling cs =? -1) && negb (cs_lastNotificationTime cs =? 0)
          && (now - cs_lastNotificationTime cs <? cs_throttling cs)
  then Ret None
  else
    reference ← deref_str (cs_reference cs);
    id ← deref_str (cs_subscriptionId cs);
    let t := TriggeredSubscription_new (cs_throttling cs) (cs_lastNotificationTime cs) (cs_renderFormat cs)
               reference (cs_attributes cs) id (cs_tenant cs) in
    let ex := cs_expression cs in
    let t := fillExpression t (ex_geometry ex) (ex_coords ex) (ex_georel ex) in
    match stringFilterSet regcomp t (ex_stringFilter ex) with
    | None => Ret (Some (inl tt))
    | Some t => Ret (Some (inr (id, t)))
    end.

Fixpoint trigger_loop (h : gmap loc Node) (now : Z) (subVec : list loc) (subs : SubMap) : cpp (bool * SubMap) :=
  match subVec with
  | [] => Ret (true, subs)
  | l :: subVec' =>
      n ← deref h l;
      r ← trigger_one now (node_sub n);
      match (r : option (unit + string * TriggeredSubscription)) with
      | None => trigger_loop h now subVec' subs
      | Some (inl _) => Ret (false, subs)
      | Some (inr (id, t)) => trigger_loop h now subVec' (map_insert id t subs)
      end
  end.

Definition addTriggeredSubscriptions_withCache (fuel : nat) (c : SubCache) (now : Z)
    (entityId entityType : string) (modifiedAttrs : list string) (subs : SubMap) (tenant : string)
    (servicePathV : list string) : cpp (bool * SubMap) :=
  let servicePath := match servicePathV with sp :: _ => sp | [] => "" end in
  subVec ← subCacheMatch regcomp regexec fuel c (Some (c_str tenant)) (c_str servicePath)
             (c_str entityId) (c_str entityType) modifiedAttrs [];
  trigger_loop (heap c) (int32 now) subVec subs.

(** ** The content of a notification *)

Record Notification := mkNotification {
  nt_subscriptionId : string;
  nt_originator : string;
  nt_entityId : EntityId;
  nt_attributes : list ContextAttribute;
  nt_url : string;
  nt_tenant : string;
  nt_xauthToken : string;
  nt_fiwareCorrelator : string;
  nt_renderFormat : RenderFormat;
  nt_attrsOrder : list string
}.

(** The attributes of the entity that go in the notification. *)
Definition notify_attrs (cav : list ContextAttribute) (attrL : list string) : list ContextAttribute :=
  flat_map (fun ca =>
    if (length attrL =? 0)%nat then [ca]
    else flat_map (fun a => if (ca_name ca =s a) && negb (ca_skip ca) then [ca] else []) attrL) cav.

(** None when nothing is sent. *)
Definition processOnChangeConditionForUpdateContext (ce : ContextElement) (attrL : list string)
    (subId notifyUrl : string) (renderFormat : RenderFormat) (tenant xauthToken fiwareCorrelator : string)
    (attrsOrder : list string) : option Notification :=
  match notify_attrs (ce_contextAttributeVector ce) attrL with
  | [] => None
  | cav => Some (mkNotification subId "localhost" (ce_entityId ce) cav notifyUrl tenant xauthToken
                   fiwareCorrelator renderFormat attrsOrder)
  end.

(** ** Sending the notifications *)

Variable getCurrentTime : nat -> Z.
(** collectionUpdate of the subscription's lastNotification and count: its result. *)
Variable collectionUpdate : string -> Z -> bool.

Record NotifyState := mkNotifyState {
  ns_cache : SubCache;
  ns_sent : list Notification;
  ns_ticks : nat;
  ns_ret : bool
}.

Definition set_sub (c : SubCache) (l : loc) (cs : CachedSubscription) : cpp SubCache :=
  n ← deref (heap c) l;
  Ret (set_list (<[l := mkNode cs (node_next n)]> (heap c)) (head c) (tail c) c).

(** The cached subscription after a notification. *)
Definition notified (rightNow : Z) (cs : CachedSubscription) : CachedSubscription :=
  mkCachedSubscription (cs_entityIdInfos cs) (cs_attributes cs) (cs_notifyConditionVector cs) (cs_tenant cs)
    (cs_servicePath cs) (cs_subscriptionId cs) (cs_throttling cs) (cs_expirationTime cs) rightNow
    (cs_status cs) (int64 (cs_count cs + 1)) (cs_renderFormat cs) (cs_reference cs) (cs_expression cs).

Definition update_cached (fuel : nat) (c : SubCache) (t : TriggeredSubscription) (rightNow : Z) : cpp SubCache :=
  if ts_cacheSubId t =s "" then Ret c
  else
    r ← subCacheItemLookup fuel c (Some (c_str (ts_tenant t))) (c_str (ts_cacheSubId t));
    match (r : option loc) with
    | None => Ret c
    | Some l => n ← deref (heap c) l; set_sub c l (notified rightNow (node_sub n))
    end.

(** Check 1: blocked by throttling, the clock being [current]. *)
Definition throttled (t : TriggeredSubscription) (current : Z) : bool :=
  negb (ts_throttling t =? 1) && negb (ts_lastNotification t =? 1)
  && (current - ts_lastNotification t <? ts_throttling t).

(** Whether check 1 reads the clock. *)
Definition reads_clock (t : TriggeredSubscription) : bool :=
  negb (ts_throttling t =? 1) && negb (ts_lastNotification t =? 1).

Definition process_one (memBool : bool) (fuel : nat) (ce : ContextElement) (tenant xauthToken fiwareCorrelator : string)
    (st : NotifyState) (mapSubId : string) (t : TriggeredSubscription) : cpp NotifyState :=
  let blocked := throttled t (getCurrentTime (ns_ticks st)) in
  let ticks := (ns_ticks st + (if reads_clock t then 1 else 0))%nat in
  if blocked then Ret (mkNotifyState (ns_cache st) (ns_sent st) ticks (ns_ret st))
  else if match ts_stringFilterP t with
          | Some sf => negb (sf_match regexec memBool ce (sf_filters sf))
          | None => false
          end
  then Ret (mkNotifyState (ns_cache st) (ns_sent st) ticks (ns_ret st))
  else
    match processOnChangeConditionForUpdateContext ce (ts_attrL t) mapSubId (ts_reference t)
            (ts_renderFormat t) tenant xauthToken fiwareCorrelator (ts_attrL t) with
    | None => Ret (mkNotifyState (ns_cache st) (ns_sent st) ticks (ns_ret st))
    | Some nt =>
        let rightNow := getCurrentTime ticks in
        let ret := if subCacheActive (ns_cache st) then ns_ret st else collectionUpdate mapSubId rightNow in
        c ← update_cached fuel (ns_cache st) t rightNow;
        Ret (mkNotifyState c (ns_sent st ++ [nt]) (S ticks) ret)
    end.

Fixpoint process_loop (memBool : bool) (fuel : nat) (ce : ContextElement)
    (tenant xauthToken fiwareCorrelator : string) (st : NotifyState) (subs : SubMap) : cpp NotifyState :=
  match subs with
  | [] => Ret st
  | (id, t) :: subs' =>
      st ← process_one memBool fuel ce tenant xauthToken fiwareCorrelator st id t;
      process_loop memBool fuel ce tenant xauthToken fiwareCorrelator st subs'
  end.

Definition processSubscriptions (memBool : bool) (fuel : nat) (c : SubCache) (subs : SubMap) (ce : ContextElement)
    (tenant xauthToken fiwareCorrelator : string) : cpp NotifyState :=
  process_loop memBool fuel ce tenant xauthToken fiwareCorrelator (mkNotifyState c [] 0 true) subs.

End Notify.

(** ** The entity that is notified *)

(** The metadata of a request merged in those of the notified attribute. *)
Fixpoint set_metadata (target : Metadata) (mds : list Metadata) : option (list Metadata) :=
  match mds with
  | [] => None
  | md :: mds' =>
      if md_name md =s md_name target then
        Some (mkMetadata (md_name md) (if md_type target =s "" then md_type md else md_type target)
                (md_valueType target) (md_stringValue target) (md_numberValue target) (md_boolValue target)
                (md_typeGiven md) :: mds')
      else match set_metadata target mds' with Some l => Some (md :: l) | None => None end
  end.

Definition merge_metadata (useDefaultType : bool) (mds : list Metadata) (targets : list Metadata) : list Metadata :=
  foldl (fun mds target => match set_metadata target mds with
                           | Some l => l
                           | None => mds ++ [Metadata_copy target useDefaultType]
                           end) mds targets.

(** The compound value given to the notified attribute. *)
Definition cloned (target : ContextAttribute) : cpp (option CompoundValueNode) :=
  match ca_compoundValueP target with
  | None => Ret None
  | Some n => c ← clone n; Ret (Some c)
  end.

Definition merge_attribute (useDefaultType : bool) (ca target : ContextAttribute) : cpp ContextAttribute :=
  let hasValue := negb (bool_decide (ca_valueType target = ValueTypeNone)) in
  compound ← (if hasValue then cloned target else Ret (ca_compoundValueP ca));
  Ret (mkContextAttribute (ca_name ca)
    (if ca_type target =s "" then ca_type ca else ca_type target)
    (merge_metadata useDefaultType (ca_metadataVector ca) (ca_metadataVector target))
    (if hasValue then ca_valueType target else ca_valueType ca)
    (if hasValue then ca_stringValue target else ca_stringValue ca)
    (if hasValue then ca_numberValue target else ca_numberValue ca)
    (if hasValue then ca_boolValue target else ca_boolValue ca)
    (ca_providingApplication ca) (ca_found ca) (ca_skip ca) compound
    (ca_typeGiven ca)).

(** updateAttrInNotifyCer: the attributes of the CER and the target attribute after it
    (a new attribute takes the compound value of the target away). *)
Fixpoint updateAttrInNotifyCer (useDefaultType : bool) (cav : list ContextAttribute) (target : ContextAttribute)
    : cpp (list ContextAttribute * ContextAttribute) :=
  match cav with
  | [] => let '(ca, target') := ContextAttribute_copy target useDefaultType in Ret ([ca], target')
  | ca :: cav' =>
      if ca_name ca =s ca_name target then
        m ← merge_attribute useDefaultType ca target; Ret (m :: cav', target)
      else
        r ← updateAttrInNotifyCer useDefaultType cav' target;
        let '(l, target') := (r : list ContextAttribute * ContextAttribute) in Ret (ca :: l, target')
  end.

Definition set_skip (ca : ContextAttribute) : ContextAttribute :=
  mkContextAttribute (ca_name ca) (ca_type ca) (ca_metadataVector ca) (ca_valueType ca) (ca_stringValue ca)
    (ca_numberValue ca) (ca_boolValue ca) (ca_providingApplication ca) (ca_found ca) true
    (ca_compoundValueP ca) (ca_typeGiven ca).

Definition deleteAttrInNotifyCer (cav : list ContextAttribute) (target : ContextAttribute) : list ContextAttribute :=
  (fun ca => if ca_name ca =s ca_name target then set_skip ca else ca) <$> cav.

(** ** The service path of a query for subscriptions *)

Definition spath_prefix (spathV : list string) (n : nat) : string :=
  concat_str ((fun s => backslash +:+ "/" +:+ s) <$> take n spathV).

Definition servicePathSubscriptionRegex (servicePath : string) : string :=
  let '(spathComponents, spathV) := if servicePath =s "" then (0, []) else stringSplit servicePath "/" in
  if spathComponents =? 0 then "^$|^" +:+ backslash +:+ "/#$|^" +:+ backslash +:+ "/$"
  else
    "^$|^" +:+ backslash +:+ "/#$" +:+
    concat_str ((fun ix => "|^" +:+ spath_prefix spathV (S ix) +:+ backslash +:+ "/#$")
                  <$> seq 0 (Z.to_nat spathComponents)) +:+
    "|^" +:+ spath_prefix spathV (Z.to_nat spathComponents) +:+ "$".

(** ** Triggering *)

(** The filter can be cloned. *)
Definition filter_ok (regcomp : string -> bool) (sf : StringFilter) : Prop :=
  Forall (fun i => sfi_compiledPattern i = true -> regcomp (c_str (sfi_stringValue i)) = true) (sf_filters sf).

Definition notifiable (regcomp : string -> bool) (cs : CachedSubscription) : Prop :=
  is_Some (cs_subscriptionId cs) /\ is_Some (cs_reference cs) /\
  filter_ok regcomp (ex_stringFilter (cs_expression cs)).

(** Not expired, active, and not notified too recently. *)
Definition eligible (now : Z) (cs : CachedSubscription) : bool :=
  (now <=? cs_expirationTime cs) && negb (cs_status cs =s STATUS_INACTIVE) &&
  ((cs_throttling cs =? -1) || (cs_lastNotificationTime cs =? 0)
   || (cs_throttling cs <=? now - cs_lastNotificationTime cs)).

(** The triggered subscription of a cached one: georel, geometry and coords are given to
    fillExpression in the wrong order. *)
Definition triggered_of (cs : CachedSubscription) : TriggeredSubscription :=
  let ex := cs_expression cs in
  mkTriggered (cs_throttling cs) (cs_lastNotificationTime cs) (cs_renderFormat cs)
    (default "" (cs_reference cs)) (cs_attributes cs) (id_of cs) (default "" (cs_tenant cs))
    (Some (ex_stringFilter ex)) (ex_coords ex) (ex_georel ex) (ex_geometry ex).

Section TriggerFacts.

Context (regcomp : string -> bool) (regexec : string -> string -> bool).

Lemma sf_clone_ok sf : filter_ok regcomp sf -> sf_clone regcomp sf = inr sf.
Proof. intros H. unfold sf_clone. rewrite fill_loop_all by done. by destruct sf. Qed.

Lemma trigger_one_eligible now cs : notifiable regcomp cs ->
  trigger_one regcomp now cs =
    Ret (if eligible now cs then Some (inr (id_of cs, triggered_of cs)) else None).
Proof.
  intros ([i Hi] & [r Hr] & Hf). unfold trigger_one, eligible.
  rewrite Z.leb_antisym. destruct (cs_expirationTime cs <? now); [done|]. cbn [negb andb].
  destruct (cs_status cs =s STATUS_INACTIVE); [done|]. cbn [negb andb].
  rewrite (Z.leb_antisym (now - _)).
  destruct (cs_throttling cs =? -1), (cs_lastNotificationTime cs =? 0), (_ <? cs_throttling cs);
    cbn; try done; rewrite Hr, Hi; cbn; unfold stringFilterSet; rewrite (sf_clone_ok _ Hf); cbn;
    unfold triggered_of, id_of; by rewrite Hi, Hr.
Qed.

Lemma trigger_loop_seg h now p ls (P : loc * CachedSubscription -> bool) m : seg h p ls None ->
  Forall (notifiable regcomp) (subs ls) ->
  trigger_loop regcomp h now (locs (List.filter P ls)) m =
    Ret (true, foldl (fun m s => map_insert (id_of s) (triggered_of s) m) m
                 (List.filter (eligible now) (subs (List.filter P ls)))).
Proof.
  revert p m. induction ls as [|[l s] ls IH]; intros p m; cbn [seg]; [done|].
  intros (-> & n & Hl & Hc) Hn. apply Forall_cons in Hn as [Hs Hn]. cbn in Hs. cbn [List.filter].
  destruct (P (l, s)); [|by apply (IH n)]. cbn [locs fmap list_fmap trigger_loop fst].
  rewrite (deref_here _ _ _ _ Hl). cbn [mbind cpp_bind node_sub].
  rewrite trigger_one_eligible by done. cbn [mbind cpp_bind].
  change (subs ((l, s) :: List.filter P ls)) with (s :: subs (List.filter P ls)). cbn [List.filter].
  destruct (eligible now s); cbn [foldl]; by apply (IH n).
Qed.

Lemma triggered_selects fuel c ls now id type attrs m tenant spV :
  cache_repr c ls -> (length ls <= fuel)%nat ->
  Forall (sub_ok regcomp) (subs ls) -> Forall (notifiable regcomp) (subs ls) ->
  int32_min <= now <= int32_max ->
  addTriggeredSubscriptions_withCache regcomp regexec fuel c now id type attrs m tenant spV =
    Ret (true,
      foldl (fun m s => map_insert (id_of s) (triggered_of s) m) m
        (List.filter (eligible now)
          (subs (List.filter (fun x => sub_selects regexec (subCacheMultitenant c) (Some (c_str tenant))
             (c_str match spV with sp :: _ => sp | [] => "" end) (c_str id) (c_str type) attrs x.2) ls)))).
Proof.
  intros Hr Hf Hok Hn Hnow. unfold addTriggeredSubscriptions_withCache, subCacheMatch.
  rewrite (match_seg _ _ _ _ _ ls) by (done || apply Hr). cbn [mbind cpp_bind app].
  rewrite (trigger_loop_seg _ _ (head c)) by (done || apply Hr). by rewrite int32_small.
Qed.

(** C25. An update triggers exactly the cached subscriptions that select it and are not
    expired, not inactive and not throttled, each with a copy of its string filter; a
    subscription whose id is already in the map does not replace it.  The expression of
    the triggered subscription has its three texts permuted (georel holds the geometry,
    geometry the coordinates, coords the georel). *)
Theorem addTriggeredSubscriptions_withCache_spec fuel c ls now id type attrs m tenant spV :
  cache_repr c ls -> (length ls <= fuel)%nat ->
  Forall (sub_ok regcomp) (subs ls) -> Forall (notifiable regcomp) (subs ls) ->
  int32_min <= now <= int32_max ->
  addTriggeredSubscriptions_withCache regcomp regexec fuel c now id type attrs m tenant spV =
    Ret (true,
      foldl (fun m s => map_insert (id_of s) (triggered_of s) m) m
        (List.filter (eligible now)
          (subs (List.filter (fun x => sub_selects regexec (subCacheMultitenant c) (Some (c_str tenant))
             (c_str match spV with sp :: _ => sp | [] => "" end) (c_str id) (c_str type) attrs x.2) ls)))).
Proof. apply triggered_selects. Qed.

End TriggerFacts.

(** ** Processing *)

(** Throttling does not block a triggered subscription: enough time has passed since the
    last notification, or one of the two members is 1. *)
Definition due (now : Z) (t : TriggeredSubscription) : bool :=
  (ts_throttling t =? 1) || (ts_lastNotification t =? 1)
  || (ts_throttling t <=? now - ts_lastNotification t).

(** The attributes named in the list, once per occurrence of the name, without the
    deleted ones; all of them for an empty list. *)
Definition notified_attributes (attrL : list string) (cav : list ContextAttribute) : list ContextAttribute :=
  match attrL with
  | [] => cav
  | _ => concat ((fun ca => if ca_skip ca then []
                            else replicate (length (filter (fun a => a = ca_name ca) attrL)) ca) <$> cav)
  end.

(** The notification of a triggered subscription at time [now], if one is sent. *)
Definition notification_of (regexec : string -> string -> bool) (memBool : bool) (now : Z) (ce : ContextElement)
    (tenant xauthToken fiwareCorrelator : string) (x : string * TriggeredSubscription) : option Notification :=
  let t := x.2 in
  let cav := notified_attributes (ts_attrL t) (ce_contextAttributeVector ce) in
  let accepted := match ts_stringFilterP t with
                  | Some sf => forallb (item_holds regexec memBool ce) (up_to_pattern (sf_filters sf))
                  | None => true
                  end in
  if due now t && accepted && negb (length cav =? 0)%nat
  then Some (mkNotification x.1 "localhost" (ce_entityId ce) cav (ts_reference t) tenant xauthToken
               fiwareCorrelator (ts_renderFormat t) (ts_attrL t))
  else None.

Lemma throttled_due now t : throttled t now = negb (due now t).
Proof.
  unfold throttled, due. rewrite !negb_orb, Z.leb_antisym, negb_involutive. done.
Qed.

Lemma named_replicate ca attrL :
  flat_map (fun a => if (ca_name ca =s a) && negb (ca_skip ca) then [ca] else []) attrL
    = if ca_skip ca then [] else replicate (length (filter (fun a => a = ca_name ca) attrL)) ca.
Proof.
  induction attrL as [|a attrL IH]; [by destruct (ca_skip ca)|]. cbn [flat_map]. rewrite IH.
  destruct (ca_skip ca); cbn [negb]; [by rewrite andb_false_r|].
  destruct (ca_name ca =s a) eqn:E; cbn.
  - apply str_eqb_eq in E as <-. by rewrite decide_True.
  - apply str_eqb_neq in E. by rewrite decide_False.
Qed.

Lemma notify_attrs_notified cav attrL : notify_attrs cav attrL = notified_attributes attrL cav.
Proof.
  unfold notify_attrs, notified_attributes. destruct attrL as [|a attrL]; cbn [length Nat.eqb].
  - induction cav as [|ca cav IH]; [done|]. cbn. by rewrite IH.
  - generalize (a :: attrL) as l. intros l.
    induction cav as [|ca cav IH]; [done|]. cbn [flat_map fmap list_fmap concat].
    by rewrite IH, named_replicate.
Qed.

Definition sends (regexec : string -> string -> bool) (memBool : bool) (now : Z) (ce : ContextElement)
    (tenant xauthToken fiwareCorrelator : string) (x : string * TriggeredSubscription) : bool :=
  match notification_of regexec memBool now ce tenant xauthToken fiwareCorrelator x with
  | Some _ => true
  | None => false
  end.

(** The first cached subscription with that tenant and id counts one notification more. *)
Fixpoint bump (tenant : option string) (id : string) (now : Z) (ls : list (loc * CachedSubscription))
    : list (loc * CachedSubscription) :=
  match ls with
  | [] => []
  | (l, s) :: ls' => if lookup_key tenant id s then (l, notified now s) :: ls'
                     else (l, s) :: bump tenant id now ls'
  end.

Definition bump_for (now : Z) (t : TriggeredSubscription) (ls : list (loc * CachedSubscription))
    : list (loc * CachedSubscription) :=
  if ts_cacheSubId t =s "" then ls
  else bump (Some (c_str (ts_tenant t))) (c_str (ts_cacheSubId t)) now ls.

Lemma bump_split tenant id now ls :
  match hd_error (List.filter (fun x => lookup_key tenant id x.2) ls) with
  | None => bump tenant id now ls = ls
  | Some (l, s) => exists l1 l2, ls = l1 ++ (l, s) :: l2 /\ bump tenant id now ls = l1 ++ (l, notified now s) :: l2
  end.
Proof.
  induction ls as [|[l s] ls IH]; [done|]. cbn. destruct (lookup_key tenant id s); cbn.
  - by exists [], ls.
  - destruct (hd_error _) as [[l' s']|]; [|by rewrite IH].
    destruct IH as (l1 & l2 & -> & ->). by exists ((l, s) :: l1), l2.
Qed.

Lemma set_sub_repr c l1 l s l2 s' : cache_repr c (l1 ++ (l, s) :: l2) -> exists n c',
  heap c !! l = Some (mkNode s n) /\ set_sub c l s' = Ret c' /\ cache_repr c' (l1 ++ (l, s') :: l2) /\
  subCacheActive c' = subCacheActive c.
Proof.
  intros [Hc Ht Hnd Hdom]. apply seg_app in Hc as (r & H1 & -> & n & Hl & H2).
  exists n. unfold set_sub. rewrite (deref_here _ _ _ _ Hl). eexists. split; [done|]. split; [done|].
  split; [|done]. rewrite locs_app in *. cbn in Ht, Hnd, Hdom.
  apply NoDup_app in Hnd as Hnd'. destruct Hnd' as (_ & Hd & Hn2). apply NoDup_cons in Hn2 as [Hn2 _].
  split; cbn [heap head tail set_list]; rewrite ?locs_app; cbn; try done.
  - apply seg_app. exists (Some l). split.
    + apply seg_insert; [|done]. intros H. apply (Hd _ H). by left.
    + split; [done|]. exists n. rewrite lookup_insert_eq. split; [done|]. by apply seg_insert.
  - rewrite dom_insert_L, Hdom. set_solver.
Qed.

Section ProcessFacts.

Context (regexec : string -> string -> bool) (getCurrentTime : nat -> Z).
Context (collectionUpdate : string -> Z -> bool) (now : Z).
Context (Hclock : forall n, getCurrentTime n = now).

Lemma with_ids_bump tenant id ls : with_ids ls -> with_ids (bump tenant id now ls).
Proof.
  unfold with_ids. induction ls as [|[l s] ls IH]; [done|]. cbn. rewrite Forall_cons. intros [Hs Hls].
  destruct (lookup_key tenant id s); cbn; constructor; auto.
Qed.

Lemma length_bump tenant id ls : length (bump tenant id now ls) = length ls.
Proof. induction ls as [|[l s] ls IH]; [done|]. cbn. destruct (lookup_key _ _ _); cbn; by f_equal. Qed.

Lemma update_cached_repr fuel c ls t : cache_repr c ls -> (length ls <= fuel)%nat -> with_ids ls ->
  exists c', update_cached fuel c t now = Ret c' /\ cache_repr c' (bump_for now t ls) /\
    subCacheActive c' = subCacheActive c.
Proof.
  intros Hr Hf Hid. unfold update_cached, bump_for. destruct (ts_cacheSubId t =s ""); [by exists c|].
  unfold subCacheItemLookup. rewrite (lookup_seg _ _ _ ls) by (done || apply Hr). cbn [mbind cpp_bind].
  pose proof (bump_split (Some (c_str (ts_tenant t))) (c_str (ts_cacheSubId t)) now ls) as Hb.
  destruct (hd_error _) as [[l s]|]; cbn [fmap option_fmap option_map fst].
  - destruct Hb as (l1 & l2 & -> & Hb). rewrite Hb.
    destruct (set_sub_repr c l1 l s l2 (notified now s) Hr) as (n & c' & Hl & H & Hr' & Ha).
    exists c'. rewrite (deref_here _ _ _ _ Hl). done.
  - exists c. by rewrite Hb.
Qed.

Lemma process_one_eq memBool fuel ce tenant xt fc st id t :
  let ticks := (ns_ticks st + (if reads_clock t then 1 else 0))%nat in
  process_one regexec getCurrentTime collectionUpdate memBool fuel ce tenant xt fc st id t =
    match notification_of regexec memBool now ce tenant xt fc (id, t) with
    | None => Ret (mkNotifyState (ns_cache st) (ns_sent st) ticks (ns_ret st))
    | Some nt =>
        c ← update_cached fuel (ns_cache st) t now;
        Ret (mkNotifyState c (ns_sent st ++ [nt]) (S ticks)
               (if subCacheActive (ns_cache st) then ns_ret st else collectionUpdate id now))
    end.
Proof.
  unfold process_one, notification_of, processOnChangeConditionForUpdateContext. cbn [fst snd].
  rewrite !Hclock, throttled_due, notify_attrs_notified.
  destruct (due now t); cbn [negb andb]; [|done].
  assert (match ts_stringFilterP t with
          | Some sf => negb (sf_match regexec memBool ce (sf_filters sf)) | None => false end
    = negb (match ts_stringFilterP t with
            | Some sf => forallb (item_holds regexec memBool ce) (up_to_pattern (sf_filters sf))
            | None => true end)) as ->.
  { destruct (ts_stringFilterP t); [by rewrite sf_match_items|done]. }
  destruct (match ts_stringFilterP t with Some sf => _ | None => true end); cbn [negb andb]; [|done].
  by destruct (notified_attributes _ _).
Qed.

Lemma process_loop_spec memBool fuel ce tenant xt fc m : forall st ls,
  cache_repr (ns_cache st) ls -> (length ls <= fuel)%nat -> with_ids ls ->
  subCacheActive (ns_cache st) = true ->
  exists st', process_loop regexec getCurrentTime collectionUpdate memBool fuel ce tenant xt fc st m = Ret st' /\
    ns_sent st' = ns_sent st ++ omap (notification_of regexec memBool now ce tenant xt fc) m /\
    ns_ret st' = ns_ret st /\
    cache_repr (ns_cache st') (foldl (fun ls x => bump_for now x.2 ls) ls
      (List.filter (sends regexec memBool now ce tenant xt fc) m)).
Proof.
  induction m as [|[id t] m IH]; intros st ls Hr Hf Hid Ha; cbn [process_loop].
  - exists st. by rewrite app_nil_r.
  - cbn [List.filter omap list_omap]. unfold sends at 1. rewrite process_one_eq.
    destruct (notification_of _ _ _ _ _ _ _ (id, t)) as [nt|];
      [|exact (IH (mkNotifyState (ns_cache st) (ns_sent st) _ (ns_ret st)) ls Hr Hf Hid Ha)].
    destruct (update_cached_repr fuel (ns_cache st) ls t Hr Hf Hid) as (c' & -> & Hr' & Ha').
    cbn [mbind cpp_bind foldl snd]. rewrite Ha.
    destruct (IH (mkNotifyState c' (ns_sent st ++ [nt])
      (S (ns_ticks st + (if reads_clock t then 1 else 0))) (ns_ret st)) (bump_for now t ls))
      as (st' & H & Hs & Hret & Hr2).
    + done.
    + unfold bump_for. destruct (_ =s ""); [done|]. by rewrite length_bump.
    + unfold bump_for. destruct (_ =s ""); [done|]. by apply with_ids_bump.
    + cbn. by rewrite Ha'.
    + exists st'. split_and!; [done| |done|done]. rewrite Hs. cbn. by rewrite <- app_assoc.
Qed.

(** C8. With the cache active and the clock standing still, processing the triggered
    subscriptions sends, in the order of the ids, one notification for each that is not
    blocked by throttling (unless throttling or the last notification is 1, which is the
    only value exempted), whose string filter matches and that has attributes to
    notify; each notified subscription of the cache counts one notification more and
    takes the time, and the cache stays well formed. *)
Theorem processSubscriptions_spec memBool fuel c ls m ce tenant xt fc :
  cache_repr c ls -> (length ls <= fuel)%nat -> with_ids ls -> subCacheActive c = true ->
  exists st, processSubscriptions regexec getCurrentTime collectionUpdate memBool fuel c m ce tenant xt fc = Ret st /\
    ns_sent st = omap (notification_of regexec memBool now ce tenant xt fc) m /\ ns_ret st = true /\
    cache_repr (ns_cache st) (foldl (fun ls x => bump_for now x.2 ls) ls
      (List.filter (sends regexec memBool now ce tenant xt fc) m)).
Proof.
  intros Hr Hf Hid Ha. unfold processSubscriptions.
  exact (process_loop_spec memBool fuel ce tenant xt fc m (mkNotifyState c [] 0 true) ls Hr Hf Hid Ha).
Qed.

End ProcessFacts.

(** ** The notified entity *)

(** An attribute whose compound value, if any, is an object or a vector of known types. *)
Definition clonable (ca : ContextAttribute) : Prop :=
  match ca_compoundValueP ca with
  | None => True
  | Some n => storable n = true /\ (cvn_valueType n = ValueTypeObject \/ cvn_valueType n = ValueTypeVector)
  end.

Lemma merge_attribute_total useDefaultType ca target : clonable target ->
  exists m, merge_attribute useDefaultType ca target = Ret m /\ ca_name m = ca_name ca.
Proof.
  unfold clonable, merge_attribute, cloned. intros H.
  destruct (negb _); [|by eexists]. destruct (ca_compoundValueP target) as [n|]; [|by eexists].
  destruct H as [Hs Ht]. destruct (clone_at_spec n Hs true 0) as (c & Hc & _); [done|].
  unfold clone. rewrite Hc. by eexists.
Qed.

(** updateAttrInNotifyCer: in the notified entity the attribute of that name becomes
    the merge of the old one and the update (or a copy of the update if there was none)
    and every other attribute is as before; the compound value of the update is taken away
    only when there was none. *)
Theorem updateAttrInNotifyCer_lookup useDefaultType cav target : clonable target ->
  exists cav' target', updateAttrInNotifyCer useDefaultType cav target = Ret (cav', target') /\
    (forall name, (name =s ca_name target) = false -> find_attribute name cav' = find_attribute name cav) /\
    match find_attribute (ca_name target) cav with
    | Some ca => exists m, merge_attribute useDefaultType ca target = Ret m
        /\ find_attribute (ca_name target) cav' = Some m /\ target' = target
    | None => find_attribute (ca_name target) cav' = Some (ContextAttribute_copy target useDefaultType).1
        /\ target' = (ContextAttribute_copy target useDefaultType).2
    end.
Proof.
  intros Hc. induction cav as [|ca cav IH].
  - eexists _, _. split; [done|]. cbn. rewrite str_eqb_refl. split; [|done].
    intros name Hn. by rewrite str_eqb_sym, Hn.
  - cbn [updateAttrInNotifyCer find_attribute]. destruct (ca_name ca =s ca_name target) eqn:Et.
    + destruct (merge_attribute_total useDefaultType ca target Hc) as (m & Hm & Hn).
      rewrite Hm. eexists _, _. split; [done|]. cbn [find_attribute]. rewrite Hn, Et.
      split; [|by eexists]. apply str_eqb_eq in Et. intros name Hne.
      by rewrite Et, str_eqb_sym, Hne.
    + destruct IH as (cav' & target' & -> & IH1 & IH2). cbn [mbind cpp_bind].
      eexists _, _. split; [done|]. cbn [find_attribute]. rewrite Et. split; [|done].
      intros name Hne. by rewrite IH1.
Qed.

Lemma notify_attrs_skipped ca attrL : ca_skip ca = true -> (length attrL =? 0)%nat = false ->
  notify_attrs [ca] attrL = [].
Proof.
  intros Hs Hl. unfold notify_attrs. cbn. rewrite Hl, app_nil_r. clear Hl.
  induction attrL as [|a attrL IH]; [done|]. cbn [flat_map]. rewrite IH, Hs, andb_false_r. done.
Qed.

Lemma notify_attrs_named name ca attrL : (ca_name ca =s name) = false ->
  existsb (fun ca => ca_name ca =s name) (notify_attrs [ca] attrL) = false.
Proof.
  intros Hn. unfold notify_attrs. cbn. rewrite app_nil_r.
  destruct (length attrL =? 0)%nat; [by cbn; rewrite Hn|].
  induction attrL as [|a attrL IH]; [done|]. cbn. rewrite existsb_app, IH.
  destruct (_ && _); [by cbn; rewrite Hn|done].
Qed.

(** A deleted attribute is left out of the notifications of subscriptions that
    name the attributes to notify, but is still in those of subscriptions with an empty
    attribute list (all attributes): the skip mark is only looked at in the first case. *)
Theorem deleted_attribute_notified cav target attrL :
  existsb (fun ca => ca_name ca =s ca_name target) (notify_attrs (deleteAttrInNotifyCer cav target) attrL)
    = (length attrL =? 0)%nat && existsb (fun ca => ca_name ca =s ca_name target) cav.
Proof.
  induction cav as [|ca cav IH]; [by destruct (length attrL =? 0)%nat|].
  change (notify_attrs (deleteAttrInNotifyCer (ca :: cav) target) attrL) with
    ((if (length attrL =? 0)%nat then [if ca_name ca =s ca_name target then set_skip ca else ca]
      else flat_map (fun a => if (ca_name (if ca_name ca =s ca_name target then set_skip ca else ca) =s a)
        && negb (ca_skip (if ca_name ca =s ca_name target then set_skip ca else ca))
        then [if ca_name ca =s ca_name target then set_skip ca else ca] else []) attrL)
     ++ notify_attrs (deleteAttrInNotifyCer cav target) attrL).
  set (ca' := if ca_name ca =s ca_name target then set_skip ca else ca).
  rewrite <- (app_nil_r (if (length attrL =? 0)%nat then _ else _)).
  change ((if (length attrL =? 0)%nat then [ca'] else _) ++ []) with (notify_attrs [ca'] attrL).
  rewrite existsb_app, IH. cbn [existsb]. destruct (ca_name ca =s ca_name target) eqn:E; subst ca'.
  - destruct (length attrL =? 0)%nat eqn:El.
    + unfold notify_attrs. cbn. by rewrite El; cbn; rewrite E.
    + by rewrite notify_attrs_skipped.
  - rewrite notify_attrs_named by done. by destruct (length attrL =? 0)%nat.
Qed.

(** ** Witnesses *)

Definition live_sub : CachedSubscription :=
  mkCachedSubscription [EntityInfo_new "Room" "" "false"] [] [mkNotifyCondition "ONCHANGE" ["temp"]]
    None (Some "/a/b/#") (Some "51c0ac9ed714fb3b37d7d5a8") 5 2000 90 "active" 0 NGSI_V1_LEGACY
    (Some "http://localhost") (mkExpression "" "point" "1,2" "near" (mkStringFilter [] []) false).

Definition live_cache : SubCache :=
  mkSubCache {[ 1%positive := mkNode live_sub None ]} (Some 1%positive) (Some 1%positive) 0 1 0 0 true false.

Lemma live_repr : cache_repr live_cache [(1%positive, live_sub)].
Proof.
  split; cbn; [|done| |].
  - split; [done|]. exists None. split; [|done]. apply lookup_singleton_eq.
  - apply NoDup_singleton.
  - rewrite dom_singleton_L. set_solver.
Qed.

Lemma live_ok : sub_ok (fun _ => true) live_sub /\ notifiable (fun _ => true) live_sub.
Proof.
  split; [split; [exists "/a/b/#"; split; [done|]; cbn; lia|repeat constructor]|].
  split_and!; [by eexists|by eexists|constructor].
Qed.

Lemma addTriggeredSubscriptions_withCache_spec_witness :
  addTriggeredSubscriptions_withCache (fun _ => true) (fun _ _ => false) 1 live_cache 100 "Room" "" ["temp"]
    [] "" ["/a/b"] = Ret (true, [("51c0ac9ed714fb3b37d7d5a8", triggered_of live_sub)]).
Proof.
  rewrite (addTriggeredSubscriptions_withCache_spec (fun _ => true) (fun _ _ => false) 1 live_cache
    [(1%positive, live_sub)] 100 "Room" "" ["temp"] [] "" ["/a/b"] live_repr (le_n 1)).
  - reflexivity.
  - constructor; [exact (proj1 live_ok)|constructor].
  - constructor; [exact (proj2 live_ok)|constructor].
  - split; discriminate.
Defined.

Definition live_entity : ContextElement :=
  mkContextElement (mkEntityId "Room" "" "false" "") [ContextAttribute_string "temp" "" "25" false S754_nan false]
    S754_nan S754_nan.

Lemma processSubscriptions_spec_witness : exists st,
  processSubscriptions (fun _ _ => false) (fun _ => 100) (fun _ _ => true) false 1 live_cache
    [("51c0ac9ed714fb3b37d7d5a8", triggered_of live_sub)] live_entity "" "" "" = Ret st
  /\ length (ns_sent st) = 1%nat.
Proof.
  destruct (processSubscriptions_spec (fun _ _ => false) (fun _ => 100) (fun _ _ => true) 100
    (fun _ => eq_refl) false 1 live_cache [(1%positive, live_sub)]
    [("51c0ac9ed714fb3b37d7d5a8", triggered_of live_sub)] live_entity "" "" "" live_repr (le_n 1))
    as (st & H & Hs & _).
  - constructor; [eexists; reflexivity|constructor].
  - reflexivity.
  - exists st. split; [exact H|]. rewrite Hs. reflexivity.
Defined.

Lemma updateAttrInNotifyCer_lookup_witness : exists cav' target',
  updateAttrInNotifyCer true (ce_contextAttributeVector live_entity)
    (ContextAttribute_string "hum" "" "80" false S754_nan false) = Ret (cav', target') /\
  length cav' = 2%nat /\ find_attribute "temp" cav' = find_attribute "temp" (ce_contextAttributeVector live_entity).
Proof.
  destruct (updateAttrInNotifyCer_lookup true (ce_contextAttributeVector live_entity)
    (ContextAttribute_string "hum" "" "80" false S754_nan false) I) as (cav' & target' & H & Hf & _).
  exists cav', target'. split; [exact H|]. split; [injection H as <- _; reflexivity|].
  exact (Hf "temp" eq_refl).
Defined.
