(* ===== verification/EntityUpdate.v ===== *)
(** * Updating a stored entity

    mongoBackend/MongoCommonUpdate.cpp, from setResponseMetadata to
    processContextAttributeVector: the attributes of a request are processed one after the
    other, and each adds to the update of the document, to the response, to the entity that
    subscribers are notified of and to the list of modified attributes.  All of that
    is the record [Work].  [clock ix] is what getCurrentTime answers while attribute [ix] is
    processed (it is read at most once).  addTriggeredSubscriptions, which looks for the
    subscriptions in the cache or in the database, is a parameter: the text of its error, if
    any, and the triggered subscriptions. *)

From S2P Require Import Prelude Strings Double Bson Compound Ngsi AttrUpdate Location.
From S2P Require Import FilterParse FilterMatch SubCache SubSync Notify.

Open Scope Z_scope.

(** ** Status codes and responses *)

Definition SccNone : Z := 0.
Definition SccOk : Z := 200.
Definition SccInvalidParameter : Z := 472.
Definition SccReceiverInternalError : Z := 500.

Record StatusCode := mkStatusCode { sc_code : Z; sc_details : string }.

(** EntityId::toString *)
Definition toString (e : EntityId) : string := eid_id e +:+ ", " +:+ eid_type e.

(** setResponseMetadata: the metadata added to the attribute of the response. *)
Definition setResponseMetadata (memNumber : double) (memBool : bool) (caReq : ContextAttribute) : list Metadata :=
  (if negb (getId caReq =s "") then [Metadata_string NGSI_MD_ID "string" (getId caReq) memNumber memBool] else [])
  ++ (if negb (getLocation caReq "v1" =s "") && negb (ca_type caReq =s GEO_POINT)
      then [Metadata_string NGSI_MD_LOCATION "string" (getLocation caReq "v1") memNumber memBool] else [])
  ++ flat_map (fun md => if negb (isNotCustomMetadata (md_name md)) then [Metadata_copy md false] else [])
       (ca_metadataVector caReq).

(** new ContextAttribute(name, type, ""), with the response metadata. *)
Definition response_attribute (memNumber : double) (memBool : bool) (target : ContextAttribute) (found : bool)
    : ContextAttribute :=
  mkContextAttribute (ca_name target) (ca_type target) (setResponseMetadata memNumber memBool target)
    ValueTypeString "" memNumber memBool "" found false None false.

(** The fields of the stored attributes whose name before "__" is [attrName]. *)
Definition howManyAttrs (attrs : doc) (attrName : string) : nat :=
  length (filter (fun n => basePart n = attrName) (remove_dups (fst <$> attrs))).

(** ** The state of the loop *)

Record Work := mkWork {
  w_response : list ContextAttribute;    (* cerP: the attributes of the response *)
  w_status : StatusCode;                 (* cerP: its status code *)
  w_notify : list ContextAttribute;      (* notifyCerP: the attributes of the notified entity *)
  w_update : Update;                     (* toSet, toUnset, toPush, toPull *)
  w_modified : bool;                     (* entityModified *)
  w_loc : string;                        (* currentLocAttrName *)
  w_geo : doc;                           (* geoJson *)
  w_deleted : list (string * Z);            (* deletedAttributesCounter *)
  w_modifiedAttrs : list string;
  w_targets : list ContextAttribute      (* the attributes of the request, as they are left *)
}.

(** What the processing of one attribute leaves: whether it may go on, actualUpdate, the
    found member of the response attribute, and the attribute of the request. *)
Record Item := mkItem { it_ok : bool; it_actual : bool; it_found : bool; it_target : ContextAttribute }.

Definition fail_details (action : string) (e : EntityId) (target : ContextAttribute) (what : string) : string :=
  "action: " +:+ action +:+ " - entity: [" +:+ toString e +:+ "] - offending attribute: "
  +:+ ca_name target +:+ what.

Section Items.

Variable mem : Metadata.

(** updateContextAttributeItem *)
Definition updateContextAttributeItem (now : Z) (attrs : doc) (e : EntityId) (isReplace : bool)
    (apiVersion : string) (target : ContextAttribute) (w : Work) : cpp (Item * Work) :=
  r ← updateAttribute mem now attrs target isReplace apiVersion (w_update w);
  let '(found, actual, u) := (r : bool * bool * Update) in
  let status := if found || isReplace then w_status w
                else mkStatusCode SccInvalidParameter (fail_details "UPDATE" e target "") in
  let modified := if found then actual || w_modified w else w_modified w in
  let itfound := found || isReplace in
  match processLocationAtUpdateAttribute (w_loc w) target (w_geo w) apiVersion with
  | inl err =>
      Ret (mkItem false actual itfound target,
           mkWork (w_response w) (mkStatusCode SccInvalidParameter (fail_details "UPDATE" e target (" - " +:+ err)))
             (w_notify w) u modified (w_loc w) (w_geo w) (w_deleted w) (w_modifiedAttrs w) (w_targets w))
  | inr (loc, geo) =>
      n ← updateAttrInNotifyCer (apiVersion =s "v2") (w_notify w) target;
      let '(notify, target') := (n : list ContextAttribute * ContextAttribute) in
      Ret (mkItem true actual itfound target',
           mkWork (w_response w) status notify u modified loc geo (w_deleted w) (w_modifiedAttrs w) (w_targets w))
  end.

(** appendContextAttributeItem *)
Definition appendContextAttributeItem (now : Z) (attrs : doc) (e : EntityId) (apiVersion : string)
    (target : ContextAttribute) (w : Work) : cpp (Item * Work) :=
  let failed what u modified actual :=
    (mkItem false actual true target,
     mkWork (w_response w) (mkStatusCode SccInvalidParameter (fail_details "APPEND" e target what))
       (w_notify w) u modified (w_loc w) (w_geo w) (w_deleted w) (w_modifiedAttrs w) (w_targets w)) in
  if negb (legalIdUsage attrs target) then
    Ret (failed " - attribute cannot be appended" (w_update w) (w_modified w) true)
  else
    r ← appendAttribute mem now attrs target apiVersion (w_update w);
    let '(actualAppend, actual, u) := (r : bool * bool * Update) in
    let modified := actual || w_modified w in
    match processLocationAtAppendAttribute (w_loc w) target actualAppend (w_geo w) apiVersion with
    | inl err => Ret (failed (" - " +:+ err) u modified actual)
    | inr (loc, geo) =>
        n ← updateAttrInNotifyCer (apiVersion =s "v2") (w_notify w) target;
        let '(notify, target') := (n : list ContextAttribute * ContextAttribute) in
        Ret (mkItem true actual true target',
             mkWork (w_response w) (w_status w) notify u modified loc geo (w_deleted w) (w_modifiedAttrs w)
               (w_targets w))
    end.

(** deleteContextAttributeItem *)
Definition deleteContextAttributeItem (attrs : doc) (e : EntityId) (apiVersion : string)
    (target : ContextAttribute) (w : Work) : Item * Work :=
  let '(deleted, counter, u) := deleteAttribute attrs target (w_deleted w) (w_update w) in
  if deleted then
    let notify := deleteAttrInNotifyCer (w_notify w) target in
    if negb (getLocation target apiVersion =s "") then
      (mkItem false true true target,
       mkWork (w_response w)
         (mkStatusCode SccInvalidParameter (fail_details "DELETE" e target
            " - location attribute has to be defined at creation time, with APPEND"))
         notify u true (w_loc w) (w_geo w) counter (w_modifiedAttrs w) (w_targets w))
    else
      (mkItem true true true target,
       mkWork (w_response w) (w_status w) notify u true
         (if w_loc w =s ca_name target then "" else w_loc w) (w_geo w) counter (w_modifiedAttrs w) (w_targets w))
  else
    (mkItem false true false target,
     mkWork (w_response w)
       (mkStatusCode SccInvalidParameter (fail_details "DELETE" e target " - attribute not found"))
       (w_notify w) u (w_modified w) (w_loc w) (w_geo w) counter (w_modifiedAttrs w) (w_targets w)).

(** The branches on the action. *)
Definition process_item (now : Z) (attrs : doc) (e : EntityId) (action apiVersion : string)
    (target : ContextAttribute) (w : Work) : cpp (Item * Work) :=
  if strcasecmp_eq (c_str action) "update" || strcasecmp_eq (c_str action) "replace" then
    updateContextAttributeItem now attrs e (strcasecmp_eq (c_str action) "replace") apiVersion target w
  else if strcasecmp_eq (c_str action) "append" || strcasecmp_eq (c_str action) "append_strict" then
    appendContextAttributeItem now attrs e apiVersion target w
  else if strcasecmp_eq (c_str action) "delete" then
    Ret (deleteContextAttributeItem attrs e apiVersion target w)
  else
    Ret (mkItem false true true target,
         mkWork (w_response w) (mkStatusCode SccInvalidParameter ("unknown actionType: '" +:+ action +:+ "'"))
           (w_notify w) (w_update w) (w_modified w) (w_loc w) (w_geo w) (w_deleted w) (w_modifiedAttrs w)
           (w_targets w)).

(** One attribute: its response, its processing, and its name among the modified ones. *)
Definition finish_item (target : ContextAttribute) (r : Item * Work) : bool * Work :=
  let '(it, w) := r in
  (it_ok it,
   mkWork (w_response w ++ [response_attribute (md_numberValue mem) (md_boolValue mem) target (it_found it)])
     (w_status w) (w_notify w) (w_update w) (w_modified w) (w_loc w) (w_geo w) (w_deleted w)
     (if it_ok it && it_actual it then w_modifiedAttrs w ++ [ca_name target] else w_modifiedAttrs w)
     (w_targets w ++ [it_target it])).

Definition keep_target (target : ContextAttribute) (w : Work) : Work :=
  mkWork (w_response w) (w_status w) (w_notify w) (w_update w) (w_modified w) (w_loc w) (w_geo w) (w_deleted w)
    (w_modifiedAttrs w) (w_targets w ++ [target]).

(** The loop of processContextAttributeVector: false when an attribute made it return. *)
Fixpoint process_attributes (clock : nat -> Z) (ix : nat) (attrs : doc) (e : EntityId)
    (action apiVersion : string) (targets : list ContextAttribute) (w : Work) : cpp (bool * Work) :=
  match targets with
  | [] => Ret (true, w)
  | target :: targets' =>
      if ca_skip target then
        process_attributes clock (S ix) attrs e action apiVersion targets' (keep_target target w)
      else
        r ← process_item (clock ix) attrs e action apiVersion target w;
        let '(ok, w) := finish_item target r in
        if ok then process_attributes clock (S ix) attrs e action apiVersion targets' w
        else Ret (false, mkWork (w_response w) (w_status w) (w_notify w) (w_update w) (w_modified w) (w_loc w)
                           (w_geo w) (w_deleted w) (w_modifiedAttrs w) (w_targets w ++ targets'))
  end.

(** addTriggeredSubscriptions(entityId, entityType, modifiedAttrs, subsToNotify, ...) *)
Variable addTriggeredSubscriptions : string -> string -> list string -> SubMap -> cpp (option string * SubMap).

(** The attributes to pull from attrNames: those deleted as often as they are stored. *)
Definition pulled (attrs : doc) (deleted : list (string * Z)) : list string :=
  fst <$> filter (fun d => Z.of_nat (howManyAttrs attrs d.1) <= d.2) deleted.

Definition with_status (s : StatusCode) (w : Work) : Work :=
  mkWork (w_response w) s (w_notify w) (w_update w) (w_modified w) (w_loc w) (w_geo w) (w_deleted w)
    (w_modifiedAttrs w) (w_targets w).

Definition with_pull (l : list string) (w : Work) : Work :=
  mkWork (w_response w) (w_status w) (w_notify w) (foldl (fun u n => add_pull n u) (w_update w) l) (w_modified w)
    (w_loc w) (w_geo w) (w_deleted w) (w_modifiedAttrs w) (w_targets w).

(** processContextAttributeVector: true when the entity was modified. *)
Definition processContextAttributeVector (clock : nat -> Z) (attrs : doc) (e : EntityId)
    (action apiVersion : string) (targets : list ContextAttribute) (subs : SubMap) (w : Work)
    : cpp (bool * SubMap * Work) :=
  r ← process_attributes clock 0 attrs e action apiVersion targets w;
  let '(ok, w) := (r : bool * Work) in
  if negb ok then Ret (false, subs, w)
  else
    let w := if strcasecmp_eq (c_str action) "delete" then with_pull (pulled attrs (w_deleted w)) w else w in
    s ← addTriggeredSubscriptions (eid_id e) (eid_type e) (w_modifiedAttrs w) subs;
    let '(err, subs) := (s : option string * SubMap) in
    match err with
    | Some err => Ret (false, subs, with_status (mkStatusCode SccReceiverInternalError err) w)
    | None =>
        let w := if sc_code (w_status w) =? SccNone then with_status (mkStatusCode SccOk "") w else w in
        Ret (w_modified w, subs, w)
    end.

End Items.

(** addTriggeredSubscriptions when the cache is used; the error text is left aside. *)
Definition addTriggered_cache (regcomp : string -> bool) (regexec : string -> string -> bool) (fuel : nat)
    (c : SubCache) (now : Z) (tenant : string) (servicePathV : list string)
    (entityId entityType : string) (modifiedAttrs : list string) (subs : SubMap) : cpp (option string * SubMap) :=
  r ← addTriggeredSubscriptions_withCache regcomp regexec fuel c now entityId entityType modifiedAttrs subs
        tenant servicePathV;
  let '(ok, subs) := (r : bool * SubMap) in
  Ret (if (ok : bool) then None else Some "", subs).

(** ** The update sent to the database *)

(** The document for collectionUpdate; [now] is the time of the modification. *)
Definition updated_entity (action : string) (now : Z) (loc : string) (geo currentGeoJson : doc) (u : Update) : doc :=
  let isReplace := strcasecmp_eq (c_str action) "replace" in
  let toSet := (if isReplace then toSet u else toSet u ++ [(ENT_MODIFICATION_DATE, BsonInt now)])
    ++ (if negb (loc =s "")
        then [(ENT_LOCATION, BsonObj [(ENT_LOCATION_ATTRNAME, BsonString loc);
                 (ENT_LOCATION_COORDS, BsonObj (if (0 <? length geo)%nat then geo else currentGeoJson))])]
        else []) in
  let toUnset := toUnset u ++ (if negb (loc =s "") then [] else [(ENT_LOCATION, BsonInt 1)]) in
  let push := BsonArray (BsonString <$> toPush u) in
  if isReplace then
    [("$set", BsonObj [(ENT_ATTRS, BsonObj toSet); (ENT_ATTRNAMES, push); (ENT_MODIFICATION_DATE, BsonInt now)])]
  else
    (if (0 <? length toSet)%nat then [("$set", BsonObj toSet)] else [])
    ++ (if (0 <? length toUnset)%nat then [("$unset", BsonObj toUnset)] else [])
    ++ (if (0 <? length (toPush u))%nat
        then [("$addToSet", BsonObj [(ENT_ATTRNAMES, BsonObj [("$each", push)])])] else [])
    ++ (if (0 <? length (toPull u))%nat
        then [("$pullAll", BsonObj [(ENT_ATTRNAMES, BsonArray (BsonString <$> toPull u))])] else []).

(** ** What is written *)

Definition is_delete (action : string) : bool := strcasecmp_eq (c_str action) "delete".
Definition is_replace (action : string) : bool := strcasecmp_eq (c_str action) "replace".

(** The names the actions add to the update: to $unset for a deletion, else to $set. *)
Definition written (action : string) (u : Update) : list string :=
  fst <$> (if is_delete action then toUnset u else toSet u).
Definition not_written (action : string) (u : Update) : doc :=
  if is_delete action then toSet u else toUnset u.

Definition written_name (action : string) (ca : ContextAttribute) : string :=
  if is_replace action then effectiveName ca else composedName ca.

Definition known_action (action : string) : bool :=
  existsb (strcasecmp_eq (c_str action)) ["update"; "replace"; "append"; "append_strict"; "delete"].

Lemma strcasecmp_trans s t u : strcasecmp_eq s t = true -> strcasecmp_eq s u = strcasecmp_eq t u.
Proof. unfold strcasecmp_eq. by intros ->%str_eqb_eq. Qed.

Section Written.

Context (mem : Metadata) (attrs : doc) (e : EntityId) (api : string).

Lemma updateAttribute_written now target isReplace u r : 
  updateAttribute mem now attrs target isReplace api u = Ret r ->
  r.1.1 = isReplace || hasField attrs (effectiveName target) /\
  (r.1.1 = false -> r.1.2 = false) /\
  (fst <$> toSet r.2) = (fst <$> toSet u)
     ++ (if r.1.2 then [if isReplace then effectiveName target else composedName target] else []) /\
  toUnset r.2 = toUnset u.
Proof.
  unfold updateAttribute. destruct isReplace.
  - intros [= <-]. cbn. by rewrite fmap_app.
  - destruct (hasField attrs (effectiveName target)); cbn [negb].
    + destruct (embeddedObject _) as [attr| |]; try done. cbn [mbind cpp_bind].
      destruct (mergeAttrInfo mem now attr target api) as [[newAttr actual]| |]; try done. cbn [mbind cpp_bind].
      intros [= <-]. cbn. destruct actual; cbn; rewrite ?fmap_app, ?app_nil_r; by split_and!.
    + intros [= <-]. cbn. by rewrite app_nil_r.
Qed.

Lemma appendAttribute_written now target u r :
  appendAttribute mem now attrs target api u = Ret r ->
  (fst <$> toSet r.2) = (fst <$> toSet u) ++ (if r.1.2 then [composedName target] else []) /\
  toUnset r.2 = toUnset u /\ r.1.1 = negb (hasField attrs (effectiveName target)).
Proof.
  unfold appendAttribute. destruct (hasField attrs (effectiveName target)).
  - destruct (updateAttribute mem now attrs target false api u) as [[[f a] u']| |] eqn:E; try done.
    intros [= <-]. destruct (updateAttribute_written _ _ _ _ _ E) as (_ & _ & H1 & H2). by split_and!.
  - intros [= <-]. cbn. by rewrite fmap_app.
Qed.

(** What one attribute does to the update, to entityModified and to the modified names. *)
Definition item_writes (action : string) (target : ContextAttribute) (w : Work) (it : Item) (w' : Work) : Prop :=
  written action (w_update w')
    = written action (w_update w) ++ (if it_actual it then [written_name action target] else []) /\
  not_written action (w_update w') = not_written action (w_update w) /\
  w_modified w' = it_actual it || w_modified w /\
  w_modifiedAttrs w' = w_modifiedAttrs w.

Lemma update_item_writes now action target w it w' : is_delete action = false ->
  updateContextAttributeItem mem now attrs e (is_replace action) api target w = Ret (it, w') ->
  it_ok it = true -> item_writes action target w it w'.
Proof.
  intros Hd. unfold updateContextAttributeItem, item_writes, written, not_written, written_name. rewrite Hd.
  destruct (updateAttribute mem now attrs target (is_replace action) api (w_update w)) as [[[f a] u']| |] eqn:E; try done.
  destruct (updateAttribute_written _ _ _ _ _ E) as (_ & Hf & H1 & H2). cbn in Hf, H1, H2. cbn [mbind cpp_bind].
  destruct (processLocationAtUpdateAttribute _ _ _ _) as [err|[loc geo]]; [by intros [= <- <-]|].
  destruct (updateAttrInNotifyCer _ _ _) as [[n t']| |]; try done. cbn [mbind cpp_bind].
  intros [= <- <-] _. cbn. split_and!; try done. destruct f; [done|]. by rewrite Hf.
Qed.

Lemma append_item_writes now action target w it w' : is_delete action = false -> is_replace action = false ->
  appendContextAttributeItem mem now attrs e api target w = Ret (it, w') ->
  it_ok it = true -> item_writes action target w it w'.
Proof.
  intros Hd Hr. unfold appendContextAttributeItem, item_writes, written, not_written, written_name. rewrite Hd, Hr.
  destruct (legalIdUsage attrs target); cbn [negb]; [|by intros [= <- <-]].
  destruct (appendAttribute mem now attrs target api (w_update w)) as [[[f a] u']| |] eqn:E; try done.
  destruct (appendAttribute_written _ _ _ _ E) as (H1 & H2 & _). cbn in H1, H2. cbn [mbind cpp_bind].
  destruct (processLocationAtAppendAttribute _ _ _ _ _) as [err|[loc geo]]; [by intros [= <- <-]|].
  destruct (updateAttrInNotifyCer _ _ _) as [[n t']| |]; try done. cbn [mbind cpp_bind].
  intros [= <- <-] _. cbn. by split_and!.
Qed.

Lemma delete_item_writes action target w it w' : is_delete action = true -> is_replace action = false ->
  deleteContextAttributeItem attrs e api target w = (it, w') -> it_ok it = true ->
  item_writes action target w it w'.
Proof.
  intros Hd Hr. unfold deleteContextAttributeItem, item_writes, written, not_written, written_name, deleteAttribute.
  rewrite Hd, Hr. destruct (hasField attrs (effectiveName target)); cbn [negb]; [|by intros [= <- <-]].
  destruct (getLocation target api =s ""); cbn [negb]; [|by intros [= <- <-]].
  intros [= <- <-] _. cbn. by rewrite fmap_app.
Qed.

Lemma process_item_writes now action target w it w' :
  process_item mem now attrs e action api target w = Ret (it, w') -> it_ok it = true ->
  item_writes action target w it w'.
Proof.
  unfold process_item. fold (is_replace action) (is_delete action).
  assert (forall s, strcasecmp_eq (c_str action) s = true ->
    is_delete action = strcasecmp_eq s "delete" /\ is_replace action = strcasecmp_eq s "replace") as Hs.
  { intros s H. unfold is_delete, is_replace. by rewrite !(strcasecmp_trans _ _ _ H). }
  destruct (strcasecmp_eq (c_str action) "update") eqn:E1; cbn [orb].
  { destruct (Hs _ E1). by apply update_item_writes. }
  destruct (is_replace action) eqn:E2.
  { destruct (Hs _ E2) as [Hd _]. intros H Hok. eapply update_item_writes; [done| |done]. rewrite E2. exact H. }
  destruct (strcasecmp_eq (c_str action) "append") eqn:E3; cbn [orb].
  { destruct (Hs _ E3). by apply append_item_writes. }
  destruct (strcasecmp_eq (c_str action) "append_strict") eqn:E4.
  { destruct (Hs _ E4). by apply append_item_writes. }
  destruct (is_delete action) eqn:E5; [|by intros [= <- <-]].
  intros [= H]. by apply delete_item_writes.
Qed.

End Written.

Lemma process_attributes_sublist mem clock ix attrs e action api targets w w' :
  process_attributes mem clock ix attrs e action api targets w = Ret (true, w') ->
  exists changed, sublist changed (filter (fun ca => ca_skip ca = false) targets) /\
    written action (w_update w') = written action (w_update w) ++ (written_name action <$> changed) /\
    not_written action (w_update w') = not_written action (w_update w) /\
    w_modifiedAttrs w' = w_modifiedAttrs w ++ (ca_name <$> changed) /\
    w_modified w' = w_modified w || negb (length changed =? 0)%nat.
Proof.
  revert ix w. induction targets as [|target targets IH]; intros ix w; cbn [process_attributes].
  - intros [= <-]. exists []. cbn. by rewrite !app_nil_r, orb_false_r.
  - destruct (ca_skip target) eqn:Es.
    + intros H. rewrite filter_cons_False by congruence. exact (IH _ _ H).
    + rewrite filter_cons_True by done.
      destruct (process_item mem (clock ix) attrs e action api target w) as [[it w1]| |] eqn:E; try done.
      cbn [mbind cpp_bind finish_item]. destruct (it_ok it) eqn:Ok; [|done]. cbn [andb].
      destruct (process_item_writes _ _ _ _ _ _ _ _ _ _ E Ok) as (H1 & H2 & H3 & H4).
      intros H. destruct (IH _ _ H) as (changed & Hsub & I1 & I2 & I3 & I4). cbn in I1, I2, I3, I4.
      rewrite I1, I2, I3, I4, H1, H2, H3, H4. destruct (it_actual it).
      * exists (target :: changed). split; [by constructor|]. rewrite <- !app_assoc. cbn.
        by rewrite orb_true_r.
      * exists changed. split; [by constructor|]. by rewrite app_nil_r.
Qed.

(** C4. Processing the attributes of a request, when no attribute stops it: there is a
    sub-sequence [changed] of the attributes (those not marked as skipped) such that exactly
    their fields are added to the update ($unset for a deletion, $set for the other
    actions), exactly their names are the modified attributes that trigger
    subscriptions, and the entity is reported as modified exactly when there is one. *)
Theorem process_attributes_changes mem clock ix attrs e action api targets w w' :
  process_attributes mem clock ix attrs e action api targets w = Ret (true, w') ->
  exists changed, sublist changed (filter (fun ca => ca_skip ca = false) targets) /\
    written action (w_update w') = written action (w_update w) ++ (written_name action <$> changed) /\
    not_written action (w_update w') = not_written action (w_update w) /\
    w_modifiedAttrs w' = w_modifiedAttrs w ++ (ca_name <$> changed) /\
    w_modified w' = w_modified w || negb (length changed =? 0)%nat.
Proof. apply process_attributes_sublist. Qed.

(** An UPDATE of an attribute the entity does not have is not refused on the spot, as
    the comment says: nothing is written and the status tells it, but the processing goes
    on and the attribute is added to the entity that subscribers are notified of. *)
Theorem update_missing_attribute_notified mem now attrs e action api target w :
  strcasecmp_eq (c_str action) "update" = true ->
  hasField attrs (effectiveName target) = false -> find_attribute (ca_name target) (w_notify w) = None ->
  getLocation target api = "" -> (w_loc w =s ca_name target) = false ->
  exists it w', process_item mem now attrs e action api target w = Ret (it, w') /\
    it_ok it = true /\ it_found it = false /\ it_actual it = false /\ w_update w' = w_update w /\
    sc_code (w_status w') = SccInvalidParameter /\
    find_attribute (ca_name target) (w_notify w') = Some (ContextAttribute_copy target (api =s "v2")).1.
Proof.
  intros Ha Hf Hn Hl Hw. unfold process_item. rewrite Ha. cbn [orb].
  unfold updateContextAttributeItem. rewrite (strcasecmp_trans _ _ _ Ha). cbn [strcasecmp_eq str_map String.eqb].
  unfold updateAttribute. rewrite Hf. cbn. unfold processLocationAtUpdateAttribute. rewrite Hl, Hw. cbn.
  assert (forall b cav, find_attribute (ca_name target) cav = None ->
    updateAttrInNotifyCer b cav target = Ret (cav ++ [(ContextAttribute_copy target b).1], (ContextAttribute_copy target b).2))
    as Hcer.
  { intros b cav. induction cav as [|ca cav IH]; [done|]. cbn [find_attribute updateAttrInNotifyCer app].
    destruct (ca_name ca =s ca_name target); [done|]. intros H. by rewrite (IH H). }
  rewrite (Hcer (api =s "v2") _ Hn). cbn. eexists _, _. split; [done|]. cbn. split_and!; try done.
  revert Hn. generalize (w_notify w). intros cav Hn. induction cav as [|ca cav IH]; cbn in Hn |- *.
  - by rewrite str_eqb_refl.
  - destruct (ca_name ca =s ca_name target); [done|]. by apply IH.
Qed.

(** ** Counting stored attributes *)

Lemma basePart_any (q : ascii -> bool) n : str_any q (basePart n) = true -> str_any q n = true.
Proof.
  unfold basePart. destruct (find_str "__" n) as [[b i]|] eqn:E; [|done].
  apply find_str_before in E as [r ->]. rewrite str_any_app. by intros ->.
Qed.

(** The stored fields hold encoded names. *)
Definition encoded_names (attrs : doc) : Prop := Forall (fun f => str_any (fun c => c =c "."%char) f.1 = false) attrs.

Lemma howManyAttrs_none attrs name :
  encoded_names attrs -> str_any (fun c => c =c "."%char) name = true -> howManyAttrs attrs name = 0%nat.
Proof.
  unfold encoded_names. intros Ha Hn. unfold howManyAttrs. apply length_zero_iff_nil.
  assert (Forall (fun n => basePart n <> name) (remove_dups (fst <$> attrs))) as H.
  { apply Forall_forall. intros n Hin%elem_of_remove_dups%list_elem_of_fmap Hb.
    destruct Hin as ([n' v] & -> & Hin). rewrite Forall_forall in Ha. specialize (Ha _ Hin). cbn in Ha.
    subst name. cbn in Hn. apply basePart_any in Hn. congruence. }
  induction H as [|n l Hne _ IH]; [done|]. by rewrite filter_cons_False.
Qed.

(** Deleting an attribute whose name has a '.' always takes its name out of the stored
    list of names, whatever IDs of it stay: the count of the copies that are stored compares
    the name as it is with names that are stored encoded, and so is 0. *)
Theorem pulled_dotted attrs name deleted n :
  encoded_names attrs -> str_any (fun c => c =c "."%char) name = true -> (name, n) ∈ deleted -> 0 <= n ->
  name ∈ pulled attrs deleted.
Proof.
  intros Ha Hn Hin Hpos. unfold pulled. apply list_elem_of_fmap. exists (name, n). split; [done|].
  apply list_elem_of_filter. split; [|done]. cbn. rewrite howManyAttrs_none by done. lia.
Qed.

(** ** Witnesses *)

Lemma pulled_dotted_witness :
  "a.b"%string ∈ pulled [("a=b__1", BsonObj []); ("a=b__2", BsonObj [])] [("a.b"%string, 1)].
Proof.
  apply (pulled_dotted _ "a.b" [("a.b"%string, 1)] 1); [|reflexivity|by left|lia].
  repeat constructor.
Defined.

Definition stored_attrs : doc :=
  [("t", BsonObj [(ENT_ATTRS_TYPE, BsonString "T"); (ENT_ATTRS_VALUE, BsonString "a")]);
   ("u", BsonObj [(ENT_ATTRS_TYPE, BsonString "T"); (ENT_ATTRS_VALUE, BsonString "a")])].

Definition text (name value : string) : ContextAttribute :=
  ContextAttribute_string name "T" value true S754_nan false.

Definition start : Work :=
  mkWork [] (mkStatusCode SccNone "") [text "t" "a"; text "u" "a"] (mkUpdate [] [] [] []) false "" [] [] [] [].

Definition room : EntityId := mkEntityId "r" "Room" "false" "".

(** "t" is given the value it has, "u" another. *)
Lemma process_attributes_changes_witness : exists w',
  process_attributes no_mem (fun _ => 9) 0 stored_attrs room "update" "v2" [text "t" "a"; text "u" "b"] start
    = Ret (true, w') /\
  exists changed, sublist changed [text "t" "a"; text "u" "b"] /\
    w_modifiedAttrs w' = ca_name <$> changed /\ w_modified w' = negb (length changed =? 0)%nat.
Proof.
  eexists. split; [vm_compute; reflexivity|].
  destruct (process_attributes_changes no_mem (fun _ => 9) 0 stored_attrs room "update" "v2"
    [text "t" "a"; text "u" "b"] start _ ltac:(vm_compute; reflexivity)) as (changed & H1 & _ & _ & H2 & H3).
  exists changed. split; [exact H1|]. split; [exact H2|exact H3].
Defined.

Lemma update_missing_attribute_notified_witness : exists it w',
  process_item no_mem 9 stored_attrs room "update" "v2" (text "missing" "b") start = Ret (it, w') /\
  find_attribute "missing" (w_notify w') = Some (ContextAttribute_copy (text "missing" "b") true).1.
Proof.
  destruct (update_missing_attribute_notified no_mem 9 stored_attrs room "update" "v2" (text "missing" "b") start)
    as (it & w' & H & _ & _ & _ & _ & _ & Hn); try reflexivity.
  exists it, w'. split; [exact H|exact Hn].
Defined.
