(* ===== verification/UpdateContext.v ===== *)
(** * Update requests

    mongoBackend/mongoUpdateContext.cpp and the part of mongoBackend/MongoCommonUpdate.cpp
    that it calls for each entity of a request: contextElementPreconditionsCheck, updateEntity,
    removeEntity, processContextElement.  The entities collection of the tenant is the
    interface [EntityStore], and the subscriptions are the interface [Subscriptions], with
    the cache of SubCache.v and the notifications of Notify.v as its instance.
    registrationsQuery and the driver's fromjson are arguments.  [clock e ix] is what
    getCurrentTime answers while attribute [ix] of the [e]-th entity found is processed, the
    number of attributes standing for the time after them. *)

From S2P Require Import Prelude Strings Double Bson Compound Ngsi AttrUpdate Location EntityDoc Registrations.
From S2P Require Import FilterParse FilterMatch SubCache Queries SubSync Notify EntityUpdate.

Open Scope Z_scope.

Definition SccBadRequest : Z := 400.
Definition SccContextElementNotFound : Z := 404.
Definition SccConflict : Z := 409.
Definition SccInvalidModification : Z := 422.
Definition SccNotImplemented : Z := 501.

(** httpStatusCodeString *)
Definition httpStatusCodeString (c : Z) : string :=
  if c =? 200 then "OK" else if c =? 201 then "Created" else if c =? 400 then "Bad Request"
  else if c =? 403 then "Forbidden" else if c =? 404 then "No context element found"
  else if c =? 405 then "Method Not Allowed" else if c =? 406 then "Not Acceptable"
  else if c =? 409 then "Too Many Results" else if c =? 411 then "Length Required"
  else if c =? 413 then "Request Entity Too Large" else if c =? 415 then "Unsupported Media Type"
  else if c =? 422 then "Invalid Modification"
  else if c =? 470 then "subscriptionId does not correspond to an active subscription"
  else if c =? 471 then "parameter missing in the request" else if c =? 472 then "request parameter is invalid/not allowed"
  else if c =? 473 then "Generic error in metadata"
  else if c =? 480 then "Regular Expression for EntityId is not allowed by receiver"
  else if c =? 481 then "EntityType required by the receiver" else if c =? 482 then "Attribute List required by the receiver"
  else if c =? 500 then "Internal Server Error" else if c =? 501 then "Not Implemented" else "Undefined".

Inductive Ngsiv2Flavour := NGSIV2_NO_FLAVOUR | NGSIV2_FLAVOUR_ONCREATE | NGSIV2_FLAVOUR_ONAPPENDORUPDATE.
#[export] Instance Ngsiv2Flavour_eq : EqDecision Ngsiv2Flavour.
Proof. solve_decision. Defined.

(** ** Interfaces *)

(** The collection of the entities of a tenant: each operation answers an error text, or its
    result; a document of a query is None when the driver throws while it is read. *)
Class EntityStore (D : Type) := {
  collectionCount : D -> doc -> string + Z;
  collectionQuery : D -> doc -> string + list (option doc);
  collectionInsert : D -> doc -> option string * D;
  collectionUpdate : D -> doc -> doc -> option string * D;
  collectionRemove : D -> doc -> option string * D
}.

(** The subscriptions: at a time, those triggered by the modification of attributes of an
    entity are added to the ones collected so far (with the text of the error, if any);
    and the entity is notified to triggered ones. *)
Class Subscriptions (S : Type) := {
  addTriggeredSubscriptions : S -> Z -> string -> string -> list string -> SubMap -> cpp (option string * SubMap);
  processTriggered : S -> SubMap -> ContextElement -> cpp S
}.

(** The element of the response about an entity. *)
Record Cer := mkCer { cer_entity : EntityId; cer_attrs : list ContextAttribute; cer_status : StatusCode }.

Record World (D S : Type) := mkWorld { wd_db : D; wd_subs : S; wd_response : list Cer }.
Arguments mkWorld {D S} _ _ _.
Arguments wd_db {D S} _.
Arguments wd_subs {D S} _.
Arguments wd_response {D S} _.

(** ** Preconditions *)

(** buildGeneralErrorResponse *)
Definition error_response (e : EntityId) (ca : option ContextAttribute) (code : Z) (details : string) : Cer :=
  mkCer e (match ca with Some ca => [ca] | None => [] end) (mkStatusCode code details).

Fixpoint duplicated (cav : list ContextAttribute) : option ContextAttribute :=
  match cav with
  | [] => None
  | ca :: cav' =>
      if existsb (fun ca' => (ca_name ca =s ca_name ca') && (getId ca =s getId ca')) cav' then Some ca
      else duplicated cav'
  end.

Definition empty_attribute (apiVersion : string) (ca : ContextAttribute) : bool :=
  attributeValueAbsent ca apiVersion && attributeTypeAbsent ca && (length (ca_metadataVector ca) =? 0)%nat.

Definition with_values (action : string) : bool :=
  existsb (strcasecmp_eq (c_str action)) ["update"; "append"; "append_strict"; "replace"].

(** contextElementPreconditionsCheck: None when the element may be processed. *)
Definition contextElementPreconditionsCheck (e : EntityId) (cav : list ContextAttribute) (action apiVersion : string)
    : option Cer :=
  match duplicated cav with
  | Some ca =>
      Some (error_response e (Some (ContextAttribute_copy ca false).1) SccInvalidModification
              ("duplicated attribute /" +:+ ca_name ca +:+ "/"))
  | None =>
      if isTrue (eid_isPattern e) then Some (error_response e None SccNotImplemented "")
      else if with_values action && (apiVersion =s "v1") then
        match List.find (empty_attribute apiVersion) cav with
        | Some ca =>
            Some (error_response e (Some (ContextAttribute_copy ca false).1) SccInvalidModification
                    ("action: " +:+ action +:+ " - entity: [" +:+ toString e +:+ ", " +:+ eid_isPattern e
                     +:+ "] - offending attribute: " +:+ ca_name ca
                     +:+ " - empty attribute not allowed in APPEND or UPDATE"))
        | None => None
        end
      else None
  end.

(** A copy takes the compound value of its source away: what is left of attributes that have
    been copied, of those the check copied into its answer. *)
Definition moved (ca : ContextAttribute) : ContextAttribute := (ContextAttribute_copy ca false).2.

Fixpoint move_duplicated (cav : list ContextAttribute) : list ContextAttribute :=
  match cav with
  | [] => []
  | ca :: cav' =>
      if existsb (fun ca' => (ca_name ca =s ca_name ca') && (getId ca =s getId ca')) cav' then moved ca :: cav'
      else ca :: move_duplicated cav'
  end.

Fixpoint move_first (p : ContextAttribute -> bool) (cav : list ContextAttribute) : list ContextAttribute :=
  match cav with
  | [] => []
  | ca :: cav' => if p ca then moved ca :: cav' else ca :: move_first p cav'
  end.

Definition left_by_check (e : EntityId) (cav : list ContextAttribute) (action apiVersion : string)
    : list ContextAttribute :=
  match duplicated cav with
  | Some _ => move_duplicated cav
  | None =>
      if isTrue (eid_isPattern e) then cav
      else if with_values action && (apiVersion =s "v1") then move_first (empty_attribute apiVersion) cav else cav
  end.

(** ** Queries for one entity *)

Definition ID_FIELD : string := "_id." +:+ ENT_ENTITY_ID.
Definition TYPE_FIELD : string := "_id." +:+ ENT_ENTITY_TYPE.
Definition SERVICE_PATH_FIELD : string := "_id." +:+ ENT_SERVICE_PATH.
Definition not_exists : bson := BsonObj [("$exists", BsonBool false)].

(** The query of removeEntity. *)
Definition removal_query (entityId entityType servicePath : string) : doc :=
  [(ID_FIELD, BsonString entityId);
   (TYPE_FIELD, if entityType =s "" then not_exists else BsonString entityType);
   (SERVICE_PATH_FIELD, if servicePath =s "" then not_exists else BsonString servicePath)].

Section Requests.

Context {D S : Type} `{!EntityStore D} `{!Subscriptions S}.
(** Memory that constructors leave unassigned. *)
Context (mem : Metadata) (memDate : double).
Context (registrationsQuery : list EntityId -> list string -> cpp (option (list ContextRegistration))).
Context (fromjson : string -> cpp doc).
Context (clock : nat -> nat -> Z).
Context (servicePathV : list string) (apiVersion : string).

Definition service_path_condition : cpp bson :=
  t ← fillQueryServicePath servicePathV; d ← fromjson t; Ret (BsonObj d).

(** The query of the update of an entity. *)
Definition update_query (entityId entityType : string) : cpp doc :=
  sp ← service_path_condition;
  Ret [(ID_FIELD, BsonString entityId);
       (TYPE_FIELD, if entityType =s "" then not_exists else BsonString entityType);
       (SERVICE_PATH_FIELD, sp)].

(** The query for the entities of a request; [notExist] is the URI parameter
    !exist=entity::type. *)
Definition select_query (e : EntityId) (notExist : bool) : cpp doc :=
  sp ← service_path_condition;
  Ret ([(ID_FIELD, BsonString (eid_id e))]
       ++ (if eid_type e =s "" then [] else [(TYPE_FIELD, BsonString (eid_type e))])
       ++ [(SERVICE_PATH_FIELD, sp)]
       ++ (if notExist then [(TYPE_FIELD, not_exists)] else [])).

(** removeEntity: the status it leaves. *)
Definition removeEntity (entityId entityType servicePath : string) (db : D) : StatusCode * D :=
  match collectionRemove db (removal_query entityId entityType servicePath) with
  | (Some err, db) => (mkStatusCode SccReceiverInternalError err, db)
  | (None, db) => (mkStatusCode SccOk "", db)
  end.

(** ** append_strict *)

(** The attributes that the entity has already are marked as skipped; their names. *)
Definition mark_existing (attrs : doc) (cav : list ContextAttribute) : list ContextAttribute * list string :=
  (map (fun ca => if (0 <? howManyAttrs attrs (ca_name ca))%nat then set_skip ca else ca) cav,
   ca_name <$> List.filter (fun ca => (0 <? howManyAttrs attrs (ca_name ca))%nat) cav).

(** attributeAlreadyExistsList *)
Definition existing_list (names : list string) : string :=
  foldl (fun l n => (if l =s "[ " then l else l +:+ ", ") +:+ n) "[ " names +:+ " ]".

(** ** One entity *)

(** The creation and modification dates of the notified entity. *)
Definition stored_date (r : doc) (field : string) : double :=
  if hasField r field then double_of_Z (getIntOrLongFieldAsLong r field) else double_of_Z (-1).

(** What updateEntity leaves: the attributes of the request, the names that existed already
    (for append_strict), and the world. *)
Record Updated := mkUpdated { up_targets : list ContextAttribute; up_existing : list string; up_world : World D S }.

(** The response to an entity, after the providers of what was not found are looked up. *)
Definition answered (reqE : EntityId) (targets : list ContextAttribute) (e : EntityId) (w : Work)
    : cpp (list ContextAttribute) :=
  searchContextProviders registrationsQuery reqE targets e (w_response w).

Definition updateEntity (ei : nat) (r : doc) (action : string) (reqE : EntityId) (targets : list ContextAttribute)
    (world : World D S) : cpp Updated :=
  idField ← embeddedObject (getField r "_id");
  let entityId := getStringField idField ENT_ENTITY_ID in
  let entityType := if hasField idField ENT_ENTITY_TYPE then getStringField idField ENT_ENTITY_TYPE else "" in
  let entitySPath := getStringField idField ENT_SERVICE_PATH in
  let e := mkEntityId entityId entityType "false" "" in
  if is_delete action && (length targets =? 0)%nat then
    let '(sc, db) := removeEntity entityId entityType entitySPath (wd_db world) in
    Ret (mkUpdated targets [] (mkWorld db (wd_subs world) (wd_response world ++ [mkCer e [] sc])))
  else
    attrs ← embeddedObject (getField r ENT_ATTRS);
    let loc := if hasField r ENT_LOCATION then getObjectField r ENT_LOCATION else [] in
    let strict := strcasecmp_eq (c_str action) "append_strict" in
    let '(targets, existing) := if strict then mark_existing attrs targets else (targets, []) in
    stored ← entity_of_doc mem r [] true false false "v1" memDate;
    let w := mkWork [] (mkStatusCode SccNone "") (ce_contextAttributeVector stored) (mkUpdate [] [] [] []) false
               (getStringField loc ENT_LOCATION_ATTRNAME) [] [] [] [] in
    p ← processContextAttributeVector mem
          (addTriggeredSubscriptions (wd_subs world) (clock ei (length targets)))
          (clock ei) attrs e action apiVersion targets [] w;
    let '(modified, subs, w) := (p : bool * SubMap * Work) in
    let targets := w_targets w in
    if negb modified then
      cav ← answered reqE targets e w;
      (* the pointer attributeAlreadyExistsError is tested, not what it points to *)
      Ret (mkUpdated targets existing
             (if strict then world
              else mkWorld (wd_db world) (wd_subs world) (wd_response world ++ [mkCer e cav (w_status w)])))
    else
      let now := clock ei (length targets) in
      q ← update_query entityId entityType;
      let '(err, db) := collectionUpdate (wd_db world) q
                          (updated_entity action now (w_loc w) (w_geo w)
                             (getObjectField loc ENT_LOCATION_COORDS) (w_update w)) in
      match err with
      | Some err =>
          Ret (mkUpdated targets existing
                 (mkWorld db (wd_subs world)
                    (wd_response world ++ [mkCer e (w_response w) (mkStatusCode SccReceiverInternalError err)])))
      | None =>
          s ← processTriggered (wd_subs world) subs
                (mkContextElement (ce_entityId stored) (w_notify w) (stored_date r ENT_CREATION_DATE) (double_of_Z now));
          cav ← answered reqE targets e w;
          Ret (mkUpdated targets existing (mkWorld db s (wd_response world ++ [mkCer e cav
                 (if sc_code (w_status w) =? SccNone then mkStatusCode SccOk "" else w_status w)])))
      end.

(** The loop over the entities found: the list of existing attributes is that of the last. *)
Fixpoint updateEntities (ei : nat) (results : list doc) (action : string) (reqE : EntityId)
    (targets : list ContextAttribute) (existing : list string) (world : World D S) : cpp Updated :=
  match results with
  | [] => Ret (mkUpdated targets existing world)
  | r :: results' =>
      u ← updateEntity ei r action reqE targets world;
      updateEntities (Datatypes.S ei) results' action reqE (up_targets u) (up_existing u) (up_world u)
  end.

(** ** The entities of a request *)

(** The response when no entity is found. *)
Definition absent_attrs (found : bool) (targets : list ContextAttribute) : list ContextAttribute :=
  (fun ca => response_attribute (md_numberValue mem) (md_boolValue mem) ca found) <$> targets.

(** forwardsPending *)
Definition forwardsPending (response : list Cer) : bool :=
  existsb (fun cer => existsb (fun ca => negb (ca_providingApplication ca =s "")) (cer_attrs cer)) response.

Definition add_response (cer : Cer) (world : World D S) : World D S :=
  mkWorld (wd_db world) (wd_subs world) (wd_response world ++ [cer]).

(** The entity notified when it is created. *)
Definition created_notification (e : EntityId) (targets : list ContextAttribute) (now : Z) : ContextElement :=
  let v2 := apiVersion =s "v2" in
  mkContextElement
    (mkEntityId (eid_id e) (if v2 && (eid_type e =s "") then DEFAULT_TYPE else eid_type e) (eid_isPattern e)
       (match servicePathV with sp :: _ => sp | [] => "" end))
    ((fun ca => (ContextAttribute_copy ca v2).1) <$> targets) (double_of_Z now) (double_of_Z now).

(** APPEND of an entity that is not there: what is left of the attributes, and the world. *)
Definition append_entity (reqE : EntityId) (targets : list ContextAttribute) (world : World D S)
    : cpp (list ContextAttribute * World D S) :=
  let e := mkEntityId (eid_id reqE) (eid_type reqE) "false" "" in
  let attrs := absent_attrs true targets in
  let now := clock 0 0 in
  let failed code err db :=
    (targets, mkWorld db (wd_subs world) (wd_response world ++ [mkCer e attrs (mkStatusCode code err)])) in
  match createEntity reqE targets now servicePathV apiVersion with
  | inl err => Ret (failed SccInvalidParameter err (wd_db world))
  | inr d =>
      match collectionInsert (wd_db world) d with
      | (Some err, db) => Ret (failed SccInvalidParameter err db)
      | (None, db) =>
          t ← addTriggeredSubscriptions (wd_subs world) now (eid_id reqE) (eid_type reqE) (ca_name <$> targets) [];
          match t with
          | (Some err, _) => Ret (failed SccReceiverInternalError err db)
          | (None, subs) =>
              s ← processTriggered (wd_subs world) subs (created_notification reqE targets now);
              Ret (moved <$> targets, mkWorld db s (wd_response world ++ [mkCer e attrs (mkStatusCode SccOk "")]))
          end
      end
  end.

(** The branch for an entity that is not found. *)
Definition process_absent (action : string) (reqE : EntityId) (targets : list ContextAttribute)
    (world : World D S) : cpp (list ContextAttribute * World D S) :=
  let e := mkEntityId (eid_id reqE) (eid_type reqE) "false" "" in
  let act s := strcasecmp_eq (c_str action) s in
  let attrs := absent_attrs (act "append" || act "append_strict") targets in
  if act "update" || act "replace" then
    cav ← searchContextProviders registrationsQuery reqE targets e attrs;
    let cer code := mkCer e cav (mkStatusCode code "") in
    Ret (targets, add_response
           (cer (if forwardsPending (wd_response world ++ [cer SccOk]) then SccOk else SccContextElementNotFound)) world)
  else if act "delete" then Ret (targets, add_response (mkCer e attrs (mkStatusCode SccContextElementNotFound "")) world)
  else append_entity reqE targets world.

(** The checks of NGSIv2 on the number of entities: the error, if any. *)
Definition flavour_error (flavour : Ngsiv2Flavour) (entitiesNumber : Z) : option (Z * string) :=
  if (0 <? entitiesNumber) && bool_decide (flavour = NGSIV2_FLAVOUR_ONCREATE)
  then Some (SccInvalidModification, "Already Exists")
  else if (entitiesNumber =? 0) && bool_decide (flavour = NGSIV2_FLAVOUR_ONAPPENDORUPDATE)
  then Some (SccContextElementNotFound, "Entity does not exist")
  else if 1 <? entitiesNumber
  then Some (SccConflict, "More than one matching entity. Please refine your query")
  else None.

(** The documents that are processed: those that can be read and have an _id. *)
Definition results_of (cursor : list (option doc)) : list doc :=
  omap (fun r => match r with
                 | Some d => match getField d "_id" with Some _ => Some d | None => None end
                 | None => None
                 end) cursor.

(** processContextElement: what is left of the attributes of the request, and the world. *)
Definition processContextElement (e : EntityId) (targets : list ContextAttribute) (action : string)
    (flavour : Ngsiv2Flavour) (notExist : bool) (world : World D S) : cpp (list ContextAttribute * World D S) :=
  let failed code details := Ret (targets, add_response (error_response e None code details) world) in
  match contextElementPreconditionsCheck e targets action apiVersion with
  | Some cer => Ret (left_by_check e targets action apiVersion, add_response cer world)
  | None =>
      query ← select_query e notExist;
      let counted := if apiVersion =s "v2" then collectionCount (wd_db world) query else inr 1 in
      match counted with
      | inl err => failed SccReceiverInternalError err
      | inr n =>
          match (if apiVersion =s "v2" then flavour_error flavour n else None) with
          | Some (code, details) => failed code details
          | None =>
              match collectionQuery (wd_db world) query with
              | inl err => failed SccReceiverInternalError err
              | inr cursor =>
                  match results_of cursor with
                  | [] => process_absent action e targets world
                  | results =>
                      u ← updateEntities 0 results action e targets [] world;
                      Ret (up_targets u,
                           if (length (up_existing u) =? 0)%nat then up_world u
                           else add_response (error_response e None SccBadRequest
                                  ("one or more of the attributes in the request already exist: "
                                   +:+ existing_list (up_existing u))) (up_world u))
                  end
              end
          end
      end
  end.

(** mongoUpdateContext: the error code of the response, the elements of the request as they
    are left, and the world. *)
Fixpoint process_context_elements (elements : list (EntityId * list ContextAttribute)) (action : string)
    (flavour : Ngsiv2Flavour) (notExist : bool) (world : World D S)
    : cpp (list (EntityId * list ContextAttribute) * World D S) :=
  match elements with
  | [] => Ret ([], world)
  | (e, targets) :: elements' =>
      '(targets, world) ← processContextElement e targets action flavour notExist world;
      '(elements', world) ← process_context_elements elements' action flavour notExist world;
      Ret ((e, targets) :: elements', world)
  end.

Definition mongoUpdateContext (elements : list (EntityId * list ContextAttribute)) (action : string)
    (flavour : Ngsiv2Flavour) (notExist : bool) (world : World D S)
    : cpp (StatusCode * list (EntityId * list ContextAttribute) * World D S) :=
  if (1 <? length servicePathV)%nat
  then Ret (mkStatusCode SccBadRequest "service path length greater than one in update", elements, world)
  else '(elements, world) ← process_context_elements elements action flavour notExist world;
       Ret (mkStatusCode SccOk "", elements, world).

End Requests.

(** ** Preconditions *)

(** What tells two attributes of an entity apart. *)
Definition attr_key (ca : ContextAttribute) : string * string := (ca_name ca, getId ca).

Lemma duplicated_None cav : duplicated cav = None <-> NoDup (attr_key <$> cav).
Proof.
  induction cav as [|ca cav IH]; cbn [duplicated]; [split; [constructor|done]|].
  assert (existsb (fun ca' => (ca_name ca =s ca_name ca') && (getId ca =s getId ca')) cav = true
    <-> attr_key ca ∈ attr_key <$> cav) as H.
  { rewrite existsb_exists, list_elem_of_fmap. split.
    - intros (ca' & Hin & [H1%str_eqb_eq H2%str_eqb_eq]%andb_true_iff). exists ca'. unfold attr_key.
      split; [by rewrite H1, H2|by apply list_elem_of_In].
    - intros (ca' & [= H1 H2] & Hin). exists ca'. rewrite H1, H2, !str_eqb_refl. split; [by apply list_elem_of_In|done]. }
  rewrite fmap_cons, NoDup_cons. destruct (existsb _ cav) eqn:E.
  - split; [done|]. intros [Hn _]. exfalso. apply Hn. by apply H.
  - rewrite IH. split; [|by intros []]. intros Hd. split; [|done]. intros Hin%H. congruence.
Qed.

(** contextElementPreconditionsCheck lets an element through exactly when no two of its
    attributes have the same name and ID, its entity is not a pattern, and, for the
    actions of NGSIv1 that give values, none of its attributes is empty; otherwise the
    response tells it with code 422 (501 for a pattern) and nothing else. *)
Theorem contextElementPreconditionsCheck_spec e cav action api :
  match contextElementPreconditionsCheck e cav action api with
  | None => NoDup (attr_key <$> cav) /\ isTrue (eid_isPattern e) = false /\
      (with_values action = true -> api = "v1" -> Forall (fun ca => empty_attribute api ca = false) cav)
  | Some cer => cer_entity cer = e /\
      (sc_code (cer_status cer) = SccInvalidModification /\
         (~ NoDup (attr_key <$> cav) \/ Exists (fun ca => empty_attribute api ca = true) cav) \/
       sc_code (cer_status cer) = SccNotImplemented /\ isTrue (eid_isPattern e) = true)
  end.
Proof.
  unfold contextElementPreconditionsCheck. destruct (duplicated cav) as [ca|] eqn:Ed.
  - split; [done|]. left. split; [done|]. left. intros H%duplicated_None. congruence.
  - apply duplicated_None in Ed. destruct (isTrue (eid_isPattern e)) eqn:Ep; [split; [done|by right]|].
    destruct (with_values action && (api =s "v1")) eqn:Ev.
    + destruct (List.find _ cav) as [ca|] eqn:Ef.
      * split; [done|]. left. split; [done|]. right. apply List.find_some in Ef as [Hin Hc].
        apply Exists_exists. exists ca. split; [by apply list_elem_of_In|done].
      * split_and!; try done. intros _ _. apply Forall_forall. intros ca Hin.
        apply (List.find_none _ _ Ef). by apply list_elem_of_In.
    + split_and!; try done. intros Hv ->. by rewrite Hv in Ev.
Qed.

(** ** The attributes of the request, as they are left *)

(** The processing of an attribute keeps its name and its mark; it may take its compound
    value away. *)
Definition same_mark (ca ca' : ContextAttribute) : Prop := ca_name ca' = ca_name ca /\ ca_skip ca' = ca_skip ca.

Lemma notify_target b cav target l target' :
  updateAttrInNotifyCer b cav target = Ret (l, target') -> same_mark target target'.
Proof.
  revert l. induction cav as [|ca cav IH]; intros l; cbn [updateAttrInNotifyCer]; [by intros [= <- <-]|].
  destruct (ca_name ca =s ca_name target).
  - destruct (merge_attribute _ _ _); [|done|done]. by intros [= <- <-].
  - destruct (updateAttrInNotifyCer b cav target) as [[l0 t0]| |]; try done. intros [= <- <-]. by apply (IH l0).
Qed.

Lemma process_item_target mem now attrs e action api target w it w' :
  process_item mem now attrs e action api target w = Ret (it, w') ->
  same_mark target (it_target it) /\ w_targets w' = w_targets w.
Proof.
  unfold process_item. destruct (_ || _).
  { unfold updateContextAttributeItem. destruct (updateAttribute _ _ _ _ _ _ _) as [[[f a] u]| |]; try done.
    cbn [mbind cpp_bind]. destruct (processLocationAtUpdateAttribute _ _ _ _) as [err|[loc geo]]; [by intros [= <- <-]|].
    destruct (updateAttrInNotifyCer _ _ _) as [[n t]| |] eqn:E; try done. intros [= <- <-]. split; [|done].
    exact (notify_target _ _ _ _ _ E). }
  destruct (_ || _).
  { unfold appendContextAttributeItem. destruct (negb _); [by intros [= <- <-]|].
    destruct (appendAttribute _ _ _ _ _ _) as [[[f a] u]| |]; try done.
    cbn [mbind cpp_bind]. destruct (processLocationAtAppendAttribute _ _ _ _ _) as [err|[loc geo]]; [by intros [= <- <-]|].
    destruct (updateAttrInNotifyCer _ _ _) as [[n t]| |] eqn:E; try done. intros [= <- <-]. split; [|done].
    exact (notify_target _ _ _ _ _ E). }
  destruct (strcasecmp_eq _ _); [|by intros [= <- <-]].
  unfold deleteContextAttributeItem. destruct (deleteAttribute _ _ _ _) as [[[] c] u].
  - destruct (negb _); by intros [= <- <-].
  - by intros [= <- <-].
Qed.

Lemma process_attributes_targets mem clock ix attrs e action api targets w ok w' :
  process_attributes mem clock ix attrs e action api targets w = Ret (ok, w') ->
  exists l, w_targets w' = w_targets w ++ l /\ Forall2 same_mark targets l.
Proof.
  assert (forall l : list ContextAttribute, Forall2 same_mark l l) as Hrefl.
  { intros l. apply Forall2_same_length_lookup_2; [done|]. intros i x y Hx Hy. rewrite Hx in Hy. by injection Hy as ->. }
  revert ix w. induction targets as [|target targets IH]; intros ix w; cbn [process_attributes].
  - intros [= <- <-]. exists []. by rewrite app_nil_r.
  - destruct (ca_skip target) eqn:Es.
    + intros (l & Hl & HF)%IH. exists (target :: l). cbn in Hl. rewrite Hl, <- app_assoc. by repeat constructor.
    + destruct (process_item _ _ _ _ _ _ _ _) as [[it w1]| |] eqn:E; try done.
      apply process_item_target in E as [Hm Hw]. cbn [mbind cpp_bind finish_item]. destruct (it_ok it).
      * intros (l & Hl & HF)%IH. exists (it_target it :: l). cbn in Hl. rewrite Hl, Hw, <- app_assoc.
        split; [done|]. by constructor.
      * intros [= <- <-]. exists (it_target it :: targets). cbn. rewrite Hw, <- app_assoc. split; [done|].
        constructor; [done|apply Hrefl].
Qed.

Lemma processContextAttributeVector_targets mem trig clock attrs e action api targets subs w ok subs' w' :
  processContextAttributeVector mem trig clock attrs e action api targets subs w = Ret (ok, subs', w') ->
  exists l, w_targets w' = w_targets w ++ l /\ Forall2 same_mark targets l.
Proof.
  unfold processContextAttributeVector.
  destruct (process_attributes _ _ _ _ _ _ _ _ _) as [[ok1 w1]| |] eqn:E; try done.
  apply process_attributes_targets in E as (l & Hl & HF). cbn [mbind cpp_bind].
  destruct ok1; cbn [negb]; [|by intros [= <- <- <-]; exists l].
  set (w2 := if strcasecmp_eq _ _ then _ else w1).
  assert (w_targets w2 = w_targets w1) as H2 by (unfold w2; by destruct (strcasecmp_eq _ _)).
  clearbody w2. destruct (trig _ _ _ _) as [[[err|] s]| |]; try done; cbn [mbind cpp_bind]; intros [= <- <- <-];
    exists l; (split; [|done]); [by rewrite <- Hl, <- H2|]. destruct (_ =? _); by rewrite <- Hl, <- H2.
Qed.

(** ** One entity *)

Section Facts.

Context {D S : Type} `{!EntityStore D} `{!Subscriptions S} (mem : Metadata) (memDate : double).
Context (registrationsQuery : list EntityId -> list string -> cpp (option (list ContextRegistration))).
Context (fromjson : string -> cpp doc) (clock : nat -> nat -> Z) (servicePathV : list string) (api : string).

Abbreviation updateEntity := (updateEntity mem memDate registrationsQuery fromjson clock servicePathV api).
Abbreviation processContextElement :=
  (processContextElement mem memDate registrationsQuery fromjson clock servicePathV api).

Definition is_strict (action : string) : bool := strcasecmp_eq (c_str action) "append_strict".

(** What an entity of the request meets: its attributes as they are processed, and the names
    that the stored entity has already. *)
Definition marked (action : string) (r : doc) (targets : list ContextAttribute)
    : cpp (list ContextAttribute * list string) :=
  if is_delete action && (length targets =? 0)%nat then Ret (targets, [])
  else attrs ← embeddedObject (getField r ENT_ATTRS);
       Ret (if is_strict action then mark_existing attrs targets else (targets, [])).

(** The stored entity has an attribute of this name (of any ID). *)
Definition already_there (r : doc) (name : string) : bool :=
  match embeddedObject (getField r ENT_ATTRS) with
  | Ret attrs => (0 <? howManyAttrs attrs name)%nat
  | _ => false
  end.

(** An attribute of the request, before and after an entity was processed. *)
Definition left_marked (strict : bool) (r : doc) (ca ca' : ContextAttribute) : Prop :=
  ca_name ca' = ca_name ca /\ ca_skip ca' = ca_skip ca || strict && already_there r (ca_name ca).

Lemma marked_left action r targets targets' existing l :
  marked action r targets = Ret (targets', existing) -> Forall2 same_mark targets' l ->
  Forall2 (left_marked (is_strict action) r) targets l /\
  existing = ca_name <$> List.filter (fun ca => is_strict action && already_there r (ca_name ca)) targets.
Proof.
  assert (forall targets : list ContextAttribute,
    ca_name <$> List.filter (fun ca => false && already_there r (ca_name ca)) targets = []) as Hnone
    by (intros l0; induction l0; cbn; done).
  unfold marked, left_marked, already_there. destruct (is_delete action && (length targets =? 0)%nat) eqn:Ed.
  - apply andb_true_iff in Ed as [_ Ed%Nat.eqb_eq]. destruct targets; [|done]. intros [= <- <-] HF.
    inversion HF. split; [constructor|done].
  - destruct (embeddedObject (getField r ENT_ATTRS)) as [attrs| |]; try done. cbn [mbind cpp_bind].
    destruct (is_strict action); unfold mark_existing; intros [= <- <-] HF; (split; [|by rewrite ?Hnone]).
    + apply (proj1 (Forall2_fmap_l (fun ca => if (0 <? howManyAttrs attrs (ca_name ca))%nat then set_skip ca else ca)
        _ _ _)) in HF. eapply Forall2_impl; [exact HF|]. intros ca ca' [H1 H2]. cbn [andb].
      destruct (0 <? howManyAttrs attrs (ca_name ca))%nat; [|by rewrite H2, orb_false_r].
      rewrite H1, H2, orb_true_r. by destruct ca.
    + eapply Forall2_impl; [exact HF|]. intros ca ca' [H1 H2]. by rewrite H2, orb_false_r.
Qed.

(** Updating a stored entity adds one element to the response; only an append_strict may
    add none, and then it changes nothing at all.  The attributes of the request keep
    their names; an append_strict reports exactly those that the entity has already, and
    leaves them marked as skipped for the entities that follow. *)
Theorem updateEntity_outcome ei r action reqE targets (world : World D S) u :
  updateEntity ei r action reqE targets world = Ret u ->
  ((exists cer, wd_response (up_world u) = wd_response world ++ [cer]) \/
   (is_strict action = true /\ up_world u = world)) /\
  Forall2 (left_marked (is_strict action) r) targets (up_targets u) /\
  up_existing u = ca_name <$> List.filter (fun ca => is_strict action && already_there r (ca_name ca)) targets.
Proof.
  intros Hu. enough (((exists cer, wd_response (up_world u) = wd_response world ++ [cer]) \/
    (is_strict action = true /\ up_world u = world)) /\ exists targets',
    marked action r targets = Ret (targets', up_existing u) /\ Forall2 same_mark targets' (up_targets u))
    as [H (targets' & Hm & HF)] by (split; [exact H|exact (marked_left _ _ _ _ _ _ Hm HF)]).
  revert Hu. unfold updateEntity, UpdateContext.updateEntity, marked. fold (is_strict action).
  destruct (embeddedObject (getField r "_id")) as [idField| |]; try done. cbn [mbind cpp_bind]. cbv zeta.
  set (e := mkEntityId _ _ _ _). clearbody e.
  destruct (is_delete action && (length targets =? 0)%nat) eqn:Ed.
  { destruct (removeEntity _ _ _ _) as [sc db]. intros [= <-]. cbn. split; [left; by eexists|].
    exists targets. split; [done|]. apply andb_true_iff in Ed as [_ Ed%Nat.eqb_eq]. by destruct targets. }
  destruct (embeddedObject (getField r ENT_ATTRS)) as [attrs| |]; try done. cbn [mbind cpp_bind].
  destruct (if is_strict action then mark_existing attrs targets else (targets, [])) as [targets' existing] eqn:Em.
  destruct (entity_of_doc _ _ _ _ _ _ _ _) as [stored| |]; try done. cbn [mbind cpp_bind].
  match goal with |- context [processContextAttributeVector ?a ?b ?c ?d ?e ?f ?g ?h ?i ?j] =>
    destruct (processContextAttributeVector a b c d e f g h i j) as [[[modified subs] w]| |] eqn:Ep; try done end.
  cbn [mbind cpp_bind].
  apply processContextAttributeVector_targets in Ep as (l & Hl & HF). cbn in Hl. subst l.
  destruct modified; cbn [negb].
  - destruct (update_query _ _ _ _) as [q| |]; try done. cbn [mbind cpp_bind].
    destruct (collectionUpdate _ _ _) as [[err|] db].
    + intros [= <-]. cbn. split; [left; by eexists|]. by exists targets'.
    + destruct (processTriggered _ _ _) as [s| |]; try done. cbn [mbind cpp_bind].
      destruct (answered _ _ _ _ _) as [cav| |]; try done. intros [= <-]. cbn. split; [left; by eexists|].
      by exists targets'.
  - destruct (answered _ _ _ _ _) as [cav| |]; try done. intros [= <-]. cbn. split; [|by exists targets'].
    destruct (is_strict action); [by right|left; by eexists].
Qed.

(** An append_strict that fails, for instance because the location of an attribute is not
    valid, answers nothing: the pointer to the flag is tested in place of the flag, so that
    the response that holds the error is dropped. *)
Theorem append_strict_silent ei r action reqE targets (world : World D S) u idField attrs stored subs w :
  is_strict action = true -> embeddedObject (getField r "_id") = Ret idField ->
  embeddedObject (getField r ENT_ATTRS) = Ret attrs ->
  entity_of_doc mem r [] true false false "v1" memDate = Ret stored ->
  let loc := if hasField r ENT_LOCATION then getObjectField r ENT_LOCATION else [] in
  let e := mkEntityId (getStringField idField ENT_ENTITY_ID)
             (if hasField idField ENT_ENTITY_TYPE then getStringField idField ENT_ENTITY_TYPE else "") "false" "" in
  let targets' := (mark_existing attrs targets).1 in
  processContextAttributeVector mem (addTriggeredSubscriptions (wd_subs world) (clock ei (length targets')))
    (clock ei) attrs e action api targets' []
    (mkWork [] (mkStatusCode SccNone "") (ce_contextAttributeVector stored) (mkUpdate [] [] [] []) false
       (getStringField loc ENT_LOCATION_ATTRNAME) [] [] [] []) = Ret (false, subs, w) ->
  updateEntity ei r action reqE targets world = Ret u -> up_world u = world.
Proof.
  intros Hs Hid Ha Hst loc e targets' Hp. unfold updateEntity, UpdateContext.updateEntity.
  rewrite Hid. cbn [mbind cpp_bind]. cbv zeta.
  assert (is_delete action = false) as ->.
  { unfold is_delete. by rewrite (strcasecmp_trans _ _ _ Hs). }
  cbn [andb]. rewrite Ha. cbn [mbind cpp_bind]. unfold is_strict in Hs. rewrite Hs.
  unfold targets', e, loc in Hp. clear targets' e loc.
  destruct (mark_existing attrs targets) as [targets' existing]. cbn [fst] in Hp. rewrite Hst. cbn [mbind cpp_bind].
  rewrite Hp. cbn [mbind cpp_bind negb]. destruct (answered _ _ _ _ _); [|done|done]. by intros [= <-].
Qed.

(** ** One element of a request *)

(** In NGSIv2 the number of matching entities is checked first: an entity to create must not
    be there, one to update or append to must, and there must not be several; otherwise
    the response tells it and nothing is changed. *)
Theorem processContextElement_v2_refuses e targets action flavour notExist (world : World D S) query n code details :
  api = "v2" -> contextElementPreconditionsCheck e targets action api = None ->
  select_query fromjson servicePathV e notExist = Ret query ->
  collectionCount (wd_db world) query = inr n -> flavour_error flavour n = Some (code, details) ->
  (code = SccInvalidModification /\ flavour = NGSIV2_FLAVOUR_ONCREATE /\ 0 < n \/
   code = SccContextElementNotFound /\ flavour = NGSIV2_FLAVOUR_ONAPPENDORUPDATE /\ n = 0 \/
   code = SccConflict /\ 1 < n) /\
  processContextElement e targets action flavour notExist world
    = Ret (targets, add_response (mkCer e [] (mkStatusCode code details)) world).
Proof.
  intros -> Hc Hq Hn Hf. split.
  - revert Hf. unfold flavour_error.
    destruct (0 <? n) eqn:E1; cbn [andb];
      [destruct (bool_decide_reflect (flavour = NGSIV2_FLAVOUR_ONCREATE)) as [->|]; cbn [andb]|];
      [intros [= <- <-]; left; apply Z.ltb_lt in E1; done| |];
      (destruct (n =? 0) eqn:E2; cbn [andb];
        [destruct (bool_decide_reflect (flavour = NGSIV2_FLAVOUR_ONAPPENDORUPDATE)) as [->|]; cbn [andb]|]);
      try (intros [= <- <-]; right; left; apply Z.eqb_eq in E2; done);
      (destruct (1 <? n) eqn:E3; [|done]; intros [= <- <-]; right; right; split; [done|by apply Z.ltb_lt]).
  - unfold processContextElement, UpdateContext.processContextElement. rewrite Hc, Hq. cbn [mbind cpp_bind].
    by rewrite str_eqb_refl, Hn, Hf.
Qed.

End Facts.

(** ** Witnesses *)

(** A collection that finds its documents by the entity's id, and records what is sent to it. *)
Record Recorded := mkRecorded { rc_docs : list doc; rc_sent : list doc }.

Definition has_id (q d : doc) : bool :=
  match getField q ID_FIELD, embeddedObject (getField d "_id") with
  | Some (BsonString id), Ret idField => getStringField idField ENT_ENTITY_ID =s id
  | _, _ => false
  end.

Definition recorded_store : EntityStore Recorded := {|
  collectionCount db q := inr (Z.of_nat (length (List.filter (has_id q) (rc_docs db))));
  collectionQuery db q := inr (Some <$> List.filter (has_id q) (rc_docs db));
  collectionInsert db d := (None, mkRecorded (rc_docs db ++ [d]) (rc_sent db));
  collectionUpdate db q u := (None, mkRecorded (rc_docs db) (rc_sent db ++ [u]));
  collectionRemove db q :=
    (None, mkRecorded (List.filter (fun d => negb (has_id q d)) (rc_docs db)) (rc_sent db))
|}.

Definition no_subscriptions : Subscriptions () := {|
  addTriggeredSubscriptions _ _ _ _ _ subs := Ret (None, subs);
  processTriggered s _ _ := Ret s
|}.

Definition room_doc : doc :=
  [("_id", BsonObj [(ENT_ENTITY_ID, BsonString "Room"); (ENT_SERVICE_PATH, BsonString "/")]);
   (ENT_ATTRS, BsonObj [("temp", BsonObj [(ENT_ATTRS_TYPE, BsonString "T"); (ENT_ATTRS_VALUE, BsonString "20")])]);
   (ENT_ATTRNAMES, BsonArray [BsonString "temp"])].

Definition room_world : World Recorded () := mkWorld (mkRecorded [room_doc] []) () [].
Definition no_registrations (_ : list EntityId) (_ : list string) : cpp (option (list ContextRegistration)) :=
  Ret (Some []).
Definition empty_query (_ : string) : cpp doc := Ret [].
Definition the_room : EntityId := mkEntityId "Room" "" "false" "".

Abbreviation update_room := (updateEntity (EntityStore0 := recorded_store) (Subscriptions0 := no_subscriptions)
  no_mem S754_nan no_registrations empty_query (fun _ _ => 9) ["/"] "v2").

(** append_strict of an attribute that is there and of one that is not. *)
Lemma updateEntity_outcome_witness : exists u,
  update_room 0%nat room_doc "APPEND_STRICT" the_room [text "temp" "21"; text "hum" "70"] room_world = Ret u /\
  up_existing u = ["temp"%string] /\ (exists cer, wd_response (up_world u) = [cer]) /\
  Forall2 (left_marked true room_doc) [text "temp" "21"; text "hum" "70"] (up_targets u).
Proof.
  destruct (update_room 0%nat room_doc "APPEND_STRICT" the_room [text "temp" "21"; text "hum" "70"] room_world)
    as [u| |] eqn:E; [|vm_compute in E; discriminate E|vm_compute in E; discriminate E].
  exists u. split; [reflexivity|].
  destruct (updateEntity_outcome (EntityStore0 := recorded_store) (Subscriptions0 := no_subscriptions)
    no_mem S754_nan no_registrations empty_query (fun _ _ => 9) ["/"] "v2" 0 room_doc "APPEND_STRICT" the_room
    [text "temp" "21"; text "hum" "70"] room_world u E) as (H1 & H2 & H3).
  split; [rewrite H3; reflexivity|]. split; [|exact H2].
  destruct H1 as [H1|[_ H1]]; [exact H1|]. exfalso. vm_compute in E. injection E as <-. discriminate H1.
Defined.

(** append_strict of a location that cannot be read. *)
Definition bad_point : ContextAttribute := ContextAttribute_string "pos" "geo:point" "nowhere" true S754_nan false.

Lemma append_strict_silent_witness : exists u,
  update_room 0%nat room_doc "append_strict" the_room [bad_point] room_world = Ret u /\ up_world u = room_world.
Proof.
  destruct (update_room 0%nat room_doc "append_strict" the_room [bad_point] room_world) as [u| |] eqn:E;
    [|vm_compute in E; discriminate E|vm_compute in E; discriminate E].
  exists u. split; [reflexivity|].
  eapply (append_strict_silent (EntityStore0 := recorded_store) (Subscriptions0 := no_subscriptions)
    no_mem S754_nan no_registrations empty_query (fun _ _ => 9) ["/"] "v2" 0 room_doc "append_strict" the_room
    [bad_point] room_world u); [reflexivity|reflexivity|reflexivity|vm_compute; reflexivity|vm_compute; reflexivity|exact E].
Defined.

Lemma processContextElement_v2_refuses_witness :
  processContextElement (EntityStore0 := recorded_store) (Subscriptions0 := no_subscriptions)
    no_mem S754_nan no_registrations empty_query (fun _ _ => 9) ["/"] "v2" the_room [text "temp" "21"] "append"
    NGSIV2_FLAVOUR_ONCREATE false room_world
  = Ret ([text "temp" "21"], add_response (mkCer the_room [] (mkStatusCode SccInvalidModification "Already Exists")) room_world).
Proof.
  eapply (processContextElement_v2_refuses (EntityStore0 := recorded_store) (Subscriptions0 := no_subscriptions)
    no_mem S754_nan no_registrations empty_query (fun _ _ => 9) ["/"] "v2" the_room [text "temp" "21"] "append"
    NGSIV2_FLAVOUR_ONCREATE false room_world); vm_compute; reflexivity.
Defined.
