(* ===== verification/UpdateNotify.v ===== *)
(** * An update and its notifications

    The subscriptions of UpdateContext.v as the cache of SubCache.v and the notifications
    of Notify.v, and what an update of a stored entity notifies: the composition of
    processContextAttributeVector, addTriggeredSubscriptions_withCache and
    processSubscriptions. *)

From S2P Require Import Prelude Strings Double Bson Compound Ngsi AttrUpdate Location EntityDoc Registrations.
From S2P Require Import FilterParse FilterMatch SubCache Queries SubSync Notify EntityUpdate UpdateContext.

Open Scope Z_scope.

(** ** The instance *)

Section Instance.

Context (regcomp : string -> bool) (regexec : string -> string -> bool) (fuel : nat) (memBool : bool).
Context (tenant xauthToken fiwareCorrelator : string) (servicePathV : list string).
Context (getCurrentTime : nat -> Z) (collectionUpdate : string -> Z -> bool).

(** The cache, and the notifications that were sent. *)
Definition cache_subscriptions : Subscriptions (SubCache * list Notification) := {|
  addTriggeredSubscriptions := fun s now id type attrs subs =>
    addTriggered_cache regcomp regexec fuel s.1 now tenant servicePathV id type attrs subs;
  processTriggered := fun s subs ce =>
    st ← processSubscriptions regexec getCurrentTime collectionUpdate memBool fuel s.1 subs ce tenant xauthToken
           fiwareCorrelator;
    Ret (ns_cache st, s.2 ++ ns_sent st)
|}.

End Instance.

(** ** What is triggered *)

(** The attributes of the notified entity after those of a request: each is merged into the
    attribute with its name, or added; for a deletion it is marked as not to be told. *)
Fixpoint merged (action : string) (useDefaultType : bool) (targets cav : list ContextAttribute) : cpp (list ContextAttribute) :=
  match targets with
  | [] => Ret cav
  | t :: targets' =>
      if ca_skip t then merged action useDefaultType targets' cav
      else if strcasecmp_eq (c_str action) "delete" then merged action useDefaultType targets' (deleteAttrInNotifyCer cav t)
      else r ← updateAttrInNotifyCer useDefaultType cav t;
           merged action useDefaultType targets' (r : list ContextAttribute * ContextAttribute).1
  end.

Lemma item_notify mem now attrs e action api target w it w1 :
  process_item mem now attrs e action api target w = Ret (it, w1) -> it_ok it = true ->
  if strcasecmp_eq (c_str action) "delete" then w_notify w1 = deleteAttrInNotifyCer (w_notify w) target
  else exists t, updateAttrInNotifyCer (api =s "v2") (w_notify w) target = Ret (w_notify w1, t).
Proof.
  unfold process_item. destruct (strcasecmp_eq (c_str action) "update" || strcasecmp_eq (c_str action) "replace") eqn:Eu.
  { assert (strcasecmp_eq (c_str action) "delete" = false) as ->.
    { apply orb_true_iff in Eu as [Eu|Eu]; by rewrite (strcasecmp_trans _ _ _ Eu). }
    unfold updateContextAttributeItem. destruct (updateAttribute _ _ _ _ _ _ _) as [[[found actual] u]| |]; try done.
    cbn [mbind cpp_bind]. destruct (processLocationAtUpdateAttribute _ _ _ _) as [err|[loc geo]]; [by intros [= <- _]|].
    destruct (updateAttrInNotifyCer _ _ _) as [[notify t]| |]; try done. cbn. intros [= _ <-] _. by exists t. }
  destruct (strcasecmp_eq (c_str action) "append" || strcasecmp_eq (c_str action) "append_strict") eqn:Ea.
  { assert (strcasecmp_eq (c_str action) "delete" = false) as ->.
    { apply orb_true_iff in Ea as [Ea|Ea]; by rewrite (strcasecmp_trans _ _ _ Ea). }
    unfold appendContextAttributeItem. destruct (negb (legalIdUsage _ _)); [by intros [= <- _]|].
    destruct (appendAttribute _ _ _ _ _ _) as [[[aa actual] u]| |]; try done.
    cbn [mbind cpp_bind]. destruct (processLocationAtAppendAttribute _ _ _ _ _) as [err|[loc geo]]; [by intros [= <- _]|].
    destruct (updateAttrInNotifyCer _ _ _) as [[notify t]| |]; try done. cbn. intros [= _ <-] _. by exists t. }
  destruct (strcasecmp_eq (c_str action) "delete"); [|by intros [= <- _]].
  unfold deleteContextAttributeItem. destruct (deleteAttribute _ _ _ _) as [[deleted counter] u].
  destruct deleted; [|by intros [= <- _]]. destruct (negb _); [by intros [= <- _]|]. by intros [= _ <-].
Qed.

Lemma attributes_notify mem clock ix attrs e action api targets w w' :
  process_attributes mem clock ix attrs e action api targets w = Ret (true, w') ->
  merged action (api =s "v2") targets (w_notify w) = Ret (w_notify w').
Proof.
  revert ix w. induction targets as [|t targets IH]; intros ix w; cbn [process_attributes merged]; [by intros [= <-]|].
  destruct (ca_skip t); [intros H%IH; exact H|].
  destruct (process_item mem (clock ix) attrs e action api t w) as [[it w1]| |] eqn:E; try done.
  cbn [mbind cpp_bind finish_item]. destruct (it_ok it) eqn:Ok; [|done]. intros H%IH. cbn [w_notify] in H.
  pose proof (item_notify _ _ _ _ _ _ _ _ _ _ E Ok) as Hn. destruct (strcasecmp_eq _ "delete"); [by rewrite <- Hn|].
  destruct Hn as [t' ->]. done.
Qed.

(** The work as it is after the attributes, with the names to pull. *)
Definition pulled_work (attrs : doc) (action : string) (w : Work) : Work :=
  if strcasecmp_eq (c_str action) "delete" then with_pull (pulled attrs (w_deleted w)) w else w.

(** What processContextAttributeVector makes of its attributes. *)
Lemma vector_result mem trig clock attrs e action api targets subs w modified subs' w' :
  w_modified w = false -> w_modifiedAttrs w = [] ->
  processContextAttributeVector mem trig clock attrs e action api targets subs w = Ret (modified, subs', w') ->
  exists ok w1, process_attributes mem clock 0 attrs e action api targets w = Ret (ok, w1) /\
  if ok then
    exists err, trig (eid_id e) (eid_type e) (w_modifiedAttrs w1) subs = Ret (err, subs') /\
      modified = (match err with None => true | _ => false end) && negb (length (w_modifiedAttrs w1) =? 0)%nat /\
      w_loc w' = w_loc w1 /\ w_geo w' = w_geo w1 /\ w_notify w' = w_notify w1 /\ w_update w' = w_update (pulled_work attrs action w1)
  else modified = false.
Proof.
  intros Hm Ha. unfold processContextAttributeVector.
  destruct (process_attributes _ _ _ _ _ _ _ _ _) as [[ok w1]| |] eqn:E; try done. cbn [mbind cpp_bind].
  destruct ok; cbn [negb]; [|intros [= <- _ _]; by exists false, w1].
  apply process_attributes_sublist in E as (changed & _ & _ & _ & Hmod & Hw). rewrite Ha in Hmod. cbn in Hmod. rewrite Hm in Hw. cbn in Hw.
  fold (pulled_work attrs action w1). set (w2 := pulled_work attrs action w1).
  assert (w_modifiedAttrs w2 = w_modifiedAttrs w1 /\ w_modified w2 = w_modified w1 /\ w_loc w2 = w_loc w1 /\ w_geo w2 = w_geo w1
    /\ w_notify w2 = w_notify w1) as (H1 & H2 & H3 & H4 & H5) by (unfold w2, pulled_work; by destruct (strcasecmp_eq _ _)).
  rewrite H1. destruct (trig _ _ _ _) as [[err s]| |] eqn:Et; try done; cbn [mbind cpp_bind].
  intros H. exists true, w1. split; [done|]. exists err. rewrite Hmod, length_fmap in *.
  destruct err as [err|]; injection H as <- <- <-; [by rewrite Et|].
  destruct (sc_code (w_status w2) =? SccNone); cbn; rewrite H2, Hw, Et; done.
Qed.

Section Notifies.

Context (regcomp : string -> bool) (regexec : string -> string -> bool) (fuel : nat) (memBool : bool).
Context (tenant xt fc : string) (servicePathV : list string) (now : Z) (collectionUpdate : string -> Z -> bool).
Context {D : Type} `{!EntityStore D} (mem : Metadata) (memDate : double).
Context (registrationsQuery : list EntityId -> list string -> cpp (option (list ContextRegistration))).
Context (fromjson : string -> cpp doc) (clock : nat -> nat -> Z) (api : string).

#[local] Existing Instance cache_subscriptions.

Abbreviation subscriptions :=
  (cache_subscriptions regcomp regexec fuel memBool tenant xt fc servicePathV (fun _ => now) collectionUpdate).

(** The subscriptions of the cache that the modification of these attributes triggers at a
    time, by their ids. *)
Definition triggers (ls : list (loc * CachedSubscription)) (c : SubCache) (time : Z) (id type : string)
    (attrs : list string) : SubMap :=
  foldl (fun m s => map_insert (id_of s) (triggered_of s) m) []
    (List.filter (eligible time)
      (subs (List.filter (fun x => sub_selects regexec (subCacheMultitenant c) (Some (c_str tenant))
         (c_str match servicePathV with sp :: _ => sp | [] => "" end) (c_str id) (c_str type) attrs x.2) ls))).

(** The work of the loop when it starts. *)
Definition start_work (r : doc) (stored : ContextElement) : Work :=
  mkWork [] (mkStatusCode SccNone "") (ce_contextAttributeVector stored) (mkUpdate [] [] [] []) false
    (getStringField (if hasField r ENT_LOCATION then getObjectField r ENT_LOCATION else []) ENT_LOCATION_ATTRNAME) [] [] [] [].

(** C3. What an update of a stored entity notifies.  The deletion of the entity notifies nobody.
    Otherwise the attributes of the request are processed in order, which leaves the names of
    the modified ones, a sub-sequence of those of the request; when one of them stops the
    processing, when none is modified, or when the database refuses the update, nobody is
    notified either.  In every other case the notifications sent are exactly those of the
    subscriptions in the cache that select this entity and the modified attributes and are
    eligible at the time, as far as throttling, their filter and their attribute list let
    them through; they tell the stored entity with the attributes of the request merged into
    its own; and the cache counts each of them. *)
Theorem updateEntity_notifies ei r action reqE targets (world : World D (SubCache * list Notification)) u ls :
  cache_repr (wd_subs world).1 ls -> (length ls <= fuel)%nat -> with_ids ls ->
  Forall (sub_ok regcomp) (subs ls) -> Forall (notifiable regcomp) (subs ls) ->
  subCacheActive (wd_subs world).1 = true ->
  (forall n, int32_min <= clock ei n <= int32_max) ->
  updateEntity (Subscriptions0 := subscriptions) mem memDate registrationsQuery fromjson clock servicePathV api
    ei r action reqE targets world = Ret u ->
  exists idField, embeddedObject (getField r "_id") = Ret idField /\
  let id := getStringField idField ENT_ENTITY_ID in
  let type := if hasField idField ENT_ENTITY_TYPE then getStringField idField ENT_ENTITY_TYPE else "" in
  if is_delete action && (length targets =? 0)%nat then wd_subs (up_world u) = wd_subs world
  else
    exists attrs targets' stored ok w,
      embeddedObject (getField r ENT_ATTRS) = Ret attrs /\ marked action r targets = Ret (targets', up_existing u) /\
      entity_of_doc mem r [] true false false "v1" memDate = Ret stored /\
      process_attributes mem (clock ei) 0 attrs (mkEntityId id type "false" "") action api targets' (start_work r stored) = Ret (ok, w) /\
      if negb ok || (length (w_modifiedAttrs w) =? 0)%nat then wd_subs (up_world u) = wd_subs world
      else
        exists changed q cav,
          sublist changed (filter (fun ca => ca_skip ca = false) targets') /\ w_modifiedAttrs w = ca_name <$> changed /\
          update_query fromjson servicePathV id type = Ret q /\ merged action (api =s "v2") targets' (ce_contextAttributeVector stored) = Ret cav /\
          let now' := clock ei (length targets) in
          let ce := mkContextElement (ce_entityId stored) cav (stored_date r ENT_CREATION_DATE) (double_of_Z now') in
          let m := triggers ls (wd_subs world).1 now' id type (ca_name <$> changed) in
          match (UpdateContext.collectionUpdate (wd_db world) q (updated_entity action now' (w_loc w) (w_geo w)
                   (getObjectField (if hasField r ENT_LOCATION then getObjectField r ENT_LOCATION else []) ENT_LOCATION_COORDS)
                   (w_update (pulled_work attrs action w)))).1 with
          | Some _ => wd_subs (up_world u) = wd_subs world
          | None =>
              (wd_subs (up_world u)).2 = (wd_subs world).2 ++ omap (notification_of regexec memBool now ce tenant xt fc) m /\
              cache_repr (wd_subs (up_world u)).1
                (foldl (fun ls x => bump_for now x.2 ls) ls (List.filter (sends regexec memBool now ce tenant xt fc) m))
          end.
Proof.
  intros Hr Hf Hid Hok Hn Hact Hclock. unfold updateEntity, marked. fold (is_strict action).
  destruct (embeddedObject (getField r "_id")) as [idField| |]; try done. cbn [mbind cpp_bind]. cbv zeta.
  intros H. exists idField. split; [done|]. revert H.
  destruct (is_delete action && (length targets =? 0)%nat) eqn:Ed.
  { destruct (removeEntity _ _ _ _) as [sc db]. by intros [= <-]. }
  destruct (embeddedObject (getField r ENT_ATTRS)) as [attrs| |]; try done. cbn [mbind cpp_bind].
  destruct (if is_strict action then mark_existing attrs targets else (targets, [])) as [targets' existing] eqn:Em.
  destruct (entity_of_doc _ _ _ _ _ _ _ _) as [stored| |]; try done. cbn [mbind cpp_bind].
  fold (start_work r stored).
  match goal with |- context [processContextAttributeVector ?a ?b ?c ?d ?e ?f ?g ?h ?i ?j] =>
    destruct (processContextAttributeVector a b c d e f g h i j) as [[[modified sm] w']| |] eqn:Ep; try done end.
  cbn [mbind cpp_bind].
  assert (length targets' = length targets) as Hl'
    by (destruct (is_strict action); injection Em as <- _; unfold mark_existing; by rewrite ?length_map).
  assert (length (w_targets w') = length targets) as Hlen.
  { pose proof (processContextAttributeVector_targets _ _ _ _ _ _ _ _ _ _ _ _ _ Ep) as (l & -> & HF). cbn.
    by rewrite <- (Forall2_length _ _ _ HF). }
  apply vector_result in Ep as (ok & w & Hp & Hv); [|done..].
  intros H. exists attrs, targets', stored, ok, w. split; [done|].
  assert (up_existing u = existing) as Hex.
  { destruct modified; cbn [negb] in H.
    - destruct (update_query _ _ _ _) as [q| |]; try done. cbn [mbind cpp_bind] in H.
      destruct (UpdateContext.collectionUpdate _ _ _) as [[err|] db]; [by injection H as <-|].
      destruct (processTriggered _ _ _) as [s| |]; try done. cbn [mbind cpp_bind] in H.
      destruct (answered _ _ _ _ _) as [cav| |]; try done. by injection H as <-.
    - destruct (answered _ _ _ _ _) as [cav| |]; try done. by injection H as <-. }
  split; [by rewrite Hex|]. split; [done|]. split; [exact Hp|].
  destruct ok; cbn [negb orb].
  2:{ subst modified. cbn [negb] in H. destruct (answered _ _ _ _ _) as [cav| |]; try done. injection H as <-. by destruct (is_strict action). }
  destruct Hv as (err & Ht & Hmod & Hloc & Hgeo & Hnot & Hupd). cbn in Ht. unfold addTriggered_cache in Ht. rewrite Hl' in Ht.
  rewrite (triggered_selects _ _ _ _ ls) in Ht by (done || apply Hclock). injection Ht as <- <-. cbn [andb] in Hmod.
  pose proof (process_attributes_sublist _ _ _ _ _ _ _ _ _ _ Hp) as (changed & Hsub & _ & _ & Hch & _). cbn in Hch.
  pose proof (attributes_notify _ _ _ _ _ _ _ _ _ _ Hp) as Hmerged. cbn [start_work w_notify] in Hmerged.
  destruct (length (w_modifiedAttrs w) =? 0)%nat.
  { subst modified. cbn [negb] in H. destruct (answered _ _ _ _ _) as [cav| |]; try done. injection H as <-. by destruct (is_strict action). }
  cbn [negb] in Hmod. subst modified. cbn [negb] in H.
  destruct (update_query _ _ _ _) as [q| |] eqn:Eq; try done. cbn [mbind cpp_bind] in H.
  exists changed, q, (w_notify w). split; [done|]. split; [done|]. split; [done|]. split; [done|].
  rewrite Hloc, Hgeo, Hupd, Hlen in H.
  destruct (UpdateContext.collectionUpdate _ _ _) as [[e|] db]; cbn [fst]; [by injection H as <-|].
  rewrite Hnot in H. cbv zeta.
  match type of H with context [processTriggered _ ?m ?ce] => set (ce0 := ce) in H; set (m0 := m) in H end.
  cbn [processTriggered cache_subscriptions] in H. unfold processSubscriptions in H.
  destruct (process_loop_spec regexec (fun _ => now) collectionUpdate now (fun _ => eq_refl) memBool fuel ce0 tenant xt fc
    m0 (mkNotifyState (wd_subs world).1 [] 0 true) ls Hr Hf Hid Hact) as (st & Hst & Hsent & _ & Hrepr).
  rewrite Hst in H. cbn [mbind cpp_bind] in H. destruct (answered _ _ _ _ _) as [cav| |]; try done. injection H as <-.
  cbn [up_world wd_subs fst snd]. unfold triggers. rewrite <- Hch. fold m0. split; [by rewrite Hsent|exact Hrepr].
Qed.

End Notifies.

(** ** Witness *)

Definition live_ls : list (loc * CachedSubscription) := [(1%positive, live_sub)].
Definition live_world : World Recorded (SubCache * list Notification) :=
  mkWorld (mkRecorded [room_doc] []) (live_cache, []) [].

(** The temperature of the room is changed, and a subscription on it is notified. *)
Lemma updateEntity_notifies_witness : exists u ce changed,
  updateEntity (EntityStore0 := recorded_store)
    (Subscriptions0 := cache_subscriptions (fun _ => true) (fun _ _ => false) 1 false "" "" "" ["/a/b"]
                         (fun _ => 100) (fun _ _ => true))
    no_mem S754_nan no_registrations empty_query (fun _ _ => 100) ["/a/b"] "v2" 0 room_doc "UPDATE" the_room
    [text "temp" "21"] live_world = Ret u /\
  (wd_subs (up_world u)).2
    = omap (notification_of (fun _ _ => false) false 100 ce "" "" "")
        (triggers (fun _ _ => false) "" ["/a/b"] live_ls live_cache 100 "Room" "" changed) /\
  length (wd_subs (up_world u)).2 = 1%nat.
Proof.
  destruct (updateEntity (EntityStore0 := recorded_store)
    (Subscriptions0 := cache_subscriptions (fun _ => true) (fun _ _ => false) 1 false "" "" "" ["/a/b"]
                         (fun _ => 100) (fun _ _ => true))
    no_mem S754_nan no_registrations empty_query (fun _ _ => 100) ["/a/b"] "v2" 0 room_doc "UPDATE" the_room
    [text "temp" "21"] live_world) as [u| |] eqn:E; [|vm_compute in E; discriminate E|vm_compute in E; discriminate E].
  destruct (updateEntity_notifies (EntityStore0 := recorded_store) (fun _ => true) (fun _ _ => false) 1 false "" "" ""
    ["/a/b"] 100 (fun _ _ => true) no_mem S754_nan no_registrations empty_query (fun _ _ => 100) "v2" 0 room_doc "UPDATE"
    the_room [text "temp" "21"] live_world u live_ls) as (idField & H1 & H);
    [exact live_repr|exact (le_n 1)| | | | | |exact E|].
  - constructor; [eexists; reflexivity|constructor].
  - constructor; [exact (proj1 live_ok)|constructor].
  - constructor; [exact (proj2 live_ok)|constructor].
  - reflexivity.
  - intros n. split; discriminate.
  - vm_compute in H1. injection H1 as <-.
    destruct H as (attrs & targets' & stored & ok & w & Ha & Hm & Hst & Hp & H).
    vm_compute in E. injection E as <-. vm_compute in Ha. injection Ha as <-. vm_compute in Hm. injection Hm as <-.
    vm_compute in Hst. injection Hst as <-. vm_compute in Hp. injection Hp as <- <-.
    destruct H as (changed & q & cav & _ & _ & Hq & _ & H). 
    destruct H as [H _]. eexists _, _, (ca_name <$> changed). split; [reflexivity|]. split; [exact H|reflexivity].
Defined.
