(* ===== verification/QueryContext.v ===== *)
(** * Queries

    mongoBackend/mongoQueryContext.cpp and entitiesQuery of mongoBackend/MongoGlobal.cpp:
    the query sent to the database, the elements made of its answer, the providers of
    registrations that are added to them, and the response.  The database is an argument:
    for a query, an order, a limit and an offset it answers an error, or the number of
    matching entities and what the cursor yields.  fromjson and registrationsQuery are
    arguments too.  A text of an exception is kept as it is reported. *)

From S2P Require Import Prelude Strings Double Bson Compound Ngsi AttrUpdate Location EntityDoc Registrations.
From S2P Require Import FilterParse FilterMatch Geo Queries EntityUpdate UpdateContext.

Open Scope Z_scope.

(** ** The query to the database *)

Definition FIWARE_LOCATION_DEPRECATED : string := "FIWARE_Location".
Definition SCOPE_FILTER : string := "FIWARE::Filter".
Definition SCOPE_FILTER_EXISTENCE : string := SCOPE_FILTER +:+ "::" +:+ "Existence".
Definition SCOPE_OPERATOR_NOT : string := "Not".
Definition SCOPE_TYPE_SIMPLE_QUERY : string := "FIWARE::StringQuery".
Definition SCOPE_VALUE_ENTITY_TYPE : string := "entity::type".
Definition ORDER_BY_PROXIMITY : string := "geo:distance".

(** fillQueryEntity *)
Definition fillQueryEntity (e : EntityId) : doc :=
  (ID_FIELD, if eid_isPattern e =s "true" then BsonRegex (eid_id e) else BsonString (eid_id e))
  :: (if eid_type e =s "" then [] else [(TYPE_FIELD, BsonString (eid_type e))]).

Record Scope := mkScope {
  sc_type : string;
  sc_value : string;
  sc_oper : string;
  sc_area : Area;
  sc_georel : Georel;
  sc_stringFilterP : option StringFilter
}.

(** addFilterScope: the filter that is added, if any. *)
Definition addFilterScope (sc : Scope) : list doc :=
  if (sc_type sc =s SCOPE_FILTER_EXISTENCE) && (sc_value sc =s SCOPE_VALUE_ENTITY_TYPE)
  then [[(TYPE_FIELD, BsonObj [("$exists", BsonBool (negb (sc_oper sc =s SCOPE_OPERATOR_NOT)))])]]
  else [].

Definition is_location (t : string) : bool :=
  (t =s FIWARE_LOCATION) || (t =s FIWARE_LOCATION_DEPRECATED) || (t =s FIWARE_LOCATION_V2).

(** The area query of a scope. *)
Definition areaQuery (capable : bool) (sc : Scope) : option doc :=
  if sc_type sc =s FIWARE_LOCATION_V2
  then processAreaScopeV2 capable (mkGeoScope (sc_type sc) (sc_area sc) (sc_georel sc))
  else processAreaScope capable (sc_area sc).

(** The loop over the scopes, after [geoScopes] of them: what is appended to the query, and the
    filters that are appended afterwards. *)
Fixpoint scopes_query (capable : bool) (geoScopes : nat) (scopes : list Scope) : doc * list doc :=
  match scopes with
  | [] => ([], [])
  | sc :: scopes' =>
      if strncmp_eq (sc_type sc) SCOPE_FILTER (String.length SCOPE_FILTER) then
        let '(q, filters) := scopes_query capable geoScopes scopes' in (q, addFilterScope sc ++ filters)
      else if is_location (sc_type sc) then
        let '(q, filters) := scopes_query capable (S geoScopes) scopes' in
        ((if (geoScopes =? 0)%nat
          then match areaQuery capable sc with
               | Some a => [(ENT_LOCATION +:+ "." +:+ ENT_LOCATION_COORDS, BsonObj a)]
               | None => []
               end
          else []) ++ q, filters)
      else if sc_type sc =s SCOPE_TYPE_SIMPLE_QUERY then
        let '(q, filters) := scopes_query capable geoScopes scopes' in
        (match sc_stringFilterP sc with Some f => concat (sf_mongoFilters f) | None => [] end ++ q, filters)
      else scopes_query capable geoScopes scopes'
  end.

Definition sortCriteria (sortToken : string) : string :=
  if sortToken =s DATE_CREATED then ENT_CREATION_DATE
  else if sortToken =s DATE_MODIFIED then ENT_MODIFICATION_DATE
  else ENT_ATTRS +:+ "." +:+ sortToken +:+ "." +:+ ENT_ATTRS_VALUE.

(** The order asked for: None when the database is left to choose it. *)
Definition sort_order (sortOrderList : string) : option doc :=
  if sortOrderList =s "" then Some [(ENT_CREATION_DATE, BsonInt 1)]
  else if sortOrderList =s ORDER_BY_PROXIMITY then None
  else Some ((fun token =>
                match token with
                | String c sortToken =>
                    if c =c "!"%char then (sortCriteria sortToken, BsonInt (-1)) else (sortCriteria token, BsonInt 1)
                | "" => (sortCriteria "", BsonInt 1)
                end) <$> (stringSplit sortOrderList ",").2).

(** ** Elements of the response *)

(** ContextElementResponse, with the providers of its entity and the mark of an entity that is
    not in the database. *)
Record Qer := mkQer {
  qe_entity : EntityId;
  qe_attrs : list ContextAttribute;
  qe_providers : list string;
  qe_status : StatusCode;
  qe_prune : bool
}.

Definition with_attrs (cav : list ContextAttribute) (cer : Qer) : Qer :=
  mkQer (qe_entity cer) cav (qe_providers cer) (qe_status cer) (qe_prune cer).

(** What the cursor yields: a document, an assertion exception, another one. *)
Inductive fetched :=
  | Fetched (d : doc)
  | Asserted (what : string)
  | Failed (what : string).

Definition same_entity (e : EntityId) (cer : Qer) : bool :=
  (eid_id (qe_entity cer) =s eid_id e) && (eid_type (qe_entity cer) =s eid_type e).

Section Queries.

(** Memory that constructors leave unassigned. *)
Context (mem : Metadata) (memDate : double).
Context (regcomp : string -> bool) (regexec : string -> string -> bool).
Context (fromjson : string -> cpp doc) (capable : bool).
Context (collectionRangedQuery : doc -> option doc -> Z -> Z -> string + (Z * list fetched)).
Context (registrationsQuery : list EntityId -> list string -> cpp (option (list ContextRegistration))).

Definition entities_query (enV : list EntityId) (attrL : list string) (scopes : list Scope)
    (servicePath : list string) : cpp doc :=
  sp ← service_path_condition fromjson servicePath;
  let '(q, filters) := scopes_query capable 0 scopes in
  Ret ([("$or", BsonArray (BsonObj ∘ fillQueryEntity <$> enV)); (SERVICE_PATH_FIELD, sp)]
       ++ (if (length attrL =? 0)%nat then []
           else [(ENT_ATTRNAMES, BsonObj [("$in", BsonArray (BsonString <$> attrL))])])
       ++ q ++ concat filters).

(** ContextAttribute(name, "", "", found) *)
Definition bare_attribute (name : string) (found : bool) : ContextAttribute :=
  ContextAttribute_string name "" "" found (md_numberValue mem) (md_boolValue mem).

Definition has_attr (name : string) (cav : list ContextAttribute) : bool :=
  existsb (fun ca => name =s ca_name ca) cav.

(** The attributes of the request that an entity does not have, marked as not found. *)
Definition add_missing (attrL : list string) (cav : list ContextAttribute) : list ContextAttribute :=
  foldl (fun cav name => if has_attr name cav then cav else cav ++ [bare_attribute name false]) cav attrL.

Definition invalidPolygon : string := "Exterior shell of polygon is invalid".

(** The element that tells about an assertion exception. *)
Definition assertion_element (enV : list EntityId) (what : string) : Qer :=
  mkQer (match enV with [e] => e | _ => mkEntityId "" "" "" "" end) [] []
    (mkStatusCode SccReceiverInternalError
       (if strncmp_eq (c_str what) invalidPolygon (String.length invalidPolygon) then invalidPolygon
        else "Error at querying MongoDB")) false.

(** How the loop over the cursor ends: at its end, at an assertion exception, at another one. *)
Inductive reading :=
  | ReadAll (cerV : list Qer)
  | ReadAsserted (cerV : list Qer)
  | ReadFailed (err : string).

Fixpoint read_cursor (enV : list EntityId) (attrL : list string)
    (includeEmpty includeCreDate includeModDate : bool) (apiVersion : string) (cursor : list fetched)
    (cerV : list Qer) : cpp reading :=
  match cursor with
  | [] => Ret (ReadAll cerV)
  | Asserted what :: _ => Ret (ReadAsserted (cerV ++ [assertion_element enV what]))
  | Failed what :: _ => Ret (ReadFailed what)
  | Fetched r :: cursor' =>
      ce ← entity_of_doc mem r attrL includeEmpty includeCreDate includeModDate apiVersion memDate;
      read_cursor enV attrL includeEmpty includeCreDate includeModDate apiVersion cursor'
        (cerV ++ [mkQer (ce_entityId ce) (add_missing attrL (ce_contextAttributeVector ce)) []
                    (mkStatusCode SccOk "") false])
  end.

(** The element of an entity of the request that is not among those found. *)
Definition absent_element (e : EntityId) (attrL : list string) : Qer :=
  mkQer (mkEntityId (eid_id e) (eid_type e) "false" "") ((fun name => bare_attribute name false) <$> attrL) []
    (mkStatusCode SccOk "") true.

Definition add_absent (enV : list EntityId) (attrL : list string) (cerV : list Qer) : list Qer :=
  foldl (fun cerV e => if (eid_isPattern e =s "true") || existsb (same_entity e) cerV then cerV
                       else cerV ++ [absent_element e attrL]) cerV enV.

(** What entitiesQuery returns and leaves: its result, the error text, the elements, whether the
    limit was reached, the count, and whether the connection was released. *)
Record EntitiesResult := mkEntitiesResult {
  er_ok : bool;
  er_err : string;
  er_cerV : list Qer;
  er_limitReached : bool;
  er_count : option Z;
  er_released : bool
}.

(** entitiesQuery; [limitReachedP] and [countP] tell whether there is a place for limitReached
    and for the count. *)
Definition entitiesQuery (enV : list EntityId) (attrL : list string) (scopes : list Scope) (includeEmpty : bool)
    (servicePath : list string) (offset limit : Z) (limitReachedP countP : bool) (sortOrderList : string)
    (includeCreDate includeModDate : bool) (apiVersion : string) : cpp EntitiesResult :=
  q ← entities_query enV attrL scopes servicePath;
  match collectionRangedQuery q (sort_order sortOrderList) limit offset with
  | inl err => Ret (mkEntitiesResult false err [] false None true)
  | inr (count, cursor) =>
      let count := if countP then Some count else None in
      r ← read_cursor enV attrL includeEmpty includeCreDate includeModDate apiVersion cursor [];
      Ret (match r with
           | ReadFailed err => mkEntitiesResult false err [] false count true
           | ReadAsserted cerV => mkEntitiesResult true "" cerV false count false
           | ReadAll cerV =>
               if limitReachedP && (limit mod 2 ^ 32 <=? Z.of_nat (length cerV))
               then mkEntitiesResult true "" cerV true count true
               else mkEntitiesResult true "" (add_absent enV attrL cerV) false count true
           end)
  end.

(** ** Providers *)

(** addContextProviderEntity *)
Fixpoint addContextProviderEntity (cerV : list Qer) (e : EntityId) (pa : string) : list Qer :=
  match cerV with
  | [] => [mkQer (mkEntityId (eid_id e) (eid_type e) "false" "") [] [pa] (mkStatusCode SccOk "") false]
  | cer :: cerV' =>
      if same_entity e cer
      then mkQer (qe_entity cer) (qe_attrs cer) (qe_providers cer ++ [pa]) (qe_status cer) (qe_prune cer) :: cerV'
      else cer :: addContextProviderEntity cerV' e pa
  end.

(** The attribute that tells its provider. *)
Definition provider_attribute (name pa : string) : ContextAttribute :=
  let ca := bare_attribute name true in
  mkContextAttribute (ca_name ca) (ca_type ca) (ca_metadataVector ca) (ca_valueType ca) (ca_stringValue ca)
    (ca_numberValue ca) (ca_boolValue ca) pa (ca_found ca) (ca_skip ca) (ca_compoundValueP ca) (ca_typeGiven ca).

(** addContextProviderAttribute *)
Fixpoint addContextProviderAttribute (cerV : list Qer) (e : EntityId) (name pa : string) (limitReached : bool)
    : list Qer :=
  match cerV with
  | [] =>
      if limitReached then []
      else [mkQer (mkEntityId (eid_id e) (eid_type e) "false" "") [provider_attribute name pa] []
              (mkStatusCode SccOk "") false]
  | cer :: cerV' =>
      if same_entity e cer then
        (if existsb (fun ca => ca_name ca =s name) (qe_attrs cer) then cer
         else with_attrs (qe_attrs cer ++ [provider_attribute name pa]) cer) :: cerV'
      else cer :: addContextProviderAttribute cerV' e name pa limitReached
  end.

Definition matchEntityInCrr (cr : ContextRegistration) (e : EntityId) : bool :=
  existsb (fun crE => matchEntity regcomp regexec crE e) (cr_entityIdVector cr).

(** The providers of one registration. *)
Definition addRegistration (limitReached : bool) (cerV : list Qer) (cr : ContextRegistration) : list Qer :=
  let pa := cr_providingApplication cr in
  if (length (cr_attributes cr) =? 0)%nat then
    if limitReached then cerV
    else foldl (fun cerV e => addContextProviderEntity cerV e pa) cerV (cr_entityIdVector cr)
  else
    foldl (fun cerV e =>
             foldl (fun cerV a => addContextProviderAttribute cerV e (cra_name a) pa limitReached) cerV
               (cr_attributes cr))
      cerV (cr_entityIdVector cr).

(** addContextProviders, [filter] being the entity that registrations must match, if any. *)
Definition addContextProviders (cerV : list Qer) (crrV : list ContextRegistration) (limitReached : bool)
    (filter : option EntityId) : list Qer :=
  foldl (addRegistration limitReached) cerV
    (List.filter (fun cr => match filter with Some e => matchEntityInCrr cr e | None => true end) crrV).

Definition is_generic (e : EntityId) : bool := (eid_type e =s "") || isTrue (eid_isPattern e).

Definition processGenericEntities (enV : list EntityId) (cerV : list Qer) (crrV : list ContextRegistration)
    (limitReached : bool) : list Qer :=
  foldl (fun cerV e => addContextProviders cerV crrV limitReached (Some e)) cerV (List.filter is_generic enV).

Definition someCerNotFound (cerV : list Qer) : bool :=
  existsb (fun cer => someContextElementNotFound (qe_attrs cer)) cerV.

Definition fillCerProviders (cerV : list Qer) (crrV : list ContextRegistration) : list Qer :=
  (fun cer => with_attrs (fillContextProviders (qe_entity cer) crrV (qe_attrs cer)) cer) <$> cerV.

(** ** Pruning *)

Definition pruned (cer : Qer) : Qer :=
  mkQer (qe_entity cer) ((fun ca => (ContextAttribute_copy ca false).1) <$> List.filter ca_found (qe_attrs cer))
    (qe_providers cer) (qe_status cer) false.

(** Only the mark of the database's absence prunes an element that is left empty. *)
Definition kept (cer : Qer) : bool :=
  negb (qe_prune cer && (length (qe_attrs (pruned cer)) =? 0)%nat && (length (qe_providers cer) =? 0)%nat).

Definition pruneContextElements (cerV : list Qer) : list Qer := pruned <$> List.filter kept cerV.

(** ** The query *)

(** The lookup of registrations, and what is done with them if there are any. *)
Definition with_registrations (enV : list EntityId) (attrL : list string)
    (f : list ContextRegistration -> list Qer) (cerV : list Qer) : cpp (list Qer) :=
  r ← registrationsQuery enV attrL;
  Ret (match r with
       | Some crrV => if (0 <? length crrV)%nat then f crrV else cerV
       | None => cerV
       end).

(** The steps between entitiesQuery and pruning. *)
Definition add_providers (enV : list EntityId) (attrL : list string) (limitReached : bool) (cerV : list Qer)
    : cpp (list Qer) :=
  cerV ← (if (length cerV =? 0)%nat then
            with_registrations enV attrL (fun crrV => processGenericEntities enV cerV crrV limitReached) cerV
          else Ret cerV);
  cerV ← (if someCerNotFound cerV then
            with_registrations enV attrL
              (fun crrV => processGenericEntities enV (fillCerProviders cerV crrV) crrV limitReached) cerV
          else Ret cerV);
  cerV ← (if someCerNotFound cerV then
            with_registrations enV [] (fun crrV => fillCerProviders cerV crrV) cerV
          else Ret cerV);
  if (length attrL =? 0)%nat then
    with_registrations enV attrL (fun crrV => addContextProviders cerV crrV limitReached None) cerV
  else Ret cerV.

(** The error code of the response; [offset] is as it was asked for. *)
Definition query_status (found : bool) (count : option Z) (offset : Z) : StatusCode :=
  if negb found then
    match count with
    | Some n =>
        if (0 <? n) && (n <=? offset)
        then mkStatusCode SccContextElementNotFound
               ("Number of matching entities: " +:+ show_Z n +:+ ". Offset is " +:+ show_Z offset)
        else mkStatusCode SccContextElementNotFound ""
    | None => mkStatusCode SccContextElementNotFound ""
    end
  else
    match count with
    | Some n => mkStatusCode SccOk ("Count: " +:+ show_Z n)
    | None => mkStatusCode SccNone ""
    end.

(** mongoQueryContext: the error code and the elements of the response; the last component is
    whether the connection was released. *)
Definition mongoQueryContext (enV : list EntityId) (attrL : list string) (scopes : list Scope)
    (servicePathV : list string) (offset limit sortOrderList : string) (includeCreDate includeModDate : bool)
    (countP : bool) (apiVersion : string) : cpp (StatusCode * list Qer * bool) :=
  let offset := atoi (c_str offset) in
  r ← entitiesQuery enV attrL scopes true servicePathV offset (atoi (c_str limit)) true countP sortOrderList
        includeCreDate includeModDate apiVersion;
  if negb (er_ok r) then Ret (mkStatusCode SccReceiverInternalError (er_err r), [], er_released r)
  else
    cerV ← add_providers enV attrL (er_limitReached r) (er_cerV r);
    let answer := pruneContextElements cerV in
    Ret (query_status (0 <? length answer)%nat (er_count r) offset, answer, er_released r).

End Queries.

(** ** What providers do to the elements *)

(** What is found stays as it is, and more may follow or be filled in. *)
Definition keeps (ca ca' : ContextAttribute) : Prop :=
  ca_name ca' = ca_name ca /\ (ca_found ca = true -> ca' = ca).
Definition attrs_extend (l l' : list ContextAttribute) : Prop :=
  exists l1 l2, l' = l1 ++ l2 /\ Forall2 keeps l l1.

Record extends (cer cer' : Qer) : Prop := {
  ext_entity : qe_entity cer' = qe_entity cer;
  ext_status : qe_status cer' = qe_status cer;
  ext_prune : qe_prune cer' = qe_prune cer;
  ext_providers : qe_providers cer `prefix_of` qe_providers cer';
  ext_attrs : attrs_extend (qe_attrs cer) (qe_attrs cer')
}.

(** The element says something: an attribute that is found, or a provider. *)
Definition told (cer : Qer) : Prop :=
  Exists (fun ca => ca_found ca = true) (qe_attrs cer) \/ qe_providers cer <> [].

(** The elements keep their places; those added say something. *)
Definition grows (cerV cerV' : list Qer) : Prop :=
  exists a b, cerV' = a ++ b /\ Forall2 extends cerV a /\ Forall told b.

#[export] Instance keeps_preorder : PreOrder keeps.
Proof.
  split; [by intros ca|]. intros a b c [H1 H2] [H3 H4]. split; [congruence|].
  intros Ha. rewrite <- (H2 Ha). apply H4. by rewrite (H2 Ha).
Qed.

#[export] Instance attrs_extend_preorder : PreOrder attrs_extend.
Proof.
  split; [intros l; exists l, []; by rewrite app_nil_r|].
  intros l l' l'' (a & b & -> & H1) (c & d & -> & H2).
  apply Forall2_app_inv_l in H2 as (c1 & c2 & H2 & H3 & ->).
  exists c1, (c2 ++ d). split; [by rewrite app_assoc|]. by etrans.
Qed.

#[export] Instance extends_preorder : PreOrder extends.
Proof.
  split; [intros cer; split; done|]. intros a b c [] []. split; try congruence; by etrans.
Qed.

Lemma told_extends cer cer' : extends cer cer' -> told cer -> told cer'.
Proof.
  intros [_ _ _ [k Hk] (l1 & l2 & Ha & HF)] [H|H].
  - left. rewrite Ha. apply Exists_app. left. apply Exists_exists in H as (ca & Hin & Hf).
    apply list_elem_of_lookup in Hin as [i Hi]. destruct (Forall2_lookup_l _ _ _ _ _ HF Hi) as (ca' & Hi' & _ & Hca).
    apply Exists_exists. exists ca'. split; [by eapply list_elem_of_lookup_2|]. by rewrite (Hca Hf).
  - right. rewrite Hk. by destruct (qe_providers cer).
Qed.

Lemma Forall_told_extends l l' : Forall2 extends l l' -> Forall told l -> Forall told l'.
Proof.
  induction 1 as [|x y l l' Hxy _ IH]; [done|]. intros [H1 H2]%Forall_cons. constructor; [by eapply told_extends|by apply IH].
Qed.

#[export] Instance grows_preorder : PreOrder grows.
Proof.
  split; [intros l; exists l, []; by rewrite app_nil_r|].
  intros l l' l'' (a & b & -> & H1 & Hb) (c & d & -> & H2 & Hd).
  apply Forall2_app_inv_l in H2 as (c1 & c2 & H2 & H3 & ->).
  exists c1, (c2 ++ d). split; [by rewrite app_assoc|]. split; [by etrans|].
  apply Forall_app. split; [by eapply Forall_told_extends|done].
Qed.

Lemma grows_cons cer cer' l l' : extends cer cer' -> grows l l' -> grows (cer :: l) (cer' :: l').
Proof. intros H (a & b & -> & HF & Hb). exists (cer' :: a), b. split; [done|]. split; [by constructor|done]. Qed.

Lemma grows_new cer : told cer -> grows [] [cer].
Proof. intros H. exists [], [cer]. split; [done|]. split; [constructor|by constructor]. Qed.

Lemma grows_foldl {A} (f : list Qer -> A -> list Qer) l cerV :
  (forall cerV x, grows cerV (f cerV x)) -> grows cerV (foldl f cerV l).
Proof. intros H. revert cerV. induction l as [|x l IH]; intros cerV; cbn [foldl]; [done|]. etrans; [apply H|apply IH]. Qed.

Section Growth.

Context (mem : Metadata) (regcomp : string -> bool) (regexec : string -> string -> bool).
Context (registrationsQuery : list EntityId -> list string -> cpp (option (list ContextRegistration))).

Lemma addContextProviderEntity_grows cerV e pa : grows cerV (addContextProviderEntity cerV e pa).
Proof.
  induction cerV as [|cer cerV IH]; cbn [addContextProviderEntity]; [apply grows_new; by right|].
  destruct (same_entity e cer); [|by apply grows_cons]. apply grows_cons; [|done].
  split; cbn; try done. by exists [pa].
Qed.

Lemma addContextProviderAttribute_grows cerV e name pa lim :
  grows cerV (addContextProviderAttribute mem cerV e name pa lim).
Proof.
  induction cerV as [|cer cerV IH]; cbn [addContextProviderAttribute].
  { destruct lim; [done|]. apply grows_new. left. by constructor. }
  destruct (same_entity e cer); [|by apply grows_cons]. apply grows_cons; [|done].
  destruct (existsb _ _); [done|]. split; cbn; try done. exists (qe_attrs cer), [provider_attribute mem name pa]. by split.
Qed.

Lemma addRegistration_grows lim cerV cr : grows cerV (addRegistration mem lim cerV cr).
Proof.
  unfold addRegistration. destruct (length (cr_attributes cr) =? 0)%nat.
  - destruct lim; [done|]. apply grows_foldl. intros. apply addContextProviderEntity_grows.
  - apply grows_foldl. intros. apply grows_foldl. intros. apply addContextProviderAttribute_grows.
Qed.

Lemma addContextProviders_grows cerV crrV lim f : grows cerV (addContextProviders mem regcomp regexec cerV crrV lim f).
Proof. apply grows_foldl. intros. apply addRegistration_grows. Qed.

Lemma processGenericEntities_grows enV cerV crrV lim :
  grows cerV (processGenericEntities mem regcomp regexec enV cerV crrV lim).
Proof. apply grows_foldl. intros. apply addContextProviders_grows. Qed.

Lemma fillCerProviders_grows cerV crrV : grows cerV (fillCerProviders cerV crrV).
Proof.
  exists (fillCerProviders cerV crrV), []. rewrite app_nil_r. split; [done|]. split; [|done].
  unfold fillCerProviders. apply Forall2_fmap_r, Forall_Forall2_diag, Forall_true. intros cer. split; cbn; try done.
  exists (fillContextProviders (qe_entity cer) crrV (qe_attrs cer)), []. rewrite app_nil_r. split; [done|].
  unfold fillContextProviders. apply Forall2_fmap_r, Forall_Forall2_diag, Forall_true. intros ca. unfold compose, keeps.
  destruct (ca_found ca); [by split|]. by destruct (cprLookupByAttribute _ _ _).
Qed.

Lemma with_registrations_grows enV attrL f cerV cerV' :
  (forall crrV, grows cerV (f crrV)) ->
  with_registrations registrationsQuery enV attrL f cerV = Ret cerV' -> grows cerV cerV'.
Proof.
  intros Hf. unfold with_registrations. destruct (registrationsQuery enV attrL) as [[crrV|]| |]; try done; cbn [mbind cpp_bind];
    [destruct (0 <? length crrV)%nat|]; intros [= <-]; done.
Qed.

Lemma add_providers_grows enV attrL lim cerV cerV' :
  add_providers mem regcomp regexec registrationsQuery enV attrL lim cerV = Ret cerV' -> grows cerV cerV'.
Proof.
  unfold add_providers.
  assert (forall (c : bool) al f v v', (forall crrV, grows v (f crrV)) ->
    (if c then with_registrations registrationsQuery enV al f v else Ret v) = Ret v' -> grows v v') as Hstep.
  { intros c al f v v' Hf. destruct c; [by apply with_registrations_grows|by intros [= <-]]. }
  destruct (if (length cerV =? 0)%nat then _ else _) as [v1| |] eqn:E1; try done. cbn [mbind cpp_bind].
  apply Hstep in E1; [|intros; apply processGenericEntities_grows].
  destruct (if someCerNotFound v1 then _ else _) as [v2| |] eqn:E2; try done. cbn [mbind cpp_bind].
  apply Hstep in E2; [|intros; etrans; [apply fillCerProviders_grows|apply processGenericEntities_grows]].
  destruct (if someCerNotFound v2 then _ else _) as [v3| |] eqn:E3; try done. cbn [mbind cpp_bind].
  apply Hstep in E3; [|intros; apply fillCerProviders_grows].
  intros E4. apply Hstep in E4; [|intros; apply addContextProviders_grows].
  etrans; [exact E1|]. etrans; [exact E2|]. by etrans.
Qed.

End Growth.

(** ** The elements read from the database *)

Section Reading.

Context (mem : Metadata) (memDate : double).

Lemma read_cursor_kept enV attrL ie cd md api cursor cerV r :
  read_cursor mem memDate enV attrL ie cd md api cursor cerV = Ret r -> Forall (fun cer => qe_prune cer = false) cerV ->
  match r with ReadAll l | ReadAsserted l => Forall (fun cer => qe_prune cer = false) l | ReadFailed _ => True end.
Proof.
  revert cerV. induction cursor as [|[d|what|what] cursor IH]; intros cerV; cbn [read_cursor].
  - by intros [= <-].
  - destruct (entity_of_doc _ _ _ _ _ _ _ _) as [ce| |]; try done. cbn [mbind cpp_bind]. intros H Hall.
    apply (IH _ H). apply Forall_app. split; [done|by repeat constructor].
  - intros [= <-] Hall. apply Forall_app. split; [done|by repeat constructor].
  - by intros [= <-].
Qed.

Lemma add_absent_split enV attrL cerV : exists absent, add_absent mem enV attrL cerV = cerV ++ absent /\
  Forall (fun cer => qe_prune cer = true) absent.
Proof.
  unfold add_absent. revert cerV. induction enV as [|e enV IH]; intros cerV; cbn [foldl].
  - exists []. by rewrite app_nil_r.
  - destruct (_ || _); [apply IH|]. destruct (IH (cerV ++ [absent_element mem e attrL])) as (absent & -> & Hp).
    exists (absent_element mem e attrL :: absent). rewrite <- app_assoc. split; [done|by constructor].
Qed.

End Reading.

(** ** The answer *)

(** The element of the answer for one of the database: what was found in the database is in it,
    in its order. *)
Definition answers (cer cer' : Qer) : Prop :=
  qe_entity cer' = qe_entity cer /\ qe_status cer' = qe_status cer /\
  ((fun ca => (ContextAttribute_copy ca false).1) <$> List.filter ca_found (qe_attrs cer)) `sublist_of` qe_attrs cer'.

Lemma found_extends l l' : attrs_extend l l' -> List.filter ca_found l `sublist_of` List.filter ca_found l'.
Proof.
  intros (l1 & l2 & -> & HF). rewrite List.filter_app. apply sublist_inserts_r.
  induction HF as [|ca ca' l l1 [_ H] _ IH]; [done|]. cbn [List.filter]. destruct (ca_found ca) eqn:E.
  - rewrite (H eq_refl), E. by constructor.
  - destruct (ca_found ca'); [by constructor|done].
Qed.

Lemma pruned_answers cer cer' : extends cer cer' -> answers cer (pruned cer').
Proof.
  intros [He Hs _ _ Ha]. split; [done|]. split; [done|]. cbn [pruned qe_attrs].
  apply fmap_sublist. by apply found_extends.
Qed.

Lemma pruned_told cer : told cer -> told (pruned cer).
Proof.
  intros [H|H]; [|by right]. left. apply Exists_exists in H as (ca & Hin & Hf). apply Exists_exists.
  exists (ContextAttribute_copy ca false).1. split; [|done]. cbn. apply list_elem_of_fmap. exists ca. split; [done|].
  apply list_elem_of_In, List.filter_In. by rewrite <- list_elem_of_In.
Qed.

Lemma kept_told cer : qe_prune cer = true -> kept cer = true -> told (pruned cer).
Proof.
  unfold kept. intros ->. cbn [andb]. rewrite negb_andb, orb_true_iff, !negb_true_iff, !Nat.eqb_neq.
  intros [H|H]; [left|right].
  - destruct (qe_attrs (pruned cer)) as [|ca l] eqn:E; [done|].
    assert (ca ∈ qe_attrs (pruned cer)) as (ca0 & -> & Hin)%list_elem_of_fmap by (rewrite E; by left).
    apply list_elem_of_In, List.filter_In in Hin as [_ Hf]. by constructor.
  - cbn. by destruct (qe_providers cer).
Qed.

Lemma filter_kept_all l : Forall (fun cer => qe_prune cer = false) l -> List.filter kept l = l.
Proof. induction 1 as [|cer l H _ IH]; [done|]. cbn. unfold kept at 1. by rewrite H, IH. Qed.

Lemma prune_grown local absent cerV : grows (local ++ absent) cerV ->
  Forall (fun cer => qe_prune cer = false) local -> Forall (fun cer => qe_prune cer = true) absent ->
  exists l rest, pruneContextElements cerV = l ++ rest /\ Forall2 answers local l /\ Forall told rest.
Proof.
  intros (a & b & -> & HF & Hb) Hl Ha. apply Forall2_app_inv_l in HF as (a1 & a2 & H1 & H2 & ->).
  assert (Forall (fun cer => qe_prune cer = false) a1) as Hk1
    by (clear -H1 Hl; induction H1 as [|x y l l' [] _ IH]; [done|]; inversion Hl; constructor; [congruence|by apply IH]).
  assert (Forall (fun cer => qe_prune cer = true) a2) as Hk2
    by (clear -H2 Ha; induction H2 as [|x y l l' [] _ IH]; [done|]; inversion Ha; constructor; [congruence|by apply IH]).
  unfold pruneContextElements. rewrite !List.filter_app, (filter_kept_all a1 Hk1), !fmap_app, <- app_assoc.
  eexists _, _. split; [done|]. split.
  - apply Forall2_fmap_r. eapply Forall2_impl; [exact H1|]. apply pruned_answers.
  - apply Forall_app. split; apply Forall_fmap, Forall_forall; intros cer [Hin Hk]%list_elem_of_In%List.filter_In;
      apply list_elem_of_In in Hin.
    + apply kept_told; [|done]. by apply (proj1 (Forall_forall _ _) Hk2).
    + apply pruned_told. by apply (proj1 (Forall_forall _ _) Hb).
Qed.

Lemma pruned_found cerV : Forall (fun cer => Forall (fun ca => ca_found ca = true) (qe_attrs cer)) (pruneContextElements cerV).
Proof.
  apply Forall_fmap, Forall_true. intros cer. apply Forall_forall.
  intros ca (ca0 & -> & Hin)%list_elem_of_fmap. by apply list_elem_of_In, List.filter_In in Hin as [_ Hf].
Qed.

Lemma entities_split mem memDate fromjson capable rq enV attrL scopes ie sp offset limit lp countP sort cd md api r :
  entitiesQuery mem memDate fromjson capable rq enV attrL scopes ie sp offset limit lp countP sort cd md api = Ret r ->
  er_ok r = true -> exists q count cursor local absent,
    entities_query fromjson capable enV attrL scopes sp = Ret q /\
    rq q (sort_order sort) limit offset = inr (count, cursor) /\
    (read_cursor mem memDate enV attrL ie cd md api cursor [] = Ret (ReadAll local) \/
     read_cursor mem memDate enV attrL ie cd md api cursor [] = Ret (ReadAsserted local)) /\
    er_cerV r = local ++ absent /\
    Forall (fun cer => qe_prune cer = false) local /\ Forall (fun cer => qe_prune cer = true) absent.
Proof.
  unfold entitiesQuery. destruct (entities_query _ _ _ _ _ _) as [q| |]; try done. cbn [mbind cpp_bind].
  destruct (rq _ _ _ _) as [err|[count cursor]] eqn:Eq; [by intros [= <-]|].
  destruct (read_cursor _ _ _ _ _ _ _ _ _ _) as [rd| |] eqn:E; try done. cbn [mbind cpp_bind].
  pose proof (read_cursor_kept _ _ _ _ _ _ _ _ _ _ _ E ltac:(constructor)) as Hk.
  intros Hr Hok. exists q, count, cursor. destruct rd as [cerV|cerV|err].
  - destruct (lp && _); injection Hr as <-; cbn.
    + exists cerV, []. rewrite app_nil_r. split_and!; auto.
    + destruct (add_absent_split mem enV attrL cerV) as (absent & -> & Hp). exists cerV, absent. split_and!; auto.
  - injection Hr as <-. cbn. exists cerV, []. rewrite app_nil_r. split_and!; auto.
  - injection Hr as <-. done.
Qed.

(** C6. What a query answers: first an element for each entity that the database yields, in its
    order, with all that was found there; then elements for entities of registrations and of the
    request, which all tell an attribute or a provider.  Every attribute in the answer is
    found, and the error code is 404 exactly when the answer is empty. *)
Theorem mongoQueryContext_answer mem memDate regcomp regexec fromjson capable rq registrationsQuery
    enV attrL scopes sp offset limit sort cd md countP api code answer released :
  mongoQueryContext mem memDate regcomp regexec fromjson capable rq registrationsQuery enV attrL scopes sp offset limit
    sort cd md countP api = Ret (code, answer, released) -> sc_code code <> SccReceiverInternalError ->
  Forall (fun cer => Forall (fun ca => ca_found ca = true) (qe_attrs cer)) answer /\
  (sc_code code = SccContextElementNotFound <-> answer = []) /\
  exists q count cursor local l rest,
    entities_query fromjson capable enV attrL scopes sp = Ret q /\
    rq q (sort_order sort) (atoi (c_str limit)) (atoi (c_str offset)) = inr (count, cursor) /\
    (read_cursor mem memDate enV attrL true cd md api cursor [] = Ret (ReadAll local) \/
     read_cursor mem memDate enV attrL true cd md api cursor [] = Ret (ReadAsserted local)) /\
    answer = l ++ rest /\ Forall2 answers local l /\ Forall told rest.
Proof.
  unfold mongoQueryContext.
  destruct (entitiesQuery _ _ _ _ _ _ _ _ _ _ _ _ _ _ _ _ _ _) as [r| |] eqn:Er; try done. cbn [mbind cpp_bind].
  destruct (er_ok r) eqn:Eok; cbn [negb]; [|by intros [= <- _ _] Hne].
  destruct (add_providers _ _ _ _ _ _ _ _) as [cerV| |] eqn:Ea; try done. cbn [mbind cpp_bind].
  intros [= <- <- _] _. apply add_providers_grows in Ea.
  destruct (entities_split _ _ _ _ _ _ _ _ _ _ _ _ _ _ _ _ _ _ _ Er Eok) as (q & count & cursor & local & absent & Hq & Hdb & Hrd & Hs & Hl & Hab).
  rewrite Hs in Ea. destruct (prune_grown _ _ _ Ea Hl Hab) as (l & rest & Hp & Hans & Hrest).
  split; [apply pruned_found|]. split; [|exists q, count, cursor, local, l, rest; by split_and!].
  destruct (pruneContextElements cerV) as [|cer answer]; cbn [length Nat.ltb Nat.leb query_status negb].
  - split; [done|intros _]. unfold query_status. cbn [negb]. destruct (er_count r); [|done]. by destruct (_ && _).
  - unfold query_status. cbn [negb]. by destruct (er_count r).
Qed.

(** ** Completeness *)

(** Some element about the entity tells the attribute, or the provider. *)
Definition tells_attr (e : EntityId) (name : string) (cerV : list Qer) : Prop :=
  exists cer, cer ∈ cerV /\ same_entity e cer = true /\ name ∈ (ca_name <$> qe_attrs cer).
Definition tells_provider (e : EntityId) (pa : string) (cerV : list Qer) : Prop :=
  exists cer, cer ∈ cerV /\ same_entity e cer = true /\ pa ∈ qe_providers cer.

Lemma extends_names cer cer' name : extends cer cer' ->
  name ∈ (ca_name <$> qe_attrs cer) -> name ∈ (ca_name <$> qe_attrs cer').
Proof.
  intros [_ _ _ _ (l1 & l2 & -> & HF)] Hin. rewrite fmap_app. apply elem_of_app. left.
  assert (ca_name <$> l1 = ca_name <$> qe_attrs cer) as ->; [|done].
  clear Hin. induction HF as [|x y l l' [H _] _ IH]; [done|]. cbn. by rewrite H, <- IH.
Qed.

Lemma same_entity_extends e cer cer' : extends cer cer' -> same_entity e cer' = same_entity e cer.
Proof. intros [H _ _ _ _]. unfold same_entity. by rewrite H. Qed.

Lemma tells_attr_grows e name cerV cerV' : grows cerV cerV' -> tells_attr e name cerV -> tells_attr e name cerV'.
Proof.
  intros (a & b & -> & HF & _) (cer & [i Hi]%list_elem_of_lookup & Hs & Hn).
  destruct (Forall2_lookup_l _ _ _ _ _ HF Hi) as (cer' & Hi' & He). exists cer'.
  rewrite (same_entity_extends e _ _ He). split_and!; [|done|by eapply extends_names].
  apply elem_of_app. left. by eapply list_elem_of_lookup_2.
Qed.

Lemma tells_provider_grows e pa cerV cerV' : grows cerV cerV' -> tells_provider e pa cerV -> tells_provider e pa cerV'.
Proof.
  intros (a & b & -> & HF & _) (cer & [i Hi]%list_elem_of_lookup & Hs & Hn).
  destruct (Forall2_lookup_l _ _ _ _ _ HF Hi) as (cer' & Hi' & He). exists cer'.
  rewrite (same_entity_extends e _ _ He). split_and!; [|done|].
  - apply elem_of_app. left. by eapply list_elem_of_lookup_2.
  - destruct He as [_ _ _ [k ->] _]. apply elem_of_app. by left.
Qed.

(** A fold of growing steps establishes what the step of one element does. *)
Lemma foldl_establishes {A} (P : list Qer -> Prop) (f : list Qer -> A -> list Qer) l x cerV :
  (forall v v', grows v v' -> P v -> P v') -> (forall v y, grows v (f v y)) -> (forall v, P (f v x)) ->
  x ∈ l -> P (foldl f cerV l).
Proof.
  intros Hstable Hgrows Hx. revert cerV. induction l as [|y l IH]; intros cerV Hin; [by apply elem_of_nil in Hin|].
  cbn [foldl]. apply elem_of_cons in Hin as [<-|Hin]; [|by apply IH].
  apply (Hstable (f cerV x)); [by apply grows_foldl|apply Hx].
Qed.

Section Complete.

Context (mem : Metadata) (regcomp : string -> bool) (regexec : string -> string -> bool).

Lemma same_entity_new (e : EntityId) l p s b : same_entity e (mkQer (mkEntityId (eid_id e) (eid_type e) "false" "") l p s b) = true.
Proof. unfold same_entity. cbn. by rewrite !str_eqb_refl. Qed.

Lemma added_entity cerV e pa : tells_provider e pa (addContextProviderEntity cerV e pa).
Proof.
  induction cerV as [|cer cerV (cer' & Hin & Hs & Hp)]; cbn [addContextProviderEntity].
  - eexists. split; [by left|]. split; [apply same_entity_new|by left].
  - destruct (same_entity e cer) eqn:E.
    + eexists. split; [by left|]. split; [done|]. cbn. apply elem_of_app. right. by left.
    + exists cer'. split; [by right|done].
Qed.

Lemma added_attribute cerV e name pa : tells_attr e name (addContextProviderAttribute mem cerV e name pa false).
Proof.
  induction cerV as [|cer cerV (cer' & Hin & Hs & Hp)]; cbn [addContextProviderAttribute].
  - eexists. split; [by left|]. split; [apply same_entity_new|by left].
  - destruct (same_entity e cer) eqn:E; [|exists cer'; split; [by right|done]].
    eexists. split; [by left|]. destruct (existsb _ _) eqn:Ex.
    + split; [done|]. apply existsb_exists in Ex as (ca & Hin' & <-%str_eqb_eq).
      apply list_elem_of_fmap. exists ca. split; [done|by apply list_elem_of_In].
    + split; [done|]. cbn. rewrite fmap_app. apply elem_of_app. right. by left.
Qed.

Lemma limited_length cerV crrV f : length (addContextProviders mem regcomp regexec cerV crrV true f) = length cerV.
Proof.
  unfold addContextProviders. generalize (List.filter (fun cr => match f with Some e => matchEntityInCrr regcomp regexec cr e | None => true end) crrV).
  intros l. revert cerV.
  assert (forall e name pa v, length (addContextProviderAttribute mem v e name pa true) = length v) as H1.
  { intros e name pa v. induction v as [|c v IH]; [done|]. cbn. destruct (same_entity e c); [done|]. cbn. by rewrite IH. }
  assert (forall A (g : list Qer -> A -> list Qer) l v, (forall v x, length (g v x) = length v) ->
    length (foldl g v l) = length v) as H2.
  { intros A g l0 v Hg. revert v. induction l0 as [|x l0 IH]; intros v; [done|]. cbn. by rewrite IH. }
  intros cerV. apply H2. intros v cr. unfold addRegistration. destruct (_ =? _)%nat; [done|].
  apply H2. intros v' e. apply H2. intros. apply H1.
Qed.

(** The providers of registrations are added completely and never over what is there: every
    entity of a registration without attributes gets its provider, every attribute of one with
    attributes is told for each of its entities; what was found stays; and once the limit is
    reached no element is added. *)
Theorem addContextProviders_complete cerV crrV cr e :
  cr ∈ crrV -> e ∈ cr_entityIdVector cr ->
  let cerV' := addContextProviders mem regcomp regexec cerV crrV false None in
  (cr_attributes cr = [] -> tells_provider e (cr_providingApplication cr) cerV') /\
  (forall a, a ∈ cr_attributes cr -> tells_attr e (cra_name a) cerV') /\
  grows cerV cerV' /\
  length (addContextProviders mem regcomp regexec cerV crrV true None) = length cerV.
Proof.
  intros Hcr He cerV'. assert (cr ∈ List.filter (fun _ => true) crrV) as Hin
    by (apply list_elem_of_In, List.filter_In; by rewrite <- list_elem_of_In).
  split_and!; [| |apply addContextProviders_grows|apply limited_length].
  - intros Ha. unfold cerV', addContextProviders. eapply foldl_establishes; [apply tells_provider_grows| | |exact Hin].
    + intros. apply addRegistration_grows.
    + intros v. unfold addRegistration. rewrite Ha. cbn [length Nat.eqb].
      eapply foldl_establishes; [apply tells_provider_grows| | |exact He].
      * intros. apply addContextProviderEntity_grows.
      * intros. apply added_entity.
  - intros a Ha. unfold cerV', addContextProviders. eapply foldl_establishes; [apply tells_attr_grows| | |exact Hin].
    + intros. apply addRegistration_grows.
    + intros v. unfold addRegistration. destruct (length (cr_attributes cr) =? 0)%nat eqn:El.
      { apply Nat.eqb_eq, length_zero_iff_nil in El. rewrite El in Ha. by apply elem_of_nil in Ha. }
      eapply foldl_establishes; [apply tells_attr_grows| | |exact He].
      * intros. apply grows_foldl. intros. apply addContextProviderAttribute_grows.
      * intros v'. eapply foldl_establishes; [apply tells_attr_grows| | |exact Ha].
        -- intros. apply addContextProviderAttribute_grows.
        -- intros. apply added_attribute.
Qed.

End Complete.


(** ** The connection *)

(** The first thing that is not a document is an assertion exception. *)
Definition asserts (cursor : list fetched) : Prop :=
  exists docs what rest, cursor = (Fetched <$> docs) ++ Asserted what :: rest.

Lemma asserts_fetched d cursor : asserts (Fetched d :: cursor) <-> asserts cursor.
Proof.
  split.
  - intros ([|d' docs] & what & rest & H); [discriminate H|]. injection H as -> ->. by exists docs, what, rest.
  - intros (docs & what & rest & ->). by exists (d :: docs), what, rest.
Qed.

Lemma read_cursor_asserts mem memDate enV attrL ie cd md api cursor cerV r :
  read_cursor mem memDate enV attrL ie cd md api cursor cerV = Ret r ->
  (exists l, r = ReadAsserted l) <-> asserts cursor.
Proof.
  revert cerV. induction cursor as [|[d|what|what] cursor IH]; intros cerV; cbn [read_cursor].
  - intros [= <-]. split; [by intros []|]. intros ([|] & ? & ? & H); discriminate H.
  - destruct (entity_of_doc _ _ _ _ _ _ _ _) as [ce| |]; try done. cbn [mbind cpp_bind].
    intros H. rewrite asserts_fetched. by eapply IH.
  - intros [= <-]. split; [|by eexists]. intros _. by exists [], what, cursor.
  - intros [= <-]. split; [by intros []|]. intros ([|] & ? & ? & H); discriminate H.
Qed.

(** A query gives the connection back, except when reading the cursor throws an assertion
    exception: then it is kept for good, although the query answers. *)
Theorem entitiesQuery_leak mem memDate fromjson capable rq enV attrL scopes ie sp offset limit lp countP sort cd md api r :
  entitiesQuery mem memDate fromjson capable rq enV attrL scopes ie sp offset limit lp countP sort cd md api = Ret r ->
  (er_released r = false <-> exists q count cursor, entities_query fromjson capable enV attrL scopes sp = Ret q /\
     rq q (sort_order sort) limit offset = inr (count, cursor) /\ asserts cursor) /\
  (er_released r = false -> er_ok r = true).
Proof.
  unfold entitiesQuery. destruct (entities_query _ _ _ _ _ _) as [q| |]; try done. cbn [mbind cpp_bind].
  destruct (rq _ _ _ _) as [err|[count cursor]] eqn:Eq.
  { intros [= <-]. cbn. split; [|done]. split; [done|]. intros (q' & c & cu & [= <-] & H & _). congruence. }
  destruct (read_cursor _ _ _ _ _ _ _ _ _ _) as [rd| |] eqn:E; try done. cbn [mbind cpp_bind].
  apply read_cursor_asserts in E. intros Hr.
  assert (er_released r = false <-> exists l, rd = ReadAsserted l) as ->.
  { destruct rd; [destruct (lp && _)|..]; injection Hr as <-; cbn; split; try done; try (by intros []); by eexists. }
  rewrite E. split; [|intros (d & w & rs & ->)].
  - split; [intros H; by exists q, count, cursor|]. intros (q' & c & cu & [= <-] & H & Ha). congruence.
  - destruct (proj2 E ltac:(by exists d, w, rs)) as [l ->]. by injection Hr as <-.
Qed.

(** ** Witnesses *)

Definition a_registration : ContextRegistration :=
  mkContextRegistration [mkEntityId "Room" "" "false" ""] [mkContextRegistrationAttribute "hum" "" ""] "http://cpr".

Definition room_registered (_ : list EntityId) (_ : list string) : cpp (option (list ContextRegistration)) :=
  Ret (Some [a_registration]).

Definition one_room (_ : doc) (_ : option doc) (_ _ : Z) : string + (Z * list fetched) := inr (1, [Fetched room_doc]).

(** The temperature is in the database, the humidity at a provider. *)
Lemma mongoQueryContext_answer_witness : exists code answer released,
  mongoQueryContext no_mem S754_nan (fun _ => true) (fun _ _ => true) empty_query true one_room room_registered
    [the_room] ["temp"; "hum"] [] ["/"] "0" "20" "" false false true "v2" = Ret (code, answer, released) /\
  Forall (fun cer => Forall (fun ca => ca_found ca = true) (qe_attrs cer)) answer /\
  code = mkStatusCode SccOk "Count: 1" /\ length (qe_attrs <$> answer) = 1%nat.
Proof.
  destruct (mongoQueryContext no_mem S754_nan (fun _ => true) (fun _ _ => true) empty_query true one_room room_registered
    [the_room] ["temp"; "hum"] [] ["/"] "0" "20" "" false false true "v2") as [[[code answer] released]| |] eqn:E;
    [|vm_compute in E; discriminate E|vm_compute in E; discriminate E].
  exists code, answer, released. split; [reflexivity|].
  split.
  - refine (proj1 (mongoQueryContext_answer no_mem S754_nan (fun _ => true) (fun _ _ => true) empty_query true one_room
      room_registered [the_room] ["temp"; "hum"] [] ["/"] "0" "20" "" false false true "v2" code answer released E _)).
    vm_compute in E. injection E as <- _ _. discriminate.
  - vm_compute in E. injection E as <- <- _. split; reflexivity.
Defined.

Lemma addContextProviders_complete_witness :
  tells_attr the_room "hum"
    (addContextProviders no_mem (fun _ => true) (fun _ _ => true) [] [a_registration] false None).
Proof.
  exact (proj1 (proj2 (addContextProviders_complete no_mem (fun _ => true) (fun _ _ => true) [] [a_registration]
    a_registration the_room (list_elem_of_here _ _) (list_elem_of_here _ _)))
    (mkContextRegistrationAttribute "hum" "" "") (list_elem_of_here _ _)).
Defined.

Definition bad_polygon (_ : doc) (_ : option doc) (_ _ : Z) : string + (Z * list fetched) :=
  inr (0, [Asserted invalidPolygon]).

Lemma entitiesQuery_leak_witness : exists r,
  entitiesQuery no_mem S754_nan empty_query true bad_polygon [the_room] [] [] true ["/"] 0 20 true false "" false false "v2" = Ret r /\
  er_released r = false.
Proof.
  destruct (entitiesQuery no_mem S754_nan empty_query true bad_polygon [the_room] [] [] true ["/"] 0 20 true false "" false
    false "v2") as [r| |] eqn:E; [|vm_compute in E; discriminate E|vm_compute in E; discriminate E].
  exists r. split; [reflexivity|].
  apply (proj1 (entitiesQuery_leak no_mem S754_nan empty_query true bad_polygon [the_room] [] [] true ["/"] 0 20 true false
    "" false false "v2" r E)).
  eexists _, _, _. split; [reflexivity|]. split; [reflexivity|]. exists [], invalidPolygon, []. reflexivity.
Defined.
