(* ===== verification/Duration.v ===== *)
(** * Durations

    parse8601 and toSeconds of common/globals.cpp, which read the ISO 8601 text of a duration
    or a throttling (ngsi/Duration.cpp, ngsi/Throttling.cpp) as seconds, and parse8601Time
    with strptime and timegm as arguments. *)

From Stdlib Require Import SpecFloat.
From S2P Require Import Prelude Strings Double Geo.

Open Scope Z_scope.

(** toSeconds: -1 for a letter it does not know. *)
Definition toSeconds (value : Z) (what : ascii) (dayPart : bool) : Z :=
  if dayPart then
    if what =c "Y"%char then 365 * 24 * 3600 * value
    else if what =c "M"%char then 30 * 24 * 3600 * value
    else if what =c "W"%char then 7 * 24 * 3600 * value
    else if what =c "D"%char then 24 * 3600 * value
    else -1
  else if what =c "H"%char then 3600 * value
  else if what =c "M"%char then 60 * value
  else if what =c "S"%char then value
  else -1.

(** [(int) round(d)]: half away from zero; undefined when an int cannot hold it. *)
Definition round_int (d : double) : cpp Z :=
  match d with
  | S754_zero _ => Ret 0
  | S754_finite s m e =>
      let v := cond_Zopp s (if 0 <=? e then Z.shiftl (Zpos m) e
                            else Z.shiftr (Zpos m + 2 ^ (- e - 1)) (- e)) in
      if (int32_min <=? v) && (v <=? int32_max) then Ret v else UB "conversion of a double to int out of range"
  | _ => UB "conversion of a double to int out of range"
  end.

Definition is_number_char (c : ascii) : bool := isdigit c || (c =c "."%char) || (c =c ","%char).
Definition is_day_unit (c : ascii) : bool :=
  (c =c "Y"%char) || (c =c "M"%char) || (c =c "D"%char) || (c =c "W"%char).
Definition is_time_unit (c : ascii) : bool := (c =c "H"%char) || (c =c "M"%char) || (c =c "S"%char).

Definition starts_with_zero (s : string) : bool := match s with String c _ => c =c "0"%char | "" => false end.

(** The value of the number before a letter of the time part. *)
Definition time_value (start : string) (what : ascii) : cpp Z :=
  if what =c "S"%char then round_int (to_float (atof start)) else Ret (atoi start).

(** The loop, [start] being the text since the last letter. *)
Fixpoint parse8601_loop (duration : string) (dayPart : bool) (start : string) (accumulated : Z)
    (digitsPending : bool) : cpp Z :=
  match duration with
  | "" => Ret (if digitsPending then -1 else accumulated)
  | String c rest =>
      if is_number_char c then parse8601_loop rest dayPart (start +:+ str1 c) accumulated true
      else if dayPart && is_day_unit c then
        let value := atoi start in
        if (value =? 0) && negb (starts_with_zero start) then Ret (-1)
        else parse8601_loop rest dayPart "" (int64 (accumulated + toSeconds value c dayPart)) false
      else if dayPart && (c =c "T"%char) then parse8601_loop rest false "" accumulated false
      else if negb dayPart && is_time_unit c then
        value ← time_value start c;
        parse8601_loop rest dayPart "" (int64 (accumulated + toSeconds value c dayPart)) false
      else Ret (-1)
  end.

Definition parse8601 (s : string) : cpp Z :=
  match c_str s with
  | String c (String _ _ as duration) =>
      if c =c "P"%char then parse8601_loop duration true "" 0 false else Ret (-1)
  | _ => Ret (-1)
  end.

(** parse8601Time, strptime and timegm together being an argument. *)
Definition parse8601Time (strptime_timegm : string -> string -> option Z) (s : string) : Z :=
  default (-1) (strptime_timegm (c_str s) " %Y-%m-%dT%T").

(** ** Durations as they are written *)

(** A number with the letter of its unit. *)
Definition part : Type := N * ascii.
Record duration := mkDuration { d_days : list part; d_times : list part }.

Definition render_part (p : part) : string := show_N p.1 +:+ str1 p.2.
Definition render_parts (l : list part) : string := foldr (fun p s => render_part p +:+ s) "" l.
Definition render_duration (d : duration) : string :=
  "P" +:+ render_parts (d_days d) +:+ match d_times d with [] => "" | l => "T" +:+ render_parts l end.

(** The length of a unit: a year has 365 days, a month 30. *)
Definition unit_seconds (dayPart : bool) (unit : ascii) : Z :=
  match unit, dayPart with
  | "Y"%char, _ => 31536000
  | "M"%char, true => 2592000
  | "W"%char, _ => 604800
  | "D"%char, _ => 86400
  | "H"%char, _ => 3600
  | "M"%char, false => 60
  | _, _ => 1
  end.

Definition seconds_of (dayPart : bool) (l : list part) : Z :=
  foldr (fun p z => unit_seconds dayPart p.2 * Z.of_N p.1 + z) 0 l.

(** Numbers an int holds; seconds, which are read as a float, below 4096. *)
Definition day_part_ok (p : part) : Prop := is_day_unit p.2 = true /\ Z.of_N p.1 <= int32_max.
Definition time_part_ok (p : part) : Prop :=
  is_time_unit p.2 = true /\ Z.of_N p.1 <= int32_max /\ (p.2 = "S"%char -> (p.1 < 4096)%N).

Definition duration_ok (d : duration) : Prop :=
  (d_days d <> [] \/ d_times d <> []) /\ Forall day_part_ok (d_days d) /\ Forall time_part_ok (d_times d) /\
  seconds_of true (d_days d) + seconds_of false (d_times d) <= int64_max.

(** Reading every number of seconds below 4096 gives the number. *)
Definition seconds_read (n : N) : bool :=
  match round_int (to_float (atof (show_N n))) with Ret v => v =? Z.of_N n | _ => false end.

Lemma seconds_exact n : (n < 4096)%N -> round_int (to_float (atof (show_N n))) = Ret (Z.of_N n).
Proof.
  intros H. assert (seconds_read n = true) as F.
  { assert (forallb seconds_read (N.of_nat <$> seq 0 4096) = true) as F by (vm_compute; reflexivity).
    rewrite forallb_forall in F. apply F, list_elem_of_In, list_elem_of_fmap. exists (N.to_nat n).
    split; [by rewrite N2Nat.id|]. apply elem_of_seq. lia. }
  unfold seconds_read in F. destruct (round_int _); try done. by apply Z.eqb_eq in F as ->.
Qed.

Lemma is_day_unit_cases c : is_day_unit c = true -> c = "Y"%char \/ c = "M"%char \/ c = "D"%char \/ c = "W"%char.
Proof. unfold is_day_unit. rewrite !orb_true_iff, !char_eqb_eq. tauto. Qed.
Lemma is_time_unit_cases c : is_time_unit c = true -> c = "H"%char \/ c = "M"%char \/ c = "S"%char.
Proof. unfold is_time_unit. rewrite !orb_true_iff, !char_eqb_eq. tauto. Qed.

(** Digits are collected. *)
Lemma loop_digits ds rest dp start acc b : str_all isdigit ds = true ->
  parse8601_loop (ds +:+ rest) dp start acc b = parse8601_loop rest dp (start +:+ ds) acc (b || negb (ds =s "")).
Proof.
  revert start b. induction ds as [|c ds IH]; intros start b; [by rewrite app_nil_r_str, app_nil_l_str, orb_false_r|].
  cbn [str_all]. rewrite andb_true_iff. intros [Hc Hds]. rewrite app_cons_str. cbn [parse8601_loop].
  unfold is_number_char. rewrite Hc. cbn [orb]. rewrite IH by done. rewrite app_assoc_str. cbn. by rewrite orb_true_r.
Qed.

Lemma loop_day p rest acc b : day_part_ok p ->
  parse8601_loop (render_part p +:+ rest) true "" acc b
  = parse8601_loop rest true "" (int64 (acc + toSeconds (Z.of_N p.1) p.2 true)) false.
Proof.
  destruct p as [n u]. intros [Hu Hn]. cbn in Hu, Hn. unfold render_part. cbn [fst snd].
  rewrite app_assoc_str, loop_digits by apply show_N_digits. rewrite app_nil_l_str. cbn [str1 parse8601_loop String.append].
  change (str1 u +:+ rest) with (String u rest). cbn [parse8601_loop].
  assert (is_number_char u = false) as -> by (by apply is_day_unit_cases in Hu as [->|[->|[->| ->]]]).
  rewrite Hu. cbn [andb]. rewrite atoi_show_N by done.
  destruct (decide (n = 0%N)) as [->|]; [done|].
  by assert ((Z.of_N n =? 0) = false) as -> by (apply Z.eqb_neq; lia).
Qed.

Lemma loop_time p rest acc b : time_part_ok p ->
  parse8601_loop (render_part p +:+ rest) false "" acc b
  = parse8601_loop rest false "" (int64 (acc + toSeconds (Z.of_N p.1) p.2 false)) false.
Proof.
  destruct p as [n u]. intros (Hu & Hn & Hs). cbn in Hu, Hn, Hs. unfold render_part. cbn [fst snd].
  rewrite app_assoc_str, loop_digits by apply show_N_digits. rewrite app_nil_l_str.
  change (str1 u +:+ rest) with (String u rest). cbn [parse8601_loop].
  assert (is_number_char u = false) as -> by (by apply is_time_unit_cases in Hu as [->|[->| ->]]).
  cbn [andb negb]. rewrite Hu. unfold time_value. destruct (u =c "S"%char) eqn:E.
  - apply char_eqb_eq in E as ->. by rewrite seconds_exact by auto.
  - by rewrite atoi_show_N.
Qed.

Lemma toSeconds_unit (dp : bool) (p : part) : (if dp then is_day_unit p.2 = true else is_time_unit p.2 = true) ->
  toSeconds (Z.of_N p.1) p.2 dp = unit_seconds dp p.2 * Z.of_N p.1 /\ 0 <= unit_seconds dp p.2 * Z.of_N p.1.
Proof.
  destruct p as [n u]. cbn [fst snd]. destruct dp.
  - intros [->|[->|[->| ->]]]%is_day_unit_cases; cbn -[Z.mul]; lia.
  - intros [->|[->| ->]]%is_time_unit_cases; cbn -[Z.mul]; lia.
Qed.

Lemma seconds_of_nonneg (dp : bool) (l : list part) : Forall (fun p : part => if dp then is_day_unit p.2 = true else is_time_unit p.2 = true) l ->
  0 <= seconds_of dp l.
Proof. induction 1 as [|p l Hp _ IH]; [done|]. cbn [seconds_of foldr]. fold (seconds_of dp l).
  destruct (toSeconds_unit dp p Hp). lia. Qed.

(** The parts of one side of the T, whatever follows them. *)
Lemma loop_parts (dp : bool) l rest acc b :
  Forall (if dp then day_part_ok else time_part_ok) l -> 0 <= acc -> acc + seconds_of dp l <= int64_max -> l <> [] ->
  parse8601_loop (render_parts l +:+ rest) dp "" acc b = parse8601_loop rest dp "" (acc + seconds_of dp l) false.
Proof.
  revert acc b. induction l as [|p l IH]; intros acc b Hl H0 Hmax Hne; [done|]. inversion_clear Hl as [|?? Hp Hl'].
  assert (0 <= seconds_of dp l) as Hs.
  { apply seconds_of_nonneg. eapply Forall_impl; [exact Hl'|]. intros q. destruct dp; by intros [? _]. }
  destruct (toSeconds_unit dp p) as [Hu Ht]; [destruct dp; by destruct Hp|].
  cbn [seconds_of foldr] in Hmax. fold (seconds_of dp l) in Hmax.
  cbn [render_parts foldr]. fold (render_parts l). rewrite app_assoc_str.
  transitivity (parse8601_loop (render_parts l +:+ rest) dp "" (int64 (acc + toSeconds (Z.of_N p.1) p.2 dp)) false);
    [by destruct dp; [apply loop_day|apply loop_time]|].
  rewrite Hu, int64_small by (unfold int64_min; lia).
  cbn [seconds_of foldr]. fold (seconds_of dp l). rewrite Z.add_assoc.
  destruct (decide (l = [])) as [->|]; [cbn; by rewrite Z.add_0_r|]. apply IH; [done|lia|lia|done].
Qed.

Lemma render_parts_no_nul l : Forall (fun p => free_of NUL (str1 p.2) = true) l -> free_of NUL (render_parts l) = true.
Proof.
  induction 1 as [|p l Hp _ IH]; [done|]. cbn [render_parts foldr]. fold (render_parts l). unfold render_part.
  by rewrite !free_of_app, Hp, IH, show_N_free.
Qed.

Lemma render_duration_no_nul d : duration_ok d -> free_of NUL (render_duration d) = true.
Proof.
  intros (_ & Hd & Ht & _). unfold render_duration. rewrite !free_of_app.
  assert (free_of NUL (render_parts (d_days d)) = true) as ->.
  { apply render_parts_no_nul. eapply Forall_impl; [exact Hd|]. intros [n u] [H _]. cbn in *.
    by apply is_day_unit_cases in H as [->|[->|[->| ->]]]. }
  assert (free_of NUL (render_parts (d_times d)) = true) as Hr.
  { apply render_parts_no_nul. eapply Forall_impl; [exact Ht|]. intros [n u] [H _]. cbn in *.
    by apply is_time_unit_cases in H as [->|[->| ->]]. }
  destruct (d_times d) as [|p l]; [done|]. by rewrite free_of_app, Hr.
Qed.

(** Round trip: a printed duration (years of 365 and months of 30 days, weeks, days, and after
    a T hours, minutes and seconds; any number of each, in any order) is read as the sum of
    its parts in seconds, when every number fits in an int, the seconds are below 4096 (they
    go through a float) and the sum fits in 64 bits. *)
Theorem parse8601_roundtrip d : duration_ok d ->
  parse8601 (render_duration d) = Ret (seconds_of true (d_days d) + seconds_of false (d_times d)).
Proof.
  intros Hok. pose proof (render_duration_no_nul d Hok) as Hnul. destruct Hok as (Hne & Hd & Ht & Hmax).
  assert (0 <= seconds_of true (d_days d)) as H1.
  { apply seconds_of_nonneg. eapply Forall_impl; [exact Hd|]. by intros q [? _]. }
  assert (0 <= seconds_of false (d_times d)) as H2.
  { apply seconds_of_nonneg. eapply Forall_impl; [exact Ht|]. by intros q [? _]. }
  unfold parse8601. rewrite c_str_id by done. unfold render_duration. destruct d as [ds ts]. cbn [d_days d_times] in *.
  set (after := match ts with [] => "" | _ => _ end).
  assert (forall acc, acc = seconds_of true ds ->
    parse8601_loop after true "" acc false = Ret (acc + seconds_of false ts)) as Hafter.
  { intros acc ->. subst after. destruct ts as [|p l]; [cbn; by rewrite Z.add_0_r|].
    change ("T" +:+ render_parts (p :: l)) with (String "T" (render_parts (p :: l))). cbn [parse8601_loop].
    change (is_number_char "T") with false. change (is_day_unit "T") with false. cbn [andb].
    change ("T" =c "T") with true. cbv iota.
    transitivity (parse8601_loop (render_parts (p :: l) +:+ "") false "" (seconds_of true ds) false);
      [by rewrite app_nil_r_str|].
    rewrite (loop_parts false) by (done || lia). done. }
  destruct (render_parts ds +:+ after) as [|c r] eqn:E.
  - exfalso. destruct ds as [|[n u] ds].
    + subst after. destruct ts; [by destruct Hne|done].
    + cbn in E. unfold render_part in E. destruct (show_N_cons n) as (c & r & Hs & _). cbn [fst snd] in E. by rewrite Hs in E.
  - change ("P" +:+ String c r) with (String "P" (String c r)). change ("P" =c "P") with true. cbv iota. rewrite <- E.
    destruct (decide (ds = [])) as [->|Hds]; [change (render_parts []) with ""; rewrite app_nil_l_str; by apply Hafter|].
    rewrite (loop_parts true) by (done || lia). by rewrite Z.add_0_l, Hafter.
Qed.

Lemma parse8601_roundtrip_witness : parse8601 "P1Y2M10DT2H30M5S" = Ret 37593005.
Proof.
  apply (parse8601_roundtrip (mkDuration [(1%N, "Y"%char); (2%N, "M"%char); (10%N, "D"%char)]
                                         [(2%N, "H"%char); (30%N, "M"%char); (5%N, "S"%char)])).
  split_and!; [by left|repeat constructor; cbn; unfold int32_max; lia|
    repeat constructor; cbn; unfold int32_max; try done; lia|vm_compute; discriminate].
Defined.

(** Texts outside of that: only the seconds keep a fraction; a number of days before the T
    without a letter is dropped; numbers wrap, so that a duration can be negative; and too
    many seconds are undefined. *)
Example duration_fraction : parse8601 "P1.5D" = Ret 86400 /\ parse8601 "PT1.5S" = Ret 2.
Proof. by vm_compute. Qed.
Example duration_dropped : parse8601 "P7T" = Ret 0 /\ parse8601 "PTH" = Ret 0.
Proof. by vm_compute. Qed.
Example duration_negative : parse8601 "P4294967295D" = Ret (-86400).
Proof. by vm_compute. Qed.
Example duration_undefined : parse8601 "PT4294967296S" = UB "conversion of a double to int out of range".
Proof. by vm_compute. Qed.
