(* ===== verification/Subscriptions.v ===== *)
(** * Subscription requests

    Creating, updating, removing and reading subscriptions: mongoSubscribeContext.cpp,
    mongoUpdateContextSubscription.cpp, mongoUnsubscribeContext.cpp and
    mongoGetSubscriptions.cpp of mongoBackend, with the initial notification
    (processConditionVector of mongoBackend/MongoGlobal.cpp).  The state is the collection of
    subscriptions of the tenant, keyed by id, the cache and the notifications handed to the
    notifier.  Whether an operation of the database fails is an argument, and so are the
    reading of an object id by the driver (the id as it prints it) and the clock. *)

From S2P Require Import Prelude Strings Double Bson Compound Ngsi AttrUpdate Location Registrations FilterParse FilterMatch SubCache.
From S2P Require Import Geo Queries SubSync Notify Duration EntityUpdate UpdateContext QueryContext.

Open Scope Z_scope.

Definition SccConflict : Z := 409.
Definition SccSubscriptionIdNotFound : Z := 470.
Definition STATUS_ACTIVE : string := "active".
Definition DEFAULT_SERVICE_PATH_QUERIES : string := "/#".
Definition DEFAULT_DURATION : string := "PT24H".

(** ** Documents and requests *)

Record ExprDoc := mkExprDoc { xd_q : string; xd_geometry : string; xd_coords : string; xd_georel : string }.

(** A document of the collection: what the cache reads of it, and the rest. *)
Record CsubDoc := mkCsubDoc {
  csub_sub : SubDoc;
  csub_description : option string;
  csub_expr : option ExprDoc;
  csub_count : option Z
}.

Record Throttling := mkThrottling { th_string : string; th_seconds : Z }.

(** SubscribeContextRequest; the geometry and filters of its restriction are scopes. *)
Record SubscribeRequest := mkSubscribeRequest {
  sr_entityIdVector : list EntityId;
  sr_attributeList : list string;
  sr_reference : string;
  sr_duration : string;
  sr_scopes : list Scope;
  sr_notifyConditionVector : list NotifyCondition;
  sr_throttling : Throttling;
  sr_expires : Z;
  sr_expression : ExprDoc;
  sr_expressionSet : bool;
  sr_description : string;
  sr_descriptionProvided : bool;
  sr_status : string;
  sr_attrsFormat : RenderFormat
}.

(** The answer: an error (code 0 for none), the duration, the id and the throttling. *)
Record SubscribeResponse := mkSubscribeResponse {
  rs_error : StatusCode;
  rs_duration : string;
  rs_subscriptionId : string;
  rs_throttling : Throttling
}.
Definition no_throttling : Throttling := mkThrottling "" (-1).
Definition error_response (code : Z) (details : string) : SubscribeResponse :=
  mkSubscribeResponse (mkStatusCode code details) "" "" no_throttling.

(** A notification of several elements. *)
Record InitialNotification := mkInitialNotification {
  in_subscriptionId : string;
  in_originator : string;
  in_cerV : list Qer;
  in_url : string;
  in_tenant : string;
  in_xauthToken : string;
  in_fiwareCorrelator : string;
  in_renderFormat : RenderFormat;
  in_attrsOrder : list string
}.

Record SubState := mkSubState {
  st_docs : gmap string CsubDoc;
  st_cache : SubCache;
  st_sent : list InitialNotification
}.

(** The entities array of a document. *)
Definition entity_doc (e : EntityId) : EntityDoc :=
  mkEntityDoc (Some (eid_id e)) (Some (eid_isPattern e)) (if eid_type e =s "" then None else Some (eid_type e)).

(** subToEntityIdVector *)
Definition subToEntityIdVector (sub : SubDoc) : list EntityId :=
  (fun e => mkEntityId (default "" (ed_id e)) (default "" (ed_type e)) (default "" (ed_isPattern e)) "") <$> sd_entities sub.

(** The last filter among the scopes. *)
Definition stringFilter_of (scopes : list Scope) : option StringFilter :=
  foldl (fun f sc => if sc_type sc =s SCOPE_TYPE_SIMPLE_QUERY then sc_stringFilterP sc else f) None scopes.

(** ** Conditions *)

Definition isCondValueInContextElementResponse (condValues : list string) (cerV : list Qer) : bool :=
  if (length condValues =? 0)%nat then true
  else existsb (fun cv => existsb (fun cer => existsb (fun ca => ca_name ca =s cv) (qe_attrs cer)) cerV) condValues.

Section Subscriptions.

Context (mem : Metadata) (memDate : double).
Context (regcomp : string -> bool) (fromjson : string -> cpp doc) (capable : bool).
Context (collectionRangedQuery : doc -> option doc -> Z -> Z -> string + (Z * list fetched)).
Context (getCurrentTime : nat -> Z).
(** The id as the driver prints it; None when it is not an object id. *)
Context (OID : string -> option string).
(** The errors of the operations on the collection. *)
Context (insert_error find_error update_error remove_error : option string).

(** entitiesQuery with the arguments of processOnChangeConditionForSubscription. *)
Definition initial_query (enV : list EntityId) (attrL : list string) (scopes : list Scope) (includeEmpty : bool)
    (servicePathV : list string) : cpp EntitiesResult :=
  entitiesQuery mem memDate fromjson capable collectionRangedQuery enV attrL scopes includeEmpty servicePathV
    0 20 false false "" false false "v1".

(** None when nothing is sent. *)
Definition processOnChangeConditionForSubscription (enV : list EntityId) (attrL condValues : list string)
    (subId notifyUrl : string) (renderFormat : RenderFormat) (tenant xauthToken : string)
    (servicePathV : list string) (scopes : list Scope) (fiwareCorrelator : string) (attrsOrder : list string)
    : cpp (option InitialNotification) :=
  r ← initial_query enV attrL scopes true servicePathV;
  if negb (er_ok r) then Ret None
  else
    let cerV := pruneContextElements (er_cerV r) in
    if (length cerV =? 0)%nat then Ret None
    else
      all ← initial_query enV [] scopes false servicePathV;
      if negb (er_ok all) then Ret None
      else if isCondValueInContextElementResponse condValues (pruneContextElements (er_cerV all))
      then Ret (Some (mkInitialNotification subId "localhost" cerV notifyUrl tenant xauthToken fiwareCorrelator
                        renderFormat attrsOrder))
      else Ret None.

(** processConditionVector: the documents of the conditions and the notifications sent (there
    is one when notificationDone). *)
Fixpoint processConditionVector (ncv : list NotifyCondition) (enV : list EntityId) (attrL : list string)
    (subId url : string) (renderFormat : RenderFormat) (tenant xauthToken : string) (servicePathV : list string)
    (scopes : list Scope) (status fiwareCorrelator : string) (attrsOrder : list string)
    : cpp (list ConditionDoc * list InitialNotification) :=
  match ncv with
  | [] => Ret ([], [])
  | nc :: ncv' =>
      if nc_type nc =s ON_CHANGE_CONDITION then
        nt ← (if status =s STATUS_ACTIVE
              then processOnChangeConditionForSubscription enV attrL (nc_condValueList nc) subId url renderFormat
                     tenant xauthToken servicePathV scopes fiwareCorrelator attrsOrder
              else Ret None);
        '(conds, sent) ← processConditionVector ncv' enV attrL subId url renderFormat tenant xauthToken servicePathV
                           scopes status fiwareCorrelator attrsOrder;
        Ret (mkConditionDoc ON_CHANGE_CONDITION (nc_condValueList nc) :: conds, option_list nt ++ sent)
      else
        processConditionVector ncv' enV attrL subId url renderFormat tenant xauthToken servicePathV scopes status
          fiwareCorrelator attrsOrder
  end.

(** ** Creating *)

(** The expiration, the duration that is left in the request and the readings of the clock. *)
Definition new_expiration (req : SubscribeRequest) : cpp (Z * string * nat) :=
  if 0 <? sr_expires req then Ret (sr_expires req, sr_duration req, O)
  else
    let duration := if sr_duration req =s "" then DEFAULT_DURATION else sr_duration req in
    seconds ← parse8601 duration;
    Ret (int64 (getCurrentTime 0 + seconds), duration, 1%nat).

(** The throttling of the cache, that of the document and the one left in the request. *)
Definition new_throttling (th : Throttling) : cpp (Z * option Z * Throttling) :=
  if negb (th_seconds th =? -1) then Ret (th_seconds th, Some (th_seconds th), th)
  else if negb (th_string th =s "") then
    seconds ← parse8601 (th_string th); Ret (seconds, Some seconds, mkThrottling (th_string th) seconds)
  else Ret (0, None, th).

(** The document that is inserted, [notified] being the time of the initial notification. *)
Definition subscription_document (req : SubscribeRequest) (oid servicePath : string) (expiration : Z)
    (throttling notified : option Z) (status : string) (conds : list ConditionDoc) : CsubDoc :=
  mkCsubDoc
    (mkSubDoc (Some oid) (Some (renderFormatToString (sr_attrsFormat req) false)) (entity_doc <$> sr_entityIdVector req)
       (sr_attributeList req) conds (Some servicePath) (Some (sr_reference req)) throttling (Some expiration) notified
       (Some status))
    (if sr_description req =s "" then None else Some (sr_description req))
    (Some (sr_expression req)) ((fun _ => 1) <$> notified).

(** The arguments of subCacheItemInsert. *)
Definition subscription_item (req : SubscribeRequest) (oid tenant servicePath : string) (expiration throttling : Z)
    (notified : option Z) (status : string) : NewSubscription :=
  let x := sr_expression req in
  mkNewSubscription (c_str tenant) (c_str servicePath) (sr_reference req) (sr_entityIdVector req) (sr_attributeList req)
    (sr_notifyConditionVector req) oid expiration throttling (sr_attrsFormat req) (bool_decide (is_Some notified))
    (default 0 notified) (stringFilter_of (sr_scopes req)) status (xd_q x) (xd_geometry x) (xd_coords x) (xd_georel x).

Definition mongoSubscribeContext (st : SubState) (req : SubscribeRequest) (oid tenant xauthToken : string)
    (servicePathV : list string) (fiwareCorrelator : string) : cpp (SubscribeResponse * SubState) :=
  sp ← vec_at servicePathV 0;
  let servicePath := if sp =s "" then DEFAULT_SERVICE_PATH_QUERIES else sp in
  '(expiration, duration, ticks) ← new_expiration req;
  '(throttling, throttlingField, th) ← new_throttling (sr_throttling req);
  let status := if sr_status req =s "" then STATUS_ACTIVE else sr_status req in
  '(conds, sent) ← processConditionVector (sr_notifyConditionVector req) (sr_entityIdVector req) (sr_attributeList req)
                     oid (sr_reference req) (sr_attrsFormat req) tenant xauthToken servicePathV (sr_scopes req) status
                     fiwareCorrelator (sr_attributeList req);
  let notified := if (0 <? length sent)%nat then Some (getCurrentTime ticks) else None in
  let all_sent := st_sent st ++ sent in
  match insert_error with
  | Some err => Ret (error_response SccReceiverInternalError err, mkSubState (st_docs st) (st_cache st) all_sent)
  | None =>
      c ← subCacheItemInsert_new regcomp (st_cache st)
            (subscription_item req oid tenant servicePath expiration throttling notified status);
      Ret (mkSubscribeResponse (mkStatusCode SccNone "") duration oid th,
           mkSubState
             (<[oid := subscription_document req oid servicePath expiration throttlingField notified status conds]> (st_docs st))
             c all_sent)
  end.

(** ** Removing *)

Definition mongoUnsubscribeContext (fuel : nat) (st : SubState) (subscriptionId tenant : string)
    : cpp (StatusCode * SubState) :=
  if subscriptionId =s "" then Ret (mkStatusCode SccContextElementNotFound "", st)
  else
    match OID subscriptionId with
    | None => Ret (mkStatusCode SccContextElementNotFound "", st)
    | Some id =>
        match find_error, st_docs st !! id with
        | Some err, _ => Ret (mkStatusCode SccReceiverInternalError err, st)
        | None, None => Ret (mkStatusCode SccContextElementNotFound ("subscriptionId: /" +:+ subscriptionId +:+ "/"), st)
        | None, Some _ =>
            match remove_error with
            | Some err => Ret (mkStatusCode SccReceiverInternalError err, st)
            | None =>
                cSubP ← subCacheItemLookup fuel (st_cache st) (Some (c_str tenant)) (c_str subscriptionId);
                c ← (match cSubP : option loc with
                     | Some l => r ← subCacheItemRemove fuel (st_cache st) l; Ret (r.2 : SubCache)
                     | None => Ret (st_cache st)
                     end);
                Ret (mkStatusCode SccOk "", mkSubState (delete id (st_docs st)) c (st_sent st))
            end
        end
    end.

(** ** Updating *)

(** The document of the updated subscription: its parts in the order of the code. *)
Definition new_reference (v2 : bool) (req : SubscribeRequest) (sub : SubDoc) : string :=
  if v2 && negb (sr_reference req =s "") then sr_reference req else default "" (sd_reference sub).

Definition new_entities (v2 : bool) (req : SubscribeRequest) (sub : SubDoc) : list EntityDoc :=
  if v2 && (0 <? length (sr_entityIdVector req))%nat then entity_doc <$> sr_entityIdVector req else sd_entities sub.

Definition new_attrs (v2 : bool) (req : SubscribeRequest) (sub : SubDoc) : list string :=
  if v2 && (0 <? length (sr_attributeList req))%nat then sr_attributeList req else sd_attrs sub.

(** The expiration and the readings of the clock. *)
Definition updated_expiration (version : string) (req : SubscribeRequest) (sub : SubDoc) : cpp (Z * nat) :=
  let old := default (-1) (sd_expiration sub) in
  if version =s "v1" then
    if sr_duration req =s "" then Ret (old, O)
    else seconds ← parse8601 (sr_duration req); Ret (int64 (getCurrentTime 0 + seconds), 1%nat)
  else Ret (if 0 <? sr_expires req then sr_expires req else old, O).

Definition updated_throttling (th : Throttling) (sub : SubDoc) : cpp (option Z * Throttling) :=
  if negb (th_string th =s "") then
    seconds ← parse8601 (th_string th);
    Ret (if seconds =? 0 then None else Some seconds, mkThrottling (th_string th) seconds)
  else if 0 <? th_seconds th then Ret (Some (th_seconds th), th)
  else Ret (sd_throttling sub, th).

Definition updated_description (req : SubscribeRequest) (d : CsubDoc) : option string :=
  if sr_descriptionProvided req then (if sr_description req =s "" then None else Some (sr_description req))
  else csub_description d.

Definition updated_status (req : SubscribeRequest) (sub : SubDoc) : string :=
  if sr_status req =s "" then default STATUS_ACTIVE (sd_status sub) else sr_status req.

(** The conditions and the notifications sent. *)
Definition updated_conditions (version : string) (req : SubscribeRequest) (subscriptionId : string) (sub : SubDoc)
    (tenant xauthToken : string) (servicePathV : list string) (status fiwareCorrelator : string)
    : cpp (list ConditionDoc * list InitialNotification) :=
  if (length (sr_notifyConditionVector req) =? 0)%nat then Ret (sd_conditions sub, [])
  else
    let v1 := version =s "v1" in
    let enV := if negb v1 && (0 <? length (sr_entityIdVector req))%nat then sr_entityIdVector req
               else subToEntityIdVector sub in
    let attrL := if negb v1 && (0 <? length (sr_attributeList req))%nat then sr_attributeList req else sd_attrs sub in
    processConditionVector (sr_notifyConditionVector req) enV attrL subscriptionId (c_str (default "" (sd_reference sub)))
      (sr_attrsFormat req) tenant xauthToken servicePathV (sr_scopes req) status fiwareCorrelator (sr_attributeList req).

Definition updated_expr (req : SubscribeRequest) (d : CsubDoc) : option ExprDoc :=
  if sr_expressionSet req then Some (sr_expression req) else csub_expr d.

(** The format of the document and of the cache. *)
Definition updated_format (req : SubscribeRequest) (sub : SubDoc) : string * RenderFormat :=
  if bool_decide (sr_attrsFormat req = NO_FORMAT) then
    let s := default (renderFormatToString NGSI_V1_LEGACY false) (sd_format sub) in (s, stringToRenderFormat s false)
  else (renderFormatToString (sr_attrsFormat req) false, sr_attrsFormat req).

(** The cached subscription with another count and time of the last notification. *)
Definition with_count (count lastNotificationTime : Z) (cs : CachedSubscription) : CachedSubscription :=
  mkCachedSubscription (cs_entityIdInfos cs) (cs_attributes cs) (cs_notifyConditionVector cs) (cs_tenant cs)
    (cs_servicePath cs) (cs_subscriptionId cs) (cs_throttling cs) (cs_expirationTime cs) lastNotificationTime
    (cs_status cs) count (cs_renderFormat cs) (cs_reference cs) (cs_expression cs).

(** An assignment through the pointer to the cached subscription, if there is one. *)
Definition cached_count (c : SubCache) (cSubP : option loc) (f : CachedSubscription -> CachedSubscription) : cpp SubCache :=
  match cSubP with
  | None => Ret c
  | Some l => n ← deref (heap c) l; set_sub c l (f (node_sub n))
  end.

(** The count and the time of the cached subscription. *)
Definition cached_counters (c : SubCache) (cSubP : option loc) : cpp (Z * Z) :=
  match cSubP with
  | None => Ret (0, 0)
  | Some l => n ← deref (heap c) l; Ret (cs_count (node_sub n), cs_lastNotificationTime (node_sub n))
  end.

(** The last part: the cache after the document is written. *)
Definition update_cache (fuel : nat) (c : SubCache) (tenant subscriptionId : string) (sub : SubDoc)
    (lastNotificationTime expiration : Z) (status : string) (x : ExprDoc) (stringFilterP : option StringFilter)
    (renderFormat : RenderFormat) : cpp SubCache :=
  cSubP ← subCacheItemLookup fuel c (Some (c_str tenant)) (c_str subscriptionId);
  servicePath ← (match cSubP : option loc with
                 | None => Ret (Some "")
                 | Some l => n ← deref (heap c) l; Ret (cs_servicePath (node_sub n))
                 end);
  '(mscInsert, c) ← mongoSubCacheItemInsert_update regcomp c (c_str tenant) sub
      (mkSubUpdate (Some (c_str subscriptionId)) servicePath (int32 lastNotificationTime) expiration status
         (xd_q x) (xd_geometry x) (xd_coords x) (xd_georel x) stringFilterP renderFormat);
  c ← (match cSubP : option loc with
       | Some l => r ← subCacheItemRemove fuel c l; Ret (r.2 : SubCache)
       | None => Ret c
       end);
  Ret (if mscInsert =? 0 then subCacheUpdateStatisticsIncrement c else c).

(** The document that replaces [d]. *)
Definition updated_document (v2 : bool) (req : SubscribeRequest) (servicePath : string) (expiration : Z)
    (throttling : option Z) (conds : list ConditionDoc) (lastNotification count : option Z) (d : CsubDoc) : CsubDoc :=
  let sub := csub_sub d in
  mkCsubDoc
    (mkSubDoc (sd_id sub) (Some (updated_format req sub).1) (new_entities v2 req sub) (new_attrs v2 req sub) conds
       (Some servicePath) (Some (new_reference v2 req sub)) throttling (Some expiration) lastNotification
       (Some (updated_status req sub)))
    (updated_description req d) (updated_expr req d) count.

Definition mongoUpdateContextSubscription (fuel : nat) (st : SubState) (req : SubscribeRequest)
    (subscriptionId tenant xauthToken : string) (servicePathV : list string) (fiwareCorrelator version : string)
    : cpp (SubscribeResponse * SubState) :=
  match OID subscriptionId with
  | None => Ret (error_response SccContextElementNotFound "", st)
  | Some id =>
      match find_error, st_docs st !! id with
      | Some err, _ => Ret (error_response SccReceiverInternalError err, st)
      | None, None => Ret (error_response SccContextElementNotFound "", st)
      | None, Some d =>
          let sub := csub_sub d in
          let v2 := version =s "v2" in
          '(expiration, ticks) ← updated_expiration version req sub;
          sp ← vec_at servicePathV 0;
          '(throttling, th) ← updated_throttling (sr_throttling req) sub;
          let stringFilterP := stringFilter_of (sr_scopes req) in
          let status := updated_status req sub in
          '(conds, sent) ← updated_conditions version req subscriptionId sub tenant xauthToken servicePathV status
                             fiwareCorrelator;
          let notificationDone := (0 <? length sent)%nat in
          let all_sent := st_sent st ++ sent in
          cSubP ← subCacheItemLookup fuel (st_cache st) (Some (c_str tenant)) (c_str subscriptionId);
          '(cachedCount, cachedTime) ← cached_counters (st_cache st) cSubP;
          let count := int64 (default 0 (csub_count d) + cachedCount) in
          let lastNotificationTime := if notificationDone then getCurrentTime ticks else cachedTime in
          c ← (if notificationDone
               then cached_count (st_cache st) cSubP (fun cs => with_count (int64 (cs_count cs + 1)) lastNotificationTime cs)
               else Ret (st_cache st));
          let servicePath := if sp =s "" then DEFAULT_SERVICE_PATH_QUERIES else sp in
          let d' := updated_document v2 req servicePath expiration throttling conds
                      (if notificationDone then Some lastNotificationTime
                       else Z.max cachedTime <$> sd_lastNotification sub)
                      (if notificationDone then Some (int64 (count + 1)) else (fun _ => count) <$> csub_count d) d in
          match update_error with
          | Some err => Ret (error_response SccReceiverInternalError err, mkSubState (st_docs st) c all_sent)
          | None =>
              c ← cached_count c cSubP (fun cs => with_count 0 (cs_lastNotificationTime cs) cs);
              c ← update_cache fuel c tenant subscriptionId (csub_sub d') lastNotificationTime expiration status
                    (sr_expression req) stringFilterP (updated_format req sub).2;
              Ret (mkSubscribeResponse (mkStatusCode SccNone "") (sr_duration req) subscriptionId
                     (if th_string th =s "" then no_throttling else th),
                   mkSubState (<[id := d']> (st_docs st)) c all_sent)
          end
      end
  end.

(** ** Reading *)

Record EntID := mkEntID { en_id : string; en_idPattern : string; en_type : string }.

(** ngsiv2::Subscription *)
Record Subscription := mkSubscription {
  sub_id : string;
  sub_description : string;
  sub_entities : list EntID;
  sub_conditionAttrs : list string;
  sub_expression : ExprDoc;
  sub_expires : Z;
  sub_status : string;
  sub_attributes : list string;
  sub_url : string;
  sub_throttling : Z;
  sub_lastNotification : Z;
  sub_timesSent : Z
}.

Definition isFalse (s : string) : bool := (s =s "false") || (s =s "0").

(** setSubject, its entities and its condition. *)
Definition subject_entity (e : EntityDoc) : EntID :=
  let id := default "" (ed_id e) in
  if isFalse (default "" (ed_isPattern e)) then mkEntID id "" (default "" (ed_type e))
  else mkEntID "" id (default "" (ed_type e)).

Definition subject_attrs (conds : list ConditionDoc) : list string :=
  concat ((fun c => if cd_type c =s ON_CHANGE_CONDITION then cd_value c else []) <$> conds).

(** setNotification: the last notification and the times sent, with those of the cache. *)
Definition notification_counters (fuel : nat) (c : SubCache) (tenant id : string) (d : CsubDoc) : cpp (Z * Z) :=
  let lastNotification := default (-1) (sd_lastNotification (csub_sub d)) in
  let timesSent := default (-1) (csub_count d) in
  cSubP ← subCacheItemLookup fuel c (Some (c_str tenant)) (c_str id);
  match cSubP : option loc with
  | None => Ret (lastNotification, timesSent)
  | Some l =>
      n ← deref (heap c) l;
      let cs := node_sub n in
      Ret (Z.max (cs_lastNotificationTime cs) lastNotification,
           if cs_count cs =? 0 then timesSent
           else int64 ((if timesSent =? -1 then 0 else timesSent) + cs_count cs))
  end.

(** setStatus *)
Definition shown_status (now expires : Z) (sub : SubDoc) : string :=
  if (now <? expires) || (expires =? -1) then default STATUS_ACTIVE (sd_status sub) else "expired".

(** The functions set*, one after the other; a missing _id is an exception of the driver. *)
Definition read_subscription (fuel : nat) (c : SubCache) (tenant : string) (d : CsubDoc) : cpp Subscription :=
  let sub := csub_sub d in
  match sd_id sub with
  | None => UB "OID() of a missing field"
  | Some id =>
      '(lastNotification, timesSent) ← notification_counters fuel c tenant id d;
      let expires := default (-1) (sd_expiration sub) in
      Ret (mkSubscription id (default "" (csub_description d)) (subject_entity <$> sd_entities sub)
             (subject_attrs (sd_conditions sub)) (default (mkExprDoc "" "" "" "") (csub_expr d)) expires
             (shown_status (getCurrentTime 0) expires sub) (sd_attrs sub) (default "" (sd_reference sub))
             (default (-1) (sd_throttling sub)) lastNotification timesSent)
  end.

(** mongoGetSubscription: the error, and the subscription when there is none. *)
Definition mongoGetSubscription (fuel : nat) (st : SubState) (idSub tenant : string)
    : cpp (StatusCode * option Subscription) :=
  match OID idSub with
  | None => Ret (mkStatusCode SccContextElementNotFound "", None)
  | Some id =>
      match find_error, st_docs st !! id with
      | Some err, _ => Ret (mkStatusCode SccReceiverInternalError err, None)
      | None, None => Ret (mkStatusCode SccSubscriptionIdNotFound "", None)
      | None, Some d => s ← read_subscription fuel (st_cache st) tenant d; Ret (mkStatusCode SccOk "", Some s)
      end
  end.

(** mongoListSubscriptions: the documents that its cursor yields, in their order (None where
    nextSafe failed). *)
Fixpoint mongoListSubscriptions (fuel : nat) (c : SubCache) (tenant : string) (cursor : list (option CsubDoc))
    : cpp (list Subscription) :=
  match cursor with
  | [] => Ret []
  | None :: cursor' => mongoListSubscriptions fuel c tenant cursor'
  | Some d :: cursor' =>
      s ← read_subscription fuel c tenant d;
      l ← mongoListSubscriptions fuel c tenant cursor';
      Ret (s :: l)
  end.

End Subscriptions.

(** ** Selection *)

(** Two cached subscriptions that select the same updates. *)
Record same_selection (cs cs' : CachedSubscription) : Prop := {
  sel_infos : cs_entityIdInfos cs' = cs_entityIdInfos cs;
  sel_conditions : cs_notifyConditionVector cs' = cs_notifyConditionVector cs;
  sel_tenant : default "" (cs_tenant cs') = default "" (cs_tenant cs);
  sel_path : cs_servicePath cs' = cs_servicePath cs
}.

Lemma no_tenant_default t : no_tenant t = (default "" t =s "").
Proof. by destruct t. Qed.

Lemma tenant_filter_default m cs t : tenant_filter m cs t =
  if m then default "" (cs_tenant cs) =s default "" t else true.
Proof.
  unfold tenant_filter. destruct m; [|done]. rewrite !no_tenant_default.
  destruct (cs_tenant cs) as [a|], t as [b|]; cbn; try done.
  - destruct (a =s "") eqn:Ea; cbn.
    + apply str_eqb_eq in Ea as ->. by rewrite str_eqb_sym.
    + destruct (b =s "") eqn:Eb; cbn; [apply str_eqb_eq in Eb as ->; by rewrite Ea|].
      destruct (a =s b) eqn:E; [apply str_eqb_eq in E as ->; by rewrite bool_decide_true|].
      apply str_eqb_neq in E. rewrite bool_decide_false; [done|congruence].
  - by rewrite andb_true_r, orb_true_r.
  - rewrite str_eqb_sym. by destruct (b =s "").
Qed.

Lemma same_selection_match regcomp regexec m cs cs' t sp id ty attrs : same_selection cs cs' ->
  subMatch regcomp regexec m cs' t sp id ty attrs = subMatch regcomp regexec m cs t sp id ty attrs.
Proof.
  intros [Hi Hc Ht Hp]. unfold subMatch, servicePathMatch. by rewrite !tenant_filter_default, Hi, Hc, Ht, Hp.
Qed.

(** What a document keeps of a request's entities and conditions. *)
Lemma entityInfos_of_entities enV :
  entityInfos_of (entity_doc <$> enV) = (fun e => EntityInfo_new (eid_id e) (eid_type e) (eid_isPattern e)) <$> enV.
Proof.
  induction enV as [|e enV IH]; [done|]. rewrite !fmap_cons. cbn [entityInfos_of entity_doc ed_id ed_type ed_isPattern].
  rewrite IH. cbn. f_equal. by destruct (eid_type e =s "") eqn:E; [apply str_eqb_eq in E as ->|].
Qed.

Definition onchange_only (ncv : list NotifyCondition) : Prop :=
  ncv <> [] /\ Forall (fun nc => nc_type nc = ON_CHANGE_CONDITION) ncv.

Definition condition_doc (nc : NotifyCondition) : ConditionDoc := mkConditionDoc ON_CHANGE_CONDITION (nc_condValueList nc).

Lemma conditions_of_docs ncv : Forall (fun nc => nc_type nc = ON_CHANGE_CONDITION) ncv ->
  conditions_of (condition_doc <$> ncv) = ncv.
Proof.
  induction 1 as [|[ty vs] ncv Hnc _ IH]; [done|]. cbn in Hnc. subst ty. cbn. by rewrite IH.
Qed.

Lemma onchange_true ncv : onchange_only ncv -> onchange ncv = true.
Proof. intros [Hne Hall]. destruct ncv as [|nc ncv]; [done|]. apply Forall_cons in Hall as [H _]. cbn. by rewrite H. Qed.

Section ConditionFacts.

Context (mem : Metadata) (memDate : double) (fromjson : string -> cpp doc) (capable : bool).
Context (rq : doc -> option doc -> Z -> Z -> string + (Z * list fetched)).

Lemma processConditionVector_docs ncv enV attrL subId u f t x sp sc status fc ao conds sent :
  Forall (fun nc => nc_type nc = ON_CHANGE_CONDITION) ncv ->
  processConditionVector mem memDate fromjson capable rq ncv enV attrL subId u f t x sp sc status fc ao
    = Ret (conds, sent) -> conds = condition_doc <$> ncv.
Proof.
  intros Hall. revert conds sent. induction Hall as [|nc ncv Hnc _ IH]; intros conds sent; [by intros [= <- _]|].
  cbn [processConditionVector]. rewrite Hnc. change (ON_CHANGE_CONDITION =s ON_CHANGE_CONDITION) with true. cbv iota.
  destruct (if status =s STATUS_ACTIVE then _ else _) as [nt| |]; try done. cbn [mbind cpp_bind].
  destruct (processConditionVector _ _ _ _ _ ncv _ _ _ _ _ _ _ _ _ _ _ _) as [[cs ss]| |] eqn:E; try done.
  intros [= <- _]. cbn. f_equal. by eapply IH.
Qed.

End ConditionFacts.

(** ** Creating a subscription *)

Section Creating.

Context (mem : Metadata) (memDate : double).
Context (regcomp : string -> bool) (fromjson : string -> cpp doc) (capable : bool).
Context (rq : doc -> option doc -> Z -> Z -> string + (Z * list fetched)).
Context (getCurrentTime : nat -> Z).

Lemma new_throttling_field th a f t : new_throttling th = Ret (a, f, t) -> f = Some a \/ (f = None /\ a = 0).
Proof.
  unfold new_throttling. destruct (negb _); [intros [= <- <- _]; by left|].
  destruct (negb _); [|intros [= <- <- _]; by right]. destruct (parse8601 _); try done. intros [= <- <- _]. by left.
Qed.

(** What a created subscription leaves: a document and a cached subscription. *)
Lemma mongoSubscribeContext_effect st ls req oid tenant xauth spV fc resp st' :
  cache_repr (st_cache st) ls -> onchange_only (sr_notifyConditionVector req) ->
  mongoSubscribeContext mem memDate regcomp fromjson capable rq getCurrentTime None st req oid tenant xauth spV fc
    = Ret (resp, st') ->
  exists l sp expiration throttling field notified sent,
    spV !! 0%nat = Some sp /\ (exists d k, new_expiration getCurrentTime req = Ret (expiration, d, k)) /\
    (exists th, new_throttling (sr_throttling req) = Ret (throttling, field, th)) /\
    (field = Some throttling \/ field = None /\ throttling = 0) /\
    (notified = None <-> sent = []) /\ (forall t, notified = Some t -> exists k, t = getCurrentTime k) /\
    st_sent st' = st_sent st ++ sent /\
    let servicePath := if sp =s "" then DEFAULT_SERVICE_PATH_QUERIES else sp in
    let status := if sr_status req =s "" then STATUS_ACTIVE else sr_status req in
    st_docs st' = <[oid := subscription_document req oid servicePath expiration field notified status
                             (condition_doc <$> sr_notifyConditionVector req)]> (st_docs st) /\
    cache_repr (st_cache st') (ls ++ [(l, subscription_of regcomp
        (subscription_item req oid tenant servicePath expiration throttling notified status))]).
Proof.
  intros Hr Hon. unfold mongoSubscribeContext, vec_at. destruct (spV !! 0%nat) as [sp|]; [|done]. cbn [mbind cpp_bind].
  destruct (new_expiration _ _) as [[[expiration duration] ticks]| |] eqn:Ee; try done. cbn [mbind cpp_bind].
  destruct (new_throttling _) as [[[throttling field] th]| |] eqn:Et; try done. cbn [mbind cpp_bind].
  destruct (processConditionVector _ _ _ _ _ _ _ _ _ _ _ _ _ _ _ _ _ _) as [[conds sent]| |] eqn:Ec; try done.
  cbn [mbind cpp_bind]. apply processConditionVector_docs in Ec; [|apply Hon]. subst conds.
  set (notified := if (0 <? length sent)%nat then _ else _).
  set (item := subscription_item _ _ _ _ _ _ _ _).
  destruct (insert_any _ _ (subscription_of regcomp item) Hr) as (c' & l & Hi & Hr').
  unfold subCacheItemInsert_new. change (ns_notifyConditionVector item) with (sr_notifyConditionVector req).
  rewrite (onchange_true _ Hon). cbn [negb]. rewrite Hi. cbn [mbind cpp_bind]. intros [= _ <-].
  exists l, sp, expiration, throttling, field, notified, sent. subst notified.
  split_and!; try done.
  - by do 2 eexists.
  - by eexists.
  - by apply new_throttling_field in Et.
  - by destruct sent.
  - intros t. destruct sent; [done|]. intros [= <-]. by eexists.
Qed.

(** C24. A subscription that is created in the cache selects the same updates, and notifies the
    same URL with the same attributes until the same time, as the one that a refresh of the cache
    makes of the document (with the same format, when one was given); the filter and the
    geometry of its expression are not in the refreshed one. *)
Theorem mongoSubscribeContext_refresh st ls req oid tenant xauth spV fc resp st' :
  cache_repr (st_cache st) ls -> onchange_only (sr_notifyConditionVector req) -> sr_entityIdVector req <> [] ->
  mongoSubscribeContext mem memDate regcomp fromjson capable rq getCurrentTime None st req oid tenant xauth spV fc
    = Ret (resp, st') ->
  exists l cs d cs', st_docs st' !! oid = Some d /\ cache_repr (st_cache st') (ls ++ [(l, cs)]) /\
    sub_from_doc (c_str tenant) (csub_sub d) = (0, Some cs') /\ same_selection cs cs' /\
    cs_subscriptionId cs' = cs_subscriptionId cs /\ cs_reference cs' = cs_reference cs /\
    cs_attributes cs' = cs_attributes cs /\ cs_expirationTime cs' = cs_expirationTime cs /\
    cs_status cs' = c_str (cs_status cs) /\
    (sr_attrsFormat req <> NO_FORMAT -> cs_renderFormat cs' = cs_renderFormat cs) /\
    cs_expression cs' = no_expression.
Proof.
  intros Hr Hon Hen H.
  destruct (mongoSubscribeContext_effect _ _ _ _ _ _ _ _ _ _ Hr Hon H)
    as (l & sp & expiration & throttling & field & notified & sent & _ & _ & _ & _ & _ & _ & _ & Hd & Hc).
  do 4 eexists. rewrite Hd, lookup_insert_eq. split; [done|]. split; [exact Hc|].
  unfold sub_from_doc, subscription_document. cbn [csub_sub sd_id sd_entities sd_conditions].
  rewrite entityInfos_of_entities, conditions_of_docs by apply Hon. rewrite length_fmap.
  destruct (length (sr_entityIdVector req) =? 0)%nat eqn:E1; [by apply Nat.eqb_eq, length_zero_iff_nil in E1|].
  destruct (length (sr_notifyConditionVector req) =? 0)%nat eqn:E2;
    [apply Nat.eqb_eq, length_zero_iff_nil in E2; by destruct Hon|].
  split; [reflexivity|]. unfold subscription_of, subscription_item. cbn.
  split.
  - split; cbn; [done|done| |done]. rewrite c_str_idemp. by destruct (c_str tenant =s "") eqn:E; [apply str_eqb_eq in E as ->|].
  - split_and!; try done. by destruct (sr_attrsFormat req).
Qed.

(** A node of the list is in the heap. *)
Lemma repr_node c ls1 l s ls2 : cache_repr c (ls1 ++ (l, s) :: ls2) -> exists n, heap c !! l = Some (mkNode s n).
Proof.
  intros Hr. pose proof (repr_chain _ _ Hr) as Hc. apply seg_app in Hc as (r & _ & -> & n & Hl & _). by exists n.
Qed.

(** The lookup of the only cached subscription with a tenant and an id. *)
Lemma lookup_only fuel c ls1 l s ls2 tenant id : cache_repr c (ls1 ++ (l, s) :: ls2) ->
  with_ids (ls1 ++ (l, s) :: ls2) -> (length (ls1 ++ (l, s) :: ls2) <= fuel)%nat ->
  Forall (fun x => lookup_key tenant id x.2 = false) ls1 -> lookup_key tenant id s = true ->
  subCacheItemLookup fuel c tenant id = Ret (Some l).
Proof.
  intros Hr Hi Hf Hn Hk. unfold subCacheItemLookup.
  rewrite (lookup_seg fuel (heap c) (head c) _ tenant id (repr_chain _ _ Hr) Hf Hi). rewrite List.filter_app.
  cbn [List.filter snd]. rewrite Hk. assert (List.filter (fun x => lookup_key tenant id x.2) ls1 = []) as ->; [|done].
  clear - Hn. induction Hn as [|x ls Hx _ IH]; [done|]. cbn. by rewrite Hx.
Qed.

Lemma lookup_none fuel c ls tenant id : cache_repr c ls -> with_ids ls -> (length ls <= fuel)%nat ->
  Forall (fun x => lookup_key tenant id x.2 = false) ls -> subCacheItemLookup fuel c tenant id = Ret None.
Proof.
  intros Hr Hi Hf Hn. unfold subCacheItemLookup.
  rewrite (lookup_seg fuel (heap c) (head c) _ tenant id (repr_chain _ _ Hr) Hf Hi).
  assert (List.filter (fun x => lookup_key tenant id x.2) ls = []) as ->; [|done].
  clear - Hn. induction Hn as [|x ls Hx _ IH]; [done|]. cbn. by rewrite Hx.
Qed.

Definition requested_entity (e : EntityId) : EntID :=
  if isFalse (eid_isPattern e) then mkEntID (eid_id e) "" (eid_type e) else mkEntID "" (eid_id e) (eid_type e).

Lemma subject_entities (enV : list EntityId) : subject_entity <$> (entity_doc <$> enV) = requested_entity <$> enV.
Proof.
  rewrite <- list_fmap_compose. apply list_fmap_ext. intros _ e _. unfold subject_entity, entity_doc, requested_entity. cbn.
  by destruct (eid_type e =s "") eqn:E; [apply str_eqb_eq in E as ->|].
Qed.

Lemma subject_conditions (ncv : list NotifyCondition) : subject_attrs (condition_doc <$> ncv) = concat (nc_condValueList <$> ncv).
Proof. unfold subject_attrs. rewrite <- list_fmap_compose. f_equal. Qed.

(** Round trip: a subscription that has been created reads back as it was asked for. The
    times it was sent are -1 (none) without an initial notification, and 2 with one: the
    document and the cache each count it. *)
Theorem mongoSubscribeContext_get fuel st ls req oid tenant xauth spV fc resp st' OID now :
  cache_repr (st_cache st) ls -> with_ids ls -> (length ls < fuel)%nat ->
  Forall (fun x => lookup_key (Some (c_str tenant)) oid x.2 = false) ls ->
  onchange_only (sr_notifyConditionVector req) -> free_of NUL oid = true -> OID oid = Some oid ->
  mongoSubscribeContext mem memDate regcomp fromjson capable rq getCurrentTime None st req oid tenant xauth spV fc
    = Ret (resp, st') ->
  exists expiration throttling field sent lastNotification,
    (exists d k, new_expiration getCurrentTime req = Ret (expiration, d, k)) /\
    (exists th, new_throttling (sr_throttling req) = Ret (throttling, field, th)) /\
    st_sent st' = st_sent st ++ sent /\
    (sent = [] /\ lastNotification = 0 \/ sent <> [] /\ exists k, lastNotification = getCurrentTime k) /\
    mongoGetSubscription now OID None fuel st' oid tenant =
      Ret (mkStatusCode SccOk "", Some (mkSubscription oid (sr_description req)
        (requested_entity <$> sr_entityIdVector req) (concat (nc_condValueList <$> sr_notifyConditionVector req))
        (sr_expression req) expiration
        (if (now 0%nat <? expiration) || (expiration =? -1)
         then (if sr_status req =s "" then STATUS_ACTIVE else sr_status req) else "expired")
        (sr_attributeList req) (sr_reference req) (default (-1) field) lastNotification
        (match sent with [] => -1 | _ => 2 end))).
Proof.
  intros Hr Hi Hf Hn Hon Hnul Hoid H.
  destruct (mongoSubscribeContext_effect _ _ _ _ _ _ _ _ _ _ Hr Hon H)
    as (l & sp & expiration & throttling & field & notified & sent & _ & He & Ht & _ & Hnot & Htime & Hs & Hd & Hc).
  exists expiration, throttling, field, sent, (default 0 notified). split; [done|]. split; [done|]. split; [done|]. split.
  { destruct notified as [t|]; [right|left].
    - split; [intros ->; discriminate (proj2 Hnot eq_refl)|]. cbn. by apply Htime.
    - split; [by apply Hnot|done]. }
  unfold mongoGetSubscription. rewrite Hoid, Hd, lookup_insert_eq. unfold read_subscription.
  cbn [subscription_document csub_sub sd_id]. unfold notification_counters. rewrite (c_str_id oid) by done.
  cbn zeta in Hc. set (cs := subscription_of regcomp _) in Hc.
  assert (lookup_key (Some (c_str tenant)) oid cs = true) as Hk.
  { unfold lookup_key. subst cs. cbn. rewrite bool_decide_true by done. rewrite andb_true_r.
    destruct (c_str tenant =s "") eqn:E; cbn; [by rewrite E|apply str_eqb_refl]. }
  rewrite (lookup_only fuel _ ls l cs [] (Some (c_str tenant)) oid Hc); try done.
  2: { unfold with_ids. rewrite subs_app. apply Forall_app. split; [done|]. constructor; [by eexists|constructor]. }
  2: { rewrite length_app. cbn. lia. }
  destruct (repr_node _ _ _ _ _ Hc) as [n Hl]. cbn [mbind cpp_bind]. rewrite (deref_here _ _ _ _ Hl). cbn [mbind cpp_bind].
  f_equal. f_equal. f_equal. cbn [node_sub]. subst cs. cbn -[subject_attrs subject_entity fmap list_fmap].
  rewrite subject_entities, subject_conditions. unfold shown_status. cbn.
  destruct notified as [t|].
  - cbn. rewrite Z.max_id. destruct sent; [discriminate (proj2 Hnot eq_refl)|].
    destruct (sr_description req =s "") eqn:E; [apply str_eqb_eq in E as ->|]; done.
  - cbn. rewrite (proj1 Hnot eq_refl).
    destruct (sr_description req =s "") eqn:E; [apply str_eqb_eq in E as ->|]; done.
Qed.

End Creating.

(** ** Removing a subscription *)

(** The cached subscriptions of the others. *)
Definition others (tenant id : string) (ls : list (loc * CachedSubscription)) : list (loc * CachedSubscription) :=
  List.filter (fun x => negb (lookup_key (Some tenant) id x.2)) ls.

Definition unkeyed (tenant id : string) (ls : list (loc * CachedSubscription)) : Prop :=
  Forall (fun x => lookup_key (Some tenant) id x.2 = false) ls.

(** A tenant and an id are cached at most once. *)
Definition cached_once (tenant id : string) (ls : list (loc * CachedSubscription)) : Prop :=
  unkeyed tenant id ls \/
  exists ls1 l s ls2, ls = ls1 ++ (l, s) :: ls2 /\ unkeyed tenant id ls1 /\ lookup_key (Some tenant) id s = true /\
    unkeyed tenant id ls2.

Lemma others_unkeyed tenant id ls : unkeyed tenant id ls -> others tenant id ls = ls.
Proof. unfold others. induction 1 as [|x ls Hx _ IH]; [done|]. cbn. by rewrite Hx, IH. Qed.

Lemma others_split tenant id ls1 l s ls2 : unkeyed tenant id ls1 -> lookup_key (Some tenant) id s = true ->
  unkeyed tenant id ls2 -> others tenant id (ls1 ++ (l, s) :: ls2) = ls1 ++ ls2.
Proof.
  intros H1 Hk H2. unfold others. rewrite List.filter_app. fold (others tenant id ls1). rewrite others_unkeyed by done.
  cbn [List.filter snd]. rewrite Hk. cbn [negb]. fold (others tenant id ls2). by rewrite others_unkeyed.
Qed.

(** Removing what a lookup finds. *)
Lemma remove_found fuel c ls1 l s ls2 : cache_repr c (ls1 ++ (l, s) :: ls2) ->
  (length (ls1 ++ (l, s) :: ls2) <= fuel)%nat ->
  exists c', subCacheItemRemove fuel c l = Ret (0, c') /\ cache_repr c' (ls1 ++ ls2).
Proof.
  intros Hr Hf. destruct (remove_loop fuel c l s [] ls1 ls2 (head c) Hr) as (c' & H1 & H2 & _); [done| |by exists c'].
  rewrite length_app in Hf. cbn in Hf. lia.
Qed.

(** Removing a subscription by the id that the database gave it: when the database answers, the
    document and the cached subscription are gone, whether or not there was one in the cache,
    and everything else stays; a subscription that is not in the database is refused with 404
    and nothing changes; an error of the database is reported and nothing changes. *)
Theorem mongoUnsubscribeContext_removes OID find_error remove_error fuel st ls id tenant :
  cache_repr (st_cache st) ls -> with_ids ls -> (length ls <= fuel)%nat -> cached_once (c_str tenant) id ls ->
  free_of NUL id = true -> id <> "" -> OID id = Some id ->
  match find_error, st_docs st !! id, remove_error with
  | Some err, _, _ => mongoUnsubscribeContext OID find_error remove_error fuel st id tenant
                        = Ret (mkStatusCode SccReceiverInternalError err, st)
  | None, None, _ => mongoUnsubscribeContext OID find_error remove_error fuel st id tenant
                        = Ret (mkStatusCode SccContextElementNotFound ("subscriptionId: /" +:+ id +:+ "/"), st)
  | None, Some _, Some err => mongoUnsubscribeContext OID find_error remove_error fuel st id tenant
                        = Ret (mkStatusCode SccReceiverInternalError err, st)
  | None, Some _, None => exists c,
      mongoUnsubscribeContext OID find_error remove_error fuel st id tenant
        = Ret (mkStatusCode SccOk "", mkSubState (delete id (st_docs st)) c (st_sent st)) /\
      cache_repr c (others (c_str tenant) id ls)
  end.
Proof.
  intros Hr Hi Hf Honce Hnul Hne Hoid. unfold mongoUnsubscribeContext. apply str_eqb_neq in Hne. rewrite Hne, Hoid.
  destruct find_error as [err|]; [done|]. destruct (st_docs st !! id) as [d|]; [|done].
  destruct remove_error as [err|]; [done|]. rewrite (c_str_id id) by done.
  destruct Honce as [Hn|(ls1 & l & s & ls2 & -> & H1 & Hk & H2)].
  - rewrite (lookup_none fuel _ ls) by done. cbn [mbind cpp_bind]. exists (st_cache st). split; [done|].
    by rewrite others_unkeyed.
  - rewrite (lookup_only fuel _ ls1 l s ls2) by done. cbn [mbind cpp_bind].
    destruct (remove_found fuel _ _ _ _ _ Hr Hf) as (c' & Hc & Hr'). rewrite Hc. cbn [mbind cpp_bind snd].
    exists c'. split; [done|]. by rewrite others_split.
Qed.

(** ** Updating a subscription *)

Section Updating.

Context (mem : Metadata) (memDate : double).
Context (regcomp : string -> bool) (fromjson : string -> cpp doc) (capable : bool).
Context (rq : doc -> option doc -> Z -> Z -> string + (Z * list fetched)).
Context (getCurrentTime : nat -> Z) (OID : string -> option string).

Lemma cached_count_repr c ls1 l s ls2 f : cache_repr c (ls1 ++ (l, s) :: ls2) ->
  exists c', cached_count c (Some l) f = Ret c' /\ cache_repr c' (ls1 ++ (l, f s) :: ls2).
Proof.
  intros Hr. destruct (set_sub_repr c ls1 l s ls2 (f s) Hr) as (n & c' & Hl & Hs & Hr' & _).
  exists c'. split; [|done]. cbn [cached_count]. by rewrite (deref_here _ _ _ _ Hl).
Qed.

Lemma lookup_key_with_count tenant id n t s : lookup_key tenant id (with_count n t s) = lookup_key tenant id s.
Proof. done. Qed.

Lemma with_ids_replace ls1 l s s' ls2 : cs_subscriptionId s' = cs_subscriptionId s ->
  with_ids (ls1 ++ (l, s) :: ls2) -> with_ids (ls1 ++ (l, s') :: ls2).
Proof.
  unfold with_ids. rewrite !subs_app. intros E. rewrite !Forall_app. cbn. rewrite !Forall_cons, E. done.
Qed.

Lemma length_replace {A} (ls1 : list A) x y ls2 : length (ls1 ++ x :: ls2) = length (ls1 ++ y :: ls2).
Proof. by rewrite !length_app. Qed.

(** Replacing a subscription in the cache: the new one, if the document gives one, is put at
    the end, and the old one is removed. *)
Lemma update_cache_repr fuel c ls1 l s ls2 tenant id sub lnt expiration status x sf format r o :
  cache_repr c (ls1 ++ (l, s) :: ls2) -> with_ids (ls1 ++ (l, s) :: ls2) ->
  (length (ls1 ++ (l, s) :: ls2) < fuel)%nat -> unkeyed (c_str tenant) id ls1 ->
  lookup_key (Some (c_str tenant)) id s = true -> free_of NUL id = true ->
  sub_from_update regcomp (c_str tenant) sub (mkSubUpdate (Some id) (cs_servicePath s) (int32 lnt) expiration status
      (xd_q x) (xd_geometry x) (xd_coords x) (xd_georel x) sf format) = (r, o) ->
  exists c' l', update_cache regcomp fuel c tenant id sub lnt expiration status x sf format = Ret c' /\
    cache_repr c' (ls1 ++ ls2 ++ match o with Some cs' => [(l', cs')] | None => [] end).
Proof.
  intros Hr Hi Hf Hn Hk Hnul Hu. unfold update_cache. rewrite (c_str_id id) by done.
  rewrite (lookup_only fuel c ls1 l s ls2) by (done || lia). cbn [mbind cpp_bind].
  destruct (repr_node _ _ _ _ _ Hr) as [n Hl]. rewrite (deref_here _ _ _ _ Hl). cbn [mbind cpp_bind node_sub].
  unfold mongoSubCacheItemInsert_update. rewrite Hu. destruct o as [cs'|].
  - destruct (insert_any c _ cs' Hr) as (c1 & l' & Hins & Hr1).
    destruct (alloc c cs') as [c0 l0]. rewrite Hins. cbn [mbind cpp_bind].
    rewrite <- app_assoc in Hr1. cbn [app] in Hr1.
    destruct (remove_found fuel c1 ls1 l s (ls2 ++ [(l', cs')]) Hr1) as (c2 & Hc & Hr2).
    { rewrite length_app in *. cbn in *. rewrite length_app. cbn. lia. }
    rewrite Hc. cbn [mbind cpp_bind snd]. destruct (r =? 0).
    + exists (subCacheUpdateStatisticsIncrement c2), l'. split; [done|]. destruct Hr2. by split.
    + by exists c2, l'.
  - cbn [mbind cpp_bind]. destruct (remove_found fuel c ls1 l s ls2 Hr) as (c2 & Hc & Hr2); [lia|].
    rewrite Hc. cbn [mbind cpp_bind snd]. rewrite app_nil_r. destruct (r =? 0).
    + exists (subCacheUpdateStatisticsIncrement c2), l. split; [done|]. destruct Hr2. by split.
    + by exists c2, l.
Qed.

(** What an update leaves when the subscription is cached and the database answers. *)
Lemma mongoUpdateContextSubscription_effect fuel st req id tenant xauth spV fc version d ls1 l cs ls2 resp st' :
  cache_repr (st_cache st) (ls1 ++ (l, cs) :: ls2) -> with_ids (ls1 ++ (l, cs) :: ls2) ->
  (length (ls1 ++ (l, cs) :: ls2) < fuel)%nat -> unkeyed (c_str tenant) id ls1 ->
  lookup_key (Some (c_str tenant)) id cs = true -> free_of NUL id = true -> OID id = Some id ->
  st_docs st !! id = Some d ->
  mongoUpdateContextSubscription mem memDate regcomp fromjson capable rq getCurrentTime OID None None fuel st req id
    tenant xauth spV fc version = Ret (resp, st') ->
  exists sp expiration throttling conds sent time l',
    let sub := csub_sub d in
    let status := updated_status req sub in
    let count := int64 (default 0 (csub_count d) + cs_count cs) in
    let done := (0 <? length sent)%nat in
    let lnt := if done then time else cs_lastNotificationTime cs in
    let d' := updated_document (version =s "v2") req (if sp =s "" then DEFAULT_SERVICE_PATH_QUERIES else sp) expiration
                throttling conds (if done then Some lnt else Z.max (cs_lastNotificationTime cs) <$> sd_lastNotification sub)
                (if done then Some (int64 (count + 1)) else (fun _ => count) <$> csub_count d) d in
    let x := sr_expression req in
    spV !! 0%nat = Some sp /\
    updated_conditions mem memDate fromjson capable rq version req id sub tenant xauth spV status fc = Ret (conds, sent) /\
    st_docs st' = <[id := d']> (st_docs st) /\ st_sent st' = st_sent st ++ sent /\
    cache_repr (st_cache st') (ls1 ++ ls2 ++
      match (sub_from_update regcomp (c_str tenant) (csub_sub d')
              (mkSubUpdate (Some id) (cs_servicePath cs) (int32 lnt) expiration status
                (xd_q x) (xd_geometry x) (xd_coords x) (xd_georel x) (stringFilter_of (sr_scopes req))
                (updated_format req sub).2)).2 with
      | Some cs' => [(l', cs')] | None => [] end).
Proof.
  intros Hr Hi Hf Hn Hk Hnul Hoid Hd. unfold mongoUpdateContextSubscription. rewrite Hoid, Hd. cbn zeta.
  destruct (updated_expiration _ _ _ _) as [[expiration ticks]| |]; try done. cbn [mbind cpp_bind].
  unfold vec_at. destruct (spV !! 0%nat) as [sp|]; [|done]. cbn [mbind cpp_bind].
  destruct (updated_throttling _ _) as [[throttling th]| |]; try done. cbn [mbind cpp_bind].
  destruct (updated_conditions _ _ _ _ _ _ _ _ _ _ _ _ _ _) as [[conds sent]| |] eqn:Ec; try done. cbn [mbind cpp_bind].
  rewrite (c_str_id id) by done. rewrite (lookup_only fuel _ ls1 l cs ls2) by (done || lia). cbn [mbind cpp_bind].
  destruct (repr_node _ _ _ _ _ Hr) as [n Hl]. unfold cached_counters. rewrite (deref_here _ _ _ _ Hl). cbn [mbind cpp_bind node_sub].
  set (time := getCurrentTime ticks). set (done := (0 <? length sent)%nat).
  set (lnt := if done then time else cs_lastNotificationTime cs).
  assert (exists c cs1, (if done then cached_count (st_cache st) (Some l) (fun cs => with_count (int64 (cs_count cs + 1)) lnt cs)
            else Ret (st_cache st)) = Ret c /\ cache_repr c (ls1 ++ (l, cs1) :: ls2) /\
            cs_subscriptionId cs1 = cs_subscriptionId cs /\ cs_tenant cs1 = cs_tenant cs /\ cs_servicePath cs1 = cs_servicePath cs)
    as (c & cs1 & -> & Hr1 & Hid1 & Ht1 & Hp1).
  { destruct done; [|by exists (st_cache st), cs].
    destruct (cached_count_repr _ _ _ _ _ (fun cs => with_count (int64 (cs_count cs + 1)) lnt cs) Hr) as (c & -> & Hr').
    exists c. eexists. split; [done|]. split; [exact Hr'|]. done. }
  cbn [mbind cpp_bind].
  destruct (cached_count_repr _ _ _ _ _ (fun cs => with_count 0 (cs_lastNotificationTime cs) cs) Hr1) as (c2 & -> & Hr2).
  cbn [mbind cpp_bind]. set (d' := updated_document _ _ _ _ _ _ _ _ _). set (x := sr_expression req).
  destruct (sub_from_update regcomp (c_str tenant) (csub_sub d')
              (mkSubUpdate (Some id) (cs_servicePath cs) (int32 lnt) expiration (updated_status req (csub_sub d))
                (xd_q x) (xd_geometry x) (xd_coords x) (xd_georel x) (stringFilter_of (sr_scopes req))
                (updated_format req (csub_sub d)).2)) as [r o] eqn:Eu.
  rewrite <- Hp1 in Eu.
  destruct (update_cache_repr fuel c2 ls1 l _ ls2 tenant id (csub_sub d') lnt expiration
      (updated_status req (csub_sub d)) x (stringFilter_of (sr_scopes req)) (updated_format req (csub_sub d)).2 r o Hr2) as (c3 & l' & Hc3 & Hr3); try done.
  { by apply (with_ids_replace ls1 l cs). }
  { by rewrite (length_replace ls1 _ (l, cs) ls2). }
  { revert Hk. unfold lookup_key. cbn. by rewrite Hid1, Ht1. }
  rewrite Hc3. cbn [mbind cpp_bind]. intros [= _ <-].
  exists sp, expiration, throttling, conds, sent, time, l'. fold done lnt d'. cbn [st_docs st_sent st_cache].
  rewrite <- Hp1, Eu. cbn [snd]. split_and!; done.
Qed.

Lemma sub_from_update_some tenant sub u cs' : (sub_from_update regcomp tenant sub u).2 = Some cs' ->
  cs_count cs' = 0 /\ cs_subscriptionId cs' = su_subscriptionId u /\ default "" (cs_tenant cs') = tenant /\
  cs_servicePath cs' = su_servicePath u /\ cs_entityIdInfos cs' = entityInfos_of (sd_entities sub) /\
  cs_notifyConditionVector cs' = conditions_of (sd_conditions sub) /\ cs_expirationTime cs' = su_expirationTime u /\
  cs_status cs' = su_status u /\ cs_attributes cs' = sd_attrs sub /\ cs_renderFormat cs' = su_renderFormat u /\
  cs_reference cs' = Some (c_str (default "NO REF" (sd_reference sub))).
Proof.
  unfold sub_from_update. destruct (no_tenant _); [done|]. destruct (no_tenant _); [done|].
  destruct (_ =? 0)%nat; [done|]. destruct (_ =? 0)%nat; [done|]. cbn. intros [= <-]. cbn. split_and!; try done.
  by destruct (tenant =s "") eqn:E; [apply str_eqb_eq in E as ->|].
Qed.

Lemma with_ids_app ls ls' : with_ids (ls ++ ls') <-> with_ids ls /\ with_ids ls'.
Proof. unfold with_ids. by rewrite subs_app, Forall_app. Qed.

(** C23. The times a subscription has been sent, as it reads after an update that the database takes:
    those in the document and those in the cache, and one more if the update sent the initial
    notification.  But the times that only the cache knew (no count in the document) are lost
    by an update that sends nothing. *)
Theorem mongoUpdateContextSubscription_times fuel st req id tenant xauth spV fc version d ls1 l cs ls2 resp st' :
  cache_repr (st_cache st) (ls1 ++ (l, cs) :: ls2) -> with_ids (ls1 ++ (l, cs) :: ls2) ->
  (length (ls1 ++ (l, cs) :: ls2) < fuel)%nat -> unkeyed (c_str tenant) id ls1 ->
  lookup_key (Some (c_str tenant)) id cs = true -> unkeyed (c_str tenant) id ls2 ->
  free_of NUL id = true -> OID id = Some id -> st_docs st !! id = Some d ->
  0 <= default 0 (csub_count d) -> 0 <= cs_count cs -> default 0 (csub_count d) + cs_count cs < int64_max ->
  mongoUpdateContextSubscription mem memDate regcomp fromjson capable rq getCurrentTime OID None None fuel st req id
    tenant xauth spV fc version = Ret (resp, st') ->
  exists d' sent lastNotification, st_docs st' = <[id := d']> (st_docs st) /\ st_sent st' = st_sent st ++ sent /\
    notification_counters fuel (st_cache st') tenant id d' =
      Ret (lastNotification,
           match csub_count d, sent with
           | None, [] => -1
           | c, _ => default 0 c + cs_count cs + (match sent with [] => 0 | _ => 1 end)
           end).
Proof.
  intros Hr Hi Hf Hn1 Hk Hn2 Hnul Hoid Hd H0 H1 Hmax H.
  destruct (mongoUpdateContextSubscription_effect _ _ _ _ _ _ _ _ _ _ _ _ _ _ _ _ Hr Hi Hf Hn1 Hk Hnul Hoid Hd H)
    as (sp & expiration & throttling & conds & sent & time & l' & _ & _ & Hdocs & Hsent & Hcache). cbn zeta in Hdocs, Hcache.
  set (d' := updated_document _ _ _ _ _ _ _ _ _) in Hdocs, Hcache. set (o := (sub_from_update _ _ _ _).2) in Hcache.
  assert (csub_count d' = match csub_count d, sent with
    | None, [] => None | c, _ => Some (default 0 c + cs_count cs + (match sent with [] => 0 | _ => 1 end)) end) as Hcount.
  { unfold d', updated_document. cbn [csub_count]. rewrite (int64_small (default 0 (csub_count d) + cs_count cs)) by (unfold int64_min; lia).
    set (total := default 0 (csub_count d) + cs_count cs) in *.
    assert (int64 (total + 1) = total + 1) as -> by (apply int64_small; unfold int64_min; lia).
    subst total. destruct (csub_count d) as [n|], sent as [|nt sent]; cbn; f_equal; lia. }
  exists d', sent.
  assert (exists lastNotification, notification_counters fuel (st_cache st') tenant id d' =
    Ret (lastNotification, default (-1) (csub_count d'))) as [lastN Hl].
  { unfold notification_counters. rewrite (c_str_id id) by done.
    apply with_ids_app in Hi as [Hi1 Hi2]. apply (with_ids_app [_]) in Hi2 as [_ Hi2].
    rewrite length_app in Hf. cbn in Hf.
    destruct o as [cs'|] eqn:Eo.
    - apply sub_from_update_some in Eo as (Hc0 & Hid & Ht & _). cbn [su_subscriptionId] in Hid.
      rewrite app_assoc in Hcache.
      rewrite (lookup_only fuel _ (ls1 ++ ls2) l' cs' [] (Some (c_str tenant)) id Hcache).
      + destruct (repr_node _ _ _ _ _ Hcache) as [n Hn]. cbn [mbind cpp_bind]. rewrite (deref_here _ _ _ _ Hn).
        cbn [mbind cpp_bind node_sub]. rewrite Hc0. by eexists.
      + rewrite !with_ids_app. split_and!; [done|done|]. constructor; [by eexists|constructor].
      + rewrite !length_app. cbn. lia.
      + by apply Forall_app.
      + unfold lookup_key. cbn [default]. by rewrite Ht, Hid, str_eqb_refl, bool_decide_true.
    - rewrite app_nil_r in Hcache. rewrite (lookup_none fuel _ (ls1 ++ ls2)); [by eexists|done| | |].
      + by rewrite with_ids_app.
      + rewrite length_app. lia.
      + by apply Forall_app. }
  exists lastN. split_and!; [done|done|]. rewrite Hl, Hcount. by destruct (csub_count d), sent.
Qed.

(** A document that the cache can be filled from. *)
Definition cacheable (id : string) (sub : SubDoc) : Prop :=
  sd_id sub = Some id /\ entityInfos_of (sd_entities sub) <> [] /\ conditions_of (sd_conditions sub) <> [].

Lemma fmap_not_nil {A B} (f : A -> B) (l : list A) : l <> [] -> f <$> l <> [].
Proof. by destruct l. Qed.

Lemma new_entities_cacheable v2 req sub : entityInfos_of (sd_entities sub) <> [] ->
  entityInfos_of (new_entities v2 req sub) <> [].
Proof.
  intros H. unfold new_entities. destruct (v2 && _) eqn:E; [|done]. apply andb_true_iff in E as [_ E].
  rewrite entityInfos_of_entities. apply fmap_not_nil. by destruct (sr_entityIdVector req).
Qed.

Lemma updated_conditions_cacheable version req id sub tenant xauth spV status fc conds sent :
  Forall (fun nc => nc_type nc = ON_CHANGE_CONDITION) (sr_notifyConditionVector req) ->
  conditions_of (sd_conditions sub) <> [] ->
  updated_conditions mem memDate fromjson capable rq version req id sub tenant xauth spV status fc = Ret (conds, sent) ->
  conditions_of conds <> [].
Proof.
  intros Hall Hold. unfold updated_conditions. destruct (length (sr_notifyConditionVector req) =? 0)%nat eqn:E; [by intros [= <- _]|].
  intros H. apply processConditionVector_docs in H as ->; [|done]. rewrite conditions_of_docs by done.
  intros Hnil. by rewrite Hnil in E.
Qed.

Lemma length_not_nil {A} (l : list A) : l <> [] -> (length l =? 0)%nat = false.
Proof. by destruct l. Qed.

(** After an update of a cached subscription the document can still be cached, and the cached
    subscription agrees with what a refresh makes of the document: the same entities,
    conditions, attributes, tenant, id, expiration and URL.  It keeps its old service path,
    though, where the document has the one of the request; when they are the same, both select
    the same updates. *)
Theorem mongoUpdateContextSubscription_refresh fuel st req id tenant xauth spV fc version d ls1 l cs ls2 resp st' :
  cache_repr (st_cache st) (ls1 ++ (l, cs) :: ls2) -> with_ids (ls1 ++ (l, cs) :: ls2) ->
  (length (ls1 ++ (l, cs) :: ls2) < fuel)%nat -> unkeyed (c_str tenant) id ls1 ->
  lookup_key (Some (c_str tenant)) id cs = true -> no_tenant (cs_servicePath cs) = false ->
  free_of NUL id = true -> id <> "" -> OID id = Some id -> st_docs st !! id = Some d -> cacheable id (csub_sub d) ->
  Forall (fun nc => nc_type nc = ON_CHANGE_CONDITION) (sr_notifyConditionVector req) ->
  mongoUpdateContextSubscription mem memDate regcomp fromjson capable rq getCurrentTime OID None None fuel st req id
    tenant xauth spV fc version = Ret (resp, st') ->
  exists d' sp l' cs' cs2, st_docs st' = <[id := d']> (st_docs st) /\ spV !! 0%nat = Some sp /\
    cacheable id (csub_sub d') /\ cache_repr (st_cache st') (ls1 ++ ls2 ++ [(l', cs')]) /\
    sub_from_doc (c_str tenant) (csub_sub d') = (0, Some cs2) /\
    cs_servicePath cs' = cs_servicePath cs /\
    cs_servicePath cs2 = Some (c_str (if sp =s "" then DEFAULT_SERVICE_PATH_QUERIES else sp)) /\
    (cs_servicePath cs = cs_servicePath cs2 -> same_selection cs' cs2) /\
    cs_attributes cs' = cs_attributes cs2 /\ cs_subscriptionId cs' = cs_subscriptionId cs2 /\
    cs_expirationTime cs' = cs_expirationTime cs2 /\ cs_reference cs' = cs_reference cs2.
Proof.
  intros Hr Hi Hf Hn1 Hk Hpath Hnul Hne Hoid Hd (Hid & Hen & Hco) Hall H.
  destruct (mongoUpdateContextSubscription_effect _ _ _ _ _ _ _ _ _ _ _ _ _ _ _ _ Hr Hi Hf Hn1 Hk Hnul Hoid Hd H)
    as (sp & expiration & throttling & conds & sent & time & l' & Hsp & Hconds & Hdocs & _ & Hcache).
  cbn zeta in Hdocs, Hcache. set (d' := updated_document _ _ _ _ _ _ _ _ _) in Hdocs, Hcache.
  apply updated_conditions_cacheable in Hconds; [|done|done].
  assert (cacheable id (csub_sub d')) as Hc'.
  { split; [done|]. split; [by apply new_entities_cacheable|done]. }
  destruct (sub_from_update _ _ _ _) as [r [cs'|]] eqn:Eu; cbn [snd] in Hcache.
  2: { exfalso. revert Eu. destruct Hc' as (_ & He & Hcv). unfold sub_from_update. cbn [su_subscriptionId su_servicePath].
       cbn [no_tenant]. apply str_eqb_neq in Hne. rewrite Hne, Hpath. rewrite (length_not_nil _ He), (length_not_nil _ Hcv). done. }
  assert ((sub_from_update regcomp (c_str tenant) (csub_sub d') (mkSubUpdate (Some id) (cs_servicePath cs)
    (int32 (if (0 <? length sent)%nat then time else cs_lastNotificationTime cs)) expiration (updated_status req (csub_sub d))
    (xd_q (sr_expression req)) (xd_geometry (sr_expression req)) (xd_coords (sr_expression req)) (xd_georel (sr_expression req))
    (stringFilter_of (sr_scopes req)) (updated_format req (csub_sub d)).2)).2 = Some cs') as Hu by (by rewrite Eu).
  apply sub_from_update_some in Hu as (_ & Uid & Ut & Up & Uinf & Uncv & Uexp & _ & Uattr & _ & Uref).
  destruct Hc' as (Hid' & He & Hcv).
  exists d', sp, l', cs'. unfold sub_from_doc. rewrite Hid', (length_not_nil _ He), (length_not_nil _ Hcv).
  eexists. split_and!; try done. cbn [cs_servicePath]. intros Hsame. split; cbn; try done.
  - by rewrite Ut, c_str_idemp.
  - by rewrite Up.
Qed.

End Updating.

(** ** Witnesses *)

Definition live_id : string := "51c0ac9ed714fb3b37d7d5a8".
Definition other_id : string := "51c0ac9ed714fb3b37d7d5a9".

Definition temp_request : SubscribeRequest :=
  mkSubscribeRequest [the_room] ["temp"] "http://y" "PT1H" [] [mkNotifyCondition ON_CHANGE_CONDITION ["temp"]]
    no_throttling (-1) (mkExprDoc "" "" "" "") false "mine" true "" NGSI_V1_LEGACY.

(** A document with four notifications, and the cache with its subscription. *)
Definition live_doc : CsubDoc :=
  mkCsubDoc (mkSubDoc (Some live_id) (Some "JSON") [mkEntityDoc (Some "Room") (Some "false") None] []
      [mkConditionDoc ON_CHANGE_CONDITION ["temp"]] (Some "/a/b/#") (Some "http://localhost") (Some 5) (Some 2000) (Some 90)
      (Some "active")) None None (Some 4).
Definition live_state : SubState := mkSubState {[ live_id := live_doc ]} live_cache [].

Definition canonical (id : string) : option string := if (String.length id =? 24)%nat then Some id else None.

Abbreviation subscribe_room := (mongoSubscribeContext no_mem S754_nan (fun _ => true) empty_query true one_room
  (fun _ => 1000) None live_state temp_request other_id "" "" ["/a/b/#"] "c").
Abbreviation update_live := (mongoUpdateContextSubscription no_mem S754_nan (fun _ => true) empty_query true one_room
  (fun _ => 1000) canonical None None 2 live_state temp_request live_id "" "" ["/a/b/#"] "c" "v2").

Lemma live_with_ids : with_ids [(1%positive, live_sub)].
Proof. constructor; [by eexists|constructor]. Qed.

Lemma temp_onchange : onchange_only (sr_notifyConditionVector temp_request).
Proof. split; [done|by repeat constructor]. Qed.

Lemma mongoSubscribeContext_refresh_witness : exists resp st' l cs d cs', subscribe_room = Ret (resp, st') /\
  cache_repr (st_cache st') ([(1%positive, live_sub)] ++ [(l, cs)]) /\ st_docs st' !! other_id = Some d /\
  sub_from_doc "" (csub_sub d) = (0, Some cs') /\ same_selection cs cs'.
Proof.
  eexists _, _. assert (subscribe_room = Ret _) as H by (vm_compute; reflexivity).
  destruct (mongoSubscribeContext_refresh no_mem S754_nan (fun _ => true) empty_query true one_room (fun _ => 1000)
    live_state [(1%positive, live_sub)] temp_request other_id "" "" ["/a/b/#"] "c" _ _ live_repr temp_onchange
    ltac:(discriminate) H) as (l & cs & d & cs' & Hd & Hc & Hdoc & Hsel & _).
  exists l, cs, d, cs'. split; [exact H|]. split; [exact Hc|]. split; [exact Hd|]. split; [exact Hdoc|exact Hsel].
Defined.

(** The created subscription reads back as sent twice. *)
Lemma mongoSubscribeContext_get_witness : exists resp st' s, subscribe_room = Ret (resp, st') /\
  mongoGetSubscription (fun _ => 1000) canonical None 2 st' other_id "" = Ret (mkStatusCode SccOk "", Some s) /\
  sub_timesSent s = 2 /\ length (st_sent st') = 1%nat.
Proof.
  eexists _, _. assert (subscribe_room = Ret _) as H by (vm_compute; reflexivity).
  destruct (mongoSubscribeContext_get no_mem S754_nan (fun _ => true) empty_query true one_room (fun _ => 1000) 2
    live_state [(1%positive, live_sub)] temp_request other_id "" "" ["/a/b/#"] "c" _ _ canonical (fun _ => 1000)
    live_repr live_with_ids (le_n 2) ltac:(by repeat constructor) temp_onchange eq_refl eq_refl H)
    as (expiration & throttling & field & sent & lastN & _ & _ & Hs & Hl & Hg).
  eexists. split; [exact H|]. split; [exact Hg|]. destruct sent as [|nt sent]; [discriminate Hs|]. by split.
Defined.

Lemma mongoUnsubscribeContext_removes_witness : exists c,
  mongoUnsubscribeContext canonical None None 1 live_state live_id "" = Ret (mkStatusCode SccOk "", mkSubState ∅ c []) /\
  cache_repr c [].
Proof.
  destruct (mongoUnsubscribeContext_removes canonical None None 1 live_state [(1%positive, live_sub)] live_id "" live_repr
    live_with_ids (le_n 1)) as (c & H & Hr).
  - right. exists [], 1%positive, live_sub, []. split; [done|]. split; [constructor|]. split; [reflexivity|constructor].
  - reflexivity.
  - discriminate.
  - reflexivity.
  - exists c. split; [exact H|exact Hr].
Defined.

Lemma mongoUpdateContextSubscription_times_witness : exists resp st' d' lastN, update_live = Ret (resp, st') /\
  st_docs st' = <[live_id := d']> (st_docs live_state) /\
  notification_counters 2 (st_cache st') "" live_id d' = Ret (lastN, 5) /\ length (st_sent st') = 1%nat.
Proof.
  eexists _, _. assert (update_live = Ret _) as H by (vm_compute; reflexivity).
  destruct (mongoUpdateContextSubscription_times no_mem S754_nan (fun _ => true) empty_query true one_room (fun _ => 1000)
    canonical 2 live_state temp_request live_id "" "" ["/a/b/#"] "c" "v2" live_doc [] 1%positive live_sub [] _ _
    live_repr live_with_ids (le_n 2) ltac:(by constructor) eq_refl ltac:(by constructor) eq_refl eq_refl eq_refl
    ltac:(by vm_compute) ltac:(by vm_compute) ltac:(by vm_compute) H) as (d' & sent & lastN & Hd & Hs & Hn).
  exists d', lastN. split; [exact H|]. split; [exact Hd|]. destruct sent as [|nt sent]; [discriminate Hs|].
  split; [exact Hn|]. by rewrite Hs; injection Hs as _ <-.
Defined.

Lemma mongoUpdateContextSubscription_refresh_witness : exists resp st' d' l cs' cs2, update_live = Ret (resp, st') /\
  st_docs st' = <[live_id := d']> (st_docs live_state) /\ cache_repr (st_cache st') [(l, cs')] /\
  sub_from_doc "" (csub_sub d') = (0, Some cs2) /\ same_selection cs' cs2.
Proof.
  eexists _, _. assert (update_live = Ret _) as H by (vm_compute; reflexivity).
  destruct (mongoUpdateContextSubscription_refresh no_mem S754_nan (fun _ => true) empty_query true one_room (fun _ => 1000)
    canonical 2 live_state temp_request live_id "" "" ["/a/b/#"] "c" "v2" live_doc [] 1%positive live_sub [] _ _
    live_repr live_with_ids (le_n 2) ltac:(by constructor) eq_refl eq_refl eq_refl ltac:(discriminate) eq_refl eq_refl
    ltac:(split; [reflexivity|split; discriminate]) ltac:(by repeat constructor) H)
    as (d' & sp & l & cs' & cs2 & Hd & Hsp & _ & Hc & Hdoc & _ & Hp & Hsel & _).
  exists d', l, cs', cs2. split; [exact H|]. split; [exact Hd|]. split; [exact Hc|]. split; [exact Hdoc|].
  apply Hsel. injection Hsp as <-. by rewrite Hp.
Defined.

(** ** Where the code does something else *)

(** The initial notification of an update that changes the URL goes to the old one. *)
Example updated_url_not_used : exists resp st' nt d', update_live = Ret (resp, st') /\ st_sent st' = [nt] /\
  in_url nt = "http://localhost" /\ st_docs st' !! live_id = Some d' /\ sd_reference (csub_sub d') = Some "http://y".
Proof. do 4 eexists. split; [vm_compute; reflexivity|]. by vm_compute. Qed.

(** An id in capital letters is the same object id, but not the same key of the cache: the
    subscription is removed from the database and goes on being notified. *)
Definition any_case (id : string) : option string := canonical (str_map tolower id).
Example removed_but_cached :
  mongoUnsubscribeContext any_case None None 1 live_state "51C0AC9ED714FB3B37D7D5A8" ""
  = Ret (mkStatusCode SccOk "", mkSubState ∅ live_cache []).
Proof. vm_compute. reflexivity. Qed.

(** A subscription that is not in the cache does not enter it when it is updated: its service
    path is taken from the cache. *)
Definition uncached_state : SubState :=
  mkSubState {[ live_id := live_doc ]} (mkSubCache ∅ None None 0 0 0 0 true false) [].
Example update_does_not_insert : exists resp st',
  mongoUpdateContextSubscription no_mem S754_nan (fun _ => true) empty_query true one_room (fun _ => 1000) canonical None
    None 2 uncached_state temp_request live_id "" "" ["/a/b/#"] "c" "v2" = Ret (resp, st') /\
  rs_error resp = mkStatusCode SccNone "" /\ st_cache st' = st_cache uncached_state.
Proof. do 2 eexists. split; [vm_compute; reflexivity|]. by vm_compute. Qed.

(** An update without an expression leaves the one of the document and removes it from the cache. *)
Definition hot_doc : CsubDoc := mkCsubDoc (csub_sub live_doc) None (Some (mkExprDoc "temp>30" "" "" "")) (Some 4).
Definition rename_request : SubscribeRequest :=
  mkSubscribeRequest [] [] "" "" [] [] no_throttling (-1) (mkExprDoc "" "" "" "") false "hot" true "" NO_FORMAT.
Example expression_lost : exists resp st' d' l,
  mongoUpdateContextSubscription no_mem S754_nan (fun _ => true) empty_query true one_room (fun _ => 1000) canonical None
    None 2 (mkSubState {[ live_id := hot_doc ]} live_cache []) rename_request live_id "" "" ["/a/b/#"] "c" "v2"
    = Ret (resp, st') /\
  st_docs st' !! live_id = Some d' /\ csub_expr d' = Some (mkExprDoc "temp>30" "" "" "") /\
  head (st_cache st') = Some l /\
  (ex_q ∘ cs_expression ∘ node_sub <$> heap (st_cache st') !! l) = Some "".
Proof. do 4 eexists. split; [vm_compute; reflexivity|]. by vm_compute. Qed.

(** Notifications that only the cache has counted are lost by an update that sends none. *)
Definition counted_cache : SubCache :=
  mkSubCache {[ 1%positive := mkNode (with_count 7 90 live_sub) None ]} (Some 1%positive) (Some 1%positive) 0 1 0 0 true false.
Definition uncounted_doc : CsubDoc := mkCsubDoc (csub_sub live_doc) None None None.
Example count_lost : exists resp st' s,
  mongoUpdateContextSubscription no_mem S754_nan (fun _ => true) empty_query true one_room (fun _ => 1000) canonical None
    None 2 (mkSubState {[ live_id := uncounted_doc ]} counted_cache []) rename_request live_id "" "" ["/a/b/#"] "c" "v2"
    = Ret (resp, st') /\
  mongoGetSubscription (fun _ => 1000) canonical None 2 st' live_id "" = Ret (mkStatusCode SccOk "", Some s) /\
  sub_timesSent s = -1.
Proof. do 3 eexists. split; [vm_compute; reflexivity|]. split; [vm_compute; reflexivity|]. done. Qed.
