(* ===== verification/TriggerDb.v ===== *)
(** * Triggering without the cache

    addTriggeredSubscriptions_noCache of mongoBackend/MongoCommonUpdate.cpp, with
    someEmptyCondValue and condValueAttrMatch of mongoBackend/MongoGlobal.cpp: the query for
    subscriptions sent to the database, and what is triggered by its answer.  The database is
    an argument, and answers with the documents that the evaluator of MongoQuery.v selects;
    [db_selects] is shown to be what that query means, where a condition on a field of an
    array is met by any element of it. *)

From S2P Require Import Prelude Strings Double Bson MongoQuery Compound Ngsi FilterParse FilterMatch SubCache SubSync Notify.
From S2P Require Import Geo Queries Duration EntityUpdate UpdateContext QueryContext Subscriptions.

From Stdlib Require Import Btauto.

Open Scope Z_scope.

(** ** Conditions *)

Definition someEmptyCondValue (sub : SubDoc) : bool :=
  existsb (fun c => (length (cd_value c) =? 0)%nat) (sd_conditions sub).

Definition condValueAttrMatch (sub : SubDoc) (modifiedAttrs : list string) : bool :=
  existsb (fun c => existsb (fun v => existsb (fun a => v =s a) modifiedAttrs) (cd_value c)) (sd_conditions sub).

(** ** The query *)

(** The JavaScript function of the query; [q x] is [x] between double quotes. *)
Definition where_function (entityId entityType : string) : string :=
  let q x := str1 "034" +:+ x +:+ str1 "034" in
  concat_str
    ["function(){for (var i=0; i < this.entities.length; i++) {if (this.entities[i].isPattern == "; q "true";
     " && (this.entities[i].type == "; q entityType; " || this.entities[i].type == "; q "";
     " || !("; q "type"; " in this.entities[i])) && "; q entityId;
     ".match(this.entities[i].id)) {return true; }}return false; }"].

(** The query, for the two readings of the clock; the function of $where is given by its text. *)
Definition noCache_query (now now' : Z) (entityId entityType : string) (spBson : doc) : doc :=
  [("$or", BsonArray
     [BsonObj
        [("entities.id", BsonString entityId);
         ("$or", BsonArray [BsonObj [("entities.type", BsonString entityType)];
                            BsonObj [("entities.type", BsonObj [("$exists", BsonBool false)])]]);
         ("entities.isPattern", BsonString "false"); ("conditions.type", BsonString ON_CHANGE_CONDITION);
         ("expiration", BsonObj [("$gt", BsonLong now)]); ("status", BsonObj [("$ne", BsonString STATUS_INACTIVE)]);
         ("servicePath", BsonObj spBson)];
      BsonObj
        [("entities.isPattern", BsonString "true"); ("conditions.type", BsonString ON_CHANGE_CONDITION);
         ("expiration", BsonObj [("$gt", BsonLong now')]); ("status", BsonObj [("$ne", BsonString STATUS_INACTIVE)]);
         ("servicePath", BsonObj spBson); ("$where", BsonString (where_function entityId entityType))]])].

Section NoCache.

Context (regcomp : string -> bool) (strptime_timegm : string -> Z) (mem : ValueOut) (memItem : StringFilterItem).
Context (fromjson : string -> cpp doc) (getCurrentTime : nat -> Z).
(** The documents the cursor yields (None where nextSafe failed); None when the query fails. *)
Context (collectionQuery : doc -> option (list (option CsubDoc))).

(** The subscription of a document, without its filter. *)
Definition triggered_doc (d : CsubDoc) : TriggeredSubscription :=
  let sub := csub_sub d in
  let t := TriggeredSubscription_new (default (-1) (sd_throttling sub)) (default (-1) (sd_lastNotification sub))
             (stringToRenderFormat (default "" (sd_format sub)) false) (default "" (sd_reference sub)) (sd_attrs sub) "" (Some "") in
  match csub_expr d with
  | Some x => fillExpression t (xd_georel x) (xd_geometry x) (xd_coords x)
  | None => t
  end.

(** With its filter: None when the function returns false. *)
Definition filtered_doc (d : CsubDoc) : option TriggeredSubscription :=
  let t := triggered_doc d in
  match csub_expr d with
  | Some x =>
      if xd_q x =s "" then Some t
      else match sf_parse regcomp strptime_timegm mem memItem (c_str (xd_q x)) with
           | inl _ => None
           | inr sf => stringFilterSet regcomp t sf
           end
  | None => Some t
  end.

Fixpoint noCache_loop (cursor : list (option CsubDoc)) (modifiedAttrs : list string) (subs : SubMap) : bool * SubMap :=
  match cursor with
  | [] => (true, subs)
  | None :: cursor' => noCache_loop cursor' modifiedAttrs subs
  | Some d :: cursor' =>
      match sd_id (csub_sub d) with
      | None => noCache_loop cursor' modifiedAttrs subs
      | Some id =>
          if existsb (fun x => x.1 =s id) subs then noCache_loop cursor' modifiedAttrs subs
          else if negb (someEmptyCondValue (csub_sub d)) && negb (condValueAttrMatch (csub_sub d) modifiedAttrs)
          then noCache_loop cursor' modifiedAttrs subs
          else match filtered_doc d with
               | None => (false, subs)
               | Some t => noCache_loop cursor' modifiedAttrs (map_insert id t subs)
               end
      end
  end.

Definition addTriggeredSubscriptions_noCache (entityId entityType : string) (modifiedAttrs : list string) (subs : SubMap)
    (servicePathV : list string) : cpp (bool * SubMap) :=
  let servicePath := match servicePathV with sp :: _ => sp | [] => "" end in
  spBson ← fromjson ("{ $in: [ /" +:+ servicePathSubscriptionRegex servicePath +:+ "/, null ] }");
  match collectionQuery (noCache_query (getCurrentTime 0) (getCurrentTime 1) entityId entityType spBson) with
  | None => Ret (false, subs)
  | Some cursor => Ret (noCache_loop cursor modifiedAttrs subs)
  end.

(** ** What the query means *)

(** The components of a path after its slashes, and a path of components. *)
Definition components (servicePath : string) : list string :=
  if servicePath =s "" then [] else (stringSplit servicePath "/").2.
Definition path_of (l : list string) : string := concat_str ((fun c => "/" +:+ c) <$> l).

(** The alternatives of the regular expression of servicePathSubscriptionRegex. *)
Definition path_alternatives (servicePath : string) : list string :=
  let cs := components servicePath in
  if (length cs =? 0)%nat then [""; "/#"; "/"]
  else "" :: "/#" :: ((fun n => path_of (take (S n) cs) +:+ "/#") <$> seq 0 (length cs)) ++ [path_of cs].

Definition db_path (servicePath : string) (p : option string) : bool :=
  match p with None => true | Some p => existsb (fun a => a =s p) (path_alternatives servicePath) end.

(** [jsmatch r s]: s.match(r) of JavaScript. *)
Context (jsmatch : string -> string -> bool).

Definition any_entity (f : EntityDoc -> bool) (sub : SubDoc) : bool := existsb f (sd_entities sub).
Definition is_field (v : string) (f : option string) : bool := bool_decide (f = Some v).
Definition is_missing (f : option string) : bool := bool_decide (f = None).

Definition db_common (now : Z) (servicePath : string) (sub : SubDoc) : bool :=
  existsb (fun c => cd_type c =s ON_CHANGE_CONDITION) (sd_conditions sub)
  && match sd_expiration sub with Some e => now <? e | None => false end
  && negb (is_field STATUS_INACTIVE (sd_status sub))
  && db_path servicePath (sd_servicePath sub).

Definition db_noPattern (entityId entityType : string) (sub : SubDoc) : bool :=
  any_entity (fun e => is_field entityId (ed_id e)) sub
  && (any_entity (fun e => is_field entityType (ed_type e)) sub || negb (any_entity (fun e => negb (is_missing (ed_type e))) sub))
  && any_entity (fun e => is_field "false" (ed_isPattern e)) sub.

Definition db_pattern (entityId entityType : string) (sub : SubDoc) : bool :=
  any_entity (fun e => is_field "true" (ed_isPattern e)) sub
  && any_entity (fun e => is_field "true" (ed_isPattern e)
       && (is_field entityType (ed_type e) || is_field "" (ed_type e) || is_missing (ed_type e))
       && jsmatch (default "" (ed_id e)) entityId) sub.

(** The documents the query selects, when the clock reads the same twice. *)
Definition db_selects (now : Z) (entityId entityType servicePath : string) (sub : SubDoc) : bool :=
  db_common now servicePath sub && (db_noPattern entityId entityType sub || db_pattern entityId entityType sub).

End NoCache.

(** ** Documents of the database *)

Definition field_opt {A} (k : string) (f : A -> bson) (o : option A) : doc :=
  match o with Some v => [(k, f v)] | None => [] end.

Definition entity_fields (e : EntityDoc) : doc :=
  field_opt "id" BsonString (ed_id e) ++ field_opt "type" BsonString (ed_type e)
  ++ field_opt "isPattern" BsonString (ed_isPattern e).

Definition condition_fields (c : ConditionDoc) : doc :=
  [("type", BsonString (cd_type c)); ("value", BsonArray (BsonString <$> cd_value c))].

(** The document of a subscription, its _id apart. *)
Definition sub_bson (sub : SubDoc) : doc :=
  field_opt "expiration" BsonLong (sd_expiration sub) ++ field_opt "reference" BsonString (sd_reference sub)
  ++ field_opt "throttling" BsonLong (sd_throttling sub) ++ field_opt "servicePath" BsonString (sd_servicePath sub)
  ++ [("entities", BsonArray (BsonObj ∘ entity_fields <$> sd_entities sub)); ("attrs", BsonArray (BsonString <$> sd_attrs sub))]
  ++ field_opt "status" BsonString (sd_status sub)
  ++ [("conditions", BsonArray (BsonObj ∘ condition_fields <$> sd_conditions sub))]
  ++ field_opt "lastNotification" BsonLong (sd_lastNotification sub) ++ field_opt "format" BsonString (sd_format sub).

(** What JavaScript makes of the function of $where, for an id and a type that are written
    as they are between quotes: some entity is a pattern, has the type, the empty one or
    none, and its id, as a regular expression, matches the id that is updated. *)
Definition where_law (jsmatch : string -> string -> bool) (js : string -> doc -> bool) : Prop :=
  forall id type d es, quotable id = true -> quotable type = true ->
    getField d "entities" = Some (BsonArray (BsonObj <$> es)) ->
    Forall (Forall (fun kv => exists s, kv.2 = BsonString s)) es ->
    js (dq "function(){for (var i=0; i < this.entities.length; i++) {if (this.entities[i].isPattern == 'true' && (this.entities[i].type == '"
        +:+ type +:+ dq "' || this.entities[i].type == '' || !('type' in this.entities[i])) && '"
        +:+ id +:+ dq "'.match(this.entities[i].id)) {return true; }}return false; }") d
    = existsb (fun e =>
        is_text "true" (getField e "isPattern")
        && (is_text type (getField e "type") || is_text "" (getField e "type") || negb (hasField e "type"))
        && jsmatch (getStringField e "id") id) es.

(** ** Paths *)

(** A component of a path, and the service paths a subscription may have. *)
Definition component (c : string) : Prop := c <> "" /\ free_of "/" c = true /\ c_str c = c.
Definition exact_path (p : string) : Prop :=
  p = "/" \/ exists bs, bs <> [] /\ p = path_of bs /\ Forall component bs /\ last_char p <> Some "#"%char.
Definition below_path (p : string) : Prop := exists bs, Forall component bs /\ p = path_of bs +:+ "/#".
Definition doc_path (p : string) : Prop := exact_path p \/ below_path p.

(** The service path of an update. *)
Definition update_path (sp : string) : Prop :=
  sp = "" \/ sp = "/" \/ exists cs, cs <> [] /\ cs <> ["#"] /\ sp = path_of cs /\ Forall component cs.

Lemma prefix_components b c x y : free_of "/" b = true -> free_of "/" c = true ->
  String.prefix (b +:+ String "/" x) (c +:+ String "/" y) = (b =s c) && String.prefix x y.
Proof.
  revert c. induction b as [|d b IH]; intros [|e c]; rewrite ?free_of_cons, ?app_nil_l_str, ?app_cons_str, ?prefix_cons.
  - intros _ _. by rewrite char_eqb_refl.
  - intros _ [He _]%andb_true_iff. apply negb_true_iff in He. by rewrite He.
  - intros [Hd _]%andb_true_iff _. apply negb_true_iff in Hd.
    assert (("/"%char =c d) = false) as ->; [|done]. apply char_eqb_neq in Hd. apply char_eqb_neq. congruence.
  - intros [_ Hb]%andb_true_iff [_ Hc]%andb_true_iff. rewrite IH by done.
    cbn [String.eqb]. rewrite andb_assoc. f_equal.
    destruct (e =c d) eqn:E.
    + apply char_eqb_eq in E as ->. cbn. by rewrite Ascii.eqb_refl.
    + cbn. apply char_eqb_neq in E. destruct (Ascii.eqb_spec d e); [congruence|done].
Qed.

Lemma path_of_cons b bs x : path_of (b :: bs) +:+ x = String "/" (b +:+ (path_of bs +:+ x)).
Proof. unfold path_of. cbn. by rewrite ?app_cons_str, ?app_nil_l_str, ?app_assoc_str. Qed.

Lemma path_of_slash bs : exists r, path_of bs +:+ "/" = String "/" r.
Proof. destruct bs as [|b bs]; [by exists ""|]. rewrite path_of_cons. by eexists. Qed.

Lemma prefix_paths bs cs : Forall component bs -> Forall component cs ->
  String.prefix (path_of bs +:+ "/") (path_of cs +:+ "/") = true <-> bs `prefix_of` cs.
Proof.
  revert cs. induction bs as [|b bs IH]; intros cs Hb Hc.
  - destruct (path_of_slash cs) as [r ->]. split; [intros _; apply prefix_nil|intros _].
    change (path_of [] +:+ "/") with (String "/" ""). rewrite prefix_cons, char_eqb_refl. by destruct r.
  - apply Forall_cons in Hb as [(_ & Hfb & _) Hb]. destruct cs as [|c cs].
    + rewrite path_of_cons. change (path_of [] +:+ "/") with (String "/" ""). rewrite prefix_cons, char_eqb_refl.
      destruct (path_of_slash bs) as [r ->]. split; [by destruct b|]. intros [k [=]].
    + apply Forall_cons in Hc as [(_ & Hfc & _) Hc]. rewrite !path_of_cons, prefix_cons, char_eqb_refl. cbn [andb].
      destruct (path_of_slash bs) as [x Hx], (path_of_slash cs) as [y Hy]. specialize (IH cs Hb Hc).
      rewrite Hx, Hy, prefix_cons, char_eqb_refl in IH. cbn [andb] in IH.
      rewrite Hx, Hy, prefix_components, andb_true_iff, str_eqb_eq, IH by done.
      split; [intros [-> H]; by apply list.prefix_cons|]. intros H.
      split; [by eapply prefix_cons_inv_1|by eapply prefix_cons_inv_2].
Qed.

Lemma path_of_inj bs cs : Forall component bs -> Forall component cs -> path_of bs = path_of cs -> bs = cs.
Proof.
  intros Hb Hc E. assert (forall s, String.prefix s s = true) as Hr.
  { intros s. rewrite <- (app_nil_r_str s) at 2. apply prefix_app. }
  apply (anti_symm prefix); apply prefix_paths; rewrite ?E; auto. 
Qed.

Lemma path_of_join c cs : path_of (c :: cs) = "/" +:+ join "/" (c :: cs).
Proof.
  revert c. induction cs as [|d cs IH]; intros c.
  - rewrite <- (app_nil_r_str (path_of [c])), path_of_cons. cbn. by rewrite !app_nil_r_str.
  - rewrite <- (app_nil_r_str (path_of _)), path_of_cons, app_nil_r_str, IH. done.
Qed.

Lemma components_path cs : Forall component cs -> components (path_of cs) = cs.
Proof.
  destruct cs as [|c cs]; [done|]. intros H. unfold components.
  assert ((path_of (c :: cs) =s "") = false) as ->.
  { apply str_eqb_neq. rewrite <- (app_nil_r_str (path_of _)), path_of_cons. done. }
  assert (Forall (fun t => free_of "/" t = true) (c :: cs)) as Hf.
  { eapply Forall_impl; [exact H|]. by intros x (_ & ? & _). }
  assert (str_all (fun d => negb (d =c NUL)) (join "/" (c :: cs)) = true) as Hn.
  { apply str_all_join; [done|]. eapply Forall_impl; [exact H|]. intros x (_ & _ & <-). apply c_str_no_nul. }
  rewrite stringSplit_eq, path_of_join. rewrite (c_str_id ("/" +:+ _)) by (by rewrite str_all_app, Hn).
  assert (str_drop_while (fun d => d =c "/"%char) ("/" +:+ join "/" (c :: cs)) = join "/" (c :: cs)) as ->.
  { change "/"%string with (String "/" "") at 1. rewrite app_cons_str, app_nil_l_str.
    apply Forall_inv in H as (Hc & Hs & _). destruct c as [|a c]; [done|].
    rewrite free_of_cons, andb_true_iff, negb_true_iff in Hs. destruct Hs as [Ha _].
    assert (exists r, join "/" (String a c :: cs) = String a r) as [r ->] by (destruct cs; by eexists).
    rewrite !str_drop_while_cons, Ha. done. }
  assert ((join "/" (c :: cs) =s "") = false) as ->.
  { apply str_eqb_neq. apply Forall_inv in H as (Hc & _). destruct c as [|a c]; [done|]. by destruct cs. }
  change "/"%string with (str1 "/"). by rewrite split_on_join_free.
Qed.

Lemma path_of_nonempty c cs : path_of (c :: cs) <> "".
Proof. rewrite <- (app_nil_r_str (path_of _)), path_of_cons. done. Qed.

(** The three kinds of alternatives: no path, a wildcard above the path, the path. *)
Lemma alternatives_spec sp p : update_path sp ->
  existsb (fun a => a =s p) (path_alternatives sp) = true <->
  p = "" \/ (exists bs, bs `prefix_of` components sp /\ p = path_of bs +:+ "/#")
  \/ p = (if sp =s "" then "/" else sp).
Proof.
  intros Hsp. assert (sp = "" \/ sp = "/" -> existsb (fun a => a =s p) (path_alternatives sp) = true <->
    p = "" \/ (exists bs, bs `prefix_of` [] /\ p = path_of bs +:+ "/#") \/ p = "/") as H0.
  { intros Hs. assert (path_alternatives sp = [""; "/#"; "/"]) as -> by (by destruct Hs as [-> | ->]).
    cbn [existsb]. rewrite !orb_true_iff, !str_eqb_eq. split.
    - intros [<- | [<- | [<- | [=]]]]; [by left| |by right; right]. right; left. by exists [].
    - intros [->|[(bs & Hb & ->) | -> ]]; auto. apply prefix_nil_inv in Hb as ->. auto. }
  destruct Hsp as [->|[->|(cs & Hne & _ & -> & Hc)]]; [apply H0; auto|apply H0; auto|clear H0].
  unfold path_alternatives. rewrite components_path by done.
  destruct cs as [|c cs]; [done|]. set (l := c :: cs) in *.
  assert ((path_of l =s "") = false) as -> by (apply str_eqb_neq, path_of_nonempty).
  change (length l =? 0)%nat with false. cbn [existsb]. rewrite existsb_app. cbn [existsb].
  rewrite !orb_true_iff, existsb_exists, !str_eqb_eq. split.
  - intros [<- | [<- | [(x & Hx & <-%str_eqb_eq) | [<- | [=]]]]]; auto.
    + right; left. exists []. split; [apply prefix_nil|done].
    + right; left. apply list_elem_of_In, list_elem_of_fmap in Hx as (n & -> & _).
      eexists; split; [|done]. exists (drop (S n) l). by rewrite take_drop.
  - intros [->|[([|b bs] & [k Hk] & ->) | -> ]]; auto. right; right; left. exists (path_of (b :: bs) +:+ "/#").
    rewrite str_eqb_eq. split; [|done]. apply list_elem_of_In, list_elem_of_fmap. exists (length bs). rewrite Hk.
    split; [change (S (length bs)) with (length (b :: bs)); by rewrite take_app_length|]. apply elem_of_seq. rewrite length_app. cbn. lia.
Qed.

Lemma prefix_snoc p s c : String.prefix p (s +:+ str1 c) = String.prefix p s || (p =s s +:+ str1 c).
Proof.
  revert p. induction s as [|d s IH]; intros [|e p].
  - done.
  - rewrite app_nil_l_str. unfold str1. rewrite prefix_cons, Ascii.eqb_sym. cbn. by destruct p, (Ascii.eqb e c).
  - done.
  - rewrite app_cons_str, !prefix_cons, IH. cbn. rewrite (Ascii.eqb_sym e d).
    by destruct (Ascii.eqb d e).
Qed.

Lemma component_hash : component "#".
Proof. done. Qed.

Lemma path_of_snoc bs c : path_of (bs ++ [c]) = path_of bs +:+ "/" +:+ c.
Proof.
  induction bs as [|b bs IH]; [cbn; by rewrite app_nil_r_str|].
  rewrite <- (app_nil_r_str (path_of ((b :: bs) ++ [c]))). cbn [app].
  rewrite !path_of_cons, app_nil_r_str, IH. done.
Qed.

Lemma below_inj bs cs : Forall component bs -> Forall component cs ->
  path_of bs +:+ "/#" = path_of cs +:+ "/#" -> bs = cs.
Proof.
  intros Hb Hc E. change "/#"%string with ("/" +:+ "#") in E. rewrite <- !path_of_snoc in E.
  apply path_of_inj in E; [by apply app_inj_tail in E as [-> _]|..]; apply Forall_app; auto using component_hash.
Qed.

Lemma last_below bs : last_char (path_of bs +:+ "/#") = Some "#"%char.
Proof.
  change "/#"%string with (str1 "/" +:+ str1 "#"). rewrite <- app_assoc_str. apply last_char_app.
Qed.

(** What the path of an update is compared to. *)
Definition update_components (sp : string) (cs : list string) : Prop :=
  (sp =s "/#") = false /\ Forall component cs /\ components sp = cs /\
  (if sp =s "" then "/" else sp) = (if bool_decide (cs = []) then "/" else path_of cs).

Lemma update_path_components sp : update_path sp -> update_components sp (components sp).
Proof.
  intros [->|[->|(cs & Hne & Hh & -> & Hc)]]; [by repeat split|by repeat split|].
  unfold update_components. rewrite components_path by done. split_and!; [|done..|].
  - apply str_eqb_neq. intros E. change "/#"%string with (path_of ["#"]) in E.
    apply path_of_inj in E; [done|done|]. by repeat constructor.
  - destruct cs as [|c cs]; [done|]. assert ((path_of (c :: cs) =s "") = false) as ->; [|done].
    apply str_eqb_neq, path_of_nonempty.
Qed.

(** A wildcard path is selected by the paths whose components extend its own. *)
Lemma below_selects bs sp : Forall component bs -> update_path sp ->
  path_selects (path_of bs +:+ "/#") sp = true <-> bs `prefix_of` components sp.
Proof.
  intros Hb Hsp. apply update_path_components in Hsp as (Hh & Hc & _ & Hn).
  unfold path_selects. rewrite last_below, Hh, Hn. cbn zeta. rewrite char_eqb_refl. cbn [orb].
  change "/#"%string with (str1 "/" +:+ str1 "#"). rewrite <- app_assoc_str, but_last_app. change (str1 "/") with "/".
  destruct (components sp) as [|c cs] eqn:E; cbn [bool_decide].
  - rewrite <- (prefix_paths bs []) by done. change (path_of [] +:+ "/") with "/".
    rewrite orb_true_iff, str_eqb_eq. split; [|auto]. intros [H|H]; [|done].
    destruct bs as [|b bs]; [done|]. exfalso. apply Forall_inv in Hb as (Hb & Hf & _).
    rewrite path_of_cons in H. injection H as H. destruct b as [|x b]; [done|].
    rewrite app_cons_str in H. injection H as <- H. done.
  - rewrite <- prefix_paths by done. change "/" with (str1 "/"). rewrite prefix_snoc, str_eqb_sym. 
    rewrite orb_comm. done.
Qed.

Lemma exact_not_below p bs : exact_path p -> p <> path_of bs +:+ "/#".
Proof.
  intros [->|(cs & _ & -> & _ & Hl)] E.
  - by apply (f_equal last_char) in E; rewrite last_below in E.
  - by rewrite E, last_below in Hl.
Qed.

Lemma exact_selects p sp : exact_path p -> update_path sp ->
  path_selects p sp = ((if sp =s "" then "/" else sp) =s p).
Proof.
  intros Hp Hsp. apply update_path_components in Hsp as (Hh & _). unfold path_selects. rewrite Hh. cbn zeta.
  destruct Hp as [->|(bs & Hne & -> & _ & Hl)]; [done|].
  destruct (last_char _) as [c|] eqn:E.
  - destruct (c =c "#"%char) eqn:Ec; [apply char_eqb_eq in Ec; congruence|done].
  - apply last_char_None in E. destruct bs as [|b bs]; [done|]. by apply path_of_nonempty in E.
Qed.

Lemma db_path_selects sp p : update_path sp -> doc_path p ->
  db_path sp (Some p) = path_selects p sp.
Proof.
  intros Hsp Hp. apply eq_true_iff_eq. cbn [db_path]. rewrite alternatives_spec by done. destruct Hp as [Hp|(bs & Hb & ->)].
  - rewrite exact_selects, str_eqb_eq by done. split; [|auto]. intros [->|[(bs & _ & E)|E]]; [|by apply exact_not_below in E|done].
    destruct Hp as [E|(bs & Hne & E & _)]; [done|]. destruct bs; [done|]. by symmetry in E; apply path_of_nonempty in E.
  - rewrite below_selects by done. pose proof (update_path_components _ Hsp) as (_ & Hc & _ & Hn). split.
    + intros [E|[(cs & Hpre & E)|E]].
      * by apply (f_equal last_char) in E; rewrite last_below in E.
      * apply below_inj in E as ->; [done|done|]. destruct Hpre as [k Hk]. rewrite Hk in Hc. by apply Forall_app in Hc as [? _].
      * rewrite Hn in E. change "/#"%string with ("/" +:+ "#") in E. rewrite <- path_of_snoc in E.
        case_bool_decide; [by apply (f_equal last_char) in E; rewrite path_of_snoc in E; change ("/" +:+ "#") with "/#" in E; rewrite last_below in E|].
        apply path_of_inj in E; [rewrite <- E; by eexists|apply Forall_app; auto using component_hash|done].
    + intros H. right; left. eauto.
Qed.

(** ** The database selects what the cache would *)

Section Selects.

Context (regexec jsmatch : string -> string -> bool).

(** A document the broker writes: one entity, ONCHANGE conditions, a service path. *)
Record written_doc (sub : SubDoc) (id : string) (ty : option string) (pat p : string) : Prop := mkWritten {
  wd_id : is_Some (sd_id sub);
  wd_entities : sd_entities sub = [mkEntityDoc (Some id) (Some pat) ty];
  wd_type : ty <> Some "";
  wd_pattern : pat = "true" \/ pat = "false";
  wd_conditions : sd_conditions sub <> [];
  wd_onchange : Forall (fun c => cd_type c = ON_CHANGE_CONDITION) (sd_conditions sub);
  wd_servicePath : sd_servicePath sub = Some p;
  wd_path : doc_path p;
  wd_path_text : c_str p = p;
  wd_status_text : c_str (default "active" (sd_status sub)) = default "active" (sd_status sub)
}.

Lemma conditions_of_onchange l : Forall (fun c => cd_type c = ON_CHANGE_CONDITION) l ->
  conditions_of l = (fun c => mkNotifyCondition (cd_type c) (cd_value c)) <$> l.
Proof. induction 1 as [|c l Hc _ IH]; [done|]. cbn [conditions_of fmap list_fmap]. by rewrite Hc, IH, str_eqb_refl. Qed.

Lemma existsb_onchange l : l <> [] -> Forall (fun c => cd_type c = ON_CHANGE_CONDITION) l ->
  existsb (fun c => cd_type c =s ON_CHANGE_CONDITION) l = true.
Proof. intros Hl H. destruct H as [|c l' Hc _]; [done|]. cbn [existsb]. by rewrite Hc, str_eqb_refl. Qed.

(** The test on the conditions, split by the code in two functions. *)
Lemma conditions_selects attrs l :
  existsb (fun c => (length (cd_value c) =? 0)%nat) l
  || existsb (fun c => existsb (fun v => existsb (fun a => v =s a) attrs) (cd_value c)) l
  = existsb (nc_selects attrs) ((fun c => mkNotifyCondition (cd_type c) (cd_value c)) <$> l).
Proof.
  induction l as [|c l IH]; [done|]. cbn [existsb fmap list_fmap]. rewrite <- IH. unfold nc_selects at 1. cbn [nc_condValueList].
  destruct (cd_value c); [done|]. cbn.
  by repeat (destruct (existsb _ _); cbn; rewrite ?orb_true_r).
Qed.

(** One entity. *)
Lemma entity_selects_db sub id ty pat uid utype : sd_entities sub = [mkEntityDoc (Some id) (Some pat) ty] ->
  ty <> Some "" -> pat = "true" \/ pat = "false" -> utype <> "" ->
  jsmatch id uid = regexec (c_str id) (c_str uid) ->
  db_noPattern uid utype sub || db_pattern jsmatch uid utype sub
  = entity_selects regexec uid utype (EntityInfo_new id (default "" ty) pat).
Proof.
  intros He Hty Hpat Hu Hjs. unfold db_noPattern, db_pattern, any_entity, is_field, is_missing, entity_selects.
  rewrite He. cbn [existsb ed_id ed_type ed_isPattern EntityInfo_new ei_entityType ei_isPattern ei_entityIdPattern ei_entityId].
  rewrite !orb_false_r. assert ((utype =s "") = false) as -> by (by apply str_eqb_neq). cbn [orb].
  assert (bool_decide (Some id = Some uid) = (uid =s id)) as ->.
  { rewrite (bool_decide_ext _ (uid = id)) by naive_solver. case_bool_decide as E; symmetry; [by apply str_eqb_eq|by apply str_eqb_neq]. }
  assert (bool_decide (ty = Some utype) || bool_decide (ty = None) = (default "" ty =s utype) || (default "" ty =s "")) as Ht.
  { destruct ty as [ty|]; cbn [default].
    - rewrite (bool_decide_ext (Some ty = Some utype) (ty = utype)) by naive_solver. cbn. rewrite orb_false_r.
      assert ((ty =s "") = false) as -> by (apply str_eqb_neq; congruence). rewrite orb_false_r.
      case_bool_decide as E; symmetry; [by apply str_eqb_eq|by apply str_eqb_neq].
    - rewrite orb_true_r. by destruct ("" =s utype). }
  assert (bool_decide (ty = Some "") = false) as -> by (by apply bool_decide_eq_false).
  rewrite negb_involutive, orb_false_r, Ht. cbn [default].
  destruct Hpat as [-> | ->]; cbn -[orb andb]; rewrite ?Hjs, ?andb_true_r, ?andb_false_r, ?orb_false_r; cbn.
  - done.
  - by rewrite andb_comm.
Qed.

Lemma selects_cached now tenant mt sub pid ty pat p cs uid utype sp attrs :
  written_doc sub pid ty pat p -> sub_from_doc tenant sub = (0, Some cs) -> 0 <= now ->
  utype <> "" -> update_path sp -> jsmatch pid uid = regexec (c_str pid) (c_str uid) ->
  db_selects jsmatch now uid utype sp sub && (someEmptyCondValue sub || condValueAttrMatch sub attrs)
  = sub_selects regexec mt (Some (c_str tenant)) sp uid utype attrs cs
    && (now <? cs_expirationTime cs) && negb (cs_status cs =s STATUS_INACTIVE).
Proof.
  intros [[sid Hid] He Hty Hpat Hc Ho Hp Hdp Hpt Hst] Hcs Hnow Hu Hsp Hjs.
  unfold sub_from_doc in Hcs. rewrite Hid, He, (conditions_of_onchange _ Ho) in Hcs. cbn [entityInfos_of ed_id length Nat.eqb] in Hcs.
  rewrite length_fmap in Hcs. destruct (length (sd_conditions sub) =? 0)%nat eqn:El; [done|].
  injection Hcs as <-. unfold sub_selects, tenant_filter.
  cbn [cs_tenant cs_servicePath cs_notifyConditionVector cs_entityIdInfos cs_expirationTime cs_status ed_type ed_isPattern default].
  rewrite Hp, Hst. cbn [from_option]. change (id p) with p. rewrite Hpt.
  assert ((if mt then if no_tenant (Some (c_str tenant)) || no_tenant (Some (c_str tenant))
      then no_tenant (Some (c_str tenant)) && no_tenant (Some (c_str tenant))
      else bool_decide (Some (c_str tenant) = Some (c_str tenant)) else true) = true) as ->.
  { destruct mt; [|done]. destruct (no_tenant _); [done|]. cbn. by apply bool_decide_eq_true. }
  unfold db_selects, db_common. rewrite existsb_onchange by done. rewrite Hp, (db_path_selects _ _ Hsp Hdp).
  rewrite (entity_selects_db sub pid ty pat) by done. unfold someEmptyCondValue, condValueAttrMatch.
  rewrite conditions_selects. cbn [existsb]. rewrite orb_false_r.
  assert ((match sd_expiration sub with Some e => now <? e | None => false end)
    = (now <? from_option id 0 (sd_expiration sub))) as ->.
  { destruct (sd_expiration sub); [done|]. symmetry. apply Z.ltb_ge. done. }
  assert (is_field STATUS_INACTIVE (sd_status sub) = (from_option id "active" (sd_status sub) =s STATUS_INACTIVE)) as ->.
  { unfold is_field. destruct (sd_status sub) as [s|]; [|done]. cbn.
    case_bool_decide as E; symmetry; [apply str_eqb_eq|apply str_eqb_neq]; congruence. }
  cbn [andb]. rewrite <- !andb_assoc.
  by destruct (now <? _), (negb _), (path_selects _ _), (entity_selects _ _ _ _), (existsb _ _).
Qed.

Lemma written_cached tenant sub pid ty pat p : written_doc sub pid ty pat p ->
  exists cs, sub_from_doc tenant sub = (0, Some cs).
Proof.
  intros [[sid Hid] He _ _ Hc Ho _ _ _ _]. unfold sub_from_doc.
  rewrite Hid, He, (conditions_of_onchange _ Ho), length_fmap. destruct (sd_conditions sub); [done|]. by eexists.
Qed.

End Selects.

(** ** What the query selects *)

(** A character of a service path that the broker accepts, and some more. *)
Definition path_char (c : ascii) : bool := regex_plain c || (c =c "/"%char).

(** A piece of a pattern that stands for a text. *)
Definition spells (t a : string) : Prop := forall r l ls, regex_of r = Some (l :: ls) ->
  regex_of (t +:+ r) = Some (((Lit <$> String.list_ascii_of_string a) ++ l) :: ls).

Lemma list_ascii_app s t :
  String.list_ascii_of_string (s +:+ t) = String.list_ascii_of_string s ++ String.list_ascii_of_string t.
Proof. induction s as [|c s IH]; [done|]. rewrite app_cons_str. cbn. by rewrite IH. Qed.

Lemma spells_app t a t' a' : spells t a -> spells t' a' -> spells (t +:+ t') (a +:+ a').
Proof.
  intros H H' r l ls Hr. rewrite app_assoc_str, list_ascii_app, fmap_app, <- app_assoc. by apply H, H'.
Qed.

Lemma spells_nil : spells "" "".
Proof. intros r l ls H. by rewrite app_nil_l_str. Qed.

Lemma spells_plain s : str_all regex_plain s = true -> spells s s.
Proof. intros Hs r l ls. by apply regex_of_plain. Qed.

Lemma spells_slash : spells (backslash +:+ "/") "/".
Proof. intros r l ls H. rewrite app_assoc_str. by apply regex_of_slash. Qed.

Lemma spells_path cs : Forall (fun c => str_all regex_plain c = true) cs ->
  spells (concat_str ((fun s => backslash +:+ "/" +:+ s) <$> cs)) (path_of cs).
Proof.
  induction 1 as [|c cs Hc _ IH]; [apply spells_nil|]. unfold path_of. cbn [fmap list_fmap concat_str].
  rewrite <- (app_assoc_str backslash). apply spells_app; [|done].
  apply spells_app; [apply spells_slash|by apply spells_plain].
Qed.

(** What follows an alternative. *)
Lemma regex_rest t a r p : spells t a -> regex_of r = Some ([] :: p) ->
  regex_of ("|^" +:+ t +:+ "$" +:+ r) = Some ([] :: exactly a :: p).
Proof.
  intros Ht Hr. assert (regex_of ("$" +:+ r) = Some ([Eol] :: p)) as He.
  { change ("$" +:+ r) with (String "$" r). cbn. by rewrite Hr. }
  apply Ht in He. change ("|^" +:+ t +:+ "$" +:+ r) with (String "|" (String "^" (t +:+ "$" +:+ r))).
  cbn -[String.app]. by rewrite He.
Qed.

Lemma regex_alternatives {A} (f g : A -> string) l r p : Forall (fun i => spells (f i) (g i)) l ->
  regex_of r = Some ([] :: p) ->
  regex_of (concat_str ((fun i => "|^" +:+ f i +:+ "$") <$> l) +:+ r) = Some ([] :: (exactly ∘ g <$> l) ++ p).
Proof.
  intros Hl Hr. induction Hl as [|i l Hi _ IH]; [done|]. cbn [fmap list_fmap concat_str].
  rewrite !app_assoc_str. by apply regex_rest.
Qed.

Lemma components_plain sp : update_path sp -> str_all path_char sp = true ->
  Forall (fun c => str_all regex_plain c = true) (components sp).
Proof.
  intros [->|[->|(cs & _ & _ & -> & Hc)]] Hp; [constructor..|]. rewrite components_path by done.
  induction Hc as [|c cs (_ & Hf & _) Hc IH]; [constructor|].
  rewrite <- (app_nil_r_str (path_of _)), path_of_cons, app_nil_r_str, str_all_cons, str_all_app, !andb_true_iff in Hp.
  destruct Hp as (_ & Hp & Hps). constructor; [|by apply IH].
  unfold free_of in Hf. clear -Hp Hf. induction c as [|d c IH]; [done|]. rewrite !str_all_cons, !andb_true_iff in *.
  destruct Hp as [Hd Hp], Hf as [Hn Hf]. split; [|by apply IH]. unfold path_char in Hd.
  by destruct (d =c "/"%char); [|rewrite orb_false_r in Hd].
Qed.

Lemma components_split sp : update_path sp ->
  (if sp =s "" then (0, []) else stringSplit sp "/") = (Z.of_nat (length (components sp)), components sp).
Proof.
  intros _. unfold components. destruct (sp =s ""); [done|]. rewrite stringSplit_eq. by destruct (_ =s "").
Qed.

Lemma spells_hash : spells (backslash +:+ "/#") "/#".
Proof.
  change (backslash +:+ "/#") with ((backslash +:+ "/") +:+ "#"). change "/#" with ("/" +:+ "#").
  apply spells_app; [apply spells_slash|by apply spells_plain].
Qed.

(** The pattern of the query, and the alternatives it has. *)
Lemma subscription_regex sp : update_path sp -> str_all path_char sp = true ->
  regex_of (servicePathSubscriptionRegex sp) = Some (exactly <$> path_alternatives sp).
Proof.
  intros Hsp Hp. pose proof (components_plain sp Hsp Hp) as Hc. unfold servicePathSubscriptionRegex, path_alternatives.
  rewrite (components_split sp Hsp). destruct (components sp) as [|c cs']; [done|]. set (cs := c :: cs') in *.
  assert ((Z.of_nat (length cs) =? 0) = false) as -> by done. change (length cs =? 0)%nat with false. cbv iota zeta.
  rewrite Nat2Z.id.
  assert (regex_of ("|^" +:+ spath_prefix cs (length cs) +:+ "$") = Some [[]; exactly (path_of cs)]) as Hlast.
  { apply (regex_rest _ _ "" []); [|done]. unfold spath_prefix. rewrite firstn_all. by apply spells_path. }
  assert (Forall (fun n => spells (spath_prefix cs (S n) +:+ backslash +:+ "/#") (path_of (take (S n) cs) +:+ "/#")) (seq 0 (length cs))) as Hall.
  { apply Forall_forall. intros n _. apply spells_app; [|apply spells_hash]. apply spells_path. by apply Forall_take. }
  pose proof (regex_alternatives _ _ _ _ _ Hall Hlast) as Hr. clear Hall Hlast.
  rewrite (list_fmap_ext _ (fun ix => "|^" +:+ (spath_prefix cs (S ix) +:+ backslash +:+ "/#") +:+ "$"))
    by (intros; rewrite !app_assoc_str; done).
  set (rest := concat_str _ +:+ _) in Hr |- *.
  pose proof (regex_rest _ _ _ _ spells_hash Hr) as H.
  change ("^$|^" +:+ backslash +:+ "/#$" +:+ rest) with (String "^" (String "$" ("|^" +:+ (backslash +:+ "/#") +:+ "$" +:+ rest))).
  set (t := "|^" +:+ _) in H |- *. clearbody t. cbn [regex_of]. rewrite H. cbn. rewrite fmap_app, list_fmap_compose. done.
Qed.

Section Selected.

Context (regex : string -> string -> bool) (js : string -> doc -> bool) (jsmatch : string -> string -> bool).

Lemma sub_entities sub : getField (sub_bson sub) "entities" = Some (BsonArray (BsonObj ∘ entity_fields <$> sd_entities sub)).
Proof. unfold sub_bson. by destruct (sd_expiration sub), (sd_reference sub), (sd_throttling sub), (sd_servicePath sub). Qed.

Lemma sub_conditions sub :
  getField (sub_bson sub) "conditions" = Some (BsonArray (BsonObj ∘ condition_fields <$> sd_conditions sub)).
Proof.
  unfold sub_bson. by destruct (sd_expiration sub), (sd_reference sub), (sd_throttling sub), (sd_servicePath sub), (sd_status sub).
Qed.

(** The texts of a field of the elements of an array. *)
Lemma array_texts {A} (enc : A -> doc) (g : A -> option string) f l :
  (forall x, getField (enc x) f = BsonString <$> g x) ->
  path_values [f] (BsonArray (BsonObj ∘ enc <$> l)) = (fun x => BsonString <$> g x) <$> l.
Proof.
  intros H. induction l as [|x l IH]; [done|]. cbn [path_values fmap list_fmap flat_map] in *.
  unfold compose at 1. rewrite H. cbn in IH |- *. rewrite IH. by destruct (g x).
Qed.

Lemma texts_meet {A} (g : A -> option string) x l :
  existsb (meets regex (BsonString x)) ((fun e => BsonString <$> g e) <$> l) = existsb (fun e => is_field x (g e)) l.
Proof.
  induction l as [|e l IH]; [done|]. cbn [fmap list_fmap existsb]. rewrite IH. f_equal. unfold is_field.
  destruct (g e) as [y|]; cbn; [|done]. symmetry. case_bool_decide as E; symmetry; [apply str_eqb_eq|apply str_eqb_neq]; congruence.
Qed.

Lemma entity_texts sub f g : (forall e, getField (entity_fields e) f = BsonString <$> g e) ->
  path_values ["entities"; f] (BsonObj (sub_bson sub)) = (fun e => BsonString <$> g e) <$> sd_entities sub.
Proof. intros H. cbn [path_values]. rewrite sub_entities. by apply (array_texts entity_fields). Qed.

Lemma condition_texts sub :
  path_values ["conditions"; "type"] (BsonObj (sub_bson sub)) = (fun c => BsonString <$> Some (cd_type c)) <$> sd_conditions sub.
Proof. cbn [path_values]. rewrite sub_conditions. by apply (array_texts condition_fields (fun c => Some (cd_type c))). Qed.

Lemma field_values sub :
  path_values ["expiration"] (BsonObj (sub_bson sub)) = [BsonLong <$> sd_expiration sub] /\
  path_values ["servicePath"] (BsonObj (sub_bson sub)) = [BsonString <$> sd_servicePath sub] /\
  path_values ["status"] (BsonObj (sub_bson sub)) = [BsonString <$> sd_status sub].
Proof.
  unfold sub_bson. cbn [path_values]. rewrite !getField_app.
  by destruct (sd_expiration sub), (sd_reference sub), (sd_throttling sub), (sd_servicePath sub), (sd_status sub),
    (sd_lastNotification sub), (sd_format sub).
Qed.

Lemma entity_field_texts e : getField (entity_fields e) "id" = BsonString <$> ed_id e /\
  getField (entity_fields e) "type" = BsonString <$> ed_type e /\
  getField (entity_fields e) "isPattern" = BsonString <$> ed_isPattern e.
Proof. unfold entity_fields. by destruct (ed_id e), (ed_type e), (ed_isPattern e). Qed.

Lemma is_text_field x o : is_text x (BsonString <$> o) = is_field x o.
Proof.
  unfold is_field. destruct o as [y|]; [|done]. cbn. symmetry.
  case_bool_decide as E; symmetry; [apply str_eqb_eq|apply str_eqb_neq]; congruence.
Qed.

Lemma existsb_fmap {A B} (f : B -> bool) (g : A -> B) (h : A -> bool) l :
  (forall x, f (g x) = h x) -> existsb f (g <$> l) = existsb h l.
Proof. intros H. induction l as [|x l IH]; [done|]. cbn [fmap list_fmap existsb]. by rewrite H, <- IH. Qed.

(** The function of $where on the document of a subscription. *)
Lemma where_selects sub id ty : where_law jsmatch js -> quotable id = true -> quotable ty = true ->
  js (where_function id ty) (sub_bson sub)
  = any_entity (fun e => is_field "true" (ed_isPattern e)
       && (is_field ty (ed_type e) || is_field "" (ed_type e) || is_missing (ed_type e))
       && jsmatch (default "" (ed_id e)) id) sub.
Proof.
  intros Hjs Hi Ht. pose proof (Hjs id ty (sub_bson sub) (entity_fields <$> sd_entities sub) Hi Ht) as H.
  rewrite sub_entities, list_fmap_compose in H. specialize (H eq_refl).
  match type of H with _ -> js ?t _ = _ => assert (where_function id ty = t) as -> end.
  { unfold where_function. cbn. unfold str1. 
    by rewrite ?app_assoc_str, ?app_cons_str, ?app_nil_l_str, ?app_assoc_str, ?app_cons_str, ?app_nil_l_str, ?app_nil_r_str. }
  rewrite H.
  - apply existsb_fmap. intros e. destruct (entity_field_texts e) as (E1 & E2 & E3).
    unfold getStringField, hasField. rewrite E1, E2, E3, !is_text_field. unfold is_missing.
    by destruct (ed_id e), (ed_type e).
  - apply Forall_fmap, Forall_forall. intros e _. unfold entity_fields, compose.
    destruct (ed_id e), (ed_type e), (ed_isPattern e); repeat constructor; by eexists.
Qed.

(** The query selects what it is meant to. *)
Lemma query_selects sub now id ty sp : regex_law regex -> where_law jsmatch js -> quotable id = true -> quotable ty = true ->
  update_path sp -> str_all path_char sp = true -> one_line (default "" (sd_servicePath sub)) = true ->
  selected regex js (noCache_query now now id ty (in_or_null (servicePathSubscriptionRegex sp))) (sub_bson sub)
  = db_selects jsmatch now id ty sp sub.
Proof.
  intros Hr Hjs Hi Ht Hsp Hp Hl.
  destruct (field_values sub) as (Ve & Vp & Vs).
  assert (values (sub_bson sub) "entities.id" = (fun e => BsonString <$> ed_id e) <$> sd_entities sub) as Vi
    by (apply entity_texts; apply entity_field_texts).
  assert (values (sub_bson sub) "entities.type" = (fun e => BsonString <$> ed_type e) <$> sd_entities sub) as Vt
    by (apply entity_texts; apply entity_field_texts).
  assert (values (sub_bson sub) "entities.isPattern" = (fun e => BsonString <$> ed_isPattern e) <$> sd_entities sub) as Va
    by (apply entity_texts; apply entity_field_texts).
  pose proof (condition_texts sub) as Vc. 
  change (path_values ["conditions"; "type"] _) with (values (sub_bson sub) "conditions.type") in Vc.
  change (path_values ["expiration"] _) with (values (sub_bson sub) "expiration") in Ve.
  change (path_values ["servicePath"] _) with (values (sub_bson sub) "servicePath") in Vp.
  change (path_values ["status"] _) with (values (sub_bson sub) "status") in Vs.
  unfold selected, noCache_query. remember (sub_bson sub) as d eqn:Ed.
  cbn -[values where_function servicePathSubscriptionRegex meets is_above].
  rewrite Vi, Vt, Va, Vc, Ve, Vp, Vs, !texts_meet. subst d. rewrite (where_selects sub id ty Hjs Hi Ht).
  rewrite (existsb_fmap _ _ (fun e => negb (is_missing (ed_type e)))) by (intros e; by destruct (ed_type e)).
  assert (existsb (meets regex (BsonRegex (servicePathSubscriptionRegex sp))) [BsonString <$> sd_servicePath sub]
    || (existsb (meets regex BsonNull) [BsonString <$> sd_servicePath sub] || false)
    = db_path sp (sd_servicePath sub)) as Hpath.
  { cbn [existsb]. rewrite !orb_false_r. destruct (sd_servicePath sub) as [p|]; [|done]. cbn.
    rewrite orb_false_r, (Hr _ _ _ (subscription_regex sp Hsp Hp)). by apply found_in_exactly. }
  assert (existsb (is_above now) [BsonLong <$> sd_expiration sub]
    = match sd_expiration sub with Some e => now <? e | None => false end) as ->
    by (destruct (sd_expiration sub); cbn; [apply orb_false_r|done]).
  assert (existsb (meets regex (BsonString STATUS_INACTIVE)) [BsonString <$> sd_status sub]
    = is_field STATUS_INACTIVE (sd_status sub)) as ->.
  { pose proof (texts_meet (fun o : option string => o) STATUS_INACTIVE [sd_status sub]) as H. cbn in H |- *.
    rewrite H. apply orb_false_r. }
  assert (existsb (fun c => is_field ON_CHANGE_CONDITION (Some (cd_type c))) (sd_conditions sub)
    = existsb (fun c => cd_type c =s ON_CHANGE_CONDITION) (sd_conditions sub)) as ->.
  { clear. induction (sd_conditions sub) as [|c l IH]; [done|]. cbn [existsb]. rewrite IH. f_equal.
    by rewrite <- (is_text_field ON_CHANGE_CONDITION (Some (cd_type c))). }
  rewrite Hpath. unfold db_selects, db_common, db_noPattern, db_pattern, any_entity.
  set (live := match sd_expiration sub with Some e => now <? e | None => false end).
  destruct (existsb (fun e => negb (is_missing _)) _); btauto.
Qed.

End Selected.

(** ** What is triggered *)

Section NoCacheFacts.

Context (regcomp : string -> bool) (strptime_timegm : string -> Z) (mem : ValueOut) (memItem : StringFilterItem).
Context (fromjson : string -> cpp doc) (getCurrentTime : nat -> Z).
Context (collectionQuery : doc -> option (list (option CsubDoc))).
Context (regexec jsmatch regex : string -> string -> bool) (js : string -> doc -> bool).

Lemma strcmp_Eq s t : strcmp s t = Eq -> s = t.
Proof. apply String.compare_eq_iff. Qed.

Lemma map_insert_keys k t m id : id ∈ (map_insert k t m).*1 <-> id = k \/ id ∈ m.*1.
Proof.
  induction m as [|[k' t'] m IH]; cbn; [by rewrite list_elem_of_singleton, elem_of_nil; naive_solver|].
  destruct (strcmp k k') eqn:E; cbn; rewrite !elem_of_cons.
  - apply strcmp_Eq in E as ->. naive_solver.
  - done.
  - rewrite IH. naive_solver.
Qed.

(** The conditions of a document name one of the attributes, or name none. *)
Definition names_attribute (attrs : list string) (d : CsubDoc) : bool :=
  someEmptyCondValue (csub_sub d) || condValueAttrMatch (csub_sub d) attrs.

Lemma existsb_keys id (m : SubMap) : existsb (fun x => x.1 =s id) m = true <-> id ∈ m.*1.
Proof.
  induction m as [|[k t] m IH]; cbn; [by rewrite elem_of_nil|].
  rewrite orb_true_iff, IH, elem_of_cons, str_eqb_eq. naive_solver.
Qed.

(** The loop adds the subscriptions whose conditions are met. *)
Lemma noCache_loop_keys docs attrs m :
  Forall (fun d => is_Some (filtered_doc regcomp strptime_timegm mem memItem d)) docs ->
  exists m', noCache_loop regcomp strptime_timegm mem memItem (Some <$> docs) attrs m = (true, m') /\
    forall id, id ∈ m'.*1 <->
      id ∈ m.*1 \/ exists d, d ∈ docs /\ sd_id (csub_sub d) = Some id /\ names_attribute attrs d = true.
Proof.
  intros H. revert m. induction H as [|d docs [t Ht] _ IH]; intros m.
  { exists m. split; [done|]. intros id. split; [auto|]. intros [Hi|(d & Hd & _)]; [done|]. by apply elem_of_nil in Hd. }
  assert (forall id, (exists d', d' ∈ d :: docs /\ sd_id (csub_sub d') = Some id /\ names_attribute attrs d' = true) <->
    (sd_id (csub_sub d) = Some id /\ names_attribute attrs d = true)
    \/ (exists d', d' ∈ docs /\ sd_id (csub_sub d') = Some id /\ names_attribute attrs d' = true)) as Hcons.
  { intros id. setoid_rewrite elem_of_cons. naive_solver. }
  cbn [fmap list_fmap noCache_loop]. destruct (sd_id (csub_sub d)) as [i|] eqn:Ei.
  2:{ destruct (IH m) as (m' & -> & Hm). exists m'. split; [done|]. intros id. rewrite Hm, Hcons. naive_solver. }
  destruct (existsb _ m) eqn:Ex.
  { apply existsb_keys in Ex. destruct (IH m) as (m' & -> & Hm). exists m'. split; [done|].
    intros id. rewrite Hm, Hcons. naive_solver. }
  rewrite <- negb_orb. fold (names_attribute attrs d). destruct (names_attribute attrs d) eqn:En; cbn [negb].
  - rewrite Ht. destruct (IH (map_insert i t m)) as (m' & -> & Hm). exists m'. split; [done|].
    intros id. rewrite Hm, Hcons, map_insert_keys. naive_solver.
  - destruct (IH m) as (m' & -> & Hm). exists m'. split; [done|]. intros id. rewrite Hm, Hcons. naive_solver.
Qed.

(** A stored subscription the theorem is about: one the broker writes, whose filter can be
    parsed and cloned, and whose service path has no line break. *)
Definition good_doc (uid : string) (d : CsubDoc) : Prop :=
  is_Some (filtered_doc regcomp strptime_timegm mem memItem d) /\
  one_line (default "" (sd_servicePath (csub_sub d))) = true /\
  exists pid ty pat p, written_doc (csub_sub d) pid ty pat p /\ jsmatch pid uid = regexec (c_str pid) (c_str uid).

(** C26. With the cache switched off, an update triggers the subscriptions it would select
    in a refreshed cache, that expire later than now and are not inactive.  The database
    holds the documents and answers the query it is sent with those that satisfy it
    ([selected], MongoQuery.v), its regular expressions and fromjson do what they do on
    literals, anchors and alternatives, and the function of $where does what JavaScript
    makes of its text.  The query tests fields of arrays separately and has a pattern of
    literal paths; followed by the tests on the conditions it agrees with the matching of
    the cache for every stored subscription of one entity and every update of an entity with
    a type, in a service path of letters, digits and underscores, with an id and a type that
    can be written between quotes. *)
Theorem addTriggeredSubscriptions_noCache_selects docs now tenant mt uid utype attrs spV :
  let sp := match spV with sp :: _ => sp | [] => "" end in
  fromjson_law fromjson -> regex_law regex -> where_law jsmatch js ->
  getCurrentTime 0 = now -> getCurrentTime 1 = now ->
  (forall q, collectionQuery q = Some (Some <$> List.filter (fun d => selected regex js q (sub_bson (csub_sub d))) docs)) ->
  Forall (good_doc uid) docs -> 0 <= now -> utype <> "" -> quotable uid = true -> quotable utype = true ->
  update_path sp -> str_all path_char sp = true ->
  exists m, addTriggeredSubscriptions_noCache regcomp strptime_timegm mem memItem fromjson getCurrentTime collectionQuery
      uid utype attrs [] spV = Ret (true, m) /\
    forall id, id ∈ m.*1 <-> exists d cs, d ∈ docs /\ sd_id (csub_sub d) = Some id /\
      sub_from_doc tenant (csub_sub d) = (0, Some cs) /\
      sub_selects regexec mt (Some (c_str tenant)) sp uid utype attrs cs = true /\
      now < cs_expirationTime cs /\ cs_status cs <> STATUS_INACTIVE.
Proof.
  intros sp Hf Hre Hwh Ht0 Ht1 Hq Hd Hnow Hu Hqi Hqt Hsp Hpc. unfold addTriggeredSubscriptions_noCache. fold sp.
  rewrite (fromjson_spaced _ Hf) by (rewrite subscription_regex by done; by eexists). cbn [mbind cpp_bind]. rewrite Ht0, Ht1, Hq.
  rewrite (filter_ext_in _ (fun d => db_selects jsmatch now uid utype sp (csub_sub d))).
  2:{ intros d Hin. rewrite Forall_forall in Hd. destruct (Hd d) as (_ & Hl & _); [by apply list_elem_of_In|]. by apply query_selects. }
  edestruct (noCache_loop_keys (List.filter (fun d => db_selects jsmatch now uid utype sp (csub_sub d)) docs) attrs []) as (m & -> & Hm).
  { apply Forall_forall. intros d Hin. apply list_elem_of_In, filter_In in Hin as [Hin _].
    rewrite Forall_forall in Hd. apply (Hd d). by apply list_elem_of_In. }
  exists m. split; [done|]. intros id. rewrite Hm. rewrite Forall_forall in Hd. split.
  - intros [Hin|(d & Hin & Hid & Hn)]; [by apply elem_of_nil in Hin|].
    apply list_elem_of_In, filter_In in Hin as [Hin Hs]. apply list_elem_of_In in Hin.
    destruct (Hd d Hin) as (_ & _ & pid & ty & pat & p & Hw & Hjs). destruct (written_cached tenant _ _ _ _ _ Hw) as [cs Hcs].
    pose proof (selects_cached regexec jsmatch now tenant mt _ _ _ _ _ cs uid utype sp attrs Hw Hcs Hnow Hu Hsp Hjs) as E.
    rewrite Hs in E. fold (names_attribute attrs d) in E. rewrite Hn in E. symmetry in E. exists d, cs.
    rewrite !andb_true_iff, negb_true_iff, Z.ltb_lt, str_eqb_neq in E. naive_solver.
  - intros (d & cs & Hin & Hid & Hcs & Hs & He & Hst). right. exists d.
    destruct (Hd d Hin) as (_ & _ & pid & ty & pat & p & Hw & Hjs).
    pose proof (selects_cached regexec jsmatch now tenant mt _ _ _ _ _ cs uid utype sp attrs Hw Hcs Hnow Hu Hsp Hjs) as E.
    rewrite Hs in E. apply Z.ltb_lt in He. apply str_eqb_neq in Hst. rewrite He, Hst in E. cbn [andb negb] in E.
    apply andb_true_iff in E as [E1 E2]. split_and!; [|done..]. apply list_elem_of_In, filter_In.
    split; [by apply list_elem_of_In|done].
Qed.

End NoCacheFacts.

(** ** Concrete documents *)

Definition elsewhere_doc : CsubDoc :=
  mkCsubDoc (mkSubDoc (Some "51c0ac9ed714fb3b37d7d5a9") None [mkEntityDoc (Some "Room") (Some "true") (Some "R")] []
      [mkConditionDoc ON_CHANGE_CONDITION []] (Some "/a/x") None None (Some 2000) None None) None None None.

Definition stored_docs : list CsubDoc := [live_doc; elsewhere_doc].

(** A database with these documents. *)
Definition stored_query (js : string -> doc -> bool) (q : doc) : option (list (option CsubDoc)) :=
  Some (Some <$> List.filter (fun d => selected plain_regex js q (sub_bson (csub_sub d))) stored_docs).

(** The function of $where, read from its text; ids are matched as they are. *)
Definition function_of_text (f : string) (d : doc) : bool :=
  match quoted_parts f, getField d "entities" with
  | [_; type; _; _; id], Some (BsonArray l) =>
      existsb (fun e => match e with
        | BsonObj e =>
            is_text "true" (getField e "isPattern")
            && (is_text type (getField e "type") || is_text "" (getField e "type") || negb (hasField e "type"))
            && (getStringField e "id" =s id)
        | _ => false end) l
  | _, _ => false
  end.

Lemma function_of_text_law : where_law (fun r s => r =s s) function_of_text.
Proof.
  intros id type d es Hi Ht Hd _. unfold function_of_text. rewrite Hd.
  match goal with |- context [quoted_parts ?t] => assert (quoted_parts t = ["true"; type; ""; "type"; id]) as -> end.
  { set (a := "function(){for (var i=0; i < this.entities.length; i++) {if (this.entities[i].isPattern == ").
    set (rest := ".match(this.entities[i].id)) {return true; }}return false; }").
    match goal with |- quoted_parts ?t = _ => 
      assert (t = a +:+ quoted "true" +:+ (" && (this.entities[i].type == " +:+ quoted type +:+ (" || this.entities[i].type == " +:+
        quoted "" +:+ (" || !(" +:+ quoted "type" +:+ (" in this.entities[i])) && " +:+ quoted id +:+ rest))))) as -> end.
    { unfold quoted, a, rest, str1. cbn. 
      by rewrite ?app_assoc_str, ?app_cons_str, ?app_nil_l_str, ?app_assoc_str, ?app_cons_str, ?app_nil_l_str, ?app_nil_r_str. }
    rewrite !quoted_parts_step, quoted_parts_end; auto using quotable_free. }
  by apply existsb_fmap.
Qed.

Definition no_value : ValueOut := mkValueOut SfvtString (double_of_Z 0) "" false.

Lemma stored_good : Forall (good_doc (fun _ => true) (fun _ => 0) no_value sample_item
  (fun r s => r =s s) (fun r s => r =s s) "Room") stored_docs.
Proof.
  apply Forall_cons. split; [|apply Forall_cons; split; [|constructor]].
  - split; [eexists; reflexivity|]. split; [reflexivity|]. exists "Room", None, "false", "/a/b/#". split; [|reflexivity].
    split; [by eexists|reflexivity|discriminate|by right|discriminate|repeat constructor|reflexivity| |reflexivity..].
    right. exists ["a"; "b"]. split; [by repeat constructor|reflexivity].
  - split; [eexists; reflexivity|]. split; [reflexivity|]. exists "Room", (Some "R"), "true", "/a/x". split; [|reflexivity].
    split; [by eexists|reflexivity|discriminate|by left|discriminate|repeat constructor|reflexivity| |reflexivity..].
    left; right. exists ["a"; "x"]. split; [discriminate|]. split; [reflexivity|]. split; [by repeat constructor|discriminate].
Qed.

Lemma addTriggeredSubscriptions_noCache_selects_witness : exists m,
  addTriggeredSubscriptions_noCache (fun _ => true) (fun _ => 0) no_value sample_item
    plain_fromjson (fun _ => 1000) (stored_query function_of_text) "Room" "R" ["temp"] [] ["/a/b/c"] = Ret (true, m)
  /\ m.*1 = [live_id] /\ exists d cs, d ∈ stored_docs /\ sub_from_doc "" (csub_sub d) = (0, Some cs).
Proof.
  destruct (addTriggeredSubscriptions_noCache_selects (fun _ => true) (fun _ => 0) no_value
    sample_item plain_fromjson (fun _ => 1000) (stored_query function_of_text) (fun r s => r =s s) (fun r s => r =s s)
    plain_regex function_of_text stored_docs 1000 "" false "Room" "R" ["temp"] ["/a/b/c"]) as (m & H & Hm).
  - exact plain_fromjson_law.
  - exact plain_regex_law.
  - exact function_of_text_law.
  - reflexivity.
  - reflexivity.
  - reflexivity.
  - exact stored_good.
  - discriminate.
  - discriminate.
  - reflexivity.
  - reflexivity.
  - right; right. exists ["a"; "b"; "c"]. split; [done|]. split; [done|]. split; [done|]. by repeat constructor.
  - reflexivity.
  - exists m. split; [exact H|].
    assert (m.*1 = [live_id]) as E by (by vm_compute in H; injection H as <-). split; [exact E|].
    destruct (proj1 (Hm live_id)) as (d & cs & Hd & _ & Hcs & _); [rewrite E; by apply list_elem_of_here|].
    by exists d, cs.
Defined.

(** ** Where the two ways of triggering differ *)

(** Two entities: the id of one and the type of the other satisfy the query. *)
Definition two_entities : CsubDoc :=
  mkCsubDoc (mkSubDoc (Some live_id) None
      [mkEntityDoc (Some "Room") (Some "false") (Some "R"); mkEntityDoc (Some "Car") (Some "false") (Some "C")] []
      [mkConditionDoc ON_CHANGE_CONDITION []] (Some "/#") None None (Some 2000) None None) None None None.

Example entities_mixed :
  db_selects (fun r s => r =s s) 1000 "Room" "C" "/a" (csub_sub two_entities) = true /\
  (cs ← (sub_from_doc "" (csub_sub two_entities)).2; Some (sub_selects (fun r s => r =s s) false None "/a" "Room" "C" [] cs))
  = Some false.
Proof. split; vm_compute; reflexivity. Qed.

(** At the second it expires a cached subscription is still eligible. *)
Example expiration_differs :
  db_selects (fun r s => r =s s) 2000 "Room" "R" "/a" (csub_sub two_entities) = false /\
  eligible 2000 <$> (sub_from_doc "" (csub_sub two_entities)).2 = Some true.
Proof. split; vm_compute; reflexivity. Qed.

(** A document without a format. *)
Example format_differs :
  ts_renderFormat (triggered_doc two_entities) = NGSI_V2_NORMALIZED /\
  cs_renderFormat <$> (sub_from_doc "" (csub_sub two_entities)).2 = Some NGSI_V1_LEGACY.
Proof. split; vm_compute; reflexivity. Qed.
