(* ===== verification/Registering.v ===== *)
(** * Registering and availability subscriptions

    Registrations of context providers (mongoRegisterContext.cpp and MongoCommonRegister.cpp
    of mongoBackend), the subscriptions to them (mongoSubscribeContextAvailability.cpp,
    mongoUpdateContextAvailabilitySubscription.cpp, mongoUnsubscribeContextAvailability.cpp),
    their notification (processAvailabilitySubscription of MongoGlobal.cpp), registrations
    received as notifications (mongoNotifyContextAvailability.cpp) and discovery
    (mongoDiscoverContextAvailability.cpp).  The state is the two collections of the tenant,
    keyed by id, what was handed to the notifier, and how often the clock was read.  The
    answers of the database to queries, the failures of its operations, the reading of an
    object id (the id as the driver prints it), fromjson and the clock are arguments. *)

From S2P Require Import Prelude Strings Double Bson MongoQuery Compound Ngsi AttrUpdate Location EntityDoc Registrations FilterParse FilterMatch SubCache.
From S2P Require Import Geo Queries SubSync Notify Duration EntityUpdate UpdateContext QueryContext Subscriptions TriggerDb.
From Stdlib Require Import Btauto.

Open Scope Z_scope.

Definition REG_EXPIRATION : string := "expiration".
Definition REG_SERVICE_PATH : string := "servicePath".
Definition REG_FORMAT : string := "format".

(** ** Documents and requests *)

Record RegisterContextRequest := mkRegisterContextRequest {
  rr_contextRegistrationVector : list ContextRegistration;
  rr_duration : string;
  rr_registrationId : string
}.

Record RegisterContextResponse := mkRegisterContextResponse {
  rp_duration : string;
  rp_registrationId : string;
  rp_errorCode : StatusCode
}.

(** A document of the collection of availability subscriptions. *)
Record CasubDoc := mkCasubDoc {
  av_expiration : Z;
  av_reference : string;
  av_entities : list EntityDoc;
  av_attrs : list string;
  av_lastNotification : option Z;
  av_count : option Z;
  av_format : option string
}.

(** SubscribeContextAvailabilityRequest and UpdateContextAvailabilitySubscriptionRequest;
    the id is that of an update. *)
Record AvailabilityRequest := mkAvailabilityRequest {
  ar_entityIdVector : list EntityId;
  ar_attributeList : list string;
  ar_reference : string;
  ar_duration : string;
  ar_subscriptionId : string
}.

(** The response: an error (code 0 for none), the duration and the id. *)
Record AvailabilityResponse := mkAvailabilityResponse {
  ap_errorCode : StatusCode;
  ap_duration : string;
  ap_subscriptionId : string
}.
Definition availability_error (code : Z) (details : string) : AvailabilityResponse :=
  mkAvailabilityResponse (mkStatusCode code details) "" "".

(** What sendNotifyContextAvailabilityRequest is called with. *)
Record AvailabilityNotification := mkAvailabilityNotification {
  an_subscriptionId : string;
  an_registrations : list ContextRegistration;
  an_url : string;
  an_tenant : string;
  an_fiwareCorrelator : string;
  an_renderFormat : RenderFormat
}.

Record RegState := mkRegState {
  rg_regs : gmap string doc;
  rg_casubs : gmap string CasubDoc;
  rg_sent : list AvailabilityNotification;
  rg_reads : nat
}.

Definition tick (st : RegState) : RegState :=
  mkRegState (rg_regs st) (rg_casubs st) (rg_sent st) (S (rg_reads st)).
Definition set_regs (regs : gmap string doc) (st : RegState) : RegState :=
  mkRegState regs (rg_casubs st) (rg_sent st) (rg_reads st).
Definition set_casubs (casubs : gmap string CasubDoc) (st : RegState) : RegState :=
  mkRegState (rg_regs st) casubs (rg_sent st) (rg_reads st).
Definition add_sent (n : AvailabilityNotification) (st : RegState) : RegState :=
  mkRegState (rg_regs st) (rg_casubs st) (rg_sent st ++ [n]) (rg_reads st).

(** ** Documents *)

Definition registered_entity_doc (en : EntityId) : doc :=
  (REG_ENTITY_ID, BsonString (eid_id en))
  :: (if eid_type en =s "" then [] else [(REG_ENTITY_TYPE, BsonString (eid_type en))]).

Definition registered_attr_doc (cra : ContextRegistrationAttribute) : doc :=
  [(REG_ATTRS_NAME, BsonString (cra_name cra)); (REG_ATTRS_TYPE, BsonString (cra_type cra));
   ("isDomain", BsonString (cra_isDomain cra))].

Definition registered_doc (cr : ContextRegistration) : doc :=
  [(REG_ENTITIES, BsonArray (BsonObj ∘ registered_entity_doc <$> cr_entityIdVector cr));
   (REG_ATTRS, BsonArray (BsonObj ∘ registered_attr_doc <$> cr_attributes cr));
   (REG_PROVIDING_APPLICATION, BsonString (cr_providingApplication cr))].

(** The document of a registration, its _id apart. *)
Definition registration_document (expiration : Z) (servicePath format : string) (crs : list ContextRegistration) : doc :=
  [(REG_EXPIRATION, BsonLong expiration);
   (REG_SERVICE_PATH, BsonString (if servicePath =s "" then DEFAULT_SERVICE_PATH_UPDATES else servicePath));
   (REG_FORMAT, BsonString format);
   (REG_CONTEXT_REGISTRATION, BsonArray (BsonObj ∘ registered_doc <$> crs))].

(** The document of a new availability subscription. *)
Definition casub_document (req : AvailabilityRequest) (expiration : Z) : CasubDoc :=
  mkCasubDoc expiration (ar_reference req) (entity_doc <$> ar_entityIdVector req) (ar_attributeList req) None None
    (Some (renderFormatToString NGSI_V1_LEGACY false)).

(** That of an updated one. *)
Definition updated_casub (req : AvailabilityRequest) (expiration : Z) (sub : CasubDoc) : CasubDoc :=
  mkCasubDoc expiration (av_reference sub) (entity_doc <$> ar_entityIdVector req) (ar_attributeList req)
    (av_lastNotification sub) (av_count sub) (Some "JSON").

(** ** Queries *)

(** The query of registrationsQuery, [sp] being the condition on the service path. *)
Definition registrations_query (now : Z) (enV : list EntityId) (attrL : list string) (sp : bson) : doc :=
  let eid := REG_CONTEXT_REGISTRATION +:+ "." +:+ REG_ENTITIES +:+ "." +:+ REG_ENTITY_ID in
  let pattern en := (eid, BsonRegex (eid_id en))
    :: (if eid_type en =s "" then []
        else [(REG_CONTEXT_REGISTRATION +:+ "." +:+ REG_ENTITIES +:+ "." +:+ REG_ENTITY_TYPE, BsonString (eid_type en))]) in
  let patterns := List.filter (fun en => isTrue (eid_isPattern en)) enV in
  let exacts := List.filter (fun en => negb (isTrue (eid_isPattern en))) enV in
  let typed := List.filter (fun en => negb (eid_type en =s "")) exacts in
  let untyped := List.filter (fun en => eid_type en =s "") exacts in
  let both en := [BsonObj [(REG_ENTITY_ID, BsonString (eid_id en)); (REG_ENTITY_TYPE, BsonString (eid_type en))];
                  BsonObj [(REG_ENTITY_TYPE, BsonString (eid_type en)); (REG_ENTITY_ID, BsonString (eid_id en))]] in
  [("$or", BsonArray ((BsonObj ∘ pattern <$> patterns) ++
      [BsonObj [(REG_CONTEXT_REGISTRATION +:+ "." +:+ REG_ENTITIES, BsonObj [("$in", BsonArray (flat_map both typed))])];
       BsonObj [(eid, BsonObj [("$in", BsonArray (BsonString ∘ eid_id <$> untyped))])]]));
   (REG_EXPIRATION, BsonObj [("$gt", BsonLong now)])]
  ++ (if (length attrL =? 0)%nat then []
      else [(REG_CONTEXT_REGISTRATION +:+ "." +:+ REG_ATTRS +:+ "." +:+ REG_ATTRS_NAME,
             BsonObj [("$in", BsonArray (BsonString <$> attrL))])])
  ++ [(REG_SERVICE_PATH, sp)].

(** A list of JavaScript strings: no comma follows the last one. *)
Fixpoint js_strings (l : list string) : string :=
  match l with
  | [] => ""
  | [s] => str1 "034" +:+ s +:+ str1 "034"
  | s :: l' => str1 "034" +:+ s +:+ str1 "034" +:+ " ," +:+ js_strings l'
  end.

Definition js_array (l : list string) : string := "[ " +:+ js_strings l +:+ " ]".

(** The JavaScript function of the query. *)
Definition casub_function (ids types : list string) : string :=
  concat_str
    ["function(){enId = "; js_array ids; ";enType = "; js_array types; ";for (var i=0; i < this.entities.length; i++) {";
     "if (this.entities[i].isPattern == "; str1 "034"; "true"; str1 "034"; ") {for (var j = 0; j < enId.length; j++) {";
     "if (enId[j].match(this.entities[i].id) && this.entities[i].type == enType[j]) {return true; }}}}return false; }"].

(** The entities of a registration that are not patterns. *)
Definition plain_entities (cr : ContextRegistration) : list EntityId :=
  List.filter (fun en => eid_isPattern en =s "false") (cr_entityIdVector cr).

(** The query of addTriggeredSubscriptions, for the two readings of the clock. *)
Definition casubs_query (now now' : Z) (cr : ContextRegistration) : doc :=
  let es := plain_entities cr in
  let attrs := BsonString ∘ cra_name <$> cr_attributes cr in
  let size0 := BsonObj [("$size", BsonInt 0)] in
  let entity en := BsonObj [("id", BsonString (eid_id en)); ("type", BsonString (eid_type en)); ("isPattern", BsonString "false")] in
  [("$or", BsonArray
     [BsonObj
        [("entities", BsonObj [("$in", BsonArray (entity <$> es))]);
         (if (length attrs =? 0)%nat then ("attrs", size0)
          else ("$or", BsonArray [BsonObj [("attrs", BsonObj [("$in", BsonArray attrs)])]; BsonObj [("attrs", size0)]]));
         ("expiration", BsonObj [("$gt", BsonLong now)])];
      BsonObj
        [("entities.isPattern", BsonString "true"); ("expiration", BsonObj [("$gt", BsonLong now')]);
         ("$where", BsonString (casub_function (eid_id <$> es) (eid_type <$> es)))]])].

(** ** Operations *)

Section Registering.

Context (regcomp : string -> bool) (regexec : string -> string -> bool) (fromjson : string -> cpp doc).
Context (getCurrentTime : nat -> Z) (OID : string -> option string).
(** The answers of the database to a query on each of the collections: an error, or what the
    cursor yields, None where the driver throws an exception. *)
Context (find_regs : gmap string doc -> doc -> Z -> Z -> string + (Z * list (option doc))).
Context (find_casubs : gmap string CasubDoc -> doc -> string + list (option (option string * CasubDoc))).
(** The errors of the other operations of the database. *)
Context (findOne_error regs_error casubs_error remove_error notified_error : option string).

Definition read_clock (st : RegState) : Z * RegState := (getCurrentTime (rg_reads st), tick st).

(** What registrationsQuery finds at a time: an error, or the count and the registrations. *)
Definition registrations_found (now : Z) (regs : gmap string doc) (enV : list EntityId) (attrL : list string)
    (servicePathV : list string) (offset limit : Z) : cpp (string + (Z * list ContextRegistration)) :=
  sp ← service_path_condition fromjson servicePathV;
  match find_regs regs (registrations_query now enV attrL sp) limit offset with
  | inl err => Ret (inl err)
  | inr (count, cursor) =>
      crrV ← process_registrations regcomp regexec cursor enV attrL;
      Ret (inr (count, crrV))
  end.

Definition registrationsQuery (st : RegState) (enV : list EntityId) (attrL : list string) (servicePathV : list string)
    (offset limit : Z) : cpp ((string + (Z * list ContextRegistration)) * RegState) :=
  let '(now, st) := read_clock st in
  r ← registrations_found now (rg_regs st) enV attrL servicePathV offset limit;
  Ret (r, st).

(** The $set and $inc of mongoUpdateCasubNewNotification. *)
Definition notified_casub (now : Z) (d : CasubDoc) : CasubDoc :=
  mkCasubDoc (av_expiration d) (av_reference d) (av_entities d) (av_attrs d) (Some now)
    (Some (default 0 (av_count d) + 1)) (av_format d).

(** mongoUpdateCasubNewNotification: always SccOk, whatever the database says. *)
Definition mongoUpdateCasubNewNotification (st : RegState) (subId : string) : cpp RegState :=
  match OID subId with
  | None => UB "uncaught exception of OID"
  | Some id =>
      let '(now, st) := read_clock st in
      Ret (match notified_error with
           | Some _ => st
           | None => set_casubs (alter (notified_casub now) id (rg_casubs st)) st
           end)
  end.

(** True when a notification is sent. *)
Definition processAvailabilitySubscription (st : RegState) (enV : list EntityId) (attrL : list string)
    (subId notifyUrl : string) (renderFormat : RenderFormat) (tenant fiwareCorrelator : string) : cpp (bool * RegState) :=
  '(r, st) ← registrationsQuery st enV attrL [""] 0 20;
  match r : string + (Z * list ContextRegistration) with
  | inl _ => Ret (false, st)
  | inr (_, crrV) =>
      if (0 <? length crrV)%nat then
        st ← mongoUpdateCasubNewNotification
               (add_sent (mkAvailabilityNotification subId crrV notifyUrl tenant fiwareCorrelator renderFormat) st) subId;
        Ret (true, st)
      else Ret (false, st)
  end.

(** ** Registering *)

(** The loop over the map of triggered subscriptions. *)
Fixpoint processSubscriptions (st : RegState) (triggerEntitiesV : list EntityId) (subs : SubMap)
    (tenant fiwareCorrelator : string) : cpp (bool * RegState) :=
  match subs with
  | [] => Ret (true, st)
  | (mapSubId, trigs) :: subs' =>
      '(sent, st) ← processAvailabilitySubscription st triggerEntitiesV (ts_attrL trigs) mapSubId (ts_reference trigs)
                      (ts_renderFormat trigs) tenant fiwareCorrelator;
      '(ret, st) ← processSubscriptions st triggerEntitiesV subs' tenant fiwareCorrelator;
      Ret (sent && ret, st)
  end.

Definition triggered_casub (d : CasubDoc) : TriggeredSubscription :=
  TriggeredSubscription_new (-1) (-1)
    (match av_format d with Some f => stringToRenderFormat f false | None => NGSI_V1_LEGACY end)
    (av_reference d) (av_attrs d) "" (Some "").

Fixpoint casubs_loop (cursor : list (option (option string * CasubDoc))) (subs : SubMap) : SubMap :=
  match cursor with
  | [] => subs
  | None :: cursor' | Some (None, _) :: cursor' => casubs_loop cursor' subs
  | Some (Some id, d) :: cursor' =>
      casubs_loop cursor' (if existsb (fun x => x.1 =s id) subs then subs else map_insert id (triggered_casub d) subs)
  end.

Definition addTriggeredSubscriptions (st : RegState) (cr : ContextRegistration) (subs : SubMap)
    : (string + SubMap) * RegState :=
  let '(now, st) := read_clock st in
  let '(now', st) := read_clock st in
  (match find_casubs (rg_casubs st) (casubs_query now now' cr) with
   | inl err => inl err
   | inr cursor => inr (casubs_loop cursor subs)
   end, st).

(** The loop over the registrations of the request. *)
Fixpoint trigger_all (st : RegState) (crs : list ContextRegistration) (subs : SubMap) : (string + SubMap) * RegState :=
  match crs with
  | [] => (inr subs, st)
  | cr :: crs' =>
      match addTriggeredSubscriptions st cr subs with
      | (inl err, st) => (inl err, st)
      | (inr subs, st) => trigger_all st crs' subs
      end
  end.

(** The duration that is left in the request and the time it ends. *)
Definition availability_expiration (st : RegState) (d : string) : cpp (string * Z * RegState) :=
  let duration := if d =s "" then DEFAULT_DURATION else d in
  let '(now, st) := read_clock st in
  seconds ← parse8601 duration;
  Ret (duration, int64 (now + seconds), st).

(** processRegisterContext, [oid] being the id that is given or the new one; the status it
    returns is always SccOk. *)
Definition processRegisterContext (st : RegState) (req : RegisterContextRequest) (oid tenant servicePath format
    fiwareCorrelator : string) : cpp (RegisterContextResponse * RegState) :=
  '(duration, expiration, st) ← availability_expiration st (rr_duration req);
  let crs := rr_contextRegistrationVector req in
  let triggerEntitiesV := flat_map cr_entityIdVector crs in
  match trigger_all st crs [] with
  | (inl err, st) => Ret (mkRegisterContextResponse "" "" (mkStatusCode SccReceiverInternalError err), st)
  | (inr subs, st) =>
      match regs_error with
      | Some err => Ret (mkRegisterContextResponse "" "" (mkStatusCode SccReceiverInternalError err), st)
      | None =>
          let st := set_regs (<[oid := registration_document expiration servicePath format crs]> (rg_regs st)) st in
          '(_, st) ← processSubscriptions st triggerEntitiesV subs tenant fiwareCorrelator;
          Ret (mkRegisterContextResponse duration oid (mkStatusCode SccOk ""), st)
      end
  end.

(** The registration with an id and a service path. *)
Definition find_registration (st : RegState) (id sPath : string) : option doc :=
  match rg_regs st !! id with
  | Some d => if getStringField d REG_SERVICE_PATH =s sPath then Some d else None
  | None => None
  end.

Definition mongoRegisterContext (st : RegState) (req : RegisterContextRequest) (oid tenant servicePath
    fiwareCorrelator : string) : cpp (RegisterContextResponse * RegState) :=
  let sPath := if servicePath =s "" then DEFAULT_SERVICE_PATH_UPDATES else servicePath in
  let regId := rr_registrationId req in
  if regId =s "" then processRegisterContext st req oid tenant sPath "JSON" fiwareCorrelator
  else
    match OID regId with
    | None => Ret (mkRegisterContextResponse "" regId (mkStatusCode SccContextElementNotFound ""), st)
    | Some id =>
        match findOne_error, find_registration st id sPath with
        | Some err, _ => Ret (mkRegisterContextResponse "" "" (mkStatusCode SccReceiverInternalError err), st)
        | None, None =>
            Ret (mkRegisterContextResponse "" regId
                   (mkStatusCode SccContextElementNotFound ("registration id: /" +:+ regId +:+ "/")), st)
        | None, Some _ => processRegisterContext st req id tenant sPath "JSON" fiwareCorrelator
        end
    end.

(** mongoNotifyContextAvailability: the answer is SccOk, whatever becomes of the registration. *)
Definition mongoNotifyContextAvailability (st : RegState) (crs : list ContextRegistration) (oid tenant servicePath
    fiwareCorrelator : string) : cpp (StatusCode * RegState) :=
  '(_, st) ← processRegisterContext st (mkRegisterContextRequest crs DEFAULT_DURATION "") oid tenant servicePath "JSON"
               fiwareCorrelator;
  Ret (mkStatusCode SccOk "", st).

(** ** Discovery *)

Definition on_off (detailsString : string) : bool := strcasecmp_eq "on" (c_str detailsString).

(** mongoDiscoverContextAvailability with the URI parameters offset, limit and details. *)
Definition mongoDiscoverContextAvailability (st : RegState) (enV : list EntityId) (attrL : list string)
    (offset limit detailsString : string) (servicePathV : list string)
    : cpp (StatusCode * list ContextRegistration * RegState) :=
  let details := on_off detailsString in
  let offset := atoi (c_str offset) in
  '(r, st) ← registrationsQuery st enV attrL servicePathV offset (atoi (c_str limit));
  Ret (match r : string + (Z * list ContextRegistration) with
       | inl err => (mkStatusCode SccReceiverInternalError err, [])
       | inr (count, crrV) =>
           (if (length crrV =? 0)%nat then
              if details && (0 <? count) && (count <=? offset)
              then mkStatusCode SccContextElementNotFound
                     ("Number of matching registrations: " +:+ show_Z count +:+ ". Offset is " +:+ show_Z offset)
              else mkStatusCode SccContextElementNotFound ""
            else if details then mkStatusCode SccOk ("Count: " +:+ show_Z count)
            else mkStatusCode SccNone "", crrV)
       end, st).

(** ** Availability subscriptions *)

Definition mongoSubscribeContextAvailability (st : RegState) (req : AvailabilityRequest) (oid tenant
    fiwareCorrelator : string) : cpp (AvailabilityResponse * RegState) :=
  '(duration, expiration, st) ← availability_expiration st (ar_duration req);
  match casubs_error with
  | Some err => Ret (availability_error SccReceiverInternalError err, st)
  | None =>
      let st := set_casubs (<[oid := casub_document req expiration]> (rg_casubs st)) st in
      '(_, st) ← processAvailabilitySubscription st (ar_entityIdVector req) (ar_attributeList req) oid (ar_reference req)
                   NGSI_V1_LEGACY tenant fiwareCorrelator;
      Ret (mkAvailabilityResponse (mkStatusCode SccNone "") duration oid, st)
  end.

Definition mongoUpdateContextAvailabilitySubscription (st : RegState) (req : AvailabilityRequest) (tenant
    fiwareCorrelator : string) : cpp (AvailabilityResponse * RegState) :=
  match OID (ar_subscriptionId req) with
  | None => Ret (availability_error SccContextElementNotFound "", st)
  | Some id =>
      match findOne_error, rg_casubs st !! id with
      | Some err, _ => Ret (availability_error SccReceiverInternalError err, st)
      | None, None => Ret (availability_error SccContextElementNotFound "", st)
      | None, Some sub =>
          '(expiration, st) ←
             (if ar_duration req =s "" then Ret (av_expiration sub, st)
              else '(_, e, st) ← availability_expiration st (ar_duration req); Ret (e : Z, st : RegState));
          match casubs_error with
          | Some err => Ret (availability_error SccReceiverInternalError err, st)
          | None =>
              let st := set_casubs (<[id := updated_casub req expiration sub]> (rg_casubs st)) st in
              '(_, st) ← processAvailabilitySubscription st (ar_entityIdVector req) (ar_attributeList req)
                           (ar_subscriptionId req) (av_reference sub) NGSI_V1_LEGACY tenant fiwareCorrelator;
              Ret (mkAvailabilityResponse (mkStatusCode SccNone "") (ar_duration req) (ar_subscriptionId req), st)
          end
      end
  end.

Definition mongoUnsubscribeContextAvailability (st : RegState) (subscriptionId : string) : StatusCode * RegState :=
  match OID subscriptionId with
  | None => (mkStatusCode SccContextElementNotFound "", st)
  | Some id =>
      match findOne_error, rg_casubs st !! id with
      | Some err, _ => (mkStatusCode SccReceiverInternalError err, st)
      | None, None => (mkStatusCode SccContextElementNotFound "", st)
      | None, Some _ =>
          match remove_error with
          | Some err => (mkStatusCode SccReceiverInternalError err, st)
          | None => (mkStatusCode SccOk "", set_casubs (delete id (rg_casubs st)) st)
          end
      end
  end.

(** ** What a registration stores *)

(** An entity as it is stored. *)
Definition stored_entity (en : EntityId) : EntityId := mkEntityId (eid_id en) (eid_type en) "false" "".

(** The part of a registration that is asked for. *)
Definition restricted (enV : list EntityId) (attrL : list string) (cr : ContextRegistration) : list ContextRegistration :=
  let es := List.filter (fun en => includedEntity regcomp regexec en enV) (stored_entity <$> cr_entityIdVector cr) in
  let attrs := List.filter (fun a => includedAttribute a attrL) (cr_attributes cr) in
  if (length es =? 0)%nat || ((length attrs =? 0)%nat && negb (length attrL =? 0)%nat) then []
  else [mkContextRegistration es attrs (cr_providingApplication cr)].

Lemma entities_read enV es :
  flat_map (processEntity regcomp regexec enV) (registered_entity_doc <$> es)
    = List.filter (fun en => includedEntity regcomp regexec en enV) (stored_entity <$> es).
Proof.
  induction es as [|en es IH]; [done|]. cbn [fmap list_fmap flat_map List.filter]. rewrite IH.
  assert (processEntity regcomp regexec enV (registered_entity_doc en)
    = if includedEntity regcomp regexec (stored_entity en) enV then [stored_entity en] else []) as ->.
  { unfold processEntity, registered_entity_doc, stored_entity. destruct (eid_type en =s "") eqn:E; cbn; [|done].
    apply str_eqb_eq in E as ->. done. }
  by destruct (includedEntity _ _ _ _).
Qed.

Lemma attributes_read attrL l :
  flat_map (processAttribute attrL) (registered_attr_doc <$> l) = List.filter (fun a => includedAttribute a attrL) l.
Proof.
  induction l as [|[n t d] l IH]; [done|]. cbn [fmap list_fmap flat_map List.filter]. rewrite IH.
  unfold processAttribute. cbn. by destruct (includedAttribute _ _).
Qed.

Lemma element_read enV attrL cr :
  processContextRegistrationElement regcomp regexec (registered_doc cr) enV attrL = Ret (restricted enV attrL cr).
Proof.
  unfold processContextRegistrationElement, restricted.
  change (getField (registered_doc cr) REG_ENTITIES)
    with (Some (BsonArray (BsonObj ∘ registered_entity_doc <$> cr_entityIdVector cr))).
  change (getField (registered_doc cr) REG_ATTRS)
    with (Some (BsonArray (BsonObj ∘ registered_attr_doc <$> cr_attributes cr))).
  change (hasField (registered_doc cr) REG_ATTRS) with true.
  cbn [Array mbind cpp_bind]. rewrite !list_fmap_compose, !embedded_all_docs. cbn [mbind cpp_bind].
  rewrite entities_read, attributes_read.
  set (es := List.filter _ (stored_entity <$> _)). destruct (length es =? 0)%nat; [done|]. cbn [orb]. set (l := List.filter _ (cr_attributes cr)).
  by destruct l, attrL.
Qed.

Lemma elements_read enV attrL crs :
  process_elements regcomp regexec (registered_doc <$> crs) enV attrL = Ret (flat_map (restricted enV attrL) crs).
Proof.
  induction crs as [|cr crs IH]; [done|]. cbn [fmap list_fmap process_elements flat_map].
  rewrite element_read. cbn [mbind cpp_bind]. by rewrite IH.
Qed.

(** A registration is found again, as far as it is asked for, wherever the cursor yields its document. *)
Lemma registration_read expiration sp format crs cursor enV attrL l :
  Some (registration_document expiration sp format crs) ∈ cursor ->
  process_registrations regcomp regexec cursor enV attrL = Ret l ->
  exists before after, l = before ++ flat_map (restricted enV attrL) crs ++ after.
Proof.
  revert l. induction cursor as [|[r|] cursor IH]; intros l; [by intros ?%elem_of_nil|..];
    rewrite elem_of_cons; cbn [process_registrations].
  - intros [[= <-]|Hin].
    + change (getField (registration_document expiration sp format crs) REG_CONTEXT_REGISTRATION)
        with (Some (BsonArray (BsonObj ∘ registered_doc <$> crs))).
      cbn [Array mbind cpp_bind]. rewrite list_fmap_compose, embedded_all_docs. cbn [mbind cpp_bind].
      rewrite elements_read. cbn [mbind cpp_bind]. destruct (process_registrations _ _ cursor _ _) as [l2| |]; try done.
      intros [= <-]. by exists [], l2.
    + destruct (Array _) as [a| |]; try done. cbn [mbind cpp_bind].
      destruct (embedded_all a) as [ds| |]; try done. cbn [mbind cpp_bind].
      destruct (process_elements _ _ ds _ _) as [l1| |]; try done. cbn [mbind cpp_bind].
      destruct (process_registrations _ _ cursor _ _) as [l2| |] eqn:E; try done. intros [= <-].
      destruct (IH l2 Hin eq_refl) as (b & a' & ->). exists (l1 ++ b), a'. by rewrite app_assoc.
  - intros [[=]|Hin] H. by apply IH.
Qed.

(** ** What changes *)

(** Reading the clock changes nothing else. *)
Definition same_but_clock (st st' : RegState) : Prop :=
  rg_regs st' = rg_regs st /\ rg_casubs st' = rg_casubs st /\ rg_sent st' = rg_sent st.

#[export] Instance same_but_clock_preorder : PreOrder same_but_clock.
Proof. split; [by intros st|]. intros a b c (H1 & H2 & H3) (H4 & H5 & H6). repeat split; congruence. Qed.

Lemma tick_same st : same_but_clock st (tick st).
Proof. done. Qed.

Lemma trigger_all_same st crs subs : same_but_clock st (trigger_all st crs subs).2.
Proof.
  revert st subs. induction crs as [|cr crs IH]; intros st subs; [done|]. cbn [trigger_all].
  unfold addTriggeredSubscriptions. cbn [read_clock]. destruct (find_casubs _ _) as [err|cursor].
  - done.
  - etrans; [|apply IH]. done.
Qed.

Lemma expiration_same st d r e st' : availability_expiration st d = Ret (r, e, st') -> same_but_clock st st'.
Proof.
  unfold availability_expiration. cbn [read_clock]. destruct (parse8601 _); try done. cbn. by intros [= _ _ <-].
Qed.

(** An operation of the notification: registrations stay. *)
Lemma availability_regs st enV attrL subId url f tenant corr b st' :
  processAvailabilitySubscription st enV attrL subId url f tenant corr = Ret (b, st') -> rg_regs st' = rg_regs st.
Proof.
  unfold processAvailabilitySubscription, registrationsQuery. cbn [read_clock].
  destruct (registrations_found _ _ _ _ _ _ _) as [[err|[c l]]| |]; try done; cbn [mbind cpp_bind].
  - by intros [= _ <-].
  - destruct (0 <? length l)%nat; [|by intros [= _ <-]]. unfold mongoUpdateCasubNewNotification.
    destruct (OID subId); [|done]. cbn. intros [= _ <-]. by destruct notified_error.
Qed.

Lemma process_regs st enV subs tenant corr b st' :
  processSubscriptions st enV subs tenant corr = Ret (b, st') -> rg_regs st' = rg_regs st.
Proof.
  revert st b st'. induction subs as [|[id t] subs IH]; intros st b st'; cbn [processSubscriptions]; [by intros [= _ <-]|].
  destruct (processAvailabilitySubscription _ _ _ _ _ _ _ _) as [[s st1]| |] eqn:E; try done. cbn [mbind cpp_bind].
  destruct (processSubscriptions st1 _ _ _ _) as [[s' st2]| |] eqn:E2; try done. cbn. intros [= _ <-].
  apply IH in E2. apply availability_regs in E. congruence.
Qed.

(** A registration is stored with its id, or refused and nothing is changed. *)
Definition stores (st : RegState) (crs : list ContextRegistration) (resp : RegisterContextResponse) (st' : RegState) : Prop :=
  if sc_code (rp_errorCode resp) =? SccOk
  then exists expiration sp, rg_regs st' = <[rp_registrationId resp := registration_document expiration sp "JSON" crs]> (rg_regs st)
  else same_but_clock st st'.

Lemma process_stores st req oid tenant sp corr resp st' :
  processRegisterContext st req oid tenant sp "JSON" corr = Ret (resp, st') ->
  stores st (rr_contextRegistrationVector req) resp st' /\
  (sc_code (rp_errorCode resp) = SccOk -> rp_registrationId resp = oid).
Proof.
  unfold processRegisterContext, stores. destruct (availability_expiration _ _) as [[[d e] st1]| |] eqn:Ee; try done.
  apply expiration_same in Ee. cbn [mbind cpp_bind].
  pose proof (trigger_all_same st1 (rr_contextRegistrationVector req) []) as Ht.
  destruct (trigger_all _ _ _) as [[err|subs] st2]; [intros [= <- <-]; split; [exact (transitivity Ee Ht)|done]|].
  destruct regs_error as [err|]; [intros [= <- <-]; split; [exact (transitivity Ee Ht)|done]|].
  destruct (processSubscriptions _ _ _ _ _) as [[b st3]| |] eqn:E; try done. cbn. intros [= <- <-]. cbn.
  apply process_regs in E. cbn in E. split; [|done]. exists e, sp. rewrite E.
  destruct Ht as [Ht _], Ee as [Ee _]. cbn in Ht. by rewrite Ht, Ee.
Qed.

(** C29. A registration that is accepted changes one document, that of the id it answers
    with, and whenever the database yields that document to a discovery, the discovery
    tells every part of the registration that is asked for, providers included; one that
    is refused changes nothing and notifies nobody. *)
Theorem mongoRegisterContext_discovered st req oid tenant sp corr resp st' :
  mongoRegisterContext st req oid tenant sp corr = Ret (resp, st') ->
  if sc_code (rp_errorCode resp) =? SccOk
  then exists d, rg_regs st' = <[rp_registrationId resp := d]> (rg_regs st) /\
    forall st1 enV attrL offset limit details spV sc crrV st2,
      (forall now c, exists count cursor, Some d ∈ cursor /\
         find_regs (rg_regs st1) (registrations_query now enV attrL c) (atoi (c_str limit)) (atoi (c_str offset))
           = inr (count, cursor)) ->
      mongoDiscoverContextAvailability st1 enV attrL offset limit details spV = Ret (sc, crrV, st2) ->
      exists before after, crrV = before ++ flat_map (restricted enV attrL) (rr_contextRegistrationVector req) ++ after
  else same_but_clock st st'.
Proof.
  assert (forall id path, processRegisterContext st req id tenant path "JSON" corr = Ret (resp, st') ->
    stores st (rr_contextRegistrationVector req) resp st') as Hp.
  { intros id path H. by apply process_stores in H as [H _]. }
  intros H. assert (stores st (rr_contextRegistrationVector req) resp st') as Hs.
  { revert H. unfold mongoRegisterContext. cbn zeta. destruct (rr_registrationId req =s ""); [apply Hp|].
    destruct (OID _) as [id|]; [|by intros [= <- <-]].
    destruct findOne_error; [by intros [= <- <-]|]. destruct (find_registration _ _ _); [apply Hp|by intros [= <- <-]]. }
  unfold stores in Hs. destruct (_ =? SccOk); [|done]. destruct Hs as (e & path & Hr). eexists; split; [exact Hr|].
  intros st1 enV attrL offset limit details spV sc crrV st2 Hf Hd. unfold mongoDiscoverContextAvailability in Hd.
  unfold registrationsQuery, registrations_found in Hd. cbn [read_clock] in Hd.
  destruct (service_path_condition _ _) as [c| |]; try done. cbn [mbind cpp_bind] in Hd.
  destruct (Hf (getCurrentTime (rg_reads st1)) c) as (count & cursor & Hin & Hc). cbn [rg_regs tick] in Hd.
  rewrite Hc in Hd. destruct (process_registrations _ _ _ _ _) as [l| |] eqn:E; try done.
  cbn in Hd. injection Hd as _ <- _. by eapply registration_read.
Qed.

(** ** Counting *)

(** How often the subscription with an id was notified. *)
Definition times (id : string) (st : RegState) : nat :=
  length (List.filter (fun n => bool_decide (OID (an_subscriptionId n) = Some id)) (rg_sent st)).

Definition count_of (n : nat) : option Z := if (n =? 0)%nat then None else Some (Z.of_nat n).

(** Every stored count is how often the subscription was notified. *)
Definition counted (st : RegState) : Prop :=
  forall id d, rg_casubs st !! id = Some d ->
    OID id = Some id /\ av_count d = count_of (times id st) /\ (is_Some (av_lastNotification d) <-> times id st <> O).

Lemma counted_same st st' : same_but_clock st st' -> counted st -> counted st'.
Proof. intros (_ & Hc & Hs) H id d. unfold times. rewrite Hc, Hs. apply H. Qed.

Lemma counted_regs regs st : counted st -> counted (set_regs regs st).
Proof. done. Qed.

Lemma count_of_S n : Some (default 0 (count_of n) + 1) = count_of (S n).
Proof. unfold count_of. destruct n; [done|]. cbn -[Z.of_nat Z.add]. f_equal. lia. Qed.

(** A notification and its count. *)
Lemma counted_notified n id now st : OID (an_subscriptionId n) = Some id -> counted st ->
  counted (set_casubs (alter (notified_casub now) id (rg_casubs st)) (add_sent n st)).
Proof.
  intros Hn H i d. cbn [rg_casubs set_casubs]. assert (times i (set_casubs (alter (notified_casub now) id (rg_casubs st)) (add_sent n st))
    = (times i st + if bool_decide (id = i) then 1 else 0)%nat) as ->.
  { unfold times. cbn [rg_sent set_casubs add_sent]. rewrite List.filter_app, length_app. cbn [List.filter]. rewrite Hn. f_equal.
    destruct (decide (id = i)) as [->|Hne]; [by rewrite !bool_decide_eq_true_2|].
    rewrite !bool_decide_eq_false_2 by congruence. done. }
  destruct (decide (id = i)) as [->|Hne].
  - rewrite bool_decide_eq_true_2, lookup_alter_eq by done.
    intros (d' & Hd & ->)%fmap_Some_1. destruct (H i d' Hd) as (Ho & Hc & _). cbn [notified_casub av_count av_lastNotification].
    rewrite Nat.add_1_r, <- count_of_S, Hc. split; [done|]. split; [done|]. split; [done|by eexists].
  - rewrite bool_decide_eq_false_2, lookup_alter_ne, Nat.add_0_r by done. apply H.
Qed.

Section Counted.

Hypothesis notified_stored : notified_error = None.

Lemma availability_counted st enV attrL subId url f tenant corr b st' :
  processAvailabilitySubscription st enV attrL subId url f tenant corr = Ret (b, st') -> counted st -> counted st'.
Proof.
  unfold processAvailabilitySubscription, registrationsQuery. cbn [read_clock].
  destruct (registrations_found _ _ _ _ _ _ _) as [[err|[c l]]| |]; try done; cbn [mbind cpp_bind].
  - intros [= _ <-]. by apply counted_same.
  - destruct (0 <? length l)%nat; [|intros [= _ <-]; by apply counted_same]. unfold mongoUpdateCasubNewNotification.
    destruct (OID subId) as [id|] eqn:Eo; [|done]. rewrite notified_stored. cbn. intros [= _ <-] H.
    by apply (counted_notified (mkAvailabilityNotification subId l url tenant corr f) id (getCurrentTime (S (rg_reads st))) (tick (tick st))).
Qed.

Lemma process_counted st enV subs tenant corr b st' :
  processSubscriptions st enV subs tenant corr = Ret (b, st') -> counted st -> counted st'.
Proof.
  revert st b st'. induction subs as [|[id t] subs IH]; intros st b st'; cbn [processSubscriptions]; [by intros [= _ <-]|].
  destruct (processAvailabilitySubscription _ _ _ _ _ _ _ _) as [[s st1]| |] eqn:E; try done. cbn [mbind cpp_bind].
  destruct (processSubscriptions st1 _ _ _ _) as [[s' st2]| |] eqn:E2; try done. cbn. intros [= _ <-] H.
  eapply IH; [exact E2|]. by eapply availability_counted.
Qed.

Lemma register_counted st req oid tenant sp f corr resp st' :
  processRegisterContext st req oid tenant sp f corr = Ret (resp, st') -> counted st -> counted st'.
Proof.
  unfold processRegisterContext. destruct (availability_expiration _ _) as [[[d e] st1]| |] eqn:Ee; try done.
  apply expiration_same in Ee. cbn [mbind cpp_bind].
  pose proof (trigger_all_same st1 (rr_contextRegistrationVector req) []) as Ht.
  destruct (trigger_all _ _ _) as [[err|subs] st2]; pose proof (transitivity Ee Ht) as Hs; cbn in Hs.
  - intros [= _ <-]. by apply counted_same.
  - destruct regs_error as [err|]; [intros [= _ <-]; by apply counted_same|].
    destruct (processSubscriptions _ _ _ _ _) as [[b st3]| |] eqn:E; try done. cbn. intros [= _ <-] H.
    eapply process_counted; [exact E|]. apply counted_regs. by eapply counted_same.
Qed.

(** A new id: one that the driver makes, and that was never used. *)
Definition fresh (oid : string) (st : RegState) : Prop :=
  OID oid = Some oid /\ rg_casubs st !! oid = None /\ times oid st = O.

Lemma counted_insert id d st : OID id = Some id -> av_count d = count_of (times id st) ->
  (is_Some (av_lastNotification d) <-> times id st <> O) ->
  counted st -> counted (set_casubs (<[id := d]> (rg_casubs st)) st).
Proof.
  intros Ho Hc Hl H i d'. cbn [rg_casubs set_casubs]. intros [[<- <-]|[_ Hi]]%lookup_insert_Some; [done|by apply H].
Qed.

Lemma subscribe_counted st req oid tenant corr resp st' : fresh oid st ->
  mongoSubscribeContextAvailability st req oid tenant corr = Ret (resp, st') -> counted st -> counted st'.
Proof.
  intros (Ho & Hf & Ht). unfold mongoSubscribeContextAvailability.
  destruct (availability_expiration _ _) as [[[d e] st1]| |] eqn:Ee; try done. cbn [mbind cpp_bind].
  apply expiration_same in Ee. destruct casubs_error; [intros [= _ <-]; by apply counted_same|].
  destruct (processAvailabilitySubscription _ _ _ _ _ _ _ _) as [[b st2]| |] eqn:E; try done. cbn. intros [= _ <-] H.
  eapply availability_counted; [exact E|]. assert (times oid st1 = O) as Ht1.
  { unfold times. destruct Ee as (_ & _ & ->). exact Ht. }
  apply counted_insert; [done|by rewrite Ht1| |by eapply counted_same].
  rewrite Ht1. split; [by intros [? [=]]|done].
Qed.

Lemma update_counted st req tenant corr resp st' :
  mongoUpdateContextAvailabilitySubscription st req tenant corr = Ret (resp, st') -> counted st -> counted st'.
Proof.
  unfold mongoUpdateContextAvailabilitySubscription. destruct (OID _) as [id|]; [|by intros [= _ <-]].
  destruct findOne_error; [by intros [= _ <-]|]. destruct (rg_casubs st !! id) as [sub|] eqn:Es; [|by intros [= _ <-]].
  match goal with |- (m ← ?x; _) = _ -> _ => destruct x as [[e st1]| |] eqn:Ee; try done end. cbn [mbind cpp_bind].
  assert (same_but_clock st st1) as Hs.
  { destruct (ar_duration req =s ""); [by injection Ee as _ <-|].
    destruct (availability_expiration _ _) as [[[d' e'] st1']| |] eqn:Ea; try done. injection Ee as _ <-.
    by eapply expiration_same. }
  destruct casubs_error; [intros [= _ <-]; by apply counted_same|].
  destruct (processAvailabilitySubscription _ _ _ _ _ _ _ _) as [[b st2]| |] eqn:E; try done. cbn. intros [= _ <-] H.
  eapply availability_counted; [exact E|]. destruct (H id sub Es) as (Ho & Hc & Hl).
  assert (times id st1 = times id st) as Ht by (unfold times; by destruct Hs as (_ & _ & ->)).
  apply counted_insert; [done|by rewrite Ht|by rewrite Ht|by eapply counted_same].
Qed.

Lemma unsubscribe_counted st subId : counted st -> counted (mongoUnsubscribeContextAvailability st subId).2.
Proof.
  unfold mongoUnsubscribeContextAvailability. destruct (OID subId) as [id|]; [|done].
  destruct findOne_error; [done|]. destruct (rg_casubs st !! id); [|done]. destruct remove_error; [done|].
  intros H i d. cbn [rg_casubs set_casubs snd]. intros [_ Hi]%lookup_delete_Some. by apply H.
Qed.

End Counted.

(** The requests, one at a time. *)
Inductive reg_step (st : RegState) : RegState -> Prop :=
  | step_register req oid tenant sp corr resp st' :
      mongoRegisterContext st req oid tenant sp corr = Ret (resp, st') -> reg_step st st'
  | step_notified crs oid tenant sp corr resp st' :
      mongoNotifyContextAvailability st crs oid tenant sp corr = Ret (resp, st') -> reg_step st st'
  | step_discover enV attrL offset limit details spV resp st' :
      mongoDiscoverContextAvailability st enV attrL offset limit details spV = Ret (resp, st') -> reg_step st st'
  | step_subscribe req oid tenant corr resp st' : fresh oid st ->
      mongoSubscribeContextAvailability st req oid tenant corr = Ret (resp, st') -> reg_step st st'
  | step_update req tenant corr resp st' :
      mongoUpdateContextAvailabilitySubscription st req tenant corr = Ret (resp, st') -> reg_step st st'
  | step_unsubscribe subId resp st' :
      mongoUnsubscribeContextAvailability st subId = (resp, st') -> reg_step st st'.

Definition no_documents : RegState := mkRegState ∅ ∅ [] 0.

(** C27. Whatever requests are served from an empty database, as long as the notifications
    are stored, the count of every availability subscription is the number of notifications
    it was sent, and it has the time of the last one exactly when there was one. *)
Theorem availability_counts st : notified_error = None -> rtc reg_step no_documents st ->
  forall id d, rg_casubs st !! id = Some d ->
    av_count d = count_of (times id st) /\ (is_Some (av_lastNotification d) <-> times id st <> O).
Proof.
  intros Hn Hr. assert (counted st) as H; [|intros id d Hd; by destruct (H id d Hd)].
  revert st Hr. apply (rtc_ind_r counted no_documents); [intros id d; cbn; by rewrite lookup_empty|].
  intros st st' _ Hstep H. destruct Hstep as [? ? ? ? ? ? ? E|? ? ? ? ? ? ? E|? ? ? ? ? ? ? ? E|? ? ? ? ? ? Hf E|? ? ? ? ? E|? ? ? E].
  - revert E. unfold mongoRegisterContext. cbn zeta. destruct (_ =s ""); [intros E; by eapply register_counted|].
    destruct (OID _); [|by intros [= _ <-]]. destruct findOne_error; [by intros [= _ <-]|].
    destruct (find_registration _ _ _); [intros E; by eapply register_counted|by intros [= _ <-]].
  - revert E. unfold mongoNotifyContextAvailability. destruct (processRegisterContext _ _ _ _ _ _ _) as [[r st1]| |] eqn:E; try done.
    cbn. intros [= _ <-]. by eapply register_counted.
  - revert E. unfold mongoDiscoverContextAvailability, registrationsQuery. cbn [read_clock].
    destruct (registrations_found _ _ _ _ _ _ _) as [[err|[c l]]| |]; try done; cbn; intros [= _ <-]; by apply (counted_same st).
  - by eapply subscribe_counted.
  - by eapply update_counted.
  - pose proof (unsubscribe_counted st subId H) as H1. by rewrite E in H1.
Qed.

(** ** Who is notified *)

(** What the query means, [jsmatch r s] being s.match(r) of JavaScript. *)
Definition casub_selects (jsmatch : string -> string -> bool) (now : Z) (cr : ContextRegistration) (d : CasubDoc) : bool :=
  let plain f := existsb f (plain_entities cr) in
  let has v (x : option string) := bool_decide (x = Some v) in
  (now <? av_expiration d) &&
  ((plain (fun en => existsb (fun e => has (eid_id en) (ed_id e) && has (eid_type en) (ed_type e) && has "false" (ed_isPattern e))
                       (av_entities d))
    && ((length (av_attrs d) =? 0)%nat || existsb (fun a => existsb (fun x => x =s cra_name a) (av_attrs d)) (cr_attributes cr)))
   || existsb (fun e => has "true" (ed_isPattern e)
                 && plain (fun en => jsmatch (default "" (ed_id e)) (eid_id en) && has (eid_type en) (ed_type e)))
        (av_entities d)).

Lemma map_insert_perm k t (m : SubMap) : k ∉ m.*1 -> map_insert k t m ≡ₚ (k, t) :: m.
Proof.
  induction m as [|[k' t'] m IH]; [done|]. cbn. rewrite not_elem_of_cons. intros [Hk Hm].
  destruct (strcmp k k') eqn:E; [by apply String.compare_eq_iff in E|done|]. rewrite IH by done. apply Permutation_swap.
Qed.

Lemma key_in id (m : SubMap) : existsb (fun x => x.1 =s id) m = true <-> id ∈ m.*1.
Proof.
  induction m as [|[k t] m IH]; cbn; [by rewrite elem_of_nil|]. rewrite orb_true_iff, IH, elem_of_cons, str_eqb_eq. naive_solver.
Qed.

(** The subscriptions found: each once, as its document has it. *)
Definition found_exactly (casubs : gmap string CasubDoc) (P : string -> CasubDoc -> Prop) (subs : SubMap) : Prop :=
  NoDup subs.*1 /\ forall id t, (id, t) ∈ subs <-> exists d, casubs !! id = Some d /\ P id d /\ t = triggered_casub d.

Lemma casubs_loop_found casubs l P subs : (forall id d, (id, d) ∈ l -> casubs !! id = Some d) ->
  found_exactly casubs P subs ->
  found_exactly casubs (fun id d => P id d \/ (id, d) ∈ l) (casubs_loop ((fun x => Some (Some x.1, x.2)) <$> l) subs).
Proof.
  revert P subs. induction l as [|[i d] l IH]; intros P subs Hl [Hn Hf]; cbn [fmap list_fmap casubs_loop].
  { split; [done|]. intros id t. rewrite Hf. setoid_rewrite elem_of_nil. naive_solver. }
  assert (casubs !! i = Some d) as Hi by (apply Hl; by left).
  cbn [fst snd]. set (subs' := if existsb _ subs then subs else _).
  assert (found_exactly casubs (fun id d' => P id d' \/ (id, d') = (i, d)) subs') as H.
  { unfold subs'. destruct (existsb _ subs) eqn:E.
    - split; [done|]. intros id t. rewrite Hf. split; [naive_solver|]. intros (d' & Hd & [HP|[= -> ->]] & ->); [naive_solver|].
      apply key_in, list_elem_of_fmap in E as ([i' t'] & -> & Hin). apply Hf in Hin as (d'' & Hd' & HP & _). naive_solver.
    - assert (i ∉ subs.*1) as Hni by (by rewrite <- key_in, E). pose proof (map_insert_perm i (triggered_casub d) subs Hni) as Hp.
      split; [rewrite Hp; cbn; by apply NoDup_cons|]. intros id t. rewrite Hp, elem_of_cons, Hf. naive_solver. }
  destruct (IH _ subs' (fun id d' Hin => Hl id d' (list_elem_of_further _ _ _ Hin)) H) as [Hn' Hf'].
  split; [done|]. intros id t. rewrite Hf'. setoid_rewrite elem_of_cons. naive_solver.
Qed.

(** ** What the queries select *)

(** The document of an availability subscription, its _id apart. *)
Definition casub_bson (d : CasubDoc) : doc :=
  [("expiration", BsonLong (av_expiration d)); ("reference", BsonString (av_reference d));
   ("entities", BsonArray (BsonObj ∘ entity_fields <$> av_entities d)); ("attrs", BsonArray (BsonString <$> av_attrs d))]
  ++ field_opt "lastNotification" BsonLong (av_lastNotification d) ++ field_opt "count" BsonLong (av_count d)
  ++ field_opt "format" BsonString (av_format d).

(** What JavaScript makes of the function of $where, for ids and types that are written as
    they are between quotes: some entity is a pattern whose id, as a regular expression,
    matches one of the ids, and it has the type at the same place of the other array. *)
Definition casub_law (jsmatch : string -> string -> bool) (js : string -> doc -> bool) : Prop :=
  let array l := "[ " +:+ join " ," (quoted <$> l) +:+ " ]" in
  forall ids types d es, length ids = length types ->
    Forall (fun s => quotable s = true) ids -> Forall (fun s => quotable s = true) types ->
    getField d "entities" = Some (BsonArray (BsonObj <$> es)) ->
    Forall (Forall (fun kv => exists s, kv.2 = BsonString s)) es ->
    js ("function(){enId = " +:+ array ids +:+ ";enType = " +:+ array types +:+
        dq ";for (var i=0; i < this.entities.length; i++) {if (this.entities[i].isPattern == 'true') {for (var j = 0; j < enId.length; j++) {if (enId[j].match(this.entities[i].id) && this.entities[i].type == enType[j]) {return true; }}}}return false; }") d
    = existsb (fun e => is_text "true" (getField e "isPattern")
        && existsb (fun x => jsmatch (getStringField e "id") x.1 && is_text x.2 (getField e "type")) (zip ids types)) es.

Lemma js_array_join l : js_array l = "[ " +:+ join " ," (quoted <$> l) +:+ " ]".
Proof.
  unfold js_array. f_equal. f_equal. induction l as [|s [|t l] IH]; [done..|].
  transitivity (quoted s +:+ " ," +:+ join " ," (quoted <$> t :: l)); [|done].
  rewrite <- IH. unfold quoted. by rewrite !app_assoc_str.
Qed.

Lemma existsb_zip {A B C} (f : B * C -> bool) (g : A -> B) (h : A -> C) l :
  existsb f (zip (g <$> l) (h <$> l)) = existsb (fun x => f (g x, h x)) l.
Proof. induction l as [|x l IH]; [done|]. cbn. by rewrite <- IH. Qed.

Lemma existsb_andb_l {A} (b : bool) (f : A -> bool) l : existsb (fun x => b && f x) l = b && existsb f l.
Proof. induction l as [|x l IH]; cbn; [by rewrite andb_false_r|]. rewrite IH. btauto. Qed.

Lemma existsb_ext_all {A} (f g : A -> bool) l : (forall x, f x = g x) -> existsb f l = existsb g l.
Proof. intros H. induction l as [|x l IH]; [done|]. cbn. by rewrite H, IH. Qed.

Section Selected.

Context (regex : string -> string -> bool) (js : string -> doc -> bool) (jsmatch : string -> string -> bool).

Lemma casub_function_selects d es : casub_law jsmatch js ->
  Forall (fun en => quotable (eid_id en) = true /\ quotable (eid_type en) = true) es ->
  js (casub_function (eid_id <$> es) (eid_type <$> es)) (casub_bson d)
  = existsb (fun e => is_field "true" (ed_isPattern e)
       && existsb (fun en => jsmatch (default "" (ed_id e)) (eid_id en) && is_field (eid_type en) (ed_type e)) es) (av_entities d).
Proof.
  intros Hjs Hq. pose proof (Hjs (eid_id <$> es) (eid_type <$> es) (casub_bson d) (entity_fields <$> av_entities d)) as H.
  cbv zeta in H.
  match type of H with _ -> _ -> _ -> _ -> _ -> js ?t _ = _ => assert (casub_function (eid_id <$> es) (eid_type <$> es) = t) as -> end.
  { unfold casub_function. rewrite <- !js_array_join. cbn. unfold str1.
    by rewrite ?app_assoc_str, ?app_cons_str, ?app_nil_l_str, ?app_assoc_str, ?app_cons_str, ?app_nil_l_str, ?app_nil_r_str. }
  rewrite H.
  - apply existsb_fmap. intros e. destruct (entity_field_texts e) as (E1 & E2 & E3).
    unfold getStringField. rewrite E1, E2, E3, is_text_field, existsb_zip. f_equal.
    apply existsb_ext_all. intros en. cbn [fst snd]. rewrite is_text_field. by destruct (ed_id e).
  - by rewrite !length_fmap.
  - apply Forall_fmap. eapply Forall_impl; [exact Hq|]. by intros en [? _].
  - apply Forall_fmap. eapply Forall_impl; [exact Hq|]. by intros en [_ ?].
  - by rewrite <- list_fmap_compose.
  - apply Forall_fmap, Forall_forall. intros e _. unfold entity_fields, compose.
    destruct (ed_id e), (ed_type e), (ed_isPattern e); repeat constructor; by eexists.
Qed.

(** An entity of the query is an entity of the document, field by field. *)
Lemma same_entity en e :
  value_eqb (BsonObj [("id", BsonString (eid_id en)); ("type", BsonString (eid_type en)); ("isPattern", BsonString "false")])
    (BsonObj (entity_fields e))
  = is_field (eid_id en) (ed_id e) && is_field (eid_type en) (ed_type e) && is_field "false" (ed_isPattern e).
Proof.
  rewrite <- !is_text_field. unfold entity_fields.
  destruct (ed_id e), (ed_type e), (ed_isPattern e); cbn; rewrite ?andb_false_r; try done.
  rewrite !andb_true_r, andb_assoc, (str_eqb_sym (eid_id en)), (str_eqb_sym (eid_type en)). f_equal.
  match goal with |- _ = (?s =s "false") => by rewrite (str_eqb_sym s) end.
Qed.

Lemma existsb_stronger {A} (f g : A -> bool) l :
  existsb f l && existsb (fun x => f x && g x) l = existsb (fun x => f x && g x) l.
Proof.
  induction l as [|x l IH]; [done|]. cbn [existsb]. rewrite <- IH. destruct (f x), (g x), (existsb f l); cbn; btauto.
Qed.

Definition query_entity (en : EntityId) : bson :=
  BsonObj [("id", BsonString (eid_id en)); ("type", BsonString (eid_type en)); ("isPattern", BsonString "false")].

Lemma among_entities en d : existsb (meets regex (query_entity en)) (values (casub_bson d) "entities")
  = existsb (fun e => is_field (eid_id en) (ed_id e) && is_field (eid_type en) (ed_type e) && is_field "false" (ed_isPattern e))
      (av_entities d).
Proof.
  change (values _ _) with ((Some <$> (BsonObj ∘ entity_fields <$> av_entities d)) ++ [Some (BsonArray (BsonObj ∘ entity_fields <$> av_entities d))]).
  rewrite existsb_app. cbn [existsb]. rewrite orb_false_r. rewrite <- list_fmap_compose.
  rewrite (existsb_fmap _ _ (fun e => is_field (eid_id en) (ed_id e) && is_field (eid_type en) (ed_type e) && is_field "false" (ed_isPattern e)))
    by (intros e; apply same_entity).
  done.
Qed.

Lemma among_attributes name d : existsb (meets regex (BsonString name)) (values (casub_bson d) "attrs")
  = existsb (fun x => x =s name) (av_attrs d).
Proof.
  change (values _ _) with ((Some <$> (BsonString <$> av_attrs d)) ++ [Some (BsonArray (BsonString <$> av_attrs d))]).
  rewrite existsb_app, <- list_fmap_compose. cbn [existsb]. 
  rewrite (existsb_fmap _ _ (fun x => x =s name)) by (intros x; apply str_eqb_sym). apply orb_false_r.
Qed.

Lemma no_attributes d : existsb (has_size 0) (values (casub_bson d) "attrs") = (length (av_attrs d) =? 0)%nat.
Proof.
  change (values _ _) with ((Some <$> (BsonString <$> av_attrs d)) ++ [Some (BsonArray (BsonString <$> av_attrs d))]).
  rewrite existsb_app, <- list_fmap_compose. cbn [existsb]. 
  rewrite (existsb_fmap _ _ (fun _ => false)) by done. cbn. rewrite length_fmap.
  destruct (av_attrs d) as [|a l]; [done|]. by induction l.
Qed.

Lemma casub_query_selects now d cr : casub_law jsmatch js ->
  Forall (fun en => quotable (eid_id en) = true /\ quotable (eid_type en) = true) (plain_entities cr) ->
  selected regex js (casubs_query now now cr) (casub_bson d) = casub_selects jsmatch now cr d.
Proof.
  intros Hjs Hq. pose proof (casub_function_selects d (plain_entities cr) Hjs Hq) as Hw.
  assert (values (casub_bson d) "expiration" = [Some (BsonLong (av_expiration d))]) as Ve by done.
  assert (values (casub_bson d) "entities.isPattern" = (fun e => BsonString <$> ed_isPattern e) <$> av_entities d) as Va
    by (apply (array_texts entity_fields); apply entity_field_texts).
  pose proof (fun en => among_entities en d) as Hen. pose proof (fun name => among_attributes name d) as Hat.
  pose proof (no_attributes d) as Hno. remember (casub_bson d) as b eqn:Eb.
  unfold selected, casubs_query.
  change (fun en => BsonObj [("id", BsonString (eid_id en)); ("type", BsonString (eid_type en)); ("isPattern", BsonString "false")])
    with query_entity.
  assert (existsb (fun q => existsb (meets regex q) (values b "entities")) (query_entity <$> plain_entities cr)
    = existsb (fun en => existsb (fun e => is_field (eid_id en) (ed_id e) && is_field (eid_type en) (ed_type e) && is_field "false" (ed_isPattern e))
      (av_entities d)) (plain_entities cr)) as H1 by (apply existsb_fmap; exact Hen).
  assert (existsb (fun q => existsb (meets regex q) (values b "attrs")) (BsonString ∘ cra_name <$> cr_attributes cr)
    = existsb (fun a => existsb (fun x => x =s cra_name a) (av_attrs d)) (cr_attributes cr)) as H2
    by (apply existsb_fmap; intros a; apply Hat).
  rewrite length_fmap.
  cbn -[values casub_function meets is_above has_size query_entity]. rewrite H1, Hw, Ve, Va, texts_meet.
  assert (casub_selects jsmatch now cr d
    = (now <? av_expiration d) &&
      ((existsb (fun en => existsb (fun e => is_field (eid_id en) (ed_id e) && is_field (eid_type en) (ed_type e) && is_field "false" (ed_isPattern e))
          (av_entities d)) (plain_entities cr)
        && ((length (av_attrs d) =? 0)%nat || existsb (fun a => existsb (fun x => x =s cra_name a) (av_attrs d)) (cr_attributes cr)))
       || existsb (fun e => is_field "true" (ed_isPattern e)
            && existsb (fun en => jsmatch (default "" (ed_id e)) (eid_id en) && is_field (eid_type en) (ed_type e)) (plain_entities cr))
          (av_entities d))) as -> by done.
  rewrite <- (existsb_stronger (fun e => is_field "true" (ed_isPattern e))).
  change (existsb (is_above now) [Some (BsonLong (av_expiration d))]) with ((now <? av_expiration d) || false).
  destruct (length (cr_attributes cr) =? 0)%nat eqn:El; cbn -[values meets is_above has_size]; rewrite ?H2, Hno.
  - destruct (cr_attributes cr) eqn:Ea; [|done]. cbn [existsb]. btauto.
  - btauto.
Qed.

(** A registration, as its document holds it. *)
Record Registered := mkRegistered {
  rd_expiration : Z; rd_servicePath : string; rd_format : string; rd_registrations : list ContextRegistration
}.
Definition registered_document (r : Registered) : doc :=
  registration_document (rd_expiration r) (rd_servicePath r) (rd_format r) (rd_registrations r).

Definition registered_entities (r : Registered) : list EntityId := flat_map cr_entityIdVector (rd_registrations r).

(** A registration has the entity that is asked for: a pattern is matched by the id of one of
    its entities, and its type is that of one of them, maybe another. *)
Definition has_entity (en : EntityId) (r : Registered) : bool :=
  let es := registered_entities r in
  if isTrue (eid_isPattern en)
  then existsb (fun e => regex (eid_id en) (eid_id e)) es
       && ((eid_type en =s "") || existsb (fun e => eid_type en =s eid_type e) es)
  else existsb (fun e => (eid_id en =s eid_id e) && ((eid_type en =s "") || (eid_type en =s eid_type e))) es.

(** What is asked for: an entity, an attribute when some are named, later than now, in a
    service path (the tenant's registrations all have one). *)
Definition registered_selects (now : Z) (enV : list EntityId) (attrL : list string) (r : Registered) : bool :=
  existsb (fun en => has_entity en r) enV && (now <? rd_expiration r)
  && ((length attrL =? 0)%nat
      || existsb (fun a => existsb (fun x => a =s cra_name x) (flat_map cr_attributes (rd_registrations r))) attrL)
  && String.prefix "/" (if rd_servicePath r =s "" then DEFAULT_SERVICE_PATH_UPDATES else rd_servicePath r).

Lemma nested_texts {A B} (outer : A -> doc) (k f : string) (inner : A -> list B) (enc : B -> doc) (g : B -> option string) l :
  (forall x, getField (outer x) k = Some (BsonArray (BsonObj ∘ enc <$> inner x))) ->
  (forall y, getField (enc y) f = BsonString <$> g y) ->
  path_values [k; f] (BsonArray (BsonObj ∘ outer <$> l)) = (fun y => BsonString <$> g y) <$> flat_map inner l.
Proof.
  intros Ho Hi. induction l as [|x l IH]; [done|]. cbn [path_values fmap list_fmap flat_map] in IH |- *.
  unfold compose at 1. rewrite IH, Ho, fmap_app. f_equal. by apply (array_texts enc g).
Qed.

Lemma registered_values r :
  let d := registered_document r in
  values d "contextRegistration.entities.id" = (fun e => BsonString <$> Some (eid_id e)) <$> registered_entities r /\
  values d "contextRegistration.entities.type"
    = (fun e => BsonString <$> (if eid_type e =s "" then None else Some (eid_type e))) <$> registered_entities r /\
  values d "contextRegistration.attrs.name"
    = (fun a => BsonString <$> Some (cra_name a)) <$> flat_map cr_attributes (rd_registrations r) /\
  values d "expiration" = [Some (BsonLong (rd_expiration r))] /\
  values d "servicePath" = [Some (BsonString (if rd_servicePath r =s "" then DEFAULT_SERVICE_PATH_UPDATES else rd_servicePath r))].
Proof.
  split_and!; [| | |done..].
  - by apply (nested_texts registered_doc REG_ENTITIES "id" cr_entityIdVector registered_entity_doc (fun e => Some (eid_id e))).
  - apply (nested_texts registered_doc REG_ENTITIES "type" cr_entityIdVector registered_entity_doc
      (fun e => if eid_type e =s "" then None else Some (eid_type e))); [done|].
    intros e. unfold registered_entity_doc. by destruct (eid_type e =s "").
  - by apply (nested_texts registered_doc REG_ATTRS "name" cr_attributes registered_attr_doc (fun a => Some (cra_name a))).
Qed.

Lemma existsb_filter {A} (f p : A -> bool) l : existsb f (List.filter p l) = existsb (fun x => p x && f x) l.
Proof. induction l as [|x l IH]; [done|]. cbn. destruct (p x); cbn; by rewrite IH. Qed.

Lemma existsb_or {A} (f g : A -> bool) l : existsb f l || existsb g l = existsb (fun x => f x || g x) l.
Proof. induction l as [|x l IH]; [done|]. cbn. rewrite <- IH. btauto. Qed.

Lemma existsb_flat_map {A B} (f : B -> bool) (g : A -> list B) l :
  existsb f (flat_map g l) = existsb (fun x => existsb f (g x)) l.
Proof. induction l as [|x l IH]; [done|]. cbn. by rewrite existsb_app, IH. Qed.

(** A typed entity of the query, in one order of its fields or the other. *)
Definition both_orders (en : EntityId) : list bson :=
  [BsonObj [(REG_ENTITY_ID, BsonString (eid_id en)); (REG_ENTITY_TYPE, BsonString (eid_type en))];
   BsonObj [(REG_ENTITY_TYPE, BsonString (eid_type en)); (REG_ENTITY_ID, BsonString (eid_id en))]].

Lemma one_registered en e : (eid_type en =s "") = false ->
  existsb (fun q => meets regex q (Some (BsonObj (registered_entity_doc e)))) (both_orders en)
  = (eid_id en =s eid_id e) && (eid_type en =s eid_type e).
Proof.
  intros Hty. unfold registered_entity_doc, both_orders. destruct (eid_type e =s "") eqn:E.
  - apply str_eqb_eq in E. rewrite E, Hty, andb_false_r. cbn. btauto.
  - cbn. btauto.
Qed.

Lemma among_registered en r : (eid_type en =s "") = false ->
  existsb (fun q => existsb (meets regex q) (values (registered_document r) "contextRegistration.entities")) (both_orders en)
  = existsb (fun e => (eid_id en =s eid_id e) && (eid_type en =s eid_type e)) (registered_entities r).
Proof.
  intros Hty.
  change (values _ _) with (path_values ["entities"] (BsonArray (BsonObj ∘ registered_doc <$> rd_registrations r))).
  unfold registered_entities. rewrite existsb_flat_map. induction (rd_registrations r) as [|cr l IH]; [done|].
  cbn [existsb]. rewrite <- IH. cbn [path_values fmap list_fmap flat_map]. unfold compose at 1.
  set (rest := flat_map _ _). change (getField (registered_doc cr) "entities")
    with (Some (BsonArray (BsonObj ∘ registered_entity_doc <$> cr_entityIdVector cr))). 
  cbn [path_values both_orders existsb]. rewrite !existsb_app. cbn [existsb].
  rewrite <- list_fmap_compose.
  assert (existsb (fun e => (eid_id en =s eid_id e) && (eid_type en =s eid_type e)) (cr_entityIdVector cr)
    = existsb (fun e => existsb (fun q => meets regex q (Some (BsonObj (registered_entity_doc e)))) (both_orders en)) (cr_entityIdVector cr)) as ->.
  { apply existsb_ext_all. intros e. by rewrite one_registered. }
  cbn [both_orders existsb]. rewrite <- !existsb_or.
  rewrite !(existsb_fmap _ _ (fun e => meets regex _ (Some (BsonObj (registered_entity_doc e))))) by done.
  assert (existsb (fun _ => false) (cr_entityIdVector cr) = false) as -> by (by induction (cr_entityIdVector cr)).
  assert (forall k v o l, meets regex (BsonObj ((k, v) :: o)) (Some (BsonArray l)) = false) as Ha by done.
  rewrite !Ha. btauto.
Qed.

Definition none_or_root (sp : bson) : Prop := sp = BsonObj (in_or_null ("^" +:+ backslash +:+ "/.*")).

Lemma below_root sp : found_in [[Bol; Lit "/"; AnyStar]] sp = String.prefix "/" sp.
Proof.
  destruct sp as [|c s]; [done|]. rewrite prefix_cons. unfold found_in. cbn [existsb found_from match_here].
  assert (found_from [Bol; Lit "/"; AnyStar] false s = false) as -> by (by induction s).
  rewrite !orb_false_r. cbn [andb]. rewrite (Ascii.eqb_sym c). f_equal. by destruct s.
Qed.

(** The parts of the query that ask for entities: patterns, ids with a type, and ids. *)
Lemma pattern_part en r : 
  forallb (fun kv => clause regex js (registered_document r) kv.1 kv.2)
    (("contextRegistration.entities.id", BsonRegex (eid_id en))
     :: (if eid_type en =s "" then [] else [("contextRegistration.entities.type", BsonString (eid_type en))]))
  = existsb (fun e => regex (eid_id en) (eid_id e)) (registered_entities r)
    && ((eid_type en =s "") || existsb (fun e => eid_type en =s eid_type e) (registered_entities r)).
Proof.
  destruct (registered_values r) as (Vi & Vt & _). remember (registered_document r) as d eqn:Ed. clear Ed.
  destruct (eid_type en =s "") eqn:Ety; cbn -[values meets]; rewrite Vi.
  - rewrite (existsb_fmap _ _ (fun e => regex (eid_id en) (eid_id e))) by done. btauto.
  - rewrite Vt, (existsb_fmap _ _ (fun e => regex (eid_id en) (eid_id e))) by done.
    rewrite (existsb_fmap _ _ (fun e => eid_type en =s eid_type e)); [btauto|].
    intros e. destruct (eid_type e =s "") eqn:E; [|done]. apply str_eqb_eq in E. by rewrite E, Ety.
Qed.

Lemma untyped_part es r :
  existsb (fun q => existsb (meets regex q) (values (registered_document r) "contextRegistration.entities.id")) (BsonString ∘ eid_id <$> es)
  = existsb (fun en => existsb (fun e => eid_id en =s eid_id e) (registered_entities r)) es.
Proof.
  destruct (registered_values r) as (Vi & _). rewrite Vi. apply existsb_fmap. intros en. by apply existsb_fmap.
Qed.

Lemma typed_part es r : Forall (fun en => (eid_type en =s "") = false) es ->
  existsb (fun q => existsb (meets regex q) (values (registered_document r) "contextRegistration.entities")) (flat_map both_orders es)
  = existsb (fun en => existsb (fun e => (eid_id en =s eid_id e) && (eid_type en =s eid_type e)) (registered_entities r)) es.
Proof.
  intros H. rewrite existsb_flat_map. induction H as [|en es Hty _ IH]; [done|]. cbn [existsb]. rewrite IH. f_equal.
  by apply among_registered.
Qed.

Lemma entities_part enV r :
  let exacts := List.filter (fun en => negb (isTrue (eid_isPattern en))) enV in
  existsb (fun en => existsb (fun e => regex (eid_id en) (eid_id e)) (registered_entities r)
      && ((eid_type en =s "") || existsb (fun e => eid_type en =s eid_type e) (registered_entities r)))
    (List.filter (fun en => isTrue (eid_isPattern en)) enV)
  || (existsb (fun en => existsb (fun e => (eid_id en =s eid_id e) && (eid_type en =s eid_type e)) (registered_entities r))
       (List.filter (fun en => negb (eid_type en =s "")) exacts)
     || existsb (fun en => existsb (fun e => eid_id en =s eid_id e) (registered_entities r))
       (List.filter (fun en => eid_type en =s "") exacts))
  = existsb (fun en => has_entity en r) enV.
Proof.
  cbv zeta. rewrite !existsb_filter, !existsb_or. apply existsb_ext_all. intros en. unfold has_entity.
  destruct (isTrue (eid_isPattern en)); cbn [andb negb orb]; [btauto|].
  destruct (eid_type en =s "") eqn:E; cbn [andb negb orb].
  - apply existsb_ext_all. intros e. btauto.
  - rewrite orb_false_r. apply existsb_ext_all. done.
Qed.

Lemma registered_query_selects now enV attrL sp r : regex_law regex -> none_or_root sp ->
  selected regex js (registrations_query now enV attrL sp) (registered_document r) = registered_selects now enV attrL r.
Proof.
  intros Hr ->. destruct (registered_values r) as (_ & _ & Vn & Ve & Vp).
  unfold registered_selects. rewrite <- entities_part, <- typed_part, <- untyped_part.
  2:{ apply Forall_forall. intros en Hin. apply list_elem_of_In, filter_In in Hin as [_ Hn]. by apply negb_true_iff. }
  unfold selected, registrations_query. cbv zeta.
  change (REG_CONTEXT_REGISTRATION +:+ "." +:+ REG_ENTITIES +:+ "." +:+ REG_ENTITY_ID) with "contextRegistration.entities.id".
  change (REG_CONTEXT_REGISTRATION +:+ "." +:+ REG_ENTITIES +:+ "." +:+ REG_ENTITY_TYPE) with "contextRegistration.entities.type".
  change (REG_CONTEXT_REGISTRATION +:+ "." +:+ REG_ENTITIES) with "contextRegistration.entities".
  change (REG_CONTEXT_REGISTRATION +:+ "." +:+ REG_ATTRS +:+ "." +:+ REG_ATTRS_NAME) with "contextRegistration.attrs.name".
  rewrite !forallb_app.
  change (fun en => [BsonObj [(REG_ENTITY_ID, BsonString (eid_id en)); (REG_ENTITY_TYPE, BsonString (eid_type en))];
                  BsonObj [(REG_ENTITY_TYPE, BsonString (eid_type en)); (REG_ENTITY_ID, BsonString (eid_id en))]])
    with both_orders.
  rewrite <- (existsb_fmap (fun x => match x with BsonObj o => forallb (fun kv => clause regex js (registered_document r) kv.1 kv.2) o | _ => false end)
     (BsonObj ∘ (fun en => ("contextRegistration.entities.id", BsonRegex (eid_id en))
     :: (if eid_type en =s "" then [] else [("contextRegistration.entities.type", BsonString (eid_type en))]))) _
     (List.filter _ enV) (fun en => pattern_part en r)).
  remember (registered_document r) as d eqn:Ed. clear Ed.
  cbn -[values meets is_above]. rewrite existsb_app. cbn -[values meets is_above].
  change REG_EXPIRATION with "expiration". change REG_SERVICE_PATH with "servicePath".
  rewrite Ve, Vp. cbn [existsb meets].
  set (sp := if rd_servicePath r =s "" then _ else _).
  rewrite (Hr _ [[Bol; Lit "/"; AnyStar]]) by done. rewrite below_root.
  assert (forallb (fun kv => clause regex js d kv.1 kv.2)
     (if (length attrL =? 0)%nat then [] else [("contextRegistration.attrs.name", BsonObj [("$in", BsonArray (BsonString <$> attrL))])])
    = (length attrL =? 0)%nat || existsb (fun a => existsb (fun x => a =s cra_name x) (flat_map cr_attributes (rd_registrations r))) attrL) as Ha.
  { destruct (length attrL =? 0)%nat; [done|]. cbn -[values meets]. rewrite Vn. rewrite !andb_true_r. apply existsb_fmap.
    intros a. by apply existsb_fmap. }
  change (value_eqb BsonNull _) with false. change (is_above now _) with (now <? rd_expiration r). rewrite Ha. btauto.
Qed.

Lemma no_path_condition : fromjson_law fromjson ->
  service_path_condition fromjson [""] = Ret (BsonObj (in_or_null ("^" +:+ backslash +:+ "/.*"))).
Proof.
  intros Hf. unfold service_path_condition. cbn [fillQueryServicePath vec_at mbind cpp_bind].
  pose proof (fromjson_tight _ Hf ("^" +:+ backslash +:+ "/.*")) as H.
  change ("{$in: [ /" +:+ ("^" +:+ backslash +:+ "/.*") +:+ "/, null] }") with ("{$in: [ /^" +:+ backslash +:+ "/.*/, null] }") in H.
  cbn. rewrite H by (by eexists). done.
Qed.

Lemma registrations_read l enV attrL :
  process_registrations regcomp regexec (Some <$> (registered_document <$> l)) enV attrL
  = Ret (flat_map (restricted enV attrL) (flat_map rd_registrations l)).
Proof.
  induction l as [|r l IH]; [done|]. rewrite !fmap_cons. cbn [process_registrations flat_map].
  change (getField (registered_document r) REG_CONTEXT_REGISTRATION)
    with (Some (BsonArray (BsonObj ∘ registered_doc <$> rd_registrations r))).
  cbn [Array mbind cpp_bind]. rewrite list_fmap_compose, embedded_all_docs. cbn [mbind cpp_bind].
  rewrite elements_read. cbn [mbind cpp_bind]. rewrite IH. cbn [mbind cpp_bind]. by rewrite flat_map_app.
Qed.

End Selected.

Section Notified.

Context (jsmatch : string -> string -> bool) (now : Z).
Hypothesis clock : forall n, getCurrentTime n = now.

(** The database answers the query with the documents it means. *)
Definition answers (casubs : gmap string CasubDoc) (cr : ContextRegistration) : Prop :=
  find_casubs casubs (casubs_query now now cr)
    = inr ((fun x => Some (Some x.1, x.2)) <$> List.filter (fun x => casub_selects jsmatch now cr x.2) (map_to_list casubs)).

Lemma trigger_all_found st crs P subs : Forall (answers (rg_casubs st)) crs -> found_exactly (rg_casubs st) P subs ->
  exists subs', (trigger_all st crs subs).1 = inr subs' /\
    found_exactly (rg_casubs st) (fun id d => P id d \/ exists cr, cr ∈ crs /\ casub_selects jsmatch now cr d = true) subs'.
Proof.
  revert st P subs. induction crs as [|cr crs IH]; intros st P subs Ha Hf; cbn [trigger_all].
  { exists subs. split; [done|]. destruct Hf as [Hn Hf]. split; [done|]. intros id t. rewrite Hf.
    setoid_rewrite elem_of_nil. naive_solver. }
  apply Forall_cons in Ha as [Ha Hc]. unfold addTriggeredSubscriptions. cbn [read_clock]. rewrite !clock.
  change (rg_casubs (tick (tick st))) with (rg_casubs st). rewrite Ha.
  set (l := List.filter _ _). assert (forall id d, (id, d) ∈ l <-> rg_casubs st !! id = Some d /\ casub_selects jsmatch now cr d = true) as Hl.
  { intros id d. unfold l. rewrite list_elem_of_In, filter_In, <- list_elem_of_In, elem_of_map_to_list. done. }
  destruct (IH (tick (tick st)) (fun id d => P id d \/ (id, d) ∈ l) (casubs_loop ((fun x => Some (Some x.1, x.2)) <$> l) subs))
    as (subs' & -> & Hn & Hf'); [done|apply casubs_loop_found; [naive_solver|done]|].
  exists subs'. split; [done|]. split; [done|]. intros id t. rewrite Hf'. setoid_rewrite elem_of_cons. cbn. naive_solver.
Qed.

(** The notification of a triggered subscription: none when no registration is found. *)
Definition notice (regs : gmap string doc) (enV : list EntityId) (tenant corr : string)
    (x : string * TriggeredSubscription) : option AvailabilityNotification :=
  match registrations_found now regs enV (ts_attrL x.2) [""] 0 20 with
  | Ret (inr (_, (_ :: _) as crrV)) =>
      Some (mkAvailabilityNotification x.1 crrV (ts_reference x.2) tenant corr (ts_renderFormat x.2))
  | _ => None
  end.

Lemma availability_notice st enV t id tenant corr b st' :
  processAvailabilitySubscription st enV (ts_attrL t) id (ts_reference t) (ts_renderFormat t) tenant corr = Ret (b, st') ->
  rg_sent st' = rg_sent st ++ option_list (notice (rg_regs st) enV tenant corr (id, t)).
Proof.
  unfold processAvailabilitySubscription, registrationsQuery, notice. cbn [read_clock fst snd]. rewrite clock.
  destruct (registrations_found _ _ _ _ _ _ _) as [[err|[c [|r l]]]| |]; try done; cbn [mbind cpp_bind].
  1,2: intros [= _ <-]; by rewrite app_nil_r.
  cbn [length Nat.ltb Nat.leb]. unfold mongoUpdateCasubNewNotification. destruct (OID id); [|done]. cbn. intros [= _ <-].
  by destruct notified_error.
Qed.

Lemma process_notices st enV subs tenant corr b st' :
  processSubscriptions st enV subs tenant corr = Ret (b, st') ->
  rg_sent st' = rg_sent st ++ omap (notice (rg_regs st) enV tenant corr) subs.
Proof.
  revert st b st'. induction subs as [|[id t] subs IH]; intros st b st'; cbn [processSubscriptions].
  { intros [= _ <-]. by rewrite app_nil_r. }
  destruct (processAvailabilitySubscription _ _ _ _ _ _ _ _) as [[s st1]| |] eqn:E; try done. cbn [mbind cpp_bind].
  destruct (processSubscriptions st1 _ _ _ _) as [[s' st2]| |] eqn:E2; try done. cbn [mbind cpp_bind]. intros [= _ <-].
  rewrite (IH _ _ _ E2), (availability_notice _ _ _ _ _ _ _ _ E), (availability_regs _ _ _ _ _ _ _ _ _ _ E), <- app_assoc.
  f_equal. cbn [omap list_omap]. by destruct (notice _ _ _ _ _).
Qed.

Lemma notices_nodup regs enV tenant corr subs : NoDup subs.*1 ->
  NoDup (an_subscriptionId <$> omap (notice regs enV tenant corr) subs).
Proof.
  assert (forall x n, notice regs enV tenant corr x = Some n -> an_subscriptionId n = x.1) as Hk.
  { intros x n. unfold notice. destruct (registrations_found _ _ _ _ _ _ _) as [[err|[c [|r l]]]| |]; try done. by intros [= <-]. }
  induction subs as [|x subs IH]; [done|]. cbn. rewrite NoDup_cons. intros [Hx Hn].
  destruct (notice regs enV tenant corr x) as [n|] eqn:E; [|by apply IH]. cbn. apply NoDup_cons. split; [|by apply IH].
  rewrite (Hk _ _ E). intros (m & Hm & Hin)%list_elem_of_fmap. apply list_elem_of_omap in Hin as (y & Hy & Hym).
  apply Hk in Hym. apply Hx. rewrite Hm, Hym. apply list_elem_of_fmap. by exists y.
Qed.

(** Who is notified, in terms of the answers of the database. *)
Lemma notified_from_found st req oid tenant sp corr resp st' :
  Forall (answers (rg_casubs st)) (rr_contextRegistrationVector req) ->
  processRegisterContext st req oid tenant sp "JSON" corr = Ret (resp, st') -> sc_code (rp_errorCode resp) = SccOk ->
  exists sent, rg_sent st' = rg_sent st ++ sent /\ NoDup (an_subscriptionId <$> sent) /\
    forall n, n ∈ sent <-> exists d cr count,
      rg_casubs st !! an_subscriptionId n = Some d /\
      cr ∈ rr_contextRegistrationVector req /\ casub_selects jsmatch now cr d = true /\
      registrations_found now (rg_regs st') (flat_map cr_entityIdVector (rr_contextRegistrationVector req)) (av_attrs d) [""] 0 20
        = Ret (inr (count, an_registrations n)) /\ an_registrations n <> [] /\
      an_url n = av_reference d /\ an_tenant n = tenant /\ an_fiwareCorrelator n = corr /\
      an_renderFormat n = match av_format d with Some f => stringToRenderFormat f false | None => NGSI_V1_LEGACY end.
Proof.
  intros Ha H Hok. revert H. unfold processRegisterContext.
  destruct (availability_expiration _ _) as [[[du e] st1]| |] eqn:Ee; try done. apply expiration_same in Ee.
  cbn [mbind cpp_bind]. set (crs := rr_contextRegistrationVector req) in *. set (enV := flat_map _ crs).
  pose proof (trigger_all_same st1 crs []) as Ht.
  destruct (trigger_all_found st1 crs (fun _ _ => False) []) as (subs & Hs & Hn & Hf).
  { destruct Ee as (_ & -> & _). exact Ha. }
  { split; [apply NoDup_nil_2|]. intros id t. rewrite elem_of_nil. naive_solver. }
  destruct (trigger_all st1 crs []) as [r st2]. cbn in Hs. subst r. cbn in Ht.
  assert (rg_casubs st1 = rg_casubs st) as Hc by (by destruct Ee as (_ & ? & _)). rewrite Hc in Hf.
  destruct regs_error as [err|]; [intros [= <- _]; done|].
  destruct (processSubscriptions _ _ _ _ _) as [[b st3]| |] eqn:E; try done. cbn [mbind cpp_bind]. intros [= _ <-].
  pose proof (process_regs _ _ _ _ _ _ _ E) as Hr. rewrite (process_notices _ _ _ _ _ _ _ E), Hr. cbn [rg_sent rg_regs set_regs].
  set (regs := <[oid:=_]> _). assert (rg_sent st2 = rg_sent st) as -> by (destruct Ee as (_ & _ & <-), Ht as (_ & _ & <-); done).
  eexists. split; [done|]. clear E Hr Hok. split.
  - by apply notices_nodup.
  - intros n. rewrite list_elem_of_omap. split.
    + intros ([id t] & Hin & Hno). apply Hf in Hin as (d & Hd & [[]|(cr & Hcr & Hsel)] & ->).
      unfold notice in Hno. cbn [fst snd] in Hno. 
      destruct (registrations_found _ _ _ _ _ _ _) as [[err|[c [|r l]]]| |] eqn:Er; try done. injection Hno as <-.
      exists d, cr, c. by split_and!.
    + intros (d & cr & c & Hd & Hcr & Hsel & Hfo & Hne & Hu & Hte & Hco & Hrf).
      exists (an_subscriptionId n, triggered_casub d). split; [apply Hf; exists d; naive_solver|].
      unfold notice. cbn [fst snd]. change (ts_attrL (triggered_casub d)) with (av_attrs d). rewrite Hfo.
      destruct n as [i l u t k f]. cbn in *. destruct l; [done|]. subst. done.
Qed.

(** A database that answers the queries with the documents that satisfy them, the
    registrations in some order. *)
Record answers_queries (regex : string -> string -> bool) (js : string -> doc -> bool)
    (natural : gmap string doc -> list doc) : Prop := {
  aq_casubs casubs q : find_casubs casubs q
    = inr ((fun x => Some (Some x.1, x.2)) <$> List.filter (fun x => selected regex js q (casub_bson x.2)) (map_to_list casubs));
  aq_regs regs q limit offset : 0 < limit -> exists count, find_regs regs q limit offset
    = inr (count, Some <$> take (Z.to_nat limit) (drop (Z.to_nat offset) (List.filter (selected regex js q) (natural regs))));
  aq_all regs : natural regs ≡ₚ (map_to_list regs).*2
}.

Context (regex : string -> string -> bool) (js : string -> doc -> bool) (natural : gmap string doc -> list doc).

Lemma registrations_selected regs enV attrL l : fromjson_law fromjson -> regex_law regex -> answers_queries regex js natural ->
  natural regs = registered_document <$> l ->
  exists count, registrations_found now regs enV attrL [""] 0 20
    = Ret (inr (count, flat_map (restricted enV attrL)
        (flat_map rd_registrations (take 20 (List.filter (registered_selects regex now enV attrL) l))))).
Proof.
  intros Hf Hr Ha Hl. unfold registrations_found. rewrite (no_path_condition Hf). cbn [mbind cpp_bind].
  destruct (aq_regs _ _ _ Ha regs (registrations_query now enV attrL (BsonObj (in_or_null ("^" +:+ backslash +:+ "/.*")))) 20 0)
    as [count ->]; [done|].
  exists count. rewrite Hl.
  assert (List.filter (selected regex js (registrations_query now enV attrL (BsonObj (in_or_null ("^" +:+ backslash +:+ "/.*"))))) (registered_document <$> l)
    = registered_document <$> List.filter (registered_selects regex now enV attrL) l) as ->.
  { clear Hl. induction l as [|r l IH]; [done|]. rewrite fmap_cons. cbn [List.filter].
    rewrite (registered_query_selects regex js now enV attrL _ r Hr eq_refl). destruct (registered_selects _ _ _ _ _); by rewrite IH. }
  change (Z.to_nat 0) with O. rewrite drop_0, <- fmap_take, registrations_read. done.
Qed.

Lemma all_registered regs : (forall id d, regs !! id = Some d -> exists r, d = registered_document r) ->
  answers_queries regex js natural -> exists l, natural regs = registered_document <$> l.
Proof.
  intros Hd Ha. assert (Forall (fun d => exists r, d = registered_document r) (natural regs)) as H.
  { rewrite (aq_all _ _ _ Ha regs). apply Forall_fmap, Forall_forall. intros [id d] Hin. apply (Hd id). by apply elem_of_map_to_list. }
  induction H as [|d ds [r ->] _ [l ->]]; [by exists []|]. by exists (r :: l).
Qed.

(** C28. A registration that is accepted notifies the availability subscriptions its elements
    select, each once, with what is registered now of the entities of the request and the
    attributes of the subscription (the first twenty registrations that have them); those
    for which nothing is registered get none.  The database answers the queries it is sent
    with the documents that satisfy them ([selected], MongoQuery.v), and the function of
    $where does what JavaScript makes of its text, for ids and types that can be written
    between quotes.  [casub_selects] and [registered_selects] say what the two queries come
    to. *)
Theorem processRegisterContext_notifies st req oid tenant sp corr resp st' :
  fromjson_law fromjson -> regex_law regex -> casub_law jsmatch js -> answers_queries regex js natural ->
  (forall id d, rg_regs st !! id = Some d -> exists r, d = registered_document r) ->
  Forall (fun cr => Forall (fun en => quotable (eid_id en) = true /\ quotable (eid_type en) = true) (plain_entities cr))
    (rr_contextRegistrationVector req) ->
  processRegisterContext st req oid tenant sp "JSON" corr = Ret (resp, st') -> sc_code (rp_errorCode resp) = SccOk ->
  let enV := flat_map cr_entityIdVector (rr_contextRegistrationVector req) in
  exists sent l, rg_sent st' = rg_sent st ++ sent /\ NoDup (an_subscriptionId <$> sent) /\
    natural (rg_regs st') = registered_document <$> l /\
    forall n, n ∈ sent <-> exists d cr,
      rg_casubs st !! an_subscriptionId n = Some d /\
      cr ∈ rr_contextRegistrationVector req /\ casub_selects jsmatch now cr d = true /\
      an_registrations n = flat_map (restricted enV (av_attrs d))
        (flat_map rd_registrations (take 20 (List.filter (registered_selects regex now enV (av_attrs d)) l))) /\
      an_registrations n <> [] /\
      an_url n = av_reference d /\ an_tenant n = tenant /\ an_fiwareCorrelator n = corr /\
      an_renderFormat n = match av_format d with Some f => stringToRenderFormat f false | None => NGSI_V1_LEGACY end.
Proof.
  intros Hf Hr Hj Ha Hd Hq H Hok enV.
  assert (Forall (answers (rg_casubs st)) (rr_contextRegistrationVector req)) as Hans.
  { eapply Forall_impl; [exact Hq|]. intros cr Hcr. unfold answers. rewrite (aq_casubs _ _ _ Ha). f_equal. f_equal.
    apply filter_ext. intros x. by apply casub_query_selects. }
  destruct (notified_from_found _ _ _ _ _ _ _ _ Hans H Hok) as (sent & Hs & Hn & Hm).
  apply process_stores in H as [Hst Hid]. unfold stores in Hst. rewrite Hok in Hst. destruct Hst as (e & p & Hregs).
  destruct (all_registered (rg_regs st')) as [l Hl]; [|done|].
  { rewrite Hregs. intros id d [[_ <-]|[_ Hd']]%lookup_insert_Some; [|by eapply Hd].
    by exists (mkRegistered e p "JSON" (rr_contextRegistrationVector req)). }
  exists sent, l. split_and!; [done..|]. intros n. rewrite Hm. fold enV. split.
  - intros (d & cr & c & H1 & H2 & H3 & H4 & Hrest). exists d, cr.
    destruct (registrations_selected _ enV (av_attrs d) l Hf Hr Ha Hl) as [c' E]. rewrite E in H4. injection H4 as _ H4.
    exact (conj H1 (conj H2 (conj H3 (conj (eq_sym H4) Hrest)))).
  - intros (d & cr & H1 & H2 & H3 & H4 & Hrest). 
    destruct (registrations_selected _ enV (av_attrs d) l Hf Hr Ha Hl) as [c' E]. rewrite <- H4 in E. exists d, cr, c'.
    exact (conj H1 (conj H2 (conj H3 (conj E Hrest)))).
Qed.

End Notified.

End Registering.

(** ** Concrete requests *)

Definition reg_oid : string := "52a744b011f5816465943d58".
Definition casub_oid : string := "51c0ac9ed714fb3b37d7d5a9".

Definition sample_registration : ContextRegistration :=
  mkContextRegistration [mkEntityId "Room1" "Room" "false" ""; mkEntityId "Room2" "" "false" ""]
    [mkContextRegistrationAttribute "temperature" "degree" "false"] "http://provider.example.com/".
Definition sample_register : RegisterContextRequest := mkRegisterContextRequest [sample_registration] "PT1H" "".
Definition sample_availability : AvailabilityRequest :=
  mkAvailabilityRequest [mkEntityId "Room1" "Room" "false" ""] ["temperature"] "http://listener.example.com/" "" casub_oid.

(** A database that yields every registration, and the subscriptions the sample selects. *)
Definition all_regs (regs : gmap string doc) (_ : doc) (_ _ : Z) : string + (Z * list (option doc)) :=
  inr (Z.of_nat (size regs), (fun x => Some x.2) <$> map_to_list regs).
Definition selected_casubs (casubs : gmap string CasubDoc) (_ : doc) : string + list (option (option string * CasubDoc)) :=
  inr ((fun x => Some (Some x.1, x.2)) <$>
       List.filter (fun x => casub_selects (fun r s => r =s s) 1000 sample_registration x.2) (map_to_list casubs)).

Definition register_sample (st : RegState) : cpp (RegisterContextResponse * RegState) :=
  mongoRegisterContext (fun _ => true) (fun p s => p =s s) (fun _ => Ret []) (fun _ => 1000) Some all_regs selected_casubs
    None None None st sample_register reg_oid "" "/a" "corr".
Definition discover_sample (st : RegState) : cpp (StatusCode * list ContextRegistration * RegState) :=
  mongoDiscoverContextAvailability (fun _ => true) (fun p s => p =s s) (fun _ => Ret []) (fun _ => 1000) all_regs
    st [mkEntityId "Room1" "" "false" ""] [] "0" "20" "off" [""].
Definition subscribe_sample (st : RegState) : cpp (AvailabilityResponse * RegState) :=
  mongoSubscribeContextAvailability (fun _ => true) (fun p s => p =s s) (fun _ => Ret []) (fun _ => 1000) Some all_regs
    None None st sample_availability casub_oid "" "corr".

Definition after {A} (m : cpp (A * RegState)) : RegState := match m with Ret (_, st) => st | _ => no_documents end.

Lemma mongoRegisterContext_discovered_witness :
  let st := after (register_sample no_documents) in
  register_sample no_documents = Ret (mkRegisterContextResponse "PT1H" reg_oid (mkStatusCode SccOk ""), st) /\
  exists sc crrV before after, discover_sample st = Ret (sc, crrV, tick st) /\
    crrV = before ++ [mkContextRegistration [mkEntityId "Room1" "Room" "false" ""] (cr_attributes sample_registration)
                        "http://provider.example.com/"] ++ after.
Proof.
  set (st := after _).
  assert (register_sample no_documents = Ret (mkRegisterContextResponse "PT1H" reg_oid (mkStatusCode SccOk ""), st)) as H
    by (vm_compute; reflexivity).
  split; [exact H|]. pose proof (mongoRegisterContext_discovered _ _ _ _ _ _ _ _ _ _ _ _ _ _ _ _ _ _ H) as Hd.
  cbn beta iota zeta delta [rp_errorCode sc_code SccOk Z.eqb Pos.eqb] in Hd. destruct Hd as (d & Hr & Hd).
  assert (exists sc crrV, discover_sample st = Ret (sc, crrV, tick st)) as (sc & crrV & E)
    by (do 2 eexists; vm_compute; reflexivity).
  exists sc, crrV. pose proof E as E'. unfold discover_sample in E'.
  destruct (fun Hf => Hd st _ _ _ _ _ _ _ _ _ Hf E') as (b & a & Ha).
  - intros now c. do 2 eexists. split; [|reflexivity]. apply list_elem_of_fmap. exists (reg_oid, d). split; [done|].
    apply elem_of_map_to_list. rewrite Hr. apply lookup_insert_eq.
  - exists b, a. split; [exact E|exact Ha].
Defined.

Definition subscribed : RegState := after (subscribe_sample no_documents).
Definition registered_and_notified : RegState := after (register_sample subscribed).

Lemma availability_counts_witness : exists d,
  rg_casubs registered_and_notified !! casub_oid = Some d /\ av_count d = Some 1 /\ is_Some (av_lastNotification d).
Proof.
  assert (rtc (reg_step (fun _ => true) (fun p s => p =s s) (fun _ => Ret []) (fun _ => 1000) Some all_regs selected_casubs
    None None None None None) no_documents registered_and_notified) as Hr.
  { apply rtc_l with subscribed; [|apply rtc_once].
    - eapply (step_subscribe _ _ _ _ _ _ _ _ _ _ _ _ _ sample_availability casub_oid "" "corr"); [split_and!; reflexivity|].
      vm_compute. reflexivity.
    - eapply (step_register _ _ _ _ _ _ _ _ _ _ _ _ _ sample_register reg_oid "" "/a" "corr"). vm_compute. reflexivity. }
  assert (exists d, rg_casubs registered_and_notified !! casub_oid = Some d) as [d Hd] by (eexists; vm_compute; reflexivity).
  exists d. split; [exact Hd|].
  destruct (availability_counts _ _ _ _ _ _ _ _ _ _ _ _ registered_and_notified eq_refl Hr casub_oid d Hd) as [Hc Hl].
  assert (times Some casub_oid registered_and_notified = 1%nat) as Ht by (vm_compute; reflexivity). rewrite Ht in Hc, Hl.
  split; [exact Hc|]. apply Hl. discriminate.
Defined.

(** A database that evaluates the queries; the function of $where is read from its text, and
    ids are matched as they are. *)
Definition casub_of_text (f : string) (d : doc) : bool :=
  let parts := quoted_parts f in
  let n := ((length parts - 1) / 2)%nat in
  match getField d "entities" with
  | Some (BsonArray l) =>
      existsb (fun e => match e with
        | BsonObj e => is_text "true" (getField e "isPattern")
            && existsb (fun x => (getStringField e "id" =s x.1) && is_text x.2 (getField e "type"))
                 (zip (take n parts) (take n (drop n parts)))
        | _ => false end) l
  | _ => false
  end.

Lemma casub_of_text_law : casub_law (fun r s => r =s s) casub_of_text.
Proof.
  intros ids types d es Hlen Hi Ht Hd _. unfold casub_of_text. rewrite Hd.
  match goal with |- context [quoted_parts ?t] => assert (quoted_parts t = ids ++ types ++ ["true"]) as -> end.
  { 
    set (a := "for (var i=0; i < this.entities.length; i++) {if (this.entities[i].isPattern == ").
    set (rest := ") {for (var j = 0; j < enId.length; j++) {if (enId[j].match(this.entities[i].id) && this.entities[i].type == enType[j]) {return true; }}}}return false; }").
    match goal with |- context [dq ?t] => change (dq t) with (";" +:+ a +:+ quoted "true" +:+ rest) end.
    rewrite !app_assoc_str. do 2 rewrite quoted_parts_skip by done. rewrite quoted_parts_list by done. f_equal.
    do 3 rewrite quoted_parts_skip by done. rewrite quoted_parts_list by done. f_equal.
  }
  rewrite !length_app, <- Hlen. cbn [length].
  replace (length ids + (length ids + 1) - 1)%nat with (length ids * 2)%nat by lia. rewrite Nat.div_mul by done.
  rewrite take_app_length, drop_app_length. rewrite Hlen, take_app_length. by apply existsb_fmap.
Qed.

Definition found_regs (regs : gmap string doc) (q : doc) (limit offset : Z) : string + (Z * list (option doc)) :=
  let found := List.filter (selected plain_regex casub_of_text q) (map_to_list regs).*2 in
  inr (Z.of_nat (length found), Some <$> take (Z.to_nat limit) (drop (Z.to_nat offset) found)).
Definition found_casubs (casubs : gmap string CasubDoc) (q : doc) : string + list (option (option string * CasubDoc)) :=
  inr ((fun x => Some (Some x.1, x.2)) <$>
       List.filter (fun x => selected plain_regex casub_of_text q (casub_bson x.2)) (map_to_list casubs)).

Lemma found_answers : answers_queries found_regs found_casubs plain_regex casub_of_text (fun regs => (map_to_list regs).*2).
Proof. split; [done| |done]. intros regs q limit offset _. by eexists. Qed.

Definition told_sample (st : RegState) : cpp (RegisterContextResponse * RegState) :=
  processRegisterContext (fun _ => true) (fun p s => p =s s) plain_fromjson (fun _ => 1000) Some
    found_regs found_casubs None None st sample_register reg_oid "" "/a" "JSON" "corr".
Definition told : RegState := after (told_sample subscribed).

Lemma processRegisterContext_notifies_witness : exists sent n,
  rg_sent told = rg_sent subscribed ++ sent /\ n ∈ sent /\ an_subscriptionId n = casub_oid /\
  an_url n = "http://listener.example.com/".
Proof.
  assert (exists resp, told_sample subscribed = Ret (resp, told) /\ sc_code (rp_errorCode resp) = SccOk)
    as (resp & H & Hok) by (eexists; split; vm_compute; reflexivity).
  destruct (processRegisterContext_notifies (fun _ => true) (fun p s => p =s s) plain_fromjson (fun _ => 1000) Some found_regs
    found_casubs None None (fun r s => r =s s) 1000 (fun _ => eq_refl) plain_regex casub_of_text (fun regs => (map_to_list regs).*2)
    subscribed sample_register reg_oid "" "/a" "corr" resp told) as (sent & l & Hs & _ & Hl & Hm).
  - exact plain_fromjson_law.
  - exact plain_regex_law.
  - exact casub_of_text_law.
  - exact found_answers.
  - intros id d Hd. assert (rg_regs subscribed = ∅) as E by (vm_compute; reflexivity). rewrite E in Hd. by rewrite lookup_empty in Hd.
  - apply Forall_singleton. repeat constructor.
  - exact H.
  - exact Hok.
  - assert (rg_sent subscribed = []) as E by (vm_compute; reflexivity). rewrite E in Hs. cbn [app] in Hs.
    exists sent, (mkAvailabilityNotification casub_oid [sample_registration] "http://listener.example.com/" "" "corr" NGSI_V1_LEGACY).
    rewrite E. split; [exact Hs|].
    assert (mkAvailabilityNotification casub_oid [sample_registration] "http://listener.example.com/" "" "corr" NGSI_V1_LEGACY ∈ sent)
      as Hin by (rewrite <- Hs; vm_compute; apply list_elem_of_here).
    split; [exact Hin|]. split; [reflexivity|]. apply Hm in Hin as (d & cr & Hd & _ & _ & _ & _ & Hu & _).
    rewrite Hu. vm_compute in Hd. by injection Hd as <-.
Defined.

(** A subscription to an entity without type is told of the registrations there are when it
    is made, which match any type, and of none that comes later: its document has no type,
    and the query of a registration asks for one. *)
Definition untyped_availability : AvailabilityRequest :=
  mkAvailabilityRequest [mkEntityId "Room1" "" "false" ""] [] "http://listener.example.com/" "" casub_oid.

Example untyped_not_triggered :
  (match mongoSubscribeContextAvailability (fun _ => true) (fun p s => p =s s) (fun _ => Ret []) (fun _ => 1000) Some all_regs
      None None (after (register_sample no_documents)) untyped_availability casub_oid "" "corr"
   with Ret (_, st) => length (rg_sent st) | _ => O end) = 1%nat /\
  casub_selects (fun r s => r =s s) 1000 sample_registration (casub_document untyped_availability 87400) = false.
Proof. split; vm_compute; reflexivity. Qed.

(** A pattern is selected whatever the attributes. *)
Example pattern_any_attribute :
  casub_selects (fun r s => true) 1000 sample_registration
    (mkCasubDoc 87400 "" [entity_doc (mkEntityId ".*" "Room" "true" "")] ["humidity"] None None None) = true /\
  casub_selects (fun r s => true) 1000 sample_registration
    (mkCasubDoc 87400 "" [entity_doc (mkEntityId "Room1" "Room" "false" "")] ["humidity"] None None None) = false.
Proof. split; vm_compute; reflexivity. Qed.
