(* ===== verification/Json.v ===== *)
(** * JSON of compound values

    The JSON text of version 2 of the interface and the reading of its payloads, for the
    values of attributes: the macros of common/tag.h, toString of common/string.cpp for
    doubles, toJson and check of parse/CompoundValueNode.cpp, and
    jsonParseV2/parseContextAttributeCompoundValue.cpp.  A payload is the value that
    rapidjson makes of it ([json]), with its members in order, repeated names included. *)

From S2P Require Import Prelude Strings Double Bson Compound.

Open Scope Z_scope.

(** ** Numbers as text *)

(** n/d rounded to an integer, ties to even. *)
Definition round_half_even (n d : Z) : Z :=
  let q := n / d in
  match 2 * (n mod d) ?= d with
  | Lt => q
  | Gt => q + 1
  | Eq => if Z.even q then q else q + 1
  end.

(** n/d times a power of ten, as a fraction. *)
Definition scale10 (n d a : Z) : Z * Z := if 0 <=? a then (n * 10 ^ a, d) else (n, d * 10 ^ (- a)).

(** The least k from [k] on with [d <= n * 10 ^ k]. *)
Fixpoint leading_zeros (fuel : nat) (n d k : Z) : Z :=
  match fuel with
  | O => k
  | S fuel => if d <=? n * 10 ^ k then k else leading_zeros fuel n d (k + 1)
  end.

(** The exponent of the first decimal digit of n/d. *)
Definition exponent10 (n d : Z) : Z :=
  if d <=? n then Z.of_nat (String.length (show_N (Z.to_N (n / d)))) - 1 else - leading_zeros 400 n d 1.

Definition strip_zeros (s : string) : string := str_rstrip (fun c => c =c "0"%char) s.
Definition with_fraction (int frac : string) : string := if frac =s "" then int else int +:+ "." +:+ frac.
Definition pad2 (s : string) : string := if (String.length s <? 2)%nat then "0" +:+ s else s.
Fixpoint zeros (n : nat) : string := match n with O => "" | S n => String "0" (zeros n) end.

(** Six significant digits [q], the first of them at 10^x: the format %g. *)
Definition format_digits (q x : Z) : string :=
  let ds := show_N (Z.to_N q) in
  if (-4 <=? x) && (x <? 6) then
    if 0 <=? x
    then with_fraction (str_take (Z.to_nat (x + 1)) ds) (strip_zeros (str_drop (Z.to_nat (x + 1)) ds))
    else "0." +:+ zeros (Z.to_nat (- x - 1)) +:+ strip_zeros ds
  else with_fraction (str_take 1 ds) (strip_zeros (str_drop 1 ds)) +:+ "e"
       +:+ (if x <? 0 then "-" else "+") +:+ pad2 (show_N (Z.to_N (Z.abs x))).

(** [ss << d] for a double, with the precision the stream starts with. *)
Definition toString_double (v : double) : string :=
  match v with
  | S754_nan => "nan"
  | S754_infinity s => if s then "-inf" else "inf"
  | S754_zero s => if s then "-0" else "0"
  | S754_finite s m e =>
      let '(n, d) := if 0 <=? e then (Zpos m * 2 ^ e, 1) else (Zpos m, 2 ^ (- e)) in
      let x := exponent10 n d in
      let '(n', d') := scale10 n d (5 - x) in
      let q := round_half_even n' d' in
      (if s then "-" else "") +:+ (if q =? 1000000 then format_digits 100000 (x + 1) else format_digits q x)
  end.

(** ** The text of values *)

Definition quote (s : string) : string := str1 "034" +:+ s +:+ str1 "034".
Definition JSON_BOOL (b : bool) : string := if b then "true" else "false".
Definition JSON_VALUE (name value : string) : string := quote name +:+ ":" +:+ quote value.
Definition JSON_VALUE_NUMBER (name value : string) : string := quote name +:+ ":" +:+ value.
Definition JSON_VALUE_BOOL (name : string) (value : bool) : string := quote name +:+ ":" +:+ JSON_BOOL value.

(** CompoundValueNode::toJson.  [top]: the node is its own container and root; otherwise its
    container is of type [ct] and has [size] children. *)
Fixpoint toJson (top : bool) (ct : ValueType) (size : Z) (n : CompoundValueNode) : string :=
  match n with
  | CVN name vt s d b siblingNo _ _ childV =>
      let jsonComma := negb top && (siblingNo <? size - 1) in
      let in_vector := bool_decide (ct = ValueTypeVector) in
      let key := if in_vector then "item" else name in
      let children := concat_str (map (toJson false vt (Z.of_nat (length childV))) childV) in
      let scalar text := if in_vector then text else quote key +:+ ":" +:+ text in
      match vt with
      | ValueTypeString => scalar (quote s)
      | ValueTypeNumber => scalar (toString_double d)
      | ValueTypeBoolean => scalar (JSON_BOOL b)
      | ValueTypeNone => scalar "null"
      | ValueTypeVector =>
          if top then children
          else if in_vector then "[" +:+ children +:+ "]"
          else quote name +:+ ":[" +:+ children +:+ "]"
      | ValueTypeObject =>
          if in_vector then "{" +:+ children +:+ "}"
          else if top then children
          else quote name +:+ ":{" +:+ children +:+ "}"
      | ValueTypeUnknown => ""
      end +:+ (if jsonComma then "," else "")
  end.

(** toJson of the root of a tree, whose container is the root itself. *)
Definition toJson_top (n : CompoundValueNode) : string :=
  toJson true (cvn_valueType n) (Z.of_nat (length (cvn_childV n))) n.

(** ** Checking *)

(** The first children of different names in a vector. *)
Definition bad_item (childV : list CompoundValueNode) : option CompoundValueNode :=
  match childV with
  | [] => None
  | c :: r => List.find (fun c' => negb (cvn_name c' =s cvn_name c)) r
  end.

(** The first child of an object that has the name of a later one. *)
Fixpoint duplicated (childV : list CompoundValueNode) : option CompoundValueNode :=
  match childV with
  | [] => None
  | c :: r => if existsb (fun c' => cvn_name c =s cvn_name c') r then Some c else duplicated r
  end.

Definition check_children (f : CompoundValueNode -> string) :=
  fix go (childV : list CompoundValueNode) : string :=
    match childV with
    | [] => "OK"
    | c :: r => let res := f c in if negb (res =s "OK") then res else go r
    end.

Definition forbidden_value (s : string) : bool := forbiddenChars (Some (c_str s)) None.

Fixpoint check (n : CompoundValueNode) : string :=
  match n with
  | CVN _ vt s _ _ _ path _ childV =>
      let error :=
        match vt with
        | ValueTypeVector =>
            match bad_item childV, childV with
            | Some c, c0 :: _ => "bad tag-name of vector item: /" +:+ cvn_name c +:+ "/, should be /" +:+ cvn_name c0 +:+ "/"
            | _, _ => ""
            end
        | ValueTypeObject =>
            match duplicated childV with
            | Some c => "duplicated tag-name: /" +:+ cvn_name c +:+ "/ in path: " +:+ path
            | None => ""
            end
        | _ => if forbidden_value s then "Invalid characters in attribute value" else ""
        end in
      if error =s "" then check_children check childV else error
  end.

(** ** Reading *)

Definition json_type (j : json) : ValueType :=
  match j with
  | JNull => ValueTypeNone
  | JBool _ => ValueTypeBoolean
  | JNumber _ => ValueTypeNumber
  | JString _ => ValueTypeString
  | JArray _ => ValueTypeVector
  | JObject _ => ValueTypeObject
  end.

(** snprintf of "%03d" into four bytes. *)
Definition itemNo (counter : Z) : string :=
  let ds := show_N (Z.to_N counter) in
  str_take 3 (zeros (3 - String.length ds) +:+ ds).

(** The node of a value, with the children made for it. *)
Definition value_node (name path : string) (level siblingNo : Z) (j : json) (childV : list CompoundValueNode)
    : CompoundValueNode :=
  let make s d b path := CVN name (json_type j) s d b siblingNo path level childV in
  match j with
  | JString s => make (c_str s) zero false path
  | JNumber d => make "" d false path
  | JBool b => make "" zero b path
  | JNull => make "" zero false path
  | JArray _ | JObject _ => make "" zero false (path +:+ "/")
  end.

(** The two loops, with the children of a value under a path and a level. *)
Definition parse_items (f : string -> Z -> json -> list CompoundValueNode) (parentPath : string) (level : Z) :=
  fix go (counter : Z) (l : list json) : list CompoundValueNode :=
    match l with
    | [] => []
    | j :: l' =>
        let path := parentPath +:+ "[" +:+ itemNo counter +:+ "]" in
        value_node "Unset" path level counter j (f (path +:+ "/") level j) :: go (counter + 1) l'
    end.

Definition parse_members (f : string -> Z -> json -> list CompoundValueNode) (parentPath : string) (level : Z) :=
  fix go (counter : Z) (o : list (string * json)) : list CompoundValueNode :=
    match o with
    | [] => []
    | (k, j) :: o' =>
        let path := parentPath +:+ c_str k in
        value_node (c_str k) path level counter j (f (path +:+ "/") level j) :: go (counter + 1) o'
    end.

(** The children parseContextAttributeCompoundValue gives to a node of path [parentPath] and
    level [parentLevel]. *)
Fixpoint parse_children (parentPath : string) (parentLevel : Z) (j : json) : list CompoundValueNode :=
  match j with
  | JArray l => parse_items parse_children parentPath (parentLevel + 1) 0 l
  | JObject o => parse_members parse_children parentPath (parentLevel + 1) 0 o
  | _ => []
  end.

(** The root both parsers make. *)
Definition parse_compound (vt : ValueType) (j : json) : CompoundValueNode :=
  CVN "TOP" vt "" zero false 0 "/" 0 (parse_children "/" 0 j).

(** ** The text of a value *)

(** JSON text without blanks; no character of a string is escaped. *)
Fixpoint json_text (j : json) : string :=
  match j with
  | JNull => "null"
  | JBool b => JSON_BOOL b
  | JNumber d => toString_double d
  | JString s => quote s
  | JArray l => "[" +:+ join "," (map json_text l) +:+ "]"
  | JObject o => "{" +:+ join "," (map (fun kv => quote kv.1 +:+ ":" +:+ json_text kv.2) o) +:+ "}"
  end.

(** What GetString leaves of a value: texts are cut at a NUL. *)
Fixpoint c_json (j : json) : json :=
  match j with
  | JString s => JString (c_str s)
  | JArray l => JArray (map c_json l)
  | JObject o => JObject (map (fun kv => (c_str kv.1, c_json kv.2)) o)
  | _ => j
  end.

(** Trees whose children are numbered and whose types are known. *)
Fixpoint siblings (i : Z) (childV : list CompoundValueNode) : bool :=
  match childV with [] => true | c :: r => (cvn_siblingNo c =? i) && siblings (i + 1) r end.

Fixpoint numbered (n : CompoundValueNode) : bool :=
  match n with
  | CVN _ vt _ _ _ _ _ _ childV =>
      negb (bool_decide (vt = ValueTypeUnknown)) && siblings 0 childV && forallb numbered childV
  end.

Lemma json_induction (P : json -> Prop) :
  P JNull -> (forall b, P (JBool b)) -> (forall d, P (JNumber d)) -> (forall s, P (JString s)) ->
  (forall l, Forall P l -> P (JArray l)) -> (forall o, Forall (fun kv => P kv.2) o -> P (JObject o)) ->
  forall j, P j.
Proof.
  intros H1 H2 H3 H4 H5 H6. fix IH 1. intros [|b|d|s|l|o]; [exact H1|apply H2|apply H3|apply H4| |].
  - apply H5. induction l as [|j l IHl]; constructor; [apply IH|exact IHl].
  - apply H6. induction o as [|[k j] o IHo]; constructor; [apply IH|exact IHo].
Qed.

(** *** Printing *)

(** A member or an item as it is printed. *)
Definition item_text (ct : ValueType) (c : CompoundValueNode) : string :=
  (if bool_decide (ct = ValueTypeVector) then "" else quote (cvn_name c) +:+ ":") +:+ json_text (content c).

Lemma children_text ct i childV :
  Forall (fun c => forall size, toJson false ct size c = item_text ct c +:+ (if cvn_siblingNo c <? size - 1 then "," else "")) childV ->
  siblings i childV = true ->
  concat_str (map (toJson false ct (i + Z.of_nat (length childV))) childV) = join "," (map (item_text ct) childV).
Proof.
  intros H. revert i. induction H as [|c r Hc _ IH]; intros i; [done|]. cbn [siblings]. intros [Hi Hr]%andb_true_iff.
  apply Z.eqb_eq in Hi. cbn [map length]. cbn [concat_str]. rewrite Hc, Hi.
  replace (i + Z.of_nat (S (length r))) with (i + 1 + Z.of_nat (length r)) by lia.
  rewrite (IH _ Hr). destruct r as [|c2 r].
  - cbn [map join length]. rewrite !app_nil_r_str. assert ((i <? i + 1 + Z.of_nat 0 - 1) = false) as -> by (apply Z.ltb_ge; lia).
    by rewrite app_nil_r_str.
  - assert ((i <? i + 1 + Z.of_nat (length (c2 :: r)) - 1) = true) as -> by (apply Z.ltb_lt; cbn; lia).
    by rewrite app_assoc_str.
Qed.

Lemma items_text childV : map (item_text ValueTypeVector) childV = map json_text (map content childV).
Proof. rewrite map_map. apply map_ext. intros c. by cbn. Qed.

Lemma members_text childV : map (item_text ValueTypeObject) childV
  = map (fun kv => quote kv.1 +:+ ":" +:+ json_text kv.2) (map (fun c => (cvn_name c, content c)) childV).
Proof. rewrite map_map. apply map_ext. intros c. unfold item_text.
  rewrite bool_decide_eq_false_2 by done. by rewrite app_assoc_str. Qed.

Lemma toJson_child n : numbered n = true -> forall ct size,
  toJson false ct size n = item_text ct n +:+ (if cvn_siblingNo n <? size - 1 then "," else "").
Proof.
  induction n as [name vt s d b sib path l childV IH] using node_induction. intros Hn ct size.
  cbn [numbered] in Hn. apply andb_true_iff in Hn as [[Hvt Hs]%andb_true_iff Hc].
  assert (forall ct, concat_str (map (toJson false ct (Z.of_nat (length childV))) childV) = join "," (map (item_text ct) childV)) as Hch.
  { intros ct'. rewrite <- (children_text ct' 0 childV), Z.add_0_l; [done| |done].
    rewrite forallb_forall in Hc. rewrite Forall_forall in IH |- *. intros c Hin size'. apply IH; [done|].
    by apply Hc, list_elem_of_In. }
  unfold item_text. cbn -[concat_str join]. f_equal.
  destruct (bool_decide (ct = ValueTypeVector)), vt; try done; rewrite ?Hch, ?items_text, ?members_text;
    cbn [json_text]; by rewrite ?app_assoc_str, ?app_nil_l_str.
Qed.

(** The braces that the callers of toJson put around the root. *)
Definition root_text (n : CompoundValueNode) : string :=
  match cvn_valueType n with
  | ValueTypeObject => "{" +:+ toJson_top n +:+ "}"
  | _ => "[" +:+ toJson_top n +:+ "]"
  end.

Lemma root_text_content n : numbered n = true ->
  cvn_valueType n = ValueTypeObject \/ cvn_valueType n = ValueTypeVector -> root_text n = json_text (content n).
Proof.
  destruct n as [name vt s d b sib path l childV]. cbn [numbered cvn_valueType].
  intros [[_ Hs]%andb_true_iff Hc]%andb_true_iff Hvt.
  assert (forall ct, concat_str (map (toJson false ct (Z.of_nat (length childV))) childV) = join "," (map (item_text ct) childV)) as Hch.
  { intros ct'. rewrite <- (children_text ct' 0 childV), Z.add_0_l; [done| |done].
    rewrite forallb_forall in Hc. apply Forall_forall. intros c Hin size'. by apply toJson_child, Hc, list_elem_of_In. }
  unfold root_text, toJson_top. cbn -[concat_str join].
  destruct Hvt as [-> | ->]; rewrite Hch, ?items_text, ?members_text, app_nil_r_str; done.
Qed.

(** *** Reading *)

Definition reads (j : json) (n : CompoundValueNode) : Prop := content n = c_json j /\ numbered n = true.

Definition node_reads (j : json) : Prop := forall name path level siblingNo parentPath parentLevel,
  reads j (value_node name path level siblingNo j (parse_children parentPath parentLevel j)).

Lemma value_node_name name path level siblingNo j childV :
  cvn_name (value_node name path level siblingNo j childV) = name /\
  cvn_siblingNo (value_node name path level siblingNo j childV) = siblingNo.
Proof. by destruct j. Qed.

Lemma parse_items_cons f parentPath level counter j l :
  parse_items f parentPath level counter (j :: l) =
    let path := parentPath +:+ "[" +:+ itemNo counter +:+ "]" in
    value_node "Unset" path level counter j (f (path +:+ "/") level j) :: parse_items f parentPath level (counter + 1) l.
Proof. done. Qed.

Lemma parse_members_cons f parentPath level counter k j o :
  parse_members f parentPath level counter ((k, j) :: o) =
    let path := parentPath +:+ c_str k in
    value_node (c_str k) path level counter j (f (path +:+ "/") level j) :: parse_members f parentPath level (counter + 1) o.
Proof. done. Qed.

Lemma parse_items_reads l parentPath level counter : Forall node_reads l ->
  map content (parse_items parse_children parentPath level counter l) = map c_json l /\
  siblings counter (parse_items parse_children parentPath level counter l) = true /\
  forallb numbered (parse_items parse_children parentPath level counter l) = true.
Proof.
  intros H. revert counter. induction H as [|j l Hj _ IH]; intros counter; [done|].
  destruct (IH (counter + 1)) as (H1 & H2 & H3). set (p := parentPath +:+ "[" +:+ itemNo counter +:+ "]").
  destruct (Hj "Unset" p level counter (p +:+ "/") level) as [Hc Hn].
  rewrite parse_items_cons. cbv zeta. fold p. cbn [map siblings forallb].
  rewrite (proj2 (value_node_name _ _ _ _ _ _)), Z.eqb_refl, H1, H2, H3, Hc, Hn. done.
Qed.

Lemma parse_members_reads o parentPath level counter : Forall (fun kv => node_reads kv.2) o ->
  map (fun c => (cvn_name c, content c)) (parse_members parse_children parentPath level counter o)
    = map (fun kv => (c_str kv.1, c_json kv.2)) o /\
  siblings counter (parse_members parse_children parentPath level counter o) = true /\
  forallb numbered (parse_members parse_children parentPath level counter o) = true.
Proof.
  intros H. revert counter. induction H as [|[k j] o Hj _ IH]; intros counter; [done|].
  destruct (IH (counter + 1)) as (H1 & H2 & H3). set (p := parentPath +:+ c_str k).
  destruct (Hj (c_str k) p level counter (p +:+ "/") level) as [Hc Hn].
  rewrite parse_members_cons. cbv zeta. fold p. cbn [map siblings forallb].
  cbn [snd] in Hc, Hn. destruct (value_node_name (c_str k) p level counter j (parse_children (p +:+ "/") level j)) as [-> ->].
  by rewrite Z.eqb_refl, H1, H2, H3, Hc, Hn.
Qed.

Lemma parse_reads j : node_reads j.
Proof.
  induction j as [|b|d|s|l IH|o IH] using json_induction; intros name path level sib pp pl; try done.
  - destruct (parse_items_reads l pp (pl + 1) 0 IH) as (H1 & H2 & H3).
    split; cbn [value_node json_type parse_children content numbered c_json]; [by rewrite H1|by rewrite H2, H3].
  - destruct (parse_members_reads o pp (pl + 1) 0 IH) as (H1 & H2 & H3).
    split; cbn [value_node json_type parse_children content numbered c_json]; [by rewrite H1|by rewrite H2, H3].
Qed.

Lemma parse_compound_reads j : json_type j = ValueTypeObject \/ json_type j = ValueTypeVector ->
  reads j (parse_compound (json_type j) j).
Proof.
  intros Hj. pose proof (parse_reads j "TOP" "/" 0 0 "/" 0) as [Hc Hn]. unfold parse_compound.
  by destruct j, Hj.
Qed.

(** Round trip: an object or array of a payload, at any depth, is printed back as the
    text of the same value; only what follows a NUL in a string or a name is lost. *)
Theorem compound_reprinted j : json_type j = ValueTypeObject \/ json_type j = ValueTypeVector ->
  root_text (parse_compound (json_type j) j) = json_text (c_json j).
Proof.
  intros Hj. destruct (parse_compound_reads j Hj) as [<- Hn]. by apply root_text_content.
Qed.

(** *** Checking *)

(** A value without repeated names or forbidden characters in its texts; names are not
    looked at otherwise. *)
Fixpoint acceptable (j : json) : Prop :=
  match j with
  | JString s => forbidden_value s = false
  | JArray l => foldr (fun j P => acceptable j /\ P) True l
  | JObject o => NoDup (map (fun kv => c_str kv.1) o) /\ foldr (fun kv P => acceptable kv.2 /\ P) True o
  | _ => True
  end.

Lemma no_duplicated childV : duplicated childV = None <-> NoDup (map cvn_name childV).
Proof.
  induction childV as [|c r IH]; [split; [constructor|done]|]. cbn [duplicated map]. rewrite NoDup_cons, <- IH.
  destruct (existsb _ r) eqn:E.
  - split; [done|]. intros [Hn _]. apply existsb_exists in E as (c' & Hin & Hc%str_eqb_eq). destruct Hn. rewrite Hc.
    apply list_elem_of_fmap. exists c'. split; [done|by apply list_elem_of_In].
  - split; [|by intros [_ H]]. intros H. split; [|done]. intros Hin. apply list_elem_of_fmap in Hin as (c' & Hc & Hin).
    assert (existsb (fun c' => cvn_name c =s cvn_name c') r = true) as E'; [|by rewrite E in E'].
    apply existsb_exists. exists c'. split; [by apply list_elem_of_In|by apply str_eqb_eq].
Qed.

Lemma check_children_OK f childV : check_children f childV = "OK" <-> Forall (fun c => f c = "OK") childV.
Proof.
  induction childV as [|c r IH]; [by split|]. cbn [check_children]. destruct (f c =s "OK") eqn:E; cbn [negb].
  - apply str_eqb_eq in E. change (check_children f r = "OK" <-> Forall (fun c => f c = "OK") (c :: r)).
    rewrite IH, Forall_cons. tauto.
  - apply str_eqb_neq in E. rewrite Forall_cons. split; [done|]. by intros [? _].
Qed.

Lemma items_named l parentPath level counter :
  Forall (fun c => cvn_name c = "Unset") (parse_items parse_children parentPath level counter l).
Proof.
  revert counter. induction l as [|j l IH]; intros counter; [constructor|].
  rewrite parse_items_cons. constructor; [|apply IH].
  apply value_node_name.
Qed.

Lemma bad_item_None childV name : Forall (fun c => cvn_name c = name) childV -> bad_item childV = None.
Proof.
  destruct 1 as [|c r Hc Hr]; [done|]. cbn [bad_item]. rewrite Hc. induction Hr as [|c' r Hc' _ IH]; [done|].
  cbn [List.find]. by rewrite Hc', str_eqb_refl.
Qed.

Definition check_agrees (j : json) : Prop := forall name path level siblingNo parentPath parentLevel,
  check (value_node name path level siblingNo j (parse_children parentPath parentLevel j)) = "OK" <-> acceptable j.

Lemma parse_items_check l parentPath level counter : Forall check_agrees l ->
  Forall (fun c => check c = "OK") (parse_items parse_children parentPath level counter l)
  <-> foldr (fun j P => acceptable j /\ P) True l.
Proof.
  intros H. revert counter. induction H as [|j l Hj _ IH]; intros counter; [by split|].
  rewrite parse_items_cons, Forall_cons. cbn [foldr]. by rewrite (Hj _ _ _ _ _ _), <- (IH (counter + 1)).
Qed.

Lemma parse_members_check o parentPath level counter : Forall (fun kv => check_agrees kv.2) o ->
  Forall (fun c => check c = "OK") (parse_members parse_children parentPath level counter o)
  <-> foldr (fun kv P => acceptable kv.2 /\ P) True o.
Proof.
  intros H. revert counter. induction H as [|[k j] l Hj _ IH]; intros counter; [by split|].
  rewrite parse_members_cons, Forall_cons. cbn [snd foldr] in *. by rewrite (Hj _ _ _ _ _ _), <- (IH (counter + 1)).
Qed.

Lemma members_names o parentPath level counter :
  map cvn_name (parse_members parse_children parentPath level counter o) = map (fun kv => c_str kv.1) o.
Proof.
  revert counter. induction o as [|[k j] o IH]; intros counter; [done|].
  rewrite parse_members_cons. cbn [map]. rewrite (proj1 (value_node_name _ _ _ _ _ _)). by rewrite <- (IH (counter + 1)).
Qed.

Lemma check_agrees_all j : check_agrees j.
Proof.
  induction j as [|b|d|s|l IH|o IH] using json_induction; intros name path level sib pp pl; try (by cbn).
  - cbn [value_node json_type parse_children check acceptable]. unfold forbidden_value. rewrite c_str_idemp.
    by destruct (forbiddenChars (Some (c_str s)) None).
  - cbn [value_node json_type parse_children check acceptable].
    rewrite (bad_item_None _ _ (items_named _ _ _ _)). cbn [String.eqb]. rewrite check_children_OK. by apply parse_items_check.
  - cbn [value_node json_type parse_children check acceptable].
    rewrite <- (members_names o pp (pl + 1) 0), <- no_duplicated.
    destruct (duplicated _) as [c|] eqn:E; [split; [done|by intros [? _]]|].
    change ("" =s "") with true. cbv iota. rewrite check_children_OK, parse_members_check by done.
    split; [by split|by intros [_ ?]].
Qed.

(** check accepts what was read exactly when no object of it, at any depth, repeats a
    name and no text of it has a forbidden character; the characters of names are not
    checked. *)
Theorem check_spec j : json_type j = ValueTypeObject \/ json_type j = ValueTypeVector ->
  check (parse_compound (json_type j) j) = "OK" <-> acceptable j.
Proof.
  intros Hj. rewrite <- (check_agrees_all j "TOP" "" 0 0 "/" 0). by destruct j, Hj.
Qed.

(** ** Concrete values *)

(** A structured value in three levels. *)
Definition sample_value : json :=
  JObject [("a", JArray [JNumber (double_of_Z 1); JNull; JObject []]); ("b", JString "x"); ("c", JObject [("d", JBool true)])].

Example sample_text : root_text (parse_compound ValueTypeObject sample_value) = json_text sample_value /\
  String.length (json_text sample_value) = 40%nat.
Proof. split; vm_compute; reflexivity. Qed.

Lemma compound_reprinted_witness : root_text (parse_compound ValueTypeObject sample_value) = json_text (c_json sample_value).
Proof. apply (compound_reprinted sample_value). left. reflexivity. Defined.

Lemma check_spec_witness : check (parse_compound ValueTypeObject sample_value) = "OK".
Proof.
  apply (check_spec sample_value); [left; reflexivity|]. cbn.
  repeat split; try reflexivity; apply (bool_decide_unpack _); vm_compute; exact I.
Defined.

Example numbers :
  toString_double <$> [double_of_Z 25; double_of_Z 1234567; double_of_Z 1000000; double_of_Z 999999; (strtod "0.1").1.1;
    (strtod "-1e-5").1.1; (strtod "0.0001234").1.1; (strtod "1e300").1.1; (strtod "999999.5").1.1]
  = ["25"; "1.23457e+06"; "1e+06"; "999999"; "0.1"; "-1e-05"; "0.0001234"; "1e+300"; "1e+06"].
Proof. vm_compute. reflexivity. Qed.

(** A name with double quotes passes the check and closes its own string. *)
Example name_injection :
  let j := JObject [("a" +:+ str1 "034" +:+ ":1," +:+ str1 "034" +:+ "b", JNumber (double_of_Z 2))] in
  check (parse_compound ValueTypeObject j) = "OK" /\
  root_text (parse_compound ValueTypeObject j) = json_text (JObject [("a", JNumber (double_of_Z 1)); ("b", JNumber (double_of_Z 2))]).
Proof. split; vm_compute; reflexivity. Qed.

(** The path of the thousandth item is that of item 100. *)
Example itemNo_truncated : itemNo 1000 = itemNo 100.
Proof. reflexivity. Qed.
