(* ===== verification/JsonText.v ===== *)
(** * JSON texts

    common/JsonHelper.cpp: texts with their special characters escaped, objects built member
    by member; and a reference reader of JSON texts (RFC 8259), which tells what the
    texts that the broker renders mean: a scanner, one character at a time, and a reader of
    its tokens. *)

From S2P Require Import Prelude Strings.

Open Scope Z_scope.

(** ** JsonHelper *)

Definition intToHex (n : N) : string :=
  str1 (if (n <? 10)%N then ascii_of_N (48 + n) else ascii_of_N (55 + n)).

(** What toJsonString writes for a character, which is signed. *)
Definition json_char (ch : ascii) : string :=
  match N_of_ascii ch with
  | 92%N => backslash +:+ backslash
  | 34%N => backslash +:+ str1 "034"
  | 8%N => backslash +:+ "b"
  | 12%N => backslash +:+ "f"
  | 10%N => backslash +:+ "n"
  | 13%N => backslash +:+ "r"
  | 9%N => backslash +:+ "t"
  | n => if (n <=? 31)%N then backslash +:+ "u00" +:+ intToHex (N.shiftr (N.land n 240) 4) +:+ intToHex (N.land n 15)
         else str1 ch
  end.

Fixpoint json_chars (s : string) : string :=
  match s with "" => "" | String c s' => json_char c +:+ json_chars s' end.

Definition toJsonString (input : string) : string := str1 "034" +:+ json_chars input +:+ str1 "034".

(** vectorToJson, of what [f] makes of the items. *)
Definition vectorToJson {A} (f : A -> string) (l : list A) : string :=
  match l with
  | [] => "[]"
  | x :: l' => "[" +:+ f x +:+ concat_str (map (fun y => "," +:+ f y) l') +:+ "]"
  end.

Record JsonHelper := mkJsonHelper { jh_ss : string; jh_empty : bool }.
Definition JsonHelper_new : JsonHelper := mkJsonHelper "{" true.

Definition addRaw (key value : string) (jh : JsonHelper) : JsonHelper :=
  mkJsonHelper (jh_ss jh +:+ (if jh_empty jh then "" else ",") +:+ toJsonString key +:+ ":" +:+ value) false.
Definition addString (key value : string) (jh : JsonHelper) : JsonHelper := addRaw key (toJsonString value) jh.
Definition addNumber (key : string) (value : Z) (jh : JsonHelper) : JsonHelper := addRaw key (show_Z value) jh.
Definition jh_str (jh : JsonHelper) : string := jh_ss jh +:+ "}".

(** An addition under a condition. *)
Definition add_if (b : bool) (f : JsonHelper -> JsonHelper) (jh : JsonHelper) : JsonHelper := if b then f jh else jh.

(** ** Tokens

    Of the escapes with four digits only the first 256 characters are read.  A control
    character or a quote inside a string is refused. *)

Inductive token := TStr (s : string) | TLit (w : string) | TPunct (c : ascii).

Inductive scanning :=
  | Between                                  (* tokens *)
  | InLit (w : string)                       (* a number, true, false or null *)
  | InStr (t : string)                       (* a string, read up to here *)
  | Escape (t : string)
  | Digits (t : string) (ds : list ascii).   (* of an escape *)

Definition blank (c : ascii) : bool := existsb (Ascii.eqb c) [" "%char; "009"%char; "010"%char; "013"%char].
Definition punct (c : ascii) : bool := existsb (Ascii.eqb c) ["["%char; "]"%char; "{"%char; "}"%char; ","%char; ":"%char].
Definition literal_char (c : ascii) : bool :=
  isdigit c || islower c || existsb (Ascii.eqb c) ["-"%char; "+"%char; "."%char; "E"%char].

Definition hex_value (c : ascii) : option N :=
  if in_range "0" "9" c then Some (code c - 48)%N
  else if in_range "A" "F" c then Some (code c - 55)%N
  else if in_range "a" "f" c then Some (code c - 87)%N
  else None.

Definition simple_escape (c : ascii) : option ascii :=
  match N_of_ascii c with
  | 34%N | 92%N | 47%N => Some c
  | 98%N => Some (ascii_of_N 8)
  | 102%N => Some (ascii_of_N 12)
  | 110%N => Some (ascii_of_N 10)
  | 114%N => Some (ascii_of_N 13)
  | 116%N => Some (ascii_of_N 9)
  | _ => None
  end.

(** A character between tokens. *)
Definition scan_start (c : ascii) : option (list token * scanning) :=
  if blank c then Some ([], Between)
  else if c =c "034"%char then Some ([], InStr "")
  else if punct c then Some ([TPunct c], Between)
  else if literal_char c then Some ([], InLit (str1 c))
  else None.

Definition scan_char (st : scanning) (c : ascii) : option (list token * scanning) :=
  match st with
  | Between => scan_start c
  | InLit w =>
      if literal_char c then Some ([], InLit (w +:+ str1 c))
      else match scan_start c with Some (ts, st) => Some (TLit w :: ts, st) | None => None end
  | InStr t =>
      if c =c "034"%char then Some ([TStr t], Between)
      else if c =c "092"%char then Some ([], Escape t)
      else if (code c <=? 31)%N then None
      else Some ([], InStr (t +:+ str1 c))
  | Escape t =>
      match simple_escape c with
      | Some d => Some ([], InStr (t +:+ str1 d))
      | None => if c =c "u"%char then Some ([], Digits t []) else None
      end
  | Digits t ds =>
      match ds ++ [c] with
      | [z1; z2; h1; h2] =>
          match hex_value h1, hex_value h2 with
          | Some a, Some b =>
              if (z1 =c "0"%char) && (z2 =c "0"%char) then Some ([], InStr (t +:+ str1 (ascii_of_N (16 * a + b)))) else None
          | _, _ => None
          end
      | ds => Some ([], Digits t ds)
      end
  end.

Fixpoint scan (st : scanning) (s : string) : option (list token * scanning) :=
  match s with
  | "" => Some ([], st)
  | String c s' =>
      match scan_char st c with
      | Some (ts, st') =>
          match scan st' s' with Some (ts', st'') => Some (ts ++ ts', st'') | None => None end
      | None => None
      end
  end.

Definition tokens (s : string) : option (list token) :=
  match scan Between s with
  | Some (ts, Between) => Some ts
  | Some (ts, InLit w) => Some (ts ++ [TLit w])
  | _ => None
  end.

(** ** Values *)

Inductive jtree :=
  | JStr (s : string)
  | JLit (w : string)
  | JArr (l : list jtree)
  | JObj (o : list (string * jtree)).

Definition JInt (n : Z) : jtree := JLit (show_Z n).

(** An exponent, or nothing. *)
Definition json_exponent (s : string) : bool :=
  match s with
  | "" => true
  | String c r =>
      let r := match r with String d r' => if (d =c "+"%char) || (d =c "-"%char) then r' else r | "" => r end in
      ((c =c "e"%char) || (c =c "E"%char)) && negb (r =s "") && str_all isdigit r
  end.

Definition json_number (w : string) : bool :=
  let s := match w with String c r => if c =c "-"%char then r else w | "" => w end in
  let '(i, r) := str_span isdigit s in
  negb (i =s "") && ((i =s "0") || negb (match i with String c _ => c =c "0"%char | "" => false end)) &&
  match r with
  | String c r' =>
      if c =c "."%char then let '(f, e) := str_span isdigit r' in negb (f =s "") && json_exponent e else json_exponent r
  | "" => true
  end.

Definition json_literal (w : string) : bool := existsb (String.eqb w) ["true"; "false"; "null"] || json_number w.

(** Items separated by commas up to a closing character. *)
Definition read_list {A} (item : list token -> option (A * list token)) (close : ascii) :=
  fix go (n : nat) (ts : list token) : option (list A * list token) :=
    match n with
    | O => None
    | S n =>
        match item ts with
        | Some (x, TPunct c :: ts') =>
            if c =c close then Some ([x], ts')
            else if c =c ","%char
            then match go n ts' with Some (l, rest) => Some (x :: l, rest) | None => None end
            else None
        | _ => None
        end
    end.

(** What follows an opening bracket. *)
Definition read_items {A} (item : list token -> option (A * list token)) (close : ascii) (n : nat) (ts : list token)
    : option (list A * list token) :=
  match ts with
  | TPunct c :: rest => if c =c close then Some ([], rest) else read_list item close n ts
  | _ => read_list item close n ts
  end.

Definition read_member (value : list token -> option (jtree * list token)) (ts : list token)
    : option ((string * jtree) * list token) :=
  match ts with
  | TStr k :: TPunct c :: ts' =>
      if c =c ":"%char then match value ts' with Some (v, rest) => Some ((k, v), rest) | None => None end else None
  | _ => None
  end.

Fixpoint read_value (fuel : nat) (ts : list token) : option (jtree * list token) :=
  match fuel with
  | O => None
  | S fuel =>
      match ts with
      | TStr s :: rest => Some (JStr s, rest)
      | TLit w :: rest => if json_literal w then Some (JLit w, rest) else None
      | TPunct c :: rest =>
          if c =c "["%char then
            match read_items (read_value fuel) "]" fuel rest with Some (l, rest) => Some (JArr l, rest) | None => None end
          else if c =c "{"%char then
            match read_items (read_member (read_value fuel)) "}" fuel rest with
            | Some (o, rest) => Some (JObj o, rest)
            | None => None
            end
          else None
      | [] => None
      end
  end.

(** The value of a whole text. *)
Definition read_json (s : string) : option jtree :=
  match tokens s with
  | Some ts => match read_value (S (length ts)) ts with Some (t, []) => Some t | _ => None end
  | None => None
  end.

(** ** The tokens of a value *)

Fixpoint commas (l : list (list token)) : list token :=
  match l with [] => [] | [x] => x | x :: l' => x ++ TPunct "," :: commas l' end.

Fixpoint tree_tokens (t : jtree) : list token :=
  match t with
  | JStr s => [TStr s]
  | JLit w => [TLit w]
  | JArr l => TPunct "[" :: commas (map tree_tokens l) ++ [TPunct "]"]
  | JObj o => TPunct "{" :: commas (map (fun kv => TStr kv.1 :: TPunct ":" :: tree_tokens kv.2) o) ++ [TPunct "}"]
  end.

Definition member_tokens (kv : string * jtree) : list token := TStr kv.1 :: TPunct ":" :: tree_tokens kv.2.

(** Values whose literals are literals of JSON. *)
Fixpoint sound (t : jtree) : bool :=
  match t with
  | JStr _ => true
  | JLit w => json_literal w
  | JArr l => forallb sound l
  | JObj o => forallb (fun kv => sound kv.2) o
  end.

Lemma jtree_induction (P : jtree -> Prop) :
  (forall s, P (JStr s)) -> (forall n, P (JLit n)) -> (forall l, Forall P l -> P (JArr l)) ->
  (forall o, Forall (fun kv => P kv.2) o -> P (JObj o)) -> forall t, P t.
Proof.
  intros H1 H2 H3 H4. fix IH 1. intros [s|n|l|o]; [apply H1|apply H2| |].
  - apply H3. induction l as [|t l IHl]; constructor; [apply IH|exact IHl].
  - apply H4. induction o as [|[k t] o IHo]; constructor; [apply IH|exact IHo].
Qed.

Lemma read_list_tokens {A} (item : list token -> option (A * list token)) (toks : A -> list token) close l n rest :
  close <> ","%char -> Forall (fun x => forall rest, item (toks x ++ rest) = Some (x, rest)) l -> l <> [] -> (length l <= n)%nat ->
  read_list item close n (commas (map toks l) ++ TPunct close :: rest) = Some (l, rest).
Proof.
  intros Hc H Hl. revert n. induction H as [|x l Hx H IH]; [done|]. intros [|n]; [cbn; lia|]. intros Hn.
  destruct l as [|y l].
  - cbn [map commas read_list]. rewrite Hx. by rewrite char_eqb_refl.
  - change (commas (map toks (x :: y :: l))) with (toks x ++ TPunct "," :: commas (map toks (y :: l))).
    rewrite <- app_assoc. cbn [app read_list]. rewrite Hx.
    assert (("," =c close)%char = false) as -> by (apply char_eqb_neq; congruence). rewrite char_eqb_refl.
    rewrite IH; [done|done|]. cbn in Hn |- *. lia.
Qed.

(** None of the items starts with a closing character. *)
Definition opens (ts : list token) : Prop :=
  match ts with TPunct c :: _ => c <> "]"%char /\ c <> "}"%char | [] => False | _ => True end.

Lemma tree_opens t : opens (tree_tokens t).
Proof. by destruct t. Qed.

Lemma read_items_tokens {A} (item : list token -> option (A * list token)) (toks : A -> list token) close l n rest :
  close = "]"%char \/ close = "}"%char -> (forall x, opens (toks x)) ->
  Forall (fun x => forall rest, item (toks x ++ rest) = Some (x, rest)) l -> (length l <= n)%nat ->
  read_items item close n (commas (map toks l) ++ TPunct close :: rest) = Some (l, rest).
Proof.
  intros Hc Ho H Hn. destruct l as [|x l].
  - cbn [map commas app read_items]. by rewrite char_eqb_refl.
  - rewrite <- (read_list_tokens item toks close (x :: l) n rest); [|by intros ->; destruct Hc|done|done|done].
    assert (opens (commas (map toks (x :: l)) ++ TPunct close :: rest)) as Hop.
    { specialize (Ho x). destruct l as [|y l]; cbn [map commas]; by destruct (toks x) as [|[] ?]. }
    destruct (commas (map toks (x :: l)) ++ TPunct close :: rest) as [|[| |c] ts]; try done. cbn [read_items].
    destruct (c =c close) eqn:E; [|done]. apply char_eqb_eq in E as ->. cbn in Hop. by destruct Hc as [-> | ->], Hop.
Qed.

Lemma commas_length {A} (toks : A -> list token) x l : x ∈ l -> (length (toks x) <= length (commas (map toks l)))%nat.
Proof.
  induction l as [|y l IH]; [by intros ?%elem_of_nil|]. destruct l as [|z l].
  - intros ->%list_elem_of_singleton. done.
  - change (commas (map toks (y :: z :: l))) with (toks y ++ TPunct "," :: commas (map toks (z :: l))).
    rewrite length_app. cbn [length]. intros [->|Hin]%elem_of_cons; [lia|]. apply IH in Hin. lia.
Qed.

Lemma commas_count {A} (toks : A -> list token) l : (forall x, opens (toks x)) -> (length l <= length (commas (map toks l)))%nat.
Proof.
  intros Ht. induction l as [|x l IH]; [done|]. assert (0 < length (toks x))%nat.
  { specialize (Ht x). destruct (toks x); [done|]. cbn. lia. }
  destruct l as [|z l]; [cbn; lia|].
  change (commas (map toks (x :: z :: l))) with (toks x ++ TPunct "," :: commas (map toks (z :: l))).
  rewrite length_app. cbn [length] in IH |- *. lia.
Qed.

Lemma read_tree t : sound t = true -> forall fuel rest, (length (tree_tokens t) < fuel)%nat ->
  read_value fuel (tree_tokens t ++ rest) = Some (t, rest).
Proof.
  induction t as [s|w|l IH|o IH] using jtree_induction; intros Hs [|fuel] rest Hf; try lia; cbn [tree_tokens app read_value].
  - done.
  - by cbn [sound] in Hs; rewrite Hs.
  - cbn [tree_tokens length] in Hf. rewrite length_app in Hf. cbn [length] in Hf.
    change ("[" =c "[")%char with true. cbv iota. rewrite <- app_assoc. cbn [app].
    rewrite (read_items_tokens _ tree_tokens); [done|by left|apply tree_opens| |].
    + cbn [sound] in Hs. rewrite forallb_forall in Hs. rewrite Forall_forall in IH |- *. intros x Hx r'.
      apply IH; [done|by apply Hs, list_elem_of_In|]. pose proof (commas_length tree_tokens x l Hx). lia.
    + pose proof (commas_count tree_tokens l tree_opens). lia.
  - cbn [tree_tokens length] in Hf. rewrite length_app in Hf. cbn [length] in Hf. change (map _ o) with (map member_tokens o) in Hf |- *.
    change ("{" =c "[")%char with false. change ("{" =c "{")%char with true. cbv iota. rewrite <- app_assoc. cbn [app].
    rewrite (read_items_tokens _ member_tokens); [done|by right|by intros []| |].
    + cbn [sound] in Hs. rewrite forallb_forall in Hs. rewrite Forall_forall in IH |- *. intros [k v] Hx r'.
      pose proof (commas_length member_tokens (k, v) o Hx) as Hl. unfold member_tokens in Hl at 1. cbn [fst snd length] in Hl.
      unfold member_tokens. cbn [fst snd app read_member]. change (":" =c ":")%char with true. cbv iota.
      rewrite (IH (k, v) Hx); [done|by apply (Hs (k, v)), list_elem_of_In|cbn [snd]; lia].
    + pose proof (commas_count member_tokens o (fun kv => ltac:(by destruct kv))). lia.
Qed.

(** ** Texts and their tokens *)

(** A text that is made of whole tokens. *)
Definition neat (s : string) (ts : list token) : Prop := scan Between s = Some (ts, Between).

Lemma scan_app st a b : scan st (a +:+ b)
  = match scan st a with
    | Some (ts, st') => match scan st' b with Some (ts', st'') => Some (ts ++ ts', st'') | None => None end
    | None => None
    end.
Proof.
  revert st. induction a as [|c a IH]; intros st.
  - rewrite app_nil_l_str. cbn [scan]. by destruct (scan st b) as [[]|].
  - rewrite app_cons_str. cbn [scan]. destruct (scan_char st c) as [[ts st']|]; [|done]. rewrite IH.
    destruct (scan st' a) as [[ts' st'']|]; [|done]. destruct (scan st'' b) as [[]|]; [|done]. by rewrite app_assoc.
Qed.

Lemma neat_app a b ta tb : neat a ta -> neat b tb -> neat (a +:+ b) (ta ++ tb).
Proof. unfold neat. intros Ha Hb. by rewrite scan_app, Ha, Hb. Qed.

Lemma neat_tokens s ts : neat s ts -> tokens s = Some ts.
Proof. unfold neat, tokens. by intros ->. Qed.

Lemma neat_tree s t : neat s (tree_tokens t) -> sound t = true -> read_json s = Some t.
Proof.
  intros Hn Hs. unfold read_json. rewrite (neat_tokens _ _ Hn).
  rewrite <- (app_nil_r (tree_tokens t)) at 2. rewrite read_tree; [done|done|lia].
Qed.

(** An escaped character is read as itself: all the 256 of them. *)
Lemma scan_json_char t c : scan (InStr t) (json_char c) = Some ([], InStr (t +:+ str1 c)).
Proof. destruct c as [[] [] [] [] [] [] [] []]; reflexivity. Qed.

Lemma scan_json_chars t s : scan (InStr t) (json_chars s) = Some ([], InStr (t +:+ s)).
Proof.
  revert t. induction s as [|c s IH]; intros t; [by rewrite app_nil_r_str|].
  cbn [json_chars]. rewrite scan_app, scan_json_char, IH. by rewrite app_assoc_str.
Qed.

Lemma scan_open : scan Between (str1 "034") = Some ([], InStr "").
Proof. reflexivity. Qed.

Lemma scan_close t : scan (InStr t) (str1 "034") = Some ([TStr t], Between).
Proof. reflexivity. Qed.

Lemma neat_string s : neat (toJsonString s) [TStr s].
Proof. unfold neat, toJsonString. by rewrite !scan_app, scan_open, scan_app, scan_json_chars, scan_close. Qed.

(** A character that may stand in a string as it is. *)
Definition plain_char (c : ascii) : bool := negb (c =c "034"%char) && negb (c =c "092"%char) && negb (code c <=? 31)%N.

Lemma scan_plain t s : str_all plain_char s = true -> scan (InStr t) s = Some ([], InStr (t +:+ s)).
Proof.
  revert t. induction s as [|c s IH]; intros t; [by rewrite app_nil_r_str|].
  rewrite str_all_cons, andb_true_iff. intros [Hc Hs]. unfold plain_char in Hc. rewrite !andb_true_iff, !negb_true_iff in Hc.
  destruct Hc as [[H1 H2] H3]. cbn [scan scan_char]. rewrite H1, H2, H3, IH by done. by rewrite app_assoc_str.
Qed.

Lemma neat_plain s : str_all plain_char s = true -> neat (str1 "034" +:+ s +:+ str1 "034") [TStr s].
Proof. intros Hs. unfold neat. by rewrite !scan_app, scan_open, scan_app, scan_plain, scan_close. Qed.

(** A literal and the character that ends it. *)
Lemma scan_literal v w : str_all literal_char w = true -> scan (InLit v) w = Some ([], InLit (v +:+ w)).
Proof.
  revert v. induction w as [|c w IH]; intros v; [by rewrite app_nil_r_str|].
  rewrite str_all_cons, andb_true_iff. intros [Hc Hw]. cbn [scan scan_char]. rewrite Hc, IH by done. by rewrite app_assoc_str.
Qed.

Lemma literal_char_start c : literal_char c = true -> scan_start c = Some ([], InLit (str1 c)).
Proof. destruct c as [[] [] [] [] [] [] [] []]; first [reflexivity|discriminate]. Qed.

Lemma neat_literal w c ts : str_all literal_char w = true -> w <> "" -> literal_char c = false ->
  scan_start c = Some (ts, Between) -> neat (w +:+ str1 c) (TLit w :: ts).
Proof.
  intros Hw Hn Hc Hs. unfold neat. destruct w as [|d w]; [done|]. rewrite str_all_cons, andb_true_iff in Hw. destruct Hw as [Hd Hw].
  rewrite scan_app. cbn [scan scan_char]. rewrite literal_char_start, scan_literal by done.
  change (str1 d +:+ w) with (String d w). cbn [scan scan_char str1]. rewrite Hc, Hs. by rewrite ?app_nil_r.
Qed.

(** The characters of literals. *)
Lemma json_exponent_chars s : json_exponent s = true -> str_all literal_char s = true.
Proof.
  assert (forall r, str_all isdigit r = true -> str_all literal_char r = true) as Hd.
  { intros r. apply str_all_impl. intros d Hd. unfold literal_char. by rewrite Hd. }
  destruct s as [|c r]; [done|]. unfold json_exponent. rewrite !andb_true_iff. intros [[Hc _] Hr]. rewrite str_all_cons, andb_true_iff. split.
  - apply orb_true_iff in Hc as [->%char_eqb_eq| ->%char_eqb_eq]; done.
  - destruct r as [|d r]; [done|]. destruct ((d =c "+"%char) || (d =c "-"%char)) eqn:E; [|by apply Hd].
    rewrite str_all_cons, (Hd r Hr), andb_true_r. apply orb_true_iff in E as [->%char_eqb_eq| ->%char_eqb_eq]; done.
Qed.

Lemma span_all p s : str_all p (str_span p s).1 = true.
Proof.
  induction s as [|c s IH]; [done|]. cbn [str_span]. destruct (p c) eqn:E; [|done].
  destruct (str_span p s) as [a b]. cbn [fst] in IH |- *. by rewrite str_all_cons, E, IH.
Qed.

Lemma json_number_chars w : json_number w = true -> str_all literal_char w = true.
Proof.
  assert (forall r, str_all isdigit r = true -> str_all literal_char r = true) as Hd.
  { intros r. apply str_all_impl. intros d Hd. unfold literal_char. by rewrite Hd. }
  assert (forall s, (let '(i, r) := str_span isdigit s in
    match r with
    | String c r' => if c =c "."%char then let '(f, e) := str_span isdigit r' in negb (f =s "") && json_exponent e else json_exponent r
    | "" => true
    end) = true -> str_all literal_char s = true) as H.
  { intros s. pose proof (span_all isdigit s) as Ha. destruct (str_span isdigit s) as [i r] eqn:E. apply str_span_app in E as <-.
    cbn [fst] in Ha. rewrite str_all_app, (Hd i Ha). destruct r as [|c r]; [done|]. destruct (c =c "."%char) eqn:Ec.
    - apply char_eqb_eq in Ec as ->. pose proof (span_all isdigit r) as Hb. destruct (str_span isdigit r) as [f e] eqn:E.
      apply str_span_app in E as <-. cbn [fst] in Hb. intros [_ He]%andb_true_iff.
      rewrite str_all_cons, str_all_app, (Hd f Hb), (json_exponent_chars e He). done.
    - apply json_exponent_chars. }
  unfold json_number. destruct w as [|c r]; [done|]. destruct (c =c "-"%char) eqn:Ec.
  - apply char_eqb_eq in Ec as ->. intros Hw. rewrite str_all_cons, (H r); [done|].
    destruct (str_span isdigit r). apply andb_true_iff in Hw as [_ Hw]. exact Hw.
  - intros Hw. apply H. destruct (str_span isdigit (String c r)). apply andb_true_iff in Hw as [_ Hw]. exact Hw.
Qed.

Lemma json_literal_chars w : json_literal w = true -> str_all literal_char w = true /\ w <> "".
Proof.
  unfold json_literal. cbn [existsb]. rewrite !orb_true_iff, !str_eqb_eq. intros [[->|[->|[->|?]]]|H]; try done.
  split; [by apply json_number_chars|]. by intros ->.
Qed.

Lemma str_span_digits s : str_all isdigit s = true -> str_span isdigit s = (s, "").
Proof.
  induction s as [|c s IH]; [done|]. rewrite str_all_cons, andb_true_iff. intros [Hc Hs]. cbn [str_span]. by rewrite Hc, IH.
Qed.

(** Texts of numbers. *)
Definition no_leading_zero (s : string) : bool :=
  negb (s =s "") && ((s =s "0") || negb (match s with String c _ => c =c "0"%char | "" => false end)).

Lemma show_N_go_leading f n acc : (n < 2 ^ N.of_nat f)%N -> n <> 0%N -> 
  match show_N_go f n acc with String c _ => (c =c "0"%char) = false | "" => False end.
Proof.
  revert n acc. induction f as [|f IH]; intros n acc Hn H0; [cbn in Hn; lia|]. cbn [show_N_go]. destruct (n <? 10)%N eqn:E.
  - apply N.ltb_lt in E. apply char_eqb_neq. intros Hc. pose proof (digit_char_code n E) as H. rewrite Hc in H.
    change (code "0") with 48%N in H. lia.
  - apply N.ltb_ge in E. destruct (pow2_div10 f n Hn E) as [Hlt _]. apply IH; [done|].
    intros Hz. apply N.div_small_iff in Hz; lia.
Qed.

Lemma show_N_leading n : no_leading_zero (show_N n) = true.
Proof.
  unfold no_leading_zero. destruct (show_N_cons n) as (c & r & E & _).
  assert ((show_N n =s "") = false) as -> by (by rewrite E). cbn [negb andb].
  destruct (decide (n = 0%N)) as [->|Hn]; [done|]. pose proof (show_N_go_leading _ n "" (show_N_bound n) Hn) as H.
  fold (show_N n) in H. rewrite E in H |- *. by rewrite H, orb_true_r.
Qed.

Lemma json_number_digits ds : str_all isdigit ds = true -> no_leading_zero ds = true -> forall neg : bool,
  json_number ((if neg then "-" else "") +:+ ds) = true.
Proof.
  intros Hd Hl neg. assert (forall s, s = ds -> (let '(i, r) := str_span isdigit s in
    negb (i =s "") && ((i =s "0") || negb (match i with String c _ => c =c "0"%char | "" => false end)) &&
    match r with
    | String c r' =>
        if c =c "."%char then let '(f, e) := str_span isdigit r' in negb (f =s "") && json_exponent e else json_exponent r
    | "" => true
    end) = true) as H.
  { intros s ->. rewrite str_span_digits by done. by rewrite andb_true_r. }
  unfold json_number. destruct neg.
  - change ("-" +:+ ds) with (String "-" ds). cbv iota beta. by apply H.
  - rewrite app_nil_l_str. destruct ds as [|c r] eqn:E; [done|]. assert ((c =c "-"%char) = false) as ->; [|by apply H].
    apply isdigit_neq; [|done]. rewrite str_all_cons in Hd. by apply andb_true_iff in Hd as [? _].
Qed.

Lemma json_literal_Z n : json_literal (show_Z n) = true.
Proof.
  unfold json_literal. rewrite orb_true_iff. right. unfold show_Z. destruct (n <? 0).
  - by apply (json_number_digits _ (show_N_digits _) (show_N_leading _) true).
  - apply (json_number_digits _ (show_N_digits (Z.to_N n)) (show_N_leading _) false).
Qed.

Lemma sound_JInt n : sound (JInt n) = true.
Proof. apply json_literal_Z. Qed.

(** *** Compact texts *)

(** The text of a value, without blanks. *)
Fixpoint tree_text (t : jtree) : string :=
  match t with
  | JStr s => toJsonString s
  | JLit w => w
  | JArr l => "[" +:+ join "," (map tree_text l) +:+ "]"
  | JObj o => "{" +:+ join "," (map (fun kv => toJsonString kv.1 +:+ ":" +:+ tree_text kv.2) o) +:+ "}"
  end.

Definition member_text (kv : string * jtree) : string := toJsonString kv.1 +:+ ":" +:+ tree_text kv.2.

(** A text is whole tokens once a blank or a punctuation mark follows it. *)
Definition written (s : string) (ts : list token) : Prop :=
  forall c ts0, literal_char c = false -> scan_start c = Some (ts0, Between) -> neat (s +:+ str1 c) (ts ++ ts0).

Lemma neat_written s ts : neat s ts -> written s ts.
Proof.
  intros Hs c ts0 _ Hc. apply neat_app; [done|]. unfold neat. cbn [scan str1 scan_char]. rewrite Hc. by rewrite app_nil_r.
Qed.

Lemma written_literal w : json_literal w = true -> written w [TLit w].
Proof. intros [Hw Hn]%json_literal_chars c ts0 Hc Hs. by apply neat_literal. Qed.

Lemma written_read s t : written s (tree_tokens t) -> sound t = true -> read_json s = Some t.
Proof.
  intros Hw Hs. assert (tokens s = Some (tree_tokens t)) as Ht.
  { specialize (Hw " "%char [] eq_refl eq_refl). unfold neat in Hw. rewrite scan_app, app_nil_r in Hw. unfold tokens.
    destruct (scan Between s) as [[ts st]|]; [|done]. destruct st as [|w|t'|t'|t' ds]; cbn in Hw; try done.
    - by injection Hw as <-; rewrite app_nil_r.
    - by injection Hw as <-.
    - destruct ds as [|? [|? [|? [|? [|? ?]]]]]; cbn in Hw; try done.
      by destruct (hex_value _). }
  unfold read_json. rewrite Ht. rewrite <- (app_nil_r (tree_tokens t)) at 2. rewrite read_tree; [done|done|lia].
Qed.

Lemma written_join {A} (text : A -> string) (toks : A -> list token) close l :
  close = "]"%char \/ close = "}"%char -> Forall (fun x => written (text x) (toks x)) l ->
  neat (join "," (map text l) +:+ str1 close) (commas (map toks l) ++ [TPunct close]).
Proof.
  intros Hc H. assert (literal_char close = false /\ scan_start close = Some ([TPunct close], Between)) as [Hl Hs].
  { by destruct Hc as [-> | ->]. }
  induction H as [|x l Hx H IH].
  - unfold neat. cbn [map join]. rewrite app_nil_l_str. cbn [scan str1 scan_char]. by rewrite Hs.
  - destruct l as [|y l]; [by apply Hx|].
    change (join "," (map text (x :: y :: l))) with (text x +:+ str1 "," +:+ join "," (map text (y :: l))).
    change (commas (map toks (x :: y :: l))) with (toks x ++ [TPunct ","] ++ commas (map toks (y :: l))).
    rewrite <- !app_assoc, !app_assoc_str, <- (app_assoc_str (text x)), (app_assoc (toks x)).
    apply neat_app; [|exact IH]. by apply Hx.
Qed.

Lemma written_tree t : sound t = true -> written (tree_text t) (tree_tokens t).
Proof.
  induction t as [s|w|l IH|o IH] using jtree_induction; intros Hs.
  - apply neat_written, neat_string.
  - by apply written_literal.
  - apply neat_written. cbn [tree_text tree_tokens sound] in *.
    apply (neat_app "[" _ [TPunct "["]); [done|]. apply written_join; [by left|].
    rewrite forallb_forall in Hs. rewrite Forall_forall in IH |- *. intros x Hx. apply IH; [done|]. by apply Hs, list_elem_of_In.
  - apply neat_written. cbn [sound] in Hs.
    change (tree_text (JObj o)) with ("{" +:+ join "," (map member_text o) +:+ "}").
    change (tree_tokens (JObj o)) with ([TPunct "{"] ++ commas (map member_tokens o) ++ [TPunct "}"]).
    apply (neat_app "{" _ [TPunct "{"]); [done|]. apply written_join; [by right|].
    rewrite forallb_forall in Hs. rewrite Forall_forall in IH |- *. intros [k v] Hx c ts0 Hc H0. unfold member_text, member_tokens.
    cbn [fst snd]. rewrite !app_assoc_str. change (TStr k :: TPunct ":" :: tree_tokens v) with ([TStr k] ++ [TPunct ":"] ++ tree_tokens v).
    rewrite <- !app_assoc. apply neat_app; [apply neat_string|]. apply neat_app; [done|].
    by apply (IH (k, v) Hx); [apply (Hs (k, v)), list_elem_of_In| |].
Qed.

Lemma read_json_text t : sound t = true -> read_json (tree_text t) = Some t.
Proof. intros Hs. by apply written_read; [apply written_tree|]. Qed.

(** A text that is read holds no NUL. *)
Definition nul_digits (st : scanning) : Prop := match st with Digits _ ds => NUL ∈ ds | _ => False end.

Lemma scan_nul_digits st s ts st' : scan st s = Some (ts, st') -> nul_digits st -> nul_digits st'.
Proof.
  revert st ts. induction s as [|c s IH]; intros st ts; [by intros [= _ <-]|]. cbn [scan].
  destruct (scan_char st c) as [[ts1 st1]|] eqn:E; [|done]. destruct (scan st1 s) as [[ts2 st2]|] eqn:E2; [|done].
  intros [= _ ->] Hb. apply (IH _ _ E2). destruct st as [| | | |t ds]; try done.
  assert (NUL ∈ ds ++ [c]) as Hc by (apply elem_of_app; by left).
  unfold scan_char in E. destruct (ds ++ [c]) as [|z1 [|z2 [|h1 [|h2 [|z3 r]]]]] eqn:El; try (by injection E as <- <-).
  destruct (hex_value h1) eqn:E1; [|done]. destruct (hex_value h2) eqn:E3; [|done].
  destruct ((z1 =c "0"%char) && (z2 =c "0"%char)) eqn:Ez; [|done]. apply andb_true_iff in Ez as [->%char_eqb_eq ->%char_eqb_eq].
  rewrite !elem_of_cons in Hc. by destruct Hc as [?|[?|[<-|[<-|?%elem_of_nil]]]].
Qed.

Lemma scan_no_nul st s ts st' : scan st s = Some (ts, st') -> ~ nul_digits st' -> free_of NUL s = true.
Proof.
  intros H Hn. revert st ts H. induction s as [|c s IH]; intros st ts; [done|]. cbn [scan].
  destruct (scan_char st c) as [[ts1 st1]|] eqn:E; [|done]. destruct (scan st1 s) as [[ts2 st2]|] eqn:E2; [|done].
  intros [= _ ->]. unfold free_of. rewrite str_all_cons. apply andb_true_iff. split; [|by apply (IH st1 ts2)].
  apply negb_true_iff, char_eqb_neq. intros ->. assert (~ nul_digits st1) as Hst1 by (intros Hb; by apply Hn, (scan_nul_digits _ _ _ _ E2)).
  destruct st as [|w|t|t|t ds]; try (by vm_compute in E). assert (NUL ∈ ds ++ [NUL]) as Hc by (apply elem_of_app; right; by left).
  unfold scan_char in E. destruct (ds ++ [NUL]) as [|z1 [|z2 [|h1 [|h2 [|z3 r]]]]] eqn:El; try (by injection E as <- <-).
  assert (h2 = NUL) as -> by (pose proof (last_snoc NUL ds) as Hl; rewrite El in Hl; by injection Hl).
  by destruct (hex_value h1).
Qed.

Lemma read_json_no_nul s t : read_json s = Some t -> free_of NUL s = true.
Proof.
  unfold read_json, tokens. destruct (scan Between s) as [[ts st]|] eqn:E; [|done]. intros H. apply (scan_no_nul _ _ _ _ E).
  intros Hb. by destruct st.
Qed.
