(* ===== verification/JsonValue.v ===== *)
(** * What a JSON text says

    The value of a text by the grammar of JSON ([read_json] of JsonText.v, which knows escapes), its
    numbers read as correctly rounded doubles, and the values that the broker's way of printing
    ([json_text] of Json.v: no escapes, six significant digits) leaves as they are. *)

From S2P Require Import Prelude Strings Double Bson Compound Json JsonText.

Open Scope Z_scope.

(** ** The value of a text *)

Definition literal_value (w : string) : option json :=
  if w =s "null" then Some JNull
  else if w =s "true" then Some (JBool true)
  else if w =s "false" then Some (JBool false)
  else JNumber <$> str2double w.

Definition items_of (f : jtree -> option json) :=
  fix go (l : list jtree) : option (list json) :=
    match l with
    | [] => Some []
    | t :: l' => match f t, go l' with Some j, Some js => Some (j :: js) | _, _ => None end
    end.

Definition members_of (f : jtree -> option json) :=
  fix go (o : list (string * jtree)) : option (list (string * json)) :=
    match o with
    | [] => Some []
    | (k, t) :: o' => match f t, go o' with Some j, Some js => Some ((k, j) :: js) | _, _ => None end
    end.

Fixpoint value_of (t : jtree) : option json :=
  match t with
  | JStr s => Some (JString s)
  | JLit w => literal_value w
  | JArr l => JArray <$> items_of value_of l
  | JObj o => JObject <$> members_of value_of o
  end.

Definition parse_json (s : string) : option json :=
  match read_json s with Some t => value_of t | None => None end.

(** ** What is printed as it is *)

#[export] Instance double_eq_dec : EqDecision spec_float.
Proof. solve_decision. Defined.

(** Characters that need no escape. *)
Definition unescaped (s : string) : bool := str_all plain_char s.

(** A number that its six digits give back. *)
Definition exact_number (d : double) : bool :=
  json_number (toString_double d) && bool_decide (str2double (toString_double d) = Some d).

Fixpoint exact (j : json) : bool :=
  match j with
  | JNull | JBool _ => true
  | JNumber d => exact_number d
  | JString s => unescaped s
  | JArray l => forallb exact l
  | JObject o => forallb (fun kv => unescaped kv.1 && exact kv.2) o
  end.

(** The tree of the text of a value. *)
Fixpoint tree_of (j : json) : jtree :=
  match j with
  | JNull => JLit "null"
  | JBool b => JLit (JSON_BOOL b)
  | JNumber d => JLit (toString_double d)
  | JString s => JStr s
  | JArray l => JArr (map tree_of l)
  | JObject o => JObj (map (fun kv => (kv.1, tree_of kv.2)) o)
  end.

Lemma tree_of_sound j : exact j = true -> sound (tree_of j) = true.
Proof.
  induction j as [|b|d|s|l IH|o IH] using json_induction; cbn [exact tree_of sound]; try done.
  - by destruct b.
  - unfold exact_number, json_literal. intros [-> _]%andb_true_iff. by rewrite orb_true_r.
  - rewrite !forallb_forall. intros Hl t (j & <- & Hj)%in_map_iff. rewrite Forall_forall in IH. apply IH; [by apply list_elem_of_In|auto].
  - rewrite !forallb_forall. intros Ho t (kv & <- & Hkv)%in_map_iff. rewrite Forall_forall in IH. cbn [snd].
    apply IH; [by apply list_elem_of_In|]. by apply Ho, andb_true_iff in Hkv as [_ ?].
Qed.

Lemma written_member k text t : unescaped k = true -> written text (tree_tokens t) ->
  written (quote k +:+ ":" +:+ text) (member_tokens (k, t)).
Proof.
  intros Hk Ht c ts0 Hc H0. unfold member_tokens. cbn [fst snd].
  rewrite !app_assoc_str. change (TStr k :: TPunct ":" :: tree_tokens t) with ([TStr k] ++ [TPunct ":"] ++ tree_tokens t).
  rewrite <- !app_assoc. apply neat_app; [by apply neat_plain|]. apply neat_app; [done|]. by apply Ht.
Qed.

(** The text of such a value is read as its tree. *)
Lemma written_exact j : exact j = true -> written (json_text j) (tree_tokens (tree_of j)).
Proof.
  induction j as [|b|d|s|l IH|o IH] using json_induction; cbn [exact tree_of json_text]; intros He.
  - by apply written_literal.
  - by apply written_literal; destruct b.
  - apply written_literal. unfold exact_number in He. apply andb_true_iff in He as [He _]. unfold json_literal. by rewrite He, orb_true_r.
  - by apply neat_written, neat_plain.
  - apply neat_written. cbn [tree_tokens]. apply (neat_app "[" _ [TPunct "["]); [done|]. rewrite map_map.
    apply (written_join json_text (fun x => tree_tokens (tree_of x))); [by left|].
    rewrite forallb_forall in He. rewrite Forall_forall in IH |- *. intros x Hx. apply IH; [done|]. by apply He, list_elem_of_In.
  - apply neat_written.
    change (tree_tokens (JObj ?o)) with ([TPunct "{"] ++ commas (map member_tokens o) ++ [TPunct "}"]).
    apply (neat_app "{" _ [TPunct "{"]); [done|]. rewrite map_map.
    apply (written_join (fun kv => quote kv.1 +:+ ":" +:+ json_text kv.2) (fun kv => member_tokens (kv.1, tree_of kv.2))); [by right|].
    rewrite forallb_forall in He. rewrite Forall_forall in IH |- *. intros [k v] Hx. cbn [fst snd].
    apply list_elem_of_In in Hx as Hin. apply He, andb_true_iff in Hin as [Hk Hv]. apply written_member; [done|]. by apply (IH (k, v)).
Qed.

Lemma tree_of_value j : exact j = true -> value_of (tree_of j) = Some j.
Proof.
  induction j as [|b|d|s|l IH|o IH] using json_induction; cbn [exact tree_of value_of]; intros He; try done.
  - by destruct b.
  - unfold exact_number in He. apply andb_true_iff in He as [Hn Hd%bool_decide_eq_true]. unfold literal_value.
    rewrite Hd. destruct (toString_double d =s "null") eqn:E1; [apply str_eqb_eq in E1; by rewrite E1 in Hn|].
    destruct (toString_double d =s "true") eqn:E2; [apply str_eqb_eq in E2; by rewrite E2 in Hn|].
    destruct (toString_double d =s "false") eqn:E3; [apply str_eqb_eq in E3; by rewrite E3 in Hn|]. done.
  - assert (items_of value_of (map tree_of l) = Some l) as ->; [|done].
    induction IH as [|x l Hx _ IHl]; [done|]. cbn [forallb] in He. apply andb_true_iff in He as [He1 He2].
    cbn [map items_of]. by rewrite Hx, IHl.
  - assert (members_of value_of (map (fun kv => (kv.1, tree_of kv.2)) o) = Some o) as ->; [|done].
    induction IH as [|[k x] o Hx _ IHo]; [done|]. cbn [forallb fst snd] in *. apply andb_true_iff in He as [[_ He1]%andb_true_iff He2].
    cbn [map members_of fst snd]. by rewrite Hx, IHo.
Qed.

(** An exact value is what its text says. *)
Lemma parse_json_text j : exact j = true -> parse_json (json_text j) = Some j.
Proof.
  intros He. unfold parse_json. rewrite (written_read _ _ (written_exact _ He) (tree_of_sound _ He)). by apply tree_of_value.
Qed.

(** ** What is lost otherwise *)

(** Numbers that agree in six digits have one text; the second is read back as 1234570. *)
Example six_digits :
  json_text (JNumber (double_of_Z 1234567)) = json_text (JNumber (double_of_Z 1234568)) /\
  parse_json (json_text (JNumber (double_of_Z 1234567))) = Some (JNumber (double_of_Z 1234570)).
Proof. split; vm_compute; reflexivity. Qed.

(** A backslash, a quote or a line end inside a text. *)
Example not_escaped :
  parse_json (json_text (JString backslash)) = None /\ parse_json (json_text (JString (str1 "034"))) = None /\
  parse_json (json_text (JString (str1 "010"))) = None /\
  parse_json (json_text (JString (backslash +:+ "n"))) = Some (JString (str1 "010")).
Proof. repeat split; vm_compute; reflexivity. Qed.

(** Small integers, and numbers of up to six digits around them, are exact. *)
Example small_numbers :
  forallb (fun n => exact (JNumber (double_of_Z n))) (map (fun n => Z.of_nat n - 500) (seq 0 1001)) = true /\
  forallb (fun s => match str2double s with Some d => exact (JNumber d) | None => false end)
    ["999999"; "-123456"; "0.1"; "23.45"; "1e-05"; "1e+300"; "-0"; "3.14159"] = true.
Proof. split; vm_compute; reflexivity. Qed.
