(* ===== verification/JsonEntity.v ===== *)
(** * Entities as JSON

    Entities in version 2 of the interface, both ways: toJson and check of ngsi/Metadata.cpp,
    MetadataVector.cpp, ContextAttribute.cpp and ContextAttributeVector.cpp,
    apiTypesV2/Entity.cpp, EntityVector.cpp, Entities.cpp and ErrorCode.cpp; parseMetadata,
    parseMetadataVector, parseContextAttribute, parseEntity, parseEntityObject,
    parseEntityVector and parseAttributeValue of jsonParseV2/.  A parser that answers a text
    other than "OK" is [inl] that text. *)

From S2P Require Import Prelude Strings Double Bson Compound Ngsi Duration Json JsonText JsonValue.

Open Scope Z_scope.

Definition MAX_ID_LEN : Z := 256.
Definition MIN_ID_LEN : Z := 1.
Definition ERROR_STRING_PARSERROR : string := "ParseError".

(** ** Errors *)

(** strReplace into a buffer of [toLen] + 1 bytes that holds zeros: [to] is what is written.
    A replacement that is cut is followed by a write past the end, that of the final NUL at
    the latest. *)
Fixpoint strReplace_loop (fuel : nat) (toLen : nat) (to from oldString newString : string) : cpp string :=
  if from =s "" then
    if (String.length to <=? toLen)%nat then Ret to else UB "write past the end of the buffer"
  else match fuel with
  | O => Looping
  | S fuel =>
      if strncmp_eq from oldString (String.length oldString) then
        if (String.length to + String.length newString <=? toLen)%nat
        then strReplace_loop fuel toLen (to +:+ newString) (str_drop (String.length oldString) from) oldString newString
        else UB "write past the end of the buffer"
      else if (String.length to <=? toLen)%nat
        then strReplace_loop fuel toLen (to +:+ str_take 1 from) (str_drop 1 from) oldString newString
        else UB "write past the end of the buffer"
  end.

Definition strReplace (toLen : nat) (from oldString newString : string) : cpp string :=
  strReplace_loop (String.length (c_str from)) toLen "" (c_str from) (c_str oldString) (c_str newString).

Record ErrorCode := mkErrorCode { ec_error : string; ec_description : string }.

Definition no_error (ec : ErrorCode) : bool :=
  (ec_description ec =s "") && ((ec_error ec =s "OK") || (ec_error ec =s "")).

(** ErrorCode::toJson; the description keeps the escapes. *)
Definition ErrorCode_toJson (ec : ErrorCode) (isLastElement : bool) : cpp (string * ErrorCode) :=
  if no_error ec then Ret ("", ec)
  else
    description ← (if str_contains (str1 "034") (c_str (ec_description ec))
                   then strReplace (String.length (ec_description ec) * 2) (ec_description ec) (str1 "034") (backslash +:+ str1 "034")
                   else Ret (ec_description ec));
    let comma := negb (ec_error ec =s "") && negb (ec_error ec =s "OK") in
    Ret ("{" +:+ (if comma then JSON_VALUE "error" (ec_error ec) else "")
         +:+ (if negb (description =s "") then (if comma then "," else "") +:+ JSON_VALUE "description" description else "")
         +:+ "}" +:+ (if isLastElement then "" else ","),
         mkErrorCode (ec_error ec) description).

(** ** Rendering *)

Definition or_default_type (type : string) : string := if negb (type =s "") then type else DEFAULT_TYPE.

(** Metadata::toJson *)
Definition Metadata_toJson (md : Metadata) (isLastElement : bool) : string :=
  quote (md_name md) +:+ ":{" +:+ JSON_VALUE "type" (or_default_type (md_type md)) +:+ ","
  +:+ match md_valueType md with
      | ValueTypeString => JSON_VALUE "value" (md_stringValue md)
      | ValueTypeNumber => JSON_VALUE_NUMBER "value" (toString_double (md_numberValue md))
      | ValueTypeBoolean => JSON_VALUE_BOOL "value" (md_boolValue md)
      | ValueTypeNone => quote "value" +:+ ":null"
      | _ => JSON_VALUE "value" (md_stringValue md)
      end
  +:+ "}" +:+ (if isLastElement then "" else ",").

Definition hidden_metadata (md : Metadata) : bool := (md_name md =s "value") || (md_name md =s "type").

Definition validMetadatas (mdV : list Metadata) : nat :=
  length (List.filter (fun md => negb (hidden_metadata md)) mdV).

Fixpoint metadata_loop (mdV : list Metadata) (renderedMetadatas valid : nat) : string :=
  match mdV with
  | [] => ""
  | md :: mdV' =>
      if hidden_metadata md then metadata_loop mdV' renderedMetadatas valid
      else Metadata_toJson md (S renderedMetadatas =? valid)%nat +:+ metadata_loop mdV' (S renderedMetadatas) valid
  end.

(** MetadataVector::toJson *)
Definition MetadataVector_toJson (mdV : list Metadata) (isLastElement : bool) : string :=
  if (length mdV =? 0)%nat then ""
  else metadata_loop mdV 0 (validMetadatas mdV) +:+ (if isLastElement then "" else ",").

Section Render.

(** isodate2str(numberValue): gmtime and strftime on the number as a time. *)
Context (isodate2str : double -> string).

Definition is_date (ca : ContextAttribute) : bool := ca_type ca =s DATE_TYPE.

(** ContextAttribute::toJson for values, keyValues and uniqueValues. *)
Definition plain_value (ca : ContextAttribute) : string :=
  match ca_compoundValueP ca with
  | Some c =>
      match cvn_valueType c with
      | ValueTypeObject => "{" +:+ toJson_top c +:+ "}"
      | ValueTypeVector => "[" +:+ toJson_top c +:+ "]"
      | _ => ""
      end
  | None =>
      match ca_valueType ca with
      | ValueTypeNumber => if is_date ca then quote (isodate2str (ca_numberValue ca)) else toString_double (ca_numberValue ca)
      | ValueTypeString => quote (ca_stringValue ca)
      | ValueTypeBoolean => JSON_BOOL (ca_boolValue ca)
      | ValueTypeNone => "null"
      | _ => ""
      end
  end.

(** The same for normalized. *)
Definition normalized_value (ca : ContextAttribute) : string :=
  match ca_compoundValueP ca with
  | Some c =>
      match cvn_valueType c with
      | ValueTypeObject => quote "value" +:+ ":{" +:+ toJson_top c +:+ "}"
      | ValueTypeVector => quote "value" +:+ ":[" +:+ toJson_top c +:+ "]"
      | _ => ""
      end
  | None =>
      match ca_valueType ca with
      | ValueTypeNumber => if is_date ca then JSON_VALUE "value" (isodate2str (ca_numberValue ca))
                           else JSON_VALUE_NUMBER "value" (toString_double (ca_numberValue ca))
      | ValueTypeString => JSON_VALUE "value" (ca_stringValue ca)
      | ValueTypeBoolean => JSON_VALUE_BOOL "value" (ca_boolValue ca)
      | ValueTypeNone => quote "value" +:+ ":" +:+ "null"
      | _ => JSON_VALUE "value" (ca_stringValue ca)
      end
  end.

Definition values_format (format : RenderFormat) : bool :=
  match format with NGSI_V2_VALUES | NGSI_V2_KEYVALUES | NGSI_V2_UNIQUE_VALUES => true | _ => false end.

(** [bare]: the request type is EntityAttributeResponse. *)
Definition ContextAttribute_toJson (ca : ContextAttribute) (isLastElement : bool) (format : RenderFormat) (bare : bool) : string :=
  (if values_format format then
     (if bool_decide (format = NGSI_V2_KEYVALUES) then quote (ca_name ca) +:+ ":" else "") +:+ plain_value ca
   else
     (if bare then "" else quote (ca_name ca) +:+ ":{")
     +:+ JSON_VALUE "type" (or_default_type (ca_type ca)) +:+ "," +:+ normalized_value ca +:+ ","
     +:+ quote "metadata" +:+ ":" +:+ "{" +:+ MetadataVector_toJson (ca_metadataVector ca) true +:+ "}"
     +:+ (if bare then "" else "}"))
  +:+ (if isLastElement then "" else ",").

Definition hidden_attribute (ca : ContextAttribute) : bool := (ca_name ca =s "id") || (ca_name ca =s "type").

(** A value that uniqueValues leaves out, and what it has seen. *)
Definition repeated (format : RenderFormat) (uniqueMap : list string) (ca : ContextAttribute) : bool :=
  bool_decide (format = NGSI_V2_UNIQUE_VALUES) && bool_decide (ca_valueType ca = ValueTypeString)
  && existsb (fun s => s =s ca_stringValue ca) uniqueMap.
Definition see (format : RenderFormat) (uniqueMap : list string) (ca : ContextAttribute) : list string :=
  if bool_decide (format = NGSI_V2_UNIQUE_VALUES) && bool_decide (ca_valueType ca = ValueTypeString)
  then ca_stringValue ca :: uniqueMap else uniqueMap.

(** The first pass of ContextAttributeVector::toJson, and the second. *)
Fixpoint count_valid (vec : list ContextAttribute) (format : RenderFormat) (uniqueMap : list string) : nat :=
  match vec with
  | [] => O
  | ca :: vec' =>
      if hidden_attribute ca then count_valid vec' format uniqueMap
      else if repeated format uniqueMap ca then count_valid vec' format uniqueMap
      else S (count_valid vec' format (see format uniqueMap ca))
  end.

Fixpoint render_valid (vec : list ContextAttribute) (format : RenderFormat) (uniqueMap : list string)
    (renderedAttributes valid : nat) : string :=
  match vec with
  | [] => ""
  | ca :: vec' =>
      if hidden_attribute ca then render_valid vec' format uniqueMap renderedAttributes valid
      else
        let rendered := S renderedAttributes in
        if repeated format uniqueMap ca then render_valid vec' format uniqueMap rendered valid
        else ContextAttribute_toJson ca (rendered =? valid)%nat format false
             +:+ render_valid vec' format (see format uniqueMap ca) rendered valid
  end.

Fixpoint count_filtered (vec : list ContextAttribute) (attrsFilter : list string) : nat :=
  match attrsFilter with
  | [] => O
  | name :: filter' =>
      (if bool_decide (is_Some (find_attribute name vec)) then 1 else 0) + count_filtered vec filter'
  end%nat.

Fixpoint render_filtered (vec : list ContextAttribute) (attrsFilter : list string) (format : RenderFormat)
    (renderedAttributes valid : nat) : string :=
  match attrsFilter with
  | [] => ""
  | name :: filter' =>
      match find_attribute name vec with
      | Some ca => ContextAttribute_toJson ca (S renderedAttributes =? valid)%nat format false
                   +:+ render_filtered vec filter' format (S renderedAttributes) valid
      | None => render_filtered vec filter' format renderedAttributes valid
      end
  end.

(** ContextAttributeVector::toJson *)
Definition ContextAttributeVector_toJson (vec : list ContextAttribute) (format : RenderFormat) (attrsFilter : list string) : string :=
  if (length vec =? 0)%nat then ""
  else if (length attrsFilter =? 0)%nat then render_valid vec format [] 0 (count_valid vec format [])
  else render_filtered vec attrsFilter format 0 (count_filtered vec attrsFilter).

(** ContextAttribute::toJsonAsValue: the text, and whether the status becomes 406.  [f_text]
    prints a number as "%f" does. *)
Definition toJsonAsValue (f_text : double -> string) (ca : ContextAttribute) (json_out : bool) : cpp (string * bool) :=
  match ca_compoundValueP ca with
  | Some c =>
      Ret (match cvn_valueType c with
           | ValueTypeVector => "[" +:+ toJson_top c +:+ "]"
           | _ => "{" +:+ toJson_top c +:+ "}"
           end, false)
  | None =>
      if json_out then
        r ← ErrorCode_toJson (mkErrorCode "NotAcceptable" "accepted MIME types: text/plain") true;
        Ret (r.1, true)
      else
        Ret (match ca_valueType ca with
             | ValueTypeString => ca_stringValue ca
             | ValueTypeNumber => if is_date ca then isodate2str (ca_numberValue ca) else f_text (ca_numberValue ca)
             | ValueTypeBoolean => JSON_BOOL (ca_boolValue ca)
             | _ => "ERROR"
             end, false)
  end.

(** ** Entities *)

Record Entity := mkEntity {
  en_id : string;
  en_type : string;
  en_isPattern : string;
  en_attributeVector : list ContextAttribute;
  en_typeGiven : bool;
  en_renderId : bool;
  en_errorCode : ErrorCode
}.

Definition Entity_new : Entity := mkEntity "" "" "" [] false true (mkErrorCode "OK" "").

(** uriParamOptions[OPT_KEY_VALUES], [OPT_VALUES] and [OPT_UNIQUE_VALUES] *)
Definition options_format (keyValues values uniqueValues : bool) : RenderFormat :=
  if keyValues then NGSI_V2_KEYVALUES
  else if values then NGSI_V2_VALUES
  else if uniqueValues then NGSI_V2_UNIQUE_VALUES
  else NGSI_V2_NORMALIZED.

(** Entity::render; [attrs] is the URI parameter. *)
Definition Entity_render (e : Entity) (format : RenderFormat) (attrs : string) (comma : bool) : cpp string :=
  if no_error (en_errorCode e) then
    let size := length (en_attributeVector e) in
    let attributes := if (size =? 0)%nat then ""
                      else ContextAttributeVector_toJson (en_attributeVector e) format (stringSplit attrs ",").2 in
    Ret ((if bool_decide (format = NGSI_V2_VALUES) || bool_decide (format = NGSI_V2_UNIQUE_VALUES)
          then "[" +:+ attributes +:+ "]"
          else "{" +:+ (if en_renderId e
                        then JSON_VALUE "id" (en_id e) +:+ "," +:+ quote "type" +:+ ":" +:+ quote (or_default_type (en_type e))
                             +:+ (if (size =? 0)%nat then "" else ",")
                        else "")
               +:+ attributes +:+ "}")
         +:+ (if comma then "," else ""))
  else r ← ErrorCode_toJson (en_errorCode e) true; Ret r.1.

Fixpoint entities_loop (vec : list Entity) (format : RenderFormat) (attrs : string) : cpp string :=
  match vec with
  | [] => Ret ""
  | e :: vec' =>
      t ← Entity_render e format attrs (negb (length vec' =? 0)%nat);
      r ← entities_loop vec' format attrs;
      Ret (t +:+ r)
  end.

(** EntityVector::render *)
Definition EntityVector_render (vec : list Entity) (format : RenderFormat) (attrs : string) : cpp string :=
  if (length vec =? 0)%nat then Ret "[]" else t ← entities_loop vec format attrs; Ret ("[" +:+ t +:+ "]").

(** Entities::render *)
Definition Entities_render (vec : list Entity) (ec : ErrorCode) (format : RenderFormat) (attrs : string) : cpp string :=
  if no_error ec then EntityVector_render vec format attrs else r ← ErrorCode_toJson ec true; Ret r.1.

End Render.

(** ** Checking *)

Section Check.

Context (checkIdv1 : bool) (apiVersion : string).

Definition strlen (s : string) : Z := Z.of_nat (String.length (c_str s)).
Definition too_long (what : string) (s : string) : string :=
  what +:+ " length: " +:+ show_N (Z.to_N (strlen s)) +:+ ", max length supported: " +:+ show_N (Z.to_N MAX_ID_LEN).
Definition too_short (what : string) (s : string) : string :=
  what +:+ " length: " +:+ show_N (Z.to_N (strlen s)) +:+ ", min length supported: " +:+ show_N (Z.to_N MIN_ID_LEN).
Definition forbidden_id (s : string) : bool := forbiddenIdChars checkIdv1 apiVersion (Some (c_str s)) None.

(** Metadata::check *)
Definition Metadata_check (md : Metadata) : string :=
  if md_name md =s "" then "missing metadata name"
  else if MAX_ID_LEN <? strlen (md_name md) then too_long "metadata name" (md_name md)
  else if forbidden_id (md_name md) then "Invalid characters in metadata name"
  else if MAX_ID_LEN <? strlen (md_type md) then too_long "metadata type" (md_type md)
  else if (apiVersion =s "v2") && (strlen (md_type md) <? MIN_ID_LEN) then too_short "metadata type" (md_type md)
  else if forbidden_id (md_type md) then "Invalid characters in metadata type"
  else match md_valueType md with
       | ValueTypeString =>
           if forbidden_value (md_stringValue md) then "Invalid characters in metadata value"
           else if md_stringValue md =s "" then "missing metadata value"
           else "OK"
       | _ => "OK"
       end.

(** The loops of the check methods of vectors. *)
Definition check_vector {A} (f : A -> string) :=
  fix go (vec : list A) : string :=
    match vec with [] => "OK" | x :: vec' => let res := f x in if negb (res =s "OK") then res else go vec' end.

(** ContextAttribute::check; [value_request]: EntityAttributeValueRequest. *)
Definition ContextAttribute_check (value_request : bool) (ca : ContextAttribute) : string :=
  if (ca_name ca =s "") && negb value_request then "missing attribute name"
  else if MAX_ID_LEN <? strlen (ca_name ca) then too_long "attribute name" (ca_name ca)
  else if forbidden_id (ca_name ca) then "Invalid characters in attribute name"
  else if MAX_ID_LEN <? strlen (ca_type ca) then too_long "attribute type" (ca_type ca)
  else if (apiVersion =s "v2") && negb value_request && (strlen (ca_type ca) <? MIN_ID_LEN)
       then too_short "attribute type" (ca_type ca)
  else if negb value_request && forbidden_id (ca_type ca) then "Invalid characters in attribute type"
  else
    let rest :=
      if bool_decide (ca_valueType ca = ValueTypeString) && forbidden_value (ca_stringValue ca)
      then "Invalid characters in attribute value"
      else check_vector Metadata_check (ca_metadataVector ca) in
    match ca_compoundValueP ca with
    | Some c => if negb (length (cvn_childV c) =? 0)%nat then check c else rest
    | None => rest
    end.

(** Entity::check; [entities_request]: EntitiesRequest. *)
Definition Entity_check (entities_request : bool) (e : Entity) : string :=
  if entities_request && (en_id e =s "") then "No Entity ID"
  else if MAX_ID_LEN <? strlen (en_id e) then too_long "entity id" (en_id e)
  else if forbidden_id (en_id e) then "Invalid characters in entity id"
  else if MAX_ID_LEN <? strlen (en_type e) then too_long "entity type" (en_type e)
  else if (apiVersion =s "v2") && (strlen (en_type e) <? MIN_ID_LEN) then too_short "entity type" (en_type e)
  else if forbidden_id (en_type e) then "Invalid characters in entity type"
  else if forbidden_value (en_isPattern e) then "Invalid characters in entity isPattern"
  else check_vector (ContextAttribute_check false) (en_attributeVector e).

(** EntityVector::check *)
Definition EntityVector_check (entities_request : bool) (vec : list Entity) : string :=
  check_vector (Entity_check entities_request) vec.

End Check.

(** ** Reading *)

Definition has_member (name : string) (o : list (string * json)) : bool := existsb (fun kv => kv.1 =s name) o.

Definition set_md (type : string) (vt : ValueType) (s : string) (d : double) (b typeGiven : bool) (md : Metadata) : Metadata :=
  mkMetadata (md_name md) type vt s d b typeGiven.

(** The value a scalar gives to a metadata; None for an object or an array. *)
Definition md_set_value (j : json) (md : Metadata) : option Metadata :=
  let keep vt s d b := Some (set_md (md_type md) vt s d b (md_typeGiven md) md) in
  match j with
  | JString s => keep ValueTypeString (c_str s) (md_numberValue md) (md_boolValue md)
  | JNumber d => keep ValueTypeNumber (md_stringValue md) d (md_boolValue md)
  | JBool b => keep ValueTypeBoolean (md_stringValue md) (md_numberValue md) b
  | JNull => keep ValueTypeNone (md_stringValue md) (md_numberValue md) (md_boolValue md)
  | JArray _ | JObject _ => None
  end.

Definition md_set_type (type : string) (typeGiven : bool) (md : Metadata) : Metadata :=
  set_md type (md_valueType md) (md_stringValue md) (md_numberValue md) (md_boolValue md) typeGiven md.

Definition md_default_type (md : Metadata) : Metadata := if md_typeGiven md then md else md_set_type DEFAULT_TYPE false md.

Fixpoint parseMetadataObject (o : list (string * json)) (md : Metadata) : string + Metadata :=
  match o with
  | [] => inr (md_default_type md)
  | (k, j) :: o' =>
      let name := c_str k in
      if name =s "type" then
        match j with
        | JString s => parseMetadataObject o' (md_set_type (c_str s) true md)
        | _ => inl "invalid JSON type for attribute metadata type"
        end
      else if name =s "value" then
        match md_set_value j md with
        | Some md => parseMetadataObject o' md
        | None => inl "invalid JSON type for attribute metadata value"
        end
      else inl "invalid JSON field for attribute metadata"
  end.

Definition parseMetadata (j : json) (md : Metadata) : string + Metadata :=
  match j with
  | JObject o => parseMetadataObject o md
  | _ =>
      match md_set_value j (md_set_type "" (md_typeGiven md) md) with
      | Some md => inr (md_default_type md)
      | None => inl "invalid JSON type for attribute metadata value"
      end
  end.

Section Parse.

(** What the memory held where constructors assign nothing. *)
Context (memNumber : double) (memBool : bool).
Context (strptime_timegm : string -> string -> option Z).

Definition Metadata_new (name : string) : Metadata := mkMetadata name "" ValueTypeString "" memNumber memBool false.

Fixpoint parseMetadata_loop (o : list (string * json)) (mdV : list Metadata) : string + list Metadata :=
  match o with
  | [] => inr mdV
  | (k, j) :: o' =>
      match parseMetadata j (Metadata_new (c_str k)) with
      | inl e => inl e
      | inr md => parseMetadata_loop o' (mdV ++ [md])
      end
  end.

Definition parseMetadataVector (j : json) (mdV : list Metadata) : string + list Metadata :=
  match j with JObject o => parseMetadata_loop o mdV | _ => inl "metadata not a JSON object" end.

Definition ca_set (type : string) (mdV : list Metadata) (vt : ValueType) (s : string) (d : double) (b : bool)
    (c : option CompoundValueNode) (typeGiven : bool) (ca : ContextAttribute) : ContextAttribute :=
  mkContextAttribute (ca_name ca) type mdV vt s d b (ca_providingApplication ca) (ca_found ca) (ca_skip ca) c typeGiven.
Definition ca_set_type (type : string) (typeGiven : bool) (ca : ContextAttribute) : ContextAttribute :=
  ca_set type (ca_metadataVector ca) (ca_valueType ca) (ca_stringValue ca) (ca_numberValue ca) (ca_boolValue ca)
    (ca_compoundValueP ca) typeGiven ca.
Definition ca_set_value (vt : ValueType) (s : string) (d : double) (b : bool) (ca : ContextAttribute) : ContextAttribute :=
  ca_set (ca_type ca) (ca_metadataVector ca) vt s d b (ca_compoundValueP ca) (ca_typeGiven ca) ca.
Definition ca_set_vt (vt : ValueType) (ca : ContextAttribute) : ContextAttribute :=
  ca_set_value vt (ca_stringValue ca) (ca_numberValue ca) (ca_boolValue ca) ca.
Definition ca_default_type (ca : ContextAttribute) : ContextAttribute :=
  if ca_typeGiven ca then ca else ca_set_type DEFAULT_TYPE false ca.

(** parseContextAttributeCompoundValue(iter, caP, NULL): when the attribute has a compound
    value already, no root is made and the children are given to a null parent. *)
Definition parseContextAttributeCompoundValue (j : json) (ca : ContextAttribute) : cpp ContextAttribute :=
  match ca_compoundValueP ca with
  | None =>
      Ret (ca_default_type (ca_set (ca_type ca) (ca_metadataVector ca) (ca_valueType ca) (ca_stringValue ca) (ca_numberValue ca)
                              (ca_boolValue ca) (Some (parse_compound (json_type j) j)) (ca_typeGiven ca) ca))
  | Some _ =>
      match j with
      | JArray [] | JObject [] => Ret (ca_default_type ca)
      | _ => UB "null parent of a compound value"
      end
  end.

(** The branches on the value that parseContextAttributeObject and parseContextAttribute
    share, for a scalar. *)
Definition set_scalar (j : json) (ca : ContextAttribute) : ContextAttribute :=
  match j with
  | JString s => ca_set_value ValueTypeString (c_str s) (ca_numberValue ca) (ca_boolValue ca) ca
  | JNumber d => ca_set_value ValueTypeNumber (ca_stringValue ca) d (ca_boolValue ca) ca
  | JBool b => ca_set_value ValueTypeBoolean (ca_stringValue ca) (ca_numberValue ca) b ca
  | _ => ca_set_vt ValueTypeNone ca
  end.

Definition is_compound (j : json) : bool := match j with JArray _ | JObject _ => true | _ => false end.

Definition value_member (j : json) (ca : ContextAttribute) : cpp ContextAttribute :=
  if is_compound j then parseContextAttributeCompoundValue j (ca_set_vt (json_type j) ca) else Ret (set_scalar j ca).

Fixpoint attribute_members (o : list (string * json)) (ca : ContextAttribute) : cpp (string + ContextAttribute) :=
  match o with
  | [] => Ret (inr ca)
  | (k, j) :: o' =>
      let name := c_str k in
      if name =s "type" then
        match j with
        | JString s => attribute_members o' (ca_set_type (c_str s) true ca)
        | _ => Ret (inl "invalid JSON type for attribute type")
        end
      else if name =s "value" then
        ca ← value_member j ca;
        attribute_members o' ca
      else if name =s "metadata" then
        match parseMetadataVector j (ca_metadataVector ca) with
        | inl e => Ret (inl e)
        | inr mdV => attribute_members o' (ca_set (ca_type ca) mdV (ca_valueType ca) (ca_stringValue ca) (ca_numberValue ca)
                                             (ca_boolValue ca) (ca_compoundValueP ca) (ca_typeGiven ca) ca)
        end
      else Ret (inl "unrecognized property for context attribute")
  end.

(** The date at the end of parseContextAttributeObject. *)
Definition read_date (ca : ContextAttribute) : string + ContextAttribute :=
  if ca_type ca =s DATE_TYPE then
    let d := double_of_Z (parse8601Time strptime_timegm (ca_stringValue ca)) in
    if deq d (double_of_Z (-1)) then inl "date has invalid format"
    else inr (ca_set_value ValueTypeNumber "" d (ca_boolValue ca) ca)
  else inr ca.

Definition parseContextAttributeObject (o : list (string * json)) (ca : ContextAttribute) : cpp (string + ContextAttribute) :=
  r ← attribute_members o (ca_set_vt ValueTypeNone ca);
  Ret match (r : string + ContextAttribute) with inl e => inl e | inr ca => read_date ca end.

Definition ca_named (name : string) (ca : ContextAttribute) : ContextAttribute :=
  mkContextAttribute name (ca_type ca) (ca_metadataVector ca) (ca_valueType ca) (ca_stringValue ca) (ca_numberValue ca)
    (ca_boolValue ca) (ca_providingApplication ca) (ca_found ca) (ca_skip ca) (ca_compoundValueP ca) (ca_typeGiven ca).

(** The keyValues branch. *)
Definition key_value (j : json) (ca : ContextAttribute) : cpp ContextAttribute :=
  if is_compound j then
    ca ← parseContextAttributeCompoundValue j ca;
    Ret (ca_set_vt ValueTypeObject ca)
  else Ret (set_scalar j (ca_set_type "" (ca_typeGiven ca) ca)).

(** parseContextAttribute(ciP, iter, caP) *)
Definition parseContextAttribute (keyValues : bool) (apiVersion : string) (k : string) (j : json) (ca : ContextAttribute)
    : cpp (string + ContextAttribute) :=
  let ca := ca_named (c_str k) ca in
  r ← (if keyValues then ca ← key_value j ca; Ret (inr ca)
       else match j with
            | JObject o =>
                if has_member "value" o || (apiVersion =s "v2") then parseContextAttributeObject o ca
                else Ret (inl "no 'value' for ContextAttribute without keyValues")
            | _ => Ret (inl "attribute must be a JSON object, unless keyValues option is used")
            end);
  Ret match (r : string + ContextAttribute) with
      | inl e => inl e
      | inr ca => if ca_name ca =s "" then inl "no 'name' for ContextAttribute" else inr (ca_default_type ca)
      end.

(** ** Entities *)

Definition en_set (id type isPattern : string) (attributeVector : list ContextAttribute) (typeGiven : bool) (e : Entity) : Entity :=
  mkEntity id type isPattern attributeVector typeGiven (en_renderId e) (en_errorCode e).
Definition en_set_id (id isPattern : string) (e : Entity) : Entity :=
  en_set id (en_type e) isPattern (en_attributeVector e) (en_typeGiven e) e.
Definition en_set_type (type : string) (typeGiven : bool) (e : Entity) : Entity :=
  en_set (en_id e) type (en_isPattern e) (en_attributeVector e) typeGiven e.
Definition en_push (ca : ContextAttribute) (e : Entity) : Entity :=
  en_set (en_id e) (en_type e) (en_isPattern e) (en_attributeVector e ++ [ca]) (en_typeGiven e) e.

(** A new attribute read and pushed on the entity. *)
Definition push_attribute (keyValues : bool) (apiVersion : string) (k : string) (j : json) (e : Entity) : cpp (string + Entity) :=
  r ← parseContextAttribute keyValues apiVersion k j (ContextAttribute_new memNumber memBool);
  Ret match (r : string + ContextAttribute) with inl err => inl err | inr ca => inr (en_push ca e) end.

Fixpoint entity_members (keyValues : bool) (apiVersion : string) (eidInURL : bool) (o : list (string * json)) (e : Entity)
    : cpp (string + Entity) :=
  match o with
  | [] => Ret (inr e)
  | (k, j) :: o' =>
      let name := c_str k in
      if name =s "id" then
        if negb eidInURL then
          match j with
          | JString s => entity_members keyValues apiVersion eidInURL o' (en_set_id (c_str s) (en_isPattern e) e)
          | _ => Ret (inl "invalid JSON type for entity id")
          end
        else Ret (inl "invalid input, 'id' as attribute")
      else if name =s "type" then
        match j with
        | JString s => entity_members keyValues apiVersion eidInURL o' (en_set_type (c_str s) true e)
        | _ => Ret (inl "invalid JSON type for entity type")
        end
      else
        r ← push_attribute keyValues apiVersion k j e;
        match (r : string + Entity) with
        | inl err => Ret (inl err)
        | inr e => entity_members keyValues apiVersion eidInURL o' e
        end
  end.

(** The error and description parseEntity fills, before it renders them with status 400;
    [payload] is None when the text is not JSON. *)
Definition parseEntity_errors (keyValues : bool) (apiVersion : string) (payload : option json) (e : Entity) (eidInURL : bool)
    : cpp (ErrorCode + Entity) :=
  let bad description := Ret (inl (mkErrorCode "BadRequest" description)) in
  match payload with
  | None => Ret (inl (mkErrorCode ERROR_STRING_PARSERROR "Errors found in incoming JSON buffer"))
  | Some (JObject o) =>
      if negb eidInURL && negb (has_member "id" o) then bad "no entity id specified"
      else if eidInURL && has_member "id" o then bad "entity id specified in payload"
      else if eidInURL && has_member "type" o then bad "entity type specified in payload"
      else if negb eidInURL && (length o =? 0)%nat then bad "empty payload"
      else
        r ← entity_members keyValues apiVersion eidInURL o e;
        match (r : string + Entity) with
        | inl err => bad err
        | inr e =>
            if (length o =? 0)%nat then bad "empty payload"
            else if negb eidInURL && (en_id e =s "") then bad "empty entity id"
            else Ret (inr (if en_typeGiven e then e else en_set_type DEFAULT_TYPE false e))
        end
  | Some _ => Ret (inl (mkErrorCode ERROR_STRING_PARSERROR "Error parsing incoming JSON buffer"))
  end.

(** parseEntity: the text of the error, or the entity. *)
Definition parseEntity (keyValues : bool) (apiVersion : string) (payload : option json) (e : Entity) (eidInURL : bool)
    : cpp (string + Entity) :=
  r ← parseEntity_errors keyValues apiVersion payload e eidInURL;
  match (r : ErrorCode + Entity) with
  | inl ec => t ← ErrorCode_toJson ec true; Ret (inl t.1)
  | inr e => Ret (inr e)
  end.

Fixpoint object_members (keyValues : bool) (apiVersion : string) (attrsAllowed : bool) (o : list (string * json)) (e : Entity)
    : cpp (string + Entity) :=
  match o with
  | [] => Ret (inr e)
  | (k, j) :: o' =>
      let name := c_str k in
      if name =s "id" then
        match j with
        | JString s => object_members keyValues apiVersion attrsAllowed o' (en_set_id (c_str s) (en_isPattern e) e)
        | _ => Ret (inl "invalid JSON type for entity id")
        end
      else if name =s "idPattern" then
        match j with
        | JString s => object_members keyValues apiVersion attrsAllowed o' (en_set_id (c_str s) "true" e)
        | _ => Ret (inl "invalid JSON type for entity idPattern")
        end
      else if name =s "type" then
        match j with
        | JString s => object_members keyValues apiVersion attrsAllowed o' (en_set_type (c_str s) true e)
        | _ => Ret (inl "invalid JSON type for entity type")
        end
      else if negb attrsAllowed then Ret (inl "no attributes allowed in Entity in this payload")
      else
        r ← push_attribute keyValues apiVersion k j e;
        match (r : string + Entity) with
        | inl err => Ret (inl err)
        | inr e => object_members keyValues apiVersion attrsAllowed o' e
        end
  end.

(** parseEntityObject *)
Definition parseEntityObject (keyValues : bool) (apiVersion : string) (j : json) (e : Entity) (attrsAllowed : bool)
    : cpp (string + Entity) :=
  match j with
  | JObject o =>
      if has_member "id" o && has_member "idPattern" o then Ret (inl "both /id/ and /idPattern/ present")
      else if negb (has_member "id" o) && negb (has_member "idPattern" o) then Ret (inl "nor /id/ nor /idPattern/ present")
      else object_members keyValues apiVersion attrsAllowed o e
  | _ => Ret (inl "entity is not a JSON object")
  end.

Fixpoint entity_vector_loop (keyValues : bool) (apiVersion : string) (attributesAllowed : bool) (l : list json) (vec : list Entity)
    : cpp (string + list Entity) :=
  match l with
  | [] => Ret (inr vec)
  | j :: l' =>
      r ← parseEntityObject keyValues apiVersion j Entity_new attributesAllowed;
      match (r : string + Entity) with
      | inl err => Ret (inl err)
      | inr e => entity_vector_loop keyValues apiVersion attributesAllowed l' (vec ++ [e])
      end
  end.

(** parseEntityVector *)
Definition parseEntityVector (keyValues : bool) (apiVersion : string) (j : json) (vec : list Entity) (attributesAllowed : bool)
    : cpp (string + list Entity) :=
  match j with
  | JArray l => entity_vector_loop keyValues apiVersion attributesAllowed l vec
  | _ => Ret (inl "not a JSON array")
  end.

End Parse.

(** ** What is printed *)

Definition md_value_json (md : Metadata) : json :=
  match md_valueType md with
  | ValueTypeNumber => JNumber (md_numberValue md)
  | ValueTypeBoolean => JBool (md_boolValue md)
  | ValueTypeNone => JNull
  | _ => JString (md_stringValue md)
  end.

Definition md_json (md : Metadata) : json :=
  JObject [("type", JString (or_default_type (md_type md))); ("value", md_value_json md)].

Definition visible_metadata (mdV : list Metadata) : list Metadata := List.filter (fun md => negb (hidden_metadata md)) mdV.

Abbreviation dquote := ("034"%char).

Section Printed.

Context (isodate2str : double -> string).

Definition value_json (ca : ContextAttribute) : json :=
  match ca_compoundValueP ca with
  | Some c => content c
  | None =>
      match ca_valueType ca with
      | ValueTypeNumber => if is_date ca then JString (isodate2str (ca_numberValue ca)) else JNumber (ca_numberValue ca)
      | ValueTypeBoolean => JBool (ca_boolValue ca)
      | ValueTypeNone => JNull
      | _ => JString (ca_stringValue ca)
      end
  end.

Definition metadata_json (mdV : list Metadata) : json :=
  JObject (map (fun md => (md_name md, md_json md)) (visible_metadata mdV)).

Definition attribute_json (format : RenderFormat) (ca : ContextAttribute) : json :=
  if values_format format then value_json ca
  else JObject [("type", JString (or_default_type (ca_type ca))); ("value", value_json ca);
                ("metadata", metadata_json (ca_metadataVector ca))].

(** An attribute with a value of a type it may have. *)
Definition valued (ca : ContextAttribute) : Prop :=
  match ca_compoundValueP ca with
  | Some c => numbered c = true /\ (cvn_valueType c = ValueTypeObject \/ cvn_valueType c = ValueTypeVector)
  | None => ca_valueType ca = ValueTypeString \/ ca_valueType ca = ValueTypeNumber \/ ca_valueType ca = ValueTypeBoolean
            \/ ca_valueType ca = ValueTypeNone
  end.

Lemma Metadata_toJson_text md last :
  Metadata_toJson md last = quote (md_name md) +:+ ":" +:+ json_text (md_json md) +:+ (if last then "" else ",").
Proof.
  unfold Metadata_toJson, md_json, md_value_json, JSON_VALUE, JSON_VALUE_NUMBER, JSON_VALUE_BOOL.
  destruct (md_valueType md); cbn [json_text map join]; by rewrite ?app_assoc_str.
Qed.

(** The loops that count what they print to know where the last comma goes. *)
Lemma metadata_loop_text mdV rendered valid : (rendered + length (visible_metadata mdV) = valid)%nat ->
  metadata_loop mdV rendered valid
  = join "," (map (fun md => quote (md_name md) +:+ ":" +:+ json_text (md_json md)) (visible_metadata mdV)).
Proof.
  revert rendered. induction mdV as [|md mdV IH]; intros rendered; [done|]. unfold visible_metadata in *.
  cbn [metadata_loop List.filter]. destruct (hidden_metadata md); cbn [negb]; [by apply IH|].
  cbn [length map]. intros H. rewrite Metadata_toJson_text, IH by lia.
  destruct (List.filter _ mdV) as [|md2 l] eqn:E; cbn [length] in H.
  - assert ((S rendered =? valid)%nat = true) as -> by (apply Nat.eqb_eq; lia). cbn [map join]. by rewrite !app_nil_r_str.
  - assert ((S rendered =? valid)%nat = false) as -> by (apply Nat.eqb_neq; lia). cbn [map join]. by rewrite !app_assoc_str.
Qed.

Definition metadata_text (mdV : list Metadata) : string :=
  join "," (map (fun md => quote (md_name md) +:+ ":" +:+ json_text (md_json md)) (visible_metadata mdV)).

Lemma MetadataVector_toJson_text mdV : MetadataVector_toJson mdV true = metadata_text mdV.
Proof.
  unfold MetadataVector_toJson. destruct (length mdV =? 0)%nat eqn:E.
  - apply Nat.eqb_eq in E. by destruct mdV.
  - by rewrite metadata_loop_text, app_nil_r_str.
Qed.

Lemma metadata_json_text mdV : json_text (metadata_json mdV) = "{" +:+ metadata_text mdV +:+ "}".
Proof. unfold metadata_json, metadata_text. cbn [json_text]. by rewrite map_map. Qed.

Lemma plain_value_text ca : valued ca -> plain_value isodate2str ca = json_text (value_json ca).
Proof.
  unfold valued, plain_value, value_json. destruct (ca_compoundValueP ca) as [c|].
  - intros [Hn Hv]. rewrite <- root_text_content by done. unfold root_text. by destruct Hv as [-> | ->].
  - intros [-> | [-> | [-> | ->]]]; try done. by destruct (is_date ca).
Qed.

Lemma normalized_value_text ca : valued ca ->
  normalized_value isodate2str ca = quote "value" +:+ ":" +:+ json_text (value_json ca).
Proof.
  unfold valued, normalized_value, value_json. destruct (ca_compoundValueP ca) as [c|].
  - intros [Hn Hv]. rewrite <- root_text_content by done. unfold root_text. by destruct Hv as [-> | ->].
  - intros [-> | [-> | [-> | ->]]]; try done. by destruct (is_date ca).
Qed.

(** An attribute as a member of its entity. *)
Definition member_text (format : RenderFormat) (ca : ContextAttribute) : string :=
  (if bool_decide (format = NGSI_V2_VALUES) || bool_decide (format = NGSI_V2_UNIQUE_VALUES) then "" else quote (ca_name ca) +:+ ":")
  +:+ json_text (attribute_json format ca).

Lemma attribute_text ca format last : valued ca ->
  ContextAttribute_toJson isodate2str ca last format false = member_text format ca +:+ (if last then "" else ",").
Proof.
  intros Hv. unfold ContextAttribute_toJson, member_text, attribute_json.
  destruct (values_format format) eqn:E.
  - rewrite plain_value_text by done. by destruct format.
  - rewrite normalized_value_text, MetadataVector_toJson_text by done. cbn [json_text map join fst snd].
    rewrite metadata_json_text. unfold JSON_VALUE. rewrite !app_assoc_str. destruct format; try done; rewrite !bool_decide_eq_false_2 by done; cbn [orb]; by rewrite app_assoc_str.
Qed.


(** *** Entities *)

Definition visible_attributes (vec : list ContextAttribute) : list ContextAttribute :=
  List.filter (fun ca => negb (hidden_attribute ca)) vec.

(** What of an entity is shown, for a filter of names. *)
Definition shown (vec : list ContextAttribute) (attrsFilter : list string) : list ContextAttribute :=
  match attrsFilter with
  | [] => visible_attributes vec
  | _ => omap (fun name => find_attribute name vec) attrsFilter
  end.

Lemma not_repeated format l ca : format <> NGSI_V2_UNIQUE_VALUES -> repeated format l ca = false.
Proof. intros H. unfold repeated. by rewrite bool_decide_eq_false_2. Qed.

Lemma see_nothing format l ca : format <> NGSI_V2_UNIQUE_VALUES -> see format l ca = l.
Proof. intros H. unfold see. by rewrite bool_decide_eq_false_2. Qed.

Lemma count_valid_visible vec format : format <> NGSI_V2_UNIQUE_VALUES ->
  count_valid vec format [] = length (visible_attributes vec).
Proof.
  intros Hf. unfold visible_attributes. induction vec as [|ca vec IH]; [done|]. cbn [count_valid List.filter].
  destruct (hidden_attribute ca); cbn [negb]; [done|]. by rewrite not_repeated, see_nothing, IH.
Qed.

(** The items of a list, separated by commas, as both loops print them. *)
Lemma item_comma rendered valid (l : list ContextAttribute) format ca :
  (S rendered + length l = valid)%nat -> valued ca ->
  ContextAttribute_toJson isodate2str ca (S rendered =? valid)%nat format false +:+ join "," (map (member_text format) l)
  = join "," (map (member_text format) (ca :: l)).
Proof.
  intros H Hv. rewrite attribute_text by done. destruct l as [|ca2 l]; cbn [length] in H.
  - assert ((S rendered =? valid)%nat = true) as -> by (apply Nat.eqb_eq; lia). cbn [map join]. by rewrite !app_nil_r_str.
  - assert ((S rendered =? valid)%nat = false) as -> by (apply Nat.eqb_neq; lia). cbn [map join]. by rewrite !app_assoc_str.
Qed.

Lemma render_valid_text vec format rendered valid : format <> NGSI_V2_UNIQUE_VALUES ->
  Forall valued (visible_attributes vec) -> (rendered + length (visible_attributes vec) = valid)%nat ->
  render_valid isodate2str vec format [] rendered valid = join "," (map (member_text format) (visible_attributes vec)).
Proof.
  intros Hf. unfold visible_attributes. revert rendered. induction vec as [|ca vec IH]; intros rendered; [done|].
  cbn [render_valid List.filter]. destruct (hidden_attribute ca); cbn [negb]; [by apply IH|].
  intros [Hv Hvs]%Forall_cons. cbn [length]. intros H. rewrite not_repeated, see_nothing, IH by (done || lia).
  apply item_comma; [lia|done].
Qed.

Lemma count_filtered_shown vec attrsFilter :
  count_filtered vec attrsFilter = length (omap (fun name => find_attribute name vec) attrsFilter).
Proof.
  induction attrsFilter as [|name l IH]; [done|]. cbn [count_filtered omap list_omap]. rewrite IH.
  by destruct (find_attribute name vec).
Qed.

Lemma render_filtered_text vec attrsFilter format rendered valid :
  Forall valued (omap (fun name => find_attribute name vec) attrsFilter) ->
  (rendered + length (omap (fun name => find_attribute name vec) attrsFilter) = valid)%nat ->
  render_filtered isodate2str vec attrsFilter format rendered valid
  = join "," (map (member_text format) (omap (fun name => find_attribute name vec) attrsFilter)).
Proof.
  revert rendered. induction attrsFilter as [|name l IH]; intros rendered; [done|].
  cbn [render_filtered omap list_omap]. destruct (find_attribute name vec) as [ca|]; [|by apply IH].
  intros [Hv Hvs]%Forall_cons. cbn [length]. intros H. rewrite IH by (done || lia). apply item_comma; [lia|done].
Qed.

Lemma vector_text vec format attrsFilter : format <> NGSI_V2_UNIQUE_VALUES -> Forall valued (shown vec attrsFilter) ->
  (vec = [] -> shown vec attrsFilter = []) ->
  ContextAttributeVector_toJson isodate2str vec format attrsFilter = join "," (map (member_text format) (shown vec attrsFilter)).
Proof.
  intros Hf Hv H0. unfold ContextAttributeVector_toJson. destruct vec as [|ca vec]; [by rewrite (H0 eq_refl)|].
  cbn [length Nat.eqb]. destruct attrsFilter as [|name l]; cbn [length Nat.eqb shown] in *.
  - apply render_valid_text; [done|done|]. by rewrite count_valid_visible.
  - apply render_filtered_text; [done|]. by rewrite count_filtered_shown.
Qed.

Lemma shown_empty attrsFilter : shown [] attrsFilter = [].
Proof. destruct attrsFilter as [|n l]; [done|]. cbn. by induction l. Qed.

Definition entity_json (format : RenderFormat) (attrsFilter : list string) (e : Entity) : json :=
  let l := shown (en_attributeVector e) attrsFilter in
  if bool_decide (format = NGSI_V2_VALUES) then JArray (map (attribute_json format) l)
  else JObject ((if en_renderId e then [("id", JString (en_id e)); ("type", JString (or_default_type (en_type e)))] else [])
                ++ map (fun ca => (ca_name ca, attribute_json format ca)) l).

(** An entity whose commas come out right: something of it is shown, if it has attributes. *)
Definition commas_ok (format : RenderFormat) (attrsFilter : list string) (e : Entity) : Prop :=
  en_attributeVector e = [] \/ shown (en_attributeVector e) attrsFilter <> [] \/ format = NGSI_V2_VALUES \/ en_renderId e = false.

Lemma entity_text e format attrs comma : no_error (en_errorCode e) = true -> format <> NGSI_V2_UNIQUE_VALUES ->
  Forall valued (shown (en_attributeVector e) (stringSplit attrs ",").2) -> commas_ok format (stringSplit attrs ",").2 e ->
  Entity_render isodate2str e format attrs comma
  = Ret (json_text (entity_json format (stringSplit attrs ",").2 e) +:+ (if comma then "," else "")).
Proof.
  intros He Hf Hv Hc. unfold Entity_render. rewrite He. set (fl := (stringSplit attrs ",").2) in *. clearbody fl.
  assert ((if (length (en_attributeVector e) =? 0)%nat then ""
    else ContextAttributeVector_toJson isodate2str (en_attributeVector e) format fl)
    = join "," (map (member_text format) (shown (en_attributeVector e) fl))) as ->.
  { destruct (length _ =? 0)%nat eqn:E.
    - apply Nat.eqb_eq, length_zero_iff_nil in E. by rewrite E, shown_empty.
    - apply vector_text; [done|done|]. intros ->. apply shown_empty. }
  f_equal. f_equal. unfold entity_json. rewrite (bool_decide_eq_false_2 (format = NGSI_V2_UNIQUE_VALUES)) by done.
  rewrite orb_false_r. case_bool_decide as Ev.
  - cbn [json_text]. rewrite map_map. f_equal. f_equal. f_equal. apply map_ext. intros ca. unfold member_text.
    by rewrite Ev, bool_decide_eq_true_2.
  - cbn [json_text]. rewrite map_app, map_map. 
    assert (map (member_text format) (shown (en_attributeVector e) fl)
      = map (fun x => quote (ca_name x) +:+ ":" +:+ json_text (attribute_json format x)) (shown (en_attributeVector e) fl)) as ->.
    { apply map_ext. intros ca. unfold member_text. rewrite !bool_decide_eq_false_2 by done. cbn [orb]. by rewrite app_assoc_str. }
    cbn [fst snd]. destruct (en_renderId e) eqn:Er; [|done]. cbn [map app]. cbn [fst snd json_text join].
    destruct (map _ (shown (en_attributeVector e) fl)) as [|t ts] eqn:Em.
    + apply map_eq_nil in Em. unfold commas_ok in Hc. rewrite Em in Hc. destruct Hc as [E | [? | [? | ?]]]; try congruence. rewrite E.
      cbn [length Nat.eqb join]. unfold JSON_VALUE. by rewrite !app_assoc_str, app_nil_l_str.
    + assert ((length (en_attributeVector e) =? 0)%nat = false) as ->.
      { apply Nat.eqb_neq. intros E%length_zero_iff_nil. by rewrite E, shown_empty in Em. }
      unfold JSON_VALUE. by rewrite !app_assoc_str.
Qed.

(** ** What is read back *)

Context (memNumber : double) (memBool : bool) (strptime_timegm : string -> string -> option Z).

Definition clean (s : string) : Prop := c_str s = s.
Definition typed (type : string) : Prop := clean type /\ type <> "".

Definition readable_md (md : Metadata) : Prop :=
  clean (md_name md) /\ typed (md_type md) /\
  ((md_valueType md = ValueTypeString /\ clean (md_stringValue md)) \/ md_valueType md = ValueTypeNumber
   \/ md_valueType md = ValueTypeBoolean \/ md_valueType md = ValueTypeNone).

(** A date survives when what isodate2str prints is read as the same time, and is not the
    time the reader uses for an error. *)
Definition date_ok (d : double) : Prop :=
  clean (isodate2str d) /\ double_of_Z (parse8601Time strptime_timegm (isodate2str d)) = d /\ deq d (double_of_Z (-1)) = false.

Definition readable_value (ca : ContextAttribute) : Prop :=
  match ca_compoundValueP ca with
  | Some c => c_json (content c) = content c /\ is_date ca = false
  | None => (ca_valueType ca = ValueTypeString /\ clean (ca_stringValue ca) /\ is_date ca = false)
            \/ (ca_valueType ca = ValueTypeNumber /\ (is_date ca = true -> date_ok (ca_numberValue ca)))
            \/ ((ca_valueType ca = ValueTypeBoolean \/ ca_valueType ca = ValueTypeNone) /\ is_date ca = false)
  end.

Definition readable (ca : ContextAttribute) : Prop :=
  clean (ca_name ca) /\ ca_name ca <> "" /\ hidden_attribute ca = false /\ typed (ca_type ca) /\ valued ca /\
  readable_value ca /\ Forall readable_md (visible_metadata (ca_metadataVector ca)).

(** What of an attribute matters. *)
Definition md_view (md : Metadata) : string * string * json := (md_name md, md_type md, md_value_json md).
Definition view (ca : ContextAttribute) : string * string * json * list (string * string * json) :=
  (ca_name ca, ca_type ca, value_json ca, map md_view (visible_metadata (ca_metadataVector ca))).

Lemma or_default_type_typed type : typed type -> or_default_type type = type.
Proof. intros [_ H]. unfold or_default_type. by apply str_eqb_neq in H as ->. Qed.

Lemma read_metadata md : readable_md md -> exists md',
  parseMetadata (md_json md) (Metadata_new memNumber memBool (c_str (md_name md))) = inr md' /\ md_view md' = md_view md.
Proof.
  intros (Hn & Ht & Hv). unfold md_json, parseMetadata, md_view, md_value_json. rewrite or_default_type_typed by done.
  destruct Ht as [Ht _]. unfold clean in *. cbn [parseMetadataObject]. rewrite Hn, Ht.
  change (c_str "type" =s "type") with true. change (c_str "value" =s "type") with false. change (c_str "value" =s "value") with true.
  cbv iota.
  destruct Hv as [[-> Hs] | [-> | [-> | ->]]]; cbn; eexists; (split; [reflexivity|]); cbn; congruence.
Qed.

Lemma read_metadata_loop l mdV : Forall readable_md l -> exists mdV',
  parseMetadata_loop memNumber memBool (map (fun md => (md_name md, md_json md)) l) mdV = inr (mdV ++ mdV') /\
  map md_view mdV' = map md_view l.
Proof.
  intros H. revert mdV. induction H as [|md l Hm _ IH]; intros mdV; [exists []; by rewrite app_nil_r|].
  destruct (read_metadata md Hm) as (md' & Hp & Hv). cbn [map parseMetadata_loop]. rewrite Hp.
  destruct (IH (mdV ++ [md'])) as (mdV' & -> & Hv'). exists (md' :: mdV'). rewrite <- app_assoc. split; [done|].
  cbn [map]. by rewrite Hv, Hv'.
Qed.

(** Names of metadata are kept, so what was visible is. *)
Lemma visible_kept mdV mdV' : map md_view mdV' = map md_view (visible_metadata mdV) -> visible_metadata mdV' = mdV'.
Proof.
  unfold visible_metadata. intros H. assert (Forall (fun md => hidden_metadata md = false) mdV') as Hh.
  { assert (Forall (fun v : string * string * json => ((v.1.1 =s "value") || (v.1.1 =s "type")) = false) (map md_view mdV')) as Hf.
    { rewrite H. apply Forall_forall. intros v Hin. apply list_elem_of_fmap in Hin as (md & -> & Hin).
      apply list_elem_of_In, filter_In in Hin as [_ Hin]. by apply negb_true_iff in Hin. }
    by apply Forall_map in Hf. }
  clear H. induction Hh as [|md l Hm _ IH]; [done|]. cbn [List.filter]. by rewrite Hm, IH.
Qed.

(** The value member is read by the branch of its kind. *)
Lemma read_value ca ca0 : valued ca -> readable_value ca -> ca_typeGiven ca0 = true -> ca_compoundValueP ca0 = None ->
  exists ca1,
    value_member (value_json ca) ca0 = Ret ca1 /\
    ca_name ca1 = ca_name ca0 /\ ca_type ca1 = ca_type ca0 /\ ca_metadataVector ca1 = ca_metadataVector ca0 /\ ca_typeGiven ca1 = true /\
    (if is_date ca then ca_valueType ca = ValueTypeNumber /\ ca_compoundValueP ca = None /\ ca_compoundValueP ca1 = None
       /\ ca_stringValue ca1 = isodate2str (ca_numberValue ca) /\ date_ok (ca_numberValue ca)
     else (is_date ca1 = false -> value_json ca1 = value_json ca)).
Proof.
  intros Hv Hr Hg Hc0. unfold value_member, readable_value, valued in *. destruct (ca_compoundValueP ca) as [c|] eqn:Ec.
  - assert (value_json ca = content c) as -> by (unfold value_json; by rewrite Ec).
    destruct Hr as [Hj Hd]. destruct Hv as [Hn Hvt]. rewrite Hd.
    assert (json_type (content c) = cvn_valueType c /\ is_compound (content c) = true) as [Ht ->].
    { destruct c as [? vt ? ? ? ? ? ? ?]. cbn in Hvt |- *. by destruct Hvt as [-> | ->]. }
    unfold parseContextAttributeCompoundValue. cbn [ca_set_vt ca_set_value ca_set ca_compoundValueP]. rewrite Hc0.
    eexists. split; [reflexivity|]. unfold ca_default_type. cbn [ca_set ca_typeGiven ca_set_vt ca_set_value]. rewrite Hg.
    cbn [ca_set ca_name ca_type ca_metadataVector ca_typeGiven]. split_and!; try done.
    intros _. unfold value_json. cbn [ca_set ca_compoundValueP]. transitivity (c_json (content c)); [|done].
    apply parse_compound_reads. by rewrite Ht.
  - destruct Hr as [(Hvt & Hs & Hd) | [(Hvt & Hd) | (Hvt & Hd)]].
    + assert (value_json ca = JString (ca_stringValue ca)) as -> by (unfold value_json; by rewrite Ec, Hvt).
      rewrite Hd. eexists. split; [reflexivity|]. cbn. split_and!; try done.
      intros _. unfold value_json. cbn. by rewrite Hc0, Hs.
    + assert (value_json ca = if is_date ca then JString (isodate2str (ca_numberValue ca)) else JNumber (ca_numberValue ca)) as ->
        by (unfold value_json; by rewrite Ec, Hvt).
      destruct (is_date ca) eqn:E; eexists; (split; [reflexivity|]); cbn; split_and!; try done.
      * by destruct (Hd eq_refl) as [-> _].
      * by apply Hd.
      * intros E1. unfold value_json. cbn. rewrite Hc0. unfold is_date in *. cbn in E1 |- *. by rewrite E1.
    + rewrite Hd. destruct Hvt as [Hvt | Hvt].
      * assert (value_json ca = JBool (ca_boolValue ca)) as -> by (unfold value_json; by rewrite Ec, Hvt).
        eexists. split; [reflexivity|]. cbn. split_and!; try done. intros _. unfold value_json. cbn. by rewrite Hc0.
      * assert (value_json ca = JNull) as -> by (unfold value_json; by rewrite Ec, Hvt).
        eexists. split; [reflexivity|]. cbn. split_and!; try done. intros _. unfold value_json. cbn. by rewrite Hc0.
Qed.

Lemma read_attribute ca : readable ca -> exists ca',
  parseContextAttribute memNumber memBool strptime_timegm false "v2" (ca_name ca) (attribute_json NGSI_V2_NORMALIZED ca)
    (ContextAttribute_new memNumber memBool) = Ret (inr ca') /\ view ca' = view ca.
Proof.
  intros (Hn & Hne & Hh & Ht & Hv & Hr & Hm). unfold attribute_json. cbn [values_format].
  unfold parseContextAttribute. rewrite orb_true_r. unfold parseContextAttributeObject. cbn [attribute_members].
  rewrite or_default_type_typed by done. destruct Ht as [Ht _]. unfold clean in Hn, Ht. rewrite Hn, Ht.
  change (c_str "type" =s "type") with true. change (c_str "value" =s "type") with false. change (c_str "value" =s "value") with true.
  change (c_str "metadata" =s "type") with false. change (c_str "metadata" =s "value") with false.
  change (c_str "metadata" =s "metadata") with true. cbv iota.
  set (ca0 := ca_set_type (ca_type ca) true _).
  destruct (read_value ca ca0 Hv Hr eq_refl eq_refl) as (ca1 & Hval & Hn1 & Ht1 & Hmd1 & Hg1 & Hval1).
  destruct (read_metadata_loop (visible_metadata (ca_metadataVector ca)) [] Hm) as (mdV & Hp & Hmv).
  pose proof (visible_kept _ _ Hmv) as Hvis. cbn [app] in Hp.
  assert (parseMetadataVector memNumber memBool (metadata_json (ca_metadataVector ca)) (ca_metadataVector ca1) = inr mdV) as Hpm.
  { rewrite Hmd1. exact Hp. }
  rewrite Hval. cbn [mbind cpp_bind]. change (if false || true then ?x else ?y) with x.
  rewrite Hpm. cbn [mbind cpp_bind]. unfold read_date. cbn [ca_set ca_type ca_stringValue ca_boolValue].
  unfold view. unfold is_date in Hval1. rewrite Ht1 in Hval1 |- *. change (ca_type ca0) with (ca_type ca) in *.
  assert (forall ca2, ca_name ca2 = ca_name ca1 -> ca_typeGiven ca2 = true ->
    (if ca_name ca2 =s "" then inl "no 'name' for ContextAttribute" else inr (ca_default_type ca2)) = inr ca2) as Hend.
  { intros ca2 -> Hg. rewrite Hn1. change (ca_name ca0) with (ca_name ca). apply str_eqb_neq in Hne as ->.
    unfold ca_default_type. by rewrite Hg. }
  destruct (ca_type ca =s DATE_TYPE) eqn:Ed.
  - destruct Hval1 as (Hvt & Hc & Hc1 & -> & Hcl & Hrt & Hneg). rewrite Hrt, Hneg, Hend by done.
    eexists. split; [reflexivity|]. cbn [ca_set_value ca_set ca_name ca_type ca_metadataVector]. rewrite Hvis, Hmv, Hn1.
    assert (value_json ca = JString (isodate2str (ca_numberValue ca))) as ->.
    { unfold value_json, is_date. by rewrite Hc, Hvt, Ed. }
    unfold value_json, is_date. cbn. by rewrite Hc1, Ed.
  - rewrite Hend by done. eexists. split; [reflexivity|]. cbn [ca_set ca_name ca_type ca_metadataVector]. rewrite Hvis, Hmv, Hn1.
    rewrite <- Hval1 by done. unfold value_json, is_date. cbn. by rewrite Ht1.
Qed.

Lemma entity_members_attributes l e : Forall readable l -> exists l',
  entity_members memNumber memBool strptime_timegm false "v2" false
    (map (fun ca => (ca_name ca, attribute_json NGSI_V2_NORMALIZED ca)) l) e
  = Ret (inr (en_set (en_id e) (en_type e) (en_isPattern e) (en_attributeVector e ++ l') (en_typeGiven e) e)) /\
  map view l' = map view l.
Proof.
  intros H. revert e. induction H as [|ca l Hca _ IH]; intros e.
  { exists []. rewrite app_nil_r. split; [|done]. by destruct e. }
  destruct (read_attribute ca Hca) as (ca' & Hp & Hv). cbn [map entity_members]. destruct Hca as (Hn & Hne & Hh & _).
  unfold clean in Hn. rewrite Hn. unfold hidden_attribute in Hh. apply orb_false_iff in Hh as [-> ->].
  unfold push_attribute. rewrite Hp. cbn [mbind cpp_bind].
  destruct (IH (en_push ca' e)) as (l' & -> & Hl). exists (ca' :: l'). split.
  - cbn [en_push en_set en_id en_type en_isPattern en_attributeVector en_typeGiven en_renderId en_errorCode]. by rewrite <- app_assoc.
  - cbn [map]. by rewrite Hv, Hl.
Qed.

(** An entity that can be read back. *)
Record printable (attrsFilter : list string) (e : Entity) : Prop := mkPrintable {
  pr_ok : no_error (en_errorCode e) = true;
  pr_renderId : en_renderId e = true;
  pr_id : clean (en_id e) /\ en_id e <> "";
  pr_type : typed (en_type e);
  pr_attributes : Forall readable (shown (en_attributeVector e) attrsFilter);
  pr_commas : en_attributeVector e = [] \/ shown (en_attributeVector e) attrsFilter <> []
}.

Lemma entity_json_printed e attrs comma : printable (stringSplit attrs ",").2 e ->
  Entity_render isodate2str e NGSI_V2_NORMALIZED attrs comma
  = Ret (json_text (entity_json NGSI_V2_NORMALIZED (stringSplit attrs ",").2 e) +:+ (if comma then "," else "")).
Proof.
  intros [Hok _ _ _ Ha Hc]. apply entity_text; [done|done| |].
  - eapply Forall_impl; [exact Ha|]. by intros ca (_ & _ & _ & _ & ? & _).
  - destruct Hc as [?|?]; [by left|by right; left].
Qed.

Lemma entity_json_read e fl : printable fl e -> exists e',
  parseEntity memNumber memBool strptime_timegm false "v2" (Some (entity_json NGSI_V2_NORMALIZED fl e)) Entity_new false = Ret (inr e') /\
  en_id e' = en_id e /\ en_type e' = en_type e /\ map view (en_attributeVector e') = map view (shown (en_attributeVector e) fl).
Proof.
  intros [_ Hr [Hid Hne] Ht Ha _].
  destruct (entity_members_attributes (shown (en_attributeVector e) fl)
    (en_set_type (en_type e) true (en_set_id (en_id e) "" Entity_new)) Ha) as (l & Hl & Hv).
  eexists. split; [|split; [|split]].
  - unfold entity_json. rewrite bool_decide_eq_false_2, Hr by done. unfold parseEntity, parseEntity_errors.
    cbn [app entity_members]. rewrite or_default_type_typed by done.
    change (c_str "id" =s "id") with true. change (c_str "type" =s "id") with false. change (c_str "type" =s "type") with true.
    destruct Ht as [Ht _]. unfold clean in Hid, Ht. cbn [negb has_member existsb fst]. rewrite Hid, Ht.
    change ("id" =s "id") with true. cbn [orb negb andb length Nat.eqb]. cbv iota.
    change (en_isPattern Entity_new) with "". rewrite Hl. cbn. apply str_eqb_neq in Hne as ->. reflexivity.
  - done.
  - done.
  - exact Hv.
Qed.

(** Attributes and entities that are printed as they are: no text needs an escape, and every
    number has six significant digits at most. *)
Definition exact_md (v : string * string * json) : bool := unescaped v.1.1 && unescaped v.1.2 && exact v.2.
Definition exact_view (v : string * string * json * list (string * string * json)) : bool :=
  unescaped v.1.1.1 && unescaped v.1.1.2 && exact v.1.2 && forallb exact_md v.2.

Record exact_entity (attrsFilter : list string) (e : Entity) : Prop := mkExactEntity {
  ex_id : unescaped (en_id e) = true;
  ex_type : unescaped (en_type e) = true;
  ex_attributes : Forall (fun ca => exact_view (view ca) = true) (shown (en_attributeVector e) attrsFilter)
}.

Lemma exact_attribute_json ca : readable ca -> exact_view (view ca) = true -> exact (attribute_json NGSI_V2_NORMALIZED ca) = true.
Proof.
  intros (_ & _ & _ & Ht & _ & _ & Hm). unfold exact_view, view. cbn [fst snd].
  intros [[[_ Hty]%andb_true_iff Hv]%andb_true_iff Hmd]%andb_true_iff. unfold attribute_json. cbn [values_format].
  cbn [exact forallb fst snd]. rewrite or_default_type_typed, Hty, Hv by done.
  change (unescaped "type") with true. change (unescaped "value") with true. change (unescaped "metadata") with true.
  cbn [andb]. rewrite andb_true_r. unfold metadata_json. cbn [exact].
  rewrite forallb_forall in Hmd |- *. rewrite Forall_forall in Hm. intros kv (md & <- & Hin)%in_map_iff. cbn [fst snd].
  assert (exact_md (md_view md) = true) as H by (apply Hmd, in_map_iff; by exists md).
  unfold exact_md, md_view in H. cbn [fst snd] in H. rewrite !andb_true_iff in H. destruct H as [[-> Hmt] Hmv].
  apply list_elem_of_In in Hin. destruct (Hm md Hin) as (_ & Hmty & _). unfold md_json. cbn [exact forallb fst snd].
  by rewrite (or_default_type_typed _ Hmty), Hmt, Hmv.
Qed.

Lemma exact_entity_json fl e : printable fl e -> exact_entity fl e -> exact (entity_json NGSI_V2_NORMALIZED fl e) = true.
Proof.
  intros [_ Hr _ Ht Ha _] [Hi Hty Hx]. unfold entity_json. rewrite bool_decide_eq_false_2, Hr by done. cbn [exact].
  rewrite forallb_app. apply andb_true_iff. split.
  { cbn [forallb fst snd exact]. rewrite or_default_type_typed, Hi, Hty by done. reflexivity. }
  rewrite forallb_forall. rewrite Forall_forall in Ha, Hx. intros kv (ca & <- & Hin)%in_map_iff. apply list_elem_of_In in Hin.
  cbn [fst snd]. pose proof (Hx ca Hin) as Hc. rewrite (exact_attribute_json _ (Ha ca Hin) Hc), andb_true_r.
  unfold exact_view, view in Hc. cbn [fst snd] in Hc. rewrite !andb_true_iff in Hc. tauto.
Qed.

(** What is rendered of an entity that is printed as it is, as a text and as the value it says. *)
Lemma entity_json_text e attrs comma : printable (stringSplit attrs ",").2 e -> exact_entity (stringSplit attrs ",").2 e ->
  exists text, Entity_render isodate2str e NGSI_V2_NORMALIZED attrs comma = Ret (text +:+ (if comma then "," else "")) /\
    parse_json text = Some (entity_json NGSI_V2_NORMALIZED (stringSplit attrs ",").2 e).
Proof.
  intros Hp Hx. eexists. split; [by apply entity_json_printed|]. by apply parse_json_text, exact_entity_json.
Qed.

(** C36. Round trip: the text rendered of an entity (normalized) is read, by the grammar of JSON with
    its escapes, as a value from which parseEntity makes an entity with the same id and type and, in the
    same order, the shown attributes with the same names, types, values (structured ones too) and
    visible metadata.  The entity must show some attribute if it has any; its types must be given and its
    dates be read back as printed; and, since the broker escapes nothing and prints six digits
    ([six_digits_printed], [backslash_unreadable]), its texts must need no escape and its numbers be
    exact in six significant digits. *)
Theorem entity_roundtrip e attrs comma : printable (stringSplit attrs ",").2 e -> exact_entity (stringSplit attrs ",").2 e ->
  exists text j e', Entity_render isodate2str e NGSI_V2_NORMALIZED attrs comma = Ret (text +:+ (if comma then "," else "")) /\
    parse_json text = Some j /\
    parseEntity memNumber memBool strptime_timegm false "v2" (Some j) Entity_new false = Ret (inr e') /\
    en_id e' = en_id e /\ en_type e' = en_type e /\
    map view (en_attributeVector e') = map view (shown (en_attributeVector e) (stringSplit attrs ",").2).
Proof.
  intros Hp Hx. destruct (entity_json_text e attrs comma Hp Hx) as (text & Ht & Hj).
  destruct (entity_json_read _ _ Hp) as (e' & Hr & ?). exists text. by eexists _, e'.
Qed.

(** ** What a checked entity prints *)

Fixpoint quoteless (j : json) : bool :=
  match j with
  | JString s => free_of dquote s
  | JArray l => forallb quoteless l
  | JObject o => forallb (fun kv => free_of dquote kv.1 && quoteless kv.2) o
  | _ => true
  end.

Lemma check_vector_OK {A} (f : A -> string) vec : check_vector f vec = "OK" -> Forall (fun x => f x = "OK") vec.
Proof.
  induction vec as [|x vec IH]; [constructor|]. cbn [check_vector]. destruct (f x =s "OK") eqn:E; cbn [negb].
  - intros H. constructor; [by apply str_eqb_eq|by apply IH].
  - intros H. by apply str_eqb_neq in E.
Qed.

Lemma forbidden_value_quote s : forbidden_value s = false -> free_of dquote (c_str s) = true.
Proof.
  unfold forbidden_value, forbiddenChars. rewrite forbiddenChars_loop_None. intros H. by eapply not_forbidden_char.
Qed.

Lemma forbidden_id_quote checkIdv1 api s : forbidden_id checkIdv1 api s = false -> free_of dquote (c_str s) = true.
Proof.
  unfold forbidden_id. intros H. apply forbidden_value_quote. unfold forbidden_value.
  destruct (forbiddenChars (Some (c_str s)) None) eqn:E; [|done]. apply (forbiddenIdChars_stricter checkIdv1 api) in E. congruence.
Qed.

Lemma or_default_type_quote s : free_of dquote (c_str s) = true -> free_of dquote (c_str (or_default_type s)) = true.
Proof. intros H. unfold or_default_type. by destruct (s =s ""). Qed.

Lemma Metadata_check_quote checkIdv1 api md : Metadata_check checkIdv1 api md = "OK" ->
  free_of dquote (c_str (md_name md)) = true /\ free_of dquote (c_str (md_type md)) = true
  /\ (md_valueType md = ValueTypeString -> free_of dquote (c_str (md_stringValue md)) = true).
Proof.
  unfold Metadata_check. destruct (md_name md =s ""); [done|]. destruct (_ <? _); [done|].
  destruct (forbidden_id _ _ (md_name md)) eqn:E1; [done|]. destruct (_ <? _); [done|]. destruct (_ && _); [done|].
  destruct (forbidden_id _ _ (md_type md)) eqn:E2; [done|]. intros H.
  split; [by eapply forbidden_id_quote|]. split; [by eapply forbidden_id_quote|]. intros E. rewrite E in H.
  destruct (forbidden_value _) eqn:Ef; [done|]. by apply forbidden_value_quote.
Qed.

(** The structured values of attributes are checked by their own check. *)
Definition childless (ca : ContextAttribute) : Prop :=
  match ca_compoundValueP ca with Some c => cvn_childV c = [] | None => True end.
Definition md_valued (md : Metadata) : Prop :=
  md_valueType md <> ValueTypeVector /\ md_valueType md <> ValueTypeObject /\ md_valueType md <> ValueTypeUnknown.

Context (dates : forall d, free_of dquote (c_str (isodate2str d)) = true).

Lemma attribute_quoteless checkIdv1 api format ca : ContextAttribute_check checkIdv1 api false ca = "OK" ->
  childless ca -> valued ca -> Forall md_valued (ca_metadataVector ca) ->
  free_of dquote (c_str (ca_name ca)) = true /\ quoteless (c_json (attribute_json format ca)) = true.
Proof.
  unfold ContextAttribute_check. destruct (_ && _); [done|]. destruct (_ <? _); [done|].
  destruct (forbidden_id _ _ (ca_name ca)) eqn:E1; [done|]. destruct (_ <? _); [done|]. destruct (_ && _); [done|]. cbn [negb andb].
  destruct (forbidden_id _ _ (ca_type ca)) eqn:E2; [done|]. cbv zeta. intros H Hc Hv Hmv.
  split; [by eapply forbidden_id_quote|].
  assert ((bool_decide (ca_valueType ca = ValueTypeString) && forbidden_value (ca_stringValue ca)) = false /\
    check_vector (Metadata_check checkIdv1 api) (ca_metadataVector ca) = "OK") as [Hs Hm].
  { unfold childless in Hc. destruct (ca_compoundValueP ca) as [c|]; [rewrite Hc in H; cbn [length Nat.eqb negb] in H|];
      destruct (_ && forbidden_value _); [done|by split|done|by split]. }
  clear H. assert (quoteless (c_json (value_json ca)) = true) as Hval.
  { unfold value_json, valued, childless in *. destruct (ca_compoundValueP ca) as [c|].
    - destruct c as [? vt ? ? ? ? ? ? cs]. cbn in Hc, Hv. subst cs. destruct Hv as [_ [-> | ->]]; done.
    - destruct Hv as [Hv | [-> | [-> | ->]]]; try done.
      + rewrite Hv in Hs |- *. apply forbidden_value_quote. by rewrite bool_decide_eq_true_2 in Hs.
      + destruct (is_date ca); [apply dates|done]. }
  unfold attribute_json. destruct (values_format format); [done|].
  cbn [c_json map quoteless forallb fst snd]. rewrite Hval.
  assert (free_of dquote (c_str (or_default_type (ca_type ca))) = true) as ->
    by (eapply or_default_type_quote, forbidden_id_quote; done).
  rewrite !andb_true_iff. split_and!; try reflexivity.
  unfold metadata_json. cbn [c_json quoteless]. rewrite forallb_forall.
  intros [k j] Hin. rewrite map_map in Hin. apply in_map_iff in Hin as (md & [= <- <-] & Hin). apply filter_In in Hin as [Hin _].
  apply check_vector_OK in Hm. rewrite Forall_forall in Hm, Hmv. apply list_elem_of_In in Hin.
  destruct (Metadata_check_quote _ _ md (Hm md Hin)) as (Hk & Ht & Hvs). destruct (Hmv md Hin) as (V1 & V2 & V3).
  cbn [fst snd]. rewrite Hk. unfold md_json. cbn [c_json map quoteless forallb fst snd].
  rewrite (or_default_type_quote _ Ht). rewrite !andb_true_iff. split_and!; try reflexivity.
  unfold md_value_json. destruct (md_valueType md); try done. cbn [c_json quoteless]. auto.
Qed.

Lemma find_attribute_In name vec ca : find_attribute name vec = Some ca -> ca ∈ vec.
Proof.
  induction vec as [|ca' vec IH]; [done|]. cbn [find_attribute]. destruct (_ =s _); [intros [= ->]; apply list_elem_of_here|].
  intros H. apply list_elem_of_further. auto.
Qed.

Lemma shown_In vec attrsFilter ca : ca ∈ shown vec attrsFilter -> ca ∈ vec.
Proof.
  destruct attrsFilter as [|n l]; cbn [shown].
  - intros Hin. apply list_elem_of_In, filter_In in Hin as [Hin _]. by apply list_elem_of_In.
  - intros Hin. apply list_elem_of_omap in Hin as (name & _ & Hf). by eapply find_attribute_In.
Qed.

(** Whatever is printed of an entity that check accepts, no text of it (id, types,
    names, values, metadata) has a double quote, so that each of them ends where it should;
    structured values are apart (their names are not checked), and so are the metadata of an
    attribute that has one, which are not checked at all. *)
Theorem checked_entity_quoteless checkIdv1 api entities_request format attrsFilter e :
  Entity_check checkIdv1 api entities_request e = "OK" ->
  Forall (fun ca => childless ca /\ valued ca /\ Forall md_valued (ca_metadataVector ca)) (en_attributeVector e) ->
  quoteless (c_json (entity_json format attrsFilter e)) = true.
Proof.
  unfold Entity_check. destruct (_ && _); [done|]. destruct (_ <? _); [done|].
  destruct (forbidden_id _ _ (en_id e)) eqn:E1; [done|]. destruct (_ <? _); [done|]. destruct (_ && _); [done|].
  destruct (forbidden_id _ _ (en_type e)) eqn:E2; [done|]. destruct (forbidden_value _); [done|].
  intros H%check_vector_OK Ha. rewrite Forall_forall in H, Ha.
  assert (forall ca, ca ∈ shown (en_attributeVector e) attrsFilter ->
    free_of dquote (c_str (ca_name ca)) = true /\ quoteless (c_json (attribute_json format ca)) = true) as Hall.
  { intros ca Hin%shown_In. destruct (Ha ca Hin) as (Hc & Hv & Hm). by apply (attribute_quoteless checkIdv1 api), Hm; [apply H|..]. }
  unfold entity_json. case_bool_decide.
  - cbn [c_json quoteless]. rewrite forallb_forall. intros j Hin. rewrite map_map in Hin.
    apply in_map_iff in Hin as (ca & <- & Hin). apply Hall. by apply list_elem_of_In.
  - cbn [c_json quoteless]. rewrite map_app, forallb_app. apply andb_true_iff. split.
    + destruct (en_renderId e); [|done]. cbn [map forallb c_json quoteless fst snd].
      by rewrite (forbidden_id_quote _ _ _ E1), (or_default_type_quote _ (forbidden_id_quote _ _ _ E2)).
    + rewrite forallb_forall. intros [k j] Hin. rewrite map_map in Hin. apply in_map_iff in Hin as (ca & [= <- <-] & Hin).
      apply list_elem_of_In in Hin. cbn [fst snd]. by destruct (Hall ca Hin) as [-> ->].
Qed.

End Printed.

(** ** Errors *)

Fixpoint escape (s : string) : string :=
  match s with
  | "" => ""
  | String c r => if c =c dquote then String "092" (String dquote (escape r)) else String c (escape r)
  end.

Lemma strReplace_loop_escape fuel toLen to from : (String.length from <= fuel)%nat ->
  (String.length to + 2 * String.length from <= toLen)%nat ->
  strReplace_loop fuel toLen to from (str1 dquote) (backslash +:+ str1 dquote) = Ret (to +:+ escape from).
Proof.
  revert fuel to. induction from as [|c r IH]; intros [|fuel] to Hf Hl; cbn [String.length] in *; try lia.
  - cbn. rewrite app_nil_r_str. by rewrite (proj2 (Nat.leb_le _ _)) by lia.
  - cbn. rewrite app_nil_r_str. by rewrite (proj2 (Nat.leb_le _ _)) by lia.
  - cbn [strReplace_loop]. change (String c r =s "") with false. cbv iota.
    assert (strncmp_eq (String c r) (str1 dquote) (String.length (str1 dquote)) = (c =c dquote)) as ->.
    { unfold strncmp_eq. cbn. by destruct (Ascii.eqb c _). }
    cbn [escape]. destruct (c =c dquote) eqn:E.
    + change (String.length (backslash +:+ str1 dquote)) with 2%nat.
      assert ((String.length to + 2 <=? toLen)%nat = true) as -> by (apply Nat.leb_le; lia).
      change (str_drop (String.length (str1 dquote)) (String c r)) with r. rewrite IH; [by rewrite app_assoc_str|lia|].
      rewrite length_app_str. change (String.length (backslash +:+ str1 dquote)) with 2%nat. lia.
    + assert ((String.length to <=? toLen)%nat = true) as -> by (apply Nat.leb_le; lia).
      change (str_take 1 (String c r)) with (str1 c). change (str_drop 1 (String c r)) with r.
      rewrite IH; [by rewrite app_assoc_str|lia|]. rewrite length_app_str. change (String.length (str1 c)) with 1%nat. lia.
Qed.

Lemma length_c_str s : (String.length (c_str s) <= String.length s)%nat.
Proof. induction s as [|c s IH]; [done|]. cbn. destruct (c =c NUL); cbn; lia. Qed.

(** The buffer of ErrorCode::toJson is large enough: the text of an error is always made,
    with each double quote of its description escaped. *)
Theorem ErrorCode_toJson_text ec last : no_error ec = false -> ec_error ec <> "" -> ec_error ec <> "OK" -> ec_description ec <> "" ->
  clean (ec_description ec) ->
  exists ec', ErrorCode_toJson ec last
    = Ret ("{" +:+ JSON_VALUE "error" (ec_error ec) +:+ "," +:+ JSON_VALUE "description" (escape (ec_description ec))
           +:+ "}" +:+ (if last then "" else ","), ec').
Proof.
  intros Hn He Ho Hd Hc. unfold ErrorCode_toJson. rewrite Hn. unfold clean in Hc. rewrite Hc.
  apply str_eqb_neq in He as ->. apply str_eqb_neq in Ho as ->. cbn [negb andb].
  assert (forall d : string, d = escape (ec_description ec) -> negb (d =s "") = true) as Hne.
  { intros d ->. destruct (ec_description ec) as [|c r]; [done|]. cbn. by destruct (c =c dquote). }
  rewrite str_contains_char. destruct (str_any _ _) eqn:E.
  - unfold strReplace. rewrite Hc. change (c_str (str1 "034")) with (str1 dquote).
    change (c_str (backslash +:+ str1 "034")) with (backslash +:+ str1 dquote).
    rewrite strReplace_loop_escape by (cbn; lia). cbn [mbind cpp_bind]. rewrite app_nil_l_str, (Hne _ eq_refl).
    eexists. by rewrite !app_assoc_str.
  - assert (escape (ec_description ec) = ec_description ec) as Hesc.
    { clear -E. induction (ec_description ec) as [|c r IH]; [done|]. rewrite str_any_cons in E. apply orb_false_iff in E as [E1 E2].
      cbn. by rewrite E1, IH. }
    cbn [mbind cpp_bind]. rewrite (Hne _ (eq_sym Hesc)), Hesc. eexists. by rewrite !app_assoc_str.
Qed.

(** ** Concrete entities *)

Definition new_attribute (name type : string) : ContextAttribute := ca_set_type type true (ca_named name (ContextAttribute_new zero false)).
Definition stamp : double := double_of_Z 1451606400.
Definition print_stamp (d : double) : string := "2016-01-01T00:00:00.00Z".
Definition read_stamp (s format : string) : option Z := if s =s "2016-01-01T00:00:00.00Z" then Some 1451606400 else None.

Definition temperature : ContextAttribute :=
  ca_set "Number" [mkMetadata "accuracy" "Float" ValueTypeNumber "" (double_of_Z 2) false true] ValueTypeNumber "" (double_of_Z 25) false
    None true (new_attribute "temperature" "Number").
Definition since : ContextAttribute := ca_set_value ValueTypeNumber "" stamp false (new_attribute "since" DATE_TYPE).
Definition shape : ContextAttribute :=
  ca_set "Structure" [] ValueTypeObject "" zero false (Some (parse_compound ValueTypeObject sample_value)) true
    (new_attribute "shape" "Structure").
Definition room : Entity := mkEntity "Room1" "Room" "" [temperature; since; shape] true true (mkErrorCode "OK" "").

Lemma temperature_readable : readable print_stamp read_stamp temperature.
Proof.
  split; [reflexivity|]. split; [discriminate|]. split; [reflexivity|]. split; [split; [reflexivity|discriminate]|].
  split; [right; left; reflexivity|]. split; [right; left; split; [reflexivity|discriminate]|].
  apply Forall_cons. split; [|constructor]. split; [reflexivity|]. split; [split; [reflexivity|discriminate]|].
  right; left. reflexivity.
Qed.

Lemma since_readable : readable print_stamp read_stamp since.
Proof.
  split; [reflexivity|]. split; [discriminate|]. split; [reflexivity|]. split; [split; [reflexivity|discriminate]|].
  split; [right; left; reflexivity|]. split; [right; left; split; [reflexivity|]|constructor].
  intros _. split; [reflexivity|]. split; vm_compute; reflexivity.
Qed.

Lemma shape_readable : readable print_stamp read_stamp shape.
Proof.
  split; [reflexivity|]. split; [discriminate|]. split; [reflexivity|]. split; [split; [reflexivity|discriminate]|].
  split; [split; [reflexivity|left; reflexivity]|]. split; [split; [reflexivity|reflexivity]|constructor].
Qed.

Lemma room_printable : printable print_stamp read_stamp [] room.
Proof.
  split; [reflexivity|reflexivity|split; [reflexivity|discriminate]|split; [reflexivity|discriminate]| |right; discriminate].
  apply Forall_cons. split; [exact temperature_readable|]. apply Forall_cons. split; [exact since_readable|].
  apply Forall_cons. split; [exact shape_readable|constructor].
Qed.

Lemma room_exact : exact_entity print_stamp [] room.
Proof.
  split; [reflexivity|reflexivity|]. apply Forall_cons. split; [vm_compute; reflexivity|].
  apply Forall_cons. split; [vm_compute; reflexivity|]. apply Forall_cons. split; [vm_compute; reflexivity|constructor].
Qed.

Lemma entity_roundtrip_witness : exists t j e',
  Entity_render print_stamp room NGSI_V2_NORMALIZED "" false = Ret t /\ parse_json t = Some j /\
  parseEntity zero false read_stamp false "v2" (Some j) Entity_new false = Ret (inr e') /\ en_id e' = "Room1" /\
  map ca_name (en_attributeVector e') = ["temperature"; "since"; "shape"].
Proof.
  destruct (entity_roundtrip print_stamp zero false read_stamp room "" false room_printable room_exact)
    as (t & j & e' & Ht & Hj & Hp & Hi & _ & Hv).
  exists t, j, e'. rewrite Ht. split; [by rewrite app_nil_r_str|]. split; [exact Hj|]. split; [exact Hp|]. split; [exact Hi|].
  apply (f_equal (map (fun v => v.1.1.1))) in Hv. rewrite map_map in Hv. exact Hv.
Defined.

Lemma checked_entity_quoteless_witness :
  quoteless (c_json (entity_json print_stamp NGSI_V2_NORMALIZED [] (mkEntity "Room1" "Room" "" [temperature] true true (mkErrorCode "OK" "")))) = true.
Proof.
  apply (checked_entity_quoteless print_stamp (fun _ => eq_refl) false "v2" true NGSI_V2_NORMALIZED []).
  - reflexivity.
  - apply Forall_cons. split; [|constructor]. split; [exact I|]. split; [right; left; reflexivity|].
    apply Forall_cons. split; [|constructor]. split; [discriminate|split; discriminate].
Defined.

Lemma ErrorCode_toJson_text_witness : exists t, ErrorCode_toJson (mkErrorCode "BadRequest" "no entity") true = Ret t.
Proof.
  destruct (ErrorCode_toJson_text (mkErrorCode "BadRequest" "no entity") true eq_refl) as [ec' H]; [discriminate..|reflexivity|].
  eexists. exact H.
Defined.

(** *** What goes wrong *)

(** A payload that gives a structured value twice: the broker follows a null pointer. *)
Example value_twice :
  parseContextAttribute zero false read_stamp false "v2" "a" (JObject [("value", JArray [JNull]); ("value", JArray [JNull])])
    (ContextAttribute_new zero false) = UB "null parent of a compound value".
Proof. reflexivity. Qed.

(** An entity whose only attribute is called type: the object ends with a comma. *)
Example trailing_comma :
  Entity_render print_stamp (mkEntity "E" "T" "" [new_attribute "type" "x"] true true (mkErrorCode "OK" "")) NGSI_V2_KEYVALUES "" false
  = Ret ("{" +:+ JSON_VALUE "id" "E" +:+ "," +:+ JSON_VALUE "type" "T" +:+ ",}").
Proof. vm_compute. reflexivity. Qed.

Definition text_attribute (name value : string) : ContextAttribute :=
  ca_set_value ValueTypeString value zero false (new_attribute name "T").
Definition with_attributes (l : list ContextAttribute) : Entity := mkEntity "E" "T" "" l true true (mkErrorCode "OK" "").

(** uniqueValues: a value left out is counted as printed, and the commas are misplaced. *)
Example unique_commas :
  Entity_render print_stamp (with_attributes [text_attribute "a" "x"; text_attribute "b" "x"; text_attribute "c" "y"])
    NGSI_V2_UNIQUE_VALUES "" false = Ret ("[" +:+ quote "x" +:+ "," +:+ quote "y" +:+ ",]") /\
  Entity_render print_stamp (with_attributes [text_attribute "a" "x"; text_attribute "b" "x"; text_attribute "c" "y"; text_attribute "d" "z"])
    NGSI_V2_UNIQUE_VALUES "" false = Ret ("[" +:+ quote "x" +:+ "," +:+ quote "y" +:+ quote "z" +:+ ",]").
Proof. split; vm_compute; reflexivity. Qed.

(** A backslash passes the check and is printed as it is: the string does not end. *)
Example backslash_kept :
  let e := with_attributes [text_attribute "a" backslash] in
  Entity_check false "v2" true e = "OK" /\
  Entity_render print_stamp e NGSI_V2_KEYVALUES "" false
  = Ret ("{" +:+ JSON_VALUE "id" "E" +:+ "," +:+ JSON_VALUE "type" "T" +:+ "," +:+ quote "a" +:+ ":" +:+ str1 "034" +:+ backslash +:+ str1 "034" +:+ "}").
Proof. split; vm_compute; reflexivity. Qed.

(** Such a text cannot be read by anyone. *)
Example backslash_unreadable : exists t,
  Entity_render print_stamp (with_attributes [text_attribute "a" backslash]) NGSI_V2_NORMALIZED "" false = Ret t /\ parse_json t = None.
Proof. eexists. split; [vm_compute; reflexivity|vm_compute; reflexivity]. Qed.

(** Entities whose values differ are shown by one text, with a third value. *)
Example six_digits_printed :
  let shows n := Entity_render print_stamp (with_attributes [ca_set_value ValueTypeNumber "" (double_of_Z n) false (new_attribute "a" "T")])
    NGSI_V2_KEYVALUES "" false in
  shows 1234567 = shows 1234568 /\
  (t ← shows 1234567; Ret (parse_json t))
    = Ret (Some (JObject [("id", JString "E"); ("type", JString "T"); ("a", JNumber (double_of_Z 1234570))])).
Proof. split; vm_compute; reflexivity. Qed.

(** The metadata of an attribute with a structured value are not checked. *)
Example metadata_unchecked :
  ContextAttribute_check false "v2" false
    (ca_set "T" [mkMetadata "" "" ValueTypeString "<>" zero false true] ValueTypeObject "" zero false
       (Some (parse_compound ValueTypeObject sample_value)) true (new_attribute "a" "T")) = "OK".
Proof. vm_compute. reflexivity. Qed.

(** An array read with keyValues has the type of an object, and its tree that of a vector. *)
Example key_value_array :
  (ca ← key_value (JArray [JNull]) (ContextAttribute_new zero false);
   Ret (ca_valueType ca, cvn_valueType <$> ca_compoundValueP ca)) = Ret (ValueTypeObject, Some ValueTypeVector).
Proof. reflexivity. Qed.
