(* ===== verification/JsonSubscription.v ===== *)
(** * Subscriptions as JSON (version 2)

    The rendering of apiTypesV2/Subscription.cpp, the reader of
    jsonParseV2/parseSubscription.cpp and the checks of ngsi10/SubscribeContextRequest.cpp,
    as far as the requests of version 2 reach them; rest/OrionError.cpp for errors of
    version 2.  The texts of dates, the reading of dates and of filters, and which numbers
    rapidjson reads as 64-bit integers are arguments. *)

From S2P Require Import Prelude Strings Double Bson Compound Ngsi AttrUpdate Location Registrations FilterParse FilterMatch SubCache.
From S2P Require Import Geo Queries SubSync Notify Duration EntityUpdate UpdateContext QueryContext Subscriptions Json JsonEntity JsonText.

Open Scope Z_scope.

(** ** Rendering *)

Definition PERMANENT_SUBS_DATETIME : Z := 9000000000000000000.

Definition EntID_toJson (e : EntID) : string :=
  jh_str (addString "type" (Subscriptions.en_type e) (addString "idPattern" (Subscriptions.en_idPattern e) (addString "id" (Subscriptions.en_id e) JsonHelper_new))).

Definition Condition_toJson (attributes : list string) (x : ExprDoc) : string :=
  let jh := addRaw "attrs" (vectorToJson toJsonString attributes) JsonHelper_new in
  let expr name v := add_if (negb (v =s "")) (addString name v) in
  let expressionString :=
    jh_str (expr "georel" (xd_georel x) (expr "coords" (xd_coords x) (expr "geometry" (xd_geometry x)
          (expr "q" (xd_q x) JsonHelper_new)))) in
  jh_str (add_if (negb (expressionString =s "{}")) (addRaw "expression" expressionString) jh).

Definition Subject_toJson (s : Subscription) : string :=
  jh_str (addRaw "condition" (Condition_toJson (sub_conditionAttrs s) (sub_expression s))
        (addRaw "entities" (vectorToJson EntID_toJson (sub_entities s)) JsonHelper_new)).

Definition HttpInfo_toJson (url : string) : string := jh_str (addString "url" url JsonHelper_new).

Section Render.

Context (isodate2str : Z -> string).

Definition addDate (key : string) (timestamp : Z) (jh : JsonHelper) : JsonHelper :=
  addRaw key (toJsonString (isodate2str timestamp)) jh.

Definition Notification_toJson (s : Subscription) : string :=
  jh_str (addRaw "http" (HttpInfo_toJson (sub_url s))
        (addRaw "attrs" (vectorToJson toJsonString (sub_attributes s))
          (add_if (0 <? sub_lastNotification s) (addDate "lastNotification" (sub_lastNotification s))
            (add_if (0 <? sub_timesSent s) (addNumber "timesSent" (sub_timesSent s)) JsonHelper_new)))).

Definition Subscription_toJson (s : Subscription) : string :=
  jh_str (add_if (0 <? sub_throttling s) (addNumber "throttling" (sub_throttling s))
        (addRaw "notification" (Notification_toJson s)
          (addRaw "subject" (Subject_toJson s)
            (addString "status" (sub_status s)
              (add_if (negb (sub_expires s =? PERMANENT_SUBS_DATETIME)) (addDate "expires" (sub_expires s))
                (add_if (negb (sub_description s =s "")) (addString "description" (sub_description s))
                  (addString "id" (sub_id s) JsonHelper_new))))))).

End Render.

(** ** What is rendered *)

(** The helper after the members [o]. *)
Definition built (o : list (string * jtree)) : JsonHelper :=
  mkJsonHelper ("{" +:+ join "," (map member_text o)) (length o =? 0)%nat.

Lemma join_snoc d l (x : string) : join d (l ++ [x]) = join d l +:+ (if (length l =? 0)%nat then "" else d) +:+ x.
Proof.
  induction l as [|y l IH]; [done|]. destruct l as [|z l]; [done|].
  change (join d ((y :: z :: l) ++ [x])) with (y +:+ d +:+ join d ((z :: l) ++ [x])). rewrite IH.
  change (join d (y :: z :: l)) with (y +:+ d +:+ join d (z :: l)). by rewrite !app_assoc_str.
Qed.

Lemma add_member k v o : addRaw k (tree_text v) (built o) = built (o ++ [(k, v)]).
Proof.
  unfold addRaw, built. cbn [jh_ss jh_empty]. rewrite map_app. cbn [map]. rewrite join_snoc, length_map, length_app.
  cbn [length]. by rewrite Nat.add_1_r.
Qed.

Lemma add_member_if (b : bool) f k v o : (forall o, f (built o) = built (o ++ [(k, v)])) ->
  add_if b f (built o) = built (o ++ if b then [(k, v)] else []).
Proof. intros Hf. destruct b; cbn [add_if]; [apply Hf|by rewrite app_nil_r]. Qed.

Lemma add_text k v o : addString k v (built o) = built (o ++ [(k, JStr v)]).
Proof. apply (add_member k (JStr v)). Qed.

Lemma add_number k n o : addNumber k n (built o) = built (o ++ [(k, JInt n)]).
Proof. apply (add_member k (JInt n)). Qed.

Lemma built_str o : jh_str (built o) = tree_text (JObj o).
Proof. unfold jh_str, built. cbn [jh_ss]. by rewrite app_assoc_str. Qed.

Lemma vectorToJson_text {A} (f : A -> string) (g : A -> jtree) l : (forall x, f x = tree_text (g x)) ->
  vectorToJson f l = tree_text (JArr (map g l)).
Proof.
  intros Hf. destruct l as [|x l]; [done|]. cbn [vectorToJson tree_text]. f_equal. rewrite <- app_assoc_str. f_equal.
  revert x. induction l as [|y l IH]; intros x; [cbn; by rewrite app_nil_r_str, Hf|].
  change (map tree_text (map g (x :: y :: l))) with (tree_text (g x) :: map tree_text (map g (y :: l))).
  change (join "," (tree_text (g x) :: map tree_text (map g (y :: l))))
    with (tree_text (g x) +:+ "," +:+ join "," (map tree_text (map g (y :: l)))).
  rewrite <- IH, Hf. cbn [map concat_str]. by rewrite !app_assoc_str.
Qed.

(** A member that is there when its text is not empty. *)
Definition text_member (k v : string) : list (string * jtree) := if v =s "" then [] else [(k, JStr v)].

Definition entid_tree (e : EntID) : jtree :=
  JObj [("id", JStr (Subscriptions.en_id e)); ("idPattern", JStr (Subscriptions.en_idPattern e));
        ("type", JStr (Subscriptions.en_type e))].
Definition expression_members (x : ExprDoc) : list (string * jtree) :=
  text_member "q" (xd_q x) ++ text_member "geometry" (xd_geometry x) ++ text_member "coords" (xd_coords x)
  ++ text_member "georel" (xd_georel x).
Definition condition_tree (attributes : list string) (x : ExprDoc) : jtree :=
  JObj (("attrs", JArr (map JStr attributes))
        :: if (length (expression_members x) =? 0)%nat then [] else [("expression", JObj (expression_members x))]).

Section Rendered.

Context (isodate2str : Z -> string).

(** The value a subscription is rendered as. *)
Definition subscription_tree (s : Subscription) : jtree :=
  JObj ([("id", JStr (sub_id s))] ++ text_member "description" (sub_description s)
    ++ (if sub_expires s =? PERMANENT_SUBS_DATETIME then [] else [("expires", JStr (isodate2str (sub_expires s)))])
    ++ [("status", JStr (sub_status s));
        ("subject", JObj [("entities", JArr (map entid_tree (sub_entities s)));
                          ("condition", condition_tree (sub_conditionAttrs s) (sub_expression s))]);
        ("notification", JObj ((if 0 <? sub_timesSent s then [("timesSent", JInt (sub_timesSent s))] else [])
           ++ (if 0 <? sub_lastNotification s then [("lastNotification", JStr (isodate2str (sub_lastNotification s)))] else [])
           ++ [("attrs", JArr (map JStr (sub_attributes s))); ("http", JObj [("url", JStr (sub_url s))])]))]
    ++ (if 0 <? sub_throttling s then [("throttling", JInt (sub_throttling s))] else [])).

Lemma add_date k t o : addDate isodate2str k t (built o) = built (o ++ [(k, JStr (isodate2str t))]).
Proof. apply add_text. Qed.

Lemma add_text_if k v o : add_if (negb (v =s "")) (addString k v) (built o) = built (o ++ text_member k v).
Proof.
  unfold text_member. destruct (v =s ""); cbn [negb add_if]; [by rewrite app_nil_r|]. apply add_text.
Qed.

Lemma toJsonString_app s rest : toJsonString s +:+ rest = String "034" (json_chars s +:+ String "034" rest).
Proof. unfold toJsonString. by rewrite !app_assoc_str. Qed.

Lemma object_empty o : (tree_text (JObj o) =s "{}") = (length o =? 0)%nat.
Proof.
  destruct o as [|[k v] o]; [done|]. cbn [length Nat.eqb]. apply str_eqb_neq. cbn [tree_text]. change (map _ ?l) with (map member_text l).
  assert (exists r, join "," (map member_text ((k, v) :: o)) = String "034" r) as [r ->]; [|done].
  destruct o as [|kv o]; cbn [map join]; unfold member_text at 1; cbn [fst snd]; rewrite toJsonString_app, ?app_cons_str; by eexists.
Qed.

Lemma Condition_text attributes x : Condition_toJson attributes x = tree_text (condition_tree attributes x).
Proof.
  unfold Condition_toJson. change JsonHelper_new with (built []). rewrite (vectorToJson_text toJsonString JStr) by done.
  rewrite add_member, !add_text_if, built_str. cbn [app]. rewrite <- !app_assoc. fold (expression_members x).
  rewrite object_empty. unfold condition_tree. destruct (length _ =? 0)%nat; cbn [negb add_if]; by rewrite ?add_member, built_str.
Qed.

Lemma Subject_text s : Subject_toJson s
  = tree_text (JObj [("entities", JArr (map entid_tree (sub_entities s)));
                     ("condition", condition_tree (sub_conditionAttrs s) (sub_expression s))]).
Proof.
  unfold Subject_toJson. change JsonHelper_new with (built []). rewrite Condition_text, (vectorToJson_text EntID_toJson entid_tree).
  - by rewrite !add_member, built_str.
  - intros e. unfold EntID_toJson. change JsonHelper_new with (built []). rewrite !add_text. apply built_str.
Qed.

Lemma Notification_text s : Notification_toJson isodate2str s
  = tree_text (JObj ((if 0 <? sub_timesSent s then [("timesSent", JInt (sub_timesSent s))] else [])
      ++ (if 0 <? sub_lastNotification s then [("lastNotification", JStr (isodate2str (sub_lastNotification s)))] else [])
      ++ [("attrs", JArr (map JStr (sub_attributes s))); ("http", JObj [("url", JStr (sub_url s))])])).
Proof.
  unfold Notification_toJson. change JsonHelper_new with (built []).
  rewrite (add_member_if _ _ _ _ _ (add_number _ _)), (add_member_if _ _ _ _ _ (add_date _ _)).
  rewrite (vectorToJson_text toJsonString JStr), add_member by done.
  assert (HttpInfo_toJson (sub_url s) = tree_text (JObj [("url", JStr (sub_url s))])) as -> by done.
  rewrite add_member, built_str. cbn [app]. by rewrite <- !app_assoc.
Qed.

Lemma subscription_sound s : sound (subscription_tree s) = true.
Proof.
  assert (forall {A} (f : A -> jtree) l, (forall x, sound (f x) = true) -> forallb sound (map f l) = true) as Hm.
  { intros A f l Hf. apply forallb_forall. intros t (x & <- & _)%in_map_iff. apply Hf. }
  assert (forall k v, forallb (fun kv => sound kv.2) (text_member k v) = true) as Ht by (intros k v; unfold text_member; by destruct (v =s "")).
  assert (forallb (fun kv => sound kv.2) (expression_members (sub_expression s)) = true) as Hx.
  { unfold expression_members. by rewrite !forallb_app, !Ht. }
  unfold subscription_tree, condition_tree. cbn [sound]. rewrite !forallb_app, Ht. cbn [forallb sound fst snd].
  rewrite !forallb_app. cbn [forallb sound fst snd]. rewrite !Hm by done.
  destruct (sub_expires s =? _), (length _ =? 0)%nat, (0 <? sub_timesSent s), (0 <? sub_lastNotification s), (0 <? sub_throttling s);
    cbn [forallb sound fst snd]; rewrite ?json_literal_Z, ?sound_JInt, ?Hx; done.
Qed.

(** Whatever the texts of a subscription hold (quotes, backslashes, control characters),
    its rendering is one JSON value, which a reader of RFC 8259 reads as the members of
    the subscription: nothing of a text is taken for structure. *)
Theorem Subscription_toJson_reads s : read_json (Subscription_toJson isodate2str s) = Some (subscription_tree s).
Proof.
  rewrite <- (read_json_text _ (subscription_sound s)). f_equal. unfold Subscription_toJson. change JsonHelper_new with (built []).
  rewrite add_text, add_text_if, (add_member_if _ _ _ _ _ (add_date _ _)), add_text.
  rewrite Subject_text, Notification_text, !add_member, (add_member_if _ _ _ _ _ (add_number _ _)), built_str.
  unfold subscription_tree. cbn [app]. rewrite <- !app_assoc. by destruct (sub_expires s =? _).
Qed.

End Rendered.

(** ** Errors of version 2 *)

Record OrionError := mkOrionError { oe_code : Z; oe_reasonPhrase : string; oe_details : string }.

Definition OrionError_new (code : Z) (details reasonPhrase : string) : OrionError :=
  mkOrionError code (if reasonPhrase =s "" then httpStatusCodeString code else reasonPhrase) details.

Definition errorStringForV2 (reasonPhrase : string) : string :=
  if reasonPhrase =s "Bad Request" then "BadRequest"
  else if reasonPhrase =s "Length Required" then "LengthRequired"
  else if reasonPhrase =s "Request Entity Too Large" then "RequestEntityTooLarge"
  else if reasonPhrase =s "Unsupported Media Type" then "UnsupportedMediaType"
  else if reasonPhrase =s "Invalid Modification" then "InvalidModification"
  else if reasonPhrase =s "Too Many Results" then "TooManyResults"
  else if reasonPhrase =s "No context element found" then "NotFound"
  else reasonPhrase.

(** OrionError::render for version 2, with the status code of the connection it leaves. *)
Definition OrionError_render (oe : OrionError) (httpStatusCode : Z) : string * Z :=
  let details := if oe_details oe =s "Already Exists" then "Entity already exists" else oe_details oe in
  ("{" +:+ quote "error" +:+ ":" +:+ quote (errorStringForV2 (oe_reasonPhrase oe)) +:+ "," +:+ quote "description" +:+ ":"
       +:+ quote details +:+ "}",
   if (httpStatusCode =? SccOk) || (httpStatusCode =? SccNone) then SccBadRequest else httpStatusCode).

(** ** Reading *)

(** The result of a reader: the details of a Bad Request, or what it reads. *)
Definition try_read {A B} (m : cpp (string + A)) (f : A -> cpp (string + B)) : cpp (string + B) :=
  r ← m; match r with inl e => Ret (inl e) | inr a => f a end.
Notation "x <- m 'or_error' k" := (try_read m (fun x => k)) (at level 100, m at next level, k at level 200, right associativity).

Fixpoint find_member (name : string) (o : list (string * json)) : option json :=
  match o with
  | [] => None
  | (k, j) :: o' => if k =s name then Some j else find_member name o'
  end.

(** A member that must be a string if it is there. *)
Definition string_member (name err : string) (o : list (string * json)) : string + option string :=
  match find_member name o with
  | None => inr None
  | Some (JString s) => inr (Some (c_str s))
  | Some _ => inl err
  end.

(** parseAttributeList *)
Fixpoint attribute_strings (l : list json) (vec : list string) : string + list string :=
  match l with
  | [] => inr vec
  | JString s :: l' => attribute_strings l' (vec ++ [c_str s])
  | _ :: _ => inl "attrs element is not an string"
  end.

Definition parseAttributeList (j : json) (vec : list string) : string + list string :=
  match j with JArray l => attribute_strings l vec | _ => inl "attrs is not an array" end.

(** EntityIdVector::push_back_if_absent *)
Definition plain_pattern (isPattern : string) : string := if isPattern =s "" then "false" else isPattern.
Definition same_id (e e' : EntityId) : bool :=
  (eid_id e' =s eid_id e) && (eid_type e' =s eid_type e)
  && (plain_pattern (eid_isPattern e') =s plain_pattern (eid_isPattern e)).
Definition push_back_if_absent (e : EntityId) (vec : list EntityId) : list EntityId :=
  if existsb (same_id e) vec then vec else vec ++ [e].

(** An element of the entities of the subject. *)
Definition subject_element (o : list (string * json)) : string + EntityId :=
  let has name := has_member name o in
  if negb (has "id") && negb (has "idPattern") && negb (has "type") then inl "subject entities element has not id/idPattern"
  else if has "id" && has "idPattern" then inl "subject entities element has id and idPattern"
  else
    match string_member "id" "subject entities element id is not a string" o with
    | inl err => inl err
    | inr id =>
        match string_member "idPattern" "subject entities element idPattern is not a string" o with
        | inl err => inl err
        | inr idPattern =>
            let given := match idPattern with Some p => p | None => default "" id end in
            let '(id, isPattern) :=
              if given =s "" then (".*", "true")
              else (given, match idPattern with Some _ => "true" | None => "false" end) in
            match string_member "type" "subject entities element type is not a string" o with
            | inl err => inl err
            | inr type => inr (mkEntityId id (default "" type) isPattern "")
            end
        end
    end.

Fixpoint subject_elements (l : list json) (eiv : list EntityId) : string + list EntityId :=
  match l with
  | [] => inr eiv
  | JObject o :: l' =>
      match subject_element o with
      | inl err => inl err
      | inr e => subject_elements l' (push_back_if_absent e eiv)
      end
  | _ :: _ => inl "subject entities element is not an object"
  end.

Definition parseEntitiesVector (j : json) (eiv : list EntityId) : string + list EntityId :=
  match j with JArray l => subject_elements l eiv | _ => inl "subject entities is not an array" end.

(** Reference::check, for subscriptions. *)
Definition Reference_check (url : string) : cpp string :=
  if url =s "" then Ret "Empty Reference"
  else u ← parseUrl url; Ret (match u : option Url with None => "Invalid URL" | Some _ => "OK" end).

Definition MAX_DESCRIPTION_LENGTH : nat := 1024.

(** The request as its constructors leave it. *)
Definition SubscribeRequest_new : SubscribeRequest :=
  mkSubscribeRequest [] [] "" "" [] [] (mkThrottling "" (-1)) (-1) (mkExprDoc "" "" "" "") false "" false "" NO_FORMAT.

Definition set_description (d : string) (provided : bool) (r : SubscribeRequest) : SubscribeRequest :=
  mkSubscribeRequest (sr_entityIdVector r) (sr_attributeList r) (sr_reference r) (sr_duration r) (sr_scopes r)
    (sr_notifyConditionVector r) (sr_throttling r) (sr_expires r) (sr_expression r) (sr_expressionSet r) d provided
    (sr_status r) (sr_attrsFormat r).
Definition set_subject (eiv : list EntityId) (ncv : list NotifyCondition) (scopes : list Scope) (x : ExprDoc) (isSet : bool)
    (r : SubscribeRequest) : SubscribeRequest :=
  mkSubscribeRequest eiv (sr_attributeList r) (sr_reference r) (sr_duration r) scopes ncv (sr_throttling r) (sr_expires r) x
    isSet (sr_description r) (sr_descriptionProvided r) (sr_status r) (sr_attrsFormat r).
Definition set_notification (reference : string) (attrs : list string) (r : SubscribeRequest) : SubscribeRequest :=
  mkSubscribeRequest (sr_entityIdVector r) attrs reference (sr_duration r) (sr_scopes r) (sr_notifyConditionVector r)
    (sr_throttling r) (sr_expires r) (sr_expression r) (sr_expressionSet r) (sr_description r) (sr_descriptionProvided r)
    (sr_status r) (sr_attrsFormat r).
Definition set_rest (expires : Z) (status : string) (throttling : Z) (f : RenderFormat) (r : SubscribeRequest)
    : SubscribeRequest :=
  mkSubscribeRequest (sr_entityIdVector r) (sr_attributeList r) (sr_reference r) (sr_duration r) (sr_scopes r)
    (sr_notifyConditionVector r) (mkThrottling (th_string (sr_throttling r)) throttling) expires (sr_expression r)
    (sr_expressionSet r) (sr_description r) (sr_descriptionProvided r) status f.

Section Read.

Context (regcomp : string -> bool) (filter_time : string -> Z) (mem : ValueOut) (memItem : StringFilterItem).
Context (strptime_timegm : string -> string -> option Z).
(** IsInt64 and GetInt64 of rapidjson: it keeps the text of a number apart from its value. *)
Context (GetInt64 : json -> option Z).

(** Scope(SCOPE_TYPE_SIMPLE_QUERY, q) with its filter. *)
Definition query_scope (q : string) (sf : StringFilter) : Scope :=
  mkScope SCOPE_TYPE_SIMPLE_QUERY q "" NoArea (mkGeorel "" no_distance no_distance) (Some sf).

(** The expression of a condition, with the scopes it adds to. *)
Definition parse_expression (o : list (string * json)) (x : ExprDoc) (scopes : list Scope)
    : string + (ExprDoc * list Scope) :=
  match string_member "q" "q is not a string" o with
  | inl err => inl err
  | inr q =>
      match (match q with
             | None => inr scopes
             | Some q => match sf_parse regcomp filter_time mem memItem q with
                         | inl err => inl err
                         | inr sf => inr (scopes ++ [query_scope q sf])
                         end
             end) with
      | inl err => inl err
      | inr scopes =>
          match string_member "geometry" "geometry is not a string" o, string_member "coords" "coords is not a string" o,
                string_member "georel" "georel is not a string" o with
          | inl err, _, _ | inr _, inl err, _ | inr _, inr _, inl err => inl err
          | inr geometry, inr coords, inr georel =>
              inr (mkExprDoc (default (xd_q x) q) (default (xd_geometry x) geometry) (default (xd_coords x) coords)
                     (default (xd_georel x) georel), scopes)
          end
      end
  end.

(** parseNotifyConditionVector, on the entities that are already read. *)
Definition parseNotifyConditionVector (o : list (string * json)) (eiv : list EntityId) (r : SubscribeRequest)
    : string + SubscribeRequest :=
  match find_member "attrs" o with
  | None => inl "no condition attrs specified"
  | Some attrs =>
      match parseAttributeList attrs [] with
      | inl err => inl err
      | inr vec =>
          let ncv := sr_notifyConditionVector r ++ [mkNotifyCondition ON_CHANGE_CONDITION vec] in
          match find_member "expression" o with
          | None => inr (set_subject eiv ncv (sr_scopes r) (sr_expression r) (sr_expressionSet r) r)
          | Some (JObject e) =>
              match parse_expression e (sr_expression r) (sr_scopes r) with
              | inl err => inl err
              | inr (x, scopes) => inr (set_subject eiv ncv scopes x true r)
              end
          | Some _ => inl "expression is not an object"
          end
      end
  end.

Definition parseSubject (j : json) (r : SubscribeRequest) : string + SubscribeRequest :=
  match j with
  | JObject o =>
      match find_member "entities" o with
      | None => inl "no subject entities specified"
      | Some es =>
          match parseEntitiesVector es (sr_entityIdVector r) with
          | inl err => inl err
          | inr eiv =>
              match find_member "condition" o with
              | None => inl "no subject condition specified"
              | Some (JObject c) => parseNotifyConditionVector c eiv r
              | Some _ => inl "condition is not an object"
              end
          end
      end
  | _ => inl "subject is not an object"
  end.

Definition parseNotification (j : json) (r : SubscribeRequest) : cpp (string + SubscribeRequest) :=
  match j with
  | JObject o =>
      match find_member "http" o with
      | None => Ret (inl "http notification is missing")
      | Some (JObject h) =>
          match find_member "url" h with
          | None => Ret (inl "url http notification is missing")
          | Some (JString url) =>
              refError ← Reference_check (c_str url);
              if negb (refError =s "OK") then Ret (inl (refError +:+ " parsing notification url"))
              else
                Ret (match find_member "attrs" o with
                     | None => inr (set_notification (c_str url) (sr_attributeList r) r)
                     | Some attrs =>
                         match parseAttributeList attrs (sr_attributeList r) with
                         | inl err => inl err
                         | inr vec => inr (set_notification (c_str url) vec r)
                         end
                     end)
          | Some _ => Ret (inl "url http notification is not a string")
          end
      | Some _ => Ret (inl "http notitication is not an object")
      end
  | _ => Ret (inl "notitication is not an object")
  end.

(** The members after the notification, each of its own kind. *)
Definition parse_expires (update : bool) (o : list (string * json)) (old : Z) : string + Z :=
  match string_member "expires" "expires is not a string" o with
  | inl err => inl err
  | inr None => inr (if update then old else PERMANENT_SUBS_DATETIME)
  | inr (Some s) =>
      if s =s "" then inr PERMANENT_SUBS_DATETIME
      else let eT := parse8601Time strptime_timegm s in
           if eT =? -1 then inl "expires has an invalid format" else inr eT
  end.

Definition parse_status (o : list (string * json)) (old : string) : string + string :=
  match string_member "status" "status is not a string" o with
  | inl err => inl err
  | inr None => inr old
  | inr (Some s) =>
      if negb (s =s "active") && negb (s =s "inactive")
      then inl "status is not valid (it has to be either active or inactive)" else inr s
  end.

Definition parse_throttling (update : bool) (o : list (string * json)) (old : Z) : string + Z :=
  match find_member "throttling" o with
  | None => inr (if update then old else 0)
  | Some j => match GetInt64 j with None => inl "throttling is not an int" | Some n => inr n end
  end.

Definition parse_attrsFormat (o : list (string * json)) (old : RenderFormat) : string + RenderFormat :=
  match string_member "attrsFormat" "attrsFormat is not a string" o with
  | inl err => inl err
  | inr None => inr (if bool_decide (old = NO_FORMAT) then DEFAULT_RENDER_FORMAT else old)
  | inr (Some s) =>
      let nFormat := stringToRenderFormat s true in
      if bool_decide (nFormat = NO_FORMAT)
      then inl "invalid attrsFormat (accepted values: legacy, normalized, keyValues, values)" else inr nFormat
  end.

Definition parse_rest (update : bool) (o : list (string * json)) (r : SubscribeRequest) : string + SubscribeRequest :=
  match parse_expires update o (sr_expires r) with
  | inl err => inl err
  | inr expires =>
      match parse_status o (sr_status r) with
      | inl err => inl err
      | inr status =>
          match parse_throttling update o (th_seconds (sr_throttling r)) with
          | inl err => inl err
          | inr throttling =>
              match parse_attrsFormat o (sr_attrsFormat r) with
              | inl err => inl err
              | inr f => inr (set_rest expires status throttling f r)
              end
          end
      end
  end.

Definition parse_description (o : list (string * json)) (r : SubscribeRequest) : string + SubscribeRequest :=
  match string_member "description" "description must be a string" o with
  | inl err => inl err
  | inr None => inr (set_description (sr_description r) false r)
  | inr (Some s) =>
      if (MAX_DESCRIPTION_LENGTH <? String.length s)%nat then inl "max description length exceeded"
      else inr (set_description s true r)
  end.

(** parseSubscription on a document: None is a text that is not JSON. *)
Definition parseSubscription_error (payload : option json) (update : bool) (destination : SubscribeRequest)
    : cpp (OrionError + SubscribeRequest) :=
  let bad details := inl (OrionError_new SccBadRequest details "") in
  match payload with
  | None => Ret (inl (OrionError_new SccBadRequest "Errors found in incoming JSON buffer" ERROR_STRING_PARSERROR))
  | Some (JObject []) => Ret (bad "empty payload")
  | Some (JObject o) =>
      r ← (r <- Ret (parse_description o destination) or_error
           r <- (match find_member "subject" o with
                 | Some j => Ret (parseSubject j r)
                 | None => Ret (if update then inr r else inl "no subject for subscription specified")
                 end) or_error
           r <- (match find_member "notification" o with
                 | Some j => parseNotification j r
                 | None => Ret (if update then inr r else inl "no notification for subscription specified")
                 end) or_error
           Ret (parse_rest update o r));
      Ret (match r : string + SubscribeRequest with inl err => bad err | inr r => inr r end)
  | Some _ => Ret (inl (OrionError_new SccBadRequest "Error parsing incoming JSON buffer" ERROR_STRING_PARSERROR))
  end.

(** parseSubscription: the answer and the status code of the connection, or the request. *)
Definition parseSubscription (payload : option json) (update : bool) (destination : SubscribeRequest) (httpStatusCode : Z)
    : cpp ((string * Z) + SubscribeRequest) :=
  r ← parseSubscription_error payload update destination;
  Ret (match r : OrionError + SubscribeRequest with
       | inl oe => inl (OrionError_render oe httpStatusCode)
       | inr req => inr req
       end).

End Read.

(** ** Checking *)

(** EntityId::check and EntityIdVector::check, for subscriptions; AttributeList::check and
    ConditionValueList::check. *)
Definition EntityId_check (e : EntityId) : string :=
  if eid_id e =s "" then "empty entityId:id"
  else if negb (isTrue (eid_isPattern e)) && negb (isFalse (eid_isPattern e)) && negb (eid_isPattern e =s "")
  then "invalid isPattern value for entity: /" +:+ eid_isPattern e +:+ "/"
  else "OK".

Definition EntityIdVector_check (vec : list EntityId) : string :=
  if (length vec =? 0)%nat then "No entities" else check_vector EntityId_check vec.

Definition no_empty (err : string) (vec : list string) : string := if existsb (fun s => s =s "") vec then err else "OK".

Definition NotifyCondition_check (nc : NotifyCondition) : string :=
  if nc_type nc =s "" then "empty type for NotifyCondition"
  else if negb (strcasecmp_eq (c_str (nc_type nc)) ON_CHANGE_CONDITION)
  then "invalid notify condition type: /" +:+ nc_type nc +:+ "/"
  else no_empty "empty condValue name" (nc_condValueList nc).

(** Duration::check and Throttling::check. *)
Definition Duration_check (s : string) : cpp string :=
  if s =s "" then Ret "OK" else n ← parse8601 s; Ret (if n =? -1 then "syntax error in duration string" else "OK").

Definition Throttling_check (th : Throttling) : cpp (string * Throttling) :=
  if th_string th =s "" then Ret ("OK", th)
  else n ← parse8601 (th_string th);
       Ret (if n =? -1 then "syntax error in throttling string" else "OK", mkThrottling (th_string th) n).

(** SubscribeContextRequest::check: "OK" or the first error of its parts (the restriction is
    not checked, since a request of version 2 has no count of restrictions). *)
Definition SubscribeContextRequest_check (r : SubscribeRequest) : cpp string :=
  let first a b := if negb (a =s "OK") then Ret a else b in
  first (EntityIdVector_check (sr_entityIdVector r))
    (first (no_empty "empty attribute name" (sr_attributeList r))
      (ref ← Reference_check (sr_reference r); first ref
        (dur ← Duration_check (sr_duration r); first dur
          (first (check_vector NotifyCondition_check (sr_notifyConditionVector r))
            (th ← Throttling_check (sr_throttling r); Ret th.1))))).

(** ** What a payload describes *)

Definition text_value (v : string) : option json := if v =s "" then None else Some (JString v).

(** An element of the entities: an id or a pattern, and a type. *)
Definition entity_described (j : json) (e : EntID) : Prop := exists o, j = JObject o /\
  find_member "type" o = text_value (Subscriptions.en_type e) /\ clean (Subscriptions.en_type e) /\
  let id := Subscriptions.en_id e in let p := Subscriptions.en_idPattern e in
  clean id /\ clean p /\
  (id <> "" /\ p = "" /\ find_member "id" o = Some (JString id) /\ find_member "idPattern" o = None \/
   id = "" /\ p <> "" /\ find_member "id" o = None /\ find_member "idPattern" o = Some (JString p)).

Definition expression_described (j : option json) (x : ExprDoc) : Prop :=
  match j with
  | None => x = mkExprDoc "" "" "" ""
  | Some (JObject o) =>
      find_member "q" o = text_value (xd_q x) /\ find_member "geometry" o = text_value (xd_geometry x) /\
      find_member "coords" o = text_value (xd_coords x) /\ find_member "georel" o = text_value (xd_georel x) /\
      clean (xd_q x) /\ clean (xd_geometry x) /\ clean (xd_coords x) /\ clean (xd_georel x)
  | Some _ => False
  end.

(** The members of a payload are those of a subscription, in any order. *)
Record described (isodate2str : Z -> string) (GetInt64 : json -> option Z) (o : list (string * json)) (s : Subscription)
    : Prop := mkDescribed {
  described_description : find_member "description" o = text_value (sub_description s) /\ clean (sub_description s);
  described_subject : exists subject es c,
    find_member "subject" o = Some (JObject subject) /\ find_member "entities" subject = Some (JArray es) /\
    Forall2 entity_described es (sub_entities s) /\
    find_member "condition" subject = Some (JObject c) /\
    find_member "attrs" c = Some (JArray (map JString (sub_conditionAttrs s))) /\ Forall clean (sub_conditionAttrs s) /\
    expression_described (find_member "expression" c) (sub_expression s);
  described_notification : exists n h,
    find_member "notification" o = Some (JObject n) /\ find_member "http" n = Some (JObject h) /\
    find_member "url" h = Some (JString (sub_url s)) /\ clean (sub_url s) /\
    find_member "attrs" n = Some (JArray (map JString (sub_attributes s))) /\ Forall clean (sub_attributes s);
  described_expires : find_member "expires" o
    = if sub_expires s =? PERMANENT_SUBS_DATETIME then None else Some (JString (isodate2str (sub_expires s)));
  described_status : find_member "status" o = Some (JString (sub_status s));
  described_throttling : match find_member "throttling" o with
                         | None => sub_throttling s = 0
                         | Some j => GetInt64 j = Some (sub_throttling s)
                         end;
  described_format : find_member "attrsFormat" o = None
}.

Definition requested_id (e : EntID) : EntityId :=
  if Subscriptions.en_idPattern e =s "" then mkEntityId (Subscriptions.en_id e) (Subscriptions.en_type e) "false" ""
  else mkEntityId (Subscriptions.en_idPattern e) (Subscriptions.en_type e) "true" "".

Section Described.

Context (regcomp : string -> bool) (filter_time : string -> Z) (mem : ValueOut) (memItem : StringFilterItem).
Context (strptime_timegm : string -> string -> option Z) (GetInt64 : json -> option Z) (isodate2str : Z -> string).

(** The scope of the filter of an expression; none when it cannot be parsed. *)
Definition filter_scopes (q : string) : option (list Scope) :=
  if q =s "" then Some []
  else match sf_parse regcomp filter_time mem memItem q with inl _ => None | inr sf => Some [query_scope q sf] end.

(** A subscription the broker takes. *)
Record acceptable_subscription (s : Subscription) : Prop := mkAcceptable {
  acc_entities : NoDup (sub_entities s);
  acc_description : (String.length (sub_description s) <= MAX_DESCRIPTION_LENGTH)%nat;
  acc_filter : is_Some (filter_scopes (xd_q (sub_expression s)));
  acc_url : sub_url s <> "" /\ exists u, parseUrl (sub_url s) = Ret (Some u);
  acc_expires : sub_expires s <> -1 /\ clean (isodate2str (sub_expires s)) /\ isodate2str (sub_expires s) <> "" /\
    strptime_timegm (isodate2str (sub_expires s)) " %Y-%m-%dT%T" = Some (sub_expires s);
  acc_status : sub_status s = "active" \/ sub_status s = "inactive"
}.

(** The request for a subscription; whether its payload has an expression. *)
Definition request_of (isSet : bool) (s : Subscription) : SubscribeRequest :=
  mkSubscribeRequest (map requested_id (sub_entities s)) (sub_attributes s) (sub_url s) ""
    (default [] (filter_scopes (xd_q (sub_expression s)))) [mkNotifyCondition ON_CHANGE_CONDITION (sub_conditionAttrs s)]
    (mkThrottling "" (sub_throttling s)) (sub_expires s) (sub_expression s) isSet
    (sub_description s) (negb (sub_description s =s "")) (sub_status s) NGSI_V2_NORMALIZED.

Lemma string_member_text name err o v : find_member name o = text_value v -> clean v ->
  string_member name err o = inr (if v =s "" then None else Some v).
Proof. unfold string_member, text_value, clean. intros -> Hc. destruct (v =s ""); [done|]. by rewrite Hc. Qed.

Lemma has_find name o : has_member name o = match find_member name o with Some _ => true | None => false end.
Proof.
  unfold has_member. induction o as [|[k j] o IH]; [done|]. cbn [existsb find_member fst]. destruct (k =s name); [done|]. exact IH.
Qed.

Lemma subject_element_read j e : entity_described j e -> exists o, j = JObject o /\ subject_element o = inr (requested_id e).
Proof.
  destruct e as [id p type]. intros (o & -> & Ht & Hct & Hci & Hcp & H). cbn [Subscriptions.en_id Subscriptions.en_idPattern Subscriptions.en_type] in *.
  exists o. split; [done|]. unfold subject_element, requested_id. cbn [Subscriptions.en_id Subscriptions.en_idPattern Subscriptions.en_type].
  rewrite !has_find. unfold string_member at 1 2. rewrite (string_member_text _ _ _ _ Ht Hct).
  destruct H as [(Hi & -> & -> & ->)|(-> & Hp & -> & ->)]; cbn [negb andb default].
  - cbn. rewrite Hci. apply str_eqb_neq in Hi. rewrite Hi. cbn. destruct (type =s "") eqn:E; [apply str_eqb_eq in E as ->|]; done.
  - cbn. rewrite Hcp. apply str_eqb_neq in Hp. rewrite Hp. cbn. destruct (type =s "") eqn:E; [apply str_eqb_eq in E as ->|]; done.
Qed.

Lemma requested_id_inj j j' e e' : entity_described j e -> entity_described j' e' -> same_id (requested_id e') (requested_id e) = true -> e = e'.
Proof.
  destruct e as [id p ty], e' as [id' p' ty']. intros (o & _ & _ & _ & _ & _ & H) (o' & _ & _ & _ & _ & _ & H').
  cbn [Subscriptions.en_id Subscriptions.en_idPattern Subscriptions.en_type] in *. unfold same_id, requested_id.
  cbn [Subscriptions.en_id Subscriptions.en_idPattern Subscriptions.en_type].
  destruct H as [(Hi & -> & _)|(-> & Hp%str_eqb_neq & _)], H' as [(Hi' & -> & _)|(-> & Hp'%str_eqb_neq & _)]; rewrite ?Hp, ?Hp'; cbn;
    rewrite ?andb_true_iff; intros [[->%str_eqb_eq ->%str_eqb_eq] Hp1]; done.
Qed.

Lemma elements_requested es l eiv : Forall2 entity_described es l -> NoDup l ->
  Forall (fun e => existsb (same_id (requested_id e)) eiv = false) l ->
  subject_elements es eiv = inr (eiv ++ map requested_id l).
Proof.
  intros H. revert eiv. induction H as [|j e es l Hj H IH]; intros eiv Hn Ha; [by rewrite app_nil_r|].
  destruct (subject_element_read j e Hj) as (o & -> & Ho). cbn [subject_elements]. rewrite Ho.
  apply Forall_cons in Ha as [Ha Hl]. apply NoDup_cons in Hn as [Hne Hn]. unfold push_back_if_absent. rewrite Ha.
  rewrite IH; [cbn [map]; by rewrite <- app_assoc|done|].
  rewrite Forall_forall in Hl |- *. intros e' Hin. rewrite existsb_app, Hl by done. cbn [existsb orb]. rewrite orb_false_r.
  destruct (same_id (requested_id e') (requested_id e)) eqn:E; [|done]. exfalso. apply Hne.
  apply list_elem_of_lookup_1 in Hin as [i Hi]. destruct (Forall2_lookup_r _ _ _ _ _ H Hi) as (j' & _ & Hj').
  rewrite (requested_id_inj _ _ _ _ Hj Hj' E). by eapply list_elem_of_lookup_2.
Qed.

Lemma strings_read l vec : Forall clean l -> attribute_strings (map JString l) vec = inr (vec ++ l).
Proof.
  intros H. revert vec. induction H as [|s l Hs _ IH]; intros vec; [by rewrite app_nil_r|]. cbn [map attribute_strings].
  rewrite IH, Hs, <- app_assoc. done.
Qed.

Lemma expression_read o x : expression_described (Some (JObject o)) x -> is_Some (filter_scopes (xd_q x)) ->
  parse_expression regcomp filter_time mem memItem o (mkExprDoc "" "" "" "") [] = inr (x, default [] (filter_scopes (xd_q x))).
Proof.
  destruct x as [q g c r]. cbn [expression_described xd_q xd_geometry xd_coords xd_georel].
  intros (Hq & Hg & Hc & Hr & Kq & Kg & Kc & Kr) [sc Hs]. unfold parse_expression, filter_scopes in *.
  rewrite (string_member_text _ _ _ _ Hq Kq), (string_member_text _ _ _ _ Hg Kg), (string_member_text _ _ _ _ Hc Kc),
    (string_member_text _ _ _ _ Hr Kr).
  assert (forall v, default "" (if v =s "" then None else Some v) = v) as Hd.
  { intros v. destruct (v =s "") eqn:E; [by apply str_eqb_eq in E as ->|done]. }
  cbn [xd_q xd_geometry xd_coords xd_georel]. rewrite !Hd. destruct (q =s "") eqn:E; [done|].
  destruct (sf_parse _ _ _ _ q) as [err|sf]; [done|]. injection Hs as <-. done.
Qed.

Lemma subject_read j s : (exists subject es c,
    j = JObject subject /\ find_member "entities" subject = Some (JArray es) /\
    Forall2 entity_described es (sub_entities s) /\
    find_member "condition" subject = Some (JObject c) /\
    find_member "attrs" c = Some (JArray (map JString (sub_conditionAttrs s))) /\ Forall clean (sub_conditionAttrs s) /\
    expression_described (find_member "expression" c) (sub_expression s)) ->
  NoDup (sub_entities s) -> is_Some (filter_scopes (xd_q (sub_expression s))) ->
  exists isSet, forall r, sr_entityIdVector r = [] -> sr_notifyConditionVector r = [] -> sr_scopes r = [] ->
    sr_expression r = mkExprDoc "" "" "" "" -> sr_expressionSet r = false ->
    parseSubject regcomp filter_time mem memItem j r
      = inr (set_subject (map requested_id (sub_entities s)) [mkNotifyCondition ON_CHANGE_CONDITION (sub_conditionAttrs s)]
               (default [] (filter_scopes (xd_q (sub_expression s)))) (sub_expression s) isSet r).
Proof.
  intros (o & es & c & -> & He & Hes & Hc & Ha & Hca & Hx) Hn Hf.
  exists (match find_member "expression" c with Some _ => true | None => false end).
  intros r He0 Hn0 Hs0 Hx0 Hset. unfold parseSubject. rewrite He. unfold parseEntitiesVector.
  rewrite He0, (elements_requested es (sub_entities s)); [|done|done|by apply Forall_true].
  rewrite Hc. unfold parseNotifyConditionVector. rewrite Ha. unfold parseAttributeList. rewrite strings_read by done.
  cbn [app]. rewrite Hn0, Hs0, Hx0, Hset. destruct (find_member "expression" c) as [[| | | | |x]|]; try done.
  - by rewrite (expression_read _ (sub_expression s)).
  - cbn in Hx. by rewrite Hx.
Qed.

Lemma notification_read j s : (exists n h, j = JObject n /\ find_member "http" n = Some (JObject h) /\
    find_member "url" h = Some (JString (sub_url s)) /\ clean (sub_url s) /\
    find_member "attrs" n = Some (JArray (map JString (sub_attributes s))) /\ Forall clean (sub_attributes s)) ->
  sub_url s <> "" -> (exists u, parseUrl (sub_url s) = Ret (Some u)) -> forall r, sr_attributeList r = [] ->
  parseNotification j r = Ret (inr (set_notification (sub_url s) (sub_attributes s) r)).
Proof.
  intros (n & h & -> & Hh & Hu & Hc & Ha & Hca) Hne [u Hp] r Hr. unfold parseNotification. rewrite Hh, Hu, Hc.
  unfold Reference_check. apply str_eqb_neq in Hne. rewrite Hne, Hp. cbn [mbind cpp_bind]. rewrite Ha.
  unfold parseAttributeList. rewrite Hr, strings_read by done. done.
Qed.

(** A payload that describes a subscription is read as the request for it. *)
Lemma described_read o s : described isodate2str GetInt64 o s -> acceptable_subscription s -> exists isSet,
  parseSubscription_error regcomp filter_time mem memItem strptime_timegm GetInt64 (Some (JObject o)) false SubscribeRequest_new
    = Ret (inr (request_of isSet s)).
Proof.
  intros [[Hd Hcd] (subject & es & c & Hs & Hsub) (n & h & Hn & Hnot) He Hst Hth Hf] [An Ad Af [Au Ap] (Ae1 & Ae2 & Ae3 & Ae4) Ast].
  destruct (subject_read (JObject subject) s) as [isSet Hsubj]; [by exists subject, es, c|done..|]. exists isSet.
  unfold parseSubscription_error. destruct o as [|kv o]; [done|]. set (o' := kv :: o) in *.
  unfold try_read, parse_description. rewrite (string_member_text _ _ _ _ Hd Hcd). cbn [mbind cpp_bind].
  assert ((match (if sub_description s =s "" then None else Some (sub_description s)) with
    | Some s0 => if (MAX_DESCRIPTION_LENGTH <? String.length s0)%nat then inl "max description length exceeded"
                 else inr (set_description s0 true SubscribeRequest_new)
    | None => inr (set_description (sr_description SubscribeRequest_new) false SubscribeRequest_new)
    end : string + SubscribeRequest)
    = inr (set_description (sub_description s) (negb (sub_description s =s "")) SubscribeRequest_new)) as Hdesc.
  { destruct (sub_description s =s "") eqn:E; [by apply str_eqb_eq in E as ->|].
    assert ((MAX_DESCRIPTION_LENGTH <? String.length (sub_description s))%nat = false) as -> by (by apply Nat.ltb_ge). done. }
  rewrite Hdesc. rewrite Hs, Hsubj by done. cbn [mbind cpp_bind]. rewrite Hn.
  rewrite (notification_read (JObject n) s) by (done || by exists n, h). cbn [mbind cpp_bind].
  assert (forall old, parse_throttling GetInt64 false o' old = inr (sub_throttling s)) as Hthr.
  { intros old. unfold parse_throttling. destruct (find_member "throttling" o') as [j|]; by rewrite Hth. }
  assert (forall old, parse_expires strptime_timegm false o' old = inr (sub_expires s)) as Hexp.
  { intros old. unfold parse_expires, string_member. rewrite He. destruct (sub_expires s =? PERMANENT_SUBS_DATETIME) eqn:Ep.
    - apply Z.eqb_eq in Ep. by rewrite Ep.
    - unfold clean in Ae2. apply str_eqb_neq in Ae3. apply Z.eqb_neq in Ae1. unfold parse8601Time. rewrite Ae2, Ae3, Ae2, Ae4.
      cbn zeta. change (default (-1) (Some (sub_expires s))) with (sub_expires s). by rewrite Ae1. }
  assert (forall old, parse_status o' old = inr (sub_status s)) as Hstat.
  { intros old. unfold parse_status, string_member. rewrite Hst. by destruct Ast as [-> | ->]. }
  unfold parse_rest. rewrite Hexp, Hstat, Hthr. unfold parse_attrsFormat, string_member. by rewrite Hf.
Qed.

Lemma check_ids l : Forall (fun e => exists j, entity_described j e) l -> check_vector EntityId_check (map requested_id l) = "OK".
Proof.
  induction 1 as [|e l [j (o & _ & _ & _ & _ & _ & H)] _ IH]; [done|]. cbn [map check_vector].
  assert (EntityId_check (requested_id e) = "OK") as ->; [|exact IH]. unfold EntityId_check, requested_id.
  destruct H as [(Hi & -> & _)|(-> & Hp & _)].
  - cbn [eid_id String.eqb]. apply str_eqb_neq in Hi. by rewrite Hi.
  - pose proof Hp as Hp'. apply str_eqb_neq in Hp'. rewrite Hp'. cbn [eid_id]. by rewrite Hp'.
Qed.

(** The request is one that check takes. *)
Lemma request_checked isSet s : Forall (fun e => exists j, entity_described j e) (sub_entities s) -> sub_entities s <> [] ->
  sub_url s <> "" -> (exists u, parseUrl (sub_url s) = Ret (Some u)) ->
  Forall (fun a => a <> "") (sub_attributes s) -> Forall (fun a => a <> "") (sub_conditionAttrs s) ->
  SubscribeContextRequest_check (request_of isSet s) = Ret "OK".
Proof.
  intros He Hne Hu [u Hp] Ha Hc. assert (forall err l, Forall (fun a : string => a <> "") l -> no_empty err l = "OK") as Hno.
  { intros err l Hl. unfold no_empty. destruct (existsb _ l) eqn:E; [|done]. apply existsb_exists in E as (a & Hin & ->%str_eqb_eq).
    rewrite Forall_forall in Hl. by destruct (Hl "" (proj2 (list_elem_of_In _ _) Hin)). }
  unfold SubscribeContextRequest_check, request_of, EntityIdVector_check. cbn [sr_entityIdVector sr_attributeList sr_reference
    sr_duration sr_notifyConditionVector sr_throttling]. rewrite length_map.
  destruct (sub_entities s) as [|e l] eqn:E; [done|]. rewrite <- E in *. cbn [length Nat.eqb]. rewrite E. cbn [length Nat.eqb]. rewrite <- E.
  rewrite (check_ids _ He), (Hno _ _ Ha). unfold Reference_check. apply str_eqb_neq in Hu. rewrite Hu, Hp.
  cbn [mbind cpp_bind negb String.eqb]. unfold Duration_check. cbn -[no_empty]. by rewrite (Hno _ _ Hc).
Qed.

End Described.

(** ** The routines of the service *)

(** idCheck *)
Definition idCheck (s : string) : string :=
  if negb (String.length s =? 24)%nat then "bad length - 24 chars expected"
  else if str_all (fun c => in_range "0" "9" c || in_range "a" "f" c || in_range "A" "F" c) (c_str s) then "OK"
  else "invalid char in ID string".

(** A reply: its text, or the status that SubscribeContextResponse renders, the status code
    and the headers. *)
Record Reply := mkReply { re_answer : StatusCode + string; re_code : Z; re_headers : list (string * string) }.

Definition SccCreated : Z := 201.
Definition SccNoContent : Z := 204.

Section Service.

Context (mem : Metadata) (memDate : double) (memOut : ValueOut) (memItem : StringFilterItem).
Context (regcomp : string -> bool) (fromjson : string -> cpp doc) (capable : bool).
Context (collectionRangedQuery : doc -> option doc -> Z -> Z -> string + (Z * list fetched)).
Context (getCurrentTime : nat -> Z) (OID : string -> option string).
Context (insert_error find_error update_error remove_error : option string).
Context (filter_time : string -> Z) (strptime_timegm : string -> string -> option Z) (GetInt64 : json -> option Z).
Context (isodate2str : Z -> string).

(** postSubscriptions, [oid] being the id the driver makes. *)
Definition postSubscriptions (st : SubState) (req : SubscribeRequest) (oid tenant xauthToken : string)
    (servicePathV : list string) (correlator : string) : cpp (Reply * SubState) :=
  if (1 <? length servicePathV)%nat
  then Ret (mkReply (inl (mkStatusCode SccBadRequest "max one service-path allowed for subscriptions")) SccOk [], st)
  else
    let f := if bool_decide (sr_attrsFormat req = NO_FORMAT) then NGSI_V2_NORMALIZED else sr_attrsFormat req in
    '(scr, st) ← mongoSubscribeContext mem memDate regcomp fromjson capable collectionRangedQuery getCurrentTime insert_error
                   st (set_rest (sr_expires req) (sr_status req) (th_seconds (sr_throttling req)) f req) oid tenant xauthToken
                   servicePathV correlator;
    Ret (if negb (sc_code (rs_error scr) =? SccNone) then mkReply (inl (rs_error scr)) SccOk []
         else mkReply (inr "") SccCreated [("Location", "/v2/subscriptions/" +:+ rs_subscriptionId scr)], st).

(** POST /v2/subscriptions from the payload, as jsonRequestTreat and the routine go on. *)
Definition post_subscription (st : SubState) (payload : option json) (oid tenant xauthToken : string)
    (servicePathV : list string) (correlator : string) : cpp (Reply * SubState) :=
  r ← parseSubscription regcomp filter_time memOut memItem strptime_timegm GetInt64 payload false SubscribeRequest_new SccOk;
  match r : (string * Z) + SubscribeRequest with
  | inl (answer, code) => Ret (mkReply (inr answer) code [], st)
  | inr req =>
      res ← SubscribeContextRequest_check req;
      if negb (res =s "OK")
      then Ret (mkReply (inl (mkStatusCode SccBadRequest ("invalid payload: " +:+ res))) SccOk [], st)
      else postSubscriptions st req oid tenant xauthToken servicePathV correlator
  end.

(** The answer of an error, with the status code of the connection. *)
Definition error_reply (oe : OrionError) (code : Z) : Reply :=
  let '(answer, code) := OrionError_render oe code in mkReply (inr answer) code [].

(** getSubscription *)
Definition getSubscription (now : nat -> Z) (fuel : nat) (st : SubState) (idSub tenant : string) : cpp Reply :=
  let err := idCheck idSub in
  if negb (err =s "OK") then Ret (error_reply (OrionError_new SccBadRequest err "") SccOk)
  else
    r ← mongoGetSubscription now OID find_error fuel st idSub tenant;
    Ret (match r : StatusCode * option Subscription with
         | (sc, Some sub) => if sc_code sc =? SccOk then mkReply (inr (Subscription_toJson isodate2str sub)) SccOk []
                             else error_reply (OrionError_new (sc_code sc) (sc_details sc) "") SccOk
         | (sc, None) => error_reply (OrionError_new (sc_code sc) (sc_details sc) "") SccOk
         end).

(** patchSubscription, on the request that was read. *)
Definition patchSubscription (fuel : nat) (st : SubState) (req : SubscribeRequest) (subscriptionId tenant xauthToken : string)
    (servicePathV : list string) (correlator version : string) : cpp (Reply * SubState) :=
  '(ucsr, st) ← mongoUpdateContextSubscription mem memDate regcomp fromjson capable collectionRangedQuery getCurrentTime OID
                  find_error update_error fuel st req subscriptionId tenant xauthToken servicePathV correlator version;
  let sc := rs_error ucsr in
  Ret (if sc_code sc =? SccNone then mkReply (inr "") SccNoContent []
       else error_reply (mkOrionError (sc_code sc) (httpStatusCodeString (sc_code sc))
                           (if sc_code sc =? SccContextElementNotFound
                            then "The requested subscription has not been found. Check id" else "")) (sc_code sc), st).

(** deleteSubscription *)
Definition deleteSubscription (fuel : nat) (st : SubState) (subscriptionId tenant : string) : cpp (Reply * SubState) :=
  '(sc, st) ← mongoUnsubscribeContext OID find_error remove_error fuel st subscriptionId tenant;
  Ret (if sc_code sc =? SccOk then mkReply (inr "") SccNoContent []
       else error_reply (mkOrionError (sc_code sc) (httpStatusCodeString (sc_code sc))
                           (if sc_code sc =? SccContextElementNotFound
                            then "The requested subscription has not been found. Check id" else sc_details sc)) (sc_code sc), st).

End Service.

(** ** What is posted is what is shown *)

Section EndToEnd.

Context (mem : Metadata) (memDate : double) (memOut : ValueOut) (memItem : StringFilterItem).
Context (regcomp : string -> bool) (fromjson : string -> cpp doc) (capable : bool).
Context (collectionRangedQuery : doc -> option doc -> Z -> Z -> string + (Z * list fetched)).
Context (getCurrentTime : nat -> Z) (OID : string -> option string).
Context (filter_time : string -> Z) (strptime_timegm : string -> string -> option Z) (GetInt64 : json -> option Z).
Context (isodate2str : Z -> string).

Lemma subscribe_response st req oid tenant xauth spV corr resp st' :
  mongoSubscribeContext mem memDate regcomp fromjson capable collectionRangedQuery getCurrentTime None st req oid tenant xauth
    spV corr = Ret (resp, st') -> sc_code (rs_error resp) = SccNone /\ rs_subscriptionId resp = oid.
Proof.
  unfold mongoSubscribeContext. destruct (vec_at _ _) as [sp| |]; try done. cbn [mbind cpp_bind].
  destruct (new_expiration _ _) as [[[expiration duration] ticks]| |]; try done. cbn [mbind cpp_bind].
  destruct (new_throttling _) as [[[throttling field] th]| |]; try done. cbn [mbind cpp_bind].
  destruct (processConditionVector _ _ _ _ _ _ _ _ _ _ _ _ _ _ _ _ _ _) as [[conds sent]| |]; try done. cbn [mbind cpp_bind].
  destruct (subCacheItemInsert_new _ _ _) as [c| |]; try done. cbn [mbind cpp_bind]. by intros [= <- _].
Qed.

Lemma described_entities es l : Forall2 entity_described es l ->
  Forall (fun e => exists j, entity_described j e) l /\ requested_entity <$> map requested_id l = l.
Proof.
  induction 1 as [|j e es l Hj _ [IH1 IH2]]; [done|]. split; [constructor; [by exists j|done]|].
  cbn [map fmap list_fmap]. f_equal; [|exact IH2]. destruct e as [id p ty], Hj as (o & _ & _ & _ & _ & _ & H).
  cbn [Subscriptions.en_id Subscriptions.en_idPattern Subscriptions.en_type] in H.
  destruct H as [(Hi & -> & _)|(-> & Hp%str_eqb_neq & _)]; unfold requested_id, requested_entity; cbn; [done|by rewrite Hp].
Qed.

(** C22. What a client posts is what it is shown: a payload whose members are those of an
    acceptable subscription, in any order, is created (201, with its location), and asking
    for it answers one JSON value with the same description, entities, condition,
    expression, URL, attributes, throttling and expiration, and with the status that was
    posted until it expires. *)
Theorem subscription_posted_shown fuel now st ls o s oid tenant xauth sp corr reply st' :
  described isodate2str GetInt64 o s -> acceptable_subscription regcomp filter_time memOut memItem strptime_timegm isodate2str s ->
  sub_entities s <> [] -> Forall (fun a => a <> "") (sub_attributes s) -> Forall (fun a => a <> "") (sub_conditionAttrs s) ->
  0 < sub_expires s -> sub_throttling s <> -1 ->
  cache_repr (st_cache st) ls -> with_ids ls -> (length ls < fuel)%nat ->
  Forall (fun x => lookup_key (Some (c_str tenant)) oid x.2 = false) ls ->
  idCheck oid = "OK" -> free_of NUL oid = true -> OID oid = Some oid ->
  post_subscription mem memDate memOut memItem regcomp fromjson capable collectionRangedQuery getCurrentTime None filter_time
    strptime_timegm GetInt64 st (Some (JObject o)) oid tenant xauth [sp] corr = Ret (reply, st') ->
  reply = mkReply (inr "") SccCreated [("Location", "/v2/subscriptions/" +:+ oid)] /\
  exists status lastNotification timesSent text,
    getSubscription OID None isodate2str now fuel st' oid tenant = Ret (mkReply (inr text) SccOk []) /\
    read_json text = Some (subscription_tree isodate2str
      (mkSubscription oid (sub_description s) (sub_entities s) (sub_conditionAttrs s) (sub_expression s) (sub_expires s)
         status (sub_attributes s) (sub_url s) (sub_throttling s) lastNotification timesSent)) /\
    (now 0%nat < sub_expires s -> status = sub_status s).
Proof.
  intros Hd Ha Hne Hat Hct Hex Hth Hr Hids Hf Hn Hic Hnul Hoid. pose proof Ha as [_ _ _ [Hu Hpu] _ Hst].
  pose proof (described_subject _ _ _ _ Hd) as (subject & es & c & _ & _ & Hes & _). apply described_entities in Hes as [Hee Hre].
  destruct (described_read _ _ _ _ _ _ _ o s Hd Ha) as [isSet Hread].
  unfold post_subscription, parseSubscription. rewrite Hread. cbn [mbind cpp_bind].
  rewrite (request_checked _ _ _ _ isSet s Hee Hne Hu Hpu Hat Hct). cbn [mbind cpp_bind].
  change (negb ("OK" =s "OK")) with false. cbv iota. unfold postSubscriptions. cbn [length Nat.ltb Nat.leb].
  set (req := set_rest _ _ _ _ _). assert (req = request_of regcomp filter_time memOut memItem isSet s) as -> by done.
  set (req := request_of _ _ _ _ _ _).
  destruct (mongoSubscribeContext _ _ _ _ _ _ _ _ _ _ _ _ _ _ _) as [[resp st1]| |] eqn:E; try done.
  cbn [mbind cpp_bind]. destruct (subscribe_response _ _ _ _ _ _ _ _ _ E) as [-> ->]. intros [= <- <-]. split; [done|].
  assert (onchange_only (sr_notifyConditionVector req)) as Hon by (by repeat constructor).
  destruct (mongoSubscribeContext_get _ _ _ _ _ _ _ fuel _ ls req oid tenant xauth [sp] corr resp st1 OID now Hr Hids Hf Hn Hon Hnul Hoid E)
    as (expiration & throttling & field & sent & lastN & (d & k & He) & (th & Ht) & _ & _ & Hg).
  assert (expiration = sub_expires s) as ->.
  { unfold new_expiration in He. cbn [req request_of sr_expires] in He. apply Z.ltb_lt in Hex. rewrite Hex in He. by injection He as <-. }
  assert (field = Some (sub_throttling s)) as ->.
  { unfold new_throttling in Ht. cbn [req request_of sr_throttling th_seconds] in Ht. apply Z.eqb_neq in Hth. rewrite Hth in Ht.
    by injection Ht as _ <- _. }
  do 4 eexists. unfold getSubscription. rewrite Hic. change (negb ("OK" =s "OK")) with false. cbv iota. rewrite Hg. cbn [mbind cpp_bind].
  split; [done|]. split; [rewrite Subscription_toJson_reads; do 2 f_equal|].
  - cbn [req request_of sr_entityIdVector sr_notifyConditionVector sr_description sr_expression sr_attributeList sr_reference].
    rewrite Hre. cbn [fmap list_fmap concat nc_condValueList]. rewrite app_nil_r. reflexivity.
  - intros Hlt. apply Z.ltb_lt in Hlt. rewrite Hlt. cbn [orb req request_of sr_status]. by destruct Hst as [-> | ->].
Qed.

End EndToEnd.

(** ** What is accepted *)

Section Accepted.

Context (regcomp : string -> bool) (filter_time : string -> Z) (memOut : ValueOut) (memItem : StringFilterItem).
Context (strptime_timegm : string -> string -> option Z) (GetInt64 : json -> option Z).

(** The scopes are the filter of the expression, if it has one. *)
Definition filter_ok (x : ExprDoc) (scopes : list Scope) : Prop :=
  scopes = [] /\ xd_q x = "" \/
  exists sf, sf_parse regcomp filter_time memOut memItem (xd_q x) = inr sf /\ scopes = [query_scope (xd_q x) sf].

(** A request that creates a subscription. *)
Record request_ok (req : SubscribeRequest) : Prop := mkRequestOk {
  ok_entities : sr_entityIdVector req <> [] /\ NoDup (sr_entityIdVector req) /\
    Forall (fun e => eid_id e <> "" /\ (eid_isPattern e = "true" \/ eid_isPattern e = "false")) (sr_entityIdVector req);
  ok_conditions : exists attrs, sr_notifyConditionVector req = [mkNotifyCondition ON_CHANGE_CONDITION attrs] /\
    Forall (fun a => a <> "") attrs;
  ok_reference : exists u, parseUrl (sr_reference req) = Ret (Some u);
  ok_attributes : Forall (fun a => a <> "") (sr_attributeList req);
  ok_filter : filter_ok (sr_expression req) (sr_scopes req);
  ok_status : sr_status req = "" \/ sr_status req = "active" \/ sr_status req = "inactive";
  ok_description : (String.length (sr_description req) <= MAX_DESCRIPTION_LENGTH)%nat;
  ok_format : sr_attrsFormat req <> NO_FORMAT;
  ok_texts : sr_duration req = "" /\ th_string (sr_throttling req) = ""
}.

Lemma push_absent_nodup e vec : NoDup vec -> NoDup (push_back_if_absent e vec).
Proof.
  intros H. unfold push_back_if_absent. destruct (existsb (same_id e) vec) eqn:E; [done|].
  apply NoDup_app. split; [done|]. split; [|apply NoDup_singleton]. intros x Hx ->%list_elem_of_singleton.
  assert (existsb (same_id e) vec = true); [|congruence]. apply existsb_exists. exists e. split; [by apply list_elem_of_In|].
  unfold same_id. by rewrite !str_eqb_refl.
Qed.

Definition entity_ok (e : EntityId) : Prop := eid_id e <> "" /\ (eid_isPattern e = "true" \/ eid_isPattern e = "false").

Lemma subject_element_ok o e : subject_element o = inr e -> entity_ok e.
Proof.
  unfold subject_element. destruct (_ && _ && _); [done|]. destruct (_ && _); [done|].
  destruct (string_member "id" _ o) as [err|id]; [done|]. destruct (string_member "idPattern" _ o) as [err|p]; [done|].
  set (given := match p with Some p => p | None => _ end). clearbody given.
  destruct (given =s "") eqn:E; destruct (string_member "type" _ o) as [err|ty]; try done; intros [= <-].
  - split; [done|by left].
  - apply str_eqb_neq in E. split; [done|]. destruct p; [by left|by right].
Qed.

Lemma subject_elements_ok l eiv eiv' : subject_elements l eiv = inr eiv' -> NoDup eiv -> Forall entity_ok eiv ->
  NoDup eiv' /\ Forall entity_ok eiv'.
Proof.
  revert eiv. induction l as [|j l IH]; intros eiv; [by intros [= <-]|]. destruct j as [| | | | |o]; try done. cbn [subject_elements].
  destruct (subject_element o) as [err|e] eqn:E; [done|]. intros H Hn Hf. apply (IH _ H); [by apply push_absent_nodup|].
  unfold push_back_if_absent. destruct (existsb _ _); [done|]. apply Forall_app. split; [done|].
  constructor; [by eapply subject_element_ok|done].
Qed.

Lemma expression_ok o x scopes : parse_expression regcomp filter_time memOut memItem o (mkExprDoc "" "" "" "") [] = inr (x, scopes) ->
  filter_ok x scopes.
Proof.
  unfold parse_expression. destruct (string_member "q" _ o) as [err|[q|]]; [done| |].
  - destruct (sf_parse _ _ _ _ q) as [err|sf] eqn:E; [done|].
    destruct (string_member "geometry" _ o) as [err|g]; [done|]. destruct (string_member "coords" _ o) as [err|c]; [done|].
    destruct (string_member "georel" _ o) as [err|r]; [done|].
    intros [= <- <-]. right. by exists sf.
  - destruct (string_member "geometry" _ o) as [err|g]; [done|]. destruct (string_member "coords" _ o) as [err|c]; [done|].
    destruct (string_member "georel" _ o) as [err|r]; [done|].
    intros [= <- <-]. by left.
Qed.

(** What the subject adds to a request. *)
Lemma subject_ok j r r' : parseSubject regcomp filter_time memOut memItem j r = inr r' ->
  sr_entityIdVector r = [] -> sr_notifyConditionVector r = [] -> sr_scopes r = [] -> sr_expression r = mkExprDoc "" "" "" "" ->
  exists eiv attrs x scopes isSet, r' = set_subject eiv [mkNotifyCondition ON_CHANGE_CONDITION attrs] scopes x isSet r /\
    NoDup eiv /\ Forall entity_ok eiv /\ filter_ok x scopes.
Proof.
  intros H He Hn Hs Hx. destruct j as [| | | | |o]; try done. revert H. unfold parseSubject.
  destruct (find_member "entities" o) as [es|]; [|done]. unfold parseEntitiesVector. destruct es as [| | | |l|]; try done.
  rewrite He. destruct (subject_elements l []) as [err|eiv] eqn:E; [done|].
  destruct (subject_elements_ok _ _ _ E) as [Hnd Hok]; [apply NoDup_nil_2|done|].
  destruct (find_member "condition" o) as [[| | | | |c]|]; try done. unfold parseNotifyConditionVector.
  destruct (find_member "attrs" c) as [attrs|]; [|done]. destruct (parseAttributeList attrs []) as [err|vec]; [done|].
  rewrite Hn, Hs, Hx. destruct (find_member "expression" c) as [[| | | | |x]|]; try done.
  - destruct (parse_expression _ _ _ _ x _ _) as [err|[x' sc]] eqn:Ex; [done|]. intros [= <-].
    exists eiv, vec, x', sc, true. split_and!; try done. by eapply expression_ok.
  - intros [= <-]. exists eiv, vec, (mkExprDoc "" "" "" ""), [], (sr_expressionSet r). split_and!; try done. by left.
Qed.

Lemma notification_ok j r r' : parseNotification j r = Ret (inr r') ->
  exists url attrs u, r' = set_notification url attrs r /\ parseUrl url = Ret (Some u).
Proof.
  destruct j as [| | | | |o]; try done. unfold parseNotification.
  destruct (find_member "http" o) as [[| | | | |h]|]; try done. destruct (find_member "url" h) as [[| | |url| |]|]; try done.
  unfold Reference_check. destruct (c_str url =s ""); [done|]. destruct (parseUrl (c_str url)) as [[u|]| |] eqn:E; try done.
  cbn [mbind cpp_bind]. change (negb ("OK" =s "OK")) with false. cbv iota.
  destruct (find_member "attrs" o) as [attrs|].
  - destruct (parseAttributeList attrs _) as [err|vec]; [done|]. intros [= <-]. by exists (c_str url), vec, u.
  - intros [= <-]. by exists (c_str url), (sr_attributeList r), u.
Qed.

Lemma rest_ok update o r r' : parse_rest strptime_timegm GetInt64 update o r = inr r' -> sr_status r = "" ->
  exists e status t f, r' = set_rest e status t f r /\ f <> NO_FORMAT /\ (status = "" \/ status = "active" \/ status = "inactive").
Proof.
  unfold parse_rest. intros H Hs. revert H. destruct (parse_expires _ _ _ _) as [err|e]; [done|].
  destruct (parse_status o _) as [err|status] eqn:Est; [done|]. destruct (parse_throttling _ _ _ _) as [err|t]; [done|].
  destruct (parse_attrsFormat o _) as [err|f] eqn:Ef; [done|]. intros [= <-]. exists e, status, t, f. split; [done|]. split.
  - revert Ef. unfold parse_attrsFormat. destruct (string_member _ _ o) as [err|[v|]]; [done| |].
    + destruct (bool_decide _) eqn:Eb; [done|]. intros [= <-]. by apply bool_decide_eq_false in Eb.
    + destruct (bool_decide _) eqn:Eb; intros [= <-]; [done|by apply bool_decide_eq_false in Eb].
  - revert Est. unfold parse_status. destruct (string_member _ _ o) as [err|[v|]]; [done| |].
    + destruct (v =s "active") eqn:E1; [apply str_eqb_eq in E1 as ->; intros [= <-]; auto|].
      destruct (v =s "inactive") eqn:E2; [apply str_eqb_eq in E2 as ->; intros [= <-]; auto|done].
    + intros [= <-]. by left.
Qed.

Lemma no_empty_ok err vec : err <> "OK" -> no_empty err vec = "OK" -> Forall (fun a => a <> "") vec.
Proof.
  intros He. unfold no_empty. destruct (existsb _ vec) eqn:E; [congruence|]. intros _. apply Forall_forall. intros a Hin ->.
  assert (existsb (fun s => s =s "") vec = true); [|congruence]. apply existsb_exists. exists "". by rewrite <- list_elem_of_In.
Qed.

Lemma check_ok req : SubscribeContextRequest_check req = Ret "OK" ->
  sr_entityIdVector req <> [] /\ Forall (fun a => a <> "") (sr_attributeList req) /\
  Forall (fun nc => Forall (fun a => a <> "") (nc_condValueList nc)) (sr_notifyConditionVector req).
Proof.
  unfold SubscribeContextRequest_check. destruct (EntityIdVector_check _ =s "OK") eqn:E1; cbn [negb].
  2:{ intros [= H]. rewrite H in E1. done. }
  destruct (no_empty "empty attribute name" _ =s "OK") eqn:E2; cbn [negb]; [|intros [= H]; by rewrite H in E2].
  destruct (Reference_check _) as [ref| |]; try done. cbn [mbind cpp_bind]. destruct (ref =s "OK") eqn:E3; cbn [negb]; [|intros [= H]; by rewrite H in E3].
  destruct (Duration_check _) as [dur| |]; try done. cbn [mbind cpp_bind]. destruct (dur =s "OK") eqn:E4; cbn [negb]; [|intros [= H]; by rewrite H in E4].
  destruct (check_vector NotifyCondition_check _ =s "OK") eqn:E5; cbn [negb]; [|intros [= H]; by rewrite H in E5].
  intros _. split; [|split].
  - intros H. by rewrite H in E1.
  - apply str_eqb_eq in E2. by apply no_empty_ok in E2.
  - apply str_eqb_eq in E5. induction (sr_notifyConditionVector req) as [|nc l IH]; [done|]. cbn [check_vector] in E5.
    destruct (NotifyCondition_check nc =s "OK") eqn:En; cbn [negb] in E5; [|by rewrite E5 in En].
    constructor; [|by apply IH]. apply str_eqb_eq in En. revert En. unfold NotifyCondition_check.
    destruct (nc_type nc =s ""); [done|]. destruct (negb _); [done|]. by apply no_empty_ok.
Qed.

(** Whatever payload is read and passes the checks, the request is fit for the database:
    its entities are named and different, it has one condition, on changes, its URL can be
    parsed, its filter is that of its expression, and its status, its description and its
    format are among those the broker knows. *)
Theorem subscription_accepted_ok payload req code :
  parseSubscription regcomp filter_time memOut memItem strptime_timegm GetInt64 payload false SubscribeRequest_new code = Ret (inr req) ->
  SubscribeContextRequest_check req = Ret "OK" -> request_ok req.
Proof.
  intros H Hc. destruct (check_ok req Hc) as (Hne & Hat & Hct). revert H. unfold parseSubscription, parseSubscription_error.
  destruct payload as [[| | | | |[|kv o]]|]; try done. set (o' := kv :: o). clearbody o'. unfold try_read.
  destruct (parse_description o' _) as [err|r1] eqn:E1; [done|]. cbn [mbind cpp_bind].
  assert (exists d p, r1 = set_description d p SubscribeRequest_new /\ (String.length d <= MAX_DESCRIPTION_LENGTH)%nat) as (d & p & -> & Hd).
  { revert E1. unfold parse_description. destruct (string_member _ _ o') as [err|[v|]]; [done| |].
    - destruct (MAX_DESCRIPTION_LENGTH <? String.length v)%nat eqn:El; [done|]. intros [= <-]. exists v, true. split; [done|].
      by apply Nat.ltb_ge.
    - intros [= <-]. exists "", false. split; [done|]. cbn. lia. }
  destruct (find_member "subject" o') as [js|]; [|done]. cbn [mbind cpp_bind].
  destruct (parseSubject _ _ _ _ js _) as [err|r2] eqn:E2; [done|]. cbn [mbind cpp_bind].
  destruct (subject_ok _ _ _ E2) as (eiv & attrs & x & scopes & isSet & -> & Hnd & Hok & Hfi); [done..|].
  destruct (find_member "notification" o') as [jn|]; [|done].
  destruct (parseNotification jn _) as [[err|r3]| |] eqn:E3; try done. cbn [mbind cpp_bind].
  destruct (notification_ok _ _ _ E3) as (url & al & u & -> & Hu).
  destruct (parse_rest _ _ _ o' _) as [err|r4] eqn:E4; [done|]. cbn [mbind cpp_bind].
  destruct (rest_ok _ _ _ _ E4) as (e & status & t & f & -> & Hf & Hs); [done|]. intros [= <-].
  split; cbn in *; try done.
  - exists attrs. split; [done|]. by apply Forall_inv in Hct.
  - by exists u.
Qed.

End Accepted.

(** ** Concrete payloads *)

Definition room_subscription : Subscription :=
  mkSubscription "" ("a " +:+ quote "room" +:+ str1 "010") [mkEntID "Room1" "" "Room"; mkEntID "" "Room.*" ""] ["temp"]
    (mkExprDoc "temp>20" "" "" "") 2000 "active" ["temp"; "hum"] "http://y:1028/notify" 5 0 0.

Definition room_payload : list (string * json) :=
  [("notification", JObject [("attrs", JArray [JString "temp"; JString "hum"]); ("http", JObject [("url", JString "http://y:1028/notify")])]);
   ("throttling", JNumber (double_of_Z 5)); ("status", JString "active"); ("expires", JString "1970-01-01T00:33:20Z");
   ("subject", JObject [("condition", JObject [("expression", JObject [("q", JString "temp>20")]); ("attrs", JArray [JString "temp"])]);
                        ("entities", JArray [JObject [("type", JString "Room"); ("id", JString "Room1")];
                                             JObject [("idPattern", JString "Room.*")]])]);
   ("description", JString ("a " +:+ quote "room" +:+ str1 "010"))].

Definition five (j : json) : option Z := match j with JNumber _ => Some 5 | _ => None end.
Definition date_2000 (_ : Z) : string := "1970-01-01T00:33:20Z".
Definition no_out : ValueOut := mkValueOut SfvtString (double_of_Z 0) "" false.

Lemma room_described : described date_2000 five room_payload room_subscription.
Proof.
  split; try reflexivity.
  - split; reflexivity.
  - do 3 eexists. split; [reflexivity|]. split; [reflexivity|]. split; [|split; [reflexivity|split; [reflexivity|split]]].
    + constructor; [|constructor; [|constructor]]; eexists; (split; [reflexivity|]; split; [reflexivity|]; split; [reflexivity|]);
        cbn; (split; [reflexivity|]; split; [reflexivity|]).
      * left. by repeat split.
      * right. by repeat split.
    + by repeat constructor.
    + cbn. by repeat split.
  - do 2 eexists. split; [reflexivity|]. split; [reflexivity|]. split; [reflexivity|]. split; [reflexivity|]. split; [reflexivity|].
    by repeat constructor.
Qed.

Abbreviation post_room := (post_subscription no_mem S754_nan no_out sample_item (fun _ => true) empty_query true one_room
  (fun _ => 1000) None (fun _ => 0) (fun _ _ => Some 2000) five live_state (Some (JObject room_payload)) other_id "" "" ["/a/b"] "c").

Lemma room_acceptable : acceptable_subscription (fun _ => true) (fun _ => 0) no_out sample_item (fun _ _ => Some 2000) date_2000
  room_subscription.
Proof.
  split.
  - repeat constructor; rewrite ?list_elem_of_singleton, ?elem_of_nil; discriminate || tauto.
  - by vm_compute; lia.
  - eexists. vm_compute. reflexivity.
  - split; [discriminate|]. eexists. vm_compute. reflexivity.
  - repeat split; discriminate || reflexivity.
  - by left.
Qed.

Lemma subscription_posted_shown_witness : exists st' text lastNotification timesSent,
  post_room = Ret (mkReply (inr "") SccCreated [("Location", "/v2/subscriptions/" +:+ other_id)], st') /\
  getSubscription canonical None date_2000 (fun _ => 1500) 2 st' other_id "" = Ret (mkReply (inr text) SccOk []) /\
  read_json text = Some (subscription_tree date_2000
    (mkSubscription other_id (sub_description room_subscription) (sub_entities room_subscription) ["temp"]
       (mkExprDoc "temp>20" "" "" "") 2000 "active" ["temp"; "hum"] "http://y:1028/notify" 5 lastNotification timesSent)).
Proof.
  assert (exists reply st', post_room = Ret (reply, st')) as (reply & st' & H) by (do 2 eexists; vm_compute; reflexivity).
  destruct (subscription_posted_shown no_mem S754_nan no_out sample_item (fun _ => true) empty_query true one_room (fun _ => 1000)
    canonical (fun _ => 0) (fun _ _ => Some 2000) five date_2000 2 (fun _ => 1500) live_state [(1%positive, live_sub)]
    room_payload room_subscription other_id "" "" "/a/b" "c" reply st' room_described room_acceptable
    ltac:(discriminate) ltac:(by repeat constructor) ltac:(by repeat constructor) eq_refl ltac:(discriminate)
    live_repr live_with_ids (le_n 2) ltac:(by repeat constructor) eq_refl eq_refl eq_refl H)
    as (Hrep & status & lastN & timesSent & text & Hg & Ht & Hs).
  exists st', text, lastN, timesSent. rewrite Hrep in H. split; [exact H|]. split; [exact Hg|].
  rewrite Hs in Ht by reflexivity. exact Ht.
Defined.

Lemma subscription_accepted_ok_witness : exists req,
  parseSubscription (fun _ => true) (fun _ => 0) no_out sample_item (fun _ _ => Some 2000) five (Some (JObject room_payload)) false
    SubscribeRequest_new SccOk = Ret (inr req) /\ length (sr_scopes req) = 1%nat /\
  request_ok (fun _ => true) (fun _ => 0) no_out sample_item req.
Proof.
  eexists. assert (parseSubscription (fun _ => true) (fun _ => 0) no_out sample_item (fun _ _ => Some 2000) five
    (Some (JObject room_payload)) false SubscribeRequest_new SccOk = Ret (inr _)) as H by (vm_compute; reflexivity).
  split; [exact H|]. split; [reflexivity|]. eapply subscription_accepted_ok; [exact H|]. vm_compute. reflexivity.
Defined.

(** An empty id subscribes to every entity of the type. *)
Example empty_id_is_any :
  subject_element [("id", JString ""); ("type", JString "Car")] = inr (mkEntityId ".*" "Car" "true" "").
Proof. reflexivity. Qed.

(** An update of the description alone sets the format of the notifications to normalized. *)
Example patch_resets_format :
  (match parseSubscription (fun _ => true) (fun _ => 0) no_out sample_item (fun _ _ => None) five
     (Some (JObject [("description", JString "d")])) true SubscribeRequest_new SccOk with
   | Ret (inr req) => Some (sr_attrsFormat req, sr_expires req, sr_status req, updated_format req (csub_sub live_doc))
   | _ => None
   end) = Some (NGSI_V2_NORMALIZED, -1, "", ("normalized", NGSI_V2_NORMALIZED)).
Proof. vm_compute. reflexivity. Qed.

(** A throttling of 0 in an update leaves the one there is. *)
Example patch_keeps_throttling :
  updated_throttling (mkThrottling "" 0) (csub_sub live_doc) = Ret (sd_throttling (csub_sub live_doc), mkThrottling "" 0).
Proof. reflexivity. Qed.

(** What is shown cannot be posted: it has an id and a pattern for every entity. *)
Example shown_not_postable :
  subject_element [("id", JString "Room1"); ("idPattern", JString ""); ("type", JString "Room")]
    = inl "subject entities element has id and idPattern" /\
  entid_tree (mkEntID "Room1" "" "Room") = JObj [("id", JStr "Room1"); ("idPattern", JStr ""); ("type", JStr "Room")].
Proof. split; reflexivity. Qed.

(** An expiration before 1970, or at its first second, becomes one in 24 hours. *)
Example past_expires_ignored :
  (match parse_expires (fun _ _ => Some 0) false [("expires", JString "1970-01-01T00:00:00Z")] (-1) with
   | inr e => new_expiration (fun _ => 1000) (set_rest e "" 0 NGSI_V2_NORMALIZED SubscribeRequest_new)
   | inl _ => Looping
   end) = Ret (87400, "PT24H", 1%nat).
Proof. vm_compute. reflexivity. Qed.
