(* ===== verification/Rest.v ===== *)
(** * The front end

    rest/rest.cpp: what is made of the URI parameters and headers of a request
    (uriArgumentGet, httpHeaderGet, wantedOutputSupported, servicePathSplit,
    contentTypeCheck, urlCheck, apiVersionGet), how its payload is gathered, and when a reply
    is sent (connectionTreat); uriParamOptionsParse of rest/ConnectionInfo.cpp.
    libmicrohttpd calls these functions.  An error answer is kept as its status code and
    its details; serving the request itself is left aside. *)

From S2P Require Import Prelude Strings Ngsi SubSync Queries EntityUpdate UpdateContext QueryContext.

Open Scope Z_scope.

Definition SccNotAcceptable : Z := 406.
Definition SccLengthRequired : Z := 411.
Definition SccRequestEntityTooLarge : Z := 413.
Definition SccUnsupportedMediaType : Z := 415.

Definition STATIC_BUFFER_SIZE : Z := 32 * 1024.
Definition PAYLOAD_MAX_SIZE : Z := 1 * 1024 * 1024.
Definition SERVICE_PATH_MAX_COMPONENTS : nat := 10.
Definition SERVICE_PATH_MAX_LEVELS : nat := 10.
Definition SERVICE_PATH_MAX_COMPONENT_LEN : nat := 50.
Definition MAX_PAGINATION_LIMIT : string := "1000".

Inductive MimeType := JSON | TEXT | HTML | NOMIMETYPE.
#[export] Instance MimeType_eq_dec : EqDecision MimeType.
Proof. solve_decision. Defined.

Inductive Verb := GET | PUT | POST | DELETE | PATCH | HEAD | OPTIONS | TRACE | CONNECT | NOVERB.
#[export] Instance Verb_eq_dec : EqDecision Verb.
Proof. solve_decision. Defined.

Record HttpHeaders := mkHttpHeaders {
  hh_accept : string;
  hh_contentType : string;
  hh_contentLength : Z;
  hh_tenant : string;
  hh_xauthToken : string;
  hh_correlator : string;
  hh_servicePath : string;
  hh_servicePathReceived : bool
}.
Definition no_headers : HttpHeaders := mkHttpHeaders "" "" 0 "" "" "" "" false.

(** The part of ConnectionInfo that is used here.  The answer is "" for none; an error
    answer is its details. *)
Record ConnectionInfo := mkConnectionInfo {
  url : string;
  verb : Verb;
  apiVersion : string;
  httpHeaders : HttpHeaders;
  uriParam : gmap string string;
  uriParamOptions : gset string;
  uriParamTypes : list string;
  servicePathV : list string;
  httpStatusCode : Z;
  answer : string
}.

Definition set_status (code : Z) (text : string) (ci : ConnectionInfo) : ConnectionInfo :=
  mkConnectionInfo (url ci) (verb ci) (apiVersion ci) (httpHeaders ci) (uriParam ci) (uriParamOptions ci)
    (uriParamTypes ci) (servicePathV ci) code text.
Definition set_uri (p : gmap string string) (o : gset string) (t : list string) (ci : ConnectionInfo) : ConnectionInfo :=
  mkConnectionInfo (url ci) (verb ci) (apiVersion ci) (httpHeaders ci) p o t (servicePathV ci) (httpStatusCode ci) (answer ci).
Definition set_param (key value : string) (ci : ConnectionInfo) : ConnectionInfo :=
  set_uri (<[key := value]> (uriParam ci)) (uriParamOptions ci) (uriParamTypes ci) ci.
Definition set_url (u : string) (ci : ConnectionInfo) : ConnectionInfo :=
  mkConnectionInfo u (verb ci) (apiVersion ci) (httpHeaders ci) (uriParam ci) (uriParamOptions ci) (uriParamTypes ci)
    (servicePathV ci) (httpStatusCode ci) (answer ci).
Definition set_paths (v : list string) (ci : ConnectionInfo) : ConnectionInfo :=
  mkConnectionInfo (url ci) (verb ci) (apiVersion ci) (httpHeaders ci) (uriParam ci) (uriParamOptions ci) (uriParamTypes ci)
    v (httpStatusCode ci) (answer ci).

(** [ciP->answer = error.render(ciP, "")]: version 2 of the API turns a status of 200 in 400. *)
Definition error_render (details : string) (ci : ConnectionInfo) : ConnectionInfo :=
  set_status (if (apiVersion ci =s "v2") && (httpStatusCode ci =? SccOk) then SccBadRequest else httpStatusCode ci)
    details ci.

(** The status code set to 400 before that. *)
Definition bad_request (details : string) (ci : ConnectionInfo) : ConnectionInfo :=
  error_render details (set_status SccBadRequest (answer ci) ci).

(** ** URI parameters *)

Definition validOptions : list string :=
  ["count"; "normalized"; "values"; "keyValues"; "append"; "unique"; DATE_CREATED; DATE_MODIFIED].
Definition isValidOption (item : string) : bool := existsb (fun o => item =s o) validOptions.

(** The options up to the first that is not valid; whether there is such. *)
Fixpoint add_options (items : list string) (o : gset string) : bool * gset string :=
  match items with
  | [] => (true, o)
  | item :: items' => if negb (isValidOption item) then (false, o) else add_options items' ({[item]} ∪ o)
  end.

Definition has_option (x : string) (o : gset string) : bool := bool_decide (x ∈ o).

(** uriParamOptionsParse: whether it succeeds, and the options. *)
Definition uriParamOptionsParse (value : string) (o : gset string) : bool * gset string :=
  let '(ok, o) := add_options (stringSplit value ",").2 o in
  (ok && negb (has_option "keyValues" o && has_option "values" o)
      && negb (has_option "keyValues" o && has_option "unique" o)
      && negb (has_option "unique" o && has_option "values" o), o).

(** uriParamTypesParse *)
Definition uriParamTypesParse (value : string) : list string := (stringSplit value ",").2.

Definition decimal (s : string) : bool := str_all isdigit s.

(** What uriArgumentGet does with some parameters before it stores them: [inl] when it
    returns an error at once. *)
Definition known_param (key value : string) (ci : ConnectionInfo) : string + ConnectionInfo :=
  if key =s "offset" then
    if negb (decimal value) then inl ("Bad pagination offset: /" +:+ value +:+ "/ [must be a decimal number]") else inr ci
  else if key =s "limit" then
    if negb (decimal value) then inl ("Bad pagination limit: /" +:+ value +:+ "/ [must be a decimal number]")
    else if atoi MAX_PAGINATION_LIMIT <? atoi value
    then inl ("Bad pagination limit: /" +:+ value +:+ "/ [max: " +:+ MAX_PAGINATION_LIMIT +:+ "]")
    else if atoi value =? 0
    then inl ("Bad pagination limit: /" +:+ value +:+ "/ [a value of ZERO is unacceptable]")
    else inr ci
  else if key =s "details" then
    if negb (strcasecmp_eq value "on") && negb (strcasecmp_eq value "off")
    then inl ("Bad value for /details/: /" +:+ value +:+ "/ [accepted: /on/, /ON/, /off/, /OFF/. Default is /off/]")
    else inr ci
  else if key =s "attributesFormat" then inr (set_param "attributeFormat" value ci)
  else if key =s "attributeFormat" then inr (set_param "attributesFormat" value ci)
  else if key =s "options" then
    let '(ok, o) := uriParamOptionsParse value (uriParamOptions ci) in
    let ci := set_uri (<["options" := value]> (uriParam ci)) o (uriParamTypes ci) ci in
    inr (if ok then ci else bad_request "Invalid value for URI param /options/" ci)
  else if key =s "type" then
    inr (set_uri (<["type" := value]> (uriParam ci)) (uriParamOptions ci)
           (uriParamTypes ci ++ (if str_contains "," value then uriParamTypesParse value else [value])) ci)
  else inr ci.

(** The check for forbidden characters. *)
Definition forbidden_param (key value : string) : bool :=
  if (key =s "geometry") || (key =s "georel") then forbiddenChars (Some value) (Some "=;")
  else if key =s "coords" then forbiddenChars (Some value) (Some ";")
  else if negb (key =s "q") && negb (key =s "idPattern")
  then forbiddenChars (Some key) None || forbiddenChars (Some value) None
  else false.

(** uriArgumentGet; the value is NULL for a parameter without one.  Both are C strings. *)
Definition uriArgumentGet (key : string) (val : option string) (ci : ConnectionInfo) : ConnectionInfo :=
  match val with
  | None => bad_request ("Empty right-hand-side for URI param /" +:+ key +:+ "/") ci
  | Some value =>
      if value =s "" then bad_request ("Empty right-hand-side for URI param /" +:+ key +:+ "/") ci
      else match known_param key value ci with
      | inl e => bad_request e ci
      | inr ci =>
          let ci := set_param key value ci in
          if forbidden_param key value then bad_request "invalid character in URI parameter" ci else ci
      end
  end.

Definition default_params : gmap string string := <["offset" := "0"]> (<["limit" := "20"]> {["details" := "off"]}).

(** ** Headers *)

(** The content type up to its first ';'. *)
Definition before_semicolon (s : string) : string := match find_str ";" s with Some (l, _) => l | None => s end.

(** httpHeaderGet, for the headers that are used here. *)
Definition httpHeaderGet (h : HttpHeaders) (header : string * string) : HttpHeaders :=
  let '(key, value) := header in
  let named k := strcasecmp_eq key k in
  let '(mkHttpHeaders acc ct cl tenant token corr sp spr) := h in
  let h :=
    if named "Accept" then mkHttpHeaders value ct cl tenant token corr sp spr
    else if named "Content-Type" then mkHttpHeaders acc value cl tenant token corr sp spr
    else if named "Content-Length" then mkHttpHeaders acc ct (atoi value mod 2 ^ 32) tenant token corr sp spr
    else if named "Fiware-Service" then mkHttpHeaders acc ct cl value token corr sp spr
    else if named "X-Auth-Token" then mkHttpHeaders acc ct cl tenant value corr sp spr
    else if named "Fiware-Correlator" then mkHttpHeaders acc ct cl tenant token value sp spr
    else if named "Fiware-Servicepath" then mkHttpHeaders acc ct cl tenant token corr value true
    else h in
  let '(mkHttpHeaders acc ct cl tenant token corr sp spr) := h in
  mkHttpHeaders acc (before_semicolon ct) cl tenant token corr sp spr.

(** The items of an Accept header: stripped; an empty one is kept except at the end. *)
Definition accept_items (acceptList : string) : list string :=
  let items := wsStrip <$> split_on "," (if acceptList =s "" then "*/*" else acceptList) in
  match last items with Some "" => take (length items - 1) items | _ => items end.

(** wantedOutputSupported, the charset apart. *)
Definition wantedOutputSupported (apiVersion acceptList : string) : MimeType :=
  let mimeTypes := before_semicolon <$> accept_items acceptList in
  let json := existsb (fun m => existsb (fun t => m =s t) ["*/*"; "application/*"; "application/json"; "*/json"]) mimeTypes in
  (* the variable text is initialised to true *)
  if apiVersion =s "v2" then if json then JSON else TEXT else if json then JSON else NOMIMETYPE.

(** outMimeTypeCheck: whether it fails; the status code and answer of a failure. *)
Definition outMimeTypeCheck (ci : ConnectionInfo) : bool * ConnectionInfo :=
  let accept := hh_accept (httpHeaders ci) in
  if bool_decide (wantedOutputSupported (apiVersion ci) accept = NOMIMETYPE)
  then (true, set_status SccNotAcceptable
                ("acceptable MIME types: application/json. Accept header in request: " +:+ accept) ci)
  else (false, ci).

Definition contentTypeCheck (ci : ConnectionInfo) : bool * ConnectionInfo :=
  let t := hh_contentType (httpHeaders ci) in
  let unsupported details := (true, set_status SccUnsupportedMediaType details ci) in
  if hh_contentLength (httpHeaders ci) =? 0 then (false, ci)
  else if t =s "" then
    unsupported "Content-Type header not used, default application/octet-stream is not supported"
  else if (apiVersion ci =s "v1") && negb (t =s "application/json") then
    unsupported ("not supported content type: " +:+ t)
  else if (apiVersion ci =s "v2") && negb (t =s "application/json") && negb (t =s "text/plain") then
    unsupported ("not supported content type: " +:+ t)
  else (false, ci).

(** apiVersionGet *)
Definition apiVersionGet (path : string) : string :=
  if (match str_drop 1 path with String c (String d _) => (c =c "v"%char) && (d =c "2"%char) | _ => false end)
     || (path =s "/admin/log") then "v2" else "v1".

(** ** Service paths *)

(** The loop on the components: the error and its code; [last] tells the last one. *)
Fixpoint check_components (compV : list string) : option (Z * string) :=
  match compV with
  | [] => None
  | c :: compV' =>
      if (SERVICE_PATH_MAX_COMPONENT_LEN <? String.length c)%nat
      then Some (3, "component-name too long in ServicePath")
      else if match compV' with [] => c =s "#" | _ => false end then check_components compV'
      else if negb (str_all (fun x => isalnum x || (x =c "_"%char)) c)
      then Some (4, "a component of ServicePath contains an illegal character")
      else check_components compV'
  end.

(** servicePathCheck: None for 0. *)
Definition servicePathCheck (received : bool) (servicePath : string) : option (Z * string) :=
  if negb received then None
  else match servicePath with
  | "" => None
  | String c _ =>
      if negb (c =c "/"%char)
      then Some (1, "Only /absolute/ Service Paths allowed [a service path must begin with /]")
      else let '(components, compV) := stringSplit servicePath "/" in
           if Z.of_nat SERVICE_PATH_MAX_LEVELS <? components then Some (2, "too many components in ServicePath")
           else check_components compV
  end.

(** removeTrailingSlash: the first character is kept.  (It returns the characters of its own
    parameter, which are taken to live until the caller has copied them.) *)
Definition removeTrailingSlash (path : string) : string :=
  match path with
  | "" => ""
  | String c r => String c (str_rstrip (fun c => c =c "/"%char) r)
  end.

Fixpoint first_error {A} (f : A -> option (Z * string)) (l : list A) : option (Z * string) :=
  match l with
  | [] => None
  | x :: l' => match f x with Some e => Some e | None => first_error f l' end
  end.

(** servicePathSplit: the paths left in servicePathV and the error, if any. *)
Definition servicePathSplit (received : bool) (servicePath : string) : list string * option (Z * string) :=
  let '(servicePaths, v) := stringSplit servicePath "," in
  if servicePaths =? 0 then ([""], None)
  else if Z.of_nat SERVICE_PATH_MAX_COMPONENTS <? servicePaths
  then (v, Some (-1, "too many service paths - a maximum of ten service paths is allowed"))
  else let v := (fun p => removeTrailingSlash (wsStrip p)) <$> v in
       (v, first_error (servicePathCheck received) v).

(** ** connectionTreat *)

(** urlCheck: whether the URL is good, and the URL without its trailing slashes.  The loop
    reads [s[strlen(s) - 1]] before the buffer once nothing is left. *)
Definition urlCheck (ci : ConnectionInfo) : cpp (bool * ConnectionInfo) :=
  if forbiddenChars (Some (url ci)) None then Ret (false, bad_request "invalid character in URI" ci)
  else let u := str_rstrip (fun c => c =c "/"%char) (url ci) in
       if u =s "" then UB "s[strlen(s) - 1] of an empty URL" else Ret (true, set_url u ci).

Definition verb_of (method : string) : Verb :=
  if method =s "POST" then POST else if method =s "PUT" then PUT else if method =s "GET" then GET
  else if method =s "DELETE" then DELETE else if method =s "PATCH" then PATCH else NOVERB.

(** First call: the headers and the parameters in the order libmicrohttpd gives them;
    [generated] is the correlator for a request without one. *)
Definition connectionTreat_new (generated u method : string) (headers : list (string * string))
    (params : list (string * option string)) : ConnectionInfo :=
  let h := foldl httpHeaderGet no_headers headers in
  let h := if hh_correlator h =s ""
           then mkHttpHeaders (hh_accept h) (hh_contentType h) (hh_contentLength h) (hh_tenant h) (hh_xauthToken h)
                  generated (hh_servicePath h) (hh_servicePathReceived h)
           else h in
  let ci := mkConnectionInfo u (verb_of method) (apiVersionGet u) h default_params ∅ [] [] SccOk "" in
  foldl (fun ci p => uriArgumentGet p.1 p.2 ci) ci params.

(** The size of the buffer that the first chunk chooses. *)
Definition payload_buffer (contentLength : Z) : Z :=
  if STATIC_BUFFER_SIZE <? contentLength then contentLength + 1 else STATIC_BUFFER_SIZE + 1.

(** A call with data: memcpy behind what there is, and a zero byte. *)
Definition connectionTreat_data (contentLength : Z) (payload chunk : string) : cpp string :=
  if PAYLOAD_MAX_SIZE <? contentLength then Ret payload
  else if payload_buffer contentLength <? Z.of_nat (String.length payload + String.length chunk) + 1
  then UB "memcpy past the end of the payload"
  else Ret (payload +:+ chunk).

Fixpoint gather (contentLength : Z) (payload : string) (chunks : list string) : cpp string :=
  match chunks with
  | [] => Ret payload
  | chunk :: chunks' => p ← connectionTreat_data contentLength payload chunk; gather contentLength p chunks'
  end.

(** What the last call does with the connection: restReply with a status and a text, or
    serveFunction on the request. *)
Inductive Outcome := Reply (code : Z) (text : string) | Served (ci : ConnectionInfo).

Definition restReply (ci : ConnectionInfo) : Outcome := Reply (httpStatusCode ci) (answer ci).

Definition split_paths (ci : ConnectionInfo) : bool * ConnectionInfo :=
  let '(v, e) := servicePathSplit (hh_servicePathReceived (httpHeaders ci)) (hh_servicePath (httpHeaders ci)) in
  let ci := set_paths (servicePathV ci ++ v) ci in
  match e with Some (_, details) => (true, error_render details ci) | None => (false, ci) end.

Definition mime_checks (ci : ConnectionInfo) : bool * ConnectionInfo :=
  let '(e, ci) := contentTypeCheck ci in if e then (true, ci) else outMimeTypeCheck ci.

Definition needs_payload (ci : ConnectionInfo) : bool :=
  bool_decide (verb ci = POST \/ verb ci = PUT \/ verb ci = PATCH)
  && (hh_contentLength (httpHeaders ci) =? 0)
  && negb (strcasecmp_eq (str_take 5 (url ci)) "/log/") && negb (strcasecmp_eq (str_take 10 (url ci)) "/admin/log").

(** The end of the last call, from the test of the status code. *)
Definition connectionTreat_end (ci : ConnectionInfo) : list Outcome :=
  if negb (httpStatusCode ci =? SccOk) then [restReply ci]
  else
    let ci := if PAYLOAD_MAX_SIZE <? hh_contentLength (httpHeaders ci)
              then set_status SccRequestEntityTooLarge
                     ("payload size: " +:+ show_Z (int32 (hh_contentLength (httpHeaders ci)))
                      +:+ ", max size supported: " +:+ show_Z PAYLOAD_MAX_SIZE) ci
              else ci in
    if needs_payload ci then [Reply SccLengthRequired "Zero/No Content-Length in PUT/POST/PATCH request"]
    else if negb (answer ci =s "") then [restReply ci]
    else [Served ci].

Definition reply_if (e : bool) (ci : ConnectionInfo) : list Outcome := if e then [restReply ci] else [].

(** The last call, with the checks that are delayed to it. *)
Definition connectionTreat_last (ci : ConnectionInfo) : cpp (list Outcome) :=
  '(good, ci) ← urlCheck ci;
  let o1 := reply_if (negb good) ci in
  let '(e, ci) := split_paths ci in
  let o2 := reply_if e ci in
  let '(e, ci) := mime_checks ci in
  let o3 := reply_if e ci in
  Ret (o1 ++ o2 ++ o3 ++ connectionTreat_end ci).

Example root_url_ub : connectionTreat_last (connectionTreat_new "c" "/" "GET" [] []) = UB "s[strlen(s) - 1] of an empty URL".
Proof. by vm_compute. Qed.

Example two_replies_ex : connectionTreat_last (connectionTreat_new "c" "/v1/contextEntities" "GET" [("fiware-servicepath", "x")] [])
  = Ret [Reply 200 "Only /absolute/ Service Paths allowed [a service path must begin with /]";
         Reply 200 "Only /absolute/ Service Paths allowed [a service path must begin with /]"].
Proof. by vm_compute. Qed.

(** ** The parameters of a request without error *)

(** What is promised of the value of a parameter. *)
Definition value_ok (key value : string) : Prop :=
  value <> "" /\ forbidden_param key value = false /\
  (key = "limit" -> decimal value = true /\ atoi value <= 1000 /\ atoi value <> 0) /\
  (key = "offset" -> decimal value = true) /\
  (key = "details" -> strcasecmp_eq value "on" || strcasecmp_eq value "off" = true).

Definition options_ok (o : gset string) : Prop :=
  ~ ("keyValues" ∈ o /\ "values" ∈ o) /\ ~ ("keyValues" ∈ o /\ "unique" ∈ o) /\ ~ ("unique" ∈ o /\ "values" ∈ o).

Record params_ok (ci : ConnectionInfo) : Prop := {
  params_values : map_Forall value_ok (uriParam ci);
  params_paging : forall k, k ∈ ["limit"; "offset"; "details"] -> is_Some (uriParam ci !! k);
  params_format : uriParam ci !! "attributeFormat" = uriParam ci !! "attributesFormat";
  params_options : options_ok (uriParamOptions ci)
}.

Lemma default_params_ok u v a h : params_ok (mkConnectionInfo u v a h default_params ∅ [] [] SccOk "").
Proof.
  split; cbn [uriParam uriParamOptions].
  - repeat (apply map_Forall_insert_2; [by vm_compute; repeat split|]). apply map_Forall_empty.
  - intros k Hk. repeat (apply elem_of_cons in Hk as [->|Hk]; [by vm_compute; eexists|]). by apply not_elem_of_nil in Hk.
  - by vm_compute.
  - unfold options_ok. set_solver.
Qed.

Lemma bad_request_status details ci : httpStatusCode (bad_request details ci) = SccBadRequest.
Proof. unfold bad_request, error_render, set_status. cbn. by destruct (_ && _). Qed.

Lemma has_option_spec x o : has_option x o = true <-> x ∈ o.
Proof. apply bool_decide_eq_true. Qed.

Lemma uriParamOptionsParse_ok value o o' : uriParamOptionsParse value o = (true, o') -> options_ok o'.
Proof.
  unfold uriParamOptionsParse. destruct (add_options _ _) as [ok o1]. intros [= H <-].
  rewrite !andb_true_iff, !negb_true_iff, !andb_false_iff in H.
  unfold options_ok. rewrite <- !has_option_spec. intuition congruence.
Qed.

(** Storing a good value for a parameter that is not one of the two names of the format. *)
Lemma params_ok_insert ci key value o t : params_ok ci -> value_ok key value -> options_ok o ->
  key <> "attributeFormat" -> key <> "attributesFormat" ->
  params_ok (set_uri (<[key := value]> (uriParam ci)) o t ci).
Proof.
  intros [Hv Hp Hf Ho] H1 H2 N1 N2. split; cbn [uriParam uriParamOptions set_uri].
  - by apply map_Forall_insert_2.
  - intros k Hk. rewrite lookup_insert_is_Some'. by right; auto.
  - by rewrite !lookup_insert_ne.
  - done.
Qed.

(** The two names of the format are given the same value. *)
Lemma params_ok_format ci value : params_ok ci -> value_ok "attributeFormat" value -> value_ok "attributesFormat" value ->
  params_ok (set_param "attributeFormat" value (set_param "attributesFormat" value ci)) /\
  params_ok (set_param "attributesFormat" value (set_param "attributeFormat" value ci)).
Proof.
  intros [Hv Hp Hf Ho] H1 H2. split; split; cbn [uriParam uriParamOptions set_uri set_param];
    try (by repeat apply map_Forall_insert_2); try done;
    try (intros k Hk; rewrite !lookup_insert_is_Some'; by auto); by simplify_map_eq.
Qed.

Lemma set_uri_id ci : set_uri (uriParam ci) (uriParamOptions ci) (uriParamTypes ci) ci = ci.
Proof. by destruct ci. Qed.

Lemma set_param_twice key value o t ci :
  set_param key value (set_uri (<[key := value]> (uriParam ci)) o t ci) = set_uri (<[key := value]> (uriParam ci)) o t ci.
Proof. destruct ci. unfold set_param, set_uri. cbn. by rewrite insert_insert_eq. Qed.

Lemma set_param_uri key value ci :
  set_param key value ci = set_uri (<[key := value]> (uriParam ci)) (uriParamOptions ci) (uriParamTypes ci) ci.
Proof. done. Qed.

Ltac known_key := match goal with |- context [if ?k =s ?c then _ else _] =>
  let E := fresh "E" in destruct (k =s c) eqn:E; [apply str_eqb_eq in E; subst k|apply str_eqb_neq in E] end.

(** The storage of a parameter that has passed its check. *)
Lemma params_ok_store ci key value : params_ok ci -> value_ok key value ->
  key <> "attributeFormat" -> key <> "attributesFormat" -> params_ok (set_param key value ci).
Proof. intros. rewrite set_param_uri. apply params_ok_insert; auto. by apply params_options. Qed.

Lemma value_ok_other key value : value <> "" -> forbidden_param key value = false ->
  key <> "limit" -> key <> "offset" -> key <> "details" -> value_ok key value.
Proof. done. Qed.

(** What a parameter without error does before it is stored, and that it keeps the promises. *)
Lemma known_param_ok key value ci ci1 : known_param key value ci = inr ci1 -> httpStatusCode ci1 = SccOk ->
  value <> "" -> forbidden_param key value = false ->
  httpStatusCode ci = SccOk /\ (params_ok ci -> params_ok (set_param key value ci1)).
Proof.
  intros K S Hne F. revert K. unfold known_param.
  repeat known_key.
  - destruct (decimal value) eqn:D; [|done]. intros [= <-].
    split; [done|]. intros H. by apply params_ok_store.
  - destruct (decimal value) eqn:D; [|done]. cbn [negb]. destruct (_ <? _) eqn:L; [done|].
    destruct (_ =? _) eqn:Z0; [done|]. intros [= <-]. apply Z.ltb_ge in L. apply Z.eqb_neq in Z0.
    split; [done|]. intros H. apply params_ok_store; try done.
  - rewrite <- negb_orb. destruct (strcasecmp_eq value "on" || strcasecmp_eq value "off") eqn:D; [|done]. intros [= <-].
    split; [done|]. intros H. by apply params_ok_store.
  - intros [= <-]. split; [done|]. intros H. apply params_ok_format; [done|by apply value_ok_other..].
  - intros [= <-]. split; [done|]. intros H. apply params_ok_format; [done|by apply value_ok_other..].
  - destruct (uriParamOptionsParse _ _) as [ok o] eqn:P. intros [= <-]. destruct ok; [|by rewrite bad_request_status in S].
    split; [done|]. intros H. rewrite set_param_twice. apply params_ok_insert; try done. by eapply uriParamOptionsParse_ok.
  - intros [= <-]. split; [done|]. intros H. rewrite set_param_twice. apply params_ok_insert; try done. by apply params_options.
  - intros [= <-]. split; [done|]. intros H. by apply params_ok_store; [|apply value_ok_other|..].
Qed.

(** One parameter: without error the status was good before, and the promises are kept. *)
Lemma uriArgumentGet_ok key val ci : httpStatusCode (uriArgumentGet key val ci) = SccOk ->
  httpStatusCode ci = SccOk /\ (params_ok ci -> params_ok (uriArgumentGet key val ci)).
Proof.
  unfold uriArgumentGet. destruct val as [value|]; [|by rewrite bad_request_status].
  destruct (value =s "") eqn:E; [by rewrite bad_request_status|]. apply str_eqb_neq in E.
  destruct (known_param key value ci) as [e|ci1] eqn:K; [by rewrite bad_request_status|]. cbn zeta.
  destruct (forbidden_param key value) eqn:F; [by rewrite bad_request_status|].
  intros S. by apply known_param_ok.
Qed.

(** When the parameters of a request have given no error, every parameter that is stored has
    a value without forbidden characters; the limit is a decimal number that atoi reads as
    at most 1000 and not 0, the offset is decimal, details is on or off; the two names of the
    attribute format have the same value; and keyValues, values and unique do not meet in the
    options. *)
Theorem connectionTreat_new_params generated u method headers params :
  let ci := connectionTreat_new generated u method headers params in
  httpStatusCode ci = SccOk -> params_ok ci.
Proof.
  cbn zeta. unfold connectionTreat_new. set (ci0 := mkConnectionInfo _ _ _ _ _ _ _ _ _ _).
  assert (params_ok ci0) as H0 by apply default_params_ok. clearbody ci0. revert ci0 H0.
  induction params as [|[k v] params IH] using rev_ind; intros ci0 H0; [done|].
  rewrite foldl_app. cbn [foldl fst snd]. intros S. apply uriArgumentGet_ok in S as [S H].
  apply H. by apply IH.
Qed.

(** ** The service paths that are let through *)

Definition is_slash (c : ascii) : bool := c =c "/"%char.
Definition is_name_char (c : ascii) : bool := isalnum c || (c =c "_"%char).

Lemma length_str_drop_while p s : (String.length (str_drop_while p s) <= String.length s)%nat.
Proof.
  unfold str_drop_while. destruct (str_span p s) as [a b] eqn:E. apply str_span_app in E as <-.
  rewrite length_app_str. cbn. lia.
Qed.

Lemma length_str_rstrip p s : (String.length (str_rstrip p s) <= String.length s)%nat.
Proof.
  induction s as [|c s IH]; [done|]. cbn [str_rstrip]. destruct (str_rstrip p s); cbn in *; [|lia].
  destruct (p c); cbn; lia.
Qed.

Lemma length_wsStrip s : (String.length (wsStrip s) <= String.length s)%nat.
Proof. etransitivity; [apply length_str_rstrip|apply length_str_drop_while]. Qed.

Lemma length_removeTrailingSlash s : (String.length (removeTrailingSlash s) <= String.length s)%nat.
Proof. destruct s as [|c s]; [done|]. cbn. apply le_n_S, length_str_rstrip. Qed.

Lemma split_on_lengths d s : Forall (fun w => (String.length w <= String.length s)%nat) (split_on d s).
Proof.
  induction s as [|c s IH]; cbn; [by repeat constructor|]. destruct (c =c d).
  - constructor; [cbn; lia|]. eapply Forall_impl; [done|]. cbn. lia.
  - destruct (split_on d s) as [|t ts]; [constructor; [cbn; lia|constructor]|]. inversion_clear IH as [|?? Ht Hts]. constructor; [cbn; lia|].
    eapply Forall_impl; [done|]. cbn. lia.
Qed.

(** The components that pass: names, and a last one that may be "#". *)
Lemma check_components_none compV : check_components compV = None ->
  exists l t, compV = l ++ t /\ Forall (fun c => str_all is_name_char c = true) l /\ (t = [] \/ t = ["#"]).
Proof.
  induction compV as [|c compV IH]; [by exists [], []; auto|].
  cbn [check_components]. destruct (_ <? _)%nat; [done|].
  destruct (match compV with [] => c =s "#" | _ => false end) eqn:E.
  - intros _. destruct compV; [|done]. apply str_eqb_eq in E as ->. exists [], ["#"]. auto.
  - fold is_name_char. destruct (str_all _ c) eqn:N; [|done]. cbn [negb]. intros H.
    destruct (IH H) as (l & t & -> & Hl & Ht). exists (c :: l), t. auto.
Qed.

Lemma last_char_of_app a b : b <> "" -> last_char (a +:+ b) = last_char b.
Proof.
  intros H. destruct (last_char b) as [c|] eqn:E; [|by apply last_char_None in E].
  rewrite (snoc_str b c E) at 1. rewrite <- app_assoc_str. apply last_char_app.
Qed.

Lemma str_all_last p s c : str_all p s = true -> last_char s = Some c -> p c = true.
Proof.
  intros H E. rewrite (snoc_str s c E), str_all_app in H. apply andb_true_iff in H as [_ H]. cbn in H.
  by rewrite andb_true_r in H.
Qed.

Lemma str_span_all p s a b : str_span p s = (a, b) -> str_all p a = true.
Proof.
  revert a b. induction s as [|c s IH]; intros a b; cbn; [by intros [= <- <-]|].
  destruct (p c) eqn:E; [|by intros [= <- <-]]. destruct (str_span p s) as [a1 b1]. intros [= <- <-]. cbn.
  rewrite E. by eapply IH.
Qed.

(** A path that is let through ends in '#' only as "/#". *)
Lemma servicePathCheck_wildcard p : free_of NUL p = true -> servicePathCheck true p = None -> wildcard_ok p.
Proof.
  intros Hn. unfold servicePathCheck. cbn [negb]. destruct p as [|c p']; [by intros _ H|].
  destruct (c =c "/"%char) eqn:Ec; [|done]. cbn [negb]. set (p := String c p') in *.
  rewrite stringSplit_eq, c_str_id by done. set (s := str_drop_while _ p).
  destruct (str_span is_slash p) as [a b] eqn:Sp. assert (s = b) as -> by (subst s; unfold str_drop_while; fold is_slash; by rewrite Sp).
  pose proof (str_span_all _ _ _ _ Sp) as Ha. pose proof (str_span_app _ _ _ _ Sp) as Hp.
  assert (exists a', a = a' +:+ "/") as [a' Ea].
  { destruct (last_char a) as [d|] eqn:L.
    - exists (but_last a). rewrite (snoc_str a d L) at 1. apply (str_all_last _ _ d) in Ha; [|done].
      by apply char_eqb_eq in Ha as ->.
    - apply last_char_None in L as ->. subst p. cbn in Sp. unfold is_slash in Sp at 1. rewrite Ec in Sp.
      by destruct (str_span is_slash p'). }
  destruct (b =s "") eqn:Eb.
  - apply str_eqb_eq in Eb as ->. intros _ L. rewrite <- Hp, app_nil_r_str in L. 
    apply (str_all_last _ _ _ Ha) in L. done.
  - apply str_eqb_neq in Eb. destruct (_ <? _); [done|]. intros C L.
    apply check_components_none in C as (l & t & Hs & Hl & Ht).
    pose proof (split_on_join "/" b) as Hj. rewrite Hs in Hj. rewrite <- Hp, last_char_of_app in L by done.
    destruct Ht as [-> | ->].
    + rewrite app_nil_r in Hj. rewrite <- Hj in L.
      apply (str_all_last (fun d => is_name_char d || is_slash d)) in L; [done|]. apply str_all_join; [done|].
      eapply Forall_impl; [done|]. intros w. apply str_all_impl. by intros d ->.
    + destruct (decide (l = [])) as [->|Hne]; [exists a'; rewrite <- Hp, <- Hj, Ea; by rewrite app_assoc_str|].
      rewrite join_app in Hj by done. exists (a +:+ join (str1 "/") l). rewrite <- Hp, <- Hj. by rewrite !app_assoc_str.
Qed.

Lemma first_error_none {A} (f : A -> option (Z * string)) l : first_error f l = None -> Forall (fun x => f x = None) l.
Proof. induction l as [|x l IH]; cbn; [by constructor|]. destruct (f x) eqn:E; [done|]. constructor; auto. Qed.

Lemma removeTrailingSlash_keeps q s : str_all q s = true -> str_all q (removeTrailingSlash s) = true.
Proof.
  destruct s as [|c s]; [done|]. cbn. rewrite !andb_true_iff. intros [-> H]. split; [done|]. by apply str_all_rstrip.
Qed.

(** The header Fiware-ServicePath (shorter than 5000 characters): when it is let through,
    there is at least one path and at most ten, and each is empty or one that
    fillQueryServicePath turns into the regular expressions of [path_patterns]. *)
Theorem servicePathSplit_query_paths sp v : free_of NUL sp = true -> (String.length sp < 5000)%nat ->
  servicePathSplit true sp = (v, None) ->
  v <> [] /\ (length v <= 10)%nat /\ Forall (fun p => p = "" \/ query_path p) v.
Proof.
  intros Hn Hl. unfold servicePathSplit. rewrite stringSplit_eq, c_str_id by done.
  set (s := str_drop_while _ sp).
  assert (free_of NUL s = true) as Hs by (by apply str_all_drop_while).
  assert (String.length s < 5000)%nat as Hls by (pose proof (length_str_drop_while (fun c => c =c ","%char) sp); subst s; lia).
  destruct (s =s ""); [intros [= <-]; split_and!; [done|cbn; lia|by repeat constructor]|].
  destruct (split_on_cons "," s) as (t & ts & Hc). destruct (_ =? 0) eqn:Z0; [apply Z.eqb_eq in Z0; rewrite Hc in Z0; cbn [length] in Z0; lia|].
  destruct (_ <? _) eqn:L; [done|]. apply Z.ltb_ge in L. unfold SERVICE_PATH_MAX_COMPONENTS in L.
  intros [= <- F]. split_and!; [by rewrite Hc|rewrite length_fmap; lia|].
  apply first_error_none in F. rewrite Forall_fmap in F |- *.
  pose proof (split_on_keeps _ "," _ Hs) as Hk. pose proof (split_on_lengths "," s) as Hm.
  apply Forall_forall. intros w Hw. rewrite Forall_forall in F, Hk, Hm.
  specialize (F w Hw). specialize (Hk w Hw). specialize (Hm w Hw). cbn in F, Hk, Hm |- *.
  set (p := removeTrailingSlash (wsStrip w)) in *.
  destruct (decide (p = "")) as [->|Hp]; [by left|right].
  assert (free_of NUL p = true) as Hf by (by apply removeTrailingSlash_keeps, str_all_wsStrip).
  pose proof (length_removeTrailingSlash (wsStrip w)). pose proof (length_wsStrip w).
  split_and!; [done|done| |by apply servicePathCheck_wildcard].
  unfold SERVICE_PATH_MAX_TOTAL. subst p. lia.
Qed.

(** ** Gathering the payload *)

Definition concat_str (l : list string) : string := foldr String.append "" l.

Lemma gather_from contentLength chunks : contentLength <= PAYLOAD_MAX_SIZE -> forall payload,
  Z.of_nat (String.length payload) + 1 <= payload_buffer contentLength ->
  if Z.of_nat (String.length payload + String.length (concat_str chunks)) + 1 <=? payload_buffer contentLength
  then gather contentLength payload chunks = Ret (payload +:+ concat_str chunks)
  else exists why, gather contentLength payload chunks = UB why.
Proof.
  intros Hcl. induction chunks as [|chunk chunks IH]; intros payload Hp; cbn [gather concat_str foldr].
  - rewrite app_nil_r_str. cbn [String.length]. rewrite Nat.add_0_r. by rewrite (proj2 (Z.leb_le _ _) Hp).
  - unfold connectionTreat_data. rewrite (proj2 (Z.ltb_ge _ _) Hcl). fold (concat_str chunks). rewrite length_app_str.
    destruct (_ <? _) eqn:E.
    + rewrite (proj2 (Z.leb_gt _ _)) by (apply Z.ltb_lt in E; lia). by eexists.
    + apply Z.ltb_ge in E. cbn [mbind cpp_bind]. specialize (IH (payload +:+ chunk)).
      rewrite length_app_str, app_assoc_str, <- Nat.add_assoc in IH. apply IH. lia.
Qed.

(** The calls with data leave the concatenation of the chunks in the payload when it fits
    in the buffer that the first call chose from Content-Length: in 32 KB for a body
    announced as at most that (or not announced at all), in Content-Length otherwise.  When
    it does not fit, memcpy writes past the buffer.  A body announced as larger than 1 MB is
    not kept. *)
Theorem gather_exact contentLength chunks :
  let total := Z.of_nat (String.length (concat_str chunks)) in
  if PAYLOAD_MAX_SIZE <? contentLength then gather contentLength "" chunks = Ret ""
  else if total <=? Z.max STATIC_BUFFER_SIZE contentLength then gather contentLength "" chunks = Ret (concat_str chunks)
  else exists why, gather contentLength "" chunks = UB why.
Proof.
  cbn zeta. destruct (_ <? contentLength) eqn:E.
  - induction chunks as [|chunk chunks IH]; [done|]. cbn [gather]. unfold connectionTreat_data. by rewrite E.
  - apply Z.ltb_ge in E. pose proof (gather_from contentLength chunks E "") as H. cbn [String.length] in H.
    assert (payload_buffer contentLength = Z.max STATIC_BUFFER_SIZE contentLength + 1) as Hb.
    { unfold payload_buffer. destruct (_ <? _) eqn:L; [apply Z.ltb_lt in L|apply Z.ltb_ge in L]; lia. }
    rewrite Hb in H. cbn [Nat.add] in H. rewrite app_nil_l_str in H.
    destruct (_ + 1 <=? _) eqn:L1; destruct (Z.of_nat _ <=? _) eqn:L2; rewrite ?Z.leb_le, ?Z.leb_gt in L1, L2; try lia;
      apply H; cbn; unfold STATIC_BUFFER_SIZE; lia.
Qed.

(** ** The outcomes of a request *)

Definition url_bad (ci : ConnectionInfo) : bool := forbiddenChars (Some (url ci)) None.
Definition path_bad (ci : ConnectionInfo) : bool :=
  match (servicePathSplit (hh_servicePathReceived (httpHeaders ci)) (hh_servicePath (httpHeaders ci))).2 with
  | Some _ => true | None => false end.
Definition mime_bad (ci : ConnectionInfo) : bool := (mime_checks ci).1.

Lemma check_components_details l e : check_components l = Some e -> e.2 <> "".
Proof.
  induction l as [|c l IH]; cbn [check_components]; [done|]. destruct (_ <? _)%nat; [by intros [= <-]|].
  destruct (match l with [] => _ | _ => _ end); [done|]. destruct (negb _); [by intros [= <-]|done].
Qed.

Lemma servicePathCheck_details r p e : servicePathCheck r p = Some e -> e.2 <> "".
Proof.
  unfold servicePathCheck. destruct (negb r); [done|]. destruct p; [done|]. destruct (negb _); [by intros [= <-]|].
  destruct (stringSplit _ _). destruct (_ <? _); [by intros [= <-]|]. apply check_components_details.
Qed.

Lemma first_error_details {A} (f : A -> option (Z * string)) l e :
  (forall x e, f x = Some e -> e.2 <> "") -> first_error f l = Some e -> e.2 <> "".
Proof.
  intros Hf. induction l as [|x l IH]; cbn; [done|]. destruct (f x) eqn:E; [intros [= <-]; by eapply Hf|done].
Qed.

Lemma servicePathSplit_details r sp v e : servicePathSplit r sp = (v, Some e) -> e.2 <> "".
Proof.
  unfold servicePathSplit. destruct (stringSplit _ _). destruct (_ =? _); [done|]. destruct (_ <? _); [by intros [= <- <-]|].
  intros [= _ H]. revert H. apply first_error_details, servicePathCheck_details.
Qed.

(** A service path error: nothing else but the answer (and the status, in version 2). *)
Lemma split_paths_spec ci : let '(e, ci') := split_paths ci in
  e = path_bad ci /\ url ci' = url ci /\ verb ci' = verb ci /\ apiVersion ci' = apiVersion ci /\
  httpHeaders ci' = httpHeaders ci /\
  (httpStatusCode ci <> SccOk -> httpStatusCode ci' = httpStatusCode ci) /\
  (e = true -> answer ci' <> "") /\
  (e = false -> ci' = set_paths (servicePathV ci ++
     (servicePathSplit (hh_servicePathReceived (httpHeaders ci)) (hh_servicePath (httpHeaders ci))).1) ci).
Proof.
  unfold split_paths, path_bad. destruct (servicePathSplit _ _) as [v e] eqn:E. destruct e as [[n d]|]; cbn.
  - split_and!; try done. 
    + intros H. destruct (_ =s _); cbn; [|done]. apply Z.eqb_neq in H. by rewrite H.
    + intros _. by apply (servicePathSplit_details _ _ _ _ E).
  - by split_and!.
Qed.

Lemma mime_checks_spec ci : let '(e, ci') := mime_checks ci in
  (e = true -> httpStatusCode ci' <> SccOk) /\ (e = false -> ci' = ci).
Proof.
  unfold mime_checks, contentTypeCheck, outMimeTypeCheck.
  repeat (case_match; simplify_eq/=); split; try done; intros _; by cbn.
Qed.

Lemma mime_bad_ext ci ci' : apiVersion ci' = apiVersion ci -> httpHeaders ci' = httpHeaders ci -> mime_bad ci' = mime_bad ci.
Proof.
  unfold mime_bad, mime_checks, contentTypeCheck, outMimeTypeCheck. destruct ci as [? ? api h], ci'. cbn. intros -> ->. cbn zeta.
  destruct (hh_contentLength h =? 0), (hh_contentType h =s ""), (api =s "v1"), (api =s "v2"),
    (hh_contentType h =s "application/json"), (hh_contentType h =s "text/plain"); cbn; try done; by destruct (bool_decide _).
Qed.

(** The end of the last call has one outcome; it serves the request only with status 200,
    without an answer, with a payload that is not too large and that is there where the verb asks for it. *)
Lemma connectionTreat_end_spec ci : exists o, connectionTreat_end ci = [o] /\
  ((exists code text, o = Reply code text /\ (httpStatusCode ci = SccOk -> needs_payload ci = false ->
     hh_contentLength (httpHeaders ci) <= PAYLOAD_MAX_SIZE -> answer ci <> "")) \/
   (o = Served ci /\ httpStatusCode ci = SccOk /\ answer ci = "" /\ needs_payload ci = false /\
    hh_contentLength (httpHeaders ci) <= PAYLOAD_MAX_SIZE)).
Proof.
  unfold connectionTreat_end. destruct (httpStatusCode ci =? SccOk) eqn:S; cbn [negb].
  - apply Z.eqb_eq in S. destruct (_ <? _) eqn:L.
    + apply Z.ltb_lt in L. cbn [negb]. destruct (needs_payload _); [eexists; split; [done|left; do 2 eexists; split; [done|lia]]|].
      eexists; split; [by cbn|left; do 2 eexists; split; [done|lia]].
    + apply Z.ltb_ge in L. destruct (needs_payload ci) eqn:N; [eexists; split; [done|left; do 2 eexists; split; done]|].
      destruct (answer ci =s "") eqn:A; cbn [negb].
      * apply str_eqb_eq in A. eexists; split; [done|]. by right.
      * apply str_eqb_neq in A. eexists; split; [done|]. left. by do 2 eexists.
  - apply Z.eqb_neq in S. eexists. split; [done|]. left. by do 2 eexists.
Qed.

Definition stripped_url (ci : ConnectionInfo) : string := str_rstrip is_slash (url ci).

(** A request that passes every check. *)
Definition acceptable (ci : ConnectionInfo) : Prop :=
  url_bad ci = false /\ path_bad ci = false /\ mime_bad ci = false /\
  httpStatusCode ci = SccOk /\ answer ci = "" /\ needs_payload (set_url (stripped_url ci) ci) = false /\
  hh_contentLength (httpHeaders ci) <= PAYLOAD_MAX_SIZE.

Lemma path_bad_ext ci ci' : httpHeaders ci' = httpHeaders ci -> path_bad ci' = path_bad ci.
Proof. unfold path_bad. by intros ->. Qed.

Lemma set_url_status ci u : httpStatusCode (set_url u ci) = httpStatusCode ci. Proof. done. Qed.

(** What follows urlCheck, for the status and answer it has left. *)
Lemma after_urlCheck ci :
  exists pre o,
    (let '(e2, ci2) := split_paths ci in let '(e3, ci3) := mime_checks ci2 in
     reply_if e2 ci2 ++ reply_if e3 ci3 ++ connectionTreat_end ci3) = pre ++ [o] /\
    length pre = (Nat.b2n (path_bad ci) + Nat.b2n (mime_bad ci))%nat /\
    Forall (fun x => exists code text, x = Reply code text) pre /\
    ((exists c, o = Served c) <-> path_bad ci = false /\ mime_bad ci = false /\ httpStatusCode ci = SccOk /\
       answer ci = "" /\ needs_payload ci = false /\ hh_contentLength (httpHeaders ci) <= PAYLOAD_MAX_SIZE).
Proof.
  pose proof (split_paths_spec ci) as S. destruct (split_paths ci) as [e2 ci2].
  destruct S as (E2 & Hu & Hverb & Ha & Hh & Hst & Hans & Hok).
  pose proof (mime_checks_spec ci2) as M. pose proof (mime_bad_ext ci ci2 Ha Hh) as E3. unfold mime_bad at 1 in E3.
  destruct (mime_checks ci2) as [e3 ci3]. cbn in E3. destruct M as [M1 M2]. subst e2 e3.
  destruct (connectionTreat_end_spec ci3) as (o & Ho & HO).
  exists (reply_if (path_bad ci) ci2 ++ reply_if (mime_bad ci) ci3), o. rewrite Ho, app_assoc. split; [done|].
  split; [by destruct (path_bad ci), (mime_bad ci)|].
  split; [destruct (path_bad ci), (mime_bad ci); repeat constructor; unfold restReply; eauto|].
  destruct (mime_bad ci).
  - specialize (M1 eq_refl). destruct HO as [(code & text & -> & _)|(_ & ? & _)]; [|done].
    split; [by intros [c [=]]|by intros (_ & [=] & _)].
  - rewrite (M2 eq_refl) in HO. destruct (path_bad ci).
    + specialize (Hans eq_refl). destruct HO as [(code & text & -> & _)|(_ & _ & ? & _)]; [|done].
      split; [by intros [c [=]]|by intros ([=] & _)].
    + rewrite (Hok eq_refl) in HO. destruct HO as [(code & text & -> & Hn)|(-> & H1 & H2 & H3 & H4)].
      * split; [by intros [c [=]]|]. intros (_ & _ & H1 & H2 & H3 & H4). exfalso. by apply (Hn H1 H3 H4).
      * split; [|eauto]. intros _. by split_and!.
Qed.

(** C30. The last call with a request, unless its URL is good and consists of slashes only (then
    urlCheck reads before its buffer): each of the checks that fails (of the URL, of the
    service paths, of the MIME types) sends a reply, and one more outcome follows in any
    case; the request is served, and then that is the only outcome, exactly when every check
    passes. *)
Theorem connectionTreat_last_outcomes ci :
  match connectionTreat_last ci with
  | UB _ => url_bad ci = false /\ stripped_url ci = ""
  | Ret l => (url_bad ci = false -> stripped_url ci <> "") /\
      (exists pre o, l = pre ++ [o] /\
         length pre = (Nat.b2n (url_bad ci) + Nat.b2n (path_bad ci) + Nat.b2n (mime_bad ci))%nat /\
         Forall (fun x => exists code text, x = Reply code text) pre /\
         ((exists c, o = Served c) <-> acceptable ci))
  | _ => False
  end.
Proof.
  unfold connectionTreat_last, urlCheck, acceptable. fold (url_bad ci). destruct (url_bad ci) eqn:U.
  - cbn [mbind cpp_bind]. set (ci1 := bad_request _ ci).
    destruct (after_urlCheck ci1) as (pre & o & Hl & Hn & Hf & Ho).
    rewrite (path_bad_ext ci ci1), (mime_bad_ext ci ci1) in Hn by done.
    destruct (split_paths ci1) as [e2 ci2]. destruct (mime_checks ci2) as [e3 ci3]. split; [done|].
    exists (restReply ci1 :: pre), o. cbn [reply_if negb app]. rewrite Hl. split; [done|].
    split; [cbn; lia|]. split; [constructor; [by do 2 eexists|done]|]. rewrite Ho. split; [|by intros [[=] _]].
    intros (_ & _ & H & _). subst ci1. by rewrite bad_request_status in H.
  - fold is_slash. fold (stripped_url ci). destruct (stripped_url ci =s "") eqn:E.
    + cbn [mbind cpp_bind]. apply str_eqb_eq in E. by rewrite E.
    + apply str_eqb_neq in E. cbn [mbind cpp_bind]. set (ci1 := set_url _ ci).
      destruct (after_urlCheck ci1) as (pre & o & Hl & Hn & Hf & Ho).
      rewrite (path_bad_ext ci ci1), (mime_bad_ext ci ci1) in Hn by done.
      rewrite (path_bad_ext ci ci1), (mime_bad_ext ci ci1) in Ho by done.
      destruct (split_paths ci1) as [e2 ci2]. destruct (mime_checks ci2) as [e3 ci3]. split; [done|].
      exists pre, o. cbn [reply_if negb app]. rewrite Hl. split_and!; [done|cbn; lia|done|]. rewrite Ho. subst ci1.
      unfold set_url. cbn [httpStatusCode answer httpHeaders]. tauto.
Qed.

(** ** Witnesses *)

Definition sample_request : ConnectionInfo :=
  connectionTreat_new "c" "/v2/entities/" "GET"
    [("Accept", "application/json"); ("fiware-servicepath", "/Madrid/Gardens/#, /Rome/")]
    [("limit", Some "50"); ("options", Some "keyValues,count"); ("attributesFormat", Some "object")].

Lemma connectionTreat_new_params_witness : httpStatusCode sample_request = SccOk /\ params_ok sample_request.
Proof. assert (httpStatusCode sample_request = SccOk) as H by reflexivity. split; [exact H|].
  unfold sample_request in H |- *. exact (connectionTreat_new_params _ _ _ _ _ H). Defined.

Lemma servicePathSplit_query_paths_witness :
  servicePathSplit true "/Madrid/Gardens/#, /Rome/" = (["/Madrid/Gardens/#"; "/Rome"], None) /\
  Forall (fun p => p = "" \/ query_path p) ["/Madrid/Gardens/#"; "/Rome"].
Proof.
  split; [reflexivity|]. eapply (servicePathSplit_query_paths "/Madrid/Gardens/#, /Rome/"); [reflexivity|cbn; lia|reflexivity].
Defined.

Example sample_served : exists c, connectionTreat_last sample_request = Ret [Served c] /\
  servicePathV c = ["/Madrid/Gardens/#"; "/Rome"] /\ url c = "/v2/entities" /\ uriParam c !! "limit" = Some "50".
Proof. eexists. vm_compute. repeat split. Qed.

(** An empty path among others is let through, and the query for it reads memory that was
    not written. *)
Example empty_path_ub : exists v, servicePathSplit true "/a,,/b" = (v, None) /\
  fillQueryServicePath v = UB "read of a buffer that was not written".
Proof. exists ["/a"; ""; "/b"]. by vm_compute. Qed.

(** A limit of 2^31 is accepted: atoi makes it negative. *)
Example limit_overflow : uriParam (uriArgumentGet "limit" (Some "2147483648") sample_request) !! "limit" = Some "2147483648" /\
  httpStatusCode (uriArgumentGet "limit" (Some "2147483648") sample_request) = SccOk /\ atoi "2147483648" = - 2147483648.
Proof. by vm_compute. Qed.

(** A chunked body has no Content-Length and may be of any size. *)
Definition chunk_1k : string := String.string_of_list_ascii (repeat "x"%char 1024).
Example chunked_overflow : gather 0 "" (repeat chunk_1k 33) = UB "memcpy past the end of the payload".
Proof. by vm_compute. Qed.
