(* ===== verification/JsonRequest.v ===== *)
(** * The payloads of version 2

    jsonParseV2/jsonRequestTreat.cpp and what it uses beside the readers of JsonEntity.v and
    JsonSubscription.v: parseBatchUpdate, parseBatchQuery, parseAttributeList, parseScope,
    parseScopeVector, parseAttributeValue and the parseContextAttribute of a whole payload;
    and parse/textParse.cpp for payloads of text. *)

From S2P Require Import Prelude Strings Double Bson Compound Ngsi AttrUpdate Location EntityDoc Registrations.
From S2P Require Import FilterParse FilterMatch SubCache Geo Queries SubSync Notify EntityUpdate UpdateContext QueryContext Duration Subscriptions.
From S2P Require Import Json JsonEntity JsonText JsonSubscription Rest.

Open Scope Z_scope.

(** A reader of a payload: the text of an error and the status code it leaves, or what is read. *)
Definition Treated (A : Type) : Type := (string * Z) + A.

(** OrionError::render into a reply, from the code the connection has. *)
Definition bad_payload {A} (oe : OrionError) (code : Z) : Treated A := inl (OrionError_render oe code).

(** ErrorCode::toJson into a reply with status 400. *)
Definition bad_batch {A} (error description : string) : cpp (Treated A) :=
  t ← ErrorCode_toJson (mkErrorCode error description) true; Ret (inl (t.1, SccBadRequest)).

(** ** Lists and scopes *)

Fixpoint attribute_names (l : list json) (attributeV : list string) : string + list string :=
  match l with
  | [] => inr attributeV
  | JString s :: l' => attribute_names l' (attributeV ++ [c_str s])
  | _ => inl "only JSON Strings allowed in attribute list"
  end.

(** parseAttributeList *)
Definition parseAttributeList (j : json) (attributeV : list string) : string + list string :=
  match j with
  | JArray l => attribute_names l attributeV
  | _ => inl "the field /attributes/ must be a JSON array"
  end.

Fixpoint scope_members (o : list (string * json)) (type value : string) : string + (string * string) :=
  match o with
  | [] => inr (type, value)
  | (k, j) :: o' =>
      let name := c_str k in
      if name =s "type" then
        match j with JString s => scope_members o' (c_str s) value | _ => inl "invalid JSON type for scope type" end
      else if name =s "value" then
        match j with JString s => scope_members o' type (c_str s) | _ => inl "invalid JSON type for scope value" end
      else inl ("unrecognized item in scope object: /" +:+ name +:+ "/")
  end.

Definition plain_scope (type value : string) (sf : option StringFilter) : Scope :=
  mkScope type value "" NoArea (mkGeorel "" no_distance no_distance) sf.

Section Scopes.

Context (regcomp : string -> bool) (filter_time : string -> Z) (memOut : ValueOut) (memItem : StringFilterItem).

(** parseScope: an error, with whether a filter was deleted whose pointer the scope keeps; or the scope. *)
Definition parseScope (j : json) : (string * bool) + Scope :=
  match j with
  | JObject o =>
      if negb (has_member "type" o) then inl ("scope without a type", false)
      else if negb (has_member "value" o) then inl ("scope without a value", false)
      else match scope_members o "" "" with
           | inl err => inl (err, false)
           | inr (type, value) =>
               if type =s SCOPE_TYPE_SIMPLE_QUERY then
                 match sf_parse regcomp filter_time memOut memItem value with
                 | inl err => inl (err, true)
                 | inr sf => inr (plain_scope type value (Some sf))
                 end
               else inr (plain_scope type value None)
           end
  | _ => inl ("scope is not a JSON object", false)
  end.

Fixpoint scope_loop (l : list json) (vec : list Scope) : cpp (string + list Scope) :=
  match l with
  | [] => Ret (inr vec)
  | j :: l' =>
      match parseScope j with
      | inl (err, deleted) => if deleted then UB "the string filter of a scope deleted twice" else Ret (inl err)
      | inr sc => scope_loop l' (vec ++ [sc])
      end
  end.

(** parseScopeVector: after an error the scopes are released. *)
Definition parseScopeVector (j : json) (vec : list Scope) : cpp (string + list Scope) :=
  match j with
  | JArray l => scope_loop l vec
  | _ => Ret (inl "the field /scopes/ must be a JSON array")
  end.

End Scopes.

(** ** Batches *)

Record BatchUpdate := mkBatchUpdate { bu_entities : list Entity; bu_updateActionType : string }.
Record BatchQuery := mkBatchQuery { bq_entities : list Entity; bq_attributeV : list string; bq_scopeV : list Scope }.

Section Readers.

(** Memory that constructors leave unassigned. *)
Context (memNumber : double) (memBool : bool) (memOut : ValueOut) (memItem : StringFilterItem).
Context (regcomp : string -> bool) (filter_time : string -> Z).
Context (strptime_timegm : string -> string -> option Z).
Context (checkIdv1 keyValues : bool) (apiVersion : string).

(** The checks on the document, before its members are read. *)
Definition batch_document {A} (payload : option json) (read : list (string * json) -> cpp (Treated A)) : cpp (Treated A) :=
  match payload with
  | None => bad_batch ERROR_STRING_PARSERROR "Errors found in incoming JSON buffer"
  | Some (JObject []) => bad_batch "BadRequest" "empty payload"
  | Some (JObject o) => read o
  | Some _ => bad_batch "BadRequest" "JSON Parse Error"
  end.

Fixpoint batch_update_members (o : list (string * json)) (b : BatchUpdate) : cpp (Treated BatchUpdate) :=
  match o with
  | [] => Ret (inr b)
  | (k, j) :: o' =>
      let name := c_str k in
      if name =s "entities" then
        r ← parseEntityVector memNumber memBool strptime_timegm keyValues apiVersion j (bu_entities b) true;
        match (r : string + list Entity) with
        | inl err => bad_batch "BadRequest" err
        | inr vec => batch_update_members o' (mkBatchUpdate vec (bu_updateActionType b))
        end
      else if name =s "actionType" then
        match j with
        | JString s => batch_update_members o' (mkBatchUpdate (bu_entities b) (c_str s))
        | _ => UB "GetString of a value that is not a string"
        end
      else bad_batch "BadRequest" ("Unrecognized field in JSON payload: /" +:+ name +:+ "/")
  end.

(** parseBatchUpdate *)
Definition parseBatchUpdate (payload : option json) : cpp (Treated BatchUpdate) :=
  batch_document payload (fun o =>
    if negb (has_member "entities" o) then bad_batch "BadRequest" "Invalid JSON payload, mandatory field /entities/ not found"
    else if negb (has_member "actionType" o) then bad_batch "BadRequest" "Invalid JSON payload, mandatory field /actionType/ not found"
    else batch_update_members o (mkBatchUpdate [] "")).

Fixpoint batch_query_members (o : list (string * json)) (b : BatchQuery) : cpp (Treated BatchQuery) :=
  match o with
  | [] => Ret (inr b)
  | (k, j) :: o' =>
      let name := c_str k in
      if name =s "entities" then
        r ← parseEntityVector memNumber memBool strptime_timegm keyValues apiVersion j (bq_entities b) false;
        match (r : string + list Entity) with
        | inl err => bad_batch "BadRequest" err
        | inr vec => batch_query_members o' (mkBatchQuery vec (bq_attributeV b) (bq_scopeV b))
        end
      else if name =s "attributes" then
        match parseAttributeList j (bq_attributeV b) with
        | inl err => bad_batch "BadRequest" err
        | inr v => batch_query_members o' (mkBatchQuery (bq_entities b) v (bq_scopeV b))
        end
      else if name =s "scopes" then
        r ← parseScopeVector regcomp filter_time memOut memItem j (bq_scopeV b);
        match (r : string + list Scope) with
        | inl err => bad_batch "BadRequest" err
        | inr v => batch_query_members o' (mkBatchQuery (bq_entities b) (bq_attributeV b) v)
        end
      else bad_batch "BadRequest" ("Unrecognizedfield in JSON payload: /" +:+ name +:+ "/")
  end.

(** parseBatchQuery *)
Definition parseBatchQuery (payload : option json) : cpp (Treated BatchQuery) :=
  batch_document payload (fun o =>
    if negb (has_member "entities" o) && negb (has_member "attributes" o) && negb (has_member "scopes" o)
    then bad_batch "BadRequest" "Invalid JSON payload, no relevant fields found"
    else batch_query_members o (mkBatchQuery [] [] [])).

(** ** Attributes *)

(** parseContextAttribute of a whole payload *)
Definition parseAttribute (payload : option json) (ca : ContextAttribute) : cpp (Treated ContextAttribute) :=
  match payload with
  | None => Ret (bad_payload (OrionError_new SccBadRequest "Errors found in incoming JSON buffer" ERROR_STRING_PARSERROR) SccBadRequest)
  | Some (JObject o) =>
      r ← parseContextAttributeObject memNumber memBool strptime_timegm o ca;
      Ret (match (r : string + ContextAttribute) with
           | inl err => bad_payload (OrionError_new SccBadRequest err "") SccBadRequest
           | inr ca => inr (ca_default_type ca)
           end)
  | Some _ => Ret (bad_payload (OrionError_new SccBadRequest "Error parsing incoming JSON buffer" ERROR_STRING_PARSERROR) SccBadRequest)
  end.

(** parseAttributeValue: the root is made anew, whatever the attribute had. *)
Definition parseAttributeValue (payload : option json) (ca : ContextAttribute) : Treated ContextAttribute :=
  match payload with
  | None => bad_payload (mkOrionError SccNone ERROR_STRING_PARSERROR "Errors found in incoming JSON buffer") SccBadRequest
  | Some j =>
      if is_compound j then
        inr (ca_default_type (ca_set (ca_type ca) (ca_metadataVector ca) (json_type j) (ca_stringValue ca) (ca_numberValue ca)
               (ca_boolValue ca) (Some (parse_compound (json_type j) j)) (ca_typeGiven ca) ca))
      else bad_payload (OrionError_new SccBadRequest "Neither JSON Object nor JSON Array for attribute::value" "") SccBadRequest
  end.

(** textParseAttributeValue, on the payload up to its NUL. *)
Definition any_of (payload : string) (l : list string) : bool := existsb (String.eqb payload) l.

Definition textParseAttributeValue (payload : string) (ca : ContextAttribute) : Treated ContextAttribute :=
  match payload with
  | String c r =>
      if c =c dquote then
        if match last_char payload with Some d => d =c dquote | None => false end
        then inr (ca_set_value ValueTypeString (String.substring 0 (String.length r - 1) r) (ca_numberValue ca) (ca_boolValue ca) ca)
        else bad_payload (OrionError_new SccBadRequest "Missing citation-mark at end of string" "") SccOk
      else if any_of payload ["true"; "True"; "TRUE"] then inr (ca_set_value ValueTypeBoolean (ca_stringValue ca) (ca_numberValue ca) true ca)
      else if any_of payload ["false"; "False"; "FALSE"] then inr (ca_set_value ValueTypeBoolean (ca_stringValue ca) (ca_numberValue ca) false ca)
      else if any_of payload ["null"; "Null"; "NULL"] then inr (ca_set_vt ValueTypeNone ca)
      else match str2double payload with
           | Some d => inr (ca_set_value ValueTypeNumber (ca_stringValue ca) d (ca_boolValue ca) ca)
           | None => bad_payload (OrionError_new SccBadRequest "attribute value type not recognized" "") SccOk
           end
  | "" =>
      match str2double "" with
      | Some d => inr (ca_set_value ValueTypeNumber (ca_stringValue ca) d (ca_boolValue ca) ca)
      | None => bad_payload (OrionError_new SccBadRequest "attribute value type not recognized" "") SccOk
      end
  end.

(** ** The requests *)

Inductive RequestData :=
  | EntityData (e : Entity)
  | AttributeData (ca : ContextAttribute)
  | AttributeValueData (ca : ContextAttribute)
  | BatchQueryData (b : BatchQuery)
  | BatchUpdateData (b : BatchUpdate).

Inductive PayloadRequest :=
  | EntitiesRequest | EntityRequest | EntityAttributeRequest | EntityAttributeValueRequest | BatchQueryRequest | BatchUpdateRequest.

(** What passes its check. *)
Definition checked {A} (err : string) (x : A) : Treated A :=
  if negb (err =s "OK") then bad_payload (OrionError_new SccBadRequest err "") SccOk else inr x.

Definition treated_map {A B} (f : A -> B) (r : Treated A) : Treated B := match r with inl e => inl e | inr x => inr (f x) end.

Definition treat_entity (payload : option json) (eidInURL : bool) : cpp (Treated Entity) :=
  r ← parseEntity memNumber memBool strptime_timegm keyValues apiVersion payload Entity_new eidInURL;
  Ret (match (r : string + Entity) with
       | inl text => inl (text, SccBadRequest)
       | inr e => checked (Entity_check checkIdv1 apiVersion (negb eidInURL) e) e
       end).

(** jsonRequestTreat, for what is not a subscription; only entities and attributes are checked. *)
Definition jsonRequestTreat (requestType : PayloadRequest) (compV : list string) (payload : option json) : cpp (Treated RequestData) :=
  match requestType with
  | EntitiesRequest => r ← treat_entity payload false; Ret (treated_map EntityData r)
  | EntityRequest => r ← treat_entity payload true; Ret (treated_map EntityData r)
  | EntityAttributeRequest =>
      name ← vec_at compV 4;
      r ← parseAttribute payload (ca_named name (ContextAttribute_new memNumber memBool));
      Ret (match (r : Treated ContextAttribute) with
           | inl e => inl e
           | inr ca => treated_map AttributeData (checked (ContextAttribute_check checkIdv1 apiVersion false ca) ca)
           end)
  | EntityAttributeValueRequest =>
      Ret (treated_map AttributeValueData (parseAttributeValue payload (ContextAttribute_new memNumber memBool)))
  | BatchQueryRequest => r ← parseBatchQuery payload; Ret (treated_map BatchQueryData r)
  | BatchUpdateRequest => r ← parseBatchUpdate payload; Ret (treated_map BatchUpdateData r)
  end.

(** textRequestTreat: only the value of an attribute may be a text. *)
Definition textRequestTreat (requestType : PayloadRequest) (payload : string) : Treated RequestData :=
  match requestType with
  | EntityAttributeValueRequest =>
      match textParseAttributeValue (c_str payload) (ContextAttribute_new memNumber memBool) with
      | inl e => inl e
      | inr ca => treated_map AttributeValueData (checked (ContextAttribute_check checkIdv1 apiVersion true ca) ca)
      end
  | _ => inl ((OrionError_render (OrionError_new SccUnsupportedMediaType "not supported content type: text/plain" "") SccOk).1,
              SccUnsupportedMediaType)
  end.

End Readers.

(** ** A batch update is what entities are shown as *)

Section Batch.

Context (isodate2str : double -> string) (memNumber : double) (memBool : bool) (strptime_timegm : string -> string -> option Z).

(** An entity that a batch can hold as it is shown. *)
Record batchable (e : Entity) : Prop := mkBatchable {
  bt_printable : printable isodate2str strptime_timegm [] e;
  bt_names : Forall (fun ca => ca_name ca <> "idPattern") (shown (en_attributeVector e) [])
}.

(** What of an entity is read back. *)
Definition entity_view (e : Entity) : string * string * list (string * string * json * list (string * string * json)) :=
  (en_id e, en_type e, map (view isodate2str) (shown (en_attributeVector e) [])).
Definition read_view (e : Entity) : string * string * list (string * string * json * list (string * string * json)) :=
  (en_id e, en_type e, map (view isodate2str) (en_attributeVector e)).

Lemma object_members_attributes l e : Forall (readable isodate2str strptime_timegm) l -> Forall (fun ca => ca_name ca <> "idPattern") l ->
  exists l', object_members memNumber memBool strptime_timegm false "v2" true
    (map (fun ca => (ca_name ca, attribute_json isodate2str NGSI_V2_NORMALIZED ca)) l) e
  = Ret (inr (en_set (en_id e) (en_type e) (en_isPattern e) (en_attributeVector e ++ l') (en_typeGiven e) e)) /\
  map (view isodate2str) l' = map (view isodate2str) l.
Proof.
  intros H. revert e. induction H as [|ca l Hca _ IH]; intros e Hp.
  { exists []. rewrite app_nil_r. split; [|done]. by destruct e. }
  apply Forall_cons in Hp as [Hp1 Hp].
  destruct (read_attribute isodate2str memNumber memBool strptime_timegm ca Hca) as (ca' & Hr & Hv). cbn [map object_members].
  destruct Hca as (Hn & Hne & Hh & _). unfold clean in Hn. rewrite Hn. unfold hidden_attribute in Hh. apply orb_false_iff in Hh as [-> ->].
  apply str_eqb_neq in Hp1 as ->. cbn [negb]. unfold push_attribute. rewrite Hr. cbn [mbind cpp_bind].
  destruct (IH (en_push ca' e) Hp) as (l' & -> & Hl). exists (ca' :: l'). split.
  - cbn [en_push en_set en_id en_type en_isPattern en_attributeVector en_typeGiven en_renderId en_errorCode]. by rewrite <- app_assoc.
  - cbn [map]. by rewrite Hv, Hl.
Qed.

Lemma batch_entity_read e : batchable e -> exists e',
  parseEntityObject memNumber memBool strptime_timegm false "v2" (entity_json isodate2str NGSI_V2_NORMALIZED [] e) Entity_new true
    = Ret (inr e') /\ read_view e' = entity_view e.
Proof.
  intros [[_ Hr [Hid Hne] Ht Ha _] Hn]. unfold entity_json. rewrite bool_decide_eq_false_2, Hr by done. unfold parseEntityObject.
  set (l := shown (en_attributeVector e) []) in *. cbn [app has_member existsb fst].
  change ("id" =s "id") with true. change ("type" =s "id") with false. change ("id" =s "idPattern") with false.
  change ("type" =s "idPattern") with false. cbn [orb andb negb].
  assert (existsb (fun kv : string * json => kv.1 =s "idPattern") (map (fun ca => (ca_name ca, attribute_json isodate2str NGSI_V2_NORMALIZED ca)) l) = false) as ->.
  { clear -Hn. induction Hn as [|ca l Hca _ IH]; [done|]. cbn [map existsb fst]. apply str_eqb_neq in Hca. by rewrite Hca, IH. }
  cbn [object_members]. change (c_str "id" =s "id") with true. change (c_str "type" =s "id") with false.
  change (c_str "type" =s "idPattern") with false. change (c_str "type" =s "type") with true. cbv iota.
  rewrite or_default_type_typed by done. destruct Ht as [Ht _]. unfold clean in Hid, Ht. rewrite Hid, Ht.
  change (en_isPattern Entity_new) with "".
  destruct (object_members_attributes l (en_set_type (en_type e) true (en_set_id (en_id e) "" Entity_new)) Ha Hn) as (l' & -> & Hl).
  eexists. split; [reflexivity|]. unfold read_view, entity_view. cbn. by rewrite Hl.
Qed.

Lemma batch_entities_read es vec : Forall batchable es -> exists es',
  entity_vector_loop memNumber memBool strptime_timegm false "v2" true (map (entity_json isodate2str NGSI_V2_NORMALIZED []) es) vec
    = Ret (inr (vec ++ es')) /\ map read_view es' = map entity_view es.
Proof.
  intros H. revert vec. induction H as [|e es He _ IH]; intros vec; [exists []; by rewrite app_nil_r|].
  destruct (batch_entity_read e He) as (e' & Hr & Hv). cbn [map entity_vector_loop]. rewrite Hr. cbn [mbind cpp_bind].
  destruct (IH (vec ++ [e'])) as (es' & -> & Hvs). exists (e' :: es'). rewrite <- app_assoc. split; [done|]. cbn [map]. by rewrite Hv, Hvs.
Qed.

(** Round trip: the entities that a query shows, put into a batch update with an action, are
    read back as entities with the same ids, types, attributes, values and metadata, in
    their order. *)
Theorem batch_update_roundtrip es action : Forall batchable es -> c_str action = action -> exists b,
  parseBatchUpdate memNumber memBool strptime_timegm false "v2"
    (Some (JObject [("actionType", JString action); ("entities", JArray (map (entity_json isodate2str NGSI_V2_NORMALIZED []) es))]))
    = Ret (inr b) /\
  bu_updateActionType b = action /\ map read_view (bu_entities b) = map entity_view es.
Proof.
  intros He Ha. destruct (batch_entities_read es [] He) as (es' & Hr & Hv). exists (mkBatchUpdate es' action). split; [|done].
  cbn [parseBatchUpdate batch_document has_member existsb fst]. change ("actionType" =s "entities") with false.
  change ("entities" =s "entities") with true. change ("actionType" =s "actionType") with true. cbn [orb negb batch_update_members].
  change (c_str "actionType" =s "entities") with false. change (c_str "actionType" =s "actionType") with true.
  change (c_str "entities" =s "entities") with true. cbv iota. cbn [parseEntityVector bu_entities bu_updateActionType]. rewrite Hr, Ha. done.
Qed.

End Batch.

(** ** Texts *)

Lemma substring_prefix s t : String.substring 0 (String.length s) (s +:+ t) = s.
Proof. induction s as [|c s IH]; cbn [String.length]; [by destruct t|]. change (String c s +:+ t) with (String c (s +:+ t)). cbn [String.substring]. by rewrite IH. Qed.

(** A text in quotes is read as itself. *)
Theorem textParse_quoted s ca :
  textParseAttributeValue (quote s) ca = inr (ca_set_value ValueTypeString s (ca_numberValue ca) (ca_boolValue ca) ca).
Proof.
  change (quote s) with (String dquote (s +:+ str1 dquote)). unfold textParseAttributeValue.
  change (dquote =c dquote) with true. change (String dquote (s +:+ str1 dquote)) with (String dquote s +:+ str1 dquote) at 1.
  rewrite last_char_app. change (dquote =c dquote) with true. cbv iota. rewrite length_app_str. cbn [str1 String.length].
  replace (String.length s + 1 - 1)%nat with (String.length s) by lia. by rewrite substring_prefix.
Qed.

(** ** What the readers do beside *)

Abbreviation treat := (jsonRequestTreat zero false (mkValueOut SfvtNull S754_nan "" false) sample_item (fun _ => true) (fun _ => -1)
  (fun _ _ => None) false false "v2").

Definition batch (id action : json) : json :=
  JObject [("actionType", action); ("entities", JArray [JObject [("id", id)]])].

(** Nothing of a batch is checked: an entity with a double quote in its id, an action that is none. *)
Example batch_unchecked : exists b,
  treat BatchUpdateRequest [] (Some (batch (JString (quote "x")) (JString "NONE"))) = Ret (inr (BatchUpdateData b)) /\
  map (fun e => (en_id e, Entity_check false "v2" true e)) (bu_entities b) = [(quote "x", "Invalid characters in entity id")] /\
  bu_updateActionType b = "NONE".
Proof. eexists. split; [vm_compute; reflexivity|]. by vm_compute. Qed.

(** An action that is not a string. *)
Example batch_action_UB : exists why, treat BatchUpdateRequest [] (Some (batch (JString "x") (JNumber zero))) = UB why.
Proof. eexists. by vm_compute. Qed.

(** A filter that cannot be parsed, in a batch query. *)
Example batch_scope_UB : exists why,
  treat BatchQueryRequest [] (Some (JObject [("scopes", JArray [JObject [("type", JString SCOPE_TYPE_SIMPLE_QUERY); ("value", JString ";")]])]))
  = UB why.
Proof. eexists. by vm_compute. Qed.

(** A lone quote is the empty text. *)
Example lone_quote : textParseAttributeValue (str1 dquote) (ContextAttribute_new zero false)
  = inr (ca_set_value ValueTypeString "" zero false (ContextAttribute_new zero false)).
Proof. reflexivity. Qed.

(** The room of JsonEntity.v in a batch. *)
Lemma batch_update_roundtrip_witness : exists b,
  parseBatchUpdate zero false read_stamp false "v2"
    (Some (JObject [("actionType", JString "APPEND"); ("entities", JArray (map (entity_json print_stamp NGSI_V2_NORMALIZED []) [room]))]))
    = Ret (inr b) /\
  map en_id (bu_entities b) = ["Room1"] /\
  map (fun e => map ca_name (en_attributeVector e)) (bu_entities b) = [["temperature"; "since"; "shape"]].
Proof.
  destruct (batch_update_roundtrip print_stamp zero false read_stamp [room] "APPEND") as (b & Hb & _ & Hv).
  - apply Forall_cons. split; [|constructor]. split; [exact room_printable|].
    apply Forall_forall. intros ca Hin. vm_compute in Hin. repeat (apply elem_of_cons in Hin as [->|Hin]; [discriminate|]).
    apply elem_of_nil in Hin. destruct Hin.
  - reflexivity.
  - exists b. split; [exact Hb|]. destruct (bu_entities b) as [|e [|e' es]]; [discriminate Hv| |discriminate Hv].
    cbn [map] in Hv. injection Hv as Hi _ Ha. split; [cbn [map]; rewrite Hi; reflexivity|]. cbn [map].
    apply (f_equal (map (fun a => a.1.1.1))) in Ha. rewrite map_map in Ha. f_equal. exact Ha.
Defined.
