(* ===== verification/RenderV1.v ===== *)
(** * Version 1 of the interface: rendering

    The JSON texts of version 1: common/tag.cpp, and render of ngsi/EntityId.cpp,
    Metadata.cpp, ContextAttribute.cpp, ContextElement.cpp, StatusCode.cpp and their
    vectors, of parse/CompoundValueNode.cpp, and of the update requests, update and query
    responses and notifications of ngsi10/.  They are what is answered to clients of version 1
    and what is sent to context providers and to subscribers of version 1.  The text of a
    date is an argument. *)

From S2P Require Import Prelude Strings Double Bson Compound Ngsi AttrUpdate Location EntityUpdate UpdateContext QueryContext.
From S2P Require Import Json JsonEntity JsonText.

Open Scope Z_scope.

(** ** Tags *)

Definition nl : string := str1 "010".

Definition htmlEscape_char (c : ascii) : string :=
  match N_of_ascii c with
  | 60%N => "&lt;"
  | 62%N => "&gt;"
  | 40%N => "&#40;"
  | 41%N => "&#41;"
  | 61%N => "&#61;"
  | 39%N => "&#39;"
  | 34%N => "&quot;"
  | 59%N => "&#59;"
  | _ => str1 c
  end.

Fixpoint htmlEscape_loop (s : string) : string :=
  match s with "" => "" | String c s' => htmlEscape_char c +:+ htmlEscape_loop s' end.

Definition htmlEscape (s : string) : string := htmlEscape_loop (c_str s).

(** jsonInvalidCharsTransformation: a second copy of the loop of toJsonString, without the
    quotes around. *)
Definition jsonInvalidCharsTransformation (input : string) : string := json_chars input.

Definition startTag1 (indent key : string) (showKey isToplevel : bool) : string :=
  if isToplevel then
    if showKey then indent +:+ "{" +:+ nl +:+ indent +:+ "  " +:+ quote key +:+ " : {" +:+ nl
    else indent +:+ "{" +:+ nl +:+ indent +:+ "  {" +:+ nl
  else if showKey then indent +:+ quote key +:+ " : {" +:+ nl
  else indent +:+ "{" +:+ nl.

Definition startTag2 (indent key : string) (isVector showKey : bool) : string :=
  indent +:+ (if showKey then quote key +:+ " : " else "") +:+ (if isVector then "[" else "{") +:+ nl.

Definition endTag (indent : string) (comma isVector newline isToplevel : bool) : string :=
  if isToplevel then indent +:+ "}" +:+ nl +:+ "}" +:+ nl
  else indent +:+ (if isVector then "]" else "}") +:+ (if comma then "," else "") +:+ (if newline then nl else "").

Definition valueTag1 (indent key unescapedValue : string) (showComma isVectorElement withoutQuotes : bool) : string :=
  let value := if unescapedValue =s "" then "" else htmlEscape unescapedValue in
  let effectiveValue := jsonInvalidCharsTransformation value in
  let effectiveValue := if withoutQuotes then effectiveValue else quote effectiveValue in
  indent +:+ (if isVectorElement then "" else quote key +:+ " : ") +:+ effectiveValue +:+ (if showComma then "," else "") +:+ nl.

Definition valueTag (indent key : string) (value : Z) (showComma : bool) : string :=
  indent +:+ quote key +:+ " : " +:+ quote (show_Z value) +:+ (if showComma then "," else "") +:+ nl.

Definition valueTag2 (indent key value : string) (showComma withoutQuotes : bool) : string :=
  let eValue := jsonInvalidCharsTransformation value in
  let eValue := if withoutQuotes then eValue else quote eValue in
  indent +:+ (if key =s "" then "" else quote key +:+ " : ") +:+ eValue +:+ (if showComma then "," else "") +:+ nl.

(** ** Entities and metadata *)

(** EntityId::render *)
Definition EntityId_render (e : EntityId) (indent : string) (comma isInVector : bool) : string :=
  let indent2 := if isInVector then indent +:+ "  " else indent in
  (if isInVector then indent +:+ "{" +:+ nl else "")
  +:+ indent2 +:+ quote "type" +:+ " : " +:+ quote (htmlEscape (eid_type e)) +:+ "," +:+ nl
  +:+ indent2 +:+ quote "isPattern" +:+ " : " +:+ quote (htmlEscape (eid_isPattern e)) +:+ "," +:+ nl
  +:+ indent2 +:+ quote "id" +:+ " : " +:+ quote (htmlEscape (eid_id e))
  +:+ (if comma && negb isInVector then "," +:+ nl
       else nl +:+ (if isInVector then indent +:+ "}" else "") +:+ (if comma then "," +:+ nl else if isInVector then nl else "")).

Definition Metadata_render (md : Metadata) (indent : string) (comma : bool) : string :=
  startTag2 indent "contextMetadata" false false
  +:+ valueTag1 (indent +:+ "  ") "name" (md_name md) true false false
  +:+ valueTag1 (indent +:+ "  ") "type" (md_type md) true false false
  +:+ valueTag1 (indent +:+ "  ") "value" (md_stringValue md) false false false
  +:+ endTag indent comma false true false.

(** The loop of a vector: the items but the last are followed by a comma. *)
Fixpoint render_items {A} (f : A -> bool -> string) (l : list A) : string :=
  match l with
  | [] => ""
  | x :: l' => f x (negb (length l' =? 0)%nat) +:+ render_items f l'
  end.

Definition MetadataVector_render (mdV : list Metadata) (indent : string) (comma : bool) : string :=
  if (length mdV =? 0)%nat then ""
  else startTag2 indent "metadatas" true true
       +:+ render_items (fun md => Metadata_render md (indent +:+ "  ")) mdV
       +:+ endTag indent comma true true false.

(** ** Compound values *)

(** CompoundValueNode::render.  [top]: the node is its own container and root; otherwise its
    container is of type [ct] and has [size] children. *)
Fixpoint render_node (top : bool) (ct : ValueType) (size : Z) (indent : string) (n : CompoundValueNode) : string :=
  match n with
  | CVN name vt s d b siblingNo _ _ childV =>
      let jsonComma := siblingNo <? size - 1 in
      let in_vector := bool_decide (ct = ValueTypeVector) in
      let key := if in_vector then "item" else name in
      let children indent := concat_str (map (render_node false vt (Z.of_nat (length childV)) indent) childV) in
      match vt with
      | ValueTypeString => valueTag1 indent key s jsonComma in_vector false
      | ValueTypeNumber => valueTag1 indent key (toString_double d) jsonComma in_vector true
      | ValueTypeBoolean => valueTag1 indent key (if b then "true" else "false") jsonComma in_vector true
      | ValueTypeNone => valueTag1 indent key "null" jsonComma in_vector true
      | ValueTypeVector =>
          if top then children indent
          else startTag2 indent key true (bool_decide (ct = ValueTypeObject))
               +:+ children (indent +:+ "  ") +:+ endTag indent jsonComma true true false
      | ValueTypeObject =>
          if in_vector then startTag2 indent "" false false
               +:+ children (indent +:+ "  ") +:+ endTag indent jsonComma false true false
          else if top then children indent
          else startTag2 indent key false true
               +:+ children (indent +:+ "  ") +:+ endTag indent jsonComma false true false
      | ValueTypeUnknown => ""
      end
  end.

(** render of the root, which in version 2 leaves it to toJson. *)
Definition CompoundValueNode_render (apiVersion indent : string) (n : CompoundValueNode) : string :=
  if apiVersion =s "v2" then toJson_top n
  else render_node true (cvn_valueType n) (Z.of_nat (length (cvn_childV n))) indent n.

(** ** Attributes *)

Inductive RequestType := UpdateContext | RtUpdateContextResponse | NotifyContext | QueryContext.
#[export] Instance RequestType_eq : EqDecision RequestType.
Proof. solve_decision. Defined.

Section Render.

Context (isodate2str : double -> string).
(** Of the connection: the version, the URI parameter attributeFormat, whether the answer is JSON. *)
Context (apiVersion attributeFormat : string) (outJson : bool).

Definition as_object : bool := (attributeFormat =s "object") && outJson.

(** The text of the value of an attribute, and whether it goes without quotes. *)
Definition effective_value (ca : ContextAttribute) : string * bool :=
  match ca_valueType ca with
  | ValueTypeString => (ca_stringValue ca, false)
  | ValueTypeBoolean => (if ca_boolValue ca then "true" else "false", true)
  | ValueTypeNumber =>
      if ca_type ca =s DATE_TYPE then (isodate2str (ca_numberValue ca), false) else (toString_double (ca_numberValue ca), true)
  | ValueTypeNone => ("null", true)
  | _ => ("", false)
  end.

Definition has_metadata (ca : ContextAttribute) : bool := negb (length (ca_metadataVector ca) =? 0)%nat.

(** The structured value of an attribute. *)
Definition compound_value (c : CompoundValueNode) (indent : string) (comma : bool) : string :=
  let isCompoundVector := bool_decide (cvn_valueType c = ValueTypeVector) in
  startTag2 (indent +:+ "  ") "value" isCompoundVector true
  +:+ CompoundValueNode_render apiVersion (indent +:+ "    ") c
  +:+ endTag (indent +:+ "  ") comma isCompoundVector true false.

Definition response_value (request : RequestType) (text : string) : string :=
  if bool_decide (request = RtUpdateContextResponse) then "" else text.

Definition renderAsJsonObject (request : RequestType) (ca : ContextAttribute) (indent : string) (comma omitValue : bool) : string :=
  let commaAfterContextValue := has_metadata ca in
  startTag2 indent (ca_name ca) false true
  +:+ valueTag1 (indent +:+ "  ") "type" (ca_type ca) (negb omitValue || commaAfterContextValue) false false
  +:+ match ca_compoundValueP ca with
      | None =>
          if omitValue then ""
          else let '(text, withoutQuotes) := effective_value ca in
               valueTag1 (indent +:+ "  ") "value" (response_value request text) commaAfterContextValue false withoutQuotes
      | Some c => compound_value c indent commaAfterContextValue
      end
  +:+ (if omitValue then "" else MetadataVector_render (ca_metadataVector ca) (indent +:+ "  ") false)
  +:+ endTag indent comma false true false.

(** ContextAttribute::render *)
Definition ContextAttribute_render (request : RequestType) (ca : ContextAttribute) (indent : string) (comma omitValue : bool) : string :=
  let commaAfterContextValue := has_metadata ca in
  let response := bool_decide (request = RtUpdateContextResponse) in
  let commaAfterType := match ca_compoundValueP ca with Some _ => true | None => false end || negb omitValue || response in
  if as_object then renderAsJsonObject request ca indent comma omitValue
  else
    startTag2 indent "attribute" false false
    +:+ valueTag1 (indent +:+ "  ") "name" (ca_name ca) true false false
    +:+ valueTag1 (indent +:+ "  ") "type" (ca_type ca) commaAfterType false false
    +:+ match ca_compoundValueP ca with
        | None =>
            if negb omitValue then
              let '(text, withoutQuotes) := effective_value ca in
              valueTag2 (indent +:+ "  ") "value" (response_value request text) commaAfterContextValue withoutQuotes
            else if response then valueTag1 (indent +:+ "  ") "value" "" commaAfterContextValue false false
            else ""
        | Some c => compound_value c indent commaAfterContextValue
        end
    +:+ MetadataVector_render (ca_metadataVector ca) (indent +:+ "  ") false
    +:+ endTag indent comma false true false.

Definition renderAsNameString (ca : ContextAttribute) (indent : string) (comma : bool) : string :=
  indent +:+ quote (ca_name ca) +:+ (if comma then "," else "") +:+ nl.

(** The removal of attributes whose names are there already; [skip]: the index moves on after
    an attribute was erased, past the one that took its place. *)
Fixpoint remove_copies (added : list string) (skip : bool) (vec : list ContextAttribute) : list ContextAttribute :=
  match vec with
  | [] => []
  | ca :: vec' =>
      if skip then ca :: remove_copies added false vec'
      else if existsb (String.eqb (ca_name ca)) (List.filter (fun n => negb (n =s "")) added) then remove_copies added true vec'
      else ca :: remove_copies (added ++ [ca_name ca]) false vec'
  end.

(** ContextAttributeVector::render *)
Definition ContextAttributeVector_render (request : RequestType) (vec : list ContextAttribute) (indent : string)
    (comma omitValue attrsAsName : bool) : string :=
  let item ca comma :=
    if attrsAsName then renderAsNameString ca (indent +:+ "  ") comma
    else ContextAttribute_render request ca (indent +:+ "  ") comma omitValue in
  if (length vec =? 0)%nat then ""
  else if as_object then
    startTag2 indent "attributes" attrsAsName true
    +:+ render_items item (remove_copies [] false vec)
    +:+ endTag indent comma attrsAsName true false
  else
    startTag2 indent "attributes" true true +:+ render_items item vec +:+ endTag indent comma true true false.

(** The vector after it was rendered: the copies were removed from it. *)
Definition attributes_left (vec : list ContextAttribute) : list ContextAttribute := if as_object then remove_copies [] false vec else vec.

(** ** Elements and responses *)

Definition AttributeDomainName_render (domain indent : string) (comma : bool) : string :=
  if domain =s "" then "" else valueTag1 indent "attributeDomainName" domain comma false false.

(** ContextElement::render *)
Definition ContextElement_render (requestType : RequestType) (e : EntityId) (attributeDomainName : string)
    (cav : list ContextAttribute) (domainMetadata : list Metadata) (indent : string) (comma omitAttributeValues : bool) : string :=
  let commaAfterContextAttributeVector := negb (length domainMetadata =? 0)%nat in
  let commaAfterAttributeDomainName := commaAfterContextAttributeVector || negb (length cav =? 0)%nat in
  let commaAfterEntityId := commaAfterAttributeDomainName || negb (attributeDomainName =s "") in
  startTag2 indent "contextElement" false (negb (bool_decide (requestType = UpdateContext)))
  +:+ EntityId_render e (indent +:+ "  ") commaAfterEntityId false
  +:+ AttributeDomainName_render attributeDomainName (indent +:+ "  ") commaAfterAttributeDomainName
  +:+ ContextAttributeVector_render requestType cav (indent +:+ "  ") commaAfterContextAttributeVector omitAttributeValues false
  +:+ MetadataVector_render domainMetadata (indent +:+ "  ") false
  +:+ endTag indent comma false true false.

(** StatusCode::render: the text, and the status code it leaves. *)
Definition StatusCode_render (keyName : string) (sc : StatusCode) (indent : string) (comma showKey : bool)
    : cpp (string * StatusCode) :=
  details ← (if str_contains (str1 "034") (c_str (sc_details sc))
             then strReplace (String.length (sc_details sc) * 2) (sc_details sc) (str1 "034") (backslash +:+ str1 "034")
             else Ret (sc_details sc));
  let sc := if sc_code sc =? SccNone then mkStatusCode SccReceiverInternalError " - ZERO code set to 500"
            else mkStatusCode (sc_code sc) details in
  Ret (startTag1 indent keyName showKey false
       +:+ valueTag (indent +:+ "  ") "code" (sc_code sc) true
       +:+ valueTag1 (indent +:+ "  ") "reasonPhrase" (httpStatusCodeString (sc_code sc)) (negb (sc_details sc =s "")) false false
       +:+ (if negb (sc_details sc =s "") then valueTag1 (indent +:+ "  ") "details" (sc_details sc) false false false else "")
       +:+ endTag indent comma false true false, sc).

(** ContextElementResponse::render *)
Definition ContextElementResponse_render (requestType : RequestType) (cer : Cer) (indent : string) (comma : bool)
    (omitAttributeValues : bool) : cpp (string * Cer) :=
  '(status, sc) ← StatusCode_render "statusCode" (cer_status cer) (indent +:+ "  ") false true;
  Ret (startTag2 indent "contextElement" false false
       +:+ ContextElement_render requestType (cer_entity cer) "" (cer_attrs cer) [] (indent +:+ "  ") true omitAttributeValues
       +:+ status +:+ endTag indent comma false true false,
       mkCer (cer_entity cer) (attributes_left (cer_attrs cer)) sc).

Fixpoint render_responses (requestType : RequestType) (indent : string) (omitAttributeValues : bool) (cerV : list Cer)
    : cpp (string * list Cer) :=
  match cerV with
  | [] => Ret ("", [])
  | cer :: cerV' =>
      '(text, cer) ← ContextElementResponse_render requestType cer indent (negb (length cerV' =? 0)%nat) omitAttributeValues;
      '(texts, cerV') ← render_responses requestType indent omitAttributeValues cerV';
      Ret (text +:+ texts, cer :: cerV')
  end.

Definition ContextElementResponseVector_render (requestType : RequestType) (cerV : list Cer) (indent : string)
    (comma omitAttributeValues : bool) : cpp (string * list Cer) :=
  if (length cerV =? 0)%nat then Ret ("", cerV)
  else '(texts, cerV) ← render_responses requestType (indent +:+ "  ") omitAttributeValues cerV;
       Ret (startTag2 indent "contextResponses" true true +:+ texts +:+ endTag indent comma true true false, cerV).

(** ** Requests and responses *)

Record UpdateContextRequest := mkUpdateContextRequest {
  upcr_contextElementVector : list (EntityId * list ContextAttribute);
  upcr_updateActionType : string;
  upcr_contextProvider : string
}.

Record UpdateContextResponse := mkUpdateContextResponse {
  upcrs_contextElementResponseVector : list Cer;
  upcrs_errorCode : StatusCode
}.

Definition UpdateActionType_render (action indent : string) (comma : bool) : string :=
  if action =s "" then "" else valueTag1 indent "updateAction" action comma false false.

Definition ContextElementVector_render (vec : list (EntityId * list ContextAttribute)) (indent : string) (comma : bool) : string :=
  if (length vec =? 0)%nat then ""
  else startTag2 indent "contextElements" true true
       +:+ render_items (fun ce comma => ContextElement_render UpdateContext ce.1 "" ce.2 [] (indent +:+ "  ") comma false) vec
       +:+ endTag indent comma true true false.

Definition UpdateContextRequest_render (upcr : UpdateContextRequest) (indent : string) : string :=
  startTag1 indent "updateContextRequest" false false
  +:+ ContextElementVector_render (upcr_contextElementVector upcr) (indent +:+ "  ") true
  +:+ UpdateActionType_render (upcr_updateActionType upcr) (indent +:+ "  ") false
  +:+ endTag indent false false true false.

(** UpdateContextResponse::render: a response without elements becomes an error. *)
Definition UpdateContextResponse_render (upcrs : UpdateContextResponse) (indent : string) : cpp (string * UpdateContextResponse) :=
  let code := sc_code (upcrs_errorCode upcrs) in
  '(body, upcrs) ←
    (if negb (code =? SccNone) && negb (code =? SccOk) then
       '(text, sc) ← StatusCode_render "errorCode" (upcrs_errorCode upcrs) (indent +:+ "  ") false true;
       Ret (text, mkUpdateContextResponse (upcrs_contextElementResponseVector upcrs) sc)
     else if (length (upcrs_contextElementResponseVector upcrs) =? 0)%nat then
       '(text, sc) ← StatusCode_render "errorCode" (mkStatusCode SccContextElementNotFound (sc_details (upcrs_errorCode upcrs)))
                       (indent +:+ "  ") false true;
       Ret (text, mkUpdateContextResponse (upcrs_contextElementResponseVector upcrs) sc)
     else
       '(text, cerV) ← ContextElementResponseVector_render RtUpdateContextResponse (upcrs_contextElementResponseVector upcrs)
                         (indent +:+ "  ") false false;
       Ret (text, mkUpdateContextResponse cerV (upcrs_errorCode upcrs)));
  Ret (startTag1 indent "updateContextResponse" false false +:+ body +:+ endTag indent false false true false, upcrs).

(** NotifyContextRequest::render *)
Definition NotifyContextRequest_render (subscriptionId originator : string) (cerV : list Cer) (indent : string)
    : cpp (string * list Cer) :=
  '(body, cerV') ← ContextElementResponseVector_render NotifyContext cerV (indent +:+ "  ") false false;
  Ret (startTag1 indent "notifyContextRequest" false false
       +:+ valueTag1 (indent +:+ "  ") "subscriptionId"
             (if subscriptionId =s "" then "000000000000000000000000" else subscriptionId) true false false
       +:+ (if originator =s "" then "" else valueTag1 (indent +:+ "  ") "originator" originator (negb (length cerV =? 0)%nat) false false)
       +:+ body +:+ endTag indent false false true false, cerV').

(** QueryContextResponse::render *)
Definition QueryContextResponse_render (cerV : list Cer) (errorCode : StatusCode) (indent : string)
    : cpp (string * (list Cer * StatusCode)) :=
  let code := sc_code errorCode in
  let shown := negb (code =? SccNone) && negb (code =? SccOk) || (length cerV =? 0)%nat || negb (sc_details errorCode =s "") in
  let errorCode :=
    if negb (negb (code =? SccNone) && negb (code =? SccOk)) && negb (length cerV =? 0)%nat && negb (sc_details errorCode =s "")
       && (code =? SccNone) then mkStatusCode SccOk (sc_details errorCode) else errorCode in
  '(body, cerV') ← ContextElementResponseVector_render QueryContext cerV (indent +:+ "  ") shown false;
  '(error, errorCode) ← (if shown then StatusCode_render "errorCode" errorCode (indent +:+ "  ") false true else Ret ("", errorCode));
  '(safety, errorCode) ←
    (if (sc_code errorCode =? SccNone) && (length cerV =? 0)%nat
     then StatusCode_render "errorCode"
            (mkStatusCode SccReceiverInternalError "Both the error-code structure and the response vector were empty")
            (indent +:+ "  ") false true
     else Ret ("", errorCode));
  Ret (startTag1 indent "queryContextResponse" false false +:+ body +:+ error +:+ safety +:+ endTag indent false false true false,
       (cerV', errorCode)).

End Render.

(** ** Tokens of what is rendered *)

Definition comma_tokens (comma : bool) : list token := if comma then [TPunct ","] else [].

(** A text is a list of values, or of members, and of a comma after them if [comma]. *)
Definition listed {A} (toks : A -> list token) (s : string) (l : list A) (comma : bool) : Prop :=
  neat s (match l with [] => [] | _ => commas (map toks l) ++ comma_tokens comma end).

Definition blanks (s : string) : Prop := str_all blank s = true.
Definition plain (s : string) : Prop := str_all plain_char s = true.

Lemma scan_blank s : blanks s -> scan Between s = Some ([], Between).
Proof.
  unfold blanks. induction s as [|c s IH]; [done|]. rewrite str_all_cons, andb_true_iff. intros [Hc Hs].
  cbn [scan scan_char]. unfold scan_start. by rewrite Hc, IH.
Qed.

Lemma neat_blank s : blanks s -> neat s [].
Proof. apply scan_blank. Qed.

Lemma blanks_app a b : blanks a -> blanks b -> blanks (a +:+ b).
Proof. unfold blanks. intros Ha Hb. by rewrite str_all_app, Ha, Hb. Qed.

Lemma blanks_indent a b : blanks a -> str_all blank b = true -> blanks (a +:+ b).
Proof. apply blanks_app. Qed.

Lemma neat_key key : plain key -> neat (quote key +:+ " : ") [TStr key; TPunct ":"].
Proof. intros Hk. apply (neat_app (quote key) " : " [TStr key] [TPunct ":"]); [by apply neat_plain|done]. Qed.

Lemma neat_comma (comma : bool) : neat ((if comma then "," else "") +:+ nl) (comma_tokens comma).
Proof. by destruct comma. Qed.

Lemma commas_app (l l' : list (list token)) : l <> [] -> l' <> [] -> commas (l ++ l') = commas l ++ [TPunct ","] ++ commas l'.
Proof.
  intros Hl Hl'. induction l as [|x l IH]; [done|]. destruct l as [|y l].
  - destruct l' as [|z l']; [done|]. done.
  - change (commas ((x :: y :: l) ++ l')) with (x ++ TPunct "," :: commas ((y :: l) ++ l')). rewrite IH by done.
    change (commas (x :: y :: l)) with (x ++ TPunct "," :: commas (y :: l)). by rewrite <- !app_assoc.
Qed.

Lemma listed_nil {A} (toks : A -> list token) comma : listed toks "" [] comma.
Proof. done. Qed.

Lemma listed_app {A} (toks : A -> list token) a b l l' comma :
  listed toks a l (match l' with [] => comma | _ => true end) -> listed toks b l' comma -> listed toks (a +:+ b) (l ++ l') comma.
Proof.
  unfold listed. intros Ha Hb. destruct l as [|x l].
  - by apply (neat_app a b []).
  - destruct l' as [|y l'].
    + rewrite app_nil_r. rewrite <- (app_nil_r (commas _ ++ _)). by apply neat_app.
    + change ((x :: l) ++ y :: l') with (x :: (l ++ y :: l')) at 1.
      assert (commas (map toks ((x :: l) ++ y :: l')) = commas (map toks (x :: l)) ++ [TPunct ","] ++ commas (map toks (y :: l'))) as E.
      { rewrite map_app. by apply commas_app. }
      change (x :: l ++ y :: l') with ((x :: l) ++ y :: l'). rewrite E. cbn [comma_tokens] in Ha. rewrite (app_assoc (commas (map toks (x :: l)))), <- app_assoc.
      by apply neat_app.
Qed.

Lemma listed_one {A} (toks : A -> list token) s x comma : neat s (toks x ++ comma_tokens comma) -> listed toks s [x] comma.
Proof. done. Qed.

Lemma listed_cons {A} (toks : A -> list token) a b x l comma :
  neat a (toks x ++ comma_tokens (match l with [] => comma | _ => true end)) -> listed toks b l comma ->
  listed toks (a +:+ b) (x :: l) comma.
Proof. intros Ha. apply (listed_app toks a b [x] l). by apply listed_one. Qed.

(** The loops of the vectors. *)
Lemma listed_items {A B} (toks : B -> list token) (f : A -> bool -> string) (g : A -> B) l :
  (forall x comma, x ∈ l -> neat (f x comma) (toks (g x) ++ comma_tokens comma)) -> listed toks (render_items f l) (map g l) false.
Proof.
  induction l as [|x l IH]; intros Hf; [done|]. cbn [render_items map]. apply listed_cons.
  - assert ((match map g l with [] => false | _ => true end) = negb (length l =? 0)%nat) as -> by (by destruct l). apply Hf, elem_of_cons. by left.
  - apply IH. intros y comma Hy. apply Hf, elem_of_cons. by right.
Qed.

(** An opening tag, a list and a closing tag. *)
Lemma endTag_neat indent comma isVector : blanks indent ->
  neat (endTag indent comma isVector true false) (TPunct (if isVector then "]"%char else "}"%char) :: comma_tokens comma).
Proof.
  intros Hi. unfold endTag. apply (neat_app indent _ []); [by apply neat_blank|]. by destruct isVector, comma.
Qed.

Lemma startTag2_neat indent key isVector (showKey : bool) : blanks indent -> (showKey = true -> plain key) ->
  neat (startTag2 indent key isVector showKey)
    ((if showKey then [TStr key; TPunct ":"] else []) ++ [TPunct (if isVector then "["%char else "{"%char)]).
Proof.
  intros Hi Hk. unfold startTag2. apply (neat_app indent _ []); [by apply neat_blank|].
  apply neat_app; [|by destruct isVector]. destruct showKey; [by apply neat_key, Hk|done].
Qed.

Lemma startTag1_neat indent key (showKey : bool) : blanks indent -> (showKey = true -> plain key) ->
  neat (startTag1 indent key showKey false) ((if showKey then [TStr key; TPunct ":"] else []) ++ [TPunct "{"]).
Proof.
  intros Hi Hk. unfold startTag1. destruct showKey.
  - apply (neat_app indent _ []); [by apply neat_blank|]. apply (neat_app (quote key) _ [TStr key]); [by apply neat_plain, Hk|done].
  - apply (neat_app indent _ []); [by apply neat_blank|done].
Qed.

Lemma neat_object a body indent pre l comma : blanks indent -> neat a (pre ++ [TPunct "{"]) -> listed member_tokens body l false ->
  neat (a +:+ body +:+ endTag indent comma false true false) (pre ++ tree_tokens (JObj l) ++ comma_tokens comma).
Proof.
  intros Hi Ha Hb. change (tree_tokens (JObj l)) with ([TPunct "{"] ++ commas (map member_tokens l) ++ [TPunct "}"]).
  rewrite <- !app_assoc, app_assoc. apply neat_app; [done|].
  assert (neat body (commas (map member_tokens l))) as Hb'.
  { unfold listed in Hb. destruct l; [done|]. cbn [comma_tokens] in Hb. by rewrite app_nil_r in Hb. }
  apply neat_app; [done|]. by apply (endTag_neat indent comma false).
Qed.

Lemma neat_array a body indent pre l comma : blanks indent -> neat a (pre ++ [TPunct "["]) -> listed tree_tokens body l false ->
  neat (a +:+ body +:+ endTag indent comma true true false) (pre ++ tree_tokens (JArr l) ++ comma_tokens comma).
Proof.
  intros Hi Ha Hb. change (tree_tokens (JArr l)) with ([TPunct "["] ++ commas (map tree_tokens l) ++ [TPunct "]"]).
  rewrite <- !app_assoc, app_assoc. apply neat_app; [done|].
  assert (neat body (commas (map tree_tokens l))) as Hb'.
  { unfold listed in Hb. destruct l; [done|]. cbn [comma_tokens] in Hb. by rewrite app_nil_r in Hb. }
  apply neat_app; [done|]. by apply (endTag_neat indent comma true).
Qed.

(** The same as a member, or as an element. *)
Lemma object_member indent indent' key body l comma : blanks indent -> blanks indent' -> plain key -> listed member_tokens body l false ->
  neat (startTag2 indent key false true +:+ body +:+ endTag indent' comma false true false)
    (member_tokens (key, JObj l) ++ comma_tokens comma).
Proof.
  intros Hi Hi' Hk Hb. apply (neat_object _ _ _ [TStr key; TPunct ":"]); [done| |done]. by apply (startTag2_neat indent key false true).
Qed.

Lemma array_member indent indent' key body l comma : blanks indent -> blanks indent' -> plain key -> listed tree_tokens body l false ->
  neat (startTag2 indent key true true +:+ body +:+ endTag indent' comma true true false)
    (member_tokens (key, JArr l) ++ comma_tokens comma).
Proof.
  intros Hi Hi' Hk Hb. apply (neat_array _ _ _ [TStr key; TPunct ":"]); [done| |done]. by apply (startTag2_neat indent key true true).
Qed.

Lemma object_item indent indent' key body l comma : blanks indent -> blanks indent' -> listed member_tokens body l false ->
  neat (startTag2 indent key false false +:+ body +:+ endTag indent' comma false true false) (tree_tokens (JObj l) ++ comma_tokens comma).
Proof. intros Hi Hi' Hb. apply (neat_object _ _ _ []); [done| |done]. by apply (startTag2_neat indent key false false). Qed.

Lemma array_item indent indent' key body l comma : blanks indent -> blanks indent' -> listed tree_tokens body l false ->
  neat (startTag2 indent key true false +:+ body +:+ endTag indent' comma true true false) (tree_tokens (JArr l) ++ comma_tokens comma).
Proof. intros Hi Hi' Hb. apply (neat_array _ _ _ []); [done| |done]. by apply (startTag2_neat indent key true false). Qed.

(** *** Values *)

Lemma html_literal w : str_all literal_char w = true -> htmlEscape w = w.
Proof.
  intros Hw. unfold htmlEscape. rewrite c_str_id by (eapply str_all_impl; [|exact Hw]; by intros [[] [] [] [] [] [] [] []]).
  induction w as [|c w IH]; [done|]. rewrite str_all_cons, andb_true_iff in Hw. destruct Hw as [Hc Hw]. cbn [htmlEscape_loop].
  rewrite IH by done. assert (htmlEscape_char c = str1 c) as ->; [|done].
  by destruct c as [[] [] [] [] [] [] [] []].
Qed.

Lemma json_chars_literal w : str_all literal_char w = true -> json_chars w = w.
Proof.
  induction w as [|c w IH]; [done|]. rewrite str_all_cons, andb_true_iff. intros [Hc Hw]. cbn [json_chars].
  rewrite IH by done. assert (json_char c = str1 c) as ->; [|done]. by destruct c as [[] [] [] [] [] [] [] []].
Qed.

Lemma neat_literal_end w (comma : bool) : json_literal w = true -> neat (w +:+ (if comma then "," else "") +:+ nl) (TLit w :: comma_tokens comma).
Proof.
  intros [Hw Hn]%json_literal_chars. destruct comma.
  - rewrite <- app_assoc_str. change (TLit w :: comma_tokens true) with ((TLit w :: [TPunct ","]) ++ []).
    apply neat_app; [by apply neat_literal|done].
  - rewrite app_nil_l_str. by apply neat_literal.
Qed.

Lemma empty_html s : (if s =s "" then "" else htmlEscape s) = htmlEscape s.
Proof. by destruct (s =s "") eqn:E; [apply str_eqb_eq in E as ->|]. Qed.

(** A member with an escaped text, or with a literal. *)
Lemma valueTag1_text indent key s comma : blanks indent -> plain key ->
  neat (valueTag1 indent key s comma false false) (member_tokens (key, JStr (htmlEscape s)) ++ comma_tokens comma).
Proof.
  intros Hi Hk. unfold valueTag1. rewrite empty_html. apply (neat_app indent _ []); [by apply neat_blank|].
  apply (neat_app _ _ [TStr key; TPunct ":"]); [by apply neat_key|].
  apply (neat_app (quote _) _ [TStr (htmlEscape s)]); [apply neat_string|apply neat_comma].
Qed.

Lemma valueTag1_item indent key s comma : blanks indent ->
  neat (valueTag1 indent key s comma true false) (tree_tokens (JStr (htmlEscape s)) ++ comma_tokens comma).
Proof.
  intros Hi. unfold valueTag1. rewrite empty_html. apply (neat_app indent _ []); [by apply neat_blank|].
  apply (neat_app (quote _) _ [TStr (htmlEscape s)]); [apply neat_string|apply neat_comma].
Qed.

Lemma valueTag1_literal indent key w comma : blanks indent -> plain key -> json_literal w = true ->
  neat (valueTag1 indent key w comma false true) (member_tokens (key, JLit w) ++ comma_tokens comma).
Proof.
  intros Hi Hk Hw. destruct (json_literal_chars w Hw) as [Hl Hn]. unfold valueTag1, jsonInvalidCharsTransformation.
  rewrite empty_html, html_literal, json_chars_literal by done. apply (neat_app indent _ []); [by apply neat_blank|].
  apply (neat_app _ _ [TStr key; TPunct ":"]); [by apply neat_key|]. by apply neat_literal_end.
Qed.

Lemma valueTag1_literal_item indent key w comma : blanks indent -> json_literal w = true ->
  neat (valueTag1 indent key w comma true true) (tree_tokens (JLit w) ++ comma_tokens comma).
Proof.
  intros Hi Hw. destruct (json_literal_chars w Hw) as [Hl Hn]. unfold valueTag1, jsonInvalidCharsTransformation.
  rewrite empty_html, html_literal, json_chars_literal by done. apply (neat_app indent _ []); [by apply neat_blank|].
  by apply neat_literal_end.
Qed.

Lemma valueTag2_text indent key s comma : blanks indent -> plain key -> key <> "" ->
  neat (valueTag2 indent key s comma false) (member_tokens (key, JStr s) ++ comma_tokens comma).
Proof.
  intros Hi Hk Hn. unfold valueTag2. apply str_eqb_neq in Hn as ->. apply (neat_app indent _ []); [by apply neat_blank|].
  apply (neat_app _ _ [TStr key; TPunct ":"]); [by apply neat_key|].
  apply (neat_app (quote _) _ [TStr s]); [apply neat_string|apply neat_comma].
Qed.

Lemma valueTag2_literal indent key w comma : blanks indent -> plain key -> key <> "" -> json_literal w = true ->
  neat (valueTag2 indent key w comma true) (member_tokens (key, JLit w) ++ comma_tokens comma).
Proof.
  intros Hi Hk Hn Hw. destruct (json_literal_chars w Hw) as [Hl _]. unfold valueTag2, jsonInvalidCharsTransformation.
  rewrite json_chars_literal by done. apply str_eqb_neq in Hn as ->. apply (neat_app indent _ []); [by apply neat_blank|].
  apply (neat_app _ _ [TStr key; TPunct ":"]); [by apply neat_key|]. by apply neat_literal_end.
Qed.

(** *** Numbers *)

Lemma str_span_ends p s rest : str_all p s = true -> match rest with String c _ => p c = false | "" => True end ->
  str_span p (s +:+ rest) = (s, rest).
Proof.
  intros Hs Hr. induction s as [|c s IH].
  - rewrite app_nil_l_str. destruct rest as [|c rest]; [done|]. cbn [str_span]. by rewrite Hr.
  - rewrite str_all_cons in Hs. apply andb_true_iff in Hs as [Hc Hs]. rewrite app_cons_str. cbn [str_span]. by rewrite Hc, IH.
Qed.

Definition exponent_start (e : string) : Prop := match e with String c _ => c = "e"%char | "" => True end.

Lemma json_number_parts (neg : bool) int frac e : str_all isdigit int = true -> no_leading_zero int = true ->
  str_all isdigit frac = true -> json_exponent e = true -> exponent_start e ->
  json_number ((if neg then "-" else "") +:+ with_fraction int frac +:+ e) = true.
Proof.
  intros Hi Hl Hf He Hs. unfold no_leading_zero in Hl.
  assert (forall s, s = with_fraction int frac +:+ e -> (let '(i, r) := str_span isdigit s in
    negb (i =s "") && ((i =s "0") || negb (match i with String c _ => c =c "0"%char | "" => false end)) &&
    match r with
    | String c r' =>
        if c =c "."%char then let '(f, e) := str_span isdigit r' in negb (f =s "") && json_exponent e else json_exponent r
    | "" => true
    end) = true) as H.
  { intros s ->. unfold with_fraction. destruct (frac =s "") eqn:Ef.
    - rewrite str_span_ends; [|done|by destruct e as [|c e]; [|cbn in Hs; subst c]]. rewrite Hl. cbn [andb].
      destruct e as [|c e]; [done|]. cbn in Hs. subst c. exact He.
    - rewrite !app_assoc_str. rewrite str_span_ends; [|done|done]. rewrite Hl. cbn [andb].
      change ("." +:+ frac +:+ e) with (String "." (frac +:+ e)). cbv iota beta. rewrite char_eqb_refl.
      rewrite str_span_ends; [by rewrite Ef|done|]. by destruct e as [|c e]; [|cbn in Hs; subst c]. }
  unfold json_number. destruct neg.
  - change ("-" +:+ ?s) with (String "-" s). cbv iota beta. by apply H.
  - rewrite app_nil_l_str. destruct int as [|c r]; [done|]. rewrite str_all_cons in Hi. apply andb_true_iff in Hi as [Hc _].
    assert (with_fraction (String c r) frac +:+ e = String c ((if frac =s "" then r else r +:+ "." +:+ frac) +:+ e)) as E.
    { unfold with_fraction. by destruct (frac =s ""). }
    rewrite E. assert ((c =c "-"%char) = false) as -> by (by apply isdigit_neq). rewrite <- E. by apply H.
Qed.

Lemma str_all_take p n s : str_all p s = true -> str_all p (str_take n s) = true.
Proof.
  revert n. induction s as [|c s IH]; intros [|n]; try done. rewrite str_all_cons, andb_true_iff. intros [Hc Hs].
  cbn [str_take]. by rewrite str_all_cons, Hc, IH.
Qed.

Lemma str_all_drop p n s : str_all p s = true -> str_all p (str_drop n s) = true.
Proof.
  revert n. induction s as [|c s IH]; intros [|n]; try done. rewrite str_all_cons, andb_true_iff. intros [_ Hs]. by apply IH.
Qed.

Lemma no_leading_zero_take n s : no_leading_zero s = true -> no_leading_zero (str_take (S n) s) = true.
Proof.
  unfold no_leading_zero. destruct s as [|c s]; [done|]. cbn [str_take]. rewrite !andb_true_iff, !orb_true_iff, !str_eqb_eq.
  intros [_ [[= -> ->]|H]]; split; [done|left|done|by right]. by destruct n.
Qed.

Lemma leading_zeros_least fuel n d k : leading_zeros fuel n d k < k + Z.of_nat fuel -> d <= n * 10 ^ leading_zeros fuel n d k.
Proof.
  revert k. induction fuel as [|fuel IH]; intros k; cbn [leading_zeros]; [lia|].
  destruct (d <=? n * 10 ^ k) eqn:E; [by apply Z.leb_le in E|]. intros H. apply IH. lia.
Qed.

Lemma leading_zeros_from fuel n d k : k <= leading_zeros fuel n d k.
Proof.
  revert k. induction fuel as [|fuel IH]; intros k; cbn [leading_zeros]; [lia|].
  destruct (d <=? n * 10 ^ k); [lia|]. specialize (IH (k + 1)). lia.
Qed.

Lemma zeros_digits n : str_all isdigit (zeros n) = true.
Proof. by induction n. Qed.

Lemma strip_zeros_digits s : str_all isdigit s = true -> str_all isdigit (strip_zeros s) = true.
Proof. apply str_all_rstrip. Qed.

Lemma strip_zeros_show n : n <> 0%N -> strip_zeros (show_N n) <> "".
Proof.
  intros Hn Hs. apply str_rstrip_empty in Hs. pose proof (show_N_go_leading _ n "" (show_N_bound n) Hn) as H. fold (show_N n) in H.
  destruct (show_N n) as [|c r]; [done|]. rewrite str_all_cons in Hs. apply andb_true_iff in Hs as [Hs _]. congruence.
Qed.

(** The format %g prints a number of JSON; [q] is not zero where zeros are put in front. *)
Lemma format_digits_number (neg : bool) q x : (-4 <= x < 0 -> 0 < q) -> json_number ((if neg then "-" else "") +:+ format_digits q x) = true.
Proof.
  intros Hq. unfold format_digits. pose proof (show_N_digits (Z.to_N q)) as Hd. pose proof (show_N_leading (Z.to_N q)) as Hl.
  destruct ((-4 <=? x) && (x <? 6)) eqn:E.
  - apply andb_true_iff in E as [E1%Z.leb_le E2%Z.ltb_lt]. destruct (0 <=? x) eqn:E3.
    + apply Z.leb_le in E3. rewrite <- (app_nil_r_str (with_fraction _ _)).
      replace (Z.to_nat (x + 1)) with (S (Z.to_nat x)) by lia.
      apply json_number_parts; [by apply str_all_take|by apply no_leading_zero_take|by apply strip_zeros_digits, str_all_drop|done|done].
    + apply Z.leb_gt in E3. set (frac := zeros (Z.to_nat (- x - 1)) +:+ strip_zeros (show_N (Z.to_N q))).
      assert (strip_zeros (show_N (Z.to_N q)) <> "") as Hne by (apply strip_zeros_show; lia).
      assert ((frac =s "") = false) as Hf.
      { apply str_eqb_neq. intros Hz. unfold frac in Hz. by destruct (zeros _), (strip_zeros _). }
      assert ("0." +:+ frac = with_fraction "0" frac +:+ "") as -> by (unfold with_fraction; rewrite Hf; by rewrite app_nil_r_str).
      apply json_number_parts; [done|done| |done|done]. unfold frac. by rewrite str_all_app, zeros_digits, strip_zeros_digits.
  - apply json_number_parts; [by apply str_all_take|by apply (no_leading_zero_take 0)|by apply strip_zeros_digits, str_all_drop| |done].
    cbn [json_exponent]. change ("e" +:+ ?s) with (String "e" s).
    assert (forall d : ascii, (d =c "+"%char) || (d =c "-"%char) = true ->
      json_exponent (String "e" (String d (pad2 (show_N (Z.to_N (Z.abs x)))))) = true) as H.
    { intros d Hdd. cbn [json_exponent]. rewrite Hdd. cbn [orb andb]. change ("e" =c "e")%char with true. cbn [orb andb].
      pose proof (show_N_digits (Z.to_N (Z.abs x))) as Ha. destruct (show_N_cons (Z.to_N (Z.abs x))) as (c & r & Ec & _).
      unfold pad2. destruct (String.length _ <? 2)%nat.
      - change ("0" +:+ ?s) with (String "0" s). change (String "0" ?s =s "") with false. by rewrite str_all_cons, Ha.
      - rewrite Ec in Ha |- *. exact Ha. }
    destruct (x <? 0); by apply H.
Qed.

Lemma toString_double_literal v : is_nan v = false -> is_inf v = false -> json_literal (toString_double v) = true.
Proof.
  intros Hv Hv2. unfold json_literal. apply orb_true_iff. right. destruct v as [[]|[]| |s m e]; try done. unfold toString_double.
  set (nd := if 0 <=? e then (Zpos m * 2 ^ e, 1) else (Zpos m, 2 ^ (- e))). destruct nd as [n d] eqn:End.
  assert (0 < n /\ 0 < d) as [Hn Hd].
  { subst nd. destruct (0 <=? e) eqn:Ee; injection End as <- <-; [apply Z.leb_le in Ee|apply Z.leb_gt in Ee]; split; try lia;
      try (apply Z.mul_pos_pos; [lia|]); apply Z.pow_pos_nonneg; lia. }
  destruct (scale10 n d (5 - exponent10 n d)) as [n' d'] eqn:Esc.
  assert (-4 <= exponent10 n d < 0 -> 0 < round_half_even n' d') as Hq.
  { unfold exponent10 in Esc |- *. destruct (d <=? n) eqn:Edn.
    - destruct (show_N_cons (Z.to_N (n / d))) as (c & r & -> & _). cbn [String.length]. lia.
    - intros Hx. pose proof (leading_zeros_from 400 n d 1) as Hge. pose proof (leading_zeros_least 400 n d 1 ltac:(lia)) as Hle.
      set (k := leading_zeros 400 n d 1) in *. unfold scale10 in Esc.
      assert ((0 <=? 5 - - k) = true) as E0 by (apply Z.leb_le; lia). rewrite E0 in Esc. injection Esc as <- <-.
      assert (100000 <= n * 10 ^ (5 - - k) / d).
      { apply Z.div_le_lower_bound; [done|]. replace (5 - - k) with (5 + k) by lia. rewrite Z.pow_add_r by lia. nia. }
      unfold round_half_even. destruct (2 * _ ?= _); [destruct (Z.even _)| |]; lia. }
  destruct (round_half_even n' d' =? 1000000).
  - by apply (format_digits_number s 100000).
  - by apply (format_digits_number s).
Qed.

(** ** What the texts mean *)

Definition md_tree (md : Metadata) : jtree :=
  JObj [("name", JStr (htmlEscape (md_name md))); ("type", JStr (htmlEscape (md_type md)));
        ("value", JStr (htmlEscape (md_stringValue md)))].

(** A structured value; [esc] is what is done to its texts. *)
Fixpoint node_tree (esc : string -> string) (n : CompoundValueNode) : jtree :=
  match n with
  | CVN _ vt s d b _ _ _ childV =>
      match vt with
      | ValueTypeString => JStr (esc s)
      | ValueTypeNumber => JLit (toString_double d)
      | ValueTypeBoolean => JLit (JSON_BOOL b)
      | ValueTypeVector => JArr (map (node_tree esc) childV)
      | ValueTypeObject => JObj (map (fun c => (cvn_name c, node_tree esc c)) childV)
      | ValueTypeNone | ValueTypeUnknown => JLit "null"
      end
  end.

(** Its names need no escape; nor do its texts, where they are not escaped. *)
Fixpoint plain_node (texts : bool) (n : CompoundValueNode) : bool :=
  match n with
  | CVN _ _ s _ _ _ _ _ childV =>
      (negb texts || str_all plain_char s)
      && forallb (fun c => str_all plain_char (cvn_name c) && plain_node texts c) childV
  end.

Definition same_text (s : string) : string := s.

Lemma Metadata_neat md indent comma : blanks indent -> neat (Metadata_render md indent comma) (tree_tokens (md_tree md) ++ comma_tokens comma).
Proof.
  intros Hi. unfold Metadata_render, md_tree. assert (blanks (indent +:+ "  ")) as Hi2 by (by apply blanks_indent).
  rewrite <- (app_assoc_str (valueTag1 _ "type" _ _ _ _)), <- (app_assoc_str (valueTag1 _ "name" _ _ _ _)).
  apply object_item; [done|done|]. apply listed_cons; [by apply valueTag1_text|]. apply listed_cons; [by apply valueTag1_text|].
  apply listed_one. by apply valueTag1_text.
Qed.

Definition metadata_members (mdV : list Metadata) : list (string * jtree) :=
  if (length mdV =? 0)%nat then [] else [("metadatas", JArr (map md_tree mdV))].

Lemma MetadataVector_listed mdV indent comma : blanks indent ->
  listed member_tokens (MetadataVector_render mdV indent comma) (metadata_members mdV) comma.
Proof.
  intros Hi. unfold MetadataVector_render, metadata_members. destruct (length mdV =? 0)%nat; [done|]. apply listed_one.
  apply array_member; [done|done|done|]. apply listed_items. intros md c _. apply Metadata_neat. by apply blanks_indent.
Qed.

(** *** Structured values *)

Definition child_neat (n : CompoundValueNode) : Prop := forall ct size indent,
  ct = ValueTypeVector \/ ct = ValueTypeObject -> plain (cvn_name n) -> blanks indent ->
  neat (render_node false ct size indent n)
    ((if bool_decide (ct = ValueTypeVector) then tree_tokens (node_tree htmlEscape n)
      else member_tokens (cvn_name n, node_tree htmlEscape n)) ++ comma_tokens (cvn_siblingNo n <? size - 1)).

(** The children of a node, whatever is done for each. *)
Lemma children_listed {B} (toks : B -> list token) (f : CompoundValueNode -> string) (g : CompoundValueNode -> B) i childV size :
  (forall c, c ∈ childV -> neat (f c) (toks (g c) ++ comma_tokens (cvn_siblingNo c <? size - 1))) ->
  siblings i childV = true -> size = i + Z.of_nat (length childV) -> listed toks (concat_str (map f childV)) (map g childV) false.
Proof.
  revert i. induction childV as [|c r IH]; intros i Hf Hs Hz; [done|]. cbn [siblings] in Hs. apply andb_true_iff in Hs as [Hc Hs].
  apply Z.eqb_eq in Hc. change (concat_str (map f (c :: r))) with (f c +:+ concat_str (map f r)). cbn [map]. cbn [length] in Hz. apply listed_cons.
  - assert ((match map g r with [] => false | _ => true end) = (cvn_siblingNo c <? size - 1)) as ->.
    { destruct r as [|c2 r]; cbn [map length] in *; symmetry; [apply Z.ltb_ge|apply Z.ltb_lt]; lia. }
    apply Hf, elem_of_cons. by left.
  - apply (IH (i + 1)); [|done|lia]. intros c' Hc'. apply Hf, elem_of_cons. by right.
Qed.

Definition node_ok (n : CompoundValueNode) : bool :=
  numbered n && plain_node false n && sound (node_tree htmlEscape n).

Lemma node_ok_child n c : node_ok n = true -> cvn_valueType n = ValueTypeVector \/ cvn_valueType n = ValueTypeObject ->
  c ∈ cvn_childV n -> node_ok c = true /\ plain (cvn_name c).
Proof.
  destruct n as [name vt s d b sib path l childV]. unfold node_ok at 1. cbn [cvn_childV cvn_valueType numbered plain_node].
  rewrite !andb_true_iff, !forallb_forall. intros [[[_ Hn] [_ Hp]] Hs] Hvt Hc%list_elem_of_In.
  specialize (Hp c Hc). apply andb_true_iff in Hp as [Hp1 Hp2]. split; [|done]. unfold node_ok. rewrite (Hn c Hc), Hp2. cbn [andb].
  destruct Hvt as [-> | ->]; cbn [node_tree sound] in Hs; rewrite forallb_forall in Hs; [apply Hs, in_map|]; [done|].
  apply (Hs (cvn_name c, _)), in_map_iff. by exists c.
Qed.

Lemma node_ok_siblings n : node_ok n = true -> siblings 0 (cvn_childV n) = true.
Proof. destruct n as [name vt st d b sib path l childV]. unfold node_ok. cbn [cvn_childV numbered]. rewrite !andb_true_iff. tauto. Qed.

(** The children of a vector, and of an object. *)
Lemma vector_children childV indent : siblings 0 childV = true -> blanks indent ->
  (forall c, c ∈ childV -> child_neat c /\ plain (cvn_name c)) ->
  listed tree_tokens (concat_str (map (render_node false ValueTypeVector (Z.of_nat (length childV)) indent) childV))
    (map (node_tree htmlEscape) childV) false.
Proof.
  intros Hs Hi Hc. apply (children_listed _ _ _ 0 _ (Z.of_nat (length childV))); [|done|done].
  intros c Hin. destruct (Hc c Hin) as [H Hp]. apply (H ValueTypeVector); [by left|done|done].
Qed.

Lemma object_children childV indent : siblings 0 childV = true -> blanks indent ->
  (forall c, c ∈ childV -> child_neat c /\ plain (cvn_name c)) ->
  listed member_tokens (concat_str (map (render_node false ValueTypeObject (Z.of_nat (length childV)) indent) childV))
    (map (fun c => (cvn_name c, node_tree htmlEscape c)) childV) false.
Proof.
  intros Hs Hi Hc. apply (children_listed _ _ _ 0 _ (Z.of_nat (length childV))); [|done|done].
  intros c Hin. destruct (Hc c Hin) as [H Hp]. apply (H ValueTypeObject); [by right|done|done].
Qed.

Lemma JSON_BOOL_literal b : json_literal (JSON_BOOL b) = true.
Proof. by destruct b. Qed.

Lemma render_child n : node_ok n = true -> child_neat n.
Proof.
  induction n as [name vt s d b sib path l childV IH] using node_induction. intros Hok ct size indent Hct Hname Hi.
  assert (vt = ValueTypeVector \/ vt = ValueTypeObject -> forall c, c ∈ childV -> child_neat c /\ plain (cvn_name c)) as Hch.
  { intros Hvt c Hc. destruct (node_ok_child _ c Hok Hvt Hc) as [H1 H2]. split; [|done]. rewrite Forall_forall in IH. by apply IH. }
  pose proof (node_ok_siblings _ Hok) as Hs. cbn [cvn_childV] in Hs.
  assert (numbered (CVN name vt s d b sib path l childV) = true /\ sound (node_tree htmlEscape (CVN name vt s d b sib path l childV)) = true) as [Hn Hsd].
  { unfold node_ok in Hok. rewrite !andb_true_iff in Hok. tauto. }
  cbn [cvn_name] in Hname. cbn [render_node cvn_name cvn_siblingNo].
  assert (blanks (indent +:+ "  ")) as Hi2 by (by apply blanks_indent).
  destruct Hct as [-> | ->].
  - rewrite bool_decide_eq_true_2, bool_decide_eq_false_2 by done. destruct vt; cbn [node_tree] in *.
    + done.
    + by apply valueTag1_item.
    + by apply valueTag1_literal_item.
    + apply valueTag1_literal_item; [done|apply JSON_BOOL_literal].
    + apply array_item; [done|done|]. apply vector_children; [done|done|]. apply Hch. by left.
    + apply object_item; [done|done|]. apply object_children; [done|done|]. apply Hch. by right.
    + by apply valueTag1_literal_item.
  - rewrite (bool_decide_eq_false_2 (ValueTypeObject = _)), (bool_decide_eq_true_2 (ValueTypeObject = _)) by done. destruct vt; cbn [node_tree] in *.
    + done.
    + by apply valueTag1_text.
    + by apply valueTag1_literal.
    + apply valueTag1_literal; [done|done|apply JSON_BOOL_literal].
    + apply array_member; [done|done|done|]. apply vector_children; [done|done|]. apply Hch. by left.
    + apply object_member; [done|done|done|]. apply object_children; [done|done|]. apply Hch. by right.
    + by apply valueTag1_literal.
Qed.


(** *** Structured values in version 2 *)

Definition node_ok2 (n : CompoundValueNode) : bool :=
  numbered n && plain_node true n && sound (node_tree same_text n).

Lemma written_joined {A} (text : A -> string) (toks : A -> list token) l :
  Forall (fun x => written (text x) (toks x)) l -> written (join "," (map text l)) (commas (map toks l)).
Proof.
  intros H c ts0 Hc Hs. induction H as [|x l Hx H IH].
  - cbn [map join commas app]. rewrite app_nil_l_str. unfold neat. cbn [scan str1 scan_char]. rewrite Hs. by rewrite app_nil_r.
  - destruct l as [|y l]; [by apply Hx|].
    change (join "," (map text (x :: y :: l))) with (text x +:+ str1 "," +:+ join "," (map text (y :: l))).
    change (commas (map toks (x :: y :: l))) with (toks x ++ [TPunct ","] ++ commas (map toks (y :: l))).
    rewrite <- !app_assoc, !app_assoc_str, <- (app_assoc_str (text x)), (app_assoc (toks x)).
    apply neat_app; [|exact IH]. by apply Hx.
Qed.

Lemma neat_after s ts c r tr : written s ts -> blank c = true \/ punct c = true -> neat (String c r) tr -> neat (s +:+ String c r) (ts ++ tr).
Proof.
  intros Hw Hc Hr. assert (exists ts0, scan_start c = Some (ts0, Between) /\ literal_char c = false) as (ts0 & Hs & Hl).
  { destruct c as [[] [] [] [] [] [] [] []]; destruct Hc as [Hc|Hc]; try discriminate Hc; by eexists. }
  unfold neat in Hr. cbn [scan scan_char] in Hr. rewrite Hs in Hr. destruct (scan Between r) as [[tr' st]|] eqn:E; [|done].
  injection Hr as <- ->. change (String c r) with (str1 c +:+ r). rewrite <- app_assoc_str, app_assoc.
  apply neat_app; [by apply Hw|done].
Qed.

Lemma root_children n : numbered n = true -> cvn_valueType n = ValueTypeObject \/ cvn_valueType n = ValueTypeVector ->
  toJson_top n = join "," (map (item_text (cvn_valueType n)) (cvn_childV n)).
Proof.
  destruct n as [name vt s d b sib path l childV]. cbn [numbered cvn_valueType cvn_childV].
  intros [[_ Hs]%andb_true_iff Hc]%andb_true_iff Hvt.
  assert (concat_str (map (toJson false vt (Z.of_nat (length childV))) childV) = join "," (map (item_text vt) childV)) as Hch.
  { rewrite <- (children_text vt 0 childV), Z.add_0_l; [done| |done].
    rewrite forallb_forall in Hc. apply Forall_forall. intros c Hin size'. by apply toJson_child, Hc, list_elem_of_In. }
  unfold toJson_top. cbn -[concat_str join]. destruct Hvt as [-> | ->]; by rewrite Hch, app_nil_r_str.
Qed.

(** The text of an item of a vector, or of a member, and what it stands for. *)
Definition item_tokens (ct : ValueType) (c : CompoundValueNode) : list token :=
  (if bool_decide (ct = ValueTypeVector) then [] else [TStr (cvn_name c); TPunct ":"]) ++ tree_tokens (node_tree same_text c).

Lemma written_item ct c : plain (cvn_name c) -> written (json_text (content c)) (tree_tokens (node_tree same_text c)) ->
  written (item_text ct c) (item_tokens ct c).
Proof.
  intros Hp Hw c0 ts0 Hl Hs. unfold item_text, item_tokens. rewrite !app_assoc_str, <- !app_assoc.
  apply neat_app; [|by apply Hw]. destruct (bool_decide _); [done|].
  apply (neat_app (quote _) _ [TStr (cvn_name c)]); [by apply neat_plain|done].
Qed.

Lemma commas_items vt childV :
  vt = ValueTypeVector /\ commas (map (item_tokens vt) childV) = commas (map tree_tokens (map (node_tree same_text) childV)) \/
  vt <> ValueTypeVector /\ commas (map (item_tokens vt) childV)
    = commas (map member_tokens (map (fun c => (cvn_name c, node_tree same_text c)) childV)).
Proof.
  rewrite !map_map. destruct (decide (vt = ValueTypeVector)) as [->|Hne]; [left|right]; (split; [done|]).
  - apply (f_equal commas), map_ext. intros c. unfold item_tokens. by rewrite bool_decide_eq_true_2.
  - apply (f_equal commas), map_ext. intros c. unfold item_tokens. by rewrite bool_decide_eq_false_2.
Qed.

Lemma node_ok2_child n c : node_ok2 n = true -> cvn_valueType n = ValueTypeVector \/ cvn_valueType n = ValueTypeObject ->
  c ∈ cvn_childV n -> node_ok2 c = true /\ plain (cvn_name c).
Proof.
  destruct n as [name vt s d b sib path l childV]. unfold node_ok2 at 1. cbn [cvn_childV cvn_valueType numbered plain_node].
  rewrite !andb_true_iff, !forallb_forall. intros [[[_ Hn] [_ Hp]] Hs] Hvt Hc%list_elem_of_In.
  specialize (Hp c Hc). apply andb_true_iff in Hp as [Hp1 Hp2]. split; [|done]. unfold node_ok2. rewrite (Hn c Hc), Hp2. cbn [andb].
  destruct Hvt as [-> | ->]; cbn [node_tree sound] in Hs; rewrite forallb_forall in Hs; [by apply Hs, in_map|].
  apply (Hs (cvn_name c, _)), in_map_iff. by exists c.
Qed.

Lemma written_node n : node_ok2 n = true -> written (json_text (content n)) (tree_tokens (node_tree same_text n)).
Proof.
  induction n as [name vt s d b sib path l childV IH] using node_induction. intros Hok.
  assert (vt = ValueTypeVector \/ vt = ValueTypeObject ->
    Forall (fun c => written (item_text vt c) (item_tokens vt c)) childV) as Hch.
  { intros Hvt. rewrite Forall_forall in IH |- *. intros c Hc. destruct (node_ok2_child _ c Hok Hvt Hc) as [H1 H2].
    apply written_item; [done|]. by apply IH. }
  assert (sound (node_tree same_text (CVN name vt s d b sib path l childV)) = true /\ plain_node true (CVN name vt s d b sib path l childV) = true) as [Hsd Hp].
  { unfold node_ok2 in Hok. rewrite !andb_true_iff in Hok. tauto. }
  destruct vt; cbn [content node_tree json_text] in *; try (by apply written_literal).
  - cbn [plain_node negb orb] in Hp. apply andb_true_iff in Hp as [Hp _]. by apply neat_written, neat_plain.
  - apply neat_written. change (tree_tokens (JArr ?l)) with ([TPunct "["] ++ commas (map tree_tokens l) ++ [TPunct "]"]).
    apply (neat_app "[" _ [TPunct "["]); [done|].
    destruct (commas_items ValueTypeVector childV) as [[_ <-]|[? _]]; [|done]. rewrite <- items_text.
    apply (written_joined _ _ _ (Hch (or_introl eq_refl)) "]"%char [TPunct "]"]); done.
  - apply neat_written. change (tree_tokens (JObj ?l)) with ([TPunct "{"] ++ commas (map member_tokens l) ++ [TPunct "}"]).
    apply (neat_app "{" _ [TPunct "{"]); [done|].
    destruct (commas_items ValueTypeObject childV) as [[? _]|[_ <-]]; [done|]. rewrite <- members_text.
    apply (written_joined _ _ _ (Hch (or_intror eq_refl)) "}"%char [TPunct "}"]); done.
Qed.

(** *** The root *)

Section Trees.

Context (isodate2str : double -> string) (apiVersion attributeFormat : string) (outJson : bool).

Definition root_ok (c : CompoundValueNode) : Prop :=
  (cvn_valueType c = ValueTypeObject \/ cvn_valueType c = ValueTypeVector) /\
  (if apiVersion =s "v2" then node_ok2 c else node_ok c) = true.

Definition root_tree (c : CompoundValueNode) : jtree := node_tree (if apiVersion =s "v2" then same_text else htmlEscape) c.

Lemma compound_value_neat c indent comma : blanks indent -> root_ok c ->
  neat (compound_value apiVersion c indent comma) (member_tokens ("value", root_tree c) ++ comma_tokens comma).
Proof.
  intros Hi [Hvt Hok]. unfold compound_value, CompoundValueNode_render, root_tree.
  assert (blanks (indent +:+ "  ") /\ blanks (indent +:+ "    ")) as [Hi2 Hi4] by (split; by apply blanks_indent).
  destruct (apiVersion =s "v2").
  - assert (numbered c = true) as Hn by (unfold node_ok2 in Hok; rewrite !andb_true_iff in Hok; tauto).
    rewrite root_children by done.
    assert (written (join "," (map (item_text (cvn_valueType c)) (cvn_childV c))) (commas (map (item_tokens (cvn_valueType c)) (cvn_childV c)))) as Hw.
    { apply written_joined, Forall_forall. intros c' Hc. destruct (node_ok2_child c c' Hok) as [H1 H2]; [tauto|done|].
      apply written_item; [done|by apply written_node]. }
    set (isV := bool_decide (cvn_valueType c = ValueTypeVector)).
    assert (exists r, endTag (indent +:+ "  ") comma isV true false = String " " r \/
      exists d r', indent = String d r' /\ endTag (indent +:+ "  ") comma isV true false = String d r) as He.
    { destruct indent as [|d r']; [by eexists; left|]. eexists. right. by exists d, r'. }
    assert (neat (join "," (map (item_text (cvn_valueType c)) (cvn_childV c)) +:+ endTag (indent +:+ "  ") comma isV true false)
      (commas (map (item_tokens (cvn_valueType c)) (cvn_childV c)) ++ TPunct (if isV then "]"%char else "}"%char) :: comma_tokens comma)) as Hb.
    { pose proof (endTag_neat (indent +:+ "  ") comma isV Hi2) as Hend. destruct He as [r [He|(d & r' & -> & He)]]; rewrite He in Hend |- *.
      - apply neat_after; [done|by left|done].
      - apply neat_after; [done|left|done]. unfold blanks in Hi. rewrite str_all_cons in Hi. by apply andb_true_iff in Hi as [? _]. }
    pose proof (startTag2_neat (indent +:+ "  ") "value" isV true Hi2 (fun _ => eq_refl)) as Hst.
    pose proof (neat_app _ _ _ _ Hst Hb) as H. destruct c as [name vt s d b sib path l childV]. cbn [cvn_valueType cvn_childV] in *.
    assert (member_tokens ("value", node_tree same_text (CVN name vt s d b sib path l childV)) ++ comma_tokens comma
      = ([TStr "value"; TPunct ":"] ++ [TPunct (if isV then "["%char else "{"%char)]) ++ commas (map (item_tokens vt) childV)
        ++ TPunct (if isV then "]"%char else "}"%char) :: comma_tokens comma) as ->; [|exact H].
    subst isV. destruct (commas_items vt childV) as [[-> ->]|[Hne ->]].
    + rewrite bool_decide_eq_true_2 by done. cbn [node_tree app]. unfold member_tokens. cbn [fst snd app tree_tokens].
      by rewrite <- ?app_assoc.
    + rewrite bool_decide_eq_false_2 by done. destruct Hvt as [-> | ->]; [|done]. cbn [node_tree app]. unfold member_tokens at 1.
      cbn [fst snd app]. change (tree_tokens (JObj ?l)) with (TPunct "{" :: commas (map member_tokens l) ++ [TPunct "}"]).
      cbn [app]. by rewrite <- ?app_assoc.
  - pose proof (node_ok_siblings c Hok) as Hs. pose proof (node_ok_child c) as Hch.
    destruct c as [name vt s d b sib path l childV]. cbn [cvn_valueType cvn_childV] in *.
    assert (forall c, c ∈ childV -> child_neat c /\ plain (cvn_name c)) as Hc.
    { intros c Hc. destruct (Hch c Hok) as [H1 H2]; [tauto|done|]. split; [by apply render_child|done]. }
    cbn [render_node]. destruct Hvt as [-> | ->].
    + rewrite bool_decide_eq_false_2 by done. by apply object_member; [..|apply object_children].
    + rewrite bool_decide_eq_true_2 by done. by apply array_member; [..|apply vector_children].
Qed.

(** *** Attributes *)

Abbreviation as_object := (as_object attributeFormat outJson).

Definition value_tree (request : RequestType) (ca : ContextAttribute) : jtree :=
  match ca_compoundValueP ca with
  | Some c => root_tree c
  | None =>
      let '(text, withoutQuotes) := effective_value isodate2str ca in
      let text := response_value request text in
      if withoutQuotes then JLit text else JStr (if as_object then htmlEscape text else text)
  end.

(** The value can be shown: in a response to an update it is not, and must be a text. *)
Definition value_ok (request : RequestType) (ca : ContextAttribute) : Prop :=
  match ca_compoundValueP ca with
  | Some c => root_ok c
  | None => let '(text, withoutQuotes) := effective_value isodate2str ca in
            withoutQuotes = true -> json_literal (response_value request text) = true
  end.

Definition attribute_ok (request : RequestType) (ca : ContextAttribute) : Prop :=
  value_ok request ca /\ (as_object = true -> plain (ca_name ca)).

Definition attribute_tree (request : RequestType) (ca : ContextAttribute) : jtree :=
  JObj ((if as_object then [] else [("name", JStr (htmlEscape (ca_name ca)))])
        ++ [("type", JStr (htmlEscape (ca_type ca))); ("value", value_tree request ca)] ++ metadata_members (ca_metadataVector ca)).

Lemma has_metadata_members ca : (match metadata_members (ca_metadataVector ca) with [] => false | _ => true end) = has_metadata ca.
Proof. unfold has_metadata, metadata_members. by destruct (length _ =? 0)%nat. Qed.

Lemma object_value_neat request ca indent : blanks indent -> value_ok request ca -> as_object = true ->
  neat (match ca_compoundValueP ca with
        | None => let '(text, withoutQuotes) := effective_value isodate2str ca in
                  valueTag1 (indent +:+ "  ") "value" (response_value request text) (has_metadata ca) false withoutQuotes
        | Some c => compound_value apiVersion c indent (has_metadata ca)
        end) (member_tokens ("value", value_tree request ca) ++ comma_tokens (has_metadata ca)).
Proof.
  unfold value_ok, value_tree. intros Hi Hv ->. destruct (ca_compoundValueP ca) as [c|]; [by apply compound_value_neat|].
  assert (blanks (indent +:+ "  ")) as Hi2 by (by apply blanks_indent).
  destruct (effective_value isodate2str ca) as [text []]; [by apply valueTag1_literal; [..|apply Hv]|by apply valueTag1_text].
Qed.

Lemma list_value_neat request ca indent : blanks indent -> value_ok request ca -> as_object = false ->
  neat (match ca_compoundValueP ca with
        | None => let '(text, withoutQuotes) := effective_value isodate2str ca in
                  valueTag2 (indent +:+ "  ") "value" (response_value request text) (has_metadata ca) withoutQuotes
        | Some c => compound_value apiVersion c indent (has_metadata ca)
        end) (member_tokens ("value", value_tree request ca) ++ comma_tokens (has_metadata ca)).
Proof.
  unfold value_ok, value_tree. intros Hi Hv ->. destruct (ca_compoundValueP ca) as [c|]; [by apply compound_value_neat|].
  assert (blanks (indent +:+ "  ")) as Hi2 by (by apply blanks_indent).
  destruct (effective_value isodate2str ca) as [text []]; [by apply valueTag2_literal; [..|apply Hv]|by apply valueTag2_text].
Qed.

Abbreviation render_attribute := (ContextAttribute_render isodate2str apiVersion attributeFormat outJson).

Lemma group3 (a b c d e : string) : a +:+ b +:+ c +:+ d +:+ e = a +:+ (b +:+ c +:+ d) +:+ e.
Proof. by rewrite !app_assoc_str. Qed.

Lemma group4 (a b c d e f : string) : a +:+ b +:+ c +:+ d +:+ e +:+ f = a +:+ (b +:+ c +:+ d +:+ e) +:+ f.
Proof. by rewrite !app_assoc_str. Qed.

Lemma attribute_neat request ca indent comma : blanks indent -> attribute_ok request ca ->
  neat (render_attribute request ca indent comma false)
    ((if as_object then member_tokens (ca_name ca, attribute_tree request ca) else tree_tokens (attribute_tree request ca))
     ++ comma_tokens comma).
Proof.
  intros Hi [Hv Hn]. unfold ContextAttribute_render, attribute_tree. assert (blanks (indent +:+ "  ")) as Hi2 by (by apply blanks_indent).
  destruct as_object eqn:E.
  - unfold renderAsJsonObject. cbn [negb orb app]. specialize (Hn eq_refl). rewrite group3. apply object_member; [done|done|done|].
    apply listed_cons; [by apply valueTag1_text|]. apply listed_cons.
    + rewrite has_metadata_members. by apply object_value_neat.
    + by apply MetadataVector_listed.
  - cbn [negb orb app]. rewrite orb_true_r. cbn [orb]. rewrite group4. apply object_item; [done|done|].
    apply listed_cons; [by apply valueTag1_text|]. apply listed_cons; [by apply valueTag1_text|]. apply listed_cons.
    + rewrite has_metadata_members. by apply list_value_neat.
    + by apply MetadataVector_listed.
Qed.

(** What is rendered of the attributes of an entity. *)
Definition attributes_tree (request : RequestType) (cav : list ContextAttribute) : jtree :=
  if as_object then JObj (map (fun ca => (ca_name ca, attribute_tree request ca)) (remove_copies [] false cav))
  else JArr (map (attribute_tree request) cav).

Definition attributes_members (request : RequestType) (cav : list ContextAttribute) : list (string * jtree) :=
  if (length cav =? 0)%nat then [] else [("attributes", attributes_tree request cav)].

Lemma remove_copies_In ca added skip cav : ca ∈ remove_copies added skip cav -> ca ∈ cav.
Proof.
  revert added skip. induction cav as [|c cav IH]; intros added skip; [done|]. cbn [remove_copies].
  destruct skip; [|destruct (existsb _ _)]; rewrite ?elem_of_cons; intros H; try (destruct H as [->|H]; [by left|]); right; by eapply IH.
Qed.

Lemma attributes_listed request cav indent comma : blanks indent -> Forall (attribute_ok request) cav ->
  listed member_tokens (ContextAttributeVector_render isodate2str apiVersion attributeFormat outJson request cav indent comma false false)
    (attributes_members request cav) comma.
Proof.
  intros Hi Ha. unfold ContextAttributeVector_render, attributes_members, attributes_tree. destruct (length cav =? 0)%nat; [done|].
  assert (blanks (indent +:+ "  ")) as Hi2 by (by apply blanks_indent). rewrite Forall_forall in Ha.
  destruct as_object eqn:E; apply listed_one.
  - apply object_member; [done|done|done|]. apply listed_items. intros ca c Hin%remove_copies_In.
    pose proof (attribute_neat request ca (indent +:+ "  ") c Hi2 (Ha ca Hin)) as H. by rewrite E in H.
  - apply array_member; [done|done|done|]. apply listed_items. intros ca c Hin.
    pose proof (attribute_neat request ca (indent +:+ "  ") c Hi2 (Ha ca Hin)) as H. by rewrite E in H.
Qed.

(** *** Entities *)

(** The texts of an entity are escaped for HTML only. *)
Definition entity_plain (e : EntityId) : Prop :=
  plain (htmlEscape (eid_type e)) /\ plain (htmlEscape (eid_isPattern e)) /\ plain (htmlEscape (eid_id e)).

Definition entity_id_members (e : EntityId) : list (string * jtree) :=
  [("type", JStr (htmlEscape (eid_type e))); ("isPattern", JStr (htmlEscape (eid_isPattern e))); ("id", JStr (htmlEscape (eid_id e)))].

Lemma plain_member indent k s (last : string) ts : blanks indent -> plain k -> plain s -> neat last ts ->
  neat (indent +:+ quote k +:+ " : " +:+ quote s +:+ last) (member_tokens (k, JStr s) ++ ts).
Proof.
  intros Hi Hk Hs Hl. apply (neat_app indent _ []); [by apply neat_blank|].
  apply (neat_app (quote k) _ [TStr k]); [by apply neat_plain|]. apply (neat_app " : " _ [TPunct ":"]); [done|].
  apply (neat_app (quote s) _ [TStr s]); [by apply neat_plain|done].
Qed.

Lemma EntityId_listed e indent comma : blanks indent -> entity_plain e ->
  listed member_tokens (EntityId_render e indent comma false) (entity_id_members e) comma.
Proof.
  intros Hi (H1 & H2 & H3). unfold EntityId_render, entity_id_members, listed. rewrite app_nil_l_str, andb_true_r.
  change (commas _) with (member_tokens ("type", JStr (htmlEscape (eid_type e))) ++ [TPunct ","]
    ++ member_tokens ("isPattern", JStr (htmlEscape (eid_isPattern e))) ++ [TPunct ","] ++ member_tokens ("id", JStr (htmlEscape (eid_id e)))).
  rewrite <- !app_assoc. apply plain_member; [done|done|done|]. apply (neat_app "," _ [TPunct ","]); [done|].
  apply (neat_app nl _ []); [done|]. apply plain_member; [done|done|done|]. apply (neat_app "," _ [TPunct ","]); [done|].
  apply (neat_app nl _ []); [done|]. apply plain_member; [done|done|done|]. by destruct comma.
Qed.

(** The members of a contextElement; its domain attributes are empty here. *)
Definition element_members (request : RequestType) (e : EntityId) (cav : list ContextAttribute) : list (string * jtree) :=
  entity_id_members e ++ attributes_members request cav.

Lemma element_body_listed request e cav indent : blanks indent -> entity_plain e -> Forall (attribute_ok request) cav ->
  listed member_tokens
    (EntityId_render e (indent +:+ "  ") (negb (length cav =? 0)%nat) false
     +:+ ContextAttributeVector_render isodate2str apiVersion attributeFormat outJson request cav (indent +:+ "  ") false false false)
    (element_members request e cav) false.
Proof.
  intros Hi He Ha. assert (blanks (indent +:+ "  ")) as Hi2 by (by apply blanks_indent). apply listed_app; [|by apply attributes_listed].
  assert ((match attributes_members request cav with [] => false | _ => true end) = negb (length cav =? 0)%nat) as ->.
  { unfold attributes_members. by destruct (length cav =? 0)%nat. }
  by apply EntityId_listed.
Qed.

Lemma ContextElement_text request e cav indent comma :
  ContextElement_render isodate2str apiVersion attributeFormat outJson request e "" cav [] indent comma false
  = startTag2 indent "contextElement" false (negb (bool_decide (request = UpdateContext)))
    +:+ (EntityId_render e (indent +:+ "  ") (negb (length cav =? 0)%nat) false
         +:+ ContextAttributeVector_render isodate2str apiVersion attributeFormat outJson request cav (indent +:+ "  ") false false false)
    +:+ endTag indent comma false true false.
Proof.
  unfold ContextElement_render, AttributeDomainName_render, MetadataVector_render. cbn [length Nat.eqb negb orb].
  rewrite orb_false_r. by rewrite !app_nil_l_str, !app_assoc_str.
Qed.

(** *** Status codes *)

Definition status_tree (sc : StatusCode) : jtree :=
  JObj ([("code", JStr (show_Z (sc_code sc))); ("reasonPhrase", JStr (htmlEscape (httpStatusCodeString (sc_code sc))))]
        ++ (if negb (sc_details sc =s "") then [("details", JStr (htmlEscape (sc_details sc)))] else [])).

(** What rendering leaves of a status code. *)
Definition status_shown (sc : StatusCode) : StatusCode :=
  if sc_code sc =? SccNone then mkStatusCode SccReceiverInternalError " - ZERO code set to 500"
  else mkStatusCode (sc_code sc)
         (if str_contains (str1 "034") (c_str (sc_details sc)) then escape (c_str (sc_details sc)) else sc_details sc).

Lemma show_Z_plain n : plain (show_Z n).
Proof.
  unfold plain. unfold show_Z. destruct (n <? 0); [change ("-" +:+ ?s) with (String "-" s); rewrite str_all_cons; cbn [andb]|];
    (eapply str_all_impl; [|apply show_N_digits]; by intros [[] [] [] [] [] [] [] []]).
Qed.

Lemma status_tree_neat key sc indent comma : blanks indent -> plain key ->
  neat (startTag1 indent key true false
       +:+ valueTag (indent +:+ "  ") "code" (sc_code sc) true
       +:+ valueTag1 (indent +:+ "  ") "reasonPhrase" (httpStatusCodeString (sc_code sc)) (negb (sc_details sc =s "")) false false
       +:+ (if negb (sc_details sc =s "") then valueTag1 (indent +:+ "  ") "details" (sc_details sc) false false false else "")
       +:+ endTag indent comma false true false) (member_tokens (key, status_tree sc) ++ comma_tokens comma).
Proof.
  intros Hi Hk. assert (blanks (indent +:+ "  ")) as Hi2 by (by apply blanks_indent).
  rewrite <- (app_assoc_str (valueTag1 _ "reasonPhrase" _ _ _ _)), <- (app_assoc_str (valueTag _ _ _ _)).
  apply (neat_object _ _ _ [TStr key; TPunct ":"]); [done|by apply (startTag1_neat indent key true)|].
  unfold status_tree. cbn [app]. apply listed_cons.
  - unfold valueTag. apply plain_member; [done|done|apply show_Z_plain|done].
  - destruct (negb (sc_details sc =s "")); cbn [app].
    + apply listed_cons; [by apply valueTag1_text|]. apply listed_one. by apply valueTag1_text.
    + rewrite app_nil_r_str. apply listed_one. by apply valueTag1_text.
Qed.

Lemma StatusCode_render_total key sc indent comma showKey : exists text,
  StatusCode_render key sc indent comma showKey = Ret (text, status_shown sc) /\
  let sc := status_shown sc in
  text = startTag1 indent key showKey false
       +:+ valueTag (indent +:+ "  ") "code" (sc_code sc) true
       +:+ valueTag1 (indent +:+ "  ") "reasonPhrase" (httpStatusCodeString (sc_code sc)) (negb (sc_details sc =s "")) false false
       +:+ (if negb (sc_details sc =s "") then valueTag1 (indent +:+ "  ") "details" (sc_details sc) false false false else "")
       +:+ endTag indent comma false true false.
Proof.
  unfold StatusCode_render. assert ((if str_contains (str1 "034") (c_str (sc_details sc))
             then strReplace (String.length (sc_details sc) * 2) (sc_details sc) (str1 "034") (backslash +:+ str1 "034")
             else Ret (sc_details sc))
    = Ret (if str_contains (str1 "034") (c_str (sc_details sc)) then escape (c_str (sc_details sc)) else sc_details sc)) as ->.
  { destruct (str_contains _ _); [|done]. unfold strReplace. change (c_str (str1 "034")) with (str1 dquote).
    change (c_str (backslash +:+ str1 "034")) with (backslash +:+ str1 dquote). pose proof (length_c_str (sc_details sc)).
    rewrite strReplace_loop_escape; [done|lia|]. cbn [String.length]. lia. }
  cbn [mbind cpp_bind]. fold (status_shown sc). by eexists.
Qed.

Lemma StatusCode_rendered key sc indent comma : blanks indent -> plain key -> exists text,
  StatusCode_render key sc indent comma true = Ret (text, status_shown sc) /\
  neat text (member_tokens (key, status_tree (status_shown sc)) ++ comma_tokens comma).
Proof.
  intros Hi Hk. destruct (StatusCode_render_total key sc indent comma true) as (text & -> & ->).
  eexists. split; [done|]. by apply status_tree_neat.
Qed.

(** *** Requests and responses *)

Definition element_ok (request : RequestType) (e : EntityId) (cav : list ContextAttribute) : Prop :=
  entity_plain e /\ Forall (attribute_ok request) cav.

Definition cer_ok (request : RequestType) (cer : Cer) : Prop := element_ok request (cer_entity cer) (cer_attrs cer).

Definition cer_tree (request : RequestType) (cer : Cer) : jtree :=
  JObj [("contextElement", JObj (element_members request (cer_entity cer) (cer_attrs cer)));
        ("statusCode", status_tree (cer_status cer))].

Definition cer_shown (cer : Cer) : Cer := mkCer (cer_entity cer) (cer_attrs cer) (status_shown (cer_status cer)).
(** The element that rendering leaves. *)
Definition cer_left (cer : Cer) : Cer :=
  mkCer (cer_entity cer) (attributes_left attributeFormat outJson (cer_attrs cer)) (status_shown (cer_status cer)).

Abbreviation render_cer := (ContextElementResponse_render isodate2str apiVersion attributeFormat outJson).

Lemma cer_rendered request cer indent comma : request <> UpdateContext -> blanks indent -> cer_ok request cer -> exists text,
  render_cer request cer indent comma false = Ret (text, cer_left cer) /\
  neat text (tree_tokens (cer_tree request (cer_shown cer)) ++ comma_tokens comma).
Proof.
  intros Hr Hi [He Ha]. unfold ContextElementResponse_render. assert (blanks (indent +:+ "  ")) as Hi2 by (by apply blanks_indent).
  destruct (StatusCode_rendered "statusCode" (cer_status cer) (indent +:+ "  ") false Hi2 eq_refl) as (st & -> & Hst).
  cbn [mbind cpp_bind]. eexists. split; [done|]. rewrite ContextElement_text, bool_decide_eq_false_2 by done. cbn [negb].
  rewrite <- (app_assoc_str _ st). apply object_item; [done|done|]. apply listed_cons.
  - apply object_member; [done|done|done|]. by apply element_body_listed.
  - by apply listed_one.
Qed.

Lemma responses_rendered request cerV indent : request <> UpdateContext -> blanks indent -> Forall (cer_ok request) cerV -> exists texts,
  render_responses isodate2str apiVersion attributeFormat outJson request indent false cerV = Ret (texts, map cer_left cerV) /\
  listed tree_tokens texts (map (cer_tree request) (map cer_shown cerV)) false.
Proof.
  intros Hr Hi H. induction H as [|cer cerV Hc H IH]; [by exists ""|]. cbn [render_responses].
  destruct (cer_rendered request cer indent (negb (length cerV =? 0)%nat) Hr Hi Hc) as (t & -> & Ht).
  destruct IH as (ts & -> & Hts). cbn [mbind cpp_bind]. eexists. split; [done|]. cbn [map]. apply listed_cons; [|done].
  assert ((match map (cer_tree request) (map cer_shown cerV) with [] => false | _ => true end) = negb (length cerV =? 0)%nat) as ->
    by (by destruct cerV). done.
Qed.

Definition responses_members (request : RequestType) (cerV : list Cer) : list (string * jtree) :=
  if (length cerV =? 0)%nat then [] else [("contextResponses", JArr (map (cer_tree request) cerV))].

Lemma response_vector_rendered request cerV indent comma : request <> UpdateContext -> blanks indent -> Forall (cer_ok request) cerV ->
  exists text,
  ContextElementResponseVector_render isodate2str apiVersion attributeFormat outJson request cerV indent comma false
    = Ret (text, map cer_left cerV) /\
  listed member_tokens text (responses_members request (map cer_shown cerV)) comma.
Proof.
  intros Hr Hi H. unfold ContextElementResponseVector_render, responses_members. rewrite length_map. destruct (length cerV =? 0)%nat eqn:E.
  - apply Nat.eqb_eq, length_zero_iff_nil in E as ->. by exists "".
  - assert (blanks (indent +:+ "  ")) as Hi2 by (by apply blanks_indent).
    destruct (responses_rendered request cerV (indent +:+ "  ") Hr Hi2 H) as (ts & -> & Hts). cbn [mbind cpp_bind].
    eexists. split; [done|]. apply listed_one. by apply array_member.
Qed.

(** The values of what is rendered are values of JSON. *)

Lemma root_sound c : root_ok c -> sound (root_tree c) = true.
Proof.
  intros [_ H]. unfold root_tree. destruct (apiVersion =s "v2"); [unfold node_ok2 in H|unfold node_ok in H];
    by apply andb_true_iff in H as [_ H].
Qed.

Lemma members_sound o : Forall (fun kv => sound kv.2 = true) o -> sound (JObj o) = true.
Proof. intros H. cbn [sound]. apply forallb_forall. intros kv Hin%list_elem_of_In. rewrite Forall_forall in H. by apply H. Qed.

Lemma items_sound {A} (f : A -> jtree) l : Forall (fun x => sound (f x) = true) l -> sound (JArr (map f l)) = true.
Proof.
  intros H. cbn [sound]. apply forallb_forall. intros t (x & <- & Hin)%in_map_iff. apply list_elem_of_In in Hin.
  rewrite Forall_forall in H. by apply H.
Qed.

Lemma metadata_sound mdV : Forall (fun kv => sound kv.2 = true) (metadata_members mdV).
Proof.
  unfold metadata_members. destruct (length mdV =? 0)%nat; constructor; [|done]. apply items_sound, Forall_forall. intros md _. done.
Qed.

Lemma attribute_sound request ca : attribute_ok request ca -> sound (attribute_tree request ca) = true.
Proof.
  intros [Hv _]. apply members_sound. apply Forall_app. split; [by destruct as_object; repeat constructor|].
  apply Forall_app. split; [|apply metadata_sound]. constructor; [done|]. constructor; [|done]. cbn [snd].
  unfold value_ok in Hv. unfold value_tree. destruct (ca_compoundValueP ca) as [c|]; [by apply root_sound|].
  destruct (effective_value isodate2str ca) as [text []]; [by apply Hv|done].
Qed.

Lemma element_sound request e cav : Forall (attribute_ok request) cav -> sound (JObj (element_members request e cav)) = true.
Proof.
  intros Ha. apply members_sound, Forall_app. split; [by repeat constructor|]. unfold attributes_members.
  destruct (length cav =? 0)%nat; constructor; [|done]. cbn [snd]. unfold attributes_tree. rewrite Forall_forall in Ha. destruct as_object.
  - apply members_sound, Forall_forall. intros [k v] Hin%list_elem_of_In. apply in_map_iff in Hin as (ca & [= <- <-] & Hin).
    apply list_elem_of_In, remove_copies_In in Hin. by apply attribute_sound, Ha.
  - apply items_sound, Forall_forall. intros ca Hin. by apply attribute_sound, Ha.
Qed.

Lemma status_sound sc : sound (status_tree sc) = true.
Proof. unfold status_tree. by destruct (negb (sc_details sc =s "")). Qed.

Lemma responses_sound request cerV : Forall (cer_ok request) cerV ->
  Forall (fun kv => sound kv.2 = true) (responses_members request (map cer_shown cerV)).
Proof.
  intros H. unfold responses_members. destruct (length _ =? 0)%nat; constructor; [|done]. apply items_sound.
  rewrite Forall_forall in H |- *. intros cer Hin%list_elem_of_In. apply in_map_iff in Hin as (cer' & <- & Hin).
  apply list_elem_of_In in Hin. destruct (H cer' Hin) as [_ Ha]. apply members_sound. constructor; [by apply element_sound|].
  constructor; [apply status_sound|done].
Qed.

(** A whole text. *)
Lemma object_reads indent key body o : blanks indent -> listed member_tokens body o false -> Forall (fun kv => sound kv.2 = true) o ->
  read_json (startTag1 indent key false false +:+ body +:+ endTag indent false false true false) = Some (JObj o).
Proof.
  intros Hi Hb Hs. apply written_read; [|by apply members_sound]. apply neat_written.
  pose proof (neat_object (startTag1 indent key false false) body indent [] o false Hi (startTag1_neat indent key false Hi ltac:(done)) Hb) as H.
  cbn [app comma_tokens] in H. by rewrite app_nil_r in H.
Qed.

Definition request_members (upcr : UpdateContextRequest) : list (string * jtree) :=
  (if (length (upcr_contextElementVector upcr) =? 0)%nat then []
   else [("contextElements", JArr (map (fun ce => JObj (element_members UpdateContext ce.1 ce.2)) (upcr_contextElementVector upcr)))])
  ++ [("updateAction", JStr (htmlEscape (upcr_updateActionType upcr)))].

Lemma request_reads upcr indent : blanks indent -> upcr_updateActionType upcr <> "" ->
  Forall (fun ce => element_ok UpdateContext ce.1 ce.2) (upcr_contextElementVector upcr) ->
  read_json (UpdateContextRequest_render isodate2str apiVersion attributeFormat outJson upcr indent) = Some (JObj (request_members upcr)).
Proof.
  intros Hi Ha He. unfold UpdateContextRequest_render. rewrite <- (app_assoc_str (ContextElementVector_render _ _ _ _ _ _ _)).
  assert (blanks (indent +:+ "  ")) as Hi2 by (by apply blanks_indent).
  assert (blanks ((indent +:+ "  ") +:+ "  ")) as Hi4 by (by apply blanks_indent). apply object_reads; [done| |].
  - unfold request_members. apply listed_app.
    + unfold ContextElementVector_render. destruct (length _ =? 0)%nat; [done|]. apply listed_one. apply array_member; [done|done|done|].
      apply listed_items. intros [e cav] comma Hin. rewrite Forall_forall in He. destruct (He _ Hin) as [H1 H2]. cbn [fst snd] in *.
      rewrite ContextElement_text, bool_decide_eq_true_2 by done. apply object_item; [done|done|]. by apply element_body_listed.
    + unfold UpdateActionType_render. apply str_eqb_neq in Ha as ->. apply listed_one. by apply valueTag1_text.
  - apply Forall_app. split; [|by repeat constructor]. destruct (length _ =? 0)%nat; constructor; [|done]. apply items_sound.
    rewrite Forall_forall in He |- *. intros ce Hin. destruct (He _ Hin) as [_ H]. by apply element_sound.
Qed.

(** The text of an update request that is sent to a context provider is one JSON value,
    which a reader reads as the entities of the request, with their attributes, values and
    metadata, and the action. *)
Theorem UpdateContextRequest_render_reads upcr indent : blanks indent -> upcr_updateActionType upcr <> "" ->
  Forall (fun ce => element_ok UpdateContext ce.1 ce.2) (upcr_contextElementVector upcr) ->
  read_json (UpdateContextRequest_render isodate2str apiVersion attributeFormat outJson upcr indent) = Some (JObj (request_members upcr)).
Proof. apply request_reads. Qed.

(** What is read of a response; rendering turns a response without elements into an error. *)
Definition response_shown (upcrs : UpdateContextResponse) : UpdateContextResponse :=
  let code := sc_code (upcrs_errorCode upcrs) in
  let cerV := upcrs_contextElementResponseVector upcrs in
  if negb (code =? SccNone) && negb (code =? SccOk) then mkUpdateContextResponse cerV (status_shown (upcrs_errorCode upcrs))
  else if (length cerV =? 0)%nat
  then mkUpdateContextResponse cerV (status_shown (mkStatusCode SccContextElementNotFound (sc_details (upcrs_errorCode upcrs))))
  else mkUpdateContextResponse (map cer_shown cerV) (upcrs_errorCode upcrs).

(** The response that rendering leaves. *)
Definition response_left (upcrs : UpdateContextResponse) : UpdateContextResponse :=
  let code := sc_code (upcrs_errorCode upcrs) in
  let cerV := upcrs_contextElementResponseVector upcrs in
  if negb (code =? SccNone) && negb (code =? SccOk) then mkUpdateContextResponse cerV (status_shown (upcrs_errorCode upcrs))
  else if (length cerV =? 0)%nat
  then mkUpdateContextResponse cerV (status_shown (mkStatusCode SccContextElementNotFound (sc_details (upcrs_errorCode upcrs))))
  else mkUpdateContextResponse (map cer_left cerV) (upcrs_errorCode upcrs).

Definition response_members (upcrs : UpdateContextResponse) : list (string * jtree) :=
  let code := sc_code (upcrs_errorCode upcrs) in
  if negb (code =? SccNone) && negb (code =? SccOk) then [("errorCode", status_tree (upcrs_errorCode upcrs))]
  else responses_members RtUpdateContextResponse (upcrs_contextElementResponseVector upcrs).

Lemma responses_left request cerV indent : exists texts,
  render_responses isodate2str apiVersion attributeFormat outJson request indent false cerV = Ret (texts, map cer_left cerV).
Proof.
  induction cerV as [|cer cerV IH]; [by exists ""|]. cbn [render_responses]. unfold ContextElementResponse_render.
  destruct (StatusCode_render_total "statusCode" (cer_status cer) (indent +:+ "  ") false true) as (st & -> & _). cbn [mbind cpp_bind].
  destruct IH as [texts ->]. cbn [mbind cpp_bind]. by eexists.
Qed.

Lemma response_rendered upcrs indent : exists text,
  UpdateContextResponse_render isodate2str apiVersion attributeFormat outJson upcrs indent = Ret (text, response_left upcrs).
Proof.
  pose proof responses_left as Hr.
  destruct upcrs as [cerV sc]. unfold UpdateContextResponse_render, response_left, response_shown. cbn [upcrs_errorCode upcrs_contextElementResponseVector].
  destruct (negb (sc_code sc =? SccNone) && negb (sc_code sc =? SccOk)).
  - destruct (StatusCode_render_total "errorCode" sc (indent +:+ "  ") false true) as (st & -> & _). cbn [mbind cpp_bind]. by eexists.
  - unfold ContextElementResponseVector_render. destruct (length cerV =? 0)%nat.
    + destruct (StatusCode_render_total "errorCode" (mkStatusCode SccContextElementNotFound (sc_details sc)) (indent +:+ "  ") false true)
        as (st & -> & _). cbn [mbind cpp_bind]. by eexists.
    + destruct (Hr RtUpdateContextResponse cerV ((indent +:+ "  ") +:+ "  ")) as [texts ->]. cbn [mbind cpp_bind]. by eexists.
Qed.

(** C35. Every response to an update is rendered: escaping the quotes of its details stays inside
    the buffer and ends, whatever they are, and the response is left as [response_left] says. *)
Theorem UpdateContextResponse_render_total upcrs indent : exists text,
  UpdateContextResponse_render isodate2str apiVersion attributeFormat outJson upcrs indent = Ret (text, response_left upcrs).
Proof. apply response_rendered. Qed.

Theorem UpdateContextResponse_render_reads upcrs indent : blanks indent ->
  Forall (cer_ok RtUpdateContextResponse) (upcrs_contextElementResponseVector upcrs) -> exists text,
  UpdateContextResponse_render isodate2str apiVersion attributeFormat outJson upcrs indent = Ret (text, response_left upcrs) /\
  read_json text = Some (JObj (response_members (response_shown upcrs))).
Proof.
  intros Hi Hc. assert (blanks (indent +:+ "  ")) as Hi2 by (by apply blanks_indent). destruct upcrs as [cerV sc].
  unfold UpdateContextResponse_render, response_left, response_shown. cbn [upcrs_errorCode upcrs_contextElementResponseVector] in *.
  destruct (negb (sc_code sc =? SccNone) && negb (sc_code sc =? SccOk)) eqn:E.
  - destruct (StatusCode_rendered "errorCode" sc (indent +:+ "  ") false Hi2 eq_refl) as (st & -> & Hst). cbn [mbind cpp_bind].
    eexists. split; [done|]. unfold response_members. cbn [upcrs_errorCode].
    assert (sc_code (status_shown sc) = sc_code sc) as ->.
    { unfold status_shown. by destruct (sc_code sc =? SccNone). }
    rewrite E. apply object_reads; [done| |]; [by apply listed_one|]. constructor; [apply status_sound|done].
  - destruct (length cerV =? 0)%nat.
    + destruct (StatusCode_rendered "errorCode" (mkStatusCode SccContextElementNotFound (sc_details sc)) (indent +:+ "  ") false Hi2 eq_refl)
        as (st & -> & Hst). cbn [mbind cpp_bind]. eexists. split; [done|]. unfold response_members. cbn [upcrs_errorCode].
      apply object_reads; [done| |]; [by apply listed_one|]. constructor; [apply status_sound|done].
    + destruct (response_vector_rendered RtUpdateContextResponse cerV (indent +:+ "  ") false) as (t & -> & Ht); [done|done|done|].
      cbn [mbind cpp_bind]. eexists. split; [done|]. unfold response_members. cbn [upcrs_errorCode upcrs_contextElementResponseVector].
      rewrite E. apply object_reads; [done|done|]. by apply responses_sound.
Qed.

Definition notification_members (subscriptionId originator : string) (cerV : list Cer) : list (string * jtree) :=
  [("subscriptionId", JStr (htmlEscape (if subscriptionId =s "" then "000000000000000000000000" else subscriptionId)))]
  ++ (if originator =s "" then [] else [("originator", JStr (htmlEscape originator))])
  ++ responses_members NotifyContext cerV.

Theorem NotifyContextRequest_render_reads subscriptionId originator cerV indent : blanks indent ->
  originator <> "" \/ cerV <> [] -> Forall (cer_ok NotifyContext) cerV -> exists text,
  NotifyContextRequest_render isodate2str apiVersion attributeFormat outJson subscriptionId originator cerV indent
    = Ret (text, map cer_left cerV) /\
  read_json text = Some (JObj (notification_members subscriptionId originator (map cer_shown cerV))).
Proof.
  intros Hi Ho Hc. assert (blanks (indent +:+ "  ")) as Hi2 by (by apply blanks_indent). unfold NotifyContextRequest_render.
  destruct (response_vector_rendered NotifyContext cerV (indent +:+ "  ") false) as (t & -> & Ht); [done|done|done|].
  cbn [mbind cpp_bind]. eexists. split; [done|]. rewrite group3.
  assert (Forall (fun kv => sound kv.2 = true) (notification_members subscriptionId originator (map cer_shown cerV))) as Hs.
  { unfold notification_members. apply Forall_app. split; [by repeat constructor|]. apply Forall_app.
    split; [destruct (originator =s ""); by repeat constructor|by apply responses_sound]. }
  assert ((match responses_members NotifyContext (map cer_shown cerV) with [] => false | _ => true end) = negb (length cerV =? 0)%nat) as Hl.
  { unfold responses_members. rewrite length_map. by destruct (length cerV =? 0)%nat. }
  apply object_reads; [done| |done]. unfold notification_members. cbn [app]. destruct (originator =s "") eqn:E; cbn [app].
  - rewrite app_nil_l_str. apply listed_cons; [|done]. apply str_eqb_eq in E. destruct Ho as [?|Ho]; [done|].
    rewrite Hl. destruct cerV; [done|]. by apply valueTag1_text.
  - apply listed_cons; [by apply valueTag1_text|]. apply listed_cons; [|done]. rewrite Hl. by apply valueTag1_text.
Qed.

Definition query_members (cerV : list Cer) (errorCode : StatusCode) (shown : bool) : list (string * jtree) :=
  responses_members QueryContext cerV ++ (if shown then [("errorCode", status_tree errorCode)] else []).

(** The error code that a query response shows, and whether it does. *)
Definition query_shows (cerV : list Cer) (errorCode : StatusCode) : bool :=
  negb (sc_code errorCode =? SccNone) && negb (sc_code errorCode =? SccOk)
  || (length cerV =? 0)%nat || negb (sc_details errorCode =s "").

Theorem QueryContextResponse_render_reads cerV errorCode indent : blanks indent -> Forall (cer_ok QueryContext) cerV -> exists text errorCode',
  QueryContextResponse_render isodate2str apiVersion attributeFormat outJson cerV errorCode indent
    = Ret (text, (map cer_left cerV, errorCode')) /\
  read_json text = Some (JObj (query_members (map cer_shown cerV) errorCode' (query_shows cerV errorCode))).
Proof.
  intros Hi Hc. assert (blanks (indent +:+ "  ")) as Hi2 by (by apply blanks_indent). unfold QueryContextResponse_render.
  fold (query_shows cerV errorCode).
  set (ec := if negb (negb (sc_code errorCode =? SccNone) && negb (sc_code errorCode =? SccOk)) && negb (length cerV =? 0)%nat
                && negb (sc_details errorCode =s "") && (sc_code errorCode =? SccNone)
             then mkStatusCode SccOk (sc_details errorCode) else errorCode).
  destruct (response_vector_rendered QueryContext cerV (indent +:+ "  ") (query_shows cerV errorCode)) as (t & -> & Ht); [done|done|done|].
  cbn [mbind cpp_bind]. destruct (query_shows cerV errorCode) eqn:Eq.
  - destruct (StatusCode_rendered "errorCode" ec (indent +:+ "  ") false Hi2 eq_refl) as (st & -> & Hst). cbn [mbind cpp_bind].
    assert ((sc_code (status_shown ec) =? SccNone) = false) as ->.
    { unfold status_shown. destruct (sc_code ec =? SccNone) eqn:E; [done|exact E]. }
    cbn [andb mbind cpp_bind]. exists (startTag1 indent "queryContextResponse" false false +:+ t +:+ st +:+ "" +:+ endTag indent false false true false),
      (status_shown ec). split; [done|]. rewrite group3. apply object_reads; [done| |].
    + unfold query_members. rewrite app_nil_r_str. apply listed_app; [done|]. by apply listed_one.
    + apply Forall_app. split; [by apply responses_sound|]. constructor; [apply status_sound|done].
  - cbn [mbind cpp_bind]. assert ((sc_code ec =? SccNone) && (length cerV =? 0)%nat = false) as ->.
    { unfold query_shows in Eq. apply orb_false_iff in Eq as [[_ ->]%orb_false_iff _]. apply andb_false_r. }
    cbn [mbind cpp_bind]. do 2 eexists. split; [done|]. rewrite group3. apply object_reads; [done| |].
    + unfold query_members. rewrite !app_nil_r_str, app_nil_r. done.
    + unfold query_members. rewrite app_nil_r. by apply responses_sound.
Qed.

End Trees.

(** ** Witnesses *)

Definition point_value : CompoundValueNode :=
  parse_compound ValueTypeObject (JObject [("x", JNumber (double_of_Z 3)); ("tags", JArray [JString "a(b)"; JBool true; JNull])]).

Definition room_attrs : list ContextAttribute :=
  [mkContextAttribute "temp" "T" [Metadata_string "unit" "" "C=1" S754_nan false] ValueTypeNumber "" (SFdiv 53 1024 (double_of_Z 43) (double_of_Z 2))
     false "" true false None false;
   mkContextAttribute "pos" "P" [] ValueTypeObject "" S754_nan false "" true false (Some point_value) false].

Definition room_request : UpdateContextRequest := mkUpdateContextRequest [(mkEntityId "Room" "R" "false" "", room_attrs)] "UPDATE" "".
Definition no_date (_ : double) : string := "".

Lemma UpdateContextRequest_render_reads_witness :
  read_json (UpdateContextRequest_render no_date "v2" "" true room_request "") = Some (JObj (request_members no_date "v2" "" true room_request)).
Proof.
  apply (UpdateContextRequest_render_reads no_date "v2" "" true room_request ""); [reflexivity|discriminate|].
  assert (forall s, as_object "" true = true -> plain s) as Hobj by (intros s H; vm_compute in H; discriminate H).
  constructor; [|constructor]. split; [repeat split; vm_compute; reflexivity|].
  constructor; [split; [intros _; vm_compute; reflexivity|apply Hobj]|].
  constructor; [|constructor]. split; [|apply Hobj]. split; [left; reflexivity|vm_compute; reflexivity].
Defined.

Example room_request_read : exists o l,
  read_json (UpdateContextRequest_render no_date "v1" "" true room_request "") = Some (JObj o) /\
  o = [("contextElements", JArr [JObj ([("type", JStr "R"); ("isPattern", JStr "false"); ("id", JStr "Room")] ++ [("attributes", JArr l)])]);
       ("updateAction", JStr "UPDATE")] /\
  l = [JObj [("name", JStr "temp"); ("type", JStr "T"); ("value", JLit "21.5");
             ("metadatas", JArr [JObj [("name", JStr "unit"); ("type", JStr ""); ("value", JStr "C&#61;1")]])];
       JObj [("name", JStr "pos"); ("type", JStr "P");
             ("value", JObj [("x", JLit "3"); ("tags", JArr [JStr "a&#40;b&#41;"; JLit "true"; JLit "null"])])]].
Proof. do 2 eexists. split; [vm_compute; reflexivity|]. split; reflexivity. Qed.

(** A backslash in the id of an entity is printed as it is: what is read is another id. *)
Example backslash_id : exists o o',
  read_json (UpdateContextRequest_render no_date "v1" "" true
    (mkUpdateContextRequest [(mkEntityId ("a" +:+ backslash +:+ "b") "" "false" "", [])] "UPDATE" "") "") = Some (JObj o) /\
  o = [("contextElements", JArr [JObj o']); ("updateAction", JStr "UPDATE")] /\
  o' = [("type", JStr ""); ("isPattern", JStr "false"); ("id", JStr ("a" +:+ str1 "008"))].
Proof. do 2 eexists. split; [vm_compute; reflexivity|]. split; reflexivity. Qed.

(** A response to an update leaves out the value of an attribute, but not the member: where
    the value is a number nothing is printed for it, and the response is not JSON. *)
Definition number_response : UpdateContextResponse :=
  mkUpdateContextResponse [mkCer (mkEntityId "Room" "R" "false" "") [ContextAttribute_number "temp" "T" (double_of_Z 21) true false]
                             (mkStatusCode SccOk "")] (mkStatusCode SccOk "").

Example number_response_unreadable : exists text upcrs,
  UpdateContextResponse_render no_date "v1" "" true number_response "" = Ret (text, upcrs) /\ read_json text = None.
Proof. do 2 eexists. split; [reflexivity|]. vm_compute. reflexivity. Qed.

(** Of three attributes of one name, the second is removed and the third is kept. *)
Example third_copy_kept : forall ca, ca_name ca = "temp" -> remove_copies [] false [ca; ca; ca] = [ca; ca].
Proof. intros ca Hn. cbn [remove_copies List.filter app existsb]. by rewrite Hn. Qed.
