(* ===== verification/Alarm.v ===== *)
(** * The alarm manager

    alarmMgr/AlarmManager.cpp.  First the methods run one after the other, each as a
    function on the state of the manager; then the methods run by several threads, as a
    step relation whose steps are the pieces of code the semaphore makes atomic (dbError
    and dbErrorReset test dbOk before they take it). *)

From S2P Require Import Prelude.

Open Scope Z_scope.

(** ** State *)

Record AlarmManager := mkAlarmManager {
  badInputs : Z;
  badInputResets : Z;
  notificationErrors : Z;
  notificationErrorResets : Z;
  dbErrors : Z;
  dbErrorResets : Z;
  dbOk : bool;
  notificationV : gmap string Z;
  badInputV : gmap string Z;
  notificationErrorLogAlways : bool;
  badInputLogAlways : bool;
  dbErrorLogAlways : bool
}.

Definition AlarmManager_new : AlarmManager := mkAlarmManager 0 0 0 0 0 0 true ∅ ∅ false false false.

(** AlarmManager::init, the semaphore apart. *)
Definition init (logAlreadyRaisedAlarms : bool) (m : AlarmManager) : AlarmManager :=
  mkAlarmManager (badInputs m) (badInputResets m) (notificationErrors m) (notificationErrorResets m)
    (dbErrors m) (dbErrorResets m) (dbOk m) (notificationV m) (badInputV m)
    logAlreadyRaisedAlarms logAlreadyRaisedAlarms logAlreadyRaisedAlarms.

Definition set_logs (n b d : bool) (m : AlarmManager) : AlarmManager :=
  mkAlarmManager (badInputs m) (badInputResets m) (notificationErrors m) (notificationErrorResets m)
    (dbErrors m) (dbErrorResets m) (dbOk m) (notificationV m) (badInputV m) n b d.
Definition notificationErrorLogAlwaysSet (b : bool) (m : AlarmManager) : AlarmManager :=
  set_logs b (badInputLogAlways m) (dbErrorLogAlways m) m.
Definition badInputLogAlwaysSet (b : bool) (m : AlarmManager) : AlarmManager :=
  set_logs (notificationErrorLogAlways m) b (dbErrorLogAlways m) m.
Definition dbErrorLogAlwaysSet (b : bool) (m : AlarmManager) : AlarmManager :=
  set_logs (notificationErrorLogAlways m) (badInputLogAlways m) b m.

Definition set_db (errors resets : Z) (ok : bool) (m : AlarmManager) : AlarmManager :=
  mkAlarmManager (badInputs m) (badInputResets m) (notificationErrors m) (notificationErrorResets m)
    errors resets ok (notificationV m) (badInputV m)
    (notificationErrorLogAlways m) (badInputLogAlways m) (dbErrorLogAlways m).
Definition set_notification (errors resets : Z) (v : gmap string Z) (m : AlarmManager) : AlarmManager :=
  mkAlarmManager (badInputs m) (badInputResets m) errors resets (dbErrors m) (dbErrorResets m) (dbOk m)
    v (badInputV m) (notificationErrorLogAlways m) (badInputLogAlways m) (dbErrorLogAlways m).
Definition set_badInput (inputs resets : Z) (v : gmap string Z) (m : AlarmManager) : AlarmManager :=
  mkAlarmManager inputs resets (notificationErrors m) (notificationErrorResets m) (dbErrors m)
    (dbErrorResets m) (dbOk m) (notificationV m) v
    (notificationErrorLogAlways m) (badInputLogAlways m) (dbErrorLogAlways m).

(** ** Methods: the value returned, and the state after *)

(** The critical sections of dbError and dbErrorReset. *)
Definition dbError_section (m : AlarmManager) : AlarmManager :=
  set_db (int64 (dbErrors m + 1)) (dbErrorResets m) false m.
Definition dbErrorReset_section (m : AlarmManager) : AlarmManager :=
  set_db (dbErrors m) (int64 (dbErrorResets m + 1)) true m.

Definition dbError (m : AlarmManager) : bool * AlarmManager :=
  if negb (dbOk m) then (false, m) else (true, dbError_section m).

Definition dbErrorReset (m : AlarmManager) : bool * AlarmManager :=
  if dbOk m then (false, m) else (true, dbErrorReset_section m).

Definition notificationError (url : string) (m : AlarmManager) : bool * AlarmManager :=
  match notificationV m !! url with
  | Some n =>
      (false, set_notification (notificationErrors m) (notificationErrorResets m)
                (<[url := int32 (n + 1)]> (notificationV m)) m)
  | None =>
      (true, set_notification (int64 (notificationErrors m + 1)) (notificationErrorResets m)
               (<[url := 1]> (notificationV m)) m)
  end.

Definition notificationErrorReset (url : string) (m : AlarmManager) : bool * AlarmManager :=
  match notificationV m !! url with
  | None => (false, m)
  | Some _ =>
      (true, set_notification (notificationErrors m) (int64 (notificationErrorResets m + 1))
               (delete url (notificationV m)) m)
  end.

(** badInput; [badInputSeen] is the variable of the calling thread. *)
Definition badInput (ip : string) (badInputSeen : bool) (m : AlarmManager) : bool * bool * AlarmManager :=
  if badInputSeen then (false, true, m)
  else
    match badInputV m !! ip with
    | Some n =>
        (false, true, set_badInput (badInputs m) (badInputResets m) (<[ip := int32 (n + 1)]> (badInputV m)) m)
    | None =>
        (true, true, set_badInput (int64 (badInputs m + 1)) (badInputResets m) (<[ip := 1]> (badInputV m)) m)
    end.

Definition badInputReset (ip : string) (m : AlarmManager) : bool * AlarmManager :=
  match badInputV m !! ip with
  | None => (false, m)
  | Some _ =>
      (true, set_badInput (badInputs m) (int64 (badInputResets m + 1)) (delete ip (badInputV m)) m)
  end.

(** The active alarms, those raised and those released. *)
Definition dbErrorsGet (m : AlarmManager) : bool * Z * Z := (negb (dbOk m), dbErrors m, dbErrorResets m).
Definition notificationErrorGet (m : AlarmManager) : Z * Z * Z :=
  (Z.of_nat (size (notificationV m)), notificationErrors m, notificationErrorResets m).
Definition badInputGet (m : AlarmManager) : Z * Z * Z :=
  (Z.of_nat (size (badInputV m)), badInputs m, badInputResets m).

(** ** Threads *)

(** Where a thread is: outside, or between the test of dbOk and the semaphore. *)
Inductive place := Outside | RaisingDb | ReleasingDb.

Record system := mkSystem {
  sys_mgr : AlarmManager;
  sys_place : gmap N place;
  sys_seen : gmap N bool
}.

Definition place_of (s : system) (t : N) : place := default Outside (sys_place s !! t).
Definition seen_of (s : system) (t : N) : bool := default false (sys_seen s !! t).
Definition with_mgr (m : AlarmManager) (s : system) : system := mkSystem m (sys_place s) (sys_seen s).
Definition move (t : N) (p : place) (s : system) : system :=
  mkSystem (sys_mgr s) (<[t := p]> (sys_place s)) (sys_seen s).

(** A call of badInput by thread [t]. *)
Definition after_badInput (s : system) (t : N) (ip : string) : system :=
  let '(_, seen, m) := badInput ip (seen_of s t) (sys_mgr s) in
  mkSystem m (sys_place s) (<[t := seen]> (sys_seen s)).

Inductive step : system -> system -> Prop :=
  | StepDbErrorTest s t : place_of s t = Outside -> dbOk (sys_mgr s) = true ->
      step s (move t RaisingDb s)
  | StepDbErrorRaise s t : place_of s t = RaisingDb ->
      step s (move t Outside (with_mgr (dbError_section (sys_mgr s)) s))
  | StepDbResetTest s t : place_of s t = Outside -> dbOk (sys_mgr s) = false ->
      step s (move t ReleasingDb s)
  | StepDbResetRelease s t : place_of s t = ReleasingDb ->
      step s (move t Outside (with_mgr (dbErrorReset_section (sys_mgr s)) s))
  | StepNotificationError s t url : place_of s t = Outside ->
      step s (with_mgr (notificationError url (sys_mgr s)).2 s)
  | StepNotificationErrorReset s t url : place_of s t = Outside ->
      step s (with_mgr (notificationErrorReset url (sys_mgr s)).2 s)
  | StepBadInput s t ip : place_of s t = Outside ->
      step s (after_badInput s t ip)
  | StepBadInputReset s t ip : place_of s t = Outside ->
      step s (with_mgr (badInputReset ip (sys_mgr s)).2 s).

Definition start : system := mkSystem AlarmManager_new ∅ ∅.

Definition reachable (s : system) : Prop := rtc step start s.

(** ** Counters modulo 2^64 *)

Definition eq64 (a b : Z) : Prop := exists k, a = b + k * 2 ^ 64.

Lemma eq64_int64 a b : eq64 a b -> eq64 (int64 a) b.
Proof.
  intros [k ->]. unfold int64, wrap. change (64 - 1) with 63.
  pose proof (Z.div_mod (b + k * 2 ^ 64 + 2 ^ 63) (2 ^ 64) ltac:(lia)) as H.
  exists (k - (b + k * 2 ^ 64 + 2 ^ 63) / 2 ^ 64). lia.
Qed.

Lemma eq64_up a b c : eq64 (a - b) c -> eq64 (int64 (a + 1) - b) (c + 1).
Proof.
  intros [k H]. destruct (eq64_int64 (a + 1) (a + 1)) as [j ->]; [by exists 0; lia|].
  exists (k + j). lia.
Qed.

Lemma eq64_down a b c : eq64 (a - b) c -> eq64 (a - int64 (b + 1)) (c - 1).
Proof.
  intros [k H]. destruct (eq64_int64 (b + 1) (b + 1)) as [j ->]; [by exists 0; lia|].
  exists (k - j). lia.
Qed.

(** Raised minus released is what is active, for the alarms kept in a map. *)
Definition maps_balanced (m : AlarmManager) : Prop :=
  eq64 (notificationErrors m - notificationErrorResets m) (Z.of_nat (size (notificationV m))) /\
  eq64 (badInputs m - badInputResets m) (Z.of_nat (size (badInputV m))).

Definition db_balanced (m : AlarmManager) : Prop :=
  eq64 (dbErrors m - dbErrorResets m) (if dbOk m then 0 else 1).

Lemma size_insert_new (m : gmap string Z) i x : m !! i = None ->
  Z.of_nat (size (<[i := x]> m)) = Z.of_nat (size m) + 1.
Proof. intros H. rewrite map_size_insert_None by done. lia. Qed.

Lemma size_insert_old (m : gmap string Z) i x y : m !! i = Some y ->
  size (<[i := x]> m) = size m.
Proof. intros H. by rewrite map_size_insert_Some by (by exists y). Qed.

Lemma size_delete_old (m : gmap string Z) i y : m !! i = Some y ->
  Z.of_nat (size (delete i m)) = Z.of_nat (size m) - 1.
Proof.
  intros H. rewrite map_size_delete_Some by (by exists y).
  assert (size m <> 0)%nat as Hn by (intros E; apply map_size_empty_inv in E; by subst m). lia.
Qed.

Lemma notificationError_balanced url m : maps_balanced m -> maps_balanced (notificationError url m).2.
Proof.
  intros [H1 H2]. unfold notificationError. destruct (notificationV m !! url) eqn:E; (split; [|done]); cbn.
  - by rewrite (size_insert_old _ _ _ _ E).
  - rewrite size_insert_new by done. by apply eq64_up.
Qed.

Lemma notificationErrorReset_balanced url m : maps_balanced m -> maps_balanced (notificationErrorReset url m).2.
Proof.
  intros [H1 H2]. unfold notificationErrorReset. destruct (notificationV m !! url) eqn:E; [|done].
  split; [|done]. cbn. rewrite (size_delete_old _ _ _ E). by apply eq64_down.
Qed.

Lemma badInput_balanced ip seen m : maps_balanced m -> maps_balanced (badInput ip seen m).2.
Proof.
  intros [H1 H2]. unfold badInput. destruct seen; [done|].
  destruct (badInputV m !! ip) eqn:E; (split; [done|]); cbn.
  - by rewrite (size_insert_old _ _ _ _ E).
  - rewrite size_insert_new by done. by apply eq64_up.
Qed.

Lemma badInputReset_balanced ip m : maps_balanced m -> maps_balanced (badInputReset ip m).2.
Proof.
  intros [H1 H2]. unfold badInputReset. destruct (badInputV m !! ip) eqn:E; [|done].
  split; [done|]. cbn. rewrite (size_delete_old _ _ _ E). by apply eq64_down.
Qed.

(** C39. Whatever the threads do and however they interleave, the number of raised minus
    released notification errors is the number of active ones, and so for bad inputs
    (counters being 64-bit). *)
Theorem alarms_balanced s : reachable s -> maps_balanced (sys_mgr s).
Proof.
  revert s. apply (rtc_ind_r (fun s => maps_balanced (sys_mgr s)) start).
  - split; exists 0; done.
  - intros s s' _ H IH. destruct H; cbn; try done.
    + by apply notificationError_balanced.
    + by apply notificationErrorReset_balanced.
    + pose proof (badInput_balanced ip (seen_of s t) _ IH) as Hb.
      unfold after_badInput. by destruct (badInput ip (seen_of s t) (sys_mgr s)) as [[? ?] ?].
    + by apply badInputReset_balanced.
Qed.

Lemma alarms_balanced_witness :
  let s := with_mgr (notificationError "http://x" AlarmManager_new).2 start in
  reachable s /\ maps_balanced (sys_mgr s).
Proof.
  cbv zeta.
  assert (reachable (with_mgr (notificationError "http://x" AlarmManager_new).2 start)) as H.
  { apply rtc_once. exact (StepNotificationError start 0%N "http://x" eq_refl). }
  split; [exact H|]. exact (alarms_balanced _ H).
Defined.

(** One thread at a time, the database alarm alternates: dbError raises it only when
    it is not active, dbErrorReset releases it only when it is, and raised minus released
    is 1 when it is active and 0 when not.  With two threads this breaks: both may see
    dbOk before either takes the semaphore, and one alarm is raised (or released) twice. *)
Theorem db_alarm_race :
  (forall m, db_balanced m -> db_balanced (dbError m).2 /\ db_balanced (dbErrorReset m).2 /\
     (dbError m).1 = dbOk m /\ (dbErrorReset m).1 = negb (dbOk m)) /\
  (exists s, reachable s /\ (forall t, place_of s t = Outside) /\ ~ db_balanced (sys_mgr s)
     /\ dbErrorsGet (sys_mgr s) = (true, 2, 0)).
Proof.
  split.
  - intros m H. unfold db_balanced, dbError, dbErrorReset in *.
    destruct (dbOk m) eqn:E; cbn; rewrite ?E; split_and!; try done.
    + by apply (eq64_up _ _ 0).
    + by apply (eq64_down _ _ 1).
  - set (s1 := move 0 RaisingDb start). set (s2 := move 1 RaisingDb s1).
    set (s3 := move 0 Outside (with_mgr (dbError_section (sys_mgr s2)) s2)).
    set (s4 := move 1 Outside (with_mgr (dbError_section (sys_mgr s3)) s3)).
    exists s4. split_and!.
    + eapply rtc_l; [exact (StepDbErrorTest start 0%N eq_refl eq_refl)|].
      eapply rtc_l; [exact (StepDbErrorTest s1 1%N eq_refl eq_refl)|].
      eapply rtc_l; [exact (StepDbErrorRaise s2 0%N eq_refl)|].
      apply rtc_once. exact (StepDbErrorRaise s3 1%N eq_refl).
    + intros t. unfold place_of, s4, s3, s2, s1, move, with_mgr, start. cbn [sys_place].
      destruct (decide (t = 1%N)) as [->|H1]; [by rewrite lookup_insert_eq|].
      destruct (decide (t = 0%N)) as [->|H0];
        rewrite !lookup_insert_ne by done; [by rewrite lookup_insert_eq|].
      by rewrite lookup_empty.
    + intros [k Hk]. change (2 = 1 + k * 2 ^ 64) in Hk. lia.
    + reflexivity.
Qed.

Lemma seen_for_ever s s' t : rtc step s s' -> seen_of s t = true -> seen_of s' t = true.
Proof.
  induction 1 as [|x y z Hxy _ IH]; [done|]. intros Hs. apply IH. clear IH.
  destruct Hxy as [| | | | | |s t0 ip _|]; try exact Hs. unfold after_badInput, seen_of in *.
  destruct (badInput ip _ _) as [[r seen] m] eqn:E. cbn.
  destruct (decide (t0 = t)) as [->|Hne]; [|by rewrite lookup_insert_ne].
  rewrite lookup_insert_eq. rewrite Hs in E. unfold badInput in E. by injection E as <- <- <-.
Qed.

(** A thread reports at most one bad input in its life: badInputSeen, meant to mean
    "already reported for this request", is never set back, so after the first badInput
    call of a thread that raises an alarm every later call of that thread returns false
    and changes nothing, whatever happened in between. *)
Theorem badInput_once s s' t ip ip' :
  (badInput ip (seen_of s t) (sys_mgr s)).1.1 = true -> rtc step (after_badInput s t ip) s' ->
  badInput ip' (seen_of s' t) (sys_mgr s') = (false, true, sys_mgr s').
Proof.
  intros Hr H. assert (seen_of s' t = true) as ->; [|done].
  eapply seen_for_ever; [exact H|]. unfold after_badInput.
  destruct (badInput ip (seen_of s t) (sys_mgr s)) as [[r seen] m] eqn:E. cbn in Hr. subst r.
  unfold seen_of at 1. cbn. rewrite lookup_insert_eq. cbn. unfold badInput in E.
  by repeat case_match; simplify_eq.
Qed.

Lemma badInput_once_witness :
  let s := after_badInput start 7 "1.2.3.4" in
  badInput "5.6.7.8" (seen_of s 7) (sys_mgr s) = (false, true, sys_mgr s).
Proof.
  exact (badInput_once start (after_badInput start 7 "1.2.3.4") 7 "1.2.3.4" "5.6.7.8"
    eq_refl (rtc_refl _ _)).
Defined.
