(* ===== verification/NotifyQueue.v ===== *)
(** * The queue of notifications

    What is sent for a notification (ngsiNotify/QueueNotifier.cpp, Notifier.cpp), the bounded
    queue between the threads of requests and the workers that send (common/SyncQOverflow.h,
    ngsiNotify/QueueWorkers.cpp) with its counters (QueueStatistics.cpp), and the thread that
    sends one notification (senderThread.cpp).  The queue and its workers are a step
    relation: a step is what happens under one mutex, or on one counter.  The payload, the
    clocks and the result of sending (libcurl) are arguments. *)

From S2P Require Import Prelude Strings Ngsi SubSync Alarm.

Open Scope Z_scope.

(** ** Time *)

Record timespec := mkTimespec { tv_sec : Z; tv_nsec : Z }.
#[export] Instance timespec_eq_dec : EqDecision timespec.
Proof. solve_decision. Defined.

Definition clock_difftime (endTime startTime : timespec) : timespec :=
  let nsec := tv_nsec endTime - tv_nsec startTime in
  let sec := tv_sec endTime - tv_sec startTime in
  if nsec <? 0 then mkTimespec (sec - 1) (nsec + 1000000000) else mkTimespec sec nsec.

(** The accumulated time. *)
Definition clock_addtime (accTime diffTime : timespec) : timespec :=
  let nsec := tv_nsec accTime + tv_nsec diffTime in
  let sec := tv_sec accTime + tv_sec diffTime in
  if 1000000000 <=? nsec then mkTimespec (sec + 1) (nsec - 1000000000) else mkTimespec sec nsec.

(** ** What is sent *)

Record SenderThreadParams := mkParams {
  sp_ip : string;
  sp_port : Z;
  sp_protocol : string;
  sp_verb : string;
  sp_tenant : string;
  sp_servicePath : string;
  sp_xauthToken : string;
  sp_resource : string;
  sp_content_type : string;
  sp_content : string;
  sp_renderFormat : string;
  sp_fiwareCorrelator : string;
  sp_timeStamp : timespec
}.
#[export] Instance SenderThreadParams_eq_dec : EqDecision SenderThreadParams.
Proof. solve_decision. Defined.

(** The Fiware-ServicePath header: the paths of the entities, but none when all are "/". *)
Definition spathList (paths : list string) : string :=
  let l := foldl (fun l p => (if l =s "" then l else l +:+ ",") +:+ p) "" paths in
  if existsb (fun p => negb (p =s "/")) paths then l else "".

(** sendNotifyContextRequest of both classes, up to the queue or the new thread: None for a
    URL that is not well formed. *)
Definition notification_params (paths : list string) (payload url tenant xauthToken fiwareCorrelator : string)
    (renderFormat : RenderFormat) (now : timespec) : cpp (option SenderThreadParams) :=
  u ← parseUrl url;
  Ret (match u : option Url with
       | None => None
       | Some u =>
           Some (mkParams (host u) (port u mod 2 ^ 16) (protocol u) "POST" tenant (spathList paths) xauthToken
                   (path u) "application/json" payload (renderFormatToString renderFormat false)
                   fiwareCorrelator now)
       end).

(** Notifier::sendNotifyContextAvailabilityRequest: the protocol and the service path are not set. *)
Definition availability_params (payload url tenant fiwareCorrelator : string) (renderFormat : RenderFormat)
    : cpp (option SenderThreadParams) :=
  u ← parseUrl url;
  Ret (match u : option Url with
       | None => None
       | Some u =>
           Some (mkParams (host u) (port u mod 2 ^ 16) "" "POST" tenant "" "" (path u) "application/json" payload
                   (renderFormatToString renderFormat false) fiwareCorrelator (mkTimespec 0 0))
       end).

(** The name of the receiver in alarms. *)
Definition receiver (p : SenderThreadParams) : string := sp_ip p +:+ ":" +:+ show_Z (sp_port p) +:+ sp_resource p.

(** ** The bounded queue *)

Record SyncQOverflow (A : Type) := mkQueue { q_queue : list A; q_max_size : nat }.
Arguments mkQueue {A} _ _.
Arguments q_queue {A} _.
Arguments q_max_size {A} _.

Definition try_push {A} (element : A) (q : SyncQOverflow A) : bool * SyncQOverflow A :=
  if (length (q_queue q) <? q_max_size q)%nat then (true, mkQueue (q_queue q ++ [element]) (q_max_size q))
  else (false, q).

(** pop, when the queue is not empty. *)
Definition pop {A} (q : SyncQOverflow A) : option (A * SyncQOverflow A) :=
  match q_queue q with
  | [] => None
  | element :: queue => Some (element, mkQueue queue (q_max_size q))
  end.

(** ** Counters *)

Record QueueStatistics := mkStats {
  noOfNotificationsQueueIn : Z;
  noOfNotificationsQueueOut : Z;
  noOfNotificationsQueueReject : Z;
  noOfNotificationsQueueSentOK : Z;
  noOfNotificationsQueueSentError : Z;
  timeInQ : timespec;
  queueSize : Z
}.

Definition stats_new : QueueStatistics := mkStats 0 0 0 0 0 (mkTimespec 0 0) 0.

Definition incIn (s : QueueStatistics) : QueueStatistics :=
  mkStats (int32 (noOfNotificationsQueueIn s + 1)) (noOfNotificationsQueueOut s) (noOfNotificationsQueueReject s)
    (noOfNotificationsQueueSentOK s) (noOfNotificationsQueueSentError s) (timeInQ s) (queueSize s).
Definition incOut (s : QueueStatistics) : QueueStatistics :=
  mkStats (noOfNotificationsQueueIn s) (int32 (noOfNotificationsQueueOut s + 1)) (noOfNotificationsQueueReject s)
    (noOfNotificationsQueueSentOK s) (noOfNotificationsQueueSentError s) (timeInQ s) (queueSize s).
Definition incReject (s : QueueStatistics) : QueueStatistics :=
  mkStats (noOfNotificationsQueueIn s) (noOfNotificationsQueueOut s) (int32 (noOfNotificationsQueueReject s + 1))
    (noOfNotificationsQueueSentOK s) (noOfNotificationsQueueSentError s) (timeInQ s) (queueSize s).
Definition incSentOK (s : QueueStatistics) : QueueStatistics :=
  mkStats (noOfNotificationsQueueIn s) (noOfNotificationsQueueOut s) (noOfNotificationsQueueReject s)
    (int32 (noOfNotificationsQueueSentOK s + 1)) (noOfNotificationsQueueSentError s) (timeInQ s) (queueSize s).
Definition incSentError (s : QueueStatistics) : QueueStatistics :=
  mkStats (noOfNotificationsQueueIn s) (noOfNotificationsQueueOut s) (noOfNotificationsQueueReject s)
    (noOfNotificationsQueueSentOK s) (int32 (noOfNotificationsQueueSentError s + 1)) (timeInQ s) (queueSize s).
Definition addTimeInQWithSize (diff : timespec) (qSize : Z) (s : QueueStatistics) : QueueStatistics :=
  mkStats (noOfNotificationsQueueIn s) (noOfNotificationsQueueOut s) (noOfNotificationsQueueReject s)
    (noOfNotificationsQueueSentOK s) (noOfNotificationsQueueSentError s) (clock_addtime (timeInQ s) diff) qSize.

(** reset, in the absence of other threads; queueSize is kept. *)
Definition reset (s : QueueStatistics) : QueueStatistics := mkStats 0 0 0 0 0 (mkTimespec 0 0) (queueSize s).

(** ** The workers *)

(** Where a worker is: about to test the queue in pop, waiting on the condition variable, or
    with an element: popped; counted as out; with the size of the queue read; to be sent. *)
Inductive worker :=
  | Checking
  | Waiting
  | Popped (p : SenderThreadParams)
  | Counted (p : SenderThreadParams)
  | Sized (p : SenderThreadParams) (estimatedQSize : Z)
  | Sending (p : SenderThreadParams).
#[export] Instance worker_eq_dec : EqDecision worker.
Proof. solve_decision. Defined.

(** Of the threads of requests, how many have pushed and not yet notified, have notified and not
    yet counted, were refused and have not yet counted.  Accepted, popped, done, refused:
    the history, which no code reads. *)
Record notifier := mkNotifier {
  nq_queue : SyncQOverflow SenderThreadParams;
  nq_workers : list worker;
  nq_notifying : nat;
  nq_counting : nat;
  nq_rejecting : nat;
  nq_stats : QueueStatistics;
  nq_simulated : Z;
  nq_alarms : AlarmManager;
  nq_accepted : list SenderThreadParams;
  nq_popped : list SenderThreadParams;
  nq_done : list SenderThreadParams;
  nq_refused : nat
}.

(** What a worker does with the result of httpRequestSendWithCurl, 0 for success. *)
Definition after_send (r : Z) (p : SenderThreadParams) (st : QueueStatistics) (m : AlarmManager)
    : QueueStatistics * AlarmManager :=
  if r =? 0 then (incSentOK st, (notificationErrorReset (receiver p) m).2)
  else (incSentError st, (notificationError (receiver p) m).2).

Inductive label := Arrival | Spurious | Internal.

Inductive nq_step (simulatedNotification : bool) : label -> notifier -> notifier -> Prop :=
  | StepPush q q' ws n c r st sim m acc pd dn rf p : try_push p q = (true, q') ->
      nq_step _ Arrival (mkNotifier q ws n c r st sim m acc pd dn rf)
        (mkNotifier q' ws (S n) c r st sim m (acc ++ [p]) pd dn rf)
  | StepRefuse q q' ws n c r st sim m acc pd dn rf p : try_push p q = (false, q') ->
      nq_step _ Arrival (mkNotifier q ws n c r st sim m acc pd dn rf)
        (mkNotifier q' ws n c (S r) st sim m acc pd dn (S rf))
  | StepNotifyOne q l l' n c r st sim m acc pd dn rf :
      nq_step _ Internal (mkNotifier q (l ++ Waiting :: l') (S n) c r st sim m acc pd dn rf)
        (mkNotifier q (l ++ Checking :: l') n (S c) r st sim m acc pd dn rf)
  | StepNotifyNone q ws n c r st sim m acc pd dn rf : Waiting ∉ ws ->
      nq_step _ Internal (mkNotifier q ws (S n) c r st sim m acc pd dn rf)
        (mkNotifier q ws n (S c) r st sim m acc pd dn rf)
  | StepCountIn q ws n c r st sim m acc pd dn rf :
      nq_step _ Internal (mkNotifier q ws n (S c) r st sim m acc pd dn rf)
        (mkNotifier q ws n c r (incIn st) sim m acc pd dn rf)
  | StepCountReject q ws n c r st sim m acc pd dn rf :
      nq_step _ Internal (mkNotifier q ws n c (S r) st sim m acc pd dn rf)
        (mkNotifier q ws n c r (incReject st) sim m acc pd dn rf)
  | StepSpurious q l l' n c r st sim m acc pd dn rf :
      nq_step _ Spurious (mkNotifier q (l ++ Waiting :: l') n c r st sim m acc pd dn rf)
        (mkNotifier q (l ++ Checking :: l') n c r st sim m acc pd dn rf)
  | StepWait q l l' n c r st sim m acc pd dn rf : pop q = None ->
      nq_step _ Internal (mkNotifier q (l ++ Checking :: l') n c r st sim m acc pd dn rf)
        (mkNotifier q (l ++ Waiting :: l') n c r st sim m acc pd dn rf)
  | StepPop q q' l l' n c r st sim m acc pd dn rf p : pop q = Some (p, q') ->
      nq_step _ Internal (mkNotifier q (l ++ Checking :: l') n c r st sim m acc pd dn rf)
        (mkNotifier q' (l ++ Popped p :: l') n c r st sim m acc (pd ++ [p]) dn rf)
  | StepCountOut q l l' n c r st sim m acc pd dn rf p :
      nq_step _ Internal (mkNotifier q (l ++ Popped p :: l') n c r st sim m acc pd dn rf)
        (mkNotifier q (l ++ Counted p :: l') n c r (incOut st) sim m acc pd dn rf)
  | StepSize q l l' n c r st sim m acc pd dn rf p :
      nq_step _ Internal (mkNotifier q (l ++ Counted p :: l') n c r st sim m acc pd dn rf)
        (mkNotifier q (l ++ Sized p (Z.of_nat (length (q_queue q))) :: l') n c r st sim m acc pd dn rf)
  | StepTime q l l' n c r st sim m acc pd dn rf p size now :
      nq_step _ Internal (mkNotifier q (l ++ Sized p size :: l') n c r st sim m acc pd dn rf)
        (mkNotifier q (l ++ Sending p :: l') n c r
           (addTimeInQWithSize (clock_difftime now (sp_timeStamp p)) size st) sim m acc pd dn rf)
  | StepSimulated q l l' n c r st sim m acc pd dn rf p : simulatedNotification = true ->
      nq_step _ Internal (mkNotifier q (l ++ Sending p :: l') n c r st sim m acc pd dn rf)
        (mkNotifier q (l ++ Checking :: l') n c r st (int32 (sim + 1)) m acc pd (dn ++ [p]) rf)
  | StepSent q l l' n c r st sim m acc pd dn rf p result : simulatedNotification = false ->
      nq_step _ Internal (mkNotifier q (l ++ Sending p :: l') n c r st sim m acc pd dn rf)
        (mkNotifier q (l ++ Checking :: l') n c r (after_send result p st m).1 sim (after_send result p st m).2
           acc pd (dn ++ [p]) rf).

(** QueueNotifier and start: [numThreads] workers. *)
Definition nq_init (sz numThreads : nat) (m : AlarmManager) : notifier :=
  mkNotifier (mkQueue [] sz) (replicate numThreads Checking) 0 0 0 stats_new (-1) m [] [] [] 0.

(** ** The thread of one notification *)

(** startSenderThread, for the result of httpRequestSend: the count of simulated
    notifications and the alarms. *)
Definition startSenderThread (simulatedNotification : bool) (r : Z) (p : SenderThreadParams) (sim : Z)
    (m : AlarmManager) : Z * AlarmManager :=
  if negb simulatedNotification then (sim, if r =? 0 then (notificationErrorReset (receiver p) m).2 else m)
  else (int32 (sim + 1), (notificationError (receiver p) m).2).

(** ** The work that is left *)

Definition weight (w : worker) : nat :=
  match w with
  | Waiting => 0 | Checking => 1 | Sending _ => 2 | Sized _ _ => 3 | Counted _ => 4 | Popped _ => 5
  end.

(** A bound on the steps that are left when no more notifications arrive. *)
Definition pending (s : notifier) : nat :=
  5 * length (q_queue (nq_queue s)) + sum_list_with weight (nq_workers s)
    + 3 * nq_notifying s + nq_counting s + nq_rejecting s.

Abbreviation internal simulated := (nq_step simulated Internal).

Lemma internal_decreases simulated s s' : internal simulated s s' -> (pending s' < pending s)%nat.
Proof.
  unfold pending. inversion 1; subst; cbn [nq_queue nq_workers nq_notifying nq_counting nq_rejecting];
    rewrite ?sum_list_with_app; cbn [sum_list_with weight]; try lia.
  match goal with H : pop _ = Some _ |- _ => revert H end. unfold pop.
  destruct (q_queue q) as [|p0 queue]; [done|]. intros [= -> <-]. cbn. lia.
Qed.

Lemma internal_bounded simulated k s s' : nsteps (internal simulated) k s s' -> (k + pending s' <= pending s)%nat.
Proof. induction 1 as [|k s s1 s2 H%internal_decreases _ IH]; lia. Qed.

(** ** Invariant *)

Definition checking (w : worker) : nat := match w with Checking => 1 | _ => 0 end.
Definition uncounted (w : worker) : nat := match w with Popped _ => 1 | _ => 0 end.
Definition held_by (w : worker) : list SenderThreadParams :=
  match w with Popped p | Counted p | Sized p _ | Sending p => [p] | _ => [] end.
Definition in_hand (ws : list worker) : list SenderThreadParams := concat (held_by <$> ws).

Lemma in_hand_middle l w l' : in_hand (l ++ w :: l') = in_hand l ++ held_by w ++ in_hand l'.
Proof. unfold in_hand. by rewrite fmap_app, fmap_cons, concat_app. Qed.

Lemma int32_plus a b : int32 (int32 a + b) = int32 (a + b).
Proof.
  unfold int32, wrap. f_equal. change (32 - 1) with 31.
  replace (((a + 2 ^ 31) mod 2 ^ 32 - 2 ^ 31 + b + 2 ^ 31)) with ((a + 2 ^ 31) mod 2 ^ 32 + b) by lia.
  rewrite Z.add_mod_idemp_l by lia. f_equal. lia.
Qed.

Record nq_inv (simulated : bool) (sz n : nat) (s : notifier) : Prop := {
  inv_size : q_max_size (nq_queue s) = sz;
  inv_bound : (length (q_queue (nq_queue s)) <= sz)%nat;
  inv_workers : length (nq_workers s) = n;
  inv_fifo : nq_accepted s = nq_popped s ++ q_queue (nq_queue s);
  (* enough workers are on their way for what is in the queue, if one waits *)
  inv_wake : Waiting ∈ nq_workers s ->
    (length (q_queue (nq_queue s)) <= nq_notifying s + sum_list_with checking (nq_workers s))%nat;
  inv_done : nq_popped s ≡ₚ nq_done s ++ in_hand (nq_workers s);
  inv_in : noOfNotificationsQueueIn (nq_stats s)
    = int32 (Z.of_nat (length (nq_accepted s)) - Z.of_nat (nq_notifying s) - Z.of_nat (nq_counting s));
  inv_out : noOfNotificationsQueueOut (nq_stats s)
    = int32 (Z.of_nat (length (nq_popped s)) - Z.of_nat (sum_list_with uncounted (nq_workers s)));
  inv_reject : noOfNotificationsQueueReject (nq_stats s)
    = int32 (Z.of_nat (nq_refused s) - Z.of_nat (nq_rejecting s));
  inv_sent : if simulated then nq_simulated s = int32 (Z.of_nat (length (nq_done s)) - 1)
    else int32 (noOfNotificationsQueueSentOK (nq_stats s) + noOfNotificationsQueueSentError (nq_stats s))
           = int32 (Z.of_nat (length (nq_done s)))
}.

Lemma waiting_middle l w w' l' : Waiting ∈ l ++ w :: l' -> w <> Waiting -> Waiting ∈ l ++ w' :: l'.
Proof. rewrite !elem_of_app, !elem_of_cons. naive_solver. Qed.

(** The counter of successes or that of errors is incremented. *)
Lemma sum_incremented ok err k : int32 (ok + err) = int32 k ->
  int32 (int32 (ok + 1) + err) = int32 (k + 1) /\ int32 (ok + int32 (err + 1)) = int32 (k + 1).
Proof.
  intros H. rewrite <- (int32_plus k), <- H, int32_plus. rewrite (Z.add_comm ok (int32 _)), !int32_plus.
  split; f_equal; lia.
Qed.

Lemma after_send_stats r p st m : 
  (after_send r p st m).1 = if r =? 0 then incSentOK st else incSentError st.
Proof. unfold after_send. by destruct (r =? 0). Qed.

(** The queue of a step, and the history of its invariant. *)
Ltac nq_fields := cbn [nq_queue nq_workers nq_notifying nq_counting nq_rejecting nq_stats nq_simulated nq_accepted
  nq_popped nq_done nq_refused q_queue q_max_size noOfNotificationsQueueIn noOfNotificationsQueueOut
  noOfNotificationsQueueReject noOfNotificationsQueueSentOK noOfNotificationsQueueSentError
  incIn incOut incReject incSentOK incSentError addTimeInQWithSize] in *.
Ltac nq_lists := rewrite ?length_app, ?sum_list_with_app, ?in_hand_middle in *;
  cbn [length sum_list_with checking uncounted held_by] in *.
Ltac nq_counter H := rewrite H, ?int32_plus; f_equal; lia.

Lemma try_push_spec {A} (p : A) q b q' : try_push p q = (b, q') ->
  q_max_size q' = q_max_size q /\
  if b then q_queue q' = q_queue q ++ [p] /\ (length (q_queue q) < q_max_size q)%nat else q' = q.
Proof.
  unfold try_push. destruct (length (q_queue q) <? q_max_size q)%nat eqn:E; intros [= <- <-]; [|done].
  split; [done|]. split; [done|]. by apply Nat.ltb_lt.
Qed.

Lemma pop_spec {A} (p : A) q q' : pop q = Some (p, q') ->
  q_max_size q' = q_max_size q /\ q_queue q = p :: q_queue q'.
Proof. unfold pop. destruct q as [[|x l] sz]; [done|]. by intros [= -> <-]. Qed.

Lemma pop_none {A} (q : SyncQOverflow A) : pop q = None -> q_queue q = [].
Proof. unfold pop. by destruct q as [[|x l] sz]. Qed.

Lemma nq_inv_step simulated sz n lb s s' :
  nq_step simulated lb s s' -> nq_inv simulated sz n s -> nq_inv simulated sz n s'.
Proof.
  intros Hstep [H1 H2 H3 H4 H5 H6 H7 H8 H9 H10]. inversion Hstep; clear Hstep; subst; split; nq_fields;
    repeat match goal with
    | H : try_push _ _ = _ |- _ => apply try_push_spec in H as [? ?]; cbn iota in *
    | H : pop _ = Some _ |- _ => apply pop_spec in H as [? ?]
    | H : pop _ = None |- _ => apply pop_none in H
    | H : _ /\ _ |- _ => destruct H
    | H : q_queue ?q = _ |- _ => let Q := fresh "Q" in set (Q := q_queue q) in *; clearbody Q; subst Q
    end; subst; rewrite ?after_send_stats; try destruct (result =? 0);
    nq_fields; nq_lists; try (done || lia || nq_counter H7 || nq_counter H8 || nq_counter H9).
  all: try by rewrite <- !app_assoc.
  all: try (intros Hw; first [specialize (H5 Hw)|specialize (H5 (waiting_middle _ _ _ _ Hw ltac:(discriminate)))]; lia).
  all: try (rewrite H6; solve_Permutation).
  - rewrite int32_plus. f_equal. lia.
  - rewrite (proj1 (sum_incremented _ _ _ H10)). f_equal. lia.
  - rewrite (proj2 (sum_incremented _ _ _ H10)). f_equal. lia.
Qed.

Lemma nq_inv_init simulated sz n m : nq_inv simulated sz n (nq_init sz n m).
Proof.
  assert (sum_list_with uncounted (replicate n Checking) = 0%nat) as Hu by (induction n; cbn; done).
  assert (in_hand (replicate n Checking) = []) as Hh by (unfold in_hand; clear; induction n as [|n IH]; [done|exact IH]).
  split; cbn; rewrite ?length_replicate, ?Hh, ?Hu; try done; try (intros; cbn; lia);
    [by unfold in_hand in Hh; rewrite Hh|by destruct simulated].
Qed.

Definition nq_reachable (simulated : bool) (s s' : notifier) : Prop := rtc (fun a b => exists lb, nq_step simulated lb a b) s s'.

Lemma nq_inv_reachable simulated sz n s s' :
  nq_inv simulated sz n s -> nq_reachable simulated s s' -> nq_inv simulated sz n s'.
Proof. intros H. induction 1 as [|a b c [lb Hs] _ IH]; [done|]. apply IH. by apply (nq_inv_step _ _ _ lb a b). Qed.

Lemma internal_reachable simulated s s' : rtc (internal simulated) s s' -> nq_reachable simulated s s'.
Proof. induction 1; [apply rtc_refl|]. eapply rtc_l; [by eexists|done]. Qed.

(** ** Delivery *)

(** Nothing is left to do: the queue is empty and every worker waits for the next notification. *)
Definition quiet (s : notifier) : Prop :=
  q_queue (nq_queue s) = [] /\ Forall (fun w => w = Waiting) (nq_workers s) /\
  nq_notifying s = 0%nat /\ nq_counting s = 0%nat /\ nq_rejecting s = 0%nat.

(** A state in which some worker or some thread of a request can go on. *)
Lemma worker_goes_on simulated q l w l' n c r st sim m acc pd dn rf : w <> Waiting ->
  exists s', internal simulated (mkNotifier q (l ++ w :: l') n c r st sim m acc pd dn rf) s'.
Proof.
  intros Hw. destruct w as [| |p|p|p size|p]; try done.
  - destruct (pop q) as [[p q']|] eqn:E; eexists; [by eapply StepPop|by eapply StepWait].
  - eexists; by eapply StepCountOut.
  - eexists; by eapply StepSize.
  - eexists; by eapply (StepTime _ _ _ _ _ _ _ _ _ _ _ _ _ _ _ _ (mkTimespec 0 0)).
  - destruct simulated; eexists; [by eapply StepSimulated|by eapply (StepSent _ _ _ _ _ _ _ _ _ _ _ _ _ _ _ 0)].
Qed.

Lemma notify_goes_on simulated q ws n c r st sim m acc pd dn rf :
  exists s', internal simulated (mkNotifier q ws (S n) c r st sim m acc pd dn rf) s'.
Proof.
  destruct (decide (Waiting ∈ ws)) as [(l & l' & ->)%list_elem_of_split|H]; eexists;
    [by eapply StepNotifyOne|by eapply StepNotifyNone].
Qed.

Lemma goes_on simulated sz n s : (0 < n)%nat -> nq_inv simulated sz n s ->
  quiet s \/ exists s', internal simulated s s'.
Proof.
  intros Hn H. destruct s as [q ws k c r st sim m acc pd dn rf].
  destruct k as [|k]; [|right; apply notify_goes_on].
  destruct c as [|c]; [|right; eexists; by eapply StepCountIn].
  destruct r as [|r]; [|right; eexists; by eapply StepCountReject].
  destruct (decide (Exists (fun w => w <> Waiting) ws)) as [He|He].
  - right. apply Exists_exists in He as (w & (l & l' & ->)%list_elem_of_split & Hw). by apply worker_goes_on.
  - assert (Forall (fun w => w = Waiting) ws) as Hws.
    { apply Forall_forall. intros w Hw. destruct (decide (w = Waiting)) as [|Hne]; [done|].
      destruct He. apply Exists_exists. by exists w. }
    left. split_and!; try done. destruct H as [_ _ Hl _ Hwake _ _ _ _ _]. cbn in *.
    destruct ws as [|w ws]; [cbn in Hl; lia|]. inversion Hws as [|? ? -> Hws']; subst.
    assert (sum_list_with checking ws = 0%nat) as Hc by (clear -Hws'; induction Hws' as [|? ? ->]; done).
    specialize (Hwake ltac:(left)). cbn in Hwake. rewrite Hc in Hwake. destruct (q_queue q); [done|]. cbn in Hwake. lia.
Qed.

Lemma internal_accepted simulated s s' : rtc (internal simulated) s s' ->
  nq_accepted s' = nq_accepted s /\ nq_refused s' = nq_refused s.
Proof.
  induction 1 as [|a b c Hs _ [IH1 IH2]]; [done|]. rewrite IH1, IH2. by inversion Hs.
Qed.

Lemma quiet_reached simulated sz n s : (0 < n)%nat -> nq_inv simulated sz n s ->
  exists s', rtc (internal simulated) s s' /\ quiet s'.
Proof.
  intros Hn. remember (pending s) as k eqn:Hk. revert s Hk.
  induction k as [k IH] using lt_wf_ind. intros s -> H.
  destruct (goes_on simulated sz n s Hn H) as [Hq|[s1 Hs]]; [exists s; split; [apply rtc_refl|done]|].
  destruct (IH (pending s1) (internal_decreases _ _ _ Hs) s1 eq_refl) as (s' & Hr & Hq); [by eapply nq_inv_step|].
  exists s'. split; [by eapply rtc_l|done].
Qed.

Lemma quiet_delivered simulated sz n s : nq_inv simulated sz n s -> quiet s ->
  nq_popped s = nq_accepted s /\ nq_done s ≡ₚ nq_accepted s /\
  noOfNotificationsQueueIn (nq_stats s) = int32 (Z.of_nat (length (nq_accepted s))) /\
  noOfNotificationsQueueOut (nq_stats s) = int32 (Z.of_nat (length (nq_accepted s))) /\
  noOfNotificationsQueueReject (nq_stats s) = int32 (Z.of_nat (nq_refused s)) /\
  (if simulated then nq_simulated s = int32 (Z.of_nat (length (nq_accepted s)) - 1)
   else int32 (noOfNotificationsQueueSentOK (nq_stats s) + noOfNotificationsQueueSentError (nq_stats s))
          = int32 (Z.of_nat (length (nq_accepted s)))).
Proof.
  intros [_ _ _ Hf _ Hd Hin Hout Hrej Hsent] (Hq & Hw & Hk & Hc & Hr). rewrite Hq, app_nil_r in Hf.
  rewrite Hk, Hc in Hin. rewrite Hr in Hrej.
  assert (in_hand (nq_workers s) = [] /\ sum_list_with uncounted (nq_workers s) = 0%nat) as [Hh Hu].
  { clear -Hw. unfold in_hand. by induction Hw as [|? ? -> _ [IH1 IH2]]. }
  rewrite Hh, app_nil_r in Hd. rewrite Hu in Hout.
  assert (length (nq_done s) = length (nq_popped s)) as El by (by rewrite Hd).
  rewrite El in Hsent. rewrite Hin, Hout, Hrej, Hf. split_and!; [done|by rewrite Hd|f_equal; lia..|exact Hsent].
Qed.

(** C21. Every notification that the queue accepts is taken and its sending is tried, once: with at
    least one worker, once no more notifications arrive the threads stop after a bounded
    number of steps, whatever their order, and where they stop nothing is left in the queue
    (no wake-up is lost), the accepted notifications were popped in the order of acceptance,
    and each was sent once (or simulated), by one worker, in an order that may be another one,
    with a result that is counted as success or as error (modulo 2^32); a sending that fails
    is not repeated. *)
Theorem accepted_delivered simulated sz n m s : (0 < n)%nat -> nq_reachable simulated (nq_init sz n m) s ->
  (exists s', rtc (internal simulated) s s' /\ quiet s') /\
  (forall k s', nsteps (internal simulated) k s s' ->
     (k <= pending s)%nat /\ (quiet s' \/ exists s'', internal simulated s' s'')) /\
  (forall s', rtc (internal simulated) s s' -> quiet s' ->
     nq_popped s' = nq_accepted s /\ nq_done s' ≡ₚ nq_accepted s /\
     noOfNotificationsQueueIn (nq_stats s') = int32 (Z.of_nat (length (nq_accepted s))) /\
     noOfNotificationsQueueOut (nq_stats s') = int32 (Z.of_nat (length (nq_accepted s))) /\
     noOfNotificationsQueueReject (nq_stats s') = int32 (Z.of_nat (nq_refused s)) /\
     (if simulated then nq_simulated s' = int32 (Z.of_nat (length (nq_accepted s)) - 1)
      else int32 (noOfNotificationsQueueSentOK (nq_stats s') + noOfNotificationsQueueSentError (nq_stats s'))
             = int32 (Z.of_nat (length (nq_accepted s))))).
Proof.
  intros Hn Hr. pose proof (nq_inv_reachable _ _ _ _ _ (nq_inv_init simulated sz n m) Hr) as H.
  assert (forall s', rtc (internal simulated) s s' -> nq_inv simulated sz n s') as Hi
    by (intros s' Hs; exact (nq_inv_reachable _ _ _ _ _ H (internal_reachable _ _ _ Hs))).
  split_and!.
  - by apply (quiet_reached simulated sz n).
  - intros k s' Hk. split; [pose proof (internal_bounded _ _ _ _ Hk); lia|].
    apply (goes_on simulated sz n); [done|]. apply Hi. by apply rtc_nsteps; exists k.
  - intros s' Hs Hq. destruct (internal_accepted _ _ _ Hs) as [<- <-]. by apply (quiet_delivered simulated sz n), Hq; apply Hi.
Qed.

(** At any moment, the queue holds at most its size, and the notifications popped so far
    followed by those in it are those accepted, in their order: none is lost, doubled or overtaken;
    and each one popped is processed or in the hands of one worker.  A notification is
    refused only when the queue is full. *)
Theorem queue_fifo simulated sz n m s :
  nq_reachable simulated (nq_init sz n m) s ->
  (length (q_queue (nq_queue s)) <= sz)%nat /\
  nq_accepted s = nq_popped s ++ q_queue (nq_queue s) /\
  nq_popped s ≡ₚ nq_done s ++ in_hand (nq_workers s) /\
  forall p, (try_push p (nq_queue s)).1 = false -> length (q_queue (nq_queue s)) = sz.
Proof.
  intros Hr. destruct (nq_inv_reachable _ _ _ _ _ (nq_inv_init simulated sz n m) Hr) as [H1 H2 _ H4 _ H6 _ _ _ _].
  split_and!; try done. intros p. unfold try_push. rewrite H1.
  destruct (length (q_queue (nq_queue s)) <? sz)%nat eqn:E; [done|]. apply Nat.ltb_ge in E. lia.
Qed.

(** ** The header, and times *)

Lemma spathList_join a paths : Forall (fun p => p <> "") paths ->
  foldl (fun l p => (if l =s "" then l else l +:+ ",") +:+ p) a paths
  = join "," (if a =s "" then paths else a :: paths).
Proof.
  intros H. revert a. induction H as [|p paths Hp _ IH]; intros a; cbn [foldl].
  - destruct (a =s "") eqn:E; [by apply str_eqb_eq in E|done].
  - rewrite IH. destruct (a =s "") eqn:E.
    + apply str_eqb_eq in E as ->. cbn iota. change ("" +:+ p) with p. by apply str_eqb_neq in Hp as ->.
    + assert (((a +:+ ",") +:+ p =s "") = false) as -> by (destruct a; [done|by cbn]).
      rewrite app_assoc_str. destruct paths; [done|]. cbn [join]. by rewrite !app_assoc_str.
Qed.

(** The header tells the path of each entity: split at the commas it gives the paths back,
    provided no path is empty or has a comma; it is left out exactly when all are "/". *)
Theorem spathList_split paths : Forall (fun p => p <> "" /\ free_of "," p = true) paths ->
  if forallb (fun p => p =s "/") paths then spathList paths = ""
  else split_on "," (spathList paths) = paths.
Proof.
  intros H. unfold spathList.
  assert (existsb (fun p => negb (p =s "/")) paths = negb (forallb (fun p => p =s "/") paths)) as ->
    by (clear H; induction paths as [|p ps IH]; [done|]; cbn; by rewrite IH, negb_andb).
  destruct (forallb _ _) eqn:E; [done|]. cbn [negb].
  rewrite (spathList_join "" paths) by (eapply Forall_impl; [exact H|]; by intros ? []).
  change "," with (str1 ","%char). apply split_on_join_free; [by intros ->|].
  eapply Forall_impl; [exact H|]; by intros ? [].
Qed.

Definition normal (t : timespec) : Prop := 0 <= tv_nsec t < 1000000000.
Definition nanoseconds (t : timespec) : Z := tv_sec t * 1000000000 + tv_nsec t.

(** Differences and sums of times are exact and keep the nanoseconds in their range, so that the
    time that notifications spent in the queue is the sum of their times. *)
Theorem clock_exact a b : normal a -> normal b ->
  (normal (clock_difftime a b) /\ nanoseconds (clock_difftime a b) = nanoseconds a - nanoseconds b) /\
  (normal (clock_addtime a b) /\ nanoseconds (clock_addtime a b) = nanoseconds a + nanoseconds b).
Proof.
  unfold normal, nanoseconds, clock_difftime, clock_addtime. intros Ha Hb. split.
  - destruct (Z.ltb_spec (tv_nsec a - tv_nsec b) 0); cbn; lia.
  - destruct (Z.leb_spec 1000000000 (tv_nsec a + tv_nsec b)); cbn; lia.
Qed.

(** ** Alarms *)

(** A worker leaves the alarm of the receiver raised exactly when the sending failed.  The thread
    that sends one notification never raises it for a failure: it raises it for a
    notification that is only simulated. *)
Theorem sender_alarms r p st sim m :
  (is_Some (notificationV (after_send r p st m).2 !! receiver p) <-> r <> 0) /\
  (r <> 0 -> (startSenderThread false r p sim m).2 = m) /\
  is_Some (notificationV (startSenderThread true r p sim m).2 !! receiver p).
Proof.
  assert (forall m, is_Some (notificationV (notificationError (receiver p) m).2 !! receiver p)) as He.
  { intros m0. unfold notificationError. destruct (notificationV m0 !! receiver p); cbn; rewrite lookup_insert_eq; by eexists. }
  assert (forall m, notificationV (notificationErrorReset (receiver p) m).2 !! receiver p = None) as Hr.
  { intros m0. unfold notificationErrorReset. destruct (notificationV m0 !! receiver p) eqn:E; [|done]. cbn.
    by rewrite lookup_delete_eq. }
  unfold after_send, startSenderThread. cbn [negb]. split_and!.
  - destruct (Z.eqb_spec r 0) as [->|Hne]; cbn [snd].
    + rewrite Hr. split; [by intros []|done].
    + by split.
  - intros Hne. by destruct (Z.eqb_spec r 0).
  - apply He.
Qed.

(** ** Witnesses *)

Definition a_message : SenderThreadParams :=
  mkParams "localhost" 1028 "http:" "POST" "" "/a" "" "/accumulate" "application/json" "{}" "normalized" ""
    (mkTimespec 10 0).

(** The queue with one worker, after it waits and a notification was pushed. *)
Definition pushed_state : notifier :=
  mkNotifier (mkQueue [a_message] 1) [Waiting] 1 0 0 stats_new (-1) AlarmManager_new [a_message] [] [] 0.

Lemma pushed_reachable : nq_reachable false (nq_init 1 1 AlarmManager_new) pushed_state.
Proof.
  apply (rtc_l _ _ (mkNotifier (mkQueue [] 1) [Waiting] 0 0 0 stats_new (-1) AlarmManager_new [] [] [] 0)).
  - exists Internal. by apply (StepWait false (mkQueue [] 1) [] []).
  - apply rtc_once. exists Arrival. by apply (StepPush false (mkQueue [] 1) (mkQueue [a_message] 1) [Waiting] 0 0 0 stats_new
      (-1) AlarmManager_new [] [] [] 0 a_message).
Qed.

Lemma accepted_delivered_witness : exists s',
  rtc (internal false) pushed_state s' /\ quiet s' /\ nq_popped s' = [a_message].
Proof.
  destruct (accepted_delivered false 1 1 AlarmManager_new pushed_state (le_n 1) pushed_reachable)
    as ((s' & Hs & Hq) & _ & H).
  exists s'. split; [exact Hs|]. split; [exact Hq|]. exact (proj1 (H s' Hs Hq)).
Defined.

Lemma queue_fifo_witness : (length (q_queue (nq_queue pushed_state)) <= 1)%nat /\
  (try_push a_message (nq_queue pushed_state)).1 = false.
Proof. split; [exact (proj1 (queue_fifo false 1 1 AlarmManager_new pushed_state pushed_reachable))|reflexivity]. Defined.

Lemma spathList_split_witness : split_on "," (spathList ["/a"; "/"]) = ["/a"; "/"].
Proof. apply (spathList_split ["/a"; "/"]). repeat constructor; discriminate. Defined.

Lemma clock_exact_witness : nanoseconds (clock_difftime (mkTimespec 2 1) (mkTimespec 1 2)) = 999999999.
Proof.
  destruct (clock_exact (mkTimespec 2 1) (mkTimespec 1 2)) as [[_ H] _]; [unfold normal; cbn; lia..|exact H].
Defined.
