(* ===== verification/ConnPool.v ===== *)
(** * The pool of database connections

    mongoBackend/mongoConnectionPool.cpp: mongoPoolConnectionGet and
    mongoPoolConnectionRelease run by any number of threads.  The two semaphores are
    counters; a step is what a thread does between two semaphore operations, so the scans
    of the pool, which run with connectionPoolSem taken, are one step each. *)

From S2P Require Import Prelude.

(** ** State *)

Record MongoConnection := mkConnection {
  mc_connection : N;  (* the DBClientBase pointer *)
  mc_free : bool
}.

(** Where a thread is. *)
Inductive activity :=
  | Idle                    (* no connection, outside both functions *)
  | GetWaiting              (* connectionSem taken, waiting for connectionPoolSem *)
  | GetScanning             (* connectionPoolSem taken *)
  | Using (c : option N)    (* mongoPoolConnectionGet has returned c *)
  | ReleaseScanning (c : N). (* in mongoPoolConnectionRelease(c), connectionPoolSem taken *)

Record pool_state := mkPool {
  connectionPool : list MongoConnection;
  connectionPoolSem : nat;
  connectionSem : nat;
  threads : list activity
}.

(** ** The scans *)

(** The first free connection, marked as taken. *)
Fixpoint get_scan (pool : list MongoConnection) : option N * list MongoConnection :=
  match pool with
  | [] => (None, [])
  | mc :: pool' =>
      if mc_free mc then (Some (mc_connection mc), mkConnection (mc_connection mc) false :: pool')
      else let '(c, p) := get_scan pool' in (c, mc :: p)
  end.

(** The entry of the connection, marked as free; whether connectionSem is posted. *)
Fixpoint release_scan (connection : N) (pool : list MongoConnection) : bool * list MongoConnection :=
  match pool with
  | [] => (false, [])
  | mc :: pool' =>
      if (mc_connection mc =? connection)%N then (true, mkConnection (mc_connection mc) true :: pool')
      else let '(b, p) := release_scan connection pool' in (b, mc :: p)
  end.

(** ** Steps *)

Inductive pool_step : pool_state -> pool_state -> Prop :=
  | GetWaitConnection pool ps cs ts t : ts !! t = Some Idle ->
      pool_step (mkPool pool ps (S cs) ts) (mkPool pool ps cs (<[t := GetWaiting]> ts))
  | GetWaitPool pool ps cs ts t : ts !! t = Some GetWaiting ->
      pool_step (mkPool pool (S ps) cs ts) (mkPool pool ps cs (<[t := GetScanning]> ts))
  | GetScan pool ps cs ts t : ts !! t = Some GetScanning ->
      pool_step (mkPool pool ps cs ts)
        (mkPool (get_scan pool).2 (S ps) cs (<[t := Using (get_scan pool).1]> ts))
  | ReleaseWaitPool pool ps cs ts t c : ts !! t = Some (Using (Some c)) ->
      pool_step (mkPool pool (S ps) cs ts) (mkPool pool ps cs (<[t := ReleaseScanning c]> ts))
  | ReleaseScan pool ps cs ts t c : ts !! t = Some (ReleaseScanning c) ->
      pool_step (mkPool pool ps cs ts)
        (mkPool (release_scan c pool).2 (S ps) (if (release_scan c pool).1 then S cs else cs)
           (<[t := Idle]> ts)).

(** mongoConnectionPoolInit: every connection free, the semaphores at 1 and at the size of
    the pool; [n] threads. *)
Definition pool_init (connections : list N) (n : nat) : pool_state :=
  mkPool ((fun c => mkConnection c true) <$> connections) 1 (length connections) (replicate n Idle).

(** ** Invariant *)

(** The connection a thread holds. *)
Definition held (a : activity) : option N :=
  match a with
  | Using c => c
  | ReleaseScanning c => Some c
  | _ => None
  end.

Definition is_taken (mc : MongoConnection) : option N :=
  if mc_free mc then None else Some (mc_connection mc).

Definition count {A} (p : A -> bool) (l : list A) : nat := length (List.filter p l).

(** A thread that has taken connectionSem and no connection yet. *)
Definition pending (a : activity) : bool :=
  match a with GetWaiting | GetScanning => true | _ => false end.

(** A thread that has taken connectionPoolSem. *)
Definition scanning (a : activity) : bool :=
  match a with GetScanning | ReleaseScanning _ => true | _ => false end.

Record pool_inv (connections : list N) (s : pool_state) : Prop := mkPoolInv {
  inv_connections : mc_connection <$> connectionPool s = connections;
  inv_held : omap held (threads s) ≡ₚ omap is_taken (connectionPool s);
  inv_free : (count mc_free (connectionPool s) = connectionSem s + count pending (threads s))%nat;
  inv_lock : (connectionPoolSem s + count scanning (threads s) = 1)%nat;
  inv_got : Forall (fun a => a <> Using None) (threads s)
}.

#[local] Arguments count : simpl never.

Lemma count_insert {A} (p : A -> bool) l i x y : l !! i = Some x ->
  (count p (<[i := y]> l) + (if p x then 1 else 0) = count p l + (if p y then 1 else 0))%nat.
Proof.
  unfold count. revert i. induction l as [|z l IH]; intros [|i]; cbn; try done.
  - intros [= ->]. destruct (p x), (p y); cbn; lia.
  - intros H. specialize (IH i H). destruct (p z); cbn; [f_equal|]; exact IH.
Qed.

Lemma omap_insert_perm {A B} (f : A -> option B) l i x y : l !! i = Some x ->
  option_list (f x) ++ omap f (<[i := y]> l) ≡ₚ option_list (f y) ++ omap f l.
Proof.
  revert i. induction l as [|z l IH]; intros [|i]; cbn; try done.
  - intros [= ->]. destruct (f x), (f y); cbn; try done. apply perm_swap.
  - intros H. specialize (IH i H). destruct (f z) as [b|]; [|done].
    change (omap f) with (omap (M := list) f).
    etrans; [symmetry; apply Permutation_middle|]. rewrite IH. apply Permutation_middle.
Qed.

Lemma get_scan_spec pool : (0 < count mc_free pool)%nat -> exists c,
  (get_scan pool).1 = Some c /\ mc_connection <$> (get_scan pool).2 = mc_connection <$> pool /\
  omap is_taken (get_scan pool).2 ≡ₚ c :: omap is_taken pool /\
  (count mc_free (get_scan pool).2 + 1 = count mc_free pool)%nat.
Proof.
  unfold count. induction pool as [|[c f] pool IH]; cbn; [lia|]. destruct f; cbn.
  - intros _. exists c. split_and!; try done. lia.
  - intros H. destruct (IH H) as (c' & H1 & H2 & H3 & H4). exists c'.
    destruct (get_scan pool) as [o p]. cbn in *. subst o. split_and!; [done|by f_equal| |done].
    rewrite H3. apply perm_swap.
Qed.

Lemma release_scan_spec c pool : NoDup (mc_connection <$> pool) -> c ∈ omap is_taken pool ->
  (release_scan c pool).1 = true /\ mc_connection <$> (release_scan c pool).2 = mc_connection <$> pool /\
  c :: omap is_taken (release_scan c pool).2 ≡ₚ omap is_taken pool /\
  (count mc_free (release_scan c pool).2 = count mc_free pool + 1)%nat.
Proof.
  unfold count. induction pool as [|[c' f] pool IH]; cbn; [by intros _ ?%elem_of_nil|].
  intros [Hni Hnd]%NoDup_cons Hin. destruct (c' =? c)%N eqn:E.
  - apply N.eqb_eq in E as ->. assert (f = false) as ->.
    { destruct f; [|done]. exfalso. apply Hni. cbn in Hin.
      apply list_elem_of_omap in Hin as ([c1 f1] & Hx & Ht). apply list_elem_of_fmap.
      exists (mkConnection c1 f1). split; [|done]. destruct f1; [done|]. by injection Ht as ->. }
    cbn. split_and!; try done. lia.
  - apply N.eqb_neq in E. destruct f; cbn in Hin |- *.
    + destruct (IH Hnd Hin) as (H1 & H2 & H3 & H4). destruct (release_scan c pool) as [b p]. cbn in *.
      split_and!; [done|by f_equal|done|lia].
    + apply elem_of_cons in Hin as [?|Hin]; [congruence|].
      destruct (IH Hnd Hin) as (H1 & H2 & H3 & H4). destruct (release_scan c pool) as [b p]. cbn in *.
      split_and!; [done|by f_equal| |done]. rewrite perm_swap. by f_equiv.
Qed.

Lemma inv_init connections n : pool_inv connections (pool_init connections n).
Proof.
  assert (forall (p : activity -> bool), p Idle = false -> count p (replicate n Idle) = 0%nat) as Hc.
  { intros p Hp. unfold count. induction n as [|n IH]; cbn; [done|]. by rewrite Hp. }
  split; unfold pool_init; cbn -[count].
  - rewrite <- list_fmap_compose. by rewrite list_fmap_id.
  - assert (omap held (replicate n Idle) = []) as ->.
    { clear Hc. induction n as [|n IH]; [done|exact IH]. }
    induction connections as [|c cs IH]; [done|exact IH].
  - rewrite Hc by done. unfold count.
    induction connections as [|c cs IH]; cbn in *; [done|]. by rewrite IH.
  - by rewrite Hc.
  - by apply Forall_replicate.
Qed.

Lemma held_mem (ts : list activity) (t : nat) a c : ts !! t = Some a -> held a = Some c -> c ∈ omap held ts.
Proof. intros Ht Ha. apply list_elem_of_omap. exists a. split; [|done]. by eapply list_elem_of_lookup_2. Qed.

Lemma inv_step connections s s' : NoDup connections -> pool_inv connections s -> pool_step s s' ->
  pool_inv connections s'.
Proof.
  intros Hnd [H1 H2 H3 H4 H5] Hs.
  destruct Hs as [pool ps cs ts t Ht|pool ps cs ts t Ht|pool ps cs ts t Ht|pool ps cs ts t c Ht|pool ps cs ts t c Ht];
    cbn in *.
  - pose proof (omap_insert_perm held _ _ _ GetWaiting Ht) as Ho.
    pose proof (count_insert pending _ _ _ GetWaiting Ht) as Hp.
    pose proof (count_insert scanning _ _ _ GetWaiting Ht) as Hsc. cbn in Ho, Hp, Hsc.
    split; cbn; [done|by rewrite Ho|lia|lia|]. by apply Forall_insert.
  - pose proof (omap_insert_perm held _ _ _ GetScanning Ht) as Ho.
    pose proof (count_insert pending _ _ _ GetScanning Ht) as Hp.
    pose proof (count_insert scanning _ _ _ GetScanning Ht) as Hsc. cbn in Ho, Hp, Hsc.
    split; cbn; [done|by rewrite Ho|lia|lia|]. by apply Forall_insert.
  - set (y := Using (get_scan pool).1).
    pose proof (omap_insert_perm held _ _ _ y Ht) as Ho.
    pose proof (count_insert pending _ _ _ y Ht) as Hp.
    pose proof (count_insert scanning _ _ _ y Ht) as Hsc.
    destruct (get_scan_spec pool) as (c & Hg & Hgc & Hgt & Hgf).
    { rewrite H3. assert (0 < count pending ts)%nat; [|lia].
      pose proof (count_insert pending _ _ _ Idle Ht) as Hq. cbn in Hq. lia. }
    subst y. rewrite Hg in *. cbn in Ho, Hp, Hsc. split; cbn; [congruence| |lia|lia|].
    + by rewrite Ho, Hgt, H2.
    + by apply Forall_insert.
  - pose proof (omap_insert_perm held _ _ _ (ReleaseScanning c) Ht) as Ho.
    pose proof (count_insert pending _ _ _ (ReleaseScanning c) Ht) as Hp.
    pose proof (count_insert scanning _ _ _ (ReleaseScanning c) Ht) as Hsc. cbn in Ho, Hp, Hsc.
    split; cbn; [done| |lia|lia|].
    + apply Permutation_cons_inv in Ho. by rewrite Ho.
    + by apply Forall_insert.
  - pose proof (omap_insert_perm held _ _ _ Idle Ht) as Ho.
    pose proof (count_insert pending _ _ _ Idle Ht) as Hp.
    pose proof (count_insert scanning _ _ _ Idle Ht) as Hsc. cbn in Ho, Hp, Hsc.
    destruct (release_scan_spec c pool) as (Hr & Hrc & Hrt & Hrf).
    { by rewrite H1. } { rewrite <- H2. by eapply held_mem. }
    rewrite Hr. split; cbn; [congruence| |lia|lia|].
    + apply (Permutation_cons_inv (a := c)). by rewrite Ho, H2, Hrt.
    + by apply Forall_insert.
Qed.

(** C40. For any number of threads and any interleaving, with the connections of the pool
    all different: a thread that gets a connection really gets one (never NULL), no two
    threads hold the same connection, at most one thread is inside the pool at a time,
    and as many connections are free as connectionSem and the threads about to take one
    say. *)
Theorem pool_safe connections n s : NoDup connections ->
  rtc pool_step (pool_init connections n) s ->
  Forall (fun a => a <> Using None) (threads s) /\ NoDup (omap held (threads s)) /\
  (count scanning (threads s) <= 1)%nat /\
  (count mc_free (connectionPool s) = connectionSem s + count pending (threads s))%nat.
Proof.
  intros Hnd Hs. assert (pool_inv connections s) as [H1 H2 H3 H4 H5].
  { revert s Hs. apply rtc_ind_r; [apply inv_init|]. intros s s' _ Hst IH. by eapply inv_step. }
  split_and!; [done| |lia|done]. rewrite H2.
  assert (omap is_taken (connectionPool s) `sublist_of` connections) as Hsub.
  { rewrite <- H1. clear. induction (connectionPool s) as [|[c f] l IH]; [done|].
    destruct f; cbn; by constructor. }
  by eapply sublist_NoDup.
Qed.

Lemma pool_safe_witness : exists s,
  rtc pool_step (pool_init [10%N; 20%N] 2) s /\ threads s = [Using (Some 10%N); GetWaiting] /\
  NoDup (omap held (threads s)).
Proof.
  set (s := mkPool [mkConnection 10 false; mkConnection 20 true] 1 0 [Using (Some 10%N); GetWaiting]).
  assert (rtc pool_step (pool_init [10%N; 20%N] 2) s) as H.
  { set (free := [mkConnection 10 true; mkConnection 20 true]).
    refine (rtc_l _ _ _ _ (GetWaitConnection free 1 1 [Idle; Idle] 0 eq_refl) _).
    refine (rtc_l _ _ _ _ (GetWaitPool free 0 1 [GetWaiting; Idle] 0 eq_refl) _).
    refine (rtc_l _ _ _ _ (GetScan free 0 1 [GetScanning; Idle] 0 eq_refl) _).
    refine (rtc_once _ _ (GetWaitConnection _ 1 0 [Using (Some 10%N); Idle] 1 eq_refl)). }
  exists s. split; [exact H|]. split; [reflexivity|].
  refine (proj1 (proj2 (pool_safe [10%N; 20%N] 2 s _ H))).
  repeat constructor; rewrite ?list_elem_of_singleton; [discriminate|apply not_elem_of_nil].
Defined.
