(* ===== verification/Forward.v ===== *)
(** * Updates and the context providers they are forwarded to

    serviceRoutines/postUpdateContext.cpp, with what it uses of
    ngsi10/UpdateContextRequest.cpp, ngsi10/UpdateContextResponse.cpp and
    orionTypes/UpdateContextRequestVector.cpp.  mongoUpdateContext tells, attribute by
    attribute, what it found in the database and what a registration provides; the
    provided ones are sorted into one request per provider and sent; the answers of the
    providers are merged with what was found.  Sending is an argument, as is the reader of
    version 1 that makes a response of the text a provider answers (jsonParse). *)

From S2P Require Import Prelude Strings Double Bson Compound Ngsi AttrUpdate Location EntityDoc Registrations.
From S2P Require Import FilterParse FilterMatch SubCache SubSync Queries Notify EntityUpdate UpdateContext QueryContext Json JsonEntity JsonText JsonSubscription RenderV1 Rest.

Open Scope Z_scope.

(** ** Requests and responses *)

(** UpdateContextRequest::attributeLookup *)
Fixpoint attributeLookup (contextElementVector : list (EntityId * list ContextAttribute)) (e : EntityId) (attributeName : string)
    : option ContextAttribute :=
  match contextElementVector with
  | [] => None
  | (en, cav) :: r =>
      if negb (eid_id en =s eid_id e) || negb (eid_type en =s eid_type e) then attributeLookup r e attributeName
      else match find_attribute attributeName cav with
           | Some ca => Some ca
           | None => attributeLookup r e attributeName
           end
  end.

(** EntityId::equal *)
Definition EntityId_equal (e e' : EntityId) : bool :=
  (eid_id e' =s eid_id e) && (eid_type e' =s eid_type e) && Bool.eqb (isTrue (eid_isPattern e')) (isTrue (eid_isPattern e)).

(** ContextElementResponseVector::lookup: what [f] makes of the element found, if any. *)
Fixpoint lookup_cer (f : Cer -> Cer) (e : EntityId) (code : Z) (cerV : list Cer) : option (list Cer) :=
  match cerV with
  | [] => None
  | cer :: r =>
      if EntityId_equal (cer_entity cer) e && ((code =? SccNone) || (sc_code (cer_status cer) =? code)) then Some (f cer :: r)
      else match lookup_cer f e code r with Some r' => Some (cer :: r') | None => None end
  end.

Definition copy (ca : ContextAttribute) : ContextAttribute := (ContextAttribute_copy ca false).1.

Definition cer_push (ca : ContextAttribute) (cer : Cer) : Cer := mkCer (cer_entity cer) (cer_attrs cer ++ [copy ca]) (cer_status cer).
Definition set_cerV (cerV : list Cer) (upcrs : UpdateContextResponse) : UpdateContextResponse :=
  mkUpdateContextResponse cerV (upcrs_errorCode upcrs).

(** UpdateContextResponse::notFoundPush *)
Definition notFoundPush (e : EntityId) (ca : ContextAttribute) (sc : option StatusCode) (upcrs : UpdateContextResponse)
    : UpdateContextResponse :=
  match lookup_cer (cer_push ca) e SccContextElementNotFound (upcrs_contextElementResponseVector upcrs) with
  | Some cerV => set_cerV cerV upcrs
  | None =>
      set_cerV (upcrs_contextElementResponseVector upcrs
                ++ [mkCer e [copy ca] (default (mkStatusCode SccContextElementNotFound (eid_id e)) sc)]) upcrs
  end.

(** UpdateContextResponse::foundPush *)
Definition foundPush (e : EntityId) (ca : ContextAttribute) (upcrs : UpdateContextResponse) : UpdateContextResponse :=
  match lookup_cer (cer_push ca) e SccOk (upcrs_contextElementResponseVector upcrs) with
  | Some cerV => set_cerV cerV upcrs
  | None => set_cerV (upcrs_contextElementResponseVector upcrs ++ [mkCer e [copy ca] (mkStatusCode SccOk "")]) upcrs
  end.

(** UpdateContextResponse::fill, on top of what is there. *)
Definition upcrs_fill (from upcrs : UpdateContextResponse) : UpdateContextResponse :=
  mkUpdateContextResponse
    (upcrs_contextElementResponseVector upcrs
     ++ map (fun cer => mkCer (cer_entity cer) (copy <$> cer_attrs cer) (cer_status cer)) (upcrs_contextElementResponseVector from))
    (upcrs_errorCode from).

(** UpdateContextResponse::merge *)
Definition merge_cer_attribute (cer : Cer) (upcrs : UpdateContextResponse) (ca : ContextAttribute) : UpdateContextResponse :=
  if sc_code (cer_status cer) =? SccOk then foundPush (cer_entity cer) ca upcrs
  else notFoundPush (cer_entity cer) ca (Some (cer_status cer)) upcrs.

Definition merge_error (from upcrs : UpdateContextResponse) : UpdateContextResponse :=
  if (length (upcrs_contextElementResponseVector from) =? 0)%nat then
    let sc := upcrs_errorCode upcrs in
    if (sc_code sc =? SccNone) || (sc_code sc =? SccOk)
    then mkUpdateContextResponse (upcrs_contextElementResponseVector upcrs) (upcrs_errorCode from)
    else if sc_details sc =s ""
    then mkUpdateContextResponse (upcrs_contextElementResponseVector upcrs) (mkStatusCode (sc_code sc) (sc_details (upcrs_errorCode from)))
    else upcrs
  else upcrs.

Definition merge (from upcrs : UpdateContextResponse) : UpdateContextResponse :=
  foldl (fun upcrs cer => foldl (merge_cer_attribute cer) upcrs (cer_attrs cer)) (merge_error from upcrs)
    (upcrs_contextElementResponseVector from).

(** ** The answer of the database *)

(** One element of foundAndNotFoundAttributeSeparation: the element, and the one for what was
    not found of it. *)
Definition separate (cer : Cer) : Cer * option Cer :=
  let e := cer_entity cer in
  let founds := List.filter ca_found (cer_attrs cer) in
  let nots := List.filter (fun ca => negb (ca_found ca)) (cer_attrs cer) in
  let sc := cer_status cer in
  let '(cer, notFound) :=
    if (length founds =? 0)%nat && (0 <? length nots)%nat then
      (mkCer e (cer_attrs cer)
         (if (sc_code sc =? SccOk) || (sc_code sc =? SccNone) then mkStatusCode SccContextElementNotFound (eid_id e) else sc), None)
    else if (0 <? length founds)%nat && (0 <? length nots)%nat then
      (mkCer e founds (mkStatusCode SccOk ""), Some (mkCer e nots (mkStatusCode SccContextElementNotFound (eid_id e))))
    else (cer, None) in
  let sc := cer_status cer in
  (if (sc_code sc =? SccContextElementNotFound) && (sc_details sc =s "")
   then mkCer e (cer_attrs cer) (mkStatusCode (sc_code sc) (eid_id e)) else cer, notFound).

Definition first_id {A} (contextElementVector : list (EntityId * A)) : cpp string :=
  e ← vec_at contextElementVector 0; Ret (eid_id e.1).

(** foundAndNotFoundAttributeSeparation *)
Definition foundAndNotFoundAttributeSeparation (isDelete : bool) (contextElementVector : list (EntityId * list ContextAttribute))
    (upcrs : UpdateContextResponse) : cpp UpdateContextResponse :=
  let cerV := upcrs_contextElementResponseVector upcrs in
  let cerV := map (fun cer => (separate cer).1) cerV ++ omap (fun cer => (separate cer).2) cerV in
  let sc := upcrs_errorCode upcrs in
  sc ← (if negb isDelete && (length cerV =? 0)%nat && (sc_code sc =? SccOk)
        then id ← first_id contextElementVector; Ret (mkStatusCode SccContextElementNotFound id)
        else Ret sc);
  sc ← (if sc_code sc =? SccContextElementNotFound then
          match cerV with
          | [cer] => Ret (mkStatusCode (sc_code sc) (eid_id (cer_entity cer)))
          | [] => id ← first_id contextElementVector; Ret (mkStatusCode (sc_code sc) id)
          | _ => Ret sc
          end
        else Ret sc);
  Ret (mkUpdateContextResponse cerV sc).

(** attributesToNotFound *)
Definition set_found (found : bool) (ca : ContextAttribute) : ContextAttribute :=
  mkContextAttribute (ca_name ca) (ca_type ca) (ca_metadataVector ca) (ca_valueType ca) (ca_stringValue ca) (ca_numberValue ca)
    (ca_boolValue ca) (ca_providingApplication ca) found (ca_skip ca) (ca_compoundValueP ca) (ca_typeGiven ca).

Definition attributesToNotFound (contextElementVector : list (EntityId * list ContextAttribute)) : list (EntityId * list ContextAttribute) :=
  map (fun ce => (ce.1, set_found false <$> ce.2)) contextElementVector.

(** ** Sorting what is forwarded *)

(** The value of the attribute of the request is cloned into that of the response. *)
Definition with_value_of (from ca : ContextAttribute) : cpp ContextAttribute :=
  c ← match ca_compoundValueP from with None => Ret None | Some c => c ← clone c; Ret (Some c) end;
  Ret (mkContextAttribute (ca_name ca) (ca_type ca) (ca_metadataVector ca) (ca_valueType from) (ca_stringValue from) (ca_numberValue from)
    (ca_boolValue from) (ca_providingApplication ca) (ca_found ca) (ca_skip ca) c (ca_typeGiven ca)).

Fixpoint mapM_cpp {A B} (f : A -> cpp B) (l : list A) : cpp (list B) :=
  match l with [] => Ret [] | x :: l' => y ← f x; ys ← mapM_cpp f l'; Ret (y :: ys) end.

Definition fill_values (contextElementVector : list (EntityId * list ContextAttribute)) (cer : Cer) : cpp Cer :=
  cav ← mapM_cpp (fun ca => match attributeLookup contextElementVector (cer_entity cer) (ca_name ca) with
                            | None => Ret ca
                            | Some from => with_value_of from ca
                            end) (cer_attrs cer);
  Ret (mkCer (cer_entity cer) cav (cer_status cer)).

Definition same_element (e e' : EntityId) : bool := (eid_id e' =s eid_id e) && (eid_type e' =s eid_type e).

(** ContextElementVector::lookup and the push of an attribute to the element found, or made. *)
Fixpoint element_push (e : EntityId) (ca : ContextAttribute) (vec : list (EntityId * list ContextAttribute))
    : list (EntityId * list ContextAttribute) :=
  match vec with
  | [] => [(e, [copy ca])]
  | ce :: r => if same_element e ce.1 then (ce.1, ce.2 ++ [copy ca]) :: r else ce :: element_push e ca r
  end.

(** UpdateContextRequestVector::lookup, and the request found, or made. *)
Fixpoint request_push (e : EntityId) (ca : ContextAttribute) (requestV : list UpdateContextRequest) : list UpdateContextRequest :=
  match requestV with
  | [] => [mkUpdateContextRequest (element_push e ca [(e, [])]) "UPDATE" (ca_providingApplication ca)]
  | r :: requestV' =>
      if upcr_contextProvider r =s ca_providingApplication ca
      then mkUpdateContextRequest (element_push e ca (upcr_contextElementVector r)) (upcr_updateActionType r) (upcr_contextProvider r) :: requestV'
      else r :: request_push e ca requestV'
  end.

Record Sorted := mkSorted { so_response : UpdateContextResponse; so_requestV : list UpdateContextRequest }.

Definition sort_attribute (e : EntityId) (st : Sorted) (ca : ContextAttribute) : Sorted :=
  if negb (ca_found ca) then mkSorted (notFoundPush e (copy ca) None (so_response st)) (so_requestV st)
  else if ca_providingApplication ca =s "" then mkSorted (foundPush e (copy ca) (so_response st)) (so_requestV st)
  else mkSorted (so_response st) (request_push e ca (so_requestV st)).

Definition sort_cer (st : Sorted) (cer : Cer) : Sorted := foldl (sort_attribute (cer_entity cer)) st (cer_attrs cer).

Definition sort_forwards (cerV : list Cer) : Sorted :=
  foldl sort_cer (mkSorted (mkUpdateContextResponse [] (mkStatusCode SccOk "")) []) cerV.

(** ** Sending *)

(** The arguments of httpRequestSend that change. *)
Record HttpRequest := mkHttpRequest {
  hr_ip : string;
  hr_port : Z;
  hr_protocol : string;
  hr_tenant : string;
  hr_servicePath : string;
  hr_xauthToken : string;
  hr_resource : string;
  hr_content : string;
  hr_correlator : string
}.

(** jsonPayloadClean *)
Definition jsonPayloadClean (payload : string) : option string :=
  match find_str "{" payload with Some (_, r) => Some (String "{" r) | None => None end.

Definition failed_forward (details : string) : UpdateContextResponse :=
  mkUpdateContextResponse [] (mkStatusCode SccContextElementNotFound details).

Section Send.

Context (isodate2str : double -> string) (tenant : string).
(** httpRequestSend, at each call: what it returns, and the text it leaves in [out]. *)
Context (httpRequestSend : nat -> HttpRequest -> Z * string).
(** jsonTreat for RtUpdateContextResponse, into a response whose error code is 200. *)
Context (jsonTreat : string -> option UpdateContextResponse).

Definition attributeFormat_of (ci : ConnectionInfo) : string := default "" (uriParam ci !! "attributeFormat").

(** The answer of a provider. *)
Definition provider_answer (r : Z) (out : string) : UpdateContextResponse :=
  if negb (r =? 0) then failed_forward "error forwarding update"
  else
    match jsonPayloadClean (c_str out) with
    | None => failed_forward "invalid context provider response"
    | Some cleanPayload =>
        match jsonTreat cleanPayload with
        | None => failed_forward ""
        | Some res =>
            let upcrs := upcrs_fill res (mkUpdateContextResponse [] (mkStatusCode SccNone "")) in
            let sc := if sc_code (upcrs_errorCode upcrs) =? SccNone then mkStatusCode SccOk "" else upcrs_errorCode upcrs in
            let sc := match upcrs_contextElementResponseVector upcrs with
                      | [cer] => if sc_code (cer_status cer) =? SccContextElementNotFound
                                 then mkStatusCode SccContextElementNotFound "" else sc
                      | _ => sc
                      end in
            mkUpdateContextResponse (upcrs_contextElementResponseVector upcrs) sc
        end
    end.

(** updateForward: what is sent, if anything, and the response.  The port is cut to 16 bits. *)
Definition updateForward (ci : ConnectionInfo) (n : nat) (upcr : UpdateContextRequest)
    : cpp (option HttpRequest * UpdateContextResponse) :=
  url ← parseUrl (upcr_contextProvider upcr);
  match url with
  | None => Ret (None, failed_forward "")
  | Some u =>
      let payload := UpdateContextRequest_render isodate2str (apiVersion ci) (attributeFormat_of ci) true upcr "" in
      let h := httpHeaders ci in
      let request := mkHttpRequest (host u) (port u mod 65536) (protocol u) tenant
        (if hh_servicePathReceived h then hh_servicePath h else "") (hh_xauthToken h) (path u +:+ "/updateContext")
        (c_str payload) (hh_correlator h) in
      let '(r, out) := httpRequestSend n request in
      Ret (Some request, provider_answer r out)
  end.

(** The loop over the requests, up to cprForwardLimit. *)
Fixpoint forward_all (ci : ConnectionInfo) (n : nat) (requestV : list UpdateContextRequest) (response : UpdateContextResponse)
    : cpp (list HttpRequest * UpdateContextResponse) :=
  match requestV with
  | [] => Ret ([], response)
  | upcr :: requestV' =>
      if upcr_contextProvider upcr =s "" then forward_all ci n requestV' response
      else
        '(sent, upcrs) ← updateForward ci n upcr;
        '(sents, response) ← forward_all ci (match sent with Some _ => S n | None => n end) requestV' (merge upcrs response);
        Ret (match sent with Some r => r :: sents | None => sents end, response)
  end.

End Send.

(** ** The request *)

Section Post.

Context {D S : Type} `{!EntityStore D} `{!Subscriptions S}.
Context (mem : Metadata) (memDate : double).
Context (registrationsQuery : list EntityId -> list string -> cpp (option (list ContextRegistration))).
Context (fromjson : string -> cpp doc) (clock : nat -> nat -> Z).
Context (isodate2str : double -> string) (tenant : string) (outJson : bool).
Context (httpRequestSend : nat -> HttpRequest -> Z * string) (jsonTreat : string -> option UpdateContextResponse).
Context (cprForwardLimit : N).

(** What postUpdateContext leaves: its answer, the connection, the response, what was sent to
    providers, and the database and subscriptions. *)
Record Posted := mkPosted {
  po_answer : string;
  po_ci : ConnectionInfo;
  po_response : UpdateContextResponse;
  po_sent : list HttpRequest;
  po_db : D;
  po_subs : S
}.

Definition set_code (code : Z) (ci : ConnectionInfo) : ConnectionInfo := set_status code (answer ci) ci.
Definition set_servicePathV (spV : list string) (ci : ConnectionInfo) : ConnectionInfo :=
  mkConnectionInfo (url ci) (verb ci) (apiVersion ci) (httpHeaders ci) (uriParam ci) (uriParamOptions ci) (uriParamTypes ci)
    spV (httpStatusCode ci) (answer ci).

Definition render_response (ci : ConnectionInfo) (upcrs : UpdateContextResponse) : cpp (string * UpdateContextResponse) :=
  UpdateContextResponse_render isodate2str (apiVersion ci) (attributeFormat_of ci) outJson upcrs "".

Definition not_exist (ci : ConnectionInfo) : bool := default "" (uriParam ci !! "!exist") =s SCOPE_VALUE_ENTITY_TYPE.

(** Steps 01 and 02: the service path that is used, or the error. *)
Definition update_service_path (servicePathV : list string) : cpp (string + string) :=
  if (1 <? length servicePathV)%nat then Ret (inl "more than one service path in context update request")
  else
    sp ← vec_at servicePathV 0;
    let sp := if sp =s "" then DEFAULT_SERVICE_PATH_UPDATES else sp in
    let '(res, _) := Strings.servicePathCheck (Some (c_str sp)) in
    Ret (if negb (res =s "OK") then inl res else inr sp).

(** Steps 04 to the end: what is forwarded. *)
Definition forward_updates (ci : ConnectionInfo) (contextElementVector : list (EntityId * list ContextAttribute))
    (upcrs : UpdateContextResponse) : cpp (string * UpdateContextResponse * list HttpRequest) :=
  cerV ← mapM_cpp (fill_values contextElementVector) (upcrs_contextElementResponseVector upcrs);
  let st := sort_forwards cerV in
  '(sent, response) ← forward_all isodate2str tenant httpRequestSend jsonTreat ci 0
                        (take (N.to_nat cprForwardLimit) (so_requestV st)) (so_response st);
  '(answer, response) ← render_response ci response;
  Ret (answer, upcrs_fill response (mkUpdateContextResponse [] (mkStatusCode SccNone "")), sent).

Definition postUpdateContext (ci : ConnectionInfo) (upcr : UpdateContextRequest) (flavour : Ngsiv2Flavour) (db : D) (subs : S)
    : cpp Posted :=
  sp ← update_service_path (servicePathV ci);
  match sp with
  | inl err =>
      '(answer, upcrs) ← render_response ci (mkUpdateContextResponse [] (mkStatusCode SccBadRequest err));
      Ret (mkPosted answer ci upcrs [] db subs)
  | inr sp =>
      let ci := set_servicePathV [sp] ci in
      '(sc, elements, world) ←
        mongoUpdateContext mem memDate registrationsQuery fromjson clock (servicePathV ci) (apiVersion ci)
          (attributesToNotFound (upcr_contextElementVector upcr)) (upcr_updateActionType upcr) flavour (not_exist ci)
          (mkWorld db subs []);
      let ci := if negb (httpStatusCode ci =? SccCreated) then set_code SccOk ci else ci in
      upcrs ← foundAndNotFoundAttributeSeparation (bool_decide (verb ci = DELETE)) elements
                (mkUpdateContextResponse (wd_response world) sc);
      if negb (forwardsPending (upcrs_contextElementResponseVector upcrs)) then
        '(answer, upcrs) ← render_response ci upcrs;
        Ret (mkPosted answer ci upcrs [] (wd_db world) (wd_subs world))
      else
        '(answer, upcrs, sent) ← forward_updates ci elements upcrs;
        Ret (mkPosted answer ci upcrs sent (wd_db world) (wd_subs world))
  end.

End Post.

(** ** Copies *)

Lemma Metadata_copy_id m : Metadata_copy m false = m.
Proof. by destruct m. Qed.

Lemma copy_copy ca : copy (copy ca) = copy ca.
Proof.
  unfold copy, ContextAttribute_copy. cbn. f_equal. rewrite <- list_fmap_compose. apply list_fmap_ext. intros _ m _.
  unfold compose. by rewrite Metadata_copy_id.
Qed.

Lemma copy_found ca : ca_found (copy ca) = ca_found ca.
Proof. done. Qed.

(** ** What goes where *)

(** The attributes of a response, each with its entity, in order. *)
Definition routed (cerV : list Cer) : list (EntityId * ContextAttribute) :=
  flat_map (fun cer => map (pair (cer_entity cer)) (cer_attrs cer)) cerV.

(** What is forwarded to [p] about the entity [e]; what is answered at once about it. *)
Definition forwarded (p : string) (e : EntityId) (x : EntityId * ContextAttribute) : bool :=
  ca_found x.2 && negb (ca_providingApplication x.2 =s "") && (ca_providingApplication x.2 =s p) && same_element x.1 e.
Definition local (e : EntityId) (x : EntityId * ContextAttribute) : bool :=
  ca_found x.2 && (ca_providingApplication x.2 =s "") && EntityId_equal e x.1.
Definition missing (e : EntityId) (x : EntityId * ContextAttribute) : bool := negb (ca_found x.2) && EntityId_equal e x.1.

(** The attributes that a vector of requests holds for a provider about an entity: those of
    the first element about the entity in the first request for the provider. *)
Fixpoint element_attrs (e : EntityId) (vec : list (EntityId * list ContextAttribute)) : list ContextAttribute :=
  match vec with [] => [] | ce :: r => if same_element e ce.1 then ce.2 else element_attrs e r end.

Fixpoint requested (p : string) (e : EntityId) (requestV : list UpdateContextRequest) : list ContextAttribute :=
  match requestV with
  | [] => []
  | r :: requestV' => if upcr_contextProvider r =s p then element_attrs e (upcr_contextElementVector r) else requested p e requestV'
  end.

(** The attributes a response holds about an entity under a code. *)
Fixpoint responded (code : Z) (e : EntityId) (cerV : list Cer) : list ContextAttribute :=
  match cerV with
  | [] => []
  | cer :: r => if EntityId_equal (cer_entity cer) e && ((code =? SccNone) || (sc_code (cer_status cer) =? code)) then cer_attrs cer
                else responded code e r
  end.

Lemma same_element_refl e : same_element e e = true.
Proof. unfold same_element. by rewrite !str_eqb_refl. Qed.

Lemma same_element_trans e e' e'' : same_element e e' = true -> same_element e e'' = same_element e' e''.
Proof. unfold same_element. rewrite andb_true_iff, !str_eqb_eq. by intros [-> ->]. Qed.

Lemma same_element_sym e e' : same_element e e' = same_element e' e.
Proof. unfold same_element. by rewrite (str_eqb_sym (eid_id e)), (str_eqb_sym (eid_type e)). Qed.

Lemma EntityId_equal_refl e : EntityId_equal e e = true.
Proof. unfold EntityId_equal. by rewrite !str_eqb_refl, eqb_reflx. Qed.

Lemma EntityId_equal_sym e e' : EntityId_equal e e' = EntityId_equal e' e.
Proof.
  unfold EntityId_equal. rewrite (str_eqb_sym (eid_id e)), (str_eqb_sym (eid_type e)).
  by destruct (isTrue (eid_isPattern e)), (isTrue (eid_isPattern e')).
Qed.

Lemma EntityId_equal_trans e e' e'' : EntityId_equal e e' = true -> EntityId_equal e e'' = EntityId_equal e' e''.
Proof.
  unfold EntityId_equal. rewrite !andb_true_iff, !str_eqb_eq. intros [[-> ->] H]. apply eqb_prop in H. by rewrite H.
Qed.

(** *** Requests *)

Lemma element_push_attrs e ca vec e' :
  element_attrs e' (element_push e ca vec) = element_attrs e' vec ++ (if same_element e e' then [copy ca] else []).
Proof.
  induction vec as [|[en cav] vec IH]; cbn [element_push element_attrs fst snd].
  - rewrite same_element_sym. by destruct (same_element e e').
  - destruct (same_element e en) eqn:E; cbn [element_attrs fst snd].
    + rewrite (same_element_trans _ _ _ E), (same_element_sym e'). destruct (same_element en e'); [done|by rewrite app_nil_r].
    + destruct (same_element e' en) eqn:E'; [|done]. rewrite (same_element_sym e e'), (same_element_trans _ _ _ E'), (same_element_sym en).
      rewrite E. by rewrite app_nil_r.
Qed.

Definition key (e : EntityId) : string * string := (eid_id e, eid_type e).

Lemma same_element_key e e' : same_element e e' = true <-> key e = key e'.
Proof. unfold same_element, key. rewrite andb_true_iff, !str_eqb_eq. split; [by intros [-> ->]|by intros [= -> ->]]. Qed.

Definition element_keys (vec : list (EntityId * list ContextAttribute)) : list (string * string) := (fun ce => key ce.1) <$> vec.

Lemma element_push_keys e ca vec k : k ∈ element_keys (element_push e ca vec) -> k ∈ element_keys vec \/ k = key e.
Proof.
  induction vec as [|[en cav] vec IH]; cbn [element_push].
  - intros ->%list_elem_of_singleton. by right.
  - destruct (same_element e (en, cav).1); cbn [element_keys fmap list_fmap fst]; [by left|]. rewrite !elem_of_cons. intros [->|H].
    + by left; left.
    + destruct (IH H); [left; by right|by right].
Qed.

Lemma element_push_nodup e ca vec : NoDup (element_keys vec) -> NoDup (element_keys (element_push e ca vec)).
Proof.
  induction vec as [|[en cav] vec IH]; cbn [element_push]; [intros _; apply NoDup_singleton|].
  destruct (same_element e (en, cav).1) eqn:E; [done|]. cbn [element_keys fmap list_fmap fst]. rewrite !NoDup_cons. intros [Hn Hd].
  split; [|by apply IH]. intros [H|H]%element_push_keys; [done|]. cbn [fst] in E.
  rewrite <- not_true_iff_false, same_element_key in E. by apply E.
Qed.

(** A vector of requests as the code makes it. *)
Definition requests_ok (requestV : list UpdateContextRequest) : Prop :=
  NoDup (upcr_contextProvider <$> requestV) /\
  Forall (fun r => upcr_contextProvider r <> "" /\ upcr_updateActionType r = "UPDATE" /\ NoDup (element_keys (upcr_contextElementVector r))) requestV.

Lemma request_push_requested e ca requestV p e' :
  requested p e' (request_push e ca requestV)
  = requested p e' requestV ++ (if (ca_providingApplication ca =s p) && same_element e e' then [copy ca] else []).
Proof.
  induction requestV as [|r requestV IH]; cbn [request_push requested upcr_contextProvider upcr_contextElementVector].
  - destruct (ca_providingApplication ca =s p); [|done]. rewrite element_push_attrs. cbn [element_attrs fst snd].
    by destruct (same_element e' e), (same_element e e').
  - destruct (upcr_contextProvider r =s ca_providingApplication ca) eqn:E; cbn [requested upcr_contextProvider upcr_contextElementVector].
    + apply str_eqb_eq in E. rewrite <- E. destruct (upcr_contextProvider r =s p) eqn:Ep; cbn [andb].
      * by rewrite element_push_attrs.
      * by rewrite app_nil_r.
    + destruct (upcr_contextProvider r =s p) eqn:Ep; [|done]. apply str_eqb_eq in Ep. subst p.
      rewrite str_eqb_sym, E. cbn [andb]. by rewrite app_nil_r.
Qed.

Lemma request_push_providers e ca requestV p : p ∈ (upcr_contextProvider <$> request_push e ca requestV) ->
  p ∈ (upcr_contextProvider <$> requestV) \/ p = ca_providingApplication ca.
Proof.
  induction requestV as [|r requestV IH]; cbn [request_push].
  - intros ->%list_elem_of_singleton. by right.
  - destruct (upcr_contextProvider r =s _); cbn [fmap list_fmap upcr_contextProvider]; [by left|]. rewrite !elem_of_cons. intros [->|H].
    + by left; left.
    + destruct (IH H); [left; by right|by right].
Qed.

Lemma request_push_ok e ca requestV : ca_providingApplication ca <> "" -> requests_ok requestV -> requests_ok (request_push e ca requestV).
Proof.
  intros Hp [Hn Hf]. induction Hf as [|r requestV (H1 & H2 & H3) Hf IH]; cbn [request_push].
  - split; [apply NoDup_singleton|]. constructor; [|done]. split_and!; [done|done|]. apply (element_push_nodup e ca [(e, [])]), NoDup_singleton.
  - cbn [fmap list_fmap] in Hn. apply NoDup_cons in Hn as [Hr Hn]. destruct (upcr_contextProvider r =s _) eqn:E.
    + split; [by apply NoDup_cons|]. constructor; [|done]. split_and!; [done|done|]. by apply element_push_nodup.
    + destruct (IH Hn) as [IH1 IH2]. split; [|by constructor]. cbn [fmap list_fmap]. apply NoDup_cons. split; [|done].
      intros [H|H]%request_push_providers; [done|]. by apply str_eqb_neq in E.
Qed.

(** *** Responses *)

Lemma lookup_cer_Some f e code cerV cerV' : lookup_cer f e code cerV = Some cerV' ->
  exists cerV1 cer cerV2, cerV = cerV1 ++ cer :: cerV2 /\ cerV' = cerV1 ++ f cer :: cerV2 /\
  EntityId_equal (cer_entity cer) e && ((code =? SccNone) || (sc_code (cer_status cer) =? code)) = true.
Proof.
  revert cerV'. induction cerV as [|c cerV IH]; intros cerV'; [done|]. cbn [lookup_cer]. destruct (_ && _) eqn:E.
  - intros [= <-]. by exists [], c, cerV.
  - destruct (lookup_cer f e code cerV) as [r|]; [|done]. intros [= <-]. destruct (IH r eq_refl) as (c1 & x & c2 & -> & -> & H).
    by exists (c :: c1), x, c2.
Qed.

(** What both pushes do to the elements of a response. *)
Definition pushed (e : EntityId) (ca : ContextAttribute) (sc : StatusCode) (code : Z) (cerV : list Cer) : list Cer :=
  default (cerV ++ [mkCer e [copy ca] sc]) (lookup_cer (cer_push ca) e code cerV).

Lemma foundPush_pushed e ca upcrs :
  foundPush e ca upcrs = set_cerV (pushed e ca (mkStatusCode SccOk "") SccOk (upcrs_contextElementResponseVector upcrs)) upcrs.
Proof. unfold foundPush, pushed. by destruct (lookup_cer _ _ _ _). Qed.

Lemma notFoundPush_pushed e ca sc upcrs : notFoundPush e ca sc upcrs
  = set_cerV (pushed e ca (default (mkStatusCode SccContextElementNotFound (eid_id e)) sc) SccContextElementNotFound
                (upcrs_contextElementResponseVector upcrs)) upcrs.
Proof. unfold notFoundPush, pushed. by destruct (lookup_cer _ _ _ _). Qed.

Lemma pushed_cons e ca sc code cer cerV : pushed e ca sc code (cer :: cerV)
  = if EntityId_equal (cer_entity cer) e && ((code =? SccNone) || (sc_code (cer_status cer) =? code)) then cer_push ca cer :: cerV
    else cer :: pushed e ca sc code cerV.
Proof. unfold pushed. cbn [lookup_cer]. destruct (_ && _); [done|]. by destruct (lookup_cer _ _ _ _). Qed.

Lemma pushed_responded e ca sc code cerV code' e' : sc_code sc = code -> code <> SccNone -> code' <> SccNone ->
  responded code' e' (pushed e ca sc code cerV)
  = responded code' e' cerV ++ (if (code =? code') && EntityId_equal e e' then [copy ca] else []).
Proof.
  intros Hsc Hc Hc'. apply Z.eqb_neq in Hc, Hc'. induction cerV as [|cer cerV IH].
  - unfold pushed. cbn [lookup_cer default app responded cer_entity cer_status cer_attrs]. rewrite Hsc, Hc'. cbn [orb].
    rewrite andb_comm. by destruct (_ && _).
  - rewrite pushed_cons, Hc. cbn [orb]. destruct (EntityId_equal (cer_entity cer) e && _) eqn:E.
    + apply andb_true_iff in E as [E1 E2%Z.eqb_eq]. cbn [responded cer_push cer_entity cer_status cer_attrs]. rewrite Hc', E2. cbn [orb].
      rewrite (EntityId_equal_trans _ _ _ E1), andb_comm. destruct (_ && _); [done|by rewrite app_nil_r].
    + cbn [responded]. rewrite Hc'. cbn [orb]. destruct (EntityId_equal (cer_entity cer) e' && _) eqn:E'; [|exact IH].
      apply andb_true_iff in E' as [E1 E2%Z.eqb_eq].
      assert ((code =? code') && EntityId_equal e e' = false) as ->; [|by rewrite app_nil_r].
      apply not_true_iff_false. intros [Hcc%Z.eqb_eq Hee]%andb_true_iff. rewrite <- Hcc in E2.
      rewrite (EntityId_equal_trans _ _ e E1), EntityId_equal_sym, Hee, E2, Z.eqb_refl in E. done.
Qed.

(** ** Sorting *)

Definition forwards_to (p : string) (cerV : list Cer) (e : EntityId) : list ContextAttribute :=
  (fun x => copy x.2) <$> List.filter (forwarded p e) (routed cerV).

(** What the loop has made of the attributes so far. *)
Record sorted_upto (l : list (EntityId * ContextAttribute)) (st : Sorted) : Prop := mkSortedUpto {
  su_ok : requests_ok (so_requestV st);
  su_providers : forall p, p ∈ (upcr_contextProvider <$> so_requestV st) ->
    exists x, x ∈ l /\ ca_found x.2 = true /\ ca_providingApplication x.2 = p;
  su_requested : forall p e, requested p e (so_requestV st) = (fun x => copy x.2) <$> List.filter (forwarded p e) l;
  su_found : forall e, responded SccOk e (upcrs_contextElementResponseVector (so_response st))
    = (fun x => copy x.2) <$> List.filter (local e) l;
  su_missing : forall e, responded SccContextElementNotFound e (upcrs_contextElementResponseVector (so_response st))
    = (fun x => copy x.2) <$> List.filter (missing e) l
}.

Lemma filter_copies_snoc (f : EntityId * ContextAttribute -> bool) l x :
  (fun x => copy x.2) <$> List.filter f (l ++ [x]) = ((fun x => copy x.2) <$> List.filter f l) ++ (if f x then [copy x.2] else []).
Proof. rewrite List.filter_app, fmap_app. cbn. by destruct (f x). Qed.

Lemma sort_attribute_requested st e ca p e' : requested p e' (so_requestV (sort_attribute e st ca))
  = requested p e' (so_requestV st) ++ (if forwarded p e' (e, ca) then [copy ca] else []).
Proof.
  unfold sort_attribute, forwarded. cbn [fst snd]. destruct (ca_found ca); cbn [negb andb so_requestV]; [|by rewrite app_nil_r].
  destruct (ca_providingApplication ca =s ""); cbn [negb andb so_requestV]; [by rewrite app_nil_r|]. apply request_push_requested.
Qed.

Lemma sort_attribute_found st e ca e' :
  responded SccOk e' (upcrs_contextElementResponseVector (so_response (sort_attribute e st ca)))
  = responded SccOk e' (upcrs_contextElementResponseVector (so_response st)) ++ (if local e' (e, ca) then [copy ca] else []).
Proof.
  unfold sort_attribute, local. cbn [fst snd]. rewrite EntityId_equal_sym. destruct (ca_found ca); cbn [negb andb so_response].
  - destruct (ca_providingApplication ca =s ""); cbn [negb andb so_response]; [|by rewrite app_nil_r].
    rewrite foundPush_pushed. cbn [set_cerV upcrs_contextElementResponseVector]. by rewrite pushed_responded, copy_copy.
  - rewrite notFoundPush_pushed. cbn [set_cerV upcrs_contextElementResponseVector]. by rewrite pushed_responded.
Qed.

Lemma sort_attribute_missing st e ca e' :
  responded SccContextElementNotFound e' (upcrs_contextElementResponseVector (so_response (sort_attribute e st ca)))
  = responded SccContextElementNotFound e' (upcrs_contextElementResponseVector (so_response st))
    ++ (if missing e' (e, ca) then [copy ca] else []).
Proof.
  unfold sort_attribute, missing. cbn [fst snd]. rewrite EntityId_equal_sym. destruct (ca_found ca); cbn [negb andb so_response].
  - destruct (ca_providingApplication ca =s ""); cbn [negb andb so_response]; [|by rewrite app_nil_r].
    rewrite foundPush_pushed. cbn [set_cerV upcrs_contextElementResponseVector]. by rewrite pushed_responded.
  - rewrite notFoundPush_pushed. cbn [set_cerV upcrs_contextElementResponseVector]. by rewrite pushed_responded, copy_copy.
Qed.

Lemma sort_attribute_upto l st e ca : sorted_upto l st -> sorted_upto (l ++ [(e, ca)]) (sort_attribute e st ca).
Proof.
  intros [H1 H2 H3 H4 H5]. split.
  - unfold sort_attribute. destruct (ca_found ca); cbn [negb so_requestV]; [|done].
    destruct (ca_providingApplication ca =s "") eqn:Ep; cbn [so_requestV]; [done|]. apply str_eqb_neq in Ep. by apply request_push_ok.
  - intros p Hp. assert (p ∈ (upcr_contextProvider <$> so_requestV st) \/ ca_found ca = true /\ p = ca_providingApplication ca) as [Hin|[Hf ->]].
    { revert Hp. unfold sort_attribute. destruct (ca_found ca); cbn [negb so_requestV]; [|by left].
      destruct (ca_providingApplication ca =s ""); cbn [so_requestV]; [by left|]. intros [?|?]%request_push_providers; [by left|by right]. }
    + destruct (H2 p Hin) as (x & Hx & ?). exists x. split; [|done]. apply elem_of_app. by left.
    + exists (e, ca). split; [|done]. apply elem_of_app. right. by apply list_elem_of_singleton.
  - intros p e'. by rewrite sort_attribute_requested, filter_copies_snoc, H3.
  - intros e'. by rewrite sort_attribute_found, filter_copies_snoc, H4.
  - intros e'. by rewrite sort_attribute_missing, filter_copies_snoc, H5.
Qed.

Lemma sort_cer_upto l st cer : sorted_upto l st -> sorted_upto (l ++ map (pair (cer_entity cer)) (cer_attrs cer)) (sort_cer st cer).
Proof.
  unfold sort_cer. revert l st. induction (cer_attrs cer) as [|ca cav IH]; intros l st H; [by rewrite app_nil_r|].
  cbn [foldl map]. change (l ++ _ :: ?r) with (l ++ [(cer_entity cer, ca)] ++ r). rewrite app_assoc. by apply IH, sort_attribute_upto.
Qed.

Lemma sort_forwards_upto cerV : sorted_upto (routed cerV) (sort_forwards cerV).
Proof.
  unfold sort_forwards. set (st0 := mkSorted _ _). assert (sorted_upto [] st0) as H0.
  { split; try done; [|by intros p Hp%elem_of_nil]. split; [apply NoDup_nil_2|done]. }
  change (routed cerV) with ([] ++ routed cerV). revert H0. generalize st0, ([] : list (EntityId * ContextAttribute)). clear st0.
  induction cerV as [|cer cerV IH]; intros st l H; [by rewrite app_nil_r|].
  cbn [foldl routed flat_map]. rewrite app_assoc. by apply IH, sort_cer_upto.
Qed.

(** C15. Each attribute of the answer of the database goes to one place, in order: what was
    not found to an element of the response with 404, what is local to one with 200, and
    what is provided to the request for its provider, under its entity; there is one
    request for a provider, with one element for an entity. *)
Theorem sort_forwards_partition cerV :
  let st := sort_forwards cerV in
  requests_ok (so_requestV st) /\
  (forall p e, requested p e (so_requestV st) = forwards_to p cerV e) /\
  (forall e, responded SccOk e (upcrs_contextElementResponseVector (so_response st))
     = (fun x => copy x.2) <$> List.filter (local e) (routed cerV)) /\
  (forall e, responded SccContextElementNotFound e (upcrs_contextElementResponseVector (so_response st))
     = (fun x => copy x.2) <$> List.filter (missing e) (routed cerV)).
Proof. destruct (sort_forwards_upto cerV) as [H1 _ H3 H4 H5]. done. Qed.

(** ** Found and not found *)

(** Everything in an element was found, or nothing was and its code tells an error. *)
Definition pure_cer (cer : Cer) : Prop :=
  Forall (fun ca => ca_found ca = true) (cer_attrs cer) \/
  cer_attrs cer <> [] /\ Forall (fun ca => ca_found ca = false) (cer_attrs cer) /\
  sc_code (cer_status cer) <> SccOk /\ sc_code (cer_status cer) <> SccNone.

Lemma filter_none_Forall {A} (f : A -> bool) l : List.filter f l = [] -> Forall (fun x => f x = false) l.
Proof.
  induction l as [|x l IH]; [done|]. cbn. destruct (f x) eqn:E; [done|]. intros H. constructor; [done|]. by apply IH.
Qed.

Lemma filter_Forall {A} (f : A -> bool) l : Forall (fun x => f x = true) (List.filter f l).
Proof. apply Forall_forall. intros x [_ ?]%list_elem_of_In%List.filter_In. done. Qed.

Lemma filter_split {A} (f : A -> bool) l : List.filter f l ++ List.filter (fun x => negb (f x)) l ≡ₚ l.
Proof.
  induction l as [|x l IH]; [done|]. cbn. destruct (f x); cbn; [by constructor|].
  by rewrite <- Permutation_middle, IH.
Qed.

Lemma filter_filter_not {A} (f : A -> bool) l : List.filter f (List.filter (fun x => negb (f x)) l) = [].
Proof. induction l as [|x l IH]; [done|]. cbn. destruct (f x) eqn:E; cbn; [done|by rewrite E]. Qed.

Lemma filter_filter_same {A} (f : A -> bool) l : List.filter f (List.filter f l) = List.filter f l.
Proof. induction l as [|x l IH]; [done|]. cbn. destruct (f x) eqn:E; cbn; [by rewrite E, IH|done]. Qed.

Definition found_item (x : EntityId * ContextAttribute) : bool := ca_found x.2.

(** What separate makes of an element. *)
Record separated (cer : Cer) (cer' : Cer) (notFound : option Cer) : Prop := mkSeparated {
  sp_entity : cer_entity cer' = cer_entity cer;
  sp_pure : pure_cer cer' /\ (forall c, notFound = Some c -> pure_cer c);
  sp_found : List.filter ca_found (cer_attrs cer') = List.filter ca_found (cer_attrs cer);
  sp_rest : match notFound with
            | None => cer_attrs cer' = cer_attrs cer
            | Some c => cer_entity c = cer_entity cer /\ List.filter ca_found (cer_attrs c) = [] /\
                        cer_attrs cer' ++ cer_attrs c ≡ₚ cer_attrs cer
            end
}.

Lemma separate_separated cer : separated cer (separate cer).1 (separate cer).2.
Proof.
  unfold separate. set (founds := List.filter ca_found (cer_attrs cer)). set (nots := List.filter (fun ca => negb (ca_found ca)) (cer_attrs cer)).
  assert (forall c n (r : Cer * option Cer), r = (if (sc_code (cer_status c) =? SccContextElementNotFound) && (sc_details (cer_status c) =s "")
    then mkCer (cer_entity cer) (cer_attrs c) (mkStatusCode (sc_code (cer_status c)) (eid_id (cer_entity cer))) else c, n) ->
    separated cer c n -> separated cer r.1 r.2) as Hd.
  { intros c n r -> [H1 [H2 H3] H4 H5]. destruct (_ && _); [|done]. cbn [fst snd]. split; [done| |done|done]. split; [|done].
    unfold pure_cer in *. by cbn. }
  destruct ((length founds =? 0)%nat && (0 <? length nots)%nat) eqn:E1; [|destruct ((0 <? length founds)%nat && (0 <? length nots)%nat) eqn:E2].
  - apply andb_true_iff in E1 as [E1%Nat.eqb_eq%length_zero_iff_nil E2%Nat.ltb_lt]. eapply Hd; [done|]. split; cbn [cer_entity cer_attrs]; [done| |done|done].
    split; [|done]. right. cbn [cer_attrs cer_status]. split; [intros H; unfold nots in E2; rewrite H in E2; cbn in E2; lia|].
    split; [by apply filter_none_Forall|]. destruct ((sc_code (cer_status cer) =? SccOk) || (sc_code (cer_status cer) =? SccNone)) eqn:E; [done|].
    apply orb_false_iff in E as [E3%Z.eqb_neq E4%Z.eqb_neq]. done.
  - apply andb_true_iff in E2 as [_ E2%Nat.ltb_lt]. eapply Hd; [done|]. split; cbn [cer_entity cer_attrs]; [done| |apply filter_filter_same|].
    + split; [left; apply filter_Forall|]. intros c [= <-]. right. cbn [cer_attrs cer_status sc_code]. split; [intros H; rewrite H in E2; cbn in E2; lia|].
      split; [|done]. apply Forall_forall. intros ca [_ Hn%negb_true_iff]%list_elem_of_In%List.filter_In. done.
    + split; [done|]. split; [apply filter_filter_not|apply filter_split].
  - eapply Hd; [done|]. split; [done| |done|done]. split; [|done]. left. apply andb_false_iff in E1, E2.
    assert (nots = []) as Hn.
    { destruct nots as [|n nots']; [done|]. destruct E1 as [E1|E1], E2 as [E2|E2]; try (by cbn in E1, E2).
      apply Nat.eqb_neq in E1. apply Nat.ltb_ge in E2. lia. }
    apply filter_none_Forall in Hn. eapply Forall_impl; [exact Hn|]. intros ca H. by apply negb_false_iff in H.
Qed.

Lemma separation_vectors cerV :
  let cerV' := map (fun cer => (separate cer).1) cerV ++ omap (fun cer => (separate cer).2) cerV in
  Forall pure_cer cerV' /\ routed cerV' ≡ₚ routed cerV /\
  List.filter found_item (routed cerV') = List.filter found_item (routed cerV) /\ (cerV <> [] -> cerV' <> []).
Proof.
  assert (forall e cav, List.filter found_item (map (pair e) cav) = map (pair e) (List.filter ca_found cav)) as Hf.
  { intros e cav. induction cav as [|ca cav IH]; [done|]. cbn [map List.filter]. unfold found_item at 1.
    cbn [snd]. destruct (ca_found ca); cbn [map]; by rewrite IH. }
  assert (forall a b, routed (a ++ b) = routed a ++ routed b) as Ha by (intros; apply flat_map_app).
  cbn zeta. split_and!.
  - apply Forall_app. split; apply Forall_forall; intros cer Hin.
    + apply list_elem_of_In, in_map_iff in Hin as (c & <- & _). by destruct (separate_separated c) as [_ [? _] _ _].
    + apply list_elem_of_omap in Hin as (c & _ & Hc). destruct (separate_separated c) as [_ [_ ?] _ _]. auto.
  - rewrite Ha. induction cerV as [|c cerV IH]; [done|]. cbn [map omap list_omap routed flat_map].
    change (flat_map _ (map (fun cer => (separate cer).1) cerV)) with (routed (map (fun cer => (separate cer).1) cerV)).
    change (flat_map _ cerV) with (routed cerV). rewrite <- IH. destruct (separate_separated c) as [He _ _ Hr]. rewrite He.
    destruct ((separate c).2) as [n|].
    + destruct Hr as (Hn & _ & Hp). cbn [routed flat_map]. rewrite Hn. rewrite <- Hp, map_app.
      change (flat_map _ (omap _ cerV)) with (routed (omap (fun cer => (separate cer).2) cerV)). solve_Permutation.
    + rewrite Hr. by rewrite <- app_assoc.
  - rewrite Ha, List.filter_app. assert (List.filter found_item (routed (omap (fun cer => (separate cer).2) cerV)) = []) as ->.
    { induction cerV as [|c cerV IH]; [done|]. cbn [omap list_omap]. destruct (separate_separated c) as [_ _ _ Hr].
      destruct ((separate c).2) as [n|]; [|done]. cbn [routed flat_map]. rewrite List.filter_app, Hf. destruct Hr as (_ & -> & _). done. }
    rewrite app_nil_r. induction cerV as [|c cerV IH]; [done|]. cbn [map routed flat_map]. rewrite !List.filter_app.
    change (flat_map _ (map (fun cer => (separate cer).1) cerV)) with (routed (map (fun cer => (separate cer).1) cerV)).
    change (flat_map _ cerV) with (routed cerV). rewrite IH, !Hf.
    by rewrite (sp_entity _ _ _ (separate_separated c)), (sp_found _ _ _ (separate_separated c)).
  - by destruct cerV.
Qed.

(** C16. The answer of the database is taken apart: no attribute is lost or made up, those that
    were found stay in their order, and no element mixes attributes found with others that
    are not; one with none found has the code of an error.  It is always taken apart,
    unless the request has no element at all. *)
Theorem separation_pure isDelete elements upcrs : elements <> [] ->
  exists upcrs', foundAndNotFoundAttributeSeparation isDelete elements upcrs = Ret upcrs' /\
  Forall pure_cer (upcrs_contextElementResponseVector upcrs') /\
  routed (upcrs_contextElementResponseVector upcrs') ≡ₚ routed (upcrs_contextElementResponseVector upcrs) /\
  List.filter found_item (routed (upcrs_contextElementResponseVector upcrs'))
    = List.filter found_item (routed (upcrs_contextElementResponseVector upcrs)) /\
  (sc_code (upcrs_errorCode upcrs) = SccOk -> isDelete = false -> upcrs_contextElementResponseVector upcrs = [] ->
     sc_code (upcrs_errorCode upcrs') = SccContextElementNotFound).
Proof.
  intros He. destruct elements as [|[e0 cav0] elements]; [done|]. unfold foundAndNotFoundAttributeSeparation, first_id.
  destruct (separation_vectors (upcrs_contextElementResponseVector upcrs)) as (H1 & H2 & H3 & H4).
  set (cerV := map _ _ ++ omap _ _) in *. change (vec_at ((e0, cav0) :: elements) 0) with (Ret (e0, cav0)).
  cbn [mbind cpp_bind fst].
  assert (exists sc, (if negb isDelete && (length cerV =? 0)%nat && (sc_code (upcrs_errorCode upcrs) =? SccOk)
      then Ret (mkStatusCode SccContextElementNotFound (eid_id e0)) else Ret (upcrs_errorCode upcrs)) = Ret sc /\
    (sc_code (upcrs_errorCode upcrs) = SccOk -> isDelete = false -> cerV = [] -> sc_code sc = SccContextElementNotFound)) as (sc & Hsc & Hcode).
  { destruct (negb isDelete && _ && _) eqn:E; eexists; (split; [done|]); [done|]. intros Hc -> Hn. by rewrite Hn, Hc in E. }
  rewrite Hsc. cbn [mbind cpp_bind].
  assert (exists sc', (if sc_code sc =? SccContextElementNotFound then
          match cerV with
          | [] => Ret (mkStatusCode (sc_code sc) (eid_id e0))
          | [cer] => Ret (mkStatusCode (sc_code sc) (eid_id (cer_entity cer)))
          | _ => Ret sc
          end else Ret sc) = Ret sc' /\ sc_code sc' = sc_code sc) as (sc' & Hsc' & Hcode').
  { destruct (sc_code sc =? SccContextElementNotFound), cerV as [|c [|c' cerV']]; by eexists. }
  rewrite Hsc'. cbn [mbind cpp_bind]. eexists. split; [done|]. cbn [upcrs_contextElementResponseVector upcrs_errorCode]. split_and!; [done|done|done|].
  intros Hc Hd Hn. rewrite Hcode'. apply Hcode; [done|done|]. subst cerV. by rewrite Hn.
Qed.

(** ** What is sent *)

Section Sent.

Context (isodate2str : double -> string) (tenant : string) (outJson : bool).
Context (httpRequestSend : nat -> HttpRequest -> Z * string) (jsonTreat : string -> option UpdateContextResponse).
Context (cprForwardLimit : N) (ci : ConnectionInfo).

(** The message a request is sent as, to the place its provider names. *)
Definition message (u : Url) (upcr : UpdateContextRequest) : HttpRequest :=
  mkHttpRequest (host u) (port u mod 65536) (protocol u) tenant
    (if hh_servicePathReceived (httpHeaders ci) then hh_servicePath (httpHeaders ci) else "") (hh_xauthToken (httpHeaders ci))
    (path u +:+ "/updateContext")
    (c_str (UpdateContextRequest_render isodate2str (apiVersion ci) (attributeFormat_of ci) true upcr "")) (hh_correlator (httpHeaders ci)).

Definition message_to (upcr : UpdateContextRequest) : option HttpRequest :=
  match parseUrl (upcr_contextProvider upcr) with Ret (Some u) => Some (message u upcr) | _ => None end.

Lemma forward_all_sent n requestV response sent response' :
  Forall (fun r => upcr_contextProvider r <> "") requestV ->
  forward_all isodate2str tenant httpRequestSend jsonTreat ci n requestV response = Ret (sent, response') ->
  sent = omap message_to requestV.
Proof.
  intros H. revert n response sent response'. induction H as [|r requestV Hr H IH]; intros n response sent response'; [by intros [= <- <-]|].
  cbn [forward_all]. apply str_eqb_neq in Hr as ->. unfold updateForward. cbn [omap list_omap]. unfold message_to at 1.
  destruct (parseUrl (upcr_contextProvider r)) as [[u|]| |] eqn:Eu; cbn [mbind cpp_bind]; try done.
  - fold (message u r). destruct (httpRequestSend n (message u r)) as [rc out]. cbn [mbind cpp_bind].
    destruct (forward_all _ _ _ _ _ _ _ _) as [[sents resp]| |] eqn:E; cbn [mbind cpp_bind]; try done.
    intros [= <- <-]. f_equal. by eapply IH.
  - destruct (forward_all _ _ _ _ _ _ _ _) as [[sents resp]| |] eqn:E; cbn [mbind cpp_bind]; try done.
    intros [= <- <-]. by eapply IH.
Qed.

(** Where the elements of the requests come from. *)
Definition element_from (l : list (EntityId * ContextAttribute)) (ce : EntityId * list ContextAttribute) : Prop :=
  (exists x, x ∈ l /\ x.1 = ce.1) /\ Forall (fun ca => exists x, x ∈ l /\ ca = copy x.2) ce.2.

Lemma element_from_mono l l' ce : l ⊆ l' -> element_from l ce -> element_from l' ce.
Proof.
  intros Hl [(x & Hx & He) Hf]. split; [by exists x; split; [apply Hl|]|]. eapply Forall_impl; [exact Hf|].
  intros ca (y & Hy & ->). exists y. split; [by apply Hl|done].
Qed.

Lemma element_push_from l e ca vec : (e, ca) ∈ l -> Forall (element_from l) vec -> Forall (element_from l) (element_push e ca vec).
Proof.
  intros Hin. assert (exists x, x ∈ l /\ copy ca = copy x.2) as Hc by (by exists (e, ca)).
  induction 1 as [|[en cav] vec [H1 H2] H IH]; cbn [element_push].
  - repeat constructor; [by exists (e, ca)|done].
  - destruct (same_element e (en, cav).1); constructor; try done. split; [done|]. cbn [snd] in *. apply Forall_app. split; [done|by constructor].
Qed.

Lemma request_push_from l e ca requestV : (e, ca) ∈ l ->
  Forall (fun r => Forall (element_from l) (upcr_contextElementVector r)) requestV ->
  Forall (fun r => Forall (element_from l) (upcr_contextElementVector r)) (request_push e ca requestV).
Proof.
  intros Hin. induction 1 as [|r requestV Hr H IH]; cbn [request_push].
  - repeat constructor. cbn [upcr_contextElementVector]. apply (element_push_from l e ca [(e, [])]); [done|].
    constructor; [|done]. split; [by exists (e, ca)|done].
  - destruct (upcr_contextProvider r =s _); constructor; try done. cbn [upcr_contextElementVector]. by apply element_push_from.
Qed.

Lemma sort_forwards_from cerV :
  Forall (fun r => Forall (element_from (routed cerV)) (upcr_contextElementVector r)) (so_requestV (sort_forwards cerV)).
Proof.
  unfold sort_forwards. set (st0 := mkSorted _ _).
  assert (Forall (fun r => Forall (element_from (routed cerV)) (upcr_contextElementVector r)) (so_requestV st0)) as H0 by done.
  assert (forall l st, l ⊆ cerV -> Forall (fun r => Forall (element_from (routed cerV)) (upcr_contextElementVector r)) (so_requestV st) ->
    Forall (fun r => Forall (element_from (routed cerV)) (upcr_contextElementVector r)) (so_requestV (foldl sort_cer st l))) as H; [|by apply H].
  clear st0 H0. induction l as [|cer l IH]; intros st Hl Hst; [done|]. cbn [foldl]. apply IH; [intros x Hx; apply Hl; by right|].
  assert (forall cav st, cav ⊆ cer_attrs cer -> Forall (fun r => Forall (element_from (routed cerV)) (upcr_contextElementVector r)) (so_requestV st) ->
    Forall (fun r => Forall (element_from (routed cerV)) (upcr_contextElementVector r)) (so_requestV (foldl (sort_attribute (cer_entity cer)) st cav))) as Hc;
    [|by apply Hc].
  clear st Hst. induction cav as [|ca cav IHc]; intros st Hcav Hst; [done|]. cbn [foldl]. apply IHc; [intros x Hx; apply Hcav; by right|].
  unfold sort_attribute. destruct (ca_found ca); cbn [negb so_requestV]; [|done]. destruct (ca_providingApplication ca =s ""); cbn [so_requestV]; [done|].
  apply request_push_from; [|done]. apply list_elem_of_In, in_flat_map. exists cer. split; [by apply list_elem_of_In, Hl; left|].
  apply in_map, list_elem_of_In, Hcav. by left.
Qed.

Abbreviation rendered_ok := (cer_ok isodate2str (apiVersion ci) (attributeFormat_of ci) true UpdateContext).

Lemma attribute_ok_copy request ca : attribute_ok isodate2str (apiVersion ci) (attributeFormat_of ci) true request ca ->
  attribute_ok isodate2str (apiVersion ci) (attributeFormat_of ci) true request (copy ca).
Proof. done. Qed.

Lemma requests_rendered cerV upcr : Forall rendered_ok cerV -> upcr ∈ so_requestV (sort_forwards cerV) ->
  Forall (fun ce => element_ok isodate2str (apiVersion ci) (attributeFormat_of ci) true UpdateContext ce.1 ce.2) (upcr_contextElementVector upcr).
Proof.
  intros Hok Hin. pose proof (sort_forwards_from cerV) as Hf. rewrite Forall_forall in Hf. eapply Forall_impl; [by apply Hf|].
  assert (forall x, x ∈ routed cerV -> exists cer, rendered_ok cer /\ x.1 = cer_entity cer /\ x.2 ∈ cer_attrs cer) as Hr.
  { intros x Hx%list_elem_of_In. apply in_flat_map in Hx as (cer & Hc & Hx). apply in_map_iff in Hx as (ca & <- & Hca).
    exists cer. rewrite Forall_forall in Hok. split; [by apply Hok, list_elem_of_In|]. split; [done|by apply list_elem_of_In]. }
  intros [e cav] [(x & Hx & Hxe) Hcav]. cbn [fst snd] in *. split.
  - destruct (Hr x Hx) as (cer & [Hp _] & He & _). rewrite <- Hxe, He. exact Hp.
  - eapply Forall_impl; [exact Hcav|]. intros ca (y & Hy & ->). destruct (Hr y Hy) as (cer & [_ Ha] & _ & Hin').
    rewrite Forall_forall in Ha. by apply attribute_ok_copy, Ha.
Qed.

Lemma requested_in p e upcr requestV : requests_ok requestV -> upcr ∈ requestV -> upcr_contextProvider upcr = p ->
  requested p e requestV = element_attrs e (upcr_contextElementVector upcr).
Proof.
  intros [Hn _] Hin <-. induction requestV as [|r requestV IH]; [by apply elem_of_nil in Hin|]. cbn [requested].
  cbn [fmap list_fmap] in Hn. apply NoDup_cons in Hn as [Hr Hn]. apply elem_of_cons in Hin as [->|Hin]; [by rewrite str_eqb_refl|].
  destruct (upcr_contextProvider r =s _) eqn:E; [|by apply IH]. apply str_eqb_eq in E. exfalso. apply Hr. rewrite E. by apply list_elem_of_fmap_2.
Qed.

(** C14. What is sent for an update: one message to each of the first providers whose URL can
    be read, in the order in which they were met; it goes to the host and port (cut to 16
    bits) of that URL, and its content reads as the request that holds, entity by
    entity and in order, exactly the attributes which that provider provides. *)
Theorem forwarded_messages elements upcrs answer upcrs' sent cerV :
  forward_updates isodate2str tenant outJson httpRequestSend jsonTreat cprForwardLimit ci elements upcrs = Ret (answer, upcrs', sent) ->
  mapM_cpp (fill_values elements) (upcrs_contextElementResponseVector upcrs) = Ret cerV -> Forall rendered_ok cerV ->
  sent = omap message_to (take (N.to_nat cprForwardLimit) (so_requestV (sort_forwards cerV))) /\
  forall m, m ∈ sent -> exists u upcr, m = message u upcr /\ parseUrl (upcr_contextProvider upcr) = Ret (Some u) /\
    NoDup (element_keys (upcr_contextElementVector upcr)) /\
    (forall e, element_attrs e (upcr_contextElementVector upcr) = forwards_to (upcr_contextProvider upcr) cerV e) /\
    read_json (hr_content m) = Some (JObj (request_members isodate2str (apiVersion ci) (attributeFormat_of ci) true upcr)) /\
    upcr_updateActionType upcr = "UPDATE".
Proof.
  intros Hf Hv Hok. unfold forward_updates in Hf. rewrite Hv in Hf. cbn [mbind cpp_bind] in Hf.
  destruct (forward_all _ _ _ _ _ _ _ _) as [[sent' response]| |] eqn:E; cbn [mbind cpp_bind] in Hf; try done.
  destruct (render_response _ _ _ _) as [[a r]| |]; cbn [mbind cpp_bind] in Hf; try done. injection Hf as _ _ <-.
  destruct (sort_forwards_upto cerV) as [[Hn Hreq] _ Hrq _ _].
  assert (sent' = omap message_to (take (N.to_nat cprForwardLimit) (so_requestV (sort_forwards cerV)))) as Hs.
  { eapply forward_all_sent; [|exact E]. apply Forall_take. eapply Forall_impl; [exact Hreq|]. by intros r' (? & _). }
  split; [done|]. intros m Hm. rewrite Hs in Hm. apply list_elem_of_omap in Hm as (upcr & Hin & Hm). apply subseteq_take in Hin.
  unfold message_to in Hm. destruct (parseUrl (upcr_contextProvider upcr)) as [[u|]| |] eqn:Eu; try done. injection Hm as <-.
  rewrite Forall_forall in Hreq. destruct (Hreq upcr Hin) as (Hp & Ha & Hk). exists u, upcr.
  split_and!; [done|done|done| | |done].
  - intros e. rewrite <- (requested_in (upcr_contextProvider upcr) e upcr (so_requestV (sort_forwards cerV))); [apply Hrq|split; [done|by apply Forall_forall]|done|done].
  - cbn [message hr_content]. assert (read_json (UpdateContextRequest_render isodate2str (apiVersion ci) (attributeFormat_of ci) true upcr "")
      = Some (JObj (request_members isodate2str (apiVersion ci) (attributeFormat_of ci) true upcr))) as Hread.
    { apply request_reads; [done|by rewrite Ha|by apply (requests_rendered cerV)]. }
    rewrite c_str_id; [done|]. by apply (read_json_no_nul _ _ Hread).
Qed.

End Sent.

(** ** Witnesses *)

Definition plain_ci (v : Verb) (spV : list string) : ConnectionInfo := mkConnectionInfo "" v "v1" no_headers ∅ ∅ [] spV SccOk "".
Definition no_answer (_ : nat) (_ : HttpRequest) : Z * string := (0, "").
Definition no_reader (_ : string) : option UpdateContextResponse := None.

Definition provided_temp : ContextAttribute :=
  mkContextAttribute "temp" "T" [] ValueTypeString "" S754_nan false "http://cp:1026/v1" true false None false.
Definition room_R : EntityId := mkEntityId "Room" "R" "false" "".
Definition provided_response : UpdateContextResponse :=
  mkUpdateContextResponse [mkCer room_R [provided_temp] (mkStatusCode SccOk "")] (mkStatusCode SccOk "").

Abbreviation forward_room type := (forward_updates no_date "" true no_answer no_reader 10 (plain_ci POST ["/"])
  [(mkEntityId "Room" type "false" "", [text "temp" "21"])] provided_response).

Lemma forwarded_messages_witness : exists m upcr, 
  (exists answer upcrs', forward_room "R" = Ret (answer, upcrs', [m])) /\
  hr_ip m = "cp"%string /\ hr_port m = 1026 /\ hr_resource m = "/v1/updateContext"%string /\
  read_json (hr_content m) = Some (JObj (request_members no_date "v1" "" true upcr)).
Proof.
  destruct (forward_room "R") as [[[answer upcrs'] sent]| |] eqn:E; [|vm_compute in E; discriminate E|vm_compute in E; discriminate E].
  destruct (mapM_cpp (fill_values [(room_R, [text "temp" "21"])]) (upcrs_contextElementResponseVector provided_response)) as [cerV| |] eqn:Ev;
    [|vm_compute in Ev; discriminate Ev|vm_compute in Ev; discriminate Ev].
  assert (Forall (cer_ok no_date "v1" "" true RenderV1.UpdateContext) cerV) as Hok.
  { vm_compute in Ev. injection Ev as <-. constructor; [|constructor]. split; [repeat split; vm_compute; reflexivity|].
    constructor; [|constructor]. split; [intros H; discriminate H|intros H; vm_compute in H; discriminate H]. }
  destruct (forwarded_messages no_date "" true no_answer no_reader 10 (plain_ci POST ["/"]) [(room_R, [text "temp" "21"])]
    provided_response answer upcrs' sent cerV E Ev Hok) as [Hs Hm].
  assert (exists m, sent = [m] /\ hr_ip m = "cp"%string /\ hr_port m = 1026 /\ hr_resource m = "/v1/updateContext"%string) as (m & -> & Hh).
  { rewrite Hs. vm_compute in Ev. injection Ev as <-. eexists. repeat split; vm_compute; reflexivity. }
  destruct (Hm m ltac:(left)) as (u & upcr & _ & Hu & _ & He & Hr & _). destruct Hh as (H1 & H2 & H3). exists m, upcr.
  split; [exists answer, upcrs'; reflexivity|]. split; [exact H1|]. split; [exact H2|]. split; [exact H3|]. exact Hr.
Defined.

Lemma separation_pure_witness : exists upcrs',
  foundAndNotFoundAttributeSeparation false [(room_R, [text "temp" "21"])]
    (mkUpdateContextResponse [mkCer room_R [provided_temp; set_found false (text "hum" "3")] (mkStatusCode SccOk "")] (mkStatusCode SccOk ""))
  = Ret upcrs' /\ Forall pure_cer (upcrs_contextElementResponseVector upcrs').
Proof.
  destruct (separation_pure false [(room_R, [text "temp" "21"])]
    (mkUpdateContextResponse [mkCer room_R [provided_temp; set_found false (text "hum" "3")] (mkStatusCode SccOk "")] (mkStatusCode SccOk ""))
    ltac:(discriminate)) as (upcrs' & H1 & H2 & _). exists upcrs'. split; [exact H1|exact H2].
Defined.

(** ** What the code does beside *)

(** The message of a forwarded update, read. *)
Definition sent_values (r : cpp (string * UpdateContextResponse * list HttpRequest)) : option jtree :=
  match r with Ret (_, _, [m]) => read_json (hr_content m) | _ => None end.

Definition sent_room (value : string) : jtree :=
  JObj [("contextElements", JArr [JObj [("type", JStr "R"); ("isPattern", JStr "false"); ("id", JStr "Room");
          ("attributes", JArr [JObj [("name", JStr "temp"); ("type", JStr "T"); ("value", JStr value)]])]]);
        ("updateAction", JStr "UPDATE")].

(** An update that does not name the type of the entity: the response does, and the attribute
    is not looked up; the provider is sent an empty value. *)
Example untyped_update_loses_value : sent_values (forward_room "R") = Some (sent_room "21") /\ sent_values (forward_room "") = Some (sent_room "").
Proof. split; vm_compute; reflexivity. Qed.

(** A request without elements: the first of them is read all the same. *)
Example no_element_UB :
  foundAndNotFoundAttributeSeparation false [] (mkUpdateContextResponse [] (mkStatusCode SccOk "")) = UB "vector index out of range".
Proof. reflexivity. Qed.

(** The resource for a provider whose URL has no path has two slashes. *)
Example no_path_resource : exists u, parseUrl "http://cp:1026" = Ret (Some u) /\
  hr_resource (message no_date "" (plain_ci POST ["/"]) u (mkUpdateContextRequest [] "UPDATE" "http://cp:1026")) = "//updateContext"%string.
Proof. eexists. split; vm_compute; reflexivity. Qed.

(** The deletion of an attribute that a provider has is sent to it as an update with an empty
    value. *)
Example delete_forwarded_as_update : exists po,
  postUpdateContext (EntityStore0 := recorded_store) (Subscriptions0 := no_subscriptions) no_mem S754_nan room_registered empty_query
    (fun _ _ => 9) no_date "" true no_answer no_reader 10 (plain_ci DELETE ["/"])
    (mkUpdateContextRequest [(the_room, [text "hum" ""])] "DELETE" "") NGSIV2_NO_FLAVOUR (wd_db room_world) tt = Ret po /\
  exists m, po_sent po = [m] /\ hr_ip m = "cpr"%string /\ 
    exists o, read_json (hr_content m) = Some (JObj (o ++ [("updateAction", JStr "UPDATE")])).
Proof.
  eexists. split; [vm_compute; reflexivity|]. eexists. split; [reflexivity|]. split; [reflexivity|].
  eexists [_]. vm_compute. reflexivity.
Qed.
