(* ===== verification/EntityRequests.v ===== *)
(** * Requests of version 2 that change entities

    The routines of serviceRoutinesV2/ that create, update and delete entities:
    postEntities, postEntity, patchEntity, putEntity, deleteEntity, putEntityAttribute,
    putEntityAttributeValue and postBatchUpdate, with the UpdateContextRequest::fill they
    use and rest/errorAdaptation.cpp.  Each makes an update request, gives it to
    postUpdateContext (Forward.v) and turns what it leaves into a reply of version 2. *)

From S2P Require Import Prelude Strings Double Bson Compound Ngsi AttrUpdate Location EntityDoc Registrations.
From S2P Require Import FilterParse FilterMatch SubCache SubSync Queries Notify EntityUpdate UpdateContext QueryContext.
From S2P Require Import Duration Subscriptions Json JsonEntity JsonText JsonSubscription JsonRequest RenderV1 Rest Forward.

Open Scope Z_scope.

Definition INVAL_CHAR_URI : string := "invalid character in URI".
Definition MORE_MATCHING_ENT : string := "More than one matching entity. Please refine your query".
Definition STRUCTURAL_OVERHEAD_BSON_ID : Z := 10.

(** ** Update requests *)

(** UpdateContextRequest::fill(const Entity*, ...): the attributes are copied. *)
Definition fill_entity (id type : string) (cav : list ContextAttribute) (action : string) : UpdateContextRequest :=
  mkUpdateContextRequest [(mkEntityId id type "false" "", copy <$> cav)] action "".

(** UpdateContextRequest::fill(entityId, attributeP, ...) *)
Definition fill_attribute (entityId : string) (ca : ContextAttribute) (action type : string) : UpdateContextRequest :=
  fill_entity entityId type [ca] action.

(** UpdateContextRequest::fill(Entities*, ...): the attributes move. *)
Definition fill_entities (vec : list Entity) (action : string) : UpdateContextRequest :=
  mkUpdateContextRequest
    (map (fun e => (mkEntityId (en_id e) (en_type e) (en_isPattern e) "", en_attributeVector e)) vec) action "".

(** ** Errors *)

(** invalidParameterForNgsiv2 *)
Definition invalidParameterForNgsiv2 (details : string) : option OrionError :=
  if str_contains "geo" details then
    Some (if str_contains "more than one" details || str_contains "another one has been previously defined" details
          then OrionError_new SccRequestEntityTooLarge "No more than one geo-location attribute allowed" "NoResourcesAvailable"
          else OrionError_new SccBadRequest details "")
  else None.

(** legalEntityLength *)
Definition legalEntityLength (id type servicePath : string) : bool :=
  Z.of_nat (String.length servicePath + String.length id + String.length type) + STRUCTURAL_OVERHEAD_BSON_ID <? 1024.

(** What a routine replies: the text, the status code, the headers, and what it leaves. *)
Record Replied (D S : Type) := mkReplied {
  rp_answer : string;
  rp_code : Z;
  rp_headers : list (string * string);
  rp_sent : list HttpRequest;
  rp_db : D;
  rp_subs : S
}.
Arguments mkReplied {D S} _ _ _ _ _ _.
Arguments rp_answer {D S} _.
Arguments rp_code {D S} _.
Arguments rp_headers {D S} _.
Arguments rp_sent {D S} _.
Arguments rp_db {D S} _.
Arguments rp_subs {D S} _.

Definition is_ok (code : Z) : bool := (code =? SccOk) || (code =? SccNone).

(** The first element of a response that tells an error. *)
Definition first_failure (cerV : list Cer) : option StatusCode :=
  cer_status <$> List.find (fun cer => negb (is_ok (sc_code (cer_status cer)))) cerV.

Section Routines.

Context {D S : Type} `{!EntityStore D} `{!Subscriptions S}.
(** Memory that constructors leave unassigned. *)
Context (mem : Metadata) (memDate : double) (memNumber : double) (memBool : bool).
Context (registrationsQuery : list EntityId -> list string -> cpp (option (list ContextRegistration))).
Context (fromjson : string -> cpp doc) (clock : nat -> nat -> Z).
Context (isodate2str : double -> string) (tenant : string) (outJson : bool).
Context (httpRequestSend : nat -> HttpRequest -> Z * string) (jsonTreat : string -> option UpdateContextResponse).
Context (cprForwardLimit : N) (checkIdv1 : bool).

Abbreviation post_update := (postUpdateContext mem memDate registrationsQuery fromjson clock isodate2str tenant outJson
                               httpRequestSend jsonTreat cprForwardLimit).

Definition uri_type (ci : ConnectionInfo) : string := default "" (uriParam ci !! "type").

(** An error found before postUpdateContext. *)
Definition refused (oe : OrionError) (ci : ConnectionInfo) (db : D) (subs : S) : Replied D S :=
  let '(text, code) := OrionError_render oe (httpStatusCode ci) in mkReplied text code [] [] db subs.

Definition forbidden_uri (ci : ConnectionInfo) (s : string) : bool := forbidden_id checkIdv1 (apiVersion ci) s.
Definition bad_uri : OrionError := OrionError_new SccBadRequest INVAL_CHAR_URI "".

(** The reply after postUpdateContext. *)
Definition replied (p : Posted) (text : string) (code : Z) (headers : list (string * string)) : Replied D S :=
  mkReplied text code headers (po_sent p) (po_db p) (po_subs p).
Definition replied_error (p : Posted) (oe : OrionError) (code : Z) : Replied D S :=
  let '(text, code) := OrionError_render oe code in replied p text code [].

(** ** Creation *)

Definition location_of (id type : string) : string :=
  "/v2/entities/" +:+ id +:+ (if negb (type =s "") then "?type=" +:+ type else "?type=none").

(** postEntities *)
Definition postEntities (ci : ConnectionInfo) (e : Entity) (db : D) (subs : S) : cpp (Replied D S) :=
  if negb (legalEntityLength (en_id e) (en_type e) (hh_servicePath (httpHeaders ci)))
  then Ret (refused (OrionError_new SccBadRequest "Too long entity id/type/servicePath combination" "")
              (set_code SccBadRequest ci) db subs)
  else
    p ← post_update ci (fill_entity (en_id e) (en_type e) (en_attributeVector e) "APPEND_STRICT") NGSIV2_FLAVOUR_ONCREATE db subs;
    cer ← vec_at (upcrs_contextElementResponseVector (po_response p)) 0;
    let sc := cer_status cer in
    let code := httpStatusCode (po_ci p) in
    Ret (if is_ok (sc_code sc) then
           replied p "" SccCreated [("Location", location_of (en_id e) (en_type e))]
         else if sc_code sc =? SccInvalidModification then
           replied_error p (OrionError_new (sc_code sc) (sc_details sc) "") SccInvalidModification
         else if sc_code sc =? SccInvalidParameter then
           match invalidParameterForNgsiv2 (sc_details sc) with
           | Some oe => replied_error p oe (oe_code oe)
           | None => replied p "" code []
           end
         else replied p "" code []).

(** ** Updates *)

Definition no_content (code : Z) : Z := if is_ok code then SccNoContent else code.

(** postEntity *)
Definition postEntity (ci : ConnectionInfo) (compV : list string) (cav : list ContextAttribute) (db : D) (subs : S)
    : cpp (Replied D S) :=
  id ← vec_at compV 2;
  if forbidden_uri ci id then Ret (refused bad_uri ci db subs)
  else
    p ← post_update ci (fill_entity id (uri_type ci) cav
          (if bool_decide ("append" ∈ uriParamOptions ci) then "APPEND_STRICT" else "APPEND"))
          NGSIV2_FLAVOUR_ONAPPENDORUPDATE db subs;
    let code := httpStatusCode (po_ci p) in
    Ret (match first_failure (upcrs_contextElementResponseVector (po_response p)) with
         | Some sc =>
             match (if sc_code sc =? SccInvalidParameter then invalidParameterForNgsiv2 (sc_details sc) else None) with
             | Some oe => replied_error p oe (oe_code oe)
             | None => replied_error p (OrionError_new (sc_code sc) (sc_details sc) "") (sc_code sc)
             end
         | None => replied p "" (if code =? SccOk then SccNoContent else code) []
         end).

(** The code of the only element of a response, where it is an error. *)
Definition only_code (p : @Posted D S) : Z :=
  match upcrs_contextElementResponseVector (po_response p) with
  | [cer] => if negb (sc_code (cer_status cer) =? SccOk) then sc_code (cer_status cer) else httpStatusCode (po_ci p)
  | _ => httpStatusCode (po_ci p)
  end.

Definition entity_not_found : OrionError := OrionError_new SccContextElementNotFound "No context element found" "".
Definition many_entities : OrionError := OrionError_new SccConflict MORE_MATCHING_ENT "".

(** patchEntity; an error rendered along the way may change the code. *)
Definition patchEntity (ci : ConnectionInfo) (compV : list string) (cav : list ContextAttribute) (db : D) (subs : S)
    : cpp (Replied D S) :=
  id ← vec_at compV 2;
  if forbidden_uri ci id then Ret (refused bad_uri ci db subs)
  else
    p ← post_update ci (fill_entity id (uri_type ci) cav "UPDATE") NGSIV2_NO_FLAVOUR db subs;
    let '(text, code) :=
      match upcrs_contextElementResponseVector (po_response p) with
      | [cer] =>
          let c := sc_code (cer_status cer) in
          if negb (c =? SccOk) then
            if c =? SccContextElementNotFound then OrionError_render entity_not_found c
            else if c =? SccConflict then OrionError_render many_entities c
            else ("", c)
          else ("", httpStatusCode (po_ci p))
      | _ => ("", httpStatusCode (po_ci p))
      end in
    Ret (if is_ok code then replied p text SccNoContent []
         else if code =? SccInvalidParameter then replied_error p entity_not_found SccContextElementNotFound
         else replied p text code []).

(** putEntity *)
Definition putEntity (ci : ConnectionInfo) (compV : list string) (cav : list ContextAttribute) (db : D) (subs : S)
    : cpp (Replied D S) :=
  id ← vec_at compV 2;
  if forbidden_uri ci id then Ret (refused bad_uri ci db subs)
  else
    p ← post_update ci (fill_entity id (uri_type ci) cav "REPLACE") NGSIV2_NO_FLAVOUR db subs;
    let code := only_code p in
    Ret (if is_ok code then replied p "" SccNoContent []
         else if code =? SccConflict then replied_error p many_entities code
         else if code =? SccContextElementNotFound then replied_error p entity_not_found code
         else replied p "" code []).

(** putEntityAttribute *)
Definition putEntityAttribute (ci : ConnectionInfo) (compV : list string) (ca : ContextAttribute) (db : D) (subs : S)
    : cpp (Replied D S) :=
  entityId ← vec_at compV 2;
  attributeName ← vec_at compV 4;
  if forbidden_uri ci entityId then Ret (refused bad_uri ci db subs)
  else if forbidden_uri ci attributeName then Ret (refused bad_uri ci db subs)
  else
    p ← post_update ci (fill_attribute entityId (ca_named attributeName ca) "UPDATE" (uri_type ci)) NGSIV2_NO_FLAVOUR db subs;
    let code := no_content (only_code p) in
    Ret (if code =? SccInvalidModification
         then replied_error p (OrionError_new SccInvalidModification
                "Request payload is missing some piece of information. Please, check Orion documentation." "") code
         else replied p "" code []).

(** putEntityAttributeValue *)
Definition putEntityAttributeValue (ci : ConnectionInfo) (compV : list string) (ca : ContextAttribute) (db : D) (subs : S)
    : cpp (Replied D S) :=
  entityId ← vec_at compV 2;
  attributeName ← vec_at compV 4;
  if forbidden_uri ci entityId then Ret (refused bad_uri ci db subs)
  else if forbidden_uri ci attributeName then Ret (refused bad_uri ci db subs)
  else
    let ca := ca_named attributeName ca in
    let err := ContextAttribute_check checkIdv1 (apiVersion ci) true ca in
    if negb (err =s "OK") then Ret (refused (OrionError_new SccBadRequest err "") ci db subs)
    else
      p ← post_update ci (fill_attribute entityId ca "UPDATE" (uri_type ci)) NGSIV2_NO_FLAVOUR db subs;
      let code := only_code p in
      if code =? SccConflict then
        t ← ErrorCode_toJson (mkErrorCode "TooManyResults" MORE_MATCHING_ENT) true;
        Ret (replied p t.1 code [])
      else Ret (replied p "" (no_content code) []).

(** ** Deletion *)

(** The error that deleteEntity makes of a status, and the status code it sets. *)
Definition deletion_error (sc : StatusCode) : OrionError * Z :=
  if sc_code sc =? SccContextElementNotFound then
    (mkOrionError SccContextElementNotFound "NotFound" "The requested entity has not been found. Check type and id", SccContextElementNotFound)
  else if sc_code sc =? SccInvalidParameter then
    (mkOrionError SccContextElementNotFound "NotFound" "Attribute not found", SccContextElementNotFound)
  else (mkOrionError (sc_code sc) (httpStatusCodeString (sc_code sc)) "", sc_code sc).

(** deleteEntity, for an entity or one attribute of it. *)
Definition deleteEntity (ci : ConnectionInfo) (compV : list string) (db : D) (subs : S) : cpp (Replied D S) :=
  id ← vec_at compV 2;
  if forbidden_uri ci id then Ret (refused bad_uri ci db subs)
  else
    cav ← (if (length compV =? 5)%nat
           then name ← vec_at compV 4; Ret [ca_named name (ContextAttribute_new memNumber memBool)]
           else Ret []);
    p ← post_update ci (fill_entity id (uri_type ci) cav "DELETE") NGSIV2_NO_FLAVOUR db subs;
    Ret (match first_failure (upcrs_contextElementResponseVector (po_response p)) with
         | Some sc => let '(oe, code) := deletion_error sc in replied_error p oe code
         | None => replied p "" (no_content (httpStatusCode (po_ci p))) []
         end).

(** ** Batches *)

(** The error code after the elements were looked at. *)
Definition batch_error (upcrs : UpdateContextResponse) : StatusCode :=
  foldl (fun ec cer => if negb (sc_code (cer_status cer) =? SccOk) then cer_status cer else ec)
    (upcrs_errorCode upcrs) (upcrs_contextElementResponseVector upcrs).

(** postBatchUpdate *)
Definition postBatchUpdate (ci : ConnectionInfo) (entities : list Entity) (updateActionType : string) (db : D) (subs : S)
    : cpp (Replied D S) :=
  p ← post_update ci (fill_entities entities updateActionType) NGSIV2_NO_FLAVOUR db subs;
  let code := httpStatusCode (po_ci p) in
  let ec := batch_error (po_response p) in
  let ec := if negb (code =? SccOk) then mkStatusCode code (po_answer p) else ec in
  Ret (if negb (sc_code ec =? SccOk) then
         replied_error p
           (OrionError_new (sc_code ec)
              (if (sc_code ec =? SccContextElementNotFound) && (sc_details ec =s "") then "Entity not found" else sc_details ec) "")
           (sc_code ec)
       else replied p "" SccNoContent []).

(** ** From the payload *)

(** What jsonRequestTreat reads goes to the routine, or its error is the reply. *)
Definition with_payload {A} (treated : cpp (Treated A)) (routine : A -> cpp (Replied D S)) (db : D) (subs : S) : cpp (Replied D S) :=
  r ← treated;
  match (r : Treated A) with
  | inl (text, code) => Ret (mkReplied text code [] [] db subs)
  | inr x => routine x
  end.

Context (strptime_timegm : string -> string -> option Z).

Definition keyValues_of (ci : ConnectionInfo) : bool := bool_decide ("keyValues" ∈ uriParamOptions ci).

(** POST /v2/entities *)
Definition post_entities (ci : ConnectionInfo) (payload : option json) (db : D) (subs : S) : cpp (Replied D S) :=
  with_payload (treat_entity memNumber memBool strptime_timegm checkIdv1 (keyValues_of ci) (apiVersion ci) payload false)
    (fun e => postEntities ci e db subs) db subs.

(** POST /v2/op/update *)
Definition post_batch_update (ci : ConnectionInfo) (payload : option json) (db : D) (subs : S) : cpp (Replied D S) :=
  with_payload (parseBatchUpdate memNumber memBool strptime_timegm (keyValues_of ci) (apiVersion ci) payload)
    (fun b => postBatchUpdate ci (bu_entities b) (bu_updateActionType b) db subs) db subs.

End Routines.

(** ** What is answered by postUpdateContext *)

(** The elements of an answer, taken apart. *)
Definition taken_apart (cerV : list Cer) : list Cer :=
  map (fun cer => (separate cer).1) cerV ++ omap (fun cer => (separate cer).2) cerV.

(** A detail as it is left by rendering. *)
Definition escaped (details : string) : string :=
  if str_contains (str1 "034") (c_str details) then escape (c_str details) else details.

Lemma status_escaped code details : code <> SccNone ->
  status_shown (mkStatusCode code details) = mkStatusCode code (escaped details).
Proof. intros H%Z.eqb_neq. unfold status_shown. cbn [sc_code sc_details]. by rewrite H. Qed.

Definition served (sp : string) (ci : ConnectionInfo) : ConnectionInfo :=
  if negb (httpStatusCode ci =? SccCreated) then set_code SccOk (set_servicePathV [sp] ci) else set_servicePathV [sp] ci.

Lemma separated_one cer : (separate cer).2 = None -> taken_apart [cer] = [(separate cer).1].
Proof. intros H. unfold taken_apart. cbn. by rewrite H. Qed.

(** An element without attributes, or with found ones only. *)
Lemma separate_found cer : Forall (fun ca => ca_found ca = true) (cer_attrs cer) -> sc_code (cer_status cer) <> SccContextElementNotFound ->
  separate cer = (cer, None).
Proof.
  intros Hf Hc. unfold separate. assert (List.filter (fun ca => negb (ca_found ca)) (cer_attrs cer) = []) as ->.
  { induction Hf as [|ca cav H _ IH]; [done|]. cbn. by rewrite H. }
  cbn [length Nat.ltb Nat.leb]. rewrite !andb_false_r. apply Z.eqb_neq in Hc. by rewrite Hc.
Qed.

Section Facts.

Context {D S : Type} `{!EntityStore D} `{!Subscriptions S}.
Context (mem : Metadata) (memDate : double) (memNumber : double) (memBool : bool).
Context (registrationsQuery : list EntityId -> list string -> cpp (option (list ContextRegistration))).
Context (fromjson : string -> cpp doc) (clock : nat -> nat -> Z).
Context (isodate2str : double -> string) (tenant : string) (outJson : bool).
Context (httpRequestSend : nat -> HttpRequest -> Z * string) (jsonTreat : string -> option UpdateContextResponse).
Context (cprForwardLimit : N) (checkIdv1 : bool).

Abbreviation post_update := (postUpdateContext mem memDate registrationsQuery fromjson clock isodate2str tenant outJson
                               httpRequestSend jsonTreat cprForwardLimit).
Abbreviation mongo_update := (mongoUpdateContext mem memDate registrationsQuery fromjson clock).
Abbreviation process_element := (processContextElement mem memDate registrationsQuery fromjson clock).

Lemma post_answered ci upcr flavour (db : D) (subs : S) sp elements world :
  update_service_path (servicePathV ci) = Ret (inr sp) ->
  mongo_update [sp] (apiVersion ci) (attributesToNotFound (upcr_contextElementVector upcr)) (upcr_updateActionType upcr) flavour
    (not_exist ci) (mkWorld db subs []) = Ret (mkStatusCode SccOk "", elements, world) ->
  wd_response world <> [] -> forwardsPending (taken_apart (wd_response world)) = false ->
  exists text, post_update ci upcr flavour db subs
    = Ret (mkPosted text (served sp ci)
             (mkUpdateContextResponse (map (cer_left (attributeFormat_of (served sp ci)) outJson) (taken_apart (wd_response world))) (mkStatusCode SccOk ""))
             [] (wd_db world) (wd_subs world)).
Proof.
  intros Hsp Hm Hne Hf. unfold postUpdateContext. rewrite Hsp. cbn [mbind cpp_bind].
  change (servicePathV (set_servicePathV [sp] ci)) with [sp]. change (apiVersion (set_servicePathV [sp] ci)) with (apiVersion ci).
  change (not_exist (set_servicePathV [sp] ci)) with (not_exist ci). rewrite Hm. cbn [mbind cpp_bind].
  set (ci' := if negb (httpStatusCode (set_servicePathV [sp] ci) =? SccCreated) then _ else _).
  change ci' with (served sp ci). unfold foundAndNotFoundAttributeSeparation. cbn [upcrs_contextElementResponseVector upcrs_errorCode].
  fold (taken_apart (wd_response world)).
  assert ((length (taken_apart (wd_response world)) =? 0)%nat = false) as Hl.
  { unfold taken_apart. destruct (wd_response world); [done|]. by cbn [map app length]. }
  rewrite Hl, andb_false_r. cbn [andb mbind cpp_bind sc_code]. change (SccOk =? SccContextElementNotFound) with false.
  cbn [mbind cpp_bind upcrs_contextElementResponseVector]. rewrite Hf. cbn [negb]. unfold render_response.
  destruct (response_rendered isodate2str (apiVersion (served sp ci)) (attributeFormat_of (served sp ci)) outJson
    (mkUpdateContextResponse (taken_apart (wd_response world)) (mkStatusCode SccOk "")) "") as [text ->].
  cbn [mbind cpp_bind]. exists text. unfold response_left. cbn [upcrs_contextElementResponseVector upcrs_errorCode sc_code].
  change (negb (SccOk =? SccNone) && negb (SccOk =? SccOk)) with false. rewrite Hl. done.
Qed.

(** The request for one entity, whose processing adds one element to the answer. *)
Lemma post_one ci id type cav action flavour (db : D) (subs : S) sp targets db' subs' cer :
  update_service_path (servicePathV ci) = Ret (inr sp) ->
  process_element [sp] (apiVersion ci) (mkEntityId id type "false" "") (set_found false <$> (copy <$> cav)) action flavour (not_exist ci)
    (mkWorld db subs []) = Ret (targets, mkWorld db' subs' [cer]) ->
  (separate cer).2 = None -> forwardsPending [(separate cer).1] = false ->
  exists text, post_update ci (fill_entity id type cav action) flavour db subs
    = Ret (mkPosted text (served sp ci)
             (mkUpdateContextResponse [cer_left (attributeFormat_of (served sp ci)) outJson (separate cer).1] (mkStatusCode SccOk "")) [] db' subs').
Proof.
  intros Hsp Hp Hs Hf. destruct (post_answered ci (fill_entity id type cav action) flavour db subs sp
    [(mkEntityId id type "false" "", targets)] (mkWorld db' subs' [cer])) as [text Ht]; [done| |done| |].
  - unfold mongoUpdateContext. cbn [length Nat.ltb Nat.leb fill_entity upcr_contextElementVector attributesToNotFound map fst snd
      process_context_elements upcr_updateActionType]. by rewrite Hp.
  - cbn [wd_response]. by rewrite separated_one.
  - cbn [wd_response wd_db wd_subs] in Ht. rewrite separated_one in Ht by done. exists text. exact Ht.
Qed.


(** ** Creating an entity *)

Definition created_id (e : Entity) : EntityId := mkEntityId (en_id e) (en_type e) "false" "".
Definition created_attrs (e : Entity) : list ContextAttribute := set_found false <$> (copy <$> en_attributeVector e).

Definition error_text (oe : OrionError) : string := (OrionError_render oe (oe_code oe)).1.

(** The reply where the routine makes none: 200 with no text. *)
Definition unanswered (db : D) (subs : S) : Replied D S := mkReplied "" SccOk [] [] db subs.

(** The reply to an entity that is not acceptable, or is not accepted by the database. *)
Definition creation_failed (err : string) (db : D) (subs : S) : Replied D S :=
  match invalidParameterForNgsiv2 (escaped err) with
  | Some oe => mkReplied (error_text oe) (oe_code oe) [] [] db subs
  | None => unanswered db subs
  end.

Definition not_modified (details : string) (db : D) (subs : S) : Replied D S :=
  mkReplied (error_text (OrionError_new SccInvalidModification (escaped details) "")) SccInvalidModification [] [] db subs.

(** What a creation does to the collection and the subscriptions, and what it replies. *)
Definition create_entity (ci : ConnectionInfo) (sp : string) (e : Entity) (db : D) (subs : S) : cpp (Replied D S) :=
  let eid := created_id e in
  let cav := created_attrs e in
  let now := clock 0 0 in
  if negb (legalEntityLength (en_id e) (en_type e) (hh_servicePath (httpHeaders ci))) then
    Ret (mkReplied (error_text (OrionError_new SccBadRequest "Too long entity id/type/servicePath combination" ""))
           SccBadRequest [] [] db subs)
  else match UpdateContext.duplicated cav with
  | Some ca => Ret (not_modified ("duplicated attribute /" +:+ ca_name ca +:+ "/") db subs)
  | None =>
      query ← select_query fromjson [sp] eid (not_exist ci);
      match collectionCount db query with
      | inl _ => Ret (unanswered db subs)
      | inr n =>
          if 0 <? n then Ret (not_modified "Already Exists" db subs)
          else match collectionQuery db query with
          | inl _ => Ret (unanswered db subs)
          | inr _ =>
              match createEntity eid cav now [sp] "v2" with
              | inl err => Ret (creation_failed err db subs)
              | inr d =>
                  match collectionInsert db d with
                  | (Some err, db) => Ret (creation_failed err db subs)
                  | (None, db) =>
                      t ← addTriggeredSubscriptions subs now (eid_id eid) (eid_type eid) (ca_name <$> cav) [];
                      match t : option string * SubMap with
                      | (Some _, _) => Ret (unanswered db subs)
                      | (None, triggered) =>
                          subs ← processTriggered subs triggered (created_notification [sp] "v2" eid cav now);
                          Ret (mkReplied "" SccCreated [("Location", location_of (en_id e) (en_type e))] [] db subs)
                      end
                  end
              end
          end
      end
  end.

(** A count is the number of documents that a query would answer. *)
Definition counts_answers : Prop := forall db q n cursor,
  collectionCount (D := D) db q = inr n -> collectionQuery db q = inr cursor -> n = Z.of_nat (length cursor).

Lemma response_attrs_found b cav : Forall (fun ca => ca_found ca = b) (absent_attrs mem b cav).
Proof. apply Forall_fmap, Forall_forall. by intros ca _. Qed.

Lemma response_attrs_unprovided e b cav sc : forwardsPending [mkCer e (absent_attrs mem b cav) sc] = false.
Proof. unfold forwardsPending. cbn. rewrite orb_false_r. by induction cav. Qed.

Lemma duplicated_in cav ca : UpdateContext.duplicated cav = Some ca -> ca ∈ cav.
Proof.
  induction cav as [|c cav IH]; [done|]. cbn [UpdateContext.duplicated]. destruct (existsb _ cav); [intros [= ->]; by left|]. intros H. right. by apply IH.
Qed.

(** A request whose processing does not come back does not either. *)
Definition stuck_as {A B} (m : cpp A) (m' : cpp B) : Prop :=
  match m with Ret _ => True | UB w => m' = UB w | Looping => m' = Looping end.

Lemma stuck_bind {A B C} (m : cpp A) (m' : cpp B) (f : B -> cpp C) : stuck_as m m' -> stuck_as m (m' ≫= f).
Proof. destruct m; cbn [stuck_as]; [done| |]; by intros ->. Qed.

Lemma post_stuck ci id type cav action flavour (db : D) (subs : S) sp :
  update_service_path (servicePathV ci) = Ret (inr sp) ->
  stuck_as (process_element [sp] (apiVersion ci) (mkEntityId id type "false" "") (set_found false <$> (copy <$> cav)) action flavour
              (not_exist ci) (mkWorld db subs []))
    (post_update ci (fill_entity id type cav action) flavour db subs).
Proof.
  intros Hsp. unfold postUpdateContext. rewrite Hsp. cbn [mbind cpp_bind].
  unfold mongoUpdateContext. cbn [length Nat.ltb Nat.leb fill_entity upcr_contextElementVector attributesToNotFound map fst snd
      process_context_elements upcr_updateActionType].
  change (servicePathV (set_servicePathV [sp] ci)) with [sp]. change (apiVersion (set_servicePathV [sp] ci)) with (apiVersion ci).
  change (not_exist (set_servicePathV [sp] ci)) with (not_exist ci). cbn [length Nat.ltb Nat.leb].
  by destruct (process_element _ _ _ _ _ _ _ _).
Qed.

Lemma postEntities_stuck ci e (db : D) (subs : S) sp :
  legalEntityLength (en_id e) (en_type e) (hh_servicePath (httpHeaders ci)) = true -> apiVersion ci = "v2" ->
  update_service_path (servicePathV ci) = Ret (inr sp) ->
  stuck_as (process_element [sp] "v2" (created_id e) (created_attrs e) "APPEND_STRICT" NGSIV2_FLAVOUR_ONCREATE (not_exist ci) (mkWorld db subs []))
    (postEntities mem memDate registrationsQuery fromjson clock isodate2str tenant outJson httpRequestSend jsonTreat cprForwardLimit ci e db subs).
Proof.
  intros Hl Hv Hsp. unfold postEntities. rewrite Hl. cbn [negb].
  pose proof (post_stuck ci (en_id e) (en_type e) (en_attributeVector e) "APPEND_STRICT" NGSIV2_FLAVOUR_ONCREATE db subs sp Hsp) as H.
  rewrite Hv in H. by apply stuck_bind.
Qed.

(** postEntities after an element of the answer. *)
Lemma postEntities_answered ci e (db : D) (subs : S) sp targets db' subs' cer :
  legalEntityLength (en_id e) (en_type e) (hh_servicePath (httpHeaders ci)) = true ->
  apiVersion ci = "v2" -> httpStatusCode ci = SccOk -> update_service_path (servicePathV ci) = Ret (inr sp) ->
  process_element [sp] "v2" (created_id e) (created_attrs e) "APPEND_STRICT" NGSIV2_FLAVOUR_ONCREATE (not_exist ci)
    (mkWorld db subs []) = Ret (targets, mkWorld db' subs' [cer]) ->
  separate cer = (cer, None) -> forwardsPending [cer] = false ->
  sc_code (cer_status cer) <> SccNone ->
  postEntities mem memDate registrationsQuery fromjson clock isodate2str tenant outJson httpRequestSend jsonTreat cprForwardLimit ci e db subs
  = Ret (let code := sc_code (cer_status cer) in let details := sc_details (cer_status cer) in
         if is_ok code then mkReplied "" SccCreated [("Location", location_of (en_id e) (en_type e))] [] db' subs'
         else if code =? SccInvalidModification then not_modified details db' subs'
         else if code =? SccInvalidParameter then creation_failed details db' subs'
         else unanswered db' subs').
Proof.
  intros Hl Hv Hc Hsp Hp Hs Hf Hn. unfold postEntities. rewrite Hl. cbn [negb].
  rewrite <- Hv in Hp. edestruct (post_one ci (en_id e) (en_type e) (en_attributeVector e)) as [text Ht];
    [exact Hsp|exact Hp|by rewrite Hs|by rewrite Hs|]. rewrite Ht, Hs. cbn [mbind cpp_bind po_response upcrs_contextElementResponseVector fst].
  cbn [vec_at lookup list_lookup mbind cpp_bind cer_left cer_status].
  destruct (cer_status cer) as [code details]. cbn [sc_code sc_details] in *. rewrite status_escaped by done. cbn [sc_code sc_details].
  unfold served. rewrite Hc. change (negb (SccOk =? SccCreated)) with true. cbv iota zeta.
  cbn [po_ci httpStatusCode set_code set_status].
  destruct (is_ok code); [done|]. destruct (code =? SccInvalidModification) eqn:E1.
  { by apply Z.eqb_eq in E1 as ->. }
  destruct (code =? SccInvalidParameter); [|done]. unfold creation_failed. destruct (invalidParameterForNgsiv2 (escaped details)) as [oe|] eqn:Eo; [|done].
  unfold invalidParameterForNgsiv2 in Eo. destruct (str_contains "geo" (escaped details)); [|done]. injection Eo as <-.
  unfold replied_error, error_text. by destruct (_ || _).
Qed.

(** What processing does with an entity to create. *)
Lemma process_creation sp e b (db : D) (subs : S) :
  UpdateContext.duplicated (created_attrs e) = None ->
  process_element [sp] "v2" (created_id e) (created_attrs e) "APPEND_STRICT" NGSIV2_FLAVOUR_ONCREATE b (mkWorld db subs [])
  = query ← select_query fromjson [sp] (created_id e) b;
    let failed code details := Ret (created_attrs e, mkWorld db subs [UpdateContext.error_response (created_id e) None code details]) in
    match collectionCount db query with
    | inl err => failed SccReceiverInternalError err
    | inr n =>
        match flavour_error NGSIV2_FLAVOUR_ONCREATE n with
        | Some (code, details) => failed code details
        | None =>
            match collectionQuery db query with
            | inl err => failed SccReceiverInternalError err
            | inr cursor =>
                match results_of cursor with
                | [] => append_entity mem clock [sp] "v2" (created_id e) (created_attrs e) (mkWorld db subs [])
                | results =>
                    u ← updateEntities mem memDate registrationsQuery fromjson clock [sp] "v2" 0 results "APPEND_STRICT" (created_id e)
                          (created_attrs e) [] (mkWorld db subs []);
                    Ret (up_targets u,
                         if (length (up_existing u) =? 0)%nat then up_world u
                         else add_response (UpdateContext.error_response (created_id e) None SccBadRequest
                                ("one or more of the attributes in the request already exist: "
                                 +:+ existing_list (up_existing u))) (up_world u))
                end
            end
        end
    end.
Proof.
  intros Hd. unfold processContextElement, contextElementPreconditionsCheck. rewrite Hd.
  change (isTrue (eid_isPattern (created_id e))) with false. change ("v2" =s "v1") with false. rewrite andb_false_r.
  change ("v2" =s "v2") with true. done.
Qed.

(** C9. Creating an entity with POST /v2/entities: whatever the entity, the database and the
    subscriptions, what is inserted, who is notified and what is replied are as
    [create_entity] says. *)
Theorem postEntities_creates ci e (db : D) (subs : S) sp :
  apiVersion ci = "v2" -> httpStatusCode ci = SccOk -> update_service_path (servicePathV ci) = Ret (inr sp) ->
  Forall (fun ca => ca_providingApplication ca = "") (en_attributeVector e) -> counts_answers ->
  postEntities mem memDate registrationsQuery fromjson clock isodate2str tenant outJson httpRequestSend jsonTreat cprForwardLimit ci e db subs
  = create_entity ci sp e db subs.
Proof.
  intros Hv Hc Hsp Hun Hcount. unfold create_entity.
  destruct (legalEntityLength _ _ _) eqn:Hl; cbn [negb].
  2:{ unfold postEntities. rewrite Hl. done. }
  pose proof (fun targets (db' : D) (subs' : S) cer => postEntities_answered ci e db subs sp targets db' subs' cer Hl Hv Hc Hsp) as Hans.
  pose proof (postEntities_stuck ci e db subs sp Hl Hv Hsp) as Hstuck.
  destruct (UpdateContext.duplicated (created_attrs e)) as [ca|] eqn:Ed.
  { pose proof Ed as Hca. apply duplicated_in, list_elem_of_fmap in Hca as (c & Hca & Hin). apply list_elem_of_fmap in Hin as (c0 & -> & Hin).
    rewrite Forall_forall in Hun. pose proof (Hun _ Hin) as Hp0. rewrite (Hans (left_by_check (created_id e) (created_attrs e) "APPEND_STRICT" "v2")
      db subs (UpdateContext.error_response (created_id e) (Some (ContextAttribute_copy ca false).1) SccInvalidModification
                 ("duplicated attribute /" +:+ ca_name ca +:+ "/"))); [done| |by rewrite Hca| |done].
    - unfold processContextElement, contextElementPreconditionsCheck. by rewrite Ed.
    - rewrite Hca. unfold forwardsPending. cbn. by rewrite Hp0. }
  rewrite (process_creation sp e (not_exist ci) db subs Ed) in Hans, Hstuck.
  destruct (select_query fromjson [sp] (created_id e) (not_exist ci)) as [query| |] eqn:Eq; cbn [mbind cpp_bind] in Hans, Hstuck |- *.
  2,3: exact Hstuck.
  cbv zeta in Hans, Hstuck.
  destruct (collectionCount db query) as [err|n] eqn:Ec; [by rewrite (Hans _ _ _ _ eq_refl)|].
  destruct (0 <? n) eqn:En.
  { assert (flavour_error NGSIV2_FLAVOUR_ONCREATE n = Some (SccInvalidModification, "Already Exists")) as Hfl by (unfold flavour_error; by rewrite En).
    rewrite Hfl in Hans. by rewrite (Hans _ _ _ _ eq_refl). }
  assert (flavour_error NGSIV2_FLAVOUR_ONCREATE n = None) as Hfl.
  { unfold flavour_error. rewrite En. cbn [andb]. rewrite bool_decide_eq_false_2, andb_false_r by done.
    apply Z.ltb_ge in En. by rewrite (proj2 (Z.ltb_ge 1 n)) by lia. }
  rewrite Hfl in Hans, Hstuck.
  destruct (collectionQuery db query) as [err|cursor] eqn:Equ; [by rewrite (Hans _ _ _ _ eq_refl)|].
  assert (cursor = []) as ->.
  { pose proof (Hcount _ _ _ _ Ec Equ). apply Z.ltb_ge in En. destruct cursor; [done|cbn in *; lia]. }
  cbn [results_of omap list_omap] in Hans, Hstuck. unfold append_entity in Hans, Hstuck.
  cbn [wd_db wd_subs wd_response app] in Hans, Hstuck.
  set (cer code err := mkCer (mkEntityId (eid_id (created_id e)) (eid_type (created_id e)) "false" "") (absent_attrs mem true (created_attrs e))
                         (mkStatusCode code err)) in *.
  assert (forall code err, code <> SccContextElementNotFound -> separate (cer code err) = (cer code err, None)) as Hsep
    by (intros; apply separate_found; [apply response_attrs_found|done]).
  assert (forall code err, forwardsPending [cer code err] = false) as Hfw by (intros; apply response_attrs_unprovided).
  destruct (createEntity _ _ _ _ _) as [err|d]; [rewrite (Hans _ _ _ _ eq_refl); [done|by apply Hsep|by apply Hfw|done]|].
  destruct (collectionInsert db d) as [[err|] db'] eqn:Ei; [rewrite (Hans _ _ _ _ eq_refl); [done|by apply Hsep|by apply Hfw|done]|].
  destruct (addTriggeredSubscriptions _ _ _ _ _ _) as [[[err|] triggered]| |]; cbn [mbind cpp_bind] in Hans, Hstuck |- *;
    [rewrite (Hans _ _ _ _ eq_refl); [done|by apply Hsep|by apply Hfw|done]| |exact Hstuck|exact Hstuck].
  destruct (processTriggered _ _ _) as [s| |]; cbn [mbind cpp_bind] in Hans, Hstuck |- *; [|exact Hstuck|exact Hstuck].
  rewrite (Hans _ _ _ _ eq_refl); [done|by apply Hsep|by apply Hfw|done].
Qed.

(** ** Deleting an entity *)

Definition deletion_reply (sc : StatusCode) (db : D) (subs : S) : Replied D S :=
  let '(oe, code) := deletion_error sc in mkReplied (error_text oe) code [] [] db subs.

(** What the deletion of an entity does to the collection, and what it replies. *)
Definition delete_entity (ci : ConnectionInfo) (sp id : string) (db : D) (subs : S) : cpp (Replied D S) :=
  let failed code := Ret (deletion_reply (mkStatusCode code "") db subs) in
  query ← select_query fromjson [sp] (mkEntityId id (uri_type ci) "false" "") (not_exist ci);
  match collectionCount db query with
  | inl _ => failed SccReceiverInternalError
  | inr n =>
      if 1 <? n then failed SccConflict
      else match collectionQuery db query with
      | inl _ => failed SccReceiverInternalError
      | inr cursor =>
          match results_of cursor with
          | [] => failed SccContextElementNotFound
          | r :: _ =>
              idField ← embeddedObject (getField r "_id");
              match collectionRemove db (removal_query (getStringField idField ENT_ENTITY_ID)
                      (if hasField idField ENT_ENTITY_TYPE then getStringField idField ENT_ENTITY_TYPE else "")
                      (getStringField idField ENT_SERVICE_PATH)) with
              | (Some _, db) => Ret (deletion_reply (mkStatusCode SccReceiverInternalError "") db subs)
              | (None, db) => Ret (mkReplied "" SccNoContent [] [] db subs)
              end
          end
      end
  end.

Lemma separate_empty cer : cer_attrs cer = [] ->
  (separate cer).2 = None /\ cer_attrs (separate cer).1 = [] /\ sc_code (cer_status (separate cer).1) = sc_code (cer_status cer).
Proof. destruct cer as [e cav [code details]]. cbn. intros ->. unfold separate. cbn. by destruct (_ && _). Qed.

Lemma deletion_error_code sc sc' : sc_code sc = sc_code sc' -> deletion_error sc = deletion_error sc'.
Proof. unfold deletion_error. by intros ->. Qed.

Lemma deleteEntity_answered ci id (db : D) (subs : S) sp compV targets db' subs' cer :
  vec_at compV 2 = Ret id -> (length compV =? 5)%nat = false -> forbidden_uri checkIdv1 ci id = false ->
  httpStatusCode ci = SccOk -> update_service_path (servicePathV ci) = Ret (inr sp) ->
  process_element [sp] (apiVersion ci) (mkEntityId id (uri_type ci) "false" "") [] "DELETE" NGSIV2_NO_FLAVOUR (not_exist ci)
    (mkWorld db subs []) = Ret (targets, mkWorld db' subs' [cer]) ->
  cer_attrs cer = [] -> sc_code (cer_status cer) <> SccNone ->
  deleteEntity mem memDate memNumber memBool registrationsQuery fromjson clock isodate2str tenant outJson httpRequestSend jsonTreat
    cprForwardLimit checkIdv1 ci compV db subs
  = Ret (if sc_code (cer_status cer) =? SccOk then mkReplied "" SccNoContent [] [] db' subs'
         else deletion_reply (cer_status cer) db' subs').
Proof.
  intros Hid Hl Hfb Hc Hsp Hp Ha Hn. unfold deleteEntity. rewrite Hid. cbn [mbind cpp_bind]. rewrite Hfb, Hl. cbn [mbind cpp_bind].
  destruct (separate_empty cer Ha) as (H1 & H2 & H3).
  destruct (post_one ci id (uri_type ci) [] "DELETE" NGSIV2_NO_FLAVOUR db subs sp targets db' subs' cer Hsp Hp H1) as [text ->].
  { unfold forwardsPending. cbn. by rewrite H2. }
  cbn [mbind cpp_bind po_response upcrs_contextElementResponseVector]. f_equal. unfold first_failure. cbn [List.find].
  assert (sc_code (cer_status (cer_left (attributeFormat_of (served sp ci)) outJson (separate cer).1)) = sc_code (cer_status cer)) as Hcode.
  { unfold cer_left. cbn [cer_status]. unfold status_shown. rewrite H3. by destruct (_ =? SccNone) eqn:E; [apply Z.eqb_eq in E|]. }
  unfold is_ok at 1. rewrite Hcode. apply Z.eqb_neq in Hn. rewrite Hn, orb_false_r.
  destruct (sc_code (cer_status cer) =? SccOk) eqn:Eok; cbn [negb fmap option_fmap option_map].
  - unfold served. by rewrite Hc.
  - unfold deletion_reply. rewrite (deletion_error_code _ _ Hcode). unfold deletion_error.
    destruct (sc_code (cer_status cer) =? SccContextElementNotFound); [done|].
    destruct (sc_code (cer_status cer) =? SccInvalidParameter); [done|].
    unfold replied_error, error_text, OrionError_render. cbn [oe_code oe_details oe_reasonPhrase]. by rewrite Eok, Hn.
Qed.

Lemma results_of_length cursor : (length (results_of cursor) <= length cursor)%nat.
Proof.
  induction cursor as [|[r|] cursor IH]; cbn [results_of omap list_omap length]; [done| |unfold results_of in IH; lia].
  destruct (getField r "_id"); cbn [length]; unfold results_of in IH; lia.
Qed.

(** C10. Deleting an entity with DELETE /v2/entities/<id>: whatever the database, what is removed
    from it and what is replied are as [delete_entity] says. *)
Theorem deleteEntity_deletes ci id (db : D) (subs : S) sp compV :
  apiVersion ci = "v2" -> httpStatusCode ci = SccOk -> update_service_path (servicePathV ci) = Ret (inr sp) ->
  vec_at compV 2 = Ret id -> length compV <> 5%nat -> forbidden_uri checkIdv1 ci id = false -> counts_answers ->
  deleteEntity mem memDate memNumber memBool registrationsQuery fromjson clock isodate2str tenant outJson httpRequestSend jsonTreat
    cprForwardLimit checkIdv1 ci compV db subs
  = delete_entity ci sp id db subs.
Proof.
  intros Hv Hc Hsp Hid Hl%Nat.eqb_neq Hfb Hcount. unfold delete_entity.
  pose proof (fun targets (db' : D) (subs' : S) cer => deleteEntity_answered ci id db subs sp compV targets db' subs' cer Hid Hl Hfb Hc Hsp) as Hans.
  assert (stuck_as (process_element [sp] "v2" (mkEntityId id (uri_type ci) "false" "") [] "DELETE" NGSIV2_NO_FLAVOUR (not_exist ci) (mkWorld db subs []))
    (deleteEntity mem memDate memNumber memBool registrationsQuery fromjson clock isodate2str tenant outJson httpRequestSend jsonTreat
       cprForwardLimit checkIdv1 ci compV db subs)) as Hstuck.
  { pose proof (post_stuck ci id (uri_type ci) [] "DELETE" NGSIV2_NO_FLAVOUR db subs sp Hsp) as H. rewrite Hv in H. change (set_found false <$> (copy <$> [])) with (@nil ContextAttribute) in H.
    unfold deleteEntity. rewrite Hid. cbn [mbind cpp_bind]. rewrite Hfb, Hl. exact (stuck_bind _ _ _ H). }
  rewrite Hv in Hans. unfold processContextElement in Hans, Hstuck.
  change (contextElementPreconditionsCheck _ _ _ _) with (@None Cer) in Hans, Hstuck.
  destruct (select_query _ _ _ _) as [query| |]; cbn [mbind cpp_bind] in Hans, Hstuck |- *; [|exact Hstuck|exact Hstuck].
  change ("v2" =s "v2") with true in Hans, Hstuck. cbv iota in Hans, Hstuck. cbn [wd_db] in Hans, Hstuck.
  destruct (collectionCount db query) as [err|n] eqn:Ec; [by rewrite (Hans _ _ _ _ eq_refl)|].
  assert (flavour_error NGSIV2_NO_FLAVOUR n = if 1 <? n then Some (SccConflict, MORE_MATCHING_ENT) else None) as Hfl.
  { unfold flavour_error. by rewrite !bool_decide_eq_false_2, !andb_false_r by done. }
  rewrite Hfl in Hans, Hstuck. destruct (1 <? n) eqn:En; [by rewrite (Hans _ _ _ _ eq_refl)|].
  destruct (collectionQuery db query) as [err|cursor] eqn:Eq; [by rewrite (Hans _ _ _ _ eq_refl)|].
  pose proof (results_of_length cursor) as Hlen. pose proof (Hcount _ _ _ _ Ec Eq) as Hn. apply Z.ltb_ge in En.
  destruct (results_of cursor) as [|r [|r' results]]; [by rewrite (Hans _ _ _ _ eq_refl)| |cbn in Hlen; lia].
  cbn [updateEntities mbind cpp_bind] in Hans, Hstuck. unfold updateEntity in Hans, Hstuck.
  destruct (embeddedObject (getField r "_id")) as [idField| |]; cbn [mbind cpp_bind] in Hans, Hstuck |- *; [|exact Hstuck|exact Hstuck].
  change (is_delete "DELETE" && (length (@nil ContextAttribute) =? 0)%nat) with true in Hans. cbv iota zeta in Hans.
  unfold removeEntity in Hans. cbn [wd_db] in Hans.
  destruct (collectionRemove _ _) as [[err|] db'] eqn:Er; cbn in Hans; by rewrite (Hans _ _ _ _ eq_refl).
Qed.

(** ** Several service paths *)

Lemma post_several ci upcr flavour (db : D) (subs : S) : (1 < length (servicePathV ci))%nat -> exists text,
  post_update ci upcr flavour db subs
  = Ret (mkPosted text ci (mkUpdateContextResponse [] (mkStatusCode SccBadRequest "more than one service path in context update request"))
           [] db subs).
Proof.
  intros H. apply Nat.ltb_lt in H. unfold postUpdateContext, update_service_path. rewrite H. cbn [mbind cpp_bind]. unfold render_response.
  destruct (response_rendered isodate2str (apiVersion ci) (attributeFormat_of ci) outJson
    (mkUpdateContextResponse [] (mkStatusCode SccBadRequest "more than one service path in context update request")) "") as [text ->].
  by exists text.
Qed.

(** With several paths in Fiware-ServicePath nothing is updated: a creation reads an element that
    the response does not have, and the other requests are answered as if they had been done. *)
Theorem several_paths_ignored ci compV id name cav ca e (db : D) (subs : S) :
  (1 < length (servicePathV ci))%nat -> httpStatusCode ci = SccOk ->
  vec_at compV 2 = Ret id -> vec_at compV 4 = Ret name -> forbidden_uri checkIdv1 ci id = false -> forbidden_uri checkIdv1 ci name = false ->
  legalEntityLength (en_id e) (en_type e) (hh_servicePath (httpHeaders ci)) = true ->
  let done := Ret (mkReplied "" SccNoContent [] [] db subs) in
  (exists why, postEntities mem memDate registrationsQuery fromjson clock isodate2str tenant outJson httpRequestSend jsonTreat
                 cprForwardLimit ci e db subs = UB why) /\
  postEntity mem memDate registrationsQuery fromjson clock isodate2str tenant outJson httpRequestSend jsonTreat cprForwardLimit checkIdv1
    ci compV cav db subs = done /\
  patchEntity mem memDate registrationsQuery fromjson clock isodate2str tenant outJson httpRequestSend jsonTreat cprForwardLimit checkIdv1
    ci compV cav db subs = done /\
  putEntity mem memDate registrationsQuery fromjson clock isodate2str tenant outJson httpRequestSend jsonTreat cprForwardLimit checkIdv1
    ci compV cav db subs = done /\
  putEntityAttribute mem memDate registrationsQuery fromjson clock isodate2str tenant outJson httpRequestSend jsonTreat cprForwardLimit
    checkIdv1 ci compV ca db subs = done /\
  deleteEntity mem memDate memNumber memBool registrationsQuery fromjson clock isodate2str tenant outJson httpRequestSend jsonTreat
    cprForwardLimit checkIdv1 ci compV db subs = done.
Proof.
  intros Hp Hc Hid Hname Hf1 Hf2 Hl done.
  pose proof (fun upcr flavour => post_several ci upcr flavour db subs Hp) as H.
  unfold postEntities, postEntity, patchEntity, putEntity, putEntityAttribute, deleteEntity.
  rewrite Hid, Hname, Hl. cbn [mbind cpp_bind negb]. rewrite Hf1, Hf2. split_and!.
  - edestruct H as [text ->]. by eexists.
  - edestruct H as [text ->]. cbn. by rewrite Hc.
  - edestruct H as [text ->]. cbn. by rewrite Hc.
  - edestruct H as [text ->]. cbn. unfold only_code. cbn. by rewrite Hc.
  - edestruct H as [text ->]. cbn. unfold only_code. cbn. by rewrite Hc.
  - destruct (length compV =? 5)%nat; cbn [mbind cpp_bind]; edestruct H as [text ->]; cbn; by rewrite Hc.
Qed.

End Facts.

(** ** Concrete requests *)

Definition v2_ci (v : Verb) (spV : list string) (options : gset string) : ConnectionInfo :=
  mkConnectionInfo "" v "v2" no_headers ∅ options [] spV SccOk "".

#[local] Existing Instance recorded_store.
#[local] Existing Instance no_subscriptions.

Definition with_room : Recorded := mkRecorded [room_doc] [].
Definition kitchen : Entity := mkEntity "Kitchen" "Room" "" [text "temp" "21"] true true (mkErrorCode "OK" "").

Lemma recorded_counts : counts_answers (D := Recorded).
Proof. intros db q n cursor [= <-] [= <-]. by rewrite length_fmap. Qed.

Abbreviation post_entity_room := (postEntities no_mem S754_nan no_registrations empty_query (fun _ _ => 9) no_date "" true no_answer no_reader 10).

Lemma postEntities_creates_witness : exists d,
  post_entity_room (v2_ci POST ["/"] ∅) kitchen with_room ()
  = Ret (mkReplied "" SccCreated [("Location", "/v2/entities/Kitchen?type=Room")] [] (mkRecorded [room_doc; d] []) ()).
Proof.
  eexists. etransitivity.
  - apply (postEntities_creates no_mem S754_nan no_registrations empty_query (fun _ _ => 9) no_date "" true no_answer no_reader 10
      (v2_ci POST ["/"] ∅) kitchen with_room () "/"); [reflexivity|reflexivity|vm_compute; reflexivity| |exact recorded_counts].
    apply Forall_cons. split; [reflexivity|constructor].
  - vm_compute. reflexivity.
Defined.

Lemma deleteEntity_deletes_witness :
  deleteEntity no_mem S754_nan zero false no_registrations empty_query (fun _ _ => 9) no_date "" true no_answer no_reader 10 false
    (v2_ci DELETE ["/"] ∅) ["v2"; "entities"; "Room"] with_room ()
  = Ret (mkReplied "" SccNoContent [] [] (mkRecorded [] []) ()).
Proof.
  etransitivity.
  - apply (deleteEntity_deletes no_mem S754_nan zero false no_registrations empty_query (fun _ _ => 9) no_date "" true no_answer no_reader 10 false
      (v2_ci DELETE ["/"] ∅) "Room" with_room () "/"); [reflexivity|reflexivity|vm_compute; reflexivity|reflexivity|discriminate|
      vm_compute; reflexivity|exact recorded_counts].
  - vm_compute. reflexivity.
Defined.

Lemma several_paths_ignored_witness :
  patchEntity no_mem S754_nan no_registrations empty_query (fun _ _ => 9) no_date "" true no_answer no_reader 10 false
    (v2_ci PATCH ["/a"; "/b"] ∅) ["v2"; "entities"; "Room"; "attrs"; "temp"] [text "temp" "21"] with_room ()
  = Ret (mkReplied "" SccNoContent [] [] with_room ()).
Proof.
  refine (proj1 (proj2 (proj2 (several_paths_ignored no_mem S754_nan zero false no_registrations empty_query (fun _ _ => 9) no_date "" true no_answer
    no_reader 10 false (v2_ci PATCH ["/a"; "/b"] ∅) ["v2"; "entities"; "Room"; "attrs"; "temp"] "Room" "temp" [text "temp" "21"]
    (text "temp" "21") kitchen with_room () _ _ _ _ _ _ _)))); [cbn; lia|reflexivity|reflexivity|reflexivity|reflexivity|reflexivity|vm_compute; reflexivity].
Defined.

(** The database refuses the document: nothing tells the client. *)
Definition refusing_store : EntityStore Recorded := {|
  collectionCount db q := inr 0;
  collectionQuery db q := inr [];
  collectionInsert db d := (Some "insertDocument :: caused by :: 11000 E11000 duplicate key error", db);
  collectionUpdate db q u := (None, db);
  collectionRemove db q := (None, db)
|}.

Example creation_unanswered :
  postEntities (EntityStore0 := refusing_store) no_mem S754_nan no_registrations empty_query (fun _ _ => 9) no_date "" true no_answer no_reader 10
    (v2_ci POST ["/"] ∅) kitchen with_room () = Ret (mkReplied "" SccOk [] [] with_room ()).
Proof. vm_compute. reflexivity. Qed.

(** options=append with a location that cannot be read: nothing is done, and 204 is answered. *)
Example append_unanswered :
  postEntity no_mem S754_nan no_registrations empty_query (fun _ _ => 9) no_date "" true no_answer no_reader 10 false
    (v2_ci POST ["/"] {["append"]}) ["v2"; "entities"; "Room"; "attrs"] [bad_point] with_room ()
  = Ret (mkReplied "" SccNoContent [] [] with_room ()).
Proof. vm_compute. reflexivity. Qed.

(** A PATCH of an attribute that is there and of one that is not: the first is updated, and
    the reply does not tell about the second. *)
Example patch_in_part : exists u,
  patchEntity no_mem S754_nan no_registrations empty_query (fun _ _ => 9) no_date "" true no_answer no_reader 10 false
    (v2_ci PATCH ["/"] ∅) ["v2"; "entities"; "Room"; "attrs"] [text "temp" "21"; text "hum" "70"] with_room ()
  = Ret (mkReplied "" SccNoContent [] [] (mkRecorded [room_doc] [u]) ()).
Proof. eexists. vm_compute. reflexivity. Qed.

(** A PUT that is refused: the code of version 1, and no text. *)
Example put_refused_472 :
  putEntity no_mem S754_nan no_registrations empty_query (fun _ _ => 9) no_date "" true no_answer no_reader 10 false
    (v2_ci PUT ["/"] ∅) ["v2"; "entities"; "Room"; "attrs"] [bad_point] with_room ()
  = Ret (mkReplied "" SccInvalidParameter [] [] with_room ()).
Proof. vm_compute. reflexivity. Qed.

Abbreviation post_batch := (post_batch_update no_mem S754_nan zero false no_registrations empty_query (fun _ _ => 9) no_date "" true
  no_answer no_reader 10 (fun _ _ => None)).

(** A batch update without entities. *)
Example empty_batch_UB : exists why,
  post_batch (v2_ci POST ["/"] ∅) (Some (JObject [("actionType", JString "UPDATE"); ("entities", JArray [])])) with_room () = UB why.
Proof. eexists. vm_compute. reflexivity. Qed.

(** A batch with an action that is none creates its entities. *)
Example batch_unknown_action : exists d,
  post_batch (v2_ci POST ["/"] ∅) (Some (batch (JString "Kitchen") (JString "DELETEE"))) with_room ()
  = Ret (mkReplied "" SccNoContent [] [] (mkRecorded [room_doc; d] []) ()).
Proof. eexists. vm_compute. reflexivity. Qed.
