(* ===== verification/QueryForward.v ===== *)
(** * Queries and the context providers they are forwarded to

    serviceRoutines/postQueryContext.cpp, with ngsi10/QueryContextRequest.cpp,
    orionTypes/QueryContextRequestVector.cpp and orionTypes/QueryContextResponseVector.cpp.
    mongoQueryContext (QueryContext.v) answers what the database has, and tells which
    attributes and entities are provided by others: a query is sent for them, and the
    answers of the providers are gathered with what was found.  Sending is an argument, as is
    the reader of version 1 that makes a response of the text a provider answers. *)

From S2P Require Import Prelude Strings Double Bson Compound Ngsi AttrUpdate Location EntityDoc Registrations.
From S2P Require Import FilterParse FilterMatch SubCache SubSync Geo Queries Notify EntityUpdate UpdateContext QueryContext.
From S2P Require Import Duration Subscriptions Json JsonEntity JsonText JsonSubscription Rest RenderV1 Forward.

Open Scope Z_scope.

(** ** Requests and responses *)

(** QueryContextRequest, without the restriction: no request to a provider has one. *)
Record QueryContextRequest := mkQueryContextRequest {
  qcr_contextProvider : string;
  qcr_entityIdVector : list EntityId;
  qcr_attributeList : list string
}.

Record QueryContextResponse := mkQueryContextResponse {
  qcrs_contextElementResponseVector : list Cer;
  qcrs_errorCode : StatusCode
}.

(** AttributeList::push_back_if_absent *)
Definition push_name (name : string) (attributeList : list string) : list string :=
  if existsb (fun s => s =s name) attributeList then attributeList else attributeList ++ [name].

Definition pattern_or_false (isPattern : string) : string := if isPattern =s "" then "false" else isPattern.

(** EntityIdVector::lookup *)
Definition vector_lookup (vec : list EntityId) (e : EntityId) : bool :=
  existsb (fun en => (eid_id en =s eid_id e) && (eid_type en =s eid_type e)
                     && (pattern_or_false (eid_isPattern en) =s pattern_or_false (eid_isPattern e))) vec.

(** EntityIdVector::push_back_if_absent *)
Definition push_entity (e : EntityId) (vec : list EntityId) : list EntityId := if vector_lookup vec e then vec else vec ++ [e].

(** EntityIdVector::render *)
Definition EntityIdVector_render (vec : list EntityId) (indent : string) (comma : bool) : string :=
  if (length vec =? 0)%nat then ""
  else startTag2 indent "entities" true true
       +:+ render_items (fun e comma => EntityId_render e (indent +:+ "  ") comma true) vec
       +:+ endTag indent comma true true false.

(** AttributeList::render *)
Definition AttributeList_render (attributeV : list string) (indent : string) (comma : bool) : string :=
  if (length attributeV =? 0)%nat then ""
  else startTag2 indent "attributes" true true
       +:+ render_items (fun name comma => valueTag1 (indent +:+ "  ") "attribute" name comma true false) attributeV
       +:+ endTag indent comma true true false.

(** QueryContextRequest::render, without restrictions. *)
Definition QueryContextRequest_render (r : QueryContextRequest) (indent : string) : string :=
  startTag1 indent "queryContextRequest" false false
  +:+ EntityIdVector_render (qcr_entityIdVector r) (indent +:+ "  ") (negb (length (qcr_attributeList r) =? 0)%nat)
  +:+ AttributeList_render (qcr_attributeList r) (indent +:+ "  ") false
  +:+ endTag indent false false true false.

(** ** Sorting what is asked from providers *)

(** entityIdMatch, [e] being the entity of the answer. *)
Definition entityIdMatch (en e : EntityId) : bool :=
  if negb (eid_id en =s eid_id e) then false
  else if negb (eid_type e =s "") && negb (eid_type en =s eid_type e) then false
  else true.

(** QueryContextRequestVector::lookup: whether it is the request found. *)
Definition asks (provider : string) (e : EntityId) (r : QueryContextRequest) : bool :=
  (qcr_contextProvider r =s provider)
  && match qcr_entityIdVector r with en :: _ => entityIdMatch en e | [] => false end.

(** The request found, with the attribute and the entity; or a new one. *)
Fixpoint ask_attribute (provider name : string) (e : EntityId) (requestV : list QueryContextRequest) : list QueryContextRequest :=
  match requestV with
  | [] => [mkQueryContextRequest provider [e] (if name =s "" then [] else [name])]
  | r :: requestV' =>
      if asks provider e r
      then mkQueryContextRequest (qcr_contextProvider r) (push_entity e (qcr_entityIdVector r)) (push_name name (qcr_attributeList r)) :: requestV'
      else r :: ask_attribute provider name e requestV'
  end.

Record Asked := mkAsked { as_local : list Cer; as_requestV : list QueryContextRequest }.

(** What is local goes to the element of its entity. *)
Definition local_push (e : EntityId) (ca : ContextAttribute) (cerV : list Cer) : list Cer :=
  match lookup_cer (cer_push ca) e SccNone cerV with
  | Some cerV' => cerV'
  | None => cerV ++ [mkCer e [copy ca] (mkStatusCode SccNone "")]
  end.

Definition ask_for_attribute (e : EntityId) (st : Asked) (ca : ContextAttribute) : Asked :=
  if ca_providingApplication ca =s "" then
    if negb (ca_found ca) then st else mkAsked (local_push e ca (as_local st)) (as_requestV st)
  else mkAsked (as_local st) (ask_attribute (ca_providingApplication ca) (ca_name ca) e (as_requestV st)).

(** One element of the answer: its providers, then its attributes. *)
Definition ask_for_element (attributeList : list string) (st : Asked) (cer : Qer) : Asked :=
  foldl (ask_for_attribute (qe_entity cer))
    (mkAsked (as_local st)
       (as_requestV st ++ map (fun pa => mkQueryContextRequest pa [qe_entity cer] attributeList) (qe_providers cer)))
    (qe_attrs cer).

Definition sort_queries (attributeList : list string) (cerV : list Qer) : Asked :=
  foldl (ask_for_element attributeList) (mkAsked [] []) cerV.

(** forwardsPending *)
Definition queries_pending (cerV : list Qer) : bool :=
  existsb (fun cer => negb (length (qe_providers cer) =? 0)%nat
                      || existsb (fun ca => negb (ca_providingApplication ca =s "")) (qe_attrs cer)) cerV.

(** ** Gathering the responses *)

Definition no_failure (code : Z) : bool := (code =? SccOk) || (code =? SccNone).

(** The elements of one response that go to the result. *)
Definition gather_cer (cerV : list Cer) (cer : Cer) : list Cer :=
  if negb (no_failure (sc_code (cer_status cer))) then cerV
  else match lookup_cer (fun target => mkCer (cer_entity target) (cer_attrs target ++ (copy <$> cer_attrs cer)) (cer_status target))
               (cer_entity cer) SccNone cerV with
       | Some cerV' => cerV'
       | None => cerV ++ [mkCer (cer_entity cer) (copy <$> cer_attrs cer) (mkStatusCode SccOk "")]
       end.

Definition not_found_cer : Cer := mkCer (mkEntityId "" "" "false" "") [] (mkStatusCode SccContextElementNotFound "").

Definition gather_response (cerV : list Cer) (q : QueryContextResponse) : list Cer :=
  foldl gather_cer
    (if (length (qcrs_contextElementResponseVector q) =? 0)%nat && no_failure (sc_code (qcrs_errorCode q)) then cerV ++ [not_found_cer] else cerV)
    (qcrs_contextElementResponseVector q).

(** The loop of QueryContextResponseVector::render and populate. *)
Definition gather (vec : list QueryContextResponse) : list Cer := foldl gather_response [] vec.

(** The error code of the only response, when it is empty. *)
Definition emptied (vec : list QueryContextResponse) : list QueryContextResponse :=
  match vec with
  | [mkQueryContextResponse [] sc] =>
      [mkQueryContextResponse [] (if no_failure (sc_code sc) then mkStatusCode SccContextElementNotFound "" else sc)]
  | _ => vec
  end.

(** The attributes that were copied: their structured values have moved to the copies. *)
Definition taken (ca : ContextAttribute) : ContextAttribute := (ContextAttribute_copy ca false).2.
Definition taken_from (vec : list QueryContextResponse) : list QueryContextResponse :=
  map (fun q => mkQueryContextResponse
         (map (fun cer => if no_failure (sc_code (cer_status cer)) then mkCer (cer_entity cer) (taken <$> cer_attrs cer) (cer_status cer) else cer)
            (qcrs_contextElementResponseVector q)) (qcrs_errorCode q)) vec.

(** QueryContextResponseVector::populate, into a response that was released. *)
Definition populate (vec : list QueryContextResponse) : QueryContextResponse :=
  match vec with
  | [] => mkQueryContextResponse [] (mkStatusCode SccContextElementNotFound "")
  | [mkQueryContextResponse [] _] => mkQueryContextResponse [] (mkStatusCode SccContextElementNotFound "")
  | _ => mkQueryContextResponse (gather vec) (mkStatusCode SccOk "")
  end.

(** The response that QueryContextResponseVector::render makes. *)
Definition vector_response (vec : list QueryContextResponse) (details : bool) (detailsString : string) : QueryContextResponse :=
  let vec := emptied vec in
  let sc :=
    match vec with
    | [] => mkStatusCode SccContextElementNotFound ""
    | [mkQueryContextResponse [] sc] =>
        mkStatusCode SccContextElementNotFound (if sc_code sc =? SccContextElementNotFound then sc_details sc else "")
    | _ => mkStatusCode SccOk ""
    end in
  mkQueryContextResponse (gather vec) (if details then mkStatusCode SccOk detailsString else sc).

(** ** The request *)

Section Post.

(** Memory that constructors leave unassigned. *)
Context (mem : Metadata) (memDate : double).
Context (regcomp : string -> bool) (regexec : string -> string -> bool).
Context (fromjson : string -> cpp doc) (capable : bool).
Context (collectionRangedQuery : doc -> option doc -> Z -> Z -> string + (Z * list fetched)).
Context (registrationsQuery : list EntityId -> list string -> cpp (option (list ContextRegistration))).
Context (isodate2str : double -> string) (tenant : string) (outJson : bool).
Context (httpRequestSend : nat -> HttpRequest -> Z * string).
(** jsonTreat for RtQueryContextResponse. *)
Context (jsonTreat : string -> option QueryContextResponse).
Context (cprForwardLimit : N).

Definition failed_query (details : string) : QueryContextResponse :=
  mkQueryContextResponse [] (mkStatusCode SccContextElementNotFound details).

(** What is made of the answer of a provider. *)
Definition query_answer (r : Z) (out : string) : QueryContextResponse :=
  if negb (r =? 0) then failed_query "error forwarding query"
  else
    match jsonPayloadClean (c_str out) with
    | None => failed_query "invalid context provider response"
    | Some cleanPayload =>
        match jsonTreat cleanPayload with
        | None => failed_query ""
        | Some res =>
            let cerV := map (fun cer => mkCer (cer_entity cer) (copy <$> cer_attrs cer) (cer_status cer)) (qcrs_contextElementResponseVector res) in
            let sc := if sc_code (qcrs_errorCode res) =? SccNone then mkStatusCode SccOk "" else qcrs_errorCode res in
            mkQueryContextResponse cerV
              (match cerV with
               | [cer] => if sc_code (cer_status cer) =? SccContextElementNotFound then mkStatusCode SccContextElementNotFound "" else sc
               | _ => sc
               end)
        end
    end.

(** queryForward: what is sent, if anything, and the response. *)
Definition queryForward (ci : ConnectionInfo) (n : nat) (r : QueryContextRequest) : cpp (option HttpRequest * QueryContextResponse) :=
  url ← parseUrl (qcr_contextProvider r);
  match url with
  | None => Ret (None, failed_query "")
  | Some u =>
      let h := httpHeaders ci in
      let request := mkHttpRequest (host u) (port u mod 65536) (protocol u) tenant
        (if hh_servicePathReceived h then hh_servicePath h else "") (hh_xauthToken h) (path u +:+ "/queryContext")
        (c_str (QueryContextRequest_render r "")) (hh_correlator h) in
      let '(code, out) := httpRequestSend n request in
      Ret (Some request, query_answer code out)
  end.

Fixpoint query_all (ci : ConnectionInfo) (n : nat) (requestV : list QueryContextRequest) : cpp (list HttpRequest * list QueryContextResponse) :=
  match requestV with
  | [] => Ret ([], [])
  | r :: requestV' =>
      if qcr_contextProvider r =s "" then query_all ci n requestV'
      else
        '(sent, q) ← queryForward ci n r;
        '(sents, qs) ← query_all ci (match sent with Some _ => S n | None => n end) requestV';
        Ret (match sent with Some r => r :: sents | None => sents end, q :: qs)
  end.

(** What postQueryContext leaves: its answer, the response, the headers, and what was sent. *)
Record PostedQuery := mkPostedQuery {
  pq_answer : string;
  pq_response : QueryContextResponse;
  pq_headers : list (string * string);
  pq_sent : list HttpRequest
}.

Definition param (ci : ConnectionInfo) (name : string) : string := default "" (uriParam ci !! name).
Definition option_on (ci : ConnectionInfo) (name : string) : bool := bool_decide (name ∈ uriParamOptions ci).

(** Step 00: whether the entities are counted. *)
Definition counts (ci : ConnectionInfo) : bool :=
  ((apiVersion ci =s "v2") && option_on ci "count") || ((apiVersion ci =s "v1") && (param ci "details" =s "on")).

Definition render_query (ci : ConnectionInfo) (q : QueryContextResponse) : cpp (string * QueryContextResponse) :=
  '(text, (cerV, sc)) ← QueryContextResponse_render isodate2str (apiVersion ci) (attributeFormat_of ci) outJson
                          (qcrs_contextElementResponseVector q) (qcrs_errorCode q) "";
  Ret (text, mkQueryContextResponse cerV sc).

Definition cer_of (cer : Qer) : Cer := mkCer (qe_entity cer) (qe_attrs cer) (qe_status cer).

(** Step 03: the queries that are forwarded, and what is made of the answers. *)
Definition forward_queries (ci : ConnectionInfo) (attributeList : list string) (cerV : list Qer) (details : string)
    : cpp (string * QueryContextResponse * list HttpRequest) :=
  let st := sort_queries attributeList cerV in
  let responseV := if (length (as_local st) =? 0)%nat then [] else [mkQueryContextResponse (as_local st) (mkStatusCode SccNone "")] in
  '(sent, qs) ← query_all ci 0 (take (N.to_nat cprForwardLimit) (as_requestV st));
  let responseV := responseV ++ qs in
  '(answer, _) ← render_query ci (vector_response responseV (strcasecmp_eq "on" (c_str (param ci "details"))) details);
  Ret (answer, populate (taken_from responseV), sent).

(** The count that entitiesQuery leaves. *)
Definition counted (ci : ConnectionInfo) (enV : list EntityId) (attributeList : list string) (scopes : list Scope) : cpp (option Z) :=
  r ← entitiesQuery mem memDate fromjson capable collectionRangedQuery enV attributeList scopes true (servicePathV ci)
        (atoi (c_str (param ci "offset"))) (atoi (c_str (param ci "limit"))) true (counts ci) (param ci "orderBy")
        (option_on ci DATE_CREATED) (option_on ci DATE_MODIFIED) (apiVersion ci);
  Ret (er_count r).

(** postQueryContext: the status of the connection becomes 200, whatever mongoQueryContext answers. *)
Definition postQueryContext (ci : ConnectionInfo) (enV : list EntityId) (attributeList : list string) (scopes : list Scope)
    : cpp PostedQuery :=
  '(sc, cerV, _) ← mongoQueryContext mem memDate regcomp regexec fromjson capable collectionRangedQuery registrationsQuery
                     enV attributeList scopes (servicePathV ci) (param ci "offset") (param ci "limit") (param ci "orderBy")
                     (option_on ci DATE_CREATED) (option_on ci DATE_MODIFIED) (counts ci) (apiVersion ci);
  count ← counted ci enV attributeList scopes;
  let sc := if sc_code sc =? SccNone then mkStatusCode SccOk "" else sc in
  let headers := if (apiVersion ci =s "v2") && counts ci then [("Fiware-Total-Count", show_Z (default 0 count))] else [] in
  if negb (queries_pending cerV) then
    '(answer, q) ← render_query ci (mkQueryContextResponse (map cer_of cerV) sc);
    Ret (mkPostedQuery answer q headers [])
  else
    '(answer, q, sent) ← forward_queries ci attributeList cerV (sc_details sc);
    Ret (mkPostedQuery answer q headers sent).

End Post.
(** ** Elements found or made *)

Definition entity_key (e : EntityId) : string * string * bool := (eid_id e, eid_type e, isTrue (eid_isPattern e)).

Lemma EntityId_equal_key e e' : EntityId_equal e e' = true <-> entity_key e = entity_key e'.
Proof.
  unfold EntityId_equal, entity_key. rewrite !andb_true_iff, !str_eqb_eq. split.
  - intros [[-> ->] ->%eqb_prop]. done.
  - intros [= -> -> ->]. by rewrite eqb_reflx.
Qed.

(** Attributes appended to the element of an entity, which is made if there is none. *)
Definition cer_append (l : list ContextAttribute) (cer : Cer) : Cer := mkCer (cer_entity cer) (cer_attrs cer ++ l) (cer_status cer).
Definition appended (e : EntityId) (l : list ContextAttribute) (sc : StatusCode) (cerV : list Cer) : list Cer :=
  default (cerV ++ [mkCer e l sc]) (lookup_cer (cer_append l) e SccNone cerV).

Lemma local_push_appended e ca cerV : local_push e ca cerV = appended e [copy ca] (mkStatusCode SccNone "") cerV.
Proof. unfold local_push, appended. change (cer_push ca) with (cer_append [copy ca]). by destruct (lookup_cer _ _ _ _). Qed.

Lemma gather_cer_appended cerV cer : no_failure (sc_code (cer_status cer)) = true ->
  gather_cer cerV cer = appended (cer_entity cer) (copy <$> cer_attrs cer) (mkStatusCode SccOk "") cerV.
Proof. intros H. unfold gather_cer, appended, cer_append. rewrite H. cbn [negb]. by destruct (lookup_cer _ _ _ _). Qed.

Lemma appended_cons e l sc cer cerV : appended e l sc (cer :: cerV)
  = if EntityId_equal (cer_entity cer) e then cer_append l cer :: cerV else cer :: appended e l sc cerV.
Proof. unfold appended. cbn [lookup_cer]. rewrite andb_true_r. destruct (EntityId_equal _ _); [done|]. by destruct (lookup_cer _ _ _ _). Qed.

Lemma appended_responded e l sc cerV e' :
  responded SccNone e' (appended e l sc cerV) = responded SccNone e' cerV ++ (if EntityId_equal e e' then l else []).
Proof.
  induction cerV as [|cer cerV IH].
  - unfold appended. cbn [lookup_cer default app responded cer_entity cer_attrs]. rewrite andb_true_r. by destruct (EntityId_equal e e').
  - rewrite appended_cons. destruct (EntityId_equal (cer_entity cer) e) eqn:E; cbn [responded cer_append cer_entity cer_attrs]; rewrite !andb_true_r.
    + rewrite (EntityId_equal_trans _ _ _ E). destruct (EntityId_equal e e'); [done|by rewrite app_nil_r].
    + destruct (EntityId_equal (cer_entity cer) e') eqn:E'; [|exact IH].
      assert (EntityId_equal e e' = false) as ->; [|by rewrite app_nil_r].
      apply not_true_iff_false. intros H. by rewrite (EntityId_equal_trans _ _ e E'), EntityId_equal_sym, H in E.
Qed.

(** The elements about an entity that has an id. *)
Definition named (cer : Cer) : bool := negb (eid_id (cer_entity cer) =s "").
Definition named_keys (cerV : list Cer) : list (string * string * bool) := (fun cer => entity_key (cer_entity cer)) <$> List.filter named cerV.

Lemma append_same_keys l cer cerV : named_keys (cer_append l cer :: cerV) = named_keys (cer :: cerV).
Proof. unfold named_keys. cbn [List.filter]. change (named (cer_append l cer)) with (named cer). by destruct (named cer). Qed.

Lemma appended_keys e l sc cerV k : k ∈ named_keys (appended e l sc cerV) -> k ∈ named_keys cerV \/ k = entity_key e.
Proof.
  induction cerV as [|cer cerV IH].
  - unfold appended, named_keys. cbn [lookup_cer default app List.filter]. destruct (named _); cbn; [|by intros H; apply elem_of_nil in H].
    intros ->%list_elem_of_singleton. by right.
  - rewrite appended_cons. destruct (EntityId_equal (cer_entity cer) e); [rewrite append_same_keys; by left|]. unfold named_keys in *. cbn [List.filter].
    destruct (named cer); [|exact IH]. cbn [fmap list_fmap]. rewrite !elem_of_cons. intros [->|H]; [by left; left|].
    destruct (IH H); [by left; right|by right].
Qed.

Lemma appended_nodup e l sc cerV : NoDup (named_keys cerV) -> NoDup (named_keys (appended e l sc cerV)).
Proof.
  induction cerV as [|cer cerV IH]; intros H.
  - unfold appended, named_keys. cbn [lookup_cer default app List.filter]. destruct (named _); cbn; [apply NoDup_singleton|constructor].
  - rewrite appended_cons. destruct (EntityId_equal (cer_entity cer) e) eqn:E; [by rewrite append_same_keys|].
    unfold named_keys in *. cbn [List.filter] in *.
    destruct (named cer); [|by apply IH]. cbn [fmap list_fmap] in *. apply NoDup_cons in H as [Hn H]. apply NoDup_cons. split; [|by apply IH].
    intros [Hin|Hk]%(appended_keys e l sc); [done|]. rewrite <- not_true_iff_false, EntityId_equal_key in E. by apply E.
Qed.

(** ** What is gathered *)

(** The attributes that the responses have about an entity, in elements without an error. *)
Definition answered (e : EntityId) (vec : list QueryContextResponse) : list ContextAttribute :=
  flat_map (fun q => flat_map (fun cer => if no_failure (sc_code (cer_status cer)) && EntityId_equal (cer_entity cer) e
                                          then copy <$> cer_attrs cer else []) (qcrs_contextElementResponseVector q)) vec.

Lemma gather_cer_responded cerV cer e : responded SccNone e (gather_cer cerV cer) = responded SccNone e cerV
  ++ (if no_failure (sc_code (cer_status cer)) && EntityId_equal (cer_entity cer) e then copy <$> cer_attrs cer else []).
Proof.
  destruct (no_failure (sc_code (cer_status cer))) eqn:E; [by rewrite gather_cer_appended, appended_responded|].
  unfold gather_cer. rewrite E. cbn. by rewrite app_nil_r.
Qed.

Lemma gather_cers_responded l cerV e : responded SccNone e (foldl gather_cer cerV l) = responded SccNone e cerV
  ++ flat_map (fun cer => if no_failure (sc_code (cer_status cer)) && EntityId_equal (cer_entity cer) e then copy <$> cer_attrs cer else []) l.
Proof.
  revert cerV. induction l as [|cer l IH]; intros cerV; [by rewrite app_nil_r|]. cbn [foldl flat_map].
  by rewrite IH, gather_cer_responded, app_assoc.
Qed.

Lemma responded_not_found e cerV : eid_id e <> "" -> responded SccNone e (cerV ++ [not_found_cer]) = responded SccNone e cerV.
Proof.
  intros He. induction cerV as [|cer cerV IH]; cbn [app responded].
  - unfold EntityId_equal. cbn [not_found_cer cer_entity eid_id]. apply str_eqb_neq in He. by rewrite He.
  - by rewrite IH.
Qed.

Lemma gather_nodup vec : NoDup (named_keys (gather vec)).
Proof.
  unfold gather. assert (NoDup (named_keys [])) as H by constructor. revert H. generalize (@nil Cer).
  induction vec as [|q vec IH]; intros cerV H; [done|]. cbn [foldl]. apply IH. unfold gather_response.
  set (cerV0 := if _ : bool then _ else _). assert (NoDup (named_keys cerV0)) as H0.
  { unfold cerV0. destruct (_ && _); [|done]. unfold named_keys in *. rewrite List.filter_app. cbn. by rewrite app_nil_r. }
  clearbody cerV0. clear H. revert cerV0 H0. induction (qcrs_contextElementResponseVector q) as [|cer l IHl]; intros cerV0 H0; [done|].
  cbn [foldl]. apply IHl. destruct (no_failure (sc_code (cer_status cer))) eqn:E; [rewrite gather_cer_appended by done; by apply appended_nodup|].
  unfold gather_cer. by rewrite E.
Qed.

Lemma gather_responded vec e : eid_id e <> "" -> responded SccNone e (gather vec) = answered e vec.
Proof.
  intros He. unfold gather. change (answered e vec) with (responded SccNone e [] ++ answered e vec). generalize (@nil Cer).
  induction vec as [|q vec IH]; intros cerV; [by rewrite app_nil_r|]. cbn [foldl answered flat_map]. rewrite IH. unfold gather_response.
  rewrite gather_cers_responded. fold (answered e vec). rewrite app_assoc. f_equal. f_equal.
  destruct (_ && _); [by apply responded_not_found|done].
Qed.

(** ** What is asked *)

(** The answer of the database, item by item: the providers of each entity, then its attributes. *)
Definition items (cerV : list Qer) : list (EntityId * (string + ContextAttribute)) :=
  flat_map (fun cer => map (fun pa => (qe_entity cer, inl pa)) (qe_providers cer) ++ map (fun ca => (qe_entity cer, inr ca)) (qe_attrs cer)) cerV.

Definition provider_of (x : EntityId * (string + ContextAttribute)) : string :=
  match x.2 with inl pa => pa | inr ca => ca_providingApplication ca end.

(** What is local about an entity. *)
Definition local_item (e : EntityId) (x : EntityId * (string + ContextAttribute)) : list ContextAttribute :=
  match x.2 with
  | inl _ => []
  | inr ca => if (ca_providingApplication ca =s "") && ca_found ca && EntityId_equal x.1 e then [copy ca] else []
  end.

Definition ask_item (attributeList : list string) (st : Asked) (x : EntityId * (string + ContextAttribute)) : Asked :=
  match x.2 with
  | inl pa => mkAsked (as_local st) (as_requestV st ++ [mkQueryContextRequest pa [x.1] attributeList])
  | inr ca => ask_for_attribute x.1 st ca
  end.

Lemma ask_items al e l st : foldl (ask_item al) st (map (fun pa => (e, inl pa)) l)
  = mkAsked (as_local st) (as_requestV st ++ map (fun pa => mkQueryContextRequest pa [e] al) l).
Proof.
  revert st. induction l as [|pa l IH]; intros st; [rewrite app_nil_r; by destruct st|].
  cbn [map foldl]. rewrite IH. cbn [ask_item as_local as_requestV snd fst]. by rewrite <- app_assoc.
Qed.

Lemma sort_queries_items al cerV : sort_queries al cerV = foldl (ask_item al) (mkAsked [] []) (items cerV).
Proof.
  unfold sort_queries, items. generalize (mkAsked [] []). induction cerV as [|cer cerV IH]; intros st; [done|].
  cbn [foldl flat_map]. rewrite !foldl_app, IH. f_equal. unfold ask_for_element. rewrite ask_items.
  generalize (mkAsked (as_local st) (as_requestV st ++ map (fun pa => mkQueryContextRequest pa [qe_entity cer] al) (qe_providers cer))).
  induction (qe_attrs cer) as [|ca cav IHa]; intros st'; [done|]. cbn [foldl map]. apply IHa.
Qed.

(** *** One attribute more *)

(** A request asks all that another does, from the same provider. *)
Definition covers (r r' : QueryContextRequest) : Prop :=
  qcr_contextProvider r' = qcr_contextProvider r /\ qcr_entityIdVector r `prefix_of` qcr_entityIdVector r' /\
  qcr_attributeList r `prefix_of` qcr_attributeList r'.

#[export] Instance covers_preorder : PreOrder covers.
Proof. split; [by intros r|]. intros a b c (H1 & H2 & H3) (H4 & H5 & H6). split; [congruence|]. split; by etrans. Qed.

Lemma push_name_prefix n l : l `prefix_of` push_name n l.
Proof. unfold push_name. destruct (existsb _ l); [done|by apply prefix_app_r]. Qed.

Lemma push_entity_prefix e l : l `prefix_of` push_entity e l.
Proof. unfold push_entity. destruct (vector_lookup l e); [done|by apply prefix_app_r]. Qed.

Lemma push_name_in n l : n ∈ push_name n l.
Proof.
  unfold push_name. destruct (existsb _ l) eqn:E; [|apply elem_of_app; right; by apply list_elem_of_singleton].
  apply existsb_exists in E as (s & Hs & ->%str_eqb_eq). by apply list_elem_of_In.
Qed.

Lemma vector_lookup_self e : vector_lookup [e] e = true.
Proof. unfold vector_lookup. cbn. by rewrite !str_eqb_refl. Qed.

Lemma vector_lookup_app l l' e : vector_lookup (l ++ l') e = vector_lookup l e || vector_lookup l' e.
Proof. apply existsb_app. Qed.

Lemma push_entity_found e l : vector_lookup (push_entity e l) e = true.
Proof. unfold push_entity. destruct (vector_lookup l e) eqn:E; [done|]. by rewrite vector_lookup_app, vector_lookup_self, orb_true_r. Qed.

Lemma covers_lookup r r' e : covers r r' -> vector_lookup (qcr_entityIdVector r) e = true -> vector_lookup (qcr_entityIdVector r') e = true.
Proof. intros (_ & [k ->] & _) H. by rewrite vector_lookup_app, H. Qed.

Lemma covers_name r r' n : covers r r' -> n ∈ qcr_attributeList r -> n ∈ qcr_attributeList r'.
Proof. intros (_ & _ & [k ->]) H. apply elem_of_app. by left. Qed.

Lemma ask_attribute_grows p n e requestV r : r ∈ requestV -> exists r', r' ∈ ask_attribute p n e requestV /\ covers r r'.
Proof.
  induction requestV as [|r0 requestV IH]; [by intros H%elem_of_nil|]. cbn [ask_attribute]. destruct (asks p e r0).
  - intros [->|H]%elem_of_cons; [|exists r; split; [by right|done]]. eexists. split; [by left|].
    split; [done|]. split; [apply push_entity_prefix|apply push_name_prefix].
  - intros [->|H]%elem_of_cons; [exists r0; split; [by left|done]|]. destruct (IH H) as (r' & Hr & Hc). exists r'. split; [by right|done].
Qed.

Lemma ask_attribute_asks p n e requestV : exists r, r ∈ ask_attribute p n e requestV /\ qcr_contextProvider r = p /\
  vector_lookup (qcr_entityIdVector r) e = true /\ (n = "" \/ n ∈ qcr_attributeList r).
Proof.
  induction requestV as [|r0 requestV IH]; cbn [ask_attribute].
  - eexists. split; [by left|]. split; [done|]. split; [apply vector_lookup_self|]. cbn. destruct (n =s "") eqn:E; [left; by apply str_eqb_eq|right; by left].
  - destruct (asks p e r0) eqn:E.
    + eexists. split; [by left|]. unfold asks in E. apply andb_true_iff in E as [E%str_eqb_eq _].
      split; [exact E|]. split; [apply push_entity_found|]. right. apply push_name_in.
    + destruct IH as (r & Hr & ?). exists r. split; [by right|done].
Qed.

(** What a vector of requests has beside what another has, for the provider [p]. *)
Definition only_more (p n : string) (e : EntityId) (requestV requestV' : list QueryContextRequest) : Prop := forall r', r' ∈ requestV' ->
  (forall en, en ∈ qcr_entityIdVector r' ->
     (exists r, r ∈ requestV /\ qcr_contextProvider r = qcr_contextProvider r' /\ en ∈ qcr_entityIdVector r)
     \/ en = e /\ qcr_contextProvider r' = p) /\
  (forall m, m ∈ qcr_attributeList r' ->
     (exists r, r ∈ requestV /\ qcr_contextProvider r = qcr_contextProvider r' /\ m ∈ qcr_attributeList r)
     \/ m = n /\ qcr_contextProvider r' = p).

Lemma ask_attribute_only p n e requestV : only_more p n e requestV (ask_attribute p n e requestV).
Proof.
  induction requestV as [|r0 requestV IH]; cbn [ask_attribute]; intros r'.
  - intros ->%list_elem_of_singleton. cbn. split; [intros en ->%list_elem_of_singleton; by right|].
    destruct (n =s ""); [by intros m H%elem_of_nil|intros m ->%list_elem_of_singleton; by right].
  - destruct (asks p e r0) eqn:E.
    + unfold asks in E. apply andb_true_iff in E as [E%str_eqb_eq _]. intros [->|H]%elem_of_cons; cbn.
      * split.
        -- unfold push_entity. intros en Hen. destruct (vector_lookup _ e); [left; exists r0; by split_and!; [left| |]|].
           apply elem_of_app in Hen as [Hen| ->%list_elem_of_singleton]; [|by right]. left. exists r0. split_and!; [by left|done|done].
        -- unfold push_name. intros m Hm. destruct (existsb _ _); [left; exists r0; by split_and!; [left| |]|].
           apply elem_of_app in Hm as [Hm| ->%list_elem_of_singleton]; [|by right]. left. exists r0. split_and!; [by left|done|done].
      * split; intros x Hx; left; exists r'; split_and!; [by right|done|done|by right|done|done].
    + intros [->|H]%elem_of_cons.
      * split; intros x Hx; left; exists r0; split_and!; [by left|done|done|by left|done|done].
      * destruct (IH r' H) as [H1 H2]. split.
        -- intros en Hen. destruct (H1 en Hen) as [(r & ? & ?)|?]; [left; exists r; split; [by right|done]|by right].
        -- intros m Hm. destruct (H2 m Hm) as [(r & ? & ?)|?]; [left; exists r; split; [by right|done]|by right].
Qed.

(** *** The whole answer *)

Record asked_upto (al : list string) (l : list (EntityId * (string + ContextAttribute))) (st : Asked) : Prop := mkAskedUpto {
  au_provider : forall e pa, (e, inl pa) ∈ l -> exists r, r ∈ as_requestV st /\ qcr_contextProvider r = pa /\
    vector_lookup (qcr_entityIdVector r) e = true /\ (forall n, n ∈ al -> n ∈ qcr_attributeList r);
  au_attribute : forall e ca, (e, inr ca) ∈ l -> ca_providingApplication ca <> "" -> exists r, r ∈ as_requestV st /\
    qcr_contextProvider r = ca_providingApplication ca /\ vector_lookup (qcr_entityIdVector r) e = true /\
    (ca_name ca = "" \/ ca_name ca ∈ qcr_attributeList r);
  au_only : forall r, r ∈ as_requestV st ->
    (forall en, en ∈ qcr_entityIdVector r -> exists x, x ∈ l /\ x.1 = en /\ provider_of x = qcr_contextProvider r) /\
    (forall n, n ∈ qcr_attributeList r ->
       n ∈ al \/ exists e ca, (e, inr ca) ∈ l /\ ca_name ca = n /\ ca_providingApplication ca = qcr_contextProvider r);
  au_local : forall e, responded SccNone e (as_local st) = flat_map (local_item e) l
}.

Lemma in_snoc {A} (x : A) l y : x ∈ l ++ [y] <-> x ∈ l \/ x = y.
Proof. by rewrite elem_of_app, list_elem_of_singleton. Qed.

Lemma ask_item_upto al l st x : asked_upto al l st -> asked_upto al (l ++ [x]) (ask_item al st x).
Proof.
  intros [H1 H2 H3 H4]. destruct x as [e [pa|ca]].
  - unfold ask_item. cbn [fst snd]. split; cbn [as_local as_requestV].
    + intros e' pa' [H|[= -> ->]]%in_snoc.
      * destruct (H1 _ _ H) as (r & Hr & ?). exists r. split; [apply elem_of_app; by left|done].
      * eexists. split; [apply in_snoc; by right|]. split; [done|]. split; [apply vector_lookup_self|done].
    + intros e' ca' [H|[=]]%in_snoc Hp. destruct (H2 _ _ H Hp) as (r & Hr & ?). exists r. split; [apply elem_of_app; by left|done].
    + intros r [Hr| ->]%in_snoc.
      * destruct (H3 r Hr) as [Ha Hb]. split.
        -- intros en Hen. destruct (Ha en Hen) as (x & Hx & ?). exists x. split; [apply in_snoc; by left|done].
        -- intros n Hn. destruct (Hb n Hn) as [?|(e' & ca' & ? & ?)]; [by left|]. right. exists e', ca'. split; [apply in_snoc; by left|done].
      * cbn. split; [|by left]. intros en ->%list_elem_of_singleton. exists (e, inl pa). split; [apply in_snoc; by right|done].
    + intros e'. rewrite H4, flat_map_app. cbn. by rewrite !app_nil_r.
  - unfold ask_item, ask_for_attribute. cbn [fst snd]. destruct (ca_providingApplication ca =s "") eqn:Ep.
    + assert (forall st', as_requestV st' = as_requestV st ->
        (forall e', responded SccNone e' (as_local st') = flat_map (local_item e') (l ++ [(e, inr ca)])) -> asked_upto al (l ++ [(e, inr ca)]) st') as Hst.
      { intros st' Hr Hl. split; rewrite ?Hr; [| | |exact Hl].
        - intros e' pa' [H|[=]]%in_snoc. by apply H1.
        - intros e' ca' [H|[= -> ->]]%in_snoc Hp; [by apply H2|]. by apply str_eqb_eq in Ep.
        - intros r Hr'. destruct (H3 r Hr') as [Ha Hb]. split.
          + intros en Hen. destruct (Ha en Hen) as (x & Hx & ?). exists x. split; [apply in_snoc; by left|done].
          + intros n Hn. destruct (Hb n Hn) as [?|(e' & ca' & ? & ?)]; [by left|]. right. exists e', ca'. split; [apply in_snoc; by left|done]. }
      apply Hst; destruct (ca_found ca) eqn:Ef; cbn [negb as_requestV as_local]; try done; intros e';
        rewrite flat_map_app; cbn [flat_map local_item fst snd]; rewrite Ep, Ef, app_nil_r; cbn [andb].
      * by rewrite local_push_appended, appended_responded, H4.
      * rewrite ?app_nil_r. apply H4.
    + set (requestV := ask_attribute _ _ _ _). assert (forall r, r ∈ as_requestV st -> exists r', r' ∈ requestV /\ covers r r') as Hg
        by (intros r; apply ask_attribute_grows).
      split; cbn [as_local as_requestV].
      * intros e' pa' [H|[=]]%in_snoc. destruct (H1 _ _ H) as (r & Hr & Hpr & Hl & Hn). destruct (Hg r Hr) as (r' & Hr' & Hc). exists r'.
        split_and!; [done|by rewrite (proj1 Hc)|by eapply covers_lookup|]. intros n Hn'. eapply covers_name; [done|]. by apply Hn.
      * intros e' ca' [H|[= -> ->]]%in_snoc Hp; [|apply ask_attribute_asks]. destruct (H2 _ _ H Hp) as (r & Hr & Hpr & Hl & Hn).
        destruct (Hg r Hr) as (r' & Hr' & Hc). exists r'. split_and!; [done|by rewrite (proj1 Hc)|by eapply covers_lookup|].
        destruct Hn as [?|Hn]; [by left|]. right. by eapply covers_name.
      * intros r' Hr'. destruct (ask_attribute_only _ _ _ _ r' Hr') as [Ha Hb]. split.
        -- intros en Hen. destruct (Ha en Hen) as [(r & Hr & Hpr & Hin)|[-> Hpr]].
           ++ destruct (H3 r Hr) as [Hx _]. destruct (Hx en Hin) as (x & Hxl & ? & Hxp). exists x.
              split; [apply in_snoc; by left|]. split; [done|]. by rewrite Hxp.
           ++ exists (e, inr ca). split; [apply in_snoc; by right|]. split; [done|]. by rewrite Hpr.
        -- intros n Hn. destruct (Hb n Hn) as [(r & Hr & Hpr & Hin)|[-> Hpr]].
           ++ destruct (H3 r Hr) as [_ Hx]. destruct (Hx n Hin) as [?|(e' & ca' & ? & ? & Hcp)]; [by left|]. right. exists e', ca'.
              split; [apply in_snoc; by left|]. split; [done|]. by rewrite Hcp.
           ++ right. exists e, ca. split; [apply in_snoc; by right|]. by rewrite Hpr.
      * intros e'. rewrite H4, flat_map_app. cbn [flat_map local_item fst snd]. rewrite Ep. cbn. by rewrite !app_nil_r.
Qed.

Lemma sort_queries_upto al cerV : asked_upto al (items cerV) (sort_queries al cerV).
Proof.
  rewrite sort_queries_items. assert (asked_upto al [] (mkAsked [] [])) as H0.
  { split; try done; intros *; by intros H%elem_of_nil. }
  change (items cerV) with ([] ++ items cerV) at 1. revert H0. generalize (mkAsked [] []), ([] : list (EntityId * (string + ContextAttribute))).
  induction (items cerV) as [|x l IH]; intros st l0 H; [by rewrite app_nil_r|]. cbn [foldl].
  change (x :: l) with ([x] ++ l). rewrite app_assoc. by apply IH, ask_item_upto.
Qed.

(** C12. Every attribute that a registration provides is asked from its provider, and every
    provider of an entity is asked for the entity with at least the attributes of the query.
    A request to a provider has no entities but those it provides something of, and no
    attributes but those of the query and those it provides of some entity; but it asks all
    its attributes of all its entities, so an attribute may be asked of an entity for which
    no registration has it (untyped_entity_joins).  What is in the database goes, in order,
    to the element of its entity in the local answer. *)
Theorem sort_queries_asks attributeList cerV : asked_upto attributeList (items cerV) (sort_queries attributeList cerV).
Proof. apply sort_queries_upto. Qed.

(** ** What is shown, and what is left *)

Lemma answered_emptied e vec : answered e (emptied vec) = answered e vec.
Proof. by destruct vec as [|[[|cer l] sc] [|q vec]]. Qed.

Lemma copy_taken ca : copy (taken ca) = taken (copy ca).
Proof. done. Qed.

Lemma answered_taken e vec : answered e (taken_from vec) = taken <$> answered e vec.
Proof.
  induction vec as [|[cerV sc] vec IH]; [done|]. cbn [taken_from map answered flat_map qcrs_contextElementResponseVector].
  rewrite fmap_app. f_equal; [|exact IH]. clear IH. induction cerV as [|cer cerV IH]; [done|]. cbn [map flat_map].
  rewrite fmap_app, IH. f_equal. destruct (no_failure (sc_code (cer_status cer))) eqn:E; cbn [cer_status cer_entity cer_attrs]; rewrite E;
    cbn [andb]; [|done]. destruct (EntityId_equal (cer_entity cer) e); [|done]. rewrite <- !list_fmap_compose. by apply list_fmap_ext.
Qed.

Lemma populate_responded vec e : eid_id e <> "" ->
  responded SccNone e (qcrs_contextElementResponseVector (populate vec)) = answered e vec.
Proof.
  intros He. destruct vec as [|[[|cer l] sc] [|q vec]]; try done; cbn [populate qcrs_contextElementResponseVector]; by apply gather_responded.
Qed.

(** C13. The answers of providers and what was found here become one response, with one element
    for an entity, that has all the attributes of the elements without an error, in order.
    The response that is left for the routines of version 2 has the same attributes, but
    without their structured values. *)
Theorem gathered vec details detailsString e : eid_id e <> "" ->
  let shown := qcrs_contextElementResponseVector (vector_response vec details detailsString) in
  let left := qcrs_contextElementResponseVector (populate (taken_from vec)) in
  responded SccNone e shown = answered e vec /\ responded SccNone e left = taken <$> answered e vec /\
  NoDup (named_keys shown) /\ NoDup (named_keys left).
Proof.
  intros He. cbv zeta. split_and!.
  - cbn [vector_response qcrs_contextElementResponseVector]. by rewrite gather_responded, answered_emptied.
  - by rewrite populate_responded, answered_taken.
  - apply gather_nodup.
  - destruct (taken_from vec) as [|[[|cer l] sc] [|q l']]; cbn [populate qcrs_contextElementResponseVector]; try apply gather_nodup; constructor.
Qed.

(** ** Concrete queries *)

Definition no_reader (_ : string) : option QueryContextResponse := None.
Definition from_provider (name pa : string) (ca : ContextAttribute) : ContextAttribute :=
  mkContextAttribute name (ca_type ca) (ca_metadataVector ca) (ca_valueType ca) (ca_stringValue ca) (ca_numberValue ca) (ca_boolValue ca)
    pa (ca_found ca) (ca_skip ca) (ca_compoundValueP ca) (ca_typeGiven ca).
Definition kitchen_id : EntityId := mkEntityId "Kitchen" "Room" "false" "".
Definition local_text (name : string) : ContextAttribute := ContextAttribute_string name "T" "v" true S754_nan false.

(** A provider of the entity, and one of an attribute. *)
Example two_providers : exists r, as_requestV (sort_queries ["hum"] [mkQer kitchen_id [from_provider "hum" "http://p" (local_text "")] ["http://q"]
  (mkStatusCode SccOk "") false]) = [mkQueryContextRequest "http://q" [kitchen_id] ["hum"]; r] /\ qcr_contextProvider r = "http://p".
Proof. eexists. split; reflexivity. Qed.

Lemma gathered_witness :
  NoDup (named_keys (qcrs_contextElementResponseVector (populate (taken_from
    [mkQueryContextResponse [mkCer kitchen_id [local_text "a"] (mkStatusCode SccOk "")] (mkStatusCode SccOk "")])))).
Proof.
  refine (proj2 (proj2 (proj2 (gathered [mkQueryContextResponse [mkCer kitchen_id [local_text "a"] (mkStatusCode SccOk "")] (mkStatusCode SccOk "")]
    false "" kitchen_id _)))). discriminate.
Defined.

(** A provider of the whole entity that provides one attribute of it also: it is asked for that
    attribute only. *)
Example all_attributes_narrowed :
  as_requestV (sort_queries [] [mkQer kitchen_id [from_provider "hum" "http://p" (local_text "")] ["http://p"] (mkStatusCode SccOk "") false])
  = [mkQueryContextRequest "http://p" [kitchen_id] ["hum"]].
Proof. reflexivity. Qed.

(** An entity without a type takes the request for another entity with its id. *)
Example untyped_entity_joins :
  as_requestV (sort_queries [] [mkQer kitchen_id [from_provider "hum" "http://p" (local_text "")] [] (mkStatusCode SccOk "") false;
    mkQer (mkEntityId "Kitchen" "" "false" "") [from_provider "temp" "http://p" (local_text "")] [] (mkStatusCode SccOk "") false])
  = [mkQueryContextRequest "http://p" [kitchen_id; mkEntityId "Kitchen" "" "false" ""] ["hum"; "temp"]].
Proof. reflexivity. Qed.

(** What the only provider answers is that it has nothing: the response that is left is 200, and
    has no element. *)
Example absent_at_provider :
  populate (taken_from [mkQueryContextResponse [mkCer kitchen_id [] (mkStatusCode SccContextElementNotFound "")]
    (mkStatusCode SccContextElementNotFound "")]) = mkQueryContextResponse [] (mkStatusCode SccOk "").
Proof. reflexivity. Qed.
