(* ===== verification/EntityQueries.v ===== *)
(** * Queries of version 2

    The routines of serviceRoutinesV2/ that read entities: getEntities, getEntity,
    getEntityAttribute, getEntityAttributeValue and postBatchQuery, with Entity::fill,
    Entities::fill and Attribute::fill (apiTypesV2/).  Each makes a query, gives it to
    postQueryContext (QueryForward.v) and renders what it leaves. *)

From S2P Require Import Prelude Strings Double Bson Compound Ngsi AttrUpdate Location EntityDoc Registrations.
From S2P Require Import FilterParse FilterMatch SubCache SubSync Geo Queries Notify EntityUpdate UpdateContext QueryContext.
From S2P Require Import Duration Subscriptions Json JsonEntity JsonText JsonSubscription Rest JsonRequest RenderV1 Forward EntityRequests QueryForward.

Open Scope Z_scope.

(** ** What is made of a response *)

Definition not_found_error : ErrorCode := mkErrorCode "NotFound" "The requested entity has not been found. Check type and id".
Definition too_many_error : ErrorCode := mkErrorCode "TooManyResults" MORE_MATCHING_ENT.
Definition no_attribute_error : ErrorCode := mkErrorCode "NotFound" "The entity does not have such an attribute".

(** ErrorCode::fill(const StatusCode&) *)
Definition error_of_status (sc : StatusCode) : ErrorCode := mkErrorCode (httpStatusCodeString (sc_code sc)) (sc_details sc).

(** The entity, or the error it holds; [renderId]: hideIdAndType was not called. *)
Definition entity_with_error (renderId : bool) (ec : ErrorCode) : Entity := mkEntity "" "" "" [] false renderId ec.
Definition entity_of (renderId : bool) (cer : Cer) : Entity :=
  mkEntity (eid_id (cer_entity cer)) (eid_type (cer_entity cer)) (eid_isPattern (cer_entity cer)) (copy <$> cer_attrs cer) false renderId
    (mkErrorCode "OK" "").

(** Entity::fill, from a response. *)
Definition Entity_fill (renderId : bool) (q : QueryContextResponse) : cpp Entity :=
  let sc := qcrs_errorCode q in
  if sc_code sc =? SccContextElementNotFound then Ret (entity_with_error renderId not_found_error)
  else if negb (sc_code sc =? SccOk) then Ret (entity_with_error renderId (error_of_status sc))
  else match qcrs_contextElementResponseVector q with
       | [] => UB "the first element of a response without elements"
       | [cer] => Ret (entity_of renderId cer)
       | _ => Ret (entity_with_error renderId too_many_error)
       end.

(** Entities::fill: the entities and the error code. *)
Definition Entities_fill (q : QueryContextResponse) : list Entity * ErrorCode :=
  let sc := qcrs_errorCode q in
  if sc_code sc =? SccContextElementNotFound then ([], mkErrorCode "OK" "")
  else if negb (sc_code sc =? SccOk) then ([], error_of_status sc)
  else (map (entity_of true) (qcrs_contextElementResponseVector q), mkErrorCode "OK" "").

(** Attribute::fill: the error, or the attribute. *)
Definition Attribute_fill (q : QueryContextResponse) (attrName : string) : cpp (ErrorCode + ContextAttribute) :=
  let sc := qcrs_errorCode q in
  if sc_code sc =? SccContextElementNotFound then Ret (inl not_found_error)
  else if negb (sc_code sc =? SccOk) then Ret (inl (error_of_status sc))
  else match qcrs_contextElementResponseVector q with
       | [] => UB "the first element of a response without elements"
       | [cer] => Ret (match find_attribute attrName (cer_attrs cer) with Some ca => inr ca | None => inl no_attribute_error end)
       | _ => Ret (inl too_many_error)
       end.

(** ** The routines *)

(** What a routine replies; [an_code] is the status of the connection. *)
Record Answered := mkAnswered {
  an_answer : string;
  an_code : Z;
  an_headers : list (string * string);
  an_sent : list HttpRequest
}.

Section Routines.

Context (mem : Metadata) (memDate : double).
Context (regcomp : string -> bool) (regexec : string -> string -> bool).
Context (fromjson : string -> cpp doc) (capable : bool).
Context (collectionRangedQuery : doc -> option doc -> Z -> Z -> string + (Z * list fetched)).
Context (registrationsQuery : list EntityId -> list string -> cpp (option (list ContextRegistration))).
Context (isodate2str : double -> string) (tenant : string) (outJson : bool).
Context (httpRequestSend : nat -> HttpRequest -> Z * string).
Context (jsonTreat : string -> option QueryContextResponse).
Context (cprForwardLimit : N) (checkIdv1 : bool).
(** What "%f" prints of a number. *)
Context (f_text : double -> string).
Context (memOut : ValueOut) (memItem : StringFilterItem) (filter_time : string -> Z).

Abbreviation post_query := (postQueryContext mem memDate regcomp regexec fromjson capable collectionRangedQuery registrationsQuery
                              isodate2str tenant outJson httpRequestSend jsonTreat cprForwardLimit).

(** An error found before the query. *)
Definition query_refused (oe : OrionError) (code : Z) : Answered :=
  let '(text, code) := OrionError_render oe code in mkAnswered text code [] [].
Definition uri_refused (ci : ConnectionInfo) : Answered := query_refused bad_uri (httpStatusCode ci).

Definition format_of (ci : ConnectionInfo) : RenderFormat :=
  options_format (option_on ci "keyValues") (option_on ci "values") (option_on ci "unique").

(** The query for one entity. *)
Definition query_one (ci : ConnectionInfo) (id : string) (attributeList : list string) : cpp PostedQuery :=
  post_query ci [mkEntityId id (param ci "type") "false" ""] attributeList [].

(** getEntity *)
Definition getEntity (ci : ConnectionInfo) (compV : list string) : cpp Answered :=
  id ← vec_at compV 2;
  if forbidden_uri checkIdv1 ci id then Ret (uri_refused ci)
  else
    let attrs := param ci "attrs" in
    let attributeList := if attrs =s "" then [] else foldl (fun l name => push_name name l) [] (stringSplit attrs ",").2 in
    p ← query_one ci id attributeList;
    hide ← (if (length compV =? 4)%nat then c ← vec_at compV 3; Ret (c =s "attrs") else Ret false);
    let q := pq_response p in
    e ← Entity_fill (negb hide) q;
    text ← Entity_render isodate2str e (format_of ci) attrs false;
    let sc := qcrs_errorCode q in
    Ret (mkAnswered text
           (if (sc_code sc =? SccOk) && (1 <? length (qcrs_contextElementResponseVector q))%nat then SccConflict else sc_code sc)
           (pq_headers p) (pq_sent p)).

(** The code of an error or an attribute. *)
Definition attribute_code (error : string) (sc : StatusCode) : Z :=
  if error =s "TooManyResults" then SccConflict else if error =s "NotFound" then SccContextElementNotFound else sc_code sc.

(** getEntityAttribute *)
Definition getEntityAttribute (ci : ConnectionInfo) (compV : list string) : cpp Answered :=
  id ← vec_at compV 2;
  name ← vec_at compV 4;
  if forbidden_uri checkIdv1 ci id then Ret (uri_refused ci)
  else if forbidden_uri checkIdv1 ci name then Ret (uri_refused ci)
  else
    p ← query_one ci id [];
    let sc := qcrs_errorCode (pq_response p) in
    a ← Attribute_fill (pq_response p) name;
    match (a : ErrorCode + ContextAttribute) with
    | inl ec =>
        t ← ErrorCode_toJson ec true;
        Ret (mkAnswered t.1 (attribute_code (ec_error ec) sc) (pq_headers p) (pq_sent p))
    | inr ca =>
        Ret (mkAnswered
               ("{" +:+ ContextAttribute_toJson isodate2str ca true
                          (if option_on ci "keyValues" then NGSI_V2_KEYVALUES else NGSI_V2_NORMALIZED) true +:+ "}")
               (sc_code sc) (pq_headers p) (pq_sent p))
    end.

(** ContextAttribute::getValue *)
Definition getValue (ca : ContextAttribute) : string :=
  match ca_valueType ca with
  | ValueTypeString => ca_stringValue ca
  | ValueTypeNumber => f_text (ca_numberValue ca)
  | ValueTypeBoolean => JSON_BOOL (ca_boolValue ca)
  | _ => "<unknown type>"
  end.

(** The attribute whose value alone is printed. *)
Definition bare_value (name : string) (ca : ContextAttribute) : ContextAttribute :=
  ca_named name (ca_set "" [] (ca_valueType ca) (ca_stringValue ca) (ca_numberValue ca) (ca_boolValue ca) (ca_compoundValueP ca) (ca_typeGiven ca) ca).

(** The value as a text. *)
Definition value_text (ci : ConnectionInfo) (ca : ContextAttribute) : string :=
  match ca_compoundValueP ca with
  | Some c =>
      let text := CompoundValueNode_render (apiVersion ci) "" c in
      match cvn_valueType c with
      | ValueTypeObject => "{" +:+ text +:+ "}"
      | ValueTypeVector => "[" +:+ text +:+ "]"
      | _ => text
      end
  | None => if ca_type ca =s DATE_TYPE then isodate2str (ca_numberValue ca) else getValue ca
  end.

(** getEntityAttributeValue; [outJson] is false where the client accepts text/plain only. *)
Definition getEntityAttributeValue (ci : ConnectionInfo) (compV : list string) : cpp Answered :=
  id ← vec_at compV 2;
  name ← vec_at compV 4;
  if forbidden_uri checkIdv1 ci id then Ret (uri_refused ci)
  else if forbidden_uri checkIdv1 ci name then Ret (uri_refused ci)
  else
    p ← query_one ci id [];
    let sc := qcrs_errorCode (pq_response p) in
    let answered text code := mkAnswered text code (pq_headers p) (pq_sent p) in
    a ← Attribute_fill (pq_response p) name;
    match (a : ErrorCode + ContextAttribute) with
    | inl ec =>
        if ec_error ec =s "TooManyResults" then t ← ErrorCode_toJson too_many_error true; Ret (answered t.1 SccConflict)
        else if ec_error ec =s "NotFound" then t ← ErrorCode_toJson not_found_error true; Ret (answered t.1 SccContextElementNotFound)
        else UB "an attribute through a null pointer"
    | inr ca =>
        if outJson then
          '(text, notAcceptable) ← toJsonAsValue isodate2str f_text (bare_value "value" ca) true;
          Ret (answered text (if notAcceptable : bool then SccNotAcceptable else sc_code sc))
        else Ret (answered (value_text ci ca) (sc_code sc))
    end.

(** The answer of a query for entities. *)
Definition show_entities (ci : ConnectionInfo) (p : PostedQuery) : cpp Answered :=
  if (length (qcrs_contextElementResponseVector (pq_response p)) =? 0)%nat then Ret (mkAnswered "[]" SccOk (pq_headers p) (pq_sent p))
  else
    let '(vec, ec) := Entities_fill (pq_response p) in
    text ← Entities_render isodate2str vec ec (format_of ci) (param ci "attrs");
    Ret (mkAnswered text SccOk (pq_headers p) (pq_sent p)).

(** The pattern for a list of ids. *)
Definition ids_pattern (idsV : list string) : string :=
  concat_str (imap (fun ix id => (if (ix =? 0)%nat then "^" else "|^") +:+ id +:+ "$") idsV).

Definition id_pattern (ci : ConnectionInfo) : string :=
  if negb (param ci "id" =s "") then ids_pattern (stringSplit (param ci "id") ",").2
  else if negb (param ci "idPattern" =s "") then param ci "idPattern" else ".*".

Definition geo_refused (details : string) : Answered :=
  query_refused (OrionError_new SccInvalidModification ("Query not supported: " +:+ details) "") SccInvalidModification.

(** The scope of the geometry parameters, if any. *)
Definition location_scope (ci : ConnectionInfo) : cpp (string + list Scope) :=
  let geometry := param ci "geometry" in
  if geometry =s "" then Ret (inr [])
  else
    r ← scope_fill (apiVersion ci) geometry (param ci "coords") (param ci "georel");
    Ret (match (r : string + GeoScope) with
         | inl err => inl err
         | inr g => inr [mkScope (gs_type g) "" "" (gs_area g) (gs_georel g) None]
         end).

(** The scope of the filter, if any. *)
Definition filter_scope (ci : ConnectionInfo) : string + list Scope :=
  let q := param ci "q" in
  if q =s "" then inr []
  else match sf_parse regcomp filter_time memOut memItem q with
       | inl err => inl err
       | inr sf => inr [plain_scope SCOPE_TYPE_SIMPLE_QUERY q (Some sf)]
       end.

(** The entities that are asked for, and the scope of a type that is not empty. *)
Definition type_query (ci : ConnectionInfo) (pattern : string) : list EntityId * list Scope :=
  match uriParamTypes ci with
  | [] => ([mkEntityId pattern "" "true" ""], [])
  | [_] => ([mkEntityId pattern (param ci "type") "true" ""], [plain_scope SCOPE_FILTER_EXISTENCE SCOPE_VALUE_ENTITY_TYPE None])
  | types => (map (fun t => mkEntityId pattern t "true" "") types, [])
  end.

(** getEntities *)
Definition getEntities (ci : ConnectionInfo) : cpp Answered :=
  let geometry := param ci "geometry" in
  let coords := param ci "coords" in
  if negb (param ci "idPattern" =s "") && negb (param ci "id" =s "")
  then Ret (query_refused (OrionError_new SccBadRequest "Incompatible parameters: id, IdPattern" "") (httpStatusCode ci))
  else if negb (coords =s "") && (geometry =s "") then Ret (geo_refused "URI param /coords/ used without /geometry/")
  else if negb (geometry =s "") && (coords =s "") then Ret (geo_refused "URI param /geometry/ used without /coords/")
  else if negb (param ci "georel" =s "") && (geometry =s "") then Ret (geo_refused "URI param /georel/ used without /geometry/")
  else
    location ← location_scope ci;
    match (location : string + list Scope) with
    | inl err => Ret (geo_refused err)
    | inr location =>
        match filter_scope ci with
        | inl err => Ret (query_refused (OrionError_new SccBadRequest err "") SccBadRequest)
        | inr filter =>
            let '(enV, existence) := type_query ci (id_pattern ci) in
            p ← post_query ci enV [] (location ++ filter ++ existence);
            show_entities ci p
        end
    end.

(** QueryContextRequest::fill, from a batch query. *)
Definition batch_entities (entities : list Entity) : list EntityId :=
  match entities with
  | [] => [mkEntityId ".*" "" "true" ""]
  | _ => map (fun e => mkEntityId (en_id e) (en_type e) (en_isPattern e) "") entities
  end.

(** postBatchQuery *)
Definition postBatchQuery (ci : ConnectionInfo) (b : BatchQuery) : cpp Answered :=
  p ← post_query ci (batch_entities (bq_entities b)) (bq_attributeV b) (bq_scopeV b);
  show_entities ci p.

End Routines.

(** ** What a query leaves when nothing is forwarded *)

(** The status code that the renderer leaves. *)
Definition code_left (cerV : list Cer) (sc : StatusCode) : StatusCode := if query_shows cerV sc then status_shown sc else sc.

Lemma query_rendered isodate2str apiVersion fmt outJson cerV sc indent : sc_code sc <> SccNone -> exists text,
  QueryContextResponse_render isodate2str apiVersion fmt outJson cerV sc indent
    = Ret (text, (map (cer_left fmt outJson) cerV, code_left cerV sc)).
Proof.
  intros H%Z.eqb_neq. unfold QueryContextResponse_render, code_left. fold (query_shows cerV sc). rewrite H, andb_false_r.
  assert (forall shown, exists t, ContextElementResponseVector_render isodate2str apiVersion fmt outJson QueryContext cerV (indent +:+ "  ") shown false
    = Ret (t, map (cer_left fmt outJson) cerV)) as Hv.
  { intros shown. unfold ContextElementResponseVector_render. destruct cerV as [|cer l]; [by exists ""|]. cbn [length Nat.eqb].
    destruct (responses_left isodate2str apiVersion fmt outJson QueryContext (cer :: l) (indent +:+ "  " +:+ "  ")) as [t Ht].
    rewrite app_assoc_str, Ht. cbn [mbind cpp_bind]. by eexists. }
  destruct (Hv (query_shows cerV sc)) as [t ->]. cbn [mbind cpp_bind]. destruct (query_shows cerV sc).
  - destruct (StatusCode_render_total "errorCode" sc (indent +:+ "  ") false true) as (st & -> & _). cbn [mbind cpp_bind].
    assert ((sc_code (status_shown sc) =? SccNone) = false) as ->; [|cbn; by eexists]. unfold status_shown. rewrite H. exact H.
  - cbn [mbind cpp_bind]. rewrite H. cbn. by eexists.
Qed.

(** A response and its elements go together. *)
Lemma query_codes mem memDate regcomp regexec fromjson capable db regs enV al scopes sp offset limit sort cre chg countP ver sc cerV rel :
  mongoQueryContext mem memDate regcomp regexec fromjson capable db regs enV al scopes sp offset limit sort cre chg countP ver = Ret (sc, cerV, rel) ->
  (sc_code sc = SccReceiverInternalError \/ sc_code sc = SccContextElementNotFound) /\ cerV = []
  \/ (sc_code sc = SccNone \/ sc_code sc = SccOk) /\ cerV <> [].
Proof.
  unfold mongoQueryContext. destruct (entitiesQuery _ _ _ _ _ _ _ _ _ _ _ _ _ _ _ _ _ _) as [r| |]; [|done..]. cbn [mbind cpp_bind].
  destruct (er_ok r); cbn [negb]; [|intros [= <- <- _]; left; split; [by left|done]].
  destruct (add_providers _ _ _ _ _ _ _) as [l| |]; [|done..]. cbn [mbind cpp_bind]. intros [= <- <- _].
  destruct (pruneContextElements l) as [|cer l']; [left; split; [right|done]|right; split; [|done]]; unfold query_status;
    destruct (er_count r) as [n|]; try done.
  - cbn [length]. by destruct (_ && _).
  - by right.
  - by left.
Qed.

Section Shown.

Context (mem : Metadata) (memDate : double).
Context (regcomp : string -> bool) (regexec : string -> string -> bool).
Context (fromjson : string -> cpp doc) (capable : bool).
Context (collectionRangedQuery : doc -> option doc -> Z -> Z -> string + (Z * list fetched)).
Context (registrationsQuery : list EntityId -> list string -> cpp (option (list ContextRegistration))).
Context (isodate2str : double -> string) (tenant : string) (outJson : bool).
Context (httpRequestSend : nat -> HttpRequest -> Z * string).
Context (jsonTreat : string -> option QueryContextResponse).
Context (cprForwardLimit : N) (checkIdv1 : bool).

Abbreviation post_query := (postQueryContext mem memDate regcomp regexec fromjson capable collectionRangedQuery registrationsQuery
                              isodate2str tenant outJson httpRequestSend jsonTreat cprForwardLimit).
Abbreviation mongo_query ci enV al scopes := (mongoQueryContext mem memDate regcomp regexec fromjson capable collectionRangedQuery
  registrationsQuery enV al scopes (servicePathV ci) (param ci "offset") (param ci "limit") (param ci "orderBy")
  (option_on ci DATE_CREATED) (option_on ci DATE_MODIFIED) (counts ci) (apiVersion ci)).

(** What the element of the answer is for the routines. *)
Definition shown_cer (ci : ConnectionInfo) (cer : Qer) : Cer := cer_left (attributeFormat_of ci) outJson (cer_of cer).
Definition found_code (sc : StatusCode) : StatusCode := if sc_code sc =? SccNone then mkStatusCode SccOk "" else sc.

Lemma post_query_local ci enV al scopes sc cerV rel :
  mongo_query ci enV al scopes = Ret (sc, cerV, rel) -> queries_pending cerV = false ->
  exists answer headers, post_query ci enV al scopes = Ret (mkPostedQuery answer
    (mkQueryContextResponse (map (shown_cer ci) cerV) (code_left (map cer_of cerV) (found_code sc))) headers []).
Proof.
  intros Hm Hp. unfold postQueryContext. rewrite Hm. cbn [mbind cpp_bind].
  assert (exists c, counted mem memDate fromjson capable collectionRangedQuery ci enV al scopes = Ret c) as [c ->].
  { revert Hm. unfold mongoQueryContext, counted. destruct (entitiesQuery _ _ _ _ _ _ _ _ _ _ _ _ _ _ _ _ _ _) as [r| |]; [|done..].
    cbn [mbind cpp_bind]. by eexists. }
  cbn [mbind cpp_bind]. rewrite Hp. cbn [negb]. fold (found_code sc). unfold render_query. cbn [qcrs_contextElementResponseVector qcrs_errorCode].
  destruct (query_rendered isodate2str (apiVersion ci) (attributeFormat_of ci) outJson (map cer_of cerV) (found_code sc) "") as [t ->].
  { unfold found_code. destruct (sc_code sc =? SccNone) eqn:E; [done|by apply Z.eqb_neq in E]. }
  cbn [mbind cpp_bind]. rewrite map_map. by do 2 eexists.
Qed.

(** An error code is left as it is, but for its details. *)
Lemma code_left_code cerV sc : sc_code sc <> SccNone -> sc_code (code_left cerV sc) = sc_code sc.
Proof.
  intros H%Z.eqb_neq. unfold code_left, status_shown. destruct (query_shows cerV sc); [|done]. by rewrite H.
Qed.

Lemma found_code_cases sc : (sc_code sc = SccNone \/ sc_code sc = SccOk) -> sc_code (found_code sc) = SccOk.
Proof. unfold found_code. destruct (sc_code sc =? SccNone) eqn:E; [done|]. apply Z.eqb_neq in E. by intros [?|?]. Qed.
Lemma found_code_error sc c : sc_code sc = c -> c <> SccNone -> found_code sc = sc.
Proof. intros <- H%Z.eqb_neq. unfold found_code. by rewrite H. Qed.

Abbreviation get_entity := (getEntity mem memDate regcomp regexec fromjson capable collectionRangedQuery registrationsQuery
                              isodate2str tenant outJson httpRequestSend jsonTreat cprForwardLimit checkIdv1).

(** The attributes that the client asks for, once each. *)
Definition asked_attributes (ci : ConnectionInfo) : list string :=
  if param ci "attrs" =s "" then [] else foldl (fun l name => push_name name l) [] (stringSplit (param ci "attrs") ",").2.

(** The text of an error, and of an entity, for the client. *)
Definition error_reply (ec : ErrorCode) (code : Z) (headers : list (string * string)) : cpp Answered :=
  t ← ErrorCode_toJson ec true; Ret (mkAnswered t.1 code headers []).
Definition entity_reply (ci : ConnectionInfo) (renderId : bool) (cer : Cer) (headers : list (string * string)) : cpp Answered :=
  text ← Entity_render isodate2str (entity_of renderId cer) (format_of ci) (param ci "attrs") false;
  Ret (mkAnswered text SccOk headers []).

(** What getEntity promises: one entity is shown; none is 404, more than one is 409, a failure
    of the database is its code. *)
Definition get_entity_spec (ci : ConnectionInfo) (renderId : bool) (sc : StatusCode) (cerV : list Qer)
    (headers : list (string * string)) : cpp Answered :=
  match cerV with
  | [] => if sc_code sc =? SccContextElementNotFound then error_reply not_found_error SccContextElementNotFound headers
          else error_reply (error_of_status (status_shown sc)) (sc_code sc) headers
  | [cer] => entity_reply ci renderId (shown_cer ci cer) headers
  | _ => error_reply too_many_error SccConflict headers
  end.

Lemma getEntity_meets ci compV id sc cerV rel : compV !! 2%nat = Some id -> forbidden_uri checkIdv1 ci id = false ->
  mongo_query ci [mkEntityId id (param ci "type") "false" ""] (asked_attributes ci) [] = Ret (sc, cerV, rel) ->
  queries_pending cerV = false ->
  exists headers, get_entity ci compV
    = get_entity_spec ci (negb ((length compV =? 4)%nat && match compV !! 3%nat with Some c => c =s "attrs" | None => false end)) sc cerV headers.
Proof.
  intros Hid Hf Hm Hp. pose proof (query_codes _ _ _ _ _ _ _ _ _ _ _ _ _ _ _ _ _ _ _ _ _ _ Hm) as Hcodes.
  unfold getEntity. assert (vec_at compV 2 = Ret id) as -> by (unfold vec_at; by rewrite Hid).
  cbn [mbind cpp_bind]. rewrite Hf. unfold query_one. fold (asked_attributes ci).
  destruct (post_query_local _ _ _ _ _ _ _ Hm Hp) as (ans & headers & ->). exists headers. cbn [mbind cpp_bind pq_response pq_headers pq_sent].
  assert ((if (length compV =? 4)%nat then c ← vec_at compV 3; Ret (c =s "attrs") else Ret false)
    = Ret ((length compV =? 4)%nat && match compV !! 3%nat with Some c => c =s "attrs" | None => false end)) as Hhide.
  { destruct (length compV =? 4)%nat eqn:E; [|done]. destruct compV as [|? [|? [|? [|? ?]]]]; done. }
  rewrite Hhide. cbn [mbind cpp_bind]. set (hide := _ && match compV !! 3%nat with Some _ => _ | None => _ end). clearbody hide.
  unfold Entity_fill, get_entity_spec, error_reply, entity_reply. cbn [qcrs_errorCode qcrs_contextElementResponseVector].
  assert (sc_code (found_code sc) <> SccNone) as Hn.
  { unfold found_code. destruct (sc_code sc =? SccNone) eqn:E; [done|by apply Z.eqb_neq]. }
  destruct Hcodes as [[Hc ->]|[Hc Hne]].
  - rewrite (found_code_error _ _ eq_refl) in Hn |- * by (destruct Hc as [-> | ->]; done). cbn [map].
    rewrite !(code_left_code _ _ Hn). change (code_left [] sc) with (if query_shows [] sc then status_shown sc else sc).
    unfold query_shows. rewrite orb_true_r. cbn [orb].
    destruct Hc as [Hc|Hc]; rewrite Hc; cbn [Z.eqb Pos.eqb negb mbind cpp_bind].
    + destruct sc as [c d]. cbn [sc_code] in Hc. subst c. change (status_shown (mkStatusCode 500 d))
        with (mkStatusCode 500 (sc_details (status_shown (mkStatusCode 500 d)))).
      set (d' := sc_details (status_shown (mkStatusCode 500 d))). clearbody d'. cbn [negb Z.eqb Pos.eqb mbind cpp_bind]. unfold Entity_render, entity_with_error, error_of_status.
      cbn [en_errorCode sc_details sc_code].
      unfold no_error at 1. cbn. rewrite andb_false_r. cbn. by destruct (ErrorCode_toJson _ _) as [[t ec]| |].
    + cbv delta [SccReceiverInternalError SccContextElementNotFound SccOk] in *. cbn [Z.eqb Pos.eqb negb mbind cpp_bind andb].
      reflexivity.
  - rewrite !(code_left_code _ _ Hn), (found_code_cases _ Hc).
    destruct cerV as [|cer [|cer' l]]; [done| |]; reflexivity.
Qed.

End Shown.

(** C11. A request for one entity that needs no provider is answered as it must be: the only
    entity found is printed, with its id and type unless the path ends in /attrs; none is 404,
    more than one is 409, and a failure of the database keeps its code; nothing is sent. *)
Theorem getEntity_shows mem memDate regcomp regexec fromjson capable db regs isodate2str tenant outJson send jsonTreat limit checkIdv1
    ci compV id sc cerV rel :
  compV !! 2%nat = Some id -> forbidden_uri checkIdv1 ci id = false ->
  mongoQueryContext mem memDate regcomp regexec fromjson capable db regs [mkEntityId id (param ci "type") "false" ""] (asked_attributes ci) []
    (servicePathV ci) (param ci "offset") (param ci "limit") (param ci "orderBy") (option_on ci DATE_CREATED) (option_on ci DATE_MODIFIED)
    (counts ci) (apiVersion ci) = Ret (sc, cerV, rel) ->
  queries_pending cerV = false ->
  exists headers, getEntity mem memDate regcomp regexec fromjson capable db regs isodate2str tenant outJson send jsonTreat limit checkIdv1 ci compV
    = get_entity_spec isodate2str outJson ci
        (negb ((length compV =? 4)%nat && match compV !! 3%nat with Some c => c =s "attrs" | None => false end)) sc cerV headers.
Proof. apply getEntity_meets. Qed.

(** ** Concrete requests *)

Definition unregistered (_ : list EntityId) (_ : list string) : cpp (option (list ContextRegistration)) := Ret None.
Definition no_date_text (_ : double) : string := "".
Definition get_room (options : gset string) : ConnectionInfo := set_param "limit" "20" (v2_ci GET ["/"] options).

Abbreviation ask_entity db regs send jsonTreat := (getEntity no_mem S754_nan (fun _ => true) (fun _ _ => true) empty_query true db regs
  no_date_text "" true send jsonTreat 10 false (get_room ∅)).

Lemma getEntity_shows_witness : exists headers text,
  ask_entity one_room unregistered no_answer no_reader ["v2"; "entities"; "Room"] = Ret (mkAnswered text SccOk headers []).
Proof.
  eassert (mongoQueryContext no_mem S754_nan (fun _ => true) (fun _ _ => true) empty_query true one_room unregistered
    [mkEntityId "Room" (param (get_room ∅) "type") "false" ""] (asked_attributes (get_room ∅)) [] (servicePathV (get_room ∅))
    (param (get_room ∅) "offset") (param (get_room ∅) "limit") (param (get_room ∅) "orderBy") (option_on (get_room ∅) DATE_CREATED)
    (option_on (get_room ∅) DATE_MODIFIED) (counts (get_room ∅)) (apiVersion (get_room ∅)) = Ret (_, _, _)) as E by (vm_compute; reflexivity).
  destruct (getEntity_shows no_mem S754_nan (fun _ => true) (fun _ _ => true) empty_query true one_room unregistered no_date_text "" true
    no_answer no_reader 10 false (get_room ∅) ["v2"; "entities"; "Room"] "Room" _ _ _ eq_refl eq_refl E eq_refl) as [headers ->].
  exists headers. eexists. vm_compute. reflexivity.
Defined.

(** The humidity is asked from its provider, that has no such entity: the broker reads the first
    element of a response that has none. *)
Definition cpr_registered (_ : list EntityId) (_ : list string) : cpp (option (list ContextRegistration)) :=
  Ret (Some [mkContextRegistration [mkEntityId "Room" "" "false" ""] [mkContextRegistrationAttribute "hum" "" ""] "http://cpr:80/v1"]).
Definition no_room (_ : doc) (_ : option doc) (_ _ : Z) : string + (Z * list fetched) := inr (0, []).
Definition some_answer (_ : nat) (_ : HttpRequest) : Z * string := (0, "{}").
Definition absent_there (_ : string) : option QueryContextResponse :=
  Some (mkQueryContextResponse [mkCer (mkEntityId "Room" "" "false" "") [] (mkStatusCode SccContextElementNotFound "")] (mkStatusCode SccNone "")).

Example absent_at_provider_UB :
  ask_entity no_room cpr_registered some_answer absent_there ["v2"; "entities"; "Room"]
  = UB "the first element of a response without elements".
Proof. vm_compute. reflexivity. Qed.

(** The database fails, with a quote in its text: the reply to a query for one entity is an error
    whose text is not JSON; a query for the value of an attribute reads a null pointer; and a
    query for entities answers 200 and none. *)
Definition failing (_ : doc) (_ : option doc) (_ _ : Z) : string + (Z * list fetched) := inl ("no " +:+ quote "orion").

Example failed_entity : exists text, ask_entity failing unregistered no_answer no_reader ["v2"; "entities"; "Room"]
    = Ret (mkAnswered text SccReceiverInternalError [] []) /\ read_json text = None.
Proof. eexists. split; [vm_compute; reflexivity|vm_compute; reflexivity]. Qed.

Example failed_value_UB :
  getEntityAttributeValue no_mem S754_nan (fun _ => true) (fun _ _ => true) empty_query true failing unregistered
    no_date_text "" true no_answer no_reader 10 false (fun _ => "") (get_room ∅) ["v2"; "entities"; "Room"; "attrs"; "temp"; "value"]
  = UB "an attribute through a null pointer".
Proof. vm_compute. reflexivity. Qed.

Example failed_entities mv mi ft :
  getEntities no_mem S754_nan (fun _ => true) (fun _ _ => true) empty_query true failing unregistered
    no_date_text "" true no_answer no_reader 10 mv mi ft (get_room ∅)
  = Ret (mkAnswered "[]" SccOk [] []).
Proof. vm_compute. reflexivity. Qed.
