(* ===== verification/PostedShown.v ===== *)
(** * What is posted is shown

    The way of an entity of version 2 through the broker: POST /v2/entities makes a document
    of it (createEntity, EntityDoc.v), GET /v2/entities/{id} makes a query whose answer is
    that document (QueryContext.v, QueryForward.v), an element of it, and a text of the
    element (EntityQueries.v, JsonEntity.v).  That text is read as a JSON value
    (JsonValue.v), of which parseEntity, which reads the payload of POST, makes the entity that was posted. *)

From S2P Require Import Prelude Strings Double Bson Compound Ngsi AttrUpdate Location EntityDoc Registrations.
From S2P Require Import FilterParse FilterMatch SubCache SubSync Geo Queries Notify EntityUpdate UpdateContext QueryContext TriggerDb.
From S2P Require Import Duration Subscriptions Json JsonText JsonValue JsonEntity JsonSubscription Rest JsonRequest RenderV1 Forward EntityRequests QueryForward EntityQueries.

Open Scope Z_scope.

(** ** Attributes *)

Section Attributes.

Context (isodate2str : double -> string) (strptime_timegm : string -> string -> option Z).

Abbreviation readable := (readable isodate2str strptime_timegm).
Abbreviation view := (view isodate2str).

(** A metadata that is stored with its type. *)
Definition keepable_md (md : Metadata) : Prop :=
  custom md = true /\ simple_type (md_valueType md) = true /\ (md_typeGiven md = false -> md_type md = DEFAULT_TYPE).

(** An attribute that the database gives back: a simple value, a type of its own or the default
    one, a name without "__" and '=', and metadata that are stored. *)
Record keepable (ca : ContextAttribute) : Prop := mkKeepable {
  st_request : request_attr ca;
  st_named : well_named ca = true;
  st_id : getId ca = "";
  st_type : ca_typeGiven ca = false -> ca_type ca = DEFAULT_TYPE;
  st_mds : Forall keepable_md (ca_metadataVector ca)
}.

Lemma typed_or_default (given : bool) type : (given = false -> type = DEFAULT_TYPE) -> (if negb given && true then DEFAULT_TYPE else type) = type.
Proof. destruct given; cbn; [done|]. by intros ->. Qed.

(** *** Metadata *)

Definition same_md (md md' : Metadata) : Prop :=
  md_name md' = md_name md /\ md_type md' = md_type md /\ md_valueType md' = md_valueType md /\ md_value md' = md_value md.

Lemma read_md mem md d : keepable_md md -> appendMetadata md true = [d] -> same_md md (Metadata_of_bson mem d).
Proof.
  intros (_ & Hs & Ht) Hd. pose proof (append_read mem md true d Hs Hd) as H. unfold md_content, md_typed in H.
  rewrite (typed_or_default _ _ Ht) in H. unfold same_md. injection H as -> -> Hv. split_and!; try done.
  revert Hd. unfold appendMetadata, Metadata_of_bson. destruct (md_valueType md); try done; intros [= <-];
    by destruct (_ =s "").
Qed.

Lemma read_mds mem mds : Forall keepable_md mds ->
  Forall2 same_md mds (Metadata_of_bson mem <$> flat_map (fun md => if negb (isNotCustomMetadata (md_name md)) then appendMetadata md true else []) mds).
Proof.
  induction 1 as [|md mds Hmd _ IH]; [constructor|]. cbn [flat_map]. pose proof Hmd as (Hc & Hs & _). unfold custom in Hc. rewrite Hc.
  destruct (appendMetadata_simple md true Hs) as (d & Hd & _). rewrite Hd. cbn. constructor; [by apply read_md|exact IH].
Qed.

Lemma same_md_view md md' : simple_type (md_valueType md) = true -> same_md md md' -> md_view md' = md_view md.
Proof.
  unfold same_md, md_view, md_value, md_value_json. intros Hs (-> & -> & Hvt & Hv). rewrite Hvt in *.
  destruct (md_valueType md); try done; congruence.
Qed.

Lemma same_md_readable md md' : same_md md md' -> readable_md md -> readable_md md'.
Proof.
  unfold same_md, readable_md, md_value. intros (-> & -> & Hvt & Hv) (Hn & Ht & H). rewrite Hvt in *. split_and!; [done..|].
  destruct H as [[E Hs]|H]; [|by right]. left. rewrite E in Hv |- *. split; [done|]. congruence.
Qed.

Lemma same_mds_visible mds mds' : Forall2 same_md mds mds' -> Forall2 same_md (visible_metadata mds) (visible_metadata mds').
Proof.
  unfold visible_metadata. induction 1 as [|md md' mds mds' H _ IH]; [constructor|]. cbn [List.filter].
  unfold hidden_metadata in *. rewrite (proj1 H). destruct (negb _); [by constructor|exact IH].
Qed.

Lemma same_mds_view mds mds' : Forall (fun md => simple_type (md_valueType md) = true) mds -> Forall2 same_md mds mds' ->
  map md_view (visible_metadata mds') = map md_view (visible_metadata mds).
Proof.
  intros Hs H. unfold visible_metadata. induction H as [|md md' mds mds' H _ IH]; [done|]. apply Forall_cons in Hs as [Hs1 Hs]. cbn [List.filter].
  assert (hidden_metadata md' = hidden_metadata md) as -> by (unfold hidden_metadata; by rewrite (proj1 H)).
  destruct (hidden_metadata md); cbn [negb map]; [by apply IH|]. by rewrite (same_md_view _ _ Hs1 H), IH.
Qed.

Lemma same_mds_readable mds mds' : Forall2 same_md mds mds' -> Forall readable_md mds -> Forall readable_md mds'.
Proof.
  induction 1 as [|md md' mds mds' H _ IH]; [done|]. intros [H1 H2]%Forall_cons. constructor; [by eapply same_md_readable|by apply IH].
Qed.

(** *** The attribute as a whole *)

(** What an attribute and the one read back have in common. *)
Record same_attribute (ca ca' : ContextAttribute) : Prop := mkSameAttribute {
  sa_name : ca_name ca' = ca_name ca;
  sa_type : ca_type ca' = ca_type ca;
  sa_compound : ca_compoundValueP ca = None /\ ca_compoundValueP ca' = None;
  sa_vt : ca_valueType ca' = ca_valueType ca;
  sa_value : request_value ca' = request_value ca;
  sa_simple : simple_type (ca_valueType ca) = true;
  sa_mds : Forall2 same_md (ca_metadataVector ca) (ca_metadataVector ca');
  sa_simple_mds : Forall (fun md => simple_type (md_valueType md) = true) (ca_metadataVector ca)
}.

Lemma same_value_json ca ca' : same_attribute ca ca' -> value_json isodate2str ca' = value_json isodate2str ca.
Proof.
  intros [_ Ht [Hc Hc'] Hvt Hv Hs _ _]. unfold value_json, is_date, request_value in *. rewrite Hc, Hc', Hvt, Ht in *.
  destruct (ca_valueType ca); try done; injection Hv as ->; done.
Qed.

Lemma same_view ca ca' : same_attribute ca ca' -> view ca' = view ca.
Proof.
  intros H. unfold JsonEntity.view. rewrite (same_value_json _ _ H). destruct H as [-> -> _ _ _ _ Hm Hs]. by rewrite (same_mds_view _ _ Hs Hm).
Qed.

Lemma same_readable ca ca' : same_attribute ca ca' -> readable ca -> readable ca'.
Proof.
  intros [Hn Ht [Hc Hc'] Hvt Hv Hs Hm _] (H1 & H2 & H3 & H4 & H5 & H6 & H7). unfold JsonEntity.readable, hidden_attribute.
  rewrite Hn, Ht. split_and!; try done.
  - unfold valued in *. by rewrite Hc', Hvt, Hc in *.
  - unfold readable_value, is_date, request_value in *. rewrite Hc', Hvt, Ht, Hc in *.
    destruct H6 as [(E & Hcl & Hd)|[(E & Hd)|H6]]; [left|right; left|by right; right]; rewrite E in Hv; injection Hv as ->; done.
  - by eapply same_mds_readable; [apply same_mds_visible|].
Qed.

Lemma same_attribute_trans a b c : same_attribute a b -> same_attribute b c -> same_attribute a c.
Proof.
  intros [H1 H2 [H3 _] H4 H5 H6 H7 H8] [G1 G2 [_ G3] G4 G5 G6 G7 G8]. split; try congruence; try done.
  clear -H7 G7. revert G7. generalize (ca_metadataVector c). induction H7 as [|x y l l' [X1 [X2 [X3 X4]]] _ IH]; intros l2 G; inversion G as [|? z ? l3 [Y1 [Y2 [Y3 Y4]]] G']; subst; constructor.
  - unfold same_md. rewrite Y1, Y2, Y3, Y4. done.
  - by apply IH.
Qed.

(** Copying, and what constructors do to the marks, leave an attribute the same. *)
Lemma same_copy ca : ca_compoundValueP ca = None -> simple_type (ca_valueType ca) = true ->
  Forall (fun md => simple_type (md_valueType md) = true) (ca_metadataVector ca) -> same_attribute ca (copy ca).
Proof.
  intros Hc Hs Hm. split; try done. cbn [copy ContextAttribute_copy fst ca_metadataVector]. clear.
  induction (ca_metadataVector ca) as [|md l IH]; [constructor|]. constructor; [by destruct md|exact IH].
Qed.

Lemma same_found b ca : ca_compoundValueP ca = None -> simple_type (ca_valueType ca) = true ->
  Forall (fun md => simple_type (md_valueType md) = true) (ca_metadataVector ca) -> same_attribute ca (set_found b ca).
Proof.
  intros Hc Hs Hm. split; try done. cbn [set_found ca_metadataVector]. clear. induction (ca_metadataVector ca) as [|md l IH]; [constructor|].
  by constructor.
Qed.

End Attributes.

(** ** The document *)

(** The attribute of the document gives back the attribute of the request. *)
Lemma stored_read mem now loc ca : keepable ca -> exists ca',
  EntityDoc.read_attribute mem [] true "v2" loc (effectiveName ca) (created_attribute now "v2" ca) = Ret (Some ca') /\
  same_attribute ca ca' /\ ca_found ca' = true /\ ca_providingApplication ca' = "".
Proof.
  intros [Hr Hw Hid Ht Hm]. destruct (effectiveName_parts ca Hw) as [Hn Hi]. destruct (created_fields now "v2" ca Hr) as (Htf & Hv & Hmd).
  unfold EntityDoc.read_attribute. cbv zeta. rewrite Hn, Hi, Hid. change (EntityDoc.includedAttribute (ca_name ca) []) with true. cbn [negb].
  assert (getStringField (created_attribute now "v2" ca) ENT_ATTRS_TYPE = ca_type ca) as ->.
  { unfold getStringField. rewrite Htf. exact (typed_or_default _ _ Ht). }
  rewrite Hv. change (BsonString (ca_type ca)) with (BsonString (ca_type ca)). pose proof (read_mds mem _ Hm) as Hmds.
  assert (exists ca0, EntityDoc.attribute_of_value mem true (ca_name ca) (ca_type ca) (Some (request_value ca)) = Ret (Some ca0) /\
    ca_name ca0 = ca_name ca /\ ca_type ca0 = ca_type ca /\ ca_metadataVector ca0 = [] /\ ca_valueType ca0 = ca_valueType ca /\
    request_value ca0 = request_value ca /\ ca_found ca0 = true /\ ca_providingApplication ca0 = "" /\ ca_compoundValueP ca0 = None)
    as (ca0 & -> & H1 & H2 & H3 & H4 & H5 & H6 & H7 & H8).
  { pose proof (ra_type _ Hr) as Hs. unfold request_value, EntityDoc.attribute_of_value. destruct (ca_valueType ca); try done; by eexists. }
  cbn [mbind cpp_bind]. rewrite (read_stored_metadata _ _ Hmd). cbn [mbind cpp_bind]. eexists. split; [reflexivity|].
  change ("v2" =s "v1") with false. change ("v2" =s "v2") with true. cbn [andb app String.eqb negb]. split_and!; [|exact H6|exact H7].
  split; cbn [with_metadata ca_name ca_type ca_compoundValueP ca_valueType ca_metadataVector]; try done.
  - split; [apply Hr|exact H8].
  - apply Hr.
  - rewrite H3. exact Hmds.
  - apply Hr.
Qed.

(** *** Names of the fields *)

Lemma set_insert_perm s l : s ∉ l -> set_insert s l ≡ₚ s :: l.
Proof.
  induction l as [|t l IH]; [done|]. intros [Hst Hl]%not_elem_of_cons. cbn [set_insert]. destruct (strcmp s t) eqn:E.
  - by apply strcmp_Eq in E.
  - done.
  - rewrite (IH Hl). apply Permutation_swap.
Qed.

Lemma getFieldNames_perm (o : doc) : NoDup o.*1 -> getFieldNames o ≡ₚ o.*1.
Proof.
  unfold getFieldNames. induction o.*1 as [|s l IH]; [done|]. intros [Hs Hl]%NoDup_cons. cbn [foldr].
  rewrite set_insert_perm; [by rewrite IH|]. by rewrite IH.
Qed.

Lemma getField_in (o : doc) k v : NoDup o.*1 -> (k, v) ∈ o -> getField o k = Some v.
Proof.
  induction o as [|[k' v'] o IH]; [by intros _ H%elem_of_nil|]. intros [Hk Hn]%NoDup_cons [[= -> ->]|H]%elem_of_cons; cbn [getField].
  - by rewrite str_eqb_refl.
  - destruct (k' =s k) eqn:E; [|by apply IH]. apply str_eqb_eq in E as ->. exfalso. apply Hk. apply list_elem_of_fmap. by exists (k, v).
Qed.

Lemma effectiveName_inj ca ca' : keepable ca -> keepable ca' -> effectiveName ca = effectiveName ca' -> ca_name ca = ca_name ca'.
Proof.
  intros H H' E. rewrite <- (proj1 (effectiveName_parts ca (st_named _ H))), <- (proj1 (effectiveName_parts ca' (st_named _ H'))). by rewrite E.
Qed.

Lemma effectiveNames_nodup cas : Forall keepable cas -> NoDup (ca_name <$> cas) -> NoDup (effectiveName <$> cas).
Proof.
  induction 1 as [|ca cas Hca Hcas IH]; [constructor|]. cbn. intros [Hn Hd]%NoDup_cons. apply NoDup_cons. split; [|by apply IH].
  intros (ca' & E & Hin)%list_elem_of_fmap. apply Hn, list_elem_of_fmap. exists ca'. split; [|done].
  rewrite Forall_forall in Hcas. by apply effectiveName_inj; [|apply Hcas|].
Qed.

(** *** Reading the attributes *)

Definition attrs_doc (now : Z) (cas : list ContextAttribute) : doc :=
  (fun ca => (effectiveName ca, BsonObj (created_attribute now "v2" ca))) <$> cas.

Definition back (ca ca' : ContextAttribute) : Prop := same_attribute ca ca' /\ ca_found ca' = true /\ ca_providingApplication ca' = "".

Lemma read_attributes_back mem now loc o cas : Forall keepable cas ->
  (forall ca, ca ∈ cas -> getField o (effectiveName ca) = Some (BsonObj (created_attribute now "v2" ca))) -> exists l,
  EntityDoc.read_attributes mem [] true "v2" loc o (effectiveName <$> cas) = Ret l /\ Forall2 back cas l.
Proof.
  induction 1 as [|ca cas Hca _ IH]; intros Ho; [by exists []|]. cbn [fmap list_fmap EntityDoc.read_attributes]. rewrite Ho by left.
  cbn [embeddedObject mbind cpp_bind]. destruct (stored_read mem now loc ca Hca) as (ca' & -> & Hb). cbn [mbind cpp_bind].
  destruct IH as (l & -> & Hl); [intros c Hc; apply Ho; by right|]. cbn [mbind cpp_bind]. exists (ca' :: l). split; [done|]. by constructor.
Qed.

Lemma attrs_read mem now loc cas : Forall keepable cas -> NoDup (ca_name <$> cas) -> exists cas' l,
  cas' ≡ₚ cas /\ EntityDoc.read_attributes mem [] true "v2" loc (attrs_doc now cas) (getFieldNames (attrs_doc now cas)) = Ret l /\ Forall2 back cas' l.
Proof.
  intros Hs Hn. pose proof (effectiveNames_nodup _ Hs Hn) as He.
  assert ((attrs_doc now cas).*1 = effectiveName <$> cas) as Hk by (unfold attrs_doc; by rewrite <- list_fmap_compose).
  assert (NoDup (attrs_doc now cas).*1) as Hd by (by rewrite Hk). pose proof (getFieldNames_perm _ Hd) as Hp. rewrite Hk in Hp.
  apply Permutation_map_inv in Hp as (cas' & Hc' & Hp). rewrite Hc'.
  destruct (read_attributes_back mem now loc (attrs_doc now cas) cas') as (l & Hl & Hb); [by rewrite <- Hp| |by exists cas', l].
  intros ca Hin. apply getField_in; [done|]. apply list_elem_of_fmap. exists ca. split; [done|]. by rewrite Hp.
Qed.

(** *** The entity of the document *)

Lemma created_read mem memDate e cas now spV d : Forall keepable cas -> NoDup (ca_name <$> cas) ->
  createEntity e cas now spV "v2" = inr d -> exists cas' l sp, cas' ≡ₚ cas /\ Forall2 back cas' l /\
  entity_of_doc mem d [] true false false "v2" memDate
    = Ret (mkContextElement (mkEntityId (eid_id e) (or_default_type (eid_type e)) "false" sp) l memDate memDate).
Proof.
  intros Hs Hn. unfold createEntity. destruct (legalIdUsage_vector cas); [|done]. cbn [negb].
  destruct (processLocationAtEntityCreation cas [] "v2") as [|[locAttr geoJson]]; [done|].
  set (sp := if match spV with s :: _ => s | [] => "" end =s "" then _ else _). clearbody sp.
  intros [= <-]. unfold entity_of_doc.
  set (o := BsonObj ((fun ca => (effectiveName ca, _)) <$> cas)). set (id := BsonObj _).
  assert (exists l1, id = BsonObj l1 /\ getStringField l1 ENT_ENTITY_ID = eid_id e /\
    (if hasField l1 ENT_ENTITY_TYPE then getStringField l1 ENT_ENTITY_TYPE else "") = or_default_type (eid_type e)) as (l1 & -> & Hid & Ht).
  { eexists. split; [reflexivity|]. unfold or_default_type. change ("v2" =s "v2") with true. cbv iota. split; [done|].
    by destruct (eid_type e =s ""). }
  set (rest := if negb (locAttr =s "") then _ else _). clearbody rest. cbn [app getField]. change (ENT_ATTRS =s "_id") with false.
  cbn [embeddedObject mbind cpp_bind].
  match goal with |- context [getStringField (getObjectField ?a ?b) ?c] => generalize (getStringField (getObjectField a b) c) end. intros loc0.
  set (loc := if hasField _ _ then _ else _). clearbody loc.
  change ("_id" =s "_id") with true. cbv iota. cbn [embeddedObject mbind cpp_bind].
  change ("_id" =s ENT_ATTRS) with false. change (ENT_ATTRNAMES =s ENT_ATTRS) with false. change (ENT_ATTRS =s ENT_ATTRS) with true. cbv iota.
  destruct (attrs_read mem now loc cas Hs Hn) as (cas' & l & Hp & Hl & Hb). unfold attrs_doc in Hl. unfold o. cbn [embeddedObject mbind cpp_bind].
  rewrite Hl. cbn [mbind cpp_bind]. unfold virtual_date. cbn [andb app]. rewrite !app_nil_r, Hid, Ht.
  exists cas', l. eexists. split; [done|]. split; [exact Hb|]. reflexivity.
Qed.

(** ** The query *)

Section Query.

Context (mem : Metadata) (memDate : double).
Context (regcomp : string -> bool) (regexec : string -> string -> bool).
Context (fromjson : string -> cpp doc) (capable : bool).
Context (collectionRangedQuery : doc -> option doc -> Z -> Z -> string + (Z * list fetched)).
Context (registrationsQuery : list EntityId -> list string -> cpp (option (list ContextRegistration))).

Definition nothing_registered : Prop := forall enV attrL, registrationsQuery enV attrL = Ret None \/ registrationsQuery enV attrL = Ret (Some []).

Lemma no_registration enV attrL f cerV : nothing_registered -> with_registrations registrationsQuery enV attrL f cerV = Ret cerV.
Proof. intros H. unfold with_registrations. by destruct (H enV attrL) as [-> | ->]. Qed.

Lemma query_finds id type spV offset limit order countP q n d ce :
  entities_query fromjson capable [mkEntityId id type "false" ""] [] [] spV = Ret q ->
  collectionRangedQuery q (sort_order order) (atoi (c_str limit)) (atoi (c_str offset)) = inr (n, [Fetched d]) ->
  entity_of_doc mem d [] true false false "v2" memDate = Ret ce ->
  Forall (fun ca => ca_found ca = true) (ce_contextAttributeVector ce) -> nothing_registered -> exists sc rel,
  mongoQueryContext mem memDate regcomp regexec fromjson capable collectionRangedQuery registrationsQuery [mkEntityId id type "false" ""] [] []
    spV offset limit order false false countP "v2"
  = Ret (sc, [pruned (mkQer (ce_entityId ce) (ce_contextAttributeVector ce) [] (mkStatusCode SccOk "") false)], rel).
Proof.
  intros Hq Hdb Hd Hf Hreg. unfold mongoQueryContext, entitiesQuery. rewrite Hq. cbn [mbind cpp_bind]. rewrite Hdb.
  cbn [read_cursor]. rewrite Hd. cbn [mbind cpp_bind app]. cbn [add_missing foldl].
  set (cer := mkQer (ce_entityId ce) (ce_contextAttributeVector ce) [] (mkStatusCode SccOk "") false).
  assert (someCerNotFound [cer] = false) as Hnf.
  { unfold someCerNotFound, someContextElementNotFound. cbn [existsb qe_attrs cer]. rewrite orb_false_r. induction Hf as [|ca l H _ IH]; [done|].
    cbn [existsb]. by rewrite H. }
  assert (forall l limitReached, Forall (fun c => qe_attrs c = [] /\ qe_providers c = [] /\ qe_prune c = true) l ->
    add_providers mem regcomp regexec registrationsQuery [mkEntityId id type "false" ""] [] limitReached (cer :: l) = Ret (cer :: l) /\
    pruneContextElements (cer :: l) = [pruned cer]) as H.
  { intros l lr Hl. assert (someCerNotFound (cer :: l) = false) as Hnl.
    { unfold someCerNotFound in *. cbn [existsb] in *. apply orb_false_iff in Hnf as [-> _]. cbn [orb]. clear -Hl.
      induction Hl as [|c l (H & _) _ IH]; [done|]. cbn [existsb]. by rewrite H. }
    split.
    - unfold add_providers. cbn [length Nat.eqb mbind cpp_bind]. rewrite Hnl. cbn [mbind cpp_bind]. rewrite Hnl. cbn [mbind cpp_bind].
      by rewrite no_registration.
    - unfold pruneContextElements. cbn [List.filter]. change (kept cer) with true. cbv iota. cbn [fmap list_fmap]. f_equal. clear -Hl.
      induction Hl as [|c l (H1 & H2 & H3) _ IH]; [done|]. cbn [List.filter]. unfold kept at 1. rewrite H3. cbn [pruned qe_attrs]. by rewrite H1, H2. }
  destruct (true && (atoi (c_str limit) mod 2 ^ 32 <=? Z.of_nat (length [cer]))) eqn:El.
  - cbn [er_ok negb er_limitReached er_cerV er_count er_released]. destruct (H [] true (Forall_nil_2 _)) as [-> Hp].
    cbn [mbind cpp_bind]. rewrite Hp. by do 2 eexists.
  - cbn [er_ok negb er_limitReached er_cerV er_count er_released].
    assert (exists l, add_absent mem [mkEntityId id type "false" ""] [] [cer] = cer :: l /\
      Forall (fun c => qe_attrs c = [] /\ qe_providers c = [] /\ qe_prune c = true) l) as (l & -> & Hl).
    { unfold add_absent. cbn [foldl eid_isPattern]. destruct (_ || _); [by exists []|]. eexists. split; [reflexivity|]. constructor; [done|constructor]. }
    destruct (H l false Hl) as [-> Hp]. cbn [mbind cpp_bind]. rewrite Hp. by do 2 eexists.
Qed.

End Query.

(** ** From the request to the reply *)

Lemma keepable_simple ca : keepable ca -> ca_compoundValueP ca = None /\ simple_type (ca_valueType ca) = true /\
  Forall (fun md => simple_type (md_valueType md) = true) (ca_metadataVector ca).
Proof. intros [[H1 H2 H3 _] _ _ _ _]. done. Qed.

Lemma same_keepable ca ca' : same_attribute ca ca' -> ca_typeGiven ca' = ca_typeGiven ca ->
  Forall2 (fun md md' => md_typeGiven md' = md_typeGiven md) (ca_metadataVector ca) (ca_metadataVector ca') ->
  getId ca' = getId ca -> keepable ca -> keepable ca'.
Proof.
  intros [Hn Ht [_ Hc] Hvt _ _ Hm _] Hg Hgm Hid [[H1 H2 H3 H4] H5 H6 H7 H8]. split.
  - split; [done|by rewrite Hvt| |].
    + clear -Hm H3. induction Hm as [|md md' l l' (_ & _ & E & _) _ IH]; [constructor|]. apply Forall_cons in H3 as [? ?]. constructor; [by rewrite E|by apply IH].
    + assert (md_name <$> ca_metadataVector ca' = md_name <$> ca_metadataVector ca) as ->; [|done].
      clear -Hm. induction Hm as [|md md' l l' (E & _) _ IH]; [done|]. cbn. by rewrite E, IH.
  - unfold well_named in *. by rewrite Hn, Hid.
  - by rewrite Hid.
  - by rewrite Hg, Ht.
  - clear -Hm H8 Hgm. induction Hm as [|md md' l l' (E1 & E2 & E3 & _) _ IH]; [constructor|]. apply Forall_cons in H8 as [(K1 & K2 & K3) ?].
    inversion Hgm; subst. constructor; [|by apply IH]. unfold keepable_md, custom in *. rewrite E1, E2, E3. split_and!; [done..|]. intros Hf. apply K3. congruence.
Qed.

(** The attribute that creation is given, of the one that was posted. *)
Lemma created_same ca : keepable ca -> same_attribute ca (set_found false (copy ca)) /\ keepable (set_found false (copy ca)).
Proof.
  intros H. destruct (keepable_simple ca H) as (Hc & Hs & Hm). pose proof (same_copy ca Hc Hs Hm) as H1.
  assert (same_attribute (copy ca) (set_found false (copy ca))) as H2.
  { apply same_found; [done|done|]. clear -Hm. cbn [copy ContextAttribute_copy fst ca_metadataVector]. by apply Forall_fmap. }
  pose proof (same_attribute_trans _ _ _ H1 H2) as H3. split; [exact H3|]. apply (same_keepable ca); try done.
  - cbn [set_found copy ContextAttribute_copy fst ca_metadataVector]. clear. induction (ca_metadataVector ca); cbn; by constructor.
  - unfold getId. cbn [set_found copy ContextAttribute_copy fst ca_metadataVector]. clear. induction (ca_metadataVector ca) as [|md l IH]; [done|].
    cbn. by destruct (md_name md =s NGSI_MD_ID).
Qed.

Section Way.

Context (mem : Metadata) (memDate : double) (memNumber : double) (memBool : bool).
Context (regcomp : string -> bool) (regexec : string -> string -> bool).
Context (fromjson : string -> cpp doc) (capable : bool).
Context (collectionRangedQuery : doc -> option doc -> Z -> Z -> string + (Z * list fetched)).
Context (registrationsQuery : list EntityId -> list string -> cpp (option (list ContextRegistration))).
Context (isodate2str : double -> string) (strptime_timegm : string -> string -> option Z) (tenant : string) (outJson : bool).
Context (httpRequestSend : nat -> HttpRequest -> Z * string).
Context (jsonTreat : string -> option QueryContextResponse).
Context (cprForwardLimit : N) (checkIdv1 : bool).

Abbreviation readable := (readable isodate2str strptime_timegm).
Abbreviation view := (view isodate2str).

(** An entity that the broker keeps and shows as it is. *)
Record presentable (e : Entity) : Prop := mkPresentable {
  pt_id : clean (en_id e) /\ en_id e <> "";
  pt_type : clean (en_type e);
  pt_names : NoDup (ca_name <$> en_attributeVector e);
  pt_keepable : Forall keepable (en_attributeVector e);
  pt_readable : Forall readable (en_attributeVector e)
}.

(** A request for the whole entity, in the normalized format. *)
Record plain_request (ci : ConnectionInfo) : Prop := mkPlainRequest {
  pl_version : apiVersion ci = "v2";
  pl_options : uriParamOptions ci = ∅;
  pl_attrs : param ci "attrs" = "";
  pl_format : as_object (attributeFormat_of ci) outJson = false
}.

(** The only document that the query for the entity finds. *)
Definition database_answers (ci : ConnectionInfo) (id : string) (d : doc) : Prop := exists q n,
  entities_query fromjson capable [mkEntityId id (param ci "type") "false" ""] [] [] (servicePathV ci) = Ret q /\
  collectionRangedQuery q (sort_order (param ci "orderBy")) (atoi (c_str (param ci "limit"))) (atoi (c_str (param ci "offset")))
    = inr (n, [Fetched d]).

Lemma created_attrs_same e : Forall keepable (en_attributeVector e) ->
  Forall2 same_attribute (en_attributeVector e) (created_attrs e) /\ Forall keepable (created_attrs e).
Proof.
  unfold created_attrs. intros H. induction H as [|ca l Hca _ [IH1 IH2]]; [by split|]. destruct (created_same ca Hca) as [H1 H2].
  split; by constructor.
Qed.

Lemma same_names l l' : Forall2 same_attribute l l' -> ca_name <$> l' = ca_name <$> l.
Proof. induction 1 as [|ca ca' l l' [H _ _ _ _ _ _ _] _ IH]; [done|]. cbn. by rewrite H, IH. Qed.

Lemma same_views l l' : Forall2 same_attribute l l' -> map view l' = map view l.
Proof. induction 1 as [|ca ca' l l' H _ IH]; [done|]. cbn [map]. by rewrite (same_view _ _ _ H), IH. Qed.

Lemma same_readables l l' : Forall2 same_attribute l l' -> Forall readable l -> Forall readable l'.
Proof.
  induction 1 as [|ca ca' l l' H _ IH]; [done|]. intros [H1 H2]%Forall_cons. constructor; [by eapply same_readable|by apply IH].
Qed.

Lemma readable_shown l : Forall readable l -> shown l [] = l.
Proof.
  unfold shown, visible_attributes. induction 1 as [|ca l (_ & _ & H & _) _ IH]; [done|]. cbn [List.filter]. by rewrite H, IH.
Qed.

(** What pruning and copying leave of the attributes read. *)
Lemma left_same cas l : Forall2 back cas l -> Forall2 same_attribute cas (copy <$> (copy <$> List.filter ca_found l)) /\
  existsb (fun ca => negb (ca_providingApplication ca =s "")) (copy <$> List.filter ca_found l) = false.
Proof.
  induction 1 as [|ca ca' cas l (Hs & Hf & Hp) _ [IH1 IH2]]; [by split|]. cbn [List.filter]. rewrite Hf. cbn [fmap list_fmap existsb]. split.
  - constructor; [|exact IH1]. assert (same_attribute ca (copy ca')) as H1.
    { eapply same_attribute_trans; [exact Hs|]. destruct Hs as [_ _ [_ Hc] Hvt _ Hsi Hm Hsm]. apply same_copy; [done|by rewrite Hvt|].
      clear -Hm Hsm. induction Hm as [|md md' l l' (_ & _ & E & _) _ IH]; [constructor|]. apply Forall_cons in Hsm as [? ?]. constructor; [by rewrite E|by apply IH]. }
    eapply same_attribute_trans; [exact H1|]. destruct H1 as [_ _ [_ Hc] Hvt _ Hsi Hm Hsm]. apply same_copy; [done|by rewrite Hvt|].
    clear -Hm Hsm. induction Hm as [|md md' l l' (_ & _ & E & _) _ IH]; [constructor|]. apply Forall_cons in Hsm as [? ?]. constructor; [by rewrite E|by apply IH].
  - rewrite IH2. cbn [copy ContextAttribute_copy fst ca_providingApplication]. by rewrite Hp.
Qed.

(** An entity whose texts need no escape and whose numbers have six significant digits at most. *)
Record exact_posted (e : Entity) : Prop := mkExactPosted {
  xp_id : unescaped (en_id e) = true;
  xp_type : unescaped (en_type e) = true;
  xp_attributes : Forall (fun ca => exact_view (view ca) = true) (en_attributeVector e)
}.

Lemma exact_views l l' : map view l ≡ₚ map view l' -> Forall (fun ca => exact_view (view ca) = true) l ->
  Forall (fun ca => exact_view (view ca) = true) l'.
Proof.
  intros Hp H. apply (Forall_fmap view (fun v => exact_view v = true)). change (view <$> l') with (map view l'). rewrite <- Hp.
  by apply (Forall_fmap view (fun v => exact_view v = true)).
Qed.

(** C1. What is posted is shown: the document that POST makes of an entity, found by the query
    that GET makes for its id, is shown with 200 as a text; and of the value that this text is by the
    grammar of JSON, parseEntity makes an entity with the same id, the same type (the default one if none
    was given) and the same attributes, in some order: names, types, values and metadata.  The
    attributes have simple values and names that can be stored, and nothing is registered.  The texts of
    the entity need no escape and its numbers are exact in six significant digits: the broker prints the
    former without escapes and the latter with %g, and what else is posted is shown changed
    ([posted_number_rounded]) or as a text that cannot be read ([backslash_unreadable]). *)
Theorem posted_shown e now spV d ci : presentable e -> exact_posted e ->
  createEntity (created_id e) (created_attrs e) now spV "v2" = inr d ->
  plain_request ci -> forbidden_uri checkIdv1 ci (en_id e) = false -> database_answers ci (en_id e) d -> nothing_registered registrationsQuery ->
  exists text j e' headers,
  getEntity mem memDate regcomp regexec fromjson capable collectionRangedQuery registrationsQuery isodate2str tenant outJson httpRequestSend jsonTreat
    cprForwardLimit checkIdv1 ci ["v2"; "entities"; en_id e] = Ret (mkAnswered text SccOk headers []) /\
  parse_json text = Some j /\
  parseEntity memNumber memBool strptime_timegm false "v2" (Some j) Entity_new false = Ret (inr e') /\
  en_id e' = en_id e /\ en_type e' = or_default_type (en_type e) /\
  map view (en_attributeVector e') ≡ₚ map view (en_attributeVector e).
Proof.
  intros [[Hid Hne] Hty Hnd Hk Hr] [Xi Xt Xa] Hd [Hv Ho Ha Hfmt] Hf (q & n & Hq & Hdb) Hreg.
  destruct (created_attrs_same e Hk) as [Hsame Hkc].
  assert (NoDup (ca_name <$> created_attrs e)) as Hndc by (by rewrite (same_names _ _ Hsame)).
  destruct (created_read mem memDate _ _ _ _ _ Hkc Hndc Hd) as (cas' & l & sp & Hp & Hb & Hce).
  assert (Forall (fun ca => ca_found ca = true) l) as Hfound by (clear -Hb; induction Hb as [|? ? ? ? (_ & ? & _)]; by constructor).
  destruct (query_finds mem memDate regcomp regexec fromjson capable collectionRangedQuery registrationsQuery (en_id e) (param ci "type")
    (servicePathV ci) (param ci "offset") (param ci "limit") (param ci "orderBy") (counts ci) q n d _ Hq Hdb Hce Hfound Hreg) as (sc & rel & Hm).
  cbn [ce_entityId ce_contextAttributeVector created_id eid_id eid_type] in Hm. destruct (left_same _ _ Hb) as [Hleft Hprov].
  set (cer := pruned _) in Hm.
  destruct (getEntity_meets mem memDate regcomp regexec fromjson capable collectionRangedQuery registrationsQuery isodate2str tenant outJson
    httpRequestSend jsonTreat cprForwardLimit checkIdv1 ci ["v2"; "entities"; en_id e] (en_id e) sc [cer] rel) as (headers & ->); [done|done| | |].
  { unfold asked_attributes, option_on. rewrite Ha, Ho, Hv. rewrite !bool_decide_eq_false_2 by set_solver. exact Hm. }
  { unfold queries_pending. cbn [existsb qe_providers qe_attrs cer pruned length Nat.eqb negb orb]. rewrite orb_false_r. exact Hprov. }
  unfold get_entity_spec, entity_reply. cbn [length Nat.eqb andb negb]. rewrite Ha.
  assert (format_of ci = NGSI_V2_NORMALIZED) as -> by (unfold format_of, option_on; rewrite Ho, !bool_decide_eq_false_2 by set_solver; done).
  set (ee := entity_of true _).
  assert (en_attributeVector ee = copy <$> (copy <$> List.filter ca_found l)) as Hattrs.
  { unfold ee, entity_of, shown_cer, cer_left, attributes_left. cbn [cer_attrs cer_entity en_attributeVector]. by rewrite Hfmt. }
  rewrite <- Hattrs in Hleft. pose proof (same_views _ _ Hsame) as Hv1. pose proof (same_views _ _ Hleft) as Hv2.
  assert (Forall readable (en_attributeVector ee)) as Hre.
  { eapply same_readables; [exact Hleft|]. rewrite Hp. by eapply same_readables. }
  assert (printable isodate2str strptime_timegm (stringSplit "" ",").2 ee) as Hpr.
  { change (stringSplit "" ",").2 with (@nil string). split; rewrite ?(readable_shown _ Hre); try done.
    - change (en_type ee) with (or_default_type (en_type e)). unfold or_default_type.
      destruct (en_type e =s "") eqn:E; cbn [negb]; [by split|]. split; [done|by apply str_eqb_neq].
    - destruct (en_attributeVector ee); [by left|by right]. }
  assert (map view (en_attributeVector ee) ≡ₚ map view (en_attributeVector e)) as Hvp.
  { rewrite Hv2, <- Hv1. by apply Permutation_map. }
  assert (exact_entity isodate2str (stringSplit "" ",").2 ee) as Hx.
  { change (stringSplit "" ",").2 with (@nil string). split; rewrite ?(readable_shown _ Hre); [done| |by eapply exact_views].
    change (en_type ee) with (or_default_type (en_type e)). unfold or_default_type. by destruct (en_type e =s ""). }
  destruct (entity_json_read isodate2str memNumber memBool strptime_timegm _ _ Hpr) as (e' & Hread & Hi & Ht & Hvw).
  destruct (entity_json_text isodate2str strptime_timegm ee "" false Hpr Hx) as (text & Htext & Hj).
  exists text, (entity_json isodate2str NGSI_V2_NORMALIZED (stringSplit "" ",").2 ee), e', headers.
  rewrite Htext. cbn [mbind cpp_bind]. rewrite app_nil_r_str.
  split; [reflexivity|]. split; [exact Hj|]. split; [exact Hread|]. split; [by rewrite Hi|]. split; [by rewrite Ht|].
  rewrite Hvw. change (stringSplit "" ",").2 with (@nil string). by rewrite (readable_shown _ Hre).
Qed.

End Way.

(** ** A concrete entity *)

Definition posted_room : Entity := mkEntity "Room1" "" "" [
  mkContextAttribute "temp.in" "T" [mkMetadata "unit" "U" ValueTypeString "C" S754_nan false true] ValueTypeNumber "" (double_of_Z 21) false "" false false None true;
  mkContextAttribute "open" DEFAULT_TYPE [] ValueTypeBoolean "" S754_nan true "" false false None false] false true (mkErrorCode "OK" "").

Definition posted_doc : doc :=
  match createEntity (created_id posted_room) (created_attrs posted_room) 7 ["/"] "v2" with inr d => d | inl _ => [] end.
Definition posted_db (_ : doc) (_ : option doc) (_ _ : Z) : string + (Z * list fetched) := inr (1, [Fetched posted_doc]).

Lemma posted_room_presentable : presentable no_date_text (fun _ _ => None) posted_room.
Proof.
  split.
  - by split.
  - reflexivity.
  - cbn. apply NoDup_cons. split; [|apply NoDup_singleton]. by intros H%list_elem_of_singleton.
  - constructor; [|constructor; [|constructor]].
    + split; [split; [done|done|apply Forall_cons_2; [done|apply Forall_nil_2]|apply NoDup_singleton]|done|done|done|].
      apply Forall_cons_2; [by split_and!|apply Forall_nil_2].
    + split; [split; [done|done|apply Forall_nil_2|apply NoDup_nil_2]|done|done|done|apply Forall_nil_2].
  - constructor; [|constructor; [|constructor]].
    + split_and!; [done..| | |].
      * by right; left.
      * right; left. by split.
      * apply Forall_cons_2; [split_and!; [done..|left; by split]|apply Forall_nil_2].
    + split_and!; [done..| | |apply Forall_nil_2].
      * by right; right; left.
      * right; right. split; [by left|done].
Qed.

Lemma posted_room_exact : exact_posted no_date_text posted_room.
Proof.
  split; [reflexivity|reflexivity|]. apply Forall_cons. split; [vm_compute; reflexivity|].
  apply Forall_cons. split; [vm_compute; reflexivity|constructor].
Qed.

Lemma posted_shown_witness : exists text j e' headers,
  getEntity no_mem S754_nan (fun _ => true) (fun _ _ => true) empty_query true posted_db unregistered no_date_text "" true no_answer no_reader 10
    false (get_room ∅) ["v2"; "entities"; "Room1"] = Ret (mkAnswered text SccOk headers []) /\
  parse_json text = Some j /\
  parseEntity S754_nan false (fun _ _ => None) false "v2" (Some j) Entity_new false = Ret (inr e') /\ en_type e' = DEFAULT_TYPE.
Proof.
  destruct (posted_shown no_mem S754_nan S754_nan false (fun _ => true) (fun _ _ => true) empty_query true posted_db unregistered no_date_text
    (fun _ _ => None) "" true no_answer no_reader 10 false posted_room 7 ["/"] posted_doc (get_room ∅))
    as (text & j & e' & headers & H1 & H2 & H3 & _ & H4 & _).
  - exact posted_room_presentable.
  - exact posted_room_exact.
  - vm_compute. reflexivity.
  - split; vm_compute; reflexivity.
  - vm_compute. reflexivity.
  - eexists _, 1. split; [vm_compute; reflexivity|reflexivity].
  - intros enV attrL. left. reflexivity.
  - exists text, j, e', headers. split; [exact H1|]. split; [exact H2|]. split; [exact H3|exact H4].
Defined.

(** An entity with the number 1234567 is created, and shown with another number. *)
Definition posted_meter : Entity := mkEntity "Room1" "" "" [
  mkContextAttribute "count" "T" [] ValueTypeNumber "" (double_of_Z 1234567) false "" false false None true] false true (mkErrorCode "OK" "").
Definition meter_doc : doc :=
  match createEntity (created_id posted_meter) (created_attrs posted_meter) 7 ["/"] "v2" with inr d => d | inl _ => [] end.

Example posted_number_rounded :
  (r ← getEntity no_mem S754_nan (fun _ => true) (fun _ _ => true) empty_query true (fun _ _ _ _ => inr (1, [Fetched meter_doc])) unregistered
     no_date_text "" true no_answer no_reader 10 false (get_room ∅) ["v2"; "entities"; "Room1"];
   Ret (an_code r, parse_json (an_answer r)))
  = Ret (SccOk, Some (JObject [("id", JString "Room1"); ("type", JString DEFAULT_TYPE);
      ("count", JObject [("type", JString "T"); ("value", JNumber (double_of_Z 1234570)); ("metadata", JObject [])])])).
Proof. vm_compute. reflexivity. Qed.
