(* ===== verification/EntityTypes.v ===== *)
(** * Types of entities

    mongoBackend/mongoQueryTypes.cpp: the types of the entities in the database, with their
    attributes, the types of those and the number of entities; the routines around it
    (serviceRoutinesV2/getEntityAllTypes.cpp and getEntityType.cpp, serviceRoutines/
    getEntityTypes.cpp and getAttributesForEntityType.cpp), and what they print (orionTypes/).
    The commands for the database are the documents that the code builds; what it answers is
    a parameter, with the documented meaning of those commands as hypothesis. *)

From Stdlib Require Import Sorted.
From S2P Require Import Prelude Strings Double Bson Compound Ngsi AttrUpdate Location EntityDoc Registrations.
From S2P Require Import FilterParse FilterMatch Geo Queries EntityUpdate UpdateContext QueryContext TriggerDb Duration Json JsonText JsonEntity JsonSubscription Rest RenderV1 Forward EntityRequests QueryForward.

Open Scope Z_scope.

(** ** What is answered *)

(** orionTypes/EntityType.h, EntityTypeVectorResponse.h, EntityTypeResponse.h *)
Record EntityType := mkEntityType { et_type : string; et_attrs : list ContextAttribute; et_count : Z }.
Record EntityTypeVectorResponse := mkEntityTypeVectorResponse { tv_types : list EntityType; tv_statusCode : StatusCode }.
Record EntityTypeResponse := mkEntityTypeResponse { tr_entityType : EntityType; tr_statusCode : StatusCode }.

Definition is_null (v : option bson) : bool := match v with Some BsonNull => true | _ => false end.

(** BSONElement::str *)
Definition bson_str (v : bson) : string := match v with BsonString s => s | _ => "" end.

(** ** The commands *)

Definition S_ATTRNAMES : string := "$" +:+ ENT_ATTRNAMES.

(** The condition on the type in a query for the types of an attribute: the empty type is also that
    of the entities without type. *)
Definition attribute_types_query (sp : bson) (entityType attrName : string) : doc :=
  (if entityType =s ""
   then [("$or", BsonArray [BsonObj [(TYPE_FIELD, BsonString entityType)]; BsonObj [(TYPE_FIELD, not_exists)]])]
   else [(TYPE_FIELD, BsonString entityType)])
  ++ [(SERVICE_PATH_FIELD, sp); (ENT_ATTRNAMES, BsonString attrName)].

Definition count_query (sp : bson) (entityType : string) : doc :=
  [(TYPE_FIELD, BsonString entityType); (SERVICE_PATH_FIELD, sp)].

Definition aggregate (pipeline : list doc) : doc := [("aggregate", BsonString "entities"); ("pipeline", BsonArray (BsonObj <$> pipeline))].

Definition sort_by_id : doc := [("$sort", BsonObj [("_id", BsonInt 1)])].
Definition group_by_type (more : doc) : doc := [("$group", BsonObj ([("_id", BsonString ("$" +:+ TYPE_FIELD))] ++ more))].
Definition attrs_set : doc := [("attrs", BsonObj [("$addToSet", BsonString S_ATTRNAMES)])].

(** The command of mongoEntityTypesValues. *)
Definition values_command (sp : bson) : doc :=
  aggregate [[("$match", BsonObj [(SERVICE_PATH_FIELD, sp)])]; group_by_type []; sort_by_id].

(** That of mongoEntityTypes: an entity without attributes counts as one that has the attribute null. *)
Definition types_command (sp : bson) : doc :=
  aggregate [[("$match", BsonObj [(SERVICE_PATH_FIELD, sp)])];
             [("$project", BsonObj [("_id", BsonInt 1); (ENT_ATTRNAMES, BsonInt 1)])];
             [("$project", BsonObj [(ENT_ATTRNAMES, BsonObj [("$cond",
                BsonArray [BsonObj [("$eq", BsonArray [BsonString S_ATTRNAMES; BsonArray []])]; BsonArray [BsonNull]; BsonString S_ATTRNAMES])])])];
             [("$unwind", BsonString S_ATTRNAMES)];
             group_by_type attrs_set;
             sort_by_id].

(** That of mongoAttributesForEntityType. *)
Definition attributes_command (entityType : string) (sp : bson) : doc :=
  aggregate [[("$match", BsonObj [(TYPE_FIELD, BsonString entityType); (SERVICE_PATH_FIELD, sp)])];
             [("$project", BsonObj [("_id", BsonInt 1); (ENT_ATTRNAMES, BsonInt 1)])];
             [("$unwind", BsonString S_ATTRNAMES)];
             group_by_type attrs_set;
             [("$unwind", BsonString "$attrs")];
             [("$group", BsonObj [("_id", BsonString "$attrs")])];
             sort_by_id].

Definition uint32 (n : Z) : Z := n mod 2 ^ 32.

(** The items ix with offset <= ix < MIN(size, offset + limit), in unsigned ints. *)
Definition page_of {A} (l : list A) (offset limit : Z) : list A :=
  take (Z.to_nat (Z.min (Z.of_nat (length l)) (uint32 (offset + limit)) - offset)) (drop (Z.to_nat offset) l).

Section types.

Context (fromjson : string -> cpp doc).
(** runCommand with an error or the result; the documents of a cursor, None for a failure; count. *)
Context (runCollectionCommand : doc -> string + doc) (collectionQuery : doc -> option (list (option doc))) (collectionCount : doc -> option Z).
Context (memNumber : double) (memBool : bool).
Context (servicePathV : list string).

Abbreviation path_condition := (service_path_condition fromjson servicePathV).

(** The types of the attribute in a document: one for each stored name with that base part. *)
Fixpoint types_in_doc (attrs : doc) (attrName : string) (names : list string) : cpp (list string) :=
  match names with
  | [] => Ret []
  | currentAttr :: r =>
      if basePart currentAttr =s attrName
      then attr ← embeddedObject (getField attrs currentAttr); l ← types_in_doc attrs attrName r; Ret (getStringField attr ENT_ATTRS_TYPE :: l)
      else types_in_doc attrs attrName r
  end.

Fixpoint types_in_docs (cursor : list (option doc)) (attrName : string) : cpp (list string) :=
  match cursor with
  | [] => Ret []
  | None :: r => types_in_docs r attrName
  | Some d :: r =>
      attrs ← embeddedObject (getField d ENT_ATTRS);
      ts ← types_in_doc attrs attrName (getFieldNames attrs);
      l ← types_in_docs r attrName; Ret (ts ++ l)
  end.

Definition getAttributeTypes (entityType attrName : string) : cpp (list string) :=
  sp ← path_condition;
  match collectionQuery (attribute_types_query sp entityType attrName) with
  | None => Ret []
  | Some cursor => types_in_docs cursor attrName
  end.

Definition countEntities (entityType : string) : cpp Z :=
  sp ← path_condition; Ret (default (-1) (collectionCount (count_query sp entityType))).

(** *** mongoEntityTypesValues *)

(** The response and the total, 0 where it is not assigned. *)
Definition mongoEntityTypesValues (offsetText limitText : string) : cpp (EntityTypeVectorResponse * Z) :=
  let offset := uint32 (atoi (c_str offsetText)) in
  let limit := uint32 (atoi (c_str limitText)) in
  sp ← path_condition;
  match runCollectionCommand (values_command sp) with
  | inl err => Ret (mkEntityTypeVectorResponse [] (mkStatusCode SccReceiverInternalError err), 0)
  | inr result =>
      resultsArray ← Array (getField result "result");
      if (length resultsArray =? 0)%nat then Ret (mkEntityTypeVectorResponse [] (mkStatusCode SccOk ""), 0)
      else
        resultsArray ← (match resultsArray with
                        | r0 :: (r1 :: _) as rest =>
                            o0 ← embeddedObject (Some r0);
                            if is_null (getField o0 "_id")
                            then o1 ← embeddedObject (Some r1);
                                 Ret (if getStringField o1 "_id" =s "" then rest else resultsArray)
                            else Ret resultsArray
                        | _ => Ret resultsArray
                        end);
        items ← embedded_all (page_of resultsArray offset limit);
        Ret (mkEntityTypeVectorResponse
               (map (fun resultItem =>
                       mkEntityType (if is_null (getField resultItem "_id") then "" else getStringField resultItem "_id") [] 0) items)
               (mkStatusCode SccOk ""), Z.of_nat (length resultsArray))
  end.

(** *** mongoEntityTypes *)

Definition attributes_of (apiVersion name : string) (attrTypes : list string) : list ContextAttribute :=
  map (fun t => ContextAttribute_string name t "" true memNumber memBool)
    (if apiVersion =s "v1" then take 1 attrTypes else attrTypes).

(** The attributes of an item of the result: nulls are left out, but for a first one everything is. *)
Fixpoint attributes_found (apiVersion entityType : string) (attrsArray : list bson) : cpp (list ContextAttribute) :=
  match attrsArray with
  | [] => Ret []
  | a :: r =>
      if is_null (Some a) then attributes_found apiVersion entityType r
      else
        attrTypes ← getAttributeTypes entityType (bson_str a);
        l ← attributes_found apiVersion entityType r;
        Ret (attributes_of apiVersion (bson_str a) attrTypes ++ l)
  end.

Definition item_attributes (apiVersion entityType : string) (attrsArray : list bson) : cpp (list ContextAttribute) :=
  a0 ← vec_at attrsArray 0;
  if is_null (Some a0) then Ret [] else attributes_found apiVersion entityType attrsArray.

Definition nullId (resultItem : doc) : bool :=
  is_null (getField resultItem "") || is_null (getField resultItem "_id") || (getStringField resultItem "_id" =s "").

(** The count and the attributes that an item adds to a type. *)
Definition add_item (apiVersion : string) (resultItem : doc) (entityType : EntityType) : cpp EntityType :=
  attrsArray ← Array (getField resultItem "attrs");
  count ← countEntities (et_type entityType);
  cav ← item_attributes apiVersion (et_type entityType) attrsArray;
  Ret (mkEntityType (et_type entityType) (et_attrs entityType ++ cav) (et_count entityType + count)).

(** The loop; [emptyEntityType] collects the items without a type, with whether it is used. *)
Fixpoint types_loop (apiVersion : string) (items : list bson) (emptyEntityType : EntityType) (used : bool)
    : cpp (list EntityType * EntityType * bool) :=
  match items with
  | [] => Ret ([], emptyEntityType, used)
  | item :: r =>
      resultItem ← embeddedObject (Some item);
      if nullId resultItem
      then e ← add_item apiVersion resultItem emptyEntityType; types_loop apiVersion r e true
      else
        entityType ← add_item apiVersion resultItem (mkEntityType (getStringField resultItem "_id") [] 0);
        '(vec, e, used) ← types_loop apiVersion r emptyEntityType used;
        Ret (entityType :: vec, e, used)
  end.

Definition count_details (n : Z) : string := "Count: " +:+ show_Z n.

Definition mongoEntityTypes (offsetText limitText apiVersion : string) (totalTypesP : bool) : cpp (EntityTypeVectorResponse * Z) :=
  let offset := uint32 (atoi (c_str offsetText)) in
  let limit := uint32 (atoi (c_str limitText)) in
  sp ← path_condition;
  match runCollectionCommand (types_command sp) with
  | inl err => Ret (mkEntityTypeVectorResponse [] (mkStatusCode SccReceiverInternalError err), 0)
  | inr result =>
      resultsArray ← Array (getField result "result");
      if (length resultsArray =? 0)%nat then Ret (mkEntityTypeVectorResponse [] (mkStatusCode SccContextElementNotFound ""), 0)
      else
        let size := Z.of_nat (length resultsArray) in
        '(vec, e, used) ← types_loop apiVersion (page_of resultsArray offset limit) (mkEntityType "" [] 0) false;
        let vec := if (used : bool) then vec ++ [e] else vec in
        let statusCode :=
          if (0 <? length vec)%nat
          then mkStatusCode SccOk (if totalTypesP then count_details (int32 size) else "")
          else mkStatusCode SccContextElementNotFound
                 (if totalTypesP then "Number of types: " +:+ show_Z size +:+ ". Offset is " +:+ show_Z offset else "") in
        Ret (mkEntityTypeVectorResponse vec statusCode, if totalTypesP then uint32 size else 0)
  end.

(** *** mongoAttributesForEntityType *)

Fixpoint attributes_listed (apiVersion entityType : string) (items : list bson) : cpp (list ContextAttribute) :=
  match items with
  | [] => Ret []
  | item :: r =>
      resultItem ← embeddedObject (Some item);
      match getField resultItem "_id" with
      | None => attributes_listed apiVersion entityType r
      | Some idField =>
          attrTypes ← getAttributeTypes entityType (bson_str idField);
          l ← attributes_listed apiVersion entityType r;
          Ret (attributes_of apiVersion (bson_str idField) attrTypes ++ l)
      end
  end.

Definition mongoAttributesForEntityType (entityType offsetText limitText detailsText apiVersion : string) : cpp EntityTypeResponse :=
  let offset := uint32 (atoi (c_str offsetText)) in
  let limit := uint32 (atoi (c_str limitText)) in
  let count := (apiVersion =s "v1") && strcasecmp_eq "on" (c_str detailsText) in
  sp ← path_condition;
  match runCollectionCommand (attributes_command entityType sp) with
  | inl err => Ret (mkEntityTypeResponse (mkEntityType entityType [] 0) (mkStatusCode SccReceiverInternalError err))
  | inr result =>
      resultsArray ← Array (getField result "result");
      n ← countEntities entityType;
      if (length resultsArray =? 0)%nat
      then Ret (mkEntityTypeResponse (mkEntityType entityType [] n) (mkStatusCode SccContextElementNotFound ""))
      else
        let size := Z.of_nat (length resultsArray) in
        cav ← attributes_listed apiVersion entityType (page_of resultsArray offset limit);
        let statusCode :=
          if (0 <? length cav)%nat
          then mkStatusCode SccOk (if count then count_details (int32 size) else "")
          else mkStatusCode SccContextElementNotFound
                 (if count then "Number of attributes: " +:+ show_Z size +:+ ". Offset is " +:+ show_Z offset else "") in
        Ret (mkEntityTypeResponse (mkEntityType entityType cav n) statusCode)
  end.

(** ** What version 2 prints *)

(** The types of an attribute in the map that toJsonTypes builds, in order. *)
Definition types_named (name : string) (vec : list ContextAttribute) : list string :=
  foldr set_insert [] (ca_type <$> List.filter (fun ca => ca_name ca =s name) vec).

(** ContextAttributeVector::toJsonTypes *)
Definition toJsonTypes (vec : list ContextAttribute) : string :=
  join "," (map (fun name => quote name +:+ ":{" +:+ quote "types" +:+ ":[" +:+ join "," (map quote (types_named name vec)) +:+ "]}")
                (foldr set_insert [] (ca_name <$> vec))).

(** A number printed into countV, of STRING_SIZE_FOR_INT bytes. *)
Definition count_text (n : Z) : string := str_take 15 (show_Z n).

(** EntityType::toJson and EntityTypeResponse::toJson *)
Definition EntityType_toJson (et : EntityType) (includeType : bool) : string :=
  "{" +:+ (if includeType then JSON_VALUE "type" (et_type et) +:+ "," else "") +:+ quote "attrs" +:+ ":{" +:+ toJsonTypes (et_attrs et)
  +:+ "}," +:+ quote "count" +:+ ":" +:+ count_text (et_count et) +:+ "}".

(** EntityTypeVectorResponse::toJson *)
Definition EntityTypeVectorResponse_toJson (values : bool) (response : EntityTypeVectorResponse) : string :=
  "[" +:+ join "," (map (fun et => if values then quote (et_type et) else EntityType_toJson et true) (tv_types response)) +:+ "]".

(** *** The routines of version 2 *)

(** getEntityAllTypes: the text, and the headers it adds; the status of the connection stays. *)
Definition getEntityAllTypes (ci : ConnectionInfo) : cpp (string * list (string * string)) :=
  let count := option_on ci "count" in
  let values := option_on ci "values" in
  '(response, totalTypes) ←
    (if values
     then '(r, n) ← mongoEntityTypesValues (param ci "offset") (param ci "limit"); Ret (r, if count then n else 0)
     else mongoEntityTypes (param ci "offset") (param ci "limit") (apiVersion ci) count);
  Ret (EntityTypeVectorResponse_toJson values response,
       if count then [("Fiware-Total-Count", show_Z (int32 totalTypes))] else []).

(** getEntityType: the text and the status of the connection. *)
Definition getEntityType (ci : ConnectionInfo) (compV : list string) : cpp (string * Z) :=
  entityTypeName ← vec_at compV 2;
  response ← mongoAttributesForEntityType entityTypeName (param ci "offset") (param ci "limit") (param ci "details") (apiVersion ci);
  if et_count (tr_entityType response) =? 0
  then let '(text, _) := OrionError_render (OrionError_new SccContextElementNotFound "Entity type not found" "") (httpStatusCode ci) in
       Ret (text, SccContextElementNotFound)
  else Ret (EntityType_toJson (tr_entityType response) false, httpStatusCode ci).

End types.

(** ** What version 1 prints *)

Section render.

Context (isodate2str : double -> string) (apiVersion attributeFormat : string) (outJson : bool).

(** The kind of request only matters for the answers to updates. *)
Abbreviation attributes_render := (ContextAttributeVector_render isodate2str apiVersion attributeFormat outJson QueryContext).

(** EntityType::render *)
Definition EntityType_render (collapse : bool) (et : EntityType) (indent : string) (comma typeNameBefore : bool) : string :=
  if typeNameBefore && outJson
  then valueTag1 (indent +:+ "  ") "name" (et_type et) true false false
       +:+ attributes_render (et_attrs et) (indent +:+ "  ") true true true
  else
    startTag2 indent "type" false false
    +:+ (if collapse || (length (et_attrs et) =? 0)%nat then valueTag1 (indent +:+ "  ") "name" (et_type et) false false false
         else valueTag1 (indent +:+ "  ") "name" (et_type et) true false false
              +:+ attributes_render (et_attrs et) (indent +:+ "  ") false true true)
    +:+ endTag indent comma false true false.

(** EntityTypeVector::render *)
Definition EntityTypeVector_render (collapse : bool) (vec : list EntityType) (indent : string) (comma : bool) : string :=
  if (0 <? length vec)%nat
  then startTag2 indent "types" true true
       +:+ render_items (fun et comma => EntityType_render collapse et (indent +:+ "  ") comma false) vec
       +:+ endTag indent comma true true false
  else "".

(** EntityTypeVectorResponse::render and EntityTypeResponse::render *)
Definition EntityTypeVectorResponse_render (collapse : bool) (response : EntityTypeVectorResponse) (indent : string) : cpp string :=
  '(status, _) ← StatusCode_render "statusCode" (tv_statusCode response) (indent +:+ "  ") false true;
  Ret (startTag1 indent "entityTypesResponse" false false
       +:+ EntityTypeVector_render collapse (tv_types response) (indent +:+ "  ") true +:+ status +:+ endTag indent false false true false).

Definition EntityTypeResponse_render (collapse : bool) (response : EntityTypeResponse) (indent : string) : cpp string :=
  '(status, _) ← StatusCode_render "statusCode" (tr_statusCode response) (indent +:+ "  ") false true;
  Ret (startTag1 indent "entityTypeAttributesResponse" false false
       +:+ EntityType_render collapse (tr_entityType response) (indent +:+ "  ") true true +:+ status +:+ endTag indent false false true false).

(** *** The routines of version 1 *)

Context (fromjson : string -> cpp doc).
Context (runCollectionCommand : doc -> string + doc) (collectionQuery : doc -> option (list (option doc))) (collectionCount : doc -> option Z).
Context (memNumber : double) (memBool : bool) (servicePathV : list string).

(** getEntityTypes *)
Definition getEntityTypes (ci : ConnectionInfo) : cpp string :=
  '(response, _) ← mongoEntityTypes fromjson runCollectionCommand collectionQuery collectionCount memNumber memBool servicePathV
                     (param ci "offset") (param ci "limit") apiVersion (param ci "details" =s "on");
  EntityTypeVectorResponse_render (param ci "collapse" =s "true") response "".

(** getAttributesForEntityType *)
Definition getAttributesForEntityType (ci : ConnectionInfo) (compV : list string) : cpp string :=
  entityTypeName ← vec_at compV 2;
  response ← mongoAttributesForEntityType fromjson runCollectionCommand collectionQuery collectionCount memNumber memBool servicePathV
               entityTypeName (param ci "offset") (param ci "limit") (param ci "details") apiVersion;
  EntityTypeResponse_render (param ci "collapse" =s "true") response "".

End render.

(** ** The database that answers *)

(** The type of an entity, None when its document has none, and the names of its attributes. *)
Definition stored_type (d : doc) : option string :=
  match getField (getObjectField d "_id") ENT_ENTITY_TYPE with Some (BsonString s) => Some s | _ => None end.
Definition attr_names (d : doc) : list string :=
  match getField d ENT_ATTRNAMES with Some (BsonArray l) => omap (fun v => match v with BsonString s => Some s | _ => None end) l | _ => [] end.

(** What $unwind makes of the names: an entity without attributes has the name null. *)
Definition unwound (d : doc) : list (option string) := match attr_names d with [] => [None] | l => Some <$> l end.

(** Whether an entity has the type in the query for the types of an attribute. *)
Definition is_type (ty : string) (d : doc) : bool :=
  match stored_type d with Some s => s =s ty | None => ty =s "" end.
Definition has_type (ty : string) (d : doc) : bool := bool_decide (stored_type d = Some ty).
Definition has_attr_name (name : string) (d : doc) : bool := existsb (String.eqb name) (attr_names d).

Definition id_of (o : option string) : bson := match o with Some s => BsonString s | None => BsonNull end.

(** An item of the result: a type and the names of attributes. *)
Definition group : Type := option string * list (option string).
Definition group_doc (g : group) : doc := [("_id", id_of g.1); ("attrs", BsonArray (id_of <$> g.2))].

(** null is before every text. *)
Definition before (a b : option string) : Prop :=
  match a, b with None, Some _ => True | Some s, Some t => strcmp s t = Lt | _, None => False end.

Section database.

(** The entities under the service paths of the request. *)
Context (entities : list doc).

Definition entities_with (f : doc -> bool) : list doc := List.filter f entities.
Definition number_of (ty : string) : Z := Z.of_nat (length (entities_with (has_type ty))).

(** The groups that the aggregation makes: a group for each type, in order, each with the set of the
    names in no particular order. *)
Record aggregated (l : list group) : Prop := mkAggregated {
  ag_sorted : StronglySorted before l.*1;
  ag_types t : t ∈ l.*1 <-> exists d, d ∈ entities /\ stored_type d = t;
  ag_names t ns : (t, ns) ∈ l -> NoDup ns /\ forall n, n ∈ ns <-> exists d, d ∈ entities /\ stored_type d = t /\ n ∈ unwound d
}.

(** What the documentation of the database says of the commands of this file. *)
Record TypesDatabase (sp : bson) (run : doc -> string + doc) (query : doc -> option (list (option doc))) (count : doc -> option Z)
    (l : list group) : Prop := mkTypesDatabase {
  db_groups : aggregated l;
  db_types : run (types_command sp) = inr [("result", BsonArray (map (fun g => BsonObj (group_doc g)) l))];
  db_values : run (values_command sp) = inr [("result", BsonArray (map (fun g => BsonObj [("_id", id_of g.1)]) l))];
  db_query ty name : query (attribute_types_query sp ty name)
    = Some (Some <$> entities_with (fun d => is_type ty d && has_attr_name name d));
  db_count ty : count (count_query sp ty) = Some (number_of ty)
}.

(** A document with the attributes as objects. *)
Definition good_doc (d : doc) : Prop := exists attrs,
  getField d ENT_ATTRS = Some (BsonObj attrs) /\ forall k v, getField attrs k = Some v -> exists a, v = BsonObj a.

(** The types of an attribute in a document, one for each stored name that has it as base part. *)
Definition types_stored (name : string) (d : doc) : list string :=
  let attrs := getObjectField d ENT_ATTRS in
  map (fun k => getStringField (getObjectField attrs k) ENT_ATTRS_TYPE) (List.filter (fun k => basePart k =s name) (getFieldNames attrs)).

Definition types_told (ty name : string) : list string :=
  flat_map (types_stored name) (entities_with (fun d => is_type ty d && has_attr_name name d)).

End database.

(** ** Sets of texts *)

Lemma set_insert_elem s t l : t ∈ set_insert s l <-> t = s \/ t ∈ l.
Proof.
  induction l as [|u l IH]; cbn [set_insert]; [rewrite list_elem_of_singleton; split; [by left|by intros [?|?%elem_of_nil]]|].
  destruct (strcmp s u) eqn:E; rewrite ?elem_of_cons, ?IH; [|tauto|tauto]. apply strcmp_Eq in E as ->. tauto.
Qed.

Lemma set_elem t l : t ∈ foldr set_insert [] l <-> t ∈ l.
Proof. induction l as [|s l IH]; [done|]. cbn [foldr]. by rewrite set_insert_elem, elem_of_cons, IH. Qed.

(** ** What the loops compute *)

Section compute.

Context (fromjson : string -> cpp doc) (servicePathV : list string).
Context (run : doc -> string + doc) (query : doc -> option (list (option doc))) (count : doc -> option Z).
Context (memNumber : double) (memBool : bool) (apiVersion : string).
Context (entities : list doc) (sp : bson) (l : list group).
Context (path : service_path_condition fromjson servicePathV = Ret sp).
Context (db : TypesDatabase entities sp run query count l) (good : Forall good_doc entities).

Abbreviation attribute_types := (getAttributeTypes fromjson query servicePathV).
Abbreviation found := (attributes_found fromjson query memNumber memBool servicePathV apiVersion).
Abbreviation add := (add_item fromjson query count memNumber memBool servicePathV apiVersion).
Abbreviation loop := (types_loop fromjson query count memNumber memBool servicePathV apiVersion).

Lemma getFieldNames_elem o k : k ∈ getFieldNames o -> exists v, getField o k = Some v.
Proof.
  unfold getFieldNames. rewrite set_elem. induction o as [|[k' v] o IH]; cbn; [by intros ?%elem_of_nil|].
  intros [->|H]%elem_of_cons; [exists v; by rewrite str_eqb_refl|]. destruct (IH H) as [w Hw]. destruct (k' =s k); [by exists v|by exists w].
Qed.

Lemma types_in_doc_spec attrs name names : (forall k, k ∈ names -> exists a, getField attrs k = Some (BsonObj a)) ->
  types_in_doc attrs name names
  = Ret (map (fun k => getStringField (getObjectField attrs k) ENT_ATTRS_TYPE) (List.filter (fun k => basePart k =s name) names)).
Proof.
  induction names as [|k names IH]; intros H; [done|]. cbn [types_in_doc List.filter].
  rewrite IH by (intros k' Hk'; apply H, elem_of_cons; by right). destruct (basePart k =s name); [|done].
  destruct (H k) as [a Ha]; [apply elem_of_cons; by left|]. unfold getObjectField. cbn [map]. by rewrite Ha.
Qed.

Lemma types_in_docs_spec name docs : Forall good_doc docs ->
  types_in_docs (Some <$> docs) name = Ret (flat_map (types_stored name) docs).
Proof.
  induction 1 as [|d docs (attrs & Hd & Ha) _ IH]; [done|]. cbn [fmap list_fmap types_in_docs flat_map]. rewrite Hd. cbn [embeddedObject mbind cpp_bind].
  assert (forall k, k ∈ getFieldNames attrs -> exists a, getField attrs k = Some (BsonObj a)) as Hk.
  { intros k [v Hv]%getFieldNames_elem. destruct (Ha k v Hv) as [a ->]. by exists a. }
  rewrite (types_in_doc_spec attrs name _ Hk). cbn [mbind cpp_bind]. change (list_fmap _ _ Some docs) with (Some <$> docs). rewrite IH. cbn [mbind cpp_bind]. f_equal. f_equal. unfold types_stored.
  assert (getObjectField d ENT_ATTRS = attrs) as -> by (unfold getObjectField; by rewrite Hd). done.
Qed.

Lemma filter_good f : Forall good_doc (entities_with entities f).
Proof. apply Forall_forall. intros d Hd. apply list_elem_of_In, filter_In in Hd as [Hd _]. rewrite Forall_forall in good. by apply good, list_elem_of_In. Qed.

Lemma attribute_types_spec ty name : attribute_types ty name = Ret (types_told entities ty name).
Proof. unfold getAttributeTypes. rewrite path. cbn [mbind cpp_bind]. rewrite (db_query _ _ _ _ _ _ db). by rewrite types_in_docs_spec by apply filter_good. Qed.

Definition attrs_told (ty : string) (ns : list (option string)) : list ContextAttribute :=
  flat_map (fun n => match n with
                     | Some name => attributes_of memNumber memBool apiVersion name (types_told entities ty name)
                     | None => []
                     end) ns.

(** Nothing when the first name is null. *)
Definition item_told (ty : string) (ns : list (option string)) : list ContextAttribute :=
  match ns with None :: _ => [] | _ => attrs_told ty ns end.

Lemma attributes_found_spec ty ns : found ty (id_of <$> ns) = Ret (attrs_told ty ns).
Proof.
  induction ns as [|[n|] ns IH]; [done| |exact IH]. cbn [fmap list_fmap attributes_found id_of is_null bson_str].
  rewrite attribute_types_spec. cbn [mbind cpp_bind]. change (list_fmap _ _ id_of ns) with (id_of <$> ns). by rewrite IH.
Qed.

Lemma add_item_spec g et : g.2 <> [] -> add (group_doc g) et
  = Ret (mkEntityType (et_type et) (et_attrs et ++ item_told (et_type et) g.2) (et_count et + number_of entities (et_type et))).
Proof.
  destruct g as [t ns]. cbn [snd]. intros Hns. unfold add_item, countEntities. rewrite path.
  change (Array (getField (group_doc (t, ns)) "attrs")) with (Ret (id_of <$> ns)). cbn [mbind cpp_bind].
  rewrite (db_count _ _ _ _ _ _ db). unfold item_attributes. destruct ns as [|[n|] ns]; [done| |done].
  change (vec_at (id_of <$> Some n :: ns) 0) with (Ret (BsonString n)). cbn [mbind cpp_bind is_null]. by rewrite attributes_found_spec.
Qed.

(** *** The loop over a page *)

(** A group without a type, or with the empty one. *)
Definition unnamed (g : group) : bool := match g.1 with Some s => s =s "" | None => true end.

Definition named_type (g : group) : EntityType :=
  let ty := default "" g.1 in mkEntityType ty (item_told ty g.2) (number_of entities ty).

(** What the groups without a type add to the empty type. *)
Definition collected (e : EntityType) (gs : list group) : EntityType :=
  mkEntityType (et_type e) (et_attrs e ++ flat_map (fun g => item_told (et_type e) g.2) gs)
    (et_count e + Z.of_nat (length gs) * number_of entities (et_type e)).

Lemma nullId_group g : nullId (group_doc g) = unnamed g.
Proof. by destruct g as [[s|] ns]. Qed.

Lemma types_loop_spec page e used : Forall (fun g => g.2 <> []) page ->
  loop (map (fun g => BsonObj (group_doc g)) page) e used
  = Ret (map named_type (List.filter (fun g => negb (unnamed g)) page), collected e (List.filter unnamed page),
         used || existsb unnamed page).
Proof.
  intros H. revert e used. induction H as [|g page Hg _ IH]; intros e used.
  - cbn [map List.filter existsb types_loop]. rewrite orb_false_r. unfold collected. cbn. rewrite app_nil_r, Z.add_0_r. by destruct e.
  - cbn [map types_loop List.filter existsb]. cbn [embeddedObject mbind cpp_bind]. rewrite nullId_group.
    destruct (unnamed g) eqn:Eu; cbn [negb].
    + rewrite add_item_spec by done. cbn [mbind cpp_bind]. rewrite IH. rewrite orb_true_r. cbn [orb]. do 2 f_equal. f_equal.
      unfold collected. cbn [et_type et_attrs et_count flat_map length]. rewrite <- app_assoc. f_equal. lia.
    + rewrite add_item_spec by done. cbn [mbind cpp_bind]. rewrite IH. cbn [mbind cpp_bind map orb]. do 3 f_equal.
      destruct g as [[s|] ns]; [|done]. done.
Qed.

(** *** A page of types *)

Lemma page_of_map {A B} (f : A -> B) (xs : list A) offset limit : page_of (map f xs) offset limit = map f (page_of xs offset limit).
Proof. unfold page_of. by rewrite length_map, skipn_map, firstn_map. Qed.

Lemma page_of_sub {A} (xs : list A) offset limit x : x ∈ page_of xs offset limit -> x ∈ xs.
Proof.
  unfold page_of. intros H. eapply list_elem_of_In. rewrite <- (take_drop (Z.to_nat offset) xs). apply in_or_app. right. apply list_elem_of_In.
  rewrite <- (take_drop (Z.to_nat (Z.min (Z.of_nat (length xs)) (uint32 (offset + limit)) - offset)) (drop (Z.to_nat offset) xs)).
  apply elem_of_app. by left.
Qed.

Lemma group_names g : g ∈ l -> g.2 <> [].
Proof.
  destruct g as [t ns]. intros Hg Hns. cbn in Hns. subst ns. destruct (ag_names _ _ (db_groups _ _ _ _ _ _ db) t [] Hg) as [_ Hn].
  assert (t ∈ l.*1) as Ht by (apply list_elem_of_fmap; by exists (t, [])). apply (ag_types _ _ (db_groups _ _ _ _ _ _ db)) in Ht as (d & Hd & Ht).
  assert (exists n, n ∈ unwound d) as [n Hu].
  { unfold unwound. destruct (attr_names d) as [|n ns]; [exists None|exists (Some n)]; apply elem_of_cons; by left. }
  assert (n ∈ []) as []%elem_of_nil. apply Hn. by exists d.
Qed.

(** The types that are listed: those of the page with a name, and the empty one at the end. *)
Definition types_listed (page : list group) : list EntityType :=
  map named_type (List.filter (fun g => negb (unnamed g)) page)
  ++ (if existsb unnamed page then [collected (mkEntityType "" [] 0) (List.filter unnamed page)] else []).

Definition page (offsetText limitText : string) : list group := page_of l (uint32 (atoi (c_str offsetText))) (uint32 (atoi (c_str limitText))).

Lemma mongoEntityTypes_listed offsetText limitText totalTypesP : exists response total,
  mongoEntityTypes fromjson run query count memNumber memBool servicePathV offsetText limitText apiVersion totalTypesP = Ret (response, total) /\
  tv_types response = types_listed (page offsetText limitText) /\
  sc_code (tv_statusCode response) = (if (0 <? length (types_listed (page offsetText limitText)))%nat then SccOk else SccContextElementNotFound) /\
  (totalTypesP = true -> total = uint32 (Z.of_nat (length l))).
Proof.
  unfold mongoEntityTypes. rewrite path. cbn [mbind cpp_bind]. rewrite (db_types _ _ _ _ _ _ db).
  change (Array (getField [("result", BsonArray (map (fun g => BsonObj (group_doc g)) l))] "result"))
    with (Ret (map (fun g => BsonObj (group_doc g)) l)). cbn [mbind cpp_bind]. rewrite length_map.
  destruct (length l =? 0)%nat eqn:El.
  - apply Nat.eqb_eq, length_zero_iff_nil in El. eexists _, _. split; [reflexivity|]. unfold page. rewrite El. unfold page_of. cbn [length].
    rewrite drop_nil, take_nil. done.
  - rewrite page_of_map, types_loop_spec.
    2: { apply Forall_forall. intros g Hg%page_of_sub. by apply group_names. }
    cbn [mbind cpp_bind orb]. eexists _, _. split; [reflexivity|]. cbn [tv_types tv_statusCode]. fold (page offsetText limitText).
    assert ((if existsb unnamed (page offsetText limitText)
             then map named_type (List.filter (fun g => negb (unnamed g)) (page offsetText limitText))
                  ++ [collected (mkEntityType "" [] 0) (List.filter unnamed (page offsetText limitText))]
             else map named_type (List.filter (fun g => negb (unnamed g)) (page offsetText limitText)))
            = types_listed (page offsetText limitText)) as ->.
    { unfold types_listed. destruct (existsb _ _); [done|by rewrite app_nil_r]. }
    split; [done|]. split; [by destruct (0 <? _)%nat|]. by intros ->.
Qed.

(** The attributes of a type, with the types they are told to have. *)
Definition pairs (cav : list ContextAttribute) : list (string * string) := map (fun ca => (ca_name ca, ca_type ca)) cav.

Lemma pairs_told ty ns name t : (apiVersion =s "v1") = false ->
  (name, t) ∈ pairs (attrs_told ty ns) <-> Some name ∈ ns /\ t ∈ types_told entities ty name.
Proof.
  intros Hapi. unfold pairs, attrs_told. rewrite list_elem_of_In, in_map_iff. split.
  - intros (ca & [= <- <-] & Hca). apply in_flat_map in Hca as ([n|] & Hn & Hca); [|done]. unfold attributes_of in Hca. rewrite Hapi in Hca.
    apply in_map_iff in Hca as (t' & <- & Ht'). cbn. split; by apply list_elem_of_In.
  - intros [Hn Ht]. exists (ContextAttribute_string name t "" true memNumber memBool). split; [done|]. apply in_flat_map.
    exists (Some name). split; [by apply list_elem_of_In|]. unfold attributes_of. rewrite Hapi. apply in_map_iff. exists t. split; [done|].
    by apply list_elem_of_In.
Qed.

Lemma types_told_elem ty name t : t ∈ types_told entities ty name <->
  exists d, d ∈ entities /\ is_type ty d = true /\ name ∈ attr_names d /\ t ∈ types_stored name d.
Proof.
  unfold types_told. rewrite list_elem_of_In, in_flat_map. split.
  - intros (d & Hd & Ht). apply filter_In in Hd as [Hd [H1 H2]%andb_true_iff]. exists d. rewrite !list_elem_of_In. split; [done|]. split; [done|].
    split; [|done]. apply existsb_exists in H2 as (n & Hn & E). apply String.eqb_eq in E as <-. done.
  - intros (d & Hd & H1 & H2 & Ht). exists d. rewrite !list_elem_of_In in *. split; [|done]. apply filter_In. split; [done|].
    rewrite H1. cbn [andb]. apply existsb_exists. exists name. split; [done|]. apply String.eqb_refl.
Qed.

Lemma pairs_item ty ns name t : (apiVersion =s "v1") = false ->
  (name, t) ∈ pairs (item_told ty ns) <-> head ns <> Some None /\ Some name ∈ ns /\ t ∈ types_told entities ty name.
Proof.
  intros Hapi. destruct ns as [|[n|] ns]; cbn [item_told head]; rewrite ?pairs_told by done; [split; [by intros []|tauto]|split; [by intros []|tauto]|].
  split; [by intros ?%elem_of_nil|by intros []].
Qed.

Lemma named_attributes ty ns name t : (apiVersion =s "v1") = false -> ty <> "" -> (Some ty, ns) ∈ l ->
  (name, t) ∈ pairs (item_told ty ns) <-> head ns <> Some None /\
  exists d, d ∈ entities /\ stored_type d = Some ty /\ name ∈ attr_names d /\ t ∈ types_stored name d.
Proof.
  intros Hapi Hty Hg. rewrite pairs_item, types_told_elem by done. destruct (ag_names _ _ (db_groups _ _ _ _ _ _ db) _ _ Hg) as [_ Hns].
  assert (forall d, is_type ty d = true <-> stored_type d = Some ty) as His.
  { intros d. unfold is_type. destruct (stored_type d) as [s|]; [rewrite str_eqb_eq; split; [by intros ->|by intros [= ->]]|].
    rewrite str_eqb_eq. by split. }
  split.
  - intros (Hh & Hn & d & Hd & H1%His & H2 & H3). split; [done|]. by exists d.
  - intros (Hh & d & Hd & H1 & H2 & H3). split; [done|]. split.
    + apply Hns. exists d. split; [done|]. split; [done|]. unfold unwound. destruct (attr_names d) as [|n ns'] eqn:En; [by apply elem_of_nil in H2|].
      apply list_elem_of_fmap. by exists name.
    + exists d. by rewrite His.
Qed.

Lemma listed_elem (pg : list group) et : et ∈ types_listed pg ->
  (exists ty ns, (Some ty, ns) ∈ pg /\ ty <> "" /\ et = named_type (Some ty, ns)) \/
  et = collected (mkEntityType "" [] 0) (List.filter unnamed pg).
Proof.
  unfold types_listed. rewrite elem_of_app. intros [H|H].
  - left. apply list_elem_of_In, in_map_iff in H as ([o ns] & <- & Hg). apply filter_In in Hg as [Hg Hu].
    unfold unnamed in Hu. cbn [fst] in Hu. destruct o as [ty|]; [|done]. exists ty, ns. rewrite list_elem_of_In. split; [done|]. split; [|done].
    by intros ->.
  - right. destruct (existsb _ _); [|by apply elem_of_nil in H]. by apply list_elem_of_singleton in H.
Qed.

Lemma listed_types (pg : list group) :
  map et_type (types_listed pg) = map (fun g => default "" g.1) (List.filter (fun g => negb (unnamed g)) pg) ++ (if existsb unnamed pg then [""] else []).
Proof. unfold types_listed. rewrite map_app, map_map. by destruct (existsb _ _). Qed.

(** What is told of the types of a page, in version 2: their number of entities, and the attributes
    of those with the types that are stored, unless the first name of the group is null, as may be
    when an entity has no attributes. *)
Definition told (pg : list group) (et : EntityType) : Prop :=
  (et_type et <> "" -> et_count et = number_of entities (et_type et) /\ exists ns, (Some (et_type et), ns) ∈ pg /\
     forall name t, (name, t) ∈ pairs (et_attrs et) <-> head ns <> Some None /\
       exists d, d ∈ entities /\ stored_type d = Some (et_type et) /\ name ∈ attr_names d /\ t ∈ types_stored name d) /\
  (et_type et = "" -> et_count et = Z.of_nat (length (List.filter unnamed pg)) * number_of entities "").

Lemma listed_told pg : (apiVersion =s "v1") = false -> (forall g, g ∈ pg -> g ∈ l) -> Forall (told pg) (types_listed pg).
Proof.
  intros Hapi Hpg. apply Forall_forall. intros et [(ty & ns & Hg & Hty & ->)| ->]%listed_elem.
  - split; [|by intros ?]. intros _. split; [done|]. exists ns. split; [done|]. intros name t. cbn [named_type et_type et_attrs fst snd default].
    apply named_attributes; [done|done|by apply Hpg].
  - split; [done|]. intros _. unfold collected. cbn. lia.
Qed.

End compute.

(** ** The text of version 2 *)

Lemma show_N_go_length k : forall f n acc, (n < 10 ^ N.of_nat (S k))%N -> (String.length (show_N_go f n acc) <= S k + String.length acc)%nat.
Proof.
  induction k as [|k IH]; intros f n acc Hn; (destruct f as [|f]; [cbn; lia|]); cbn [show_N_go].
  - assert ((n <? 10)%N = true) as -> by (apply N.ltb_lt; exact Hn). cbn. lia.
  - destruct (n <? 10)%N; [cbn; lia|]. etrans; [apply IH|cbn; lia].
    apply N.Div0.div_lt_upper_bound. rewrite Nat2N.inj_succ, N.pow_succ_r' in Hn. exact Hn.
Qed.

Lemma count_text_shown n : 0 <= n < 10 ^ 15 -> count_text n = show_Z n.
Proof.
  intros Hn. apply str_take_all. unfold show_Z. assert ((n <? 0) = false) as -> by lia. unfold show_N.
  etrans; [apply (show_N_go_length 14)|cbn; lia]. apply N2Z.inj_lt. rewrite Z2N.id by lia. exact (proj2 Hn).
Qed.

Lemma plain_json s : plain s -> toJsonString s = quote s.
Proof.
  unfold plain, toJsonString, quote. intros H. do 2 f_equal. induction s as [|c s IH]; [done|]. rewrite str_all_cons, andb_true_iff in H.
  destruct H as [Hc Hs]. cbn [json_chars]. rewrite (IH Hs). assert (json_char c = str1 c) as ->; [|done]. by destruct c as [[] [] [] [] [] [] [] []].
Qed.

Definition attributes_tree (vec : list ContextAttribute) : jtree :=
  JObj (map (fun name => (name, JObj [("types", JArr (map JStr (types_named name vec)))])) (foldr set_insert [] (ca_name <$> vec))).

Definition type_tree (et : EntityType) (includeType : bool) : jtree :=
  JObj ((if includeType then [("type", JStr (et_type et))] else []) ++ [("attrs", attributes_tree (et_attrs et)); ("count", JInt (et_count et))]).

(** What the object of an attribute holds: the types told of it, each once. *)
Lemma types_named_elem name t vec : t ∈ types_named name vec <-> (name, t) ∈ pairs vec.
Proof.
  unfold types_named, pairs. rewrite set_elem, list_elem_of_fmap. split.
  - intros (ca & -> & Hca). apply list_elem_of_In, filter_In in Hca as [Hca <-%str_eqb_eq]. apply list_elem_of_fmap. by exists ca; rewrite list_elem_of_In.
  - intros Hp. apply list_elem_of_fmap in Hp as (ca & [= -> ->] & Hca). exists ca. split; [done|]. apply list_elem_of_In, filter_In.
    rewrite <- list_elem_of_In. split; [done|]. apply str_eqb_refl.
Qed.

Record plain_type (et : EntityType) : Prop := mkPlainType {
  pt_type : plain (et_type et);
  pt_pairs name t : (name, t) ∈ pairs (et_attrs et) -> plain name /\ plain t;
  pt_count : 0 <= et_count et < 10 ^ 15
}.

Lemma toJsonTypes_text vec : (forall name t, (name, t) ∈ pairs vec -> plain name /\ plain t) ->
  "{" +:+ toJsonTypes vec +:+ "}" = tree_text (attributes_tree vec).
Proof.
  intros H. unfold toJsonTypes, attributes_tree. cbn [tree_text]. rewrite map_map. do 3 f_equal. apply map_ext_in. intros name Hn%list_elem_of_In.
  rewrite set_elem in Hn. apply list_elem_of_fmap in Hn as (ca & -> & Hca).
  assert (plain (ca_name ca)) as Hp by (apply (H (ca_name ca) (ca_type ca)), list_elem_of_fmap; by exists ca).
  cbn [fst snd map tree_text join]. rewrite (plain_json _ Hp). change (toJsonString "types") with (quote "types"). rewrite map_map, !app_assoc_str.
  assert (map quote (types_named (ca_name ca) vec) = map (fun x => tree_text (JStr x)) (types_named (ca_name ca) vec)) as ->; [|done].
  apply map_ext_in. intros t Ht%list_elem_of_In%types_named_elem. cbn [tree_text]. symmetry. by apply plain_json, (H _ _ Ht).
Qed.

Lemma EntityType_text et includeType : plain_type et -> EntityType_toJson et includeType = tree_text (type_tree et includeType).
Proof.
  intros [Ht Hp Hc]. unfold EntityType_toJson, type_tree. pose proof (toJsonTypes_text _ Hp) as Ha. rewrite (count_text_shown _ Hc).
  destruct includeType; cbn [app tree_text map fst snd join]; rewrite <- Ha, ?(plain_json _ Ht);
    change (toJsonString "attrs") with (quote "attrs"); change (toJsonString "count") with (quote "count");
    change (toJsonString "type") with (quote "type"); unfold JSON_VALUE; by rewrite !app_assoc_str.
Qed.

Lemma sound_attributes vec : sound (attributes_tree vec) = true.
Proof.
  cbn [sound attributes_tree]. apply forallb_forall. intros kv (name & <- & _)%in_map_iff. cbn [snd sound forallb]. rewrite andb_true_r.
  apply forallb_forall. by intros t (s & <- & _)%in_map_iff.
Qed.

Lemma sound_type et includeType : sound (type_tree et includeType) = true.
Proof.
  unfold type_tree. destruct includeType; cbn [app sound forallb snd fst]; rewrite sound_attributes; cbn [andb]; by rewrite sound_JInt.
Qed.

Lemma types_text values response : Forall plain_type (tv_types response) ->
  read_json (EntityTypeVectorResponse_toJson values response)
  = Some (JArr (map (fun et => if (values : bool) then JStr (et_type et) else type_tree et true) (tv_types response))).
Proof.
  intros H. rewrite <- read_json_text.
  - f_equal. unfold EntityTypeVectorResponse_toJson. cbn [tree_text]. rewrite map_map. do 3 f_equal. apply map_ext_in. intros et Het%list_elem_of_In.
    rewrite Forall_forall in H. specialize (H et Het). destruct values; [cbn [tree_text]; symmetry; apply plain_json, H|by apply EntityType_text].
  - cbn [sound]. apply forallb_forall. intros t (et & <- & _)%in_map_iff. destruct values; [done|apply sound_type].
Qed.

(** ** The routine of version 2 *)

(** A document whose type, attribute names and types can be printed as they are. *)
Record plain_doc (d : doc) : Prop := mkPlainDoc {
  pd_type s : stored_type d = Some s -> plain s;
  pd_names n : n ∈ attr_names d -> plain n;
  pd_types n t : n ∈ attr_names d -> t ∈ types_stored n d -> plain t
}.

Lemma aggregated_NoDup entities l : aggregated entities l -> NoDup l.*1.
Proof.
  intros [Hs _ _]. induction Hs as [|a m Hm IH Ha]; [constructor|]. constructor; [|done]. intros Hin. rewrite Forall_forall in Ha.
  specialize (Ha a Hin). destruct a as [a|]; [|done]. cbn in Ha. by rewrite strcmp_refl in Ha.
Qed.

Lemma unnamed_two (gs : list group) : NoDup gs.*1 -> (length (List.filter unnamed gs) <= 2)%nat.
Proof.
  intros H. assert (length (List.filter unnamed gs) = length (List.filter unnamed gs).*1) as -> by (by rewrite length_fmap). etrans; [apply (NoDup_incl_length (l' := [None; Some ""]))|done].
  - apply NoDup_ListNoDup. clear -H. induction gs as [|g gs IH]; [constructor|]. cbn in H. apply NoDup_cons in H as [Hg H]. cbn [List.filter].
    destruct (unnamed g); [|by apply IH]. cbn. constructor; [|by apply IH]. intros Hin. apply Hg. apply list_elem_of_fmap in Hin as (g' & -> & Hg').
    apply list_elem_of_In, filter_In in Hg' as [Hg' _]. apply list_elem_of_fmap. exists g'. by rewrite list_elem_of_In.
  - intros o Ho. apply list_elem_of_In, list_elem_of_fmap in Ho as (g & -> & Hg). apply list_elem_of_In, filter_In in Hg as [_ Hu].
    destruct g as [[s|] ns]; [|by left]. cbn in Hu. apply str_eqb_eq in Hu as ->. right. by left.
Qed.

Section shows.

Context (fromjson : string -> cpp doc) (servicePathV : list string).
Context (run : doc -> string + doc) (query : doc -> option (list (option doc))) (count : doc -> option Z).
Context (memNumber : double) (memBool : bool).
Context (entities : list doc) (sp : bson) (l : list group).

Abbreviation all_types := (getEntityAllTypes fromjson run query count memNumber memBool servicePathV).

Lemma page_unnamed offset limit : NoDup l.*1 -> (length (List.filter unnamed (page_of l offset limit)) <= 2)%nat.
Proof.
  intros H. apply unnamed_two. unfold page_of. rewrite fmap_take, fmap_drop.
  rewrite <- (take_drop (Z.to_nat offset) l.*1) in H. apply NoDup_app in H as (_ & _ & H).
  rewrite <- (take_drop (Z.to_nat (Z.min (Z.of_nat (length l)) (uint32 (offset + limit)) - offset))) in H. by apply NoDup_app in H as (H & _).
Qed.

Lemma number_small ty : Z.of_nat (length entities) < 10 ^ 14 -> 0 <= number_of entities ty < 10 ^ 14.
Proof. unfold number_of, entities_with. intros H. pose proof (filter_length_le (has_type ty) entities). lia. Qed.

Lemma filter_named_plain ty name t : Forall plain_doc entities ->
  (exists d, d ∈ entities /\ is_type ty d = true /\ name ∈ attr_names d /\ t ∈ types_stored name d) -> plain name /\ plain t.
Proof. rewrite Forall_forall. intros H (d & Hd & _ & Hn & Ht). destruct (H d Hd) as [_ H2 H3]. split; [by apply H2|by eapply H3]. Qed.

Lemma item_plain apiVersion ty ns name t : (apiVersion =s "v1") = false -> Forall plain_doc entities ->
  (name, t) ∈ pairs (item_told memNumber memBool apiVersion entities ty ns) -> plain name /\ plain t.
Proof.
  intros Hapi Hp. rewrite pairs_item by done. intros (_ & _ & Ht). apply types_told_elem in Ht. by eapply filter_named_plain.
Qed.

(** GET /v2/types shows the types of the page with the number of their entities and, as objects, the
    attributes that entities of the type have, each with the types it has in them. *)
Theorem getEntityAllTypes_shows ci : service_path_condition fromjson servicePathV = Ret sp ->
  TypesDatabase entities sp run query count l -> Forall good_doc entities -> Forall plain_doc entities ->
  Z.of_nat (length entities) < 10 ^ 14 -> (apiVersion ci =s "v1") = false -> option_on ci "values" = false ->
  let pg := page l (param ci "offset") (param ci "limit") in exists text types,
  all_types ci = Ret (text, if option_on ci "count" then [("Fiware-Total-Count", show_Z (int32 (uint32 (Z.of_nat (length l)))))] else []) /\
  read_json text = Some (JArr (map (fun et => type_tree et true) types)) /\
  map et_type types = map (fun g => default "" g.1) (List.filter (fun g => negb (unnamed g)) pg) ++ (if existsb unnamed pg then [""] else []) /\
  Forall (told entities pg) types.
Proof.
  intros Hpath db Hgood Hplain Hsize Hapi Hv pg.
  destruct (mongoEntityTypes_listed fromjson servicePathV run query count memNumber memBool (apiVersion ci) entities sp l Hpath db Hgood
    (param ci "offset") (param ci "limit") (option_on ci "count")) as (response & total & Hm & Ht & _ & Htotal). fold pg in Ht.
  exists (EntityTypeVectorResponse_toJson false response), (tv_types response). rewrite Ht.
  assert (forall g, g ∈ pg -> g ∈ l) as Hpg by (intros g; apply page_of_sub).
  pose proof (listed_told run query count memNumber memBool (apiVersion ci) entities sp l db pg Hapi Hpg) as Htold.
  split; [|split; [|split; [apply listed_types|done]]].
  - unfold getEntityAllTypes. rewrite Hv, Hm. cbn [mbind cpp_bind]. destruct (option_on ci "count"); [by rewrite Htotal|done].
  - rewrite (types_text false); [by rewrite Ht|]. rewrite Ht. apply Forall_forall. intros et Het. pose proof Het as Het'.
    apply listed_elem in Het' as [(ty & ns & Hg & Hty & ->)| ->].
    + split; [|intros name t; by apply (item_plain (apiVersion ci) ty ns name t)|].
      * cbn. assert (Some ty ∈ l.*1) as Hin by (apply list_elem_of_fmap; exists (Some ty, ns); split; [done|by apply Hpg]).
        apply (ag_types _ _ (db_groups _ _ _ _ _ _ db)) in Hin as (d & Hd & Hs). rewrite Forall_forall in Hplain. by apply (pd_type d (Hplain d Hd)).
      * cbn. pose proof (number_small ty Hsize). lia.
    + split; [done| |].
      * cbn. intros name t Hp. unfold pairs in Hp. apply list_elem_of_In, in_map_iff in Hp as (ca & [= <- <-] & Hca).
        apply in_flat_map in Hca as (g & _ & Hca). apply (item_plain (apiVersion ci) "" g.2 _ _ Hapi Hplain). apply list_elem_of_In, in_map_iff. by exists ca.
      * cbn. pose proof (number_small "" Hsize).
        pose proof (page_unnamed (uint32 (atoi (c_str (param ci "offset")))) (uint32 (atoi (c_str (param ci "limit"))))
          (aggregated_NoDup _ _ (db_groups _ _ _ _ _ _ db))) as Htwo. fold (page l (param ci "offset") (param ci "limit")) pg in Htwo. nia.
Qed.

(** *** Types alone *)

Definition id_doc (g : group) : bson := BsonObj [("_id", id_of g.1)].

(** The groups that are left when null is taken for the empty type after it. *)
Definition merged (l : list group) : list group := match l with (None, _) :: ((Some "", _) :: _) as rest => rest | _ => l end.

Lemma merged_docs : l <> [] ->
  (match map id_doc l with
   | r0 :: (r1 :: _) as rest =>
       o0 ← embeddedObject (Some r0);
       if is_null (getField o0 "_id")
       then o1 ← embeddedObject (Some r1); Ret (if getStringField o1 "_id" =s "" then rest else map id_doc l)
       else Ret (map id_doc l)
   | _ => Ret (map id_doc l)
   end) = Ret (map id_doc (match l with
                           | (None, _) :: ((o, _) :: _) as rest => if default "" o =s "" then rest else l
                           | _ => l
                           end)).
Proof.
  intros _. destruct l as [|[[s|] ns] [|[[s'|] ns'] rest]]; try done. cbn. by destruct (s' =s "").
Qed.

Lemma merged_default : aggregated entities l ->
  (match l with (None, _) :: ((o, _) :: _) as rest => if default "" o =s "" then rest else l | _ => l end) = merged l.
Proof.
  intros H%aggregated_NoDup. destruct l as [|[[s|] ns] [|[[s'|] ns'] rest]]; try done.
  - cbn [default]. destruct (s' =s "") eqn:E; [by apply str_eqb_eq in E as ->|]. by destruct s'.
  - cbn in H. apply NoDup_cons in H as [H _]. by destruct H; apply elem_of_cons; left.
Qed.

Lemma merged_spec : aggregated entities l -> NoDup (map (fun g => default "" g.1) (merged l)) /\
  forall ty, ty ∈ map (fun g => default "" g.1) (merged l) <-> exists d, d ∈ entities /\ default "" (stored_type d) = ty.
Proof.
  intros H. pose proof (aggregated_NoDup _ _ H) as Hnd. destruct H as [Hs Ht _].
  assert (forall ty, (exists d, d ∈ entities /\ default "" (stored_type d) = ty) <-> exists o, o ∈ l.*1 /\ default "" o = ty) as Hty.
  { intros ty. split; [intros (d & Hd & E); exists (stored_type d); split; [apply Ht; by exists d|done]|].
    intros (o & (d & Hd & E)%Ht & Ho). exists d. by rewrite E. }
  assert (forall gs : list group, NoDup gs.*1 -> None ∉ gs.*1 \/ Some "" ∉ gs.*1 -> NoDup (map (fun g => default "" g.1) gs)) as Hmap.
  { intros gs Hgs Hno. replace (map (fun g => default "" g.1) gs) with (default "" <$> gs.*1) by (unfold fmap at 2; by rewrite <- list_fmap_compose).
    apply NoDup_fmap_2_strong; [|done]. intros [x|] [y|] Hx Hy E; cbn in E; subst; try done; destruct Hno; done. }
  assert (forall gs : list group, forall ty, ty ∈ map (fun g => default "" g.1) gs <-> exists o, o ∈ gs.*1 /\ default "" o = ty) as Hel.
  { intros gs ty. rewrite list_elem_of_In, in_map_iff. split.
    - intros (g & <- & Hg). exists g.1. split; [|done]. apply list_elem_of_fmap. exists g. by rewrite list_elem_of_In.
    - intros (o & Ho & <-). apply list_elem_of_fmap in Ho as (g & -> & Hg). exists g. by rewrite <- list_elem_of_In. }
  assert (merged l = l /\ (None ∉ l.*1 \/ Some "" ∉ l.*1) \/ exists ns ns' rest, l = (None, ns) :: (Some "", ns') :: rest) as [[-> Hno]|(ns & ns' & rest & ->)].
  { destruct l as [|[[s|] ns] rest]; [left; split; [done|left; by intros ?%elem_of_nil]| |].
    - left. split; [done|]. left. intros [?|Hin]%elem_of_cons; [done|]. cbn in Hs. apply StronglySorted_inv in Hs as [_ Hs]. rewrite Forall_forall in Hs.
      by apply Hs in Hin.
    - destruct rest as [|[[s'|] ns'] rest].
      + left. split; [done|]. right. intros [?|?%elem_of_nil]%elem_of_cons; done.
      + destruct s' as [|c s']; [right; by exists ns, ns', rest|]. left. split; [done|]. right. cbn in Hs.
        intros [?|[?|Hin]%elem_of_cons]%elem_of_cons; [done|done|]. apply StronglySorted_inv in Hs as [Hs _]. apply StronglySorted_inv in Hs as [_ Hs].
        rewrite Forall_forall in Hs. by apply Hs in Hin.
      + cbn in Hnd. apply NoDup_cons in Hnd as [Hnd _]. destruct Hnd. apply elem_of_cons. by left. }
  - split; [by apply Hmap|]. intros ty. by rewrite Hel, Hty.
  - cbn [merged]. cbn in Hnd. apply NoDup_cons in Hnd as [Hnone Hnd]. split; [by apply Hmap; [|left]|]. intros ty. rewrite Hel, Hty. split.
    + intros (o & Ho & E). exists o. split; [|done]. apply elem_of_cons. by right.
    + intros (o & Ho & E). cbn in Ho. apply elem_of_cons in Ho as [->|Ho]; [|by exists o]. exists (Some ""). split; [|done]. apply elem_of_cons. by left.
Qed.

(** With options=values the types alone are shown, each once, the entities without type under the
    empty type, and the total is the number of types. *)
Theorem getEntityAllTypes_values ci : service_path_condition fromjson servicePathV = Ret sp ->
  TypesDatabase entities sp run query count l -> Forall plain_doc entities -> option_on ci "values" = true -> exists text types,
  all_types ci = Ret (text, if option_on ci "count" then [("Fiware-Total-Count", show_Z (int32 (Z.of_nat (length types))))] else []) /\
  read_json text = Some (JArr (map JStr (page_of types (uint32 (atoi (c_str (param ci "offset")))) (uint32 (atoi (c_str (param ci "limit"))))))) /\
  NoDup types /\ forall ty, ty ∈ types <-> exists d, d ∈ entities /\ default "" (stored_type d) = ty.
Proof.
  intros Hpath db Hplain Hv. set (off := uint32 (atoi (c_str (param ci "offset")))). set (lim := uint32 (atoi (c_str (param ci "limit")))).
  destruct (merged_spec (db_groups _ _ _ _ _ _ db)) as [Hnd Hel]. set (types := map (fun g => default "" g.1) (merged l)) in *.
  assert (forall ty, ty ∈ types -> plain ty) as Hp.
  { intros ty (d & Hd & <-)%Hel. rewrite Forall_forall in Hplain. destruct (stored_type d) eqn:E; [by apply (pd_type d (Hplain d Hd))|done]. }
  assert (exists response, mongoEntityTypesValues fromjson run servicePathV (param ci "offset") (param ci "limit")
    = Ret (response, Z.of_nat (length types)) /\ tv_types response = map (fun ty => mkEntityType ty [] 0) (page_of types off lim)) as (response & Hm & Ht).
  { unfold mongoEntityTypesValues. rewrite Hpath. cbn [mbind cpp_bind]. rewrite (db_values _ _ _ _ _ _ db).
    change (Array (getField [("result", BsonArray (map (fun g => BsonObj [("_id", id_of g.1)]) l))] "result")) with (Ret (map id_doc l)).
    cbn [mbind cpp_bind]. rewrite length_map. fold off lim. destruct (length l =? 0)%nat eqn:El.
    - apply Nat.eqb_eq, length_zero_iff_nil in El. unfold types. rewrite El. eexists. split; [reflexivity|]. cbn [merged map]. unfold page_of. by rewrite drop_nil, take_nil.
    - rewrite merged_docs, merged_default by (try apply (db_groups _ _ _ _ _ _ db); by intros E; rewrite E in El).
      cbn [mbind cpp_bind]. rewrite page_of_map.
      assert (forall gs : list group, embedded_all (map id_doc gs) = Ret (map (fun g => [("_id", id_of g.1)]) gs)) as ->.
      { intros gs. induction gs as [|g gs IH]; [done|]. cbn [map embedded_all id_doc embeddedObject mbind cpp_bind]. by rewrite IH. }
      cbn [mbind cpp_bind]. eexists. split; [unfold types; rewrite !length_map; reflexivity|]. cbn [tv_types]. unfold types.
      rewrite page_of_map, !map_map. apply map_ext. by intros [[s|] ns]. }
  exists (EntityTypeVectorResponse_toJson true response), types. split; [|split; [|done]].
  - unfold getEntityAllTypes. rewrite Hv, Hm. cbn [mbind cpp_bind]. by destruct (option_on ci "count").
  - rewrite (types_text true); rewrite Ht; [by rewrite map_map|]. apply Forall_forall. intros et Het. apply list_elem_of_In, in_map_iff in Het as (ty & <- & Hty).
    split; [|by intros ? ? ?%elem_of_nil|cbn; lia]. cbn. apply Hp. eapply page_of_sub, list_elem_of_In, Hty.
Qed.

End shows.

(** ** A concrete database *)

Definition room (id : string) (type : doc) (names : list string) (attrs : doc) : doc :=
  [("_id", BsonObj ([("id", BsonString id)] ++ type ++ [("servicePath", BsonString "/")]));
   (ENT_ATTRNAMES, BsonArray (BsonString <$> names)); (ENT_ATTRS, BsonObj attrs)].
Definition of_type (s : string) : doc := [(ENT_ENTITY_TYPE, BsonString s)].
Definition attribute_of_type (s : string) : bson := BsonObj [(ENT_ATTRS_TYPE, BsonString s)].

(** The database that answers with these groups and entities. *)
Definition told_run (l : list group) (command : doc) : string + doc :=
  match getField command "pipeline" with
  | Some (BsonArray p) =>
      inr [("result", BsonArray (map (fun g => if (length p =? 6)%nat then BsonObj (group_doc g) else BsonObj [("_id", id_of g.1)]) l))]
  | _ => inl "no pipeline"
  end.
Definition told_query (entities : list doc) (q : doc) : option (list (option doc)) :=
  Some (Some <$> entities_with entities (fun d => is_type (getStringField q TYPE_FIELD) d && has_attr_name (getStringField q ENT_ATTRNAMES) d)).
Definition told_count (entities : list doc) (q : doc) : option Z := Some (number_of entities (getStringField q TYPE_FIELD)).

Lemma told_database entities sp l : aggregated entities l -> TypesDatabase entities sp (told_run l) (told_query entities) (told_count entities) l.
Proof.
  intros H. split; [done|reflexivity|reflexivity| |by intros ty].
  intros ty name. unfold attribute_types_query. destruct (ty =s "") eqn:E; [|done]. by apply str_eqb_eq in E as ->.
Qed.

(** Two rooms, one without attributes, and an entity without a type. *)
Definition rooms : list doc :=
  [room "a" (of_type "Room") ["t"] [("t", attribute_of_type "Number")]; room "b" (of_type "Room") [] [];
   room "c" [] ["t"] [("t", attribute_of_type "Text")]].
Definition rooms_groups : list group := [(None, [Some "t"]); (Some "Room", [Some "t"; None])].

Lemma rooms_aggregated : aggregated rooms rooms_groups.
Proof.
  split.
  - repeat constructor.
  - intros t. cbn. rewrite !elem_of_cons, elem_of_nil. split.
    + intros [->|[->|[]]]; [exists (room "c" [] ["t"] [("t", attribute_of_type "Text")])|
        exists (room "a" (of_type "Room") ["t"] [("t", attribute_of_type "Number")])]; unfold rooms; rewrite !elem_of_cons; auto.
    + unfold rooms. intros (d & Hd & <-). rewrite !elem_of_cons, elem_of_nil in Hd. destruct Hd as [->|[->|[->|[]]]]; cbn; auto.
  - intros t ns Hin. unfold rooms_groups in Hin. rewrite !elem_of_cons, elem_of_nil in Hin. destruct Hin as [[= -> ->]|[[= -> ->]|[]]].
    + split; [apply NoDup_singleton|]. intros n. rewrite list_elem_of_singleton. split.
      * intros ->. exists (room "c" [] ["t"] [("t", attribute_of_type "Text")]). unfold rooms. rewrite !elem_of_cons. cbn. rewrite elem_of_cons. auto.
      * unfold rooms. intros (d & Hd & Ht & Hn). rewrite !elem_of_cons, elem_of_nil in Hd. destruct Hd as [->|[->|[->|[]]]]; try done.
        by apply list_elem_of_singleton in Hn.
    + split; [by apply NoDup_cons; split; [intros H%list_elem_of_singleton|apply NoDup_singleton]|]. intros n. rewrite !elem_of_cons, elem_of_nil. split.
      * intros [->|[->|[]]]; [exists (room "a" (of_type "Room") ["t"] [("t", attribute_of_type "Number")])|exists (room "b" (of_type "Room") [] [])];
          unfold rooms; rewrite !elem_of_cons; cbn; rewrite elem_of_cons; auto.
      * unfold rooms. intros (d & Hd & Ht & Hn). rewrite !elem_of_cons, elem_of_nil in Hd. destruct Hd as [->|[->|[->|[]]]]; try done;
          apply list_elem_of_singleton in Hn; auto.
Qed.

Lemma rooms_good : Forall good_doc rooms /\ Forall plain_doc rooms.
Proof.
  assert (forall id type names attrs, (forall k v, getField attrs k = Some v -> exists a, v = BsonObj a) -> good_doc (room id type names attrs)) as Hg.
  { intros id type names attrs H. by exists attrs. }
  assert (forall k0 t k v, getField [(k0, attribute_of_type t)] k = Some v -> exists a, v = BsonObj a) as H1.
  { intros k0 t k v. cbn. destruct (k0 =s k); [|done]. intros [= <-]. by eexists. }
  assert (forall id type names attrs, (forall s, stored_type (room id type names attrs) = Some s -> plain s) ->
    Forall (fun n => plain n /\ Forall plain (types_stored n (room id type names attrs))) names -> plain_doc (room id type names attrs)) as Hp.
  { intros id type names attrs Ht Hn.
    assert (attr_names (room id type names attrs) = names) as E.
    { unfold attr_names, room. cbn. clear. induction names as [|n l IH]; [done|]. cbn. by rewrite IH. }
    rewrite Forall_forall in Hn. split; [done| |]; rewrite E; [intros n Hin; by apply Hn|].
    intros n t Hin Ht'. destruct (Hn n Hin) as [_ H]. rewrite Forall_forall in H. by apply H. }
  split.
  - apply Forall_cons. split; [apply Hg, H1|]. apply Forall_cons. split; [by apply Hg|]. apply Forall_cons. split; [apply Hg, H1|constructor].
  - apply Forall_cons. split; [apply Hp; [intros s [= <-]; reflexivity|]|].
    { apply Forall_cons. split; [|constructor]. split; [reflexivity|]. vm_compute types_stored. apply Forall_cons. by split. }
    apply Forall_cons. split; [apply Hp; [intros s [= <-]; reflexivity|constructor]|].
    apply Forall_cons. split; [apply Hp; [by intros s|]|constructor].
    apply Forall_cons. split; [|constructor]. split; [reflexivity|]. vm_compute types_stored. apply Forall_cons. by split.
Qed.

Definition types_request (options : gset string) : ConnectionInfo := set_param "limit" "20" (set_param "offset" "0" (v2_ci GET ["/"] options)).
Abbreviation rooms_types l ci :=
  (getEntityAllTypes empty_query (told_run l) (told_query rooms) (told_count rooms) zero false ["/"] ci).

Lemma getEntityAllTypes_shows_witness : exists text types,
  rooms_types rooms_groups (types_request {["count"]}) = Ret (text, [("Fiware-Total-Count", "2")]) /\
  read_json text = Some (JArr (map (fun et => type_tree et true) types)) /\ map et_type types = ["Room"; ""].
Proof.
  destruct (getEntityAllTypes_shows empty_query ["/"] (told_run rooms_groups) (told_query rooms) (told_count rooms) zero false rooms (BsonObj [])
    rooms_groups (types_request {["count"]})) as (text & types & H1 & H2 & H3 & _).
  - vm_compute. reflexivity.
  - apply told_database, rooms_aggregated.
  - apply rooms_good.
  - apply rooms_good.
  - vm_compute. reflexivity.
  - vm_compute. reflexivity.
  - vm_compute. reflexivity.
  - exists text, types. split; [exact H1|]. split; [exact H2|]. exact H3.
Defined.

Lemma getEntityAllTypes_values_witness : exists text types,
  rooms_types rooms_groups (types_request {["values"]}) = Ret (text, []) /\
  NoDup types /\ forall ty, ty ∈ types <-> exists d, d ∈ rooms /\ default "" (stored_type d) = ty.
Proof.
  destruct (getEntityAllTypes_values empty_query ["/"] (told_run rooms_groups) (told_query rooms) (told_count rooms) zero false rooms (BsonObj [])
    rooms_groups (types_request {["values"]})) as (text & types & H1 & _ & H2 & H3).
  - vm_compute. reflexivity.
  - apply told_database, rooms_aggregated.
  - apply rooms_good.
  - vm_compute. reflexivity.
  - exists text, types. split; [exact H1|]. split; [exact H2|]. exact H3.
Defined.

(** What the request for all types shows, as names, attributes with types, and counts. *)
Definition summary (l : list group) : cpp (list (string * list (string * string) * Z)) :=
  '(r, _) ← mongoEntityTypes empty_query (told_run l) (told_query rooms) (told_count rooms) zero false ["/"] "0" "20" "v2" false;
  Ret (map (fun et => (et_type et, pairs (et_attrs et), et_count et)) (tv_types r)).

(** The database gives a set in any order: when null comes first, the attributes of the type are
    not shown.  The count of the entities without a type is that of the empty type, 0 here. *)
Example null_first_hides :
  summary rooms_groups = Ret [("Room", [("t", "Number")], 2); ("", [("t", "Text")], 0)] /\
  summary [(None, [Some "t"]); (Some "Room", [None; Some "t"])] = Ret [("Room", [], 2); ("", [("t", "Text")], 0)].
Proof. split; vm_compute; reflexivity. Qed.

(** Entities without a type and entities of the empty type are two groups, and what is told of
    the empty type is counted, and its attributes listed, for both. *)
Example empty_type_twice :
  let entities := [room "a" [] ["t"] [("t", attribute_of_type "Text")]; room "b" (of_type "") ["t"] [("t", attribute_of_type "Text")]] in
  ('(r, _) ← mongoEntityTypes empty_query (told_run [(None, [Some "t"]); (Some "", [Some "t"])]) (told_query entities) (told_count entities)
     zero false ["/"] "0" "20" "v2" false;
   Ret (map (fun et => (et_type et, length (et_attrs et), et_count et)) (tv_types r))) = Ret [("", 4%nat, 2)].
Proof. vm_compute. reflexivity. Qed.

(** An attribute whose name has a dot is stored with "=" for it, and no type of it is found: it is not shown. *)
Example dotted_not_shown :
  let entities := [room "a" (of_type "Room") ["t.in"] [("t=in", attribute_of_type "Number")]] in
  ('(r, _) ← mongoEntityTypes empty_query (told_run [(Some "Room", [Some "t.in"])]) (told_query entities) (told_count entities)
     zero false ["/"] "0" "20" "v2" false;
   Ret (map (fun et => (et_type et, et_attrs et, et_count et)) (tv_types r))) = Ret [("Room", [], 1)].
Proof. vm_compute. reflexivity. Qed.

(** The text of a request for all types. *)
Example rooms_shown : 
  (r ← rooms_types rooms_groups (types_request ∅); Ret (read_json r.1))
  = Ret (Some (JArr [JObj [("type", JStr "Room"); ("attrs", JObj [("t", JObj [("types", JArr [JStr "Number"])])]); ("count", JInt 2)];
                     JObj [("type", JStr ""); ("attrs", JObj [("t", JObj [("types", JArr [JStr "Text"])])]); ("count", JInt 0)]])).
Proof. vm_compute. reflexivity. Qed.
