(* ===== verification/ServiceTable.v ===== *)
(** * The table of services

    restServiceV of app/contextBroker/contextBroker.cpp, macro by macro: a row says the verb, the
    type of the request, the components of the URL ("*" for any), the first word of the payload
    and the routine.  A routine is the name of its function.  A broker that is built with DEBUG
    serves EXIT_REQUESTS and LEAK_REQUESTS also. *)

From S2P Require Import Prelude.

(** RestService (rest/RestService.h); compV has ten elements, those after [rs_compV] are empty. *)
Record RestService := mkRestService {
  rs_verb : string;
  rs_request : string;
  rs_components : nat;
  rs_compV : list string;
  rs_payloadWord : string;
  rs_treat : string
}.

(** A row; a macro *_COMPS stands for two members. *)
Definition service (verb request : string) (comps : nat * list string) (payloadWord treat : string) : RestService :=
  mkRestService verb request comps.1 comps.2 payloadWord treat.

(** ** Requests, components and payload words *)

Definition EPS : string := "EntryPointsRequest".
Definition EPS_COMPS_V2 : nat * list string := (1%nat, ["v2"]).
Definition ENT : string := "EntitiesRequest".
Definition ENT_COMPS_V2 : nat * list string := (2%nat, ["v2"; "entities"]).
Definition ENT_COMPS_WORD : string := "".
Definition IENT : string := "EntityRequest".
Definition IENT_COMPS_V2 : nat * list string := (3%nat, ["v2"; "entities"; "*"]).
Definition IENT_COMPS_WORD : string := "".
Definition IENTOA : string := "EntityRequest".
Definition IENTOA_COMPS_V2 : nat * list string := (4%nat, ["v2"; "entities"; "*"; "attrs"]).
Definition IENTOA_COMPS_WORD : string := "".
Definition IENTATTR : string := "EntityAttributeRequest".
Definition IENTATTR_COMPS_V2 : nat * list string := (5%nat, ["v2"; "entities"; "*"; "attrs"; "*"]).
Definition IENTATTR_COMPS_WORD : string := "".
Definition ENTT : string := "EntityTypeRequest".
Definition ENTT_COMPS_V2 : nat * list string := (3%nat, ["v2"; "types"; "*"]).
Definition ENTT_COMPS_WORD : string := "".
Definition IENTATTRVAL : string := "EntityAttributeValueRequest".
Definition IENTATTRVAL_COMPS_V2 : nat * list string := (6%nat, ["v2"; "entities"; "*"; "attrs"; "*"; "value"]).
Definition IENTATTRVAL_COMPS_WORD : string := "".
Definition ETT : string := "EntityAllTypesRequest".
Definition ETT_COMPS_V2 : nat * list string := (2%nat, ["v2"; "types"]).
Definition ETT_COMPS_WORD : string := "".
Definition SSR : string := "SubscriptionsRequest".
Definition SSR_COMPS_V2 : nat * list string := (2%nat, ["v2"; "subscriptions"]).
Definition SSR_COMPS_WORD : string := "".
Definition ISR : string := "IndividualSubscriptionRequest".
Definition ISR_COMPS_V2 : nat * list string := (3%nat, ["v2"; "subscriptions"; "*"]).
Definition ISR_COMPS_WORD : string := "".
Definition BQR : string := "BatchQueryRequest".
Definition BQR_COMPS_V2 : nat * list string := (3%nat, ["v2"; "op"; "query"]).
Definition BQR_COMPS_WORD : string := "".
Definition BUR : string := "BatchUpdateRequest".
Definition BUR_COMPS_V2 : nat * list string := (3%nat, ["v2"; "op"; "update"]).
Definition BUR_COMPS_WORD : string := "".
Definition RCR : string := "RegisterContext".
Definition DCAR : string := "DiscoverContextAvailability".
Definition SCAR : string := "SubscribeContextAvailability".
Definition UCAR : string := "UnsubscribeContextAvailability".
Definition UCAS : string := "UpdateContextAvailabilitySubscription".
Definition NCAR : string := "NotifyContextAvailability".
Definition RCR_COMPS_V0 : nat * list string := (2%nat, ["ngsi9"; "registerContext"]).
Definition RCR_COMPS_V1 : nat * list string := (3%nat, ["v1"; "registry"; "registerContext"]).
Definition RCR_POST_WORD : string := "registerContextRequest".
Definition DCAR_COMPS_V0 : nat * list string := (2%nat, ["ngsi9"; "discoverContextAvailability"]).
Definition DCAR_COMPS_V1 : nat * list string := (3%nat, ["v1"; "registry"; "discoverContextAvailability"]).
Definition DCAR_POST_WORD : string := "discoverContextAvailabilityRequest".
Definition SCAR_COMPS_V0 : nat * list string := (2%nat, ["ngsi9"; "subscribeContextAvailability"]).
Definition SCAR_COMPS_V1 : nat * list string := (3%nat, ["v1"; "registry"; "subscribeContextAvailability"]).
Definition SCAR_POST_WORD : string := "subscribeContextAvailabilityRequest".
Definition UCAR_COMPS_V0 : nat * list string := (2%nat, ["ngsi9"; "unsubscribeContextAvailability"]).
Definition UCAR_COMPS_V1 : nat * list string := (3%nat, ["v1"; "registry"; "unsubscribeContextAvailability"]).
Definition UCAR_POST_WORD : string := "unsubscribeContextAvailabilityRequest".
Definition UCAS_COMPS_V0 : nat * list string := (2%nat, ["ngsi9"; "updateContextAvailabilitySubscription"]).
Definition UCAS_COMPS_V1 : nat * list string := (3%nat, ["v1"; "registry"; "updateContextAvailabilitySubscription"]).
Definition UCAS_POST_WORD : string := "updateContextAvailabilitySubscriptionRequest".
Definition NCAR_COMPS_V0 : nat * list string := (2%nat, ["ngsi9"; "notifyContextAvailability"]).
Definition NCAR_COMPS_V1 : nat * list string := (3%nat, ["v1"; "registry"; "notifyContextAvailability"]).
Definition NCAR_POST_WORD : string := "notifyContextAvailabilityRequest".
Definition UPCR : string := "UpdateContext".
Definition QCR : string := "QueryContext".
Definition SCR : string := "SubscribeContext".
Definition UCSR : string := "UpdateContextSubscription".
Definition UNCR : string := "UnsubscribeContext".
Definition NCR : string := "NotifyContext".
Definition UPCR_COMPS_V0 : nat * list string := (2%nat, ["ngsi10"; "updateContext"]).
Definition UPCR_COMPS_V1 : nat * list string := (2%nat, ["v1"; "updateContext"]).
Definition UPCR_POST_WORD : string := "updateContextRequest".
Definition QCR_COMPS_V0 : nat * list string := (2%nat, ["ngsi10"; "queryContext"]).
Definition QCR_COMPS_V1 : nat * list string := (2%nat, ["v1"; "queryContext"]).
Definition QCR_POST_WORD : string := "queryContextRequest".
Definition SCR_COMPS_V0 : nat * list string := (2%nat, ["ngsi10"; "subscribeContext"]).
Definition SCR_COMPS_V1 : nat * list string := (2%nat, ["v1"; "subscribeContext"]).
Definition SCR_POST_WORD : string := "subscribeContextRequest".
Definition UCSR_COMPS_V0 : nat * list string := (2%nat, ["ngsi10"; "updateContextSubscription"]).
Definition UCSR_COMPS_V1 : nat * list string := (2%nat, ["v1"; "updateContextSubscription"]).
Definition UCSR_POST_WORD : string := "updateContextSubscriptionRequest".
Definition UNCR_COMPS_V0 : nat * list string := (2%nat, ["ngsi10"; "unsubscribeContext"]).
Definition UNCR_COMPS_V1 : nat * list string := (2%nat, ["v1"; "unsubscribeContext"]).
Definition UNCR_POST_WORD : string := "unsubscribeContextRequest".
Definition NCR_COMPS_V0 : nat * list string := (2%nat, ["ngsi10"; "notifyContext"]).
Definition NCR_COMPS_V1 : nat * list string := (2%nat, ["v1"; "notifyContext"]).
Definition NCR_POST_WORD : string := "notifyContextRequest".
Definition CE : string := "ContextEntitiesByEntityId".
Definition CE_COMPS_V0 : nat * list string := (3%nat, ["ngsi9"; "contextEntities"; "*"]).
Definition CE_COMPS_V1 : nat * list string := (4%nat, ["v1"; "registry"; "contextEntities"; "*"]).
Definition CE_POST_WORD : string := "registerProviderRequest".
Definition CEA : string := "ContextEntityAttributes".
Definition CEA_COMPS_V0 : nat * list string := (4%nat, ["ngsi9"; "contextEntities"; "*"; "attributes"]).
Definition CEA_COMPS_V1 : nat * list string := (5%nat, ["v1"; "registry"; "contextEntities"; "*"; "attributes"]).
Definition CEA_POST_WORD : string := "registerProviderRequest".
Definition CEAA : string := "EntityByIdAttributeByName".
Definition CEAA_COMPS_V0 : nat * list string := (5%nat, ["ngsi9"; "contextEntities"; "*"; "attributes"; "*"]).
Definition CEAA_COMPS_V1 : nat * list string := (6%nat, ["v1"; "registry"; "contextEntities"; "*"; "attributes"; "*"]).
Definition CEAA_POST_WORD : string := "registerProviderRequest".
Definition CT : string := "ContextEntityTypes".
Definition CT_COMPS_V0 : nat * list string := (3%nat, ["ngsi9"; "contextEntityTypes"; "*"]).
Definition CT_COMPS_V1 : nat * list string := (4%nat, ["v1"; "registry"; "contextEntityTypes"; "*"]).
Definition CT_POST_WORD : string := "registerProviderRequest".
Definition CTA : string := "ContextEntityTypeAttributeContainer".
Definition CTA_COMPS_V0 : nat * list string := (4%nat, ["ngsi9"; "contextEntityTypes"; "*"; "attributes"]).
Definition CTA_COMPS_V1 : nat * list string := (5%nat, ["v1"; "registry"; "contextEntityTypes"; "*"; "attributes"]).
Definition CTA_POST_WORD : string := "registerProviderRequest".
Definition CTAA : string := "ContextEntityTypeAttribute".
Definition CTAA_COMPS_V0 : nat * list string := (5%nat, ["ngsi9"; "contextEntityTypes"; "*"; "attributes"; "*"]).
Definition CTAA_COMPS_V1 : nat * list string := (6%nat, ["v1"; "registry"; "contextEntityTypes"; "*"; "attributes"; "*"]).
Definition CTAA_POST_WORD : string := "registerProviderRequest".
Definition SCA : string := "SubscribeContextAvailability".
Definition SCA_COMPS_V0 : nat * list string := (2%nat, ["ngsi9"; "contextAvailabilitySubscriptions"]).
Definition SCA_COMPS_V1 : nat * list string := (3%nat, ["v1"; "registry"; "contextAvailabilitySubscriptions"]).
Definition SCA_POST_WORD : string := "subscribeContextAvailabilityRequest".
Definition SCAS : string := "Ngsi9SubscriptionsConvOp".
Definition SCAS_COMPS_V0 : nat * list string := (3%nat, ["ngsi9"; "contextAvailabilitySubscriptions"; "*"]).
Definition SCAS_COMPS_V1 : nat * list string := (4%nat, ["v1"; "registry"; "contextAvailabilitySubscriptions"; "*"]).
Definition SCAS_PUT_WORD : string := "updateContextAvailabilitySubscriptionRequest".
Definition ICE : string := "IndividualContextEntity".
Definition ICE_COMPS_V0 : nat * list string := (3%nat, ["ngsi10"; "contextEntities"; "*"]).
Definition ICE_COMPS_V1 : nat * list string := (3%nat, ["v1"; "contextEntities"; "*"]).
Definition ICE_POST_WORD : string := "appendContextElementRequest".
Definition ICE_PUT_WORD : string := "updateContextElementRequest".
Definition ICEA : string := "IndividualContextEntityAttributes".
Definition ICEA_COMPS_V0 : nat * list string := (4%nat, ["ngsi10"; "contextEntities"; "*"; "attributes"]).
Definition ICEA_COMPS_V1 : nat * list string := (4%nat, ["v1"; "contextEntities"; "*"; "attributes"]).
Definition ICEA_POST_WORD : string := "appendContextElementRequest".
Definition ICEA_PUT_WORD : string := "updateContextElementRequest".
Definition ICEAA : string := "IndividualContextEntityAttribute".
Definition ICEAA_COMPS_V0 : nat * list string := (5%nat, ["ngsi10"; "contextEntities"; "*"; "attributes"; "*"]).
Definition ICEAA_COMPS_V1 : nat * list string := (5%nat, ["v1"; "contextEntities"; "*"; "attributes"; "*"]).
Definition ICEAA_POST_WORD : string := "updateContextAttributeRequest".
Definition ICEAA_PUT_WORD : string := "updateContextAttributeRequest".
Definition AVI : string := "AttributeValueInstance".
Definition AVI_COMPS_V0 : nat * list string := (6%nat, ["ngsi10"; "contextEntities"; "*"; "attributes"; "*"; "*"]).
Definition AVI_COMPS_V1 : nat * list string := (6%nat, ["v1"; "contextEntities"; "*"; "attributes"; "*"; "*"]).
Definition AVI_PUT_WORD : string := "updateContextAttributeRequest".
Definition CET : string := "Ngsi10ContextEntityTypes".
Definition CET_COMPS_V0 : nat * list string := (3%nat, ["ngsi10"; "contextEntityTypes"; "*"]).
Definition CET_COMPS_V1 : nat * list string := (3%nat, ["v1"; "contextEntityTypes"; "*"]).
Definition CETA : string := "Ngsi10ContextEntityTypesAttributeContainer".
Definition CETA_COMPS_V0 : nat * list string := (4%nat, ["ngsi10"; "contextEntityTypes"; "*"; "attributes"]).
Definition CETA_COMPS_V1 : nat * list string := (4%nat, ["v1"; "contextEntityTypes"; "*"; "attributes"]).
Definition CETAA : string := "Ngsi10ContextEntityTypesAttribute".
Definition CETAA_COMPS_V0 : nat * list string := (5%nat, ["ngsi10"; "contextEntityTypes"; "*"; "attributes"; "*"]).
Definition CETAA_COMPS_V1 : nat * list string := (5%nat, ["v1"; "contextEntityTypes"; "*"; "attributes"; "*"]).
Definition SC : string := "SubscribeContext".
Definition SC_COMPS_V0 : nat * list string := (2%nat, ["ngsi10"; "contextSubscriptions"]).
Definition SC_COMPS_V1 : nat * list string := (2%nat, ["v1"; "contextSubscriptions"]).
Definition SC_POST_WORD : string := "subscribeContextRequest".
Definition SCS : string := "Ngsi10SubscriptionsConvOp".
Definition SCS_COMPS_V0 : nat * list string := (3%nat, ["ngsi10"; "contextSubscriptions"; "*"]).
Definition SCS_COMPS_V1 : nat * list string := (3%nat, ["v1"; "contextSubscriptions"; "*"]).
Definition SCS_PUT_WORD : string := "updateContextSubscriptionRequest".
Definition ET : string := "EntityTypes".
Definition ET_COMPS_V1 : nat * list string := (2%nat, ["v1"; "contextTypes"]).
Definition AFET : string := "AttributesForEntityType".
Definition AFET_COMPS_V1 : nat * list string := (3%nat, ["v1"; "contextTypes"; "*"]).
Definition ACE : string := "AllContextEntities".
Definition ACE_COMPS_V1 : nat * list string := (2%nat, ["v1"; "contextEntities"]).
Definition ACE_POST_WORD : string := "appendContextElementRequest".
Definition ACET : string := "AllEntitiesWithTypeAndId".
Definition ACET_COMPS_V1 : nat * list string := (6%nat, ["v1"; "contextEntities"; "type"; "*"; "id"; "*"]).
Definition ACET_POST_WORD : string := "appendContextElementRequest".
Definition ACET_PUT_WORD : string := "updateContextElementRequest".
Definition ICEAAT : string := "IndividualContextEntityAttributeWithTypeAndId".
Definition ICEAAT_COMPS_V1 : nat * list string := (8%nat, ["v1"; "contextEntities"; "type"; "*"; "id"; "*"; "attributes"; "*"]).
Definition ICEAAT_POST_WORD : string := "updateContextAttributeRequest".
Definition ICEAAT_PUT_WORD : string := "updateContextAttributeRequest".
Definition AVIT : string := "AttributeValueInstanceWithTypeAndId".
Definition AVIT_COMPS_V1 : nat * list string := (9%nat, ["v1"; "contextEntities"; "type"; "*"; "id"; "*"; "attributes"; "*"; "*"]).
Definition AVIT_PUT_WORD : string := "updateContextAttributeRequest".
Definition AVIT_POST_WORD : string := "updateContextAttributeRequest".
Definition CEET : string := "ContextEntitiesByEntityIdAndType".
Definition CEET_COMPS_V1 : nat * list string := (7%nat, ["v1"; "registry"; "contextEntities"; "type"; "*"; "id"; "*"]).
Definition CEET_POST_WORD : string := "registerProviderRequest".
Definition CEAAT : string := "EntityByIdAttributeByNameIdAndType".
Definition CEAAT_COMPS_V1 : nat * list string := (9%nat, ["v1"; "registry"; "contextEntities"; "type"; "*"; "id"; "*"; "attributes"; "*"]).
Definition CEAAT_POST_WORD : string := "registerProviderRequest".
Definition LOG : string := "LogTraceRequest".
Definition LOGT_COMPS_V0 : nat * list string := (2%nat, ["log"; "trace"]).
Definition LOGTL_COMPS_V0 : nat * list string := (3%nat, ["log"; "trace"; "*"]).
Definition LOG2T_COMPS_V0 : nat * list string := (2%nat, ["log"; "traceLevel"]).
Definition LOG2TL_COMPS_V0 : nat * list string := (3%nat, ["log"; "traceLevel"; "*"]).
Definition LOGT_COMPS_V1 : nat * list string := (4%nat, ["v1"; "admin"; "log"; "trace"]).
Definition LOGTL_COMPS_V1 : nat * list string := (5%nat, ["v1"; "admin"; "log"; "trace"; "*"]).
Definition LOG2T_COMPS_V1 : nat * list string := (4%nat, ["v1"; "admin"; "log"; "traceLevel"]).
Definition LOG2TL_COMPS_V1 : nat * list string := (5%nat, ["v1"; "admin"; "log"; "traceLevel"; "*"]).
Definition STAT : string := "StatisticsRequest".
Definition STAT_COMPS_V0 : nat * list string := (1%nat, ["statistics"]).
Definition STAT_COMPS_V1 : nat * list string := (3%nat, ["v1"; "admin"; "statistics"]).
Definition STAT_CACHE_COMPS_V0 : nat * list string := (2%nat, ["cache"; "statistics"]).
Definition STAT_CACHE_COMPS_V1 : nat * list string := (4%nat, ["v1"; "admin"; "cache"; "statistics"]).
Definition LOGLEVEL : string := "LogLevelRequest".
Definition LOGLEVEL_COMPS_V2 : nat * list string := (2%nat, ["admin"; "log"]).
Definition VERS : string := "VersionRequest".
Definition VERS_COMPS : nat * list string := (1%nat, ["version"]).
Definition EXIT : string := "ExitRequest".
Definition EXIT1_COMPS : nat * list string := (1%nat, ["exit"]).
Definition EXIT2_COMPS : nat * list string := (2%nat, ["exit"; "*"]).
Definition LEAK : string := "LeakRequest".
Definition LEAK1_COMPS : nat * list string := (1%nat, ["leak"]).
Definition LEAK2_COMPS : nat * list string := (2%nat, ["leak"; "*"]).
Definition INV : string := "InvalidRequest".
Definition INV9_COMPS : nat * list string := (2%nat, ["ngsi9"; "*"]).
Definition INV10_COMPS : nat * list string := (2%nat, ["ngsi10"; "*"]).
Definition INV_ALL_COMPS : nat * list string := (0%nat, ["*"; "*"; "*"; "*"; "*"; "*"]).

(** ** Rows *)

Definition API_V2 : list RestService := [
  service "GET" EPS EPS_COMPS_V2 ENT_COMPS_WORD "entryPointsTreat";
  service "*" EPS EPS_COMPS_V2 ENT_COMPS_WORD "badVerbGetOnly";
  service "GET" ENT ENT_COMPS_V2 ENT_COMPS_WORD "getEntities";
  service "POST" ENT ENT_COMPS_V2 ENT_COMPS_WORD "postEntities";
  service "*" ENT ENT_COMPS_V2 ENT_COMPS_WORD "badVerbGetPostOnly";
  service "GET" IENT IENT_COMPS_V2 IENT_COMPS_WORD "getEntity";
  service "DELETE" IENT IENT_COMPS_V2 IENT_COMPS_WORD "deleteEntity";
  service "*" IENT IENT_COMPS_V2 IENT_COMPS_WORD "badVerbGetDeleteOnly";
  service "GET" IENTOA IENTOA_COMPS_V2 IENTOA_COMPS_WORD "getEntity";
  service "POST" IENTOA IENTOA_COMPS_V2 IENTOA_COMPS_WORD "postEntity";
  service "PUT" IENTOA IENTOA_COMPS_V2 IENTOA_COMPS_WORD "putEntity";
  service "PATCH" IENTOA IENTOA_COMPS_V2 IENTOA_COMPS_WORD "patchEntity";
  service "*" IENTOA IENTOA_COMPS_V2 IENTOA_COMPS_WORD "badVerbAllNotDelete";
  service "GET" IENTATTRVAL IENTATTRVAL_COMPS_V2 IENTATTRVAL_COMPS_WORD "getEntityAttributeValue";
  service "PUT" IENTATTRVAL IENTATTRVAL_COMPS_V2 IENTATTRVAL_COMPS_WORD "putEntityAttributeValue";
  service "*" IENTATTRVAL IENTATTRVAL_COMPS_V2 IENTATTRVAL_COMPS_WORD "badVerbGetPutOnly";
  service "GET" IENTATTR IENTATTR_COMPS_V2 IENTATTR_COMPS_WORD "getEntityAttribute";
  service "PUT" IENTATTR IENTATTR_COMPS_V2 IENTATTR_COMPS_WORD "putEntityAttribute";
  service "DELETE" IENTATTR IENTATTR_COMPS_V2 IENTATTR_COMPS_WORD "deleteEntity";
  service "*" IENTATTR IENTATTR_COMPS_V2 IENTATTR_COMPS_WORD "badVerbGetPutDeleteOnly";
  service "GET" ENTT ENTT_COMPS_V2 ENTT_COMPS_WORD "getEntityType";
  service "*" ENTT ENTT_COMPS_V2 ENTT_COMPS_WORD "badVerbGetOnly";
  service "GET" ETT ETT_COMPS_V2 ETT_COMPS_WORD "getEntityAllTypes";
  service "*" ETT ETT_COMPS_V2 ETT_COMPS_WORD "badVerbGetOnly";
  service "GET" SSR SSR_COMPS_V2 SSR_COMPS_WORD "getAllSubscriptions";
  service "POST" SSR SSR_COMPS_V2 SSR_COMPS_WORD "postSubscriptions";
  service "*" SSR SSR_COMPS_V2 SSR_COMPS_WORD "badVerbGetPostOnly";
  service "GET" ISR ISR_COMPS_V2 ISR_COMPS_WORD "getSubscription";
  service "DELETE" ISR ISR_COMPS_V2 ISR_COMPS_WORD "deleteSubscription";
  service "PATCH" ISR ISR_COMPS_V2 ISR_COMPS_WORD "patchSubscription";
  service "*" ISR ISR_COMPS_V2 ISR_COMPS_WORD "badVerbGetDeletePatchOnly";
  service "POST" BQR BQR_COMPS_V2 BQR_COMPS_WORD "postBatchQuery";
  service "*" BQR BQR_COMPS_V2 BQR_COMPS_WORD "badVerbPostOnly";
  service "POST" BUR BUR_COMPS_V2 BUR_COMPS_WORD "postBatchUpdate";
  service "*" BUR BUR_COMPS_V2 BUR_COMPS_WORD "badVerbPostOnly"].
Definition REGISTRY_STANDARD_REQUESTS_V0 : list RestService := [
  service "POST" RCR RCR_COMPS_V0 RCR_POST_WORD "postRegisterContext";
  service "*" RCR RCR_COMPS_V0 RCR_POST_WORD "badVerbPostOnly";
  service "POST" DCAR DCAR_COMPS_V0 DCAR_POST_WORD "postDiscoverContextAvailability";
  service "*" DCAR DCAR_COMPS_V0 DCAR_POST_WORD "badVerbPostOnly";
  service "POST" SCAR SCAR_COMPS_V0 SCAR_POST_WORD "postSubscribeContextAvailability";
  service "*" SCAR SCAR_COMPS_V0 SCAR_POST_WORD "badVerbPostOnly";
  service "POST" UCAR UCAR_COMPS_V0 UCAR_POST_WORD "postUnsubscribeContextAvailability";
  service "*" UCAR UCAR_COMPS_V0 UCAR_POST_WORD "badVerbPostOnly";
  service "POST" UCAS UCAS_COMPS_V0 UCAS_POST_WORD "postUpdateContextAvailabilitySubscription";
  service "*" UCAS UCAS_COMPS_V0 UCAS_POST_WORD "badVerbPostOnly";
  service "POST" NCAR NCAR_COMPS_V0 NCAR_POST_WORD "postNotifyContextAvailability";
  service "*" NCAR NCAR_COMPS_V0 NCAR_POST_WORD "badVerbPostOnly"].
Definition REGISTRY_STANDARD_REQUESTS_V1 : list RestService := [
  service "POST" RCR RCR_COMPS_V1 RCR_POST_WORD "postRegisterContext";
  service "*" RCR RCR_COMPS_V1 RCR_POST_WORD "badVerbPostOnly";
  service "POST" DCAR DCAR_COMPS_V1 DCAR_POST_WORD "postDiscoverContextAvailability";
  service "*" DCAR DCAR_COMPS_V1 DCAR_POST_WORD "badVerbPostOnly";
  service "POST" SCAR SCAR_COMPS_V1 SCAR_POST_WORD "postSubscribeContextAvailability";
  service "*" SCAR SCAR_COMPS_V1 SCAR_POST_WORD "badVerbPostOnly";
  service "POST" UCAR UCAR_COMPS_V1 UCAR_POST_WORD "postUnsubscribeContextAvailability";
  service "*" UCAR UCAR_COMPS_V1 UCAR_POST_WORD "badVerbPostOnly";
  service "POST" UCAS UCAS_COMPS_V1 UCAS_POST_WORD "postUpdateContextAvailabilitySubscription";
  service "*" UCAS UCAS_COMPS_V1 UCAS_POST_WORD "badVerbPostOnly";
  service "POST" NCAR NCAR_COMPS_V1 NCAR_POST_WORD "postNotifyContextAvailability";
  service "*" NCAR NCAR_COMPS_V1 NCAR_POST_WORD "badVerbPostOnly"].
Definition STANDARD_REQUESTS_V0 : list RestService := [
  service "POST" UPCR UPCR_COMPS_V0 UPCR_POST_WORD "postUpdateContext";
  service "*" UPCR UPCR_COMPS_V0 UPCR_POST_WORD "badVerbPostOnly";
  service "POST" QCR QCR_COMPS_V0 QCR_POST_WORD "postQueryContext";
  service "*" QCR QCR_COMPS_V0 QCR_POST_WORD "badVerbPostOnly";
  service "POST" SCR SCR_COMPS_V0 SCR_POST_WORD "postSubscribeContext";
  service "*" SCR SCR_COMPS_V0 SCR_POST_WORD "badVerbPostOnly";
  service "POST" UCSR UCSR_COMPS_V0 UCSR_POST_WORD "postUpdateContextSubscription";
  service "*" UCSR UCSR_COMPS_V0 UCSR_POST_WORD "badVerbPostOnly";
  service "POST" UNCR UNCR_COMPS_V0 UNCR_POST_WORD "postUnsubscribeContext";
  service "*" UNCR UNCR_COMPS_V0 UNCR_POST_WORD "badVerbPostOnly";
  service "POST" NCR NCR_COMPS_V0 NCR_POST_WORD "postNotifyContext";
  service "*" NCR NCR_COMPS_V0 NCR_POST_WORD "badVerbPostOnly"].
Definition STANDARD_REQUESTS_V1 : list RestService := [
  service "POST" UPCR UPCR_COMPS_V1 UPCR_POST_WORD "postUpdateContext";
  service "*" UPCR UPCR_COMPS_V1 UPCR_POST_WORD "badVerbPostOnly";
  service "POST" QCR QCR_COMPS_V1 QCR_POST_WORD "postQueryContext";
  service "*" QCR QCR_COMPS_V1 QCR_POST_WORD "badVerbPostOnly";
  service "POST" SCR SCR_COMPS_V1 SCR_POST_WORD "postSubscribeContext";
  service "*" SCR SCR_COMPS_V1 SCR_POST_WORD "badVerbPostOnly";
  service "POST" UCSR UCSR_COMPS_V1 UCSR_POST_WORD "postUpdateContextSubscription";
  service "*" UCSR UCSR_COMPS_V1 UCSR_POST_WORD "badVerbPostOnly";
  service "POST" UNCR UNCR_COMPS_V1 UNCR_POST_WORD "postUnsubscribeContext";
  service "*" UNCR UNCR_COMPS_V1 UNCR_POST_WORD "badVerbPostOnly";
  service "POST" NCR NCR_COMPS_V1 NCR_POST_WORD "postNotifyContext";
  service "*" NCR NCR_COMPS_V1 NCR_POST_WORD "badVerbPostOnly"].
Definition REGISTRY_CONVENIENCE_OPERATIONS_V0 : list RestService := [
  service "GET" CE CE_COMPS_V0 "" "getContextEntitiesByEntityId";
  service "POST" CE CE_COMPS_V0 CE_POST_WORD "postContextEntitiesByEntityId";
  service "*" CE CE_COMPS_V0 "" "badVerbGetPostOnly";
  service "GET" CEA CEA_COMPS_V0 "" "getContextEntityAttributes";
  service "POST" CEA CEA_COMPS_V0 CEA_POST_WORD "postContextEntityAttributes";
  service "*" CEA CEA_COMPS_V0 "" "badVerbGetPostOnly";
  service "GET" CEAA CEAA_COMPS_V0 "" "getEntityByIdAttributeByName";
  service "POST" CEAA CEAA_COMPS_V0 CEAA_POST_WORD "postEntityByIdAttributeByName";
  service "*" CEAA CEAA_COMPS_V0 "" "badVerbGetPostOnly";
  service "GET" CT CT_COMPS_V0 "" "getContextEntityTypes";
  service "POST" CT CT_COMPS_V0 CT_POST_WORD "postContextEntityTypes";
  service "*" CT CT_COMPS_V0 "" "badVerbGetPostOnly";
  service "GET" CTA CTA_COMPS_V0 "" "getContextEntityTypes";
  service "POST" CTA CTA_COMPS_V0 CTA_POST_WORD "postContextEntityTypes";
  service "*" CTA CTA_COMPS_V0 "" "badVerbGetPostOnly";
  service "GET" CTAA CTAA_COMPS_V0 "" "getContextEntityTypeAttribute";
  service "POST" CTAA CTAA_COMPS_V0 CTAA_POST_WORD "postContextEntityTypeAttribute";
  service "*" CTAA CTAA_COMPS_V0 "" "badVerbGetPostOnly";
  service "POST" SCA SCA_COMPS_V0 SCA_POST_WORD "postSubscribeContextAvailabilityConvOp";
  service "*" SCA SCA_COMPS_V0 "" "badVerbPostOnly";
  service "PUT" SCAS SCAS_COMPS_V0 SCAS_PUT_WORD "putAvailabilitySubscriptionConvOp";
  service "DELETE" SCAS SCAS_COMPS_V0 "" "deleteAvailabilitySubscriptionConvOp";
  service "*" SCAS SCAS_COMPS_V0 "" "badVerbPutDeleteOnly"].
Definition REGISTRY_CONVENIENCE_OPERATIONS_V1 : list RestService := [
  service "GET" CE CE_COMPS_V1 "" "getContextEntitiesByEntityId";
  service "POST" CE CE_COMPS_V1 CE_POST_WORD "postContextEntitiesByEntityId";
  service "*" CE CE_COMPS_V1 "" "badVerbGetPostOnly";
  service "GET" CEA CEA_COMPS_V1 "" "getContextEntityAttributes";
  service "POST" CEA CEA_COMPS_V1 CEA_POST_WORD "postContextEntityAttributes";
  service "*" CEA CEA_COMPS_V1 "" "badVerbGetPostOnly";
  service "GET" CEAA CEAA_COMPS_V1 "" "getEntityByIdAttributeByName";
  service "POST" CEAA CEAA_COMPS_V1 CEAA_POST_WORD "postEntityByIdAttributeByName";
  service "*" CEAA CEAA_COMPS_V1 "" "badVerbGetPostOnly";
  service "GET" CT CT_COMPS_V1 "" "getContextEntityTypes";
  service "POST" CT CT_COMPS_V1 CT_POST_WORD "postContextEntityTypes";
  service "*" CT CT_COMPS_V1 "" "badVerbGetPostOnly";
  service "GET" CTA CTA_COMPS_V1 "" "getContextEntityTypes";
  service "POST" CTA CTA_COMPS_V1 CTA_POST_WORD "postContextEntityTypes";
  service "*" CTA CTA_COMPS_V1 "" "badVerbGetPostOnly";
  service "GET" CTAA CTAA_COMPS_V1 "" "getContextEntityTypeAttribute";
  service "POST" CTAA CTAA_COMPS_V1 CTAA_POST_WORD "postContextEntityTypeAttribute";
  service "*" CTAA CTAA_COMPS_V1 "" "badVerbGetPostOnly";
  service "POST" SCA SCA_COMPS_V1 SCA_POST_WORD "postSubscribeContextAvailability";
  service "*" SCA SCA_COMPS_V1 "" "badVerbPostOnly";
  service "PUT" SCAS SCAS_COMPS_V1 SCAS_PUT_WORD "putAvailabilitySubscriptionConvOp";
  service "DELETE" SCAS SCAS_COMPS_V1 "" "deleteAvailabilitySubscriptionConvOp";
  service "*" SCAS SCAS_COMPS_V1 "" "badVerbPutDeleteOnly"].
Definition CONVENIENCE_OPERATIONS_V0 : list RestService := [
  service "GET" ICE ICE_COMPS_V0 "" "getIndividualContextEntity";
  service "PUT" ICE ICE_COMPS_V0 ICE_PUT_WORD "putIndividualContextEntity";
  service "POST" ICE ICE_COMPS_V0 ICE_POST_WORD "postIndividualContextEntity";
  service "DELETE" ICE ICE_COMPS_V0 "" "deleteIndividualContextEntity";
  service "*" ICE ICE_COMPS_V0 "" "badVerbAllFour";
  service "GET" ICEA ICEA_COMPS_V0 "" "getIndividualContextEntity";
  service "PUT" ICEA ICEA_COMPS_V0 ICEA_PUT_WORD "putIndividualContextEntity";
  service "POST" ICEA ICEA_COMPS_V0 ICEA_POST_WORD "postIndividualContextEntity";
  service "DELETE" ICEA ICEA_COMPS_V0 "" "deleteIndividualContextEntity";
  service "*" ICEA ICEA_COMPS_V0 "" "badVerbAllFour";
  service "GET" ICEAA ICEAA_COMPS_V0 "" "getIndividualContextEntityAttribute";
  service "PUT" ICEAA ICEAA_COMPS_V0 ICEAA_PUT_WORD "putIndividualContextEntityAttribute";
  service "POST" ICEAA ICEAA_COMPS_V0 ICEAA_POST_WORD "postIndividualContextEntityAttribute";
  service "DELETE" ICEAA ICEAA_COMPS_V0 "" "deleteIndividualContextEntityAttribute";
  service "*" ICEAA ICEAA_COMPS_V0 "" "badVerbAllFour";
  service "GET" AVI AVI_COMPS_V0 "" "getAttributeValueInstance";
  service "PUT" AVI AVI_COMPS_V0 AVI_PUT_WORD "putAttributeValueInstance";
  service "DELETE" AVI AVI_COMPS_V0 "" "deleteAttributeValueInstance";
  service "*" AVI AVI_COMPS_V0 "" "badVerbGetPutDeleteOnly";
  service "GET" CET CET_COMPS_V0 "" "getNgsi10ContextEntityTypes";
  service "*" CET CET_COMPS_V0 "" "badVerbGetOnly";
  service "GET" CETA CETA_COMPS_V0 "" "getNgsi10ContextEntityTypes";
  service "*" CETA CETA_COMPS_V0 "" "badVerbGetOnly";
  service "GET" CETAA CETAA_COMPS_V0 "" "getNgsi10ContextEntityTypesAttribute";
  service "*" CETAA CETAA_COMPS_V0 "" "badVerbGetOnly";
  service "POST" SC SC_COMPS_V0 SC_POST_WORD "postSubscribeContextConvOp";
  service "*" SC SC_COMPS_V0 "" "badVerbPostOnly";
  service "PUT" SCS SCS_COMPS_V0 SCS_PUT_WORD "putSubscriptionConvOp";
  service "DELETE" SCS SCS_COMPS_V0 "" "deleteSubscriptionConvOp";
  service "*" SCS SCS_COMPS_V0 "" "badVerbPutDeleteOnly"].
Definition CONVENIENCE_OPERATIONS_V1 : list RestService := [
  service "GET" ICE ICE_COMPS_V1 "" "getIndividualContextEntity";
  service "PUT" ICE ICE_COMPS_V1 ICE_PUT_WORD "putIndividualContextEntity";
  service "POST" ICE ICE_COMPS_V1 ICE_POST_WORD "postIndividualContextEntity";
  service "DELETE" ICE ICE_COMPS_V1 "" "deleteIndividualContextEntity";
  service "*" ICE ICE_COMPS_V1 "" "badVerbAllFour";
  service "GET" ICEA ICEA_COMPS_V1 "" "getIndividualContextEntity";
  service "PUT" ICEA ICEA_COMPS_V1 ICEA_PUT_WORD "putIndividualContextEntity";
  service "POST" ICEA ICEA_COMPS_V1 ICEA_POST_WORD "postIndividualContextEntity";
  service "DELETE" ICEA ICEA_COMPS_V1 "" "deleteIndividualContextEntity";
  service "*" ICEA ICEA_COMPS_V1 "" "badVerbAllFour";
  service "GET" ICEAA ICEAA_COMPS_V1 "" "getIndividualContextEntityAttribute";
  service "PUT" ICEAA ICEAA_COMPS_V1 ICEAA_PUT_WORD "putIndividualContextEntityAttribute";
  service "POST" ICEAA ICEAA_COMPS_V1 ICEAA_POST_WORD "postIndividualContextEntityAttribute";
  service "DELETE" ICEAA ICEAA_COMPS_V1 "" "deleteIndividualContextEntityAttribute";
  service "*" ICEAA ICEAA_COMPS_V1 "" "badVerbAllFour";
  service "GET" AVI AVI_COMPS_V1 "" "getAttributeValueInstance";
  service "PUT" AVI AVI_COMPS_V1 AVI_PUT_WORD "putAttributeValueInstance";
  service "DELETE" AVI AVI_COMPS_V1 "" "deleteAttributeValueInstance";
  service "*" AVI AVI_COMPS_V1 "" "badVerbGetPutDeleteOnly";
  service "GET" CET CET_COMPS_V1 "" "getNgsi10ContextEntityTypes";
  service "*" CET CET_COMPS_V1 "" "badVerbGetOnly";
  service "GET" CETA CETA_COMPS_V1 "" "getNgsi10ContextEntityTypes";
  service "*" CETA CETA_COMPS_V1 "" "badVerbGetOnly";
  service "GET" CETAA CETAA_COMPS_V1 "" "getNgsi10ContextEntityTypesAttribute";
  service "*" CETAA CETAA_COMPS_V1 "" "badVerbGetOnly";
  service "POST" SC SC_COMPS_V1 SC_POST_WORD "postSubscribeContextConvOp";
  service "*" SC SC_COMPS_V1 "" "badVerbPostOnly";
  service "PUT" SCS SCS_COMPS_V1 SCS_PUT_WORD "putSubscriptionConvOp";
  service "DELETE" SCS SCS_COMPS_V1 "" "deleteSubscriptionConvOp";
  service "*" SCS SCS_COMPS_V1 "" "badVerbPutDeleteOnly";
  service "GET" ET ET_COMPS_V1 "" "getEntityTypes";
  service "*" ET ET_COMPS_V1 "" "badVerbGetOnly";
  service "GET" AFET AFET_COMPS_V1 "" "getAttributesForEntityType";
  service "*" AFET AFET_COMPS_V1 "" "badVerbGetOnly";
  service "GET" ACE ACE_COMPS_V1 "" "getAllContextEntities";
  service "POST" ACE ACE_COMPS_V1 ACE_POST_WORD "postIndividualContextEntity";
  service "*" ACE ACE_COMPS_V1 "" "badVerbGetPostOnly";
  service "GET" ACET ACET_COMPS_V1 "" "getAllEntitiesWithTypeAndId";
  service "POST" ACET ACET_COMPS_V1 ACET_POST_WORD "postAllEntitiesWithTypeAndId";
  service "PUT" ACET ACET_COMPS_V1 ACET_PUT_WORD "putAllEntitiesWithTypeAndId";
  service "DELETE" ACET ACET_COMPS_V1 "" "deleteAllEntitiesWithTypeAndId";
  service "*" ACET ACET_COMPS_V1 "" "badVerbAllFour";
  service "GET" ICEAAT ICEAAT_COMPS_V1 "" "getIndividualContextEntityAttributeWithTypeAndId";
  service "POST" ICEAAT ICEAAT_COMPS_V1 ICEAAT_POST_WORD "postIndividualContextEntityAttributeWithTypeAndId";
  service "PUT" ICEAAT ICEAAT_COMPS_V1 ICEAAT_PUT_WORD "putIndividualContextEntityAttributeWithTypeAndId";
  service "DELETE" ICEAAT ICEAAT_COMPS_V1 "" "deleteIndividualContextEntityAttributeWithTypeAndId";
  service "*" ICEAAT ICEAAT_COMPS_V1 "" "badVerbAllFour";
  service "GET" AVIT AVIT_COMPS_V1 "" "getAttributeValueInstanceWithTypeAndId";
  service "POST" AVIT AVIT_COMPS_V1 AVIT_POST_WORD "postAttributeValueInstanceWithTypeAndId";
  service "PUT" AVIT AVIT_COMPS_V1 AVIT_PUT_WORD "putAttributeValueInstanceWithTypeAndId";
  service "DELETE" AVIT AVIT_COMPS_V1 "" "deleteAttributeValueInstanceWithTypeAndId";
  service "*" AVIT AVIT_COMPS_V1 "" "badVerbAllFour";
  service "GET" CEET CEET_COMPS_V1 "" "getContextEntitiesByEntityIdAndType";
  service "POST" CEET CEET_COMPS_V1 CEET_POST_WORD "postContextEntitiesByEntityIdAndType";
  service "*" CEET CEET_COMPS_V1 "" "badVerbGetPostOnly";
  service "GET" CEAAT CEAAT_COMPS_V1 "" "getEntityByIdAttributeByNameWithTypeAndId";
  service "POST" CEAAT CEAAT_COMPS_V1 CEAAT_POST_WORD "postEntityByIdAttributeByNameWithTypeAndId";
  service "*" CEAAT CEAAT_COMPS_V1 "" "badVerbGetPostOnly"].
Definition LOG_REQUESTS_V0 : list RestService := [
  service "GET" LOG LOGT_COMPS_V0 "" "logTraceTreat";
  service "DELETE" LOG LOGT_COMPS_V0 "" "logTraceTreat";
  service "*" LOG LOGT_COMPS_V0 "" "badVerbGetDeleteOnly";
  service "PUT" LOG LOGTL_COMPS_V0 "" "logTraceTreat";
  service "DELETE" LOG LOGTL_COMPS_V0 "" "logTraceTreat";
  service "*" LOG LOGTL_COMPS_V0 "" "badVerbPutDeleteOnly";
  service "GET" LOG LOG2T_COMPS_V0 "" "logTraceTreat";
  service "DELETE" LOG LOG2T_COMPS_V0 "" "logTraceTreat";
  service "*" LOG LOG2T_COMPS_V0 "" "badVerbGetDeleteOnly";
  service "PUT" LOG LOG2TL_COMPS_V0 "" "logTraceTreat";
  service "DELETE" LOG LOG2TL_COMPS_V0 "" "logTraceTreat";
  service "*" LOG LOG2TL_COMPS_V0 "" "badVerbPutDeleteOnly"].
Definition LOG_REQUESTS_V1 : list RestService := [
  service "GET" LOG LOGT_COMPS_V1 "" "logTraceTreat";
  service "DELETE" LOG LOGT_COMPS_V1 "" "logTraceTreat";
  service "*" LOG LOGT_COMPS_V1 "" "badVerbGetDeleteOnly";
  service "PUT" LOG LOGTL_COMPS_V1 "" "logTraceTreat";
  service "DELETE" LOG LOGTL_COMPS_V1 "" "logTraceTreat";
  service "*" LOG LOGTL_COMPS_V1 "" "badVerbPutDeleteOnly";
  service "GET" LOG LOG2T_COMPS_V1 "" "logTraceTreat";
  service "DELETE" LOG LOG2T_COMPS_V1 "" "logTraceTreat";
  service "*" LOG LOG2T_COMPS_V1 "" "badVerbGetDeleteOnly";
  service "PUT" LOG LOG2TL_COMPS_V1 "" "logTraceTreat";
  service "DELETE" LOG LOG2TL_COMPS_V1 "" "logTraceTreat";
  service "*" LOG LOG2TL_COMPS_V1 "" "badVerbPutDeleteOnly"].
Definition STAT_REQUESTS_V0 : list RestService := [
  service "GET" STAT STAT_COMPS_V0 "" "statisticsTreat";
  service "DELETE" STAT STAT_COMPS_V0 "" "statisticsTreat";
  service "*" STAT STAT_COMPS_V0 "" "badVerbGetDeleteOnly"].
Definition STAT_REQUESTS_V1 : list RestService := [
  service "GET" STAT STAT_COMPS_V1 "" "statisticsTreat";
  service "DELETE" STAT STAT_COMPS_V1 "" "statisticsTreat";
  service "*" STAT STAT_COMPS_V1 "" "badVerbGetDeleteOnly"].
Definition STAT_CACHE_REQUESTS_V0 : list RestService := [
  service "GET" STAT STAT_CACHE_COMPS_V0 "" "statisticsCacheTreat";
  service "DELETE" STAT STAT_CACHE_COMPS_V0 "" "statisticsCacheTreat";
  service "*" STAT STAT_CACHE_COMPS_V0 "" "badVerbGetDeleteOnly"].
Definition STAT_CACHE_REQUESTS_V1 : list RestService := [
  service "GET" STAT STAT_CACHE_COMPS_V1 "" "statisticsCacheTreat";
  service "DELETE" STAT STAT_CACHE_COMPS_V1 "" "statisticsCacheTreat";
  service "*" STAT STAT_CACHE_COMPS_V1 "" "badVerbGetDeleteOnly"].
Definition VERSION_REQUESTS : list RestService := [
  service "GET" VERS VERS_COMPS "" "versionTreat";
  service "*" VERS VERS_COMPS "" "badVerbGetOnly"].
Definition EXIT_REQUESTS : list RestService := [
  service "GET" EXIT EXIT2_COMPS "" "exitTreat";
  service "GET" EXIT EXIT1_COMPS "" "exitTreat"].
Definition LEAK_REQUESTS : list RestService := [
  service "GET" LEAK LEAK2_COMPS "" "leakTreat";
  service "GET" LEAK LEAK1_COMPS "" "leakTreat"].
Definition INVALID_REQUESTS : list RestService := [
  service "*" INV INV9_COMPS "" "badNgsi9Request";
  service "*" INV INV10_COMPS "" "badNgsi10Request";
  service "*" INV INV_ALL_COMPS "" "badRequest"].
Definition LOGLEVEL_REQUESTS_V2 : list RestService := [
  service "PUT" LOGLEVEL LOGLEVEL_COMPS_V2 "" "logLevelTreat";
  service "*" LOGLEVEL LOGLEVEL_COMPS_V2 "" "badVerbPutOnly"].

(** restServiceV, up to END_REQUEST *)
Definition restServiceV (debug : bool) : list RestService :=
  API_V2
  ++ REGISTRY_STANDARD_REQUESTS_V0 ++ REGISTRY_STANDARD_REQUESTS_V1
  ++ STANDARD_REQUESTS_V0 ++ STANDARD_REQUESTS_V1
  ++ REGISTRY_CONVENIENCE_OPERATIONS_V0 ++ REGISTRY_CONVENIENCE_OPERATIONS_V1
  ++ CONVENIENCE_OPERATIONS_V0 ++ CONVENIENCE_OPERATIONS_V1
  ++ LOG_REQUESTS_V0 ++ LOG_REQUESTS_V1
  ++ STAT_REQUESTS_V0 ++ STAT_REQUESTS_V1
  ++ STAT_CACHE_REQUESTS_V0 ++ STAT_CACHE_REQUESTS_V1
  ++ VERSION_REQUESTS ++ LOGLEVEL_REQUESTS_V2
  ++ (if debug then EXIT_REQUESTS ++ LEAK_REQUESTS else [])
  ++ INVALID_REQUESTS.
