(* ===== verification/Services.v ===== *)
(** * Services

    rest/RestService.cpp: how a request finds its row in the table of services
    (ServiceTable.v), the reading of the payload, the check of the tenant, the filters of
    the URL, and the call of the routine; with the routines badVerb* (serviceRoutines/,
    serviceRoutinesV2/), that answer a verb that is not served, and logTraceTreat
    (serviceRoutines/logTraceTreat.cpp, rest/orionLogReply.cpp), the one routine that sends a
    reply of its own. *)

From S2P Require Import Prelude Strings Ngsi Registrations FilterParse FilterMatch SubCache SubSync Geo Queries EntityUpdate UpdateContext QueryContext.
From S2P Require Import Duration Subscriptions Json JsonEntity JsonText JsonSubscription Rest JsonRequest RenderV1 ServiceTable.

Open Scope Z_scope.

(** ** The search *)

(** The element [n] of compV, an array of ten strings. *)
Definition compV_at (r : RestService) (n : nat) : cpp string :=
  if (n <? 10)%nat then Ret (default "" (rs_compV r !! n)) else UB "an element of compV after the last".

(** The loop over the components, from [n]. *)
Fixpoint components_match (r : RestService) (n : nat) (compV : list string) : cpp bool :=
  match compV with
  | [] => Ret true
  | c :: compV' =>
      w ← compV_at r n;
      if w =s "*" then components_match r (S n) compV'
      else if strcasecmp_eq (c_str w) (c_str c) then components_match r (S n) compV'
      else Ret false
  end.

(** Whether the row is for requests with this verb and this number of components. *)
Definition candidate (method : string) (components : nat) (r : RestService) : bool :=
  ((rs_components r =? 0)%nat || (rs_components r =? components)%nat) && ((method =s rs_verb r) || (rs_verb r =s "*")).

(** The loop over the table: the row that matches, if any. *)
Fixpoint find_service (method : string) (compV : list string) (serviceV : list RestService) : cpp (option RestService) :=
  match serviceV with
  | [] => Ret None
  | r :: serviceV' =>
      if candidate method (length compV) r then
        m ← components_match r 0 compV;
        if (m : bool) then Ret (Some r) else find_service method compV serviceV'
      else find_service method compV serviceV'
  end.

(** ** Verbs that are not served *)

(** The verbs in the header Allow of each of these routines. *)
Definition badVerbAllFive : list string := ["POST"; "GET"; "PUT"; "DELETE"; "PATCH"].
Definition badVerbAllFour : list string := ["POST"; "GET"; "PUT"; "DELETE"].
Definition badVerbGetDeleteOnly : list string := ["GET"; "DELETE"].
Definition badVerbGetOnly : list string := ["GET"].
Definition badVerbGetPostDeleteOnly : list string := ["GET"; "POST"; "DELETE"].
Definition badVerbGetPostOnly : list string := ["POST"; "GET"].
Definition badVerbGetPutDeleteOnly : list string := ["GET"; "PUT"; "DELETE"].
Definition badVerbPostOnly : list string := ["POST"].
Definition badVerbPutDeleteOnly : list string := ["PUT"; "DELETE"].
Definition badVerbPutOnly : list string := ["PUT"].
Definition badVerbAllNotDelete : list string := ["GET"; "PATCH"; "POST"; "PUT"].
Definition badVerbGetDeletePatchOnly : list string := ["GET"; "DELETE"; "PATCH"].
Definition badVerbGetPutOnly : list string := ["GET"; "PUT"].

(** The header of a routine, by its name; None for the other routines. *)
Definition badVerb_Allow (treat : string) : option (list string) :=
  if treat =s "badVerbAllFive" then Some badVerbAllFive
  else if treat =s "badVerbAllFour" then Some badVerbAllFour
  else if treat =s "badVerbGetDeleteOnly" then Some badVerbGetDeleteOnly
  else if treat =s "badVerbGetOnly" then Some badVerbGetOnly
  else if treat =s "badVerbGetPostDeleteOnly" then Some badVerbGetPostDeleteOnly
  else if treat =s "badVerbGetPostOnly" then Some badVerbGetPostOnly
  else if treat =s "badVerbGetPutDeleteOnly" then Some badVerbGetPutDeleteOnly
  else if treat =s "badVerbPostOnly" then Some badVerbPostOnly
  else if treat =s "badVerbPutDeleteOnly" then Some badVerbPutDeleteOnly
  else if treat =s "badVerbPutOnly" then Some badVerbPutOnly
  else if treat =s "badVerbAllNotDelete" then Some badVerbAllNotDelete
  else if treat =s "badVerbGetDeletePatchOnly" then Some badVerbGetDeletePatchOnly
  else if treat =s "badVerbGetPutOnly" then Some badVerbGetPutOnly
  else None.

Definition SccBadVerb : Z := 405.

(** ** The checks of a request *)

(** tenantCheck *)
Definition tenantCheck (tenant : string) : string :=
  let name := c_str tenant in
  if (SERVICE_NAME_MAX_LEN <? String.length name)%nat then "bad length - a tenant name can be max 50 characters long"
  else if negb (str_all (fun c => isalnum c || (c =c "_"%char)) name)
  then "bad character in tenant name - only underscore and alphanumeric characters are allowed"
  else "OK".

(** The restrictions of ParseData that are looked at. *)
Record ParseData := mkParseData {
  pd_dcar : list Scope;
  pd_scar : list Scope;
  pd_ucas : list Scope;
  pd_qcr : list Scope;
  pd_scr : list Scope;
  pd_ucsr : list Scope
}.

Definition pd_push (sc : Scope) (pd : ParseData) : ParseData :=
  mkParseData (pd_dcar pd) (pd_scar pd) (pd_ucas pd) (pd_qcr pd ++ [sc]) (pd_scr pd) (pd_ucsr pd).

Definition existence_scope (oper : string) : Scope :=
  mkScope SCOPE_FILTER_EXISTENCE SCOPE_VALUE_ENTITY_TYPE oper NoArea (mkGeorel "" no_distance no_distance) None.

(** commonFilters: the scopes that ?!exist=entity::type and ?exist=entity::type add, for the
    requests that support them. *)
Definition filters_request (r : RestService) : bool := (rs_request r =s "EntityTypes") || (rs_request r =s "AllContextEntities").

Definition commonFilters (ci : ConnectionInfo) (r : RestService) (pd : ParseData) : ParseData :=
  let given name := default "" (uriParam ci !! name) =s SCOPE_VALUE_ENTITY_TYPE in
  if given "!exist" && negb (filters_request r) then pd
  else
    let pd := if given "!exist" then pd_push (existence_scope SCOPE_OPERATOR_NOT) pd else pd in
    if given "exist" && filters_request r then pd_push (existence_scope "") pd else pd.

Definition SCOPE_FILTER_NOT_EXISTENCE : string := SCOPE_FILTER +:+ "::" +:+ SCOPE_OPERATOR_NOT +:+ "::Existence".

(** The change that scopeFilter makes of a scope. *)
Definition filter_scope_type (sc : Scope) : Scope :=
  if sc_type sc =s SCOPE_FILTER_NOT_EXISTENCE
  then mkScope SCOPE_FILTER_EXISTENCE (sc_value sc) SCOPE_OPERATOR_NOT (sc_area sc) (sc_georel sc) (sc_stringFilterP sc) else sc.

(** scopeFilter *)
Definition scopeFilter (payloadWord : string) (pd : ParseData) : ParseData :=
  let f := map filter_scope_type in
  let '(mkParseData a b c d e g) := pd in
  if payloadWord =s "discoverContextAvailabilityRequest" then mkParseData (f a) b c d e g
  else if payloadWord =s "subscribeContextAvailabilityRequest" then mkParseData a (f b) c d e g
  else if payloadWord =s "updateContextAvailabilitySubscriptionRequest" then mkParseData a b (f c) d e g
  else if payloadWord =s "queryContextRequest" then mkParseData a b c (f d) e g
  else if payloadWord =s "subscribeContextRequest" then mkParseData a b c d (f e) g
  else if payloadWord =s "updateContextSubscriptionRequest" then mkParseData a b c d e (f g)
  else pd.

Definition no_restrictions : ParseData := mkParseData [] [] [] [] [] [].

(** OrionError::render: the text, and the status code it leaves. *)
Definition OrionError_text (apiVersion : string) (oe : OrionError) (code : Z) : string * Z :=
  if apiVersion =s "v2" then OrionError_render oe code
  else
    let more := negb (oe_details oe =s "") in
    ("{" +:+ nl +:+ startTag1 "  " "orionError" true false
     +:+ valueTag "    " "code" (oe_code oe) true
     +:+ valueTag1 "    " "reasonPhrase" (oe_reasonPhrase oe) more false false
     +:+ (if more then valueTag1 "    " "details" (oe_details oe) false false false else "")
     +:+ endTag "  " false false true false +:+ "}" +:+ nl, code).

(** ** A request *)

(** A text that is sent to the client, with the status and the headers of the routine. *)
Record Sent := mkSent { se_text : string; se_code : Z; se_headers : list (string * string) }.

(** What restService does: the replies, in order, and what it returns. *)
Record Handled (W : Type) := mkHandled { hd_replies : list Sent; hd_response : string; hd_world : W }.
Arguments mkHandled {W}.
Arguments hd_replies {W}.
Arguments hd_response {W}.
Arguments hd_world {W}.

Section Service.

(** The state that routines change. *)
Context {W : Type}.
(** A reader of a payload: its result, the status code it leaves, and the restrictions it finds. *)
Abbreviation Reader := (RestService -> list string -> ConnectionInfo -> string -> string * Z * ParseData).
Context (jsonRequestTreat jsonTreat textRequestTreat : Reader).
(** The levels of trace (logMsg/logMsg.cpp): set, with NULL for none, removed and read. *)
Context (lmTraceSet : option string -> W -> W) (lmTraceSub : string -> W -> W) (lmTraceGet : W -> string).
(** The routines other than those below: the text, the status code and the headers they
    leave; none of them calls restReply. *)
Context (treat : string -> ConnectionInfo -> list string -> ParseData -> W -> cpp (string * Z * list (string * string) * W)).

(** payloadParse: the replies it sends, its result, and what the reader leaves. *)
Definition payloadParse (ci : ConnectionInfo) (inMimeType : MimeType) (r : RestService) (compV : list string) (payload : string)
    : cpp (list Sent * string * Z * ParseData) :=
  version ← vec_at compV 0;
  match (match inMimeType with
         | JSON => Some (if version =s "v2" then jsonRequestTreat r compV ci payload else jsonTreat r compV ci payload)
         | TEXT => Some (textRequestTreat r compV ci payload)
         | _ => None
         end) with
  | None => Ret ([], "Bad inMimeType", httpStatusCode ci, no_restrictions)
  | Some (result, code, pd) => Ret (if result =s "OK" then [] else [mkSent result code []], result, code, pd)
  end.

(** orionLogReply: what it sends, that is also what it returns; the status code is SccOk. *)
Definition orionLogReply (what value : string) : string := "{" +:+ valueTag1 " " what value false false false +:+ "}".

(** What a call leaves: the replies the routine has sent, the text it returns, the status code
    and the headers for the reply to that, and the state. *)
Definition Called : Type := list Sent * string * Z * list (string * string) * W.

Definition logged (what value : string) (w : W) : Called :=
  let out := orionLogReply what value in ([mkSent out SccOk []], out, SccOk, [], w).

(** The characters of a list of trace levels. *)
Definition trace_levels (s : string) : bool :=
  str_all (fun c => isdigit c || (c =c "-"%char) || (c =c ","%char) || (c =c "'"%char)) (c_str s).

Definition bad_levels : string := "poorly formatted trace level string".

(** logTraceTreat *)
Definition logTraceTreat (apiVersion method : string) (compV : list string) (w : W) : Called :=
  let n := length compV in
  let level := default "" (compV !! 2%nat) in
  if (n =? 2)%nat && (method =s "DELETE") then logged "tracelevels" "all trace levels off" (lmTraceSet None w)
  else if (n =? 3)%nat && (method =s "DELETE") then
    if negb (trace_levels level) then logged "tracelevels" bad_levels w
    else logged "tracelevels_removed" level (lmTraceSub (c_str level) w)
  else if (n =? 2)%nat && (method =s "GET") then logged "tracelevels" (lmTraceGet w) w
  else if (n =? 3)%nat && (method =s "PUT") then
    if negb (trace_levels level) then logged "tracelevels" bad_levels w
    else logged "tracelevels" level (lmTraceSet (Some (c_str level)) (lmTraceSet None w))
  else
    let '(text, code) := OrionError_text apiVersion
      (OrionError_new SccBadRequest ("bad URL/Verb: " +:+ method +:+ " " +:+ join "/" compV) "") SccOk in
    ([], text, code, [], w).

(** badVerb*: no text, 405 and the header Allow; badRequest, badNgsi9Request and
    badNgsi10Request: an error; logTraceTreat; and the other routines. *)
Definition call (r : RestService) (ci : ConnectionInfo) (method : string) (compV : list string) (pd : ParseData) (w : W) : cpp Called :=
  match badVerb_Allow (rs_treat r) with
  | Some verbs => Ret ([], "", SccBadVerb, [("Allow", join ", " verbs)], w)
  | None =>
      if (rs_treat r =s "badRequest") || (rs_treat r =s "badNgsi9Request") || (rs_treat r =s "badNgsi10Request") then
        let '(text, code) := OrionError_text (apiVersion ci) (OrionError_new SccBadRequest "service not found" "") SccOk in
        Ret ([], text, code, [], w)
      else if rs_treat r =s "logTraceTreat" then Ret (logTraceTreat (apiVersion ci) method compV w)
      else '(text, code, headers, w) ← treat (rs_treat r) ci compV pd w; Ret ([], text, code, headers, w)
  end.

Definition with_code (code : Z) (ci : ConnectionInfo) : ConnectionInfo := set_status code (answer ci) ci.

(** What follows the reading of the payload. *)
Definition serve (r : RestService) (ci : ConnectionInfo) (method : string) (compV : list string) (pd : ParseData) (w : W) : cpp (Handled W) :=
  let tenant := hh_tenant (httpHeaders ci) in
  let result := if tenant =s "" then "OK" else tenantCheck tenant in
  if negb (result =s "OK") then
    let '(text, code) := OrionError_text (apiVersion ci) (OrionError_new SccBadRequest result "") (httpStatusCode ci) in
    Ret (mkHandled [mkSent text (if negb (apiVersion ci =s "v1") then SccBadRequest else code) []] text w)
  else
    let pd := scopeFilter (rs_payloadWord r) (commonFilters ci r pd) in
    '(replies, text, code, headers, w) ← call r ci method compV pd w;
    Ret (mkHandled (replies ++ [mkSent text code headers]) text w).

(** restService; [payload] is empty when there is none.  A response "DIE" (exitTreat, with DEBUG
    only) also ends the broker. *)
Definition restService (debug : bool) (ci : ConnectionInfo) (method : string) (inMimeType : MimeType) (payload : string) (w : W)
    : cpp (Handled W) :=
  if (url ci =s "") || (url ci =s "/") then
    let '(text, code) := OrionError_text (apiVersion ci)
      (OrionError_new SccBadRequest "The Orion Context Broker is a REST service, not a 'web page'" "") (httpStatusCode ci) in
    Ret (mkHandled [mkSent text code []] "Empty URL" w)
  else
    let ci := with_code SccOk ci in
    let compV := (stringSplit (url ci) "/").2 in
    found ← find_service method compV (restServiceV debug);
    match (found : option RestService) with
    | None =>
        let '(text, code) := OrionError_text (apiVersion ci) (OrionError_new SccBadRequest "unrecognized request" "") SccOk in
        Ret (mkHandled [mkSent text code []] text w)
    | Some r =>
        if negb (c_str payload =s "") && negb (rs_verb r =s "*") then
          '(replies, result, code, pd) ← payloadParse ci inMimeType r compV payload;
          if negb (result =s "OK") then Ret (mkHandled (replies ++ [mkSent result code []]) result w)
          else serve r (with_code code ci) method compV pd w
        else serve r ci method compV no_restrictions w
    end.

End Service.

(** ** The table *)

Definition same_url (x y : RestService) : bool :=
  (rs_components x =? rs_components y)%nat && bool_decide (rs_compV x = rs_compV y).

(** What a row of badVerb* needs of the rows before it that are open, for which no row for any
    verb has come: there is one with its URL for each verb it allows, and no other one. *)
Definition allows_served (open : list RestService) (r : RestService) (verbs : list string) : bool :=
  (rs_verb r =s "*") && negb (rs_components r =? 0)%nat && (rs_components r <=? 9)%nat
  && forallb (fun v => negb (v =s "*") && existsb (fun x => same_url x r && (rs_verb x =s v)) open) verbs
  && forallb (fun x => same_url x r && existsb (fun v => v =s rs_verb x) verbs) open.

Definition close (r : RestService) (open : list RestService) : list RestService :=
  if rs_verb r =s "*" then List.filter (fun x => negb (same_url x r)) open else open ++ [r].

Fixpoint table_ok (open rows : list RestService) : bool :=
  match rows with
  | [] => true
  | r :: rows' =>
      match badVerb_Allow (rs_treat r) with Some verbs => allows_served open r verbs | None => true end && table_ok (close r open) rows'
  end.

Lemma restServiceV_ok debug : table_ok [] (restServiceV debug) = true.
Proof. destruct debug; vm_compute; reflexivity. Qed.

(** The URL of a row, and what it finds. *)
Definition own_url (r : RestService) : list string := map (fun w => if w =s "*" then "x" else w) (rs_compV r).
Definition served_itself (table : list RestService) (r : RestService) : bool :=
  match find_service (rs_verb r) (own_url r) table with
  | Ret (Some r') => same_url r r' && (rs_verb r =s rs_verb r') && (rs_treat r =s rs_treat r')
  | _ => false
  end.

(** ** The search *)

(** The row matches the components. *)
Definition fits (r : RestService) (compV : list string) : Prop := components_match r 0 compV = Ret true.

Lemma components_match_total r n compV : (n + length compV <= 10)%nat -> exists b, components_match r n compV = Ret b.
Proof.
  revert n. induction compV as [|c compV IH]; intros n Hn; [by exists true|]. cbn [components_match length] in *. unfold compV_at.
  assert ((n <? 10)%nat = true) as -> by (apply Nat.ltb_lt; lia). cbn [mbind cpp_bind].
  destruct (_ =s "*"); [apply IH; lia|]. destruct (strcasecmp_eq _ _); [apply IH; lia|by exists false].
Qed.

Lemma components_match_same x y n compV : rs_compV x = rs_compV y -> components_match x n compV = components_match y n compV.
Proof.
  intros H. revert n. induction compV as [|c compV IH]; intros n; [done|]. cbn [components_match]. unfold compV_at. rewrite H.
  destruct (n <? 10)%nat; [|done]. cbn [mbind cpp_bind]. by rewrite !IH.
Qed.

Lemma same_url_eq x y : same_url x y = true <-> rs_components x = rs_components y /\ rs_compV x = rs_compV y.
Proof. unfold same_url. by rewrite andb_true_iff, Nat.eqb_eq, bool_decide_eq_true. Qed.

Lemma find_service_cons method compV r rows : find_service method compV (r :: rows)
  = if candidate method (length compV) r
    then m ← components_match r 0 compV; if (m : bool) then Ret (Some r) else find_service method compV rows
    else find_service method compV rows.
Proof. done. Qed.

(** The row that is found is the first candidate that matches. *)
Lemma find_service_first method compV rows r : find_service method compV rows = Ret (Some r) ->
  exists pre post, rows = pre ++ r :: post /\ candidate method (length compV) r = true /\ fits r compV /\
  Forall (fun x => candidate method (length compV) x = true -> components_match x 0 compV = Ret false) pre.
Proof.
  induction rows as [|x rows IH]; [done|]. rewrite find_service_cons. destruct (candidate method (length compV) x) eqn:Ec.
  - destruct (components_match x 0 compV) as [m| |] eqn:Em; [|done..]. cbn [mbind cpp_bind]. destruct m.
    + intros [= ->]. exists [], rows. split_and!; [done|done|exact Em|constructor].
    + intros H. destruct (IH H) as (pre & post & -> & ? & ? & ?). exists (x :: pre), post. split_and!; [done..|]. by constructor.
  - intros H. destruct (IH H) as (pre & post & -> & ? & ? & ?). exists (x :: pre), post. split_and!; [done..|]. constructor; [by rewrite Ec|done].
Qed.

(** Something is found when something matches. *)
Lemma find_service_found method compV rows x : (length compV <= 10)%nat -> x ∈ rows -> candidate method (length compV) x = true -> fits x compV ->
  exists r, find_service method compV rows = Ret (Some r).
Proof.
  intros Hl Hin Hc Hf. induction rows as [|y rows IH]; [by apply not_elem_of_nil in Hin|]. rewrite find_service_cons.
  destruct (components_match_total y 0 compV Hl) as [b Hb]. apply elem_of_cons in Hin as [->|Hin].
  - rewrite Hc. rewrite Hf. cbn. by exists y.
  - destruct (candidate method (length compV) y); [|by apply IH]. rewrite Hb. cbn [mbind cpp_bind]. destruct b; [by exists y|by apply IH].
Qed.

Lemma find_service_app method compV pre x post : (length compV <= 10)%nat -> x ∈ pre -> candidate method (length compV) x = true -> fits x compV ->
  find_service method compV (pre ++ post) = find_service method compV pre.
Proof.
  intros Hl Hin Hc Hf. induction pre as [|y pre IH]; [by apply not_elem_of_nil in Hin|]. cbn [app]. rewrite !find_service_cons.
  destruct (components_match_total y 0 compV Hl) as [b Hb]. apply elem_of_cons in Hin as [->|Hin].
  - rewrite Hc. by rewrite Hf.
  - rewrite (IH Hin), Hb. done.
Qed.

(** *** Open rows *)

(** The rows before are open, or a row for any verb with their URL has come. *)
Definition accounted (pre open : list RestService) : Prop :=
  (forall x, x ∈ open -> x ∈ pre) /\
  forall x, x ∈ pre -> rs_verb x = "*" \/ x ∈ open \/ exists y, y ∈ pre /\ rs_verb y = "*" /\ same_url x y = true.

Lemma close_accounted pre open r : accounted pre open -> accounted (pre ++ [r]) (close r open).
Proof.
  intros [H1 H2]. unfold close. destruct (rs_verb r =s "*") eqn:E.
  - apply str_eqb_eq in E. split.
    + intros x Hx. apply elem_of_app. left. apply H1. apply list_elem_of_In, filter_In in Hx as [Hx _]. by apply list_elem_of_In.
    + intros x [Hx| ->%list_elem_of_singleton]%elem_of_app; [|by left]. destruct (H2 x Hx) as [?|[Ho|(y & Hy & ?)]]; [by left| |].
      * right. destruct (same_url x r) eqn:Es.
        -- right. exists r. split; [apply elem_of_app; right; apply list_elem_of_here|done].
        -- left. apply list_elem_of_In, filter_In. split; [by apply list_elem_of_In|by rewrite Es].
      * right. right. exists y. split; [apply elem_of_app; by left|done].
  - split.
    + intros x [Hx| ->%list_elem_of_singleton]%elem_of_app; apply elem_of_app; [left; by apply H1|right; apply list_elem_of_here].
    + intros x [Hx| ->%list_elem_of_singleton]%elem_of_app.
      * destruct (H2 x Hx) as [?|[Ho|(y & Hy & ?)]]; [by left|right; left; apply elem_of_app; by left|].
        right. right. exists y. split; [apply elem_of_app; by left|done].
      * right. left. apply elem_of_app. right. apply list_elem_of_here.
Qed.

Lemma table_ok_at pre rows open l r post verbs : accounted pre open -> table_ok open rows = true -> rows = l ++ r :: post ->
  badVerb_Allow (rs_treat r) = Some verbs -> exists open', accounted (pre ++ l) open' /\ allows_served open' r verbs = true.
Proof.
  revert pre open l. induction rows as [|x rows IH]; intros pre open l Ha Hok Hr Hv; [by destruct l|].
  cbn [table_ok] in Hok. apply andb_true_iff in Hok as [Hx Hok]. destruct l as [|y l].
  - injection Hr as -> ->. rewrite Hv in Hx. exists open. by rewrite app_nil_r.
  - injection Hr as -> ->. destruct (IH (pre ++ [y]) (close y open) l (close_accounted _ _ _ Ha) Hok eq_refl Hv) as (open' & H & ?).
    exists open'. by rewrite <- app_assoc in H.
Qed.

(** *** The header Allow *)

Lemma candidate_any method n x : rs_verb x = "*" -> candidate method n x = (rs_components x =? 0)%nat || (rs_components x =? n)%nat.
Proof. intros H. unfold candidate. rewrite H. change ("*" =s "*") with true. by rewrite orb_true_r, andb_true_r. Qed.


Lemma Allow_served rows method compV r verbs v : table_ok [] rows = true ->
  find_service method compV rows = Ret (Some r) -> badVerb_Allow (rs_treat r) = Some verbs ->
  (v ∈ verbs <-> v <> "*" /\ exists r', find_service v compV rows = Ret (Some r') /\ rs_verb r' = v).
Proof.
  intros Hok Hfind Hv. destruct (find_service_first _ _ _ _ Hfind) as (pre & post & -> & Hc & Hfit & Hpre).
  assert (accounted [] []) as Ha0 by (split; [done|]; intros x Hx; by apply not_elem_of_nil in Hx).
  destruct (table_ok_at [] _ [] pre r post verbs Ha0 Hok eq_refl Hv) as (open & [Ho1 Ho2] & Hs). cbn [app] in Ho1, Ho2.
  unfold allows_served in Hs. rewrite !andb_true_iff, !forallb_forall in Hs. destruct Hs as [[[[Hrv Hr0] Hr9] Hs1] Hs2].
  apply str_eqb_eq in Hrv. apply negb_true_iff, Nat.eqb_neq in Hr0. apply Nat.leb_le in Hr9.
  pose proof Hc as Hcr. rewrite (candidate_any _ _ _ Hrv) in Hc. apply orb_true_iff in Hc as [Hc%Nat.eqb_eq|Hc%Nat.eqb_eq]; [done|].
  assert (length compV <= 10)%nat as Hl by lia.
  assert (forall x, x ∈ pre -> rs_verb x = "*" -> (rs_components x = 0%nat \/ rs_components x = length compV) -> fits x compV -> False) as Hany.
  { intros x Hx Hxv Hxc Hxf. rewrite Forall_forall in Hpre. specialize (Hpre x Hx). rewrite Hxf in Hpre.
    assert (candidate method (length compV) x = true) as Hcx.
    { rewrite (candidate_any _ _ _ Hxv). apply orb_true_iff. rewrite !Nat.eqb_eq. exact Hxc. }
    by specialize (Hpre Hcx). }
  split.
  - intros Hin. specialize (Hs1 v (proj1 (list_elem_of_In _ _) Hin)). apply andb_true_iff in Hs1 as [Hv0 Hx].
    apply negb_true_iff in Hv0. split; [by apply str_eqb_neq|]. apply existsb_exists in Hx as (x & Hx & Hxs).
    apply andb_true_iff in Hxs as [[Hxc Hxp]%same_url_eq Hxv%str_eqb_eq]. apply list_elem_of_In, Ho1 in Hx.
    assert (fits x compV) as Hxf by (unfold fits; rewrite (components_match_same x r); done).
    assert (candidate v (length compV) x = true) as Hcx.
    { unfold candidate. rewrite Hxv, str_eqb_refl, Hxc, Hc, Nat.eqb_refl. by rewrite orb_true_r. }
    destruct (find_service_found v compV pre x Hl Hx Hcx Hxf) as [r' Hr']. exists r'.
    split; [by rewrite (find_service_app v compV pre x)|].
    destruct (find_service_first _ _ _ _ Hr') as (p1 & p2 & -> & Hc' & Hf' & _). unfold candidate in Hc'. apply andb_true_iff in Hc' as [Hn Hcv].
    apply orb_true_iff in Hcv as [Hcv%str_eqb_eq|Hcv%str_eqb_eq]; [done|]. exfalso.
    apply (Hany r'); [apply elem_of_app; right; apply list_elem_of_here|done| |done].
    apply orb_true_iff in Hn as [Hn%Nat.eqb_eq|Hn%Nat.eqb_eq]; [by left|by right].
  - intros (Hv0 & r' & Hr' & Hv'). assert (r' ∈ pre) as Hin.
    { destruct (find_service_first _ _ _ _ Hr') as (p1 & p2 & Heq & Hc' & Hf' & Hp1).
      assert (candidate v (length compV) r = true) as Hcv.
      { rewrite (candidate_any _ _ _ Hrv), Hc, Nat.eqb_refl. by rewrite orb_true_r. }
      destruct (decide (length p1 < length pre)%nat) as [Hlt|Hge].
      - assert ((pre ++ r :: post) !! length p1 = Some r') as Hi by (rewrite Heq; by apply list_lookup_middle).
        rewrite lookup_app_l in Hi by done. by eapply list_elem_of_lookup_2.
      - exfalso. destruct (decide (length p1 = length pre)) as [He|Hne].
        + apply app_inj_1 in Heq as [_ [= ->]]; [|done]. congruence.
        + assert (r ∈ p1) as Hrin.
          { assert ((p1 ++ r' :: p2) !! length pre = Some r) as Hi by (rewrite <- Heq; by apply list_lookup_middle).
            rewrite lookup_app_l in Hi by lia. by eapply list_elem_of_lookup_2. }
          rewrite Forall_forall in Hp1. specialize (Hp1 r Hrin Hcv). by rewrite Hfit in Hp1. }
    destruct (find_service_first _ _ _ _ Hr') as (p1 & p2 & _ & Hc' & Hf' & _). destruct (Ho2 r' Hin) as [?|[Ho|(y & Hy & Hyv & Hys)]].
    + congruence.
    + specialize (Hs2 r' (proj1 (list_elem_of_In _ _) Ho)). apply andb_true_iff in Hs2 as [_ Hx]. apply existsb_exists in Hx as (w & Hw & Hwe%str_eqb_eq).
      apply list_elem_of_In in Hw. rewrite Hv' in Hwe. by subst w.
    + exfalso. apply same_url_eq in Hys as [Hyc Hyp]. apply (Hany y Hy Hyv).
      * unfold candidate in Hc'. apply andb_true_iff in Hc' as [Hn _]. rewrite <- Hyc. apply orb_true_iff in Hn as [Hn%Nat.eqb_eq|Hn%Nat.eqb_eq]; [by left|by right].
      * unfold fits. rewrite (components_match_same y r'); done.
Qed.

(** C31. A verb that is not served: the header Allow of the reply has exactly the verbs that are
    served for the URL, whatever the URL: a request with one of them finds a row for that verb,
    and a request with another one does not. *)
Theorem Allow_exact debug method compV r verbs v :
  find_service method compV (restServiceV debug) = Ret (Some r) -> badVerb_Allow (rs_treat r) = Some verbs ->
  (v ∈ verbs <-> v <> "*" /\ exists r', find_service v compV (restServiceV debug) = Ret (Some r') /\ rs_verb r' = v).
Proof. apply Allow_served, restServiceV_ok. Qed.

Lemma Allow_exact_witness :
  "DELETE" ∈ ["GET"; "DELETE"] <-> "DELETE" <> "*" /\ exists r', find_service "DELETE" ["v2"; "entities"; "Room"] (restServiceV false) = Ret (Some r')
    /\ rs_verb r' = "DELETE".
Proof.
  apply (Allow_exact false "PATCH" ["v2"; "entities"; "Room"] (service "*" IENT IENT_COMPS_V2 IENT_COMPS_WORD "badVerbGetDeleteOnly")).
  - vm_compute. reflexivity.
  - reflexivity.
Defined.

(** *** Reading the table *)

Definition bounded_row (r : RestService) : bool :=
  ((rs_components r =? 0)%nat || (rs_components r <=? 9)%nat && (length (rs_compV r) =? rs_components r)%nat)
  && (length (rs_compV r) <=? 10)%nat && (String.length (rs_payloadWord r) <? 64)%nat.

Lemma rows_bounded debug : forallb bounded_row (restServiceV debug) = true.
Proof. destruct debug; vm_compute; reflexivity. Qed.

(** Only rows for any number of components are tried for many of them. *)
Lemma find_service_many method compV rows : (10 <= length compV)%nat -> forallb bounded_row rows = true ->
  find_service method compV rows = find_service method compV (List.filter (fun r => (rs_components r =? 0)%nat) rows).
Proof.
  intros Hl. induction rows as [|r rows IH]; [done|]. cbn [forallb]. intros [Hr Hrs]%andb_true_iff. cbn [List.filter].
  rewrite find_service_cons, (IH Hrs). destruct (rs_components r =? 0)%nat eqn:E; [by rewrite find_service_cons|].
  assert (candidate method (length compV) r = false) as ->; [|done]. unfold candidate, bounded_row in *. rewrite E in *. cbn [orb] in *.
  rewrite !andb_true_iff in Hr. destruct Hr as [[[Hc%Nat.leb_le _] _] _]. assert ((rs_components r =? length compV)%nat = false) as ->; [|done].
  apply Nat.eqb_neq. lia.
Qed.

Lemma rows_for_all debug : List.filter (fun r => (rs_components r =? 0)%nat) (restServiceV debug) = [service "*" INV INV_ALL_COMPS "" "badRequest"].
Proof. by destruct debug. Qed.

Lemma strcasecmp_empty s : strcasecmp_eq "" s = (s =s "").
Proof. by destruct s. Qed.

(** What is after the components of the last row. *)
Definition blank_components (compV : list string) : Prop := forall k, (6 <= k < 10)%nat -> c_str <$> compV !! k = Some "".

(** C32. Reading the table: the elements of compV that are read are those of the array, unless the
    URL has more than ten components and those from the seventh to the tenth are empty, and then
    what is after the array is read.  The words of payloads fit in the 64 bytes they are copied
    to, with their NUL. *)
Theorem table_bounds debug method compV :
  ((exists why, find_service method compV (restServiceV debug) = UB why) <-> (10 < length compV)%nat /\ blank_components compV) /\
  find_service method compV (restServiceV debug) <> Looping /\
  Forall (fun r => (String.length (rs_payloadWord r) < 64)%nat) (restServiceV debug).
Proof.
  split; [|split].
  - destruct (decide (length compV <= 10)%nat) as [Hl|Hl].
    + split; [|lia]. intros [why H]. exfalso. revert H. induction (restServiceV debug) as [|r rows IH]; [done|]. rewrite find_service_cons.
      destruct (candidate _ _ r); [|exact IH]. destruct (components_match_total r 0 compV Hl) as [b ->]. cbn [mbind cpp_bind]. by destruct b.
    + rewrite find_service_many, rows_for_all by (lia || apply rows_bounded). unfold blank_components.
      destruct compV as [|c0 [|c1 [|c2 [|c3 [|c4 [|c5 [|c6 [|c7 [|c8 [|c9 [|c10 l]]]]]]]]]]]; cbn in Hl; try lia.
      cbn -[strcasecmp_eq c_str String.eqb]. change ("*" =s "*") with true. rewrite ?orb_true_r. change ("" =s "*") with false.
      cbn -[strcasecmp_eq c_str String.eqb]. change (c_str "") with "". rewrite !strcasecmp_empty.
      split.
      * intros [why H]. split; [lia|]. intros k Hk. destruct (c_str c6 =s "") eqn:E6; [|done]. destruct (c_str c7 =s "") eqn:E7; [|done].
        destruct (c_str c8 =s "") eqn:E8; [|done]. destruct (c_str c9 =s "") eqn:E9; [|done].
        assert (k = 6 \/ k = 7 \/ k = 8 \/ k = 9)%nat as [-> |[-> |[-> | ->]]] by lia; cbn; by (f_equal; apply str_eqb_eq).
      * intros [_ H]. pose proof (H 6%nat ltac:(lia)) as [= ->]. pose proof (H 7%nat ltac:(lia)) as [= ->].
        pose proof (H 8%nat ltac:(lia)) as [= ->]. pose proof (H 9%nat ltac:(lia)) as [= ->]. cbn. by eexists.
  - intros H. assert (forall r n, components_match r n compV <> Looping) as Hm.
    { clear. intros r. induction compV as [|c compV IH]; intros n; [done|]. cbn [components_match]. unfold compV_at.
      destruct (n <? 10)%nat; [|done]. cbn [mbind cpp_bind]. destruct (_ =s "*"); [apply IH|]. destruct (strcasecmp_eq _ _); [apply IH|done]. }
    induction (restServiceV debug) as [|r rows IH]; [done|]. rewrite find_service_cons in H. destruct (candidate _ _ r); [|by apply IH].
    specialize (Hm r 0%nat). destruct (components_match r 0 compV) as [b| |]; [|done..]. cbn [mbind cpp_bind] in H. destruct b; [done|by apply IH].
  - pose proof (rows_bounded debug) as H. rewrite forallb_forall in H. apply Forall_forall. intros r Hr%list_elem_of_In. apply H in Hr.
    unfold bounded_row in Hr. apply andb_true_iff in Hr as [_ Hr]. by apply Nat.ltb_lt.
Qed.

(** A URL with which what is after the array is read. *)
Example url_beyond_array :
  find_service "GET" (stringSplit "/a/b/c/d/e/f//////g" "/").2 (restServiceV false) = UB "an element of compV after the last".
Proof. vm_compute. reflexivity. Qed.

(** ** Every row is served *)

(** A verb with which the row is found. *)
Definition own_method (r : RestService) : string := if rs_verb r =s "*" then "OPTIONS" else rs_verb r.

Definition found_itself (table : list RestService) (r : RestService) : bool :=
  match find_service (own_method r) (own_url r) table with
  | Ret (Some r') => same_url r r' && (rs_verb r =s rs_verb r') && (rs_treat r =s rs_treat r')
  | _ => false
  end.

Lemma table_found debug : forallb (found_itself (restServiceV debug)) (restServiceV debug) = true.
Proof. destruct debug; vm_compute; reflexivity. Qed.

Lemma found_row table r : forallb (found_itself table) table = true -> r ∈ table ->
  exists r', find_service (own_method r) (own_url r) table = Ret (Some r') /\
  rs_compV r' = rs_compV r /\ rs_verb r' = rs_verb r /\ rs_treat r' = rs_treat r.
Proof.
  intros H Hr%list_elem_of_In. rewrite forallb_forall in H. specialize (H r Hr). unfold found_itself in H.
  destruct (find_service _ _ _) as [[r'|]| |]; try done. rewrite !andb_true_iff, same_url_eq, !str_eqb_eq in H.
  destruct H as [[[_ H1] H2] H3]. by exists r'.
Qed.

(** No row of the table is hidden by those before it: with its own components, and any word in
    the place of a "*", the routine of the row is the one that is called. *)
Lemma rows_served debug r : r ∈ restServiceV debug -> exists r', find_service (own_method r) (own_url r) (restServiceV debug) = Ret (Some r') /\
  rs_compV r' = rs_compV r /\ rs_verb r' = rs_verb r /\ rs_treat r' = rs_treat r.
Proof. apply found_row, table_found. Qed.

(** The request for an entity of version 2, whatever its id. *)
Lemma get_entity_row debug id : find_service "GET" ["v2"; "entities"; id] (restServiceV debug) = Ret (Some (service "GET" IENT IENT_COMPS_V2 IENT_COMPS_WORD "getEntity")).
Proof. vm_compute. reflexivity. Qed.

(** An entity type named "attributes": the request for one of its entities goes to the row of an
    attribute of the entity "type". *)
Example attributes_type_hidden :
  exists r, find_service "GET" ["v1"; "contextEntities"; "type"; "attributes"; "id"; "E"] (restServiceV false) = Ret (Some r) /\
  rs_treat r = "getAttributeValueInstance".
Proof. eexists. split; [vm_compute; reflexivity|reflexivity]. Qed.

(** The two versions of the URL for subscribing to availability have different routines. *)
Example availability_versions :
  (exists r, find_service "POST" ["ngsi9"; "contextAvailabilitySubscriptions"] (restServiceV false) = Ret (Some r) /\
     rs_treat r = "postSubscribeContextAvailabilityConvOp") /\
  (exists r, find_service "POST" ["v1"; "registry"; "contextAvailabilitySubscriptions"] (restServiceV false) = Ret (Some r) /\
     rs_treat r = "postSubscribeContextAvailability").
Proof. split; eexists; (split; [vm_compute; reflexivity|reflexivity]). Qed.

(** ** Replies *)

Lemma tenantCheck_spec tenant : tenantCheck tenant = "OK" <->
  (String.length (c_str tenant) <= 50)%nat /\ str_all (fun c => isalnum c || (c =c "_"%char)) (c_str tenant) = true.
Proof.
  unfold tenantCheck. destruct (SERVICE_NAME_MAX_LEN <? _)%nat eqn:E.
  - apply Nat.ltb_lt in E. change SERVICE_NAME_MAX_LEN with 50%nat in E. split; [done|]. intros [? _]. lia.
  - apply Nat.ltb_ge in E. change SERVICE_NAME_MAX_LEN with 50%nat in E. destruct (str_all _ _); cbn [negb]; split; try done. by intros [_ ?].
Qed.

Section Replies.

Context {W : Type}.
Abbreviation Reader := (RestService -> list string -> ConnectionInfo -> string -> string * Z * ParseData).
Context (jsonRequestTreat jsonTreat textRequestTreat : Reader).
Context (lmTraceSet : option string -> W -> W) (lmTraceSub : string -> W -> W) (lmTraceGet : W -> string).
Context (treat : string -> ConnectionInfo -> list string -> ParseData -> W -> cpp (string * Z * list (string * string) * W)).

(** A payload that a reader refuses. *)
Definition refused_payload (debug : bool) (ci : ConnectionInfo) (method : string) (mime : MimeType) (payload : string) : Prop :=
  url ci <> "" /\ url ci <> "/" /\ c_str payload <> "" /\ (mime = JSON \/ mime = TEXT) /\
  exists r result code pd, find_service method (stringSplit (url ci) "/").2 (restServiceV debug) = Ret (Some r) /\ rs_verb r <> "*" /\
    payloadParse jsonRequestTreat jsonTreat textRequestTreat (with_code SccOk ci) mime r (stringSplit (url ci) "/").2 payload
      = Ret ([mkSent result code []], result, code, pd) /\ result <> "OK".

(** A request to read or change the levels of trace that is served: its URL is one of version
    0, of less than four components, its payload, if any, is accepted and so is its tenant. *)
Definition traced (debug : bool) (ci : ConnectionInfo) (method : string) (mime : MimeType) (payload : string) : Prop :=
  url ci <> "" /\ url ci <> "/" /\
  let compV := (stringSplit (url ci) "/").2 in
  (length compV < 4)%nat /\
  (exists r, find_service method compV (restServiceV debug) = Ret (Some r) /\ rs_treat r = "logTraceTreat" /\
     (c_str payload = "" \/ exists code pd,
        payloadParse jsonRequestTreat jsonTreat textRequestTreat (with_code SccOk ci) mime r compV payload = Ret ([], "OK", code, pd))) /\
  (hh_tenant (httpHeaders ci) = "" \/ tenantCheck (hh_tenant (httpHeaders ci)) = "OK").

(** The rows of the routine, with their verb and the number of components. *)
Definition trace_row (r : RestService) : bool :=
  if rs_treat r =s "logTraceTreat"
  then negb (rs_components r =? 0)%nat && negb (rs_verb r =s "*") && match badVerb_Allow (rs_treat r) with Some _ => false | None => true end
       && ((3 <? rs_components r)%nat
           || ((rs_components r =? 2)%nat && ((rs_verb r =s "DELETE") || (rs_verb r =s "GET")))
           || ((rs_components r =? 3)%nat && ((rs_verb r =s "DELETE") || (rs_verb r =s "PUT"))))
  else true.

Lemma trace_rows debug : forallb trace_row (restServiceV debug) = true.
Proof. destruct debug; vm_compute; reflexivity. Qed.

Lemma found_in_table method compV rows r : find_service method compV rows = Ret (Some r) ->
  r ∈ rows /\ candidate method (length compV) r = true.
Proof.
  induction rows as [|x rows IH]; [done|]. rewrite find_service_cons, elem_of_cons.
  destruct (candidate method (length compV) x) eqn:E; [|naive_solver].
  destruct (components_match x 0 compV) as [[]| |]; cbn [mbind cpp_bind]; try done; [intros [= <-]; auto|naive_solver].
Qed.

(** What the routine sends: nothing for the URLs of version 1, and what it returns for the others. *)
Lemma trace_replies debug av method compV r (w : W) : find_service method compV (restServiceV debug) = Ret (Some r) ->
  rs_treat r = "logTraceTreat" ->
  if (length compV <? 4)%nat
  then exists out w', logTraceTreat lmTraceSet lmTraceSub lmTraceGet av method compV w = ([mkSent out SccOk []], out, SccOk, [], w')
  else exists out code, logTraceTreat lmTraceSet lmTraceSub lmTraceGet av method compV w = ([], out, code, [], w).
Proof.
  intros Hf Ht. apply found_in_table in Hf as [Hin Hc]. pose proof (trace_rows debug) as Hr. rewrite forallb_forall in Hr.
  apply list_elem_of_In in Hin. specialize (Hr r Hin). unfold trace_row in Hr. rewrite Ht in Hr. cbn [String.eqb Ascii.eqb Bool.eqb] in Hr.
  change ("logTraceTreat" =s "logTraceTreat") with true in Hr. cbv iota in Hr. rewrite !andb_true_iff in Hr. destruct Hr as [[[H0 Hv] _] Hn].
  apply negb_true_iff in H0, Hv. unfold candidate in Hc. rewrite H0, Hv, orb_false_r in Hc. cbn [orb] in Hc.
  apply andb_true_iff in Hc as [Hl%Nat.eqb_eq Hm%str_eqb_eq]. rewrite Hl, <- Hm in Hn. unfold logTraceTreat.
  destruct (length compV) as [|[|[|[|n]]]]; cbn -[String.eqb OrionError_text trace_levels] in Hn |- *; try done.
  - rewrite orb_false_r in Hn. apply orb_true_iff in Hn as [->|E]; [do 2 eexists; reflexivity|].
    apply str_eqb_eq in E. rewrite E. do 2 eexists; reflexivity.
  - apply orb_true_iff in Hn as [->|E]; [destruct (negb _); do 2 eexists; reflexivity|].
    apply str_eqb_eq in E. rewrite E. cbn -[OrionError_text trace_levels]. destruct (negb _); do 2 eexists; reflexivity.
  - destruct (OrionError_text _ _ _) as [text code]. by do 2 eexists.
Qed.

Lemma call_replies debug r ci method compV pd (w : W) c : find_service method compV (restServiceV debug) = Ret (Some r) ->
  call lmTraceSet lmTraceSub lmTraceGet treat r ci method compV pd w = Ret c ->
  let '(replies, text, code, headers, _) := c in
  replies = if (rs_treat r =s "logTraceTreat") && (length compV <? 4)%nat then [mkSent text code headers] else [].
Proof.
  intros Hf. unfold call. destruct (badVerb_Allow (rs_treat r)) as [verbs|] eqn:Eb.
  { intros [= <-]. destruct (rs_treat r =s "logTraceTreat") eqn:E; [|done]. apply str_eqb_eq in E. by rewrite E in Eb. }
  destruct (_ || _) eqn:Ebad.
  { destruct (OrionError_text _ _ _) as [text code]. intros [= <-]. destruct (rs_treat r =s "logTraceTreat") eqn:E; [|done].
    apply str_eqb_eq in E. by rewrite E in Ebad. }
  destruct (rs_treat r =s "logTraceTreat") eqn:E.
  - apply str_eqb_eq in E. pose proof (trace_replies debug (apiVersion ci) method compV r w Hf E) as H.
    destruct (length compV <? 4)%nat; [destruct H as (out & w' & ->)|destruct H as (out & code & ->)]; by intros [= <-].
  - destruct (treat _ _ _ _ _) as [[[[text code] headers] w']| |]; [|done..]. cbn. by intros [= <-].
Qed.

(** The replies after the payload is accepted. *)
Lemma serve_replies debug r ci method compV pd (w : W) h : find_service method compV (restServiceV debug) = Ret (Some r) ->
  serve lmTraceSet lmTraceSub lmTraceGet treat r ci method compV pd w = Ret h ->
  exists s, se_text s = hd_response h /\
    (rs_treat r = "logTraceTreat" /\ (length compV < 4)%nat /\
     (hh_tenant (httpHeaders ci) = "" \/ tenantCheck (hh_tenant (httpHeaders ci)) = "OK") /\ hd_replies h = [s; s] \/
     ~ (rs_treat r = "logTraceTreat" /\ (length compV < 4)%nat /\
        (hh_tenant (httpHeaders ci) = "" \/ tenantCheck (hh_tenant (httpHeaders ci)) = "OK")) /\ hd_replies h = [s]).
Proof.
  intros Hf. unfold serve.
  destruct (negb ((if hh_tenant (httpHeaders ci) =s "" then "OK" else tenantCheck (hh_tenant (httpHeaders ci))) =s "OK")) eqn:Et.
  { destruct (OrionError_text _ _ _) as [text code]. intros [= <-]. eexists (mkSent text _ _). split; [reflexivity|]. right. split; [|done].
    intros (_ & _ & [E|E]); rewrite E in Et; [done|]. by destruct (_ =s ""). }
  assert (hh_tenant (httpHeaders ci) = "" \/ tenantCheck (hh_tenant (httpHeaders ci)) = "OK") as Htenant.
  { apply negb_false_iff, str_eqb_eq in Et. destruct (hh_tenant _ =s "") eqn:E; [left; by apply str_eqb_eq|by right]. }
  destruct (call _ _ _ _ _ _ _ _ _ _) as [[[[[replies text] code] headers] w']| |] eqn:Ec; [|done..]. cbn [mbind cpp_bind]. intros [= <-].
  pose proof (call_replies _ _ _ _ _ _ _ _ Hf Ec) as Hr. cbv beta iota in Hr. exists (mkSent text code headers). split; [done|]. rewrite Hr.
  destruct (rs_treat r =s "logTraceTreat") eqn:E; cbn [andb].
  - destruct (length compV <? 4)%nat eqn:El; [apply Nat.ltb_lt in El|apply Nat.ltb_ge in El].
    + left. split; [by apply str_eqb_eq|]. split; [exact El|]. split; [exact Htenant|]. done.
    + right. split; [intros (_ & ? & _); lia|done].
  - right. split; [|done]. intros (H & _). apply str_eqb_neq in E. done.
Qed.

Lemma restService_sends debug ci method mime payload (w : W) h :
  restService jsonRequestTreat jsonTreat textRequestTreat lmTraceSet lmTraceSub lmTraceGet treat debug ci method mime payload w = Ret h ->
  exists s, (url ci <> "" -> url ci <> "/" -> se_text s = hd_response h) /\
    (refused_payload debug ci method mime payload /\ hd_replies h = [s; s] /\ hd_world h = w \/
     traced debug ci method mime payload /\ hd_replies h = [s; s] \/
     ~ refused_payload debug ci method mime payload /\ ~ traced debug ci method mime payload /\ hd_replies h = [s]).
Proof.
  unfold restService. destruct ((url ci =s "") || (url ci =s "/")) eqn:Eu.
  { destruct (OrionError_text _ _ _) as [text code]. intros [= <-].
    apply orb_true_iff in Eu as [Eu%str_eqb_eq|Eu%str_eqb_eq]; eexists; (split; [congruence|right; right; split; [|split; [|done]]]);
      [by intros (? & _)|by intros (? & _)|by intros (_ & ? & _)|by intros (_ & ? & _)]. }
  apply orb_false_iff in Eu as [Eu1%str_eqb_neq Eu2%str_eqb_neq]. cbv zeta. change (url (with_code SccOk ci)) with (url ci).
  destruct (find_service _ _ _) as [[r|]| |] eqn:Ef; [| |done..]; cbn [mbind cpp_bind].
  2:{ destruct (OrionError_text _ _ _) as [text code]. intros [= <-]. eexists (mkSent text _ _). split; [done|]. right; right. split; [|split; [|done]].
      - intros (_ & _ & _ & _ & r & ? & ? & ? & H & _). congruence.
      - intros (_ & _ & _ & (r & H & _) & _). congruence. }
  assert (forall ci' pd, (hh_tenant (httpHeaders ci') = hh_tenant (httpHeaders ci)) ->
    ~ refused_payload debug ci method mime payload ->
    (rs_treat r = "logTraceTreat" -> c_str payload = "" \/ exists code pd,
        payloadParse jsonRequestTreat jsonTreat textRequestTreat (with_code SccOk ci) mime r (stringSplit (url ci) "/").2 payload = Ret ([], "OK", code, pd)) ->
    serve lmTraceSet lmTraceSub lmTraceGet treat r ci' method (stringSplit (url ci) "/").2 pd w = Ret h ->
    exists s, (url ci <> "" -> url ci <> "/" -> se_text s = hd_response h) /\
    (refused_payload debug ci method mime payload /\ hd_replies h = [s; s] /\ hd_world h = w \/
     traced debug ci method mime payload /\ hd_replies h = [s; s] \/
     ~ refused_payload debug ci method mime payload /\ ~ traced debug ci method mime payload /\ hd_replies h = [s])) as Hserve.
  { intros ci' pd Hci Hnr Hpay H. destruct (serve_replies _ _ _ _ _ _ _ _ Ef H) as (s & Hs & Hcase). rewrite Hci in Hcase.
    exists s. split; [done|]. right. destruct Hcase as [(Htr & Hl & Hten & Hrep)|(Hn & Hrep)].
    - left. split; [|done]. unfold traced. cbv zeta. split; [done|]. split; [done|]. split; [done|]. split; [exists r; auto|done].
    - right. split; [done|]. split; [|done]. intros (_ & _ & Hl & (r' & Hf' & Htr & _) & Hten). rewrite Ef in Hf'. injection Hf' as <-. auto. }
  destruct (negb (c_str payload =s "") && negb (rs_verb r =s "*")) eqn:Ep.
  2:{ apply Hserve; [done| |].
      - intros (_ & _ & Hp & _ & r' & ? & ? & ? & H & Hv & _).
        rewrite Ef in H. injection H as <-. apply str_eqb_neq in Hp, Hv. by rewrite Hp, Hv in Ep.
      - intros Htr. left. destruct (c_str payload =s "") eqn:E; [by apply str_eqb_eq|]. cbn [negb andb] in Ep. apply negb_false_iff in Ep.
        pose proof (trace_rows debug) as Hrow. rewrite forallb_forall in Hrow. apply found_in_table in Ef as [Hin _]. apply list_elem_of_In in Hin.
        apply Hrow in Hin. unfold trace_row in Hin. rewrite Htr, Ep, andb_false_r in Hin. done. }
  apply andb_true_iff in Ep as [Ep Ev]. apply negb_true_iff, str_eqb_neq in Ep, Ev.
  destruct (payloadParse _ _ _ _ _ _ _ _) as [[[[replies result] code] pd]| |] eqn:Er; [|done..]. cbn [mbind cpp_bind].
  assert (result = "OK" /\ replies = [] \/ result <> "OK" /\ replies = [] /\ mime <> JSON /\ mime <> TEXT
    \/ result <> "OK" /\ replies = [mkSent result code []] /\ (mime = JSON \/ mime = TEXT)) as Hcase.
  { revert Er. unfold payloadParse. destruct (vec_at _ _) as [v| |]; [|done..]. cbn [mbind cpp_bind].
    destruct mime; try (intros [= <- <- <- <-]; right; left; done).
    - destruct (if v =s "v2" then _ else _) as [[res c] p]. intros [= <- <- <- <-]. destruct (res =s "OK") eqn:E; [left; by apply str_eqb_eq in E|].
      right. right. apply str_eqb_neq in E. split; [done|]. split; [done|by left].
    - destruct (textRequestTreat _ _ _ _) as [[res c] p]. intros [= <- <- <- <-]. destruct (res =s "OK") eqn:E; [left; by apply str_eqb_eq in E|].
      right. right. apply str_eqb_neq in E. split; [done|]. split; [done|by right]. }
  destruct Hcase as [[-> ->]|[(Hn & -> & Hm1 & Hm2)|(Hn & -> & Hm)]].
  - cbn [negb String.eqb]. change ("OK" =s "OK") with true. cbn [negb]. apply Hserve; [done| |].
    + intros (_ & _ & _ & _ & r' & res & c & p & H & _ & H2 & H3). rewrite Ef in H. injection H as <-. rewrite Er in H2. done.
    + intros _. right. by exists code, pd.
  - apply str_eqb_neq in Hn as Hn'. rewrite Hn'. cbn [negb]. intros [= <-]. eexists (mkSent result _ _). split; [done|]. right; right. split; [|split; [|done]].
    + by intros (_ & _ & _ & [?|?] & _).
    + intros (_ & _ & _ & (r' & H & _ & Hpay) & _). rewrite Ef in H. injection H as <-. destruct Hpay as [?|(c & p & H2)]; [done|].
      rewrite Er in H2. by injection H2 as -> _ _.
  - apply str_eqb_neq in Hn as Hn'. rewrite Hn'. cbn [negb]. intros [= <-]. eexists (mkSent result _ _). split; [done|]. left. split; [|done].
    split_and!; try done. by exists r, result, code, pd.
Qed.

End Replies.

(** C33. A request is replied once, with what restService returns, but for two kinds of request
    that are replied twice, with the same reply: those whose payload a reader refuses, replied
    by payloadParse and by restService, of which nothing else is done; and those that read or
    change the levels of trace at a URL of version 0 (/log/trace, /log/traceLevel), replied by
    orionLogReply and by restService.  (For an empty URL the text returned is another one.) *)
Theorem restService_replies {W : Type} jsonRequestTreat jsonTreat textRequestTreat lmTraceSet lmTraceSub lmTraceGet treat
    debug ci method mime payload (w : W) h :
  restService jsonRequestTreat jsonTreat textRequestTreat lmTraceSet lmTraceSub lmTraceGet treat debug ci method mime payload w = Ret h ->
  exists s, (url ci <> "" -> url ci <> "/" -> se_text s = hd_response h) /\
    (refused_payload jsonRequestTreat jsonTreat textRequestTreat debug ci method mime payload /\ hd_replies h = [s; s] /\ hd_world h = w \/
     traced jsonRequestTreat jsonTreat textRequestTreat debug ci method mime payload /\ hd_replies h = [s; s] \/
     ~ refused_payload jsonRequestTreat jsonTreat textRequestTreat debug ci method mime payload /\
     ~ traced jsonRequestTreat jsonTreat textRequestTreat debug ci method mime payload /\ hd_replies h = [s]).
Proof. apply restService_sends. Qed.

Definition bad_reader (_ : RestService) (_ : list string) (_ : ConnectionInfo) (_ : string) : string * Z * ParseData :=
  ("{}", SccBadRequest, no_restrictions).
Definition quiet_routine (_ : string) (_ : ConnectionInfo) (_ : list string) (_ : ParseData) (w : unit)
    : cpp (string * Z * list (string * string) * unit) := Ret ("", SccOk, [], w).
Definition posted_ci : ConnectionInfo := mkConnectionInfo "/v2/entities" POST "v2" no_headers ∅ ∅ [] ["/"] SccOk "".

Definition levels_ci : ConnectionInfo := mkConnectionInfo "/log/trace" GET "v1" no_headers ∅ ∅ [] ["/"] SccOk "".

Lemma restService_replies_witness :
  (exists h, restService bad_reader bad_reader bad_reader (fun _ w => w) (fun _ w => w) (fun _ => "0-10") quiet_routine false
     posted_ci "POST" JSON "{" tt = Ret h /\ length (hd_replies h) = 2%nat) /\
  (exists h, restService bad_reader bad_reader bad_reader (fun _ w => w) (fun _ w => w) (fun _ => "0-10") quiet_routine false
     levels_ci "GET" JSON "" tt = Ret h /\ exists s, hd_replies h = [s; s] /\ se_text s = hd_response h).
Proof.
  split.
  - destruct (restService bad_reader bad_reader bad_reader (fun _ w => w) (fun _ w => w) (fun _ => "0-10") quiet_routine false
      posted_ci "POST" JSON "{" tt) as [h| |] eqn:E; [|vm_compute in E; discriminate E|vm_compute in E; discriminate E].
    exists h. split; [reflexivity|]. vm_compute in E. injection E as <-. reflexivity.
  - destruct (restService bad_reader bad_reader bad_reader (fun _ w => w) (fun _ w => w) (fun _ => "0-10") quiet_routine false
      levels_ci "GET" JSON "" tt) as [h| |] eqn:E; [|vm_compute in E; discriminate E|vm_compute in E; discriminate E].
    exists h. split; [reflexivity|].
    destruct (restService_replies bad_reader bad_reader bad_reader (fun _ w => w) (fun _ w => w) (fun _ => "0-10") quiet_routine
      false levels_ci "GET" JSON "" tt h E) as (s & Hs & H).
    exists s. split; [|apply Hs; discriminate].
    destruct H as [(_ & H & _)|[(_ & H)|(_ & _ & H)]]; [exact H|exact H|].
    exfalso. vm_compute in E. injection E as <-. discriminate H.
Defined.

(** The URLs of version 1 for the same have more components than the routine knows. *)
Example trace_v1_refused : exists h,
  restService bad_reader bad_reader bad_reader (fun _ w => w) (fun _ w => w) (fun _ => "0-10") quiet_routine false
    (mkConnectionInfo "/v1/admin/log/trace" GET "v1" no_headers ∅ ∅ [] ["/"] SccOk "") "GET" JSON "" tt = Ret h /\
  length (hd_replies h) = 1%nat /\ str_contains "bad URL/Verb: GET v1/admin/log/trace" (hd_response h) = true.
Proof. eexists. split; [vm_compute; reflexivity|split; vm_compute; reflexivity]. Qed.
