(* ===== verification/JsonParseV1.v ===== *)
(** * Parsing the JSON of version 1

    jsonParse/jsonParse.cpp: the walk over the tree that boost's read_json makes of a payload,
    with a table of functions, one for each path, that fill the data of a request; structured
    values (eatCompound, and compoundValueEnd of parse/compoundValue.cpp); jsonTreat of
    jsonParse/jsonRequest.cpp around it.  The data [S] of a request and its table are those of
    the other files of version 1; a function of a table returns a text, which the walk drops,
    and the data it leaves, or runs into undefined behaviour where the code follows a null
    pointer. *)

From S2P Require Import Prelude Strings Double Bson Compound Json JsonText.

Open Scope Z_scope.

(** ** The tree of boost *)

(** boost::property_tree::ptree: data, and children with their keys in order. *)
Inductive ptree := PT {
  pt_data : string;
  pt_children : list (string * ptree)
}.

(** The documented conversion of JSON: an object has its members as children, an array its items
    under empty keys, and a string, a number or a word is data. *)
Fixpoint ptree_of (t : jtree) : ptree :=
  match t with
  | JStr s => PT s []
  | JLit w => PT w []
  | JArr l => PT "" (map (fun x => ("", ptree_of x)) l)
  | JObj o => PT "" (map (fun kv => (kv.1, ptree_of kv.2)) o)
  end.

(** What is used of read_json: that it follows that conversion. *)
Class BoostJson := {
  boost_read_json : string -> option ptree;
  boost_reads s t : read_json s = Some t -> (exists o, t = JObj o) -> boost_read_json s = Some (ptree_of t)
}.

Lemma ptree_induction (P : ptree -> Prop) :
  (forall d l, Forall (fun kv => P kv.2) l -> P (PT d l)) -> forall t, P t.
Proof. intros H. fix IH 1. intros [d l]. apply H. induction l as [|[k t] l IHl]; constructor; [apply IH|exact IHl]. Qed.

(** ** Paths *)

Definition compoundRootV : list string :=
  ["/contextElements/contextElement/attributes/attribute/value"; "/attributes/attribute/value";
   "/contextResponses/contextResponse/contextElement/attributes/attribute/value"; "/value"].

Definition isCompoundPath (path : string) : bool := existsb (fun root => String.prefix root (c_str path)) compoundRootV.

Definition isScopeValue (path : string) : bool :=
  let tail := "/scopes/scope/value" in
  let slen := String.length (c_str path) in
  if (slen <? String.length tail)%nat then false else str_drop (slen - String.length tail) (c_str path) =s tail.

(** What follows the last slash; the whole text when there is none. *)
Fixpoint after_slash (s : string) : option string :=
  match s with
  | "" => None
  | String c r => match after_slash r with Some t => Some t | None => if c =c "/"%char then Some r else None end
  end.

Definition last_component (s : string) : string := default s (after_slash s).

(** Take the last letter, the s, away, and make of the ie that is left a y. *)
Definition getArrayElementName (arrayName : string) : string :=
  let elementName := last_component arrayName in
  let elementName := str_take (String.length elementName - 1) elementName in
  let n := String.length elementName in
  if (2 <? n)%nat && (str_drop (n - 2) elementName =s "ie") then str_take (n - 2) elementName +:+ "y" else elementName.

(** ** The members of ConnectionInfo that are changed *)

Record ParseCi := mkParseCi { pci_httpStatusCode : Z; pci_answer : string }.

Definition SccOk200 : Z := 200.
Definition SccBadRequest400 : Z := 400.
Definition illegal_value : ParseCi := mkParseCi SccBadRequest400 "Illegal value for JSON field".

(** ** Structured values *)

(** CompoundValueNode::add of a value: the node that is made, and the container with it. *)
Definition new_child (containerP : CompoundValueNode) (type : ValueType) (name value : string) : CompoundValueNode :=
  let path := cvn_path containerP in
  CVN name type value zero false (Z.of_nat (length (cvn_childV containerP)))
    (if path =s "/" then path +:+ name else path +:+ "/" +:+ name) (cvn_level containerP + 1) [].

Definition add_value (containerP : CompoundValueNode) (type : ValueType) (name value : string) : CompoundValueNode :=
  add containerP (new_child containerP type name value).

Definition set_valueType (type : ValueType) (n : CompoundValueNode) : CompoundValueNode :=
  CVN (cvn_name n) type (cvn_stringValue n) (cvn_numberValue n) (cvn_boolValue n) (cvn_siblingNo n) (cvn_path n)
    (cvn_level n) (cvn_childV n).

(** The loop over the children of a node of the tree. *)
Definition eat_all (f : string -> ptree -> CompoundValueNode -> ParseCi -> CompoundValueNode * ParseCi) :=
  fix go (l : list (string * ptree)) (containerP : CompoundValueNode) (ci : ParseCi) : CompoundValueNode * ParseCi :=
    match l with
    | [] => (containerP, ci)
    | (k, t) :: r => let '(containerP, ci) := f k t containerP ci in go r containerP ci
    end.

(** eatCompound with a container: the container it leaves.  Where the code goes on with a node it
    has added, the children are those of that node. *)
Fixpoint eatCompound (key : string) (t : ptree) (containerP : CompoundValueNode) (ci : ParseCi) : CompoundValueNode * ParseCi :=
  match t with
  | PT nodeValue subtree =>
      let nodeName := c_str key in
      let inside (containerP childP : CompoundValueNode) :=
        let '(childP, ci) := eat_all eatCompound subtree childP ci in (add containerP childP, ci) in
      if negb (nodeName =s "") && negb (nodeValue =s "") then
        if forbidden_value nodeValue then (containerP, illegal_value)
        else eat_all eatCompound subtree (add_value containerP ValueTypeString nodeName nodeValue) ci
      else if (nodeName =s "") && (nodeValue =s "") && (length subtree =? 0)%nat
      then (add_value containerP ValueTypeString "item" "", ci)
      else if negb (nodeName =s "") && (length subtree =? 0)%nat
      then (add_value containerP ValueTypeString nodeName "", ci)
      else if negb (nodeName =s "") then inside containerP (new_child containerP ValueTypeObject nodeName "")
      else if nodeValue =s "" then
        let containerP := set_valueType ValueTypeVector containerP in
        inside containerP (new_child containerP ValueTypeObject "item" "")
      else
        let containerP := set_valueType ValueTypeVector containerP in
        eat_all eatCompound subtree (add_value containerP ValueTypeString "item" nodeValue) ci
  end.

(** eatCompound without a container: the root of the value. *)
Definition eatCompound_root (t : ptree) (ci : ParseCi) : CompoundValueNode * ParseCi :=
  eat_all eatCompound (pt_children t) (toplevel ValueTypeObject) ci.

(** ** The walk *)

Section walk.
Context {S : Type}.

(** JsonNode: a path and the function for it. *)
Record JsonNode := mkJsonNode { jn_path : string; jn_treat : string -> S -> cpp (string * S) }.

(** The assignment of compoundValueEnd: lastContextAttribute->compoundValueP, or
    upcar.res.compoundValueP for the payload word it looks for. *)
Context (setCompound : string -> CompoundValueNode -> S -> cpp S).
Context (payloadWord : string) (parseVector : list JsonNode).

(** compoundValueEnd *)
Definition compoundValueEnd (root : CompoundValueNode) (ci : ParseCi) (pd : S) : cpp (ParseCi * S) :=
  let status := check root in
  let ci := if negb (status =s "OK") then mkParseCi SccBadRequest400 ("compound value error: " +:+ status) else ci in
  pd ← setCompound payloadWord root pd; Ret (ci, pd).

(** treat: whether a function of the table was called. *)
Fixpoint treat_from (vec : list JsonNode) (path value : string) (ci : ParseCi) (pd : S) : cpp (bool * ParseCi * S) :=
  match vec with
  | [] => Ret (false, ci, pd)
  | n :: r =>
      if negb (isScopeValue path) && forbidden_value value then Ret (false, illegal_value, pd)
      else if path =s jn_path n then '(_, pd) ← jn_treat n value pd; Ret (true, ci, pd)
      else treat_from r path value ci pd
  end.

Definition treat : string -> string -> ParseCi -> S -> cpp (bool * ParseCi * S) := treat_from parseVector.

(** The walk returns a text, OK or an error, or throws. *)
Inductive Walked :=
  | Out (res : string) (ci : ParseCi) (pd : S)
  | Threw (what : string) (ci : ParseCi) (pd : S).

Definition walk_all (f : string -> ptree -> ParseCi -> S -> cpp Walked) :=
  fix go (l : list (string * ptree)) (ci : ParseCi) (pd : S) : cpp Walked :=
    match l with
    | [] => Ret (Out "OK" ci pd)
    | (k, t) :: r =>
        w ← f k t ci pd;
        match w with
        | Out res ci pd => if res =s "OK" then go r ci pd else Ret w
        | Threw _ _ _ => Ret w
        end
    end.

(** The path of a node, or None where a child has the name of the items of an array. *)
Definition node_path (path key : string) : option string :=
  let nodeName := c_str key in
  let arrayElementName := getArrayElementName path in
  if negb (nodeName =s "")
  then if negb (nodeName =s arrayElementName) then Some (path +:+ "/" +:+ nodeName) else None
  else Some (path +:+ "/" +:+ arrayElementName).

(** What is done at a node before its children: the end of the walk there, or its children are next. *)
Definition walk_node (path : string) (t : ptree) (ci : ParseCi) (pd : S) : cpp (Walked + (ParseCi * S)) :=
  let nodeValue := pt_data t in
  let noOfChildren := length (pt_children t) in
  '(treated, ci, pd) ← treat path nodeValue ci pd;
  if isCompoundPath path && (nodeValue =s "") && negb (noOfChildren =? 0)%nat then
    let '(root, ci) := eatCompound_root t ci in
    '(ci, pd) ← compoundValueEnd root ci pd;
    Ret (inl (Out (if negb (pci_httpStatusCode ci =? SccOk200) then pci_answer ci else "OK") ci pd))
  else if negb treated then
    let answer := if pci_answer ci =s "" then "JSON Parse Error: unknown field: " +:+ c_str path else pci_answer ci in
    Ret (inl (Out answer (mkParseCi SccBadRequest400 answer) pd))
  else Ret (inr (ci, pd)).

(** jsonParse for a node; inCompoundValue is false throughout. *)
Fixpoint jsonParse (path : string) (key : string) (t : ptree) (ci : ParseCi) (pd : S) : cpp Walked :=
  match node_path path key with
  | None => Ret (Threw ("The object '" +:+ path +:+ "' may not have a child named '" +:+ c_str key +:+ "'") ci pd)
  | Some path =>
      r ← walk_node path t ci pd;
      match r with
      | inl w => Ret w
      | inr (ci, pd) => match t with PT _ subtree => walk_all (jsonParse path) subtree ci pd end
      end
  end.

(** The slashes that a text escapes. *)
Fixpoint backslashFix (content : string) : string :=
  match content with
  | "" => ""
  | String c r =>
      if (c =c "\"%char) && (match r with String d _ => d =c "/"%char | "" => false end) then backslashFix r
      else String c (backslashFix r)
  end.

(** jsonParse for a payload. *)
Definition jsonParse_payload `{BoostJson} (content : string) (ci : ParseCi) (pd : S) : cpp Walked :=
  let content := c_str content in
  let content := if str_contains "\/" content then backslashFix content else content in
  match boost_read_json content with
  | None => Ret (Threw "read_json" ci pd)
  | Some subtree => walk_all (jsonParse "") (pt_children subtree) ci pd
  end.

(** jsonTreat with a request that the table of jsonRequest has: what it answers, and leaves.  [payloadWord]
    is that of the connection, [word] the one that is passed.  The rendering of errors also resets
    the status code of the connection. *)
Definition jsonTreat `{BoostJson} (restErrorReplyGet : string -> Z -> string -> cpp string) (keyword word : string) (init : S)
    (check : S -> cpp string) (content : string) (ci : ParseCi) : cpp (string * ParseCi * S) :=
  if c_str content =s "" then Ret ("OK", ci, init)
  else
    let failed request code details (ci : ParseCi) pd :=
      reply ← restErrorReplyGet request code details; Ret (reply, mkParseCi SccOk200 (pci_answer ci), pd) in
    w ← jsonParse_payload content ci init;
    match w with
    | Threw _ ci pd => failed keyword SccBadRequest400 "JSON Parse Error" ci pd
    | Out res ci pd =>
        if negb (res =s "OK") then failed word SccBadRequest400 res ci pd else res ← check pd; Ret (res, ci, pd)
    end.

End walk.
Arguments JsonNode : clear implicits.
Arguments Walked : clear implicits.

(** ** What a structured value is understood as

    Scalars are texts, and a container without items is an empty text. *)
Fixpoint understood (t : jtree) : json :=
  match t with
  | JStr s | JLit s => JString s
  | JArr [] | JObj [] => JString ""
  | JArr l => JArray (map understood l)
  | JObj o => JObject (map (fun kv => (kv.1, understood kv.2)) o)
  end.

Definition shows_empty (t : jtree) : bool :=
  match t with JStr s | JLit s => s =s "" | JArr l => (length l =? 0)%nat | JObj o => (length o =? 0)%nat end.

(** Names of C, different from each other in an object; no forbidden characters; and an array has an
    item that is not an empty text. *)
Fixpoint eatable (t : jtree) : bool :=
  match t with
  | JStr s | JLit s => negb (forbidden_value s)
  | JArr l => ((length l =? 0)%nat || negb (forallb shows_empty l)) && forallb eatable l
  | JObj o =>
      bool_decide (NoDup (map fst o)) && forallb (fun kv => negb (kv.1 =s "") && (c_str kv.1 =s kv.1) && eatable kv.2) o
  end.

Definition with_children (n : CompoundValueNode) (vt : ValueType) (childV : list CompoundValueNode) : CompoundValueNode :=
  CVN (cvn_name n) vt (cvn_stringValue n) (cvn_numberValue n) (cvn_boolValue n) (cvn_siblingNo n) (cvn_path n)
    (cvn_level n) (cvn_childV n ++ childV).

(** What is known of the node of a value, whatever its place among its siblings. *)
Definition node_for (name : string) (t : jtree) (n : CompoundValueNode) : Prop :=
  cvn_name n = name /\ content n = understood t /\ check n = "OK".

Definition item_name (key : string) : string := if key =s "" then "item" else key.

(** A child that makes a vector of its container. *)
Definition makes_vector (kv : string * jtree) : bool := (kv.1 =s "") && negb (shows_empty kv.2).

Definition eaten (kv : string * jtree) : Prop := forall c ci, exists n,
  eatCompound kv.1 (ptree_of kv.2) c ci = (with_children c (if makes_vector kv then ValueTypeVector else cvn_valueType c) [n], ci) /\
  node_for (item_name kv.1) kv.2 n.

Lemma with_children_nil n : with_children n (cvn_valueType n) [] = n.
Proof. destruct n. unfold with_children. cbn. by rewrite app_nil_r. Qed.

Lemma eat_all_eaten l : Forall eaten l -> forall c ci, exists ns,
  eat_all eatCompound (map (fun kv => (kv.1, ptree_of kv.2)) l) c ci
  = (with_children c (if existsb makes_vector l then ValueTypeVector else cvn_valueType c) ns, ci) /\
  Forall2 (fun kv n => node_for (item_name kv.1) kv.2 n) l ns.
Proof.
  induction 1 as [|kv l H _ IH]; intros c ci.
  - exists []. split; [|constructor]. cbn [map eat_all existsb]. by rewrite with_children_nil.
  - destruct (H c ci) as (n & E & Hn). cbn [map eat_all]. rewrite E.
    destruct (IH (with_children c (if makes_vector kv then ValueTypeVector else cvn_valueType c) [n]) ci) as (ns & -> & Hns).
    exists (n :: ns). split; [|by constructor]. f_equal. unfold with_children. cbn. rewrite <- app_assoc. cbn [app]. f_equal.
    destruct (makes_vector kv); cbn [orb]; [by destruct (existsb _ l)|done].
Qed.

Lemma nodes_contents l ns : Forall2 (fun kv n => node_for (item_name kv.1) kv.2 n) l ns ->
  map content ns = map (fun kv => understood kv.2) l /\
  map (fun n => (cvn_name n, content n)) ns = map (fun kv => (item_name kv.1, understood kv.2)) l /\
  map cvn_name ns = map (fun kv => item_name kv.1) l /\ Forall (fun n => check n = "OK") ns.
Proof.
  induction 1 as [|kv n l ns (H1 & H2 & H3) _ (I1 & I2 & I3 & I4)]; [done|]. cbn [map]. rewrite H1, H2, I1, I2, I3.
  repeat split. by constructor.
Qed.

(** The container of the items of an array, or of the members of an object. *)
Lemma container_for name t n l : (exists a, t = JArr a /\ l = map (fun x => ("", x)) a /\ cvn_valueType n = ValueTypeVector) \/
    (t = JObj l /\ cvn_valueType n = ValueTypeObject /\ Forall (fun kv => negb (kv.1 =s "") = true) l /\ NoDup (map fst l)) ->
  l <> [] -> cvn_name n = name -> Forall2 (fun kv n => node_for (item_name kv.1) kv.2 n) l (cvn_childV n) -> node_for name t n.
Proof.
  intros Ht Hl Hname (H1 & H2 & H3 & H4)%nodes_contents. destruct n as [nm vt s d b sib path lvl childV]. cbn in *. subst nm.
  split; [done|]. destruct Ht as [(a & -> & -> & ->)|(-> & -> & Hk & Hd)].
  - split.
    + cbn [content]. rewrite H1, map_map. by destruct a.
    + cbn [check]. rewrite (bad_item_None childV "item"); [by apply check_children_OK|]. rewrite map_map in H3.
      apply Forall_forall. intros c Hc%(list_elem_of_fmap_2 cvn_name). change (cvn_name <$> childV) with (map cvn_name childV) in Hc.
      rewrite H3 in Hc. by apply list_elem_of_fmap in Hc as (x & -> & _).
  - assert (map (fun kv : string * jtree => item_name kv.1) l = map fst l) as E.
    { apply map_ext_in. intros kv Hin%list_elem_of_In. rewrite Forall_forall in Hk. specialize (Hk kv Hin). unfold item_name.
      by destruct (kv.1 =s ""). }
    split.
    + cbn [content understood]. rewrite H2. destruct l; [done|]. cbv iota. f_equal. apply map_ext_in. intros kv Hin%list_elem_of_In.
      rewrite Forall_forall in Hk. specialize (Hk kv Hin). unfold item_name. by destruct (kv.1 =s "").
    + cbn [check]. rewrite (proj2 (no_duplicated childV)); [by apply check_children_OK|]. by rewrite H3, E.
Qed.

Definition key_ok (key : string) : bool := c_str key =s key.

Lemma forbidden_empty s : forbidden_value s = false -> s = "" \/ s <> "".
Proof. intros _. destruct s; [by left|by right]. Qed.

Lemma new_node_for c type name value : type <> ValueTypeVector -> type <> ValueTypeObject ->
  content (new_child c type name value) = JString value -> forbidden_value value = false ->
  exists n, add_value c type name value = with_children c (cvn_valueType c) [n] /\ cvn_name n = name /\
    content n = JString value /\ check n = "OK".
Proof.
  intros H1 H2 Hc Hf. eexists. split; [reflexivity|]. split; [done|]. split; [done|]. cbn in *. by destruct type; rewrite ?Hf.
Qed.

Lemma eat_text s key c ci : forbidden_value s = false -> key_ok key = true -> exists n,
  eatCompound key (PT s []) c ci
  = (with_children c (if (key =s "") && negb (s =s "") then ValueTypeVector else cvn_valueType c) [n], ci) /\
  cvn_name n = item_name key /\ content n = JString s /\ check n = "OK".
Proof.
  intros Hf Hk%str_eqb_eq. cbn [eatCompound eat_all length Nat.eqb]. rewrite Hk. unfold item_name.
  destruct (key =s "") eqn:Ek, (s =s "") eqn:Es; cbn [negb andb].
  - apply str_eqb_eq in Es as ->. destruct (new_node_for c ValueTypeString "item" "") as (n & -> & H); [done..|]. by exists n.
  - destruct (new_node_for (set_valueType ValueTypeVector c) ValueTypeString "item" s) as (n & -> & H); [done..|]. by exists n.
  - apply str_eqb_eq in Es as ->. destruct (new_node_for c ValueTypeString key "") as (n & -> & H); [done..|]. by exists n.
  - rewrite Hf. destruct (new_node_for c ValueTypeString key s) as (n & -> & H); [done..|]. by exists n.
Qed.

(** A container that has children. *)
Lemma eat_container key l c ci : l <> [] -> Forall eaten l -> key_ok key = true -> exists n ns,
  eatCompound key (PT "" (map (fun kv => (kv.1, ptree_of kv.2)) l)) c ci
  = (with_children c (if key =s "" then ValueTypeVector else cvn_valueType c) [n], ci) /\
  cvn_name n = item_name key /\ cvn_valueType n = (if existsb makes_vector l then ValueTypeVector else ValueTypeObject) /\
  cvn_childV n = ns /\ Forall2 (fun kv n => node_for (item_name kv.1) kv.2 n) l ns.
Proof.
  intros Hl H Hk%str_eqb_eq. cbn [eatCompound]. rewrite Hk, length_map.
  assert ((length l =? 0)%nat = false) as -> by (by destruct l). rewrite !andb_false_r. unfold item_name.
  change ("" =s "") with true. destruct (key =s "") eqn:Ek; cbn [negb andb].
  - apply str_eqb_eq in Ek as ->. cbn [andb].
    destruct (eat_all_eaten l H (new_child (set_valueType ValueTypeVector c) ValueTypeObject "item" "") ci) as (ns & -> & Hns).
    eexists _, ns. split; [reflexivity|]. done.
  - destruct (eat_all_eaten l H (new_child c ValueTypeObject key "") ci) as (ns & -> & Hns).
    eexists _, ns. split; [reflexivity|]. done.
Qed.

Lemma no_vector o : forallb (fun kv : string * jtree => negb (kv.1 =s "") && (c_str kv.1 =s kv.1) && eatable kv.2) o = true ->
  existsb makes_vector o = false /\ Forall (fun kv => negb (kv.1 =s "") = true) o /\ Forall (fun kv => key_ok kv.1 = true) o /\
  Forall (fun kv => eatable kv.2 = true) o.
Proof.
  induction o as [|kv o IH]; [done|]. cbn [forallb existsb]. rewrite !andb_true_iff. intros [[[H1 H2] H3] (-> & I1 & I2 & I3)%IH].
  unfold makes_vector. pose proof H1 as H1'. apply negb_true_iff in H1' as ->. cbn [andb orb]. repeat split; by constructor.
Qed.

Lemma items_vector l : existsb makes_vector (map (fun x => ("", x)) l) = negb (forallb shows_empty l).
Proof. induction l as [|t l IH]; [done|]. cbn [map existsb forallb]. rewrite IH, negb_andb. unfold makes_vector. done. Qed.

(** Every value is eaten: a node is added for it. *)
Lemma eaten_all t : eatable t = true -> forall key, key_ok key = true -> eaten (key, t).
Proof.
  induction t as [s|s|l IH|o IH] using jtree_induction; intros He key Hk c ci; cbn [fst snd ptree_of].
  - cbn [eatable] in He. apply negb_true_iff in He. destruct (eat_text s key c ci He Hk) as (n & -> & Hn). by exists n.
  - cbn [eatable] in He. apply negb_true_iff in He. destruct (eat_text s key c ci He Hk) as (n & -> & Hn). by exists n.
  - destruct l as [|x l].
    { destruct (eat_text "" key c ci eq_refl Hk) as (n & E & Hn). exists n. split; [|done]. exact E. }
    cbn [eatable length Nat.eqb orb] in He. apply andb_true_iff in He as [Hv He]. rewrite forallb_forall in He.
    set (l' := x :: l) in *. assert (Forall eaten (map (fun x => ("", x)) l')) as Hall.
    { apply Forall_map, Forall_forall. intros y Hy. rewrite Forall_forall in IH. apply (IH y Hy); [by apply He, list_elem_of_In|done]. }
    assert (map (fun x => ("", x)) l' <> []) as Hne by (unfold l'; discriminate).
    destruct (eat_container key _ c ci Hne Hall Hk) as (n & ns & E & H1 & H2 & H3 & H4). rewrite map_map in E.
    exists n. split.
    + unfold makes_vector. cbn [fst snd]. assert (shows_empty (JArr l') = false) as -> by done. cbn [negb]. rewrite andb_true_r. exact E.
    + rewrite items_vector, Hv in H2. eapply container_for; [left; by exists l'|done|done|by rewrite H3].
  - destruct o as [|x o].
    { destruct (eat_text "" key c ci eq_refl Hk) as (n & E & Hn). exists n. split; [|done]. exact E. }
    cbn [eatable] in He. apply andb_true_iff in He as [Hd He]. apply bool_decide_eq_true in Hd.
    apply no_vector in He as (Hv & Hn & Hkk & He). set (o' := x :: o) in *.
    assert (Forall eaten o') as Hall.
    { rewrite Forall_forall in IH, Hkk, He |- *. intros [k v] Hin. apply (IH _ Hin); [by apply (He (k, v))|by apply (Hkk (k, v))]. }
    assert (o' <> []) as Hne by (unfold o'; discriminate). destruct (eat_container key _ c ci Hne Hall Hk) as (n & ns & E & H1 & H2 & H3 & H4).
    exists n. split.
    + unfold makes_vector. cbn [fst snd]. assert (shows_empty (JObj o') = false) as -> by done. cbn [negb]. rewrite andb_true_r. exact E.
    + rewrite Hv in H2. eapply container_for; [right; done|done|done|by rewrite H3].
Qed.

(** The root of a value. *)
Lemma eatCompound_root_spec t ci : eatable t = true -> shows_empty t = false -> (exists l, t = JArr l) \/ (exists o, t = JObj o) ->
  exists n, eatCompound_root (ptree_of t) ci = (n, ci) /\ node_for "toplevel" t n.
Proof.
  intros He Hs Ht. unfold eatCompound_root.
  assert (exists l, pt_children (ptree_of t) = map (fun kv => (kv.1, ptree_of kv.2)) l /\ Forall eaten l /\ l <> [] /\
    ((exists a, t = JArr a /\ l = map (fun x => ("", x)) a /\ existsb makes_vector l = true) \/
     (t = JObj l /\ existsb makes_vector l = false /\ Forall (fun kv => negb (kv.1 =s "") = true) l /\ NoDup (map fst l)))) as (l & -> & Hl & Hne & Hcase).
  { destruct Ht as [[l ->]|[o ->]].
    - exists (map (fun x => ("", x)) l). cbn [ptree_of pt_children eatable] in *. rewrite map_map. apply andb_true_iff in He as [Hv He].
      rewrite forallb_forall in He. split; [done|]. split.
      + apply Forall_map, Forall_forall. intros y Hy. apply eaten_all; [by apply He, list_elem_of_In|done].
      + split; [by destruct l|]. left. exists l. rewrite items_vector. destruct l; [done|]. by cbn [length Nat.eqb orb] in Hv.
    - exists o. cbn [ptree_of pt_children eatable] in *. apply andb_true_iff in He as [Hd He]. apply bool_decide_eq_true in Hd.
      apply no_vector in He as (Hv & Hn & Hkk & He). split; [done|]. split; [|split; [by destruct o|by right]].
      rewrite Forall_forall in Hkk, He |- *. intros [k v] Hin. apply eaten_all; [by apply (He (k, v))|by apply (Hkk (k, v))]. }
  destruct (eat_all_eaten l Hl (toplevel ValueTypeObject) ci) as (ns & -> & Hns). eexists. split; [reflexivity|].
  destruct Hcase as [(a & -> & -> & Hv)|(-> & Hv & Hk & Hd)]; rewrite Hv.
  - eapply container_for; [left; by exists a|done|done|exact Hns].
  - eapply container_for; [right; by split|done|done|exact Hns].
Qed.

(** ** What a walk accepts *)

Fixpoint no_forbidden (t : ptree) : bool :=
  match t with PT data l => negb (forbidden_value data) && forallb (fun kv => no_forbidden kv.2) l end.

(** No text of a payload has forbidden characters, but for the values of scopes. *)
Fixpoint clean (path key : string) (t : ptree) : bool :=
  match node_path path key with
  | None => false
  | Some path =>
      match t with
      | PT data l =>
          (isScopeValue path || negb (forbidden_value data)) &&
          (if isCompoundPath path && (data =s "") && negb (length l =? 0)%nat
           then forallb (fun kv => no_forbidden kv.2) l else forallb (fun kv => clean path kv.1 kv.2) l)
      end
  end.

(** What eating does: the container gets nodes, and if they pass the check, their texts do. *)
Definition eats_cleanly (l : list (string * ptree)) (c c' : CompoundValueNode) (ci ci' : ParseCi) : Prop :=
  ci' = illegal_value \/
  (ci' = ci /\ exists vt ns, c' = with_children c vt ns /\ (vt = cvn_valueType c \/ vt = ValueTypeVector) /\
     (Forall (fun n => check n = "OK") ns -> forallb (fun kv => no_forbidden kv.2) l = true)).

Lemma eats_nil c ci : eats_cleanly [] c c ci ci.
Proof. right. split; [done|]. exists (cvn_valueType c), []. rewrite with_children_nil. tauto. Qed.

Lemma eats_cons kv l c c1 c2 ci ci1 ci2 : eats_cleanly [kv] c c1 ci ci1 -> eats_cleanly l c1 c2 ci1 ci2 -> eats_cleanly (kv :: l) c c2 ci ci2.
Proof.
  intros [->|[-> (vt & ns & -> & Ht & Hc)]] [->|[-> (vt' & ns' & -> & Ht' & Hc')]]; try by left. right. split; [done|].
  exists vt', (ns ++ ns'). split; [unfold with_children; cbn; by rewrite <- app_assoc|]. split.
  - cbn in Ht'. destruct Ht' as [->|]; tauto.
  - intros [H1 H2]%Forall_app. cbn [forallb]. apply Hc' in H2 as ->. apply Hc in H1. cbn [forallb] in H1. by rewrite H1.
Qed.

Lemma eat_all_cleanly l : Forall (fun kv => forall key c ci, let '(c', ci') := eatCompound key kv.2 c ci in eats_cleanly [kv] c c' ci ci') l ->
  forall c ci, let '(c', ci') := eat_all eatCompound l c ci in eats_cleanly l c c' ci ci'.
Proof.
  induction 1 as [|[k t] l H _ IH]; intros c ci; [apply eats_nil|]. cbn [eat_all]. specialize (H k c ci). cbn [snd] in H.
  destruct (eatCompound k t c ci) as [c1 ci1]. specialize (IH c1 ci1). destruct (eat_all eatCompound l c1 ci1) as [c2 ci2].
  by eapply eats_cons.
Qed.

Lemma checked_children n : (cvn_valueType n = ValueTypeObject \/ cvn_valueType n = ValueTypeVector) -> check n = "OK" ->
  Forall (fun c => check c = "OK") (cvn_childV n).
Proof.
  destruct n as [nm vt s d b sib path lvl childV]. cbn [cvn_valueType cvn_childV check]. intros Ht H. apply check_children_OK.
  destruct Ht as [-> | ->]; revert H; [destruct (duplicated childV)|destruct (bad_item childV), childV]; done.
Qed.

Lemma eatCompound_cleanly t kv : kv.2 = t -> forall key c ci, let '(c', ci') := eatCompound key t c ci in eats_cleanly [kv] c c' ci ci'.
Proof.
  revert kv. induction t as [data l IH] using ptree_induction. intros [k ?] E key c ci. cbn [snd] in E. subst.
  assert (Forall (fun kv => forall key c ci, let '(c', ci') := eatCompound key kv.2 c ci in eats_cleanly [kv] c c' ci ci') l) as Hl.
  { rewrite Forall_forall in IH |- *. intros kv Hin. by apply (IH kv Hin). }
  pose proof (eat_all_cleanly l Hl) as Hall. clear IH Hl. cbn [eatCompound].
  assert (forall c1 vt n, (n = new_child c ValueTypeString (cvn_name n) data) -> c1 = with_children c vt [n] ->
    (vt = cvn_valueType c \/ vt = ValueTypeVector) ->
    let '(c', ci') := eat_all eatCompound l c1 ci in eats_cleanly [(k, PT data l)] c c' ci ci') as Hstring.
  { intros c1 vt n Hn -> Hvt. specialize (Hall (with_children c vt [n]) ci). destruct (eat_all _ _ _ _) as [c' ci'].
    destruct Hall as [->|[-> (vt' & ns & -> & Ht & Hc)]]; [by left|]. right. split; [done|]. exists vt', (n :: ns).
    split; [unfold with_children; cbn; by rewrite <- app_assoc|]. split; [cbn in Ht; destruct Ht as [->|]; tauto|].
    rewrite Forall_cons. intros [Hch Hns%Hc]. cbn [forallb no_forbidden snd]. rewrite Hns, Hn in *. cbn [check new_child] in Hch. rewrite andb_true_r.
    by destruct (forbidden_value data). }
  assert (forall vt name, data = "" -> (vt = cvn_valueType c \/ vt = ValueTypeVector) ->
    let '(c', ci') := (let '(childP, ci') := eat_all eatCompound l (new_child (set_valueType vt c) ValueTypeObject name "") ci in
                       (add (set_valueType vt c) childP, ci')) in eats_cleanly [(k, PT data l)] c c' ci ci') as Hinside.
  { intros vt name -> Hvt. specialize (Hall (new_child (set_valueType vt c) ValueTypeObject name "") ci). destruct (eat_all _ _ _ _) as [n ci'].
    destruct Hall as [->|[-> (vt' & ns & -> & Ht & Hc)]]; [by left|]. right. split; [done|]. eexists vt, [_].
    split; [reflexivity|]. split; [done|]. rewrite Forall_singleton. intros Hch%checked_children; [|cbn in *; destruct Ht; tauto].
    cbn [cvn_childV with_children new_child app] in Hch. cbn [forallb no_forbidden snd]. rewrite Hc by exact Hch. done. }
  destruct (c_str key =s "") eqn:Ek, (data =s "") eqn:Ed; cbn [negb andb].
  - apply str_eqb_eq in Ed. destruct l as [|kv l]; cbn [length Nat.eqb].
    + right. split; [done|]. eexists (cvn_valueType c), [_]. split; [reflexivity|]. split; [by left|]. subst. done.
    + by apply (Hinside ValueTypeVector "item" Ed); right.
  - eapply Hstring; [|reflexivity|by right]. done.
  - apply str_eqb_eq in Ed. destruct l as [|kv l]; cbn [length Nat.eqb].
    + right. split; [done|]. eexists (cvn_valueType c), [_]. split; [reflexivity|]. split; [by left|]. subst. done.
    + specialize (Hinside (cvn_valueType c) (c_str key) Ed (or_introl eq_refl)). destruct c; exact Hinside.
  - destruct (forbidden_value data); [by left|]. eapply Hstring; [|reflexivity|by left]. done.
Qed.

Section accepted.
Context {S : Type} (setCompound : string -> CompoundValueNode -> S -> cpp S) (payloadWord : string) (parseVector : list (JsonNode S)).

Abbreviation walk := (jsonParse setCompound payloadWord parseVector).

Lemma treat_from_spec vec path value ci (pd : S) : vec <> [] -> treat_from vec path value ci pd
  = if negb (isScopeValue path) && forbidden_value value then Ret (false, illegal_value, pd)
    else match List.find (fun n => path =s jn_path n) vec with
         | Some n => '(_, pd) ← jn_treat n value pd; Ret (true, ci, pd)
         | None => Ret (false, ci, pd)
         end.
Proof.
  induction vec as [|n vec IH]; [done|]. intros _. cbn [treat_from List.find].
  destruct (negb (isScopeValue path) && forbidden_value value) eqn:E; [done|]. destruct (path =s jn_path n); [done|].
  destruct vec as [|n' vec]; [done|]. rewrite IH by done. done.
Qed.

Definition accepting (ci : ParseCi) : Prop := pci_httpStatusCode ci = SccOk200 \/ pci_answer ci <> "OK".

(** What treat leaves: an error, or a text without forbidden characters. *)
Lemma treat_accepts path value ci pd treated ci' pd' : parseVector <> [] ->
  treat parseVector path value ci pd = Ret (treated, ci', pd') ->
  (treated = false /\ ci' = illegal_value /\ forbidden_value value = true) \/
  (ci' = ci /\ isScopeValue path || negb (forbidden_value value) = true).
Proof.
  intros Hp H. unfold treat in H. rewrite treat_from_spec in H by done.
  destruct (negb (isScopeValue path) && forbidden_value value) eqn:E.
  - left. apply andb_true_iff in E as [_ E]. by injection H as <- <- _.
  - right. split.
    + destruct (List.find _ _) as [n|]; [|by injection H as _ <- _]. destruct (jn_treat n value pd) as [[? ?]| |]; [|done|done].
      by injection H as _ <- _.
    + apply andb_false_iff in E as [->%negb_false_iff| ->]; [done|by rewrite orb_true_r].
Qed.

Lemma eatCompound_root_cleanly t ci root ci' : eatCompound_root t ci = (root, ci') ->
  ci' = illegal_value \/ (ci' = ci /\ (check root = "OK" -> forallb (fun kv => no_forbidden kv.2) (pt_children t) = true)).
Proof.
  unfold eatCompound_root. intros E.
  assert (eats_cleanly (pt_children t) (toplevel ValueTypeObject) root ci ci') as H.
  { pose proof (eat_all_cleanly (pt_children t)) as H. specialize (H ltac:(apply Forall_forall; intros kv _; by apply eatCompound_cleanly)).
    specialize (H (toplevel ValueTypeObject) ci). by rewrite E in H. }
  destruct H as [->|[-> (vt & ns & -> & Ht & Hc)]]; [by left|]. right. split; [done|]. intros Hch%checked_children; [|cbn in *; tauto].
  by apply Hc.
Qed.

(** The state of a parse that has met no error. *)
Definition no_parse_error (ci : ParseCi) : Prop := pci_httpStatusCode ci = SccOk200 /\ pci_answer ci <> "OK".

Definition is_compound_node (path : string) (t : ptree) : bool :=
  isCompoundPath path && (pt_data t =s "") && negb (length (pt_children t) =? 0)%nat.

(** A node whose walk goes on or ends well. *)
Lemma walk_node_accepts path t ci pd r : parseVector <> [] -> no_parse_error ci ->
  walk_node setCompound payloadWord parseVector path t ci pd = Ret r ->
  match r with
  | inl (Out res ci' _) => res = "OK" -> ci' = ci /\ isScopeValue path || negb (forbidden_value (pt_data t)) = true /\
      is_compound_node path t = true /\ forallb (fun kv => no_forbidden kv.2) (pt_children t) = true
  | inl (Threw _ _ _) => True
  | inr (ci', _) => ci' = ci /\ isScopeValue path || negb (forbidden_value (pt_data t)) = true /\ is_compound_node path t = false
  end.
Proof.
  intros Hp [Hci Hca]. unfold walk_node. fold (is_compound_node path t).
  destruct (treat parseVector path (pt_data t) ci pd) as [[[treated ci1] pd1]| |] eqn:Et; [|done|done].
  apply treat_accepts in Et as Hr; [|done]. cbn [mbind cpp_bind]. destruct (is_compound_node path t) eqn:Ec.
  - destruct (eatCompound_root t ci1) as [root ci2] eqn:Ee. unfold compoundValueEnd.
    destruct (setCompound payloadWord root pd1) as [pd2| |]; [|done|done]. cbn [mbind cpp_bind]. intros [= <-].
    assert (Hd : pt_data t = "").
    { unfold is_compound_node in Ec. by apply andb_true_iff in Ec as [[_ Ec%str_eqb_eq]%andb_true_iff _]. }
    destruct Hr as [(_ & _ & Hf)|[-> Hs]]; [by rewrite Hd in Hf|]. rewrite Hd in Hs |- *.
    apply eatCompound_root_cleanly in Ee as [->|[-> Hc]]; destruct (check root =s "OK") eqn:Eck; cbn [negb]; try done.
    apply str_eqb_eq in Eck. rewrite Hci. cbn. intros _. split; [done|]. split; [done|]. split; [done|]. by apply Hc.
  - destruct treated; cbn [negb]; intros [= <-].
    + by destruct Hr as [(? & _)|[-> Hs]].
    + intros Hans. exfalso. destruct Hr as [(_ & -> & _)|[-> _]]; [done|]. by destruct (pci_answer ci =s "").
Qed.

Lemma walk_all_accepts f (Q : string * ptree -> Prop) l :
  Forall (fun kv => forall ci pd ci' pd', no_parse_error ci -> f kv.1 kv.2 ci pd = Ret (Out "OK" ci' pd') -> ci' = ci /\ Q kv) l ->
  forall ci pd ci' pd', no_parse_error ci -> walk_all (S := S) f l ci pd = Ret (Out "OK" ci' pd') -> ci' = ci /\ Forall Q l.
Proof.
  induction 1 as [|[k t] l H _ IH]; intros ci pd ci' pd' Hci; cbn [walk_all]; [by intros [= -> _]|].
  destruct (f k t ci pd) as [[res ci1 pd1|]| |] eqn:E; cbn [mbind cpp_bind]; [|done..].
  destruct (res =s "OK") eqn:Er; [|intros [= ->]; by rewrite str_eqb_refl in Er]. apply str_eqb_eq in Er as ->. intros Hw.
  destruct (H ci pd ci1 pd1 Hci E) as [-> HQ]. destruct (IH ci pd1 ci' pd' Hci Hw) as [-> HQs]. split; [done|by constructor].
Qed.

Lemma walk_accepts t : parseVector <> [] -> forall path key ci pd ci' pd', no_parse_error ci ->
  walk path key t ci pd = Ret (Out "OK" ci' pd') -> ci' = ci /\ clean path key t = true.
Proof.
  intros Hp. induction t as [data l IH] using ptree_induction. intros path key ci pd ci' pd' Hci. cbn [jsonParse clean].
  destruct (node_path path key) as [path'|]; [|done].
  destruct (walk_node setCompound payloadWord parseVector path' (PT data l) ci pd) as [r| |] eqn:E; [|done|done]. cbn [mbind cpp_bind].
  apply walk_node_accepts in E; [|done|done]. fold (is_compound_node path' (PT data l)).
  change (isCompoundPath path' && (data =s "") && negb (length l =? 0)%nat) with (is_compound_node path' (PT data l)).
  destruct r as [[res ci1 pd1|]|[ci1 pd1]]; [|done|].
  - intros [= -> -> ->]. destruct (E eq_refl) as (-> & Hs & -> & Hc). cbn [pt_data pt_children] in *. by rewrite Hs, Hc.
  - destruct E as (-> & Hs & ->). cbn [pt_data] in Hs. rewrite Hs. cbn [andb]. intros Hw.
    apply (walk_all_accepts _ (fun kv => clean path' kv.1 kv.2 = true)) in Hw as [-> Hw]; [|..|done].
    + split; [done|]. apply forallb_forall. intros kv Hin. rewrite Forall_forall in Hw. by apply Hw, list_elem_of_In.
    + rewrite Forall_forall in IH |- *. intros kv Hin ci2 pd2 ci3 pd3 Hci2. by apply (IH kv Hin).
Qed.

(** C19. What a walk accepts has no forbidden character in any value, at any depth, in structured values
    too; the values of scopes are left for later.  The names of the members of a structured
    value are not looked at (member_name_unchecked). *)
Theorem accepted_clean l ci pd ci' pd' : parseVector <> [] -> no_parse_error ci ->
  walk_all (walk "") l ci pd = Ret (Out "OK" ci' pd') -> ci' = ci /\ Forall (fun kv => clean "" kv.1 kv.2 = true) l.
Proof.
  intros Hp Hci. apply walk_all_accepts; [|done]. apply Forall_forall. intros kv _ ci1 pd1 ci2 pd2 Hci1. by apply walk_accepts.
Qed.

(** ** Walking what is accepted *)

(** A path whose function in the table is [f]. *)
Definition leads (path : string) (f : string -> S -> cpp (string * S)) : Prop := exists n,
  List.find (fun n => path =s jn_path n) parseVector = Some n /\ jn_treat n = f.

Lemma walk_step path key t ci pd path' f res pd' : node_path path key = Some path' -> leads path' f ->
  isScopeValue path' || negb (forbidden_value (pt_data t)) = true -> is_compound_node path' t = false ->
  f (pt_data t) pd = Ret (res, pd') -> walk path key t ci pd = walk_all (walk path') (pt_children t) ci pd'.
Proof.
  intros Hpath (n & Hn & <-) Hf Hc Ht. destruct t as [data l]. cbn [jsonParse]. rewrite Hpath. unfold walk_node, treat.
  rewrite treat_from_spec by (by destruct parseVector). cbn [pt_data] in *.
  assert (negb (isScopeValue path') && forbidden_value data = false) as -> by (by destruct (isScopeValue path'), (forbidden_value data)).
  rewrite Hn, Ht. cbn [mbind cpp_bind]. fold (is_compound_node path' (PT data l)) in *.
  change (isCompoundPath path' && (data =s "") && negb (length (pt_children (PT data l)) =? 0)%nat) with (is_compound_node path' (PT data l)).
  by rewrite Hc.
Qed.

(** A structured value. *)
Lemma walk_compound path key t ci pd path' f res pd' : node_path path key = Some path' -> leads path' f ->
  isCompoundPath path' = true -> f "" pd = Ret (res, pd') -> eatable t = true -> shows_empty t = false ->
  (exists l, t = JArr l) \/ (exists o, t = JObj o) -> no_parse_error ci -> exists n, node_for "toplevel" t n /\
  walk path key (ptree_of t) ci pd = (pd'' ← setCompound payloadWord n pd'; Ret (Out "OK" ci pd'')).
Proof.
  intros Hpath (nd & Hn & <-) Hc Ht He Hs Hj [Hci _]. destruct (eatCompound_root_spec t ci He Hs Hj) as (n & E & Hnode).
  exists n. split; [done|]. assert (exists l, ptree_of t = PT "" l /\ (length l =? 0)%nat = false) as (l & Et & Hl).
  { destruct Hj as [[l ->]|[o ->]]; cbn [ptree_of shows_empty] in *; eexists; (split; [reflexivity|]); by rewrite length_map. }
  rewrite Et in *. cbn [jsonParse]. rewrite Hpath. unfold walk_node, treat. rewrite treat_from_spec by (by destruct parseVector).
  cbn [pt_data pt_children]. change (forbidden_value "") with false. rewrite andb_false_r, Hn, Ht. cbn [mbind cpp_bind].
  rewrite Hc, Hl. change ("" =s "") with true. cbn [andb negb]. rewrite E. unfold compoundValueEnd.
  destruct Hnode as (_ & _ & ->). rewrite str_eqb_refl. cbn [negb]. destruct (setCompound payloadWord n pd') as [pd''| |]; [|done|done].
  cbn [mbind cpp_bind]. by rewrite Hci.
Qed.

(** Consecutive nodes, whatever follows. *)
Definition walks (path : string) (l : list (string * ptree)) (ci : ParseCi) (pd pd' : S) : Prop := forall rest,
  walk_all (walk path) (l ++ rest) ci pd = walk_all (walk path) rest ci pd'.

Lemma walks_nil path ci pd : walks path [] ci pd pd.
Proof. done. Qed.

Lemma walks_app path l1 l2 ci pd pd1 pd2 : walks path l1 ci pd pd1 -> walks path l2 ci pd1 pd2 -> walks path (l1 ++ l2) ci pd pd2.
Proof. intros H1 H2 rest. by rewrite <- app_assoc, H1, H2. Qed.

Lemma walks_one path k t ci pd pd' : walk path k t ci pd = Ret (Out "OK" ci pd') -> walks path [(k, t)] ci pd pd'.
Proof. intros H rest. cbn [app walk_all]. by rewrite H. Qed.

Lemma walks_cons path k t l ci pd pd1 pd2 : walk path k t ci pd = Ret (Out "OK" ci pd1) -> walks path l ci pd1 pd2 ->
  walks path ((k, t) :: l) ci pd pd2.
Proof. intros H1. apply (walks_app path [(k, t)]). by apply walks_one. Qed.

Lemma walks_all path l ci pd pd' : walks path l ci pd pd' -> walk_all (walk path) l ci pd = Ret (Out "OK" ci pd').
Proof. intros H. specialize (H []). by rewrite app_nil_r in H. Qed.

(** A node whose children are walked. *)
Lemma walk_inside path key t ci pd path' f res pd1 pd2 : node_path path key = Some path' -> leads path' f ->
  isScopeValue path' || negb (forbidden_value (pt_data t)) = true -> is_compound_node path' t = false ->
  f (pt_data t) pd = Ret (res, pd1) -> walks path' (pt_children t) ci pd1 pd2 -> walk path key t ci pd = Ret (Out "OK" ci pd2).
Proof. intros H1 H2 H3 H4 H5 H6. rewrite (walk_step path key t ci pd path' f res pd1) by done. by apply walks_all. Qed.

(** A text. *)
Lemma walk_text path key s ci pd path' f res pd' : node_path path key = Some path' -> leads path' f ->
  forbidden_value s = false -> f s pd = Ret (res, pd') -> walk path key (PT s []) ci pd = Ret (Out "OK" ci pd').
Proof.
  intros H1 H2 H3 H4. eapply walk_inside; [done|done|cbn [pt_data]; by rewrite H3, orb_true_r| |done|apply walks_nil].
  unfold is_compound_node. cbn. by rewrite !andb_false_r.
Qed.

End accepted.

(** ** Values that belong to nothing *)

(** A structured value under a key of the payload that starts with value is taken for the value of
    the attribute that came last; [unowned] is that the data has none, so that the code follows a
    null pointer. *)
Definition no_value_entry {S} (parseVector : list (JsonNode S)) : bool :=
  forallb (fun n => negb (String.prefix "/value" (jn_path n))) parseVector.

Lemma find_no_value {S} (parseVector : list (JsonNode S)) path : no_value_entry parseVector = true -> String.prefix "/value" path = true ->
  List.find (fun n => path =s jn_path n) parseVector = None.
Proof.
  intros H Hp. induction parseVector as [|n l IH]; [done|]. cbn [no_value_entry forallb List.find] in *. apply andb_true_iff in H as [Hn Hl].
  destruct (path =s jn_path n) eqn:E; [|by apply IH]. apply str_eqb_eq in E. by rewrite <- E, Hp in Hn.
Qed.

Definition value_key (k : string) : Prop := String.prefix "value" k = true /\ c_str k = k.

Lemma value_key_path k : value_key k -> node_path "" k = Some ("/" +:+ k) /\ isCompoundPath ("/" +:+ k) = true /\ String.prefix "/value" ("/" +:+ k) = true.
Proof.
  intros [Hp Hc]. unfold node_path. rewrite Hc. change (getArrayElementName "") with "".
  assert ((k =s "") = false) as -> by (apply str_eqb_neq; by intros ->). cbn [negb].
  assert (String.prefix "/value" ("/" +:+ k) = true) as H by exact Hp. split; [done|]. split; [|done].
  unfold isCompoundPath. assert (c_str ("/" +:+ k) = "/" +:+ k) as -> by (change (c_str ("/" +:+ k)) with ("/" +:+ c_str k); by rewrite Hc).
  apply existsb_exists. exists "/value". split; [|done]. right. right. right. by left.
Qed.

Lemma value_unowned {S} (setCompound : string -> CompoundValueNode -> S -> cpp S) word parseVector k kv l rest ci pd m :
  parseVector <> [] -> no_value_entry parseVector = true -> (forall n, setCompound word n pd = UB m) -> value_key k ->
  walk_all (jsonParse setCompound word parseVector "") ((k, PT "" (kv :: l)) :: rest) ci pd = UB m.
Proof.
  intros Hne Hv Hset (Hpath & Hc & Hp)%value_key_path. cbn [walk_all jsonParse]. rewrite Hpath. unfold walk_node, treat.
  rewrite treat_from_spec by done. cbn [pt_data pt_children]. change (forbidden_value "") with false. rewrite andb_false_r.
  rewrite find_no_value by done. cbn [mbind cpp_bind length Nat.eqb negb]. rewrite Hc. change ("" =s "") with true. cbn [andb].
  destruct (eatCompound_root _ ci) as [root ci']. unfold compoundValueEnd. by rewrite Hset.
Qed.

Lemma payload_unowned {S} `{BoostJson} (setCompound : string -> CompoundValueNode -> S -> cpp S) word parseVector errors keyword w (init : S)
    check content k kv l rest ci m :
  parseVector <> [] -> no_value_entry parseVector = true -> (forall n, setCompound word n init = UB m) -> value_key k ->
  read_json content = Some (JObj ((k, JObj (kv :: l)) :: rest)) -> str_contains "\/" content = false ->
  jsonTreat setCompound word parseVector errors keyword w init check content ci = UB m.
Proof.
  intros Hne Hv Hset Hk Hr Hb. assert (c_str content = content) as Hc by exact (c_str_id _ (read_json_no_nul _ _ Hr)).
  unfold jsonTreat. rewrite Hc. assert ((content =s "") = false) as -> by (apply str_eqb_neq; by intros ->).
  unfold jsonParse_payload. rewrite Hc, Hb. rewrite (boost_reads content _ Hr) by (by eexists). cbn [ptree_of pt_children map fst snd].
  by rewrite (value_unowned _ _ _ _ _ _ _ _ _ m).
Qed.

(** ** A vector of empty texts *)

(** Its items are taken for members of one name, so that the value is refused. *)
Lemma empty_texts_refused : check (eatCompound_root (ptree_of (JArr [JStr ""; JStr ""])) (mkParseCi 200 "")).1
  = "duplicated tag-name: /item/ in path: /".
Proof. reflexivity. Qed.

(** A forbidden character in the name of a member of a structured value is accepted. *)
Example member_name_unchecked :
  let r := eatCompound_root (ptree_of (JObj [("x<y", JStr "z")])) (mkParseCi 200 "") in
  check r.1 = "OK" /\ r.2 = mkParseCi 200 "" /\ forbidden_value "x<y" = true.
Proof. repeat split; reflexivity. Qed.

(** ** A witness *)

(** A table with one path, whose data are the texts found there. *)
Definition ids_table : list (JsonNode (list string)) := [mkJsonNode "/id" (fun value ids => Ret ("OK", ids ++ [value]))].

Lemma accepted_clean_witness :
  walk_all (jsonParse (fun _ _ ids => Ret ids) "ids" ids_table "") [("id", PT "Room1" []); ("id", PT "" [])] (mkParseCi 200 "") []
    = Ret (Out "OK" (mkParseCi 200 "") ["Room1"; ""]) /\
  mkParseCi 200 "" = mkParseCi 200 "" /\ Forall (fun kv => clean "" kv.1 kv.2 = true) [("id", PT "Room1" []); ("id", PT "" [])].
Proof.
  split; [reflexivity|].
  apply (accepted_clean (fun _ _ ids => Ret ids) "ids" ids_table _ (mkParseCi 200 "") [] (mkParseCi 200 "") ["Room1"; ""]);
    [discriminate|split; [reflexivity|discriminate]|reflexivity].
Defined.
