(* ===== verification/JsonContextV1.v ===== *)
(** * Context elements in the JSON of version 1

    The tables of jsonParse/ whose requests and responses hold context elements: update
    requests and responses, query responses, notifications, and the requests of convenience on
    one element, with what their check methods say.  A pointer to the last element, attribute
    or metadata that was created is its position, [None] when null: it stays what it is when
    more are created, as the vectors hold pointers. *)

From S2P Require Import Prelude Strings Double Bson Compound Ngsi Json JsonText JsonEntity Registrations EntityUpdate UpdateContext RenderV1 Subscriptions JsonSubscription JsonParseV1.

Open Scope Z_scope.

(** ** What is read *)

(** A ContextElement. *)
Record Element := mkElement {
  el_entityId : EntityId;
  el_attributeDomainName : string;
  el_attrs : list ContextAttribute;
  el_domainMetadata : list Metadata
}.

(** A StatusCode, with the reason phrase that was read. *)
Record ReadStatus := mkReadStatus { rs_code : Z; rs_reason : string; rs_details : string }.

(** A ContextElementResponse. *)
Record ElementResponse := mkElementResponse { er_element : Element; er_status : ReadStatus }.

Definition over_element (f : Element -> Element) (e : Element) : Element := f e.
Definition over_response (f : Element -> Element) (er : ElementResponse) : ElementResponse :=
  mkElementResponse (f (er_element er)) (er_status er).

(** The elements with the help pointers of ParseData; [cd_rest] is what else the request has. *)
Record ContextData (E R : Type) := mkContextData {
  cd_elements : list E;
  cd_rest : R;
  cd_elementP : option nat;
  cd_attributeP : option (nat * nat);
  cd_metadataP : option (nat * nat * nat);
  cd_domainMetadataP : option (nat * nat);
  cd_lastContextAttribute : option (nat * nat)
}.
Arguments mkContextData {E R}.
Arguments cd_elements {E R}.
Arguments cd_rest {E R}.
Arguments cd_elementP {E R}.
Arguments cd_attributeP {E R}.
Arguments cd_metadataP {E R}.
Arguments cd_domainMetadataP {E R}.
Arguments cd_lastContextAttribute {E R}.

(** ** Setters *)

Definition set_eid_id (s : string) (e : EntityId) : EntityId := mkEntityId s (eid_type e) (eid_isPattern e) (eid_servicePath e).
Definition set_eid_type (s : string) (e : EntityId) : EntityId := mkEntityId (eid_id e) s (eid_isPattern e) (eid_servicePath e).
Definition set_eid_isPattern (s : string) (e : EntityId) : EntityId := mkEntityId (eid_id e) (eid_type e) s (eid_servicePath e).

Definition on_entity (f : EntityId -> EntityId) (e : Element) : Element :=
  mkElement (f (el_entityId e)) (el_attributeDomainName e) (el_attrs e) (el_domainMetadata e).
Definition set_domain (s : string) (e : Element) : Element := mkElement (el_entityId e) s (el_attrs e) (el_domainMetadata e).
Definition on_attrs (f : list ContextAttribute -> list ContextAttribute) (e : Element) : Element :=
  mkElement (el_entityId e) (el_attributeDomainName e) (f (el_attrs e)) (el_domainMetadata e).
Definition on_domainMetadata (f : list Metadata -> list Metadata) (e : Element) : Element :=
  mkElement (el_entityId e) (el_attributeDomainName e) (el_attrs e) (f (el_domainMetadata e)).

Definition with_ca (name type : string) (mdV : list Metadata) (vt : ValueType) (s : string) (c : option CompoundValueNode)
    (ca : ContextAttribute) : ContextAttribute :=
  mkContextAttribute name type mdV vt s (ca_numberValue ca) (ca_boolValue ca) (ca_providingApplication ca) (ca_found ca)
    (ca_skip ca) c (ca_typeGiven ca).
Definition set_ca_name (s : string) (ca : ContextAttribute) : ContextAttribute :=
  with_ca s (ca_type ca) (ca_metadataVector ca) (ca_valueType ca) (ca_stringValue ca) (ca_compoundValueP ca) ca.
Definition set_ca_type (s : string) (ca : ContextAttribute) : ContextAttribute :=
  with_ca (ca_name ca) s (ca_metadataVector ca) (ca_valueType ca) (ca_stringValue ca) (ca_compoundValueP ca) ca.
Definition set_ca_text (s : string) (ca : ContextAttribute) : ContextAttribute :=
  with_ca (ca_name ca) (ca_type ca) (ca_metadataVector ca) ValueTypeString s (ca_compoundValueP ca) ca.
Definition set_ca_compound (c : CompoundValueNode) (ca : ContextAttribute) : ContextAttribute :=
  with_ca (ca_name ca) (ca_type ca) (ca_metadataVector ca) (ca_valueType ca) (ca_stringValue ca) (Some c) ca.
Definition on_metadatas (f : list Metadata -> list Metadata) (ca : ContextAttribute) : ContextAttribute :=
  with_ca (ca_name ca) (ca_type ca) (f (ca_metadataVector ca)) (ca_valueType ca) (ca_stringValue ca) (ca_compoundValueP ca) ca.
Definition set_ca_valueType (vt : ValueType) (ca : ContextAttribute) : ContextAttribute :=
  with_ca (ca_name ca) (ca_type ca) (ca_metadataVector ca) vt (ca_stringValue ca) (ca_compoundValueP ca) ca.

Definition with_md (name type value : string) (typeGiven : bool) (md : Metadata) : Metadata :=
  mkMetadata name type (md_valueType md) value (md_numberValue md) (md_boolValue md) typeGiven.
Definition set_md_name (s : string) (md : Metadata) : Metadata := with_md s (md_type md) (md_stringValue md) (md_typeGiven md) md.
Definition set_md_type (s : string) (md : Metadata) : Metadata := with_md (md_name md) s (md_stringValue md) (md_typeGiven md) md.
Definition set_md_value (s : string) (md : Metadata) : Metadata := with_md (md_name md) (md_type md) s (md_typeGiven md) md.
Definition give_md_type (s : string) (md : Metadata) : Metadata := with_md (md_name md) s (md_stringValue md) true md.

(** ** What the functions of the tables do *)

Definition null_pointer {A} : cpp A := UB "null pointer".

Definition ok {S} (m : cpp S) : cpp (string * S) := pd ← m; Ret ("OK", pd).

(** jsonNullTreat of parse/nullTreat.cpp *)
Definition jsonNullTreat {S} (value : string) (pd : S) : cpp (string * S) := ok (Ret pd).

(** isPattern is set, and refused in the text that is returned when it is not a boolean. *)
Definition isPattern_answer (value : string) : string :=
  if negb (isTrue value) && negb (isFalse value) then "invalid isPattern value for entity: /" +:+ value +:+ "/" else "OK".

Section operations.
Context {E R : Type} (over : (Element -> Element) -> E -> E).
Context (memNumber : double) (memBool : bool).

Abbreviation PD := (ContextData E R).

Definition set_elements (l : list E) (pd : PD) : PD :=
  mkContextData l (cd_rest pd) (cd_elementP pd) (cd_attributeP pd) (cd_metadataP pd) (cd_domainMetadataP pd)
    (cd_lastContextAttribute pd).
Definition on_rest (f : R -> R) (pd : PD) : cpp PD :=
  Ret (mkContextData (cd_elements pd) (f (cd_rest pd)) (cd_elementP pd) (cd_attributeP pd) (cd_metadataP pd)
         (cd_domainMetadataP pd) (cd_lastContextAttribute pd)).

(** new, and push_back *)
Definition new_element (e : E) (pd : PD) : cpp PD :=
  Ret (mkContextData (cd_elements pd ++ [e]) (cd_rest pd) (Some (length (cd_elements pd))) (cd_attributeP pd) (cd_metadataP pd)
         (cd_domainMetadataP pd) (cd_lastContextAttribute pd)).

(** An access through the pointer to the element. *)
Definition on_entry (f : E -> E) (pd : PD) : cpp PD :=
  match cd_elementP pd with Some i => Ret (set_elements (alter f i (cd_elements pd)) pd) | None => null_pointer end.
Definition on_element (f : Element -> Element) : PD -> cpp PD := on_entry (over f).

Definition attrs_at (get : E -> Element) (i : nat) (pd : PD) : list ContextAttribute :=
  match cd_elements pd !! i with Some e => el_attrs (get e) | None => [] end.
Definition domain_at (get : E -> Element) (i : nat) (pd : PD) : list Metadata :=
  match cd_elements pd !! i with Some e => el_domainMetadata (get e) | None => [] end.

Context (get : E -> Element).

Definition new_attribute (ca : ContextAttribute) (pd : PD) : cpp PD :=
  match cd_elementP pd with
  | None => null_pointer
  | Some i =>
      Ret (mkContextData (alter (over (on_attrs (fun l => l ++ [ca]))) i (cd_elements pd)) (cd_rest pd) (cd_elementP pd)
             (Some (i, length (attrs_at get i pd))) (cd_metadataP pd) (cd_domainMetadataP pd) (cd_lastContextAttribute pd))
  end.

Definition alter_attribute (f : ContextAttribute -> ContextAttribute) (p : nat * nat) (pd : PD) : PD :=
  set_elements (alter (over (on_attrs (alter f p.2))) p.1 (cd_elements pd)) pd.

Definition on_attribute (f : ContextAttribute -> ContextAttribute) (pd : PD) : cpp PD :=
  match cd_attributeP pd with Some p => Ret (alter_attribute f p pd) | None => null_pointer end.

(** The value: lastContextAttribute is the attribute from now on. *)
Definition attribute_value (value : string) (pd : PD) : cpp PD :=
  on_attribute (set_ca_text value)
    (mkContextData (cd_elements pd) (cd_rest pd) (cd_elementP pd) (cd_attributeP pd) (cd_metadataP pd) (cd_domainMetadataP pd)
       (cd_attributeP pd)).

Definition mds_at (p : nat * nat) (pd : PD) : list Metadata :=
  match attrs_at get p.1 pd !! p.2 with Some ca => ca_metadataVector ca | None => [] end.

Definition new_metadata (md : Metadata) (pd : PD) : cpp PD :=
  match cd_attributeP pd with
  | None => null_pointer
  | Some p =>
      let pd' := alter_attribute (on_metadatas (fun l => l ++ [md])) p pd in
      Ret (mkContextData (cd_elements pd') (cd_rest pd) (cd_elementP pd) (cd_attributeP pd) (Some (p, length (mds_at p pd)))
             (cd_domainMetadataP pd) (cd_lastContextAttribute pd))
  end.

Definition on_metadata (f : Metadata -> Metadata) (pd : PD) : cpp PD :=
  match cd_metadataP pd with
  | Some (p, k) => Ret (alter_attribute (on_metadatas (alter f k)) p pd)
  | None => null_pointer
  end.

Definition new_domainMetadata (md : Metadata) (pd : PD) : cpp PD :=
  match cd_elementP pd with
  | None => null_pointer
  | Some i =>
      Ret (mkContextData (alter (over (on_domainMetadata (fun l => l ++ [md]))) i (cd_elements pd)) (cd_rest pd) (cd_elementP pd)
             (cd_attributeP pd) (cd_metadataP pd) (Some (i, length (domain_at get i pd))) (cd_lastContextAttribute pd))
  end.

Definition on_domain (f : Metadata -> Metadata) (pd : PD) : cpp PD :=
  match cd_domainMetadataP pd with
  | Some (i, k) => Ret (set_elements (alter (over (on_domainMetadata (alter f k))) i (cd_elements pd)) pd)
  | None => null_pointer
  end.

(** compoundValueEnd: lastContextAttribute->compoundValueP; under one payload word of the connection the
    value goes to the data of another request instead. *)
Definition last_compound (payloadWord : string) (c : CompoundValueNode) (pd : PD) : cpp PD :=
  if c_str payloadWord =s "updateContextAttributeRequest" then Ret pd
  else
    match cd_lastContextAttribute pd with
    | Some p => Ret (alter_attribute (set_ca_compound c) p pd)
    | None => null_pointer
    end.

(** Metadata(), ContextAttribute() and ContextAttribute with three empty texts, whose type of value is set to none. *)
Definition Metadata_empty : Metadata := Metadata_string "" "" "" memNumber memBool.
Definition ContextAttribute_none : ContextAttribute := set_ca_valueType ValueTypeNone (ContextAttribute_new memNumber memBool).

End operations.

(** ContextElement() and StatusCode() *)
Definition ContextElement_pattern : Element := mkElement (mkEntityId "" "" "false" "") "" [] [].
Definition no_status : ReadStatus := mkReadStatus SccNone "" "".

Definition set_rs_code (n : Z) (sc : ReadStatus) : ReadStatus := mkReadStatus n (rs_reason sc) (rs_details sc).
Definition set_rs_reason (s : string) (sc : ReadStatus) : ReadStatus := mkReadStatus (rs_code sc) s (rs_details sc).
Definition set_rs_details (s : string) (sc : ReadStatus) : ReadStatus := mkReadStatus (rs_code sc) (rs_reason sc) s.
Definition on_status (f : ReadStatus -> ReadStatus) (er : ElementResponse) : ElementResponse :=
  mkElementResponse (er_element er) (f (er_status er)).

(** UpdateContextAttributeRequest, and its data in ParseData. *)
Record AttributeRequest := mkAttributeRequest {
  uq_type : string;
  uq_valueType : ValueType;
  uq_contextValue : string;
  uq_compoundValueP : option CompoundValueNode;
  uq_metadataVector : list Metadata
}.
Record Upcar := mkUpcar { uc_res : AttributeRequest; uc_metadataP : option nat }.

Definition on_upcar (f : AttributeRequest -> AttributeRequest) (pd : Upcar) : cpp Upcar := Ret (mkUpcar (f (uc_res pd)) (uc_metadataP pd)).
Definition on_upcar_metadata (f : list Metadata -> list Metadata) (r : AttributeRequest) : AttributeRequest :=
  mkAttributeRequest (uq_type r) (uq_valueType r) (uq_contextValue r) (uq_compoundValueP r) (f (uq_metadataVector r)).
Definition upcar_new_metadata (md : Metadata) (pd : Upcar) : cpp Upcar :=
  Ret (mkUpcar (on_upcar_metadata (fun l => l ++ [md]) (uc_res pd)) (Some (length (uq_metadataVector (uc_res pd))))).
Definition upcar_on_metadata (f : Metadata -> Metadata) (pd : Upcar) : cpp Upcar :=
  match uc_metadataP pd with
  | Some k => Ret (mkUpcar (on_upcar_metadata (alter f k) (uc_res pd)) (Some k))
  | None => null_pointer
  end.

(** compoundValueEnd: the payload word tells where the value goes, and lastContextAttribute is null. *)
Definition upcar_compound (payloadWord : string) (c : CompoundValueNode) (pd : Upcar) : cpp Upcar :=
  if c_str payloadWord =s "updateContextAttributeRequest"
  then on_upcar (fun r => mkAttributeRequest (uq_type r) (uq_valueType r) (uq_contextValue r) (Some c) (uq_metadataVector r)) pd
  else null_pointer.

(** ** The tables *)

Definition Upcr : Type := ContextData Element string.
Definition Responses : Type := ContextData ElementResponse ReadStatus.
Definition Ncr : Type := ContextData ElementResponse (string * string).
Definition One : Type := ContextData Element unit.

Section tables.
(** What the numbers and booleans that constructors leave unassigned hold. *)
Context (memNumber : double) (memBool : bool).

(** *** Update requests: jsonUpdateContextRequest.cpp *)

Definition upcr_contextElement (value : string) (pd : Upcr) : cpp (string * Upcr) :=
  ok (new_element ContextElement_pattern pd).
Definition upcr_entityIdType (value : string) (pd : Upcr) : cpp (string * Upcr) :=
  ok (on_element over_element (on_entity (set_eid_type value)) pd).
Definition upcr_entityIdIsPattern (value : string) (pd : Upcr) : cpp (string * Upcr) :=
  ok (on_element over_element (on_entity (set_eid_isPattern value)) pd).
Definition upcr_entityIdId (value : string) (pd : Upcr) : cpp (string * Upcr) :=
  ok (on_element over_element (on_entity (set_eid_id value)) pd).
Definition upcr_attributeDomainName (value : string) (pd : Upcr) : cpp (string * Upcr) :=
  ok (on_element over_element (set_domain value) pd).
Definition upcr_attribute (value : string) (pd : Upcr) : cpp (string * Upcr) :=
  ok (new_attribute over_element id (ContextAttribute_none memNumber memBool) pd).
Definition upcr_attributeName (value : string) (pd : Upcr) : cpp (string * Upcr) :=
  ok (on_attribute over_element (set_ca_name value) pd).
Definition upcr_attributeType (value : string) (pd : Upcr) : cpp (string * Upcr) :=
  ok (on_attribute over_element (set_ca_type value) pd).
Definition upcr_attributeValue (value : string) (pd : Upcr) : cpp (string * Upcr) :=
  ok (attribute_value over_element value pd).
Definition upcr_metadata (value : string) (pd : Upcr) : cpp (string * Upcr) :=
  ok (new_metadata over_element id (Metadata_empty memNumber memBool) pd).
Definition upcr_metadataName (value : string) (pd : Upcr) : cpp (string * Upcr) :=
  ok (on_metadata over_element (set_md_name value) pd).
Definition upcr_metadataType (value : string) (pd : Upcr) : cpp (string * Upcr) :=
  ok (on_metadata over_element (set_md_type value) pd).
Definition upcr_metadataValue (value : string) (pd : Upcr) : cpp (string * Upcr) :=
  ok (on_metadata over_element (set_md_value value) pd).
Definition upcr_domainMetadata (value : string) (pd : Upcr) : cpp (string * Upcr) :=
  ok (new_domainMetadata over_element id (Metadata_empty memNumber memBool) pd).
Definition upcr_domainMetadataName (value : string) (pd : Upcr) : cpp (string * Upcr) :=
  ok (on_domain over_element (set_md_name value) pd).
Definition upcr_domainMetadataType (value : string) (pd : Upcr) : cpp (string * Upcr) :=
  ok (on_domain over_element (set_md_type value) pd).
Definition upcr_domainMetadataValue (value : string) (pd : Upcr) : cpp (string * Upcr) :=
  ok (on_domain over_element (set_md_value value) pd).
Definition upcr_updateAction (value : string) (pd : Upcr) : cpp (string * Upcr) :=
  ok (on_rest (fun _ => value) pd).

Definition jsonUpcrParseVector : list (JsonNode Upcr) :=
  [mkJsonNode "/contextElements" jsonNullTreat;
   mkJsonNode "/contextElements/contextElement" upcr_contextElement;
   mkJsonNode "/contextElements/contextElement/type" upcr_entityIdType;
   mkJsonNode "/contextElements/contextElement/isPattern" upcr_entityIdIsPattern;
   mkJsonNode "/contextElements/contextElement/id" upcr_entityIdId;
   mkJsonNode "/contextElements/contextElement/attributeDomainName" upcr_attributeDomainName;
   mkJsonNode "/contextElements/contextElement/attributes" jsonNullTreat;
   mkJsonNode "/contextElements/contextElement/attributes/attribute" upcr_attribute;
   mkJsonNode "/contextElements/contextElement/attributes/attribute/name" upcr_attributeName;
   mkJsonNode "/contextElements/contextElement/attributes/attribute/type" upcr_attributeType;
   mkJsonNode "/contextElements/contextElement/attributes/attribute/value" upcr_attributeValue;
   mkJsonNode "/contextElements/contextElement/attributes/attribute/metadatas" jsonNullTreat;
   mkJsonNode "/contextElements/contextElement/attributes/attribute/metadatas/metadata" upcr_metadata;
   mkJsonNode "/contextElements/contextElement/attributes/attribute/metadatas/metadata/name" upcr_metadataName;
   mkJsonNode "/contextElements/contextElement/attributes/attribute/metadatas/metadata/type" upcr_metadataType;
   mkJsonNode "/contextElements/contextElement/attributes/attribute/metadatas/metadata/value" upcr_metadataValue;
   mkJsonNode "/contextElements/contextElement/domainMetadatas" jsonNullTreat;
   mkJsonNode "/contextElements/contextElement/domainMetadatas/domainMetadata" upcr_domainMetadata;
   mkJsonNode "/contextElements/contextElement/domainMetadatas/domainMetadata/name" upcr_domainMetadataName;
   mkJsonNode "/contextElements/contextElement/domainMetadatas/domainMetadata/type" upcr_domainMetadataType;
   mkJsonNode "/contextElements/contextElement/domainMetadatas/domainMetadata/value" upcr_domainMetadataValue;
   mkJsonNode "/updateAction" upcr_updateAction].

(** *** Update responses: jsonUpdateContextResponse.cpp *)

Definition upcrs_contextResponse (value : string) (pd : Responses) : cpp (string * Responses) :=
  ok (new_element (mkElementResponse ContextElement_pattern no_status) pd).
Definition upcrs_entityIdId (value : string) (pd : Responses) : cpp (string * Responses) :=
  ok (on_element over_response (on_entity (set_eid_id value)) pd).
Definition upcrs_entityIdType (value : string) (pd : Responses) : cpp (string * Responses) :=
  ok (on_element over_response (on_entity (set_eid_type value)) pd).
Definition upcrs_entityIdIsPattern (value : string) (pd : Responses) : cpp (string * Responses) :=
  pd ← on_element over_response (on_entity (set_eid_isPattern value)) pd; Ret (isPattern_answer value, pd).
Definition upcrs_attributeDomainName (value : string) (pd : Responses) : cpp (string * Responses) :=
  ok (on_element over_response (set_domain value) pd).
Definition upcrs_attribute (value : string) (pd : Responses) : cpp (string * Responses) :=
  ok (new_attribute over_response er_element (ContextAttribute_none memNumber memBool) pd).
Definition upcrs_attributeName (value : string) (pd : Responses) : cpp (string * Responses) :=
  ok (on_attribute over_response (set_ca_name value) pd).
Definition upcrs_attributeType (value : string) (pd : Responses) : cpp (string * Responses) :=
  ok (on_attribute over_response (set_ca_type value) pd).
Definition upcrs_attributeValue (value : string) (pd : Responses) : cpp (string * Responses) :=
  ok (attribute_value over_response value pd).
Definition upcrs_attributeMetadata (value : string) (pd : Responses) : cpp (string * Responses) :=
  ok (new_metadata over_response er_element (Metadata_empty memNumber memBool) pd).
Definition upcrs_attributeMetadataName (value : string) (pd : Responses) : cpp (string * Responses) :=
  ok (on_metadata over_response (set_md_name value) pd).
Definition upcrs_attributeMetadataType (value : string) (pd : Responses) : cpp (string * Responses) :=
  ok (on_metadata over_response (set_md_type value) pd).
Definition upcrs_attributeMetadataValue (value : string) (pd : Responses) : cpp (string * Responses) :=
  ok (on_metadata over_response (set_md_value value) pd).
Definition upcrs_domainMetadata (value : string) (pd : Responses) : cpp (string * Responses) :=
  ok (new_domainMetadata over_response er_element (Metadata_empty memNumber memBool) pd).
Definition upcrs_domainMetadataName (value : string) (pd : Responses) : cpp (string * Responses) :=
  ok (on_domain over_response (set_md_name value) pd).
Definition upcrs_domainMetadataType (value : string) (pd : Responses) : cpp (string * Responses) :=
  ok (on_domain over_response (set_md_type value) pd).
Definition upcrs_domainMetadataValue (value : string) (pd : Responses) : cpp (string * Responses) :=
  ok (on_domain over_response (set_md_value value) pd).
Definition upcrs_statusCodeCode (value : string) (pd : Responses) : cpp (string * Responses) :=
  ok (on_entry (on_status (set_rs_code (atoi (c_str value)))) pd).
Definition upcrs_statusCodeReasonPhrase (value : string) (pd : Responses) : cpp (string * Responses) :=
  ok (on_entry (on_status (set_rs_reason value)) pd).
Definition upcrs_statusCodeDetails (value : string) (pd : Responses) : cpp (string * Responses) :=
  ok (on_entry (on_status (set_rs_details value)) pd).
Definition upcrs_errorCodeCode (value : string) (pd : Responses) : cpp (string * Responses) :=
  ok (on_rest (set_rs_code (atoi (c_str value))) pd).
Definition upcrs_errorCodeReasonPhrase (value : string) (pd : Responses) : cpp (string * Responses) :=
  ok (on_rest (set_rs_reason value) pd).
Definition upcrs_errorCodeDetails (value : string) (pd : Responses) : cpp (string * Responses) :=
  ok (on_rest (set_rs_details value) pd).

Definition jsonUpcrsParseVector : list (JsonNode Responses) :=
  [mkJsonNode "/contextResponses" jsonNullTreat;
   mkJsonNode "/contextResponses/contextResponse" upcrs_contextResponse;
   mkJsonNode "/contextResponses/contextResponse/contextElement" jsonNullTreat;
   mkJsonNode "/contextResponses/contextResponse/contextElement/id" upcrs_entityIdId;
   mkJsonNode "/contextResponses/contextResponse/contextElement/type" upcrs_entityIdType;
   mkJsonNode "/contextResponses/contextResponse/contextElement/isPattern" upcrs_entityIdIsPattern;
   mkJsonNode "/contextResponses/contextResponse/contextElement/attributeDomainName" upcrs_attributeDomainName;
   mkJsonNode "/contextResponses/contextResponse/contextElement/attributes" jsonNullTreat;
   mkJsonNode "/contextResponses/contextResponse/contextElement/attributes/attribute" upcrs_attribute;
   mkJsonNode "/contextResponses/contextResponse/contextElement/attributes/attribute/name" upcrs_attributeName;
   mkJsonNode "/contextResponses/contextResponse/contextElement/attributes/attribute/type" upcrs_attributeType;
   mkJsonNode "/contextResponses/contextResponse/contextElement/attributes/attribute/value" upcrs_attributeValue;
   mkJsonNode "/contextResponses/contextResponse/contextElement/attributes/attribute/metadatas" jsonNullTreat;
   mkJsonNode "/contextResponses/contextResponse/contextElement/attributes/attribute/metadatas/metadata" upcrs_attributeMetadata;
   mkJsonNode "/contextResponses/contextResponse/contextElement/attributes/attribute/metadatas/metadata/name" upcrs_attributeMetadataName;
   mkJsonNode "/contextResponses/contextResponse/contextElement/attributes/attribute/metadatas/metadata/type" upcrs_attributeMetadataType;
   mkJsonNode "/contextResponses/contextResponse/contextElement/attributes/attribute/metadatas/metadata/value" upcrs_attributeMetadataValue;
   mkJsonNode "/contextResponses/contextResponse/contextElement/metadatas" jsonNullTreat;
   mkJsonNode "/contextResponses/contextResponse/contextElement/metadatas/metadata" upcrs_domainMetadata;
   mkJsonNode "/contextResponses/contextResponse/contextElement/metadatas/metadata/name" upcrs_domainMetadataName;
   mkJsonNode "/contextResponses/contextResponse/contextElement/metadatas/metadata/type" upcrs_domainMetadataType;
   mkJsonNode "/contextResponses/contextResponse/contextElement/metadatas/metadata/value" upcrs_domainMetadataValue;
   mkJsonNode "/contextResponses/contextResponse/statusCode" jsonNullTreat;
   mkJsonNode "/contextResponses/contextResponse/statusCode/code" upcrs_statusCodeCode;
   mkJsonNode "/contextResponses/contextResponse/statusCode/reasonPhrase" upcrs_statusCodeReasonPhrase;
   mkJsonNode "/contextResponses/contextResponse/statusCode/details" upcrs_statusCodeDetails;
   mkJsonNode "/errorCode" jsonNullTreat;
   mkJsonNode "/errorCode/code" upcrs_errorCodeCode;
   mkJsonNode "/errorCode/reasonPhrase" upcrs_errorCodeReasonPhrase;
   mkJsonNode "/errorCode/details" upcrs_errorCodeDetails].

(** *** Query responses: jsonQueryContextResponse.cpp *)

Definition qcrs_contextResponse (value : string) (pd : Responses) : cpp (string * Responses) :=
  ok (new_element (mkElementResponse ContextElement_pattern no_status) pd).
Definition qcrs_entityIdId (value : string) (pd : Responses) : cpp (string * Responses) :=
  ok (on_element over_response (on_entity (set_eid_id value)) pd).
Definition qcrs_entityIdType (value : string) (pd : Responses) : cpp (string * Responses) :=
  ok (on_element over_response (on_entity (set_eid_type value)) pd).
Definition qcrs_entityIdIsPattern (value : string) (pd : Responses) : cpp (string * Responses) :=
  pd ← on_element over_response (on_entity (set_eid_isPattern value)) pd; Ret (isPattern_answer value, pd).
Definition qcrs_attributeDomainName (value : string) (pd : Responses) : cpp (string * Responses) :=
  ok (on_element over_response (set_domain value) pd).
Definition qcrs_attribute (value : string) (pd : Responses) : cpp (string * Responses) :=
  ok (new_attribute over_response er_element (ContextAttribute_none memNumber memBool) pd).
Definition qcrs_attributeName (value : string) (pd : Responses) : cpp (string * Responses) :=
  ok (on_attribute over_response (set_ca_name value) pd).
Definition qcrs_attributeType (value : string) (pd : Responses) : cpp (string * Responses) :=
  ok (on_attribute over_response (set_ca_type value) pd).
Definition qcrs_attributeValue (value : string) (pd : Responses) : cpp (string * Responses) :=
  ok (attribute_value over_response value pd).
Definition qcrs_attributeMetadata (value : string) (pd : Responses) : cpp (string * Responses) :=
  ok (new_metadata over_response er_element (Metadata_empty memNumber memBool) pd).
Definition qcrs_attributeMetadataName (value : string) (pd : Responses) : cpp (string * Responses) :=
  ok (on_metadata over_response (set_md_name value) pd).
Definition qcrs_attributeMetadataType (value : string) (pd : Responses) : cpp (string * Responses) :=
  ok (on_metadata over_response (set_md_type value) pd).
Definition qcrs_attributeMetadataValue (value : string) (pd : Responses) : cpp (string * Responses) :=
  ok (on_metadata over_response (set_md_value value) pd).
Definition qcrs_domainMetadata (value : string) (pd : Responses) : cpp (string * Responses) :=
  ok (new_domainMetadata over_response er_element (Metadata_empty memNumber memBool) pd).
Definition qcrs_domainMetadataName (value : string) (pd : Responses) : cpp (string * Responses) :=
  ok (on_domain over_response (set_md_name value) pd).
Definition qcrs_domainMetadataType (value : string) (pd : Responses) : cpp (string * Responses) :=
  ok (on_domain over_response (set_md_type value) pd).
Definition qcrs_domainMetadataValue (value : string) (pd : Responses) : cpp (string * Responses) :=
  ok (on_domain over_response (set_md_value value) pd).
Definition qcrs_statusCodeCode (value : string) (pd : Responses) : cpp (string * Responses) :=
  ok (on_entry (on_status (set_rs_code (atoi (c_str value)))) pd).
Definition qcrs_statusCodeReasonPhrase (value : string) (pd : Responses) : cpp (string * Responses) :=
  ok (on_entry (on_status (set_rs_reason value)) pd).
Definition qcrs_statusCodeDetails (value : string) (pd : Responses) : cpp (string * Responses) :=
  ok (on_entry (on_status (set_rs_details value)) pd).
Definition qcrs_errorCodeCode (value : string) (pd : Responses) : cpp (string * Responses) :=
  ok (on_rest (set_rs_code (atoi (c_str value))) pd).
Definition qcrs_errorCodeReasonPhrase (value : string) (pd : Responses) : cpp (string * Responses) :=
  ok (on_rest (set_rs_reason value) pd).
Definition qcrs_errorCodeDetails (value : string) (pd : Responses) : cpp (string * Responses) :=
  ok (on_rest (set_rs_details value) pd).

Definition jsonQcrsParseVector : list (JsonNode Responses) :=
  [mkJsonNode "/contextResponses" jsonNullTreat;
   mkJsonNode "/contextResponses/contextResponse" qcrs_contextResponse;
   mkJsonNode "/contextResponses/contextResponse/contextElement" jsonNullTreat;
   mkJsonNode "/contextResponses/contextResponse/contextElement/id" qcrs_entityIdId;
   mkJsonNode "/contextResponses/contextResponse/contextElement/type" qcrs_entityIdType;
   mkJsonNode "/contextResponses/contextResponse/contextElement/isPattern" qcrs_entityIdIsPattern;
   mkJsonNode "/contextResponses/contextResponse/contextElement/attributeDomainName" qcrs_attributeDomainName;
   mkJsonNode "/contextResponses/contextResponse/contextElement/attributes" jsonNullTreat;
   mkJsonNode "/contextResponses/contextResponse/contextElement/attributes/attribute" qcrs_attribute;
   mkJsonNode "/contextResponses/contextResponse/contextElement/attributes/attribute/name" qcrs_attributeName;
   mkJsonNode "/contextResponses/contextResponse/contextElement/attributes/attribute/type" qcrs_attributeType;
   mkJsonNode "/contextResponses/contextResponse/contextElement/attributes/attribute/value" qcrs_attributeValue;
   mkJsonNode "/contextResponses/contextResponse/contextElement/attributes/attribute/metadatas" jsonNullTreat;
   mkJsonNode "/contextResponses/contextResponse/contextElement/attributes/attribute/metadatas/metadata" qcrs_attributeMetadata;
   mkJsonNode "/contextResponses/contextResponse/contextElement/attributes/attribute/metadatas/metadata/name" qcrs_attributeMetadataName;
   mkJsonNode "/contextResponses/contextResponse/contextElement/attributes/attribute/metadatas/metadata/type" qcrs_attributeMetadataType;
   mkJsonNode "/contextResponses/contextResponse/contextElement/attributes/attribute/metadatas/metadata/value" qcrs_attributeMetadataValue;
   mkJsonNode "/contextResponses/contextResponse/contextElement/metadatas" jsonNullTreat;
   mkJsonNode "/contextResponses/contextResponse/contextElement/metadatas/metadata" qcrs_domainMetadata;
   mkJsonNode "/contextResponses/contextResponse/contextElement/metadatas/metadata/name" qcrs_domainMetadataName;
   mkJsonNode "/contextResponses/contextResponse/contextElement/metadatas/metadata/type" qcrs_domainMetadataType;
   mkJsonNode "/contextResponses/contextResponse/contextElement/metadatas/metadata/value" qcrs_domainMetadataValue;
   mkJsonNode "/contextResponses/contextResponse/statusCode" jsonNullTreat;
   mkJsonNode "/contextResponses/contextResponse/statusCode/code" qcrs_statusCodeCode;
   mkJsonNode "/contextResponses/contextResponse/statusCode/reasonPhrase" qcrs_statusCodeReasonPhrase;
   mkJsonNode "/contextResponses/contextResponse/statusCode/details" qcrs_statusCodeDetails;
   mkJsonNode "/errorCode" jsonNullTreat;
   mkJsonNode "/errorCode/code" qcrs_errorCodeCode;
   mkJsonNode "/errorCode/reasonPhrase" qcrs_errorCodeReasonPhrase;
   mkJsonNode "/errorCode/details" qcrs_errorCodeDetails].

(** *** Notifications: jsonNotifyContextRequest.cpp *)

Definition ncr_subscriptionId (value : string) (pd : Ncr) : cpp (string * Ncr) :=
  ok (on_rest (fun r => (value, r.2)) pd).
Definition ncr_originator (value : string) (pd : Ncr) : cpp (string * Ncr) :=
  ok (on_rest (fun r => (r.1, value)) pd).
Definition ncr_contextResponse (value : string) (pd : Ncr) : cpp (string * Ncr) :=
  ok (new_element (mkElementResponse ContextElement_pattern no_status) pd).
Definition ncr_entityIdId (value : string) (pd : Ncr) : cpp (string * Ncr) :=
  ok (on_element over_response (on_entity (set_eid_id value)) pd).
Definition ncr_entityIdType (value : string) (pd : Ncr) : cpp (string * Ncr) :=
  ok (on_element over_response (on_entity (set_eid_type value)) pd).
Definition ncr_entityIdIsPattern (value : string) (pd : Ncr) : cpp (string * Ncr) :=
  pd ← on_element over_response (on_entity (set_eid_isPattern value)) pd; Ret (isPattern_answer value, pd).
Definition ncr_attributeDomainName (value : string) (pd : Ncr) : cpp (string * Ncr) :=
  ok (on_element over_response (set_domain value) pd).
Definition ncr_attribute (value : string) (pd : Ncr) : cpp (string * Ncr) :=
  ok (new_attribute over_response er_element (ContextAttribute_none memNumber memBool) pd).
Definition ncr_attributeName (value : string) (pd : Ncr) : cpp (string * Ncr) :=
  ok (on_attribute over_response (set_ca_name value) pd).
Definition ncr_attributeType (value : string) (pd : Ncr) : cpp (string * Ncr) :=
  ok (on_attribute over_response (set_ca_type value) pd).
Definition ncr_attributeValue (value : string) (pd : Ncr) : cpp (string * Ncr) :=
  ok (attribute_value over_response value pd).
Definition ncr_attributeMetadata (value : string) (pd : Ncr) : cpp (string * Ncr) :=
  ok (new_metadata over_response er_element (Metadata_empty memNumber memBool) pd).
Definition ncr_attributeMetadataName (value : string) (pd : Ncr) : cpp (string * Ncr) :=
  ok (on_metadata over_response (set_md_name value) pd).
Definition ncr_attributeMetadataType (value : string) (pd : Ncr) : cpp (string * Ncr) :=
  ok (on_metadata over_response (set_md_type value) pd).
Definition ncr_attributeMetadataValue (value : string) (pd : Ncr) : cpp (string * Ncr) :=
  ok (on_metadata over_response (set_md_value value) pd).
Definition ncr_domainMetadata (value : string) (pd : Ncr) : cpp (string * Ncr) :=
  ok (new_domainMetadata over_response er_element (Metadata_empty memNumber memBool) pd).
Definition ncr_domainMetadataName (value : string) (pd : Ncr) : cpp (string * Ncr) :=
  ok (on_domain over_response (set_md_name value) pd).
Definition ncr_domainMetadataType (value : string) (pd : Ncr) : cpp (string * Ncr) :=
  ok (on_domain over_response (set_md_type value) pd).
Definition ncr_domainMetadataValue (value : string) (pd : Ncr) : cpp (string * Ncr) :=
  ok (on_domain over_response (set_md_value value) pd).
Definition ncr_statusCodeCode (value : string) (pd : Ncr) : cpp (string * Ncr) :=
  ok (on_entry (on_status (set_rs_code (atoi (c_str value)))) pd).
Definition ncr_statusCodeReasonPhrase (value : string) (pd : Ncr) : cpp (string * Ncr) :=
  ok (on_entry (on_status (set_rs_reason value)) pd).
Definition ncr_statusCodeDetails (value : string) (pd : Ncr) : cpp (string * Ncr) :=
  ok (on_entry (on_status (set_rs_details value)) pd).

Definition jsonNcrParseVector : list (JsonNode Ncr) :=
  [mkJsonNode "/subscriptionId" ncr_subscriptionId;
   mkJsonNode "/originator" ncr_originator;
   mkJsonNode "/contextResponses" jsonNullTreat;
   mkJsonNode "/contextResponses/contextResponse" ncr_contextResponse;
   mkJsonNode "/contextResponses/contextResponse/contextElement" jsonNullTreat;
   mkJsonNode "/contextResponses/contextResponse/contextElement/id" ncr_entityIdId;
   mkJsonNode "/contextResponses/contextResponse/contextElement/type" ncr_entityIdType;
   mkJsonNode "/contextResponses/contextResponse/contextElement/isPattern" ncr_entityIdIsPattern;
   mkJsonNode "/contextResponses/contextResponse/contextElement/attributeDomainName" ncr_attributeDomainName;
   mkJsonNode "/contextResponses/contextResponse/contextElement/attributes" jsonNullTreat;
   mkJsonNode "/contextResponses/contextResponse/contextElement/attributes/attribute" ncr_attribute;
   mkJsonNode "/contextResponses/contextResponse/contextElement/attributes/attribute/name" ncr_attributeName;
   mkJsonNode "/contextResponses/contextResponse/contextElement/attributes/attribute/type" ncr_attributeType;
   mkJsonNode "/contextResponses/contextResponse/contextElement/attributes/attribute/value" ncr_attributeValue;
   mkJsonNode "/contextResponses/contextResponse/contextElement/attributes/attribute/metadatas" jsonNullTreat;
   mkJsonNode "/contextResponses/contextResponse/contextElement/attributes/attribute/metadatas/metadata" ncr_attributeMetadata;
   mkJsonNode "/contextResponses/contextResponse/contextElement/attributes/attribute/metadatas/metadata/name" ncr_attributeMetadataName;
   mkJsonNode "/contextResponses/contextResponse/contextElement/attributes/attribute/metadatas/metadata/type" ncr_attributeMetadataType;
   mkJsonNode "/contextResponses/contextResponse/contextElement/attributes/attribute/metadatas/metadata/value" ncr_attributeMetadataValue;
   mkJsonNode "/contextResponses/contextResponse/contextElement/metadatas" jsonNullTreat;
   mkJsonNode "/contextResponses/contextResponse/contextElement/metadatas/metadata" ncr_domainMetadata;
   mkJsonNode "/contextResponses/contextResponse/contextElement/metadatas/metadata/name" ncr_domainMetadataName;
   mkJsonNode "/contextResponses/contextResponse/contextElement/metadatas/metadata/type" ncr_domainMetadataType;
   mkJsonNode "/contextResponses/contextResponse/contextElement/metadatas/metadata/value" ncr_domainMetadataValue;
   mkJsonNode "/contextResponses/contextResponse/statusCode" jsonNullTreat;
   mkJsonNode "/contextResponses/contextResponse/statusCode/code" ncr_statusCodeCode;
   mkJsonNode "/contextResponses/contextResponse/statusCode/reasonPhrase" ncr_statusCodeReasonPhrase;
   mkJsonNode "/contextResponses/contextResponse/statusCode/details" ncr_statusCodeDetails].

(** *** Updating an entity: jsonUpdateContextElementRequest.cpp *)

Definition ucer_attributeDomainName (value : string) (pd : One) : cpp (string * One) :=
  ok (on_element over_element (set_domain value) pd).
Definition ucer_contextAttribute (value : string) (pd : One) : cpp (string * One) :=
  ok (new_attribute over_element id (ContextAttribute_none memNumber memBool) pd).
Definition ucer_contextAttributeName (value : string) (pd : One) : cpp (string * One) :=
  ok (on_attribute over_element (set_ca_name value) pd).
Definition ucer_contextAttributeType (value : string) (pd : One) : cpp (string * One) :=
  ok (on_attribute over_element (set_ca_type value) pd).
Definition ucer_contextAttributeValue (value : string) (pd : One) : cpp (string * One) :=
  ok (attribute_value over_element value pd).
Definition ucer_contextMetadata (value : string) (pd : One) : cpp (string * One) :=
  ok (new_metadata over_element id (Metadata_empty memNumber memBool) pd).
Definition ucer_contextMetadataName (value : string) (pd : One) : cpp (string * One) :=
  ok (on_metadata over_element (set_md_name value) pd).
Definition ucer_contextMetadataType (value : string) (pd : One) : cpp (string * One) :=
  ok (on_metadata over_element (set_md_type value) pd).
Definition ucer_contextMetadataValue (value : string) (pd : One) : cpp (string * One) :=
  ok (on_metadata over_element (set_md_value value) pd).

Definition jsonUcerParseVector : list (JsonNode One) :=
  [mkJsonNode "/attributeDomainName" ucer_attributeDomainName;
   mkJsonNode "/attributes" jsonNullTreat;
   mkJsonNode "/attributes/attribute" ucer_contextAttribute;
   mkJsonNode "/attributes/attribute/name" ucer_contextAttributeName;
   mkJsonNode "/attributes/attribute/type" ucer_contextAttributeType;
   mkJsonNode "/attributes/attribute/value" ucer_contextAttributeValue;
   mkJsonNode "/attributes/attribute/metadatas" jsonNullTreat;
   mkJsonNode "/attributes/attribute/metadatas/metadata" ucer_contextMetadata;
   mkJsonNode "/attributes/attribute/metadatas/metadata/name" ucer_contextMetadataName;
   mkJsonNode "/attributes/attribute/metadatas/metadata/type" ucer_contextMetadataType;
   mkJsonNode "/attributes/attribute/metadatas/metadata/value" ucer_contextMetadataValue].

(** *** Appending to an entity: jsonAppendContextElementRequest.cpp *)

Definition acer_attributeDomainName (value : string) (pd : One) : cpp (string * One) :=
  ok (on_element over_element (set_domain value) pd).
Definition acer_entityIdId (value : string) (pd : One) : cpp (string * One) :=
  ok (on_element over_element (on_entity (set_eid_id value)) pd).
Definition acer_entityIdType (value : string) (pd : One) : cpp (string * One) :=
  ok (on_element over_element (on_entity (set_eid_type value)) pd).
Definition acer_entityIdIsPattern (value : string) (pd : One) : cpp (string * One) :=
  if negb (isTrue value) && negb (isFalse value) then Ret (isPattern_answer value, pd)
  else ok (on_element over_element (on_entity (set_eid_isPattern value)) pd).
Definition acer_contextAttribute (value : string) (pd : One) : cpp (string * One) :=
  ok (new_attribute over_element id (ContextAttribute_none memNumber memBool) pd).
Definition acer_contextAttributeName (value : string) (pd : One) : cpp (string * One) :=
  ok (on_attribute over_element (set_ca_name value) pd).
Definition acer_contextAttributeType (value : string) (pd : One) : cpp (string * One) :=
  ok (on_attribute over_element (set_ca_type value) pd).
Definition acer_contextAttributeValue (value : string) (pd : One) : cpp (string * One) :=
  ok (attribute_value over_element value pd).
Definition acer_contextMetadata (value : string) (pd : One) : cpp (string * One) :=
  ok (new_metadata over_element id (Metadata_empty memNumber memBool) pd).
Definition acer_contextMetadataName (value : string) (pd : One) : cpp (string * One) :=
  ok (on_metadata over_element (set_md_name value) pd).
Definition acer_contextMetadataType (value : string) (pd : One) : cpp (string * One) :=
  ok (on_metadata over_element (set_md_type value) pd).
Definition acer_contextMetadataValue (value : string) (pd : One) : cpp (string * One) :=
  ok (on_metadata over_element (set_md_value value) pd).
Definition acer_domainMetadata (value : string) (pd : One) : cpp (string * One) :=
  ok (new_domainMetadata over_element id (Metadata_empty memNumber memBool) pd).
Definition acer_domainMetadataName (value : string) (pd : One) : cpp (string * One) :=
  ok (on_domain over_element (set_md_name value) pd).
Definition acer_domainMetadataType (value : string) (pd : One) : cpp (string * One) :=
  ok (on_domain over_element (set_md_type value) pd).
Definition acer_domainMetadataValue (value : string) (pd : One) : cpp (string * One) :=
  ok (on_domain over_element (set_md_value value) pd).

Definition jsonAcerParseVector : list (JsonNode One) :=
  [mkJsonNode "/attributeDomainName" acer_attributeDomainName;
   mkJsonNode "/id" acer_entityIdId;
   mkJsonNode "/type" acer_entityIdType;
   mkJsonNode "/isPattern" acer_entityIdIsPattern;
   mkJsonNode "/attributes" jsonNullTreat;
   mkJsonNode "/attributes/attribute" acer_contextAttribute;
   mkJsonNode "/attributes/attribute/name" acer_contextAttributeName;
   mkJsonNode "/attributes/attribute/type" acer_contextAttributeType;
   mkJsonNode "/attributes/attribute/value" acer_contextAttributeValue;
   mkJsonNode "/attributes/attribute/metadatas" jsonNullTreat;
   mkJsonNode "/attributes/attribute/metadatas/metadata" acer_contextMetadata;
   mkJsonNode "/attributes/attribute/metadatas/metadata/name" acer_contextMetadataName;
   mkJsonNode "/attributes/attribute/metadatas/metadata/type" acer_contextMetadataType;
   mkJsonNode "/attributes/attribute/metadatas/metadata/value" acer_contextMetadataValue;
   mkJsonNode "/metadatas" jsonNullTreat;
   mkJsonNode "/metadatas/metadata" acer_domainMetadata;
   mkJsonNode "/metadatas/metadata/name" acer_domainMetadataName;
   mkJsonNode "/metadatas/metadata/type" acer_domainMetadataType;
   mkJsonNode "/metadatas/metadata/value" acer_domainMetadataValue].

(** *** Updating an attribute: jsonUpdateContextAttributeRequest.cpp *)

Definition upcar_attributeType (value : string) (pd : Upcar) : cpp (string * Upcar) :=
  ok (on_upcar (fun r => mkAttributeRequest value (uq_valueType r) (uq_contextValue r) (uq_compoundValueP r) (uq_metadataVector r)) pd).
Definition upcar_attributeValue (value : string) (pd : Upcar) : cpp (string * Upcar) :=
  ok (on_upcar (fun r => mkAttributeRequest (uq_type r) ValueTypeString value (uq_compoundValueP r) (uq_metadataVector r)) pd).
Definition upcar_contextMetadata (value : string) (pd : Upcar) : cpp (string * Upcar) :=
  ok (upcar_new_metadata (Metadata_empty memNumber memBool) pd).
Definition upcar_contextMetadataName (value : string) (pd : Upcar) : cpp (string * Upcar) :=
  ok (upcar_on_metadata (set_md_name value) pd).
Definition upcar_contextMetadataType (value : string) (pd : Upcar) : cpp (string * Upcar) :=
  ok (upcar_on_metadata (give_md_type value) pd).
Definition upcar_contextMetadataValue (value : string) (pd : Upcar) : cpp (string * Upcar) :=
  ok (upcar_on_metadata (set_md_value value) pd).

Definition jsonUpcarParseVector : list (JsonNode Upcar) :=
  [mkJsonNode "/type" upcar_attributeType;
   mkJsonNode "/value" upcar_attributeValue;
   mkJsonNode "/metadatas" jsonNullTreat;
   mkJsonNode "/metadatas/metadata" upcar_contextMetadata;
   mkJsonNode "/metadatas/metadata/name" upcar_contextMetadataName;
   mkJsonNode "/metadatas/metadata/type" upcar_contextMetadataType;
   mkJsonNode "/metadatas/metadata/value" upcar_contextMetadataValue].


End tables.

(** ** Initial data: the Init functions *)

Definition empty_data {E R} (rest : R) : ContextData E R := mkContextData [] rest None None None None None.

Definition jsonUpcrInit : Upcr := empty_data "".
(** The release of the response resets its error code. *)
Definition jsonUpcrsInit : Responses := empty_data no_status.
Definition jsonQcrsInit : Responses := empty_data no_status.
Definition jsonNcrInit : Ncr := empty_data ("", "").
(** The one element is there from the start, with EntityId(). *)
Definition one_element : One := mkContextData [mkElement (mkEntityId "" "" "" "") "" [] []] tt (Some 0%nat) None None None None.
Definition jsonUcerInit : One := one_element.
Definition jsonAcerInit : One := one_element.
Definition jsonUpcarInit : Upcar := mkUpcar (mkAttributeRequest "" ValueTypeNone "" None []) None.

(** ** Checking what was read *)

Section checks.
Context (checkIdv1 : bool) (apiVersion : string).

(** ContextElement::check *)
Definition Element_check (el : Element) : string :=
  let res := EntityId_check (el_entityId el) in
  if negb (res =s "OK") then res
  else let res := check_vector (ContextAttribute_check checkIdv1 apiVersion false) (el_attrs el) in
  if negb (res =s "OK") then res
  else check_vector (Metadata_check checkIdv1 apiVersion) (el_domainMetadata el).

(** ContextElementVector::check, for update requests. *)
Definition Elements_check (vec : list Element) : string :=
  if (length vec =? 0)%nat then "No context elements" else check_vector Element_check vec.

(** UpdateActionType::check *)
Definition update_actions : list string :=
  ["update"; "UPDATE"; "Update"; "append"; "APPEND"; "Append"; "append_strict"; "APPEND_STRICT"; "Append_Strict"; "delete"; "DELETE";
   "Delete"; "replace"; "REPLACE"; "Replace"].

Definition UpdateActionType_check (action : string) : string :=
  if existsb (String.eqb action) update_actions then "OK"
  else if action =s "" then "empty update action type"
  else "invalid update action type: /" +:+ action +:+ "/".

(** StatusCode::check *)
Definition StatusCode_check (sc : ReadStatus) : string :=
  if rs_code sc =? SccNone then "no code" else if rs_reason sc =s "" then "no reason phrase" else "OK".

(** ContextElementResponse::check and ContextElementResponseVector::check *)
Definition ElementResponse_check (er : ElementResponse) : string :=
  let res := Element_check (er_element er) in
  if negb (res =s "OK") then res else StatusCode_check (er_status er).

Definition ElementResponses_check (vec : list ElementResponse) : string := check_vector ElementResponse_check vec.

(** What was read, as the data of requests and responses. *)
Definition request_of (pd : Upcr) : UpdateContextRequest :=
  mkUpdateContextRequest (map (fun el => (el_entityId el, el_attrs el)) (cd_elements pd)) (cd_rest pd) "".

Definition cer_of (er : ElementResponse) : Cer :=
  mkCer (el_entityId (er_element er)) (el_attrs (er_element er)) (mkStatusCode (rs_code (er_status er)) (rs_details (er_status er))).

Definition response_of (pd : Responses) : UpdateContextResponse :=
  mkUpdateContextResponse (map cer_of (cd_elements pd)) (mkStatusCode (rs_code (cd_rest pd)) (rs_details (cd_rest pd))).

Context (isodate2str : double -> string) (attributeFormat : string) (outJson : bool).

(** UpdateContextRequest::check: OK, or a response of error. *)
Definition jsonUpcrCheck (pd : Upcr) : cpp string :=
  let res := Elements_check (cd_elements pd) in
  let res := if negb (res =s "OK") then res else UpdateActionType_check (cd_rest pd) in
  if negb (res =s "OK")
  then '(text, _) ← UpdateContextResponse_render isodate2str apiVersion attributeFormat outJson
                      (mkUpdateContextResponse [] (mkStatusCode SccBadRequest res)) ""; Ret text
  else Ret "OK".

(** UpdateContextResponse::check: the details of the error are lost. *)
Definition jsonUpcrsCheck (pd : Responses) : cpp string :=
  if negb (ElementResponses_check (cd_elements pd) =s "OK")
  then '(text, _) ← UpdateContextResponse_render isodate2str apiVersion attributeFormat outJson
                      (mkUpdateContextResponse (upcrs_contextElementResponseVector (response_of pd)) (mkStatusCode SccBadRequest "")) ""; Ret text
  else Ret "OK".

(** QueryContextResponse::check *)
Definition jsonQcrsCheck (pd : Responses) : cpp string :=
  let res := ElementResponses_check (cd_elements pd) in
  if negb (res =s "OK")
  then '(text, _) ← QueryContextResponse_render isodate2str apiVersion attributeFormat outJson
                         (upcrs_contextElementResponseVector (response_of pd)) (mkStatusCode SccBadRequest res) ""; Ret text
  else Ret "OK".

End checks.
