(* ===== verification/JsonForwardV1.v ===== *)
(** * Messages between brokers in the JSON of version 1

    What a broker prints for another one (ngsi10/, [RenderV1]) is read by the other through its
    tables ([JsonContextV1]): the elements of an update request, of a response or of a
    notification, with their attributes, values and metadata.  Everything a text says arrives,
    with its type lost: values are texts, or structures of texts. *)

From S2P Require Import Prelude Strings Double Bson Compound Ngsi Json JsonText JsonEntity Registrations EntityUpdate UpdateContext RenderV1 Subscriptions JsonSubscription Forward QueryContext QueryForward JsonParseV1 JsonContextV1.

Open Scope Z_scope.

Lemma alter_last {A} (f : A -> A) l x : alter f (length l) (l ++ [x]) = l ++ [f x].
Proof. rewrite <- (Nat.add_0_r (length l)). by rewrite alter_app_r. Qed.

(** ** Texts *)

(** A text that arrives without being refused.  The characters that are escaped when it is printed are
    the forbidden ones, so that it was printed as it is. *)
Definition sent (s : string) : Prop := forbidden_value s = false.

Lemma escape_char c : if commonForbidden c then str_any commonForbidden (htmlEscape_char c) = true else htmlEscape_char c = str1 c.
Proof. by destruct c as [[] [] [] [] [] [] [] []]. Qed.

Lemma escape_char_clean c : c <> NUL -> free_of NUL (htmlEscape_char c) = true.
Proof. by destruct c as [[] [] [] [] [] [] [] []]. Qed.

Lemma htmlEscape_loop_spec s :
  if str_any commonForbidden s then str_any commonForbidden (htmlEscape_loop s) = true else htmlEscape_loop s = s.
Proof.
  induction s as [|c s IH]; [done|]. cbn [htmlEscape_loop]. pose proof (escape_char c) as Hc.
  change (String c s) with (str1 c +:+ s) at 1. rewrite str_any_app.
  assert (str_any commonForbidden (str1 c) = commonForbidden c) as -> by (by destruct c as [[] [] [] [] [] [] [] []]).
  destruct (commonForbidden c); cbn [orb].
  - by rewrite str_any_app, Hc.
  - rewrite Hc. destruct (str_any commonForbidden s); [by rewrite str_any_app, IH, orb_true_r|by rewrite IH].
Qed.

Lemma htmlEscape_loop_clean s : free_of NUL s = true -> free_of NUL (htmlEscape_loop s) = true.
Proof.
  induction s as [|c s IH]; [done|]. change (String c s) with (str1 c +:+ s). rewrite free_of_app, andb_true_iff. intros [Hc Hs].
  cbn [htmlEscape_loop app]. change (htmlEscape_loop (str1 c +:+ s)) with (htmlEscape_char c +:+ htmlEscape_loop s).
  rewrite free_of_app, (IH Hs), escape_char_clean; [done|]. by intros ->.
Qed.

Lemma forbidden_any s : forbidden_value s = str_any commonForbidden (c_str s).
Proof. unfold forbidden_value. cbn [forbiddenChars]. by rewrite forbiddenChars_loop_None. Qed.

Lemma sent_as s : sent s -> htmlEscape s = c_str s /\ forbidden_value (c_str s) = false.
Proof.
  unfold sent. rewrite !forbidden_any, c_str_idemp. intros H. split; [|done]. unfold htmlEscape.
  pose proof (htmlEscape_loop_spec (c_str s)) as Hs. by rewrite H in Hs.
Qed.

(** Other texts are refused when they arrive. *)
Lemma escaped_refused s : forbidden_value s = true -> forbidden_value (htmlEscape s) = true.
Proof.
  rewrite !forbidden_any. unfold htmlEscape. intros H. rewrite (c_str_id (htmlEscape_loop _)).
  - pose proof (htmlEscape_loop_spec (c_str s)) as Hs. by rewrite H in Hs.
  - apply htmlEscape_loop_clean, free_of_c_str, c_str_idemp.
Qed.

Section read.
Context {E R : Type} (over : (Element -> Element) -> E -> E) (get : E -> Element) (memNumber : double) (memBool : bool).
Context (over_over : forall f el e, over f (over (fun _ => el) e) = over (fun _ => f el) e).
Context (get_over : forall el e, get (over (fun _ => el) e) = el).

Abbreviation PD := (ContextData E R).

(** The element that is being read is the last one, the attribute its last one. *)
Definition reading (es : list E) (el : Element) (e : E) (r : R) (ap : option (nat * nat)) (mp : option (nat * nat * nat))
    (dp lp : option (nat * nat)) : PD :=
  mkContextData (es ++ [over (fun _ => el) e]) r (Some (length es)) ap mp dp lp.

Definition with_attr (el : Element) (pre : list ContextAttribute) (ca : ContextAttribute) : Element :=
  mkElement (el_entityId el) (el_attributeDomainName el) (pre ++ [ca]) (el_domainMetadata el).

Definition reading_attr (es : list E) (el : Element) (e : E) (r : R) (pre : list ContextAttribute) (ca : ContextAttribute)
    (mp : option (nat * nat * nat)) (dp lp : option (nat * nat)) : PD :=
  reading es (with_attr el pre ca) e r (Some (length es, length pre)) mp dp lp.

Lemma on_element_reading f es el e r ap mp dp lp :
  on_element over f (reading es el e r ap mp dp lp) = Ret (reading es (f el) e r ap mp dp lp).
Proof. unfold on_element, on_entry, reading, set_elements. cbn. by rewrite alter_last, over_over. Qed.

Lemma new_attribute_reading ca es el e r ap mp dp lp :
  new_attribute over get ca (reading es el e r ap mp dp lp) = Ret (reading_attr es el e r (el_attrs el) ca mp dp lp).
Proof.
  unfold new_attribute, reading_attr, reading, attrs_at. cbn. rewrite alter_last, over_over.
  by rewrite list_lookup_middle, get_over.
Qed.

Lemma alter_attribute_reading f es el e r pre ca mp dp lp :
  alter_attribute over f (length es, length pre) (reading_attr es el e r pre ca mp dp lp) = reading_attr es el e r pre (f ca) mp dp lp.
Proof.
  unfold alter_attribute, reading_attr, reading, set_elements. cbn. rewrite alter_last, over_over. unfold on_attrs, with_attr. cbn.
  by rewrite alter_last.
Qed.

Lemma on_attribute_reading f es el e r pre ca mp dp lp :
  on_attribute over f (reading_attr es el e r pre ca mp dp lp) = Ret (reading_attr es el e r pre (f ca) mp dp lp).
Proof. unfold on_attribute. cbn [cd_attributeP reading_attr reading]. f_equal. apply alter_attribute_reading. Qed.

Lemma attribute_value_reading v es el e r pre ca mp dp lp :
  attribute_value over v (reading_attr es el e r pre ca mp dp lp)
  = Ret (reading_attr es el e r pre (set_ca_text v ca) mp dp (Some (length es, length pre))).
Proof.
  unfold attribute_value. change (mkContextData _ _ _ _ _ _ _) with (reading_attr es el e r pre ca mp dp (Some (length es, length pre))).
  apply on_attribute_reading.
Qed.

Lemma last_compound_reading w c es el e r pre ca mp dp : (c_str w =s "updateContextAttributeRequest") = false ->
  last_compound over w c (reading_attr es el e r pre ca mp dp (Some (length es, length pre)))
  = Ret (reading_attr es el e r pre (set_ca_compound c ca) mp dp (Some (length es, length pre))).
Proof. intros Hw. unfold last_compound. rewrite Hw. cbn [cd_lastContextAttribute reading_attr reading]. f_equal. apply alter_attribute_reading. Qed.

Definition reading_md (es : list E) (el : Element) (e : E) (r : R) (pre : list ContextAttribute) (ca : ContextAttribute)
    (mds : list Metadata) (md : Metadata) (dp lp : option (nat * nat)) : PD :=
  reading_attr es el e r pre (on_metadatas (fun _ => mds ++ [md]) ca) (Some ((length es, length pre), length mds)) dp lp.

Lemma new_metadata_reading md es el e r pre ca mp dp lp :
  new_metadata over get md (reading_attr es el e r pre ca mp dp lp)
  = Ret (reading_md es el e r pre ca (ca_metadataVector ca) md dp lp).
Proof.
  unfold new_metadata. cbn [cd_attributeP reading_attr reading]. fold (reading_attr es el e r pre ca mp dp lp).
  change (mkContextData (es ++ _) r _ _ mp dp lp) with (reading_attr es el e r pre ca mp dp lp).
  rewrite alter_attribute_reading. unfold mds_at, attrs_at. cbn. rewrite list_lookup_middle by done. rewrite get_over. cbn [with_attr el_attrs].
  by rewrite list_lookup_middle by done.
Qed.

Lemma on_metadata_reading f es el e r pre ca mds md dp lp :
  on_metadata over f (reading_md es el e r pre ca mds md dp lp) = Ret (reading_md es el e r pre ca mds (f md) dp lp).
Proof.
  unfold on_metadata, reading_md. cbn [cd_metadataP reading_attr reading]. f_equal. rewrite alter_attribute_reading.
  unfold on_metadatas, with_ca. cbn. by rewrite alter_last.
Qed.


(** ** The table of elements at a path *)

Context (payloadWord : string) (parseVector : list (JsonNode PD)).
Context (other_word : (c_str payloadWord =s "updateContextAttributeRequest") = false).

Abbreviation walk := (jsonParse (last_compound over) payloadWord parseVector).
Abbreviation walks := (walks (last_compound over) payloadWord parseVector).

(** Below [P], [key] is at [Q], where the table has a function that does [g]. *)
Definition at_key (P key Q : string) (compound : bool) (g : string -> PD -> cpp PD) : Prop :=
  node_path P key = Some Q /\ isCompoundPath Q = compound /\
  exists f, leads parseVector Q f /\ forall v pd pd', g v pd = Ret pd' -> exists res, f v pd = Ret (res, pd').

Record element_table (P : string) : Prop := mkElementTable {
  et_id : at_key P "id" (P +:+ "/id") false (fun v => on_element over (on_entity (set_eid_id v)));
  et_type : at_key P "type" (P +:+ "/type") false (fun v => on_element over (on_entity (set_eid_type v)));
  et_isPattern : at_key P "isPattern" (P +:+ "/isPattern") false (fun v => on_element over (on_entity (set_eid_isPattern v)));
  et_attributes : at_key P "attributes" (P +:+ "/attributes") false (fun _ pd => Ret pd);
  et_attribute : at_key (P +:+ "/attributes") "" (P +:+ "/attributes/attribute") false
    (fun _ => new_attribute over get (ContextAttribute_none memNumber memBool));
  et_name : at_key (P +:+ "/attributes/attribute") "name" (P +:+ "/attributes/attribute/name") false
    (fun v => on_attribute over (set_ca_name v));
  et_atype : at_key (P +:+ "/attributes/attribute") "type" (P +:+ "/attributes/attribute/type") false
    (fun v => on_attribute over (set_ca_type v));
  et_value : at_key (P +:+ "/attributes/attribute") "value" (P +:+ "/attributes/attribute/value") true (attribute_value over);
  et_metadatas : at_key (P +:+ "/attributes/attribute") "metadatas" (P +:+ "/attributes/attribute/metadatas") false (fun _ pd => Ret pd);
  et_metadata : at_key (P +:+ "/attributes/attribute/metadatas") "" (P +:+ "/attributes/attribute/metadatas/metadata") false
    (fun _ => new_metadata over get (Metadata_empty memNumber memBool));
  et_mname : at_key (P +:+ "/attributes/attribute/metadatas/metadata") "name" (P +:+ "/attributes/attribute/metadatas/metadata/name") false
    (fun v => on_metadata over (set_md_name v));
  et_mtype : at_key (P +:+ "/attributes/attribute/metadatas/metadata") "type" (P +:+ "/attributes/attribute/metadatas/metadata/type") false
    (fun v => on_metadata over (set_md_type v));
  et_mvalue : at_key (P +:+ "/attributes/attribute/metadatas/metadata") "value" (P +:+ "/attributes/attribute/metadatas/metadata/value") false
    (fun v => on_metadata over (set_md_value v))
}.

Lemma at_text P key Q compound g s ci pd pd' : at_key P key Q compound g -> forbidden_value s = false -> g s pd = Ret pd' ->
  walk P key (PT s []) ci pd = Ret (Out "OK" ci pd').
Proof. intros (Hp & _ & f & Hl & Hf) Hs Hg. destruct (Hf s pd pd' Hg) as [res Hr]. by eapply walk_text. Qed.

Lemma at_inside P key Q g l ci pd pd1 pd2 : at_key P key Q false g -> g "" pd = Ret pd1 -> walks Q l ci pd1 pd2 ->
  walk P key (PT "" l) ci pd = Ret (Out "OK" ci pd2).
Proof.
  intros (Hp & Hc & f & Hl & Hf) Hg Hw. destruct (Hf "" pd pd1 Hg) as [res Hr].
  eapply walk_inside; [done|done|by rewrite orb_true_r| |done|done]. unfold is_compound_node. by rewrite Hc.
Qed.


(** ** Metadata *)

Definition read_md (md : Metadata) : Metadata :=
  mkMetadata (c_str (md_name md)) (c_str (md_type md)) ValueTypeString (c_str (md_stringValue md)) memNumber memBool false.

Definition md_sent (md : Metadata) : Prop := sent (md_name md) /\ sent (md_type md) /\ sent (md_stringValue md).

Lemma md_walk P md es el e r pre ca mp dp lp ci : element_table P -> md_sent md ->
  walk (P +:+ "/attributes/attribute/metadatas") "" (ptree_of (md_tree md)) ci (reading_attr es el e r pre ca mp dp lp)
  = Ret (Out "OK" ci (reading_md es el e r pre ca (ca_metadataVector ca) (read_md md) dp lp)).
Proof.
  intros HP ([E1 F1]%sent_as & [E2 F2]%sent_as & [E3 F3]%sent_as). cbn [ptree_of md_tree map fst snd]. rewrite E1, E2, E3.
  eapply at_inside; [apply (et_metadata P HP)|apply new_metadata_reading; done|].
  eapply walks_cons; [eapply at_text; [apply (et_mname P HP)|done|apply on_metadata_reading; done]|].
  eapply walks_cons; [eapply at_text; [apply (et_mtype P HP)|done|apply on_metadata_reading; done]|].
  eapply walks_one, at_text; [apply (et_mvalue P HP)|done|]. etrans; [apply on_metadata_reading; done|]. done.
Qed.

Lemma on_metadatas_app ca xs ys :
  on_metadatas (fun l => l ++ ys) (on_metadatas (fun l => l ++ xs) ca) = on_metadatas (fun l => l ++ xs ++ ys) ca.
Proof. unfold on_metadatas, with_ca. cbn. by rewrite <- app_assoc. Qed.

Lemma mds_walk P mds es el e r pre ca mp dp lp ci : element_table P -> Forall md_sent mds -> exists mp',
  walks (P +:+ "/attributes/attribute/metadatas") (map (fun md => ("", ptree_of (md_tree md))) mds) ci
    (reading_attr es el e r pre ca mp dp lp)
    (reading_attr es el e r pre (on_metadatas (fun l => l ++ map read_md mds) ca) mp' dp lp).
Proof.
  intros HP H. revert ca mp. induction H as [|md mds Hmd _ IH]; intros ca mp.
  - exists mp. cbn [map]. replace (on_metadatas _ ca) with ca; [apply walks_nil|]. unfold on_metadatas, with_ca. rewrite app_nil_r. by destruct ca.
  - destruct (IH (on_metadatas (fun l => l ++ [read_md md]) ca) (Some ((length es, length pre), length (ca_metadataVector ca)))) as [mp' Hw].
    exists mp'. cbn [map]. eapply walks_cons; [by apply md_walk|]. rewrite on_metadatas_app in Hw. exact Hw.
Qed.

(** The member of an attribute that holds its metadata. *)
Lemma metadatas_walk P mds es el e r pre ca mp dp lp ci : element_table P -> Forall md_sent mds -> exists mp',
  walks (P +:+ "/attributes/attribute") (map (fun kv => (kv.1, ptree_of kv.2)) (metadata_members mds)) ci
    (reading_attr es el e r pre ca mp dp lp)
    (reading_attr es el e r pre (on_metadatas (fun l => l ++ map read_md mds) ca) mp' dp lp).
Proof.
  intros HP H. unfold metadata_members. destruct (mds_walk P mds es el e r pre ca mp dp lp ci HP H) as [mp' Hw].
  destruct (length mds =? 0)%nat eqn:Em.
  - apply Nat.eqb_eq in Em. destruct mds; [|done]. exists mp. cbn [map]. replace (on_metadatas _ ca) with ca; [apply walks_nil|].
    unfold on_metadatas, with_ca. rewrite app_nil_r. by destruct ca.
  - exists mp'. cbn [map fst snd ptree_of]. eapply walks_one, at_inside; [apply (et_metadatas P HP)|done|]. rewrite map_map. exact Hw.
Qed.

(** ** Values *)

(** What the value of an attribute is read as. *)
Definition value_read (t : jtree) (ca : ContextAttribute) : Prop :=
  ca_valueType ca = ValueTypeString /\
  match t with
  | JStr s | JLit s => ca_stringValue ca = s /\ ca_compoundValueP ca = None
  | _ => ca_stringValue ca = "" /\
         if shows_empty t then ca_compoundValueP ca = None
         else exists n, ca_compoundValueP ca = Some n /\ content n = understood t /\ check n = "OK"
  end.

Lemma value_walk P t es el e r pre ca mp dp lp ci : element_table P -> eatable t = true -> no_parse_error ci ->
  ca_compoundValueP ca = None -> exists ca' lp',
  walk (P +:+ "/attributes/attribute") "value" (ptree_of t) ci (reading_attr es el e r pre ca mp dp lp)
  = Ret (Out "OK" ci (reading_attr es el e r pre ca' mp dp lp')) /\
  value_read t ca' /\ ca_name ca' = ca_name ca /\ ca_type ca' = ca_type ca /\ ca_metadataVector ca' = ca_metadataVector ca.
Proof.
  intros HP Ht Hci Hn. pose proof (et_value P HP) as Hv.
  assert (forall s, forbidden_value s = false -> exists ca' lp',
    walk (P +:+ "/attributes/attribute") "value" (PT s []) ci (reading_attr es el e r pre ca mp dp lp)
    = Ret (Out "OK" ci (reading_attr es el e r pre ca' mp dp lp')) /\ ca' = set_ca_text s ca) as Htext.
  { intros s Hs. eexists _, _. split; [|reflexivity]. eapply at_text; [exact Hv|done|]. by apply attribute_value_reading. }
  assert (shows_empty t = false -> (exists l, t = JArr l) \/ (exists o, t = JObj o) -> exists n lp',
    walk (P +:+ "/attributes/attribute") "value" (ptree_of t) ci (reading_attr es el e r pre ca mp dp lp)
    = Ret (Out "OK" ci (reading_attr es el e r pre (set_ca_compound n (set_ca_text "" ca)) mp dp lp')) /\
    content n = understood t /\ check n = "OK") as Hstruct.
  { intros Hs Hj. destruct Hv as (Hp & Hc & f & Hl & Hf).
    destruct (Hf "" (reading_attr es el e r pre ca mp dp lp) _ (attribute_value_reading "" es el e r pre ca mp dp lp)) as [res Hr].
    destruct (walk_compound (last_compound over) payloadWord parseVector _ _ t ci _ _ f _ _ Hp Hl Hc Hr Ht Hs Hj Hci) as (n & (_ & H1 & H2) & ->).
    exists n. eexists. split; [|done]. by rewrite last_compound_reading. }
  destruct t as [s|s|l|o].
  - cbn [eatable ptree_of] in *. apply negb_true_iff in Ht. destruct (Htext s Ht) as (ca' & lp' & -> & ->). by exists (set_ca_text s ca), lp'.
  - cbn [eatable ptree_of] in *. apply negb_true_iff in Ht. destruct (Htext s Ht) as (ca' & lp' & -> & ->). by exists (set_ca_text s ca), lp'.
  - unfold value_read. destruct (shows_empty (JArr l)) eqn:Es.
    + destruct l; [|done]. destruct (Htext "" eq_refl) as (ca' & lp' & Ew & ->). by exists (set_ca_text "" ca), lp'.
    + destruct (Hstruct eq_refl ltac:(left; by eexists)) as (n & lp' & Ew & Hnode). eexists _, lp'. split; [exact Ew|].
      split; [|done]. split; [done|]. split; [done|]. by exists n.
  - unfold value_read. destruct (shows_empty (JObj o)) eqn:Es.
    + destruct o; [|done]. destruct (Htext "" eq_refl) as (ca' & lp' & Ew & ->). by exists (set_ca_text "" ca), lp'.
    + destruct (Hstruct eq_refl ltac:(right; by eexists)) as (n & lp' & Ew & Hnode). eexists _, lp'. split; [exact Ew|].
      split; [|done]. split; [done|]. split; [done|]. by exists n.
Qed.

(** ** Attributes and elements *)

Context (isodate2str : double -> string) (apiVersion attributeFormat : string) (outJson : bool).
Context (no_objects : as_object attributeFormat outJson = false).

Abbreviation attribute_tree := (attribute_tree isodate2str apiVersion attributeFormat outJson).
Abbreviation value_tree := (value_tree isodate2str apiVersion attributeFormat outJson).

(** An attribute that is printed so that it arrives, and what it is when it has. *)
Record attribute_sent (request : RequestType) (ca : ContextAttribute) : Prop := mkAttributeSent {
  as_name : sent (ca_name ca);
  as_type : sent (ca_type ca);
  as_value : eatable (value_tree request ca) = true;
  as_metadata : Forall md_sent (ca_metadataVector ca)
}.

Record attribute_read (request : RequestType) (ca ca' : ContextAttribute) : Prop := mkAttributeRead {
  ar_name : ca_name ca' = c_str (ca_name ca);
  ar_type : ca_type ca' = c_str (ca_type ca);
  ar_value : value_read (value_tree request ca) ca';
  ar_metadata : ca_metadataVector ca' = map read_md (ca_metadataVector ca)
}.

Lemma attribute_walk P request ca es el e r ap mp dp lp ci : element_table P -> attribute_sent request ca -> no_parse_error ci ->
  exists ca' ap' mp' lp', attribute_read request ca ca' /\
  walk (P +:+ "/attributes") "" (ptree_of (attribute_tree request ca)) ci (reading es el e r ap mp dp lp)
  = Ret (Out "OK" ci (reading es (on_attrs (fun l => l ++ [ca']) el) e r ap' mp' dp lp')).
Proof.
  intros HP [[En Fn]%sent_as [Et Ft]%sent_as Hv Hm] Hci. unfold RenderV1.attribute_tree. rewrite no_objects, En, Et.
  set (ca0 := ContextAttribute_none memNumber memBool).
  set (ca1 := set_ca_type (c_str (ca_type ca)) (set_ca_name (c_str (ca_name ca)) ca0)).
  destruct (value_walk P (value_tree request ca) es el e r (el_attrs el) ca1 mp dp lp ci HP Hv Hci eq_refl)
    as (ca2 & lp' & Hw & Hval & H1 & H2 & H3).
  destruct (metadatas_walk P (ca_metadataVector ca) es el e r (el_attrs el) ca2 mp dp lp' ci HP Hm) as (mp' & Hw').
  exists (on_metadatas (fun l => l ++ map read_md (ca_metadataVector ca)) ca2), (Some (length es, length (el_attrs el))), mp', lp'. split.
  - constructor; cbn; [by rewrite H1|by rewrite H2| |by rewrite H3]. unfold value_read in *. cbn. exact Hval.
  - cbn [ptree_of app map fst snd]. eapply at_inside; [apply (et_attribute P HP)|apply new_attribute_reading; done|].
    eapply walks_cons; [eapply at_text; [apply (et_name P HP)|done|apply on_attribute_reading; done]|].
    eapply walks_cons; [eapply at_text; [apply (et_atype P HP)|done|apply on_attribute_reading; done]|].
    eapply walks_cons; [exact Hw|]. exact Hw'.
Qed.

Lemma attributes_walk P request cav es el e r ap mp dp lp ci : element_table P -> Forall (attribute_sent request) cav -> no_parse_error ci ->
  exists cav' ap' mp' lp', Forall2 (attribute_read request) cav cav' /\
  walks (P +:+ "/attributes") (map (fun ca => ("", ptree_of (attribute_tree request ca))) cav) ci (reading es el e r ap mp dp lp)
    (reading es (on_attrs (fun l => l ++ cav') el) e r ap' mp' dp lp').
Proof.
  intros HP H Hci. revert el ap mp lp. induction H as [|ca cav Hca _ IH]; intros el ap mp lp.
  - exists [], ap, mp, lp. split; [done|]. cbn [map]. replace (on_attrs _ el) with el; [apply walks_nil|].
    unfold on_attrs. rewrite app_nil_r. by destruct el.
  - destruct (attribute_walk P request ca es el e r ap mp dp lp ci HP Hca Hci) as (ca' & ap1 & mp1 & lp1 & Hr & Hw).
    destruct (IH (on_attrs (fun l => l ++ [ca']) el) ap1 mp1 lp1) as (cav' & ap2 & mp2 & lp2 & Hrs & Hws).
    exists (ca' :: cav'), ap2, mp2, lp2. split; [by constructor|]. cbn [map]. eapply walks_cons; [exact Hw|].
    unfold on_attrs in Hws |- *. cbn in Hws |- *. rewrite <- app_assoc in Hws. exact Hws.
Qed.

Record entity_sent (e : EntityId) : Prop := mkEntitySent {
  es_id : sent (eid_id e); es_type : sent (eid_type e); es_isPattern : sent (eid_isPattern e)
}.

(** The members of an element. *)
Lemma element_walk P request ei cav es el e r ap mp dp lp ci : element_table P -> entity_sent ei -> el_attrs el = [] ->
  Forall (attribute_sent request) cav -> no_parse_error ci ->
  exists cav' ap' mp' lp', Forall2 (attribute_read request) cav cav' /\
  walks P (map (fun kv => (kv.1, ptree_of kv.2)) (element_members isodate2str apiVersion attributeFormat outJson request ei cav)) ci
    (reading es el e r ap mp dp lp)
    (reading es (mkElement (mkEntityId (c_str (eid_id ei)) (c_str (eid_type ei)) (c_str (eid_isPattern ei))
                              (eid_servicePath (el_entityId el))) (el_attributeDomainName el) cav' (el_domainMetadata el)) e r ap' mp' dp lp').
Proof.
  intros HP [[E1 F1]%sent_as [E2 F2]%sent_as [E3 F3]%sent_as] Hel Ha Hci. destruct el as [ei0 dom cav0 dmd]. cbn in Hel. subst cav0.
  set (el1 := mkElement (mkEntityId (c_str (eid_id ei)) (c_str (eid_type ei)) (c_str (eid_isPattern ei))
                           (eid_servicePath ei0)) dom [] dmd).
  destruct (attributes_walk P request cav es el1 e r ap mp dp lp ci HP Ha Hci) as (cav' & ap' & mp' & lp' & Hr & Hw).
  assert (forall l pd, walks P l ci (reading es el1 e r ap mp dp lp) pd ->
    walks P (map (fun kv => (kv.1, ptree_of kv.2)) (entity_id_members ei) ++ l) ci (reading es (mkElement ei0 dom [] dmd) e r ap mp dp lp) pd) as Hid.
  { intros l pd Hl. unfold entity_id_members. rewrite E1, E2, E3. cbn [map fst snd ptree_of app].
    eapply walks_cons; [eapply at_text; [apply (et_type P HP)|done|apply on_element_reading; done]|].
    eapply walks_cons; [eapply at_text; [apply (et_isPattern P HP)|done|apply on_element_reading; done]|].
    eapply walks_cons; [eapply at_text; [apply (et_id P HP)|done|apply on_element_reading; done]|]. exact Hl. }
  unfold element_members. rewrite map_app. unfold attributes_members. destruct (length cav =? 0)%nat eqn:En.
  - apply Nat.eqb_eq in En. destruct cav; [|done]. exists [], ap, mp, lp. split; [done|]. apply Hid. cbn [map]. apply walks_nil.
  - exists cav', ap', mp', lp'. split; [done|]. apply Hid. cbn [map fst snd]. unfold attributes_tree. rewrite no_objects.
    cbn [ptree_of]. rewrite map_map. eapply walks_one, at_inside; [apply (et_attributes P HP)|done|].
    change (mkElement _ dom cav' dmd) with (on_attrs (fun l => l ++ cav') el1). exact Hw.
Qed.

End read.

(** ** Tables *)

(** The entry of a concrete table, found by computation; [h] is the text its function returns. *)
Lemma at_key_intro {E R} (parseVector : list (JsonNode (ContextData E R))) P key Q compound g n h :
  node_path P key = Some Q -> isCompoundPath Q = compound -> List.find (fun n => Q =s jn_path n) parseVector = Some n ->
  (forall v pd, jn_treat n v pd = (pd ← g v pd; Ret (h v, pd))) -> at_key parseVector P key Q compound g.
Proof.
  intros H1 H2 H3 H4. split; [done|]. split; [done|]. exists (jn_treat n). split; [by exists n|].
  intros v pd pd' Hg. rewrite H4, Hg. by exists (h v).
Qed.

Ltac table_entry h := eapply (at_key_intro _ _ _ _ _ _ _ h); [reflexivity|reflexivity|reflexivity|intros; reflexivity].

Lemma upcr_table memNumber memBool :
  element_table (R := string) over_element id memNumber memBool (jsonUpcrParseVector memNumber memBool) "/contextElements/contextElement".
Proof. constructor; table_entry (fun _ : string => "OK"). Qed.

(** The parts of a message that are not in the element. *)
Definition grows {E R} (pd pd' : ContextData E R) (l : list E) : Prop := cd_elements pd' = cd_elements pd ++ l /\ cd_rest pd' = cd_rest pd.

Lemma grows_nil {E R} (pd : ContextData E R) : grows pd pd [].
Proof. split; [by rewrite app_nil_r|done]. Qed.

Lemma grows_app {E R} (pd pd1 pd2 : ContextData E R) l1 l2 : grows pd pd1 l1 -> grows pd1 pd2 l2 -> grows pd pd2 (l1 ++ l2).
Proof. intros [H1 H2] [H3 H4]. split; [by rewrite H3, H1, <- app_assoc|by rewrite H4]. Qed.

(** Items that each add an element. *)
Lemma items_grow {E R A} (setCompound : string -> CompoundValueNode -> ContextData E R -> cpp (ContextData E R)) payloadWord parseVector P
    (tree : A -> ptree) (Q : A -> E -> Prop) (l : list A) ci :
  Forall (fun x => forall pd, exists pd' e, jsonParse setCompound payloadWord parseVector P "" (tree x) ci pd = Ret (Out "OK" ci pd') /\
            grows pd pd' [e] /\ Q x e) l ->
  forall pd, exists pd' es, walks setCompound payloadWord parseVector P (map (fun x => ("", tree x)) l) ci pd pd' /\
    grows pd pd' es /\ Forall2 Q l es.
Proof.
  induction 1 as [|x l H _ IH]; intros pd; [exists pd, []; split; [apply walks_nil|]; split; [apply grows_nil|done]|].
  destruct (H pd) as (pd1 & e & Hw & Hg & Hq). destruct (IH pd1) as (pd2 & es & Hws & Hgs & Hqs).
  exists pd2, (e :: es). split; [|split; [exact (grows_app _ _ _ [e] es Hg Hgs)|by constructor]]. cbn [map]. by eapply walks_cons.
Qed.

Section messages.
Context (memNumber : double) (memBool : bool) (payloadWord : string).
Context (other_word : (c_str payloadWord =s "updateContextAttributeRequest") = false).
Context (isodate2str : double -> string) (apiVersion attributeFormat : string) (outJson : bool).
Context (no_objects : as_object attributeFormat outJson = false).

Abbreviation attribute_sent := (attribute_sent isodate2str apiVersion attributeFormat outJson).
Abbreviation attribute_read := (attribute_read memNumber memBool isodate2str apiVersion attributeFormat outJson).

(** What a sent element is when it has arrived. *)
Record element_read (request : RequestType) (ei : EntityId) (cav : list ContextAttribute) (el : Element) : Prop := mkElementRead {
  er_entity : el_entityId el = mkEntityId (c_str (eid_id ei)) (c_str (eid_type ei)) (c_str (eid_isPattern ei)) "";
  er_attrs : Forall2 (attribute_read request) cav (el_attrs el);
  er_domain : el_attributeDomainName el = "" /\ el_domainMetadata el = []
}.

Definition element_sent (request : RequestType) (ei : EntityId) (cav : list ContextAttribute) : Prop :=
  entity_sent ei /\ Forall (attribute_sent request) cav.

Abbreviation members := (element_members isodate2str apiVersion attributeFormat outJson).

(** *** Update requests *)

Abbreviation upcr_walk := (jsonParse (last_compound over_element) payloadWord (jsonUpcrParseVector memNumber memBool)).

Lemma upcr_item ce ci pd : element_sent UpdateContext ce.1 ce.2 -> no_parse_error ci -> exists pd' e,
  upcr_walk "/contextElements" "" (ptree_of (JObj (members UpdateContext ce.1 ce.2))) ci pd = Ret (Out "OK" ci pd') /\
  grows pd pd' [e] /\ element_read UpdateContext ce.1 ce.2 e.
Proof.
  intros [He Ha] Hci.
  destruct (element_walk over_element id memNumber memBool (fun _ _ _ => eq_refl) (fun _ _ => eq_refl) payloadWord
    (jsonUpcrParseVector memNumber memBool) other_word isodate2str apiVersion attributeFormat outJson no_objects
    "/contextElements/contextElement" UpdateContext ce.1 ce.2 (cd_elements pd) ContextElement_pattern ContextElement_pattern (cd_rest pd)
    (cd_attributeP pd) (cd_metadataP pd) (cd_domainMetadataP pd) (cd_lastContextAttribute pd) ci (upcr_table _ _) He eq_refl Ha Hci)
    as (cav' & ap' & mp' & lp' & Hr & Hw).
  eexists _, _. split.
  - eapply at_inside with (g := fun _ => new_element ContextElement_pattern); [table_entry (fun _ : string => "OK")|reflexivity|exact Hw].
  - split; [split; reflexivity|]. by constructor.
Qed.

Lemma upcr_walks upcr ci : Forall (fun ce => element_sent UpdateContext ce.1 ce.2) (upcr_contextElementVector upcr) ->
  sent (upcr_updateActionType upcr) -> no_parse_error ci -> exists pd,
  walk_all (upcr_walk "") (map (fun kv => (kv.1, ptree_of kv.2)) (request_members isodate2str apiVersion attributeFormat outJson upcr)) ci jsonUpcrInit
    = Ret (Out "OK" ci pd) /\
  Forall2 (fun ce el => element_read UpdateContext ce.1 ce.2 el) (upcr_contextElementVector upcr) (cd_elements pd) /\
  cd_rest pd = c_str (upcr_updateActionType upcr).
Proof.
  intros He [Ea Fa]%sent_as Hci. destruct (items_grow (last_compound over_element) payloadWord (jsonUpcrParseVector memNumber memBool) "/contextElements"
    (fun ce => ptree_of (JObj (members UpdateContext ce.1 ce.2))) (fun ce => element_read UpdateContext ce.1 ce.2)
    (upcr_contextElementVector upcr) ci) with (pd := jsonUpcrInit) as (pd1 & es & Hw & [H1 H2] & Hr).
  { rewrite Forall_forall in He |- *. intros ce Hin pd. apply upcr_item; [by apply He|done]. }
  cbn in H1. rewrite <- H1 in Hr.
  exists (mkContextData (cd_elements pd1) (c_str (upcr_updateActionType upcr)) (cd_elementP pd1) (cd_attributeP pd1) (cd_metadataP pd1)
            (cd_domainMetadataP pd1) (cd_lastContextAttribute pd1)).
  split; [|split; [exact Hr|reflexivity]]. apply walks_all. unfold request_members. rewrite map_app, Ea.
  eapply (walks_app _ _ _ _ _ _ _ _ pd1).
  - destruct (length (upcr_contextElementVector upcr) =? 0)%nat eqn:En.
    + apply Nat.eqb_eq in En. destruct (upcr_contextElementVector upcr); [|done]. cbn [map] in *. specialize (Hw []). injection Hw as <-.
      apply walks_nil.
    + cbn [map fst snd ptree_of]. eapply walks_one, at_inside with (g := fun _ pd => Ret pd);
        [table_entry (fun _ : string => "OK")|reflexivity|]. rewrite map_map. exact Hw.
  - cbn [map fst snd ptree_of]. eapply walks_one, at_text with (g := fun v => on_rest (fun _ => v)); [table_entry (fun _ : string => "OK")|exact Fa|reflexivity].
Qed.

(** *** Responses and notifications *)

Section responses.
Context {R : Type} (parseVector : list (JsonNode (ContextData ElementResponse R))).

Definition CELEM : string := "/contextResponses/contextResponse/contextElement".

(** The part that the tables of responses and notifications share. *)
Record response_table : Prop := mkResponseTable {
  rt_responses : at_key parseVector "" "contextResponses" "/contextResponses" false (fun _ pd => Ret pd);
  rt_response : at_key parseVector "/contextResponses" "" "/contextResponses/contextResponse" false
    (fun _ => new_element (mkElementResponse ContextElement_pattern no_status));
  rt_element : at_key parseVector "/contextResponses/contextResponse" "contextElement" CELEM false (fun _ pd => Ret pd);
  rt_members : element_table over_response er_element memNumber memBool parseVector CELEM;
  rt_status : at_key parseVector "/contextResponses/contextResponse" "statusCode" "/contextResponses/contextResponse/statusCode" false
    (fun _ pd => Ret pd);
  rt_code : at_key parseVector "/contextResponses/contextResponse/statusCode" "code" "/contextResponses/contextResponse/statusCode/code" false
    (fun v => on_entry (on_status (set_rs_code (atoi (c_str v)))));
  rt_reason : at_key parseVector "/contextResponses/contextResponse/statusCode" "reasonPhrase"
    "/contextResponses/contextResponse/statusCode/reasonPhrase" false (fun v => on_entry (on_status (set_rs_reason v)));
  rt_details : at_key parseVector "/contextResponses/contextResponse/statusCode" "details"
    "/contextResponses/contextResponse/statusCode/details" false (fun v => on_entry (on_status (set_rs_details v)))
}.

Context (table : response_table).

Abbreviation rwalk := (jsonParse (last_compound over_response) payloadWord parseVector).

(** A status code as it is read: its number has gone through a text. *)
Definition status_read (sc : StatusCode) : ReadStatus :=
  mkReadStatus (atoi (show_Z (sc_code sc))) (c_str (httpStatusCodeString (sc_code sc))) (c_str (sc_details sc)).

Record cer_sent (request : RequestType) (cer : Cer) : Prop := mkCerSent {
  cs_element : element_sent request (cer_entity cer) (cer_attrs cer);
  cs_reason : sent (httpStatusCodeString (sc_code (cer_status cer)));
  cs_details : sent (sc_details (cer_status cer))
}.

Definition cer_read (request : RequestType) (cer : Cer) (er : ElementResponse) : Prop :=
  element_read request (cer_entity cer) (cer_attrs cer) (er_element er) /\ er_status er = status_read (cer_status cer).

Lemma on_entry_reading f es el er (r : R) ap mp dp lp :
  on_entry (on_status f) (reading over_response es el er r ap mp dp lp) = Ret (reading over_response es el (on_status f er) r ap mp dp lp).
Proof. unfold on_entry, reading, set_elements. cbn. by rewrite alter_last. Qed.

Lemma show_Z_clean n : forbidden_value (show_Z n) = false /\ c_str (show_Z n) = show_Z n.
Proof.
  assert (forall n, str_all (fun c => negb (commonForbidden c) && negb (c =c NUL)) (show_N n) = true) as H.
  { intros k. eapply str_all_impl; [|apply show_N_digits]. by intros [[] [] [] [] [] [] [] []]. }
  assert (str_all (fun c => negb (commonForbidden c) && negb (c =c NUL)) (show_Z n) = true) as Hz.
  { unfold show_Z. destruct (n <? 0); [|apply H]. change ("-" +:+ ?s) with (String "-" s). rewrite str_all_cons. by rewrite H. }
  assert (c_str (show_Z n) = show_Z n) as Hc.
  { apply c_str_id. eapply str_all_impl; [|exact Hz]. by intros c [_ ?]%andb_true_iff. }
  split; [|done]. unfold forbidden_value, forbiddenChars. rewrite Hc, forbiddenChars_loop_None. unfold str_any. apply negb_false_iff.
  eapply str_all_impl; [|exact Hz]. by intros c [? _]%andb_true_iff.
Qed.

Lemma status_walk sc es el er (r : R) ap mp dp lp ci : sent (httpStatusCodeString (sc_code sc)) -> sent (sc_details sc) ->
  er_status er = no_status ->
  rwalk "/contextResponses/contextResponse" "statusCode" (ptree_of (status_tree sc)) ci (reading over_response es el er r ap mp dp lp)
  = Ret (Out "OK" ci (reading over_response es el (mkElementResponse (er_element er) (status_read sc)) r ap mp dp lp)).
Proof.
  intros [Er Fr]%sent_as [Ed' Fd]%sent_as He. destruct (show_Z_clean (sc_code sc)) as [Hz Hcz]. unfold status_tree. rewrite Er, Ed'. cbn [ptree_of]. rewrite map_app.
  eapply at_inside; [apply (rt_status table)|reflexivity|]. cbn [map fst snd ptree_of app].
  eapply walks_cons; [eapply at_text; [apply (rt_code table)|done|apply on_entry_reading]|].
  eapply walks_cons; [eapply at_text; [apply (rt_reason table)|done|apply on_entry_reading]|].
  unfold status_read. rewrite Hcz. destruct er as [e0 st]. cbn in He. subst st. destruct (sc_details sc =s "") eqn:Ed; cbn [negb map].
  - apply str_eqb_eq in Ed as ->. apply walks_nil.
  - cbn [fst snd ptree_of]. eapply walks_one, at_text; [apply (rt_details table)|done|]. etrans; [apply on_entry_reading|]. done.
Qed.

Lemma response_item request cer ci pd : cer_sent request cer -> no_parse_error ci -> exists pd' er,
  rwalk "/contextResponses" "" (ptree_of (cer_tree isodate2str apiVersion attributeFormat outJson request cer)) ci pd = Ret (Out "OK" ci pd') /\
  grows pd pd' [er] /\ cer_read request cer er.
Proof.
  intros [[He Ha] Hr Hd] Hci.
  destruct (element_walk over_response er_element memNumber memBool (fun _ _ _ => eq_refl) (fun _ _ => eq_refl) payloadWord
    parseVector other_word isodate2str apiVersion attributeFormat outJson no_objects
    CELEM request (cer_entity cer) (cer_attrs cer) (cd_elements pd) ContextElement_pattern
    (mkElementResponse ContextElement_pattern no_status) (cd_rest pd)
    (cd_attributeP pd) (cd_metadataP pd) (cd_domainMetadataP pd) (cd_lastContextAttribute pd) ci (rt_members table) He eq_refl Ha Hci)
    as (cav' & ap' & mp' & lp' & Hrd & Hw).
  eexists _, _. split.
  - unfold cer_tree. cbn [ptree_of map fst snd]. eapply at_inside; [apply (rt_response table)|reflexivity|].
    eapply walks_cons; [eapply at_inside; [apply (rt_element table)|reflexivity|exact Hw]|].
    eapply walks_one. by apply status_walk.
  - split; [split; reflexivity|]. by split.
Qed.

Lemma responses_walk request cerV ci pd : Forall (cer_sent request) cerV -> no_parse_error ci -> exists pd' ers,
  walks (last_compound over_response) payloadWord parseVector ""
    (map (fun kv => (kv.1, ptree_of kv.2)) (responses_members isodate2str apiVersion attributeFormat outJson request cerV)) ci pd pd' /\
  grows pd pd' ers /\ Forall2 (cer_read request) cerV ers.
Proof.
  intros Hc Hci. unfold responses_members. destruct (length cerV =? 0)%nat eqn:En.
  - apply Nat.eqb_eq in En. destruct cerV; [|done]. exists pd, []. split; [apply walks_nil|]. split; [apply grows_nil|done].
  - destruct (items_grow (last_compound over_response) payloadWord parseVector "/contextResponses"
      (fun cer => ptree_of (cer_tree isodate2str apiVersion attributeFormat outJson request cer)) (cer_read request) cerV ci)
      with (pd := pd) as (pd' & ers & Hw & Hg & Hr).
    { rewrite Forall_forall in Hc |- *. intros cer Hin pd0. by apply response_item; [apply Hc|]. }
    exists pd', ers. split; [|done]. cbn [map fst snd ptree_of]. rewrite map_map.
    eapply walks_one, at_inside; [apply (rt_responses table)|reflexivity|exact Hw].
Qed.

End responses.

Lemma upcrs_table : response_table (jsonUpcrsParseVector memNumber memBool).
Proof. constructor; [..|constructor|idtac|idtac|idtac|idtac]; first [table_entry (fun _ : string => "OK")|table_entry isPattern_answer]. Qed.

Lemma qcrs_table : response_table (jsonQcrsParseVector memNumber memBool).
Proof. constructor; [..|constructor|idtac|idtac|idtac|idtac]; first [table_entry (fun _ : string => "OK")|table_entry isPattern_answer]. Qed.

Lemma ncr_table : response_table (jsonNcrParseVector memNumber memBool).
Proof. constructor; [..|constructor|idtac|idtac|idtac|idtac]; first [table_entry (fun _ : string => "OK")|table_entry isPattern_answer]. Qed.

End messages.

(** ** Whole messages *)

Lemma read_json_nonempty s t : JsonText.read_json s = Some t -> s <> "".
Proof. by intros H ->. Qed.

(** The text of a message that boost reads as it is. *)
Lemma message_parsed {S} `{BoostJson} (setCompound : string -> CompoundValueNode -> S -> cpp S) payloadWord parseVector errors keyword
    word (init : S) check text o ci pd : JsonText.read_json text = Some (JObj o) -> str_contains "\/" text = false ->
  walk_all (jsonParse setCompound payloadWord parseVector "") (map (fun kv => (kv.1, ptree_of kv.2)) o) ci init = Ret (Out "OK" ci pd) ->
  jsonTreat setCompound payloadWord parseVector errors keyword word init check text ci = (res ← check pd; Ret (res, ci, pd)).
Proof.
  intros Ht Hb Hw. assert (c_str text = text) as Hc.
  { apply c_str_id. exact (read_json_no_nul text _ Ht). }
  unfold jsonTreat. rewrite Hc. assert ((text =s "") = false) as -> by (apply str_eqb_neq; by eapply read_json_nonempty).
  unfold jsonParse_payload. rewrite Hc, Hb. rewrite (boost_reads text (JObj o) Ht) by (by eexists). cbn [ptree_of pt_children].
  rewrite Hw. cbn [mbind cpp_bind]. by rewrite str_eqb_refl.
Qed.

Section arrival.
Context `{BoostJson}.
Context (memNumber : double) (memBool : bool) (checkIdv1 : bool) (restErrorReplyGet : string -> Z -> string -> cpp string).
Context (isodate2str : double -> string) (apiVersion attributeFormat : string) (outJson : bool).

(** The receiving broker may have other options and another version in its connection. *)
Context (toText : double -> string) (api format : string) (json : bool).

Definition jsonTreat_upcr (content : string) (ci : ParseCi) : cpp (string * ParseCi * Upcr) :=
  jsonTreat (last_compound over_element) "updateContextRequest" (jsonUpcrParseVector memNumber memBool) restErrorReplyGet
    "updateContextRequest" "updateContextRequest" jsonUpcrInit (jsonUpcrCheck checkIdv1 api toText format json) content ci.

(** The answers of providers; [payloadWord] is that of the request that is forwarded. *)
Definition jsonTreat_upcrs (payloadWord content : string) (ci : ParseCi) : cpp (string * ParseCi * Responses) :=
  jsonTreat (last_compound over_response) payloadWord (jsonUpcrsParseVector memNumber memBool) restErrorReplyGet
    "updateContextResponse" "updateContextResponse" jsonUpcrsInit (jsonUpcrsCheck checkIdv1 api toText format json) content ci.

Definition jsonTreat_qcrs (payloadWord content : string) (ci : ParseCi) : cpp (string * ParseCi * Responses) :=
  jsonTreat (last_compound over_response) payloadWord (jsonQcrsParseVector memNumber memBool) restErrorReplyGet
    "queryContextResponse" "queryContextResponse" jsonQcrsInit (jsonQcrsCheck checkIdv1 api toText format json) content ci.


(** A status code at the end of a message. *)
Lemma errorCode_walk parseVector payloadWord sc ci pd :
  at_key parseVector "" "errorCode" "/errorCode" false (fun _ pd => Ret pd) ->
  at_key parseVector "/errorCode" "code" "/errorCode/code" false (fun v => on_rest (set_rs_code (atoi (c_str v)))) ->
  at_key parseVector "/errorCode" "reasonPhrase" "/errorCode/reasonPhrase" false (fun v => on_rest (set_rs_reason v)) ->
  at_key parseVector "/errorCode" "details" "/errorCode/details" false (fun v => on_rest (set_rs_details v)) ->
  sent (httpStatusCodeString (sc_code sc)) -> sent (sc_details sc) -> cd_rest pd = no_status -> exists pd',
  jsonParse (last_compound over_response) payloadWord parseVector "" "errorCode" (ptree_of (status_tree sc)) ci pd = Ret (Out "OK" ci pd') /\
  cd_elements pd' = cd_elements pd /\ cd_rest pd' = status_read sc.
Proof.
  intros H1 H2 H3 H4 [Er Fr]%sent_as [Ed' Fd]%sent_as Hn. destruct (show_Z_clean (sc_code sc)) as [Hz Hcz]. unfold status_tree. rewrite Er, Ed'. cbn [ptree_of]. rewrite map_app.
  destruct pd as [els r ep ap mp dp lp]. cbn in Hn. subst r.
  exists (mkContextData els (status_read sc) ep ap mp dp lp). split; [|done].
  eapply at_inside; [exact H1|reflexivity|]. cbn [map fst snd ptree_of app].
  eapply walks_cons; [eapply at_text; [exact H2|done|reflexivity]|].
  eapply walks_cons; [eapply at_text; [exact H3|done|reflexivity]|].
  unfold status_read. cbn. rewrite Hcz. destruct (sc_details sc =s "") eqn:Ed; cbn [negb map].
  - apply str_eqb_eq in Ed as ->. apply walks_nil.
  - cbn [fst snd ptree_of]. eapply walks_one, at_text; [exact H4|done|reflexivity].
Qed.

(** *** Responses *)

Definition error_shown (upcrs : UpdateContextResponse) : bool :=
  negb (sc_code (upcrs_errorCode upcrs) =? SccNone) && negb (sc_code (upcrs_errorCode upcrs) =? SccOk).

(** The elements and the error code of a message. *)
Definition shown_elements (upcrs : UpdateContextResponse) : list Cer :=
  if error_shown upcrs then [] else upcrs_contextElementResponseVector upcrs.
Definition shown_error (upcrs : UpdateContextResponse) : ReadStatus :=
  if error_shown upcrs then status_read (upcrs_errorCode upcrs) else no_status.

Definition status_sent (sc : StatusCode) : Prop := sent (httpStatusCodeString (sc_code sc)) /\ sent (sc_details sc).

Abbreviation rsent := (cer_sent isodate2str apiVersion attributeFormat outJson).
Abbreviation rread := (cer_read memNumber memBool isodate2str apiVersion attributeFormat outJson).

(** A message with elements and, at its end, an error code if it has one. *)
Lemma response_parsed parseVector (table : response_table memNumber memBool parseVector) w request cerV (error : option StatusCode) ci :
  (c_str w =s "updateContextAttributeRequest") = false -> as_object attributeFormat outJson = false -> no_parse_error ci ->
  at_key parseVector "" "errorCode" "/errorCode" false (fun _ pd => Ret pd) ->
  at_key parseVector "/errorCode" "code" "/errorCode/code" false (fun v => on_rest (set_rs_code (atoi (c_str v)))) ->
  at_key parseVector "/errorCode" "reasonPhrase" "/errorCode/reasonPhrase" false (fun v => on_rest (set_rs_reason v)) ->
  at_key parseVector "/errorCode" "details" "/errorCode/details" false (fun v => on_rest (set_rs_details v)) ->
  Forall (rsent request) cerV -> match error with Some sc => status_sent sc | None => True end -> exists pd,
  walk_all (jsonParse (last_compound over_response) w parseVector "")
    (map (fun kv => (kv.1, ptree_of kv.2)) (responses_members isodate2str apiVersion attributeFormat outJson request cerV
       ++ match error with Some sc => [("errorCode", status_tree sc)] | None => [] end)) ci (empty_data no_status)
    = Ret (Out "OK" ci pd) /\
  Forall2 (rread request) cerV (cd_elements pd) /\ cd_rest pd = match error with Some sc => status_read sc | None => no_status end.
Proof.
  intros Hw Ho Hci H1 H2 H3 H4 Hc He.
  destruct (responses_walk memNumber memBool w Hw isodate2str apiVersion attributeFormat outJson Ho parseVector table request cerV ci
    (empty_data no_status) Hc Hci) as (pd & ers & Hwk & [Hg1 Hg2] & Hr). cbn in Hg1, Hg2. subst ers.
  destruct error as [sc|].
  - destruct He as [He1 He2]. destruct (errorCode_walk parseVector w sc ci pd H1 H2 H3 H4 He1 He2 Hg2) as (pd' & Hwe & Hel & Hrest).
    exists pd'. rewrite Hel. split; [|done]. apply walks_all. rewrite map_app. eapply walks_app; [exact Hwk|]. by apply walks_one.
  - exists pd. split; [|done]. rewrite app_nil_r. by apply walks_all.
Qed.

Ltac error_entries := table_entry (fun _ : string => "OK").

Lemma update_response_read w upcrs indent ci : as_object attributeFormat outJson = false -> blanks indent -> no_parse_error ci ->
  (c_str w =s "updateContextAttributeRequest") = false ->
  Forall (cer_ok isodate2str apiVersion attributeFormat outJson RtUpdateContextResponse) (upcrs_contextElementResponseVector upcrs) ->
  let shown := response_shown upcrs in
  Forall (rsent RtUpdateContextResponse) (shown_elements shown) -> (error_shown shown = true -> status_sent (upcrs_errorCode shown)) ->
  exists text,
  UpdateContextResponse_render isodate2str apiVersion attributeFormat outJson upcrs indent = Ret (text, response_left attributeFormat outJson upcrs) /\
  (exists o, JsonText.read_json text = Some (JObj o)) /\
  (str_contains "\/" text = false -> exists pd,
   Forall2 (rread RtUpdateContextResponse) (shown_elements shown) (cd_elements pd) /\ cd_rest pd = shown_error shown /\
   jsonTreat_upcrs w text ci = (res ← jsonUpcrsCheck checkIdv1 api toText format json pd; Ret (res, ci, pd))).
Proof.
  intros Ho Hi Hci Hw Hok shown Hc He.
  destruct (UpdateContextResponse_render_reads isodate2str apiVersion attributeFormat outJson upcrs indent Hi Hok) as (text & Hrender & Hread).
  exists text. split; [done|]. split; [by eexists|]. intros Hb. fold shown in Hread.
  assert (response_members isodate2str apiVersion attributeFormat outJson shown
    = responses_members isodate2str apiVersion attributeFormat outJson RtUpdateContextResponse (shown_elements shown)
      ++ match (if error_shown shown then Some (upcrs_errorCode shown) else None) with Some sc => [("errorCode", status_tree sc)] | None => [] end) as Hm.
  { unfold response_members, shown_elements. fold (error_shown shown). destruct (error_shown shown); [done|]. by rewrite app_nil_r. }
  destruct (response_parsed (jsonUpcrsParseVector memNumber memBool) (upcrs_table _ _) w RtUpdateContextResponse (shown_elements shown)
    (if error_shown shown then Some (upcrs_errorCode shown) else None) ci Hw Ho Hci) as (pd & Hwk & Hr & Hrest); [error_entries..|done| |].
  { destruct (error_shown shown); [by apply He|done]. }
  exists pd. split; [done|]. split; [unfold shown_error; by destruct (error_shown shown)|]. rewrite Hm in Hread.
  exact (message_parsed _ _ _ _ _ _ _ _ _ _ _ _ Hread Hb Hwk).
Qed.

Lemma query_response_read w cerV errorCode indent ci : as_object attributeFormat outJson = false -> blanks indent -> no_parse_error ci ->
  (c_str w =s "updateContextAttributeRequest") = false ->
  Forall (cer_ok isodate2str apiVersion attributeFormat outJson QueryContext) cerV -> Forall (rsent QueryContext) (map cer_shown cerV) ->
  exists text errorCode',
  QueryContextResponse_render isodate2str apiVersion attributeFormat outJson cerV errorCode indent
    = Ret (text, (map (cer_left attributeFormat outJson) cerV, errorCode')) /\
  (exists o, JsonText.read_json text = Some (JObj o)) /\
  (str_contains "\/" text = false -> (query_shows cerV errorCode = true -> status_sent errorCode') -> exists pd,
   Forall2 (rread QueryContext) (map cer_shown cerV) (cd_elements pd) /\
   cd_rest pd = (if query_shows cerV errorCode then status_read errorCode' else no_status) /\
   jsonTreat_qcrs w text ci = (res ← jsonQcrsCheck checkIdv1 api toText format json pd; Ret (res, ci, pd))).
Proof.
  intros Ho Hi Hci Hw Hok Hc.
  destruct (QueryContextResponse_render_reads isodate2str apiVersion attributeFormat outJson cerV errorCode indent Hi Hok)
    as (text & errorCode' & Hrender & Hread).
  exists text, errorCode'. split; [done|]. split; [by eexists|]. intros Hb He.
  destruct (response_parsed (jsonQcrsParseVector memNumber memBool) (qcrs_table _ _) w QueryContext (map cer_shown cerV)
    (if query_shows cerV errorCode then Some errorCode' else None) ci Hw Ho Hci) as (pd & Hwk & Hr & Hrest); [error_entries..|done| |].
  { destruct (query_shows cerV errorCode); [by apply He|done]. }
  exists pd. split; [done|]. split; [by destruct (query_shows cerV errorCode)|].
  assert (query_members isodate2str apiVersion attributeFormat outJson (map cer_shown cerV) errorCode' (query_shows cerV errorCode)
    = responses_members isodate2str apiVersion attributeFormat outJson QueryContext (map cer_shown cerV)
      ++ match (if query_shows cerV errorCode then Some errorCode' else None) with Some sc => [("errorCode", status_tree sc)] | None => [] end) as Hm.
  { unfold query_members. by destruct (query_shows cerV errorCode). }
  rewrite Hm in Hread. exact (message_parsed _ _ _ _ _ _ _ _ _ _ _ _ Hread Hb Hwk).
Qed.

(** *** What the forwarding broker makes of an answer *)

Definition no_parse : ParseCi := mkParseCi SccOk200 "".

(** The reader of answers that [Forward] and [QueryForward] have as a parameter. *)
Definition update_answer_reader (w content : string) : option UpdateContextResponse :=
  match jsonTreat_upcrs w content no_parse with
  | Ret (res, _, pd) => if res =s "OK" then Some (response_of pd) else None
  | _ => None
  end.

Definition query_answer_reader (w content : string) : option QueryContextResponse :=
  match jsonTreat_qcrs w content no_parse with
  | Ret (res, _, pd) =>
      if res =s "OK"
      then Some (mkQueryContextResponse (upcrs_contextElementResponseVector (response_of pd)) (upcrs_errorCode (response_of pd))) else None
  | _ => None
  end.

Lemma no_parse_clean : no_parse_error no_parse.
Proof. done. Qed.

(** A message that starts with a brace is found behind the headers of its reply. *)
Lemma headers_skipped headers text r : free_of "{" headers = true -> c_str (headers +:+ text) = headers +:+ text -> text = String "{" r ->
  jsonPayloadClean (c_str (headers +:+ text)) = Some text.
Proof.
  intros Hh -> ->. unfold jsonPayloadClean. rewrite find_str_skip by done.
  pose proof (find_str_here "{" r) as E. change ("{" +:+ r) with (String "{" r) in E. by rewrite E.
Qed.

Lemma c_str_app_clean a b : free_of NUL a = true -> free_of NUL b = true -> c_str (a +:+ b) = a +:+ b.
Proof. intros Ha Hb. apply c_str_id. change (free_of NUL (a +:+ b) = true). by rewrite free_of_app, Ha, Hb. Qed.

Definition copied (er : ElementResponse) : Cer :=
  mkCer (cer_entity (cer_of er)) (copy <$> cer_attrs (cer_of er)) (cer_status (cer_of er)).

(** The error code of an answer. *)
Definition answer_code (error : ReadStatus) (ers : list ElementResponse) : StatusCode :=
  let sc := if rs_code error =? SccNone then mkStatusCode SccOk "" else mkStatusCode (rs_code error) (rs_details error) in
  match ers with
  | [er] => if rs_code (er_status er) =? SccContextElementNotFound then mkStatusCode SccContextElementNotFound "" else sc
  | _ => sc
  end.

Lemma rendered_brace upcrs text left : UpdateContextResponse_render isodate2str apiVersion attributeFormat outJson upcrs "" = Ret (text, left) ->
  exists r, text = String "{" r.
Proof.
  unfold UpdateContextResponse_render. destruct (if negb _ && _ then _ else _) as [[body u]| |]; [|done|done].
  cbn [mbind cpp_bind]. intros [= <- _]. by eexists.
Qed.


Lemma query_rendered_brace cerV errorCode text left :
  QueryContextResponse_render isodate2str apiVersion attributeFormat outJson cerV errorCode "" = Ret (text, left) -> exists r, text = String "{" r.
Proof.
  unfold QueryContextResponse_render.
  do 3 (match goal with |- mbind _ ?m = _ -> _ => destruct m as [[? ?]| |]; [|done|done]; cbn [mbind cpp_bind] end).
  intros [= <- _]. by eexists.
Qed.


End arrival.

(** ** Witnesses *)

(** boost, taken to read what the reference reader reads. *)
Definition reference_boost : BoostJson.
Proof.
  refine {| boost_read_json := fun s => ptree_of <$> JsonText.read_json s |}. intros s t H _. by rewrite H.
Defined.

Definition street_value : CompoundValueNode :=
  parse_compound ValueTypeObject (JObject [("street", JString "Main"); ("numbers", JArray [JNumber (double_of_Z 3); JString "4b"])]).

Definition house_attrs : list ContextAttribute :=
  [mkContextAttribute "temp" "T" [Metadata_string "unit" "text" "C" S754_nan false] ValueTypeNumber "" (SFdiv 53 1024 (double_of_Z 43) (double_of_Z 2))
     false "" true false None false;
   mkContextAttribute "address" "A" [] ValueTypeObject "" S754_nan false "" true false (Some street_value) false].

Definition house_request : UpdateContextRequest := mkUpdateContextRequest [(mkEntityId "House" "H" "false" "", house_attrs)] "UPDATE" "".

Definition no_error_reply (word : string) (code : Z) (details : string) : cpp string := Ret details.


(** It passes the checks of the provider. *)
Example house_request_accepted : exists pd,
  @jsonTreat_upcr reference_boost S754_nan false false no_error_reply no_date "v1" "" true
    (UpdateContextRequest_render no_date "v1" "" true house_request "") no_parse = Ret ("OK", no_parse, pd) /\
  map (fun el => (eid_id (el_entityId el), map (fun ca => (ca_name ca, ca_stringValue ca, content <$> ca_compoundValueP ca)) (el_attrs el))) (cd_elements pd)
  = [("House", [("temp", "21.5", None);
                ("address", "", Some (JObject [("street", JString "Main"); ("numbers", JArray [JString "3"; JString "4b"])]))])].
Proof. eexists. split; [vm_compute; reflexivity|]. reflexivity. Qed.

(** A text with a backslash before a slash loses the backslash. *)
Example backslash_lost : JsonText.read_json (toJsonString (backslash +:+ "/")) = Some (JStr (backslash +:+ "/")) /\
  JsonText.read_json (backslashFix (toJsonString (backslash +:+ "/"))) = Some (JStr "/").
Proof. split; reflexivity. Qed.

(** The provider says that it has updated the address of the house; values are not part of such answers. *)
Definition house_response : UpdateContextResponse :=
  mkUpdateContextResponse
    [mkCer (mkEntityId "House" "H" "false" "")
       [mkContextAttribute "address" "A" [Metadata_string "unit" "text" "C" S754_nan false] ValueTypeString "" S754_nan false "" true false
          None false] (mkStatusCode SccOk "")] (mkStatusCode SccOk "").


(** The provider answers a query for the temperature of the house. *)
Definition house_answer : list Cer := [mkCer (mkEntityId "House" "H" "false" "") (firstn 1 house_attrs) (mkStatusCode SccOk "")].

