(* ===== verification/JsonQueryV1.v ===== *)
(** * Queries and subscriptions in the JSON of version 1

    The tables of jsonParse/ for the requests that name entities, attributes and a restriction:
    queries, discovery, subscriptions to context and to availability, their updates and
    removals.  Scopes are as the parser fills them, with all the areas a scope has room for
    ([ReadScope]); [scope_of] is the scope with the area that its type selects, which the
    database queries work on. *)

From S2P Require Import Prelude Strings Double Bson Compound Ngsi Json JsonText JsonEntity Registrations FilterParse FilterMatch Geo QueryContext EntityUpdate UpdateContext RenderV1 Duration Subscriptions JsonSubscription QueryForward JsonParseV1 JsonContextV1 JsonForwardV1.

Open Scope Z_scope.

(** ** Areas *)

(** orionTypes/areas.h: AreaType. *)
Inductive AreaKind := NoAreaType | Circle | Polygon | Point | Line | Box.

Definition point : Type := double * double.
Definition origin : point := (zero, zero).

(** The members of a scope for areas: Circle, Polygon, Point, Line and Box. *)
Record Areas := mkAreas {
  ar_center : point;
  ar_radius : string;
  ar_circle_inverted : string;
  ar_vertexList : list point;
  ar_polygon_inverted : string;
  ar_point : point;
  ar_pointList : list point;
  ar_lowerLeft : point;
  ar_upperRight : point
}.

Record ReadScope := mkReadScope {
  rw_type : string;
  rw_value : string;
  rw_areaType : AreaKind;
  rw_areas : Areas;
  rw_georel : Georel;
  rw_stringFilterP : option StringFilter
}.

Definition no_areas : Areas := mkAreas origin "" "" [] "" origin [] origin origin.

(** Scope::Scope *)
Definition Scope_new : ReadScope := mkReadScope "" "" NoAreaType no_areas (mkGeorel "" no_distance no_distance) None.

(** Point::latitudeSet and longitudeSet: a text that is no number leaves the coordinate as it is. *)
Definition latitudeSet (latitude : string) (p : point) : point :=
  match str2double (c_str latitude) with Some d => (d, p.2) | None => p end.
Definition longitudeSet (longitude : string) (p : point) : point :=
  match str2double (c_str longitude) with Some d => (p.1, d) | None => p end.
Definition set_latitude (d : double) (p : point) : point := (d, p.2).
Definition set_longitude (d : double) (p : point) : point := (p.1, d).

Definition on_center (f : point -> point) (a : Areas) : Areas :=
  mkAreas (f (ar_center a)) (ar_radius a) (ar_circle_inverted a) (ar_vertexList a) (ar_polygon_inverted a) (ar_point a)
    (ar_pointList a) (ar_lowerLeft a) (ar_upperRight a).
Definition set_radius (s : string) (a : Areas) : Areas :=
  mkAreas (ar_center a) s (ar_circle_inverted a) (ar_vertexList a) (ar_polygon_inverted a) (ar_point a) (ar_pointList a)
    (ar_lowerLeft a) (ar_upperRight a).
Definition set_circle_inverted (s : string) (a : Areas) : Areas :=
  mkAreas (ar_center a) (ar_radius a) s (ar_vertexList a) (ar_polygon_inverted a) (ar_point a) (ar_pointList a)
    (ar_lowerLeft a) (ar_upperRight a).
Definition on_vertexList (f : list point -> list point) (a : Areas) : Areas :=
  mkAreas (ar_center a) (ar_radius a) (ar_circle_inverted a) (f (ar_vertexList a)) (ar_polygon_inverted a) (ar_point a)
    (ar_pointList a) (ar_lowerLeft a) (ar_upperRight a).
Definition set_polygon_inverted (s : string) (a : Areas) : Areas :=
  mkAreas (ar_center a) (ar_radius a) (ar_circle_inverted a) (ar_vertexList a) s (ar_point a) (ar_pointList a) (ar_lowerLeft a)
    (ar_upperRight a).
Definition on_point (f : point -> point) (a : Areas) : Areas :=
  mkAreas (ar_center a) (ar_radius a) (ar_circle_inverted a) (ar_vertexList a) (ar_polygon_inverted a) (f (ar_point a))
    (ar_pointList a) (ar_lowerLeft a) (ar_upperRight a).
Definition on_pointList (f : list point -> list point) (a : Areas) : Areas :=
  mkAreas (ar_center a) (ar_radius a) (ar_circle_inverted a) (ar_vertexList a) (ar_polygon_inverted a) (ar_point a)
    (f (ar_pointList a)) (ar_lowerLeft a) (ar_upperRight a).
Definition on_lowerLeft (f : point -> point) (a : Areas) : Areas :=
  mkAreas (ar_center a) (ar_radius a) (ar_circle_inverted a) (ar_vertexList a) (ar_polygon_inverted a) (ar_point a)
    (ar_pointList a) (f (ar_lowerLeft a)) (ar_upperRight a).
Definition on_upperRight (f : point -> point) (a : Areas) : Areas :=
  mkAreas (ar_center a) (ar_radius a) (ar_circle_inverted a) (ar_vertexList a) (ar_polygon_inverted a) (ar_point a)
    (ar_pointList a) (ar_lowerLeft a) (f (ar_upperRight a)).

Definition set_sc_type (s : string) (sc : ReadScope) : ReadScope :=
  mkReadScope s (rw_value sc) (rw_areaType sc) (rw_areas sc) (rw_georel sc) (rw_stringFilterP sc).
Definition set_sc_value (s : string) (sc : ReadScope) : ReadScope :=
  mkReadScope (rw_type sc) s (rw_areaType sc) (rw_areas sc) (rw_georel sc) (rw_stringFilterP sc).
Definition set_area_kind (k : AreaKind) (sc : ReadScope) : ReadScope :=
  mkReadScope (rw_type sc) (rw_value sc) k (rw_areas sc) (rw_georel sc) (rw_stringFilterP sc).
Definition on_areas (f : Areas -> Areas) (sc : ReadScope) : ReadScope :=
  mkReadScope (rw_type sc) (rw_value sc) (rw_areaType sc) (f (rw_areas sc)) (rw_georel sc) (rw_stringFilterP sc).
Definition on_georel (f : Georel -> Georel) (sc : ReadScope) : ReadScope :=
  mkReadScope (rw_type sc) (rw_value sc) (rw_areaType sc) (rw_areas sc) (f (rw_georel sc)) (rw_stringFilterP sc).
Definition set_sc_filter (f : option StringFilter) (sc : ReadScope) : ReadScope :=
  mkReadScope (rw_type sc) (rw_value sc) (rw_areaType sc) (rw_areas sc) (rw_georel sc) f.

(** Scope::areaTypeSet *)
Definition areaTypeSet (s : string) : AreaKind :=
  if s =s "line" then Line else if s =s "polygon" then Polygon else if s =s "circle" then Circle
  else if s =s "point" then Point else if s =s "box" then Box else NoAreaType.

(** The area that the type of a scope selects. *)
Definition area_of_scope (sc : ReadScope) : Area :=
  let a := rw_areas sc in
  match rw_areaType sc with
  | NoAreaType => NoArea
  | Circle => CircleType (ar_center a) (ar_radius a) (ar_circle_inverted a)
  | Polygon => PolygonType (ar_vertexList a) (ar_polygon_inverted a)
  | Point => PointType (ar_point a)
  | Line => LineType (ar_pointList a)
  | Box => BoxType (ar_lowerLeft a) (ar_upperRight a)
  end.

Definition scope_of (sc : ReadScope) : Scope :=
  mkScope (rw_type sc) (rw_value sc) "" (area_of_scope sc) (rw_georel sc) (rw_stringFilterP sc).

(** ** The data of a request *)

(** Where the vertex is that was created last. *)
Inductive VertexList := InPolygon | InLine.

(** What a subscription has more. *)
Record SubscriptionData := mkSubscriptionData {
  sd_reference : string;
  sd_duration : string;
  sd_throttling : string;
  sd_subscriptionId : string;
  sd_conditions : list (NotifyCondition * string);  (* and their restrictions *)
  sd_conditionP : option nat
}.

Record Restricted (X : Type) := mkRestricted {
  rd_entities : list EntityId;
  rd_attributes : list string;
  rd_restrictions : Z;
  rd_expression : string;
  rd_scopes : list ReadScope;
  rd_errorString : string;
  rd_more : X;
  rd_entityIdP : option nat;
  rd_scopeP : option nat;
  rd_vertexP : option (nat * VertexList * nat);
  rd_pointNo : Z;
  rd_coords : Z
}.
Arguments mkRestricted {X}.
Arguments rd_entities {X}.
Arguments rd_attributes {X}.
Arguments rd_restrictions {X}.
Arguments rd_expression {X}.
Arguments rd_scopes {X}.
Arguments rd_errorString {X}.
Arguments rd_more {X}.
Arguments rd_entityIdP {X}.
Arguments rd_scopeP {X}.
Arguments rd_vertexP {X}.
Arguments rd_pointNo {X}.
Arguments rd_coords {X}.

Section operations.
Context {X : Type}.
Abbreviation PD := (Restricted X).

Definition with_entities (l : list EntityId) (p : option nat) (pd : PD) : PD :=
  mkRestricted l (rd_attributes pd) (rd_restrictions pd) (rd_expression pd) (rd_scopes pd) (rd_errorString pd) (rd_more pd) p
    (rd_scopeP pd) (rd_vertexP pd) (rd_pointNo pd) (rd_coords pd).
Definition with_scopes (l : list ReadScope) (p : option nat) (v : option (nat * VertexList * nat)) (pd : PD) : PD :=
  mkRestricted (rd_entities pd) (rd_attributes pd) (rd_restrictions pd) (rd_expression pd) l (rd_errorString pd) (rd_more pd)
    (rd_entityIdP pd) p v (rd_pointNo pd) (rd_coords pd).
Definition add_attribute_name (s : string) (pd : PD) : PD :=
  mkRestricted (rd_entities pd) (rd_attributes pd ++ [s]) (rd_restrictions pd) (rd_expression pd) (rd_scopes pd)
    (rd_errorString pd) (rd_more pd) (rd_entityIdP pd) (rd_scopeP pd) (rd_vertexP pd) (rd_pointNo pd) (rd_coords pd).
Definition count_restriction (pd : PD) : PD :=
  mkRestricted (rd_entities pd) (rd_attributes pd) (rd_restrictions pd + 1) (rd_expression pd) (rd_scopes pd)
    (rd_errorString pd) (rd_more pd) (rd_entityIdP pd) (rd_scopeP pd) (rd_vertexP pd) (rd_pointNo pd) (rd_coords pd).
Definition set_expression (s : string) (pd : PD) : PD :=
  mkRestricted (rd_entities pd) (rd_attributes pd) (rd_restrictions pd) s (rd_scopes pd) (rd_errorString pd) (rd_more pd)
    (rd_entityIdP pd) (rd_scopeP pd) (rd_vertexP pd) (rd_pointNo pd) (rd_coords pd).
Definition set_error (s : string) (pd : PD) : PD :=
  mkRestricted (rd_entities pd) (rd_attributes pd) (rd_restrictions pd) (rd_expression pd) (rd_scopes pd) s (rd_more pd)
    (rd_entityIdP pd) (rd_scopeP pd) (rd_vertexP pd) (rd_pointNo pd) (rd_coords pd).
Definition set_counts (pointNo coords : Z) (pd : PD) : PD :=
  mkRestricted (rd_entities pd) (rd_attributes pd) (rd_restrictions pd) (rd_expression pd) (rd_scopes pd) (rd_errorString pd)
    (rd_more pd) (rd_entityIdP pd) (rd_scopeP pd) (rd_vertexP pd) pointNo coords.
Definition on_more (f : X -> X) (pd : PD) : PD :=
  mkRestricted (rd_entities pd) (rd_attributes pd) (rd_restrictions pd) (rd_expression pd) (rd_scopes pd) (rd_errorString pd)
    (f (rd_more pd)) (rd_entityIdP pd) (rd_scopeP pd) (rd_vertexP pd) (rd_pointNo pd) (rd_coords pd).

Definition pattern_entity : EntityId := mkEntityId "" "" "false" "".

(** new, push_back, and accesses through the pointers. *)
Definition new_entity (e : EntityId) (pd : PD) : cpp PD :=
  Ret (with_entities (rd_entities pd ++ [e]) (Some (length (rd_entities pd))) pd).
Definition on_entityP (f : EntityId -> EntityId) (pd : PD) : cpp PD :=
  match rd_entityIdP pd with
  | Some i => Ret (with_entities (alter f i (rd_entities pd)) (Some i) pd)
  | None => null_pointer
  end.
Definition new_scope (sc : ReadScope) (pd : PD) : cpp PD :=
  Ret (with_scopes (rd_scopes pd ++ [sc]) (Some (length (rd_scopes pd))) (rd_vertexP pd) pd).
Definition scope_at (pd : PD) : cpp ReadScope :=
  match rd_scopeP pd with
  | Some i => match rd_scopes pd !! i with Some sc => Ret sc | None => null_pointer end
  | None => null_pointer
  end.
Definition on_scope (f : ReadScope -> ReadScope) (pd : PD) : cpp PD :=
  match rd_scopeP pd with
  | Some i => Ret (with_scopes (alter f i (rd_scopes pd)) (Some i) (rd_vertexP pd) pd)
  | None => null_pointer
  end.

Definition on_list (v : VertexList) (f : list point -> list point) : Areas -> Areas :=
  match v with InPolygon => on_vertexList f | InLine => on_pointList f end.
Definition list_at (v : VertexList) (a : Areas) : list point :=
  match v with InPolygon => ar_vertexList a | InLine => ar_pointList a end.

(** Polygon::vertexAdd and Line::pointAdd of a new point. *)
Definition new_vertex (v : VertexList) (p : point) (pd : PD) : cpp PD :=
  sc ← scope_at pd;
  match rd_scopeP pd with
  | Some i => Ret (with_scopes (alter (on_areas (on_list v (fun l => l ++ [p]))) i (rd_scopes pd)) (Some i)
                     (Some (i, v, length (list_at v (rw_areas sc)))) pd)
  | None => null_pointer
  end.
Definition on_vertex (f : point -> point) (pd : PD) : cpp PD :=
  match rd_vertexP pd with
  | Some (i, v, k) => Ret (with_scopes (alter (on_areas (on_list v (alter f k))) i (rd_scopes pd)) (rd_scopeP pd) (rd_vertexP pd) pd)
  | None => null_pointer
  end.

(** The answers about inverted, which also go to errorString. *)
Definition inverted_answer (what value : string) (pd : PD) : cpp (string * PD) :=
  if negb (isTrue value) && negb (isFalse value)
  then let e := "bad string for " +:+ what +:+ "/inverted: /" +:+ value +:+ "/" in Ret (e, set_error e pd)
  else Ret ("OK", pd).

(** What is only for the scopes of version 2. *)
Definition for_v2 (what : string) (pd : PD) (m : cpp (string * PD)) : cpp (string * PD) :=
  sc ← scope_at pd;
  if negb (rw_type sc =s FIWARE_LOCATION_V2) then Ret (what +:+ " in scope value used with non-api-v2 scope", pd) else m.

(** No structured value has a place in these requests. *)
Definition no_compound {S} (payloadWord : string) (c : CompoundValueNode) (pd : S) : cpp S :=
  if c_str payloadWord =s "updateContextAttributeRequest" then Ret pd else null_pointer.

End operations.

Definition set_reference (s : string) : Restricted SubscriptionData -> Restricted SubscriptionData :=
  on_more (fun x => mkSubscriptionData s (sd_duration x) (sd_throttling x) (sd_subscriptionId x) (sd_conditions x) (sd_conditionP x)).
Definition set_duration (s : string) : Restricted SubscriptionData -> Restricted SubscriptionData :=
  on_more (fun x => mkSubscriptionData (sd_reference x) s (sd_throttling x) (sd_subscriptionId x) (sd_conditions x) (sd_conditionP x)).
Definition set_throttling (s : string) : Restricted SubscriptionData -> Restricted SubscriptionData :=
  on_more (fun x => mkSubscriptionData (sd_reference x) (sd_duration x) s (sd_subscriptionId x) (sd_conditions x) (sd_conditionP x)).
Definition set_subscriptionId (s : string) : Restricted SubscriptionData -> Restricted SubscriptionData :=
  on_more (fun x => mkSubscriptionData (sd_reference x) (sd_duration x) (sd_throttling x) s (sd_conditions x) (sd_conditionP x)).
Definition new_condition : Restricted SubscriptionData -> Restricted SubscriptionData :=
  on_more (fun x => mkSubscriptionData (sd_reference x) (sd_duration x) (sd_throttling x) (sd_subscriptionId x)
                      (sd_conditions x ++ [(mkNotifyCondition "" [], "")]) (Some (length (sd_conditions x)))).
Definition on_condition (f : NotifyCondition * string -> NotifyCondition * string) (pd : Restricted SubscriptionData)
    : cpp (Restricted SubscriptionData) :=
  match sd_conditionP (rd_more pd) with
  | Some i => Ret (on_more (fun x => mkSubscriptionData (sd_reference x) (sd_duration x) (sd_throttling x) (sd_subscriptionId x)
                                       (alter f i (sd_conditions x)) (Some i)) pd)
  | None => null_pointer
  end.

(** ** The tables *)

Definition Query : Type := Restricted unit.
Definition Subscribing : Type := Restricted SubscriptionData.

Section tables.

(** regcomp, the reading of dates, and what the members that the filter leaves unassigned hold. *)
Context (regcomp : string -> bool) (parse8601Time : string -> Z) (mem : ValueOut) (memItem : StringFilterItem).

(** *** Queries: jsonQueryContextRequest.cpp *)

Definition qcr_entityId (value : string) (pd : Query) : cpp (string * Query) :=
  ok (new_entity pattern_entity pd).
Definition qcr_entityIdId (value : string) (pd : Query) : cpp (string * Query) :=
  ok (on_entityP (set_eid_id value) pd).
Definition qcr_entityIdType (value : string) (pd : Query) : cpp (string * Query) :=
  ok (on_entityP (set_eid_type value) pd).
Definition qcr_entityIdIsPattern (value : string) (pd : Query) : cpp (string * Query) :=
  pd ← on_entityP (set_eid_isPattern value) pd; Ret (isPattern_answer value, pd).
Definition qcr_attributeList (value : string) (pd : Query) : cpp (string * Query) :=
  ok (Ret pd).
Definition qcr_attribute (value : string) (pd : Query) : cpp (string * Query) :=
  ok (Ret (add_attribute_name value (if value =s "" then set_error "Empty attribute name" pd else pd))).
Definition qcr_restriction (value : string) (pd : Query) : cpp (string * Query) :=
  ok (Ret (count_restriction pd)).
Definition qcr_attributeExpression (value : string) (pd : Query) : cpp (string * Query) :=
  ok (Ret (if value =s "" then set_error "Empty attribute expression" (set_expression value pd) else set_expression value pd)).
Definition qcr_operationScope (value : string) (pd : Query) : cpp (string * Query) :=
  ok (new_scope Scope_new pd).
Definition qcr_scopeType (value : string) (pd : Query) : cpp (string * Query) :=
  ok (on_scope (set_sc_type value) pd).
Definition qcr_scopeValue (value : string) (pd : Query) : cpp (string * Query) :=
  sc ← scope_at pd;
  let t := rw_type sc in
  if (t =s FIWARE_LOCATION) || (t =s FIWARE_LOCATION_DEPRECATED) then ok (on_scope (set_sc_value FIWARE_LOCATION) pd)
  else if t =s FIWARE_LOCATION_V2 then ok (on_scope (set_sc_value FIWARE_LOCATION_V2) pd)
  else if t =s SCOPE_TYPE_SIMPLE_QUERY then
    pd ← on_scope (set_sc_value value) pd;
    match sf_parse regcomp parse8601Time mem memItem (c_str value) with
    | inl errorString => pd ← on_scope (set_sc_filter None) pd; Ret (errorString, pd)
    | inr sf => ok (on_scope (set_sc_filter (Some sf)) pd)
    end
  else ok (on_scope (set_sc_value value) pd).
Definition qcr_circle (value : string) (pd : Query) : cpp (string * Query) :=
  ok (on_scope (set_area_kind Circle) pd).
Definition qcr_circleCenterLatitude (value : string) (pd : Query) : cpp (string * Query) :=
  ok (on_scope (on_areas (on_center (latitudeSet value))) pd).
Definition qcr_circleCenterLongitude (value : string) (pd : Query) : cpp (string * Query) :=
  ok (on_scope (on_areas (on_center (longitudeSet value))) pd).
Definition qcr_circleRadius (value : string) (pd : Query) : cpp (string * Query) :=
  ok (on_scope (on_areas (set_radius value)) pd).
Definition qcr_circleInverted (value : string) (pd : Query) : cpp (string * Query) :=
  pd ← on_scope (on_areas (set_circle_inverted value)) pd; inverted_answer "circle" value pd.
Definition qcr_polygon (value : string) (pd : Query) : cpp (string * Query) :=
  ok (on_scope (set_area_kind Polygon) pd).
Definition qcr_polygonInverted (value : string) (pd : Query) : cpp (string * Query) :=
  pd ← on_scope (on_areas (set_polygon_inverted value)) pd; inverted_answer "polygon" value pd.
Definition qcr_polygonVertexList (value : string) (pd : Query) : cpp (string * Query) :=
  ok (Ret pd).
Definition qcr_polygonVertex (value : string) (pd : Query) : cpp (string * Query) :=
  ok (new_vertex InPolygon origin pd).
Definition qcr_polygonVertexLatitude (value : string) (pd : Query) : cpp (string * Query) :=
  ok (on_vertex (latitudeSet value) pd).
Definition qcr_polygonVertexLongitude (value : string) (pd : Query) : cpp (string * Query) :=
  ok (on_vertex (longitudeSet value) pd).
Definition qcr_geometry (value : string) (pd : Query) : cpp (string * Query) :=
  for_v2 "geometry" pd (ok (on_scope (set_area_kind (areaTypeSet value)) (set_counts 0 0 pd))).
Definition qcr_georel (value : string) (pd : Query) : cpp (string * Query) :=
  for_v2 "georel" pd (ok (Ret (set_counts 0 0 pd))).
Definition qcr_georelValue (value : string) (pd : Query) : cpp (string * Query) :=
  for_v2 "georel" pd
    (let number (prefix : nat) := str2double (str_drop prefix (c_str value)) in
     if strncmp_eq (c_str value) "maxDistance:" 12 then
       match number 12%nat with
       | Some d => ok (on_scope (on_georel (fun g => mkGeorel (georel_type g) d (minDistance g))) pd)
       | None => Ret ("georel with a maxDistance that is not a number", pd)
       end
     else if strncmp_eq (c_str value) "minDistance:" 12 then
       match number 12%nat with
       | Some d => ok (on_scope (on_georel (fun g => mkGeorel (georel_type g) (maxDistance g) d)) pd)
       | None => Ret ("georel with a minDistance that is not a number", pd)
       end
     else ok (on_scope (on_georel (fun g => mkGeorel value (maxDistance g) (minDistance g))) pd)).
Definition qcr_coords (value : string) (pd : Query) : cpp (string * Query) :=
  for_v2 "coords" pd (ok (Ret pd)).
Definition qcr_coord (value : string) (pd : Query) : cpp (string * Query) :=
  for_v2 "coords" pd (ok (Ret (set_counts (rd_pointNo pd + 1) 0 pd))).
Definition qcr_coordValue (value : string) (pd : Query) : cpp (string * Query) :=
  for_v2 "coords" pd
    (match str2double (c_str value) with
     | None => Ret ("invalid coordinate", pd)
     | Some coordVal =>
         sc ← scope_at pd;
         let done m := pd ← m; ok (Ret (set_counts (rd_pointNo pd) (rd_coords pd + 1) pd)) in
         let vertex in_ what :=
           if rd_coords pd =? 0 then done (new_vertex in_ (coordVal, origin.2) pd)
           else if rd_coords pd =? 1 then done (on_vertex (set_longitude coordVal) pd)
           else Ret ("too many coordinates for a Point in " +:+ what +:+ " geometry", pd) in
         match rw_areaType sc with
         | Point =>
             if rd_coords pd =? 0 then done (on_scope (on_areas (on_point (set_latitude coordVal))) pd)
             else if rd_coords pd =? 1 then done (on_scope (on_areas (on_point (set_longitude coordVal))) pd)
             else Ret ("too many coordinates for a Point geometry", pd)
         | Polygon => vertex InPolygon "Polygon"
         | Line => vertex InLine "Line"
         | Box =>
             let corner f := if rd_pointNo pd =? 1 then on_lowerLeft f else on_upperRight f in
             if 2 <? rd_pointNo pd then Ret ("too many points for a Box geoetry", pd)
             else if rd_coords pd =? 0 then done (on_scope (on_areas (corner (set_latitude coordVal))) pd)
             else if rd_coords pd =? 1 then done (on_scope (on_areas (corner (set_longitude coordVal))) pd)
             else Ret ("too many coordinates for a Point in Box geometry", pd)
         | NoAreaType | Circle => Ret ("received coordinates for invalid geometry", pd)
         end
     end).

Definition jsonQcrParseVector : list (JsonNode Query) :=
  [mkJsonNode "/entities" jsonNullTreat;
   mkJsonNode "/entities/entity" qcr_entityId;
   mkJsonNode "/entities/entity/id" qcr_entityIdId;
   mkJsonNode "/entities/entity/type" qcr_entityIdType;
   mkJsonNode "/entities/entity/isPattern" qcr_entityIdIsPattern;
   mkJsonNode "/attributes" qcr_attributeList;
   mkJsonNode "/attributes/attribute" qcr_attribute;
   mkJsonNode "/restriction" qcr_restriction;
   mkJsonNode "/restriction/attributeExpression" qcr_attributeExpression;
   mkJsonNode "/restriction/scopes" jsonNullTreat;
   mkJsonNode "/restriction/scopes/scope" qcr_operationScope;
   mkJsonNode "/restriction/scopes/scope/type" qcr_scopeType;
   mkJsonNode "/restriction/scopes/scope/value" qcr_scopeValue;
   mkJsonNode "/restriction/scopes/scope/value/circle" qcr_circle;
   mkJsonNode "/restriction/scopes/scope/value/circle/centerLatitude" qcr_circleCenterLatitude;
   mkJsonNode "/restriction/scopes/scope/value/circle/centerLongitude" qcr_circleCenterLongitude;
   mkJsonNode "/restriction/scopes/scope/value/circle/radius" qcr_circleRadius;
   mkJsonNode "/restriction/scopes/scope/value/circle/inverted" qcr_circleInverted;
   mkJsonNode "/restriction/scopes/scope/value/polygon" qcr_polygon;
   mkJsonNode "/restriction/scopes/scope/value/polygon/inverted" qcr_polygonInverted;
   mkJsonNode "/restriction/scopes/scope/value/polygon/vertices" qcr_polygonVertexList;
   mkJsonNode "/restriction/scopes/scope/value/polygon/vertices/vertice" qcr_polygonVertex;
   mkJsonNode "/restriction/scopes/scope/value/polygon/vertices/vertice/latitude" qcr_polygonVertexLatitude;
   mkJsonNode "/restriction/scopes/scope/value/polygon/vertices/vertice/longitude" qcr_polygonVertexLongitude;
   mkJsonNode "/restriction/scopes/scope/value/geometry" qcr_geometry;
   mkJsonNode "/restriction/scopes/scope/value/georel" qcr_georel;
   mkJsonNode "/restriction/scopes/scope/value/georel/geore" qcr_georelValue;
   mkJsonNode "/restriction/scopes/scope/value/coords" qcr_coords;
   mkJsonNode "/restriction/scopes/scope/value/coords/coord" qcr_coord;
   mkJsonNode "/restriction/scopes/scope/value/coords/coord/coor" qcr_coordValue].

(** *** Discovery: jsonDiscoverContextAvailabilityRequest.cpp *)

Definition dcar_entityId (value : string) (pd : Query) : cpp (string * Query) :=
  ok (new_entity pattern_entity pd).
Definition dcar_entityIdId (value : string) (pd : Query) : cpp (string * Query) :=
  ok (on_entityP (set_eid_id value) pd).
Definition dcar_entityIdType (value : string) (pd : Query) : cpp (string * Query) :=
  ok (on_entityP (set_eid_type value) pd).
Definition dcar_entityIdIsPattern (value : string) (pd : Query) : cpp (string * Query) :=
  pd ← on_entityP (set_eid_isPattern value) pd; Ret (isPattern_answer value, pd).
Definition dcar_attributeList (value : string) (pd : Query) : cpp (string * Query) :=
  ok (Ret pd).
Definition dcar_attribute (value : string) (pd : Query) : cpp (string * Query) :=
  ok (Ret (add_attribute_name value pd)).
Definition dcar_restriction (value : string) (pd : Query) : cpp (string * Query) :=
  ok (Ret (count_restriction pd)).
Definition dcar_attributeExpression (value : string) (pd : Query) : cpp (string * Query) :=
  Ret (if value =s "" then "Empty attribute expression" else "OK", set_expression value pd).
Definition dcar_operationScope (value : string) (pd : Query) : cpp (string * Query) :=
  ok (new_scope Scope_new pd).
Definition dcar_scopeType (value : string) (pd : Query) : cpp (string * Query) :=
  ok (on_scope (set_sc_type value) pd).
Definition dcar_scopeValue (value : string) (pd : Query) : cpp (string * Query) :=
  ok (on_scope (set_sc_value value) pd).

Definition jsonDcarParseVector : list (JsonNode Query) :=
  [mkJsonNode "/entities" jsonNullTreat;
   mkJsonNode "/entities/entity" dcar_entityId;
   mkJsonNode "/entities/entity/id" dcar_entityIdId;
   mkJsonNode "/entities/entity/type" dcar_entityIdType;
   mkJsonNode "/entities/entity/isPattern" dcar_entityIdIsPattern;
   mkJsonNode "/attributes" dcar_attributeList;
   mkJsonNode "/attributes/attribute" dcar_attribute;
   mkJsonNode "/restriction" dcar_restriction;
   mkJsonNode "/restriction/attributeExpression" dcar_attributeExpression;
   mkJsonNode "/restriction/scopes" jsonNullTreat;
   mkJsonNode "/restriction/scopes/scope" dcar_operationScope;
   mkJsonNode "/restriction/scopes/scope/type" dcar_scopeType;
   mkJsonNode "/restriction/scopes/scope/value" dcar_scopeValue].

(** *** Availability subscriptions: jsonSubscribeContextAvailabilityRequest.cpp *)

Definition scar_entityId (value : string) (pd : Subscribing) : cpp (string * Subscribing) :=
  ok (new_entity pattern_entity pd).
Definition scar_entityIdId (value : string) (pd : Subscribing) : cpp (string * Subscribing) :=
  ok (on_entityP (set_eid_id value) pd).
Definition scar_entityIdType (value : string) (pd : Subscribing) : cpp (string * Subscribing) :=
  ok (on_entityP (set_eid_type value) pd).
Definition scar_entityIdIsPattern (value : string) (pd : Subscribing) : cpp (string * Subscribing) :=
  if negb (isTrue value) && negb (isFalse value) then Ret (isPattern_answer value, pd)
  else ok (on_entityP (set_eid_isPattern value) pd).
Definition scar_attribute (value : string) (pd : Subscribing) : cpp (string * Subscribing) :=
  ok (Ret (add_attribute_name value pd)).
Definition scar_reference (value : string) (pd : Subscribing) : cpp (string * Subscribing) :=
  ok (Ret (set_reference value pd)).
Definition scar_duration (value : string) (pd : Subscribing) : cpp (string * Subscribing) :=
  let pd := set_duration value pd in s ← Duration_check value; Ret (s, pd).
Definition scar_restriction (value : string) (pd : Subscribing) : cpp (string * Subscribing) :=
  ok (Ret (count_restriction pd)).
Definition scar_attributeExpression (value : string) (pd : Subscribing) : cpp (string * Subscribing) :=
  ok (Ret (set_expression value pd)).
Definition scar_scope (value : string) (pd : Subscribing) : cpp (string * Subscribing) :=
  ok (new_scope Scope_new pd).
Definition scar_scopeType (value : string) (pd : Subscribing) : cpp (string * Subscribing) :=
  ok (on_scope (set_sc_type value) pd).
Definition scar_scopeValue (value : string) (pd : Subscribing) : cpp (string * Subscribing) :=
  ok (on_scope (set_sc_value value) pd).

Definition jsonScarParseVector : list (JsonNode Subscribing) :=
  [mkJsonNode "/entities" jsonNullTreat;
   mkJsonNode "/entities/entity" scar_entityId;
   mkJsonNode "/entities/entity/id" scar_entityIdId;
   mkJsonNode "/entities/entity/type" scar_entityIdType;
   mkJsonNode "/entities/entity/isPattern" scar_entityIdIsPattern;
   mkJsonNode "/attributes" jsonNullTreat;
   mkJsonNode "/attributes/attribute" scar_attribute;
   mkJsonNode "/reference" scar_reference;
   mkJsonNode "/duration" scar_duration;
   mkJsonNode "/restriction" scar_restriction;
   mkJsonNode "/restriction/attributeExpression" scar_attributeExpression;
   mkJsonNode "/restriction/scopes" jsonNullTreat;
   mkJsonNode "/restriction/scopes/scope" scar_scope;
   mkJsonNode "/restriction/scopes/scope/type" scar_scopeType;
   mkJsonNode "/restriction/scopes/scope/value" scar_scopeValue].

(** *** Updates of availability subscriptions: jsonUpdateContextAvailabilitySubscriptionRequest.cpp *)

Definition ucas_entityId (value : string) (pd : Subscribing) : cpp (string * Subscribing) :=
  ok (new_entity pattern_entity pd).
Definition ucas_entityIdId (value : string) (pd : Subscribing) : cpp (string * Subscribing) :=
  ok (on_entityP (set_eid_id value) pd).
Definition ucas_entityIdType (value : string) (pd : Subscribing) : cpp (string * Subscribing) :=
  ok (on_entityP (set_eid_type value) pd).
Definition ucas_entityIdIsPattern (value : string) (pd : Subscribing) : cpp (string * Subscribing) :=
  if negb (isTrue value) && negb (isFalse value) then Ret (isPattern_answer value, set_error (isPattern_answer value) pd)
  else ok (on_entityP (set_eid_isPattern value) pd).
Definition ucas_attribute (value : string) (pd : Subscribing) : cpp (string * Subscribing) :=
  ok (Ret (add_attribute_name value pd)).
Definition ucas_duration (value : string) (pd : Subscribing) : cpp (string * Subscribing) :=
  ok (Ret (set_duration value pd)).
Definition ucas_restriction (value : string) (pd : Subscribing) : cpp (string * Subscribing) :=
  ok (Ret (count_restriction pd)).
Definition ucas_attributeExpression (value : string) (pd : Subscribing) : cpp (string * Subscribing) :=
  ok (Ret (set_expression value pd)).
Definition ucas_scope (value : string) (pd : Subscribing) : cpp (string * Subscribing) :=
  ok (new_scope Scope_new pd).
Definition ucas_scopeType (value : string) (pd : Subscribing) : cpp (string * Subscribing) :=
  ok (on_scope (set_sc_type value) pd).
Definition ucas_scopeValue (value : string) (pd : Subscribing) : cpp (string * Subscribing) :=
  ok (on_scope (set_sc_value value) pd).
Definition ucas_subscriptionId (value : string) (pd : Subscribing) : cpp (string * Subscribing) :=
  ok (Ret (set_subscriptionId value pd)).

Definition jsonUcasParseVector : list (JsonNode Subscribing) :=
  [mkJsonNode "/entities" jsonNullTreat;
   mkJsonNode "/entities/entity" ucas_entityId;
   mkJsonNode "/entities/entity/id" ucas_entityIdId;
   mkJsonNode "/entities/entity/type" ucas_entityIdType;
   mkJsonNode "/entities/entity/isPattern" ucas_entityIdIsPattern;
   mkJsonNode "/attributes" jsonNullTreat;
   mkJsonNode "/attributes/attribute" ucas_attribute;
   mkJsonNode "/duration" ucas_duration;
   mkJsonNode "/restriction" ucas_restriction;
   mkJsonNode "/restriction/attributeExpression" ucas_attributeExpression;
   mkJsonNode "/restriction/scopes" jsonNullTreat;
   mkJsonNode "/restriction/scopes/scope" ucas_scope;
   mkJsonNode "/restriction/scopes/scope/type" ucas_scopeType;
   mkJsonNode "/restriction/scopes/scope/value" ucas_scopeValue;
   mkJsonNode "/subscriptionId" ucas_subscriptionId].

(** *** Subscriptions: jsonSubscribeContextRequest.cpp *)

Definition scr_entityId (value : string) (pd : Subscribing) : cpp (string * Subscribing) :=
  ok (new_entity pattern_entity pd).
Definition scr_entityIdId (value : string) (pd : Subscribing) : cpp (string * Subscribing) :=
  ok (on_entityP (set_eid_id value) pd).
Definition scr_entityIdType (value : string) (pd : Subscribing) : cpp (string * Subscribing) :=
  ok (on_entityP (set_eid_type value) pd).
Definition scr_entityIdIsPattern (value : string) (pd : Subscribing) : cpp (string * Subscribing) :=
  ok (on_entityP (set_eid_isPattern value) pd).
Definition scr_attribute (value : string) (pd : Subscribing) : cpp (string * Subscribing) :=
  ok (Ret (add_attribute_name value pd)).
Definition scr_reference (value : string) (pd : Subscribing) : cpp (string * Subscribing) :=
  ok (Ret (set_reference value pd)).
Definition scr_duration (value : string) (pd : Subscribing) : cpp (string * Subscribing) :=
  let pd := set_duration value pd in s ← Duration_check value; Ret (s, pd).
Definition scr_restriction (value : string) (pd : Subscribing) : cpp (string * Subscribing) :=
  ok (Ret (count_restriction pd)).
Definition scr_attributeExpression (value : string) (pd : Subscribing) : cpp (string * Subscribing) :=
  ok (Ret (set_expression value pd)).
Definition scr_scope (value : string) (pd : Subscribing) : cpp (string * Subscribing) :=
  ok (new_scope Scope_new pd).
Definition scr_scopeType (value : string) (pd : Subscribing) : cpp (string * Subscribing) :=
  ok (on_scope (set_sc_type value) pd).
Definition scr_scopeValue (value : string) (pd : Subscribing) : cpp (string * Subscribing) :=
  sc ← scope_at pd;
  let t := rw_type sc in
  ok (on_scope (set_sc_value (if (t =s FIWARE_LOCATION) || (t =s FIWARE_LOCATION_DEPRECATED) then FIWARE_LOCATION else value)) pd).
Definition scr_circle (value : string) (pd : Subscribing) : cpp (string * Subscribing) :=
  ok (on_scope (set_area_kind Circle) pd).
Definition scr_circleCenterLatitude (value : string) (pd : Subscribing) : cpp (string * Subscribing) :=
  ok (on_scope (on_areas (on_center (latitudeSet value))) pd).
Definition scr_circleCenterLongitude (value : string) (pd : Subscribing) : cpp (string * Subscribing) :=
  ok (on_scope (on_areas (on_center (longitudeSet value))) pd).
Definition scr_circleRadius (value : string) (pd : Subscribing) : cpp (string * Subscribing) :=
  ok (on_scope (on_areas (set_radius value)) pd).
Definition scr_circleInverted (value : string) (pd : Subscribing) : cpp (string * Subscribing) :=
  pd ← on_scope (on_areas (set_circle_inverted value)) pd; inverted_answer "circle" value pd.
Definition scr_polygon (value : string) (pd : Subscribing) : cpp (string * Subscribing) :=
  ok (on_scope (set_area_kind Polygon) pd).
Definition scr_polygonVertexList (value : string) (pd : Subscribing) : cpp (string * Subscribing) :=
  ok (Ret pd).
Definition scr_polygonVertex (value : string) (pd : Subscribing) : cpp (string * Subscribing) :=
  ok (new_vertex InPolygon origin pd).
Definition scr_polygonVertexLatitude (value : string) (pd : Subscribing) : cpp (string * Subscribing) :=
  ok (on_vertex (latitudeSet value) pd).
Definition scr_polygonVertexLongitude (value : string) (pd : Subscribing) : cpp (string * Subscribing) :=
  ok (on_vertex (longitudeSet value) pd).
Definition scr_polygonInverted (value : string) (pd : Subscribing) : cpp (string * Subscribing) :=
  pd ← on_scope (on_areas (set_polygon_inverted value)) pd; inverted_answer "polygon" value pd.
Definition scr_notifyCondition (value : string) (pd : Subscribing) : cpp (string * Subscribing) :=
  ok (Ret (new_condition pd)).
Definition scr_notifyConditionType (value : string) (pd : Subscribing) : cpp (string * Subscribing) :=
  ok (on_condition (fun nc => (mkNotifyCondition value (nc_condValueList nc.1), nc.2)) pd).
Definition scr_notifyConditionCondValue (value : string) (pd : Subscribing) : cpp (string * Subscribing) :=
  ok (on_condition (fun nc => (mkNotifyCondition (nc_type nc.1) (nc_condValueList nc.1 ++ [value]), nc.2)) pd).
Definition scr_notifyConditionRestriction (value : string) (pd : Subscribing) : cpp (string * Subscribing) :=
  ok (on_condition (fun nc => (nc.1, value)) pd).
Definition scr_throttling (value : string) (pd : Subscribing) : cpp (string * Subscribing) :=
  ok (Ret (set_throttling value pd)).

Definition jsonScrParseVector : list (JsonNode Subscribing) :=
  [mkJsonNode "/entities" jsonNullTreat;
   mkJsonNode "/entities/entity" scr_entityId;
   mkJsonNode "/entities/entity/id" scr_entityIdId;
   mkJsonNode "/entities/entity/type" scr_entityIdType;
   mkJsonNode "/entities/entity/isPattern" scr_entityIdIsPattern;
   mkJsonNode "/attributes" jsonNullTreat;
   mkJsonNode "/attributes/attribute" scr_attribute;
   mkJsonNode "/reference" scr_reference;
   mkJsonNode "/duration" scr_duration;
   mkJsonNode "/restriction" scr_restriction;
   mkJsonNode "/restriction/attributeExpression" scr_attributeExpression;
   mkJsonNode "/restriction/scopes" jsonNullTreat;
   mkJsonNode "/restriction/scopes/scope" scr_scope;
   mkJsonNode "/restriction/scopes/scope/type" scr_scopeType;
   mkJsonNode "/restriction/scopes/scope/value" scr_scopeValue;
   mkJsonNode "/restriction/scopes/scope/value/circle" scr_circle;
   mkJsonNode "/restriction/scopes/scope/value/circle/centerLatitude" scr_circleCenterLatitude;
   mkJsonNode "/restriction/scopes/scope/value/circle/centerLongitude" scr_circleCenterLongitude;
   mkJsonNode "/restriction/scopes/scope/value/circle/radius" scr_circleRadius;
   mkJsonNode "/restriction/scopes/scope/value/circle/inverted" scr_circleInverted;
   mkJsonNode "/restriction/scopes/scope/value/polygon" scr_polygon;
   mkJsonNode "/restriction/scopes/scope/value/polygon/vertices" scr_polygonVertexList;
   mkJsonNode "/restriction/scopes/scope/value/polygon/vertices/vertice" scr_polygonVertex;
   mkJsonNode "/restriction/scopes/scope/value/polygon/vertices/vertice/latitude" scr_polygonVertexLatitude;
   mkJsonNode "/restriction/scopes/scope/value/polygon/vertices/vertice/longitude" scr_polygonVertexLongitude;
   mkJsonNode "/restriction/scopes/scope/value/polygon/inverted" scr_polygonInverted;
   mkJsonNode "/notifyConditions" jsonNullTreat;
   mkJsonNode "/notifyConditions/notifyCondition" scr_notifyCondition;
   mkJsonNode "/notifyConditions/notifyCondition/type" scr_notifyConditionType;
   mkJsonNode "/notifyConditions/notifyCondition/condValues" jsonNullTreat;
   mkJsonNode "/notifyConditions/notifyCondition/condValues/condValue" scr_notifyConditionCondValue;
   mkJsonNode "/notifyConditions/notifyCondition/restriction" scr_notifyConditionRestriction;
   mkJsonNode "/throttling" scr_throttling].

(** *** Updates of subscriptions: jsonUpdateContextSubscriptionRequest.cpp *)

Definition ucsr_duration (value : string) (pd : Subscribing) : cpp (string * Subscribing) :=
  let pd := set_duration value pd in _ ← Duration_check value; Ret ("OK", pd).
Definition ucsr_restriction (value : string) (pd : Subscribing) : cpp (string * Subscribing) :=
  ok (Ret (count_restriction pd)).
Definition ucsr_attributeExpression (value : string) (pd : Subscribing) : cpp (string * Subscribing) :=
  ok (Ret (set_expression value pd)).
Definition ucsr_scope (value : string) (pd : Subscribing) : cpp (string * Subscribing) :=
  ok (new_scope Scope_new pd).
Definition ucsr_scopeType (value : string) (pd : Subscribing) : cpp (string * Subscribing) :=
  ok (on_scope (set_sc_type value) pd).
Definition ucsr_scopeValue (value : string) (pd : Subscribing) : cpp (string * Subscribing) :=
  sc ← scope_at pd;
  let t := rw_type sc in
  ok (on_scope (set_sc_value (if (t =s FIWARE_LOCATION) || (t =s FIWARE_LOCATION_DEPRECATED) then FIWARE_LOCATION else value)) pd).
Definition ucsr_circle (value : string) (pd : Subscribing) : cpp (string * Subscribing) :=
  ok (on_scope (set_area_kind Circle) pd).
Definition ucsr_circleCenterLatitude (value : string) (pd : Subscribing) : cpp (string * Subscribing) :=
  ok (on_scope (on_areas (on_center (latitudeSet value))) pd).
Definition ucsr_circleCenterLongitude (value : string) (pd : Subscribing) : cpp (string * Subscribing) :=
  ok (on_scope (on_areas (on_center (longitudeSet value))) pd).
Definition ucsr_circleRadius (value : string) (pd : Subscribing) : cpp (string * Subscribing) :=
  ok (on_scope (on_areas (set_radius value)) pd).
Definition ucsr_circleInverted (value : string) (pd : Subscribing) : cpp (string * Subscribing) :=
  pd ← on_scope (on_areas (set_circle_inverted value)) pd; inverted_answer "circle" value pd.
Definition ucsr_polygon (value : string) (pd : Subscribing) : cpp (string * Subscribing) :=
  ok (on_scope (set_area_kind Polygon) pd).
Definition ucsr_polygonInverted (value : string) (pd : Subscribing) : cpp (string * Subscribing) :=
  pd ← on_scope (on_areas (set_polygon_inverted value)) pd; inverted_answer "polygon" value pd.
Definition ucsr_polygonVertexList (value : string) (pd : Subscribing) : cpp (string * Subscribing) :=
  ok (Ret pd).
Definition ucsr_polygonVertex (value : string) (pd : Subscribing) : cpp (string * Subscribing) :=
  ok (new_vertex InPolygon origin pd).
Definition ucsr_polygonVertexLatitude (value : string) (pd : Subscribing) : cpp (string * Subscribing) :=
  ok (on_vertex (latitudeSet value) pd).
Definition ucsr_polygonVertexLongitude (value : string) (pd : Subscribing) : cpp (string * Subscribing) :=
  ok (on_vertex (longitudeSet value) pd).
Definition ucsr_subscriptionId (value : string) (pd : Subscribing) : cpp (string * Subscribing) :=
  ok (Ret (set_subscriptionId value pd)).
Definition ucsr_notifyCondition (value : string) (pd : Subscribing) : cpp (string * Subscribing) :=
  ok (Ret (new_condition pd)).
Definition ucsr_notifyConditionType (value : string) (pd : Subscribing) : cpp (string * Subscribing) :=
  ok (on_condition (fun nc => (mkNotifyCondition value (nc_condValueList nc.1), nc.2)) pd).
Definition ucsr_notifyConditionCondValue (value : string) (pd : Subscribing) : cpp (string * Subscribing) :=
  ok (on_condition (fun nc => (mkNotifyCondition (nc_type nc.1) (nc_condValueList nc.1 ++ [value]), nc.2)) pd).
Definition ucsr_notifyConditionRestriction (value : string) (pd : Subscribing) : cpp (string * Subscribing) :=
  ok (on_condition (fun nc => (nc.1, value)) pd).
Definition ucsr_throttling (value : string) (pd : Subscribing) : cpp (string * Subscribing) :=
  ok (Ret (set_throttling value pd)).

Definition jsonUcsrParseVector : list (JsonNode Subscribing) :=
  [mkJsonNode "/duration" ucsr_duration;
   mkJsonNode "/restriction" ucsr_restriction;
   mkJsonNode "/restriction/attributeExpression" ucsr_attributeExpression;
   mkJsonNode "/restriction/scopes" jsonNullTreat;
   mkJsonNode "/restriction/scopes/scope" ucsr_scope;
   mkJsonNode "/restriction/scopes/scope/type" ucsr_scopeType;
   mkJsonNode "/restriction/scopes/scope/value" ucsr_scopeValue;
   mkJsonNode "/restriction/scopes/scope/value/circle" ucsr_circle;
   mkJsonNode "/restriction/scopes/scope/value/circle/centerLatitude" ucsr_circleCenterLatitude;
   mkJsonNode "/restriction/scopes/scope/value/circle/centerLongitude" ucsr_circleCenterLongitude;
   mkJsonNode "/restriction/scopes/scope/value/circle/radius" ucsr_circleRadius;
   mkJsonNode "/restriction/scopes/scope/value/circle/inverted" ucsr_circleInverted;
   mkJsonNode "/restriction/scopes/scope/value/polygon" ucsr_polygon;
   mkJsonNode "/restriction/scopes/scope/value/polygon/inverted" ucsr_polygonInverted;
   mkJsonNode "/restriction/scopes/scope/value/polygon/vertices" ucsr_polygonVertexList;
   mkJsonNode "/restriction/scopes/scope/value/polygon/vertices/vertice" ucsr_polygonVertex;
   mkJsonNode "/restriction/scopes/scope/value/polygon/vertices/vertice/latitude" ucsr_polygonVertexLatitude;
   mkJsonNode "/restriction/scopes/scope/value/polygon/vertices/vertice/longitude" ucsr_polygonVertexLongitude;
   mkJsonNode "/restriction/scopes/scope/value/polygon/inverted" ucsr_polygonInverted;
   mkJsonNode "/subscriptionId" ucsr_subscriptionId;
   mkJsonNode "/notifyConditions" jsonNullTreat;
   mkJsonNode "/notifyConditions/notifyCondition" ucsr_notifyCondition;
   mkJsonNode "/notifyConditions/notifyCondition/type" ucsr_notifyConditionType;
   mkJsonNode "/notifyConditions/notifyCondition/condValues" jsonNullTreat;
   mkJsonNode "/notifyConditions/notifyCondition/condValues/condValue" ucsr_notifyConditionCondValue;
   mkJsonNode "/notifyConditions/notifyCondition/restriction" ucsr_notifyConditionRestriction;
   mkJsonNode "/throttling" ucsr_throttling].

(** *** Unsubscriptions: jsonUnsubscribeContextRequest.cpp *)

Definition uncr_subscriptionId (value : string) (pd : string) : cpp (string * string) :=
  ok (Ret value).

Definition jsonUncrParseVector : list (JsonNode string) :=
  [mkJsonNode "/subscriptionId" uncr_subscriptionId].

(** *** Unsubscriptions of availability: jsonUnsubscribeContextAvailabilityRequest.cpp *)

Definition ucar_subscriptionId (value : string) (pd : string) : cpp (string * string) :=
  ok (Ret value).

Definition jsonUcarParseVector : list (JsonNode string) :=
  [mkJsonNode "/subscriptionId" ucar_subscriptionId].


End tables.

(** ** Initial data: the Init functions *)

Definition no_request {X} (x : X) : Restricted X := mkRestricted [] [] 0 "" [] "" x None None None 0 0.
Definition no_subscription : SubscriptionData := mkSubscriptionData "" "" "" "" [] None.
Definition jsonQcrInit : Query := no_request tt.
Definition jsonDcarInit : Query := no_request tt.
Definition jsonScarInit : Subscribing := no_request no_subscription.
Definition jsonUcasInit : Subscribing := no_request no_subscription.
Definition jsonScrInit : Subscribing := no_request no_subscription.
Definition jsonUcsrInit : Subscribing := no_request no_subscription.

(** ** Values that no attribute has *)

(** A request crashes the broker when a member of its payload, before any value of an attribute, has
    a key that starts with value and an object that is not empty: the path of the member is taken for
    that of a structured value, which is put through the null pointer lastContextAttribute. *)
Definition crashes {S} `{BoostJson} (setCompound : string -> CompoundValueNode -> S -> cpp S) (parseVector : list (JsonNode S)) (init : S) : Prop :=
  forall word errors keyword w check content k kv l rest ci,
  (c_str word =s "updateContextAttributeRequest") = false -> value_key k ->
  JsonText.read_json content = Some (JObj ((k, JObj (kv :: l)) :: rest)) -> str_contains "\/" content = false ->
  jsonTreat setCompound word parseVector errors keyword w init check content ci = UB "null pointer".

Lemma crashes_intro {S} `{BoostJson} (setCompound : string -> CompoundValueNode -> S -> cpp S) parseVector init :
  parseVector <> [] -> no_value_entry parseVector = true ->
  (forall word n, (c_str word =s "updateContextAttributeRequest") = false -> setCompound word n init = UB "null pointer") ->
  crashes setCompound parseVector init.
Proof. intros Hne Hv Hset word errors keyword w check content k kv l rest ci Hw. apply payload_unowned; [done|done|]. intros n. by apply Hset. Qed.

(** C20. A small payload brings the broker down, whatever the request of version 1 with a body that names
    entities: updates, queries, discovery and subscriptions, the notifications and the answers of
    other brokers. *)
Theorem value_key_crashes `{BoostJson} memNumber memBool regcomp parse8601Time mem memItem :
  crashes (last_compound over_element) (jsonUpcrParseVector memNumber memBool) jsonUpcrInit /\
  crashes (last_compound over_element) (jsonUcerParseVector memNumber memBool) jsonUcerInit /\
  crashes (last_compound over_element) (jsonAcerParseVector memNumber memBool) jsonAcerInit /\
  crashes (last_compound over_response) (jsonNcrParseVector memNumber memBool) jsonNcrInit /\
  crashes (last_compound over_response) (jsonUpcrsParseVector memNumber memBool) jsonUpcrsInit /\
  crashes (last_compound over_response) (jsonQcrsParseVector memNumber memBool) jsonQcrsInit /\
  crashes no_compound (jsonQcrParseVector regcomp parse8601Time mem memItem) jsonQcrInit /\
  crashes no_compound jsonDcarParseVector jsonDcarInit /\
  crashes no_compound jsonScarParseVector jsonScarInit /\
  crashes no_compound jsonUcasParseVector jsonUcasInit /\
  crashes no_compound jsonScrParseVector jsonScrInit /\
  crashes no_compound jsonUcsrParseVector jsonUcsrInit /\
  crashes no_compound jsonUncrParseVector "" /\ crashes no_compound jsonUcarParseVector "".
Proof.
  repeat split; (apply crashes_intro; [discriminate|reflexivity|]); intros word n Hw; unfold last_compound, no_compound; by rewrite Hw.
Qed.

Definition small_payload : string := "{" +:+ quote "values" +:+ ": {" +:+ quote "a" +:+ ": " +:+ quote "b" +:+ "}}".

Lemma value_key_crashes_witness :
  jsonTreat (H := reference_boost) no_compound "discoverContextAvailabilityRequest" jsonDcarParseVector no_error_reply
    "discoverContextAvailabilityRequest" "discoverContextAvailabilityRequest" jsonDcarInit (fun _ => Ret "OK") small_payload no_parse
  = UB "null pointer".
Proof.
  destruct (@value_key_crashes reference_boost S754_nan false (fun _ => true) (fun _ => 0) (mkValueOut SfvtNull S754_nan "" false)
    (FilterParse.mkItem "" SfopExists SfvtNull S754_nan "" false [] [] S754_nan S754_nan "" "" "" false)) as (_ & _ & _ & _ & _ & _ & _ & H & _).
  apply (H "discoverContextAvailabilityRequest" no_error_reply "discoverContextAvailabilityRequest" "discoverContextAvailabilityRequest"
    (fun _ => Ret "OK") small_payload "values" ("a", JStr "b") [] []); [reflexivity|split; reflexivity|vm_compute; reflexivity|reflexivity].
Defined.
